(* ===== verification/_CoqProject ===== *)
-Q . S2P
Prelude.v
CString.v
Request.v
RequestFacts.v
Table.v
TableFacts.v
Compile.v
CompileFacts.v
Accel.v
CompileSpec.v
HwDriver.v
HwFacts.v
HwSpec.v
Response.v
ResponseFacts.v
Server.v
ServerFacts.v
ServerSpec.v
SpiSd.v
SpiFacts.v
Fat.v
FatFacts.v
FatSpec.v
FatFile.v
FatBoard.v
NetQueue.v
PktPool.v
PktFacts.v
PrioSet.v
KernelData.v
Kernel.v
KernelSem.v
KernelSpec.v
KernelInv.v
KernelLife.v
KernelRefine.v
KernelOps.v
KernelSemOps.v
KernelTickOps.v
KernelWakeOps.v
KernelTaskOps.v
KernelSafe.v
KernelBoot.v
KernelTokens.v
KernelProps.v
KernelFrame.v
ServerKernel.v
NetDev.v
Dm9000a.v
Dm9000aFacts.v
DmRx.v
NetPath.v
NetProps.v
NetRace.v
NetDemux.v
NetStart.v
PktChain.v
Arp.v
ArpWire.v
ArpFacts.v
ArpTable.v
ArpOps.v
ArpRx.v
ArpTx.v
ArpRun.v
ArpNic.v
ArpDemux.v
ArpProps.v
