(* ===== verification/Prelude.v ===== *)
(** * A database server on an FPGA: verification of the firmware

    The repository is a query server on a DE2 board: a Nios II processor runs the C code of
    src/ProjetoFinal/DE2_NET/software/nios under uC/OS-II and the NicheStack TCP/IP stack
    (nios_bsp).  A client posts a table name, a query and a limit over HTTP; the firmware
    reads the table from an SD card, translates the query to instructions of a pipeline in
    the FPGA, feeds the rows to it, and sends back what the pipeline selects.

    ** Parts, files and sources

    This file holds what all parts share: machine integers as [Z] with the wrap-around of
    their width, the option monad [let?] in which [None] is undefined behaviour of C, loops
    bounded by large constants ([iterP]), tactics and hints.

    - CString: the functions of the C library on strings (strlen, strncpy, snprintf, strtol ...).
      A [char *] is the list of bytes from its address to the end of its object.
    - The server, network_tasks.c.  Request: [parse_request_body] and its helpers.  Table:
      [load_table_from_sd], the row stream, and the writer of table_format.py.  Compile:
      [compile_and_send_instructions] up to the register writes.  HwDriver: register
      accesses, instruction upload, feed and drain.  Response: [build_success_body] and the
      HTTP framing.  Server: [process_request], and rx_task and tx_task as the step relation
      [server_step], a connection being one turn of rx_task and tx_task's turn being cut
      between the building of the answer and its sending; the semaphore is a number there.
      ServerKernel: [init_network_tasks] and the end of [init_task] (main.c), and the two
      tasks on the kernel below ([sys_step]), which decides who runs.
    - Accel: the contract of the accelerator (user_hw.v, vhdl/pipeline.vhd) towards the
      firmware; one bus access per step, once the pipeline has settled.
    - The SD card, sd_driver.c.  SpiSd: bit-banged SPI, card commands, [sd_init],
      [sd_read_sector].  Fat: boot sector, cluster chains, directories, [sd_read_file].
    - The kernel, nios_bsp/UCOSII.  PrioSet: the ready and wait bitmaps.  KernelData: control
      blocks and globals as records, the state monad [M].  Kernel: os_core.c and os_task.c.
      KernelSem: os_sem.c and os_time.c.  KernelBoot: OSInit and the kernel calls of main.c.
    - The network, nios/dm9000a.c and nios_bsp/iniche.  NetQueue: q.h and q.c, lists linked
      through their elements.  PktPool: pktalloc.c, the packets with their guard bytes.
      NetDev: interfaces (net.h), the state of driver and stack, [pktdemux] (ipnet.c) and
      [isbcast] (iface.c).  Dm9000a: the Ethernet driver, and mac_ip_utils.c.  Arp: address
      resolution (et_arp.c) and the interval timers (timeouts.c); its variables stand beside
      the device in the record [Inet], and the packets that wait in an entry of the table are
      linked through their [next], as in the code.

    Definitions have the names of the C functions; a loop or a block of one that has a
    definition of its own is named after it.

    ** Interfaces

    A component is modelled against a class that states what it needs of another, and an
    instance or a theorem shows that the other provides it:
    [Bus] (HwDriver) is memory-mapped input and output, with [UserHw] (the accelerator on
    it), [Delays] (Dm9000a) and [Chip] (Dm9000aFacts, the Ethernet chip on it);
    [FileReader] (Table) is what the table loader needs of [sd_read_file], and FatFile shows
    that the FAT reader meets its contract [FileReaderOk] on cards whose chains end;
    [Sectors] (Fat) is what the FAT
    reader needs of the SPI driver, with the instance [spi_sectors]; [Net] (Response) is
    the sockets; [Protocols] (NetDemux) is what pktdemux needs of IP, ARP and the task
    switch; [Mac] (ArpFacts) is what ARP needs of a driver, and ArpNic shows that
    dm9ka_pkt_send provides it ([nic_mac]).  The instances [Accel], [Nic], [Lab] and the simulated boards of ServerSpec,
    SpiFacts and FatFile are devices on which the theorems are run.

    ** What the theorems show

    - Queries.  RequestFacts: the parser implements its specification on lines and fields,
      and inverts the clients' encoding.  TableFacts: the loader accepts exactly well-formed
      files, stays in its buffer on any other that the card reader returns, and inverts the
      writer.  CompileFacts and
      CompileSpec: the translation is total and memory safe, and the filters accept exactly
      the rows that satisfy the conditions.  HwFacts and HwSpec: translation, accelerator
      and feed compute the query; with a limit and many more rows they do not.
      ResponseFacts: the text of the response.  ServerFacts: one answer per request and
      no undefined behaviour while the card reader keeps its contract, the invariant of the two tasks, and the race on the response
      buffer.  ServerSpec: from the request and the table to the bytes on the socket.
    - Card.  SpiFacts: a transfer exchanges a byte with an SPI slave, a sector read is the
      exchange of CMD17, absent cards are reported.  FatFacts, FatSpec, FatFile:
      [sd_read_file] returns the contents of the file that a pure search finds, terminates
      on every card whose chains end, and hangs on a directory chain with a cycle.
      FatBoard: loader and server with [sd_read_file] as their reader, on such cards.
    - Kernel.  KernelSpec is the contract (ready set, one record per task, count and waiters
      per semaphore), KernelInv and KernelLife its invariant; KernelRefine, KernelOps,
      KernelSemOps, KernelTickOps, KernelWakeOps and KernelTaskOps show that each call
      implements it, KernelSafe any legal sequence of calls.  KernelTokens and KernelProps:
      the tokens of a semaphore balance, delays end at their tick, the highest ready task runs.
      KernelFrame: a call that is not about a semaphore leaves it alone.
    - Server and kernel.  ServerKernel: every run of the two tasks on the kernel, amid
      interrupts and the calls of other tasks, is a run of Server, so that what ServerFacts
      says holds there; a request that was accepted gives tx_task its token.
    - Network.  PktFacts: the packets are always in exactly one place, and what is refused.
      NetStart: the initialisation establishes the state [drv_ok] of the driver.  DmRx,
      NetPath, NetProps: reception and transmission, an interrupt that is lost, a wait
      without a bound.  NetRace: transmission under any interrupts.  NetDemux: from the
      wire to the protocols.
    - Address resolution.  PktChain: the pool while users link packets.  ArpWire: messages
      byte for byte.  ArpFacts: the invariant [arp_ok] of table, waiting packets and driver;
      ArpTable, ArpOps, ArpRx and ArpTx: each routine, on each branch.  ArpRun: sequences of
      operations, and an unknown address from the first packet to the answer.  ArpDemux and
      ArpProps: a request is answered, from the wire to the wire; packets that wait leave in
      order; the timer releases what waits too long; nothing fails and no packet is lost.

    ** Bounds and fuel

    Loops with a bound in the code run on that bound ([iterP], or structural recursion on
    what is left of a string).  [line_loop], [where_loop] and [select_loop] have fuel for
    each byte of their text, of which every turn consumes one: their theorems show that it
    does not run out.  Chains of clusters are followed up to [CHAIN_MAX], more than there are
    cluster numbers, so that a chain that ends does so earlier; queues up to the number of
    elements; the list of tasks up to the number of control blocks.  In the network part
    fuel is an argument: [More] means that it was used up.  The theorems give the fuel that
    is enough (one more than the frames that can arrive, the packets that can be queued,
    the polls the chip needs), and [send_waits_for_chip] that less is not.  The walks along
    the packets of an ARP entry have the number of packets as fuel.

    ** Assumptions

    - Memory-mapped devices change only through accesses and delays.  [Chip] describes the
      DM9000A as its data sheet does: an index and a data port, received frames as a stream
      of words behind a status word, a status register that is cleared by writing ones, a
      transmission that ends after some number of polls.  Frames arrive during delays.
    - Critical sections and calls of the kernel are atomic.  OSSemPend is two definitions,
      before and after the task waits.  In KernelSafe the callers follow the rules of the
      kernel ([legal]): the idle task does not block, OSTimeTick runs in an interrupt, a
      task does not delete itself with the scheduler locked.  In ServerKernel no other task
      uses query_ready_sem or deletes the two tasks, and a turn of a task starts outside
      the calls of the stack, with the scheduler unlocked.
    - The locks of the stack around queues and buffers (LOCK_NET_RESOURCE) are taken as
      exclusion.  The interrupt routine runs between two accesses of a task, not inside
      another one of the driver's critical sections.
    - rx_task (priority 10) can preempt tx_task (11) at any instruction; [server_step] lets
      it run before the turn of tx_task, between building and sending the answer, and after
      the socket is closed.  What it touches while a request is answered is the response
      buffer (its refusal) and its own socket.  A refusal between the two [send] calls of an
      answer, or while the answer is being built, is not a step of its own.
    - malloc is an oracle ([alloc_ok]); stacks, names, hooks and printed text are left out.

    ** Not modelled

    The other protocols of the NicheStack (IP, TCP, UDP, DHCP, sockets), the HAL and the device
    drivers of the BSP are libraries that the firmware calls.  Mailboxes, message queues,
    mutexes, memory partitions and event flags of uC/OS-II are not used.  Of et_arp.c,
    grat_arp and the statistics; of timeouts.c, inet_timer.  Of the kernel,
    OSEventPendMulti, OSTaskChangePrio, the statistics task, names and stack checks; of
    pktalloc.c, heap buffers and packet chains, which are not compiled in; the clock cycles
    of the VHDL; the graphical client and the test scripts, which only do input and output.
    Of main.c, what [init_task] does before the network is ready: calls of the stack and
    a wait for one of its variables. *)

From Stdlib Require Export ZArith Lia Ascii.
From Stdlib Require Import String List.
From stdpp Require Export base tactics numbers option list strings.

Open Scope Z_scope.

(** ** Machine integers

    An unsigned integer of width [w] is a [Z]; every C operation that may leave
    the range is followed by the wrap-around of its type. *)

Definition u8 (z : Z) : Z := z mod 2 ^ 8.
Definition u16 (z : Z) : Z := z mod 2 ^ 16.
Definition u32 (z : Z) : Z := z mod 2 ^ 32.
Definition s8 (z : Z) : Z := (z + 2 ^ 7) mod 2 ^ 8 - 2 ^ 7.
Definition s32 (z : Z) : Z := (z + 2 ^ 31) mod 2 ^ 32 - 2 ^ 31.

Definition is_u8 (z : Z) : Prop := 0 <= z < 2 ^ 8.
Definition is_u16 (z : Z) : Prop := 0 <= z < 2 ^ 16.
Definition is_u32 (z : Z) : Prop := 0 <= z < 2 ^ 32.

(** Buffers are lists of byte values. *)
Definition bytes (l : list Z) : Prop := Forall is_u8 l.

#[export] Instance is_u8_dec z : Decision (is_u8 z).
Proof. unfold is_u8. apply _. Defined.
#[export] Instance is_u16_dec z : Decision (is_u16 z).
Proof. unfold is_u16. apply _. Defined.
#[export] Instance is_u32_dec z : Decision (is_u32 z).
Proof. unfold is_u32. apply _. Defined.
#[export] Instance bytes_dec l : Decision (bytes l).
Proof. unfold bytes. apply _. Defined.

Lemma u8_range z : is_u8 (u8 z).
Proof. unfold is_u8, u8. apply Z.mod_pos_bound. lia. Qed.
Lemma u16_range z : is_u16 (u16 z).
Proof. unfold is_u16, u16. apply Z.mod_pos_bound. lia. Qed.
Lemma u32_range z : is_u32 (u32 z).
Proof. unfold is_u32, u32. apply Z.mod_pos_bound. lia. Qed.
Lemma u8_small z : is_u8 z -> u8 z = z.
Proof. unfold is_u8, u8. intros. apply Z.mod_small. lia. Qed.
Lemma u16_small z : is_u16 z -> u16 z = z.
Proof. unfold is_u16, u16. intros. apply Z.mod_small. lia. Qed.
Lemma u32_small z : is_u32 z -> u32 z = z.
Proof. unfold is_u32, u32. intros. apply Z.mod_small. lia. Qed.
Lemma s32_small z : - 2 ^ 31 <= z < 2 ^ 31 -> s32 z = z.
Proof. unfold s32. intros. rewrite Z.mod_small; lia. Qed.

Create HintDb words.
Create Rewrite HintDb words.
#[export] Hint Resolve u8_range u16_range u32_range : words.
#[export] Hint Rewrite u8_small u16_small u32_small s32_small
  using (unfold is_u8, is_u16, is_u32 in *; lia) : words.

(** [unfold] the widths and call [lia]. *)
Ltac word_lia := unfold is_u8, is_u16, is_u32 in *; lia.

(** ** Characters and literals *)

Definition ch (a : ascii) : Z := Z.of_N (N_of_ascii a).
Arguments ch a%_char_scope.

(** The bytes of a C string literal, without its terminating NUL. *)
Definition lit (s : string) : list Z := ch <$> String.list_ascii_of_string s.
Arguments lit s%_string_scope.

Lemma ch_range a : is_u8 (ch a).
Proof. destruct a as [[] [] [] [] [] [] [] []]; vm_compute; split; congruence. Qed.

Lemma lit_bytes s : bytes (lit s).
Proof. unfold bytes, lit. rewrite Forall_fmap. apply Forall_true. apply ch_range. Qed.
#[export] Hint Resolve ch_range lit_bytes : words.

(** Close a decidable goal about closed terms by evaluating its decision. *)
Ltac decide_closed := apply (bool_decide_unpack _); vm_compute; exact I.

(** ** Undefined behaviour

    A C fragment that dereferences a pointer returns an [option]: [None] is an
    access outside the object the pointer points into. *)

Abbreviation UB := None (only parsing).

(** [let? x := m in k]: run [m]; undefined behaviour in [m] is undefined
    behaviour of the whole. *)
Notation "'let?' p ':=' m 'in' k" :=
  (match m with Some p => k | None => None end)
  (at level 10, p pattern, m at level 200, k at level 200,
   format "'[v' 'let?'  p  ':='  m  'in' '/' k ']'").

(** ** Bounded loops

    [iterP p step s] runs [step] at most [Pos.to_nat p] times, stopping at the
    first [inr].  It is structural on the binary representation of the bound, so
    that loops bounded by large C constants stay executable. *)

Section Loops.
  Context {S R : Type}.
  Variable step : S -> S + R.

Fixpoint iterN (n : nat) (s : S) : S + R :=
  match n with
  | O => inl s
  | Datatypes.S n => match step s with inl s' => iterN n s' | inr r => inr r end
  end.

Fixpoint iterP (p : positive) (s : S) : S + R :=
  match p with
  | xH => step s
  | xO p => match iterP p s with inl s' => iterP p s' | inr r => inr r end
  | xI p =>
      match step s with
      | inl s' => match iterP p s' with inl s'' => iterP p s'' | inr r => inr r end
      | inr r => inr r
      end
  end.

Lemma iterN_add n m s :
  iterN (n + m) s = match iterN n s with inl s' => iterN m s' | inr r => inr r end.
Proof.
  revert s. induction n as [|n IH]; intros s; simpl; [done|].
  destruct (step s); [apply IH | done].
Qed.

Lemma iterP_iterN p s : iterP p s = iterN (Pos.to_nat p) s.
Proof.
  revert s. induction p as [p IH|p IH|]; intros s; cbn [iterP].
  - rewrite Pos2Nat.inj_xI. cbn [iterN]. destruct (step s) as [s'|r]; [|done].
    replace (2 * Pos.to_nat p)%nat with (Pos.to_nat p + Pos.to_nat p)%nat by lia.
    rewrite iterN_add, IH. destruct (iterN _ s'); [apply IH | done].
  - rewrite Pos2Nat.inj_xO.
    replace (2 * Pos.to_nat p)%nat with (Pos.to_nat p + Pos.to_nat p)%nat by lia.
    rewrite iterN_add, IH. destruct (iterN _ s); [apply IH | done].
  - change (Pos.to_nat 1) with 1%nat. cbn. by destruct (step s).
Qed.

(** A loop that reaches a final state in fewer turns than its bound. *)
Lemma iterN_finish n m s s' r :
  iterN n s = inl s' -> step s' = inr r -> (n < m)%nat -> iterN m s = inr r.
Proof.
  intros Hn Hs Hlt. replace m with (n + (1 + (m - n - 1)))%nat by lia.
  rewrite iterN_add, Hn. cbn. by rewrite Hs.
Qed.

(** What every turn preserves holds when the loop ends. *)
Lemma iterP_inv (I : S -> Prop) (J : R -> Prop) p s :
  (forall s, I s -> match step s with inl s' => I s' | inr r => J r end) ->
  I s -> match iterP p s with inl s' => I s' | inr r => J r end.
Proof.
  intros Hstep. rewrite iterP_iterN. revert s. induction (Pos.to_nat p) as [|n IH]; intros s Hs; [done|].
  cbn [iterN]. specialize (Hstep s Hs). destruct (step s); [by apply IH|done].
Qed.

End Loops.

(** ** Lists *)

Lemma lookup_tail {A} (l : list A) i : tail l !! i = l !! S i.
Proof. destruct l; [by rewrite lookup_nil | done]. Qed.

Lemma bytes_app l1 l2 : bytes (l1 ++ l2) <-> bytes l1 /\ bytes l2.
Proof. apply Forall_app. Qed.
Lemma bytes_take n l : bytes l -> bytes (take n l).
Proof. apply Forall_take. Qed.
Lemma bytes_drop n l : bytes l -> bytes (drop n l).
Proof. apply Forall_drop. Qed.
#[export] Hint Resolve bytes_take bytes_drop : words.

(** ** Bit fields *)

(** Or-ing a value into the bits above a field that fits adds it. *)
Lemma lor_shiftl_add a b n :
  0 <= n -> 0 <= a < 2 ^ n -> Z.lor a (Z.shiftl b n) = a + b * 2 ^ n.
Proof.
  intros Hn Ha. rewrite <- Z.shiftl_mul_pow2 by done. symmetry. apply Z.add_nocarry_lor.
  apply Z.bits_inj'. intros i Hi. rewrite Z.land_spec, Z.bits_0.
  destruct (Z.lt_ge_cases i n).
  - rewrite Z.shiftl_spec_low by done. by rewrite andb_false_r.
  - rewrite <- (Z.mod_small a (2 ^ n)) by done. by rewrite Z.mod_pow2_bits_high by lia.
Qed.

Lemma land_ones_mod a n : 0 <= n -> Z.land a (Z.ones n) = a mod 2 ^ n.
Proof. apply Z.land_ones. Qed.

(** [take n l] and what follows it. *)
Lemma lookup_split {A} (l : list A) n : (n < length l)%nat ->
  exists x, l !! n = Some x /\ l = take n l ++ x :: drop (S n) l.
Proof.
  intros H. destruct (lookup_lt_is_Some_2 l n H) as [x Hx].
  exists x. split; [done|]. symmetry. by apply take_drop_middle.
Qed.

Lemma nth_elem {A} (l : list A) i d : (i < length l)%nat -> nth i l d ∈ l.
Proof. intros H. by apply list_elem_of_In, nth_In. Qed.

Lemma Forall_nth_lt {A} (P : A -> Prop) (l : list A) i d :
  Forall P l -> (i < length l)%nat -> P (nth i l d).
Proof. intros H Hi. rewrite Forall_forall in H. by apply H, nth_elem. Qed.
