(* ===== verification/CString.v ===== *)
(** * CString

    The part of the C library the firmware uses on strings and buffers.  A
    [char *] is modelled by the list of the bytes from the address it holds to
    the end of the object it points into; reading past that end is [UB]. *)

From S2P Require Import Prelude.

(** ** <ctype.h> (the "C" locale) *)

Definition isspace (c : Z) : bool := (c =? 32) || ((9 <=? c) && (c <=? 13)).
Definition isdigit (c : Z) : bool := (ch "0" <=? c) && (c <=? ch "9").
Definition isupper (c : Z) : bool := (ch "A" <=? c) && (c <=? ch "Z").
Definition islower (c : Z) : bool := (ch "a" <=? c) && (c <=? ch "z").
Definition isalpha (c : Z) : bool := isupper c || islower c.
Definition isalnum (c : Z) : bool := isalpha c || isdigit c.
Definition tolower (c : Z) : Z := if isupper c then c + 32 else c.
Definition toupper (c : Z) : Z := if islower c then c - 32 else c.

(** ** <string.h> *)

(** The bytes before the terminating NUL; [UB] when the object holds none. *)
Fixpoint cstr (p : list Z) : option (list Z) :=
  match p with
  | [] => UB
  | c :: p => if c =? 0 then Some [] else cons c <$> cstr p
  end.

Definition strlen (p : list Z) : option nat := length <$> cstr p.

Fixpoint strncmp (p q : list Z) (n : nat) : option Z :=
  match n with
  | O => Some 0
  | S n =>
      let? c := head p in let? d := head q in
      if negb (c =? d) then Some (c - d)
      else if c =? 0 then Some 0 else strncmp (tail p) (tail q) n
  end.

Fixpoint memcmp (p q : list Z) (n : nat) : option Z :=
  match n with
  | O => Some 0
  | S n =>
      let? c := head p in let? d := head q in
      if negb (c =? d) then Some (c - d) else memcmp (tail p) (tail q) n
  end.

(** The offset of the first [c], or [None] for a null result. *)
Fixpoint strchr (p : list Z) (c : Z) : option (option nat) :=
  match p with
  | [] => UB
  | d :: p =>
      if d =? c then Some (Some O)
      else if d =? 0 then Some None
      else option_map S <$> strchr p c
  end.

Fixpoint prefixb (n s : list Z) : bool :=
  match n, s with
  | [], _ => true
  | c :: n, d :: s => (c =? d) && prefixb n s
  | _ :: _, [] => false
  end.

(** [strstr] on the contents of the two strings. *)
Fixpoint strstr (s n : list Z) : option nat :=
  if prefixb n s then Some O
  else match s with [] => None | _ :: s => S <$> strstr s n end.

(** [memcpy] of [xs] to offset [off] of the object [dst]. *)
Definition memcpy_at (dst : list Z) (off : nat) (xs : list Z) : option (list Z) :=
  if (off + length xs <=? length dst)%nat
  then Some (take off dst ++ xs ++ drop (off + length xs) dst)
  else UB.

(** ** <stdlib.h> *)

Fixpoint scan_digits (acc : Z) (s : list Z) : Z :=
  match s with
  | c :: s => if isdigit c then scan_digits (acc * 10 + (c - 48)) s else acc
  | [] => acc
  end.

Fixpoint skip_space (s : list Z) : list Z :=
  match s with
  | c :: s' => if isspace c then skip_space s' else s
  | [] => []
  end.

(** The optional sign: whether it is a minus, and the rest. *)
Definition scan_sign (s : list Z) : bool * list Z :=
  match s with
  | c :: s' =>
      if c =? ch "-" then (true, s') else if c =? ch "+" then (false, s') else (false, s)
  | [] => (false, [])
  end.

Definition ULONG_MAX : Z := 2 ^ 32 - 1.

(** [strtoul(s, NULL, 10)] with the 32-bit [unsigned long] of the Nios II: a
    minus sign negates in the unsigned type, overflow gives [ULONG_MAX]. *)
Definition strtoul (s : list Z) : Z :=
  let '(neg, d) := scan_sign (skip_space s) in
  let v := scan_digits 0 d in
  if ULONG_MAX <? v then ULONG_MAX else if neg then u32 (- v) else v.

(** [atoi]; newlib's [(int)strtol(s, NULL, 10)], which clamps. *)
Definition atoi (s : list Z) : Z :=
  let '(neg, d) := scan_sign (skip_space s) in
  let v := if neg then - scan_digits 0 d else scan_digits 0 d in
  Z.max (- 2 ^ 31) (Z.min (2 ^ 31 - 1) v).

(** ** <stdio.h>: the conversions the firmware uses *)

Fixpoint digits (fuel : nat) (n : Z) : list Z :=
  match fuel with
  | O => []
  | S fuel => if n <? 10 then [48 + n] else digits fuel (n / 10) ++ [48 + n mod 10]
  end.

(** ["%lu"] of an unsigned value below [2^64]. *)
Definition fmt_lu (n : Z) : list Z := digits 20 n.

(** ["%d"]. *)
Definition fmt_d (n : Z) : list Z := if n <? 0 then ch "-" :: fmt_lu (- n) else fmt_lu n.

(** [vsnprintf(dst + off, size, ...)] of the formatted bytes [text]: the new
    object and the result, the length the whole text would have. *)
Definition vsnprintf_at (dst : list Z) (off size : nat) (text : list Z)
  : option (list Z * nat) :=
  if (size =? 0)%nat then Some (dst, length text)
  else let? dst' := memcpy_at dst off (take (size - 1) text ++ [0]) in
       Some (dst', length text).

(** ** Lemmas *)

Definition nonul (s : list Z) : Prop := Forall (fun c => c <> 0) s.

#[export] Instance nonul_dec s : Decision (nonul s).
Proof. unfold nonul. apply _. Defined.

Lemma cstr_app s r : nonul s -> cstr (s ++ 0 :: r) = Some s.
Proof.
  induction 1 as [|c s Hc Hs IH]; [done|]. cbn.
  destruct (Z.eqb_spec c 0); [done|]. by rewrite IH.
Qed.

Lemma cstr_inv p s : cstr p = Some s -> exists r, p = s ++ 0 :: r /\ nonul s.
Proof.
  revert s. induction p as [|c p IH]; intros s; cbn; [done|].
  destruct (Z.eqb_spec c 0) as [->|Hc].
  - intros [= <-]. exists p. split; [done|constructor].
  - destruct (cstr p) as [t|]; [|done]. intros [= <-].
    destruct (IH t eq_refl) as (r & -> & Ht). exists r. split; [done|by constructor].
Qed.

Lemma nonul_app s t : nonul (s ++ t) <-> nonul s /\ nonul t.
Proof. apply Forall_app. Qed.
Lemma nonul_app_r s t : nonul (s ++ t) -> nonul t.
Proof. rewrite nonul_app. by intros [_ H]. Qed.
Lemma nonul_cons c s : nonul (c :: s) <-> c <> 0 /\ nonul s.
Proof. unfold nonul. by rewrite Forall_cons. Qed.
(** An array with a NUL in it holds a string. *)
Lemma cstr_has_nul x r : exists s, cstr (x ++ 0 :: r) = Some s /\ nonul s.
Proof.
  induction x as [|c x (s & Hs & Hn)]; [exists []; split; [done|constructor]|].
  cbn [app cstr]. destruct (Z.eqb_spec c 0); [exists []; split; [done|constructor]|].
  rewrite Hs. exists (c :: s). split; [done|]. by apply nonul_cons.
Qed.

Lemma nonul_take n s : nonul s -> nonul (take n s).
Proof. apply Forall_take. Qed.
Lemma nonul_drop n s : nonul s -> nonul (drop n s).
Proof. apply Forall_drop. Qed.

Lemma prefixb_spec n s : prefixb n s = true <-> n `prefix_of` s.
Proof.
  revert s. induction n as [|c n IH]; intros s; cbn.
  - split; [|done]. intros _. exists s. done.
  - destruct s as [|d s].
    + split; [done|]. intros [k Hk]. done.
    + rewrite andb_true_iff, Z.eqb_eq, IH. split.
      * intros [-> H]. by apply prefix_cons.
      * intros [k Hk]. cbn in Hk. injection Hk as -> ->. split; [done|]. by exists k.
Qed.

Lemma length_memcpy_at dst off xs dst' :
  memcpy_at dst off xs = Some dst' -> length dst' = length dst.
Proof.
  unfold memcpy_at. destruct (Nat.leb_spec (off + length xs) (length dst)); [|done].
  intros [= <-]. rewrite !length_app, length_take, length_drop. lia.
Qed.

Lemma memcpy_at_some dst off xs :
  (off + length xs <= length dst)%nat ->
  memcpy_at dst off xs = Some (take off dst ++ xs ++ drop (off + length xs) dst).
Proof. intros H. unfold memcpy_at. by rewrite (proj2 (Nat.leb_le _ _) H). Qed.

(** Formatting into a whole array of [n] bytes. *)
Lemma vsnprintf_whole n dst text : (0 < n)%nat -> length dst = n ->
  exists rest, vsnprintf_at dst 0 n text = Some (take (n - 1) text ++ 0 :: rest, length text) /\
    length (take (n - 1) text ++ 0 :: rest) = n.
Proof.
  intros Hn Hl. unfold vsnprintf_at. rewrite (proj2 (Nat.eqb_neq n 0)) by lia.
  assert (Hlen : (length (take (n - 1) text ++ [0%Z]) <= n)%nat) by (rewrite length_app, length_take; cbn [length]; lia).
  rewrite memcpy_at_some by (rewrite Hl; exact Hlen).
  exists (drop (length (take (n - 1) text ++ [0])) dst). rewrite take_0, <- app_assoc. split; [done|].
  change (0%Z :: ?r) with ([0%Z] ++ r). rewrite (app_assoc (take _ _)), (length_app (_ ++ _)), length_drop, Hl. lia.
Qed.

Lemma strncmp_prefix s r q n :
  (n <= length q)%nat -> nonul q ->
  (n <= length s)%nat ->
  nonul s ->
  strncmp (s ++ r) q n = Some 0 <-> take n q = take n s.
Proof.
  revert s q. induction n as [|n IH]; intros s q Hq Hnq Hs Hns; [done|].
  destruct s as [|c s], q as [|d q]; cbn in *; try lia.
  inversion Hnq; inversion Hns; subst.
  destruct (Z.eqb_spec c d) as [->|Hne]; cbn.
  - destruct (Z.eqb_spec d 0); [done|]. rewrite IH by (done || lia).
    split; [congruence|]. intros [= H]; done.
  - split; [intros [= H]; lia|]. intros [= H]; congruence.
Qed.

Lemma isdigit_spec c : isdigit c = true <-> 48 <= c <= 57.
Proof. unfold isdigit. change (ch "0") with 48. change (ch "9") with 57. lia. Qed.

Lemma digits_all_digit fuel n : 0 <= n -> Forall (fun c => isdigit c = true) (digits fuel n).
Proof.
  revert n. induction fuel as [|f IH]; intros n Hn; cbn [digits]; [constructor|].
  destruct (Z.ltb_spec n 10).
  - repeat constructor. apply isdigit_spec. lia.
  - apply Forall_app. split; [apply IH; apply Z.div_pos; lia|].
    repeat constructor. apply isdigit_spec. pose proof (Z.mod_pos_bound n 10). lia.
Qed.

Lemma digits_nonempty fuel n : (0 < fuel)%nat -> digits fuel n <> [].
Proof.
  destruct fuel; [lia|]. intros _. cbn [digits]. destruct (n <? 10); [done|].
  intros H. apply app_eq_nil in H. by destruct H.
Qed.

Lemma scan_digits_app acc s t :
  Forall (fun c => isdigit c = true) s ->
  scan_digits acc (s ++ t) = scan_digits (scan_digits acc s) t.
Proof.
  intros H. revert acc. induction H as [|c s Hc Hs IH]; intros acc; [done|].
  cbn. rewrite Hc. apply IH.
Qed.

Lemma scan_digits_digits fuel n :
  0 <= n < 10 ^ Z.of_nat fuel -> scan_digits 0 (digits fuel n) = n.
Proof.
  revert n. induction fuel as [|f IH]; intros n Hn.
  - change (10 ^ Z.of_nat 0) with 1 in Hn. cbn. lia.
  - rewrite Nat2Z.inj_succ, Z.pow_succ_r in Hn by lia. cbn [digits].
    destruct (Z.ltb_spec n 10).
    + cbn [scan_digits]. rewrite (proj2 (isdigit_spec (48 + n))) by lia. lia.
    + rewrite scan_digits_app by (apply digits_all_digit; apply Z.div_pos; lia).
      rewrite IH by (split; [apply Z.div_pos; lia|apply Z.div_lt_upper_bound; lia]).
      pose proof (Z.mod_pos_bound n 10 ltac:(lia)).
      cbn [scan_digits]. rewrite (proj2 (isdigit_spec _)) by lia.
      pose proof (Z.div_mod n 10). lia.
Qed.

(** Printing and parsing back an unsigned 32-bit number. *)
Lemma strtoul_fmt_lu n : is_u32 n -> strtoul (fmt_lu n) = n.
Proof.
  intros Hn. unfold strtoul, fmt_lu.
  pose proof (digits_all_digit 20 n ltac:(word_lia)) as Hd.
  pose proof (digits_nonempty 20 n ltac:(lia)) as Hne.
  destruct (digits 20 n) as [|c s] eqn:E; [done|]. clear Hne.
  pose proof (scan_digits_digits 20 n) as Hv. rewrite E in Hv.
  inversion Hd as [|? ? Hc _]; subst. apply isdigit_spec in Hc.
  assert (Hs : isspace c = false) by (unfold isspace; lia).
  cbn [skip_space]. rewrite Hs. unfold scan_sign.
  change (ch "-") with 45. change (ch "+") with 43.
  rewrite !(proj2 (Z.eqb_neq _ _)) by lia. rewrite Hv.
  - unfold ULONG_MAX. rewrite (proj2 (Z.ltb_ge _ _)) by word_lia. done.
  - change (10 ^ Z.of_nat 20) with 100000000000000000000. word_lia.
Qed.
