(* ===== verification/Request.v ===== *)
(** * Request

    The parser of the request body (network_tasks.c): line values, identifier
    check, SQL keyword search and the decomposition of the query into its
    SELECT list and WHERE clause. *)

From S2P Require Import Prelude CString.

(** ** Data *)

Definition QUERY_SQL_MAX_LEN : nat := 256.
Definition QUERY_TABLE_MAX_LEN : nat := 32.
Definition QUERY_SELECT_MAX_LEN : nat := QUERY_SQL_MAX_LEN.
Definition QUERY_WHERE_MAX_LEN : nat := QUERY_SQL_MAX_LEN.
Definition QUERY_MAX_ROWS : Z := 256.
Definition DEFAULT_QUERY_LIMIT : Z := 0.

Record QueryRequest := mkRequest {
  sql : list Z;
  table : list Z;
  select_list : list Z;
  where_clause : list Z;
  limit : Z;
}.

(** [memset(request, 0, sizeof( *request))] *)
Definition zero_request : QueryRequest :=
  mkRequest (replicate QUERY_SQL_MAX_LEN 0) (replicate QUERY_TABLE_MAX_LEN 0)
    (replicate QUERY_SELECT_MAX_LEN 0) (replicate QUERY_WHERE_MAX_LEN 0) 0.

Definition le32_bytes (w : Z) : list Z :=
  [w mod 256; (w / 2 ^ 8) mod 256; (w / 2 ^ 16) mod 256; (w / 2 ^ 24) mod 256].

(** The object as it lies in memory, from the address of [sql] on. *)
Definition request_mem (r : QueryRequest) : list Z :=
  sql r ++ table r ++ select_list r ++ where_clause r ++ le32_bytes (limit r).

(** ** Operations *)

(** The first loop of [trim_copy]: the pointer to [src[start]] and
    [end - start]. *)
Fixpoint trim_start (src : list Z) (n : nat) : option (list Z * nat) :=
  match n with
  | O => Some (src, O)
  | S m => let? c := head src in if isspace c then trim_start (tail src) m else Some (src, n)
  end.

Definition is_trailer (c : Z) : bool :=
  (c =? 0) || (c =? 32) || (c =? 13) || (c =? 10) || (c =? 9).

(** The second loop: the number of bytes kept from [src[start]]. *)
Fixpoint trim_end (src : list Z) (n : nat) : option nat :=
  match n with
  | O => Some O
  | S m => let? c := (src !! m : option Z) in if is_trailer c then trim_end src m else Some n
  end.

Definition trim_copy (dst : list Z) (dst_size : nat) (src : list Z) (src_len : nat)
  : option (list Z) :=
  if (dst_size =? 0)%nat then Some dst
  else
    let? (p, n) := trim_start src src_len in
    let? m := trim_end p n in
    let write_len := if (dst_size - 1 <=? m)%nat then (dst_size - 1)%nat else m in
    if (length p <? write_len)%nat then UB
    else
      let? dst := memcpy_at dst 0 (take write_len p) in
      memcpy_at dst write_len [0].

Fixpoint identifier_loop (p : list Z) : option bool :=
  match p with
  | [] => UB
  | c :: p =>
      if c =? 0 then Some true
      else if negb (isalnum c || (c =? ch "_")) then Some false
      else identifier_loop p
  end.

Definition sanitize_identifier (value : list Z) : option bool :=
  let? c := head value in
  if c =? 0 then Some false else identifier_loop value.

Fixpoint ascii_strncasecmp_local (lhs rhs : list Z) (count : nat) : option Z :=
  match count with
  | O => Some 0
  | S count =>
      let? l := head lhs in let? r := head rhs in
      if negb (tolower l =? tolower r)
      then Some (tolower l - tolower r)
      else ascii_strncasecmp_local (tail lhs) (tail rhs) count
  end.

Definition is_sql_boundary (c : Z) : bool :=
  (c =? 0) || isspace c || (c =? ch ",") || (c =? ch "(") || (c =? ch ")").

(** The loop of [find_sql_keyword] from offset [off], where [before] is the byte
    before the cursor (a space at the start).  Each iteration reads
    [cursor[keyword_len]] before it compares. *)
Fixpoint keyword_loop (keyword cursor : list Z) (off : nat) (before : Z)
  : option (option nat) :=
  match cursor with
  | [] => UB
  | c :: rest =>
      if c =? 0 then Some None
      else
        let? after := (cursor !! length keyword : option Z) in
        let? found := (if is_sql_boundary before
                       then let? z := ascii_strncasecmp_local cursor keyword (length keyword) in
                            Some ((z =? 0) && is_sql_boundary after)
                       else Some false) in
        if found then Some (Some off) else keyword_loop keyword rest (S off) c
  end.

Definition find_sql_keyword (sql keyword : list Z) : option (option nat) :=
  keyword_loop keyword sql 0 32.

Definition earliest_sql_clause_end (fallback_end : nat) (a b c : option nat) : nat :=
  let pick (cand : option nat) (result : nat) :=
    match cand with
    | Some p => if (p <? result)%nat then p else result
    | None => result
    end in
  pick c (pick b (pick a fallback_end)).

(** [(pos != NULL && pos > from) ? pos : NULL] *)
Definition after_pos (from : nat) (pos : option nat) : option nat :=
  match pos with
  | Some p => if (from <? p)%nat then Some p else None
  | None => None
  end.

Definition set_select (r : QueryRequest) (v : list Z) : QueryRequest :=
  mkRequest (sql r) (table r) v (where_clause r) (limit r).
Definition set_where (r : QueryRequest) (v : list Z) : QueryRequest :=
  mkRequest (sql r) (table r) (select_list r) v (limit r).
Definition set_limit (r : QueryRequest) (v : Z) : QueryRequest :=
  mkRequest (sql r) (table r) (select_list r) (where_clause r) v.

(** The SELECT list: the new contents of [request->select_list]. *)
Definition extract_select (sql : list Z) (select_pos from_pos : option nat) (dst : list Z)
  : option (list Z) :=
  let dst := <[0%nat := 0]> dst in
  let? dst :=
    match select_pos, from_pos with
    | Some s, Some f =>
        if (s + 6 <? f)%nat
        then trim_copy dst QUERY_SELECT_MAX_LEN (drop (s + 6) sql) (f - (s + 6))
        else Some dst
    | _, _ => Some dst
    end in
  let? c := head dst in
  if c =? 0 then memcpy_at dst 0 (lit "*" ++ [0]) else Some dst.

(** The WHERE clause: the new contents of [request->where_clause]. *)
Definition extract_where (sql : list Z) (sql_end : nat)
    (where_pos limit_pos order_pos group_pos : option nat) (dst : list Z)
  : option (list Z) :=
  let dst := <[0%nat := 0]> dst in
  match where_pos with
  | None => Some dst
  | Some w =>
      let where_end :=
        earliest_sql_clause_end sql_end (after_pos w limit_pos)
          (after_pos w order_pos) (after_pos w group_pos) in
      if (w + 5 <? where_end)%nat
      then trim_copy dst QUERY_WHERE_MAX_LEN (drop (w + 5) sql) (where_end - (w + 5))
      else Some dst
  end.

Definition extract_sql_fragments (sql : list Z) (request : QueryRequest)
  : option QueryRequest :=
  let? sql_end := strlen sql in
  let? select_pos := find_sql_keyword sql (lit "SELECT") in
  let? from_pos := find_sql_keyword sql (lit "FROM") in
  let? where_pos := find_sql_keyword sql (lit "WHERE") in
  let? limit_pos := find_sql_keyword sql (lit "LIMIT") in
  let? order_pos := find_sql_keyword sql (lit "ORDER") in
  let? group_pos := find_sql_keyword sql (lit "GROUP") in
  let? sel := extract_select sql select_pos from_pos (select_list request) in
  let? whr := extract_where sql sql_end where_pos limit_pos order_pos group_pos
                (where_clause request) in
  Some (set_where (set_select request sel) whr).

(** One line per unit of fuel; the whole body has at most [length body] lines. *)
Fixpoint line_loop (fuel : nat) (cursor prefix dst : list Z) (dst_size : nat)
  : option (Z * list Z) :=
  match fuel with
  | O => UB
  | S fuel =>
      let? c := head cursor in
      if c =? 0 then Some (0, dst)
      else
        let? nl := strchr cursor 10 in
        let? line_len := match nl with Some n => Some n | None => strlen cursor end in
        let? hit := (if (length prefix <=? line_len)%nat
                     then let? z := strncmp cursor (prefix ++ [0]) (length prefix) in
                          Some (z =? 0)
                     else Some false) in
        if hit
        then let? dst := trim_copy dst dst_size (drop (length prefix) cursor)
                           (line_len - length prefix) in
             Some (1, dst)
        else
          let? e := cursor !! line_len in
          line_loop fuel (if e =? 0 then drop line_len cursor else drop (S line_len) cursor)
            prefix dst dst_size
  end.

Definition extract_line_value (body prefix dst : list Z) (dst_size : nat)
  : option (Z * list Z) :=
  line_loop (S (length body)) body prefix dst dst_size.

(** The limit after the [LIMIT=] line has been read as [parsed_limit]. *)
Definition clamp_limit (sql_text : list Z) (parsed_limit : Z) : Z :=
  let l := if 0 <? parsed_limit then parsed_limit else DEFAULT_QUERY_LIMIT in
  let l := if QUERY_MAX_ROWS <? l
           then match strstr sql_text (lit "COUNT("), strstr sql_text (lit "SUM(") with
                | None, None => QUERY_MAX_ROWS
                | _, _ => l
                end
           else l in
  if l =? 0 then DEFAULT_QUERY_LIMIT else l.

(** [Some None] is the result 0 (the caller drops the structure), [Some (Some r)]
    the result 1 with the structure filled.  [limit_buffer] is a local whose
    initial contents are never read. *)
Definition parse_request_body (body : list Z) : option (option QueryRequest) :=
  let request := set_limit zero_request DEFAULT_QUERY_LIMIT in
  let? (ok, tbl) := extract_line_value body (lit "TABLE=") (table request) QUERY_TABLE_MAX_LEN in
  if ok =? 0 then Some None else
  let? good := sanitize_identifier tbl in
  if negb good then Some None else
  let? (ok, q) := extract_line_value body (lit "SQL=") (sql request) QUERY_SQL_MAX_LEN in
  if ok =? 0 then Some None else
  let? (ok, limit_buffer) := extract_line_value body (lit "LIMIT=") (replicate 16 0) 16 in
  let? limit_text := cstr limit_buffer in
  let? sql_text := cstr q in
  let parsed := if ok =? 0 then 0 else strtoul limit_text in
  let request :=
    mkRequest q tbl (select_list request) (where_clause request)
      (clamp_limit sql_text parsed) in
  Some <$> extract_sql_fragments (request_mem request) request.

Definition demo_body : list Z :=
  lit "TABLE=alunos" ++ [10] ++ lit "LIMIT=10" ++ [10] ++
  lit "SQL=SELECT * FROM alunos WHERE i >= 3 AND c = 'C' LIMIT 10" ++ [10; 0].

Example demo_body_parsed :
  (let? r := parse_request_body demo_body in let? r := r in
   Some (cstr (table r), cstr (select_list r), cstr (where_clause r), limit r)) =
  Some (Some (lit "alunos"), Some (lit "*"), Some (lit "i >= 3 AND c = 'C'"), 10).
Proof. vm_compute. reflexivity. Qed.
