(* ===== verification/RequestFacts.v ===== *)
(** * RequestFacts

    What the request parser computes, on the texts rather than on the buffers:
    [parse_spec] is the contract of [parse_request_body]. *)

From S2P Require Import Prelude CString Request.

(** ** Specification on texts *)

Fixpoint rtrim (s : list Z) : list Z :=
  match s with
  | [] => []
  | c :: s =>
      match rtrim s with
      | [] => if is_trailer c then [] else [c]
      | t => c :: t
      end
  end.

Definition trim (s : list Z) : list Z := rtrim (skip_space s).

(** The array [dst] after the text [t] and a NUL were written at its start. *)
Definition put_str (dst t : list Z) : list Z := t ++ 0 :: drop (S (length t)) dst.

(** A zeroed array of [n] bytes holding the text [t]. *)
Definition zbuf (n : nat) (t : list Z) : list Z := t ++ replicate (n - length t) 0.

Fixpoint lines (s : list Z) : list (list Z) :=
  match s with
  | [] => [[]]
  | c :: s =>
      if c =? 10 then [] :: lines s
      else match lines s with l :: ls => (c :: l) :: ls | [] => [[c]] end
  end.

Fixpoint find_line (prefix : list Z) (ls : list (list Z)) : option (list Z) :=
  match ls with
  | [] => None
  | l :: ls =>
      if prefixb prefix l then Some (drop (length prefix) l) else find_line prefix ls
  end.

Definition ci_prefixb (q s : list Z) : bool := prefixb (tolower <$> q) (tolower <$> s).

Definition identifierb (s : list Z) : bool :=
  match s with [] => false | _ => forallb (fun c => isalnum c || (c =? ch "_")) s end.

Definition keyword_here (kw : list Z) (before : Z) (s : list Z) : bool :=
  is_sql_boundary before && ci_prefixb kw s &&
  is_sql_boundary (match s !! length kw with Some c => c | None => 0 end).

Fixpoint keyword_pos (kw : list Z) (before : Z) (s : list Z) : option nat :=
  match s with
  | [] => None
  | c :: s' => if keyword_here kw before s then Some O else S <$> keyword_pos kw c s'
  end.

Definition kw_pos (kw s : list Z) : option nat := keyword_pos kw 32 s.

Definition slice (from to : nat) (s : list Z) : list Z := take (to - from) (drop from s).

Definition raw_select (s : list Z) : list Z :=
  match kw_pos (lit "SELECT") s, kw_pos (lit "FROM") s with
  | Some a, Some f => if (a + 6 <? f)%nat then take 255 (trim (slice (a + 6) f s)) else []
  | _, _ => []
  end.

Definition select_text (s : list Z) : list Z :=
  match raw_select s with [] => lit "*" | t => t end.

Definition where_text (s : list Z) : list Z :=
  match kw_pos (lit "WHERE") s with
  | None => []
  | Some w =>
      let e := earliest_sql_clause_end (length s) (after_pos w (kw_pos (lit "LIMIT") s))
                 (after_pos w (kw_pos (lit "ORDER") s))
                 (after_pos w (kw_pos (lit "GROUP") s)) in
      if (w + 5 <? e)%nat then take 255 (trim (slice (w + 5) e s)) else []
  end.

Definition parse_spec (s : list Z) : option QueryRequest :=
  let? tv := find_line (lit "TABLE=") (lines s) in
  let t := take 31 (trim tv) in
  if negb (identifierb t) then None else
  let? qv := find_line (lit "SQL=") (lines s) in
  let q := take 255 (trim qv) in
  let lim := match find_line (lit "LIMIT=") (lines s) with
             | None => 0
             | Some lv => strtoul (take 15 (trim lv))
             end in
  Some (mkRequest (zbuf 256 q) (zbuf 32 t) (zbuf 256 (select_text q))
          (zbuf 256 (where_text q)) (clamp_limit q lim)).

(** ** Trimming *)

Lemma skip_space_suffix s : exists p, s = p ++ skip_space s.
Proof.
  induction s as [|c s [p IH]]; [by exists []|]. cbn.
  destruct (isspace c); [|by exists []]. exists (c :: p). cbn. by rewrite <- IH.
Qed.

Lemma skip_space_length s : (length (skip_space s) <= length s)%nat.
Proof.
  destruct (skip_space_suffix s) as [p Hp]. rewrite Hp at 2. rewrite length_app. lia.
Qed.

Lemma trim_start_spec s r :
  trim_start (s ++ r) (length s) = Some (skip_space s ++ r, length (skip_space s)).
Proof.
  induction s as [|c s IH]; [done|]. cbn. destruct (isspace c); [exact IH|done].
Qed.

Lemma rtrim_snoc s c : rtrim (s ++ [c]) = if is_trailer c then rtrim s else s ++ [c].
Proof.
  induction s as [|d s IH]; cbn; [by destruct (is_trailer c)|].
  rewrite IH. destruct (is_trailer c); [done|]. by destruct s.
Qed.

Lemma rtrim_take s : take (length (rtrim s)) s = rtrim s.
Proof.
  induction s as [|c s IH] using rev_ind; [done|]. rewrite rtrim_snoc.
  destruct (is_trailer c).
  - rewrite <- IH at 2. rewrite take_app_le; [done|].
    rewrite <- IH, length_take. lia.
  - apply take_ge. done.
Qed.

Lemma rtrim_length s : (length (rtrim s) <= length s)%nat.
Proof. rewrite <- (rtrim_take s), length_take. lia. Qed.

Lemma trim_end_spec s r : trim_end (s ++ r) (length s) = Some (length (rtrim s)).
Proof.
  revert r. induction s as [|c s IH] using rev_ind; intros r; [done|].
  rewrite length_app, Nat.add_comm. cbn [length Nat.add trim_end].
  rewrite <- app_assoc, lookup_app_r, Nat.sub_diag by lia. cbn. rewrite rtrim_snoc.
  destruct (is_trailer c); [apply IH|]. by rewrite length_app, Nat.add_comm.
Qed.

Lemma take_rtrim n s r :
  (n <= length (rtrim s))%nat -> take n (s ++ r) = take n (rtrim s).
Proof.
  intros H. pose proof (rtrim_length s). rewrite take_app_le by lia.
  rewrite <- (rtrim_take s), take_take. f_equal. lia.
Qed.

Lemma trim_copy_spec dst size s r :
  (0 < size <= length dst)%nat ->
  trim_copy dst size (s ++ r) (length s) = Some (put_str dst (take (size - 1) (trim s))).
Proof.
  intros Hsz. unfold trim_copy. rewrite (proj2 (Nat.eqb_neq _ _)) by lia.
  rewrite trim_start_spec, trim_end_spec. set (t := skip_space s).
  pose proof (rtrim_length t).
  set (w := ((size - 1) `min` length (rtrim t))%nat).
  replace (if (size - 1 <=? length (rtrim t))%nat then (size - 1)%nat
           else length (rtrim t)) with w
    by (unfold w; destruct (Nat.leb_spec (size - 1) (length (rtrim t))); lia).
  rewrite (proj2 (Nat.ltb_ge _ _)) by (rewrite length_app; lia).
  rewrite take_rtrim by lia.
  assert (Ht : take w (rtrim t) = take (size - 1) (trim s)).
  { unfold trim. fold t. rewrite <- (firstn_all (rtrim t)) at 2. by rewrite take_take. }
  assert (Hl : length (take (size - 1) (trim s)) = w)
    by (rewrite <- Ht, length_take; lia).
  rewrite Ht. rewrite memcpy_at_some by (simpl; lia).
  rewrite <- Hl at 1. change (take 0 dst) with (@nil Z). cbn [app Nat.add].
  rewrite memcpy_at_some by (rewrite length_app, length_drop; simpl; lia).
  rewrite take_app_length. unfold put_str. do 2 f_equal. simpl. f_equal.
  rewrite drop_app_ge by lia. rewrite drop_drop. f_equal. lia.
Qed.

Lemma put_str_length dst t : (length t < length dst)%nat -> length (put_str dst t) = length dst.
Proof. intros H. unfold put_str. rewrite length_app. simpl. rewrite length_drop. lia. Qed.

Lemma put_str_zeros n t : (length t < n)%nat -> put_str (replicate n 0) t = zbuf n t.
Proof.
  intros H. unfold put_str, zbuf. f_equal. rewrite drop_replicate.
  replace (n - length t)%nat with (S (n - S (length t))) by lia. done.
Qed.

Lemma zbuf_length n t : (length t <= n)%nat -> length (zbuf n t) = n.
Proof. intros H. unfold zbuf. rewrite length_app, length_replicate. lia. Qed.

Lemma zbuf_split n t : (length t < n)%nat -> zbuf n t = t ++ 0 :: replicate (n - S (length t)) 0.
Proof.
  intros H. unfold zbuf. f_equal.
  replace (n - length t)%nat with (S (n - S (length t))) by lia. reflexivity.
Qed.

Lemma cstr_zbuf n t : nonul t -> (length t < n)%nat -> cstr (zbuf n t) = Some t.
Proof. intros Ht H. rewrite zbuf_split by done. by apply cstr_app. Qed.

Lemma trim_nonul s : nonul s -> nonul (trim s).
Proof.
  intros H. unfold trim. rewrite <- rtrim_take. apply nonul_take.
  destruct (skip_space_suffix s) as [p Hp]. rewrite Hp in H.
  apply nonul_app in H as [_ H]. exact H.
Qed.

(** ** Lines *)

Lemma lines_nonl l : Forall (fun c => c <> 10) l -> lines l = [l].
Proof.
  induction 1 as [|c l Hc Hl IH]; [done|]. cbn.
  rewrite (proj2 (Z.eqb_neq _ _)) by done. by rewrite IH.
Qed.

Lemma lines_cons l s : Forall (fun c => c <> 10) l -> lines (l ++ 10 :: s) = l :: lines s.
Proof.
  induction 1 as [|c l Hc Hl IH]; [done|]. cbn.
  rewrite (proj2 (Z.eqb_neq _ _)) by done. by rewrite IH.
Qed.

(** Either no newline is left, or the first line ends at one. *)
Lemma split_line s :
  Forall (fun c => c <> 10) s \/
  exists l t, s = l ++ 10 :: t /\ Forall (fun c => c <> 10) l.
Proof.
  induction s as [|c s IH]; [by left; constructor|].
  destruct (Z.eq_dec c 10) as [->|Hc]; [right; by exists [], s|].
  destruct IH as [H|(l & t & -> & H)]; [left; by constructor|].
  right. exists (c :: l), t. split; [done|by constructor].
Qed.

Lemma strchr_none s r :
  nonul s -> Forall (fun c => c <> 10) s -> strchr (s ++ 0 :: r) 10 = Some None.
Proof.
  induction s as [|c s IH]; intros Hn Hs; [done|]. inversion Hn; inversion Hs; subst. cbn.
  rewrite !(proj2 (Z.eqb_neq _ _)) by done. by rewrite IH.
Qed.

Lemma strchr_some l r :
  nonul l -> Forall (fun c => c <> 10) l -> strchr (l ++ 10 :: r) 10 = Some (Some (length l)).
Proof.
  induction l as [|c l IH]; intros Hn Hs; [done|]. inversion Hn; inversion Hs; subst. cbn.
  rewrite !(proj2 (Z.eqb_neq _ _)) by done. by rewrite IH.
Qed.

Lemma strncmp_prefixb s r p r2 :
  nonul p ->
  exists z, strncmp (s ++ 0 :: r) (p ++ r2) (length p) = Some z /\
            (z =? 0) = prefixb p s.
Proof.
  intros Hp. revert s. induction Hp as [|c p Hc Hp IH]; intros s; [by exists 0|].
  destruct s as [|d s]; cbn [strncmp app length head tail prefixb].
  - destruct (Z.eqb_spec 0 c); [done|]. eexists; split; [done|]. lia.
  - destruct (Z.eqb_spec d c) as [->|Hne]; cbn.
    + rewrite Z.eqb_refl. destruct (Z.eqb_spec c 0); [done|]. apply IH.
    + eexists; split; [done|]. rewrite (proj2 (Z.eqb_neq c d)) by congruence. lia.
Qed.

Lemma prefixb_length p s : prefixb p s = true -> (length p <= length s)%nat.
Proof. rewrite prefixb_spec. apply prefix_length. Qed.

Lemma prefixb_app_nl p l t :
  Forall (fun c => c <> 10) p -> prefixb p (l ++ 10 :: t) = prefixb p l.
Proof.
  intros Hp. revert l. induction Hp as [|c p Hc Hp IH]; intros l; [done|].
  destruct l as [|d l]; cbn.
  - by rewrite (proj2 (Z.eqb_neq c 10)).
  - by rewrite IH.
Qed.

(** One step of the line loop on the line [l], followed by [rest]. *)
Lemma hit_line l s r p :
  nonul p -> Forall (fun c => c <> 10) p ->
  (s = l \/ exists t, s = l ++ 10 :: t) ->
  (if (length p <=? length l)%nat
   then let? z := strncmp (s ++ 0 :: r) (p ++ [0]) (length p) in Some (z =? 0)
   else Some false) = Some (prefixb p l).
Proof.
  intros Hp Hnl Hs.
  assert (Heq : prefixb p s = prefixb p l)
    by (destruct Hs as [->|[t ->]]; [done|by apply prefixb_app_nl]).
  destruct (Nat.leb_spec (length p) (length l)) as [Hle|Hlt].
  - destruct (strncmp_prefixb s r p [0] Hp) as (z & -> & ->). by rewrite Heq.
  - destruct (prefixb p l) eqn:E; [|done]. apply prefixb_length in E. lia.
Qed.

Lemma line_loop_spec fuel s r p dst size :
  (length s < fuel)%nat -> nonul s -> nonul p -> p <> [] ->
  Forall (fun c => c <> 10) p -> (0 < size <= length dst)%nat ->
  line_loop fuel (s ++ 0 :: r) p dst size =
  Some (match find_line p (lines s) with
        | Some v => (1, put_str dst (take (size - 1) (trim v)))
        | None => (0, dst)
        end).
Proof.
  intros Hf Hs Hp Hne Hpn Hsz. revert s Hf Hs.
  induction fuel as [|fuel IH]; intros s Hf Hs; [lia|].
  destruct s as [|c s']; [by destruct p|].
  set (s := c :: s') in *. cbn [line_loop].
  assert (Hc : (c =? 0) = false) by (inversion Hs; by apply Z.eqb_neq).
  replace (head (s ++ 0 :: r)) with (Some c) by done. rewrite Hc.
  destruct (split_line s) as [Hn|(l & t & Hst & Hn)].
  - rewrite strchr_none by done. unfold strlen. rewrite cstr_app by done. cbn [fmap option_fmap option_map].
    rewrite (hit_line s s r p) by (try done; by left).
    rewrite lines_nonl by done. cbn [find_line]. destruct (prefixb p s) eqn:E.
    + pose proof (prefixb_length _ _ E). rewrite drop_app_le by lia.
      replace (length s - length p)%nat with (length (drop (length p) s))
        by (rewrite length_drop; lia).
      rewrite trim_copy_spec by done. done.
    + rewrite lookup_app_r, Nat.sub_diag by lia. cbn [lookup list_lookup].
      rewrite Z.eqb_refl, drop_app_ge, Nat.sub_diag by lia. cbn [drop].
      destruct fuel; [unfold s in Hf; cbn in Hf; lia|]. done.
  - rewrite Hst in *. clearbody s. subst s. apply nonul_app in Hs as [Hl Ht].
    rewrite <- app_assoc. cbn [app]. rewrite strchr_some by done.
    change (l ++ 10 :: t ++ 0 :: r) with (l ++ (10 :: t) ++ 0 :: r). rewrite app_assoc.
    rewrite (hit_line l _ r p) by (try done; right; by exists t).
    rewrite lines_cons by done. cbn [find_line]. destruct (prefixb p l) eqn:E.
    + pose proof (prefixb_length _ _ E). rewrite <- !app_assoc, drop_app_le by lia.
      replace (length l - length p)%nat with (length (drop (length p) l))
        by (rewrite length_drop; lia).
      rewrite trim_copy_spec by done. done.
    + rewrite <- app_assoc, lookup_app_r, Nat.sub_diag by lia. cbn [app lookup list_lookup].
      change (10 =? 0) with false. cbv iota.
      replace (drop (S (length l)) (l ++ 10 :: t ++ 0 :: r)) with (t ++ 0 :: r)
        by (rewrite drop_app_ge by lia; by replace (S (length l) - length l)%nat with 1%nat by lia).
      apply IH; [rewrite length_app in Hf; cbn in Hf; lia|by inversion Ht].
Qed.

(** [extract_line_value] finds the first line that starts with the prefix and
    copies its trimmed value. *)
Lemma extract_line_value_spec s r p dst size :
  nonul s -> nonul p -> p <> [] -> Forall (fun c => c <> 10) p ->
  (0 < size <= length dst)%nat ->
  extract_line_value (s ++ 0 :: r) p dst size =
  Some (match find_line p (lines s) with
        | Some v => (1, put_str dst (take (size - 1) (trim v)))
        | None => (0, dst)
        end).
Proof. intros. apply line_loop_spec; try done. rewrite length_app. lia. Qed.

(** ** Identifiers and keywords *)

Lemma identifier_loop_spec s r :
  nonul s ->
  identifier_loop (s ++ 0 :: r) = Some (forallb (fun c => isalnum c || (c =? ch "_")) s).
Proof.
  induction 1 as [|c s Hc Hs IH]; [done|]. cbn [app identifier_loop forallb].
  rewrite (proj2 (Z.eqb_neq _ _)) by done. destruct (isalnum c || (c =? ch "_")); [|done].
  exact IH.
Qed.

Lemma sanitize_identifier_spec s r :
  nonul s -> sanitize_identifier (s ++ 0 :: r) = Some (identifierb s).
Proof.
  intros Hs. unfold sanitize_identifier. destruct s as [|c s]; [done|].
  cbn [app head]. rewrite (proj2 (Z.eqb_neq _ _)) by (by inversion Hs).
  apply (identifier_loop_spec (c :: s)). done.
Qed.

Lemma tolower_zero c : tolower c = 0 <-> c = 0.
Proof.
  unfold tolower, isupper. change (ch "A") with 65. change (ch "Z") with 90.
  destruct ((65 <=? c) && (c <=? 90)) eqn:E; lia.
Qed.

Lemma casecmp_spec s r q r2 :
  nonul q ->
  exists z, ascii_strncasecmp_local (s ++ 0 :: r) (q ++ r2) (length q) = Some z /\
            (z =? 0) = ci_prefixb q s.
Proof.
  unfold ci_prefixb. intros Hq. revert s.
  induction Hq as [|c q Hc Hq IH]; intros s; [by exists 0|].
  destruct s as [|d s];
    cbn [ascii_strncasecmp_local app length head tail prefixb fmap list_fmap].
  - change (tolower 0) with 0. pose proof (tolower_zero c).
    rewrite (proj2 (Z.eqb_neq _ _)) by lia. eexists; split; [done|]. lia.
  - destruct (Z.eqb_spec (tolower d) (tolower c)) as [E|E]; cbn [negb].
    + rewrite E, Z.eqb_refl. apply IH.
    + eexists; split; [done|]. rewrite (proj2 (Z.eqb_neq (tolower c) _)) by congruence. lia.
Qed.

Lemma ci_prefixb_length q s : ci_prefixb q s = true -> (length q <= length s)%nat.
Proof. intros H. apply prefixb_length in H. by rewrite !length_fmap in H. Qed.

(** [find_sql_keyword] reads up to [length kw - 1] bytes past the NUL, but what
    it finds depends on the text alone. *)
Lemma keyword_loop_spec kw s r off before :
  nonul s -> nonul kw -> (length kw <= S (length r))%nat ->
  keyword_loop kw (s ++ 0 :: r) off before =
  Some (Nat.add off <$> keyword_pos kw before s).
Proof.
  intros Hs Hkw Hr. revert off before.
  induction Hs as [|c s Hc Hs IH]; intros off before; [done|].
  cbn [keyword_pos]. set (p := (c :: s) ++ 0 :: r).
  replace (keyword_loop kw p off before) with
    (let? after := (p !! length kw : option Z) in
     let? found := (if is_sql_boundary before
                    then let? z := ascii_strncasecmp_local p kw (length kw) in
                         Some ((z =? 0) && is_sql_boundary after)
                    else Some false) in
     if found then Some (Some off) else keyword_loop kw (s ++ 0 :: r) (S off) c)
    by (unfold p; cbn [app keyword_loop]; by rewrite (proj2 (Z.eqb_neq c 0) Hc)).
  destruct (lookup_lt_is_Some_2 p (length kw)) as [after Ha].
  { unfold p. rewrite length_app. cbn. lia. }
  rewrite Ha.
  assert (Hfound : (if is_sql_boundary before
                    then let? z := ascii_strncasecmp_local p kw (length kw) in
                         Some ((z =? 0) && is_sql_boundary after)
                    else Some false) = Some (keyword_here kw before (c :: s))).
  { unfold keyword_here. destruct (is_sql_boundary before); [|done].
    destruct (casecmp_spec (c :: s) r kw [] Hkw) as (z & Hz & Hz0).
    rewrite app_nil_r in Hz. unfold p. rewrite Hz, Hz0.
    destruct (ci_prefixb kw (c :: s)) eqn:E; [|done]. cbn [andb]. do 2 f_equal.
    apply ci_prefixb_length in E. unfold p in Ha.
    destruct (Nat.lt_ge_cases (length kw) (length (c :: s))).
    - rewrite lookup_app_l in Ha by done. by rewrite Ha.
    - rewrite lookup_app_r in Ha by done.
      replace (length kw - length (c :: s))%nat with 0%nat in Ha by lia.
      rewrite lookup_ge_None_2 by done. by injection Ha as <-. }
  rewrite Hfound. destruct (keyword_here kw before (c :: s)).
  - cbn. by rewrite Nat.add_0_r.
  - rewrite IH. destruct (keyword_pos kw c s); cbn; [|done]. do 2 f_equal. lia.
Qed.

Lemma find_sql_keyword_spec kw s r :
  nonul s -> nonul kw -> (length kw <= S (length r))%nat ->
  find_sql_keyword (s ++ 0 :: r) kw = Some (kw_pos kw s).
Proof.
  intros. unfold find_sql_keyword. rewrite keyword_loop_spec by done.
  unfold kw_pos. by destruct (keyword_pos kw 32 s).
Qed.

Lemma keyword_pos_lt kw before s i : keyword_pos kw before s = Some i -> (i < length s)%nat.
Proof.
  revert before i. induction s as [|c s IH]; intros before i; cbn; [done|].
  destruct (keyword_here kw before (c :: s)); [intros [= <-]; lia|].
  destruct (keyword_pos kw c s) as [j|] eqn:E; cbn; [|done].
  intros [= <-]. apply IH in E. lia.
Qed.

Lemma kw_pos_lt kw s i : kw_pos kw s = Some i -> (i < length s)%nat.
Proof. apply keyword_pos_lt. Qed.

Lemma earliest_le e a b c : (earliest_sql_clause_end e a b c <= e)%nat.
Proof.
  set (pick := fun (cand : option nat) (result : nat) =>
    match cand with Some p => if (p <? result)%nat then p else result | None => result end).
  assert (Hp : forall o n, (pick o n <= n)%nat).
  { intros [p|] n; unfold pick; [destruct (Nat.ltb_spec p n)|]; lia. }
  change ((pick c (pick b (pick a e)) <= e)%nat).
  pose proof (Hp a e). pose proof (Hp b (pick a e)). pose proof (Hp c (pick b (pick a e))). lia.
Qed.

(** ** The decomposition of the query *)

Lemma slice_nonul a b s : nonul s -> nonul (slice a b s).
Proof. intros. unfold slice. by apply nonul_take, nonul_drop. Qed.

Lemma trim_copy_slice dst size a b s r :
  (a <= b <= length s)%nat -> (0 < size <= length dst)%nat ->
  trim_copy dst size (drop a (s ++ r)) (b - a) =
  Some (put_str dst (take (size - 1) (trim (slice a b s)))).
Proof.
  intros Hab Hsz. rewrite drop_app_le by lia.
  assert (Hl : length (slice a b s) = (b - a)%nat)
    by (unfold slice; rewrite length_take, length_drop; lia).
  rewrite <- Hl at 1.
  replace (drop a s ++ r) with (slice a b s ++ (drop (b - a) (drop a s) ++ r))
    by (unfold slice; rewrite app_assoc; by rewrite take_drop).
  by apply trim_copy_spec.
Qed.

Lemma put_str_head dst t : head (put_str dst t) = Some (match t with [] => 0 | c :: _ => c end).
Proof. by destruct t. Qed.

Lemma raw_select_length q : (length (raw_select q) < 256)%nat.
Proof.
  unfold raw_select. repeat case_match; rewrite ?length_take; first [lia | cbn; lia].
Qed.

Lemma raw_select_nonul q : nonul q -> nonul (raw_select q).
Proof.
  intros Hq. unfold raw_select. repeat case_match; try constructor.
  by apply nonul_take, trim_nonul, slice_nonul.
Qed.

Lemma extract_select_spec q r :
  nonul q ->
  extract_select (q ++ 0 :: r) (kw_pos (lit "SELECT") q) (kw_pos (lit "FROM") q)
    (replicate 256 0) = Some (zbuf 256 (select_text q)).
Proof.
  intros Hq. unfold extract_select.
  change (<[0%nat:=0]> (replicate 256 0)) with (replicate 256 0). cbv zeta.
  match goal with |- (let? d := ?m in _) = _ =>
    assert (Hm : m = Some (zbuf 256 (raw_select q))) end.
  { unfold raw_select. destruct (kw_pos (lit "SELECT") q) as [a|]; [|done].
    destruct (kw_pos (lit "FROM") q) as [f|] eqn:Ef; [|done].
    destruct (Nat.ltb_spec (a + 6) f); [|done]. apply kw_pos_lt in Ef.
    rewrite trim_copy_slice by (unfold QUERY_SELECT_MAX_LEN, QUERY_SQL_MAX_LEN;
                                rewrite ?length_replicate; lia).
    rewrite put_str_zeros by (rewrite length_take; unfold QUERY_SELECT_MAX_LEN, QUERY_WHERE_MAX_LEN, QUERY_SQL_MAX_LEN; lia). done. }
  rewrite Hm. unfold select_text. pose proof (raw_select_nonul q Hq) as Hn.
  destruct (raw_select q) as [|c t]; [vm_compute; done|].
  change (head (zbuf 256 (c :: t))) with (Some c). cbv iota beta.
  rewrite (proj2 (Z.eqb_neq _ _)) by (by inversion Hn). done.
Qed.

Lemma extract_where_spec q r :
  extract_where (q ++ 0 :: r) (length q) (kw_pos (lit "WHERE") q) (kw_pos (lit "LIMIT") q)
    (kw_pos (lit "ORDER") q) (kw_pos (lit "GROUP") q) (replicate 256 0) =
  Some (zbuf 256 (where_text q)).
Proof.
  unfold extract_where, where_text.
  change (<[0%nat:=0]> (replicate 256 0)) with (replicate 256 0). cbv zeta.
  destruct (kw_pos (lit "WHERE") q) as [w|] eqn:Ew; [|done].
  set (e := earliest_sql_clause_end _ _ _ _).
  pose proof (earliest_le (length q) (after_pos w (kw_pos (lit "LIMIT") q))
    (after_pos w (kw_pos (lit "ORDER") q)) (after_pos w (kw_pos (lit "GROUP") q))) as He.
  fold e in He. destruct (Nat.ltb_spec (w + 5) e); [|done].
  rewrite trim_copy_slice by (unfold QUERY_WHERE_MAX_LEN, QUERY_SQL_MAX_LEN;
                              rewrite ?length_replicate; lia).
  rewrite put_str_zeros by (rewrite length_take; unfold QUERY_SELECT_MAX_LEN, QUERY_WHERE_MAX_LEN, QUERY_SQL_MAX_LEN; lia). done.
Qed.

Lemma extract_sql_fragments_spec q r tbl lim :
  nonul q -> (5 <= length r)%nat ->
  extract_sql_fragments (q ++ 0 :: r)
    (mkRequest (zbuf 256 q) tbl (replicate 256 0) (replicate 256 0) lim) =
  Some (mkRequest (zbuf 256 q) tbl (zbuf 256 (select_text q)) (zbuf 256 (where_text q)) lim).
Proof.
  intros Hq Hr. unfold extract_sql_fragments, strlen.
  rewrite cstr_app by done. cbn [fmap option_fmap option_map].
  rewrite !find_sql_keyword_spec by first [done | decide_closed | cbn; lia].
  cbn [select_list where_clause]. rewrite extract_select_spec, extract_where_spec by done. done.
Qed.

Lemma extract_request q t lim :
  nonul q -> (length q < 256)%nat -> (length t < 32)%nat ->
  let rq := mkRequest (zbuf 256 q) (zbuf 32 t) (replicate 256 0) (replicate 256 0) lim in
  extract_sql_fragments (request_mem rq) rq =
  Some (mkRequest (zbuf 256 q) (zbuf 32 t) (zbuf 256 (select_text q))
          (zbuf 256 (where_text q)) lim).
Proof.
  intros Hq Hl Ht. unfold request_mem. cbn [sql table select_list where_clause limit].
  rewrite (zbuf_split 256 q) at 1 by done. rewrite <- (app_assoc q), <- app_comm_cons.
  apply extract_sql_fragments_spec; [done|].
  rewrite !length_app, zbuf_length by lia. lia.
Qed.

(** ** The contract of [parse_request_body] *)

Lemma find_line_nonul p s v : nonul s -> find_line p (lines s) = Some v -> nonul v.
Proof.
  intros Hs. assert (Hl : Forall nonul (lines s)).
  { induction Hs as [|c s Hc Hs IH]; cbn; [repeat constructor|].
    destruct (c =? 10); [constructor; [constructor|done]|].
    destruct (lines s) as [|l ls]; [repeat constructor; done|].
    inversion IH; subst. constructor; [by constructor|done]. }
  induction Hl as [|l ls Hl Hls IH]; cbn; [done|].
  destruct (prefixb p l); [intros [= <-]; by apply nonul_drop|exact IH].
Qed.

Lemma parse_request_body_eq (s r : list Z) :
  nonul s -> parse_request_body (s ++ 0 :: r) = Some (parse_spec s).
Proof.
  intros Hs. unfold parse_request_body, parse_spec.
  cbn [table sql select_list where_clause set_limit zero_request].
  rewrite extract_line_value_spec; try decide_closed; try done.
  destruct (find_line (lit "TABLE=") (lines s)) as [tv|] eqn:Et; [|done].
  apply find_line_nonul in Et; [|done]. change (1 =? 0) with false. cbv iota.
  set (t := take 31 (trim tv)).
  assert (Ht : nonul t) by (by apply nonul_take, trim_nonul).
  assert (Htl : (length t < 32)%nat) by (unfold t; rewrite length_take; lia).
  change (take (QUERY_TABLE_MAX_LEN - 1) (trim tv)) with t.
  rewrite put_str_zeros by done. unfold QUERY_TABLE_MAX_LEN.
  rewrite (zbuf_split 32 t) at 1 by done. rewrite sanitize_identifier_spec by done.
  destruct (identifierb t); [|done]. cbn [negb].
  rewrite extract_line_value_spec; try decide_closed; try done.
  destruct (find_line (lit "SQL=") (lines s)) as [qv|] eqn:Eq; [|done].
  apply find_line_nonul in Eq; [|done]. change (1 =? 0) with false. cbv iota.
  set (q := take 255 (trim qv)).
  assert (Hq : nonul q) by (by apply nonul_take, trim_nonul).
  assert (Hql : (length q < 256)%nat) by (unfold q; rewrite length_take; lia).
  change (take (QUERY_SQL_MAX_LEN - 1) (trim qv)) with q.
  rewrite put_str_zeros by done.
  rewrite extract_line_value_spec; try decide_closed; try done.
  unfold QUERY_SELECT_MAX_LEN, QUERY_WHERE_MAX_LEN, QUERY_SQL_MAX_LEN.
  rewrite (cstr_zbuf 256 q) by done.
  destruct (find_line (lit "LIMIT=") (lines s)) as [lv|] eqn:El.
  - apply find_line_nonul in El; [|done].
    rewrite put_str_zeros, cstr_zbuf
      by (first [by apply nonul_take, trim_nonul | rewrite length_take; lia]).
    change (1 =? 0) with false. cbv iota. by rewrite extract_request.
  - change (cstr (replicate 16 0)) with (Some (@nil Z)).
    change (0 =? 0) with true. cbv iota. by rewrite extract_request.
Qed.

(** ** Shape of an accepted request *)

(** What every later stage relies on. *)
Record valid_request (r : QueryRequest) (t q : list Z) : Prop := {
  vr_table : table r = zbuf 32 t;
  vr_sql : sql r = zbuf 256 q;
  vr_select : select_list r = zbuf 256 (select_text q);
  vr_where : where_clause r = zbuf 256 (where_text q);
  vr_ident : identifierb t = true;
  vr_t : nonul t /\ (length t < 32)%nat;
  vr_q : nonul q /\ (length q < 256)%nat;
  vr_limit : is_u32 (limit r);
}.

Lemma strtoul_range s : is_u32 (strtoul s).
Proof.
  unfold strtoul. destruct (scan_sign (skip_space s)) as [neg d].
  assert (H : forall d acc, 0 <= acc -> 0 <= scan_digits acc d).
  { clear. induction d as [|c d IH]; intros acc Ha; cbn; [done|].
    destruct (isdigit c) eqn:E; [|done]. apply isdigit_spec in E. apply IH. lia. }
  specialize (H d 0 ltac:(lia)). unfold ULONG_MAX.
  destruct (Z.ltb_spec (2 ^ 32 - 1) (scan_digits 0 d)); [word_lia|].
  destruct neg; [auto with words|word_lia].
Qed.

Lemma clamp_limit_range q l : is_u32 l -> is_u32 (clamp_limit q l).
Proof.
  intros H. unfold clamp_limit, DEFAULT_QUERY_LIMIT, QUERY_MAX_ROWS.
  repeat case_match; word_lia.
Qed.

Lemma parse_spec_valid s r :
  nonul s -> parse_spec s = Some r -> exists t q, valid_request r t q.
Proof.
  intros Hs. unfold parse_spec.
  destruct (find_line (lit "TABLE=") (lines s)) as [tv|] eqn:Et; [|done].
  apply find_line_nonul in Et; [|done].
  destruct (identifierb (take 31 (trim tv))) eqn:Ei; [|done].
  destruct (find_line (lit "SQL=") (lines s)) as [qv|] eqn:Eq; [|done].
  apply find_line_nonul in Eq; [|done].
  intros [= <-]. exists (take 31 (trim tv)), (take 255 (trim qv)).
  constructor; cbn [table sql select_list where_clause limit]; try done.
  - split; [by apply nonul_take, trim_nonul|rewrite length_take; lia].
  - split; [by apply nonul_take, trim_nonul|rewrite length_take; lia].
  - apply clamp_limit_range. case_match; [apply strtoul_range|word_lia].
Qed.

Lemma where_text_length q : (length q < 256)%nat -> (length (where_text q) <= 250)%nat.
Proof.
  intros Hq. unfold where_text. destruct (kw_pos (lit "WHERE") q) as [w|]; [|cbn; lia].
  pose proof (earliest_le (length q) (after_pos w (kw_pos (lit "LIMIT") q))
    (after_pos w (kw_pos (lit "ORDER") q)) (after_pos w (kw_pos (lit "GROUP") q))) as He.
  set (e := earliest_sql_clause_end _ _ _ _) in *.
  destruct (Nat.ltb_spec (w + 5) e); [|cbn; lia].
  rewrite length_take. unfold trim.
  pose proof (rtrim_length (skip_space (slice (w + 5) e q))).
  pose proof (skip_space_length (slice (w + 5) e q)).
  unfold slice in *. rewrite length_take, length_drop in *. lia.
Qed.

Lemma where_text_nonul q : nonul q -> nonul (where_text q).
Proof.
  intros Hq. unfold where_text. repeat case_match; try constructor.
  by apply nonul_take, trim_nonul, slice_nonul.
Qed.

Lemma select_text_nonul q : nonul q -> nonul (select_text q).
Proof.
  intros Hq. unfold select_text. pose proof (raw_select_nonul q Hq).
  destruct (raw_select q); [decide_closed|done].
Qed.

Lemma select_text_length q : (length (select_text q) < 256)%nat.
Proof.
  unfold select_text. pose proof (raw_select_length q).
  destruct (raw_select q); [cbn; lia|done].
Qed.


(** C4.  On every NUL-terminated body the parser neither reads nor writes out of
    bounds, terminates, and returns exactly what [parse_spec] says: it rejects
    (result 0) a body with no [TABLE=] line, with a table name that is not an
    identifier, or with no [SQL=] line, and otherwise fills the request with the
    trimmed, truncated values, the clamped limit and the two fragments of the
    query, each a NUL-terminated text in its zero-padded array. *)
Theorem parse_request_body_refines (s r : list Z) :
  nonul s ->
  parse_request_body (s ++ 0 :: r) = Some (parse_spec s) /\
  (forall req, parse_spec s = Some req -> exists t q, valid_request req t q).
Proof.
  intros Hs. split; [by apply parse_request_body_eq|].
  intros req. by apply parse_spec_valid.
Qed.

Lemma parse_request_body_refines_witness :
  let s := take (length demo_body - 1) demo_body in
  nonul s /\ parse_request_body (s ++ [0]) = Some (parse_spec s).
Proof.
  assert (H : nonul (take (length demo_body - 1) demo_body)) by decide_closed.
  split; [exact H | exact (proj1 (parse_request_body_refines _ [] H))].
Defined.

(** ** Round trip with the client's encoding *)

(** The body the clients post (client/index.html, fpga_test.py). *)
Definition encode_request (t : list Z) (n : Z) (q : list Z) : list Z :=
  (lit "TABLE=" ++ t) ++ 10 :: (lit "LIMIT=" ++ fmt_lu n) ++ 10 :: (lit "SQL=" ++ q) ++ [10].

Lemma trim_id s :
  Forall (fun c => isspace c = false /\ is_trailer c = false) s -> trim s = s.
Proof.
  intros Hs. unfold trim.
  assert (Hsk : skip_space s = s) by (destruct Hs as [|c s [Hc _] _]; cbn; [|rewrite Hc]; done).
  rewrite Hsk. clear Hsk. induction Hs as [|c s [_ Hc] Hs IH]; [done|].
  cbn. rewrite IH, Hc. by destruct s.
Qed.

Lemma word_char c : isalnum c || (c =? ch "_") = true -> 48 <= c <= 122.
Proof.
  unfold isalnum, isalpha, isupper, islower, isdigit.
  change (ch "A") with 65. change (ch "Z") with 90. change (ch "a") with 97.
  change (ch "z") with 122. change (ch "0") with 48. change (ch "9") with 57.
  change (ch "_") with 95. lia.
Qed.

Lemma word_char_plain c : 48 <= c <= 122 -> isspace c = false /\ is_trailer c = false.
Proof. unfold isspace, is_trailer. lia. Qed.

Lemma identifier_chars t : identifierb t = true -> Forall (fun c => 48 <= c <= 122) t.
Proof.
  unfold identifierb. destruct t as [|c t]; [done|]. rewrite forallb_forall. intros H.
  apply Forall_forall. intros d Hd. apply word_char, H. by apply list_elem_of_In.
Qed.

Lemma digits_length fuel n k :
  0 <= n < 10 ^ Z.of_nat k -> (0 < k)%nat -> (length (digits fuel n) <= k)%nat.
Proof.
  revert n k. induction fuel as [|f IH]; intros n k Hn Hk; cbn [digits]; [cbn; lia|].
  destruct (Z.ltb_spec n 10); [cbn; lia|].
  destruct k as [|k]; [lia|]. rewrite Nat2Z.inj_succ, Z.pow_succ_r in Hn by lia.
  rewrite length_app. cbn [length].
  destruct k as [|k]; [change (10 ^ Z.of_nat 0) with 1 in Hn; lia|].
  enough (length (digits f (n / 10)) <= S k)%nat by lia.
  apply IH; [|lia]. split; [apply Z.div_pos; lia|apply Z.div_lt_upper_bound; lia].
Qed.

Lemma fmt_lu_chars n : is_u32 n -> Forall (fun c => 48 <= c <= 122) (fmt_lu n).
Proof.
  intros Hn. eapply Forall_impl; [apply (digits_all_digit 20); word_lia|].
  intros c Hc. apply isdigit_spec in Hc. lia.
Qed.

Lemma plain_trim s : Forall (fun c => 48 <= c <= 122) s -> trim s = s.
Proof. intros H. apply trim_id. eapply Forall_impl; [exact H|]. apply word_char_plain. Qed.

Lemma plain_nonl s : Forall (fun c => 48 <= c <= 122) s -> Forall (fun c => c <> 10) s.
Proof. intros H. eapply Forall_impl; [exact H|]. intros c ?. cbn in *. lia. Qed.

Lemma plain_nonul s : Forall (fun c => 48 <= c <= 122) s -> nonul s.
Proof. intros H. eapply Forall_impl; [exact H|]. intros c ?. cbn in *. lia. Qed.

Lemma prefixb_app p s : prefixb p (p ++ s) = true.
Proof. induction p as [|c p IH]; [done|]. cbn. by rewrite Z.eqb_refl. Qed.

Lemma find_line_hit p s ls : find_line p ((p ++ s) :: ls) = Some s.
Proof. cbn [find_line]. by rewrite prefixb_app, drop_app_length. Qed.

Lemma find_line_miss p l ls : prefixb p l = false -> find_line p (l :: ls) = find_line p ls.
Proof. intros H. cbn [find_line]. by rewrite H. Qed.

Lemma encode_request_lines t n q :
  identifierb t = true -> is_u32 n -> Forall (fun c => c <> 10) q ->
  lines (encode_request t n q) =
  [lit "TABLE=" ++ t; lit "LIMIT=" ++ fmt_lu n; lit "SQL=" ++ q; []].
Proof.
  intros Ht Hn Hq. unfold encode_request.
  rewrite lines_cons
    by (apply Forall_app; split; [decide_closed|by apply plain_nonl, identifier_chars]).
  rewrite lines_cons
    by (apply Forall_app; split; [decide_closed|by apply plain_nonl, fmt_lu_chars]).
  rewrite lines_cons by (apply Forall_app; split; [decide_closed|done]).
  done.
Qed.

Lemma parse_spec_encode t n q :
  identifierb t = true -> (length t < 32)%nat -> is_u32 n ->
  Forall (fun c => c <> 10) q -> trim q = q -> (length q < 256)%nat ->
  parse_spec (encode_request t n q) =
  Some (mkRequest (zbuf 256 q) (zbuf 32 t) (zbuf 256 (select_text q))
          (zbuf 256 (where_text q)) (clamp_limit q n)).
Proof.
  intros Ht Htl Hn Hq Hqt Hql. unfold parse_spec. rewrite encode_request_lines by done.
  rewrite find_line_hit.
  rewrite (find_line_miss (lit "SQL=")), (find_line_miss (lit "SQL=")), find_line_hit by done.
  rewrite (find_line_miss (lit "LIMIT=")), find_line_hit by done.
  rewrite (plain_trim t) by (by apply identifier_chars).
  rewrite (plain_trim (fmt_lu n)) by (by apply fmt_lu_chars).
  assert (length (fmt_lu n) <= 10)%nat.
  { apply digits_length; [change (10 ^ Z.of_nat 10) with 10000000000; word_lia|lia]. }
  rewrite Hqt, !take_ge by lia.
  by rewrite Ht, strtoul_fmt_lu.
Qed.

(** C21.  Round trip: a body encoded the way the clients encode it is accepted,
    and the request holds the table name, the query text and (up to the cap of
    [QUERY_MAX_ROWS]) the limit the client put in. *)
Theorem parse_encode_roundtrip (t : list Z) (n : Z) (q r : list Z) :
  identifierb t = true -> (length t < 32)%nat -> is_u32 n ->
  nonul q -> Forall (fun c => c <> 10) q -> trim q = q -> (length q < 256)%nat ->
  exists req,
    parse_request_body (encode_request t n q ++ 0 :: r) = Some (Some req) /\
    cstr (table req) = Some t /\ cstr (sql req) = Some q /\
    limit req = clamp_limit q n /\ (n <= QUERY_MAX_ROWS -> limit req = n).
Proof.
  intros Ht Htl Hn Hqn Hq Hqt Hql.
  assert (Hs : nonul (encode_request t n q)).
  { assert (nonul t) by (by apply plain_nonul, identifier_chars).
    assert (nonul (fmt_lu n)) by (by apply plain_nonul, fmt_lu_chars).
    unfold encode_request.
    rewrite !nonul_app, !nonul_cons, !nonul_app, !nonul_cons, !nonul_app.
    repeat split; try assumption; try lia; decide_closed. }
  rewrite parse_request_body_eq, parse_spec_encode by done.
  eexists. split; [done|]. cbn [table sql limit].
  rewrite !cstr_zbuf by (first [done | by apply plain_nonul, identifier_chars]).
  repeat (split; [done|]). intros Hc. unfold clamp_limit, DEFAULT_QUERY_LIMIT.
  destruct (Z.ltb_spec 0 n); [|replace n with 0 by word_lia; done].
  rewrite (proj2 (Z.ltb_ge QUERY_MAX_ROWS n)) by done.
  by rewrite (proj2 (Z.eqb_neq n 0)) by lia.
Qed.

Lemma parse_encode_roundtrip_witness :
  exists req,
    parse_request_body (encode_request (lit "alunos") 10 (lit "SELECT * FROM alunos") ++ [0]) =
      Some (Some req) /\ limit req = 10.
Proof.
  destruct (parse_encode_roundtrip (lit "alunos") 10 (lit "SELECT * FROM alunos") []
    ltac:(reflexivity) ltac:(cbn; lia) ltac:(word_lia) ltac:(decide_closed)
    ltac:(decide_closed) ltac:(reflexivity) ltac:(cbn; lia)) as (req & H1 & _ & _ & _ & H2).
  exists req. split; [exact H1 | apply H2; unfold QUERY_MAX_ROWS; lia].
Defined.
