(* ===== verification/Table.v ===== *)
(** * Table

    The format of the table files (.tbl): the loader of network_tasks.c, the stream over the
    loaded rows, and the writer of table_format.py the loader is the inverse
    of. *)

From S2P Require Import Prelude CString Request RequestFacts.

(** ** Data *)

Definition TABLE_MAX_COLUMNS : nat := 4.
Definition TABLE_CELL_SIZE : nat := 1.
Definition TABLE_HEADER_BYTES : nat := 24 + TABLE_MAX_COLUMNS * TABLE_CELL_SIZE.
Definition TABLE_FILE_SUFFIX : list Z := lit ".tbl".
Definition SD_FILE_MAX_SIZE : Z := 262144.

Record TableSchema := mkSchema {
  version : Z;
  column_count : Z;
  row_count : Z;
  row_width : Z;
  columns : list (list Z);
}.

Definition zero_schema : TableSchema :=
  mkSchema 0 0 0 0 (replicate TABLE_MAX_COLUMNS (replicate (TABLE_CELL_SIZE + 1) 0)).

(** A stream over memory; its [file] is null in every path of the firmware.
    [memory] is the object from the address it holds, [None] the null pointer. *)
Record StreamSource := mkSource {
  memory : option (list Z);
  memory_size : Z;
  memory_offset : Z;
}.

Definition zero_source : StreamSource := mkSource None 0 0.

(** ** Operations *)

Definition read_le32 (raw : list Z) : option Z :=
  match raw with
  | b0 :: b1 :: b2 :: b3 :: _ =>
      Some (Z.lor (Z.lor (Z.lor b0 (u32 (Z.shiftl b1 8))) (u32 (Z.shiftl b2 16)))
              (u32 (Z.shiftl b3 24)))
  | _ => UB
  end.

(** The column names, one [trim_copy] per column. *)
Fixpoint load_columns (n : nat) (buf : list Z) (index : nat) (cols : list (list Z))
  : option (list (list Z)) :=
  match n with
  | O => Some cols
  | S n =>
      let? dst := (cols !! index : option (list Z)) in
      let? c := trim_copy dst (TABLE_CELL_SIZE + 1)
                  (drop (24 + index * TABLE_CELL_SIZE) buf) TABLE_CELL_SIZE in
      load_columns n buf (S index) (<[index := c]> cols)
  end.

(** [Some None] is the result 0. *)
Definition load_table_schema_from_buf (buf : list Z) (buf_bytes : Z)
  : option (option TableSchema) :=
  if buf_bytes <? Z.of_nat TABLE_HEADER_BYTES then Some None else
  let? d := memcmp buf (lit "TBL8") 4 in
  if negb (d =? 0) then Some None else
  let? v := read_le32 (drop 4 buf) in
  let? cc := read_le32 (drop 8 buf) in
  let? rc := read_le32 (drop 12 buf) in
  let? rw := read_le32 (drop 16 buf) in
  if negb (v =? 1) then Some None else
  if (cc =? 0) || (Z.of_nat TABLE_MAX_COLUMNS <? cc) then Some None else
  if negb (rw =? Z.of_nat (TABLE_MAX_COLUMNS * TABLE_CELL_SIZE)) then Some None else
  let? cols := load_columns (Z.to_nat cc) buf 0 (columns zero_schema) in
  Some (Some (mkSchema v cc rc rw cols)).

Definition source_read_word (source : StreamSource) : option (option (list Z) * StreamSource) :=
  if memory_size source <? u32 (memory_offset source + 4) then Some (None, source) else
  let? m := memory source in
  let off := Z.to_nat (memory_offset source) in
  if (length m <? off + 4)%nat then UB else
  Some (Some (take 4 (drop off m)),
        mkSource (memory source) (memory_size source) (u32 (memory_offset source + 4))).

(** What the loader needs of the SD driver: [read_file name buf size d] is the
    result, the buffer and the device state after [sd_read_file(name, buf, size)]. *)
Class FileReader (D : Type) :=
  read_file : list Z -> list Z -> Z -> D -> option (Z * list Z * D).

(** The contract of a reader: in a state that satisfies the invariant it returns,
    writes only inside the buffer, and reports at most [size] bytes. *)
Class FileReaderOk (D : Type) `{FileReader D} := {
  reader_inv : D -> Prop;
  reader_ok : forall (name buf : list Z) (d : D),
    reader_inv d -> is_Some (cstr name) -> bytes buf ->
    exists n buf' d',
      read_file name buf (Z.of_nat (length buf)) d = Some (n, buf', d') /\
      -1 <= n <= Z.of_nat (length buf) /\ length buf' = length buf /\ bytes buf' /\
      reader_inv d';
}.

Section LoadTable.
  Context {D : Type} `{FileReader D}.

(** [snprintf(fname, sizeof(fname), "%s%s", table_name, TABLE_FILE_SUFFIX)] *)
Definition table_file_name (name : list Z) : option (list Z * nat) :=
  vsnprintf_at (replicate (QUERY_TABLE_MAX_LEN + 8) 0) 0 (QUERY_TABLE_MAX_LEN + 8)
    (name ++ TABLE_FILE_SUFFIX).

(** The schema with the row count cut to the rows that are in the buffer, and the
    stream over them. *)
Definition table_source (schema : TableSchema) (buf : list Z) (file_bytes : Z)
  : option (TableSchema * StreamSource * Z) :=
  let available_bytes := u32 (file_bytes - Z.of_nat TABLE_HEADER_BYTES) in
  let available_rows :=
    if row_width schema =? 0 then 0 else available_bytes / row_width schema in
  if available_rows =? 0 then None else
  let rows := if available_rows <? row_count schema then available_rows else row_count schema in
  let schema := mkSchema (version schema) (column_count schema) rows (row_width schema)
                  (columns schema) in
  let size := u32 (row_count schema * row_width schema) in
  Some (schema, mkSource (Some (drop TABLE_HEADER_BYTES buf)) size 0, size).

(** The result: the file buffer, the driver state, and, when the call returns 1,
    the schema, the source and [*total_bytes]. *)
Definition load_table_from_sd (table_name : list Z) (sd_file_buffer : list Z) (d : D)
  : option (option (TableSchema * StreamSource * Z) * list Z * D) :=
  let? name := cstr table_name in
  let? ok := sanitize_identifier table_name in
  if negb ok then Some (None, sd_file_buffer, d) else
  let? (fname, written) := table_file_name name in
  if (written =? 0)%nat || (QUERY_TABLE_MAX_LEN + 8 <=? written)%nat
  then Some (None, sd_file_buffer, d) else
  let? (file_bytes, buf, d) := read_file fname sd_file_buffer SD_FILE_MAX_SIZE d in
  let? (file_bytes, buf, d) :=
    (if file_bytes <? 0 then read_file table_name buf SD_FILE_MAX_SIZE d
     else Some (file_bytes, buf, d)) in
  if file_bytes <? Z.of_nat TABLE_HEADER_BYTES then Some (None, buf, d) else
  let? schema := load_table_schema_from_buf buf file_bytes in
  match schema with
  | None => Some (None, buf, d)
  | Some schema => Some (table_source schema buf file_bytes, buf, d)
  end.

End LoadTable.

(** ** table_format.py: the writer *)

Definition encode_fixed (text : list Z) : option (list Z) :=
  if (TABLE_CELL_SIZE <? length text)%nat then None
  else Some (text ++ replicate (TABLE_CELL_SIZE - length text) 32).

Fixpoint encode_cells (cells : list (list Z)) : option (list Z) :=
  match cells with
  | [] => Some []
  | c :: cs => let? b := encode_fixed c in let? bs := encode_cells cs in Some (b ++ bs)
  end.

(** One row: as many cells as there are columns, padded with empty cells. *)
Definition encode_row (ncols : nat) (row : list (list Z)) : option (list Z) :=
  if negb (length row =? ncols)%nat then None
  else encode_cells (row ++ replicate (TABLE_MAX_COLUMNS - length row) []).

Fixpoint encode_rows (ncols : nat) (rows : list (list (list Z))) : option (list Z) :=
  match rows with
  | [] => Some []
  | r :: rs => let? b := encode_row ncols r in let? bs := encode_rows ncols rs in Some (b ++ bs)
  end.

(** The bytes [write_table] puts in the file; [None] is [TableFormatError]. *)
Definition write_table (cols : list (list Z)) (rows : list (list (list Z))) : option (list Z) :=
  if (length cols =? 0)%nat || (TABLE_MAX_COLUMNS <? length cols)%nat then None else
  let? body := encode_rows (length cols) rows in
  let? names := encode_cells cols in
  Some (lit "TBL8" ++ le32_bytes 1 ++ le32_bytes (Z.of_nat (length cols)) ++
        le32_bytes (Z.of_nat (length rows)) ++
        le32_bytes (Z.of_nat (TABLE_MAX_COLUMNS * TABLE_CELL_SIZE)) ++ le32_bytes 0 ++
        (names ++ replicate ((TABLE_MAX_COLUMNS - length cols) * TABLE_CELL_SIZE) 0) ++ body).

Definition demo_table : list Z :=
  match write_table [lit "i"; lit "n"; lit "c"]
          [[lit "1"; lit "A"; lit "C"]; [lit "2"; lit "B"; lit "E"]; [lit "3"; lit "C"; lit "C"]] with
  | Some b => b
  | None => []
  end.

Example demo_table_loads :
  (let? r := load_table_schema_from_buf demo_table (Z.of_nat (length demo_table)) in
   let? s := r in Some (version s, column_count s, row_count s, row_width s, cstr <$> columns s)) =
  Some (1, 3, 3, 4, [Some (lit "i"); Some (lit "n"); Some (lit "c"); Some []]).
Proof. vm_compute. reflexivity. Qed.
