(* ===== verification/TableFacts.v ===== *)
(** * TableFacts

    The loader accepts exactly well-formed tables, keeps the stream inside the
    file buffer, and inverts the writer. *)

From S2P Require Import Prelude CString Request RequestFacts Table.

(** ** Little-endian words *)

Lemma read_le32_value b0 b1 b2 b3 r :
  is_u8 b0 -> is_u8 b1 -> is_u8 b2 -> is_u8 b3 ->
  read_le32 (b0 :: b1 :: b2 :: b3 :: r) =
  Some (b0 + b1 * 2 ^ 8 + b2 * 2 ^ 16 + b3 * 2 ^ 24).
Proof.
  intros H0 H1 H2 H3. cbn [read_le32].
  rewrite !u32_small by (rewrite Z.shiftl_mul_pow2 by lia; word_lia).
  rewrite (lor_shiftl_add b0 b1 8), (lor_shiftl_add _ b2 16), (lor_shiftl_add _ b3 24)
    by word_lia. done.
Qed.

Lemma le32_bytes_u8 w : bytes (le32_bytes w).
Proof. unfold bytes, le32_bytes, is_u8. repeat constructor; apply Z.mod_pos_bound; lia. Qed.

Lemma read_le32_le32_bytes w r : is_u32 w -> read_le32 (le32_bytes w ++ r) = Some w.
Proof.
  intros Hw. unfold le32_bytes. cbn [app].
  rewrite read_le32_value by (unfold is_u8; apply Z.mod_pos_bound; lia).
  f_equal. unfold is_u32 in Hw. Z.div_mod_to_equations. lia.
Qed.

(** Any four bytes make a word, and the word determines them. *)
Lemma read_le32_total raw :
  bytes raw -> (4 <= length raw)%nat ->
  exists w, read_le32 raw = Some w /\ is_u32 w /\ take 4 raw = le32_bytes w.
Proof.
  intros Hb Hl. destruct raw as [|b0 [|b1 [|b2 [|b3 raw]]]]; cbn in Hl; try lia.
  unfold bytes in Hb. rewrite !Forall_cons in Hb. destruct Hb as (H0 & H1 & H2 & H3 & _).
  rewrite read_le32_value by done. eexists. split; [done|]. split; [word_lia|].
  unfold is_u8 in *. unfold le32_bytes. cbn [take].
  repeat f_equal; Z.div_mod_to_equations; lia.
Qed.

(** ** The loader *)

Definition column_name (b : Z) : list Z := zbuf 2 (trim [b]).

Definition column_ok (c : list Z) : Prop :=
  exists t, c = zbuf 2 t /\ nonul t /\ (length t <= 1)%nat.

Record schema_ok (sch : TableSchema) : Prop := {
  so_version : version sch = 1;
  so_count : 1 <= column_count sch <= 4;
  so_rows : is_u32 (row_count sch);
  so_width : row_width sch = 4;
  so_length : length (columns sch) = 4%nat;
  so_columns : Forall column_ok (columns sch);
}.

Lemma trim_byte b : trim [b] = [] \/ (trim [b] = [b] /\ b <> 0).
Proof.
  unfold trim. cbn [skip_space]. destruct (isspace b); [by left|]. cbn.
  destruct (is_trailer b) eqn:E; [by left|]. right. split; [done|].
  intros ->. done.
Qed.

Lemma column_name_ok b : column_ok (column_name b).
Proof.
  unfold column_name. exists (trim [b]). split; [done|].
  destruct (trim_byte b) as [->|[-> Hb]]; (split; [|cbn; lia]); [constructor|].
  constructor; [done|constructor].
Qed.

Lemma blank_column_ok : column_ok [0; 0].
Proof. exists []. split; [done|]. split; [constructor|cbn; lia]. Qed.

Lemma load_columns_spec n m pre buf :
  (n <= m)%nat -> (24 + (length pre + n) <= length buf)%nat ->
  load_columns n buf (length pre) (pre ++ replicate m [0; 0]) =
  Some (pre ++ (column_name <$> take n (drop (24 + length pre) buf)) ++ replicate (m - n) [0; 0]).
Proof.
  revert m pre. induction n as [|n IH]; intros m pre Hm Hb; cbn [load_columns].
  - cbn. by rewrite Nat.sub_0_r.
  - destruct m as [|m]; [lia|]. unfold TABLE_CELL_SIZE.
    rewrite lookup_app_r, Nat.sub_diag by lia. cbn [replicate lookup list_lookup].
    rewrite Nat.mul_1_r.
    destruct (lookup_split (drop (24 + length pre) buf) 0) as (b & Hb0 & Hd);
      [rewrite length_drop; lia|].
    change (take 0 (drop (24 + length pre) buf)) with (@nil Z) in Hd. cbn [app] in Hd.
    rewrite drop_drop in Hd. rewrite Hd.
    change (b :: drop (24 + length pre + 1) buf) with ([b] ++ drop (24 + length pre + 1) buf).
    change 1%nat with (length [b]) at 2. rewrite trim_copy_spec by (cbn; lia).
    change (1 + length [b] - 1)%nat with 1%nat. change [0; 0] with (replicate 2 0).
    assert (Ht : take 1 (trim [b]) = trim [b])
      by (apply take_ge; destruct (trim_byte b) as [->|[-> _]]; cbn; lia).
    rewrite Ht, put_str_zeros by (destruct (trim_byte b) as [->|[-> _]]; cbn; lia).
    fold (column_name b). change (replicate 2 0) with [0; 0]. rewrite insert_app_r_alt, Nat.sub_diag by lia.
    cbn [insert list_insert]. cbn [app].
    replace (pre ++ column_name b :: replicate m [0; 0])
      with ((pre ++ [column_name b]) ++ replicate m [0; 0]) by (by rewrite <- app_assoc).
    replace (S (length pre)) with (length (pre ++ [column_name b]))
      by (rewrite length_app; cbn; lia).
    rewrite IH by (rewrite ?length_app; cbn [length]; lia).
    rewrite length_app. cbn [length]. rewrite <- !app_assoc. cbn [app take].
    by replace (24 + (length pre + 1))%nat with (24 + length pre + 1)%nat by lia.
Qed.

Lemma load_columns_zero n buf :
  (n <= 4)%nat -> (24 + n <= length buf)%nat ->
  load_columns n buf 0 (columns zero_schema) =
  Some ((column_name <$> take n (drop 24 buf)) ++ replicate (4 - n) [0; 0]).
Proof. intros. apply (load_columns_spec n 4 []); [lia|cbn; lia]. Qed.

Lemma memcmp_ok p q n r :
  (n <= length p)%nat -> (n <= length q)%nat -> exists z, memcmp (p ++ r) q n = Some z.
Proof.
  revert p q. induction n as [|n IH]; intros p q Hp Hq; [by exists 0|].
  destruct p as [|c p], q as [|d q]; cbn in Hp, Hq; try lia. cbn.
  destruct (negb _); [by eexists|]. apply IH; lia.
Qed.

Lemma drop_le32 n buf :
  bytes buf -> (n + 4 <= length buf)%nat -> exists w, read_le32 (drop n buf) = Some w /\ is_u32 w.
Proof.
  intros Hb Hl. destruct (read_le32_total (drop n buf)) as (w & ? & ? & _);
    [by apply bytes_drop|rewrite length_drop; lia|by exists w].
Qed.

Lemma load_schema_total buf n :
  bytes buf -> n <= Z.of_nat (length buf) ->
  exists r, load_table_schema_from_buf buf n = Some r /\
    (forall sch, r = Some sch -> schema_ok sch /\ Z.of_nat TABLE_HEADER_BYTES <= n).
Proof.
  intros Hb Hn. unfold load_table_schema_from_buf.
  destruct (Z.ltb_spec n (Z.of_nat TABLE_HEADER_BYTES)) as [|H28]; [by exists None|].
  change (Z.of_nat TABLE_HEADER_BYTES) with 28 in *.
  destruct (memcmp_ok buf (lit "TBL8") 4 []) as [z Hz]; [lia|cbn; lia|].
  rewrite app_nil_r in Hz. rewrite Hz. destruct (negb (z =? 0)); [by exists None|].
  destruct (drop_le32 4 buf) as (v & -> & Hv); [done|lia|].
  destruct (drop_le32 8 buf) as (cc & -> & Hcc); [done|lia|].
  destruct (drop_le32 12 buf) as (rc & -> & Hrc); [done|lia|].
  destruct (drop_le32 16 buf) as (rw & -> & Hrw); [done|lia|].
  destruct (Z.eqb_spec v 1) as [->|]; [|by exists None]. cbn [negb].
  change (Z.of_nat TABLE_MAX_COLUMNS) with 4.
  change (Z.of_nat (TABLE_MAX_COLUMNS * TABLE_CELL_SIZE)) with 4.
  destruct ((cc =? 0) || (4 <? cc)) eqn:E; [by exists None|].
  destruct (Z.eqb_spec rw 4) as [->|]; [|by exists None]. cbn [negb].
  assert (1 <= cc <= 4) by word_lia.
  rewrite load_columns_zero by lia. eexists. split; [done|].
  intros sch [= <-]. split; [|done]. constructor; cbn [version column_count row_count row_width columns]; try done.
  - rewrite length_app, length_fmap, length_take, length_replicate, length_drop. lia.
  - apply Forall_app. split.
    + apply Forall_fmap, Forall_true. intros b. apply column_name_ok.
    + apply Forall_replicate, blank_column_ok.
Qed.

Lemma table_source_spec sch buf n :
  schema_ok sch -> 28 <= n <= Z.of_nat (length buf) -> n < 2 ^ 31 ->
  match table_source sch buf n with
  | None => n < 32
  | Some (sch', src, total) =>
      schema_ok sch' /\ columns sch' = columns sch /\ column_count sch' = column_count sch /\
      row_count sch' = Z.min (row_count sch) ((n - 28) / 4) /\
      src = mkSource (Some (drop TABLE_HEADER_BYTES buf)) total 0 /\
      total = 4 * row_count sch' /\ total + 28 <= n
  end.
Proof.
  intros [Hv Hc Hr Hw Hl Hf] Hn Hn31. unfold table_source. rewrite Hw.
  change (Z.of_nat TABLE_HEADER_BYTES) with 28. change (4 =? 0) with false. cbv iota.
  rewrite (u32_small (n - 28)) by word_lia.
  pose proof (Z.div_mod (n - 28) 4 ltac:(lia)). pose proof (Z.mod_pos_bound (n - 28) 4 ltac:(lia)).
  set (a := (n - 28) / 4) in *.
  destruct (Z.eqb_spec a 0); [lia|]. cbn [row_count version column_count row_width columns].
  assert (Hmin : (if a <? row_count sch then a else row_count sch) = Z.min (row_count sch) a)
    by (destruct (Z.ltb_spec a (row_count sch)); lia).
  rewrite Hmin. assert (0 <= Z.min (row_count sch) a <= a) by word_lia.
  rewrite u32_small by word_lia.
  split; [constructor; cbn; try done; word_lia|]. repeat (split; [done|]). lia.
Qed.

Lemma source_read_word_spec m size off :
  0 <= off -> off + 4 <= size -> size <= Z.of_nat (length m) -> size < 2 ^ 32 ->
  source_read_word (mkSource (Some m) size off) =
  Some (Some (take 4 (drop (Z.to_nat off) m)), mkSource (Some m) size (off + 4)).
Proof.
  intros H0 H1 H2 H3. unfold source_read_word. cbn [memory memory_size memory_offset].
  rewrite u32_small by word_lia. rewrite (proj2 (Z.ltb_ge _ _)) by done.
  by rewrite (proj2 (Nat.ltb_ge _ _)) by lia.
Qed.

Lemma source_read_word_end m size off :
  0 <= off -> size < off + 4 < 2 ^ 32 ->
  source_read_word (mkSource m size off) = Some (None, mkSource m size off).
Proof.
  intros H0 H1. unfold source_read_word. cbn [memory memory_size memory_offset].
  rewrite u32_small by word_lia. by rewrite (proj2 (Z.ltb_lt _ _)) by lia.
Qed.

(** ** Loading from the card *)

Section Load.
  Context {D : Type} `{FR : FileReader D} {FRok : FileReaderOk D}.

Lemma table_file_name_spec name :
  (length name < 32)%nat ->
  exists r, table_file_name name = Some (name ++ TABLE_FILE_SUFFIX ++ 0 :: r, (length name + 4)%nat).
Proof.
  intros Hn. unfold table_file_name, vsnprintf_at.
  change (QUERY_TABLE_MAX_LEN + 8)%nat with 40%nat. change (40 =? 0)%nat with false. cbv iota.
  rewrite take_ge by (rewrite length_app; cbn; lia).
  rewrite memcpy_at_some by (rewrite !length_app, length_replicate; cbn; lia).
  assert (Hl : length (name ++ TABLE_FILE_SUFFIX) = (length name + 4)%nat)
    by (rewrite length_app; reflexivity).
  eexists. rewrite Hl, <- !app_assoc. reflexivity.
Qed.

Lemma load_table_from_sd_spec t buf d :
  identifierb t = true -> (length t < 32)%nat ->
  length buf = Z.to_nat SD_FILE_MAX_SIZE -> bytes buf -> reader_inv d ->
  exists res buf' d',
    load_table_from_sd (zbuf 32 t) buf d = Some (res, buf', d') /\
    reader_inv d' /\ length buf' = length buf /\ bytes buf' /\
    (forall sch src total, res = Some (sch, src, total) ->
       schema_ok sch /\ src = mkSource (Some (drop TABLE_HEADER_BYTES buf')) total 0 /\
       total = 4 * row_count sch /\ total + 28 <= Z.of_nat (length buf')).
Proof.
  intros Hid Hlt Hbl Hb Hinv. unfold load_table_from_sd.
  pose proof (plain_nonul t (identifier_chars t Hid)) as Hnn.
  assert (Hsz : SD_FILE_MAX_SIZE = Z.of_nat (length buf))
    by (rewrite Hbl; unfold SD_FILE_MAX_SIZE; lia).
  assert (Hc : cstr (zbuf 32 t) = Some t) by (by apply cstr_zbuf).
  assert (Hs : sanitize_identifier (zbuf 32 t) = Some true)
    by (rewrite zbuf_split, sanitize_identifier_spec, Hid by done; done).
  rewrite Hc, Hs. cbn [negb].
  destruct (table_file_name_spec t Hlt) as [r ->].
  rewrite (proj2 (Nat.eqb_neq _ _)) by lia.
  rewrite (proj2 (Nat.leb_gt _ _)) by (change (QUERY_TABLE_MAX_LEN + 8)%nat with 40%nat; lia).
  cbn [orb]. rewrite Hsz.
  destruct (reader_ok (t ++ TABLE_FILE_SUFFIX ++ 0 :: r) buf d Hinv) as
    (n1 & b1 & d1 & -> & Hn1 & Hl1 & Hb1 & Hi1); [|done|].
  { rewrite app_assoc, cstr_app; [by eexists|]. apply nonul_app. split; [done|decide_closed]. }
  assert (H2 : exists n b2 d2,
    (if n1 <? 0 then read_file (zbuf 32 t) b1 (Z.of_nat (length buf)) d1
     else Some (n1, b1, d1)) = Some (n, b2, d2) /\
    -1 <= n <= Z.of_nat (length b2) /\ length b2 = length buf /\ bytes b2 /\ reader_inv d2).
  { destruct (n1 <? 0); [|exists n1, b1, d1; rewrite Hl1; auto].
    destruct (reader_ok (zbuf 32 t) b1 d1 Hi1) as (n2 & b2 & d2 & He & Hn2 & Hl2 & Hb2 & Hi2);
      [by rewrite Hc|done|]. rewrite Hl1 in He, Hn2, Hl2. rewrite He.
    exists n2, b2, d2. rewrite Hl2. auto. }
  destruct H2 as (n & b2 & d2 & -> & Hn & Hl2 & Hb2 & Hi2).
  change (Z.of_nat TABLE_HEADER_BYTES) with 28.
  destruct (Z.ltb_spec n 28); [by exists None, b2, d2; repeat (split; [done|])|].
  destruct (load_schema_total b2 n Hb2 ltac:(lia)) as (os & -> & Hos).
  destruct os as [sch|]; [|by exists None, b2, d2; repeat (split; [done|])].
  destruct (Hos sch eq_refl) as [Hsch _].
  eexists _, b2, d2. split; [done|]. repeat (split; [done|]).
  pose proof (table_source_spec sch b2 n Hsch) as Hts.
  intros sch' src total Heq. rewrite Heq in Hts.
  destruct Hts as (? & _ & _ & _ & ? & ? & ?);
    [lia|unfold SD_FILE_MAX_SIZE in *; lia|]. repeat (split; [done|]). lia.
Qed.

End Load.

(** A card that holds one file, whatever the name. *)
Definition one_file_reader : FileReader (list Z) := fun _ buf size f =>
  let n := Nat.min (length f) (length buf) in
  Some (Z.of_nat n, take n f ++ drop n buf, f).

(** ** Round trip with the writer *)

Definition cell_byte (c : list Z) : Z := match c with [] => 32 | b :: _ => b end.

Lemma encode_fixed_inv c b : encode_fixed c = Some b -> b = [cell_byte c].
Proof.
  unfold encode_fixed. destruct c as [|x [|y c]]; cbn; [intros [= <-]; done..|done].
Qed.

Lemma encode_cells_inv cs b : encode_cells cs = Some b -> b = cell_byte <$> cs.
Proof.
  revert b. induction cs as [|c cs IH]; intros b; cbn; [by intros [= <-]|].
  destruct (encode_fixed c) as [x|] eqn:E; [|done]. apply encode_fixed_inv in E as ->.
  destruct (encode_cells cs) as [y|]; [|done]. intros [= <-]. by rewrite (IH y eq_refl).
Qed.

(** The four bytes of a row. *)
Definition row_bytes (row : list (list Z)) : list Z :=
  cell_byte <$> (row ++ replicate (4 - length row) []).

Lemma encode_rows_inv k rows b :
  (k <= 4)%nat -> encode_rows k rows = Some b ->
  b = concat (row_bytes <$> rows) /\ length b = (4 * length rows)%nat.
Proof.
  intros Hk. revert b. induction rows as [|r rows IH]; intros b; cbn [encode_rows];
    [by intros [= <-]|].
  unfold encode_row. destruct (Nat.eqb_spec (length r) k) as [Hl|]; [|done]. cbn [negb].
  destruct (encode_cells _) as [x|] eqn:E; [|done]. apply encode_cells_inv in E.
  destruct (encode_rows k rows) as [y|]; [|done]. intros [= <-].
  destruct (IH y eq_refl) as [-> Hy]. cbn [fmap list_fmap concat]. rewrite E.
  split; [done|]. rewrite length_app, Hy, length_fmap, length_app, length_replicate.
  unfold TABLE_MAX_COLUMNS. cbn [length]. lia.
Qed.

Definition written_schema (cols : list (list Z)) (nrows : Z) : TableSchema :=
  mkSchema 1 (Z.of_nat (length cols)) nrows 4
    ((fun c => column_name (cell_byte c)) <$> (cols ++ replicate (4 - length cols) [0])).

Lemma load_header cc rc names tail n :
  1 <= cc <= 4 -> is_u32 rc -> length names = 4%nat -> 28 <= n ->
  load_table_schema_from_buf
    (lit "TBL8" ++ le32_bytes 1 ++ le32_bytes cc ++ le32_bytes rc ++ le32_bytes 4 ++
     le32_bytes 0 ++ names ++ tail) n =
  Some (Some (mkSchema 1 cc rc 4
    ((column_name <$> take (Z.to_nat cc) names) ++ replicate (4 - Z.to_nat cc) [0; 0]))).
Proof.
  intros Hcc Hrc Hn Hlen. unfold load_table_schema_from_buf.
  change (Z.of_nat TABLE_HEADER_BYTES) with 28. rewrite (proj2 (Z.ltb_ge _ _)) by done.
  set (buf := _ ++ _).
  replace (memcmp buf (lit "TBL8") 4) with (Some 0) by reflexivity.
  replace (read_le32 (drop 4 buf)) with (Some 1) by reflexivity.
  replace (read_le32 (drop 8 buf)) with (Some cc)
    by (symmetry; apply (read_le32_le32_bytes cc); word_lia).
  replace (read_le32 (drop 12 buf)) with (Some rc)
    by (symmetry; by apply (read_le32_le32_bytes rc)).
  replace (read_le32 (drop 16 buf)) with (Some 4) by reflexivity.
  change (Z.of_nat TABLE_MAX_COLUMNS) with 4.
  change (Z.of_nat (TABLE_MAX_COLUMNS * TABLE_CELL_SIZE)) with 4. cbn [negb Z.eqb].
  rewrite (proj2 (Z.eqb_neq cc 0)), (proj2 (Z.ltb_ge 4 cc)) by lia. cbn [orb].
  change (negb (Pos.eqb 1 1)) with false. change (negb (Pos.eqb 4 4)) with false. cbv iota.
  rewrite load_columns_zero
    by (try lia; unfold buf; rewrite !length_app; change (length (lit "TBL8")) with 4%nat;
        unfold le32_bytes; cbn [length]; lia).
  change (drop 24 buf) with (names ++ tail). by rewrite take_app_le by lia.
Qed.

(** C13.  The loader inverts [write_table] of table_format.py: a file it wrote, of
    at least one row and within the buffer, loads with the column names and the
    row count that were written, and the stream is exactly the rows. *)
Theorem load_write_roundtrip (cols : list (list Z)) (rows : list (list (list Z)))
    (f rest : list Z) :
  write_table cols rows = Some f -> rows <> [] -> Z.of_nat (length f) <= SD_FILE_MAX_SIZE ->
  let sch := written_schema cols (Z.of_nat (length rows)) in
  let total := 4 * Z.of_nat (length rows) in
  load_table_schema_from_buf (f ++ rest) (Z.of_nat (length f)) = Some (Some sch) /\
  table_source sch (f ++ rest) (Z.of_nat (length f)) =
    Some (sch, mkSource (Some (concat (row_bytes <$> rows) ++ rest)) total 0, total).
Proof.
  unfold write_table. intros Hw Hne Hlen. cbv zeta.
  destruct (Nat.eqb_spec (length cols) 0) as [|Hc0]; [done|].
  change TABLE_MAX_COLUMNS with 4%nat in Hw.
  destruct (Nat.ltb_spec 4 (length cols)) as [|Hc4]; [done|]. cbn [orb] in Hw.
  destruct (encode_rows _ rows) as [body|] eqn:Eb; [|done].
  apply encode_rows_inv in Eb as [Hbody Hbl]; [|done].
  destruct (encode_cells cols) as [names|] eqn:En; [|done]. apply encode_cells_inv in En.
  set (n4 := names ++ replicate ((4 - length cols) * TABLE_CELL_SIZE) 0) in Hw.
  assert (Hnl : length names = length cols) by (by rewrite En, length_fmap).
  assert (Hn4 : length n4 = 4%nat).
  { unfold n4, TABLE_CELL_SIZE. rewrite length_app, length_replicate. lia. }
  assert (Hf : f = lit "TBL8" ++ le32_bytes 1 ++ le32_bytes (Z.of_nat (length cols)) ++
    le32_bytes (Z.of_nat (length rows)) ++ le32_bytes 4 ++ le32_bytes 0 ++ n4 ++ body)
    by (by injection Hw as <-).
  clear Hw. assert (Hfl : length f = (28 + 4 * length rows)%nat).
  { rewrite Hf, !length_app, Hn4, Hbl. change (length (lit "TBL8")) with 4%nat.
    unfold le32_bytes. cbn [length]. lia. }
  unfold SD_FILE_MAX_SIZE in Hlen.
  assert (Hcolumns : (column_name <$> take (length cols) n4) ++ replicate (4 - length cols) [0; 0]
    = columns (written_schema cols (Z.of_nat (length rows)))).
  { unfold n4. rewrite <- Hnl at 1. rewrite take_app_length, En. cbn [columns written_schema].
    rewrite fmap_app, <- list_fmap_compose. f_equal. rewrite fmap_replicate. done. }
  split.
  - rewrite Hf at 1. rewrite <- !app_assoc.
    rewrite load_header by (first [done | unfold is_u32; lia]).
    rewrite Nat2Z.id, Hcolumns. done.
  - unfold table_source. cbn [row_width written_schema version column_count row_count columns].
    change (4 =? 0) with false. cbv iota. change (Z.of_nat TABLE_HEADER_BYTES) with 28.
    rewrite (u32_small (Z.of_nat (length f) - 28)) by word_lia.
    replace (Z.of_nat (length f) - 28) with (Z.of_nat (length rows) * 4) by lia.
    rewrite Z.div_mul by done. destruct rows as [|r0 rows]; [done|].
    rewrite (proj2 (Z.eqb_neq _ _)) by (cbn [length]; lia).
    rewrite Z.ltb_irrefl, u32_small by (unfold is_u32; lia).
    replace (drop TABLE_HEADER_BYTES (f ++ rest)) with (concat (row_bytes <$> r0 :: rows) ++ rest).
    + by rewrite Z.mul_comm.
    + rewrite Hf, <- !app_assoc, <- Hbody.
      transitivity (drop 4 (n4 ++ body ++ rest)); [|reflexivity].
      by rewrite drop_app_ge, Hn4 by lia.
Qed.

Lemma load_write_roundtrip_witness :
  let cols := [lit "i"; lit "n"] in
  let rows := [[lit "1"; lit "A"]; [lit "2"; lit "B"]; [[]; lit "C"]] in
  exists f, write_table cols rows = Some f /\
    load_table_schema_from_buf f (Z.of_nat (length f)) = Some (Some (written_schema cols 3)).
Proof.
  eexists. split; [reflexivity|]. cbv zeta.
  destruct (load_write_roundtrip [lit "i"; lit "n"] [[lit "1"; lit "A"]; [lit "2"; lit "B"]; [[]; lit "C"]]
    _ [] ltac:(reflexivity) ltac:(discriminate) ltac:(vm_compute; discriminate)) as [H _].
  rewrite app_nil_r in H. exact H.
Defined.
