(* ===== verification/Compile.v ===== *)
(** * Compile

    The translation of a request into accelerator instructions
    (compile_and_send_instructions and find_column_index of network_tasks.c).
    Pointers into [where_clause] and [select_list] are the rest of the array. *)

From S2P Require Import Prelude CString Request Table.

(** ** Column lookup *)

Fixpoint column_loop (n : nat) (i : nat) (cols : list (list Z)) (col_name : list Z)
  : option Z :=
  match n with
  | O => Some (-1)
  | S n =>
      let? len := strlen col_name in
      let? col := (cols !! i : option (list Z)) in
      let? z := ascii_strncasecmp_local col col_name len in
      let? same := (if z =? 0 then let? l := strlen col in Some (l =? len)%nat
                    else Some false) in
      if same then Some (Z.of_nat i) else column_loop n (S i) cols col_name
  end.

Definition find_column_index (schema : TableSchema) (col_name : list Z) : option Z :=
  column_loop (Z.to_nat (column_count schema)) 0 (columns schema) col_name.

(** [char col_name[64]] holding the copied name, zero elsewhere. *)
Definition name_buffer (name : list Z) : list Z := name ++ replicate (64 - length name) 0.

(** ** Scanning *)

Fixpoint skip_blanks (p : list Z) : option (list Z) :=
  match p with
  | [] => UB
  | c :: p' => if c =? 32 then skip_blanks p' else Some p
  end.

(** Copy bytes while [keep] holds and fewer than [n] were copied. *)
Fixpoint copy_while (keep : Z -> bool) (n : nat) (p : list Z) {struct p}
  : option (list Z * list Z) :=
  match p with
  | [] => UB
  | c :: p' =>
      if keep c then
        match n with
        | O => Some ([], p)
        | S n => let? (t, r) := copy_while keep n p' in Some (c :: t, r)
        end
      else Some ([], p)
  end.

Definition is_op_char (c : Z) : bool :=
  (c =? ch "=") || (c =? ch "<") || (c =? ch ">") || (c =? ch "!").

Definition where_name_char (c : Z) : bool :=
  negb ((c =? 32) || is_op_char c || (c =? 0)).

(** [while ( *ptr != ' ' && *ptr != 0) ptr++] *)
Fixpoint skip_word (p : list Z) : option (list Z) :=
  match p with
  | [] => UB
  | c :: p' => if (c =? 32) || (c =? 0) then Some p else skip_word p'
  end.

(** The literal of a condition: its value as an [int], and the rest. *)
Definition parse_value (p : list Z) : option (Z * list Z) :=
  let? c := head p in
  if c =? ch "'" then
    let? v := head (tail p) in
    let? d := head (tail (tail p)) in
    Some (s8 v, if d =? ch "'" then tail (tail (tail p)) else tail (tail p))
  else if negb (isdigit c) && negb (c =? ch "-") && negb (c =? ch "+") && isalpha c then
    let? r := skip_word p in Some (s8 c, r)
  else
    let? single :=
      (if isdigit c then let? d := head (tail p) in Some ((d =? 32) || (d =? 0))
       else Some false) in
    if single then Some (s8 c, tail p)
    else
      let? text := cstr p in
      let? r := skip_word p in
      Some (atoi text, r).

(** [ascii_strncasecmp_local(ptr, "AND ", 4) == 0], and the skip it guards. *)
Definition skip_and (p : list Z) : option (list Z) :=
  let? z := ascii_strncasecmp_local p (lit "AND ") 4 in
  if z =? 0 then skip_blanks (drop 4 p) else Some p.

Record Condition := mkCondition {
  cond_name : list Z;
  cond_op : list Z;
  cond_val : Z;
}.

(** One condition, from the first byte that is not a blank. *)
Definition parse_condition (p : list Z) : option (Condition * list Z) :=
  let? p := skip_and p in
  let? (name, p) := copy_while where_name_char 63 p in
  let? p := skip_blanks p in
  let? (op, p) := copy_while is_op_char 3 p in
  let? p := skip_blanks p in
  let? (val, p) := parse_value p in
  Some (mkCondition name op val, p).

(** ** Code generation *)

Definition op_code (op : list Z) : Z :=
  if bool_decide (op = lit "=") || bool_decide (op = lit "==") then 0
  else if bool_decide (op = lit "!=") then 1
  else if bool_decide (op = lit "<") then 2
  else if bool_decide (op = lit "<=") then 3
  else if bool_decide (op = lit ">") then 4
  else if bool_decide (op = lit ">=") then 5
  else 0.

Definition limit_instruction (lim : Z) : Z := Z.lor (Z.shiftl 2 28) (Z.land lim 0xFF).

Definition where_instruction (col_idx val op : Z) : Z :=
  Z.lor (Z.lor (Z.lor (Z.shiftl 1 28) (Z.shiftl (Z.land col_idx 0x3F) 11))
           (Z.shiftl (Z.land val 0xFF) 3)) (Z.land op 0x7).

Definition count_instruction (col_idx : Z) : Z := Z.lor (Z.shiftl 3 28) (Z.land col_idx 0x3F).
Definition sum_instruction (col_idx : Z) : Z := Z.lor (Z.shiftl 4 28) (Z.land col_idx 0x3F).

(** [err_msg], 256 bytes, zero-initialised by the caller. *)
Definition error_text (text : list Z) : option (list Z) :=
  let? (buf, _) := vsnprintf_at (replicate 256 0) 0 256 text in Some buf.

(** What a stage does: the instructions it sends, in order, and the message when
    it makes the function return 0. *)
Definition Emit : Type := (list Z * option (list Z))%type.

Definition fail (text : list Z) : option Emit :=
  let? buf := error_text text in Some ([], Some buf).

(** [first] sends its instructions; the rest runs unless it failed. *)
Definition after (first : Emit) (rest : option Emit) : option Emit :=
  match first with
  | (i, Some msg) => Some (i, Some msg)
  | (i, None) => let? (j, msg) := rest in Some (i ++ j, msg)
  end.

Definition compile_limit (request : QueryRequest) : Emit :=
  (if 0 <? limit request then [limit_instruction (limit request)] else [], None).

(** The condition's instruction, or the reason it has none. *)
Definition compile_condition (schema : TableSchema) (where_count : nat) (c : Condition)
  : option Emit :=
  let? col_idx := find_column_index schema (name_buffer (cond_name c)) in
  if col_idx <? 0 then fail (lit "Coluna do WHERE nao existe: " ++ cond_name c)
  else if (4 <=? where_count)%nat
  then fail (lit "O limite de condicoes WHERE concatenadas por AND e 4.")
  else Some ([where_instruction col_idx (cond_val c) (op_code (cond_op c))], None).

(** The loop over the conditions; every iteration that goes on has consumed at
    least one byte, so the length of the array is enough fuel. *)
Fixpoint where_loop (fuel : nat) (schema : TableSchema) (where_count : nat) (p : list Z)
  : option Emit :=
  match fuel with
  | O => UB
  | S fuel =>
      let? c := head p in
      if c =? 0 then Some ([], None)
      else
        let? p := skip_blanks p in
        let? c := head p in
        if c =? 0 then Some ([], None)
        else
          let? (cond, p) := parse_condition p in
          let? first := compile_condition schema where_count cond in
          after first (where_loop fuel schema (S where_count) p)
  end.

Definition compile_where (request : QueryRequest) (schema : TableSchema) : option Emit :=
  let? c := head (where_clause request) in
  if c =? 0 then Some ([], None)
  else where_loop (S (length (where_clause request))) schema 0 (where_clause request).

Definition call_arg_char (c : Z) : bool := negb ((c =? ch ")") || (c =? 0)).

Definition compile_count (request : QueryRequest) (schema : TableSchema) : option Emit :=
  let? (name, _) := copy_while call_arg_char 63 (drop 6 (select_list request)) in
  let? col_idx := find_column_index schema (name_buffer name) in
  if col_idx <? 0 then fail (lit "Coluna do COUNT nao existe: " ++ name)
  else Some ([count_instruction col_idx], None).

(** The check of the first cell of the column, when the source has data. *)
Definition sum_check (source : StreamSource) (col_idx : Z) (name : list Z)
  : option (option (list Z)) :=
  match memory source with
  | Some m =>
      if memory_offset source <? memory_size source then
        let? b := (m !! Z.to_nat (memory_offset source + col_idx * Z.of_nat TABLE_CELL_SIZE)
                   : option Z) in
        let val := s8 b in
        if (val <? ch "0") || (ch "9" <? val)
        then Some <$> error_text (lit "Nao e possivel somar a coluna '" ++ name ++
               lit "' pois ela contem texto (valor ascii: '" ++ [u8 val] ++ lit "')")
        else Some None
      else Some None
  | None => Some None
  end.

Definition compile_sum (request : QueryRequest) (schema : TableSchema) (source : StreamSource)
  : option Emit :=
  let? (name, _) := copy_while call_arg_char 63 (drop 4 (select_list request)) in
  let? col_idx := find_column_index schema (name_buffer name) in
  if col_idx <? 0 then fail (lit "Coluna do SUM nao existe: " ++ name)
  else
    let? bad := sum_check source col_idx name in
    match bad with
    | Some msg => Some ([], Some msg)
    | None => Some ([sum_instruction col_idx], None)
    end.

Definition list_name_char (c : Z) : bool := negb ((c =? ch ",") || (c =? 32) || (c =? 0)).

Fixpoint skip_separators (p : list Z) : option (list Z) :=
  match p with
  | [] => UB
  | c :: p' => if (c =? 32) || (c =? ch ",") then skip_separators p' else Some p
  end.

(** The check that every listed column exists. *)
Fixpoint select_loop (fuel : nat) (schema : TableSchema) (p : list Z) : option Emit :=
  match fuel with
  | O => UB
  | S fuel =>
      let? c := head p in
      if c =? 0 then Some ([], None)
      else
        let? p := skip_blanks p in
        let? (name, p) := copy_while list_name_char 63 p in
        let? col_idx := (match name with
                         | [] => Some 0
                         | _ => find_column_index schema (name_buffer name)
                         end) in
        if col_idx <? 0 then fail (lit "Coluna do SELECT nao existe: " ++ name)
        else let? p := skip_separators p in select_loop fuel schema p
  end.

Definition compile_select (request : QueryRequest) (schema : TableSchema)
    (source : StreamSource) : option Emit :=
  let? is_count := ascii_strncasecmp_local (select_list request) (lit "COUNT(") 6 in
  if is_count =? 0 then compile_count request schema
  else
    let? is_sum := ascii_strncasecmp_local (select_list request) (lit "SUM(") 4 in
    if is_sum =? 0 then compile_sum request schema source
    else
      let? c := head (select_list request) in
      if negb (c =? ch "*")
      then select_loop (S (length (select_list request))) schema (select_list request)
      else Some ([], None).

(** The whole translation: the instructions sent, and the error message when the
    function returns 0. *)
Definition compile_instructions (request : QueryRequest) (schema : TableSchema)
    (source : StreamSource) : option Emit :=
  let? whr := compile_where request schema in
  after (compile_limit request)
    (after whr (compile_select request schema source)).

Definition demo_schema : TableSchema :=
  mkSchema 1 3 3 4 [lit "i" ++ [0]; lit "n" ++ [0]; lit "c" ++ [0]; [0; 0]].

Example demo_compiled :
  (let? r := parse_request_body demo_body in let? r := r in
   compile_instructions r demo_schema zero_source) =
  Some ([0x2000000A; 0x1000019D; 0x10001218], None).
Proof. vm_compute. reflexivity. Qed.
