(* ===== verification/CompileFacts.v ===== *)
(** * CompileFacts

    The translation is total and memory safe on every accepted request, and the
    instructions of a rendered WHERE clause are the encodings of its
    conditions. *)

From S2P Require Import Prelude CString Request RequestFacts Table TableFacts Compile.

(** ** Column lookup on texts *)

Definition ci_eqb (a b : list Z) : bool := ci_prefixb a b && (length b =? length a)%nat.

(** The names of the columns in use. *)
Definition names_of (sch : TableSchema) (names : list (list Z)) : Prop :=
  columns sch = zbuf 2 <$> names /\ Forall (fun t => nonul t /\ (length t <= 1)%nat) names.

Fixpoint ci_index (i : nat) (name : list Z) (names : list (list Z)) : Z :=
  match names with
  | [] => -1
  | t :: names => if ci_eqb name t then Z.of_nat i else ci_index (S i) name names
  end.

Lemma schema_names sch : schema_ok sch -> exists names, names_of sch names /\ length names = 4%nat.
Proof.
  intros [_ _ _ _ Hl Hc]. unfold names_of.
  enough (exists names, columns sch = zbuf 2 <$> names /\
    Forall (fun t => nonul t /\ (length t <= 1)%nat) names) as (ns & H1 & H2).
  { exists ns. split; [done|]. rewrite H1, length_fmap in Hl. done. }
  clear Hl. induction Hc as [|c cs (t & -> & Ht) Hcs (ns & IH1 & IH2)]; [by exists []|].
  exists (t :: ns). cbn. split; [by rewrite IH1|by constructor].
Qed.

Lemma name_buffer_split name :
  (length name < 64)%nat -> exists r, name_buffer name = name ++ 0 :: r.
Proof. intros H. eexists. unfold name_buffer. exact (zbuf_split 64 name H). Qed.

Lemma column_loop_spec n i cols names name r :
  nonul name -> (i + n <= length cols)%nat ->
  cols = zbuf 2 <$> names -> Forall (fun t => nonul t /\ (length t <= 1)%nat) names ->
  column_loop n i cols (name ++ 0 :: r) = Some (ci_index i name (take n (drop i names))).
Proof.
  intros Hname Hlen -> Hn. revert i Hlen. rewrite length_fmap.
  induction n as [|n IH]; intros i Hlen; cbn [column_loop]; [by rewrite take_0|].
  unfold strlen. rewrite cstr_app by done. cbn [fmap option_fmap option_map].
  destruct (lookup_split names i) as (t & Ht & Hsp); [lia|].
  replace ((zbuf 2 <$> names) !! i) with (Some (zbuf 2 t))
    by (rewrite list_lookup_fmap, Ht; done).
  assert (Htk : nonul t /\ (length t <= 1)%nat) by (eapply Forall_lookup_1 in Hn; [exact Hn|exact Ht]).
  destruct Htk as [Ht0 Ht1]. rewrite zbuf_split by lia.
  destruct (casecmp_spec t (replicate (2 - S (length t)) 0) name (0 :: r) Hname) as (z & -> & Hz).
  rewrite cstr_app by done. cbn [fmap option_fmap option_map].
  assert (Hdrop : drop i names = t :: drop (S i) names).
  { rewrite Hsp at 1. rewrite drop_app_ge by (rewrite length_take; lia).
    rewrite length_take. by replace (i - i `min` length names)%nat with 0%nat by lia. }
  rewrite Hdrop, firstn_cons. cbn [ci_index]. unfold ci_eqb. rewrite <- Hz.
  destruct (z =? 0); cbn [andb]; [|rewrite IH by lia; done].
  destruct (length t =? length name)%nat; [done|]. rewrite IH by lia. done.
Qed.

Lemma ci_index_range i name names :
  ci_index i name names = -1 \/
  Z.of_nat i <= ci_index i name names < Z.of_nat i + Z.of_nat (length names).
Proof.
  revert i. induction names as [|t ns IH]; intros i; cbn [ci_index length]; [by left|].
  destruct (ci_eqb name t); [right; lia|]. destruct (IH (S i)); [by left|right; lia].
Qed.

Lemma find_column_index_spec sch names name :
  names_of sch names -> nonul name -> (length name < 64)%nat ->
  0 <= column_count sch <= Z.of_nat (length names) ->
  find_column_index sch (name_buffer name) =
  Some (ci_index 0 name (take (Z.to_nat (column_count sch)) names)).
Proof.
  intros [Hc Hn] Hname Hlen Hcc. unfold find_column_index.
  destruct (name_buffer_split name Hlen) as [r ->].
  rewrite (column_loop_spec _ 0 _ names) by (rewrite ?Hc, ?length_fmap; (done || lia)).
  by rewrite drop_0.
Qed.

Lemma find_column_index_total sch name :
  schema_ok sch -> nonul name -> (length name < 64)%nat ->
  exists i, find_column_index sch (name_buffer name) = Some i /\ -1 <= i < column_count sch.
Proof.
  intros Hs Hname Hlen. destruct (schema_names sch Hs) as (ns & Hns & Hl).
  pose proof (so_count sch Hs). rewrite (find_column_index_spec sch ns) by (done || lia).
  eexists. split; [done|].
  destruct (ci_index_range 0 name (take (Z.to_nat (column_count sch)) ns)) as [->|Hr]; [lia|].
  rewrite length_take in Hr. lia.
Qed.

(** ** Scanning a text followed by its NUL *)

Lemma skip_blanks_spec t z :
  nonul t -> exists b t', t = b ++ t' /\ skip_blanks (t ++ 0 :: z) = Some (t' ++ 0 :: z) /\
    (match t' with c :: _ => c <> 32 | [] => True end).
Proof.
  induction t as [|c t IH]; intros Hn; [exists [], []; done|].
  apply nonul_cons in Hn as [Hc Hn]. cbn [app skip_blanks].
  destruct (Z.eqb_spec c 32) as [->|Hc32].
  - destruct (IH Hn) as (b & t' & -> & E & Ht). exists (32 :: b), t'. done.
  - exists [], (c :: t). done.
Qed.

Lemma copy_while_spec keep n t z :
  nonul t -> keep 0 = false ->
  exists name t', t = name ++ t' /\ copy_while keep n (t ++ 0 :: z) = Some (name, t' ++ 0 :: z) /\
    (length name <= n)%nat /\
    (match t with c :: _ => keep c = true -> (0 < n)%nat -> name <> [] | [] => True end).
Proof.
  intros Hn Hk. revert n. induction t as [|c t IH]; intros n.
  - exists [], []. cbn [app copy_while]. rewrite Hk. cbn [length]. repeat split; lia.
  - apply nonul_cons in Hn as [Hc Hn]. cbn [app copy_while]. destruct (keep c) eqn:E.
    + destruct n as [|n]; [exists [], (c :: t); repeat split; intros; cbn in *; lia|].
      destruct (IH Hn n) as (nm & t' & -> & -> & Hl & _).
      exists (c :: nm), t'. cbn [length app]. repeat split; [lia|done].
    + exists [], (c :: t). repeat split; cbn; (lia || done).
Qed.

Lemma skip_word_spec t z :
  nonul t -> exists w t', t = w ++ t' /\ skip_word (t ++ 0 :: z) = Some (t' ++ 0 :: z).
Proof.
  induction t as [|c t IH]; intros Hn; [exists [], []; done|].
  apply nonul_cons in Hn as [Hc Hn]. cbn [app skip_word].
  rewrite (proj2 (Z.eqb_neq c 0) Hc), orb_false_r. destruct (c =? 32).
  - exists [], (c :: t). done.
  - destruct (IH Hn) as (w & t' & -> & E). exists (c :: w), t'. done.
Qed.

Lemma skip_separators_spec t z :
  nonul t -> exists w t', t = w ++ t' /\ skip_separators (t ++ 0 :: z) = Some (t' ++ 0 :: z) /\
    (match t with c :: _ => c = ch "," -> w <> [] | [] => True end).
Proof.
  induction t as [|c t IH]; intros Hn; [exists [], []; done|].
  apply nonul_cons in Hn as [Hc Hn]. cbn [app skip_separators].
  destruct ((c =? 32) || (c =? ch ",")) eqn:E.
  - destruct (IH Hn) as (w & t' & -> & -> & _). exists (c :: w), t'. done.
  - exists [], (c :: t). repeat split. intros ->. done.
Qed.

(** A literal read from a text: either the rest of the text is left, or the text
    was a lone quote and the pointer has moved one byte past the NUL. *)
Lemma parse_value_spec t z :
  nonul t -> exists v p, parse_value (t ++ 0 :: 0 :: z) = Some (v, p) /\
    ((exists w t', t = w ++ t' /\ p = t' ++ 0 :: 0 :: z) \/ p = 0 :: z).
Proof.
  intros Hn. destruct t as [|c t].
  { exists 0, (0 :: 0 :: z). split; [done|]. left. by exists [], []. }
  apply nonul_cons in Hn as [Hc Hn]. unfold parse_value. cbn [app head tail].
  destruct (c =? ch "'").
  { destruct t as [|v t]; cbn [app head tail]; [eexists _, _; split; [done|by right]|].
    apply nonul_cons in Hn as [_ Hn]. destruct t as [|d t]; cbn [app head tail].
    - eexists _, _; split; [done|]. left. by exists [c; v], [].
    - eexists _, _; split; [done|]. left.
      destruct (d =? ch "'"); [by exists [c; v; d], t|by exists [c; v], (d :: t)]. }
  destruct (skip_word_spec (c :: t) (0 :: z)) as (w & t' & Hw & Hsk); [by apply nonul_cons|].
  cbn [app] in Hsk.
  destruct (negb (isdigit c) && negb (c =? ch "-") && negb (c =? ch "+") && isalpha c).
  { rewrite Hsk. eexists _, _; split; [done|]. left. by exists w, t'. }
  assert (Hgen : exists v p,
    (let? text := cstr (c :: t ++ 0 :: 0 :: z) in
     let? r := skip_word (c :: t ++ 0 :: 0 :: z) in Some (atoi text, r)) = Some (v, p) /\
    ((exists w t', c :: t = w ++ t' /\ p = t' ++ 0 :: 0 :: z) \/ p = 0 :: z)).
  { rewrite Hsk. change (c :: t ++ 0 :: 0 :: z) with ((c :: t) ++ 0 :: 0 :: z).
    rewrite cstr_app by (by apply nonul_cons). eexists _, _; split; [done|].
    left. by exists w, t'. }
  destruct (isdigit c); [|exact Hgen].
  destruct t as [|d t]; cbn [app head].
  - eexists _, _. split; [reflexivity|]. left. by exists [c], [].
  - destruct ((d =? 32) || (d =? 0)); [|exact Hgen].
    eexists _, _; split; [done|]. left. by exists [c], (d :: t).
Qed.

Lemma skip_and_spec t z :
  nonul t ->
  exists t', skip_and (t ++ 0 :: z) = Some (t' ++ 0 :: z) /\
    ((ci_prefixb (lit "AND ") t = false /\ t' = t) \/
     (ci_prefixb (lit "AND ") t = true /\ exists b, t = b ++ t' /\ b <> [])).
Proof.
  intros Hn. unfold skip_and.
  destruct (casecmp_spec t z (lit "AND ") [] ltac:(decide_closed)) as (v & Hv & Hv0).
  rewrite app_nil_r in Hv. change (length (lit "AND ")) with 4%nat in Hv. rewrite Hv, Hv0.
  destruct (ci_prefixb (lit "AND ") t) eqn:E; [|exists t; split; [done|by left]].
  apply ci_prefixb_length in E as Hl. change (length (lit "AND ")) with 4%nat in Hl.
  rewrite drop_app_le by done.
  destruct (skip_blanks_spec (drop 4 t) z) as (b & t' & Hb & -> & _); [by apply nonul_drop|].
  exists t'. split; [done|]. right. split; [done|]. exists (take 4 t ++ b). split.
  - by rewrite <- app_assoc, <- Hb, take_drop.
  - destruct t; cbn in Hl; [lia|done].
Qed.

(** ** Safety and termination *)

Definition short_name (s : list Z) : Prop := nonul s /\ (length s < 64)%nat.

Lemma parse_condition_total c0 t z :
  nonul (c0 :: t) -> c0 <> 32 ->
  exists c p, parse_condition ((c0 :: t) ++ 0 :: 0 :: z) = Some (c, p) /\
    short_name (cond_name c) /\
    ((exists w t', c0 :: t = w ++ t' /\ p = t' ++ 0 :: 0 :: z /\ w <> []) \/ p = 0 :: z).
Proof.
  intros Hn Hc0. pose proof (proj1 (proj1 (nonul_cons _ _) Hn)) as Hc00. unfold parse_condition.
  destruct (skip_and_spec (c0 :: t) (0 :: z) Hn) as (t1 & -> & H1).
  assert (Hs1 : exists w1, c0 :: t = w1 ++ t1 /\ (w1 = [] -> t1 = c0 :: t)).
  { destruct H1 as [[_ ->]|[_ (b & Hb & Hne)]]; [by exists []|]. exists b. done. }
  destruct Hs1 as (w1 & Hw1 & Hw1e).
  assert (Hn1 : nonul t1) by (rewrite Hw1 in Hn; by apply nonul_app_r in Hn).
  destruct (copy_while_spec where_name_char 63 t1 (0 :: z) Hn1 eq_refl)
    as (name & t2 & Ht1 & -> & Hl & Hne).
  assert (Hn2 : nonul name /\ nonul t2) by (rewrite Ht1 in Hn1; by apply nonul_app in Hn1).
  destruct Hn2 as [Hnm Hn2].
  destruct (skip_blanks_spec t2 (0 :: z) Hn2) as (b2 & t3 & Ht2 & -> & _).
  assert (Hn3 : nonul t3) by (rewrite Ht2 in Hn2; by apply nonul_app_r in Hn2).
  destruct (copy_while_spec is_op_char 3 t3 (0 :: z) Hn3 eq_refl)
    as (op & t4 & Ht3 & -> & _ & Hop).
  assert (Hn4 : nonul t4) by (rewrite Ht3 in Hn3; by apply nonul_app_r in Hn3).
  destruct (skip_blanks_spec t4 (0 :: z) Hn4) as (b4 & t5 & Ht4 & -> & _).
  assert (Hn5 : nonul t5) by (rewrite Ht4 in Hn4; by apply nonul_app_r in Hn4).
  destruct (parse_value_spec t5 z Hn5) as (v & p & -> & Hp).
  eexists _, _. split; [done|]. cbn [cond_name]. split; [split; [done|lia]|].
  destruct Hp as [(w5 & t6 & Ht5 & ->) | ->]; [left|by right].
  exists (w1 ++ name ++ b2 ++ op ++ b4 ++ w5), t6.
  split; [rewrite Hw1, Ht1, Ht2, Ht3, Ht4, Ht5; by rewrite <- !app_assoc|]. split; [done|].
  intros H0. apply app_eq_nil in H0 as [Hw1n H0]. specialize (Hw1e Hw1n).
  apply app_eq_nil in H0 as [-> H0]. apply app_eq_nil in H0 as [-> H0].
  apply app_eq_nil in H0 as [-> _]. cbn [app] in Ht1, Ht2.
  rewrite <- Ht2, <- Ht1, Hw1e in Hop. rewrite Hw1e in Hne.
  destruct (where_name_char c0) eqn:En; [exact (Hne eq_refl ltac:(lia) eq_refl)|].
  unfold where_name_char in En. rewrite (proj2 (Z.eqb_neq c0 32) Hc0),
    (proj2 (Z.eqb_neq c0 0) Hc00) in En. cbn [orb] in En. rewrite orb_false_r in En.
  apply negb_false_iff in En. exact (Hop En ltac:(lia) eq_refl).
Qed.

Lemma fail_total t : exists e, fail t = Some e.
Proof.
  unfold fail, error_text, vsnprintf_at. change (256 =? 0)%nat with false. cbv iota.
  rewrite memcpy_at_some by (rewrite length_app, length_take, length_replicate; cbn [length]; lia).
  by eexists.
Qed.

Lemma after_total e r : (exists f, r = Some f) -> exists g, after e r = Some g.
Proof. intros [[j m] ->]. destruct e as [i [msg|]]; by eexists. Qed.

Lemma compile_condition_total sch k c :
  schema_ok sch -> short_name (cond_name c) -> exists e, compile_condition sch k c = Some e.
Proof.
  intros Hs [Hn Hl]. unfold compile_condition.
  destruct (find_column_index_total sch _ Hs Hn Hl) as (i & -> & _).
  destruct (i <? 0); [apply fail_total|]. destruct (4 <=? k)%nat; [apply fail_total|by eexists].
Qed.

Lemma where_loop_total fuel sch k t z :
  schema_ok sch -> nonul t -> (length t < fuel)%nat ->
  exists e, where_loop fuel sch k (t ++ 0 :: 0 :: z) = Some e.
Proof.
  intros Hs. revert k t. induction fuel as [|fuel IH]; intros k t Hn Hl; [lia|].
  destruct t as [|c t]; [by eexists|]. cbn [app where_loop head].
  inversion Hn as [|? ? Hc Hn']; subst. rewrite (proj2 (Z.eqb_neq c 0) Hc).
  destruct (skip_blanks_spec (c :: t) (0 :: z) Hn) as (b & t1 & Hb & Hsk & Hh).
  cbn [app] in Hsk. rewrite Hsk. destruct t1 as [|c1 t1]; [by eexists|]. cbn [app head].
  assert (Hn1 : nonul (c1 :: t1)) by (rewrite Hb in Hn; by apply nonul_app_r in Hn).
  rewrite (proj2 (Z.eqb_neq c1 0)) by (by inversion Hn1).
  destruct (parse_condition_total c1 t1 z Hn1 Hh) as (cond & p & Hp & Hname & Hrest).
  cbn [app] in Hp. rewrite Hp.
  destruct (compile_condition_total sch k cond Hs Hname) as [e ->]. apply after_total.
  destruct Hrest as [(w & t2 & Hw & -> & Hwne) | ->].
  - apply IH; [rewrite Hw in Hn1; by apply nonul_app_r in Hn1|].
    apply (f_equal length) in Hb, Hw. rewrite !length_app in *. cbn [length] in *.
    destruct w; [done|]. cbn [length] in *. lia.
  - destruct fuel; [cbn [length] in Hl; lia|]. by eexists.
Qed.

Lemma select_loop_total fuel sch t z :
  schema_ok sch -> nonul t -> (length t < fuel)%nat ->
  exists e, select_loop fuel sch (t ++ 0 :: z) = Some e.
Proof.
  intros Hs. revert t. induction fuel as [|fuel IH]; intros t Hn Hl; [lia|].
  destruct t as [|c t]; [by eexists|]. cbn [app select_loop head].
  inversion Hn as [|? ? Hc Hn']; subst. rewrite (proj2 (Z.eqb_neq c 0) Hc).
  destruct (skip_blanks_spec (c :: t) z Hn) as (b & t1 & Hb & Hsk & Hh).
  cbn [app] in Hsk. rewrite Hsk.
  assert (Hn1 : nonul t1) by (rewrite Hb in Hn; by apply nonul_app_r in Hn).
  destruct (copy_while_spec list_name_char 63 t1 z Hn1 eq_refl) as (nm & t2 & Ht1 & -> & Hl2 & Hne).
  assert (Hn2 : nonul nm /\ nonul t2) by (rewrite Ht1 in Hn1; by apply nonul_app in Hn1).
  destruct Hn2 as [Hnm Hn2].
  assert (Hci : exists i, (match nm with [] => Some 0
    | _ => find_column_index sch (name_buffer nm) end) = Some i).
  { destruct nm; [by eexists|].
    destruct (find_column_index_total sch _ Hs Hnm ltac:(lia)) as (i & -> & _). by eexists. }
  destruct Hci as [i ->]. destruct (i <? 0); [apply fail_total|].
  destruct (skip_separators_spec t2 z Hn2) as (w & t3 & Ht2 & -> & Hsep).
  apply IH; [rewrite Ht2 in Hn2; by apply nonul_app_r in Hn2|].
  assert (Hprog : (length t3 < length (c :: t))%nat); [|lia].
  rewrite Hb, Ht1, Ht2, !length_app. destruct t1 as [|c1 t1].
  - apply eq_sym, app_eq_nil in Ht1 as [-> ->]. apply eq_sym, app_eq_nil in Ht2 as [-> ->].
    destruct b; [done|]. cbn [length]. lia.
  - destruct nm as [|n0 nm]; [|cbn [length]; lia]. cbn [app length] in *. subst t2.
    assert (c1 = ch ",").
    { destruct (list_name_char c1) eqn:En; [by destruct (Hne eq_refl ltac:(lia))|].
      unfold list_name_char in En. inversion Hn1; subst. lia. }
    specialize (Hsep H). destruct w; [done|]. cbn [length]. lia.
Qed.

(** ** Error messages *)

(** Every message is a formatted, NUL-terminated text. *)
Definition msg_ok (e : Emit) : Prop :=
  match snd e with None => True | Some m => exists t, error_text t = Some m end.

Lemma fail_msg t e : fail t = Some e -> msg_ok e.
Proof.
  unfold fail. destruct (error_text t) as [m|] eqn:E; [|done]. intros [= <-]. by exists t.
Qed.

Lemma after_msg e r g : msg_ok e -> (forall f, r = Some f -> msg_ok f) -> after e r = Some g -> msg_ok g.
Proof.
  destruct e as [i [m|]]; intros He Hr; cbn [after]; [by intros [= <-]|].
  destruct r as [[j m]|]; [|done]. intros [= <-]. exact (Hr _ eq_refl).
Qed.

Lemma compile_condition_msg sch k c e : compile_condition sch k c = Some e -> msg_ok e.
Proof.
  unfold compile_condition. destruct (find_column_index _ _) as [i|]; [|done].
  destruct (i <? 0); [apply fail_msg|]. destruct (4 <=? k)%nat; [apply fail_msg|].
  by intros [= <-].
Qed.

Lemma where_loop_msg fuel sch k p e : where_loop fuel sch k p = Some e -> msg_ok e.
Proof.
  revert k p e. induction fuel as [|fuel IH]; intros k p e; cbn [where_loop]; [done|].
  repeat (case_match; try done); try (by intros [= <-]).
  apply after_msg; [by eapply compile_condition_msg|]. intros f. apply IH.
Qed.

Lemma select_loop_msg fuel sch p e : select_loop fuel sch p = Some e -> msg_ok e.
Proof.
  revert p e. induction fuel as [|fuel IH]; intros p e; cbn [select_loop]; [done|].
  repeat (case_match; try done); try (by intros [= <-]); try apply fail_msg; apply IH.
Qed.

Lemma compile_select_msg rq sch src e : compile_select rq sch src = Some e -> msg_ok e.
Proof.
  unfold compile_select, compile_count, compile_sum.
  repeat (case_match; try done); try apply fail_msg; try (by intros [= <-]); try apply select_loop_msg.
  intros [= <-]. unfold sum_check in *. repeat (case_match; try done); simplify_eq.
  destruct (error_text _) eqn:E; [|done]. simplify_eq/=. by eexists.
Qed.

Lemma compile_instructions_msg rq sch src e : compile_instructions rq sch src = Some e -> msg_ok e.
Proof.
  unfold compile_instructions, compile_where. destruct (head (where_clause rq)) as [c|]; [|done].
  destruct (if c =? 0 then _ else _) as [w|] eqn:Ew; [|done].
  assert (Hw : msg_ok w).
  { destruct (c =? 0); [by injection Ew as <-|]. by eapply where_loop_msg. }
  apply after_msg; [done|]. intros f. apply after_msg; [done|]. intros g. apply compile_select_msg.
Qed.

Lemma error_text_cstr t m : error_text t = Some m -> exists s, cstr m = Some s /\ nonul s.
Proof.
  unfold error_text, vsnprintf_at. change (256 =? 0)%nat with false. cbv iota.
  destruct (memcpy_at _ _ _) as [b|] eqn:E; [|done]. intros [= <-].
  unfold memcpy_at in E. destruct (_ <=? _)%nat; [|done].
  assert (Hb : b = take 255 t ++ 0 :: drop (0 + length (take (256 - 1) t ++ [0])) (replicate 256 0)).
  { apply (f_equal (from_option id [])) in E. cbn [from_option id] in E. rewrite <- E, take_0.
    cbn [app]. by rewrite <- app_assoc. }
  rewrite Hb. apply cstr_has_nul.
Qed.
