(* ===== verification/Accel.v ===== *)
(** * Accel

    The contract of the accelerator (user_hw.v and vhdl/pipeline.vhd) towards the
    firmware: its registers, and what one bus access does once the pipeline has
    settled.  The clock cycles between two accesses are abstracted: the firmware's
    accesses are further apart than the six stages a row goes through. *)

From S2P Require Import Prelude.

(** ** Bit fields of words *)

Definition bits (hi lo : Z) (w : Z) : Z := (w / 2 ^ lo) mod 2 ^ (hi - lo + 1).

(** Column [i] of a row word. *)
Definition row_col (i w : Z) : Z := bits (8 * i + 7) (8 * i) w.

(** ** whereFilter.vhd *)

Definition where_op (op value din : Z) : bool :=
  if op =? 0 then din =? value
  else if op =? 1 then negb (din =? value)
  else if op =? 2 then din <? value
  else if op =? 3 then din <=? value
  else if op =? 4 then value <? din
  else if op =? 5 then value <=? din
  else false.

(** The verdict of one WHERE instruction on a row. *)
Definition where_hit (inst w : Z) : bool :=
  where_op (bits 2 0 inst) (bits 10 3 inst) (row_col (bits 16 11 inst) w).

Definition where_all (insts : list Z) (w : Z) : bool := forallb (fun i => where_hit i w) insts.

(** ** State *)

Definition NUM_WHERE : nat := 4.
Definition FIFO_DEPTH : nat := 128.

Record Accel := mkAccel {
  a_data : Z;             (* data_in_reg *)
  a_inst : Z;             (* inst_reg *)
  a_where : list Z;       (* where_inst, the active ones *)
  a_limit : option Z;     (* limit_val_reg when limit_active *)
  a_col : Z;              (* count_col_idx *)
  a_in : list Z;          (* input FIFO: rows held back once the limit is hit *)
  a_out : list Z;         (* output FIFO *)
  a_dout : Z;             (* output register of the output FIFO *)
  a_n : Z;                (* count_value of the limiter *)
  a_hit : bool;           (* internal_hit *)
  a_acc : Z;              (* COUNT accumulator *)
  a_sum : Z;              (* SUM accumulator *)
  a_eof : bool;           (* eof_ctrl *)
}.

Definition accel_done (a : Accel) : bool :=
  (a_eof a && bool_decide (a_in a = [])) || a_hit a.

(** ** Control pulses *)

Definition accel_reset (a : Accel) : Accel :=
  mkAccel (a_data a) (a_inst a) [] None (a_col a) [] [] 0 0 false 0 0 false.

Definition accel_load (a : Accel) : Accel :=
  let i := a_inst a in
  let opcode := bits 31 28 i in
  if opcode =? 1 then
    if (length (a_where a) <? NUM_WHERE)%nat
    then mkAccel (a_data a) i (a_where a ++ [i]) (a_limit a) (a_col a) (a_in a) (a_out a)
           (a_dout a) (a_n a) (a_hit a) (a_acc a) (a_sum a) (a_eof a)
    else a
  else if opcode =? 2 then
    mkAccel (a_data a) i (a_where a) (Some (bits 7 0 i)) (a_col a) (a_in a) (a_out a)
      (a_dout a) (a_n a) (a_hit a) (a_acc a) (a_sum a) (a_eof a)
  else if (opcode =? 3) || (opcode =? 4) then
    mkAccel (a_data a) i (a_where a) (a_limit a) (bits 5 0 i) (a_in a) (a_out a)
      (a_dout a) (a_n a) (a_hit a) (a_acc a) (a_sum a) (a_eof a)
  else a.

(** A row that passed the WHERE filters and the limiter: it is counted, summed,
    and queued unless the output FIFO is full. *)
Definition accel_emit (a : Accel) (n : Z) (hit : bool) (w : Z) : Accel :=
  mkAccel (a_data a) (a_inst a) (a_where a) (a_limit a) (a_col a) (a_in a)
    (if (length (a_out a) <? FIFO_DEPTH)%nat then a_out a ++ [w] else a_out a)
    (a_dout a) n hit (u32 (a_acc a + 1)) (u32 (a_sum a + u8 (row_col (a_col a) w - 48)))
    (a_eof a).

Definition accel_hold (a : Accel) (w : Z) : Accel :=
  mkAccel (a_data a) (a_inst a) (a_where a) (a_limit a) (a_col a)
    (if (length (a_in a) <? FIFO_DEPTH)%nat then a_in a ++ [w] else a_in a) (a_out a)
    (a_dout a) (a_n a) (a_hit a) (a_acc a) (a_sum a) (a_eof a).

(** The row in [data_in_reg] enters.  Once the limiter has hit, rows stay in the
    input FIFO; after the end of the input they are discarded. *)
Definition accel_push (a : Accel) : Accel :=
  let w := a_data a in
  if a_hit a then accel_hold a w
  else if a_eof a || negb (where_all (a_where a) w) then a
  else match a_limit a with
       | None => accel_emit a (a_n a) false w
       | Some l => accel_emit a (u8 (a_n a + 1)) (l <=? u8 (a_n a + 1)) w
       end.

Definition accel_pop (a : Accel) : Accel :=
  match a_out a with
  | [] => a
  | w :: out =>
      mkAccel (a_data a) (a_inst a) (a_where a) (a_limit a) (a_col a) (a_in a) out w
        (a_n a) (a_hit a) (a_acc a) (a_sum a) (a_eof a)
  end.

Definition accel_eof (a : Accel) : Accel :=
  mkAccel (a_data a) (a_inst a) (a_where a) (a_limit a) (a_col a) (a_in a) (a_out a)
    (a_dout a) (a_n a) (a_hit a) (a_acc a) (a_sum a) true.

(** ** The Avalon slave *)

(** A write to CONTROL; the firmware sets one bit at a time. *)
Definition accel_control (v : Z) (a : Accel) : Accel :=
  if v =? 8 then accel_reset a
  else if v =? 1 then accel_push a
  else if v =? 2 then accel_load a
  else if v =? 4 then accel_pop a
  else if v =? 16 then accel_eof a
  else a.

Definition accel_write (off v : Z) (a : Accel) : Accel :=
  if off =? 0 then accel_control v a
  else if off =? 4 then
    mkAccel v (a_inst a) (a_where a) (a_limit a) (a_col a) (a_in a) (a_out a)
      (a_dout a) (a_n a) (a_hit a) (a_acc a) (a_sum a) (a_eof a)
  else if off =? 8 then
    mkAccel (a_data a) v (a_where a) (a_limit a) (a_col a) (a_in a) (a_out a)
      (a_dout a) (a_n a) (a_hit a) (a_acc a) (a_sum a) (a_eof a)
  else a.

Definition b2z (b : bool) : Z := if b then 1 else 0.

Definition accel_status (a : Accel) : Z :=
  b2z (FIFO_DEPTH <=? length (a_out a))%nat + 2 * b2z (bool_decide (a_out a = [])) +
  4 * b2z (accel_done a) + 8 * b2z (bool_decide (a_in a = [])) +
  16 * b2z (FIFO_DEPTH <=? length (a_in a))%nat.

Definition accel_read (off : Z) (a : Accel) : Z :=
  if off =? 12 then accel_status a
  else if off =? 16 then a_dout a
  else if off =? 20 then a_acc a
  else if off =? 24 then a_sum a
  else 0.

(** ** Facts *)

Lemma status_out_empty a : Z.land (accel_status a) 2 = 0 <-> a_out a <> [].
Proof.
  unfold accel_status. destruct (accel_done a), (FIFO_DEPTH <=? length (a_out a))%nat,
    (FIFO_DEPTH <=? length (a_in a))%nat, (decide (a_in a = [])) as [Hi|Hi],
    (decide (a_out a = [])) as [Ho|Ho];
  rewrite ?(bool_decide_true (a_in a = [])), ?(bool_decide_false (a_in a = [])),
    ?(bool_decide_true (a_out a = [])), ?(bool_decide_false (a_out a = [])) by done; cbn; naive_solver.
Qed.

Lemma status_done a : Z.land (accel_status a) 4 = 0 <-> accel_done a = false.
Proof.
  unfold accel_status. destruct (accel_done a), (FIFO_DEPTH <=? length (a_out a))%nat,
    (FIFO_DEPTH <=? length (a_in a))%nat, (bool_decide (a_in a = [])),
    (bool_decide (a_out a = [])); cbn; naive_solver.
Qed.

Lemma status_in_full a : Z.land (accel_status a) 16 = 0 <-> (length (a_in a) < FIFO_DEPTH)%nat.
Proof.
  unfold accel_status. destruct (Nat.leb_spec FIFO_DEPTH (length (a_in a)));
  destruct (accel_done a), (FIFO_DEPTH <=? length (a_out a))%nat, (bool_decide (a_in a = [])),
    (bool_decide (a_out a = [])); cbn; split; (lia || done).
Qed.
