(* ===== verification/CompileSpec.v ===== *)
(** * CompileSpec

    Correctness of the translation against the accelerator's decoding: totality,
    instruction format, and a WHERE clause given as a syntax tree. *)

From S2P Require Import Prelude CString Request RequestFacts Table TableFacts Compile CompileFacts.
From S2P Require Import Accel.

(** ** Instruction words *)

Lemma where_instruction_value col val op :
  where_instruction col val op =
  op mod 8 + (val mod 256) * 2 ^ 3 + (col mod 64) * 2 ^ 11 + 1 * 2 ^ 28.
Proof.
  unfold where_instruction.
  change 0x3F with (Z.ones 6). change 0xFF with (Z.ones 8). change 0x7 with (Z.ones 3).
  rewrite !Z.land_ones by lia.
  pose proof (Z.mod_pos_bound col (2 ^ 6) ltac:(lia)).
  pose proof (Z.mod_pos_bound val (2 ^ 8) ltac:(lia)).
  pose proof (Z.mod_pos_bound op (2 ^ 3) ltac:(lia)).
  rewrite (Z.lor_comm _ (op mod _)), (Z.lor_comm _ (Z.shiftl (val mod _) 3)),
    (Z.lor_comm (Z.shiftl 1 28)), !Z.lor_assoc.
  rewrite (lor_shiftl_add (op mod 2 ^ 3)), (lor_shiftl_add _ _ 11), (lor_shiftl_add _ 1 28) by lia.
  done.
Qed.

Lemma tagged_value tag x n m :
  n = Z.ones m -> 0 <= m <= 28 ->
  Z.lor (Z.shiftl tag 28) (Z.land x n) = x mod 2 ^ m + tag * 2 ^ 28.
Proof.
  intros -> Hm. rewrite Z.land_ones, Z.lor_comm by lia. apply lor_shiftl_add; [lia|].
  pose proof (Z.mod_pos_bound x (2 ^ m) ltac:(lia)).
  pose proof (Z.pow_le_mono_r 2 m 28). lia.
Qed.

Lemma where_instruction_u32 col val op : is_u32 (where_instruction col val op).
Proof.
  rewrite where_instruction_value. pose proof (Z.mod_pos_bound col 64 ltac:(lia)).
  pose proof (Z.mod_pos_bound val 256 ltac:(lia)). pose proof (Z.mod_pos_bound op 8 ltac:(lia)).
  word_lia.
Qed.

Lemma limit_instruction_value lim : limit_instruction lim = lim mod 256 + 2 * 2 ^ 28.
Proof. exact (tagged_value 2 lim 0xFF 8 eq_refl ltac:(lia)). Qed.
Lemma count_instruction_value i : count_instruction i = i mod 64 + 3 * 2 ^ 28.
Proof. exact (tagged_value 3 i 0x3F 6 eq_refl ltac:(lia)). Qed.
Lemma sum_instruction_value i : sum_instruction i = i mod 64 + 4 * 2 ^ 28.
Proof. exact (tagged_value 4 i 0x3F 6 eq_refl ltac:(lia)). Qed.

Ltac bits_solve :=
  unfold bits; cbn [Z.sub Z.add Z.opp Z.pos_sub Pos.add Pos.succ Pos.pred_double];
  Z.div_mod_to_equations; lia.

Lemma where_fields col val op :
  let w := where_instruction col val op in
  bits 31 28 w = 1 /\ bits 16 11 w = col mod 64 /\ bits 10 3 w = val mod 256 /\
  bits 2 0 w = op mod 8.
Proof.
  cbv zeta. rewrite where_instruction_value. unfold bits.
  change (31 - 28 + 1) with 4. change (16 - 11 + 1) with 6. change (10 - 3 + 1) with 8.
  change (2 - 0 + 1) with 3. change (2 ^ 0) with 1.
  repeat split; Z.div_mod_to_equations; lia.
Qed.

Lemma limit_fields lim :
  bits 31 28 (limit_instruction lim) = 2 /\ bits 7 0 (limit_instruction lim) = lim mod 256.
Proof.
  rewrite limit_instruction_value. unfold bits. change (31 - 28 + 1) with 4.
  change (7 - 0 + 1) with 8. change (2 ^ 0) with 1. split; Z.div_mod_to_equations; lia.
Qed.

Lemma count_fields i :
  bits 31 28 (count_instruction i) = 3 /\ bits 5 0 (count_instruction i) = i mod 64.
Proof.
  rewrite count_instruction_value. unfold bits. change (31 - 28 + 1) with 4.
  change (5 - 0 + 1) with 6. change (2 ^ 0) with 1. split; Z.div_mod_to_equations; lia.
Qed.

Lemma sum_fields i :
  bits 31 28 (sum_instruction i) = 4 /\ bits 5 0 (sum_instruction i) = i mod 64.
Proof.
  rewrite sum_instruction_value. unfold bits. change (31 - 28 + 1) with 4.
  change (5 - 0 + 1) with 6. change (2 ^ 0) with 1. split; Z.div_mod_to_equations; lia.
Qed.

(** ** Totality of the translation *)

Definition source_ok (src : StreamSource) : Prop :=
  exists m, memory src = Some m /\ memory_offset src = 0 /\
    (memory_size src = 0 \/ 4 <= memory_size src) /\
    memory_size src <= Z.of_nat (length m).

(** Instructions of a stage: at most [n], all 32-bit words. *)
Definition emits (n : nat) (e : Emit) : Prop :=
  (length (fst e) <= n)%nat /\ Forall is_u32 (fst e).

Lemma fail_emits t e : fail t = Some e -> emits 0 e /\ snd e <> None.
Proof.
  unfold fail. destruct (error_text t); [|done]. intros [= <-].
  split; [split; [done|constructor]|done].
Qed.

Lemma emits_mono n k e : (n <= k)%nat -> emits n e -> emits k e.
Proof. intros H [Hl Hu]. split; [lia|done]. Qed.

Lemma after_emits n k e r g :
  emits n e -> (forall f, r = Some f -> emits k f) -> after e r = Some g -> emits (n + k) g.
Proof.
  intros [Hl Hu] Hr. destruct e as [i [msg|]]; cbn in *.
  - intros [= <-]. split; [cbn; lia|done].
  - destruct r as [[j m]|]; [|done]. destruct (Hr _ eq_refl) as [Hl2 Hu2]. intros [= <-].
    split; cbn in *; [rewrite length_app; lia|by apply Forall_app].
Qed.

Lemma compile_condition_emits sch k c e :
  compile_condition sch k c = Some e ->
  emits (if (4 <=? k)%nat then 0 else 1) e /\ ((4 <= k)%nat -> snd e <> None).
Proof.
  unfold compile_condition. destruct (find_column_index _ _) as [i|]; [|done].
  destruct (i <? 0).
  - intros [He Hs]%fail_emits. split; [|done]. eapply emits_mono; [|exact He]. lia.
  - destruct (Nat.leb_spec 4 k); [intros [He Hs]%fail_emits; done|].
    intros [= <-]. split; [|lia]. split; [done|]. repeat constructor; apply where_instruction_u32.
Qed.

Lemma where_loop_emits fuel sch k p e :
  where_loop fuel sch k p = Some e -> emits (4 - k) e.
Proof.
  assert (H0 : forall n, emits n ([], None)) by (intros n; split; [cbn; lia|constructor]).
  revert k p e. induction fuel as [|fuel IH]; intros k p e; cbn [where_loop]; [done|].
  repeat (case_match; try done); try (intros [= <-]; apply H0).
  match goal with H : compile_condition _ _ _ = Some _ |- _ =>
    apply compile_condition_emits in H as [He Hs] end.
  destruct (Nat.leb_spec 4 k).
  - destruct e0 as [i [msg|]]; [|by destruct (Hs ltac:(done))]. intros [= <-].
    destruct He as [Hl Hu]. split; [cbn in *; lia|done].
  - intros Ha. eapply emits_mono; [|eapply after_emits; [exact He| |exact Ha]]; [|by intros; eapply IH].
    lia.
Qed.

Lemma select_loop_emits fuel sch p e : select_loop fuel sch p = Some e -> emits 0 e.
Proof.
  revert p e. induction fuel as [|fuel IH]; intros p e; cbn [select_loop]; [done|].
  repeat (case_match; try done); try (by intros [He _]%fail_emits);
    try (intros [= <-]; split; [done|constructor]); apply IH.
Qed.

Lemma compile_select_emits rq sch src e : compile_select rq sch src = Some e -> emits 1 e.
Proof.
  assert (H1 : forall w, is_u32 w -> emits 1 ([w], None))
    by (intros w Hw; split; [done|constructor; [done|constructor]]).
  assert (Hc : is_u32 (count_instruction 0) /\ forall i, is_u32 (count_instruction i) /\ is_u32 (sum_instruction i)).
  { split; [|intros i; split]; rewrite ?count_instruction_value, ?sum_instruction_value;
      try (pose proof (Z.mod_pos_bound i 64 ltac:(lia))); try word_lia.
    change (0 mod 64) with 0. word_lia. }
  unfold compile_select, compile_count, compile_sum.
  repeat (case_match; try done);
    try (intros [He _]%fail_emits; by eapply emits_mono; [|exact He]; lia);
    try (intros [= <-]; first [apply H1; apply Hc | split; [cbn; lia|constructor]]);
    try (intros He%select_loop_emits; by eapply emits_mono; [|exact He]; lia).
Qed.

Lemma copy_args_total n t z :
  nonul t -> exists nm p, copy_while call_arg_char n (t ++ 0 :: z) = Some (nm, p) /\
    nonul nm /\ (length nm <= n)%nat.
Proof.
  intros Ht. destruct (copy_while_spec call_arg_char n t z Ht eq_refl) as (nm & t' & He & -> & Hl & _).
  exists nm, (t' ++ 0 :: z). repeat (split; [done|]). split; [|done].
  rewrite He in Ht. by apply nonul_app in Ht as [? _].
Qed.

Lemma sum_check_total src i nm :
  source_ok src -> 0 <= i < 4 -> exists r, sum_check src i nm = Some r.
Proof.
  intros (m & Hm & Ho & Hsz & Hle) Hi. unfold sum_check. rewrite Hm, Ho.
  destruct (Z.ltb_spec 0 (memory_size src)); [|by eexists].
  destruct (lookup_lt_is_Some_2 m (Z.to_nat (0 + i * Z.of_nat TABLE_CELL_SIZE))) as [b ->];
    [unfold TABLE_CELL_SIZE; lia|].
  destruct (_ || _); [|by eexists].
  unfold error_text, vsnprintf_at. change (256 =? 0)%nat with false. cbv iota.
  rewrite memcpy_at_some by (rewrite length_app, length_take, length_replicate; cbn [length]; lia).
  by eexists.
Qed.

Lemma casecmp_total s z q n :
  nonul q -> n = length q ->
  exists v, ascii_strncasecmp_local (s ++ 0 :: z) q n = Some v /\ (v =? 0) = ci_prefixb q s.
Proof.
  intros Hq ->. destruct (casecmp_spec s z q [] Hq) as (v & Hv & Hz).
  rewrite app_nil_r in Hv. by exists v.
Qed.

Lemma compile_select_total rq sch src t :
  schema_ok sch -> source_ok src -> select_list rq = zbuf 256 t -> nonul t ->
  (length t < 256)%nat -> exists e, compile_select rq sch src = Some e.
Proof.
  intros Hs Hsrc Hsel Hn Hl. unfold compile_select.
  rewrite Hsel, zbuf_split by done.
  destruct (casecmp_total t (replicate (256 - S (length t)) 0) (lit "COUNT(") 6
    ltac:(decide_closed) eq_refl) as (v & -> & ->).
  destruct (ci_prefixb (lit "COUNT(") t) eqn:Ec.
  { apply ci_prefixb_length in Ec. change (length (lit "COUNT(")) with 6%nat in Ec.
    unfold compile_count. rewrite Hsel, zbuf_split, drop_app_le by done.
    destruct (copy_args_total 63 (drop 6 t) (replicate (256 - S (length t)) 0)) as
      (nm & p & -> & Hnm & Hnl); [by apply nonul_drop|].
    destruct (find_column_index_total sch nm Hs Hnm ltac:(lia)) as (i & -> & _).
    destruct (i <? 0); [apply fail_total|by eexists]. }
  destruct (casecmp_total t (replicate (256 - S (length t)) 0) (lit "SUM(") 4
    ltac:(decide_closed) eq_refl) as (v2 & -> & ->).
  destruct (ci_prefixb (lit "SUM(") t) eqn:Es.
  { apply ci_prefixb_length in Es. change (length (lit "SUM(")) with 4%nat in Es.
    unfold compile_sum. rewrite Hsel, zbuf_split, drop_app_le by done.
    destruct (copy_args_total 63 (drop 4 t) (replicate (256 - S (length t)) 0)) as
      (nm & p & -> & Hnm & Hnl); [by apply nonul_drop|].
    destruct (find_column_index_total sch nm Hs Hnm ltac:(lia)) as (i & -> & Hi).
    destruct (Z.ltb_spec i 0); [apply fail_total|].
    pose proof (so_count sch Hs).
    destruct (sum_check_total src i nm Hsrc ltac:(lia)) as [[msg|] ->]; by eexists. }
  destruct t as [|c t]; cbn [app head].
  - destruct (negb _); [by eexists|by eexists].
  - destruct (negb (c =? ch "*")); [|by eexists].
    change (c :: t ++ ?z) with ((c :: t) ++ z).
    apply (select_loop_total _ sch (c :: t)); [done|done|]. rewrite length_app. cbn [length]. lia.
Qed.

Lemma compile_where_total rq sch t :
  schema_ok sch -> where_clause rq = zbuf 256 t -> nonul t -> (length t <= 250)%nat ->
  exists e, compile_where rq sch = Some e /\ emits 4 e.
Proof.
  intros Hs Hw Hn Hl. unfold compile_where. rewrite Hw.
  replace (zbuf 256 t) with (t ++ 0 :: 0 :: replicate (254 - length t) 0).
  2: { rewrite zbuf_split by lia.
       by replace (256 - S (length t))%nat with (S (254 - length t)) by lia. }
  assert (Hz : exists e, Some ([], None) = Some e /\ emits 4 e)
    by (eexists; split; [done|]; split; [cbn; lia|constructor]).
  destruct t as [|c t]; cbn [app head]; [exact Hz|].
  rewrite (proj2 (Z.eqb_neq c 0)) by (by inversion Hn).
  destruct (where_loop_total (S (length (c :: t ++ 0 :: 0 :: replicate (254 - length (c :: t)) 0)))
    sch 0 (c :: t) (replicate (254 - length (c :: t)) 0) Hs Hn) as [e He].
  { cbn [length]. rewrite length_app. lia. }
  exists e. split; [exact He|]. by apply where_loop_emits in He.
Qed.

Lemma compile_bounded rq t q sch src :
  valid_request rq t q -> schema_ok sch -> source_ok src ->
  exists e, compile_instructions rq sch src = Some e /\
    (length (fst e) <= 6)%nat /\ Forall is_u32 (fst e).
Proof.
  intros [_ _ Hsel Hwh _ _ [Hq Hql] _] Hs Hsrc. unfold compile_instructions.
  destruct (compile_where_total rq sch (where_text q) Hs Hwh) as (w & -> & Hw);
    [by apply where_text_nonul|by apply where_text_length|].
  destruct (compile_select_total rq sch src (select_text q) Hs Hsrc Hsel) as [s Hsl];
    [by apply select_text_nonul|apply select_text_length|].
  rewrite Hsl. pose proof (compile_select_emits _ _ _ _ Hsl) as Hse.
  assert (Hlim : emits 1 (compile_limit rq)).
  { unfold compile_limit. destruct (0 <? limit rq); (split; [cbn; lia|repeat constructor]);
      rewrite limit_instruction_value; pose proof (Z.mod_pos_bound (limit rq) 256 ltac:(lia)); lia. }
  destruct (after_total w (Some s) ltac:(by eexists)) as [ws Hws]. rewrite Hws.
  assert (Hwse : emits 5 ws)
    by (eapply (after_emits 4 1); [exact Hw| |exact Hws]; by intros f [= <-]).
  destruct (after_total (compile_limit rq) (Some ws) ltac:(by eexists)) as [g Hg]. rewrite Hg.
  exists g. split; [done|].
  refine (after_emits 1 5 _ (Some ws) g Hlim _ Hg). by intros f [= <-].
Qed.

Lemma compile_total rq t q sch src :
  valid_request rq t q -> schema_ok sch -> source_ok src ->
  exists e, compile_instructions rq sch src = Some e.
Proof. intros. destruct (compile_bounded rq t q sch src) as (e & E & _); [done..|]. by exists e. Qed.

(** C22.  The translation of an accepted request never reads out of bounds and
    terminates, whatever its text: the WHERE scanner may step one byte past the
    NUL of a clause that ends in a lone quote, and stays inside the array.  It
    sends at most six instructions, all 32-bit words. *)
Theorem compile_instructions_total (rq : QueryRequest) (t q : list Z) (sch : TableSchema)
    (src : StreamSource) :
  valid_request rq t q -> schema_ok sch -> source_ok src ->
  exists e, compile_instructions rq sch src = Some e /\
    (length (fst e) <= 6)%nat /\ Forall is_u32 (fst e).
Proof. apply compile_bounded. Qed.

(** ** Conditions as syntax *)

Inductive CmpOp := OpEq | OpNe | OpLt | OpLe | OpGt | OpGe.

Definition op_text (o : CmpOp) : list Z :=
  match o with
  | OpEq => lit "=" | OpNe => lit "!=" | OpLt => lit "<"
  | OpLe => lit "<=" | OpGt => lit ">" | OpGe => lit ">="
  end.

Definition op_number (o : CmpOp) : Z :=
  match o with OpEq => 0 | OpNe => 1 | OpLt => 2 | OpLe => 3 | OpGt => 4 | OpGe => 5 end.

(** The comparison of SQL on unsigned bytes. *)
Definition op_sem (o : CmpOp) (cell value : Z) : bool :=
  match o with
  | OpEq => cell =? value
  | OpNe => negb (cell =? value)
  | OpLt => cell <? value
  | OpLe => cell <=? value
  | OpGt => value <? cell
  | OpGe => value <=? cell
  end.

Record Cond := mkCond { c_col : nat; c_op : CmpOp; c_val : Z }.

Definition cond_sem (w : Z) (c : Cond) : bool :=
  op_sem (c_op c) (row_col (Z.of_nat (c_col c)) w) (c_val c).

(** [name op 'v'], the way the clients write it. *)
Definition render_cond (names : list Z) (c : Cond) : list Z :=
  nth (c_col c) names 0 :: 32 :: op_text (c_op c) ++ [32; ch "'"; c_val c; ch "'"].

Fixpoint render_more (names : list Z) (cs : list Cond) : list Z :=
  match cs with
  | [] => []
  | c :: cs => lit " AND " ++ render_cond names c ++ render_more names cs
  end.

Definition render_where (names : list Z) (cs : list Cond) : list Z :=
  match cs with
  | [] => []
  | c :: cs => render_cond names c ++ render_more names cs
  end.

Definition cond_ok (names : list Z) (c : Cond) : Prop :=
  (c_col c < length names)%nat /\ 0 < c_val c < 256.

(** Column names a condition can mention: one byte each, told apart without
    regard to case, and no blank, operator or NUL. *)
Definition names_ok (names : list Z) : Prop :=
  NoDup (tolower <$> names) /\ Forall (fun n => where_name_char n = true) names.

Definition cond_instruction (c : Cond) : Z :=
  where_instruction (Z.of_nat (c_col c)) (s8 (c_val c)) (op_number (c_op c)).

Lemma parse_rendered names c pre rest z :
  where_name_char (nth (c_col c) names 0) = true -> pre = [] \/ pre = lit "AND " ->
  parse_condition (pre ++ render_cond names c ++ rest ++ z) =
  Some (mkCondition [nth (c_col c) names 0] (op_text (c_op c)) (s8 (c_val c)), rest ++ z).
Proof.
  intros Hn Hpre. unfold parse_condition, render_cond. set (n := nth (c_col c) names 0) in *.
  assert (Hn32 : (n =? 32) = false) by (destruct (Z.eqb_spec n 32) as [->|]; done).
  assert (Hskip : skip_and (pre ++ (n :: 32 :: op_text (c_op c) ++ [32; ch "'"; c_val c; ch "'"])
     ++ rest ++ z) = Some ((n :: 32 :: op_text (c_op c) ++ [32; ch "'"; c_val c; ch "'"]) ++ rest ++ z)).
  { unfold skip_and. destruct Hpre as [-> | ->].
    - cbn [app ascii_strncasecmp_local head tail lit fmap list_fmap String.list_ascii_of_string].
      destruct (Z.eqb_spec (tolower n) (tolower (ch "A"))); cbn [negb].
      + reflexivity.
      + rewrite (proj2 (Z.eqb_neq _ 0)) by lia. reflexivity.
    - replace (ascii_strncasecmp_local _ _ 4) with (Some 0) by reflexivity. cbn [Z.eqb].
      change (drop 4 (lit "AND " ++ ?x)) with x. cbn [app skip_blanks]. by rewrite Hn32. }
  rewrite Hskip. cbn [app copy_while]. rewrite Hn.
  change (where_name_char 32) with false. cbv iota beta.
  destruct (c_op c); reflexivity.
Qed.

(** ** Correctness of the translation of a rendered clause *)

(** The schema whose columns carry the one-byte [names], in order. *)
Record named_schema (sch : TableSchema) (names : list Z) : Prop := {
  ns_schema : schema_ok sch;
  ns_count : column_count sch = Z.of_nat (length names);
  ns_names : names_ok names;
  ns_columns : columns sch =
    zbuf 2 <$> (((fun n => [n]) <$> names) ++ replicate (4 - length names) []);
}.

Lemma where_name_nonzero n : where_name_char n = true -> n <> 0 /\ n <> 32.
Proof. split; intros ->; done. Qed.

Lemma ci_index_names names i j :
  NoDup (tolower <$> names) -> (i < length names)%nat ->
  ci_index j [nth i names 0] ((fun n => [n]) <$> names) = Z.of_nat (j + i).
Proof.
  revert i j. induction names as [|n ns IH]; intros i j Hd Hi; cbn in Hi; [lia|].
  rewrite fmap_cons in *. inversion Hd as [|? ? Hnin Hd']; subst. cbn [ci_index].
  assert (E : forall a b, ci_eqb [a] [b] = bool_decide (tolower a = tolower b)).
  { intros a b. unfold ci_eqb, ci_prefixb. cbn. rewrite !andb_true_r.
    destruct (Z.eqb_spec (tolower a) (tolower b)); by case_bool_decide. }
  rewrite E. destruct i as [|i]; cbn [nth].
  - rewrite bool_decide_true by done. f_equal. lia.
  - rewrite bool_decide_false.
    + rewrite IH by (done || lia). f_equal. lia.
    + intros Heq. apply Hnin. apply list_elem_of_fmap. exists (nth i ns 0). split; [done|].
      apply nth_elem. lia.
Qed.

Lemma find_named sch names i :
  named_schema sch names -> (i < length names)%nat ->
  find_column_index sch (name_buffer [nth i names 0]) = Some (Z.of_nat i).
Proof.
  intros [Hs Hc [Hd Hf] Hcol] Hi. pose proof (so_count sch Hs) as Hcc.
  assert (Hn : Forall (fun t : list Z => nonul t /\ (length t <= 1)%nat)
    (((fun n => [n]) <$> names) ++ replicate (4 - length names) [])).
  { apply Forall_app. split.
    - apply Forall_fmap. eapply Forall_impl; [exact Hf|]. intros n Hn%where_name_nonzero.
      split; [|done]. apply nonul_cons. split; [lia|constructor].
    - apply Forall_replicate. split; [constructor|cbn; lia]. }
  rewrite (find_column_index_spec sch _ _ (conj Hcol Hn)).
  - rewrite Hc, Nat2Z.id, take_app_length' by (symmetry; apply length_fmap). by rewrite ci_index_names.
  - apply nonul_cons. split; [|constructor]. apply where_name_nonzero.
    by apply (Forall_nth_lt _ _ _ _ Hf).
  - cbn. lia.
  - rewrite length_app, length_fmap, length_replicate. lia.
Qed.

(** The first [4 - k] conditions are sent; a further one is refused. *)
Definition where_result (k : nat) (cs : list Cond) : Emit :=
  (cond_instruction <$> take (4 - k) cs,
   if (length cs <=? 4 - k)%nat then None
   else error_text (lit "O limite de condicoes WHERE concatenadas por AND e 4.")).

Lemma op_code_text o : op_code (op_text o) = op_number o.
Proof. by destruct o. Qed.

Lemma nth_name names c :
  names_ok names -> cond_ok names c -> where_name_char (nth (c_col c) names 0) = true.
Proof.
  intros [_ Hf] [Hc _]. by apply (Forall_nth_lt _ _ _ _ Hf).
Qed.

Lemma compile_rendered sch names k c cs :
  named_schema sch names -> cond_ok names c -> (k <= 4)%nat ->
  (let? first := compile_condition sch k
     (mkCondition [nth (c_col c) names 0] (op_text (c_op c)) (s8 (c_val c))) in
   after first (if (4 <=? k)%nat then None else Some (where_result (S k) cs))) =
  Some (where_result k (c :: cs)).
Proof.
  intros Hs [Hc Hv] Hk. unfold compile_condition. cbn [cond_name cond_op cond_val].
  rewrite (find_named sch names) by done.
  replace (Z.of_nat (c_col c) <? 0) with false by (symmetry; apply Z.ltb_ge; lia).
  rewrite op_code_text. destruct (Nat.leb_spec 4 k) as [H4|H4].
  - replace k with 4%nat by lia. reflexivity.
  - unfold where_result. replace (4 - k)%nat with (S (4 - S k))%nat by lia. cbn [take length Nat.leb after].
    by destruct (length cs <=? 4 - S k)%nat.
Qed.

Lemma where_loop_more sch names cs : forall k fuel z,
  named_schema sch names -> Forall (cond_ok names) cs -> (k <= 4)%nat ->
  (length cs < fuel)%nat ->
  where_loop fuel sch k (render_more names cs ++ 0 :: z) = Some (where_result k cs).
Proof.
  induction cs as [|c cs IH]; intros k fuel z Hs Hcs Hk Hf; destruct fuel as [|fuel]; try lia.
  - cbn [render_more app where_loop head]. unfold where_result. by rewrite take_nil.
  - cbn [length] in Hf. apply Forall_cons in Hcs as [Hc Hcs].
    assert (Hp : parse_condition (lit "AND " ++ render_cond names c ++ render_more names cs ++ 0 :: z) =
      Some (mkCondition [nth (c_col c) names 0] (op_text (c_op c)) (s8 (c_val c)),
            render_more names cs ++ 0 :: z)).
    { apply parse_rendered; [|by right]. eapply nth_name; [|done]. apply Hs. }
    rewrite <- (compile_rendered sch names k c cs) by done.
    cbn [render_more]. rewrite <- !app_assoc. change (lit " AND ") with (32 :: lit "AND ").
    cbn [app where_loop head]. change (32 =? 0) with false. cbv iota. cbn [skip_blanks].
    change (32 =? 32) with true. cbv iota.
    change (skip_blanks (lit "AND " ++ ?x)) with (Some (lit "AND " ++ x)). cbv iota.
    change (head (lit "AND " ++ ?x)) with (Some (ch "A")). cbv iota.
    change (ch "A" =? 0) with false. cbv iota. rewrite Hp. cbv iota beta.
    destruct (compile_condition _ _ _) as [first|] eqn:Ec; [|done].
    destruct (Nat.leb_spec 4 k) as [H4|H4]; [|by rewrite IH by (done || lia)].
    apply compile_condition_emits in Ec as [_ Hfail].
    destruct first as [i [m|]]; [done|]. by destruct (Hfail H4).
Qed.

Lemma where_loop_rendered sch names c cs fuel z :
  named_schema sch names -> Forall (cond_ok names) (c :: cs) -> (S (length cs) < fuel)%nat ->
  where_loop fuel sch 0 (render_where names (c :: cs) ++ 0 :: z) = Some (where_result 0 (c :: cs)).
Proof.
  intros Hs Hcs Hf. destruct fuel as [|fuel]; [lia|]. apply Forall_cons in Hcs as [Hc Hcs].
  pose proof (nth_name names c (ns_names _ _ Hs) Hc) as Hn.
  destruct (where_name_nonzero _ Hn) as [Hn0 Hn32].
  assert (Hp : parse_condition ([] ++ render_cond names c ++ render_more names cs ++ 0 :: z) =
      Some (mkCondition [nth (c_col c) names 0] (op_text (c_op c)) (s8 (c_val c)),
            render_more names cs ++ 0 :: z)) by (apply parse_rendered; [done|by left]).
  rewrite <- (compile_rendered sch names 0 c cs) by (done || lia).
  cbn [render_where]. rewrite <- app_assoc. cbn [app] in Hp. revert Hp. unfold render_cond at 1 2.
  intros Hp. cbn [app where_loop head skip_blanks] in Hp |- *.
  rewrite (proj2 (Z.eqb_neq _ _) Hn0), (proj2 (Z.eqb_neq _ _) Hn32). cbn [head].
  rewrite (proj2 (Z.eqb_neq _ _) Hn0), Hp. cbv iota beta.
  destruct (compile_condition _ _ _) as [first|]; [|done].
  by rewrite (where_loop_more sch names) by (done || lia).
Qed.

Lemma length_render_more names cs : (length cs <= length (render_more names cs))%nat.
Proof.
  induction cs as [|c cs IH]; cbn [render_more]; [done|].
  rewrite !length_app. cbn [length lit fmap list_fmap String.list_ascii_of_string]. lia.
Qed.

Lemma compile_where_rendered rq sch names cs :
  named_schema sch names -> Forall (cond_ok names) cs ->
  (length (render_where names cs) < 256)%nat ->
  where_clause rq = zbuf 256 (render_where names cs) ->
  compile_where rq sch = Some (where_result 0 cs).
Proof.
  intros Hs Hcs Hl Hw. unfold compile_where. rewrite Hw, zbuf_split by done.
  destruct cs as [|c cs]; [done|].
  rewrite (where_loop_rendered sch names) by
    (try done; cbn [render_where]; rewrite !length_app; pose proof (length_render_more names cs);
     cbn [length render_cond]; lia).
  cbn [render_where render_cond app head].
  rewrite Forall_cons in Hcs. destruct Hcs as [Hc _].
  by rewrite (proj2 (Z.eqb_neq _ 0)) by
    (apply where_name_nonzero, nth_name; [apply Hs|done]).
Qed.

Lemma where_hit_cond names c w :
  (length names <= 4)%nat -> cond_ok names c -> where_hit (cond_instruction c) w = cond_sem w c.
Proof.
  intros Hn [Hc Hv]. unfold where_hit, cond_instruction.
  destruct (where_fields (Z.of_nat (c_col c)) (s8 (c_val c)) (op_number (c_op c))) as (_ & -> & -> & ->).
  rewrite (Z.mod_small (Z.of_nat _)) by lia.
  replace (s8 (c_val c) mod 256) with (c_val c) by (unfold s8; Z.div_mod_to_equations; lia).
  unfold cond_sem, op_sem. by destruct (c_op c).
Qed.

(** C5.  The WHERE compiler and the filter hardware agree: a clause written from
    at most four conditions on the table's columns is translated to one
    instruction per condition, in order, without an error, and the rows all
    the loaded filters let through are the rows that satisfy every condition. *)
Theorem where_clause_correct (rq : QueryRequest) (sch : TableSchema) (names : list Z)
    (cs : list Cond) :
  named_schema sch names -> Forall (cond_ok names) cs -> (length cs <= 4)%nat ->
  (length (render_where names cs) < 256)%nat ->
  where_clause rq = zbuf 256 (render_where names cs) ->
  exists insts, compile_where rq sch = Some (insts, None) /\ length insts = length cs /\
    forall w, where_all insts w = forallb (cond_sem w) cs.
Proof.
  intros Hs Hcs H4 Hl Hw. rewrite (compile_where_rendered rq sch names cs) by done.
  unfold where_result. rewrite take_ge by (cbn; lia).
  rewrite (proj2 (Nat.leb_le (length cs) (4 - 0))) by lia.
  eexists. split; [done|]. split; [apply length_fmap|]. intros w.
  assert (Hn : (length names <= 4)%nat)
    by (pose proof (so_count _ (ns_schema _ _ Hs)); rewrite (ns_count _ _ Hs) in *; lia).
  clear Hl Hw H4. induction Hcs as [|c cs Hc Hcs IH]; [done|]. unfold where_all in *.
  rewrite fmap_cons. cbn [forallb]. by rewrite (where_hit_cond names), IH.
Qed.

(** C23.  A clause of more than four conditions is refused: the first four are sent,
    then the translation stops with the message about the limit of four. *)
Theorem where_clause_refused (rq : QueryRequest) (sch : TableSchema) (names : list Z)
    (cs : list Cond) :
  named_schema sch names -> Forall (cond_ok names) cs -> (4 < length cs)%nat ->
  (length (render_where names cs) < 256)%nat ->
  where_clause rq = zbuf 256 (render_where names cs) ->
  exists msg, compile_where rq sch = Some (cond_instruction <$> take 4 cs, Some msg) /\
    cstr msg = Some (lit "O limite de condicoes WHERE concatenadas por AND e 4.").
Proof.
  intros Hs Hcs H4 Hl Hw. rewrite (compile_where_rendered rq sch names cs) by done.
  unfold where_result. rewrite (proj2 (Nat.leb_gt (length cs) (4 - 0))) by lia.
  eexists. split; [reflexivity|]. vm_compute. reflexivity.
Qed.

(** ** A concrete request *)

Definition demo_names : list Z := lit "inc".

(** [WHERE i >= '2' AND c = 'C'] *)
Definition demo_conds : list Cond := [mkCond 0 OpGe 50; mkCond 2 OpEq 67].

Definition demo_query (sel : list Z) (lim : Z) : QueryRequest :=
  mkRequest (zbuf 256 []) (zbuf 32 []) (zbuf 256 sel)
    (zbuf 256 (render_where demo_names demo_conds)) lim.

Lemma demo_named : named_schema demo_schema demo_names.
Proof.
  constructor; [|done| |done].
  - constructor; [done|cbn; lia|cbn; word_lia|done|done|].
    repeat constructor; [exists (lit "i")|exists (lit "n")|exists (lit "c")|exists []];
      (split; [done|]); decide_closed.
  - split; [decide_closed|repeat constructor].
Qed.


Lemma demo_valid : valid_request
  (mkRequest (zbuf 256 (lit "SELECT i FROM t WHERE n = 'A' AND i < 3")) (zbuf 32 (lit "t"))
     (zbuf 256 (lit "i")) (zbuf 256 (lit "n = 'A' AND i < 3")) 10)
  (lit "t") (lit "SELECT i FROM t WHERE n = 'A' AND i < 3").
Proof.
  constructor; try (vm_compute; reflexivity).
  - split; [decide_closed|cbn; lia].
  - split; [decide_closed|cbn; lia].
  - cbn. word_lia.
Qed.

Lemma compile_instructions_total_witness :
  exists e, compile_instructions
    (mkRequest (zbuf 256 (lit "SELECT i FROM t WHERE n = 'A' AND i < 3")) (zbuf 32 (lit "t"))
     (zbuf 256 (lit "i")) (zbuf 256 (lit "n = 'A' AND i < 3")) 10)
    demo_schema (mkSource (Some [49; 65; 67; 32]) 4 0) = Some e /\
    (length (fst e) <= 6)%nat /\ Forall is_u32 (fst e).
Proof.
  apply (compile_instructions_total _ _ _ _ _ demo_valid (ns_schema _ _ demo_named)).
  exists [49; 65; 67; 32]. split; [done|]. split; [done|]. split; [right; cbn; lia|cbn; lia].
Defined.

Lemma where_clause_correct_witness :
  exists insts, compile_where (demo_query (lit "*") 0) demo_schema = Some (insts, None) /\
    length insts = 2%nat /\
    forall w, where_all insts w = forallb (cond_sem w) demo_conds.
Proof.
  apply (where_clause_correct (demo_query (lit "*") 0) demo_schema demo_names demo_conds demo_named
    ltac:(unfold cond_ok; decide_closed)); [cbn; lia|apply Nat.ltb_lt; vm_compute; reflexivity|done].
Defined.

Lemma where_clause_refused_witness :
  exists msg, compile_where
    (mkRequest [] [] [] (zbuf 256 (render_where demo_names (replicate 5 (mkCond 0 OpNe 50)))) 0)
    demo_schema = Some (cond_instruction <$> replicate 4 (mkCond 0 OpNe 50), Some msg) /\
    cstr msg = Some (lit "O limite de condicoes WHERE concatenadas por AND e 4.").
Proof.
  exact (where_clause_refused
    (mkRequest [] [] [] (zbuf 256 (render_where demo_names (replicate 5 (mkCond 0 OpNe 50)))) 0)
    demo_schema demo_names (replicate 5 (mkCond 0 OpNe 50)) demo_named
    ltac:(unfold cond_ok; decide_closed) ltac:(cbn; lia)
    ltac:(apply Nat.ltb_lt; vm_compute; reflexivity) eq_refl).
Defined.

(** An operator the table does not know, such as [<>], compiles to equality. *)
Lemma unknown_operator_compiles_to_equality sch k name v :
  compile_condition sch k (mkCondition name (lit "<>") v) =
  compile_condition sch k (mkCondition name (lit "=") v).
Proof. reflexivity. Qed.
