(* ===== verification/HwDriver.v ===== *)
(** * HwDriver

    The part of network_tasks.c that talks to the accelerator: the register
    accesses, the instruction upload, the feed loop and the drain loop. *)

From S2P Require Import Prelude CString Request Table Compile Accel.

Definition USER_HW_0_BASE : Z := 0x2000000.
Definition HW_REG_CONTROL_OFFSET : Z := 0.
Definition HW_REG_DATA_IN_OFFSET : Z := 4.
Definition HW_REG_INSTRUCTION_OFFSET : Z := 8.
Definition HW_REG_STATUS_OFFSET : Z := 12.
Definition HW_REG_DATA_OUT_OFFSET : Z := 16.
Definition HW_REG_ACCUMULATOR_OFFSET : Z := 20.
Definition HW_REG_SUM_OFFSET : Z := 24.
Definition HW_CONTROL_DIN_VALID : Z := 0x01.
Definition HW_CONTROL_LOAD_INST : Z := 0x02.
Definition HW_CONTROL_RD_OUT_FIFO : Z := 0x04.
Definition HW_CONTROL_RST : Z := 0x08.
Definition HW_CONTROL_INPUT_EOF : Z := 0x10.
Definition HW_STATUS_OUT_FIFO_EMPTY : Z := 0x02.
Definition HW_STATUS_DONE : Z := 0x04.
Definition HW_STATUS_IN_FIFO_FULL : Z := 0x10.
Definition HW_STALL_MAX_CYCLES : Z := 5000000.
Definition QUERY_CAPTURE_BUFFER_SIZE : nat := 256 * TABLE_MAX_COLUMNS * TABLE_CELL_SIZE.

(** ** The bus *)

(** Memory-mapped accesses and delays, on a device state [D]. *)
Class Bus (D : Type) := {
  IOWR_32DIRECT : Z -> Z -> Z -> D -> D;
  IORD_32DIRECT : Z -> Z -> D -> Z * D;
  OSTimeDlyHMSM : Z -> Z -> Z -> Z -> D -> D;
}.

(** The accelerator on the bus: [hw_view] is its state, which only the accesses to
    its own addresses change. *)
Class UserHw (D : Type) `{Bus D} := {
  hw_view : D -> Accel;
  hw_write_law : forall off v d,
    hw_view (IOWR_32DIRECT USER_HW_0_BASE off v d) = accel_write off v (hw_view d);
  hw_read_law : forall off d,
    fst (IORD_32DIRECT USER_HW_0_BASE off d) = accel_read off (hw_view d);
  hw_read_view : forall off d, hw_view (snd (IORD_32DIRECT USER_HW_0_BASE off d)) = hw_view d;
  hw_delay_view : forall h m s ms d, hw_view (OSTimeDlyHMSM h m s ms d) = hw_view d;
}.

(** The accelerator alone as a device. *)
#[export] Instance accel_bus : Bus Accel := {|
  IOWR_32DIRECT base off v a := if base =? USER_HW_0_BASE then accel_write off v a else a;
  IORD_32DIRECT base off a := (if base =? USER_HW_0_BASE then accel_read off a else 0, a);
  OSTimeDlyHMSM _ _ _ _ a := a;
|}.

#[export] Instance accel_user_hw : UserHw Accel := {|
  hw_view a := a;
  hw_write_law off v d := eq_refl;
  hw_read_law off d := eq_refl;
  hw_read_view off d := eq_refl;
  hw_delay_view h m s ms d := eq_refl;
|}.

Section HwDriver.
  Context {D : Type} `{Bus D}.

(** ** Register accesses *)

Definition hw_signal_eof (d : D) : D :=
  IOWR_32DIRECT USER_HW_0_BASE HW_REG_CONTROL_OFFSET HW_CONTROL_INPUT_EOF d.

Definition hw_read_status (d : D) : Z * D :=
  IORD_32DIRECT USER_HW_0_BASE HW_REG_STATUS_OFFSET d.

Definition hw_read_data_out (d : D) : Z * D :=
  let d := IOWR_32DIRECT USER_HW_0_BASE HW_REG_CONTROL_OFFSET HW_CONTROL_RD_OUT_FIFO d in
  IORD_32DIRECT USER_HW_0_BASE HW_REG_DATA_OUT_OFFSET d.

Definition hw_clear (d : D) : D :=
  IOWR_32DIRECT USER_HW_0_BASE HW_REG_CONTROL_OFFSET HW_CONTROL_RST d.

Definition hw_write_word (word : Z) (d : D) : D :=
  let d := IOWR_32DIRECT USER_HW_0_BASE HW_REG_DATA_IN_OFFSET word d in
  IOWR_32DIRECT USER_HW_0_BASE HW_REG_CONTROL_OFFSET HW_CONTROL_DIN_VALID d.

Definition hw_send_instruction (instruction : Z) (d : D) : D :=
  let d := IOWR_32DIRECT USER_HW_0_BASE HW_REG_INSTRUCTION_OFFSET instruction d in
  IOWR_32DIRECT USER_HW_0_BASE HW_REG_CONTROL_OFFSET HW_CONTROL_LOAD_INST d.

Definition hw_send_all (insts : list Z) (d : D) : D :=
  foldl (fun d i => hw_send_instruction i d) d insts.

(** The result 0 comes with the message left in [err_msg]. *)
Definition compile_and_send_instructions (request : QueryRequest) (schema : TableSchema)
    (source : StreamSource) (d : D) : option (option (list Z) * D) :=
  let? (insts, err) := compile_instructions request schema source in
  Some (err, hw_send_all insts d).

(** ** Draining *)

(** [capture_buffer] and [*captured_size]. *)
Record Capture := mkCapture { cap_buf : list Z; cap_size : nat }.

Definition capture_word (limit : nat) (word : Z) (c : Capture) : option Capture :=
  if (cap_size c <? limit)%nat then
    let? buf := memcpy_at (cap_buf c) (cap_size c) (le32_bytes word) in
    Some (mkCapture buf (cap_size c + 4))
  else Some c.

(** One turn of the loop: the status just read decides, and the next one is read
    at the end. *)
Definition drain_step (limit : nat) (s : Z * Capture * D)
  : Z * Capture * D + option (Capture * D) :=
  let '(status, c, d) := s in
  if Z.land status HW_STATUS_OUT_FIFO_EMPTY =? 0 then
    let '(word, d) := hw_read_data_out d in
    match capture_word limit word c with
    | None => inr UB
    | Some c => let '(status, d) := hw_read_status d in inl (status, c, d)
    end
  else inr (Some (c, d)).

(** The C loop has no bound: a device that never reports an empty FIFO keeps it
    running, which [None] also stands for.  2^16 turns are never needed. *)
Definition drain_output_words (limit : nat) (c : Capture) (d : D) : option (Capture * D) :=
  let '(status, d) := hw_read_status d in
  match iterP (drain_step limit) 65536 (status, c, d) with
  | inr r => r
  | inl _ => None
  end.

(** ** Feeding *)

Record Feed := mkFeed {
  fd_source : StreamSource;
  fd_sent : Z;
  fd_stall : Z;
  fd_cap : Capture;
  fd_dev : D;
}.

(** How the feeding loop is left: by its condition, or by a [return]. *)
Inductive FeedExit := FeedDone (st : Feed) | FeedReturn (code : Z) (st : Feed).

Definition feed_step (total_bytes : Z) (limit : nat) (st : Feed) : Feed + option FeedExit :=
  if negb (fd_sent st <? total_bytes) then inr (Some (FeedDone st)) else
  let '(status, d) := hw_read_status (fd_dev st) in
  if negb (Z.land status HW_STATUS_IN_FIFO_FULL =? 0) then
    match drain_output_words limit (fd_cap st) d with
    | None => inr UB
    | Some (c, d) =>
        let st := mkFeed (fd_source st) (fd_sent st) (fd_stall st + 1) c
                    (OSTimeDlyHMSM 0 0 0 1 d) in
        if HW_STALL_MAX_CYCLES <? fd_stall st then inr (Some (FeedReturn 0 st)) else inl st
    end
  else
    match source_read_word (fd_source st) with
    | None => inr UB
    | Some (None, source) =>
        inr (Some (FeedReturn (-1) (mkFeed source (fd_sent st) (fd_stall st) (fd_cap st) d)))
    | Some (Some raw_word, source) =>
        match read_le32 raw_word with
        | None => inr UB
        | Some word =>
            match drain_output_words limit (fd_cap st) (hw_write_word word d) with
            | None => inr UB
            | Some (c, d) => inl (mkFeed source (u32 (fd_sent st + 4)) 0 c d)
            end
        end
    end.

(** The second loop: drain until the hardware is done. *)
Definition wait_step (limit : nat) (s : Capture * D) : Capture * D + option (Capture * D) :=
  let '(c, d) := s in
  match drain_output_words limit c d with
  | None => inr UB
  | Some (c, d) =>
      let '(status, d) := hw_read_status d in
      if negb (Z.land status HW_STATUS_OUT_FIFO_EMPTY =? 0) &&
         negb (Z.land status HW_STATUS_DONE =? 0)
      then inr (Some (c, d))
      else inl (c, OSTimeDlyHMSM 0 0 0 1 d)
  end.

(** The result code, the source, the capture and the device.  The loop sends one
    word or stalls, so 2^45 turns are never reached. *)
Definition feed_source_to_hardware (source : StreamSource) (total_bytes : Z)
    (wait_for_done : bool) (limit : nat) (c : Capture) (d : D)
  : option (Z * StreamSource * Capture * D) :=
  match iterP (feed_step total_bytes limit) (2 ^ 45) (mkFeed source 0 0 c d) with
  | inl _ | inr UB => None
  | inr (Some (FeedReturn code st)) => Some (code, fd_source st, fd_cap st, fd_dev st)
  | inr (Some (FeedDone st)) =>
      let d := hw_signal_eof (fd_dev st) in
      if negb wait_for_done then Some (1, fd_source st, fd_cap st, d) else
      match iterP (wait_step limit) (Z.to_pos HW_STALL_MAX_CYCLES) (fd_cap st, d) with
      | inl (c, d) => Some (0, fd_source st, c, d)
      | inr None => None
      | inr (Some (c, d)) => Some (1, fd_source st, c, d)
      end
  end.

End HwDriver.

(** ** A run on the accelerator alone *)

Definition demo_feed : option (Z * list Z) :=
  let? r := parse_request_body demo_body in
  let? rq := r in
  let? s := load_table_schema_from_buf demo_table (Z.of_nat (length demo_table)) in
  let? sch := s in
  let? (sch, src, total) := table_source sch demo_table (Z.of_nat (length demo_table)) in
  let d := hw_clear (accel_reset (mkAccel 0 0 [] None 0 [] [] 0 0 false 0 0 false)) in
  let? (err, d) := compile_and_send_instructions rq sch src d in
  let? (code, _, c, d) :=
    feed_source_to_hardware src total true 12 (mkCapture (replicate 12 0) 0) d in
  Some (code, take (cap_size c) (cap_buf c)).

Example demo_feed_run : demo_feed = Some (1, lit "3CC ").
Proof. vm_compute. reflexivity. Qed.
