(* ===== verification/HwFacts.v ===== *)
(** * HwFacts

    Correctness of the feed: on a device whose accelerator follows its contract,
    what the driver captures is the query result, and when it does not. *)

From S2P Require Import Prelude CString Request RequestFacts Table TableFacts Compile CompileFacts.
From S2P Require Import Accel CompileSpec HwDriver.

(** ** What the accelerator computes on a stream of rows *)

Record Scan := mkScan {
  sc_passed : list Z;     (* rows let through *)
  sc_hit : bool;          (* the limit was reached *)
  sc_held : list Z;       (* rows received after that *)
}.

Definition lim_reached (lim : option Z) (n : nat) : bool :=
  match lim with None => false | Some l => l <=? Z.of_nat n end.

Definition scan_step (P : Z -> bool) (lim : option Z) (s : Scan) (w : Z) : Scan :=
  if sc_hit s then mkScan (sc_passed s) true (sc_held s ++ [w])
  else if P w
  then mkScan (sc_passed s ++ [w]) (lim_reached lim (S (length (sc_passed s)))) (sc_held s)
  else s.

Definition scan (P : Z -> bool) (lim : option Z) (rows : list Z) : Scan :=
  foldl (scan_step P lim) (mkScan [] false []) rows.

(** The rows of a query: those that satisfy the filters, up to the limit (a limit of
    zero lets one through). *)
Definition selected (P : Z -> bool) (lim : option Z) (rows : list Z) : list Z :=
  match lim with
  | None => List.filter P rows
  | Some l => take (Z.to_nat (Z.max 1 l)) (List.filter P rows)
  end.

Definition sum_digits (col : Z) (rows : list Z) : Z :=
  foldl (fun acc w => u32 (acc + u8 (row_col col w - 48))) 0 rows.

Lemma scan_snoc P lim rows w : scan P lim (rows ++ [w]) = scan_step P lim (scan P lim rows) w.
Proof. unfold scan. by rewrite foldl_app. Qed.

Lemma filter_snoc (P : Z -> bool) rows w :
  List.filter P (rows ++ [w]) = List.filter P rows ++ (if P w then [w] else []).
Proof. rewrite List.filter_app. cbn. by destruct (P w). Qed.

(** The invariant that ties the scan to the specification. *)
Lemma scan_inv P lim rows :
  let s := scan P lim rows in
  sc_passed s = selected P lim rows /\
  (sc_hit s = match lim with
              | None => false
              | Some l => (Z.to_nat (Z.max 1 l) <=? length (List.filter P rows))%nat
              end) /\
  (sc_hit s = false -> sc_held s = [] /\ sc_passed s = List.filter P rows).
Proof.
  cbv zeta. induction rows as [|w rows (IHp & IHh & IHf)] using rev_ind.
  - unfold selected. cbn [scan foldl sc_passed sc_hit sc_held List.filter length].
    destruct lim as [l|]; [|done]. rewrite take_nil. split; [done|].
    split; [|done]. symmetry. apply Nat.leb_gt. lia.
  - rewrite scan_snoc, filter_snoc. unfold scan_step.
    destruct (sc_hit (scan P lim rows)) eqn:Eh; cbn [sc_passed sc_hit sc_held].
    + destruct lim as [l|]; [|done]. symmetry in IHh. apply Nat.leb_le in IHh.
      unfold selected in *. rewrite filter_snoc. split; [|split; [|done]].
      * rewrite take_app_le by done. exact IHp.
      * symmetry. apply Nat.leb_le. rewrite length_app. lia.
    + destruct (IHf eq_refl) as [Hd Hp]. unfold selected in *. rewrite filter_snoc.
      destruct (P w); cbn [sc_passed sc_hit sc_held].
      * rewrite Hp. destruct lim as [l|]; cbn [lim_reached]; [|done].
        symmetry in IHh. apply Nat.leb_gt in IHh. split.
        { rewrite take_ge; [done|]. rewrite length_app. cbn. lia. }
        split; [|intros _; done]. rewrite length_app. cbn [length].
        apply eq_true_iff_eq. rewrite Z.leb_le, Nat.leb_le. lia.
      * rewrite !app_nil_r. split; [exact IHp|]. split; [|done]. by rewrite Eh.
Qed.

Lemma scan_held_bound P lim rows w ws :
  (length (sc_held (scan P lim (rows ++ w :: ws))) <= 128)%nat ->
  (length (sc_held (scan P lim rows)) < 128)%nat \/ sc_hit (scan P lim rows) = false.
Proof.
  intros H. destruct (sc_hit (scan P lim rows)) eqn:Eh; [left|by right].
  assert (G : forall ws s, sc_hit s = true ->
    length (sc_held (foldl (scan_step P lim) s ws)) = (length (sc_held s) + length ws)%nat).
  { clear. induction ws as [|w ws IH]; intros s Hs; cbn [foldl length]; [lia|].
    rewrite IH; unfold scan_step; rewrite Hs; [|done]. cbn [sc_held].
    rewrite length_app. cbn. lia. }
  unfold scan in *. rewrite foldl_app, G in H by done. cbn [length] in H. lia.
Qed.

(** ** The accelerator follows the scan *)

Record follows (insts : list Z) (lim : option Z) (col : Z) (s : Scan) (a : Accel) : Prop := {
  fo_where : a_where a = insts;
  fo_limit : a_limit a = lim;
  fo_col : a_col a = col;
  fo_in : a_in a = sc_held s;
  fo_hit : a_hit a = sc_hit s;
  fo_n : match lim with None => True | Some _ => sc_hit s = false ->
           a_n a = Z.of_nat (length (sc_passed s)) end;
  fo_acc : a_acc a = u32 (Z.of_nat (length (sc_passed s)));
  fo_sum : a_sum a = sum_digits col (sc_passed s);
  fo_eof : a_eof a = false;
}.

Definition limit_ok (lim : option Z) : Prop :=
  match lim with None => True | Some l => 0 <= l < 256 end.

Lemma sum_digits_snoc col ws w :
  sum_digits col (ws ++ [w]) = u32 (sum_digits col ws + u8 (row_col col w - 48)).
Proof. unfold sum_digits. by rewrite foldl_app. Qed.

Lemma follows_push insts lim col rows a w :
  limit_ok lim -> follows insts lim col (scan (where_all insts) lim rows) a ->
  a_out a = [] -> (length (sc_held (scan (where_all insts) lim rows)) < 128)%nat ->
  let s := scan (where_all insts) lim rows in
  let a' := accel_write 0 1 (accel_write 4 w a) in
  follows insts lim col (scan_step (where_all insts) lim s w) a' /\
  sc_passed (scan_step (where_all insts) lim s w) = sc_passed s ++ a_out a' /\
  (length (a_out a') <= 1)%nat.
Proof.
  intros Hl [Hw Hli Hc Hin Hh Hn Ha Hsu He] Hout Hheld. cbv zeta.
  destruct (scan_inv (where_all insts) lim rows) as (_ & Hhit & Hf).
  set (s := scan (where_all insts) lim rows) in *.
  change (accel_write 0 1 (accel_write 4 w a)) with (accel_push (accel_write 4 w a)).
  unfold accel_push, accel_write.
  change (4 =? 0) with false. change (4 =? 4) with true. cbv iota. cbn [a_data a_hit a_eof a_where].
  rewrite Hh, He, Hw. unfold scan_step. destruct (sc_hit s) eqn:Eh.
  - unfold accel_hold. cbn [a_in a_out a_where a_limit a_col a_hit a_n a_acc a_sum a_eof length].
    rewrite Hout, Hin. rewrite (proj2 (Nat.ltb_lt _ FIFO_DEPTH)) by exact Hheld.
    split; [|cbn [sc_passed]; rewrite app_nil_r; cbn; split; [done|lia]].
    constructor; cbn; try done; by destruct lim.
  - cbn [orb]. destruct (Hf eq_refl) as [Hd _]. destruct (where_all insts w); cbn [negb].
    + cbn [a_limit]. rewrite Hli.
      assert (Hu : u32 (u32 (Z.of_nat (length (sc_passed s))) + 1) =
        u32 (Z.of_nat (length (sc_passed s ++ [w])))).
      { rewrite length_app. cbn [length]. unfold u32. Z.div_mod_to_equations. lia. }
      destruct lim as [l|]; unfold accel_emit;
        cbn [a_in a_out a_where a_limit a_col a_hit a_n a_acc a_sum a_eof length
             sc_passed sc_hit sc_held lim_reached]; rewrite Hout, Ha, Hsu, Hc;
        (split; [|split; [done|cbn; lia]]); constructor; cbn; try done;
        try (by rewrite Hin); try (symmetry; apply sum_digits_snoc).
      * rewrite (Hn eq_refl). symmetry in Hhit. apply Nat.leb_gt in Hhit.
        rewrite (proj2 (Hf eq_refl)). cbn in Hl. rewrite u8_small by (word_lia).
        replace (Z.of_nat (length (List.filter (where_all insts) rows)) + 1)
          with (Z.of_nat (S (length (List.filter (where_all insts) rows)))) by lia. done.
      * intros Hlt. apply Z.leb_gt in Hlt. rewrite (Hn eq_refl).
        rewrite length_app. cbn [length]. cbn in Hl. rewrite u8_small by word_lia. lia.
    + cbn [a_out]. rewrite Hout, app_nil_r. split; [|split; [done|cbn; lia]].
      constructor; cbn; try done. by rewrite Eh.
Qed.

(** ** Draining *)

(** The accelerator once its output FIFO has been emptied. *)
Definition accel_drained (a : Accel) : Accel :=
  mkAccel (a_data a) (a_inst a) (a_where a) (a_limit a) (a_col a) (a_in a) []
    (List.last (a_out a) (a_dout a)) (a_n a) (a_hit a) (a_acc a) (a_sum a) (a_eof a).

Lemma accel_drained_pop w out a :
  a_out a = w :: out -> accel_drained (accel_pop a) = accel_drained a /\ a_out (accel_pop a) = out.
Proof.
  intros Ho. unfold accel_pop. rewrite Ho. split; [|done].
  unfold accel_drained. cbn [a_data a_inst a_where a_limit a_col a_in a_out a_dout a_n a_hit a_acc
    a_sum a_eof]. rewrite Ho. f_equal. clear. revert w.
  induction out as [|x out IH]; intros w; [done|]. cbn [List.last] in *. by destruct out.
Qed.

Lemma accel_drained_nil a : a_out a = [] -> accel_drained a = a.
Proof. destruct a. cbn. intros ->. done. Qed.

Lemma follows_drained insts lim col s a :
  follows insts lim col s a -> follows insts lim col s (accel_drained a).
Proof. intros []. by constructor. Qed.

(** [c] holds the first [m] of the words [ws]. *)
Record captured (m : nat) (ws : list Z) (c : Capture) : Prop := {
  cp_size : cap_size c = (4 * length (take m ws))%nat;
  cp_buf : take (cap_size c) (cap_buf c) = concat (le32_bytes <$> take m ws);
  cp_room : (4 * m <= length (cap_buf c))%nat;
}.

Lemma captured_empty m buf : (4 * m <= length buf)%nat -> captured m [] (mkCapture buf 0).
Proof. intros H. constructor; cbn; rewrite ?take_nil; done. Qed.

Lemma capture_word_spec m ws w c :
  captured m ws c ->
  exists c', capture_word (4 * m) w c = Some c' /\ captured m (ws ++ [w]) c' /\
    length (cap_buf c') = length (cap_buf c).
Proof.
  intros [Hs Hb Hr]. unfold capture_word. rewrite length_take in Hs.
  destruct (Nat.ltb_spec (cap_size c) (4 * m)) as [Hlt|Hge].
  - assert (Hws : (length ws < m)%nat) by lia.
    rewrite memcpy_at_some by (cbn; lia). eexists. split; [done|].
    assert (Hlen : length (take (cap_size c) (cap_buf c)) = cap_size c)
      by (rewrite length_take; lia).
    split.
    + rewrite (take_ge ws) in Hb by lia. constructor; cbn [cap_size cap_buf].
      * rewrite take_ge, length_app by (rewrite length_app; cbn; lia). cbn. lia.
      * rewrite (take_ge (ws ++ [w])), fmap_app, concat_app by (rewrite length_app; cbn; lia).
        rewrite <- Hb. cbn [fmap list_fmap concat]. rewrite app_nil_r, app_assoc.
        apply take_app_length'. rewrite length_app, Hlen. cbn. lia.
      * rewrite !length_app, Hlen, length_drop. cbn. lia.
    + cbn [cap_buf]. rewrite !length_app, Hlen, length_drop. cbn. lia.
  - exists c. split; [done|]. split; [|done]. assert (Hws : (m <= length ws)%nat) by lia.
    constructor; rewrite ?take_app_le, ?length_take by done; try done.
Qed.

Section Facts.
  Context {D : Type} `{UserHw D}.

Lemma read_status_eq d : exists d',
  hw_read_status d = (accel_status (hw_view d), d') /\ hw_view d' = hw_view d.
Proof.
  unfold hw_read_status. exists (snd (IORD_32DIRECT USER_HW_0_BASE HW_REG_STATUS_OFFSET d)).
  split; [|apply hw_read_view]. rewrite surjective_pairing at 1. f_equal. apply hw_read_law.
Qed.

Lemma read_data_out_eq d w out :
  a_out (hw_view d) = w :: out ->
  exists d', hw_read_data_out d = (w, d') /\ hw_view d' = accel_pop (hw_view d).
Proof.
  intros Ho. unfold hw_read_data_out.
  set (d1 := IOWR_32DIRECT _ _ _ d).
  assert (Hd1 : hw_view d1 = accel_pop (hw_view d)) by apply hw_write_law.
  exists (snd (IORD_32DIRECT USER_HW_0_BASE HW_REG_DATA_OUT_OFFSET d1)).
  split; [|by rewrite hw_read_view]. rewrite surjective_pairing at 1. f_equal.
  rewrite hw_read_law, Hd1. unfold accel_pop. by rewrite Ho.
Qed.

Lemma drain_loop_spec m out : forall n ws c d,
  a_out (hw_view d) = out -> captured m ws c -> (length out < n)%nat ->
  exists c' d', iterN (drain_step (4 * m)) n (accel_status (hw_view d), c, d) = inr (Some (c', d')) /\
    captured m (ws ++ out) c' /\ length (cap_buf c') = length (cap_buf c) /\
    hw_view d' = accel_drained (hw_view d).
Proof.
  induction out as [|w out IH]; intros n ws c d Ho Hc Hn; destruct n as [|n]; try lia;
    cbn [iterN drain_step].
  - destruct (Z.eqb_spec (Z.land (accel_status (hw_view d)) HW_STATUS_OUT_FIFO_EMPTY) 0) as [E|E].
    + by apply status_out_empty in E.
    + exists c, d. rewrite app_nil_r, accel_drained_nil by done. done.
  - rewrite (proj2 (Z.eqb_eq (Z.land (accel_status (hw_view d)) HW_STATUS_OUT_FIFO_EMPTY) 0))
      by (apply status_out_empty; by rewrite Ho).
    destruct (read_data_out_eq d w out Ho) as (d1 & -> & Hd1).
    destruct (capture_word_spec m ws w c Hc) as (c1 & -> & Hc1 & Hl1).
    destruct (read_status_eq d1) as (d2 & -> & Hd2).
    destruct (accel_drained_pop w out (hw_view d) Ho) as [Hdr Hpop].
    cbn [length] in Hn. rewrite <- Hd2.
    destruct (IH n (ws ++ [w]) c1 d2) as (c' & d' & E & Hc' & Hl & Hd'); [by rewrite Hd2, Hd1|done|lia|].
    exists c', d'. rewrite E. rewrite <- app_assoc in Hc'. split; [done|]. split; [done|].
    split; [lia|]. by rewrite Hd', Hd2, Hd1.
Qed.

Lemma drain_output_words_spec m ws c d :
  captured m ws c -> (length (a_out (hw_view d)) <= FIFO_DEPTH)%nat ->
  exists c' d', drain_output_words (4 * m) c d = Some (c', d') /\
    captured m (ws ++ a_out (hw_view d)) c' /\ length (cap_buf c') = length (cap_buf c) /\
    hw_view d' = accel_drained (hw_view d).
Proof.
  intros Hc Hl. unfold drain_output_words. destruct (read_status_eq d) as (d1 & -> & Hd1).
  rewrite <- Hd1 in Hl |- *. rewrite iterP_iterN.
  destruct (drain_loop_spec m _ (Pos.to_nat 65536) ws c d1 eq_refl Hc) as (c' & d' & -> & R).
  - unfold FIFO_DEPTH in Hl. lia.
  - exists c', d'. done.
Qed.

(** ** The feeding loop *)

(** A source over [rows], the first [i] of which were read. *)
Record source_rows (rows : list Z) (i : nat) (src : StreamSource) : Prop := {
  sr_mem : exists m, memory src = Some m /\
    forall j w, rows !! j = Some w -> take 4 (drop (4 * j) m) = le32_bytes w /\ (4 * j + 4 <= length m)%nat;
  sr_size : memory_size src = 4 * Z.of_nat (length rows);
  sr_off : memory_offset src = 4 * Z.of_nat i;
  sr_max : 4 * Z.of_nat (length rows) + 4 < 2 ^ 32;
}.

Lemma source_rows_read rows i src w :
  source_rows rows i src -> rows !! i = Some w -> is_u32 w ->
  exists src', source_read_word src = Some (Some (le32_bytes w), src') /\
    source_rows rows (S i) src'.
Proof.
  intros [(m & Hm & Hrow) Hs Ho Hx] Hi Hw. destruct (Hrow _ _ Hi) as [Ht Hlen].
  pose proof (lookup_lt_Some _ _ _ Hi) as Hlt. unfold source_read_word.
  rewrite Hs, Ho, Hm. rewrite u32_small by word_lia.
  rewrite (proj2 (Z.ltb_ge _ _)) by lia.
  replace (Z.to_nat (4 * Z.of_nat i)) with (4 * i)%nat by lia.
  rewrite (proj2 (Nat.ltb_ge _ _)) by lia. rewrite Ht. eexists. split; [done|].
  constructor; cbn [memory memory_size memory_offset]; try done; [by exists m|lia].
Qed.

Record feeding (insts : list Z) (lim : option Z) (col : Z) (m : nat) (rows : list Z) (i : nat)
    (buflen : nat) (st : Feed) : Prop := {
  fe_source : source_rows rows i (fd_source st);
  fe_sent : fd_sent st = 4 * Z.of_nat i;
  fe_cap : captured m (sc_passed (scan (where_all insts) lim (take i rows))) (fd_cap st);
  fe_len : length (cap_buf (fd_cap st)) = buflen;
  fe_acc : follows insts lim col (scan (where_all insts) lim (take i rows)) (hw_view (fd_dev st));
  fe_out : a_out (hw_view (fd_dev st)) = [];
}.

Lemma feed_step_row insts lim col m rows i bl st w :
  limit_ok lim -> Forall is_u32 rows -> feeding insts lim col m rows i bl st ->
  rows !! i = Some w ->
  (length (sc_held (scan (where_all insts) lim (take i rows))) < 128)%nat ->
  exists st', feed_step (4 * Z.of_nat (length rows)) (4 * m) st = inl st' /\
    feeding insts lim col m rows (S i) bl st' /\ fd_stall st' = 0.
Proof.
  intros Hl Hu [Hsrc Hsent Hcap Hlen Hacc Hout] Hi Hheld.
  pose proof (lookup_lt_Some _ _ _ Hi) as Hlt. unfold feed_step. rewrite Hsent.
  rewrite (proj2 (Z.ltb_lt _ _)) by lia. cbn [negb].
  destruct (read_status_eq (fd_dev st)) as (d1 & -> & Hd1).
  rewrite (proj2 (Z.eqb_eq (Z.land (accel_status (hw_view (fd_dev st))) HW_STATUS_IN_FIFO_FULL) 0))
    by (apply status_in_full; by rewrite (fo_in _ _ _ _ _ Hacc)).
  cbn [negb]. assert (Hw : is_u32 w) by (eapply Forall_lookup_1; done).
  destruct (source_rows_read rows i _ w Hsrc Hi Hw) as (src' & -> & Hsrc').
  rewrite <- (app_nil_r (le32_bytes w)), read_le32_le32_bytes by done.
  set (d2 := hw_write_word w d1).
  assert (Hd2 : hw_view d2 = accel_write 0 1 (accel_write 4 w (hw_view (fd_dev st)))).
  { unfold d2, hw_write_word. by rewrite !hw_write_law, Hd1. }
  destruct (follows_push insts lim col (take i rows) _ w Hl Hacc Hout Hheld) as (Hf & Hp & Hone).
  rewrite <- Hd2 in *. rewrite <- scan_snoc in Hf, Hp.
  rewrite <- (take_S_r _ _ _ Hi) in Hf, Hp.
  destruct (drain_output_words_spec m _ _ d2 Hcap) as (c' & d' & -> & Hc' & Hl' & Hd');
    [unfold FIFO_DEPTH; lia|].
  eexists. split; [reflexivity|]. split; [|done].
  constructor; cbn [fd_source fd_sent fd_cap fd_dev]; try done.
  - destruct Hsrc. rewrite u32_small by word_lia. lia.
  - by rewrite Hp.
  - lia.
  - rewrite Hd'. by apply follows_drained.
  - by rewrite Hd'.
Qed.

Lemma feed_rows insts lim col m rows bl : forall k i st,
  limit_ok lim -> Forall is_u32 rows -> feeding insts lim col m rows i bl st ->
  (i + k <= length rows)%nat ->
  (length (sc_held (scan (where_all insts) lim (take (i + k) rows))) <= 128)%nat ->
  exists st', iterN (feed_step (4 * Z.of_nat (length rows)) (4 * m)) k st = inl st' /\
    feeding insts lim col m rows (i + k) bl st' /\ (fd_stall st = 0 -> fd_stall st' = 0).
Proof.
  induction k as [|k IH]; intros i st Hl Hu Hf Hik Hh.
  - exists st. by rewrite Nat.add_0_r.
  - destruct (lookup_lt_is_Some_2 rows i) as [w Hw]; [lia|].
    assert (Hheld : (length (sc_held (scan (where_all insts) lim (take i rows))) < 128)%nat).
    { assert (Hsplit : take (i + S k) rows = take i rows ++ w :: take k (drop (S i) rows)).
      { rewrite <- Nat.add_succ_comm, <- take_take_drop, (take_S_r _ _ _ Hw), <- app_assoc. done. }
      rewrite Hsplit in Hh. apply scan_held_bound in Hh as [Hh|Hh]; [done|].
      destruct (scan_inv (where_all insts) lim (take i rows)) as (_ & _ & Hn).
      destruct (Hn Hh) as [-> _]. cbn. lia. }
    destruct (feed_step_row _ _ _ _ _ _ _ _ w Hl Hu Hf Hw Hheld) as (st1 & E & Hf1 & Hs1).
    rewrite <- Nat.add_succ_comm in Hik, Hh.
    destruct (IH (S i) st1 Hl Hu Hf1 Hik Hh) as (st2 & E2 & Hf2 & Hs2).
    exists st2. cbn [iterN]. rewrite E, <- Nat.add_succ_comm. split; [done|]. split; [done|].
    intros _. by apply Hs2.
Qed.

Lemma wait_step_done insts lim col m s c d :
  follows insts lim col s (hw_view d) -> a_out (hw_view d) = [] ->
  (sc_hit s = false -> sc_held s = []) -> captured m (sc_passed s) c ->
  exists c' d', wait_step (4 * m) (c, hw_signal_eof d) = inr (Some (c', d')) /\
    captured m (sc_passed s) c' /\ length (cap_buf c') = length (cap_buf c) /\
    hw_view d' = accel_eof (hw_view d).
Proof.
  intros [] Hout Hhit Hc. unfold wait_step.
  assert (Hd : hw_view (hw_signal_eof d) = accel_eof (hw_view d)) by apply hw_write_law.
  destruct (drain_output_words_spec m _ c (hw_signal_eof d) Hc) as (c1 & d1 & -> & Hc1 & Hl1 & Hd1).
  { rewrite Hd. cbn [accel_eof a_out]. rewrite Hout. cbn. lia. }
  rewrite Hd in Hc1, Hd1. cbn [accel_eof a_out] in Hc1. rewrite Hout, app_nil_r in Hc1.
  rewrite accel_drained_nil in Hd1 by done.
  destruct (read_status_eq d1) as (d2 & -> & Hd2). rewrite Hd1 in *.
  set (a := accel_eof (hw_view d)) in *.
  rewrite (proj2 (Z.eqb_neq (Z.land (accel_status a) HW_STATUS_OUT_FIFO_EMPTY) 0)).
  2: { rewrite status_out_empty. intros Hne. by apply Hne. }
  rewrite (proj2 (Z.eqb_neq (Z.land (accel_status a) HW_STATUS_DONE) 0)).
  2: { rewrite status_done. unfold accel_done, a, accel_eof. cbn [a_eof a_in a_hit].
       rewrite fo_hit0, fo_in0. destruct (sc_hit s); [by rewrite orb_true_r|].
       by rewrite (Hhit eq_refl). }
  by exists c1, d2.
Qed.

Lemma feed_source_spec insts lim col m rows bl st :
  limit_ok lim -> Forall is_u32 rows -> feeding insts lim col m rows 0 bl st ->
  fd_stall st = 0 -> fd_sent st = 0 ->
  (length (sc_held (scan (where_all insts) lim rows)) <= 128)%nat ->
  exists src' c' d',
    feed_source_to_hardware (fd_source st) (4 * Z.of_nat (length rows)) true (4 * m)
      (fd_cap st) (fd_dev st) = Some (1, src', c', d') /\
    captured m (selected (where_all insts) lim rows) c' /\ length (cap_buf c') = bl /\
    a_acc (hw_view d') = u32 (Z.of_nat (length (selected (where_all insts) lim rows))) /\
    a_sum (hw_view d') = sum_digits col (selected (where_all insts) lim rows).
Proof.
  intros Hl Hu Hf Hst Hse Hh. unfold feed_source_to_hardware.
  replace (mkFeed (fd_source st) 0 0 (fd_cap st) (fd_dev st)) with st
    by (destruct st; cbn in *; by subst).
  pose proof (sr_max _ _ _ (fe_source _ _ _ _ _ _ _ _ Hf)) as Hmax.
  destruct (feed_rows insts lim col m rows bl (length rows) 0 st Hl Hu Hf) as (st' & E & Hf' & _);
    [lia|by rewrite take_ge by lia|].
  rewrite iterP_iterN, (iterN_finish _ _ _ _ _ (Some (FeedDone st')) E).
  2: { unfold feed_step. rewrite (fe_sent _ _ _ _ _ _ _ _ Hf'), Nat.add_0_l.
       by rewrite (proj2 (Z.ltb_ge _ _)) by lia. }
  2: { change (Pos.to_nat (2 ^ 45)) with (Pos.to_nat (Z.to_pos (2 ^ 45))). lia. }
  destruct Hf' as [_ _ Hcap Hlen Hacc Hout]. rewrite Nat.add_0_l, take_ge in Hcap, Hacc by lia.
  destruct (scan_inv (where_all insts) lim rows) as (Hsel & _ & Hn).
  destruct (wait_step_done insts lim col m _ (fd_cap st') (fd_dev st') Hacc Hout) as
    (c' & d' & Ew & Hc' & Hl' & Hd'); [intros Hnh; by destruct (Hn Hnh)|done|].
  cbn [negb]. rewrite iterP_iterN.
  rewrite (iterN_finish _ 0 _ (fd_cap st', hw_signal_eof (fd_dev st')) _ _ eq_refl Ew)
    by (unfold HW_STALL_MAX_CYCLES; lia).
  eexists _, c', d'. split; [reflexivity|]. rewrite <- Hsel. split; [done|]. split; [lia|].
  rewrite Hd'. destruct Hacc. done.
Qed.

(** ** The stall after the limit *)

Lemma stall_step insts lim col m rows i bl st :
  feeding insts lim col m rows i bl st -> (i < length rows)%nat ->
  length (sc_held (scan (where_all insts) lim (take i rows))) = 128%nat ->
  exists st', feeding insts lim col m rows i bl st' /\ fd_stall st' = fd_stall st + 1 /\
    feed_step (4 * Z.of_nat (length rows)) (4 * m) st =
      if HW_STALL_MAX_CYCLES <? fd_stall st' then inr (Some (FeedReturn 0 st')) else inl st'.
Proof.
  intros [Hsrc Hsent Hcap Hlen Hacc Hout] Hlt Hheld. unfold feed_step. rewrite Hsent.
  rewrite (proj2 (Z.ltb_lt _ _)) by lia. cbn [negb].
  destruct (read_status_eq (fd_dev st)) as (d1 & -> & Hd1).
  rewrite (proj2 (Z.eqb_neq (Z.land (accel_status (hw_view (fd_dev st))) HW_STATUS_IN_FIFO_FULL) 0)).
  2: { rewrite status_in_full, (fo_in _ _ _ _ _ Hacc), Hheld. unfold FIFO_DEPTH. lia. }
  cbn [negb]. destruct (drain_output_words_spec m _ _ d1 Hcap) as (c' & d' & -> & Hc' & Hl' & Hd').
  { rewrite Hd1, Hout. cbn. lia. }
  rewrite Hd1 in *. rewrite Hout, app_nil_r in Hc'. rewrite accel_drained_nil in Hd' by done.
  eexists. split; [|split; [|reflexivity]]; [|done].
  constructor; cbn [fd_source fd_sent fd_cap fd_dev]; rewrite ?hw_delay_view, ?Hd'; try done. lia.
Qed.

Lemma stall_loop insts lim col m rows i bl : forall k st,
  feeding insts lim col m rows i bl st -> (i < length rows)%nat ->
  length (sc_held (scan (where_all insts) lim (take i rows))) = 128%nat ->
  0 <= fd_stall st -> fd_stall st + Z.of_nat k <= HW_STALL_MAX_CYCLES ->
  exists st', iterN (feed_step (4 * Z.of_nat (length rows)) (4 * m)) k st = inl st' /\
    feeding insts lim col m rows i bl st' /\ fd_stall st' = fd_stall st + Z.of_nat k.
Proof.
  induction k as [|k IH]; intros st Hf Hi Hh Hz Hk.
  - exists st. split; [done|]. split; [done|lia].
  - destruct (stall_step _ _ _ _ _ _ _ _ Hf Hi Hh) as (st1 & Hf1 & Hs1 & E1).
    rewrite (proj2 (Z.ltb_ge _ _)) in E1 by lia.
    destruct (IH st1 Hf1 Hi Hh) as (st2 & E2 & Hf2 & Hs2); [lia..|].
    exists st2. cbn [iterN]. rewrite E1. split; [done|]. split; [done|lia].
Qed.

Lemma held_reaches insts lim rows :
  (128 < length (sc_held (scan (where_all insts) lim rows)))%nat ->
  exists i, (i < length rows)%nat /\
    length (sc_held (scan (where_all insts) lim (take i rows))) = 128%nat.
Proof.
  induction rows as [|w rows IH] using rev_ind; intros Hb; [cbn in Hb; lia|].
  rewrite scan_snoc in Hb. rewrite length_app. cbn [length].
  assert (Hone : (length (sc_held (scan_step (where_all insts) lim (scan (where_all insts) lim rows) w))
    <= S (length (sc_held (scan (where_all insts) lim rows))))%nat).
  { unfold scan_step. destruct (sc_hit _); [|destruct (where_all _ _)]; cbn [sc_held]; try lia.
    rewrite length_app. cbn. lia. }
  destruct (decide (length (sc_held (scan (where_all insts) lim rows)) = 128)%nat) as [E|E].
  - exists (length rows). rewrite take_app_length' by done. split; [lia|done].
  - destruct IH as (i & Hi & Ei); [lia|]. exists i. split; [lia|]. rewrite take_app_le by lia. done.
Qed.

Lemma feed_source_stall insts lim col m rows bl st :
  limit_ok lim -> Forall is_u32 rows -> feeding insts lim col m rows 0 bl st ->
  fd_stall st = 0 -> fd_sent st = 0 ->
  (128 < length (sc_held (scan (where_all insts) lim rows)))%nat ->
  exists src' c' d',
    feed_source_to_hardware (fd_source st) (4 * Z.of_nat (length rows)) true (4 * m)
      (fd_cap st) (fd_dev st) = Some (0, src', c', d') /\ length (cap_buf c') = bl.
Proof.
  intros Hl Hu Hf Hst Hse Hh. unfold feed_source_to_hardware.
  replace (mkFeed (fd_source st) 0 0 (fd_cap st) (fd_dev st)) with st
    by (destruct st; cbn in *; by subst).
  pose proof (sr_max _ _ _ (fe_source _ _ _ _ _ _ _ _ Hf)) as Hmax.
  destruct (held_reaches _ _ _ Hh) as (i & Hi & Hheld).
  destruct (feed_rows insts lim col m rows bl i 0 st Hl Hu Hf) as (st1 & E1 & Hf1 & Hs1);
    [lia|rewrite Nat.add_0_l; lia|]. rewrite Nat.add_0_l in Hf1.
  destruct (stall_loop _ _ _ _ _ _ _ (Z.to_nat HW_STALL_MAX_CYCLES) st1 Hf1 Hi Hheld) as
    (st2 & E2 & Hf2 & Hs2); [rewrite Hs1 by done; unfold HW_STALL_MAX_CYCLES; lia..|].
  destruct (stall_step _ _ _ _ _ _ _ _ Hf2 Hi Hheld) as (st3 & Hf3 & Hs3 & E3).
  rewrite (proj2 (Z.ltb_lt _ _)) in E3
    by (rewrite Hs3, Hs2, Hs1 by done; unfold HW_STALL_MAX_CYCLES; lia).
  rewrite iterP_iterN.
  rewrite (iterN_finish _ (i + Z.to_nat HW_STALL_MAX_CYCLES) _ st st2 (Some (FeedReturn 0 st3))).
  - eexists _, _, _. split; [reflexivity|]. apply Hf3.
  - rewrite iterN_add, E1. exact E2.
  - exact E3.
  - unfold HW_STALL_MAX_CYCLES. lia.
Qed.

(** ** Configuration *)

Lemma view_send i d : hw_view (hw_send_instruction i d) = accel_load (accel_write 8 i (hw_view d)).
Proof. unfold hw_send_instruction. by rewrite !hw_write_law. Qed.

(** The configuration part of a fresh accelerator. *)
Record configured (insts : list Z) (lim : option Z) (a : Accel) : Prop := {
  cf_where : a_where a = insts;
  cf_limit : a_limit a = lim;
  cf_in : a_in a = [];
  cf_out : a_out a = [];
  cf_n : a_n a = 0;
  cf_hit : a_hit a = false;
  cf_acc : a_acc a = 0;
  cf_sum : a_sum a = 0;
  cf_eof : a_eof a = false;
}.

Lemma clear_configured d : configured [] None (hw_view (hw_clear d)).
Proof. unfold hw_clear. rewrite hw_write_law. by constructor. Qed.

Lemma send_where_configured js : forall d insts lim,
  configured insts lim (hw_view d) -> (length insts + length js <= 4)%nat ->
  Forall (fun i => bits 31 28 i = 1) js ->
  configured (insts ++ js) lim (hw_view (hw_send_all js d)).
Proof.
  induction js as [|i js IH]; intros d insts lim Hc Hlen Hi; cbn [hw_send_all foldl].
  - by rewrite app_nil_r.
  - apply Forall_cons in Hi as [Hi1 Hi]. cbn [length] in Hlen.
    replace (insts ++ i :: js) with ((insts ++ [i]) ++ js) by (by rewrite <- app_assoc).
    apply IH; [|rewrite length_app; cbn; lia|done].
    rewrite view_send. destruct Hc. unfold accel_load, accel_write.
    change (8 =? 0) with false. change (8 =? 4) with false. change (8 =? 8) with true. cbv iota.
    cbn [a_inst a_where]. rewrite Hi1. change (1 =? 1) with true. cbv iota.
    rewrite cf_where0, (proj2 (Nat.ltb_lt _ _)) by (unfold NUM_WHERE; lia). by constructor.
Qed.

Lemma send_limit_configured l d insts :
  configured insts None (hw_view d) ->
  configured insts (Some (l mod 256)) (hw_view (hw_send_instruction (limit_instruction l) d)).
Proof.
  intros []. rewrite view_send. unfold accel_load, accel_write. cbn [a_inst].
  change (8 =? 0) with false. change (8 =? 4) with false. change (8 =? 8) with true. cbv iota.
  cbn [a_inst]. destruct (limit_fields l) as [-> ->]. change (2 =? 1) with false.
  change (2 =? 2) with true. cbv iota. by constructor.
Qed.

Lemma send_agg_configured i d insts lim :
  bits 31 28 i = 3 \/ bits 31 28 i = 4 -> configured insts lim (hw_view d) ->
  configured insts lim (hw_view (hw_send_instruction i d)) /\
  a_col (hw_view (hw_send_instruction i d)) = bits 5 0 i.
Proof.
  intros Hi []. rewrite view_send. unfold accel_load, accel_write.
  change (8 =? 0) with false. change (8 =? 4) with false. change (8 =? 8) with true. cbv iota.
  cbn [a_inst]. destruct Hi as [-> | ->]; cbn [Z.eqb Pos.eqb orb]; (split; [by constructor|done]).
Qed.

(** The feed starts from a configured accelerator. *)
Lemma feeding_start insts lim m rows src buf d :
  configured insts lim (hw_view d) -> source_rows rows 0 src -> (4 * m <= length buf)%nat ->
  feeding insts lim (a_col (hw_view d)) m rows 0 (length buf) (mkFeed src 0 0 (mkCapture buf 0) d).
Proof.
  intros [] Hs Hb. constructor; cbn [fd_source fd_sent fd_cap fd_dev cap_buf]; try done.
  - by apply captured_empty.
  - rewrite take_0. constructor; cbn; try done. by destruct lim.
Qed.

End Facts.
