(* ===== verification/HwSpec.v ===== *)
(** * HwSpec

    From the SQL text to the rows: the translation, the accelerator and the feed
    together compute the query. *)

From S2P Require Import Prelude CString Request RequestFacts Table TableFacts Compile CompileFacts.
From S2P Require Import Accel CompileSpec HwDriver HwFacts.

Definition query_limit (rq : QueryRequest) : option Z :=
  if 0 <? limit rq then Some (limit rq) else None.

Definition satisfies (cs : list Cond) (w : Z) : bool := forallb (cond_sem w) cs.

(** A request whose WHERE clause is the text of [cs] and whose limit fits the
    limit instruction. *)
Record query_of (rq : QueryRequest) (sch : TableSchema) (names : list Z) (cs : list Cond) : Prop := {
  qo_schema : named_schema sch names;
  qo_conds : Forall (cond_ok names) cs;
  qo_four : (length cs <= 4)%nat;
  qo_fits : (length (render_where names cs) < 256)%nat;
  qo_where : where_clause rq = zbuf 256 (render_where names cs);
  qo_limit : 0 <= limit rq < 256;
}.

Lemma scan_ext P Q lim rows : (forall w, P w = Q w) -> scan P lim rows = scan Q lim rows.
Proof.
  intros E. induction rows as [|w rows IH] using rev_ind; [done|].
  rewrite !scan_snoc, IH. unfold scan_step. by rewrite E.
Qed.

Lemma selected_ext P Q lim rows : (forall w, P w = Q w) -> selected P lim rows = selected Q lim rows.
Proof.
  intros E. unfold selected. by rewrite (List.filter_ext P Q E).
Qed.

Lemma where_all_conds names cs :
  (length names <= 4)%nat -> Forall (cond_ok names) cs ->
  forall w, where_all (cond_instruction <$> cs) w = satisfies cs w.
Proof.
  intros Hn Hcs w. unfold where_all, satisfies. induction Hcs as [|c cs Hc Hcs IH]; [done|].
  rewrite fmap_cons. cbn [forallb]. by rewrite (where_hit_cond names), IH.
Qed.

Section Query.
  Context {D : Type} `{UserHw D}.

Lemma limit_configured rq d :
  0 <= limit rq < 256 ->
  configured [] (query_limit rq) (hw_view (hw_send_all (fst (compile_limit rq)) (hw_clear d))).
Proof.
  intros Hl. unfold compile_limit, query_limit. destruct (Z.ltb_spec 0 (limit rq)); cbn [fst].
  - cbn [hw_send_all foldl]. replace (limit rq) with (limit rq mod 256) at 1 by (apply Z.mod_small; lia).
    apply send_limit_configured, clear_configured.
  - apply clear_configured.
Qed.

(** The upload of a query whose SELECT list emits [agg]. *)
Lemma query_configured rq sch src names cs agg d :
  query_of rq sch names cs -> compile_select rq sch src = Some (agg, None) ->
  exists d1, compile_and_send_instructions rq sch src (hw_clear d) = Some (None, hw_send_all agg d1) /\
    configured (cond_instruction <$> cs) (query_limit rq) (hw_view d1).
Proof.
  intros [Hs Hcs H4 Hf Hw Hl] Hsel. unfold compile_and_send_instructions, compile_instructions.
  rewrite (compile_where_rendered rq sch names cs Hs Hcs Hf Hw), Hsel.
  unfold where_result. rewrite take_ge by (cbn; lia).
  rewrite (proj2 (Nat.leb_le (length cs) (4 - 0))) by lia. cbn [after].
  assert (Hcl : snd (compile_limit rq) = None) by done.
  destruct (compile_limit rq) as [li le] eqn:El. cbn [snd] in Hcl. subst le. cbn [after].
  eexists. unfold hw_send_all at 1. rewrite !foldl_app. split; [reflexivity|].
  refine (send_where_configured (cond_instruction <$> cs) (hw_send_all li (hw_clear d)) [] _ _ _ _).
  - pose proof (limit_configured rq d Hl) as Hc. rewrite El in Hc. exact Hc.
  - rewrite length_fmap. cbn. lia.
  - apply Forall_fmap. apply Forall_true. intros c.
    apply (where_fields (Z.of_nat (c_col c)) (s8 (c_val c)) (op_number (c_op c))).
Qed.

Lemma query_limit_ok rq : 0 <= limit rq < 256 -> limit_ok (query_limit rq).
Proof. intros Hl. unfold query_limit. destruct (0 <? limit rq); cbn; lia. Qed.

Lemma query_names rq sch names cs : query_of rq sch names cs -> (length names <= 4)%nat.
Proof.
  intros Hq. pose proof (so_count _ (ns_schema _ _ (qo_schema _ _ _ _ Hq))) as Hc.
  rewrite (ns_count _ _ (qo_schema _ _ _ _ Hq)) in Hc. lia.
Qed.

(** The feed after the upload. *)
Lemma query_feed rq sch names cs lim m rows src buf d :
  query_of rq sch names cs -> lim = query_limit rq ->
  configured (cond_instruction <$> cs) lim (hw_view d) ->
  Forall is_u32 rows -> source_rows rows 0 src -> (4 * m <= length buf)%nat ->
  (length (sc_held (scan (satisfies cs) lim rows)) <= 128)%nat ->
  exists src' c d',
    feed_source_to_hardware src (4 * Z.of_nat (length rows)) true (4 * m) (mkCapture buf 0) d =
      Some (1, src', c, d') /\
    captured m (selected (satisfies cs) lim rows) c /\ length (cap_buf c) = length buf /\
    a_acc (hw_view d') = u32 (Z.of_nat (length (selected (satisfies cs) lim rows))) /\
    a_sum (hw_view d') = sum_digits (a_col (hw_view d)) (selected (satisfies cs) lim rows).
Proof.
  intros Hq -> Hc Hu Hs Hb Hh.
  pose proof (where_all_conds names cs (query_names _ _ _ _ Hq) (qo_conds _ _ _ _ Hq)) as Hw.
  rewrite <- (scan_ext _ _ _ _ Hw) in Hh. rewrite <- (selected_ext _ _ _ _ Hw).
  exact (feed_source_spec _ _ _ m rows (length buf) (mkFeed src 0 0 (mkCapture buf 0) d)
    (query_limit_ok rq (qo_limit _ _ _ _ Hq)) Hu (feeding_start _ _ m rows src buf d Hc Hs Hb)
    eq_refl eq_refl Hh).
Qed.

Lemma compile_star rq sch src :
  select_list rq = zbuf 256 (lit "*") -> compile_select rq sch src = Some ([], None).
Proof. intros E. unfold compile_select. rewrite E. reflexivity. Qed.

(** C3.  A [SELECT *] runs to completion and captures the rows of the table that
    satisfy the WHERE conditions, in order, up to the LIMIT and to the room of
    the capture buffer, whatever the device state before the query - provided at
    most 128 rows (the input FIFO) follow the row that reaches the limit. *)
Theorem select_query_correct (rq : QueryRequest) (sch : TableSchema) (names : list Z)
    (cs : list Cond) (m : nat) (rows buf : list Z) (src : StreamSource) (d : D) :
  query_of rq sch names cs -> select_list rq = zbuf 256 (lit "*") ->
  Forall is_u32 rows -> source_rows rows 0 src -> (4 * m <= length buf)%nat ->
  (length (sc_held (scan (satisfies cs) (query_limit rq) rows)) <= 128)%nat ->
  exists d1 src' c d',
    compile_and_send_instructions rq sch src (hw_clear d) = Some (None, d1) /\
    feed_source_to_hardware src (4 * Z.of_nat (length rows)) true (4 * m) (mkCapture buf 0) d1 =
      Some (1, src', c, d') /\
    take (cap_size c) (cap_buf c) =
      concat (le32_bytes <$> take m (selected (satisfies cs) (query_limit rq) rows)).
Proof.
  intros Hq Hsel Hu Hs Hb Hh.
  destruct (query_configured rq sch src names cs [] d Hq (compile_star rq sch src Hsel)) as (d1 & E & Hc).
  destruct (query_feed rq sch names cs _ m rows src buf d1 Hq eq_refl Hc Hu Hs Hb Hh) as
    (src' & c & d' & Ef & Hcap & _).
  exists d1, src', c, d'. split; [exact E|]. split; [exact Ef|]. apply Hcap.
Qed.


End Query.

(** ** Aggregates *)

(** A column an aggregate can name. *)
Definition agg_column (names : list Z) (col : nat) : Prop :=
  (col < length names)%nat /\ nth col names 0 <> ch ")".

Lemma compile_count_call rq sch src names col :
  named_schema sch names -> agg_column names col ->
  select_list rq = zbuf 256 (lit "COUNT(" ++ [nth col names 0; ch ")"]) ->
  compile_select rq sch src = Some ([count_instruction (Z.of_nat col)], None).
Proof.
  intros Hs [Hc Hp] Hsel. unfold compile_select, compile_count. rewrite Hsel.
  pose proof (Forall_nth_lt _ _ _ 0 (proj2 (ns_names _ _ Hs)) Hc) as Hn.
  destruct (where_name_nonzero _ Hn) as [Hn0 _].
  unfold zbuf. rewrite <- app_assoc.
  replace (ascii_strncasecmp_local (lit "COUNT(" ++ ?[x]) (lit "COUNT(") 6) with (Some 0) by reflexivity.
  change (0 =? 0) with true. cbv iota. change (drop 6 (lit "COUNT(" ++ ?x)) with x.
  cbn [app copy_while]. unfold call_arg_char at 1.
  rewrite (proj2 (Z.eqb_neq _ _) Hp), (proj2 (Z.eqb_neq _ _) Hn0). cbn [orb negb].
  change (call_arg_char (ch ")")) with false. cbv iota beta.
  rewrite (find_named sch names) by done.
  by rewrite (proj2 (Z.ltb_ge (Z.of_nat col) 0)) by lia.
Qed.

(** The check of the first cell passes: it is a decimal digit. *)
Definition first_cell_digit (src : StreamSource) (col : nat) : Prop :=
  exists m b, memory src = Some m /\ memory_offset src = 0 /\ 0 < memory_size src /\
    m !! col = Some b /\ isdigit b = true.

Lemma compile_sum_call rq sch src names col :
  named_schema sch names -> agg_column names col -> first_cell_digit src col ->
  select_list rq = zbuf 256 (lit "SUM(" ++ [nth col names 0; ch ")"]) ->
  compile_select rq sch src = Some ([sum_instruction (Z.of_nat col)], None).
Proof.
  intros Hs [Hc Hp] (mem & b & Hm & Ho & Hsz & Hb & Hd) Hsel.
  unfold compile_select, compile_sum. rewrite Hsel.
  pose proof (Forall_nth_lt _ _ _ 0 (proj2 (ns_names _ _ Hs)) Hc) as Hn.
  destruct (where_name_nonzero _ Hn) as [Hn0 _].
  unfold zbuf. rewrite <- app_assoc.
  replace (ascii_strncasecmp_local (lit "SUM(" ++ ?[x]) (lit "COUNT(") 6) with (Some 16) by reflexivity.
  replace (ascii_strncasecmp_local (lit "SUM(" ++ ?[y]) (lit "SUM(") 4) with (Some 0) by reflexivity.
  change (16 =? 0) with false. change (0 =? 0) with true. cbv iota.
  change (drop 4 (lit "SUM(" ++ ?x)) with x.
  cbn [app copy_while]. unfold call_arg_char at 1.
  rewrite (proj2 (Z.eqb_neq _ _) Hp), (proj2 (Z.eqb_neq _ _) Hn0). cbn [orb negb].
  change (call_arg_char (ch ")")) with false. cbv iota beta.
  rewrite (find_named sch names) by done.
  rewrite (proj2 (Z.ltb_ge (Z.of_nat col) 0)) by lia.
  unfold sum_check. rewrite Hm, Ho, (proj2 (Z.ltb_lt _ _) Hsz).
  replace (Z.to_nat (0 + Z.of_nat col * Z.of_nat TABLE_CELL_SIZE)) with col
    by (unfold TABLE_CELL_SIZE; lia).
  rewrite Hb. apply isdigit_spec in Hd.
  replace (s8 b) with b by (unfold s8; Z.div_mod_to_equations; lia).
  change (ch "0") with 48. change (ch "9") with 57.
  by rewrite (proj2 (Z.ltb_ge b 48)), (proj2 (Z.ltb_ge 57 b)) by lia.
Qed.

(** The mathematical sum of a column of digits. *)
Fixpoint column_sum (col : Z) (rows : list Z) : Z :=
  match rows with [] => 0 | w :: rows => (row_col col w - 48) + column_sum col rows end.

Lemma sum_digits_column col rows :
  Forall (fun w => isdigit (row_col col w) = true) rows ->
  sum_digits col rows = u32 (column_sum col rows).
Proof.
  unfold sum_digits. intros Hr.
  enough (G : forall acc, foldl (fun acc w => u32 (acc + u8 (row_col col w - 48))) (u32 acc) rows =
    u32 (acc + column_sum col rows)).
  { specialize (G 0). by rewrite Z.add_0_l in G. }
  induction Hr as [|w rows Hw Hr IH]; intros acc; cbn [foldl column_sum]; [by rewrite Z.add_0_r|].
  apply isdigit_spec in Hw. rewrite (u8_small (row_col col w - 48)) by word_lia.
  replace (u32 (u32 acc + (row_col col w - 48))) with (u32 (acc + (row_col col w - 48)))
    by (unfold u32; rewrite Zplus_mod_idemp_l; done).
  rewrite IH. f_equal. lia.
Qed.

Section Aggregate.
  Context {D : Type} `{UserHw D}.

(** C10.  [COUNT(column)] leaves in the accumulator register the number of rows that
    satisfy the WHERE conditions (modulo 2^32), once the feed has ended. *)
Theorem count_query_correct (rq : QueryRequest) (sch : TableSchema) (names : list Z)
    (cs : list Cond) (col m : nat) (rows buf : list Z) (src : StreamSource) (d : D) :
  query_of rq sch names cs -> agg_column names col ->
  select_list rq = zbuf 256 (lit "COUNT(" ++ [nth col names 0; ch ")"]) ->
  Forall is_u32 rows -> source_rows rows 0 src -> (4 * m <= length buf)%nat ->
  (length (sc_held (scan (satisfies cs) (query_limit rq) rows)) <= 128)%nat ->
  exists d1 src' c d',
    compile_and_send_instructions rq sch src (hw_clear d) = Some (None, d1) /\
    feed_source_to_hardware src (4 * Z.of_nat (length rows)) true (4 * m) (mkCapture buf 0) d1 =
      Some (1, src', c, d') /\
    fst (IORD_32DIRECT USER_HW_0_BASE HW_REG_ACCUMULATOR_OFFSET d') =
      u32 (Z.of_nat (length (selected (satisfies cs) (query_limit rq) rows))).
Proof.
  intros Hq Ha Hsel Hu Hs Hb Hh.
  destruct (query_configured rq sch src names cs _ d Hq
    (compile_count_call rq sch src names col (qo_schema _ _ _ _ Hq) Ha Hsel)) as (d1 & E & Hc).
  destruct (count_fields (Z.of_nat col)) as [Hop _].
  destruct (send_agg_configured _ d1 _ _ (or_introl Hop) Hc) as [Hc2 _].
  destruct (query_feed rq sch names cs _ m rows src buf _ Hq eq_refl Hc2 Hu Hs Hb Hh) as
    (src' & c & d' & Ef & _ & _ & Hacc & _).
  eexists _, src', c, d'. split; [exact E|]. split; [exact Ef|]. rewrite hw_read_law. exact Hacc.
Qed.

(** C11.  [SUM(column)] leaves in the sum register the sum of the digits of the
    column over the rows that satisfy the WHERE conditions (modulo 2^32), when
    those cells are digits; the firmware checks it for the first row only. *)
Theorem sum_query_correct (rq : QueryRequest) (sch : TableSchema) (names : list Z)
    (cs : list Cond) (col m : nat) (rows buf : list Z) (src : StreamSource) (d : D) :
  query_of rq sch names cs -> agg_column names col -> first_cell_digit src col ->
  select_list rq = zbuf 256 (lit "SUM(" ++ [nth col names 0; ch ")"]) ->
  Forall is_u32 rows -> source_rows rows 0 src -> (4 * m <= length buf)%nat ->
  (length (sc_held (scan (satisfies cs) (query_limit rq) rows)) <= 128)%nat ->
  Forall (fun w => isdigit (row_col (Z.of_nat col) w) = true)
    (selected (satisfies cs) (query_limit rq) rows) ->
  exists d1 src' c d',
    compile_and_send_instructions rq sch src (hw_clear d) = Some (None, d1) /\
    feed_source_to_hardware src (4 * Z.of_nat (length rows)) true (4 * m) (mkCapture buf 0) d1 =
      Some (1, src', c, d') /\
    fst (IORD_32DIRECT USER_HW_0_BASE HW_REG_SUM_OFFSET d') =
      u32 (column_sum (Z.of_nat col) (selected (satisfies cs) (query_limit rq) rows)).
Proof.
  intros Hq Ha Hdig Hsel Hu Hs Hb Hh Hcells.
  destruct (query_configured rq sch src names cs _ d Hq
    (compile_sum_call rq sch src names col (qo_schema _ _ _ _ Hq) Ha Hdig Hsel)) as (d1 & E & Hc).
  destruct (sum_fields (Z.of_nat col)) as [Hop Hcol].
  destruct (send_agg_configured _ d1 _ _ (or_intror Hop) Hc) as [Hc2 Hc3].
  destruct (query_feed rq sch names cs _ m rows src buf _ Hq eq_refl Hc2 Hu Hs Hb Hh) as
    (src' & c & d' & Ef & _ & _ & _ & Hsum).
  eexists _, src', c, d'. split; [exact E|]. split; [exact Ef|].
  rewrite hw_read_law. etransitivity; [exact Hsum|].
  replace (a_col _) with (Z.of_nat col).
  - by apply sum_digits_column.
  - symmetry. etransitivity; [exact Hc3|]. rewrite Hcol. apply Z.mod_small.
    pose proof (query_names _ _ _ _ Hq). destruct Ha. lia.
Qed.

End Aggregate.

(** ** Sources made of rows *)

Definition source_of (rows : list Z) : StreamSource :=
  mkSource (Some (concat (le32_bytes <$> rows))) (4 * Z.of_nat (length rows)) 0.

Lemma concat_rows_length rows : length (concat (le32_bytes <$> rows)) = (4 * length rows)%nat.
Proof.
  induction rows as [|w rows IH]; [done|]. rewrite fmap_cons. cbn [concat]. rewrite length_app, IH.
  cbn [length le32_bytes]. lia.
Qed.

Lemma source_of_rows rows :
  4 * Z.of_nat (length rows) + 4 < 2 ^ 32 -> source_rows rows 0 (source_of rows).
Proof.
  intros Hm. constructor; try done. eexists. split; [done|]. intros j w Hj.
  pose proof (lookup_lt_Some _ _ _ Hj). rewrite concat_rows_length. split; [|lia].
  clear Hm H. revert j Hj. induction rows as [|x rows IH]; intros j Hj; [done|].
  rewrite fmap_cons. cbn [concat]. destruct j as [|j].
  - injection Hj as ->. rewrite drop_0. by apply take_app_length'.
  - rewrite drop_app_ge by (cbn; lia). replace (4 * S j - length (le32_bytes x))%nat with (4 * j)%nat
      by (cbn [length le32_bytes]; lia). by apply IH.
Qed.

(** ** A concrete query *)

Definition row_word (a b c d : Z) : Z := a + b * 2 ^ 8 + c * 2 ^ 16 + d * 2 ^ 24.

Definition demo_rows : list Z :=
  [row_word 49 65 67 32; row_word 50 66 69 32; row_word 51 67 67 32].

Lemma demo_query_of sel lim :
  0 <= lim < 256 -> query_of (demo_query sel lim) demo_schema demo_names demo_conds.
Proof.
  intros Hl. constructor; [exact demo_named| |cbn; lia|vm_compute; lia|done|done].
  repeat constructor; cbn; lia.
Qed.

Lemma select_query_correct_witness :
  exists d1 src' c d',
    compile_and_send_instructions (demo_query (lit "*") 10) demo_schema (source_of demo_rows)
      (hw_clear (accel_reset (mkAccel 0 0 [] None 0 [] [] 0 0 false 0 0 false))) = Some (None, d1) /\
    feed_source_to_hardware (source_of demo_rows) 12 true (4 * 3) (mkCapture (replicate 12 0) 0) d1 =
      Some (1, src', c, d') /\
    take (cap_size c) (cap_buf c) = lit "3CC ".
Proof.
  exact (select_query_correct (demo_query (lit "*") 10) demo_schema demo_names demo_conds 3 demo_rows
    (replicate 12 0) (source_of demo_rows)
    (accel_reset (mkAccel 0 0 [] None 0 [] [] 0 0 false 0 0 false))
    (demo_query_of (lit "*") 10 ltac:(lia)) eq_refl ltac:(decide_closed)
    (source_of_rows demo_rows ltac:(vm_compute; reflexivity)) ltac:(cbn; lia)
    ltac:(apply Nat.leb_le; vm_compute; reflexivity)).
Defined.



Lemma count_query_correct_witness :
  exists d1 src' c d',
    compile_and_send_instructions (demo_query (lit "COUNT(n)") 0) demo_schema (source_of demo_rows)
      (hw_clear (accel_reset (mkAccel 0 0 [] None 0 [] [] 0 0 false 0 0 false))) = Some (None, d1) /\
    feed_source_to_hardware (source_of demo_rows) 12 true (4 * 3) (mkCapture (replicate 12 0) 0) d1 =
      Some (1, src', c, d') /\
    fst (IORD_32DIRECT USER_HW_0_BASE HW_REG_ACCUMULATOR_OFFSET d') = 1.
Proof.
  exact (count_query_correct (demo_query (lit "COUNT(n)") 0) demo_schema demo_names demo_conds 1 3
    demo_rows (replicate 12 0) (source_of demo_rows)
    (accel_reset (mkAccel 0 0 [] None 0 [] [] 0 0 false 0 0 false))
    (demo_query_of (lit "COUNT(n)") 0 ltac:(lia)) ltac:(split; [cbn; lia|done]) eq_refl ltac:(decide_closed)
    (source_of_rows demo_rows ltac:(vm_compute; reflexivity)) ltac:(cbn; lia)
    ltac:(apply Nat.leb_le; vm_compute; reflexivity)).
Defined.

Lemma sum_query_correct_witness :
  exists d1 src' c d',
    compile_and_send_instructions (demo_query (lit "SUM(i)") 0) demo_schema (source_of demo_rows)
      (hw_clear (accel_reset (mkAccel 0 0 [] None 0 [] [] 0 0 false 0 0 false))) = Some (None, d1) /\
    feed_source_to_hardware (source_of demo_rows) 12 true (4 * 3) (mkCapture (replicate 12 0) 0) d1 =
      Some (1, src', c, d') /\
    fst (IORD_32DIRECT USER_HW_0_BASE HW_REG_SUM_OFFSET d') = 3.
Proof.
  exact (sum_query_correct (demo_query (lit "SUM(i)") 0) demo_schema demo_names demo_conds 0 3
    demo_rows (replicate 12 0) (source_of demo_rows)
    (accel_reset (mkAccel 0 0 [] None 0 [] [] 0 0 false 0 0 false))
    (demo_query_of (lit "SUM(i)") 0 ltac:(lia)) ltac:(split; [cbn; lia|done])
    ltac:(exists (concat (le32_bytes <$> demo_rows)), 49; repeat split) eq_refl ltac:(decide_closed)
    (source_of_rows demo_rows ltac:(vm_compute; reflexivity)) ltac:(cbn; lia)
    ltac:(apply Nat.leb_le; vm_compute; reflexivity) ltac:(decide_closed)).
Defined.
