(* ===== verification/Response.v ===== *)
(** * Response

    The response: appendf, cell_to_text, build_success_body and the HTTP framing
    of network_tasks.c.  [http_response_body] is passed along with its offset. *)

From S2P Require Import Prelude CString Request Table Compile Accel HwDriver.

Definition MAX_RESPONSE_BODY_SIZE : nat := Z.to_nat 8192.

(** A character array and the offset of its end. *)
Record Body := mkBody { b_buf : list Z; b_off : nat }.

(** A piece of code that returns 0 (here [false]) early, or goes on. *)
Definition Out : Type := Body -> option (bool * Body).

Definition andthen (f g : Out) : Out := fun b =>
  let? (ok, b) := f b in if ok then g b else Some (false, b).

Declare Scope out_scope.
Delimit Scope out_scope with out.
Notation "f ;; g" := (andthen f g) (at level 100, g at level 200, right associativity) : out_scope.

Definition ret_ok : Out := fun b => Some (true, b).

Definition appendf (dst_size : nat) (text : list Z) : Out := fun b =>
  if (dst_size <=? b_off b)%nat then Some (false, b) else
  let? (buf, written) := vsnprintf_at (b_buf b) (b_off b) (dst_size - b_off b) text in
  if (dst_size - b_off b <=? written)%nat then Some (false, mkBody buf (b_off b))
  else Some (true, mkBody buf (b_off b + written)).

(** The end of the text of a cell of [n] bytes: trailing blanks and NULs go. *)
Fixpoint cell_end (n : nat) (src : list Z) : option nat :=
  match n with
  | O => Some O
  | S n' =>
      let? c := (src !! n' : option Z) in
      if (c =? 0) || (c =? 32) then cell_end n' src else Some n
  end.

Definition cell_char (c : Z) : Z :=
  if (c <? 32) || (126 <? c) || (c =? ch "|") || (c =? 13) || (c =? 10) then ch "_" else c.

(** The new contents of [dst], whose size is [dst_size]. *)
Definition cell_to_text (dst_size : nat) (src : list Z) : option (list Z) :=
  let? e := cell_end TABLE_CELL_SIZE src in
  let e := if (dst_size <=? e)%nat then (dst_size - 1)%nat else e in
  if (length src <? e)%nat then UB else Some ((cell_char <$> take e src) ++ [0]).

(** A line of the body. *)
Definition line (text : list Z) : list Z := text ++ [10].

Definition append_body : list Z -> Out := appendf MAX_RESPONSE_BODY_SIZE.

(** The names of the columns, from [col_index] on. *)
Fixpoint columns_out (n col_index : nat) (cols : list (list Z)) : Out :=
  match n with
  | O => ret_ok
  | S n => fun b =>
      let? col := (cols !! col_index : option (list Z)) in
      let? name := cstr col in
      (append_body ((if (col_index =? 0)%nat then [] else lit ",") ++ name) ;;
       columns_out n (S col_index) cols)%out b
  end.

(** The cells of the row at [row_offset]. *)
Fixpoint cells_out (n col_index : nat) (row_offset : nat) (captured_rows : list Z) : Out :=
  match n with
  | O => ret_ok
  | S n => fun b =>
      let? value := cell_to_text (TABLE_CELL_SIZE + 1)
                      (drop (row_offset + col_index * TABLE_CELL_SIZE) captured_rows) in
      let? text := cstr value in
      (append_body ((if (col_index =? 0)%nat then [] else lit "|") ++ text) ;;
       cells_out n (S col_index) row_offset captured_rows)%out b
  end.

Fixpoint rows_out (n row_index : nat) (schema : TableSchema) (captured_rows : list Z) : Out :=
  match n with
  | O => ret_ok
  | S n =>
      (append_body (lit "ROW=") ;;
       cells_out (Z.to_nat (column_count schema)) 0
         (row_index * Z.to_nat (row_width schema)) captured_rows ;;
       append_body [10] ;;
       rows_out n (S row_index) schema captured_rows)%out
  end.

Definition returned_rows (request : QueryRequest) (schema : TableSchema) (captured_size : nat) : Z :=
  let r := if row_width schema =? 0 then 0 else Z.of_nat captured_size / row_width schema in
  if (0 <? limit request) && (limit request <? r) then limit request else r.

(** The body of an aggregate, a single [snprintf]. *)
Definition aggregate_text (mode table sql name : list Z) (scanned value : Z) : list Z :=
  line (lit "STATUS=OK") ++ line (lit "MODE=" ++ mode) ++ line (lit "TABLE=" ++ table) ++
  line (lit "SQL=" ++ sql) ++ line (lit "SCANNED_ROWS=" ++ fmt_lu scanned) ++
  line (lit "RETURNED_ROWS=1") ++ line (lit "COLUMNS=" ++ name) ++ line (lit "ROW=" ++ fmt_lu value).

(** The appends of a row query, given the texts of [request->table] and
    [request->sql]. *)
Definition rows_body (mode table sql : list Z) (request : QueryRequest) (schema : TableSchema)
    (captured_rows : list Z) (captured_size : nat) : Out :=
  let n := returned_rows request schema captured_size in
  (append_body (line (lit "STATUS=OK")) ;;
   append_body (line (lit "MODE=" ++ mode)) ;;
   append_body (line (lit "TABLE=" ++ table)) ;;
   append_body (line (lit "SQL=" ++ sql)) ;;
   append_body (line (lit "SCANNED_ROWS=" ++ fmt_lu (row_count schema))) ;;
   append_body (line (lit "RETURNED_ROWS=" ++ fmt_lu n)) ;;
   append_body (lit "COLUMNS=") ;;
   columns_out (Z.to_nat (column_count schema)) 0 (columns schema) ;;
   append_body [10] ;;
   rows_out (Z.to_nat n) 0 schema captured_rows)%out.

Section Response.
  Context {D : Type} `{Bus D}.

(** The result, [http_response_body] and the device. *)
Definition build_success_body (mode : list Z) (request : QueryRequest) (schema : TableSchema)
    (captured_rows : list Z) (captured_size : nat) (body : list Z) (d : D)
  : option (bool * list Z * D) :=
  let? tbl := cstr (table request) in
  let? q := cstr (sql request) in
  let? is_count := ascii_strncasecmp_local (select_list request) (lit "COUNT(") 6 in
  if is_count =? 0 then
    let '(acc_val, d) := IORD_32DIRECT USER_HW_0_BASE HW_REG_ACCUMULATOR_OFFSET d in
    let? (body, _) := vsnprintf_at body 0 MAX_RESPONSE_BODY_SIZE
      (aggregate_text mode tbl q (lit "COUNT") (row_count schema) acc_val) in
    Some (true, body, d)
  else
    let? is_sum := ascii_strncasecmp_local (select_list request) (lit "SUM(") 4 in
    if is_sum =? 0 then
      let '(sum_val, d) := IORD_32DIRECT USER_HW_0_BASE HW_REG_SUM_OFFSET d in
      let? (body, _) := vsnprintf_at body 0 MAX_RESPONSE_BODY_SIZE
        (aggregate_text mode tbl q (lit "SUM") (row_count schema) sum_val) in
      Some (true, body, d)
    else
      let? (ok, b) := rows_body mode tbl q request schema captured_rows captured_size
                        (mkBody body 0) in
      Some (ok, b_buf b, d).

End Response.

(** ** HTTP *)

(** The socket calls; [send fd bytes] queues the bytes on the connection. *)
Class Net (D : Type) := {
  net_send : Z -> list Z -> D -> D;
  net_close : Z -> D -> D;
}.

Definition crlf (text : list Z) : list Z := text ++ [13; 10].

Definition http_header (status_code : Z) (status_text : list Z) (body_len : Z) : list Z :=
  crlf (lit "HTTP/1.1 " ++ fmt_d status_code ++ [32] ++ status_text) ++
  crlf (lit "Content-Type: text/plain; charset=utf-8") ++
  crlf (lit "Content-Length: " ++ fmt_d body_len) ++
  crlf (lit "Access-Control-Allow-Origin: *") ++ crlf (lit "Connection: close") ++ crlf [].

Section Http.
  Context {D : Type} `{Net D}.

(** [header_len] is the length [snprintf] reports, so that a header longer than the
    array would be sent past its end. *)
Definition send_http_response (client_fd status_code : Z) (status_text body : list Z) (d : D)
  : option D :=
  let? text := cstr body in
  let? (header, header_len) := vsnprintf_at (replicate 256 0) 0 256
    (http_header status_code status_text (Z.of_nat (length text))) in
  let? d := (if (0 <? header_len)%nat
             then if (256 <? header_len)%nat then UB
                  else Some (net_send client_fd (take header_len header) d)
             else Some d) in
  Some (if (0 <? length text)%nat then net_send client_fd text d else d).

(** It formats into [http_response_body], and sends that. *)
Definition send_error_response (client_fd status_code : Z) (status_text message body : list Z)
    (d : D) : option (list Z * D) :=
  let? (body, _) := vsnprintf_at body 0 MAX_RESPONSE_BODY_SIZE
    (line (lit "STATUS=ERROR") ++ line (lit "MESSAGE=" ++ message)) in
  let? d := send_http_response client_fd status_code status_text body d in
  Some (body, d).

End Http.
