(* ===== verification/ResponseFacts.v ===== *)
(** * ResponseFacts

    The text of the response: the appends never run out of room, and the body is
    the header lines, the column names and one line per captured row. *)

From S2P Require Import Prelude CString Request RequestFacts Table TableFacts Compile CompileFacts.
From S2P Require Import Accel CompileSpec HwDriver HwFacts HwSpec Response.

(** ** Appending *)

(** [f] puts the text [x] after what is in the array, with its NUL. *)
Definition extends (f : Out) (x : list Z) : Prop := forall pre rest,
  length (pre ++ 0 :: rest) = MAX_RESPONSE_BODY_SIZE ->
  (length pre + length x < MAX_RESPONSE_BODY_SIZE)%nat ->
  exists rest', f (mkBody (pre ++ 0 :: rest) (length pre)) =
    Some (true, mkBody (pre ++ x ++ 0 :: rest') (length pre + length x)) /\
    length (pre ++ x ++ 0 :: rest') = MAX_RESPONSE_BODY_SIZE.

Lemma append_body_any pre rest x :
  length (pre ++ rest) = MAX_RESPONSE_BODY_SIZE ->
  (length pre + length x < MAX_RESPONSE_BODY_SIZE)%nat ->
  exists rest', append_body x (mkBody (pre ++ rest) (length pre)) =
    Some (true, mkBody (pre ++ x ++ 0 :: rest') (length pre + length x)) /\
    length (pre ++ x ++ 0 :: rest') = MAX_RESPONSE_BODY_SIZE.
Proof.
  intros Hl Hx. unfold append_body, appendf. cbn [b_off b_buf].
  rewrite (proj2 (Nat.leb_gt _ _)) by lia. unfold vsnprintf_at.
  rewrite (proj2 (Nat.eqb_neq _ _)) by lia. rewrite take_ge by lia.
  rewrite memcpy_at_some by (rewrite Hl, length_app; cbn [length]; lia).
  rewrite (proj2 (Nat.leb_gt _ _)) by lia. rewrite take_app_length' by done.
  eexists. rewrite <- (app_assoc x). cbn [app]. split; [reflexivity|].
  rewrite !length_app in *. cbn [length] in *. rewrite length_drop, length_app. lia.
Qed.

Lemma extends_append x : extends (append_body x) x.
Proof. intros pre rest Hl Hx. by apply append_body_any. Qed.

Lemma extends_ret : extends ret_ok [].
Proof. intros pre rest Hl _. exists rest. cbn. by rewrite Nat.add_0_r. Qed.

Lemma andthen_eq f g pre rest x y :
  (exists rest', f (mkBody (pre ++ rest) (length pre)) =
    Some (true, mkBody (pre ++ x ++ 0 :: rest') (length pre + length x)) /\
    length (pre ++ x ++ 0 :: rest') = MAX_RESPONSE_BODY_SIZE) ->
  extends g y -> (length pre + length (x ++ y) < MAX_RESPONSE_BODY_SIZE)%nat ->
  exists rest', andthen f g (mkBody (pre ++ rest) (length pre)) =
    Some (true, mkBody (pre ++ (x ++ y) ++ 0 :: rest') (length pre + length (x ++ y))) /\
    length (pre ++ (x ++ y) ++ 0 :: rest') = MAX_RESPONSE_BODY_SIZE.
Proof.
  intros (r1 & E1 & L1) Hg Hx. rewrite length_app in Hx.
  unfold andthen. rewrite E1. rewrite app_assoc in L1 |- *. rewrite <- (length_app pre x).
  destruct (Hg (pre ++ x) r1 L1) as (r2 & -> & L2); [rewrite length_app; lia|].
  exists r2. rewrite <- !app_assoc in *. split; [|done]. do 3 f_equal. rewrite !length_app. lia.
Qed.

Lemma extends_andthen f g x y : extends f x -> extends g y -> extends (andthen f g) (x ++ y).
Proof.
  intros Hf Hg pre rest Hl Hx. apply andthen_eq; [|done|done].
  apply Hf; [done|]. rewrite length_app in Hx. lia.
Qed.

(** The rest of the code may first read what it appends. *)
Lemma extends_let {A} (m : option A) a (k : A -> Out) x :
  m = Some a -> extends (k a) x -> extends (fun b => let? v := m in k v b) x.
Proof. intros -> Hk. exact Hk. Qed.

Create HintDb extends.
#[export] Hint Resolve extends_append extends_ret extends_andthen : extends.

(** ** The text of a row query *)

Definition cell_text (b : Z) : list Z := if (b =? 0) || (b =? 32) then [] else [cell_char b].

(** [xs] separated by [sep]. *)
Fixpoint joined (sep : list Z) (first : bool) (xs : list (list Z)) : list Z :=
  match xs with
  | [] => []
  | x :: xs => ((if first then [] else sep) ++ x) ++ joined sep false xs
  end.

Definition row_text (ncols : nat) (w : Z) : list Z :=
  lit "ROW=" ++ joined (lit "|") true ((fun j => cell_text (row_col (Z.of_nat j) w)) <$> seq 0 ncols) ++
  [10].

Definition rows_text (ncols : nat) (rows : list Z) : list Z := concat (row_text ncols <$> rows).

Definition success_text (mode t q : list Z) (names : list (list Z)) (scanned : Z) (rows : list Z)
  : list Z :=
  line (lit "STATUS=OK") ++ line (lit "MODE=" ++ mode) ++ line (lit "TABLE=" ++ t) ++
  line (lit "SQL=" ++ q) ++ line (lit "SCANNED_ROWS=" ++ fmt_lu scanned) ++
  line (lit "RETURNED_ROWS=" ++ fmt_lu (Z.of_nat (length rows))) ++ lit "COLUMNS=" ++
  joined (lit ",") true names ++ [10] ++ rows_text (length names) rows.

Lemma cell_text_spec b r :
  exists value, cell_to_text (TABLE_CELL_SIZE + 1) (b :: r) = Some value /\
    cstr value = Some (cell_text b).
Proof.
  unfold cell_to_text, cell_text, TABLE_CELL_SIZE. cbn [cell_end lookup list_lookup].
  assert (Hc : cell_char b <> 0).
  { unfold cell_char. destruct (Z.ltb_spec b 32); [done|].
    destruct (126 <? b), (b =? ch "|"), (b =? 13), (b =? 10); cbn; try done; lia. }
  destruct ((b =? 0) || (b =? 32)); cbn; eexists; (split; [reflexivity|]); [done|].
  cbn. rewrite (proj2 (Z.eqb_neq _ _) Hc). done.
Qed.

Lemma columns_out_extends names cols : forall n i,
  cols = zbuf 2 <$> names -> Forall (fun t => nonul t /\ (length t <= 1)%nat) names ->
  (i + n <= length names)%nat ->
  extends (columns_out n i cols) (joined (lit ",") (i =? 0)%nat (take n (drop i names))).
Proof.
  intros n. induction n as [|n IH]; intros i Hc Hn Hi.
  - rewrite take_0. apply extends_ret.
  - destruct (lookup_split names i) as (t & Ht & Hsp); [lia|].
    rewrite (drop_S _ _ _ Ht), firstn_cons. cbn [joined columns_out].
    eapply Forall_lookup_1 in Hn as Hti; [|exact Ht]. destruct Hti as [Hnn Hlen].
    apply (extends_let _ (zbuf 2 t)); [by rewrite Hc, list_lookup_fmap, Ht|].
    apply (extends_let _ t); [apply cstr_zbuf; [done|lia]|].
    apply extends_andthen; [apply extends_append|]. apply (IH (S i)); [done|done|lia].
Qed.

(** The four bytes of row [i] of the captured words. *)
Lemma drop_rows rows i w tail :
  rows !! i = Some w ->
  exists more, drop (4 * i) (concat (le32_bytes <$> rows) ++ tail) = le32_bytes w ++ more.
Proof.
  revert i. induction rows as [|x rows IH]; intros i Hi; [done|]. rewrite fmap_cons. cbn [concat].
  destruct i as [|i].
  - injection Hi as ->. rewrite drop_0, <- app_assoc. by eexists.
  - rewrite <- app_assoc, drop_app_ge by (cbn; lia).
    replace (4 * S i - length (le32_bytes x))%nat with (4 * i)%nat by (cbn [length le32_bytes]; lia).
    by apply IH.
Qed.

Lemma le32_row_col w j : (j < 4)%nat -> le32_bytes w !! j = Some (row_col (Z.of_nat j) w).
Proof.
  intros Hj. unfold row_col, bits. destruct j as [|[|[|[|j]]]]; try lia; cbn [le32_bytes lookup list_lookup];
    f_equal; try reflexivity; change (2 ^ (8 * Z.of_nat 0)) with 1; by rewrite Z.div_1_r.
Qed.

Lemma cells_out_extends rows i w tail : rows !! i = Some w -> forall n j,
  (j + n <= 4)%nat ->
  extends (cells_out n j (i * 4) (concat (le32_bytes <$> rows) ++ tail))
    (joined (lit "|") (j =? 0)%nat ((fun j => cell_text (row_col (Z.of_nat j) w)) <$> seq j n)).
Proof.
  intros Hi. induction n as [|n IH]; intros j Hj; [apply extends_ret|].
  cbn [seq]. rewrite fmap_cons. cbn [joined cells_out].
  destruct (drop_rows rows i w tail Hi) as [more Hd].
  assert (Hcell : exists r, drop (i * 4 + j * TABLE_CELL_SIZE) (concat (le32_bytes <$> rows) ++ tail) =
    row_col (Z.of_nat j) w :: r).
  { replace (i * 4 + j * TABLE_CELL_SIZE)%nat with (4 * i + j)%nat by (unfold TABLE_CELL_SIZE; lia).
    rewrite <- drop_drop, Hd. rewrite drop_app_le by (cbn; lia).
    rewrite (drop_S _ _ _ (le32_row_col w j ltac:(lia))). cbn [app]. by eexists. }
  destruct Hcell as [r ->]. destruct (cell_text_spec (row_col (Z.of_nat j) w) r) as (v & Ev & Ec).
  apply (extends_let _ v); [exact Ev|]. apply (extends_let _ (cell_text (row_col (Z.of_nat j) w)));
    [exact Ec|].
  apply extends_andthen; [apply extends_append|]. apply (IH (S j)). lia.
Qed.

Lemma rows_out_extends sch rows tail : 1 <= column_count sch <= 4 -> row_width sch = 4 ->
  forall n i, (i + n <= length rows)%nat ->
  extends (rows_out n i sch (concat (le32_bytes <$> rows) ++ tail))
    (rows_text (Z.to_nat (column_count sch)) (take n (drop i rows))).
Proof.
  intros Hc Hw. induction n as [|n IH]; intros i Hi; [rewrite take_0; apply extends_ret|].
  destruct (lookup_lt_is_Some_2 rows i) as [w Hrow]; [lia|].
  rewrite (drop_S _ _ _ Hrow), firstn_cons. unfold rows_text, row_text. rewrite fmap_cons.
  cbn [concat rows_out]. rewrite <- !app_assoc, Hw. change (Z.to_nat 4) with 4%nat.
  apply extends_andthen; [apply extends_append|].
  apply extends_andthen; [apply (cells_out_extends rows i w tail Hrow _ 0); lia|].
  apply extends_andthen; [apply extends_append|]. apply IH. lia.
Qed.

(** ** Its length and its bytes *)

Lemma joined_length sep first n xs :
  Forall (fun x => (length x <= n)%nat) xs ->
  (length (joined sep first xs) <= length xs * (length sep + n))%nat.
Proof.
  intros H. revert first. induction H as [|x xs Hx Hxs IH]; intros first; cbn [joined length]; [lia|].
  rewrite !length_app. specialize (IH false). destruct first; cbn [length]; lia.
Qed.

Lemma joined_nonul sep first xs :
  nonul sep -> Forall nonul xs -> nonul (joined sep first xs).
Proof.
  intros Hs H. revert first. induction H as [|x xs Hx Hxs IH]; intros first; cbn [joined]; [constructor|].
  rewrite !nonul_app. split; [split|apply IH]; [|done]. destruct first; [constructor|done].
Qed.

Lemma cell_char_range c : 32 <= cell_char c <= 126.
Proof.
  unfold cell_char. destruct (Z.ltb_spec c 32), (Z.ltb_spec 126 c), (c =? ch "|"), (c =? 13), (c =? 10);
    cbn; try done; lia.
Qed.

Lemma cell_text_ok b : nonul (cell_text b) /\ (length (cell_text b) <= 1)%nat.
Proof.
  unfold cell_text. pose proof (cell_char_range b).
  destruct (_ || _); (split; [|cbn; lia]); [constructor|]. apply nonul_cons. split; [lia|constructor].
Qed.

Lemma row_text_ok ncols w :
  (ncols <= 4)%nat -> nonul (row_text ncols w) /\ (length (row_text ncols w) <= 13)%nat.
Proof.
  intros Hn. unfold row_text.
  set (cells := (fun j => cell_text (row_col (Z.of_nat j) w)) <$> seq 0 ncols).
  assert (Hc : Forall (fun x => nonul x /\ (length x <= 1)%nat) cells)
    by (apply Forall_fmap, Forall_true; intros j; apply cell_text_ok).
  apply Forall_and in Hc as [Hc1 Hc2]. split.
  - rewrite !nonul_app. split; [decide_closed|]. split; [|decide_closed].
    apply joined_nonul; [decide_closed|done].
  - rewrite !length_app. pose proof (joined_length (lit "|") true 1 cells Hc2) as Hj.
    assert (length cells = ncols) as Hl by (unfold cells; by rewrite length_fmap, length_seq).
    rewrite Hl in Hj. cbn [length lit fmap list_fmap String.list_ascii_of_string] in *. lia.
Qed.

Lemma rows_text_ok ncols rows :
  (ncols <= 4)%nat ->
  nonul (rows_text ncols rows) /\ (length (rows_text ncols rows) <= 13 * length rows)%nat.
Proof.
  intros Hn. unfold rows_text. induction rows as [|w rows [IH1 IH2]]; [split; [constructor|done]|].
  rewrite fmap_cons. cbn [concat length]. destruct (row_text_ok ncols w Hn) as [H1 H2].
  split; [by apply nonul_app|]. rewrite length_app. lia.
Qed.

Lemma fmt_lu_ok n : is_u32 n -> nonul (fmt_lu n) /\ (length (fmt_lu n) <= 10)%nat.
Proof.
  intros Hn. split; [by apply plain_nonul, fmt_lu_chars|].
  apply digits_length; [change (10 ^ Z.of_nat 10) with 10000000000; word_lia|lia].
Qed.

Lemma success_text_ok mode t q names scanned rows :
  nonul mode -> (length mode <= 16)%nat -> nonul t -> (length t < 32)%nat ->
  nonul q -> (length q < 256)%nat ->
  Forall (fun x => nonul x /\ (length x <= 1)%nat) names -> (length names <= 4)%nat ->
  is_u32 scanned -> (length rows <= 256)%nat ->
  nonul (success_text mode t q names scanned rows) /\
  (length (success_text mode t q names scanned rows) < 4096)%nat.
Proof.
  intros Hm Hml Ht Htl Hq Hql Hn Hnl Hs Hr.
  apply Forall_and in Hn as [Hn1 Hn2].
  destruct (fmt_lu_ok scanned Hs) as [Hs1 Hs2].
  destruct (fmt_lu_ok (Z.of_nat (length rows))) as [Hr1 Hr2]; [word_lia|].
  destruct (rows_text_ok (length names) rows Hnl) as [Hx1 Hx2].
  pose proof (joined_length (lit ",") true 1 names Hn2) as Hj.
  pose proof (joined_nonul (lit ",") true names ltac:(decide_closed) Hn1) as Hjn.
  unfold success_text, line. split.
  - rewrite !nonul_app. repeat split; try assumption; decide_closed.
  - rewrite !length_app. cbn [length lit fmap list_fmap String.list_ascii_of_string] in *. lia.
Qed.

(** The rows shown: those captured, up to the limit. *)
Definition shown (rq : QueryRequest) (rows : list Z) : list Z :=
  if 0 <? limit rq then take (Z.to_nat (limit rq)) rows else rows.

Lemma returned_rows_shown rq sch rows :
  row_width sch = 4 ->
  returned_rows rq sch (4 * length rows) = Z.of_nat (length (shown rq rows)).
Proof.
  intros Hw. unfold returned_rows, shown. rewrite Hw. change (4 =? 0) with false. cbv iota.
  replace (Z.of_nat (4 * length rows) / 4) with (Z.of_nat (length rows)) by (Z.div_mod_to_equations; lia).
  destruct (Z.ltb_spec 0 (limit rq)); cbn [andb]; [|done].
  rewrite length_take. destruct (Z.ltb_spec (limit rq) (Z.of_nat (length rows))); lia.
Qed.

Lemma shown_take rq rows : shown rq rows = take (length (shown rq rows)) rows.
Proof.
  unfold shown. destruct (0 <? limit rq); [|by rewrite take_ge].
  rewrite length_take. destruct (Nat.le_ge_cases (Z.to_nat (limit rq)) (length rows)).
  - by rewrite Nat.min_l.
  - rewrite Nat.min_r by done. by rewrite !take_ge.
Qed.

Lemma rows_body_text mode t q rq sch names rows tail body :
  schema_ok sch -> names_of sch names -> length names = 4%nat -> length body = MAX_RESPONSE_BODY_SIZE ->
  let text := success_text mode t q (take (Z.to_nat (column_count sch)) names) (row_count sch)
                (shown rq rows) in
  (length text < MAX_RESPONSE_BODY_SIZE)%nat ->
  exists rest, rows_body mode t q rq sch (concat (le32_bytes <$> rows) ++ tail) (4 * length rows)
      (mkBody body 0) = Some (true, mkBody (text ++ 0 :: rest) (length text)) /\
    length (text ++ 0 :: rest) = MAX_RESPONSE_BODY_SIZE.
Proof.
  intros Hs [Hcol Hnm] Hnl Hb text Ht. pose proof (so_count _ Hs) as Hcc.
  unfold rows_body. rewrite returned_rows_shown by apply Hs.
  apply (andthen_eq (append_body (line (lit "STATUS=OK"))) _ [] body (line (lit "STATUS=OK"))).
  - apply append_body_any; [done|]. unfold MAX_RESPONSE_BODY_SIZE. cbn. lia.
  - repeat (apply extends_andthen; [apply extends_append|]).
    apply extends_andthen; [apply (columns_out_extends names _ _ 0); [done..|lia]|].
    apply extends_andthen; [apply extends_append|].
    rewrite length_take, Hnl, Nat2Z.id.
    replace (Z.to_nat (column_count sch) `min` 4)%nat with (Z.to_nat (column_count sch)) by lia.
    rewrite (shown_take rq rows) at 2.
    apply (rows_out_extends sch rows tail Hcc (so_width _ Hs) _ 0).
    rewrite shown_take, !length_take. lia.
  - exact Ht.
Qed.

(** A SELECT list that is no aggregate. *)
Definition plain_select (sel : list Z) : Prop :=
  ci_prefixb (lit "COUNT(") sel = false /\ ci_prefixb (lit "SUM(") sel = false.

Section Success.
  Context {D : Type} `{Bus D}.

Lemma build_rows rq t q sch names rows tail body d :
  valid_request rq t q -> schema_ok sch -> names_of sch names -> length names = 4%nat ->
  plain_select (select_text q) ->
  (length rows <= 256)%nat -> length body = MAX_RESPONSE_BODY_SIZE ->
  exists body', build_success_body (lit "board-sdcard") rq sch (concat (le32_bytes <$> rows) ++ tail)
      (4 * length rows) body d = Some (true, body', d) /\
    length body' = MAX_RESPONSE_BODY_SIZE /\
    cstr body' = Some (success_text (lit "board-sdcard") t q
      (take (Z.to_nat (column_count sch)) names) (row_count sch) (shown rq rows)).
Proof.
  intros [Htab Hsql Hsel _ _ [Ht Htl] [Hq Hql] _] Hs Hnames Hnl [Hnc Hns] Hr Hb.
  unfold build_success_body. rewrite Htab, Hsql, Hsel, !cstr_zbuf by done.
  rewrite zbuf_split by apply select_text_length.
  destruct (casecmp_total (select_text q) (replicate (256 - S (length (select_text q))) 0)
    (lit "COUNT(") 6 ltac:(decide_closed) eq_refl) as (v1 & -> & ->). rewrite Hnc.
  destruct (casecmp_total (select_text q) (replicate (256 - S (length (select_text q))) 0)
    (lit "SUM(") 4 ltac:(decide_closed) eq_refl) as (v2 & -> & ->). rewrite Hns.
  destruct (success_text_ok (lit "board-sdcard") t q (take (Z.to_nat (column_count sch)) names)
    (row_count sch) (shown rq rows)) as [Hnn Hlen]; try done.
  - decide_closed.
  - cbn. lia.
  - by apply Forall_take, Hnames.
  - rewrite length_take. lia.
  - apply Hs.
  - rewrite shown_take, length_take. lia.
  - destruct (rows_body_text (lit "board-sdcard") t q rq sch names rows tail body Hs Hnames Hnl Hb)
      as (rest & -> & Hl); [unfold MAX_RESPONSE_BODY_SIZE; lia|].
    eexists. split; [reflexivity|]. cbn [b_buf]. split; [done|]. by apply cstr_app.
Qed.

(** C12.  The body of a row query is always built: whatever the request, the table
    and the captured rows (at most QUERY_MAX_ROWS), no append runs out of room,
    and the body is the header lines, the column names and one line per row
    captured, up to the limit. *)
Theorem build_success_body_rows (rq : QueryRequest) (t q : list Z) (sch : TableSchema)
    (names : list (list Z)) (rows tail body : list Z) (d : D) :
  valid_request rq t q -> schema_ok sch -> names_of sch names -> length names = 4%nat ->
  plain_select (select_text q) ->
  (length rows <= 256)%nat -> length body = MAX_RESPONSE_BODY_SIZE ->
  exists body', build_success_body (lit "board-sdcard") rq sch (concat (le32_bytes <$> rows) ++ tail)
      (4 * length rows) body d = Some (true, body', d) /\
    length body' = MAX_RESPONSE_BODY_SIZE /\
    cstr body' = Some (success_text (lit "board-sdcard") t q
      (take (Z.to_nat (column_count sch)) names) (row_count sch) (shown rq rows)).
Proof. apply build_rows. Qed.

End Success.

Lemma build_success_body_rows_witness :
  exists body', build_success_body (D := Accel) (lit "board-sdcard")
      (mkRequest (zbuf 256 (lit "SELECT i FROM t WHERE n = 'A' AND i < 3")) (zbuf 32 (lit "t"))
        (zbuf 256 (lit "i")) (zbuf 256 (lit "n = 'A' AND i < 3")) 10) demo_schema
      (concat (le32_bytes <$> demo_rows) ++ []) (4 * length demo_rows)
      (replicate MAX_RESPONSE_BODY_SIZE 0)
      (accel_reset (mkAccel 0 0 [] None 0 [] [] 0 0 false 0 0 false)) =
      Some (true, body', accel_reset (mkAccel 0 0 [] None 0 [] [] 0 0 false 0 0 false)) /\
    length body' = MAX_RESPONSE_BODY_SIZE /\
    cstr body' = Some (lit "STATUS=OK" ++ [10] ++ lit "MODE=board-sdcard" ++ [10] ++ lit "TABLE=t" ++
      [10] ++ lit "SQL=SELECT i FROM t WHERE n = 'A' AND i < 3" ++ [10] ++ lit "SCANNED_ROWS=3" ++ [10] ++
      lit "RETURNED_ROWS=3" ++ [10] ++ lit "COLUMNS=i,n,c" ++ [10] ++ lit "ROW=1|A|C" ++ [10] ++
      lit "ROW=2|B|E" ++ [10] ++ lit "ROW=3|C|C" ++ [10]).
Proof.
  exact (build_success_body_rows (D := Accel) _ (lit "t") (lit "SELECT i FROM t WHERE n = 'A' AND i < 3")
    demo_schema [lit "i"; lit "n"; lit "c"; []] demo_rows [] (replicate MAX_RESPONSE_BODY_SIZE 0)
    (accel_reset (mkAccel 0 0 [] None 0 [] [] 0 0 false 0 0 false))
    demo_valid (ns_schema _ _ demo_named)
    ltac:(split; [reflexivity|decide_closed]) eq_refl ltac:(split; reflexivity)
    ltac:(cbn; lia) (length_replicate _ _)).
Defined.
