(* ===== verification/Server.v ===== *)
(** * Server

    process_request, and the two tasks of network_tasks.c: rx_task parses and
    hands a request over, tx_task answers it. *)

From S2P Require Import Prelude CString Request Table Compile Accel HwDriver Response.

(** ** Debug output *)

Definition hex_digit (n : Z) : Z := if n <? 10 then 48 + n else 55 + n.

(** ["%02X"] of a byte. *)
Definition hex_byte (b : Z) : list Z := [hex_digit (b / 16); hex_digit (b mod 16)].

Fixpoint dump_loop (n : nat) (data : list Z) : option (list Z) :=
  match n with
  | O => Some [10]
  | S n =>
      let? b := head data in
      let? rest := dump_loop n (tail data) in
      Some (32 :: hex_byte b ++ rest)
  end.

(** What it prints. *)
Definition debug_dump_bytes (label data : list Z) (byte_count : nat) : option (list Z) :=
  let? rest := dump_loop byte_count data in Some (label ++ rest).

Fixpoint buffer_has_visible_data (data : list Z) (byte_count : nat) : option Z :=
  match byte_count with
  | O => Some 0
  | S n =>
      let? c := head data in
      if negb (c =? 0) && negb (c =? 32) then Some 1 else buffer_has_visible_data (tail data) n
  end.

(** ** process_request *)

(** The buffers shared by every request. *)
Record Globals := mkGlobals {
  http_response_body : list Z;
  captured_output_buffer : list Z;
  sd_file_buffer : list Z;
}.

Definition set_body (body : list Z) (g : Globals) : Globals :=
  mkGlobals body (captured_output_buffer g) (sd_file_buffer g).

Definition not_found_text (table : list Z) : list Z :=
  lit "Tabela '" ++ table ++ lit "' nao encontrada no SD." ++ [10] ++
  lit "Coloque '" ++ table ++ lit ".tbl' na raiz ou em /tables/ (FAT16).".

(** [not_found_msg], or the text that replaces it. *)
Definition not_found_message (table : list Z) : option (list Z) :=
  let? (ok, b) := appendf 256 (not_found_text table) (mkBody (0 :: replicate 255 0) 0) in
  if ok then cstr (b_buf b) else Some (lit "Tabela nao encontrada no SD.").

Definition capture_limit (request : QueryRequest) (schema : TableSchema) : nat :=
  let effective_limit := if 0 <? limit request then limit request else row_count schema in
  let bytes := s32 (u32 (Z.min effective_limit (row_count schema) * row_width schema)) in
  if Z.of_nat QUERY_CAPTURE_BUFFER_SIZE <? bytes then QUERY_CAPTURE_BUFFER_SIZE
  else Z.to_nat bytes.

(** The status line of the answer. *)
Record Status := mkStatus { st_code : Z; st_text : list Z }.
Definition ok_200 : Status := mkStatus 200 (lit "OK").
Definition bad_request_400 : Status := mkStatus 400 (lit "Bad Request").
Definition not_found_404 : Status := mkStatus 404 (lit "Not Found").
Definition internal_error_500 : Status := mkStatus 500 (lit "Internal Server Error").

Section Process.
  Context {D : Type} `{Bus D} `{FileReader D}.

(** What [send_error_response] does before it sends: the message is formatted into
    [http_response_body]. *)
Definition prepare_error (status : Status) (message : list Z) (g : Globals) (d : D)
  : option (Status * Globals * D) :=
  let? (body, _) := vsnprintf_at (http_response_body g) 0 MAX_RESPONSE_BODY_SIZE
    (line (lit "STATUS=ERROR") ++ line (lit "MESSAGE=" ++ message)) in
  Some (status, set_body body g, d).

(** The preview of the first row, printed when there is one. *)
Definition preview (label data : list Z) (schema : TableSchema) (available : Z) : option unit :=
  if row_width schema <=? available then
    let n := if row_width schema <? 32 then row_width schema else 32 in
    let? _ := debug_dump_bytes label data (Z.to_nat n) in Some tt
  else Some tt.

(** The captured rows and their size once the table has been fed; [None] inside is
    the result -1. *)
Definition run_feed (source : StreamSource) (total_bytes : Z) (limit : nat) (g : Globals) (d : D)
  : option (option (list Z * nat) * D) :=
  if 0 <? total_bytes then
    let? (data_status, _, c, d) := feed_source_to_hardware source total_bytes true limit
      (mkCapture (captured_output_buffer g) 0) d in
    if data_status <? 0 then Some (None, d)
    else Some (Some (cap_buf c, if data_status =? 0 then 0%nat else cap_size c), d)
  else Some (Some (captured_output_buffer g, 0%nat), d).

(** Everything [process_request] does up to the sending of the answer, which is in
    [http_response_body]. *)
Definition prepare_response (pending_request : QueryRequest) (g : Globals) (d : D)
  : option (Status * Globals * D) :=
  let g := mkGlobals (http_response_body g) (replicate QUERY_CAPTURE_BUFFER_SIZE 0)
             (sd_file_buffer g) in
  let? (loaded, file, d) := load_table_from_sd (table pending_request) (sd_file_buffer g) d in
  let g := mkGlobals (http_response_body g) (captured_output_buffer g) file in
  match loaded with
  | None =>
      let? name := cstr (table pending_request) in
      let? msg := not_found_message name in
      prepare_error not_found_404 msg g d
  | Some (schema, source, total_bytes) =>
      let limit := capture_limit pending_request schema in
      let d := hw_clear d in
      let? (err, d) := compile_and_send_instructions pending_request schema source d in
      match err with
      | Some compile_err =>
          let? msg := cstr compile_err in
          prepare_error bad_request_400 msg g d
      | None =>
          let? m := memory source in
          let? _ := preview (lit "SRC row0:") m schema total_bytes in
          let? (fed, d) := run_feed source total_bytes limit g d in
          match fed with
          | None => prepare_error internal_error_500
              (lit "Dados da tabela truncados antes do envio completo ao hardware.") g d
          | Some (rows, size) =>
              let g := mkGlobals (http_response_body g) rows file in
              let? _ := preview (lit "OUT row0:") rows schema (Z.of_nat size) in
              let? (ok, body, d) := build_success_body (lit "board-sdcard") pending_request schema
                                      rows size (http_response_body g) d in
              if ok then Some (ok_200, set_body body g, d)
              else prepare_error internal_error_500 (lit "Falha ao montar a resposta HTTP.")
                     (set_body body g) d
          end
      end
  end.

Context `{Net D}.

Definition process_request (current_client_socket : Z) (pending_request : QueryRequest)
    (g : Globals) (d : D) : option (Globals * D) :=
  let? (status, g, d) := prepare_response pending_request g d in
  let? d := send_http_response current_client_socket (st_code status) (st_text status)
              (http_response_body g) d in
  Some (g, d).

Definition close_client_socket (current_client_socket : Z) (d : D) : Z * D :=
  if 0 <=? current_client_socket then (-1, net_close current_client_socket d)
  else (current_client_socket, d).

(** ** The tasks *)

Definition QUERY_REQUEST_BUFFER_SIZE : nat := Z.to_nat 1536.

(** Where tx_task is: waiting for the semaphore, or about to send the answer of
    [process_request]. *)
Inductive TxState := TxWaiting | TxAnswering (status : Status).

Record Server := mkServer {
  current_client_socket : Z;
  pending_request : QueryRequest;
  query_ready_sem : nat;
  globals : Globals;
  tx_state : TxState;
  device : D;
}.

(** The start of the body of an HTTP request: after the blank line, or the whole. *)
Definition request_body (buffer : list Z) : option (list Z) :=
  let? text := cstr buffer in
  match strstr text [13; 10; 13; 10] with
  | Some i => Some (drop (i + 4) buffer)
  | None => Some buffer
  end.

(** OSSemPost and OSSemPend, as the two tasks see them: the count of the semaphore. *)
Definition set_sem (n : nat) (s : Server) : Server :=
  mkServer (current_client_socket s) (pending_request s) n (globals s) (tx_state s) (device s).

(** One turn of rx_task's loop, for a connection [client_fd] whose [recv] gives the
    bytes [received] (none on error or when the peer has closed), up to OSSemPost: the
    boolean says that the request was accepted, and OSSemPost follows. *)
Definition rx_handle (client_fd : Z) (received : list Z) (s : Server) : option (bool * Server) :=
  let refuse (status : Status) (message : list Z) :=
    let? (body, d) := send_error_response client_fd (st_code status) (st_text status) message
      (http_response_body (globals s)) (device s) in
    Some (false, mkServer (current_client_socket s) (pending_request s) (query_ready_sem s)
            (set_body body (globals s)) (tx_state s) (net_close client_fd d)) in
  if 0 <=? current_client_socket s then
    refuse (mkStatus 503 (lit "Service Unavailable")) (lit "O firmware atende uma consulta por vez.")
  else
    let data := take (QUERY_REQUEST_BUFFER_SIZE - 1) received in
    match data with
    | [] => Some (false, mkServer (current_client_socket s) (pending_request s) (query_ready_sem s)
                    (globals s) (tx_state s) (net_close client_fd (device s)))
    | _ =>
        let buffer := data ++ replicate (QUERY_REQUEST_BUFFER_SIZE - length data) 0 in
        let? body := request_body buffer in
        let? parsed := parse_request_body body in
        match parsed with
        | None => refuse bad_request_400 (lit "Corpo esperado: TABLE=...\nLIMIT=...\nSQL=...\n")
        | Some parsed_request =>
            Some (true, mkServer client_fd parsed_request (query_ready_sem s) (globals s)
                    (tx_state s) (device s))
        end
    end.

(** The whole turn. *)
Definition rx_connection (client_fd : Z) (received : list Z) (s : Server) : option Server :=
  let? (posted, s) := rx_handle client_fd received s in
  Some (if posted then set_sem (S (query_ready_sem s)) s else s).

(** tx_task after OSSemPend, to the point where the answer is built. *)
Definition tx_run (s : Server) : option Server :=
  if 0 <=? current_client_socket s then
    let? (status, g, d) := prepare_response (pending_request s) (globals s) (device s) in
    Some (mkServer (current_client_socket s) (pending_request s) (query_ready_sem s) g (TxAnswering status) d)
  else Some s.

(** tx_task from OSSemPend to there; [None] when the semaphore is not available. *)
Definition tx_begin (s : Server) : option (option Server) :=
  match query_ready_sem s, tx_state s with
  | S n, TxWaiting => let? s := tx_run (set_sem n s) in Some (Some s)
  | _, _ => Some None
  end.

(** tx_task from there to the next wait: what is sent is what [http_response_body]
    holds by then. *)
Definition tx_finish (s : Server) : option (option Server) :=
  match tx_state s with
  | TxAnswering status =>
      let? d := send_http_response (current_client_socket s) (st_code status) (st_text status)
                  (http_response_body (globals s)) (device s) in
      let '(fd, d) := close_client_socket (current_client_socket s) d in
      Some (Some (mkServer fd (pending_request s) (query_ready_sem s) (globals s) TxWaiting d))
  | TxWaiting => Some None
  end.

(** The interleavings: a connection is handled before tx_task takes its request, between
    the building of the answer and its sending, or after.  (On the board rx_task has the
    higher priority and may also interrupt tx_task inside either half.) *)
Inductive server_step : Server -> Server -> Prop :=
| step_rx fd data s s' : 0 <= fd -> rx_connection fd data s = Some s' -> server_step s s'
| step_tx_begin s s' : tx_begin s = Some (Some s') -> server_step s s'
| step_tx_finish s s' : tx_finish s = Some (Some s') -> server_step s s'.

(** After init_network_tasks; ServerKernel has the calls. *)
Definition server_start (g : Globals) (d : D) : Server :=
  mkServer (-1) zero_request 0 g TxWaiting d.

End Process.

Arguments Server : clear implicits.
