(* ===== verification/ServerFacts.v ===== *)
(** * ServerFacts

    The request handler is total, and answers exactly once; the state of the two
    tasks; and the race on the response buffer. *)

From stdpp Require Import relations.
From S2P Require Import Prelude CString Request RequestFacts Table TableFacts Compile CompileFacts.
From S2P Require Import Accel CompileSpec HwDriver HwFacts HwSpec Response ResponseFacts Server.

(** ** What the driver leaves alone *)

(** A property of the device that the accelerator's registers and delays do not
    touch. *)
Section Stable.
  Context {D : Type} `{Bus D} (Q : D -> Prop).
  Hypothesis Q_write : forall off v d, Q d -> Q (IOWR_32DIRECT USER_HW_0_BASE off v d).
  Hypothesis Q_read : forall off d, Q d -> Q (snd (IORD_32DIRECT USER_HW_0_BASE off d)).
  Hypothesis Q_delay : forall h m s ms d, Q d -> Q (OSTimeDlyHMSM h m s ms d).

Lemma stable_read off d v d' : IORD_32DIRECT USER_HW_0_BASE off d = (v, d') -> Q d -> Q d'.
Proof. intros E Hq. change d' with (snd (v, d')). rewrite <- E. by apply Q_read. Qed.

Lemma stable_send_all insts d : Q d -> Q (hw_send_all insts d).
Proof.
  revert d. induction insts as [|i insts IH]; intros d Hq; [done|]. apply IH.
  unfold hw_send_instruction. auto.
Qed.

Lemma stable_compile rq sch src d err d' :
  compile_and_send_instructions rq sch src d = Some (err, d') -> Q d -> Q d'.
Proof.
  unfold compile_and_send_instructions. destruct (compile_instructions rq sch src) as [[insts e]|]; [|done].
  intros [= _ <-]. apply stable_send_all.
Qed.

Lemma stable_drain limit c d c' d' : drain_output_words limit c d = Some (c', d') -> Q d -> Q d'.
Proof.
  unfold drain_output_words. destruct (hw_read_status d) as [st d1] eqn:Es. intros E Hq.
  apply stable_read in Es; [|done].
  assert (Hi : match iterP (drain_step limit) 65536 (st, c, d1) with
               | inl s => Q s.2 | inr r => from_option (fun r => Q r.2) True r end).
  { apply iterP_inv; [|done]. intros [[s0 c0] d0] Hs0. unfold drain_step.
    destruct (_ =? 0); [|done]. unfold hw_read_data_out.
    destruct (IORD_32DIRECT _ _ _) as [w d2] eqn:E2. apply stable_read in E2; [|by apply Q_write].
    destruct (capture_word limit w c0); [|done].
    destruct (hw_read_status d2) as [s3 d3] eqn:E3. by apply stable_read in E3. }
  destruct (iterP _ _ _); [done|]. subst. exact Hi.
Qed.

Lemma stable_feed_step total limit st :
  Q (fd_dev st) -> match feed_step total limit st with
  | inl st' => Q (fd_dev st')
  | inr (Some (FeedDone st')) | inr (Some (FeedReturn _ st')) => Q (fd_dev st')
  | inr None => True
  end.
Proof.
  intros Hq. unfold feed_step. destruct (negb (fd_sent st <? total)); [done|].
  destruct (hw_read_status (fd_dev st)) as [status d] eqn:Es. apply stable_read in Es; [|done].
  destruct (negb _).
  - destruct (drain_output_words limit (fd_cap st) d) as [[c d1]|] eqn:Ed; [|done].
    apply stable_drain in Ed; [|done]. cbn [fd_stall]. destruct (_ <? _); cbn; auto.
  - destruct (source_read_word (fd_source st)) as [[[raw|] src]|]; [|done..].
    destruct (read_le32 raw) as [w|]; [|done].
    destruct (drain_output_words limit (fd_cap st) (hw_write_word w d)) as [[c d1]|] eqn:Ed; [|done].
    apply stable_drain in Ed; [done|]. unfold hw_write_word. auto.
Qed.

Lemma stable_wait_step limit c d :
  Q d -> match wait_step limit (c, d) with
  | inl (_, d') | inr (Some (_, d')) => Q d'
  | inr None => True
  end.
Proof.
  intros Hq. unfold wait_step. destruct (drain_output_words limit c d) as [[c1 d1]|] eqn:Ed; [|done].
  apply stable_drain in Ed; [|done]. destruct (hw_read_status d1) as [s d2] eqn:Es.
  apply stable_read in Es; [|done]. destruct (_ && _); auto.
Qed.

Lemma stable_feed src total w limit c d code src' c' d' :
  feed_source_to_hardware src total w limit c d = Some (code, src', c', d') -> Q d -> Q d'.
Proof.
  unfold feed_source_to_hardware. intros E Hq.
  pose proof (iterP_inv (feed_step total limit) (fun st => Q (fd_dev st))
    (fun r => match r with
              | Some (FeedDone st') | Some (FeedReturn _ st') => Q (fd_dev st')
              | None => True end) (2 ^ 45) (mkFeed src 0 0 c d) (stable_feed_step total limit) Hq) as Hi.
  destruct (iterP _ _ _) as [|[[st|cd st]|]]; [done| | |done].
  - destruct (negb w); [injection E as <- <- <- <-; by apply Q_write|].
    assert (Hw : match iterP (wait_step limit) (Z.to_pos HW_STALL_MAX_CYCLES)
        (fd_cap st, hw_signal_eof (fd_dev st)) with
      | inl s => Q s.2 | inr r => from_option (fun r => Q r.2) True r end).
    { apply iterP_inv; [|by apply Q_write]. intros [c0 d0] Hs0.
      pose proof (stable_wait_step limit c0 d0 Hs0) as G.
      by destruct (wait_step limit (c0, d0)) as [[? ?]|[[? ?]|]]. }
    destruct (iterP (wait_step limit) _ _) as [[c0 d0]|[[c0 d0]|]]; [| |done];
      injection E as <- <- <- <-; exact Hw.
  - injection E as <- <- <- <-. exact Hi.
Qed.

Lemma stable_build mode rq sch rows size body d ok body' d' :
  build_success_body mode rq sch rows size body d = Some (ok, body', d') -> Q d -> Q d'.
Proof.
  unfold build_success_body.
  destruct (cstr (table rq)) as [tb|]; [|done]. destruct (cstr (sql rq)) as [q|]; [|done].
  destruct (ascii_strncasecmp_local _ (lit "COUNT(") _) as [v|]; [|done]. destruct (v =? 0).
  { destruct (IORD_32DIRECT _ _ _) as [x d1] eqn:E.
    destruct (vsnprintf_at _ _ _ _) as [[b n]|]; [|done]. intros [= _ _ <-]. by eapply stable_read. }
  destruct (ascii_strncasecmp_local _ (lit "SUM(") _) as [v2|]; [|done]. destruct (v2 =? 0).
  { destruct (IORD_32DIRECT _ _ _) as [x d1] eqn:E.
    destruct (vsnprintf_at _ _ _ _) as [[b n]|]; [|done]. intros [= _ _ <-]. by eapply stable_read. }
  destruct (rows_body _ _ _ _ _ _ _ _) as [[o b]|]; [|done]. by intros [= _ _ <-].
Qed.

End Stable.

(** ** The accelerator before a feed *)

(** Cleared, and then given any instructions. *)
Definition fresh (a : Accel) : Prop :=
  configured (a_where a) (a_limit a) a /\ limit_ok (a_limit a).

Lemma accel_load_fresh v a : fresh a -> fresh (accel_load (accel_write 8 v a)).
Proof.
  intros [[] Hl]. unfold accel_load, accel_write, fresh. cbn [a_inst].
  change (8 =? 0) with false. change (8 =? 4) with false. change (8 =? 8) with true. cbv iota.
  cbn [a_inst a_where a_limit].
  destruct (bits 31 28 v =? 1); [destruct (length (a_where a) <? NUM_WHERE)%nat|
    destruct (bits 31 28 v =? 2); [|destruct ((bits 31 28 v =? 3) || (bits 31 28 v =? 4))]];
    cbn [a_where a_limit]; (split; [by constructor|]); try done.
  cbn. unfold bits. apply (Z.mod_pos_bound _ (2 ^ 8)). lia.
Qed.

(** ** The words of a source *)

Lemma source_has_rows m n :
  bytes m -> (4 * n <= length m)%nat -> 4 * Z.of_nat n + 4 < 2 ^ 32 ->
  exists rows, length rows = n /\ Forall is_u32 rows /\
    source_rows rows 0 (mkSource (Some m) (4 * Z.of_nat n) 0).
Proof.
  intros Hb Hl Hx.
  assert (G : exists rows, length rows = n /\ Forall is_u32 rows /\
    forall j w, rows !! j = Some w -> take 4 (drop (4 * j) m) = le32_bytes w).
  { clear Hx. induction n as [|n IH]; [by exists []|].
    destruct IH as (rows & Hn & Hu & Hrow); [lia|].
    destruct (read_le32_total (drop (4 * n) m)) as (w & _ & Hw & Ht);
      [by apply bytes_drop|rewrite length_drop; lia|].
    exists (rows ++ [w]). split; [rewrite length_app; cbn; lia|]. split; [by apply Forall_app; rewrite Forall_singleton|].
    intros j x Hj. apply lookup_snoc_Some in Hj as [[Hlt Hj]|[-> ->]]; [by apply Hrow|].
    by rewrite Hn. }
  destruct G as (rows & Hn & Hu & Hrow). exists rows. split; [done|]. split; [done|].
  constructor; cbn [memory memory_size memory_offset]; rewrite ?Hn; try done.
  exists m. split; [done|]. intros j w Hj. pose proof (lookup_lt_Some _ _ _ Hj).
  split; [by apply Hrow|lia].
Qed.

(** ** The feed always ends *)

Section Total.
  Context {D : Type} `{UserHw D}.

Lemma send_all_fresh insts d : fresh (hw_view d) -> fresh (hw_view (hw_send_all insts d)).
Proof.
  revert d. induction insts as [|i insts IH]; intros d Hf; [done|]. apply IH.
  rewrite view_send. by apply accel_load_fresh.
Qed.

Lemma clear_fresh d : fresh (hw_view (hw_clear d)).
Proof.
  pose proof (clear_configured d) as Hc. split; [by destruct Hc; constructor|].
  by rewrite (cf_limit _ _ _ Hc).
Qed.

Lemma feed_total m rows src buf d :
  fresh (hw_view d) -> Forall is_u32 rows -> source_rows rows 0 src -> (4 * m <= length buf)%nat ->
  exists code src' c d',
    feed_source_to_hardware src (4 * Z.of_nat (length rows)) true (4 * m) (mkCapture buf 0) d =
      Some (code, src', c, d') /\ length (cap_buf c) = length buf /\
    (code = 0 \/ code = 1 /\
      captured m (selected (where_all (a_where (hw_view d))) (a_limit (hw_view d)) rows) c).
Proof.
  intros [Hc Hl] Hu Hs Hb.
  pose proof (feeding_start _ _ m rows src buf d Hc Hs Hb) as Hf.
  destruct (decide (length (sc_held (scan (where_all (a_where (hw_view d))) (a_limit (hw_view d)) rows))
    <= 128)%nat) as [Hh|Hh].
  - destruct (feed_source_spec _ _ _ m rows _ _ Hl Hu Hf eq_refl eq_refl Hh) as
      (src' & c & d' & E & Hcap & Hlen & _). cbn in E. exists 1, src', c, d'. auto.
  - destruct (feed_source_stall _ _ _ m rows _ _ Hl Hu Hf eq_refl eq_refl ltac:(lia)) as
      (src' & c & d' & E & Hlen). cbn in E. exists 0, src', c, d'. auto.
Qed.

End Total.

(** ** Devices *)

Inductive NetEvent := Sent (fd : Z) (data : list Z) | Closed (fd : Z).

(** The whole board: the accelerator, the card and the network share a device
    state; each leaves alone what the others show. *)
Class Board (D : Type) `{UserHw D} `{FileReaderOk D} `{Net D} := {
  net_log : D -> list NetEvent;
  log_send : forall fd data d, net_log (net_send fd data d) = net_log d ++ [Sent fd data];
  log_close : forall fd d, net_log (net_close fd d) = net_log d ++ [Closed fd];
  log_write : forall off v d, net_log (IOWR_32DIRECT USER_HW_0_BASE off v d) = net_log d;
  log_ior : forall off d, net_log (snd (IORD_32DIRECT USER_HW_0_BASE off d)) = net_log d;
  log_delay : forall h m s ms d, net_log (OSTimeDlyHMSM h m s ms d) = net_log d;
  log_read_file : forall name buf size d n buf' d',
    read_file name buf size d = Some (n, buf', d') -> net_log d' = net_log d;
  inv_send : forall fd data d, reader_inv d -> reader_inv (net_send fd data d);
  inv_close : forall fd d, reader_inv d -> reader_inv (net_close fd d);
  inv_write : forall off v d, reader_inv d -> reader_inv (IOWR_32DIRECT USER_HW_0_BASE off v d);
  inv_ior : forall off d, reader_inv d -> reader_inv (snd (IORD_32DIRECT USER_HW_0_BASE off d));
  inv_delay : forall h m s ms d, reader_inv d -> reader_inv (OSTimeDlyHMSM h m s ms d);
}.

Record globals_ok (g : Globals) : Prop := {
  go_body : length (http_response_body g) = MAX_RESPONSE_BODY_SIZE;
  go_capture : length (captured_output_buffer g) = QUERY_CAPTURE_BUFFER_SIZE;
  go_file : length (sd_file_buffer g) = Z.to_nat SD_FILE_MAX_SIZE;
  go_bytes : bytes (sd_file_buffer g);
}.

(** ** Preparing the answer *)

Definition status_known (s : Status) : Prop :=
  s = ok_200 \/ s = bad_request_400 \/ s = not_found_404 \/ s = internal_error_500.

(** A NUL-terminated body. *)
Definition body_text (g : Globals) (text : list Z) : Prop := cstr (http_response_body g) = Some text.

Section Prepare.
  Context {D : Type} `{Board D}.

(** What a request leaves alone: the log, and the card's invariant. *)
Definition quiet (log : list NetEvent) (d : D) : Prop := net_log d = log /\ reader_inv d.

Lemma quiet_write log off v d : quiet log d -> quiet log (IOWR_32DIRECT USER_HW_0_BASE off v d).
Proof. intros [Hl Hi]. split; [by rewrite log_write|by apply inv_write]. Qed.
Lemma quiet_read log off d : quiet log d -> quiet log (snd (IORD_32DIRECT USER_HW_0_BASE off d)).
Proof. intros [Hl Hi]. split; [by rewrite log_ior|by apply inv_ior]. Qed.
Lemma quiet_delay log h m s ms d : quiet log d -> quiet log (OSTimeDlyHMSM h m s ms d).
Proof. intros [Hl Hi]. split; [by rewrite log_delay|by apply inv_delay]. Qed.

Lemma load_log name buf d res buf' d' :
  load_table_from_sd name buf d = Some (res, buf', d') -> net_log d' = net_log d.
Proof.
  unfold load_table_from_sd. destruct (cstr name) as [nm|]; [|done].
  destruct (sanitize_identifier name) as [ok|]; [|done].
  destruct (negb ok); [by intros [= _ _ <-]|].
  destruct (table_file_name nm) as [[fname w]|]; [|done].
  destruct (_ || _); [by intros [= _ _ <-]|].
  destruct (read_file fname buf SD_FILE_MAX_SIZE d) as [[[n1 b1] d1]|] eqn:E1; [|done].
  apply log_read_file in E1.
  assert (G : forall n b d2, (if n1 <? 0 then read_file name b1 SD_FILE_MAX_SIZE d1 else Some (n1, b1, d1)) =
    Some (n, b, d2) -> net_log d2 = net_log d).
  { intros n b d2. destruct (n1 <? 0); [|by intros [= _ _ <-]].
    intros E2. apply log_read_file in E2. by rewrite E2. }
  destruct (if n1 <? 0 then _ else _) as [[[n b] d2]|]; [|done]. specialize (G n b d2 eq_refl).
  destruct (n <? _); [by intros [= _ _ <-]|].
  destruct (load_table_schema_from_buf b n) as [[sch|]|]; [| |done]; by intros [= _ _ <-].
Qed.

Lemma body_room : (0 < MAX_RESPONSE_BODY_SIZE)%nat.
Proof. apply Nat.ltb_lt. vm_compute. reflexivity. Qed.

(** The text of an error is the first part of the message lines. *)
Definition error_text (message : list Z) : list Z :=
  take (MAX_RESPONSE_BODY_SIZE - 1) (line (lit "STATUS=ERROR") ++ line (lit "MESSAGE=" ++ message)).

Lemma error_nonul message : nonul message -> nonul (line (lit "STATUS=ERROR") ++ line (lit "MESSAGE=" ++ message)).
Proof. intros Hm. unfold line. rewrite !nonul_app. repeat split; try assumption; decide_closed. Qed.

Lemma format_error body message : length body = MAX_RESPONSE_BODY_SIZE -> nonul message -> exists body' n,
  vsnprintf_at body 0 MAX_RESPONSE_BODY_SIZE (line (lit "STATUS=ERROR") ++ line (lit "MESSAGE=" ++ message)) = Some (body', n) /\
  length body' = MAX_RESPONSE_BODY_SIZE /\ cstr body' = Some (error_text message).
Proof.
  intros Hb Hm. destruct (vsnprintf_whole _ body (line (lit "STATUS=ERROR") ++ line (lit "MESSAGE=" ++ message)) body_room Hb) as (rest & E & Hl).
  eexists _, _. split; [exact E|]. split; [exact Hl|]. apply cstr_app. by apply nonul_take, error_nonul.
Qed.

Lemma prepare_error_total status message g (d : D) :
  globals_ok g -> nonul message ->
  exists g' text, prepare_error status message g d = Some (status, g', d) /\ globals_ok g' /\
    body_text g' text.
Proof.
  intros [Hb Hc Hf Hx] Hm. unfold prepare_error. destruct (format_error _ message Hb Hm) as (b & n & -> & Hl & Ht).
  eexists _, _. split; [reflexivity|]. by split.
Qed.

Lemma dump_loop_total n data :
  (n <= length data)%nat -> exists t, dump_loop n data = Some t.
Proof.
  revert data. induction n as [|n IH]; intros data Hl; [by eexists|].
  destruct data as [|b data]; cbn [length] in Hl; [lia|]. cbn [dump_loop head tail hd_error].
  destruct (IH data) as [t Ht]; [lia|]. cbn. rewrite Ht. by eexists.
Qed.

Lemma preview_total label data sch n :
  row_width sch = 4 -> n <= Z.of_nat (length data) -> preview label data sch n = Some tt.
Proof.
  intros Hw Hn. unfold preview. rewrite Hw. destruct (Z.leb_spec 4 n); [|done].
  change (4 <? 32) with true. cbv iota. unfold debug_dump_bytes.
  destruct (dump_loop_total (Z.to_nat 4) data) as [t ->]; [lia|]. done.
Qed.

Lemma capture_limit_spec rq sch :
  schema_ok sch -> is_u32 (limit rq) -> row_count sch < 2 ^ 28 ->
  exists m, capture_limit rq sch = (4 * m)%nat /\ (m <= 256)%nat.
Proof.
  intros Hs Hl Hr. pose proof (so_rows _ Hs). unfold capture_limit. rewrite (so_width _ Hs).
  set (e := Z.min _ _). assert (He : 0 <= e < 2 ^ 28).
  { unfold e. destruct (Z.ltb_spec 0 (limit rq)); word_lia. }
  rewrite u32_small, s32_small by word_lia.
  change (Z.of_nat QUERY_CAPTURE_BUFFER_SIZE) with 1024.
  destruct (Z.ltb_spec 1024 (e * 4)).
  - exists 256%nat. done.
  - exists (Z.to_nat e). lia.
Qed.

(** The outcome of a stage that ends a request. *)
Definition answered (log : list NetEvent) (r : option (Status * Globals * D)) : Prop :=
  exists status g' d' text, r = Some (status, g', d') /\ status_known status /\ globals_ok g' /\
    body_text g' text /\ quiet log d'.

Lemma answered_error log status message g (d : D) :
  status_known status -> globals_ok g -> nonul message -> quiet log d ->
  answered log (prepare_error status message g d).
Proof.
  intros Hs Hg Hm Hq. destruct (prepare_error_total status message g d Hg Hm) as (g' & t & E & Hg' & Ht).
  exists status, g', d, t. auto.
Qed.

Lemma not_found_total t :
  nonul t -> (length t < 32)%nat -> exists msg, not_found_message t = Some msg /\ nonul msg.
Proof.
  intros Hn Hl. unfold not_found_message, appendf. cbn [b_off b_buf].
  change (256 <=? 0)%nat with false. cbv iota. change (256 - 0)%nat with 256%nat.
  unfold vsnprintf_at. change (256 =? 0)%nat with false. cbv iota.
  assert (Hlen : (length (not_found_text t) < 256)%nat).
  { unfold not_found_text. rewrite !length_app.
    cbn [length lit fmap list_fmap String.list_ascii_of_string]. lia. }
  assert (Hnt : nonul (not_found_text t)).
  { unfold not_found_text. rewrite !nonul_app. repeat split; try assumption; decide_closed. }
  rewrite take_ge by lia.
  rewrite memcpy_at_some by (rewrite length_app; cbn [length]; rewrite length_replicate; lia).
  rewrite (proj2 (Nat.leb_gt _ _)) by lia. cbn [b_buf]. rewrite take_0. cbn [app].
  rewrite <- app_assoc. cbn [app]. rewrite cstr_app by done. by eexists.
Qed.

Lemma source_ok_loaded buf total :
  (28 <= length buf)%nat -> total = 0 \/ 4 <= total -> total + 28 <= Z.of_nat (length buf) ->
  source_ok (mkSource (Some (drop TABLE_HEADER_BYTES buf)) total 0).
Proof.
  intros Hb Ht Hl. eexists. split; [done|]. cbn [memory_offset memory_size]. split; [done|].
  split; [done|]. rewrite length_drop. change TABLE_HEADER_BYTES with 28%nat. lia.
Qed.

(** The feed of a loaded table. *)
Lemma run_feed_total log sch src total m g (d : D) buf :
  globals_ok g -> fresh (hw_view d) -> quiet log d -> bytes buf ->
  length buf = Z.to_nat SD_FILE_MAX_SIZE -> 0 <= row_count sch ->
  src = mkSource (Some (drop TABLE_HEADER_BYTES buf)) total 0 -> total = 4 * row_count sch ->
  total + 28 <= Z.of_nat (length buf) -> (m <= 256)%nat ->
  exists rows tail d', run_feed src total (4 * m) g d =
      Some (Some (concat (le32_bytes <$> rows) ++ tail, (4 * length rows)%nat), d') /\
    (length rows <= m)%nat /\
    length (concat (le32_bytes <$> rows) ++ tail) = QUERY_CAPTURE_BUFFER_SIZE /\ quiet log d'.
Proof.
  intros Hg Hf Hq Hb Hl Hr -> Htot Hsz Hm. unfold run_feed. unfold SD_FILE_MAX_SIZE in Hl.
  destruct (Z.ltb_spec 0 total) as [Hpos|Hz].
  2: { exists [], (captured_output_buffer g), d. cbn. split; [done|]. split; [lia|]. by split; [apply Hg|]. }
  destruct (source_has_rows (drop TABLE_HEADER_BYTES buf) (Z.to_nat (row_count sch))) as
    (rows & Hn & Hu & Hs).
  - by apply bytes_drop.
  - rewrite length_drop. change TABLE_HEADER_BYTES with 28%nat. lia.
  - lia.
  - replace (4 * Z.of_nat (Z.to_nat (row_count sch))) with total in Hs by lia.
    destruct (feed_total m rows _ (captured_output_buffer g) d Hf Hu Hs) as
      (code & src' & c & d' & E & Hlen & Hcode).
    { rewrite (go_capture _ Hg). change QUERY_CAPTURE_BUFFER_SIZE with 1024%nat. lia. }
    replace (4 * Z.of_nat (length rows)) with total in E by lia. rewrite E.
    assert (Hq' : quiet log d').
    { refine (stable_feed (quiet log) _ _ _ _ _ _ _ _ _ _ _ _ _ E Hq); intros;
        [by apply quiet_write|by apply quiet_read|by apply quiet_delay]. }
    rewrite (go_capture _ Hg) in Hlen. destruct Hcode as [-> | [-> [Hsize Hbuf Hroom]]].
    + exists [], (cap_buf c), d'. cbn. split; [done|]. split; [lia|done].
    + set (sel := selected _ _ rows) in *.
      exists (take m sel), (drop (cap_size c) (cap_buf c)), d'. change (1 <? 0) with false.
      change (1 =? 0) with false. cbv iota. rewrite <- Hbuf, take_drop, <- Hsize.
      split; [done|]. split; [rewrite length_take; lia|done].
Qed.

Lemma format_body body text :
  length body = MAX_RESPONSE_BODY_SIZE ->
  exists body' s, vsnprintf_at body 0 MAX_RESPONSE_BODY_SIZE text = Some (body', length text) /\
    length body' = MAX_RESPONSE_BODY_SIZE /\ cstr body' = Some s.
Proof.
  intros Hb. destruct (vsnprintf_whole _ body text body_room Hb) as (rest & E & Hl).
  destruct (cstr_has_nul (take (MAX_RESPONSE_BODY_SIZE - 1) text) rest) as (s & Hs & _). by eexists _, s.
Qed.

(** Whatever the SELECT list, the body is built. *)
Lemma build_total log rq t q sch rows tail body (d : D) :
  valid_request rq t q -> schema_ok sch -> (length rows <= 256)%nat ->
  length body = MAX_RESPONSE_BODY_SIZE -> quiet log d ->
  exists body' d' s, build_success_body (lit "board-sdcard") rq sch
      (concat (le32_bytes <$> rows) ++ tail) (4 * length rows) body d = Some (true, body', d') /\
    length body' = MAX_RESPONSE_BODY_SIZE /\ cstr body' = Some s /\ quiet log d'.
Proof.
  intros Hv Hs Hr Hb Hq.
  destruct (ci_prefixb (lit "COUNT(") (select_text q)) eqn:Ec; [|destruct (ci_prefixb (lit "SUM(") (select_text q)) eqn:Es].
  3: { destruct (schema_names sch Hs) as (names & Hn & Hl).
       destruct (build_rows rq t q sch names rows tail body d Hv Hs Hn Hl (conj Ec Es) Hr Hb) as
         (b & E & Hbl & Hc). by exists b, d, (success_text (lit "board-sdcard") t q
         (take (Z.to_nat (column_count sch)) names) (row_count sch) (shown rq rows)). }
  all: destruct Hv as [Htab Hsql Hsel _ _ [Ht Htl] [Hqn Hql] _]; unfold build_success_body;
    rewrite Htab, Hsql, Hsel, !cstr_zbuf by done; rewrite zbuf_split by apply select_text_length;
    destruct (casecmp_total (select_text q) (replicate (256 - S (length (select_text q))) 0)
      (lit "COUNT(") 6 ltac:(decide_closed) eq_refl) as (v1 & -> & ->); rewrite Ec.
  2: destruct (casecmp_total (select_text q) (replicate (256 - S (length (select_text q))) 0)
      (lit "SUM(") 4 ltac:(decide_closed) eq_refl) as (v2 & -> & ->); rewrite Es.
  all: match goal with Hq : quiet ?lg ?dev |- context [IORD_32DIRECT USER_HW_0_BASE ?off ?dev] =>
         pose proof (quiet_read lg off dev Hq) as Hq';
         destruct (IORD_32DIRECT USER_HW_0_BASE off dev) as [v d1] end.
  all: match goal with Hl : length ?bd = MAX_RESPONSE_BODY_SIZE |- context [vsnprintf_at ?bd 0 _ ?txt] =>
         destruct (format_body bd txt Hl) as (b & s & -> & Hbl & Hc) end.
  all: by exists b, d1, s.
Qed.

Lemma answered_loaded log rq t q sch src total g (d : D) :
  valid_request rq t q -> globals_ok g -> quiet log d ->
  schema_ok sch -> src = mkSource (Some (drop TABLE_HEADER_BYTES (sd_file_buffer g))) total 0 ->
  total = 4 * row_count sch -> total + 28 <= Z.of_nat (length (sd_file_buffer g)) ->
  answered log
    (let limit := capture_limit rq sch in
     let d := hw_clear d in
     let? (err, d) := compile_and_send_instructions rq sch src d in
     match err with
     | Some compile_err =>
         let? msg := cstr compile_err in prepare_error bad_request_400 msg g d
     | None =>
         let? m := memory src in
         let? _ := preview (lit "SRC row0:") m sch total in
         let? (fed, d) := run_feed src total limit g d in
         match fed with
         | None => prepare_error internal_error_500
             (lit "Dados da tabela truncados antes do envio completo ao hardware.") g d
         | Some (rows, size) =>
             let g := mkGlobals (http_response_body g) rows (sd_file_buffer g) in
             let? _ := preview (lit "OUT row0:") rows sch (Z.of_nat size) in
             let? (ok, body, d) := build_success_body (lit "board-sdcard") rq sch rows size
                                     (http_response_body g) d in
             if ok then Some (ok_200, set_body body g, d)
             else prepare_error internal_error_500 (lit "Falha ao montar a resposta HTTP.")
                    (set_body body g) d
         end
     end).
Proof.
  intros Hv Hg Hq Hs Hsrc Htot Hsz. cbv zeta.
  pose proof (go_file _ Hg) as Hfl. unfold SD_FILE_MAX_SIZE in Hfl.
  pose proof (so_rows _ Hs) as Hrc.
  assert (Hso : source_ok src).
  { rewrite Hsrc. apply source_ok_loaded; [lia|word_lia|done]. }
  destruct (compile_total rq t q sch src Hv Hs Hso) as [[insts err] Ec].
  pose proof (compile_instructions_msg _ _ _ _ Ec) as Hmsg.
  unfold compile_and_send_instructions. rewrite Ec.
  assert (Hq1 : quiet log (hw_send_all insts (hw_clear d))).
  { apply stable_send_all; [apply quiet_write|]. by apply quiet_write. }
  pose proof (send_all_fresh insts _ (clear_fresh d)) as Hfr.
  set (d1 := hw_send_all insts (hw_clear d)) in *.
  destruct err as [m|].
  { destruct Hmsg as [txt Htxt]. cbn in Htxt. destruct (error_text_cstr _ _ Htxt) as (s & -> & Hsn).
    apply answered_error; [right; by left|done..]. }
  rewrite Hsrc at 1. cbn [memory].
  rewrite (preview_total (lit "SRC row0:") _ sch total (so_width _ Hs))
    by (rewrite length_drop; change TABLE_HEADER_BYTES with 28%nat; lia).
  destruct (capture_limit_spec rq sch Hs (vr_limit _ _ _ Hv)) as (k & -> & Hk); [lia|].
  destruct (run_feed_total log sch src total k g d1 (sd_file_buffer g)) as
    (rows & tail & d2 & -> & Hrl & Hcl & Hq2); [try done; try apply Hg; try word_lia..|].
  cbn [http_response_body].
  rewrite (preview_total (lit "OUT row0:") _ sch _ (so_width _ Hs))
    by (rewrite length_app, concat_rows_length; lia).
  destruct (build_total log rq t q sch rows tail (http_response_body g) d2) as
    (body & d3 & s & -> & Hbl & Hc & Hq3); [try done; try apply Hg; lia..|].
  eexists ok_200, _, d3, s. split; [reflexivity|]. split; [by left|]. split; [|by split].
  destruct Hg. by constructor.
Qed.

Lemma prepare_total log rq t q g (d : D) :
  valid_request rq t q -> globals_ok g -> quiet log d ->
  answered log (prepare_response rq g d).
Proof.
  intros Hv [Hgb Hgc Hgf Hgx] [Hlog Hinv]. unfold prepare_response.
  pose proof Hv as [Htab _ _ _ Hid [Htn Htl] _ _]. rewrite Htab.
  cbn [sd_file_buffer captured_output_buffer http_response_body].
  destruct (load_table_from_sd_spec t (sd_file_buffer g) d Hid Htl Hgf Hgx Hinv) as
    (res & file & d1 & E & Hinv1 & Hfl & Hfb & Hres). rewrite E.
  apply load_log in E.
  assert (Hq : quiet log d1) by (split; [by rewrite E|done]).
  set (g1 := mkGlobals (http_response_body g) (replicate QUERY_CAPTURE_BUFFER_SIZE 0) file).
  assert (Hg1 : globals_ok g1) by (constructor; cbn; rewrite ?Hfl, ?length_replicate; done).
  destruct res as [[[sch src] total]|].
  - destruct (Hres _ _ _ eq_refl) as (Hs & Hsrc & Htot & Hsz).
    exact (answered_loaded log rq t q sch src total g1 d1 Hv Hg1 Hq Hs Hsrc Htot Hsz).
  - rewrite cstr_zbuf by done. destruct (not_found_total t Htn Htl) as (msg & -> & Hm).
    apply answered_error; [right; right; by left|done..].
Qed.

End Prepare.

(** ** Sending *)

Definition status_ok (s : Status) : Prop :=
  0 <= st_code s < 1000 /\ (length (st_text s) <= 32)%nat.

Lemma status_known_ok s : status_known s -> status_ok s.
Proof. intros [-> | [-> | [-> | ->]]]; (split; [cbn; lia|cbn; lia]). Qed.

(** What the client of [fd] receives. *)
Definition answer (fd : Z) (s : Status) (text : list Z) : list NetEvent :=
  Sent fd (http_header (st_code s) (st_text s) (Z.of_nat (length text))) ::
  match text with [] => [] | _ => [Sent fd text] end.

Lemma http_header_length s n :
  status_ok s -> 0 <= n < 10 ^ 10 -> (0 < length (http_header (st_code s) (st_text s) n) < 256)%nat.
Proof.
  intros [Hc Ht] Hn. unfold http_header, crlf, fmt_d.
  rewrite (proj2 (Z.ltb_ge (st_code s) 0)), (proj2 (Z.ltb_ge n 0)) by lia.
  pose proof (digits_length 20 (st_code s) 3 ltac:(cbn; lia) ltac:(lia)).
  pose proof (digits_length 20 n 10 ltac:(cbn; lia) ltac:(lia)).
  unfold fmt_lu. rewrite !length_app.
  cbn [length lit fmap list_fmap String.list_ascii_of_string]. lia.
Qed.

Lemma cstr_length p s : cstr p = Some s -> (length s < length p)%nat.
Proof. intros (r & -> & _)%cstr_inv. rewrite length_app. cbn. lia. Qed.

Section Sending.
  Context {D : Type} `{Board D}.

Lemma send_response_total log fd s body text (d : D) :
  status_ok s -> cstr body = Some text -> Z.of_nat (length body) <= 2 ^ 20 -> quiet log d ->
  exists d', send_http_response fd (st_code s) (st_text s) body d = Some d' /\
    quiet (log ++ answer fd s text) d'.
Proof.
  intros Hs Hc Hl [Hlog Hinv]. unfold send_http_response. rewrite Hc.
  pose proof (cstr_length _ _ Hc) as Htl.
  set (h := http_header (st_code s) (st_text s) (Z.of_nat (length text))).
  assert (Hhl : (0 < length h < 256)%nat).
  { apply http_header_length; [done|]. change (10 ^ 10) with 10000000000.
    lia. }
  unfold vsnprintf_at. change (256 =? 0)%nat with false. cbv iota.
  rewrite (take_ge h) by lia.
  rewrite memcpy_at_some by (rewrite length_app, length_replicate; cbn [length]; lia).
  rewrite (proj2 (Nat.ltb_lt 0 (length h))), (proj2 (Nat.ltb_ge 256 (length h))) by lia.
  rewrite take_0. cbn [app]. rewrite <- app_assoc. cbn [app]. rewrite take_app_length.
  unfold quiet, answer. fold h. destruct text as [|c text]; cbn [length].
  - change (0 <? 0)%nat with false. cbv iota. eexists. split; [reflexivity|]. rewrite log_send, Hlog. split; [done|by apply inv_send].
  - change (0 <? S (length text))%nat with true. cbv iota. eexists. split; [reflexivity|].
    rewrite !log_send, Hlog, <- app_assoc. split; [done|by apply inv_send, inv_send].
Qed.

Lemma body_size g : globals_ok g -> Z.of_nat (length (http_response_body g)) <= 2 ^ 20.
Proof. intros Hg. rewrite (go_body _ Hg). unfold MAX_RESPONSE_BODY_SIZE. lia. Qed.

Lemma send_error_total log fd s message g (d : D) :
  status_ok s -> nonul message -> globals_ok g -> quiet log d ->
  exists body d' text, send_error_response fd (st_code s) (st_text s) message
      (http_response_body g) d = Some (body, d') /\
    globals_ok (set_body body g) /\ quiet (log ++ answer fd s text) d' /\
    cstr body = Some text /\
    text = take (MAX_RESPONSE_BODY_SIZE - 1) (line (lit "STATUS=ERROR") ++ line (lit "MESSAGE=" ++ message)).
Proof.
  intros Hs Hm Hg Hq. unfold send_error_response. destruct (format_error _ message (go_body _ Hg) Hm) as (b & n & -> & Hl & Ht).
  destruct (send_response_total log fd s b (error_text message) d Hs Ht) as (d' & -> & Hq'); [rewrite Hl, <- (go_body _ Hg); by apply body_size|done|].
  exists b, d', (error_text message). split; [done|]. split; [|by split_and!]. destruct Hg. by split.
Qed.

(** C2.  Every accepted request is answered.  As long as the reader keeps its contract
    ([reader_inv]: it returns, inside its buffer; the FAT reader does on every card whose
    cluster chains end, FatBoard; on a directory chain with a cycle it may not return), the
    handling never accesses memory
    out of bounds, ends, and sends the client exactly one response (a header and its
    body), with one of the four status codes: whatever bytes the file holds or whether it
    is there, for any query text, any state of the accelerator and any contents of the
    buffers. *)
Theorem process_request_answers (fd : Z) (rq : QueryRequest) (t q : list Z) (g : Globals) (d : D) :
  valid_request rq t q -> globals_ok g -> reader_inv d ->
  exists g' d' status text, process_request fd rq g d = Some (g', d') /\
    globals_ok g' /\ reader_inv d' /\ status_known status /\
    net_log d' = net_log d ++ answer fd status text.
Proof.
  intros Hv Hg Hi. unfold process_request.
  destruct (prepare_total (net_log d) rq t q g d Hv Hg (conj eq_refl Hi)) as
    (status & g' & d1 & text & -> & Hst & Hg' & Ht & Hq).
  destruct (send_response_total _ fd status _ text d1 (status_known_ok _ Hst) Ht (body_size _ Hg') Hq)
    as (d2 & -> & [Hlog Hinv]).
  exists g', d2, status, text. auto.
Qed.

End Sending.

(** ** The two tasks *)

(** The semaphore, the socket variable and tx_task's position agree: at most one
    request is pending, and it is the one tx_task will answer or is answering. *)
Record server_inv {D : Type} `{FileReaderOk D} (s : Server D) : Prop := {
  si_globals : globals_ok (globals s);
  si_reader : reader_inv (device s);
  si_phase :
    match tx_state s with
    | TxWaiting =>
        current_client_socket s < 0 /\ query_ready_sem s = 0%nat \/
        0 <= current_client_socket s /\ query_ready_sem s = 1%nat
    | TxAnswering st => 0 <= current_client_socket s /\ query_ready_sem s = 0%nat /\ status_known st
    end;
  si_request : 0 <= current_client_socket s -> exists t q, valid_request (pending_request s) t q;
  si_body : tx_state s <> TxWaiting -> exists text, body_text (globals s) text;
}.

Definition busy_503 : Status := mkStatus 503 (lit "Service Unavailable").

Definition busy_text : list Z :=
  line (lit "STATUS=ERROR") ++ line (lit "MESSAGE=O firmware atende uma consulta por vez.").

Lemma request_body_some s r :
  nonul s -> exists b r', request_body (s ++ 0 :: r) = Some (b ++ 0 :: r') /\ nonul b.
Proof.
  intros Hn. unfold request_body. rewrite cstr_app by done.
  destruct (strstr s [13; 10; 13; 10]) as [i|] eqn:Es; [|by exists s, r].
  exists (drop (i + 4) s), r. rewrite drop_app_le; [split; [done|by apply nonul_drop]|].
  clear Hn. revert i Es. induction s as [|c s IH]; intros i; cbn [strstr]; [by cbn|].
  destruct (prefixb [13; 10; 13; 10] (c :: s)) eqn:Ep.
  - intros [= <-]. apply prefixb_length in Ep. cbn in Ep |- *. lia.
  - destruct (strstr s _) as [j|]; [|done]. intros [= <-]. specialize (IH j eq_refl). cbn. lia.
Qed.

Section Tasks.
  Context {D : Type} `{Board D}.

Lemma refuse_total fd st message s :
  status_ok st -> nonul message -> server_inv s ->
  exists body d text, send_error_response fd (st_code st) (st_text st) message
      (http_response_body (globals s)) (device s) = Some (body, d) /\
    cstr body = Some text /\
    text = take (MAX_RESPONSE_BODY_SIZE - 1) (line (lit "STATUS=ERROR") ++ line (lit "MESSAGE=" ++ message)) /\
    net_log (net_close fd d) = net_log (device s) ++ answer fd st text ++ [Closed fd] /\
    server_inv (mkServer (current_client_socket s) (pending_request s) (query_ready_sem s)
                  (set_body body (globals s)) (tx_state s) (net_close fd d)).
Proof.
  intros Hst Hm [Hg Hr Hph Hreq Hb].
  destruct (send_error_total (net_log (device s)) fd st message (globals s) (device s) Hst Hm Hg
    (conj eq_refl Hr)) as (body & d & text & E & Hg' & [Hlog Hinv] & Hc & Htext).
  exists body, d, text. split; [done|]. split; [done|]. split; [done|].
  split; [by rewrite log_close, Hlog, app_assoc|].
  constructor; cbn [globals device tx_state current_client_socket query_ready_sem pending_request]; try done.
  - by apply inv_close.
  - intros _. by exists text.
Qed.

(** A connection that comes while a request is pending or being answered. *)
Lemma rx_busy fd data s :
  server_inv s -> 0 <= current_client_socket s ->
  exists s', rx_connection fd data s = Some s' /\ server_inv s' /\
    pending_request s' = pending_request s /\
    current_client_socket s' = current_client_socket s /\ tx_state s' = tx_state s /\
    body_text (globals s') busy_text /\
    net_log (device s') = net_log (device s) ++ answer fd busy_503 busy_text ++ [Closed fd].
Proof.
  intros Hs Hbusy. unfold rx_connection, rx_handle.
  destruct (refuse_total fd busy_503 (lit "O firmware atende uma consulta por vez.") s) as
    (body & d & text & E & Hc & Ht & Hlog & Hinv); [split; cbn; lia|decide_closed|done|].
  assert (Ht' : text = busy_text) by (rewrite Ht; apply take_ge, Nat.leb_le; vm_compute; reflexivity).
  rewrite (proj2 (Z.leb_le 0 _) Hbusy). cbv beta zeta. cbn [st_code st_text busy_503] in E |- *. rewrite E.
  eexists. split; [reflexivity|]. subst text. rewrite Ht' in *. done.
Qed.

Lemma rx_idle fd data s :
  server_inv s -> current_client_socket s < 0 -> 0 <= fd ->
  exists s', rx_connection fd data s = Some s' /\ server_inv s'.
Proof.
  intros Hs Hidle Hfd. unfold rx_connection, rx_handle. rewrite (proj2 (Z.leb_gt 0 _) Hidle). cbv beta zeta.
  assert (Hlen : (length (take (QUERY_REQUEST_BUFFER_SIZE - 1) data) < 1536)%nat)
    by (rewrite length_take; unfold QUERY_REQUEST_BUFFER_SIZE; lia).
  destruct (take (QUERY_REQUEST_BUFFER_SIZE - 1) data) as [|c l] eqn:Ed.
  { eexists. split; [reflexivity|]. destruct Hs.
    constructor; cbn [globals device tx_state current_client_socket query_ready_sem pending_request]; try done.
    by apply inv_close. }
  set (pad := replicate (QUERY_REQUEST_BUFFER_SIZE - length (c :: l)) 0).
  assert (Hpad : exists z, pad = 0 :: z).
  { unfold pad. destruct (QUERY_REQUEST_BUFFER_SIZE - length (c :: l))%nat eqn:E; [|by eexists].
    unfold QUERY_REQUEST_BUFFER_SIZE in E. lia. }
  destruct Hpad as [z ->]. destruct (cstr_has_nul (c :: l) z) as (text & Ht & Hn).
  apply cstr_inv in Ht as (r & -> & _).
  destruct (request_body_some text r Hn) as (b & r' & -> & Hb).
  rewrite parse_request_body_eq by done. destruct (parse_spec b) as [rq|] eqn:Ep.
  - eexists. split; [reflexivity|]. destruct Hs as [Hg Hr Hph Hreq Hbd].
    constructor; cbn [globals device tx_state current_client_socket query_ready_sem pending_request]; try done.
    + destruct (tx_state s); [|lia]. destruct Hph as [[_ ->]|]; [by right|lia].
    + intros _. by eapply parse_spec_valid.
  - destruct (refuse_total fd bad_request_400 (lit "Corpo esperado: TABLE=...\nLIMIT=...\nSQL=...\n") s) as
      (body & d & text' & E & _ & _ & _ & Hinv); [split; cbn; lia|decide_closed|done|].
    rewrite E. eexists. split; [reflexivity|done].
Qed.

(** A connection is handled in any case. *)
Lemma rx_total fd data s : server_inv s -> 0 <= fd -> exists s', rx_connection fd data s = Some s'.
Proof.
  intros Hs Hfd. destruct (Z.lt_ge_cases (current_client_socket s) 0) as [Hc|Hc].
  - destruct (rx_idle fd data s Hs Hc Hfd) as (s1 & E1 & _). by exists s1.
  - destruct (rx_busy fd data s Hs Hc) as (s1 & E1 & _). by exists s1.
Qed.

Lemma tx_begin_inv s :
  server_inv s -> exists r, tx_begin s = Some r /\
    forall s', r = Some s' -> server_inv s' /\ pending_request s' = pending_request s /\
      current_client_socket s' = current_client_socket s /\ net_log (device s') = net_log (device s).
Proof.
  intros [Hg Hr Hph Hreq Hb]. unfold tx_begin, tx_run.
  destruct (query_ready_sem s) as [|n] eqn:En; [by exists None|].
  destruct (tx_state s) eqn:Et; [|by exists None].
  destruct Hph as [[_ ?]|[Hc [= ->]]]; [done|].
  cbn [set_sem current_client_socket pending_request query_ready_sem globals device].
  rewrite (proj2 (Z.leb_le 0 _) Hc).
  destruct (Hreq Hc) as (t & q & Hv).
  destruct (prepare_total (net_log (device s)) _ t q (globals s) (device s) Hv Hg (conj eq_refl Hr))
    as (status & g' & d' & text & -> & Hst & Hg' & Ht & [Hlog Hinv]).
  eexists. split; [reflexivity|]. intros s' [= <-].
  cbn [device pending_request current_client_socket]. split; [|done].
  constructor; cbn [globals device tx_state current_client_socket query_ready_sem pending_request]; try done.
  intros _. by exists text.
Qed.

(** What tx_finish sends is the text in the shared buffer at that moment. *)
Lemma tx_finish_spec s status text :
  server_inv s -> tx_state s = TxAnswering status -> body_text (globals s) text ->
  exists s', tx_finish s = Some (Some s') /\ server_inv s' /\ current_client_socket s' = -1 /\
    net_log (device s') = net_log (device s) ++ answer (current_client_socket s) status text ++
      [Closed (current_client_socket s)].
Proof.
  intros [Hg Hr Hph Hreq Hb] Et Htext. unfold tx_finish. rewrite Et in Hph |- *.
  destruct Hph as (Hc & Hsem & Hst).
  destruct (send_response_total (net_log (device s)) (current_client_socket s) status _ text (device s)
    (status_known_ok _ Hst) Htext (body_size _ Hg) (conj eq_refl Hr)) as (d' & -> & [Hlog Hinv]).
  unfold close_client_socket. rewrite (proj2 (Z.leb_le 0 _) Hc).
  eexists. split; [reflexivity|]. cbn [device current_client_socket].
  split; [|split; [done|by rewrite log_close, Hlog, app_assoc]].
  constructor; cbn [globals device tx_state current_client_socket query_ready_sem pending_request]; try done.
  - by apply inv_close.
  - left. split; [lia|done].
Qed.

Lemma tx_finish_inv s :
  server_inv s -> exists r, tx_finish s = Some r /\
    forall s', r = Some s' -> server_inv s' /\ current_client_socket s' = -1.
Proof.
  intros Hs. destruct (tx_state s) as [|status] eqn:Et.
  - exists None. split; [|done]. unfold tx_finish. by rewrite Et.
  - destruct (si_body _ Hs) as [text Ht]; [by rewrite Et|].
    destruct (tx_finish_spec s status text Hs Et Ht) as (s' & E & Hs' & Hc & _).
    exists (Some s'). split; [done|]. by intros ? [= <-].
Qed.

Lemma server_step_inv s s' : server_inv s -> server_step s s' -> server_inv s'.
Proof.
  intros Hs Hst. inversion Hst as [fd data ? ? Hfd E|? ? E|? ? E]; subst.
  - destruct (Z.lt_ge_cases (current_client_socket s) 0) as [Hc|Hc].
    + destruct (rx_idle fd data s Hs Hc Hfd) as (s1 & E1 & Hs1). congruence.
    + destruct (rx_busy fd data s Hs Hc) as (s1 & E1 & Hs1 & _). congruence.
  - destruct (tx_begin_inv s Hs) as (r & E1 & Hr). rewrite E in E1. injection E1 as <-. by apply Hr.
  - destruct (tx_finish_inv s Hs) as (r & E1 & Hr). rewrite E in E1. injection E1 as <-. by apply Hr.
Qed.

Lemma server_reach_inv s s' : server_inv s -> rtc server_step s s' -> server_inv s'.
Proof. intros Hs Hr. induction Hr; [done|]. apply IHHr. by eapply server_step_inv. Qed.

Lemma server_start_inv g d : globals_ok g -> reader_inv d -> server_inv (server_start g d).
Proof.
  intros Hg Hr. constructor; cbn; try done; try lia.
Qed.

(** C7.  In every reachable state of the two tasks, whatever connections come and
    whatever bytes they carry: the semaphore, the socket variable and the task
    agree (one request at most, well formed when there is one), and neither
    task's next run accesses memory out of bounds. *)
Theorem server_reachable_safe (g : Globals) (d : D) (s : Server D) :
  globals_ok g -> reader_inv d -> rtc server_step (server_start g d) s ->
  server_inv s /\
  (forall fd data, 0 <= fd -> exists s', rx_connection fd data s = Some s') /\
  (exists r, tx_begin s = Some r) /\ (exists r, tx_finish s = Some r).
Proof.
  intros Hg Hi Hreach.
  pose proof (server_reach_inv _ _ (server_start_inv g d Hg Hi) Hreach) as Hs.
  split; [done|]. split; [|split].
  - intros fd data Hfd. by apply rx_total.
  - destruct (tx_begin_inv s Hs) as (r & E & _). by exists r.
  - destruct (tx_finish_inv s Hs) as (r & E & _). by exists r.
Qed.

(** C8.  While a request is pending or being answered, no step of either task
    changes it, and its socket stays the current one until tx_task has closed it:
    the client is answered for the request it sent. *)
Theorem pending_request_stable (g : Globals) (d : D) (s s' : Server D) :
  globals_ok g -> reader_inv d -> rtc server_step (server_start g d) s ->
  0 <= current_client_socket s -> server_step s s' ->
  pending_request s' = pending_request s /\
  (current_client_socket s' = current_client_socket s \/
   current_client_socket s' = -1 /\ exists log, net_log (device s') = log ++ [Closed (current_client_socket s)]).
Proof.
  intros Hg Hi Hreach Hc Hst.
  pose proof (server_reach_inv _ _ (server_start_inv g d Hg Hi) Hreach) as Hs.
  inversion Hst as [fd data ? ? Hfd E|? ? E|? ? E]; subst.
  - destruct (rx_busy fd data s Hs Hc) as (s1 & E1 & _ & Hp & Hcc & _).
    rewrite E in E1. injection E1 as <-. auto.
  - destruct (tx_begin_inv s Hs) as (r & E1 & Hr). rewrite E in E1. injection E1 as <-.
    destruct (Hr _ eq_refl) as (_ & Hp & Hcc & _). auto.
  - destruct (tx_state s) as [|status] eqn:Et; [unfold tx_finish in E; by rewrite Et in E|].
    destruct (si_body _ Hs) as [text Ht]; [by rewrite Et|].
    destruct (tx_finish_spec s status text Hs Et Ht) as (s1 & E1 & _ & Hc1 & Hlog).
    rewrite E in E1. injection E1 as <-. split.
    + unfold tx_finish in E. rewrite Et in E. destruct (send_http_response _ _ _ _ _); [|done].
      destruct (close_client_socket _ _). by injection E as <-.
    + right. split; [done|]. rewrite app_assoc in Hlog. by eexists.
Qed.

(** C25.  The race on the response buffer: a second connection that comes after the
    answer of a query was built and before it was sent makes rx_task write its
    503 message into the same buffer, and the first client gets the status line
    [200 OK] with the body that says the firmware is busy. *)
Theorem busy_connection_corrupts_answer (s : Server D) (fd : Z) (data : list Z) :
  server_inv s -> tx_state s = TxAnswering ok_200 ->
  exists s1 s2, rx_connection fd data s = Some s1 /\ tx_finish s1 = Some (Some s2) /\
    net_log (device s2) = net_log (device s) ++ (answer fd busy_503 busy_text ++ [Closed fd]) ++
      answer (current_client_socket s) ok_200 busy_text ++ [Closed (current_client_socket s)].
Proof.
  intros Hs Et. assert (Hc : 0 <= current_client_socket s).
  { pose proof (si_phase _ Hs) as Hp. rewrite Et in Hp. apply Hp. }
  destruct (rx_busy fd data s Hs Hc) as (s1 & E1 & Hs1 & _ & Hcc & Ht & Hb & Hlog).
  rewrite Et in Ht. destruct (tx_finish_spec s1 ok_200 busy_text Hs1 Ht Hb) as (s2 & E2 & _ & _ & Hlog2).
  exists s1, s2. rewrite Hlog2, Hlog, Hcc, <- app_assoc. done.
Qed.

End Tasks.
