(* ===== verification/ServerSpec.v ===== *)
(** * ServerSpec

    From the request and the table to the bytes on the socket; and a simulated
    board on which the theorems of the server are run. *)

From stdpp Require Import relations.
From S2P Require Import Prelude CString Request RequestFacts Table TableFacts Compile CompileFacts.
From S2P Require Import Accel CompileSpec HwDriver HwFacts HwSpec Response ResponseFacts Server.
From S2P Require Import ServerFacts.

Section EndToEnd.
  Context {D : Type} `{Board D}.

Lemma capture_limit_rows rq sch (rows : list Z) :
  row_width sch = 4 -> row_count sch = Z.of_nat (length rows) -> 0 <= limit rq < 256 ->
  Z.of_nat (length rows) < 2 ^ 28 ->
  capture_limit rq sch = (4 * (if (0 <? limit rq)%Z then Nat.min (Z.to_nat (limit rq)) (length rows)
                               else Nat.min 256 (length rows)))%nat.
Proof.
  intros Hw Hr Hl Hb. unfold capture_limit. rewrite Hw, Hr.
  change (Z.of_nat QUERY_CAPTURE_BUFFER_SIZE) with 1024.
  change QUERY_CAPTURE_BUFFER_SIZE with 1024%nat.
  destruct (Z.ltb_spec 0 (limit rq)).
  - rewrite u32_small, s32_small by word_lia.
    rewrite (proj2 (Z.ltb_ge _ _)) by lia. lia.
  - rewrite Z.min_id, u32_small, s32_small by word_lia. destruct (Z.ltb_spec 1024 (Z.of_nat (length rows) * 4)); lia.
Qed.

Lemma selected_length P lim rows : (length (selected P lim rows) <= length rows)%nat.
Proof.
  unfold selected. pose proof (List.filter_length_le P rows).
  destruct lim; [rewrite length_take; lia|done].
Qed.

(** What is captured and then shown is the selected rows, at most 256 of them. *)
Lemma shown_selected rq P rows m :
  0 <= limit rq < 256 ->
  m = (if 0 <? limit rq then Nat.min (Z.to_nat (limit rq)) (length rows) else Nat.min 256 (length rows)) ->
  shown rq (take m (selected P (query_limit rq) rows)) = take 256 (selected P (query_limit rq) rows).
Proof.
  intros Hl ->. pose proof (selected_length P (query_limit rq) rows) as Hs. unfold shown.
  destruct (Z.ltb_spec 0 (limit rq)) as [Hp|Hz].
  - assert (Hlen : (length (selected P (query_limit rq) rows) <= Z.to_nat (limit rq))%nat).
    { unfold query_limit, selected. rewrite (proj2 (Z.ltb_lt _ _) Hp), length_take. lia. }
    rewrite take_take, !take_ge by lia. done.
  - destruct (Nat.le_ge_cases 256 (length rows)).
    + by rewrite Nat.min_l.
    + rewrite Nat.min_r, !take_ge by lia. done.
Qed.

Lemma query_prepared (rq : QueryRequest) (t q names : list Z) (cs : list Cond)
    (sch : TableSchema) (src : StreamSource) (rows file : list Z) (g : Globals) (d d1 : D) :
  valid_request rq t q -> query_of rq sch names cs -> select_text q = lit "*" ->
  globals_ok g -> reader_inv d ->
  load_table_from_sd (table rq) (sd_file_buffer g) d =
    Some (Some (sch, src, 4 * Z.of_nat (length rows)), file, d1) ->
  row_count sch = Z.of_nat (length rows) -> rows <> [] -> Z.of_nat (length rows) < 2 ^ 28 ->
  Forall is_u32 rows -> source_rows rows 0 src ->
  (length (sc_held (scan (satisfies cs) (query_limit rq) rows)) <= 128)%nat ->
  exists g' d', prepare_response rq g d = Some (ok_200, g', d') /\
    body_text g' (success_text (lit "board-sdcard") t q ((fun n => [n]) <$> names)
      (Z.of_nat (length rows)) (take 256 (selected (satisfies cs) (query_limit rq) rows))) /\
    length (http_response_body g') = MAX_RESPONSE_BODY_SIZE /\ quiet (net_log d) d'.
Proof.
  intros Hv Hq Hsel Hg Hi Hload Hrc Hne Hmax Hu Hs Hh.
  pose proof (ns_schema _ _ (qo_schema _ _ _ _ Hq)) as Hsch.
  pose proof (load_log _ _ _ _ _ _ Hload) as Hlog1.
  pose proof (vr_t _ _ _ Hv) as [Htn Htl].
  destruct (load_table_from_sd_spec t (sd_file_buffer g) d (vr_ident _ _ _ Hv) Htl (go_file _ Hg)
    (go_bytes _ Hg) Hi) as (res & file' & d1' & E & Hi1 & Hfl & _ & Hres).
  rewrite <- (vr_table _ _ _ Hv), Hload in E. injection E as <- <- <-.
  destruct (Hres _ _ _ eq_refl) as (_ & Hsrc & _ & Hsz).
  unfold prepare_response.
  cbn [http_response_body captured_output_buffer sd_file_buffer]. rewrite Hload.
  assert (Hstar : compile_select rq sch src = Some ([], None)).
  { apply compile_star. rewrite (vr_select _ _ _ Hv), Hsel. done. }
  destruct (query_configured rq sch src names cs [] d1 Hq Hstar) as (d2 & Ec & Hc).
  rewrite Ec.
  assert (Hmem : memory src = Some (drop TABLE_HEADER_BYTES file)) by (by rewrite Hsrc).
  rewrite Hmem.
  rewrite (preview_total (lit "SRC row0:") _ sch _ (so_width _ Hsch))
    by (rewrite length_drop; change TABLE_HEADER_BYTES with 28%nat; lia).
  rewrite (capture_limit_rows rq sch rows (so_width _ Hsch) Hrc (qo_limit _ _ _ _ Hq) Hmax).
  set (m := if 0 <? limit rq then _ else _).
  assert (Hm : (4 * m <= length (replicate QUERY_CAPTURE_BUFFER_SIZE 0%Z))%nat).
  { rewrite length_replicate. change QUERY_CAPTURE_BUFFER_SIZE with 1024%nat.
    pose proof (qo_limit _ _ _ _ Hq). unfold m. destruct (0 <? limit rq); lia. }
  destruct (query_feed rq sch names cs _ m rows src _ d2 Hq eq_refl Hc Hu Hs Hm Hh) as
    (src' & c & d3 & Ef & [Hsize Hbuf _] & Hcl & _).
  unfold run_feed. cbn [captured_output_buffer].
  rewrite (proj2 (Z.ltb_lt _ _)) by (destruct rows; [done|cbn [length]; lia]).
  cbn [hw_send_all foldl] in *. rewrite Ef. change (1 <? 0) with false. change (1 =? 0) with false. cbv iota.
  set (sel := selected (satisfies cs) (query_limit rq) rows) in *.
  rewrite (preview_total (lit "OUT row0:") _ sch _ (so_width _ Hsch))
    by (rewrite Hsize, Hcl, length_take in *; lia).
  assert (Hcap : cap_buf c = concat (le32_bytes <$> take m sel) ++ drop (cap_size c) (cap_buf c))
    by (by rewrite <- Hbuf, take_drop).
  rewrite Hcap, Hsize. set (tail := drop _ _).
  pose proof (qo_schema _ _ _ _ Hq) as [_ Hcc _ Hcols]. pose proof (so_count _ Hsch) as Hc4.
  assert (Hnames : names_of sch (((fun n => [n]) <$> names) ++ replicate (4 - length names) [])).
  { split; [exact Hcols|]. apply Forall_app. split; [|apply Forall_replicate; split; [constructor|cbn; lia]].
    apply Forall_fmap. eapply Forall_impl; [apply (qo_schema _ _ _ _ Hq)|].
    intros n Hn%where_name_nonzero. split; [apply nonul_cons; split; [lia|constructor]|cbn; lia]. }
  destruct (build_rows rq t q sch _ (take m sel) tail (http_response_body g) d3 Hv Hsch Hnames) as
    (body & -> & Hbl & Hbody).
  - rewrite length_app, length_fmap, length_replicate. lia.
  - rewrite Hsel. split; reflexivity.
  - pose proof (qo_limit _ _ _ _ Hq). rewrite length_take. unfold m. destruct (0 <? limit rq); lia.
  - apply Hg.
  - assert (Hq2 : quiet (net_log d) d2).
    { apply (stable_compile (quiet (net_log d)) (quiet_write _) _ _ _ _ _ _ Ec), quiet_write. done. }
    assert (Hq3 : quiet (net_log d) d3) by (refine
      (stable_feed (quiet (net_log d)) (quiet_write _) (quiet_read _) (quiet_delay _) _ _ _ _ _ _ _ _ _ _
         Ef Hq2)).
    rewrite Hrc, Hcc, Nat2Z.id, take_app_length' in Hbody by (symmetry; apply length_fmap).
    pose proof (shown_selected rq (satisfies cs) rows m (qo_limit _ _ _ _ Hq) eq_refl) as Hsh.
    fold sel in Hsh. rewrite Hsh in Hbody.
    eexists _, d3. split; [reflexivity|]. unfold body_text. cbn [set_body http_response_body]. done.
Qed.

(** C1.  The whole path of a query: for a table of the card with the given column
    names and rows, a request [SELECT *] whose WHERE clause is written from
    conditions on its columns and whose LIMIT fits one byte is answered [200 OK]
    with exactly the rows of the table that satisfy the conditions, in order, up
    to the limit (256 at most) - unless more than 128 rows follow the row that
    reaches the limit. *)
Theorem query_answered (fd : Z) (rq : QueryRequest) (t q names : list Z) (cs : list Cond)
    (sch : TableSchema) (src : StreamSource) (rows file : list Z) (g : Globals) (d d1 : D) :
  valid_request rq t q -> query_of rq sch names cs -> select_text q = lit "*" ->
  globals_ok g -> reader_inv d ->
  load_table_from_sd (table rq) (sd_file_buffer g) d =
    Some (Some (sch, src, 4 * Z.of_nat (length rows)), file, d1) ->
  row_count sch = Z.of_nat (length rows) -> rows <> [] -> Z.of_nat (length rows) < 2 ^ 28 ->
  Forall is_u32 rows -> source_rows rows 0 src ->
  (length (sc_held (scan (satisfies cs) (query_limit rq) rows)) <= 128)%nat ->
  exists g' d', process_request fd rq g d = Some (g', d') /\
    net_log d' = net_log d ++ answer fd ok_200
      (success_text (lit "board-sdcard") t q ((fun n => [n]) <$> names) (Z.of_nat (length rows))
         (take 256 (selected (satisfies cs) (query_limit rq) rows))).
Proof.
  intros Hv Hq Hsel Hg Hi Hload Hrc Hne Hmax Hu Hs Hh.
  destruct (query_prepared rq t q names cs sch src rows file g d d1 Hv Hq Hsel Hg Hi Hload Hrc Hne Hmax
    Hu Hs Hh) as (g' & d' & E & Ht & Hl & Hquiet). unfold process_request. rewrite E.
  destruct (send_response_total (net_log d) fd ok_200 _ _ d' (status_known_ok _ (or_introl eq_refl))
    Ht) as (d4 & E4 & [Hlog4 _]); [rewrite Hl; unfold MAX_RESPONSE_BODY_SIZE; lia|done|].
  rewrite E4. exists g', d4. done.
Qed.

End EndToEnd.

(** ** A simulated board *)

(** An accelerator, a card with one file, and the log of the connections. *)
Record Sim := mkSim { sim_hw : Accel; sim_file : list Z; sim_log : list NetEvent }.

#[export] Instance sim_bus : Bus Sim := {|
  IOWR_32DIRECT base off v s :=
    mkSim (IOWR_32DIRECT base off v (sim_hw s)) (sim_file s) (sim_log s);
  IORD_32DIRECT base off s := (fst (IORD_32DIRECT base off (sim_hw s)), s);
  OSTimeDlyHMSM _ _ _ _ s := s;
|}.

#[export] Instance sim_user_hw : UserHw Sim := {|
  hw_view := sim_hw;
  hw_write_law off v d := eq_refl;
  hw_read_law off d := eq_refl;
  hw_read_view off d := eq_refl;
  hw_delay_view h m s ms d := eq_refl;
|}.

#[export] Instance sim_reader : FileReader Sim := fun name buf size s =>
  let? (n, buf, _) := one_file_reader name buf size (sim_file s) in Some (n, buf, s).

#[export] Instance sim_reader_ok : FileReaderOk Sim.
Proof.
  refine {| reader_inv s := bytes (sim_file s) |}. intros name buf s Hs _ Hb.
  eexists _, _, s. split; [reflexivity|]. cbv zeta.
  split; [lia|]. rewrite length_app, length_take, length_drop. split; [lia|].
  split; [|done]. apply bytes_app. auto with words.
Defined.

#[export] Instance sim_net : Net Sim := {|
  net_send fd data s := mkSim (sim_hw s) (sim_file s) (sim_log s ++ [Sent fd data]);
  net_close fd s := mkSim (sim_hw s) (sim_file s) (sim_log s ++ [Closed fd]);
|}.

#[export] Instance sim_board : Board Sim.
Proof.
  refine {| net_log := sim_log |}; try done.
  intros name buf size d n buf' d' E. unfold read_file, sim_reader, one_file_reader in E. congruence.
Defined.

Definition sim_start : Sim :=
  mkSim (accel_reset (mkAccel 0 0 [] None 0 [] [] 0 0 false 0 0 false)) demo_table [].

Definition globals_start : Globals :=
  mkGlobals (replicate MAX_RESPONSE_BODY_SIZE 0) (replicate QUERY_CAPTURE_BUFFER_SIZE 0)
    (replicate (Z.to_nat SD_FILE_MAX_SIZE) 0).

Lemma globals_start_ok : globals_ok globals_start.
Proof.
  constructor; try apply length_replicate. apply Forall_replicate. word_lia.
Qed.

Lemma sim_start_inv : reader_inv sim_start.
Proof. change (bytes demo_table). decide_closed. Qed.

Definition star_sql : list Z := lit "SELECT * FROM t WHERE i >= '2' AND c = 'C'".

Definition star_request : QueryRequest :=
  mkRequest (zbuf 256 star_sql) (zbuf 32 (lit "t")) (zbuf 256 (lit "*"))
    (zbuf 256 (lit "i >= '2' AND c = 'C'")) 10.

Lemma star_valid : valid_request star_request (lit "t") star_sql.
Proof.
  constructor; try (vm_compute; reflexivity).
  - split; [decide_closed|cbn; lia].
  - split; [decide_closed|cbn; lia].
  - cbn. word_lia.
Qed.

Definition loaded_file : list Z := demo_table ++ drop (length demo_table) (sd_file_buffer globals_start).

Definition loaded_source : StreamSource := mkSource (Some (drop TABLE_HEADER_BYTES loaded_file)) 12 0.

Lemma loaded_rows : source_rows demo_rows 0 loaded_source.
Proof.
  constructor; try done. eexists. split; [reflexivity|]. intros j w Hj.
  assert (Hl : (12 <= length (drop TABLE_HEADER_BYTES loaded_file))%nat).
  { unfold loaded_file. rewrite length_drop, length_app. change (length demo_table) with 40%nat.
    change TABLE_HEADER_BYTES with 28%nat. lia. }
  pose proof (lookup_lt_Some _ _ _ Hj) as Hlt. cbn in Hlt. split; [|lia].
  unfold loaded_file. generalize (drop (length demo_table) (sd_file_buffer globals_start)). intros r.
  destruct j as [|[|[|j]]]; [..|lia]; injection Hj as <-; vm_compute; reflexivity.
Qed.

Lemma sim_read name buf :
  (length demo_table <= length buf)%nat ->
  read_file name buf SD_FILE_MAX_SIZE sim_start =
  Some (40, demo_table ++ drop (length demo_table) buf, sim_start).
Proof.
  intros Hl. unfold read_file, sim_reader, one_file_reader. cbn [sim_file sim_start].
  rewrite Nat.min_l by done. by rewrite take_ge.
Qed.

Lemma sim_load buf :
  (length demo_table <= length buf)%nat ->
  let file := demo_table ++ drop (length demo_table) buf in
  load_table_from_sd (table star_request) buf sim_start =
  Some (Some (demo_schema, mkSource (Some (drop TABLE_HEADER_BYTES file)) 12 0, 12), file, sim_start).
Proof.
  intros Hl. cbv zeta. unfold load_table_from_sd.
  replace (cstr (table star_request)) with (Some (lit "t")) by reflexivity.
  replace (sanitize_identifier (table star_request)) with (Some true) by reflexivity. cbn [negb].
  destruct (table_file_name (lit "t")) as [[fname written]|] eqn:E; [|done].
  replace written with 5%nat by (vm_compute in E; congruence).
  change ((5 =? 0)%nat || (QUERY_TABLE_MAX_LEN + 8 <=? 5)%nat) with false. cbv iota.
  rewrite sim_read by done. generalize (drop (length demo_table) buf). intros r.
  vm_compute. reflexivity.
Qed.

Lemma star_query_of : query_of star_request demo_schema demo_names demo_conds.
Proof.
  constructor; [exact demo_named|unfold cond_ok; decide_closed|cbn; lia|
    apply Nat.ltb_lt; vm_compute; reflexivity|vm_compute; reflexivity|cbn; lia].
Qed.

Lemma star_load :
  load_table_from_sd (table star_request) (sd_file_buffer globals_start) sim_start =
  Some (Some (demo_schema, loaded_source, 12), loaded_file, sim_start).
Proof.
  apply sim_load. cbn [sd_file_buffer globals_start]. rewrite length_replicate.
  apply Nat2Z.inj_le. unfold SD_FILE_MAX_SIZE. rewrite Z2Nat.id by lia. vm_compute. discriminate.
Qed.

Lemma query_answered_witness :
  exists g' d', process_request 5 star_request globals_start sim_start = Some (g', d') /\
    net_log d' = answer 5 ok_200
      (lit "STATUS=OK" ++ [10] ++ lit "MODE=board-sdcard" ++ [10] ++ lit "TABLE=t" ++ [10] ++
       lit "SQL=SELECT * FROM t WHERE i >= '2' AND c = 'C'" ++ [10] ++ lit "SCANNED_ROWS=3" ++ [10] ++
       lit "RETURNED_ROWS=1" ++ [10] ++ lit "COLUMNS=i,n,c" ++ [10] ++ lit "ROW=3|C|C" ++ [10]).
Proof.
  refine (query_answered 5 star_request (lit "t") star_sql demo_names demo_conds demo_schema loaded_source
    demo_rows loaded_file globals_start sim_start sim_start star_valid star_query_of eq_refl
    globals_start_ok sim_start_inv star_load eq_refl _ _ _ loaded_rows _).
  - discriminate.
  - vm_compute. reflexivity.
  - decide_closed.
  - apply Nat.leb_le. vm_compute. reflexivity.
Defined.

(** ** Runs of the server *)

Definition star_http : list Z :=
  lit "POST / HTTP/1.1" ++ [13; 10; 13; 10] ++ lit "TABLE=t" ++ [10] ++ lit "LIMIT=10" ++ [10] ++
  lit "SQL=" ++ star_sql ++ [10].

(** After the connection, with the request handed over. *)
Definition star_pending : Server Sim := mkServer 5 star_request 1 globals_start TxWaiting sim_start.

Lemma star_accepted : rx_connection 5 star_http (server_start globals_start sim_start) = Some star_pending.
Proof. unfold star_pending. generalize globals_start. intros g. vm_compute. reflexivity. Qed.

Lemma star_pending_reach : rtc server_step (server_start globals_start sim_start) star_pending.
Proof. eapply rtc_once, step_rx; [|exact star_accepted]. lia. Qed.

Lemma star_answering : exists s,
  rtc server_step (server_start globals_start sim_start) s /\ tx_state s = TxAnswering ok_200 /\
  current_client_socket s = 5.
Proof.
  destruct (query_prepared star_request (lit "t") star_sql demo_names demo_conds demo_schema
    loaded_source demo_rows loaded_file globals_start sim_start sim_start star_valid star_query_of
    eq_refl globals_start_ok sim_start_inv star_load eq_refl) as (g' & d' & E & _).
  - discriminate.
  - vm_compute. reflexivity.
  - decide_closed.
  - exact loaded_rows.
  - apply Nat.leb_le. vm_compute. reflexivity.
  - exists (mkServer 5 star_request 0 g' (TxAnswering ok_200) d'). split; [|split; reflexivity].
    refine (rtc_r _ _ _ star_pending_reach (step_tx_begin star_pending _ _)).
    unfold tx_begin, tx_run, set_sem, star_pending.
    cbn [query_ready_sem tx_state current_client_socket pending_request globals device].
    change (0 <=? 5) with true. cbv iota. by rewrite E.
Qed.

Lemma server_reachable_safe_witness :
  server_inv star_pending /\
  (forall fd data, 0 <= fd -> exists s', rx_connection fd data star_pending = Some s') /\
  (exists r, tx_begin star_pending = Some r) /\ (exists r, tx_finish star_pending = Some r).
Proof.
  exact (server_reachable_safe globals_start sim_start star_pending globals_start_ok sim_start_inv
    star_pending_reach).
Defined.

Lemma pending_request_stable_witness : exists s',
  server_step star_pending s' /\ pending_request s' = star_request /\
  (current_client_socket s' = 5 \/ current_client_socket s' = -1 /\
    exists log, net_log (device s') = log ++ [Closed 5]).
Proof.
  pose proof (server_reach_inv _ _ (server_start_inv _ _ globals_start_ok sim_start_inv)
    star_pending_reach) as Hs.
  assert (Hc : 0 <= current_client_socket star_pending) by (cbn; lia).
  destruct (rx_busy 6 [] star_pending Hs Hc) as (s' & E & _).
  assert (Hstep : server_step star_pending s') by (apply (step_rx 6 [] star_pending s'); [lia|exact E]).
  exists s'. split; [exact Hstep|].
  exact (pending_request_stable globals_start sim_start star_pending s' globals_start_ok sim_start_inv
    star_pending_reach Hc Hstep).
Defined.

(** The race happens on a run of the server: the client of socket 5 asked a valid
    query, and reads [200 OK] with the busy message. *)
Lemma busy_connection_corrupts_answer_witness : exists s s1 s2,
  rtc server_step (server_start globals_start sim_start) s /\
  rx_connection 6 [] s = Some s1 /\ tx_finish s1 = Some (Some s2) /\
  net_log (device s2) = net_log (device s) ++ (answer 6 busy_503 busy_text ++ [Closed 6]) ++
    answer (current_client_socket s) ok_200 busy_text ++ [Closed (current_client_socket s)].
Proof.
  destruct star_answering as (s & Hr & Ht & Hc).
  pose proof (server_reach_inv _ _ (server_start_inv _ _ globals_start_ok sim_start_inv) Hr) as Hs.
  destruct (busy_connection_corrupts_answer s 6 [] Hs Ht) as (s1 & s2 & E1 & E2 & Hlog).
  exists s, s1, s2. auto.
Defined.
