(* ===== verification/SpiSd.v ===== *)
(** * SpiSd

    The SPI part of sd_driver.c: the bit-banged byte transfer, the commands of the
    card, its initialisation, and the reading of a sector. *)

From S2P Require Import Prelude HwDriver.

Definition SD_CLK_BASE : Z := 0x1a82060.
Definition SD_CMD_BASE : Z := 0x1a82070.
Definition SD_DAT_BASE : Z := 0x1a82080.
Definition LED_RED_BASE : Z := 0x1a820c0.
Definition PIO_DATA : Z := 0.
Definition PIO_DIR : Z := 4.
Definition SD_CS_BIT : Z := Z.shiftl 1 17.
Definition SD_CMD0 : Z := 0.
Definition SD_CMD8 : Z := 8.
Definition SD_CMD16 : Z := 16.
Definition SD_CMD17 : Z := 17.
Definition SD_CMD55 : Z := 55.
Definition SD_CMD58 : Z := 58.
Definition SD_ACMD41 : Z := 41.
Definition SD_R1_IDLE : Z := 0x01.
Definition SD_R1_ILLEGAL : Z := 0x04.
Definition SD_TOKEN_START : Z := 0xFE.
Definition SD_SECTOR_SIZE : nat := Z.to_nat 512.
Definition SDCARD_V1 : Z := 1.
Definition SDCARD_V2 : Z := 2.
Definition SDCARD_V2HC : Z := 3.

Section Spi.
  Context {D : Type} `{Bus D}.

(** ** Lines *)

Definition spi_clk (high : Z) (d : D) : D :=
  IOWR_32DIRECT SD_CLK_BASE PIO_DATA (if high =? 0 then 0 else 1) d.

Definition spi_mosi (bit : Z) (d : D) : D :=
  let d := IOWR_32DIRECT SD_CMD_BASE PIO_DIR 1 d in
  IOWR_32DIRECT SD_CMD_BASE PIO_DATA (if bit =? 0 then 0 else 1) d.

Definition spi_miso (d : D) : Z * D :=
  let d := IOWR_32DIRECT SD_DAT_BASE PIO_DIR 0 d in
  let '(v, d) := IORD_32DIRECT SD_DAT_BASE PIO_DATA d in
  (Z.land v 1, d).

Definition spi_cs_assert (d : D) : D :=
  let '(v, d) := IORD_32DIRECT LED_RED_BASE PIO_DATA d in
  IOWR_32DIRECT LED_RED_BASE PIO_DATA (Z.land v (u32 (Z.lnot SD_CS_BIT))) d.

Definition spi_cs_deassert (d : D) : D :=
  let '(v, d) := IORD_32DIRECT LED_RED_BASE PIO_DATA d in
  IOWR_32DIRECT LED_RED_BASE PIO_DATA (Z.lor v SD_CS_BIT) d.

(** ** Bytes *)

(** The bits [n - 1] down to 0 of [out]. *)
Fixpoint xfer_loop (n : nat) (out inp : Z) (d : D) : Z * D :=
  match n with
  | O => (inp, d)
  | S i =>
      let d := spi_mosi (Z.land (Z.shiftr out (Z.of_nat i)) 1) d in
      let d := spi_clk 1 d in
      let '(b, d) := spi_miso d in
      let inp := u8 (Z.lor (Z.shiftl inp 1) b) in
      let d := spi_clk 0 d in
      xfer_loop i out inp d
  end.

Definition spi_xfer (out : Z) (d : D) : Z * D := xfer_loop 8 out 0 d.

Fixpoint spi_dummy (count : nat) (d : D) : D :=
  match count with
  | O => d
  | S n => spi_dummy n (snd (spi_xfer 0xFF d))
  end.

(** ** Commands *)

(** The loop that waits for a response whose top bit is clear. *)
Fixpoint r1_loop (retry : nat) (d : D) : Z * D :=
  match retry with
  | O => (0xFF, d)
  | S n =>
      let '(r1, d) := spi_xfer 0xFF d in
      if Z.land r1 0x80 =? 0 then (r1, d) else r1_loop n d
  end.

Definition sd_cmd (cmd arg crc7 : Z) (d : D) : Z * D :=
  let d := snd (spi_xfer (u8 (Z.lor 0x40 cmd)) d) in
  let d := snd (spi_xfer (u8 (Z.shiftr arg 24)) d) in
  let d := snd (spi_xfer (u8 (Z.shiftr arg 16)) d) in
  let d := snd (spi_xfer (u8 (Z.shiftr arg 8)) d) in
  let d := snd (spi_xfer (u8 arg) d) in
  let d := snd (spi_xfer crc7 d) in
  r1_loop 8 d.

Fixpoint sd_wait_ready (max_retries : nat) (d : D) : Z * D :=
  match max_retries with
  | O => (0, d)
  | S n =>
      let '(b, d) := spi_xfer 0xFF d in
      if negb (b =? 0x00) then (1, d) else sd_wait_ready n d
  end.

Fixpoint sd_wait_token (max_retries : nat) (d : D) : Z * D :=
  match max_retries with
  | O => (0, d)
  | S n =>
      let '(b, d) := spi_xfer 0xFF d in
      if b =? SD_TOKEN_START then (1, d)
      else if Z.land b 0xF0 =? 0 then (0, d)
      else sd_wait_token n d
  end.

(** [n] bytes read with 0xFF on the other line. *)
Fixpoint read_bytes (n : nat) (d : D) : list Z * D :=
  match n with
  | O => ([], d)
  | S n =>
      let '(b, d) := spi_xfer 0xFF d in
      let '(bs, d) := read_bytes n d in
      (b :: bs, d)
  end.

(** The last dummy byte and the release of the card. *)
Definition spi_end (d : D) : D := spi_cs_deassert (spi_dummy 1 d).
Definition spi_begin (d : D) : D := spi_dummy 1 (spi_cs_assert d).

Definition sector_address (g_card_type sector : Z) : Z :=
  if g_card_type =? SDCARD_V2HC then sector else u32 (sector * Z.of_nat SD_SECTOR_SIZE).

(** The result, [buf] (an array of a sector) and the device. *)
Definition sd_read_sector (g_card_type sector : Z) (buf : list Z) (d : D) : Z * list Z * D :=
  let d := spi_begin d in
  let '(r1, d) := sd_cmd SD_CMD17 (sector_address g_card_type sector) 0xFF d in
  if negb (r1 =? 0x00) then (0, buf, spi_end d) else
  let '(token, d) := sd_wait_token (Z.to_nat 2000) d in
  if token =? 0 then (0, buf, spi_end d) else
  let '(data, d) := read_bytes SD_SECTOR_SIZE d in
  let d := snd (spi_xfer 0xFF d) in
  let d := snd (spi_xfer 0xFF d) in
  (1, data, spi_end d).

(** ** Initialisation *)

(** A command between the two ends. *)
Definition framed_cmd (cmd arg crc7 : Z) (d : D) : Z * D :=
  let '(r1, d) := sd_cmd cmd arg crc7 (spi_begin d) in (r1, spi_end d).

(** CMD55 and ACMD41 until the card leaves the idle state; [r1] is the last
    response. *)
Fixpoint acmd41_loop (retry : nat) (arg : Z) (r1 : Z) (d : D) : Z * D :=
  match retry with
  | O => (r1, d)
  | S n =>
      let '(_, d) := framed_cmd SD_CMD55 0 0xFF d in
      let '(r1, d) := framed_cmd SD_ACMD41 arg 0xFF d in
      if r1 =? 0x00 then (r1, d) else acmd41_loop n arg r1 d
  end.

(** [ocr[k]] after the four bytes were read. *)
Definition ocr_byte (ocr : list Z) (k : nat) : Z := nth k ocr 0.

(** The rest for a card of version 2, the card still selected. *)
Definition sd_init_v2 (r1 : Z) (d : D) : Z * Z * D :=
  let '(ocr, d) := read_bytes 4 d in
  let d := spi_end d in
  if negb (Z.land (ocr_byte ocr 3) 0xAA =? 0xAA) then (0, 0, d) else
  let '(r1, d) := acmd41_loop (Z.to_nat 2000) 0x40000000 r1 d in
  if negb (r1 =? 0x00) then (0, 0, d) else
  let '(_, d) := sd_cmd SD_CMD58 0 0xFF (spi_begin d) in
  let '(ocr, d) := read_bytes 4 d in
  let d := spi_end d in
  (1, if negb (Z.land (ocr_byte ocr 0) 0x40 =? 0) then SDCARD_V2HC else SDCARD_V2, d).

Definition sd_init_v1 (r1 : Z) (d : D) : Z * Z * D :=
  let d := spi_end d in
  let '(r1, d) := acmd41_loop (Z.to_nat 2000) 0 r1 d in
  if negb (r1 =? 0x00) then (0, 0, d) else
  let '(_, d) := framed_cmd SD_CMD16 (Z.of_nat SD_SECTOR_SIZE) 0xFF d in
  (1, SDCARD_V1, d).

(** The result, [g_card_type] and the device. *)
Definition sd_init (d : D) : Z * Z * D :=
  let d := spi_clk 0 d in
  let d := spi_cs_deassert d in
  let d := spi_dummy 10 d in
  let '(r1, d) := framed_cmd SD_CMD0 0 0x95 d in
  if negb (r1 =? SD_R1_IDLE) then (0, 0, d) else
  let '(r1, d) := sd_cmd SD_CMD8 0x1AA 0x87 (spi_begin d) in
  if Z.land r1 SD_R1_ILLEGAL =? 0 then sd_init_v2 r1 d else sd_init_v1 r1 d.

End Spi.
