(* ===== verification/SpiFacts.v ===== *)
(** * SpiFacts

    The bit-banged transfer exchanges bytes with an SPI slave, and reading a
    sector is one command exchange with the card. *)

From S2P Require Import Prelude HwDriver SpiSd.

(** ** An SPI slave, bit by bit *)

Section Slave.
  (** What the card does with a received byte: the byte it sends next, and its state. *)
  Context {C : Type}.
  Variable react : Z -> C -> Z * C.

Record Slave := mkSlave {
  sl_sel : bool;        (* chip select *)
  sl_clk : bool;
  sl_mosi : Z;          (* level of the data line *)
  sl_bits : nat;        (* bits exchanged of the current byte *)
  sl_in : Z;            (* bits received *)
  sl_out : Z;           (* byte being sent *)
  sl_card : C;
}.

(** The level it drives: high when not selected. *)
Definition slave_miso (s : Slave) : Z :=
  if sl_sel s then Z.b2z (Z.testbit (sl_out s) (7 - Z.of_nat (sl_bits s))) else 1.

(** A rising edge samples, a falling edge moves to the next bit. *)
Definition slave_clk (v : Z) (s : Slave) : Slave :=
  let high := negb (v =? 0) in
  if sl_sel s then
    if high && negb (sl_clk s) then
      mkSlave true true (sl_mosi s) (sl_bits s) (2 * sl_in s + sl_mosi s) (sl_out s) (sl_card s)
    else if negb high && sl_clk s then
      if (sl_bits s =? 7)%nat then
        let '(out, c) := react (sl_in s) (sl_card s) in
        mkSlave true false (sl_mosi s) 0 0 out c
      else mkSlave true false (sl_mosi s) (S (sl_bits s)) (sl_in s) (sl_out s) (sl_card s)
    else s
  else mkSlave false high (sl_mosi s) (sl_bits s) (sl_in s) (sl_out s) (sl_card s).

Definition slave_mosi (v : Z) (s : Slave) : Slave :=
  mkSlave (sl_sel s) (sl_clk s) v (sl_bits s) (sl_in s) (sl_out s) (sl_card s).

(** The select line is bit 17 of the red LEDs, active low; a change starts a byte. *)
Definition slave_cs (v : Z) (s : Slave) : Slave :=
  mkSlave (negb (Z.testbit v 17)) (sl_clk s) (sl_mosi s) 0 0 (sl_out s) (sl_card s).

(** The slave on the bus of a device. *)
Class SpiDevice (D : Type) `{Bus D} := {
  spi_view : D -> Slave;
  led_view : D -> Z;
  spi_clk_law : forall v d, spi_view (IOWR_32DIRECT SD_CLK_BASE PIO_DATA v d) = slave_clk v (spi_view d);
  spi_mosi_law : forall v d, spi_view (IOWR_32DIRECT SD_CMD_BASE PIO_DATA v d) = slave_mosi v (spi_view d);
  spi_cmd_dir : forall v d, spi_view (IOWR_32DIRECT SD_CMD_BASE PIO_DIR v d) = spi_view d;
  spi_dat_dir : forall v d, spi_view (IOWR_32DIRECT SD_DAT_BASE PIO_DIR v d) = spi_view d;
  spi_led_law : forall v d, spi_view (IOWR_32DIRECT LED_RED_BASE PIO_DATA v d) = slave_cs v (spi_view d);
  spi_led_read : forall d, fst (IORD_32DIRECT LED_RED_BASE PIO_DATA d) = led_view d;
  spi_led_quiet : forall d, spi_view (snd (IORD_32DIRECT LED_RED_BASE PIO_DATA d)) = spi_view d;
  spi_read : forall d, Z.land (fst (IORD_32DIRECT SD_DAT_BASE PIO_DATA d)) 1 = slave_miso (spi_view d);
  spi_read_quiet : forall d, spi_view (snd (IORD_32DIRECT SD_DAT_BASE PIO_DATA d)) = spi_view d;
}.

(** ** The slave, byte by byte *)

(** Between two bytes, with the clock low. *)
Definition at_byte (s : Slave) : Prop :=
  sl_clk s = false /\ sl_bits s = 0%nat /\ sl_in s = 0 /\ is_u8 (sl_out s).

(** The exchange of a byte, seen from the master. *)
Definition byte_xfer (out : Z) (s : Slave) : Z * (bool * Z * C) :=
  if sl_sel s then
    let '(o, c) := react out (sl_card s) in (sl_out s, (true, o, c))
  else (0xFF, (false, sl_out s, sl_card s)).

Section Xfer.
  Context {D : Type} `{SpiDevice D}.
  Hypothesis react_u8 : forall b c, is_u8 (fst (react b c)).

Lemma miso_eq d : exists d', spi_miso d = (slave_miso (spi_view d), d') /\ spi_view d' = spi_view d.
Proof.
  unfold spi_miso. set (d1 := IOWR_32DIRECT SD_DAT_BASE PIO_DIR 0 d).
  pose proof (spi_read d1) as Hr. pose proof (spi_read_quiet d1) as Hq.
  destruct (IORD_32DIRECT SD_DAT_BASE PIO_DATA d1) as [v d2]. cbn [fst snd] in Hr, Hq.
  rewrite Hr. exists d2. rewrite Hq. unfold d1. by rewrite spi_dat_dir.
Qed.

Lemma mosi_view b d :
  spi_view (spi_mosi b d) = slave_mosi (if b =? 0 then 0 else 1) (spi_view d).
Proof. unfold spi_mosi. by rewrite spi_mosi_law, spi_cmd_dir. Qed.

Lemma land1_testbit a i : 0 <= i -> Z.land (Z.shiftr a i) 1 = Z.b2z (Z.testbit a i).
Proof.
  intros Hi. change 1 with (Z.ones 1) at 1. rewrite Z.land_ones by lia. change (2 ^ 1) with 2.
  rewrite <- Z.bit0_mod, Z.shiftr_spec by lia. by rewrite Z.add_0_l.
Qed.

Lemma shiftr_step a i : 0 <= i -> Z.shiftr a i = 2 * Z.shiftr a (i + 1) + Z.b2z (Z.testbit a i).
Proof.
  intros Hi. rewrite <- (Z.shiftr_shiftr a i 1), <- (Z.div2_spec (Z.shiftr a i)) by lia.
  rewrite (Z.div2_odd (Z.shiftr a i)) at 1. f_equal. rewrite <- Z.bit0_odd, Z.shiftr_spec by lia.
  by rewrite Z.add_0_l.
Qed.

Lemma shl_or_bit a b : 0 <= b < 2 -> Z.lor (Z.shiftl a 1) b = 2 * a + b.
Proof. intros Hb. rewrite Z.lor_comm, lor_shiftl_add by lia. lia. Qed.

Lemma b2z_eqb b : (if Z.b2z b =? 0 then 0 else 1) = Z.b2z b.
Proof. by destruct b. Qed.

Lemma xfer_loop_S n out inp (d : D) :
  xfer_loop (S n) out inp d =
  (let d1 := spi_clk 1 (spi_mosi (Z.land (Z.shiftr out (Z.of_nat n)) 1) d) in
   let '(b, d2) := spi_miso d1 in
   xfer_loop n out (u8 (Z.lor (Z.shiftl inp 1) b)) (spi_clk 0 d2)).
Proof. reflexivity. Qed.

(** The loop, from the bit [n - 1] on. *)
Lemma xfer_loop_selected out : forall i d,
  let s := spi_view d in
  sl_sel s = true -> sl_clk s = false -> (i < 8)%nat -> sl_bits s = (7 - i)%nat ->
  sl_in s = Z.shiftr out (Z.of_nat i + 1) -> is_u8 (sl_out s) -> 
  exists d' m, xfer_loop (S i) out (Z.shiftr (sl_out s) (Z.of_nat i + 1)) d = (sl_out s, d') /\
    spi_view d' = mkSlave true false m 0 0 (fst (react out (sl_card s))) (snd (react out (sl_card s))).
Proof.
  induction i as [|i IH]; intros d s Hsel Hclk Hi Hbits Hin Hout;
    rewrite xfer_loop_S; cbv zeta.
  all: set (b := Z.land (Z.shiftr out _) 1).
  all: assert (Hs1 : spi_view (spi_clk 1 (spi_mosi b d)) = 
      mkSlave true true (if b =? 0 then 0 else 1) (sl_bits s) (2 * sl_in s + (if b =? 0 then 0 else 1))
        (sl_out s) (sl_card s)) by
    (unfold spi_clk; rewrite spi_clk_law, mosi_view; unfold slave_clk, slave_mosi;
     cbn [sl_sel sl_clk sl_mosi sl_bits sl_in sl_out sl_card]; fold s; rewrite Hsel, Hclk; done).
  all: destruct (miso_eq (spi_clk 1 (spi_mosi b d))) as (d1 & -> & Hd1); rewrite Hs1 in Hd1 |- *.
  all: unfold slave_miso; cbn [sl_sel sl_out sl_bits]; rewrite Hbits.
  all: assert (Hd2 : spi_view (spi_clk 0 d1) = slave_clk 0 (spi_view d1)) by apply spi_clk_law.
  all: rewrite Hd1 in Hd2; unfold slave_clk in Hd2;
       cbn [sl_sel sl_clk sl_mosi sl_bits sl_in sl_out sl_card] in Hd2; rewrite Hbits in Hd2.
  - cbn in Hd2. destruct (react _ _) as [o c] eqn:Er in Hd2.
    exists (spi_clk 0 d1), (if b =? 0 then 0 else 1). split.
    + cbn [xfer_loop]. f_equal. rewrite shl_or_bit by (destruct (Z.testbit _ _); cbn; lia).
      change (7 - Z.of_nat (7 - 0)) with 0. change (Z.of_nat 0) with 0. rewrite <- (shiftr_step (sl_out s) 0) by lia.
      rewrite Z.shiftr_0_r. by apply u8_small.
    + rewrite Hd2. replace (2 * sl_in s + (if b =? 0 then 0 else 1)) with out in Er.
      * by rewrite Er.
      * rewrite Hin. unfold b. change (Z.of_nat 0) with 0. rewrite land1_testbit, b2z_eqb by lia.
        rewrite <- (shiftr_step out 0) by lia. by rewrite Z.shiftr_0_r.
  - rewrite (proj2 (Nat.eqb_neq (7 - S i) 7)) in Hd2 by lia. change (0 =? 0) with true in Hd2. cbn [negb andb] in Hd2.
    destruct (IH (spi_clk 0 d1)) as (d' & m & E & Hv); rewrite ?Hd2; cbn [sl_sel sl_clk sl_mosi sl_bits sl_in sl_out sl_card]; try done; try lia.
    + rewrite Hin. unfold b. rewrite land1_testbit, b2z_eqb by lia.
      replace (Z.of_nat i + 1) with (Z.of_nat (S i)) by lia. symmetry. apply shiftr_step. lia.
    + exists d', m. rewrite Hd2 in E, Hv. cbn [sl_out sl_card] in E, Hv. split; [|done].
      rewrite <- E. f_equal. rewrite shl_or_bit by (destruct (Z.testbit _ _); cbn; lia).
      replace (7 - Z.of_nat (7 - S i)) with (Z.of_nat (S i)) by lia.
      rewrite <- shiftr_step by lia. replace (Z.of_nat i + 1) with (Z.of_nat (S i)) by lia.
      apply u8_small. unfold is_u8 in *. rewrite Z.shiftr_div_pow2 by lia.
      split; [apply Z.div_pos; lia|]. apply Z.div_lt_upper_bound; [lia|].
      pose proof (Z.pow_pos_nonneg 2 (Z.of_nat (S i)) ltac:(lia) ltac:(lia)). nia.
Qed.
Lemma xfer_selected out d :
  at_byte (spi_view d) -> sl_sel (spi_view d) = true -> is_u8 out ->
  exists d', spi_xfer out d = (sl_out (spi_view d), d') /\ at_byte (spi_view d') /\
    sl_sel (spi_view d') = true /\
    (sl_out (spi_view d'), sl_card (spi_view d')) = react out (sl_card (spi_view d)).
Proof.
  intros (Hclk & Hbits & Hin & Hout) Hsel Ho. unfold spi_xfer.
  assert (Hz : forall a, is_u8 a -> Z.shiftr a (Z.of_nat 7 + 1) = 0).
  { intros a Ha. rewrite Z.shiftr_div_pow2 by lia. apply Z.div_small. exact Ha. }
  destruct (xfer_loop_selected out 7 d Hsel Hclk ltac:(lia)) as (d' & m & E & Hv).
  - by rewrite Hbits.
  - by rewrite Hz, Hin.
  - done.
  - rewrite Hz in E by done. exists d'. rewrite Hv.
    cbn [at_byte sl_clk sl_bits sl_in sl_out sl_card sl_sel].
    split; [exact E|]. split; [repeat split; apply react_u8|]. split; [done|].
    by destruct (react out _).
Qed.

(** C29.  The bit-banged transfer is a byte exchange: eight clock pulses send [out]
    to a selected slave, most significant bit first, return the byte it was
    sending, and leave the lines between two bytes. *)
Theorem spi_xfer_exchanges (out : Z) (d : D) :
  at_byte (spi_view d) -> sl_sel (spi_view d) = true -> is_u8 out ->
  exists d', spi_xfer out d = (sl_out (spi_view d), d') /\ at_byte (spi_view d') /\
    sl_sel (spi_view d') = true /\
    (sl_out (spi_view d'), sl_card (spi_view d')) = react out (sl_card (spi_view d)).
Proof. apply xfer_selected. Qed.

End Xfer.
End Slave.

Arguments Slave : clear implicits.
Arguments spi_view {_ _ _ _ _} _.
Arguments led_view {_ _ _ _ _} _.

(** ** A card that follows a script *)

(** The bytes it has yet to send, and those it has received. *)
Definition script_react (b : Z) (c : list Z * list Z) : Z * (list Z * list Z) :=
  match c.1 with
  | [] => (0xFF, ([], c.2 ++ [b]))
  | x :: xs => (u8 x, (xs, c.2 ++ [b]))
  end.

Lemma script_react_u8 b c : is_u8 (script_react b c).1.
Proof. unfold script_react. destruct c.1; [cbn; word_lia|apply u8_range]. Qed.

Section Script.
  Context {D : Type} `{SpiDevice (list Z * list Z) script_react D}.

(** The slave is selected, sends [l] from the next byte on, and has received [log]. *)
Definition streams (l log : list Z) (d : D) : Prop :=
  at_byte (spi_view d) /\ sl_sel (spi_view d) = true /\
  sl_out (spi_view d) :: (sl_card (spi_view d)).1 = l /\ (sl_card (spi_view d)).2 = log.

Lemma xfer_stream b x y l log d :
  streams (x :: y :: l) log d -> is_u8 b -> is_u8 y ->
  exists d', spi_xfer b d = (x, d') /\ streams (y :: l) (log ++ [b]) d'.
Proof.
  intros (Hat & Hsel & Hl & Hlog) Hb Hy. injection Hl as Hx Hrest.
  destruct (xfer_selected script_react script_react_u8 b d Hat Hsel Hb) as (d' & E & Hat' & Hsel' & Hc).
  exists d'. split; [by rewrite <- Hx|].
  assert (Hr : forall c, c.1 = y :: l -> c.2 = log -> script_react b c = (y, (l, log ++ [b]))).
  { intros [s r] Hs1 Hr1. cbn in Hs1, Hr1. subst. unfold script_react. cbn. by rewrite u8_small. }
  rewrite (Hr _ Hrest Hlog) in Hc. injection Hc as Ho Hcard. unfold streams. by rewrite Ho, Hcard.
Qed.

(** Several exchanges with a card that goes on sending. *)
Lemma read_bytes_stream bs : forall l log d, l <> [] -> bytes (bs ++ l) ->
  streams (bs ++ l) log d ->
  exists d', read_bytes (length bs) d = (bs, d') /\ streams l (log ++ replicate (length bs) 0xFF) d'.
Proof.
  induction bs as [|b bs IH]; intros l log d Hne Hb Hs; cbn [length read_bytes].
  - exists d. cbn in *. by rewrite app_nil_r.
  - destruct (bs ++ l) as [|y r] eqn:E; [by destruct bs, l|].
    cbn [app] in Hs, Hb. rewrite E in Hs, Hb.
    assert (Hy : is_u8 y) by (apply Forall_cons in Hb as [_ Hb]; by apply Forall_cons in Hb as [? _]).
    destruct (xfer_stream 0xFF b y r log d Hs ltac:(word_lia) Hy) as (d1 & -> & Hs1).
    rewrite <- E in Hs1. destruct (IH l (log ++ [0xFF]) d1 Hne) as (d2 & -> & Hs2); [|done|].
    + rewrite E. by apply Forall_cons in Hb as [_ ?].
    + exists d2. split; [done|]. rewrite <- app_assoc in Hs2. exact Hs2.
Qed.

Lemma send_stream b x l log d :
  l <> [] -> bytes l -> streams (x :: l) log d -> is_u8 b ->
  exists d', spi_xfer b d = (x, d') /\ streams l (log ++ [b]) d'.
Proof.
  intros Hne Hl Hs Hb. destruct l as [|y l]; [done|]. apply xfer_stream; [done|done|].
  by apply Forall_cons in Hl as [? _].
Qed.

Lemma r1_stream r : forall n ws l log d,
  (length ws < n)%nat -> Forall (fun b => 128 <= b < 256) ws -> 0 <= r < 128 ->
  l <> [] -> bytes l -> streams (ws ++ r :: l) log d ->
  exists d', r1_loop n d = (r, d') /\ streams l (log ++ replicate (S (length ws)) 0xFF) d'.
Proof.
  induction n as [|n IH]; intros ws l log d Hn Hw Hr Hne Hl Hs; [lia|].
  assert (Hbit : forall b, 0 <= b < 256 -> Z.land b 0x80 = if b <? 128 then 0 else 128).
  { intros b Hb. assert (G : forallb (fun b => Z.land b 0x80 =? (if b <? 128 then 0 else 128))
      (Z.of_nat <$> seq 0 256) = true) by (vm_compute; reflexivity).
    rewrite forallb_forall in G. apply Z.eqb_eq, G, list_elem_of_In, list_elem_of_fmap.
    exists (Z.to_nat b). split; [lia|]. apply elem_of_seq. lia. }
  cbn [r1_loop]. destruct ws as [|w ws].
  - destruct (send_stream 0xFF r l log d Hne Hl Hs ltac:(word_lia)) as (d1 & -> & Hs1).
    rewrite Hbit by lia. rewrite (proj2 (Z.ltb_lt r 128)) by lia. by exists d1.
  - apply Forall_cons in Hw as [Hw1 Hw]. cbn [app length] in *.
    destruct (send_stream 0xFF w (ws ++ r :: l) log d) as (d1 & -> & Hs1);
      [by destruct ws| |done|word_lia|].
    { apply Forall_app. split; [eapply Forall_impl; [exact Hw|]; cbn; word_lia|].
      constructor; [word_lia|done]. }
    rewrite Hbit by lia. rewrite (proj2 (Z.ltb_ge w 128)) by lia. change (128 =? 0) with false. cbv iota.
    destruct (IH ws l (log ++ [0xFF]) d1) as (d2 & -> & Hs2); [lia|done..|].
    exists d2. split; [done|]. rewrite <- app_assoc in Hs2. exact Hs2.
Qed.

Lemma token_stream : forall n ws l log d,
  (length ws < n)%nat -> Forall (fun b => 16 <= b < 256 /\ b <> 254) ws ->
  l <> [] -> bytes l -> streams (ws ++ 0xFE :: l) log d ->
  exists d', sd_wait_token n d = (1, d') /\ streams l (log ++ replicate (S (length ws)) 0xFF) d'.
Proof.
  induction n as [|n IH]; intros ws l log d Hn Hw Hne Hl Hs; [lia|].
  assert (Hbit : forall b, 16 <= b < 256 -> (Z.land b 0xF0 =? 0) = false).
  { intros b Hb. assert (G : forallb (fun b => (b <? 16) || negb (Z.land b 0xF0 =? 0))
      (Z.of_nat <$> seq 0 256) = true) by (vm_compute; reflexivity).
    rewrite forallb_forall in G. specialize (G b). rewrite (proj2 (Z.ltb_ge b 16)) in G by lia.
    apply negb_true_iff, G, list_elem_of_In, list_elem_of_fmap.
    exists (Z.to_nat b). split; [lia|]. apply elem_of_seq. lia. }
  cbn [sd_wait_token]. destruct ws as [|w ws].
  - destruct (send_stream 0xFF 0xFE l log d Hne Hl Hs ltac:(word_lia)) as (d1 & -> & Hs1).
    by exists d1.
  - apply Forall_cons in Hw as [Hw1 Hw]. cbn [app length] in *.
    destruct (send_stream 0xFF w (ws ++ 0xFE :: l) log d) as (d1 & -> & Hs1);
      [by destruct ws| |done|word_lia|].
    { apply Forall_app. split; [eapply Forall_impl; [exact Hw|]; cbn; word_lia|].
      constructor; [word_lia|done]. }
    rewrite (proj2 (Z.eqb_neq w SD_TOKEN_START)) by (unfold SD_TOKEN_START; lia).
    rewrite Hbit by lia.
    destruct (IH ws l (log ++ [0xFF]) d1) as (d2 & -> & Hs2); [lia|done..|].
    exists d2. split; [done|]. rewrite <- app_assoc in Hs2. exact Hs2.
Qed.

(** Selecting the slave starts a byte. *)
Lemma begin_stream x l d :
  sl_clk (spi_view d) = false -> sl_out (spi_view d) :: (sl_card (spi_view d)).1 = x :: l ->
  is_u8 x -> l <> [] -> bytes l ->
  exists d', spi_begin d = d' /\ streams l ((sl_card (spi_view d)).2 ++ [0xFF]) d'.
Proof.
  intros Hclk Hl Hx Hne Hb. unfold spi_begin, spi_cs_assert.
  pose proof (spi_led_quiet script_react d) as Hq.
  destruct (IORD_32DIRECT LED_RED_BASE PIO_DATA d) as [v d1]. cbn [snd] in Hq.
  set (d2 := IOWR_32DIRECT LED_RED_BASE PIO_DATA _ d1).
  assert (Hs : streams (x :: l) ((sl_card (spi_view d)).2) d2).
  { unfold streams, d2. rewrite spi_led_law, Hq. unfold slave_cs, at_byte.
    cbn [sl_clk sl_bits sl_in sl_out sl_sel sl_card]. injection Hl as Ho Hr.
    split; [by rewrite Hclk, Ho|]. split; [|by rewrite Ho, Hr].
    rewrite Z.land_spec. change (Z.testbit (u32 (Z.lnot SD_CS_BIT)) 17) with false.
    by rewrite andb_false_r. }
  cbn [spi_dummy].
  destruct (send_stream 0xFF x l _ d2 Hne Hb Hs ltac:(word_lia)) as (d3 & -> & Hs3). by exists d3.
Qed.

(** The frame of a command: six bytes. *)
Definition command_frame (cmd arg crc7 : Z) : list Z :=
  [u8 (Z.lor 0x40 cmd); u8 (Z.shiftr arg 24); u8 (Z.shiftr arg 16); u8 (Z.shiftr arg 8); u8 arg; crc7].

Lemma sd_cmd_stream cmd arg crc7 pre ws r l log d :
  length pre = 6%nat -> bytes pre -> is_u8 crc7 ->
  (length ws < 8)%nat -> Forall (fun b => 128 <= b < 256) ws -> 0 <= r < 128 ->
  l <> [] -> bytes l -> streams (pre ++ ws ++ r :: l) log d ->
  exists d', sd_cmd cmd arg crc7 d = (r, d') /\
    streams l (log ++ command_frame cmd arg crc7 ++ replicate (S (length ws)) 0xFF) d'.
Proof.
  intros Hp Hpb Hcrc Hn Hw Hr Hne Hl Hs.
  assert (Hwl : bytes (ws ++ r :: l)).
  { apply Forall_app. split; [eapply Forall_impl; [exact Hw|]; cbn; word_lia|].
    constructor; [word_lia|done]. }
  assert (Hwn : ws ++ r :: l <> []) by (by destruct ws).
  destruct pre as [|p0 [|p1 [|p2 [|p3 [|p4 [|p5 [|? ?]]]]]]]; try done.
  unfold bytes in Hpb. rewrite !Forall_cons in Hpb. destruct Hpb as (H0b & H1b & H2b & H3b & H4b & H5b & _).
  cbn [app] in Hs. unfold sd_cmd.
  destruct (xfer_stream (u8 (Z.lor 0x40 cmd)) p0 _ _ log d Hs (u8_range _) H1b) as (d1 & -> & Hs1).
  cbn [snd]. destruct (xfer_stream (u8 (Z.shiftr arg 24)) p1 _ _ _ d1 Hs1 (u8_range _) H2b) as (d2 & -> & Hs2).
  cbn [snd]. destruct (xfer_stream (u8 (Z.shiftr arg 16)) p2 _ _ _ d2 Hs2 (u8_range _) H3b) as (d3 & -> & Hs3).
  cbn [snd]. destruct (xfer_stream (u8 (Z.shiftr arg 8)) p3 _ _ _ d3 Hs3 (u8_range _) H4b) as (d4 & -> & Hs4).
  cbn [snd]. destruct (xfer_stream (u8 arg) p4 _ _ _ d4 Hs4 (u8_range _) H5b) as (d5 & -> & Hs5).
  cbn [snd]. destruct (send_stream crc7 p5 _ _ d5 Hwn Hwl Hs5 Hcrc) as (d6 & -> & Hs6).
  cbn [snd]. destruct (r1_stream r 8 ws l _ d6 Hn Hw Hr Hne Hl Hs6) as (d7 & -> & Hs7).
  exists d7. split; [done|]. rewrite <- !app_assoc in Hs7. exact Hs7.
Qed.

(** C30.  Reading a sector is the exchange the SD specification prescribes: the driver
    sends CMD17 with the sector number (high-capacity cards) or its byte address,
    waits for a response of at most eight bytes and for the data token within
    2000, and stores the 512 bytes that follow it; everything else it sends is
    the idle byte. *)
Theorem sd_read_sector_exchange (g_card_type sector : Z) (buf pre ws ts data tail : list Z) (d : D) :
  sl_clk (spi_view d) = false ->
  sl_out (spi_view d) :: (sl_card (spi_view d)).1 = pre ++ ws ++ 0 :: ts ++ 0xFE :: data ++ tail ->
  bytes (pre ++ ws ++ 0 :: ts ++ 0xFE :: data ++ tail) ->
  length pre = 7%nat -> (length ws < 8)%nat -> Forall (fun b => 128 <= b) ws ->
  (Z.of_nat (length ts) < 2000) -> Forall (fun b => 16 <= b < 256 /\ b <> 254) ts ->
  length data = SD_SECTOR_SIZE -> (4 <= length tail)%nat ->
  exists d', sd_read_sector g_card_type sector buf d = (1, data, d') /\
    (sl_card (spi_view d')).2 = (sl_card (spi_view d)).2 ++ 0xFF ::
      command_frame SD_CMD17 (sector_address g_card_type sector) 0xFF ++
      replicate (length ws + length ts + 517) 0xFF.
Proof.
  intros Hclk Hout Hb Hpl Hwl Hw Htl Ht Hdl Htail.
  destruct pre as [|p0 pre]; [done|]. cbn [app length] in *. injection Hpl as Hpl.
  apply Forall_cons in Hb as [Hp0 Hb].
  pose proof Hb as Hb1. apply Forall_app in Hb1 as [Hpb Hb1]. pose proof Hb1 as Hb2.
  apply Forall_app in Hb2 as [Hwb Hb2]. apply Forall_cons in Hb2 as [_ Hb2].
  pose proof Hb2 as Hb3. apply Forall_app in Hb3 as [_ Hb3]. apply Forall_cons in Hb3 as [_ Hb3].
  pose proof Hb3 as Hb4. apply Forall_app in Hb4 as [Hdb Htb].
  assert (Hw' : Forall (fun b => 128 <= b < 256) ws).
  { apply Forall_forall. intros b Hin. rewrite Forall_forall in Hw, Hwb. split; [by apply Hw|].
    destruct (Hwb b Hin). lia. }
  unfold sd_read_sector.
  destruct (begin_stream p0 _ d Hclk Hout Hp0) as (d1 & -> & Hs1); [by destruct pre|done|].
  destruct (sd_cmd_stream SD_CMD17 (sector_address g_card_type sector) 0xFF pre ws 0
    (ts ++ 0xFE :: data ++ tail) ((sl_card (spi_view d)).2 ++ [0xFF]) d1 Hpl Hpb ltac:(word_lia) Hwl Hw' ltac:(lia)) as (d2 & -> & Hs2);
    [by destruct ts|done|done|].
  change (negb (0 =? 0)) with false. cbv iota.
  assert (Htne : data ++ tail <> []) by (by destruct data, tail).
  destruct (token_stream (Z.to_nat 2000) ts (data ++ tail) _ d2 ltac:(lia) Ht Htne Hb3 Hs2) as (d3 & -> & Hs3).
  change (1 =? 0) with false. cbv iota.
  destruct tail as [|t0 [|t1 [|t2 [|t3 tail]]]]; cbn [length] in Htail; try lia.
  rewrite <- Hdl. destruct (read_bytes_stream data (t0 :: t1 :: t2 :: t3 :: tail) _ d3 ltac:(done) Hb3 Hs3) as (d4 & -> & Hs4).
  unfold bytes in Htb. rewrite !Forall_cons in Htb. destruct Htb as (_ & Ht1 & Ht2 & Ht3 & _).
  destruct (xfer_stream 0xFF t0 _ _ _ d4 Hs4 ltac:(word_lia) Ht1) as (d5 & -> & Hs5). cbn [snd].
  destruct (xfer_stream 0xFF t1 _ _ _ d5 Hs5 ltac:(word_lia) Ht2) as (d6 & -> & Hs6). cbn [snd].
  destruct (xfer_stream 0xFF t2 _ _ _ d6 Hs6 ltac:(word_lia) Ht3) as (d7 & E7 & (_ & _ & _ & Hlog)).
  exists (spi_end d6). split; [done|]. unfold spi_end. cbn [spi_dummy]. rewrite E7. cbn [snd].
  unfold spi_cs_deassert. pose proof (spi_led_quiet script_react d7) as Hq.
  destruct (IORD_32DIRECT LED_RED_BASE PIO_DATA d7) as [v d8]. cbn [snd] in Hq.
  rewrite spi_led_law, Hq. cbn [slave_cs sl_card]. rewrite Hlog, Hdl.
  rewrite <- !app_assoc. f_equal. cbn [app]. f_equal. f_equal.
  change [255; 255; 255] with (replicate 3 255). rewrite <- !replicate_add. f_equal.
  unfold SD_SECTOR_SIZE. lia.
Qed.

End Script.

(** ** No card *)

Section Absent.
  Context {D : Type} `{Bus D}.
  (** The line is pulled up: every byte read is 0xFF. *)
  Hypothesis pulled_up : forall b (d : D), fst (spi_xfer b d) = 0xFF.

Lemma r1_absent n d : fst (r1_loop n d) = 0xFF.
Proof.
  revert d. induction n as [|n IH]; intros d; [done|]. cbn [r1_loop].
  pose proof (pulled_up 0xFF d) as Hp. destruct (spi_xfer 0xFF d) as [r d1]. cbn in Hp. subst r.
  apply IH.
Qed.

(** Without a card in the slot the driver reports it: initialisation and sector
    reads return 0, and the buffer is left as it was. *)
Theorem sd_absent_card (g_card_type sector : Z) (buf : list Z) (d : D) :
  fst (fst (sd_init d)) = 0 /\
  fst (fst (sd_read_sector g_card_type sector buf d)) = 0 /\
  snd (fst (sd_read_sector g_card_type sector buf d)) = buf.
Proof.
  assert (Hcmd : forall cmd arg crc d, fst (sd_cmd cmd arg crc d) = 0xFF).
  { intros. unfold sd_cmd. apply r1_absent. }
  unfold sd_init, sd_read_sector, framed_cmd. split.
  - set (d1 := spi_begin _). pose proof (Hcmd SD_CMD0 0 0x95 d1) as E.
    destruct (sd_cmd SD_CMD0 0 0x95 d1) as [r d2]. cbn in E. by subst r.
  - set (d1 := spi_begin _). set (a := sector_address _ _).
    pose proof (Hcmd SD_CMD17 a 0xFF d1) as E. destruct (sd_cmd SD_CMD17 a 0xFF d1) as [r d2].
    cbn in E. by subst r.
Qed.

End Absent.

(** ** A simulated card *)

Record SpiSim := mkSpiSim { ss_slave : Slave (list Z * list Z); ss_led : Z }.

#[export] Instance spi_sim_bus : Bus SpiSim := {|
  IOWR_32DIRECT base off v s :=
    if base =? LED_RED_BASE then
      (if off =? PIO_DATA then mkSpiSim (slave_cs v (ss_slave s)) v else s)
    else if (base =? SD_CLK_BASE) && (off =? PIO_DATA)
    then mkSpiSim (slave_clk script_react v (ss_slave s)) (ss_led s)
    else if (base =? SD_CMD_BASE) && (off =? PIO_DATA)
    then mkSpiSim (slave_mosi v (ss_slave s)) (ss_led s)
    else s;
  IORD_32DIRECT base off s :=
    (if base =? LED_RED_BASE then ss_led s
     else if base =? SD_DAT_BASE then slave_miso (ss_slave s) else 0, s);
  OSTimeDlyHMSM _ _ _ _ s := s;
|}.

#[export] Instance spi_sim_device : SpiDevice script_react SpiSim.
Proof.
  refine {| spi_view := ss_slave; led_view := ss_led |}; try done.
  intros d. cbn. unfold slave_miso. destruct (sl_sel _); [|done]. by destruct (Z.testbit _ _).
Defined.

(** A card that sends [l], its line high until then. *)
Definition card_sending (l : list Z) : SpiSim :=
  mkSpiSim (mkSlave false false 1 0 0 0xFF (l, [])) (2 ^ 17).

Definition demo_sector : list Z := replicate SD_SECTOR_SIZE 0x5A.

Lemma sd_read_sector_exchange_witness :
  exists d', sd_read_sector SDCARD_V2 3 []
      (card_sending (replicate 6 0xFF ++ [0xFF] ++ 0 :: [0xFF; 0xFF] ++ 0xFE :: demo_sector ++
        [1; 2; 0xFF; 0xFF])) = (1, demo_sector, d') /\
    (sl_card (spi_view d')).2 = 0xFF :: command_frame 17 1536 0xFF ++ replicate 520 0xFF.
Proof.
  exact (sd_read_sector_exchange SDCARD_V2 3 [] (replicate 7 0xFF) [0xFF] [0xFF; 0xFF] demo_sector
    [1; 2; 0xFF; 0xFF] (card_sending (replicate 6 0xFF ++ [0xFF] ++ 0 :: [0xFF; 0xFF] ++ 0xFE ::
      demo_sector ++ [1; 2; 0xFF; 0xFF])) eq_refl eq_refl ltac:(decide_closed) eq_refl ltac:(cbn; lia)
    ltac:(decide_closed) ltac:(cbn; lia) ltac:(decide_closed) eq_refl ltac:(cbn; lia)).
Defined.

Lemma spi_xfer_exchanges_witness :
  let d := mkSpiSim (mkSlave true false 0 0 0 0xA5 ([0x3C], [])) 0 in
  exists d', spi_xfer 0x51 d = (0xA5, d') /\ at_byte (spi_view d') /\
    sl_sel (spi_view d') = true /\ (sl_out (spi_view d'), sl_card (spi_view d')) = (0x3C, ([], [0x51])).
Proof.
  exact (spi_xfer_exchanges script_react script_react_u8 0x51
    (mkSpiSim (mkSlave true false 0 0 0 0xA5 ([0x3C], [])) 0)
    ltac:(repeat split; cbn; word_lia) eq_refl ltac:(word_lia)).
Defined.

(** A device with nothing on the data line. *)
Definition empty_slot : Bus unit := {|
  IOWR_32DIRECT _ _ _ d := d;
  IORD_32DIRECT _ _ d := (1, d);
  OSTimeDlyHMSM _ _ _ _ d := d;
|}.

Lemma sd_absent_card_witness :
  fst (fst (@sd_init unit empty_slot tt)) = 0 /\
  fst (fst (@sd_read_sector unit empty_slot SDCARD_V2 7 [1; 2] tt)) = 0 /\
  snd (fst (@sd_read_sector unit empty_slot SDCARD_V2 7 [1; 2] tt)) = [1; 2].
Proof.
  exact (@sd_absent_card unit empty_slot (fun b d => eq_refl) SDCARD_V2 7 [1; 2] tt).
Defined.

(** Initialisation of a high-capacity card: the responses to CMD0, CMD8, ACMD41 (one
    retry) and CMD58. *)
Definition hc_script : list Z :=
  let cmd r := replicate 7 0xFF ++ [r; 0xFF] in
  cmd 1 ++ replicate 7 0xFF ++ [1; 0; 0; 1; 0xAA; 0xFF] ++
  cmd 1 ++ cmd 1 ++ cmd 1 ++ cmd 0 ++ replicate 7 0xFF ++ [0; 0xC0; 0xFF; 0x80; 0; 0xFF; 0xFF].

Example sd_init_high_capacity : fst (sd_init (card_sending hc_script)) = (1, SDCARD_V2HC).
Proof. vm_compute. reflexivity. Qed.
