(* ===== verification/Fat.v ===== *)
(** * Fat

    The FAT16/FAT32 reader of sd_driver.c: boot sector, directories, cluster
    chains, and sd_read_file. *)

From S2P Require Import Prelude CString HwDriver SpiSd.

(** What the reader needs of the card: [read_sector s buf d] is the result, the
    buffer and the device after [sd_read_sector(s, buf)]. *)
Class Sectors (D : Type) := read_sector : Z -> list Z -> D -> Z * list Z * D.

(** The driver: the card type, which is global, goes with the device. *)
#[export] Instance spi_sectors {D} `{Bus D} : Sectors (Z * D) := fun s buf d =>
  let '(r, buf, d') := sd_read_sector d.1 s buf d.2 in (r, buf, (d.1, d')).

(** ** Little-endian fields *)

Definition ru16 (p : list Z) : option Z :=
  let? b0 := (p !! 0%nat : option Z) in
  let? b1 := (p !! 1%nat : option Z) in
  Some (u16 (Z.lor b0 (Z.shiftl b1 8))).

Definition ru32 (p : list Z) : option Z :=
  let? b0 := (p !! 0%nat : option Z) in
  let? b1 := (p !! 1%nat : option Z) in
  let? b2 := (p !! 2%nat : option Z) in
  let? b3 := (p !! 3%nat : option Z) in
  Some (u32 (Z.lor (Z.lor (Z.lor b0 (Z.shiftl b1 8)) (Z.shiftl b2 16)) (Z.shiftl b3 24))).

(** ** Boot sector *)

Record FatBPB := mkBPB {
  bytes_per_sector : Z;
  sectors_per_cluster : Z;
  reserved_sectors : Z;
  num_fats : Z;
  root_entry_count : Z;
  sectors_per_fat : Z;
  root_cluster : Z;
  is_fat32 : bool;
  fat_start : Z;
  root_dir_sector : Z;
  root_dir_sectors : Z;
  data_start : Z;
}.

(** The two bytes at the end of a boot sector. *)
Definition boot_signature (sec : list Z) : option bool :=
  let? b510 := (sec !! 510%nat : option Z) in
  let? b511 := (sec !! 511%nat : option Z) in
  Some ((b510 =? 0x55) && (b511 =? 0xAA)).

Definition fat_find_vbr (g_sec_buf : list Z) : option Z :=
  let? b0 := (g_sec_buf !! 0%nat : option Z) in
  if (b0 =? 0xEB) || (b0 =? 0xE9) then Some 0 else
  let? mbr := boot_signature g_sec_buf in
  if mbr then ru32 (drop (446 + 8) g_sec_buf) else Some 0.

(** [Some None] is the result 0. *)
Definition fat_parse_bpb (s : list Z) (vbr_sector : Z) : option (option FatBPB) :=
  let? sig := boot_signature s in
  if negb sig then Some None else
  let? bps := ru16 (drop 11 s) in
  let? spc := (s !! 13%nat : option Z) in
  let? reserved := ru16 (drop 14 s) in
  let? nfats := (s !! 16%nat : option Z) in
  let? rec := ru16 (drop 17 s) in
  let? fat16_size := ru16 (drop 22 s) in
  let? fat32_size := ru32 (drop 36 s) in
  let? rootc := ru32 (drop 44 s) in
  if negb (bps =? Z.of_nat SD_SECTOR_SIZE) then Some None else
  if spc =? 0 then Some None else
  if nfats =? 0 then Some None else
  let spf := if negb (fat16_size =? 0) then fat16_size else fat32_size in
  let start := u32 (vbr_sector + reserved) in
  let root_secs := u32 (u32 (rec * 32) + Z.of_nat SD_SECTOR_SIZE - 1) / Z.of_nat SD_SECTOR_SIZE in
  let root_sec := u32 (start + u32 (nfats * spf)) in
  Some (Some (mkBPB bps spc reserved nfats rec spf rootc (rec =? 0) start root_sec root_secs
                (u32 (root_sec + root_secs)))).

(** ** Clusters *)

Definition fat_clus2sec (b : FatBPB) (clus : Z) : Z :=
  u32 (data_start b + u32 (u32 (clus - 2) * sectors_per_cluster b)).

Definition fat_is_eoc (b : FatBPB) (clus : Z) : bool :=
  if is_fat32 b then 0x0FFFFFF8 <=? clus else 0xFFF8 <=? clus.

Definition fat_clus_valid (b : FatBPB) (c : Z) : bool := (2 <=? c) && negb (fat_is_eoc b c).

Section Next.
  Context {D : Type} `{Sectors D}.

(** Both return the next cluster, [g_sec_buf] and the device. *)
Definition fat16_next (b : FatBPB) (clus : Z) (g_sec_buf : list Z) (d : D)
  : option (Z * list Z * D) :=
  let off := u32 (clus * 2) in
  let sec := u32 (fat_start b + off / Z.of_nat SD_SECTOR_SIZE) in
  let idx := off mod Z.of_nat SD_SECTOR_SIZE in
  let '(r, g_sec_buf, d) := read_sector sec g_sec_buf d in
  if r =? 0 then Some (0xFFFF, g_sec_buf, d) else
  let? next := ru16 (drop (Z.to_nat idx) g_sec_buf) in
  Some (next, g_sec_buf, d).

Definition fat32_next (b : FatBPB) (clus : Z) (g_sec_buf : list Z) (d : D)
  : option (Z * list Z * D) :=
  let off := u32 (clus * 4) in
  let sec := u32 (fat_start b + off / Z.of_nat SD_SECTOR_SIZE) in
  let idx := off mod Z.of_nat SD_SECTOR_SIZE in
  let '(r, g_sec_buf, d) := read_sector sec g_sec_buf d in
  if r =? 0 then Some (0x0FFFFFF8, g_sec_buf, d) else
  let? next := ru32 (drop (Z.to_nat idx) g_sec_buf) in
  Some (Z.land next 0x0FFFFFFF, g_sec_buf, d).

Definition fat_next_cluster (b : FatBPB) (clus : Z) (g_sec_buf : list Z) (d : D)
  : option (Z * list Z * D) :=
  if is_fat32 b then fat32_next b clus g_sec_buf d else fat16_next b clus g_sec_buf d.

End Next.

(** ** Short names *)

(** The text before the last dot, and the text after it when there is one. *)
Fixpoint split_dot (t : list Z) : list Z * option (list Z) :=
  match t with
  | [] => ([], None)
  | c :: t =>
      match split_dot t with
      | (base, Some ext) => (c :: base, Some ext)
      | (base, None) => if c =? ch "." then ([], Some t) else (c :: base, None)
      end
  end.

(** The first [n] bytes in upper case, padded with blanks. *)
Definition field83 (n : nat) (t : list Z) : list Z :=
  (toupper <$> take n t) ++ replicate (n - length t) 32.

(** The eleven bytes of [out]. *)
Definition to83 (name : list Z) : option (list Z) :=
  let? t := cstr name in
  let '(base, ext) := split_dot t in
  Some (field83 8 base ++ field83 3 (default [] ext)).

Definition to83_alias_guess (name : list Z) : option (list Z) :=
  let? t := cstr name in
  let '(base, ext) := split_dot t in
  Some (field83 6 base ++ lit "~1" ++ field83 3 (default [] ext)).

(** ** Directories *)

(** What an entry of 32 bytes means to the search. *)
Inductive Entry := EntryEnd | EntrySkip | EntryFound (cluster size : Z).

Definition fat_entry (de : list Z) (name83 : list Z) (alt_name83 : option (list Z)) (want_dir : bool)
  : option Entry :=
  let? b0 := (de !! 0%nat : option Z) in
  if b0 =? 0x00 then Some EntryEnd else
  if b0 =? 0xE5 then Some EntrySkip else
  let? attr := (de !! 11%nat : option Z) in
  if attr =? 0x0F then Some EntrySkip else
  if negb (Z.land attr 0x08 =? 0) then Some EntrySkip else
  if b0 =? ch "." then Some EntrySkip else
  if want_dir && (Z.land attr 0x10 =? 0) then Some EntrySkip else
  if negb want_dir && negb (Z.land attr 0x10 =? 0) then Some EntrySkip else
  let? m := memcmp de name83 11 in
  let? hit := (if m =? 0 then Some true else
               match alt_name83 with
               | None => Some false
               | Some alt => let? m := memcmp de alt 11 in Some (m =? 0)
               end) in
  if hit then
    let? size := ru32 (drop 28 de) in
    let? cluster := ru16 (drop 26 de) in
    Some (EntryFound cluster size)
  else Some EntrySkip.

(** The entries [entry], [entry + 1], ... of a sector, [n] of them. *)
Fixpoint scan_entries (n entry : nat) (g_dir_buf name83 : list Z) (alt_name83 : option (list Z))
    (want_dir : bool) : option Entry :=
  match n with
  | O => Some EntrySkip
  | S n =>
      let? e := fat_entry (drop (entry * 32) g_dir_buf) name83 alt_name83 want_dir in
      match e with
      | EntrySkip => scan_entries n (S entry) g_dir_buf name83 alt_name83 want_dir
      | e => Some e
      end
  end.

(** Why the loop over the sectors of a cluster stopped. *)
Inductive Scan := ScanMore | ScanReturn (cluster size : Z).

Section Dir.
  Context {D : Type} `{Sectors D}.
  Variables (b : FatBPB) (start_sector max_sectors : Z) (name83 : list Z)
    (alt_name83 : option (list Z)) (want_dir use_chain : bool).

(** [n] sectors from [s_in_clus] on: the outcome, [sec_done], [g_dir_buf] and the
    device. *)
Fixpoint scan_sectors (n : nat) (s_in_clus cluster sec_done : Z) (g_dir_buf : list Z) (d : D)
  : option (Scan * Z * list Z * D) :=
  match n with
  | O => Some (ScanMore, sec_done, g_dir_buf, d)
  | S n =>
      let sec := if use_chain then u32 (fat_clus2sec b cluster + s_in_clus)
                 else u32 (start_sector + sec_done) in
      let '(r, g_dir_buf, d) := read_sector sec g_dir_buf d in
      if r =? 0 then Some (ScanReturn 0 0, sec_done, g_dir_buf, d) else
      let? e := scan_entries 16 0 g_dir_buf name83 alt_name83 want_dir in
      match e with
      | EntryEnd => Some (ScanReturn 0 0, sec_done, g_dir_buf, d)
      | EntryFound c size => Some (ScanReturn c size, sec_done, g_dir_buf, d)
      | EntrySkip =>
          let sec_done := u32 (sec_done + 1) in
          if negb use_chain && (max_sectors <=? sec_done)
          then Some (ScanReturn 0 0, sec_done, g_dir_buf, d)
          else scan_sectors n (s_in_clus + 1) cluster sec_done g_dir_buf d
      end
  end.

(** The buffers and the device, with the cluster and [sec_done]. *)
Record ScanState := mkScanState {
  ss_cluster : Z;
  ss_done : Z;
  ss_sec : list Z;
  ss_dir : list Z;
  ss_dev : D;
}.

(** One turn of [for (;;)]; the result is the cluster and [*file_size]. *)
Definition scan_step (s : ScanState) : ScanState + option (Z * Z * list Z * list Z * D) :=
  let clus_secs := if use_chain then sectors_per_cluster b else max_sectors in
  match scan_sectors (Z.to_nat clus_secs) 0 (ss_cluster s) (ss_done s) (ss_dir s) (ss_dev s) with
  | None => inr UB
  | Some (ScanReturn c size, _, dir, d) => inr (Some (c, size, ss_sec s, dir, d))
  | Some (ScanMore, done, dir, d) =>
      if negb use_chain then inr (Some (0, 0, ss_sec s, dir, d)) else
      match fat_next_cluster b (ss_cluster s) (ss_sec s) d with
      | None => inr UB
      | Some (cluster, sec, d) =>
          if fat_clus_valid b cluster then inl (mkScanState cluster done sec dir d)
          else inr (Some (0, 0, sec, dir, d))
      end
  end.

End Dir.
Arguments ScanState : clear implicits.

(** More turns than there are clusters: a chain that goes on has a cycle, and the C
    loop does not end. *)
Definition CHAIN_MAX : positive := 2 ^ 28.

Section Files.
  Context {D : Type} `{Sectors D}.

(** The cluster (0 when there is none), the file size, the buffers, the device. *)
Definition fat_scan_dir (b : FatBPB) (start_sector max_sectors start_cluster : Z) (name83 : list Z)
    (alt_name83 : option (list Z)) (want_dir : bool) (sec dir : list Z) (d : D)
  : option (Z * Z * list Z * list Z * D) :=
  match iterP (scan_step b start_sector max_sectors name83 alt_name83 want_dir (2 <=? start_cluster))
          CHAIN_MAX (mkScanState start_cluster 0 sec dir d) with
  | inl _ => None
  | inr r => r
  end.

(** The search in the root directory. *)
Definition scan_root (b : FatBPB) (name83 : list Z) (alt_name83 : option (list Z)) (want_dir : bool)
    (sec dir : list Z) (d : D) : option (Z * Z * list Z * list Z * D) :=
  if is_fat32 b
  then fat_scan_dir b 0 0 (root_cluster b) name83 alt_name83 want_dir sec dir d
  else fat_scan_dir b (root_dir_sector b) (root_dir_sectors b) 0 name83 alt_name83 want_dir sec dir d.

(** ** Data *)

(** The copy of a sector: whether [done] was set, the buffer and [bytes_read]. *)
Fixpoint copy_sector (src : list Z) (file_size : Z) (buf_size : nat) (buf : list Z) (bytes_read : nat)
  : option (bool * list Z * nat) :=
  match src with
  | [] => Some (false, buf, bytes_read)
  | c :: src =>
      if (file_size <=? Z.of_nat bytes_read) || (buf_size <=? bytes_read)%nat
      then Some (true, buf, bytes_read)
      else if (bytes_read <? length buf)%nat
      then copy_sector src file_size buf_size (<[bytes_read := c]> buf) (S bytes_read)
      else UB
  end.

(** [buf], [bytes_read], [done], [g_sec_buf] and the device. *)
Record Copy := mkCopy {
  cy_buf : list Z;
  cy_read : nat;
  cy_done : bool;
  cy_sec : list Z;
  cy_dev : D;
}.

(** The sectors of a cluster; the [bool] tells a failed read. *)
Fixpoint copy_cluster (n : nat) (s cluster : Z) (b : FatBPB) (file_size : Z) (buf_size : nat) (c : Copy)
  : option (bool * Copy) :=
  match n with
  | O => Some (true, c)
  | S n =>
      if cy_done c then Some (true, c) else
      let '(r, sec, d) := read_sector (u32 (fat_clus2sec b cluster + s)) (cy_sec c) (cy_dev c) in
      if r =? 0 then Some (false, mkCopy (cy_buf c) (cy_read c) (cy_done c) sec d) else
      let? (done, buf, k) := copy_sector sec file_size buf_size (cy_buf c) (cy_read c) in
      copy_cluster n (s + 1) cluster b file_size buf_size (mkCopy buf k done sec d)
  end.

(** One turn of the loop over the chain; the result is that of sd_read_file. *)
Definition copy_step (b : FatBPB) (file_size : Z) (buf_size : nat) (st : Z * Copy)
  : Z * Copy + option (Z * Copy) :=
  let '(cluster, c) := st in
  if cy_done c || negb (fat_clus_valid b cluster) then inr (Some (Z.of_nat (cy_read c), c)) else
  match copy_cluster (Z.to_nat (sectors_per_cluster b)) 0 cluster b file_size buf_size c with
  | None => inr UB
  | Some (false, c) => inr (Some (-1, c))
  | Some (true, c) =>
      match fat_next_cluster b cluster (cy_sec c) (cy_dev c) with
      | None => inr UB
      | Some (cluster, sec, d) =>
          inl (cluster, mkCopy (cy_buf c) (cy_read c) (cy_done c) sec d)
      end
  end.

(** ** sd_read_file *)

(** [g_sec_buf], [g_dir_buf] and the device. *)
Record Card := mkCard { cd_sec : list Z; cd_dir : list Z; cd_dev : D }.

(** The boot sector of the partition; [Some None] is the result -1. *)
Definition load_bpb (c : Card) : option (option FatBPB * Card) :=
  let '(r, sec, d) := read_sector 0 (cd_sec c) (cd_dev c) in
  if r =? 0 then Some (None, mkCard sec (cd_dir c) d) else
  let? vbr := fat_find_vbr sec in
  let '(r, sec, d) := (if negb (vbr =? 0) then read_sector vbr sec d else (1, sec, d)) in
  if r =? 0 then Some (None, mkCard sec (cd_dir c) d) else
  let? bpb := fat_parse_bpb sec vbr in
  Some (bpb, mkCard sec (cd_dir c) d).

(** The search in the root directory, then in /tables/: the cluster and the size. *)
Definition find_file (b : FatBPB) (name83 alias83 tables83 : list Z) (c : Card)
  : option (Z * Z * Card) :=
  let? (cl, size, sec, dir, d) := scan_root b name83 (Some alias83) false (cd_sec c) (cd_dir c) (cd_dev c) in
  if negb (cl =? 0) then Some (cl, size, mkCard sec dir d) else
  let? (tables, _, sec, dir, d) := scan_root b tables83 None true sec dir d in
  if tables =? 0 then Some (0, size, mkCard sec dir d) else
  let? (cl, size, sec, dir, d) := fat_scan_dir b 0 0 tables name83 (Some alias83) false sec dir d in
  Some (cl, size, mkCard sec dir d).

(** The data of a file. *)
Definition read_data (b : FatBPB) (cluster file_size : Z) (buf_size : nat) (buf : list Z) (c : Card)
  : option (Z * list Z * Card) :=
  match iterP (copy_step b file_size buf_size) CHAIN_MAX
          (cluster, mkCopy buf 0 false (cd_sec c) (cd_dev c)) with
  | inl _ => None
  | inr r => let? (n, y) := r in Some (n, cy_buf y, mkCard (cy_sec y) (cd_dir c) (cy_dev y))
  end.

Definition sd_read_file (name buf : list Z) (buf_size : Z) (c : Card) : option (Z * list Z * Card) :=
  let? name83 := to83 name in
  let? alias83 := to83_alias_guess name in
  let? tables83 := to83 (lit "tables" ++ [0]) in
  let? (bpb, c) := load_bpb c in
  match bpb with
  | None => Some (-1, buf, c)
  | Some b =>
      let? (cl, size, c) := find_file b name83 alias83 tables83 c in
      if cl =? 0 then Some (-1, buf, c) else
      if size =? 0 then Some (0, buf, c) else
      read_data b cl size (Z.to_nat buf_size) buf c
  end.

End Files.
Arguments Copy : clear implicits.
Arguments Card : clear implicits.
