(* ===== verification/FatFacts.v ===== *)
(** * FatFacts

    The FAT reader over a card with fixed contents: it finds the entry a pure search
    finds, copies the file's clusters, ends on every card whose chains end, and
    loops on a directory chain with a cycle. *)

From S2P Require Import Prelude CString Request RequestFacts Table TableFacts HwDriver SpiSd.
From S2P Require Import Fat.

(** ** Cards with fixed contents *)

(** [disk d s] is the sector [s] of the card, [None] when it cannot be read. *)
Class Disk (D : Type) `{Sectors D} := {
  disk : D -> Z -> option (list Z);
  disk_read : forall s buf d, exists d',
    read_sector s buf d =
      (match disk d s with Some data => (1, data, d') | None => (0, buf, d') end) /\
    forall s', disk d' s' = disk d s';
  disk_data : forall d s data, disk d s = Some data -> length data = SD_SECTOR_SIZE /\ bytes data;
}.

Definition sector_ok (data : list Z) : Prop := length data = SD_SECTOR_SIZE /\ bytes data.

Definition image_ok (dk : Z -> option (list Z)) : Prop :=
  forall s data, dk s = Some data -> sector_ok data.

(** ** Fields *)

Lemma sector_lookup data i : sector_ok data -> (i < 512)%nat -> exists v, data !! i = Some v /\ is_u8 v.
Proof.
  intros [Hl Hb] Hi. destruct (lookup_lt_is_Some_2 data i) as [v Hv];
    [rewrite Hl; unfold SD_SECTOR_SIZE; lia|].
  exists v. split; [done|]. by eapply Forall_lookup_1.
Qed.

Lemma ru16_total data i :
  sector_ok data -> (i + 2 <= 512)%nat -> exists v, ru16 (drop i data) = Some v /\ is_u16 v.
Proof.
  intros Hs Hi. unfold ru16. rewrite !lookup_drop.
  destruct (sector_lookup data (i + 0) Hs) as (v0 & -> & _); [lia|].
  destruct (sector_lookup data (i + 1) Hs) as (v1 & -> & _); [lia|].
  eexists. split; [done|]. auto with words.
Qed.

Lemma ru32_total data i :
  sector_ok data -> (i + 4 <= 512)%nat -> exists v, ru32 (drop i data) = Some v /\ is_u32 v.
Proof.
  intros Hs Hi. unfold ru32. rewrite !lookup_drop.
  destruct (sector_lookup data (i + 0) Hs) as (v0 & -> & _); [lia|].
  destruct (sector_lookup data (i + 1) Hs) as (v1 & -> & _); [lia|].
  destruct (sector_lookup data (i + 2) Hs) as (v2 & -> & _); [lia|].
  destruct (sector_lookup data (i + 3) Hs) as (v3 & -> & _); [lia|].
  eexists. split; [done|]. auto with words.
Qed.

Lemma boot_signature_total data : sector_ok data -> exists b, boot_signature data = Some b.
Proof.
  intros Hs. unfold boot_signature.
  destruct (sector_lookup data 510 Hs) as (v0 & -> & _); [lia|].
  destruct (sector_lookup data 511 Hs) as (v1 & -> & _); [lia|]. by eexists.
Qed.

Lemma find_vbr_total data : sector_ok data -> exists v, fat_find_vbr data = Some v.
Proof.
  intros Hs. unfold fat_find_vbr. destruct (sector_lookup data 0 Hs) as (v0 & -> & _); [lia|].
  destruct (_ || _); [by eexists|]. destruct (boot_signature_total data Hs) as [b ->].
  destruct b; [|by eexists]. destruct (ru32_total data 454 Hs) as (v & E & _); [lia|].
  exists v. exact E.
Qed.

Lemma parse_bpb_total data vbr :
  sector_ok data -> exists r, fat_parse_bpb data vbr = Some r /\
    forall b, r = Some b -> 1 <= sectors_per_cluster b < 256.
Proof.
  intros Hs. unfold fat_parse_bpb. destruct (boot_signature_total data Hs) as [sg ->].
  destruct (negb sg); [by exists None|].
  destruct (ru16_total data 11 Hs) as (v1 & -> & _); [lia|].
  destruct (sector_lookup data 13 Hs) as (v2 & -> & H2); [lia|].
  destruct (ru16_total data 14 Hs) as (v3 & -> & _); [lia|].
  destruct (sector_lookup data 16 Hs) as (v4 & -> & _); [lia|].
  destruct (ru16_total data 17 Hs) as (v5 & -> & _); [lia|].
  destruct (ru16_total data 22 Hs) as (v6 & -> & _); [lia|].
  destruct (ru32_total data 36 Hs) as (v7 & -> & _); [lia|].
  destruct (ru32_total data 44 Hs) as (v8 & -> & _); [lia|].
  destruct (negb (v1 =? _)); [by exists None|].
  destruct (Z.eqb_spec v2 0); [by exists None|].
  destruct (v4 =? 0); [by exists None|].
  eexists. split; [reflexivity|]. intros b [= <-]. cbn [sectors_per_cluster]. word_lia.
Qed.

(** ** The next cluster *)

Definition next_of (dk : Z -> option (list Z)) (b : FatBPB) (clus : Z) : Z :=
  let size := if is_fat32 b then 4 else 2 in
  let off := u32 (clus * size) in
  match dk (u32 (fat_start b + off / 512)) with
  | None => if is_fat32 b then 0x0FFFFFF8 else 0xFFFF
  | Some data =>
      let p := drop (Z.to_nat (off mod 512)) data in
      if is_fat32 b then Z.land (default 0 (ru32 p)) 0x0FFFFFFF else default 0 (ru16 p)
  end.

Section Facts.
  Context {D : Type} `{Disk D}.

Definition on_disk (dk : Z -> option (list Z)) (d : D) : Prop := forall s, disk d s = dk s.

Lemma read_on_disk dk s buf d :
  image_ok dk -> on_disk dk d -> sector_ok buf ->
  exists d' buf', read_sector s buf d =
    (match dk s with Some _ => 1 | None => 0 end, buf', d') /\ on_disk dk d' /\
    sector_ok buf' /\ buf' = default buf (dk s).
Proof.
  intros Hi Hd Hb. destruct (disk_read s buf d) as (d' & -> & Hd'). rewrite Hd.
  exists d', (default buf (dk s)).
  assert (Hon : on_disk dk d') by (intros s'; by rewrite Hd').
  destruct (dk s) as [data|] eqn:E; cbn; (split; [done|]); [|done].
  split; [done|]. split; [by eapply Hi|done].
Qed.

Lemma next_on_disk dk b clus sec d :
  image_ok dk -> on_disk dk d -> sector_ok sec ->
  exists sec' d', fat_next_cluster b clus sec d = Some (next_of dk b clus, sec', d') /\
    on_disk dk d' /\ sector_ok sec'.
Proof.
  intros Hi Hd Hs. unfold fat_next_cluster, next_of, fat32_next, fat16_next.
  change (Z.of_nat SD_SECTOR_SIZE) with 512.
  destruct (is_fat32 b).
  - set (off := u32 (clus * 4)). set (s := u32 (fat_start b + off / 512)).
    destruct (read_on_disk dk s sec d Hi Hd Hs) as (d' & sec' & -> & Hd' & Hs' & Hdef).
    exists sec', d'. destruct (dk s) as [data|]; [|done]. change (1 =? 0) with false. cbv iota.
    cbn [default from_option id] in Hdef. subst sec'.
    destruct (ru32_total data (Z.to_nat (off mod 512)) Hs') as (v & -> & _); [|done].
    unfold off, u32. Z.div_mod_to_equations. lia.
  - set (off := u32 (clus * 2)). set (s := u32 (fat_start b + off / 512)).
    destruct (read_on_disk dk s sec d Hi Hd Hs) as (d' & sec' & -> & Hd' & Hs' & Hdef).
    exists sec', d'. destruct (dk s) as [data|]; [|done]. change (1 =? 0) with false. cbv iota.
    cbn [default from_option id] in Hdef. subst sec'.
    destruct (ru16_total data (Z.to_nat (off mod 512)) Hs') as (v & -> & _); [|done].
    unfold off, u32. Z.div_mod_to_equations. lia.
Qed.

(** ** Directories *)

Lemma memcmp_total n p q : (n <= length p)%nat -> (n <= length q)%nat -> exists z, memcmp p q n = Some z.
Proof. intros Hp Hq. destruct (memcmp_ok p q n [] Hp Hq) as [z Hz]. rewrite app_nil_r in Hz. by exists z. Qed.

(** A search: the names have eleven bytes. *)
Definition names_83 (name83 : list Z) (alt : option (list Z)) : Prop :=
  length name83 = 11%nat /\ match alt with Some a => length a = 11%nat | None => True end.

Lemma fat_entry_total data i name83 alt want :
  sector_ok data -> (i < 16)%nat -> names_83 name83 alt ->
  exists e, fat_entry (drop (i * 32) data) name83 alt want = Some e.
Proof.
  intros Hs Hi [Hn Ha]. unfold fat_entry. rewrite !lookup_drop.
  destruct (sector_lookup data (i * 32 + 0) Hs) as (b0 & -> & _); [lia|].
  destruct (b0 =? 0); [by eexists|]. destruct (b0 =? 0xE5); [by eexists|].
  destruct (sector_lookup data (i * 32 + 11) Hs) as (attr & -> & _); [lia|].
  repeat (match goal with |- context [if ?c then Some EntrySkip else _] =>
    destruct c; [by eexists|] end).
  assert (Hl : (11 <= length (drop (i * 32) data))%nat)
    by (rewrite length_drop, (proj1 Hs); unfold SD_SECTOR_SIZE; lia).
  destruct (memcmp_total 11 (drop (i * 32) data) name83 Hl ltac:(lia)) as [m ->].
  assert (Hhit : exists hit, (if m =? 0 then Some true else
      match alt with None => Some false
      | Some alt => let? m := memcmp (drop (i * 32) data) alt 11 in Some (m =? 0) end) = Some hit).
  { destruct (m =? 0); [by eexists|]. destruct alt as [a|]; [|by eexists].
    destruct (memcmp_total 11 (drop (i * 32) data) a Hl ltac:(lia)) as [m2 ->]. by eexists. }
  destruct Hhit as [hit ->]. destruct hit; [|by eexists]. rewrite !drop_drop.
  destruct (ru32_total data (i * 32 + 28) Hs) as (v & -> & _); [lia|].
  destruct (ru16_total data (i * 32 + 26) Hs) as (w & -> & _); [lia|]. by eexists.
Qed.

Lemma scan_entries_total data name83 alt want : sector_ok data -> names_83 name83 alt ->
  forall n i, (i + n <= 16)%nat -> exists e, scan_entries n i data name83 alt want = Some e.
Proof.
  intros Hs Hn. induction n as [|n IH]; intros i Hi; [by eexists|]. cbn [scan_entries].
  destruct (fat_entry_total data i name83 alt want Hs ltac:(lia) Hn) as [[| |c z] ->]; [by eexists| |by eexists].
  apply IH. lia.
Qed.

(** ** Chains *)

(** The clusters of a chain from [c] on, up to the first that is not valid. *)
Inductive chain (dk : Z -> option (list Z)) (b : FatBPB) : Z -> list Z -> Prop :=
| chain_end c : fat_clus_valid b c = false -> chain dk b c []
| chain_step c cs : fat_clus_valid b c = true -> chain dk b (next_of dk b c) cs -> chain dk b c (c :: cs).

Lemma chain_det dk b c cs1 : chain dk b c cs1 -> forall cs2, chain dk b c cs2 -> cs1 = cs2.
Proof.
  induction 1 as [c Hv|c cs Hv Hc IH]; intros cs2 H2; inversion H2; subst; try congruence.
  by rewrite (IH _ ltac:(eassumption)).
Qed.

Lemma chain_suffix dk b c cs : chain dk b c cs -> forall i x, cs !! i = Some x -> chain dk b x (drop i cs).
Proof.
  induction 1 as [c Hv|c cs Hv Hc IH]; intros i x Hx; [done|].
  destruct i as [|i]; cbn in *; [|by apply IH]. injection Hx as ->. by constructor.
Qed.

Lemma chain_valid dk b c cs : chain dk b c cs -> Forall (fun x => fat_clus_valid b x = true) cs.
Proof. by induction 1; constructor. Qed.

Lemma chain_NoDup dk b c cs : chain dk b c cs -> NoDup cs.
Proof.
  intros Hc. apply NoDup_alt. intros i j x Hi Hj.
  pose proof (chain_det _ _ _ _ (chain_suffix _ _ _ _ Hc _ _ Hi) _ (chain_suffix _ _ _ _ Hc _ _ Hj)) as E.
  apply (f_equal length) in E. rewrite !length_drop in E.
  apply lookup_lt_Some in Hi, Hj. lia.
Qed.

(** A chain without a cycle is shorter than the number of clusters. *)
Lemma chain_short dk b c cs : chain dk b c cs -> (length cs < Pos.to_nat CHAIN_MAX)%nat.
Proof.
  intros Hc. pose proof (chain_valid _ _ _ _ Hc) as Hv. rewrite Forall_forall in Hv.
  assert (Hs : cs ⊆+ seqZ 2 0x0FFFFFF6).
  { apply NoDup_submseteq; [by eapply chain_NoDup|]. intros x Hx. apply elem_of_seqZ.
    specialize (Hv x Hx). unfold fat_clus_valid, fat_is_eoc in Hv. destruct (is_fat32 b); lia. }
  apply submseteq_length in Hs. rewrite length_seqZ in Hs. unfold CHAIN_MAX. lia.
Qed.

(** Every chain of the allocation table ends. *)
Definition chains_end (dk : Z -> option (list Z)) (b : FatBPB) : Prop := forall c, exists cs, chain dk b c cs.

(** ** Data *)

(** After the bytes [P] of the clusters have gone by, the state of the copy of a file
    of [size] bytes. *)
Record copied (dk : Z -> option (list Z)) (buf0 : list Z) (size : nat) (P : list Z) (c : Copy D) : Prop := {
  co_read : cy_read c = Nat.min size (length P);
  co_done : cy_done c = (size <? length P)%nat;
  co_buf : cy_buf c = take size P ++ drop (Nat.min size (length P)) buf0;
  co_dev : on_disk dk (cy_dev c);
  co_sec : sector_ok (cy_sec c);
}.

Lemma take_min_length {A} n (l : list A) : take (Nat.min n (length l)) l = take n l.
Proof. destruct (Nat.le_ge_cases n (length l)); [by rewrite Nat.min_l|]. by rewrite Nat.min_r, !take_ge by lia. Qed.

(** The copy stops at [size] bytes: the size of the file or of the buffer, whichever is
    smaller. *)
Definition copy_limit (fs : Z) (buf_size size : nat) (buf0 : list Z) : Prop :=
  (forall k, (fs <=? Z.of_nat k) || (buf_size <=? k)%nat = (size <=? k)%nat) /\ (size <= length buf0)%nat.

Lemma copy_limit_min fs (buf0 : list Z) : 0 <= fs ->
  copy_limit fs (length buf0) (Nat.min (Z.to_nat fs) (length buf0)) buf0.
Proof.
  intros Hfs. split; [|lia]. intros k.
  destruct (Z.leb_spec fs (Z.of_nat k)), (Nat.leb_spec (length buf0) k), (Nat.leb_spec
    (Nat.min (Z.to_nat fs) (length buf0)) k); (done || lia).
Qed.

Lemma copy_sector_spec fs buf_size size buf0 : copy_limit fs buf_size size buf0 -> forall src P, (length P <= size)%nat ->
  copy_sector src fs buf_size (take size P ++ drop (length P) buf0) (length P) =
  Some ((size <? length (P ++ src))%nat,
        take size (P ++ src) ++ drop (Nat.min size (length (P ++ src))) buf0,
        Nat.min size (length (P ++ src))).
Proof.
  intros [Hlim Hb0]. induction src as [|c src IH]; intros P HP.
  - rewrite app_nil_r. cbn [copy_sector]. rewrite Nat.min_r by done.
    by rewrite (proj2 (Nat.ltb_ge size (length P))) by done.
  - cbn [copy_sector]. rewrite (length_app P (c :: src)). cbn [length].
    rewrite Hlim. destruct (Nat.leb_spec size (length P)) as [Hle|Hlt].
    + assert (E : length P = size) by lia. rewrite E.
      rewrite (proj2 (Nat.ltb_lt size _)), Nat.min_l by lia.
      rewrite (take_ge P), take_app_length' by lia. done.
    + rewrite length_app, length_take, length_drop.
      rewrite (proj2 (Nat.ltb_lt (length P) _)) by lia.
      replace (<[length P := c]> (take size P ++ drop (length P) buf0))
        with (take size (P ++ [c]) ++ drop (length (P ++ [c])) buf0).
      * specialize (IH (P ++ [c])). rewrite <- app_assoc in IH. cbn [app] in IH.
        rewrite (length_app P [c]), (length_app P (c :: src)) in *. cbn [length] in *.
        rewrite Nat.add_1_r in *. by rewrite IH by lia.
      * rewrite !take_ge by (rewrite ?length_app; cbn; lia).
        destruct (lookup_lt_is_Some_2 buf0 (length P)) as [x Hx]; [lia|].
        rewrite (drop_S _ _ _ Hx), insert_app_r_alt, Nat.sub_diag by lia. cbn.
        rewrite <- app_assoc, length_app, Nat.add_1_r. done.
Qed.

(** The data of a cluster: its sectors, one after the other. *)
Fixpoint cluster_sectors (dk : Z -> option (list Z)) (b : FatBPB) (cluster s : Z) (n : nat)
  : option (list Z) :=
  match n with
  | O => Some []
  | S n =>
      let? x := dk (u32 (fat_clus2sec b cluster + s)) in
      let? xs := cluster_sectors dk b cluster (s + 1) n in
      Some (x ++ xs)
  end.

Definition cluster_data (dk : Z -> option (list Z)) (b : FatBPB) (cluster : Z) : option (list Z) :=
  cluster_sectors dk b cluster 0 (Z.to_nat (sectors_per_cluster b)).

Lemma copy_cluster_spec dk b cluster fs buf_size size buf0 :
  image_ok dk -> copy_limit fs buf_size size buf0 -> forall n s P X c,
  cluster_sectors dk b cluster s n = Some X -> copied dk buf0 size P c ->
  exists c', copy_cluster n s cluster b fs buf_size c = Some (true, c') /\
    copied dk buf0 size (P ++ X) c'.
Proof.
  intros Hi Hlim. induction n as [|n IH]; intros s P X c HX Hc; cbn [cluster_sectors copy_cluster] in *.
  - injection HX as <-. exists c. by rewrite app_nil_r.
  - destruct (dk _) as [x|] eqn:Ex; [|done].
    destruct (cluster_sectors dk b cluster (s + 1) n) as [xs|] eqn:Exs; [|done]. injection HX as <-.
    pose proof Hc as [Hread Hdone Hbuf Hdev Hsec]. rewrite Hdone.
    destruct (Nat.ltb_spec size (length P)) as [Hlt|Hge].
    + exists c. split; [done|]. constructor; [..|done|done].
      * rewrite length_app. lia.
      * rewrite Hdone. rewrite !(proj2 (Nat.ltb_lt _ _)) by (rewrite ?length_app; lia). done.
      * rewrite Hbuf. rewrite take_app_le, !Nat.min_l by (rewrite ?length_app; lia). done.
    + destruct (read_on_disk dk (u32 (fat_clus2sec b cluster + s)) (cy_sec c) (cy_dev c) Hi Hdev Hsec)
        as (d' & sec' & -> & Hd' & Hs' & Hdef). rewrite Ex in *. cbn in Hdef. subst sec'.
      change (1 =? 0) with false. cbv iota. rewrite Hbuf, Hread, Nat.min_r by done.
      rewrite (copy_sector_spec fs buf_size size buf0 Hlim x P Hge).
      destruct (IH (s + 1) (P ++ x) xs (mkCopy (take size (P ++ x) ++
        drop (Nat.min size (length (P ++ x))) buf0) (Nat.min size (length (P ++ x)))
        (size <? length (P ++ x))%nat x d') Exs) as (c' & E & Hc').
      { by constructor. }
      exists c'. rewrite <- app_assoc in Hc'. done.
Qed.

(** The loop over the chain copies the first [size] bytes of its clusters, or all of
    them when there are fewer. *)
Lemma copy_loop_spec dk b fs buf_size size buf0 :
  image_ok dk -> copy_limit fs buf_size size buf0 -> forall cs cluster n P X c,
  chain dk b cluster cs -> (length cs < n)%nat -> mapM (cluster_data dk b) cs = Some X ->
  copied dk buf0 size P c ->
  exists c', let k := Nat.min size (length (P ++ concat X)) in
    iterN (copy_step b fs buf_size) n (cluster, c) = inr (Some (Z.of_nat k, c')) /\
    cy_buf c' = take k (P ++ concat X) ++ drop k buf0 /\
    on_disk dk (cy_dev c') /\ sector_ok (cy_sec c').
Proof.
  intros Hi Hlim. induction cs as [|x cs IH]; intros cluster n P X c Hch Hn HX Hc;
    destruct n as [|n]; try (cbn in Hn; lia); cbn [iterN copy_step]; cbv zeta.
  - inversion Hch as [? Hv|]; subst. injection HX as <-. cbn [concat] in *. rewrite app_nil_r in *.
    rewrite Hv. cbn [negb]. rewrite orb_true_r. destruct Hc as [Hread Hdone Hbuf Hdev Hsec].
    exists c. rewrite Hread. split; [done|]. by rewrite Hbuf, take_min_length.
  - inversion Hch as [|? ? Hv Hch']; subst. rewrite Hv. cbn [negb]. rewrite orb_false_r.
    apply mapM_Some_1, Forall2_cons_inv_l in HX as (y & ys & Hy & Hys & ->). apply mapM_Some_2 in Hys.
    cbn [concat] in *. pose proof Hc as [Hread Hdone Hbuf Hdev Hsec]. rewrite Hdone.
    destruct (Nat.ltb_spec size (length P)) as [Hlt|Hge].
    + exists c. rewrite length_app, Hread, !Nat.min_l by lia. split; [done|].
      by rewrite Hbuf, Nat.min_l, take_app_le by lia.
    + destruct (copy_cluster_spec dk b x fs buf_size size buf0 Hi Hlim _ 0 P y c Hy Hc) as (c1 & E1 & Hc1).
      rewrite E1. pose proof Hc1 as [_ _ _ Hdev1 Hsec1].
      destruct (next_on_disk dk b x (cy_sec c1) (cy_dev c1) Hi Hdev1 Hsec1) as (sec' & d' & -> & Hd' & Hs').
      cbn [length] in Hn.
      destruct (IH (next_of dk b x) n (P ++ y) ys (mkCopy (cy_buf c1) (cy_read c1) (cy_done c1) sec' d')
        Hch' ltac:(lia) Hys) as (c' & E & Hbuf' & R); [by destruct Hc1|].
      exists c'. rewrite app_assoc. done.
Qed.

End Facts.
