(* ===== verification/FatSpec.v ===== *)
(** * FatSpec

    What the FAT reader computes on a card with fixed contents: a directory search is
    the first matching entry in the sectors of the directory, and [sd_read_file]
    returns the bytes of the file that search finds.  It ends on every card whose
    directory chains end, and does not end on a directory chain with a cycle. *)

From S2P Require Import Prelude CString Request RequestFacts Table TableFacts HwDriver SpiSd.
From S2P Require Import Fat FatFacts.

(** ** The search, on entries *)

Definition byte (de : list Z) (i : nat) : Z := default 0 (de !! i).

(** An entry in use, neither a long name, nor a volume label, nor [.] or [..]. *)
Definition entry_visible (de : list Z) : bool :=
  negb (byte de 0 =? 0xE5) && negb (byte de 11 =? 0x0F) && (Z.land (byte de 11) 0x08 =? 0) &&
  negb (byte de 0 =? ch ".").

(** The entry of a file, or of a directory when [want]. *)
Definition entry_kind (want : bool) (de : list Z) : bool :=
  Bool.eqb want (negb (Z.land (byte de 11) 0x10 =? 0)).

Definition entry_named (names : list (list Z)) (de : list Z) : bool :=
  existsb (fun n => bool_decide (take 11 de = n)) names.

(** The first entry that matches, up to the entry that ends the directory. *)
Fixpoint dir_lookup (names : list (list Z)) (want : bool) (entries : list (list Z)) : Entry :=
  match entries with
  | [] => EntrySkip
  | de :: entries =>
      if byte de 0 =? 0 then EntryEnd
      else if entry_visible de && entry_kind want de && entry_named names de
      then EntryFound (default 0 (ru16 (drop 26 de))) (default 0 (ru32 (drop 28 de)))
      else dir_lookup names want entries
  end.

(** The entries [i], ..., [i + n - 1] of a sector. *)
Definition entries_from (i n : nat) (data : list Z) : list (list Z) :=
  (fun i => take 32 (drop (i * 32) data)) <$> seq i n.

(** The search in the sectors [ss]; a sector that cannot be read ends it. *)
Fixpoint search (dk : Z -> option (list Z)) (names : list (list Z)) (want : bool) (ss : list Z) : Entry :=
  match ss with
  | [] => EntrySkip
  | s :: ss =>
      match dk s with
      | None => EntryEnd
      | Some data =>
          match dir_lookup names want (entries_from 0 16 data) with
          | EntrySkip => search dk names want ss
          | e => e
          end
      end
  end.

Definition found (e : Entry) : Z * Z :=
  match e with EntryFound c size => (c, size) | _ => (0, 0) end.

(** The sectors of a cluster, and those of the root directory of FAT16. *)
Definition cluster_secs (b : FatBPB) (cluster : Z) : list Z :=
  (fun s => u32 (fat_clus2sec b cluster + Z.of_nat s)) <$> seq 0 (Z.to_nat (sectors_per_cluster b)).

Definition root_secs (start : Z) (max : nat) : list Z :=
  (fun s => u32 (start + Z.of_nat s)) <$> seq 0 max.

Definition name_list (name83 : list Z) (alt : option (list Z)) : list (list Z) :=
  name83 :: match alt with Some a => [a] | None => [] end.

(** ** The search is the lookup *)

Lemma memcmp_zero n : forall p q z, memcmp p q n = Some z -> (z =? 0) = bool_decide (take n p = take n q).
Proof.
  induction n as [|n IH]; intros p q z; [by intros [= <-]|]. cbn [memcmp].
  destruct p as [|c p]; [done|]. destruct q as [|d q]; [done|]. cbn [head tail take].
  destruct (Z.eqb_spec c d) as [->|Hne]; cbn [negb].
  - intros E. rewrite (IH _ _ _ E). by apply bool_decide_ext; split; [intros ->|intros [= ->]].
  - intros [= <-]. rewrite bool_decide_eq_false_2 by (by intros [=]). apply Z.eqb_neq. lia.
Qed.

Lemma ru16_take n p : (2 <= n)%nat -> ru16 (take n p) = ru16 p.
Proof. intros. unfold ru16. by rewrite !lookup_take_lt by lia. Qed.
Lemma ru32_take n p : (4 <= n)%nat -> ru32 (take n p) = ru32 p.
Proof. intros. unfold ru32. by rewrite !lookup_take_lt by lia. Qed.

Lemma byte_drop data i k v : data !! (i + k)%nat = Some v -> (k < 32)%nat ->
  byte (take 32 (drop i data)) k = v.
Proof. intros E Hk. unfold byte. by rewrite lookup_take_lt, lookup_drop, E by lia. Qed.

Lemma fat_entry_lookup data i name83 alt want :
  sector_ok data -> (i < 16)%nat -> names_83 name83 alt ->
  fat_entry (drop (i * 32) data) name83 alt want =
  Some (dir_lookup (name_list name83 alt) want [take 32 (drop (i * 32) data)]).
Proof.
  intros Hs Hi [Hn Ha]. unfold fat_entry. rewrite !lookup_drop. cbn [dir_lookup].
  destruct (sector_lookup data (i * 32 + 0) Hs) as (b0 & E0 & _); [lia|].
  destruct (sector_lookup data (i * 32 + 11) Hs) as (attr & E11 & _); [lia|].
  rewrite E0, E11. unfold entry_visible, entry_kind.
  rewrite (byte_drop _ _ _ _ E0), (byte_drop _ _ _ _ E11) by lia.
  destruct (b0 =? 0); [done|]. destruct (b0 =? 0xE5); [done|]. cbn [negb andb].
  destruct (attr =? 0x0F); [done|]. cbn [negb andb].
  destruct (Z.land attr 0x08 =? 0); [|done]. cbn [negb andb].
  destruct (b0 =? ch "."); [done|]. cbn [negb andb].
  assert (Hl : (11 <= length (drop (i * 32) data))%nat)
    by (rewrite length_drop, (proj1 Hs); unfold SD_SECTOR_SIZE; lia).
  assert (Ecmp : forall q, length q = 11%nat -> exists m, memcmp (drop (i * 32) data) q 11 = Some m /\
    (m =? 0) = bool_decide (take 11 (take 32 (drop (i * 32) data)) = q)).
  { intros q Hq. destruct (memcmp_total 11 (drop (i * 32) data) q Hl ltac:(lia)) as [m Em].
    exists m. split; [done|]. rewrite (memcmp_zero _ _ _ _ Em), (take_ge q) by lia.
    by rewrite take_take. }
  destruct (Ecmp name83 Hn) as (m & -> & Hm). rewrite !drop_drop.
  destruct (ru32_total data (i * 32 + 28) Hs) as (v & Ev & _); [lia|].
  destruct (ru16_total data (i * 32 + 26) Hs) as (w & Ew & _); [lia|].
  assert (Hhit : (if m =? 0 then Some true else
      match alt with None => Some false
      | Some alt => let? m := memcmp (drop (i * 32) data) alt 11 in Some (m =? 0) end) =
      Some (entry_named (name_list name83 alt) (take 32 (drop (i * 32) data)))).
  { unfold entry_named, name_list. cbn [existsb]. rewrite <- Hm. destruct (m =? 0); [done|].
    destruct alt as [a|]; [|done]. destruct (Ecmp a Ha) as (m2 & -> & Hm2). cbn [existsb].
    by rewrite Hm2, orb_false_r. }
  rewrite Hhit, Ev, Ew, !skipn_firstn_comm, !drop_drop, ru16_take, ru32_take, Ev, Ew by lia.
  by destruct want, (Z.land attr 0x10 =? 0), (entry_named _ _).
Qed.

Lemma dir_lookup_cons names want de l :
  dir_lookup names want (de :: l) =
  match dir_lookup names want [de] with EntrySkip => dir_lookup names want l | e => e end.
Proof. cbn [dir_lookup]. destruct (byte de 0 =? 0); [done|]. by destruct (_ && _). Qed.

Lemma scan_entries_lookup data name83 alt want : sector_ok data -> names_83 name83 alt ->
  forall n i, (i + n <= 16)%nat -> scan_entries n i data name83 alt want =
    Some (dir_lookup (name_list name83 alt) want (entries_from i n data)).
Proof.
  intros Hs Hn. induction n as [|n IH]; intros i Hi; [done|]. cbn [scan_entries].
  rewrite (fat_entry_lookup data i name83 alt want Hs ltac:(lia) Hn).
  unfold entries_from. cbn [seq fmap list_fmap]. rewrite (dir_lookup_cons _ _ _ (_ <$> _)).
  destruct (dir_lookup _ _ [_]); [done| |done]. apply IH. lia.
Qed.

Section Spec.
  Context {D : Type} `{Disk D}.

(** The outcome of the loop over the sectors of a cluster. *)
Definition scan_of (e : Entry) : Scan :=
  match e with EntrySkip => ScanMore | EntryEnd => ScanReturn 0 0 | EntryFound c z => ScanReturn c z end.

Definition scan_secs (b : FatBPB) (start : Z) (chain : bool) (cluster : Z) (s n : nat) : list Z :=
  (fun s => u32 ((if chain then fat_clus2sec b cluster else start) + Z.of_nat s)) <$> seq s n.

(** In a chain the whole cluster is searched; in the root directory the loop stops by
    itself after [max] sectors, with no entry. *)
Lemma scan_sectors_search dk b start max name83 alt want chain cluster :
  image_ok dk -> names_83 name83 alt -> forall n s k dir (d : D),
  (chain = false -> k = Z.of_nat s /\ Z.of_nat (s + n) = max /\ max < 2 ^ 32) -> on_disk dk d -> sector_ok dir ->
  exists k' dir' d',
    let e := search dk (name_list name83 alt) want (scan_secs b start chain cluster s n) in
    scan_sectors b start max name83 alt want chain n (Z.of_nat s) cluster k dir d =
    Some (match e with EntrySkip => if chain || (n =? 0)%nat then ScanMore else ScanReturn 0 0
          | e => scan_of e end, k', dir', d') /\
    on_disk dk d' /\ sector_ok dir'.
Proof.
  intros Hi Hn. induction n as [|n IH]; intros s k dir d Hmax Hd Hs.
  { cbn. eexists _, _, _. rewrite orb_true_r. done. }
  cbn [scan_sectors]. unfold scan_secs. cbn [seq fmap list_fmap search].
  replace (if chain then u32 (fat_clus2sec b cluster + Z.of_nat s) else u32 (start + k))
    with (u32 ((if chain then fat_clus2sec b cluster else start) + Z.of_nat s))
    by (destruct chain; [done|by destruct (Hmax eq_refl) as [-> _]]).
  set (sec := u32 _).
  destruct (read_on_disk dk sec dir d Hi Hd Hs) as (d1 & dir1 & -> & Hd1 & Hs1 & Hdef).
  destruct (dk sec) as [data|]; cbn in Hdef; subst dir1; [|by eexists _, _, _]. change (1 =? 0) with false. cbv iota.
  rewrite (scan_entries_lookup data name83 alt want Hs1 Hn 16 0) by lia.
  destruct (dir_lookup _ _ _); [by eexists _, _, _| |by eexists _, _, _].
  cbn [Nat.eqb]. rewrite orb_false_r.
  destruct chain; cbn [negb andb orb].
  - replace (Z.of_nat s + 1) with (Z.of_nat (S s)) by lia.
    destruct (IH (S s) (u32 (k + 1)) data d1 ltac:(done) Hd1 Hs1) as (k' & dir' & d' & E & R).
    exists k', dir', d'. split; [|done]. exact E.
  - destruct (Hmax eq_refl) as (-> & Hm1 & Hm2). rewrite (u32_small (Z.of_nat s + 1)) by word_lia.
    replace (Z.of_nat s + 1) with (Z.of_nat (S s)) by lia. destruct n as [|n].
    + rewrite (proj2 (Z.leb_le _ _)) by lia. cbn. by eexists _, _, _.
    + rewrite (proj2 (Z.leb_gt _ _)) by lia.
      destruct (IH (S s) (Z.of_nat (S s)) data d1) as (k' & dir' & d' & E & R); [intros _; lia|done..|].
      exists k', dir', d'. split; [|done]. exact E.
Qed.

Lemma search_app dk names want l1 l2 :
  search dk names want (l1 ++ l2) =
  match search dk names want l1 with EntrySkip => search dk names want l2 | e => e end.
Proof.
  induction l1 as [|s l1 IH]; [done|]. cbn [app search]. destruct (dk s); [|done].
  by destruct (dir_lookup _ _ _).
Qed.

Lemma scan_loop_search dk b start max name83 alt want :
  image_ok dk -> names_83 name83 alt -> forall cs n (st : ScanState D),
  chain dk b (next_of dk b (ss_cluster st)) cs -> (length cs < n)%nat ->
  on_disk dk (ss_dev st) -> sector_ok (ss_sec st) -> sector_ok (ss_dir st) ->
  exists sec dir d,
    iterN (scan_step b start max name83 alt want true) n st =
      inr (Some (found (search dk (name_list name83 alt) want
        (concat (cluster_secs b <$> ss_cluster st :: cs))), sec, dir, d)) /\
    on_disk dk d /\ sector_ok sec /\ sector_ok dir.
Proof.
  intros Hi Hn. induction cs as [|c cs IH]; intros n st Hch Hlt Hd Hs Hdir;
    (destruct n as [|n]; [cbn in Hlt; lia|]); cbn [iterN]; unfold scan_step at 1; cbn [negb];
    cbn [fmap list_fmap concat]; rewrite search_app;
    destruct (scan_sectors_search dk b start max name83 alt want true (ss_cluster st) Hi Hn
      (Z.to_nat (sectors_per_cluster b)) 0 (ss_done st) (ss_dir st) (ss_dev st) ltac:(done) Hd Hdir)
      as (k & dir1 & d1 & E & Hd1 & Hdir1); cbv zeta in E; change (Z.of_nat 0) with 0 in E; rewrite E;
    change (scan_secs b start true (ss_cluster st) 0 (Z.to_nat (sectors_per_cluster b)))
      with (cluster_secs b (ss_cluster st));
    (destruct (search dk (name_list name83 alt) want (cluster_secs b (ss_cluster st))) as [| |c0 z0];
      cbn [scan_of orb]; [by eexists _, _, _| |by eexists _, _, _]);
    destruct (next_on_disk dk b (ss_cluster st) (ss_sec st) d1 Hi Hd1 Hs) as (sec1 & d2 & -> & Hd2 & Hs2);
    inversion Hch as [? Hv|? ? Hv Hch']; subst; rewrite Hv; [by eexists _, _, _|].
  cbn [length] in Hlt.
  destruct (IH n (mkScanState (next_of dk b (ss_cluster st)) k sec1 dir1 d2) Hch' ltac:(lia) Hd2 Hs2 Hdir1)
    as (sec & dir & d & E' & R). exists sec, dir, d. split; [|done]. exact E'.
Qed.

(** The search from the first cluster of a directory. *)
Lemma scan_chain_search dk b start max cluster cs name83 alt want sec dir (d : D) :
  image_ok dk -> names_83 name83 alt -> 2 <= cluster -> chain dk b (next_of dk b cluster) cs ->
  on_disk dk d -> sector_ok sec -> sector_ok dir ->
  exists sec' dir' d',
    fat_scan_dir b start max cluster name83 alt want sec dir d =
      Some (found (search dk (name_list name83 alt) want (concat (cluster_secs b <$> cluster :: cs))),
            sec', dir', d') /\
    on_disk dk d' /\ sector_ok sec' /\ sector_ok dir'.
Proof.
  intros Hi Hn Hc Hch Hd Hs Hdir. unfold fat_scan_dir. rewrite iterP_iterN, (proj2 (Z.leb_le _ _)) by done.
  destruct (scan_loop_search dk b start max name83 alt want Hi Hn cs (Pos.to_nat CHAIN_MAX)
    (mkScanState cluster 0 sec dir d) Hch (chain_short _ _ _ _ Hch) Hd Hs Hdir) as (s' & dir' & d' & -> & R).
  by exists s', dir', d'.
Qed.

(** The search in [max] consecutive sectors. *)
Lemma scan_range_search dk b start max cluster name83 alt want sec dir (d : D) :
  image_ok dk -> names_83 name83 alt -> cluster < 2 -> 0 <= max < 2 ^ 32 ->
  on_disk dk d -> sector_ok sec -> sector_ok dir ->
  exists sec' dir' d',
    fat_scan_dir b start max cluster name83 alt want sec dir d =
      Some (found (search dk (name_list name83 alt) want (root_secs start (Z.to_nat max))), sec', dir', d') /\
    on_disk dk d' /\ sector_ok sec' /\ sector_ok dir'.
Proof.
  intros Hi Hn Hc Hmax Hd Hs Hdir. unfold fat_scan_dir. rewrite iterP_iterN, (proj2 (Z.leb_gt _ _)) by done.
  assert (HC : exists m, Pos.to_nat CHAIN_MAX = S m).
  { exists (pred (Pos.to_nat CHAIN_MAX)). pose proof (Pos2Nat.is_pos CHAIN_MAX). lia. }
  destruct HC as [m ->]. cbn [iterN]. unfold scan_step at 1. cbn [ss_cluster ss_done ss_dir ss_dev ss_sec negb].
  destruct (scan_sectors_search dk b start max name83 alt want false cluster Hi Hn (Z.to_nat max) 0 0 dir d)
    as (k & dir1 & d1 & E & Hd1 & Hdir1); [intros _; cbn; lia|done..|].
  cbv zeta in E. change (Z.of_nat 0) with 0 in E. rewrite E.
  change (scan_secs b start false cluster 0 (Z.to_nat max)) with (root_secs start (Z.to_nat max)).
  destruct (search _ _ _ _); cbn [scan_of orb]; [by eexists _, _, _| |by eexists _, _, _].
  destruct (_ =? 0)%nat; by eexists _, _, _.
Qed.

(** ** The copy ends on every card *)

(** The part of the copy that has been written is inside the buffer. *)
Record copying (n0 L : nat) (c : Copy D) : Prop := {
  cp_len : length (cy_buf c) = n0;
  cp_bytes : bytes (cy_buf c);
  cp_read : (cy_read c <= L)%nat;
  cp_sec : sector_ok (cy_sec c);
}.

Lemma copy_sector_total fs bs L n0 :
  (forall k, (fs <=? Z.of_nat k) || (bs <=? k)%nat = (L <=? k)%nat) -> (L <= n0)%nat ->
  forall src buf k, bytes src -> length buf = n0 -> bytes buf -> (k <= L)%nat ->
  exists done buf' k', copy_sector src fs bs buf k = Some (done, buf', k') /\
    length buf' = n0 /\ bytes buf' /\ (k <= k' <= L)%nat /\ (done = false -> k' = (k + length src)%nat).
Proof.
  intros Hlim HL. induction src as [|x src IH]; intros buf k Hsrc Hl Hb Hk; cbn [copy_sector length].
  { eexists _, _, _. split; [done|]. repeat split; try done; lia. }
  rewrite Hlim. apply Forall_cons in Hsrc as [Hx Hsrc].
  destruct (Nat.leb_spec L k) as [Hge|Hlt]; [eexists _, _, _; split; [done|]; repeat split; (done || lia)|].
  rewrite Hl, (proj2 (Nat.ltb_lt k n0)) by lia.
  destruct (IH (<[k := x]> buf) (S k) Hsrc) as (dn & buf' & k' & E & Hl' & Hb' & Hk' & Hd);
    [by rewrite length_insert|by apply Forall_insert|lia|].
  exists dn, buf', k'. repeat split; try done; try lia. intros Hdn. specialize (Hd Hdn). lia.
Qed.

Lemma copy_cluster_total dk b cluster fs bs L n0 : image_ok dk ->
  (forall k, (fs <=? Z.of_nat k) || (bs <=? k)%nat = (L <=? k)%nat) -> (L <= n0)%nat ->
  forall n s c, on_disk dk (cy_dev c) -> copying n0 L c ->
  exists ok c', copy_cluster n s cluster b fs bs c = Some (ok, c') /\ on_disk dk (cy_dev c') /\
    copying n0 L c' /\ (cy_read c <= cy_read c')%nat /\
    (ok = true -> cy_done c' = false -> cy_done c = false /\ cy_read c' = (cy_read c + 512 * n)%nat).
Proof.
  intros Hi Hlim HL. induction n as [|n IH]; intros s c Hd Hc; cbn [copy_cluster].
  { eexists _, _. split; [done|]. repeat split; try done; try apply Hc; lia. }
  destruct (cy_done c) eqn:Edone.
  { eexists _, _. split; [done|]. split; [done|]. split; [done|]. split; [lia|]. congruence. }
  pose proof Hc as [Hl Hb Hk Hs].
  destruct (read_on_disk dk (u32 (fat_clus2sec b cluster + s)) (cy_sec c) (cy_dev c) Hi Hd Hs)
    as (d' & sec' & -> & Hd' & Hs' & _).
  destruct (dk _); [change (1 =? 0) with false|change (0 =? 0) with true]; cbv iota.
  2:{ eexists _, _. split; [done|]. repeat split; try done; try apply Hs'. }
  destruct (copy_sector_total fs bs L n0 Hlim HL sec' (cy_buf c) (cy_read c) (proj2 Hs') Hl Hb Hk)
    as (dn & buf' & k' & -> & Hl' & Hb' & Hk' & Hdn).
  destruct (IH (s + 1) (mkCopy buf' k' dn sec' d') Hd') as (ok & c' & E & Hd2 & Hc2 & Hr2 & H2);
    [by constructor; [..|cbn; lia|]|].
  cbn [cy_read cy_done] in *. exists ok, c'. split; [exact E|]. split; [done|]. split; [done|].
  split; [lia|]. intros Hok Hf. destruct (H2 Hok Hf) as [-> ->]. split; [done|].
  rewrite (Hdn eq_refl), (proj1 Hs'). unfold SD_SECTOR_SIZE. lia.
Qed.

Lemma copy_loop_total dk b fs bs L n0 : image_ok dk ->
  (forall k, (fs <=? Z.of_nat k) || (bs <=? k)%nat = (L <=? k)%nat) -> (L <= n0)%nat ->
  1 <= sectors_per_cluster b ->
  forall n cluster c, on_disk dk (cy_dev c) -> copying n0 L c ->
  (1 <= n)%nat -> (cy_done c = false -> L + 1024 <= 512 * n + cy_read c)%nat ->
  exists r c', iterN (copy_step b fs bs) n (cluster, c) = inr (Some (r, c')) /\ -1 <= r <= Z.of_nat L /\
    on_disk dk (cy_dev c') /\ copying n0 L c'.
Proof.
  intros Hi Hlim HL Hspc. induction n as [|n IH]; intros cluster c Hd Hc Hn Hm; [lia|].
  cbn [iterN copy_step]. pose proof Hc as [Hl Hb Hk Hs].
  destruct (cy_done c) eqn:Edone; cbn [orb].
  { eexists _, _. split; [done|]. split; [lia|done]. }
  specialize (Hm eq_refl). destruct (negb _).
  { eexists _, _. split; [done|]. split; [lia|done]. }
  destruct (copy_cluster_total dk b cluster fs bs L n0 Hi Hlim HL (Z.to_nat (sectors_per_cluster b)) 0 c Hd Hc)
    as (ok & c1 & -> & Hd1 & Hc1 & Hr1 & Hp1). destruct ok.
  2:{ eexists _, _. split; [done|]. split; [lia|done]. }
  pose proof Hc1 as [Hl1 Hb1 Hk1 Hs1].
  destruct (next_on_disk dk b cluster (cy_sec c1) (cy_dev c1) Hi Hd1 Hs1) as (sec' & d' & -> & Hd' & Hs').
  apply IH; [done|by constructor|lia|].
  cbn [cy_done cy_read]. intros Hf. destruct (Hp1 eq_refl Hf) as [_ ->].
  assert (1 <= Z.to_nat (sectors_per_cluster b))%nat by lia. nia.
Qed.

Lemma read_data_total dk b cluster fs buf (c : Card D) :
  image_ok dk -> 1 <= sectors_per_cluster b -> is_u32 fs -> bytes buf ->
  on_disk dk (cd_dev c) -> sector_ok (cd_sec c) -> sector_ok (cd_dir c) ->
  exists r buf' c', read_data b cluster fs (length buf) buf c = Some (r, buf', c') /\
    -1 <= r <= Z.of_nat (length buf) /\ length buf' = length buf /\ bytes buf' /\
    on_disk dk (cd_dev c') /\ sector_ok (cd_sec c') /\ sector_ok (cd_dir c').
Proof.
  intros Hi Hspc Hfs Hb Hd Hs Hdir. unfold read_data. rewrite iterP_iterN.
  destruct (copy_limit_min fs buf) as [Hlim HL]; [word_lia|].
  assert (Hfuel : 2 ^ 32 + 1024 <= 512 * Z.of_nat (Pos.to_nat CHAIN_MAX)) by (unfold CHAIN_MAX; lia).
  revert Hfuel. generalize (Pos.to_nat CHAIN_MAX). intros fuel Hfuel.
  destruct (copy_loop_total dk b fs (length buf) _ (length buf) Hi Hlim HL Hspc fuel cluster
    (mkCopy buf 0 false (cd_sec c) (cd_dev c)) Hd) as (r & c' & E & Hr & Hd' & [Hl' Hb' _ Hs']).
  - by constructor; [..|cbn; lia|].
  - lia.
  - cbn [cy_read]. word_lia.
  - rewrite E. eexists _, _, _. split; [done|]. split; [lia|]. done.
Qed.

(** ** The volume and the file *)

(** What the boot sector of the card says. *)
Definition volume (dk : Z -> option (list Z)) : option FatBPB :=
  let? sec := dk 0 in
  let? vbr := fat_find_vbr sec in
  let? boot := (if vbr =? 0 then Some sec else dk vbr) in
  let? b := fat_parse_bpb boot vbr in b.

(** [ss] are the sectors of the directory that starts at [cluster]. *)
Definition dir_at (dk : Z -> option (list Z)) (b : FatBPB) (cluster : Z) (ss : list Z) : Prop :=
  (cluster < 2 /\ ss = []) \/
  (2 <= cluster /\ exists cs, chain dk b (next_of dk b cluster) cs /\
    ss = concat (cluster_secs b <$> cluster :: cs)).

Definition root_at (dk : Z -> option (list Z)) (b : FatBPB) (ss : list Z) : Prop :=
  if is_fat32 b then dir_at dk b (root_cluster b) ss
  else ss = root_secs (root_dir_sector b) (Z.to_nat (root_dir_sectors b)).

(** The file: in the root directory or, failing that, in its directory TABLES. *)
Inductive located (dk : Z -> option (list Z)) (b : FatBPB) (names tables : list (list Z)) : Z * Z -> Prop :=
| located_root ss :
    root_at dk b ss -> (found (search dk names false ss)).1 <> 0 ->
    located dk b names tables (found (search dk names false ss))
| located_nowhere ss :
    root_at dk b ss -> (found (search dk names false ss)).1 = 0 ->
    (found (search dk tables true ss)).1 = 0 -> located dk b names tables (found (search dk names false ss))
| located_tables ss t st :
    root_at dk b ss -> (found (search dk names false ss)).1 = 0 ->
    (found (search dk tables true ss)).1 = t -> t <> 0 -> dir_at dk b t st ->
    located dk b names tables (found (search dk names false st)).

(** A card state over the contents [dk]. *)
Record card_on (dk : Z -> option (list Z)) (c : Card D) : Prop := {
  co_image : image_ok dk;
  co_disk : on_disk dk (cd_dev c);
  co_secs : sector_ok (cd_sec c);
  co_dirs : sector_ok (cd_dir c);
}.

Lemma load_bpb_volume dk c : card_on dk c -> exists c',
  load_bpb c = Some (volume dk, c') /\ card_on dk c'.
Proof.
  intros [Hi Hd Hs Hdir]. unfold load_bpb, volume.
  destruct (read_on_disk dk 0 (cd_sec c) (cd_dev c) Hi Hd Hs) as (d1 & s1 & -> & Hd1 & Hs1 & Hdef).
  destruct (dk 0) as [x|]; cbn in Hdef; subst s1; [change (1 =? 0) with false|change (0 =? 0) with true];
    cbv iota; [|by eexists].
  destruct (find_vbr_total x Hs1) as [v ->]. destruct (v =? 0) eqn:Ev; cbn [negb].
  - change (1 =? 0) with false. cbv iota. destruct (parse_bpb_total x v Hs1) as (r & -> & _). by eexists.
  - destruct (read_on_disk dk v x d1 Hi Hd1 Hs1) as (d2 & s2 & -> & Hd2 & Hs2 & Hdef).
    destruct (dk v) as [y|]; cbn in Hdef; subst s2; [change (1 =? 0) with false|change (0 =? 0) with true];
      cbv iota; [|by eexists].
    destruct (parse_bpb_total y v Hs2) as (r & -> & _). by eexists.
Qed.

Lemma volume_ok dk b : image_ok dk -> volume dk = Some b ->
  1 <= sectors_per_cluster b /\ 0 <= root_dir_sectors b < 2 ^ 32.
Proof.
  intros Hi. unfold volume. destruct (dk 0) as [x|] eqn:E0; [|done].
  destruct (fat_find_vbr x) as [v|]; [|done].
  destruct (if v =? 0 then Some x else dk v) as [y|] eqn:Ey; [|done].
  assert (Hy : sector_ok y) by (destruct (v =? 0); [injection Ey as <-|]; by eapply Hi).
  destruct (parse_bpb_total y v Hy) as (r & E & Hr). rewrite E. intros ->.
  destruct (Hr b eq_refl). split; [done|]. clear Hr.
  unfold fat_parse_bpb in E. destruct (boot_signature y) as [[]|]; try done. cbn [negb] in E.
  repeat (match type of E with (match ?m with Some _ => _ | None => _ end) = _ => destruct m; [|done] end).
  repeat (match type of E with (if ?c then _ else _) = _ => destruct c; [done|] end).
  injection E as <-. cbn [root_dir_sectors]. change (Z.of_nat SD_SECTOR_SIZE) with 512.
  match goal with |- context [u32 ?x / 512] => pose proof (u32_range x); generalize dependent (u32 x) end.
  intros q Hq. unfold is_u32 in Hq. clear -Hq. Z.div_mod_to_equations. lia.
Qed.

(** ** Searching the volume *)

Section Search.
  Variables (dk : Z -> option (list Z)) (b : FatBPB).
  Hypothesis Himg : image_ok dk.

Lemma scan_dir_at cluster ss name83 alt want sec dir (d : D) :
  names_83 name83 alt -> dir_at dk b cluster ss -> on_disk dk d -> sector_ok sec -> sector_ok dir ->
  exists sec' dir' d',
    fat_scan_dir b 0 0 cluster name83 alt want sec dir d =
      Some (found (search dk (name_list name83 alt) want ss), sec', dir', d') /\
    on_disk dk d' /\ sector_ok sec' /\ sector_ok dir'.
Proof.
  intros Hn [[Hc ->]|(Hc & cs & Hch & ->)] Hd Hs Hdir.
  - destruct (scan_range_search dk b 0 0 cluster name83 alt want sec dir d Himg Hn Hc ltac:(lia) Hd Hs Hdir)
      as (s' & dir' & d' & E & R). exists s', dir', d'. split; [exact E|done].
  - by apply scan_chain_search.
Qed.

Lemma scan_root_at ss name83 alt want sec dir (d : D) :
  0 <= root_dir_sectors b < 2 ^ 32 ->
  names_83 name83 alt -> root_at dk b ss -> on_disk dk d -> sector_ok sec -> sector_ok dir ->
  exists sec' dir' d',
    scan_root b name83 alt want sec dir d =
      Some (found (search dk (name_list name83 alt) want ss), sec', dir', d') /\
    on_disk dk d' /\ sector_ok sec' /\ sector_ok dir'.
Proof.
  intros Hr Hn Hss Hd Hs Hdir. unfold scan_root, root_at in *. destruct (is_fat32 b); [by apply scan_dir_at|].
  subst ss. apply scan_range_search; (done || lia).
Qed.

Lemma find_file_located name83 alias83 tables83 r (c : Card D) :
  0 <= root_dir_sectors b < 2 ^ 32 -> names_83 name83 (Some alias83) -> names_83 tables83 None ->
  located dk b [name83; alias83] [tables83] r -> card_on dk c ->
  exists c', find_file b name83 alias83 tables83 c = Some (r, c') /\ card_on dk c'.
Proof.
  intros Hr Hn Ht Hl [_ Hd Hs Hdir]. unfold find_file. inversion Hl as [ss Hss H1|ss Hss H1 H2|ss t st Hss H1 H2 H3 Hst]; subst.
  all: destruct (scan_root_at ss name83 (Some alias83) false _ _ _ Hr Hn Hss Hd Hs Hdir)
    as (s1 & dir1 & d1 & -> & Hd1 & Hs1 & Hdir1); unfold name_list.
  all: destruct (found (search dk [name83; alias83] false ss)) as [cl size]; cbn [fst] in H1.
  - rewrite (proj2 (Z.eqb_neq _ _)) by done. by eexists.
  - rewrite (proj2 (Z.eqb_eq _ _)) by done. cbn [negb].
    destruct (scan_root_at ss tables83 None true _ _ _ Hr Ht Hss Hd1 Hs1 Hdir1)
      as (s2 & dir2 & d2 & -> & Hd2 & Hs2 & Hdir2); unfold name_list.
    destruct (found (search dk [tables83] true ss)) as [tc tz]; cbn [fst] in H2. subst. by eexists.
  - rewrite (proj2 (Z.eqb_eq _ _)) by done. cbn [negb].
    destruct (scan_root_at ss tables83 None true _ _ _ Hr Ht Hss Hd1 Hs1 Hdir1)
      as (s2 & dir2 & d2 & -> & Hd2 & Hs2 & Hdir2); unfold name_list.
    destruct (found (search dk [tables83] true ss)) as [tc tz]; cbn [fst] in *.
    rewrite (proj2 (Z.eqb_neq _ _)) by done.
    destruct (scan_dir_at tc st name83 (Some alias83) false _ _ _ Hn Hst Hd2 Hs2 Hdir2)
      as (s3 & dir3 & d3 & -> & Hd3 & Hs3 & Hdir3). unfold name_list.
    destruct (found (search dk [name83; alias83] false st)). by eexists.
Qed.

Lemma dir_at_total cluster : chains_end dk b -> exists ss, dir_at dk b cluster ss.
Proof.
  intros Hend. destruct (Z.lt_ge_cases cluster 2); [exists []; by left|].
  destruct (Hend (next_of dk b cluster)) as [cs Hcs]. eexists. right. split; [done|]. by exists cs.
Qed.

Lemma located_total names tables : chains_end dk b -> exists r, located dk b names tables r.
Proof.
  intros Hend. assert (Hroot : exists ss, root_at dk b ss).
  { unfold root_at. destruct (is_fat32 b); [by apply dir_at_total|by eexists]. }
  destruct Hroot as [ss Hss].
  destruct (Z.eq_dec (found (search dk names false ss)).1 0) as [E|E]; [|eexists; by eapply located_root].
  destruct (Z.eq_dec (found (search dk tables true ss)).1 0) as [Et|Et]; [eexists; by eapply located_nowhere|].
  destruct (dir_at_total (found (search dk tables true ss)).1 Hend) as [st Hst].
  eexists. by eapply located_tables.
Qed.

End Search.

(** ** Names *)

Lemma field83_length n t : length (field83 n t) = n.
Proof. unfold field83. rewrite length_app, length_fmap, length_take, length_replicate. lia. Qed.

Lemma to83_total name : is_Some (cstr name) -> exists r, to83 name = Some r /\ length r = 11%nat.
Proof.
  intros [t Ht]. unfold to83. rewrite Ht. destruct (split_dot t) as [base ext]. eexists. split; [done|].
  by rewrite length_app, !field83_length.
Qed.

Lemma to83_alias_total name : is_Some (cstr name) -> exists r, to83_alias_guess name = Some r /\ length r = 11%nat.
Proof.
  intros [t Ht]. unfold to83_alias_guess. rewrite Ht. destruct (split_dot t) as [base ext]. eexists. split; [done|].
  by rewrite !length_app, !field83_length.
Qed.

Definition tables_name : list Z := lit "TABLES     ".

(** The short names under which the file of a name is looked for. *)
Definition file_names (name : list Z) : option (list (list Z)) :=
  let? a := to83 name in let? b := to83_alias_guess name in Some [a; b].

Lemma found_size dk names want ss : is_u32 (found (search dk names want ss)).2.
Proof.
  assert (Hl : forall es c z, dir_lookup names want es = EntryFound c z -> is_u32 z).
  { induction es as [|de es IH]; intros c z; cbn [dir_lookup]; [done|].
    destruct (byte de 0 =? 0); [done|]. destruct (_ && _); [|apply IH].
    intros [= <- <-]. unfold ru32. do 4 (destruct (_ !! _); [|cbn; word_lia]). cbn. apply u32_range. }
  induction ss as [|s ss IH]; cbn [search]; [cbn; word_lia|].
  destruct (dk s); [|cbn; word_lia]. destruct (dir_lookup _ _ _) as [| |c z] eqn:E; [cbn; word_lia|done|].
  cbn. by eapply Hl.
Qed.

Lemma located_size dk b names tables r : located dk b names tables r -> is_u32 r.2.
Proof. destruct 1; apply found_size. Qed.

(** The state of the reader that carries over from one file to the next. *)
Definition card_ready (dk : Z -> option (list Z)) (c : Card D) : Prop :=
  card_on dk c /\ forall b, volume dk = Some b -> chains_end dk b.

(** The steps of [sd_read_file], once the file is located. *)
Lemma sd_read_file_located dk name names r buf c :
  card_on dk c -> is_Some (cstr name) -> file_names name = Some names ->
  (forall b, volume dk = Some b -> located dk b names [tables_name] r) ->
  exists c', card_on dk c' /\
    sd_read_file name buf (Z.of_nat (length buf)) c =
    match volume dk with
    | None => Some (-1, buf, c')
    | Some b => if r.1 =? 0 then Some (-1, buf, c') else if r.2 =? 0 then Some (0, buf, c') else
                read_data b r.1 r.2 (length buf) buf c'
    end.
Proof.
  intros Hc Hname. unfold file_names, sd_read_file.
  destruct (to83_total name Hname) as (n83 & -> & Hn83), (to83_alias_total name Hname) as (a83 & -> & Ha83).
  intros [= <-] Hloc. change (to83 (lit "tables" ++ [0])) with (Some tables_name). cbv iota.
  destruct (load_bpb_volume dk c Hc) as (c1 & -> & Hc1).
  destruct (volume dk) as [b|] eqn:Ev; [|by eexists].
  destruct (volume_ok dk b (co_image _ _ Hc) Ev) as [_ Hroot].
  destruct (find_file_located dk b (co_image _ _ Hc) n83 a83 tables_name r c1 Hroot ltac:(done) ltac:(done)
    (Hloc b eq_refl) Hc1) as (c2 & -> & Hc2). destruct r as [cl size]. cbn [fst snd].
  exists c2. split; [done|]. rewrite Nat2Z.id. done.
Qed.

Lemma sd_read_file_ready dk name buf c :
  card_ready dk c -> is_Some (cstr name) -> bytes buf ->
  exists n buf' c', sd_read_file name buf (Z.of_nat (length buf)) c = Some (n, buf', c') /\
    -1 <= n <= Z.of_nat (length buf) /\ length buf' = length buf /\ bytes buf' /\ card_ready dk c'.
Proof.
  intros [Hc Hend] Hname Hb.
  assert (Hnames : exists names, file_names name = Some names).
  { unfold file_names. destruct (to83_total name Hname) as (? & -> & _), (to83_alias_total name Hname) as (? & -> & _).
    by eexists. }
  destruct Hnames as [names Hnames].
  assert (Hr : exists r, is_u32 r.2 /\ forall b, volume dk = Some b -> located dk b names [tables_name] r).
  { destruct (volume dk) as [b|] eqn:Ev; [|exists (0, 0); split; [cbn; word_lia|done]].
    destruct (located_total dk b names [tables_name] (Hend b eq_refl)) as [r Hr].
    exists r. split; [by eapply located_size|]. by intros b' [= <-]. }
  destruct Hr as (r & Hsize & Hr).
  destruct (sd_read_file_located dk name names r buf c Hc Hname Hnames Hr) as (c1 & Hc1 & ->).
  assert (Hready : forall c, card_on dk c -> card_ready dk c) by (intros; by split).
  assert (Hearly : forall n, -1 <= n <= 0 -> exists n' buf' c', Some (n, buf, c1) = Some (n', buf', c') /\
    -1 <= n' <= Z.of_nat (length buf) /\ length buf' = length buf /\ bytes buf' /\ card_ready dk c').
  { intros n Hn. exists n, buf, c1. split; [done|]. split; [lia|]. split; [done|]. split; [done|]. by apply Hready. }
  destruct (volume dk) as [b|] eqn:Ev; [|by apply Hearly].
  destruct (r.1 =? 0); [by apply Hearly|]. destruct (r.2 =? 0); [by apply Hearly|].
  pose proof Hc1 as [Hi1 Hd1 Hs1 Hdir1].
  destruct (read_data_total dk b r.1 r.2 buf c1 Hi1 (proj1 (volume_ok dk b Hi1 Ev)) Hsize Hb Hd1 Hs1 Hdir1)
    as (n & buf' & c' & E & Hn & Hl & Hb' & Hd' & Hs' & Hdir').
  exists n, buf', c'. do 4 (split; [done|]). by apply Hready.
Qed.

End Spec.
