(* ===== verification/FatFile.v ===== *)
(** * FatFile

    The theorems about [sd_read_file]: it returns the contents of the file, it ends
    inside its buffers on every card whose directory chains end, and so it is a
    [FileReader] for the table loader; a directory chain with a cycle is searched for
    ever. *)

From S2P Require Import Prelude CString Request RequestFacts Table TableFacts HwDriver SpiSd.
From S2P Require Import Fat FatFacts FatSpec.

(** ** A card given by its sectors *)

(** The contents of the sectors; one that is not 512 bytes cannot be read. *)
Definition Image : Type := Z -> option (list Z).

#[export] Instance sector_ok_dec data : Decision (sector_ok data).
Proof. unfold sector_ok. apply _. Defined.

Definition image_sector (d : Image) (s : Z) : option (list Z) :=
  let? data := d s in if decide (sector_ok data) then Some data else None.

#[export] Instance image_sectors : Sectors Image := fun s buf d =>
  match image_sector d s with Some data => (1, data, d) | None => (0, buf, d) end.

Lemma image_sector_ok d : image_ok (image_sector d).
Proof.
  intros s data. unfold image_sector. destruct (d s) as [x|]; [|done].
  destruct (decide _); [by intros [= <-]|done].
Qed.

#[export] Instance image_disk : Disk Image.
Proof.
  refine {| disk := image_sector |}.
  - intros s buf d. exists d. unfold read_sector, image_sectors. by destruct (image_sector d s).
  - intros d s data E. by apply (image_sector_ok d s).
Defined.

Definition pad_sector (l : list Z) : list Z := l ++ replicate (512 - length l) 0.

(** A directory entry: a name of eleven characters, the attributes, the first cluster
    and the size, both below 256. *)
Definition dir_entry (name : list Z) (attr cluster size : Z) : list Z :=
  name ++ [attr] ++ replicate 14 0 ++ [cluster; 0; size; 0; 0; 0].

Definition demo_boot : list Z :=
  [0xEB; 0; 0x90] ++ replicate 8 0 ++ [0; 2; 1; 1; 0; 1; 16; 0; 0; 0; 0; 1; 0] ++
  replicate 486 0 ++ [0x55; 0xAA].

(** FAT16, one table, one sector per cluster; TABLES in the root directory holds
    DEMO.TBL. *)
Definition demo_image : Image := fun s =>
  match s with
  | 0 => Some demo_boot
  | 1 => Some (pad_sector (replicate 8 0xFF))
  | 2 => Some (pad_sector (dir_entry (lit "NOTES   TXT") 0x20 9 1 ++ dir_entry tables_name 0x10 2 0))
  | 3 => Some (pad_sector (dir_entry (lit "DEMO    TBL") 0x20 3 (Z.of_nat (length demo_table))))
  | 4 => Some (pad_sector demo_table)
  | _ => None
  end.

Definition card_of (d : Image) : Card Image := mkCard (replicate 512 0) (replicate 512 0) d.

Lemma card_of_on d : card_on (image_sector d) (card_of d).
Proof. constructor; [apply image_sector_ok|done|..]; cbn [cd_sec cd_dir card_of]; decide_closed. Qed.

Example demo_file :
  (let? (n, buf, _) := sd_read_file (lit "demo.tbl" ++ [0]) (replicate 64 7) 64 (card_of demo_image) in
   Some (n, buf)) = Some (Z.of_nat (length demo_table), demo_table ++ replicate (64 - length demo_table) 7).
Proof. vm_compute. reflexivity. Qed.

Example demo_missing :
  (let? (n, _, _) := sd_read_file (lit "none.tbl" ++ [0]) (replicate 64 7) 64 (card_of demo_image) in Some n) =
  Some (-1).
Proof. vm_compute. reflexivity. Qed.

Section File.
  Context {D : Type} `{Disk D}.

(** C26. [sd_read_file] on a FAT16 or FAT32 card: when the name is found in the root
    directory or in TABLES, with a first cluster and a size that are not zero, the call
    returns the number of bytes copied, the smallest of the size of the file, that of
    the buffer and that of the clusters of its chain, and the buffer holds that many
    bytes of the chain, followed by what it held before. *)
Theorem sd_read_file_contents (dk : Z -> option (list Z)) (b : FatBPB) (name : list Z) (names : list (list Z))
    (cluster size : Z) (cs : list Z) (X : list (list Z)) (buf : list Z) (c : Card D) :
  card_on dk c -> volume dk = Some b -> file_names name = Some names ->
  located dk b names [tables_name] (cluster, size) -> cluster <> 0 -> size <> 0 ->
  chain dk b cluster cs -> mapM (cluster_data dk b) cs = Some X ->
  let k := Nat.min (Nat.min (Z.to_nat size) (length buf)) (length (concat X)) in
  exists c', sd_read_file name buf (Z.of_nat (length buf)) c =
    Some (Z.of_nat k, take k (concat X) ++ drop k buf, c') /\ card_on dk c'.
Proof.
  intros Hc Hv Hnames Hloc Hcl Hsz Hch HX k.
  assert (Hname : is_Some (cstr name)).
  { unfold file_names, to83 in Hnames. destruct (cstr name); [done|discriminate]. }
  destruct (sd_read_file_located dk name names (cluster, size) buf c Hc Hname Hnames) as (c1 & Hc1 & ->);
    [intros b' Hb'; by simplify_eq|].
  rewrite Hv. cbn [fst snd]. rewrite !(proj2 (Z.eqb_neq _ _)) by done.
  pose proof Hc1 as [Hi Hd Hs Hdir]. pose proof (located_size _ _ _ _ _ Hloc) as Hz. cbn in Hz.
  pose proof (chain_short _ _ _ _ Hch) as Hshort.
  unfold read_data. rewrite iterP_iterN. revert Hshort. generalize (Pos.to_nat CHAIN_MAX). intros fuel Hfuel.
  assert (Hpos : 0 <= size) by word_lia. pose proof (copy_limit_min size buf Hpos) as Hlim.
  destruct (copy_loop_spec dk b size (length buf) _ buf Hi Hlim cs cluster fuel [] X
    (mkCopy buf 0 false (cd_sec c1) (cd_dev c1)) Hch Hfuel HX) as (c' & E & Hbuf & Hd' & Hs').
  { constructor; cbn [cy_read cy_done cy_buf cy_dev cy_sec length]; rewrite ?Nat.min_0_r, ?take_nil; try done. }
  cbn [app] in E, Hbuf. rewrite E, Hbuf. eexists. split; [done|]. by constructor.
Qed.

(** C27. Whatever the card holds, as long as the chains of its allocation table end,
    [sd_read_file] returns, writes only inside the buffer, and reports an error or at
    most the size of the buffer; sectors may fail, and boot sector, directories and
    sizes may be arbitrary. *)
Theorem sd_read_file_safe (dk : Z -> option (list Z)) (name buf : list Z) (c : Card D) :
  card_ready dk c -> is_Some (cstr name) -> bytes buf ->
  exists n buf' c', sd_read_file name buf (Z.of_nat (length buf)) c = Some (n, buf', c') /\
    -1 <= n <= Z.of_nat (length buf) /\ length buf' = length buf /\ bytes buf' /\ card_ready dk c'.
Proof. apply sd_read_file_ready. Qed.

(** The reader the table loader uses. *)
#[export] Instance fat_reader : FileReader (Card D) := sd_read_file.

#[export] Instance fat_reader_ok : FileReaderOk (Card D).
Proof.
  refine {| reader_inv := fun c => exists dk, card_ready dk c |}.
  intros name buf c [dk Hc] Hname Hb.
  destruct (sd_read_file_ready dk name buf c Hc Hname Hb) as (n & buf' & c' & E & R1 & R2 & R3 & R4).
  exists n, buf', c'. do 4 (split; [done|]). by exists dk.
Defined.

(** ** Cycles *)

Section Cycle.
  Variables (dk : Z -> option (list Z)) (b : FatBPB) (names83 : list Z) (alt : option (list Z)) (want : bool).

(** Every cluster of [P] is full of other entries and leads to a valid cluster of [P]. *)
Definition cyclic (P : Z -> Prop) : Prop :=
  forall c, P c -> P (next_of dk b c) /\ fat_clus_valid b (next_of dk b c) = true /\
    search dk (name_list names83 alt) want (cluster_secs b c) = EntrySkip.

(** C28. A directory chain with a cycle and no entry that ends the search keeps
    [fat_scan_dir] in its loop: no number of turns is enough. *)
Theorem directory_cycle_hangs (P : Z -> Prop) (start max : Z) (n : nat) (st : ScanState D) :
  image_ok dk -> names_83 names83 alt -> cyclic P -> P (ss_cluster st) ->
  on_disk dk (ss_dev st) -> sector_ok (ss_sec st) -> sector_ok (ss_dir st) ->
  exists st', iterN (scan_step b start max names83 alt want true) n st = inl st' /\ P (ss_cluster st').
Proof.
  intros Hi Hn Hcyc. revert st. induction n as [|n IH]; intros st HP Hd Hs Hdir; [by exists st|].
  cbn [iterN]. unfold scan_step at 1. cbn [negb]. destruct (Hcyc _ HP) as (HP' & Hv & Hsearch).
  destruct (scan_sectors_search dk b start max names83 alt want true (ss_cluster st) Hi Hn
    (Z.to_nat (sectors_per_cluster b)) 0 (ss_done st) (ss_dir st) (ss_dev st) ltac:(done) Hd Hdir)
    as (k & dir1 & d1 & E & Hd1 & Hdir1).
  cbv zeta in E. change (Z.of_nat 0) with 0 in E. rewrite E.
  change (scan_secs b start true (ss_cluster st) 0 (Z.to_nat (sectors_per_cluster b)))
    with (cluster_secs b (ss_cluster st)). rewrite Hsearch. cbn [orb].
  destruct (next_on_disk dk b (ss_cluster st) (ss_sec st) d1 Hi Hd1 Hs) as (sec1 & d2 & -> & Hd2 & Hs2).
  rewrite Hv. by apply (IH (mkScanState (next_of dk b (ss_cluster st)) k sec1 dir1 d2)).
Qed.

End Cycle.

End File.

(** ** The demonstration card *)

Definition demo_bpb : FatBPB := mkBPB 512 1 1 1 16 1 0 false 1 2 1 3.
Definition demo_tbl_name : list Z := lit "demo.tbl" ++ [0].

Lemma demo_volume : volume (image_sector demo_image) = Some demo_bpb.
Proof. vm_compute. reflexivity. Qed.

(** One decision per cluster: the chain of a cluster whose successor ends it. *)
Lemma chain_single dk b c : fat_clus_valid b c = true -> fat_clus_valid b (next_of dk b c) = false ->
  chain dk b c [c].
Proof. intros. constructor; [done|]. by constructor. Qed.

Lemma demo_located names :
  file_names demo_tbl_name = Some names ->
  located (image_sector demo_image) demo_bpb names [tables_name] (3, Z.of_nat (length demo_table)).
Proof.
  intros Hn. assert (E : (3, Z.of_nat (length demo_table)) =
    found (search (image_sector demo_image) names false [3])).
  { vm_compute in Hn. injection Hn as <-. vm_compute. reflexivity. }
  rewrite E. vm_compute in Hn. injection Hn as <-.
  apply (located_tables _ _ _ _ [2] 2 [3]); [vm_compute; reflexivity..|lia|].
  right. split; [lia|]. exists []. split; [by constructor|]. reflexivity.
Qed.

Lemma demo_chain : chain (image_sector demo_image) demo_bpb 3 [3].
Proof. apply chain_single; vm_compute; reflexivity. Qed.

Lemma demo_data : mapM (cluster_data (image_sector demo_image) demo_bpb) [3] = Some [pad_sector demo_table].
Proof. vm_compute. reflexivity. Qed.

Definition demo_names : list (list Z) := [lit "DEMO    TBL"; lit "DEMO  ~1TBL"].

Lemma demo_names_eq : file_names demo_tbl_name = Some demo_names.
Proof. vm_compute. reflexivity. Qed.

Lemma sd_read_file_contents_witness :
  exists c', sd_read_file demo_tbl_name (replicate 64 7) 64 (card_of demo_image) =
    Some (40, demo_table ++ replicate 24 7, c').
Proof.
  destruct (sd_read_file_contents (image_sector demo_image) demo_bpb demo_tbl_name demo_names 3
    (Z.of_nat (length demo_table)) [3] [pad_sector demo_table] (replicate 64 7) (card_of demo_image)
    (card_of_on _) demo_volume demo_names_eq (demo_located _ demo_names_eq) ltac:(lia)
    ltac:(vm_compute; congruence) demo_chain demo_data) as (c' & E & _).
  exists c'. change 64 with (Z.of_nat (length (replicate 64 7))). rewrite E. vm_compute. reflexivity.
Defined.

(** The chain of a cluster, when it has at most [n] of them. *)
Fixpoint walk (dk : Z -> option (list Z)) (b : FatBPB) (n : nat) (c : Z) : option (list Z) :=
  if fat_clus_valid b c then
    match n with O => None | S n => (c ::.) <$> walk dk b n (next_of dk b c) end
  else Some [].

Lemma walk_chain dk b n : forall c cs, walk dk b n c = Some cs -> chain dk b c cs.
Proof.
  induction n as [|n IH]; intros c cs; cbn [walk]; destruct (fat_clus_valid b c) eqn:Ev;
    [done|intros [= <-]; by constructor| |intros [= <-]; by constructor].
  intros (cs' & <- & E)%fmap_Some_1 || (intros E; apply fmap_Some in E as (cs' & E & ->)).
  constructor; [done|]. by apply IH.
Qed.

(** [f] holds of the [n] numbers from [c] on. *)
Fixpoint all_from (f : Z -> bool) (n : nat) (c : Z) : bool :=
  match n with O => true | S n => f c && all_from f n (c + 1) end.

Lemma all_from_true f n : forall c, all_from f n c = true -> forall x, c <= x < c + Z.of_nat n -> f x = true.
Proof.
  induction n as [|n IH]; intros c Hall x Hx; [lia|]. cbn [all_from] in Hall.
  apply andb_prop in Hall as [Hc Hall]. destruct (Z.eq_dec x c) as [->|]; [done|].
  apply (IH (c + 1)); (done || lia).
Qed.

(** Chains end when they do so, within [n] clusters, from each cluster a table of FAT16
    can name. *)
Lemma walk_chains_end dk b n : is_fat32 b = false ->
  all_from (fun c => bool_decide (is_Some (walk dk b n c))) (Z.to_nat 0xFFF6) 2 = true -> chains_end dk b.
Proof.
  intros Hb Hall c. destruct (fat_clus_valid b c) eqn:Ev; [|exists []; by constructor].
  assert (Hc : 2 <= c < 2 + Z.of_nat (Z.to_nat 0xFFF6)).
  { unfold fat_clus_valid, fat_is_eoc in Ev. rewrite Hb in Ev. lia. }
  apply (all_from_true _ _ _ Hall), bool_decide_eq_true in Hc as [cs Hcs]. exists cs. by eapply walk_chain.
Qed.

Lemma demo_ready : card_ready (image_sector demo_image) (card_of demo_image).
Proof.
  split; [apply card_of_on|]. rewrite demo_volume. intros b [= <-].
  apply (walk_chains_end _ _ 4); [done|]. vm_compute. reflexivity.
Qed.

Lemma sd_read_file_safe_witness :
  exists n buf' c', sd_read_file demo_tbl_name (replicate 64 7) 64 (card_of demo_image) = Some (n, buf', c') /\
    -1 <= n <= 64.
Proof.
  destruct (sd_read_file_safe (image_sector demo_image) demo_tbl_name (replicate 64 7) (card_of demo_image)
    demo_ready ltac:(by eexists) ltac:(decide_closed)) as (n & buf' & c' & E & Hn & _).
  exists n, buf', c'. by split.
Defined.

(** FAT32: the table, in sector 1, makes cluster 3 follow cluster 2 and cluster 2 follow
    cluster 3; both hold deleted entries. *)
Definition loop_bpb : FatBPB := mkBPB 512 1 1 1 0 1 2 true 1 2 0 2.
Definition loop_image : Image := fun s =>
  match s with
  | 1 => Some (pad_sector (replicate 8 0 ++ [3; 0; 0; 0; 2; 0; 0; 0]))
  | 2 | 3 => Some (replicate 512 0xE5)
  | _ => None
  end.

Lemma loop_cyclic name83 :
  cyclic (image_sector loop_image) loop_bpb name83 None false (fun c => c = 2 \/ c = 3).
Proof.
  intros c Hc. assert (Hsearch : forall s, s = 2 \/ s = 3 -> forall names, search (image_sector loop_image) names false [s] = EntrySkip).
  { intros s [-> | ->] names; vm_compute; reflexivity. }
  destruct Hc as [-> | ->].
  - split; [right; vm_compute; reflexivity|]. split; [vm_compute; reflexivity|]. apply (Hsearch 2). by left.
  - split; [left; vm_compute; reflexivity|]. split; [vm_compute; reflexivity|]. apply (Hsearch 3). by right.
Qed.

Lemma directory_cycle_hangs_witness : exists st',
  iterN (scan_step loop_bpb 0 0 tables_name None false true) 1000
    (mkScanState 2 0 (replicate 512 0) (replicate 512 0) loop_image) = inl st'.
Proof.
  destruct (directory_cycle_hangs (image_sector loop_image) loop_bpb tables_name None false
    (fun c => c = 2 \/ c = 3) 0 0 1000 (mkScanState 2 0 (replicate 512 0) (replicate 512 0) loop_image)
    (image_sector_ok _) ltac:(done) (loop_cyclic _) ltac:(by left) ltac:(done) ltac:(decide_closed)
    ltac:(decide_closed)) as (st' & E & _).
  exists st'. exact E.
Defined.
