(* ===== verification/FatBoard.v ===== *)
(** * FatBoard

    The server on the FAT reader: the table loader with [sd_read_file] of Fat as its
    reader, and a board made of an accelerator, a card and the connections. *)

From S2P Require Import Prelude CString Request RequestFacts Table TableFacts Compile Accel HwDriver Response Server ServerFacts ServerSpec.
From S2P Require Import SpiSd Fat FatFacts FatSpec FatFile.

(** ** Loading a table from the card *)

Section Load.
  Context {D : Type} `{Disk D}.

(** The contract of a reader, for a card whose sectors stay those of [dk]. *)
Lemma fat_reader_ok_on (dk : Z -> option (list Z)) : @FileReaderOk (Card D) fat_reader.
Proof. refine {| reader_inv := card_ready dk |}. intros name buf c. apply sd_read_file_ready. Defined.

(** C6.  Loading a table of the accepted request from a card whose cluster chains end
    ([card_ready], which asks nothing else: boot sector, directories, table headers and
    data may be arbitrary, and sectors may fail) returns and never reads or writes
    outside the 256 KiB file buffer.  When it succeeds the schema is well formed
    (version 1, one to four one-byte columns, four-byte rows), and the stream is the
    whole rows that are really in the buffer: its size is four times the row count the
    schema reports, inside the buffer. *)
Theorem load_table_from_sd_safe (dk : Z -> option (list Z)) (t buf : list Z) (c : Card D) :
  identifierb t = true -> (length t < 32)%nat ->
  length buf = Z.to_nat SD_FILE_MAX_SIZE -> bytes buf -> card_ready dk c ->
  exists res buf' c',
    load_table_from_sd (zbuf 32 t) buf c = Some (res, buf', c') /\
    card_ready dk c' /\ length buf' = length buf /\
    (forall sch src total, res = Some (sch, src, total) ->
       schema_ok sch /\ src = mkSource (Some (drop TABLE_HEADER_BYTES buf')) total 0 /\
       total = 4 * row_count sch /\ total + 28 <= Z.of_nat (length buf')).
Proof.
  intros Ht Hl Hb Hbytes Hc.
  destruct (@load_table_from_sd_spec _ _ (fat_reader_ok_on dk) t buf c Ht Hl Hb Hbytes Hc)
    as (res & buf' & c' & E & Hc' & Hl' & _ & Hres).
  exists res, buf', c'. by split_and!.
Qed.

End Load.

Lemma load_table_from_sd_safe_witness :
  exists res buf' c',
    load_table_from_sd (zbuf 32 (lit "demo")) (replicate (Z.to_nat SD_FILE_MAX_SIZE) 0) (card_of demo_image) =
      Some (res, buf', c') /\ card_ready (image_sector demo_image) c'.
Proof.
  assert (Hb : bytes (replicate (Z.to_nat SD_FILE_MAX_SIZE) 0)) by (apply Forall_replicate; word_lia).
  destruct (load_table_from_sd_safe (image_sector demo_image) (lit "demo")
    (replicate (Z.to_nat SD_FILE_MAX_SIZE) 0) (card_of demo_image) ltac:(reflexivity) ltac:(cbn; lia)
    (length_replicate _ _) Hb demo_ready) as (res & buf' & c' & E & Hc & _).
  exists res, buf', c'. by split.
Defined.

(** ** A board with a FAT card *)

Record FatBoard (D : Type) := mkFatBoard { fb_hw : Accel; fb_card : Card D; fb_log : list NetEvent }.
Arguments mkFatBoard {D} _ _ _.
Arguments fb_hw {D} _.
Arguments fb_card {D} _.
Arguments fb_log {D} _.

Section Board.
  Context {D : Type} `{Disk D}.

#[export] Instance fat_bus : Bus (FatBoard D) := {|
  IOWR_32DIRECT base off v s := mkFatBoard (IOWR_32DIRECT base off v (fb_hw s)) (fb_card s) (fb_log s);
  IORD_32DIRECT base off s := (fst (IORD_32DIRECT base off (fb_hw s)), s);
  OSTimeDlyHMSM _ _ _ _ s := s;
|}.

#[export] Instance fat_user_hw : UserHw (FatBoard D) := {|
  hw_view := fb_hw;
  hw_write_law off v d := eq_refl;
  hw_read_law off d := eq_refl;
  hw_read_view off d := eq_refl;
  hw_delay_view h m s ms d := eq_refl;
|}.

#[export] Instance fat_board_reader : FileReader (FatBoard D) := fun name buf size s =>
  let? (n, buf, c) := sd_read_file name buf size (fb_card s) in Some (n, buf, mkFatBoard (fb_hw s) c (fb_log s)).

#[export] Instance fat_board_reader_ok : FileReaderOk (FatBoard D).
Proof.
  refine {| reader_inv s := exists dk, card_ready dk (fb_card s) |}. intros name buf s [dk Hc] Hname Hb.
  destruct (sd_read_file_ready dk name buf _ Hc Hname Hb) as (n & buf' & c' & E & R1 & R2 & R3 & R4).
  unfold read_file, fat_board_reader. rewrite E. eexists _, _, _. split; [done|]. do 3 (split; [done|]). by exists dk.
Defined.

#[export] Instance fat_net : Net (FatBoard D) := {|
  net_send fd data s := mkFatBoard (fb_hw s) (fb_card s) (fb_log s ++ [Sent fd data]);
  net_close fd s := mkFatBoard (fb_hw s) (fb_card s) (fb_log s ++ [Closed fd]);
|}.

#[export] Instance fat_board : Board (FatBoard D).
Proof.
  refine {| net_log := fb_log |}; try done.
  intros name buf size s n buf' s' E. unfold read_file, fat_board_reader in E.
  destruct (sd_read_file _ _ _ _) as [[[? ?] ?]|]; [|done]. by injection E as <- <- <-.
Defined.

End Board.

Definition fat_start : FatBoard Image := mkFatBoard (sim_hw sim_start) (card_of demo_image) [].

Lemma fat_start_inv : reader_inv fat_start.
Proof. exists (image_sector demo_image). apply demo_ready. Qed.

Lemma process_request_answers_witness :
  exists g' d' status text, process_request 5 star_request globals_start fat_start = Some (g', d') /\
    globals_ok g' /\ reader_inv d' /\ status_known status /\
    net_log d' = net_log fat_start ++ answer 5 status text.
Proof.
  exact (process_request_answers 5 star_request (lit "t") star_sql globals_start fat_start star_valid
    globals_start_ok fat_start_inv).
Defined.
