(* ===== verification/NetQueue.v ===== *)
(** * NetQueue

    The queues of the network stack (q.h, q.c): singly linked lists through the first
    field of their elements, with a header that counts them.  The queue checks of q.c are
    not compiled in. *)

From stdpp Require Import sets.
From S2P Require Import Prelude.

(** The elements are numbered; [links !! x] is the field [qe_next] of element [x]. *)
Abbreviation links := (list (option nat)) (only parsing).

Record queue := mkQueue {
  q_head : option nat;
  q_tail : option nat;
  q_len : Z;
  q_max : Z;
  q_min : Z;
}.

Definition q_zero : queue := mkQueue None None 0 0 0.

(** [x->qe_next = v] *)
Definition set_next (x : nat) (v : option nat) (m : links) : option links :=
  if (x <? length m)%nat then Some (<[x := v]> m) else UB.

(** [q_addt]: adds an element at the tail. *)
Definition q_addt (q : queue) (elt : nat) (m : links) : option (queue * links) :=
  let? m := set_next elt None m in
  let? hm := match q_head q with
             | None => Some (Some elt, m)
             | Some h =>
                 let? t := q_tail q in let? m := set_next t (Some elt) m in Some (Some h, m)
             end in
  let len := s32 (q_len q + 1) in
  Some (mkQueue (fst hm) (Some elt) len (if q_max q <? len then len else q_max q) (q_min q), snd hm).

Definition putq (q : queue) (elt : nat) (m : links) : option (queue * links) := q_addt q elt m.

Definition low_mark (len q_min : Z) : Z := if len <? q_min then len else q_min.

Definition getq (q : queue) (m : links) : option (option nat * queue * links) :=
  match q_head q with
  | None => Some (None, q, m)
  | Some temp =>
      let? next := m !! temp in
      let? m := set_next temp None m in
      let tail := match next with None => None | Some _ => q_tail q end in
      let len := s32 (q_len q - 1) in
      Some (Some temp, mkQueue next tail len (q_max q) (low_mark len (q_min q)), m)
  end.

(** The search of qdel, from element [qptr]; the answer is the element before the one
    found.  [fuel] bounds the loop: a list without a cycle has at most as many elements as
    there are links, and only a cycle makes it run out. *)
Fixpoint qdel_search (fuel : nat) (elt : nat) (qptr qlast : option nat) (m : links) : option (option (option nat)) :=
  match fuel with
  | O => UB
  | S fuel =>
      match qptr with
      | None => Some None
      | Some p => if (p =? elt)%nat then Some (Some qlast)
                  else let? next := m !! p in qdel_search fuel elt next (Some p) m
      end
  end.

Definition qdel (q : queue) (elt : nat) (m : links) : option (option nat * queue * links) :=
  let? r := qdel_search (S (length m)) elt (q_head q) None m in
  match r with
  | None => Some (None, q, m)
  | Some qlast =>
      let? next := m !! elt in
      let? hm := match qlast with
                 | Some l => let? m := set_next l next m in Some (q_head q, m)
                 | None => Some (next, m)
                 end in
      let tail := if decide (q_tail q = Some elt) then qlast else q_tail q in
      let len := s32 (q_len q - 1) in
      Some (Some elt, mkQueue (fst hm) tail len (q_max q) (low_mark len (q_min q)), snd hm)
  end.

(** The loop [for (p = q_head; p; p = p->next) if (p == elt) ...], bounded by [fuel]. *)
Fixpoint q_member (fuel : nat) (elt : nat) (p : option nat) (m : links) : option bool :=
  match fuel with
  | O => UB
  | S fuel =>
      match p with
      | None => Some false
      | Some x => if (x =? elt)%nat then Some true else let? next := m !! x in q_member fuel elt next m
      end
  end.

(** ** The list a queue represents *)

Fixpoint chain (m : links) (l : list nat) : Prop :=
  match l with
  | [] => True
  | x :: l => m !! x = Some (head l) /\ chain m l
  end.

Record queue_of (q : queue) (m : links) (l : list nat) : Prop := {
  qo_head : q_head q = head l;
  qo_tail : q_tail q = last l;
  qo_len : q_len q = Z.of_nat (length l);
  qo_chain : chain m l;
  qo_nodup : NoDup l;
}.

(** The counters of a queue bound its length. *)
Definition q_marks (q : queue) : Prop := q_min q <= q_len q <= q_max q.

Lemma chain_frame m m' l : (forall x, x ∈ l -> m' !! x = m !! x) -> chain m l -> chain m' l.
Proof.
  induction l as [|x l IH]; cbn; [done|]. intros H [Hx Hl]. split.
  - rewrite H; [done|]. by left.
  - apply IH; [|done]. intros y Hy. apply H. by right.
Qed.

Lemma queue_of_frame q m m' l : (forall x, x ∈ l -> m' !! x = m !! x) -> queue_of q m l -> queue_of q m' l.
Proof. intros H []. split; try done. by apply (chain_frame m). Qed.

Lemma chain_in m l x : chain m l -> x ∈ l -> is_Some (m !! x).
Proof.
  induction l as [|y l IH]; cbn; [by intros _ ?%elem_of_nil|].
  intros [Hy Hl] [->|Hx]%elem_of_cons; [by rewrite Hy|by apply IH].
Qed.

Lemma chain_snoc m l x t : NoDup (l ++ [t]) -> x ∉ l ++ [t] -> chain m (l ++ [t]) -> m !! x = Some None ->
  chain (<[t := Some x]> m) (l ++ [t; x]).
Proof.
  intros Hnd Hx. induction l as [|y l IH]; cbn [app chain head].
  - intros [Ht _] Hm. assert (x <> t) by (intros ->; apply Hx; by left).
    rewrite list_lookup_insert_eq by (by eapply lookup_lt_Some). rewrite list_lookup_insert_ne by done. by rewrite Hm.
  - intros [Hy Hl] Hm. apply NoDup_cons in Hnd as [Hn Hnd].
    rewrite list_lookup_insert_ne by (intros ->; apply Hn; set_solver).
    split; [rewrite Hy; by destruct l|]. apply IH; [done| |done..]. intros H. apply Hx. by right.
Qed.

Lemma set_next_lt x v m : (x < length m)%nat -> set_next x v m = Some (<[x := v]> m).
Proof. intros H. unfold set_next. by rewrite (proj2 (Nat.ltb_lt _ _) H). Qed.

Lemma s32_nat n : (Z.of_nat n < 2 ^ 31) -> s32 (Z.of_nat n) = Z.of_nat n.
Proof. intros H. apply s32_small. lia. Qed.

(** Adding at the tail. *)
Lemma putq_spec q m l x : queue_of q m l -> x ∉ l -> (x < length m)%nat -> Z.of_nat (length l) + 1 < 2 ^ 31 ->
  exists q' m', putq q x m = Some (q', m') /\ queue_of q' m' (l ++ [x]) /\ length m' = length m /\
    (forall y, y ∉ x :: l -> m' !! y = m !! y) /\ (q_marks q -> q_marks q') /\ q_min q' = q_min q.
Proof.
  intros [Hh Ht Hl Hc Hn] Hx Hlt Hs. unfold putq, q_addt. rewrite set_next_lt by done. rewrite Hh, Ht, Hl.
  replace (Z.of_nat (length l) + 1) with (Z.of_nat (length (l ++ [x]))) by (rewrite length_app; cbn; lia).
  rewrite s32_nat by (rewrite length_app; cbn; lia).
  assert (Hnd : NoDup (l ++ [x])) by (apply NoDup_app; repeat split; [done|set_solver|apply NoDup_singleton]).
  assert (Hc' : chain (<[x := None]> m) l).
  { apply (chain_frame m); [|done]. intros y Hy. apply list_lookup_insert_ne. by intros ->. }
  assert (Hmarks : forall qt, q_marks q ->
    q_marks (mkQueue qt (Some x) (Z.of_nat (length (l ++ [x])))
      (if q_max q <? Z.of_nat (length (l ++ [x])) then Z.of_nat (length (l ++ [x])) else q_max q) (q_min q))).
  { intros qt. unfold q_marks. cbn. rewrite length_app. cbn. intros. destruct (Z.ltb_spec (q_max q) (Z.of_nat (length l + 1))); lia. }
  destruct l as [|h l]; cbn [head fst snd].
  - eexists _, _. split; [done|]. split; [split; cbn; try done|].
    + by rewrite list_lookup_insert_eq.
    + rewrite length_insert. split; [done|]. split; [|by split; [apply Hmarks|]].
      intros y Hy. apply list_lookup_insert_ne. set_solver.
  - destruct (exists_last (l := h :: l)) as [l0 [t E]]; [done|]. rewrite E in *.
    rewrite last_snoc. assert (Htm : (t < length m)%nat).
    { destruct (chain_in m (l0 ++ [t]) t Hc) as [v Hv]; [set_solver|]. by eapply lookup_lt_Some. }
    rewrite set_next_lt by (by rewrite length_insert). cbn [fst snd].
    eexists _, _. split; [done|]. split; [split; cbn [q_head q_tail q_len]; try done|].
    + rewrite <- E. done.
    + by rewrite last_snoc.
    + rewrite <- app_assoc. apply chain_snoc; try done. by rewrite list_lookup_insert_eq.
    + rewrite !length_insert. split; [done|]. split; [|by split; [apply Hmarks|]].
      intros y Hy. rewrite !list_lookup_insert_ne; [done|set_solver..].
Qed.

(** Taking the head. *)
Lemma getq_empty q m : queue_of q m [] -> getq q m = Some (None, q, m).
Proof. intros [Hh _ _ _ _]. unfold getq. by rewrite Hh. Qed.

Lemma getq_spec q m x l : queue_of q m (x :: l) -> Z.of_nat (length (x :: l)) < 2 ^ 31 ->
  exists q', getq q m = Some (Some x, q', <[x := None]> m) /\ queue_of q' (<[x := None]> m) l /\
    (q_marks q -> q_marks q').
Proof.
  intros [Hh Ht Hl Hc Hn] Hs. cbn in Hc. destruct Hc as [Hx Hc]. apply NoDup_cons in Hn as [Hxl Hn].
  unfold getq. rewrite Hh. cbn [head]. rewrite Hx, set_next_lt by (by eapply lookup_lt_Some).
  rewrite Ht, Hl. replace (Z.of_nat (length (x :: l)) - 1) with (Z.of_nat (length l)) by (cbn; lia).
  rewrite s32_nat by (cbn in Hs; lia).
  eexists. split; [done|]. split.
  - split; cbn [q_head q_tail q_len]; try done; [by destruct l|].
    apply (chain_frame m); [|done]. intros y Hy. apply list_lookup_insert_ne. by intros ->.
  - unfold q_marks, low_mark. rewrite Hl. cbn. destruct (Z.ltb_spec (Z.of_nat (length l)) (q_min q)); lia.
Qed.

(** The scan finds exactly the members, within as many turns as the list is long. *)
Lemma q_member_spec m l x fuel : chain m l -> (length l < fuel)%nat ->
  q_member fuel x (head l) m = Some (bool_decide (x ∈ l)).
Proof.
  revert fuel. induction l as [|y l IH]; intros [|fuel]; cbn [length]; try lia; intros Hc Hf; cbn [q_member head].
  - by rewrite bool_decide_eq_false_2 by apply not_elem_of_nil.
  - destruct Hc as [Hy Hc]. destruct (Nat.eqb_spec y x) as [->|Hne].
    + rewrite bool_decide_eq_true_2; [done|by left].
    + rewrite Hy, IH by (done || lia). f_equal. apply bool_decide_ext. rewrite elem_of_cons. intuition congruence.
Qed.

(** No list without repetition is longer than there are links. *)
Lemma chain_bounded m l : chain m l -> NoDup l -> (length l <= length m)%nat.
Proof.
  intros Hc Hn. rewrite <- (length_seq (length m) 0). apply submseteq_length, NoDup_submseteq; [done|].
  intros x Hx. apply elem_of_seq. destruct (chain_in m l x Hc Hx) as [v Hv].
  apply lookup_lt_Some in Hv. lia.
Qed.

(** ** Removal from the middle *)

Lemma qdel_search_out m l x qlast fuel : chain m l -> x ∉ l -> (length l < fuel)%nat ->
  qdel_search fuel x (head l) qlast m = Some None.
Proof.
  revert fuel qlast. induction l as [|y l IH]; intros [|fuel] qlast; cbn [length]; try lia; intros Hc Hx Hf; [done|].
  cbn [qdel_search head]. destruct Hc as [Hy Hc]. destruct (Nat.eqb_spec y x) as [->|Hne]; [set_solver|].
  rewrite Hy. apply IH; [done|set_solver|lia].
Qed.

Lemma qdel_search_in m l1 x l2 qlast fuel : chain m (l1 ++ x :: l2) -> x ∉ l1 -> (length l1 < fuel)%nat ->
  qdel_search fuel x (head (l1 ++ x :: l2)) qlast m =
    Some (Some (match last l1 with Some y => Some y | None => qlast end)).
Proof.
  revert fuel qlast. induction l1 as [|y l1 IH]; intros [|fuel] qlast; cbn [length]; try lia; intros Hc Hx Hf.
  - cbn. by rewrite Nat.eqb_refl.
  - cbn [app qdel_search head]. destruct Hc as [Hy Hc]. destruct (Nat.eqb_spec y x) as [->|Hne]; [set_solver|].
    rewrite Hy, IH; [|done|set_solver|lia]. destruct l1 as [|z l1]; [done|].
    rewrite last_cons_cons. destruct (last (z :: l1)) eqn:E; [done|]. by apply last_None in E.
Qed.

Lemma links_unlink m l0 p x l2 : NoDup (l0 ++ p :: x :: l2) -> chain m (l0 ++ p :: x :: l2) ->
  chain (<[p := head l2]> m) (l0 ++ p :: l2).
Proof.
  induction l0 as [|y l0 IH]; cbn [app].
  - intros Hn [Hp [_ Hc]]. apply NoDup_cons in Hn as [Hn _]. cbn. split.
    + apply list_lookup_insert_eq. by eapply lookup_lt_Some.
    + apply (chain_frame m); [|done]. intros z Hz. apply list_lookup_insert_ne. intros ->. apply Hn. by right.
  - intros [Hn Hn']%NoDup_cons [Hy Hc]. cbn. split; [|by apply IH].
    rewrite list_lookup_insert_ne; [rewrite Hy; by destruct l0|]. intros ->. apply Hn. set_solver.
Qed.

Lemma qdel_absent q m l x : queue_of q m l -> x ∉ l -> qdel q x m = Some (None, q, m).
Proof.
  intros [Hh _ _ Hc Hn] Hx. unfold qdel. rewrite Hh, qdel_search_out; try done.
  pose proof (chain_bounded m l Hc Hn). lia.
Qed.

(** Removing a member leaves the others in their order. *)
Lemma qdel_spec q m l1 x l2 : queue_of q m (l1 ++ x :: l2) -> Z.of_nat (length (l1 ++ x :: l2)) < 2 ^ 31 ->
  exists q' m', qdel q x m = Some (Some x, q', m') /\ queue_of q' m' (l1 ++ l2) /\ (q_marks q -> q_marks q').
Proof.
  intros [Hh Ht Hl Hc Hn] Hs. unfold qdel.
  assert (Hx1 : x ∉ l1 ++ l2) by (apply NoDup_app in Hn as (_ & Hd & [Hn _]%NoDup_cons); intros [H|H]%elem_of_app; [apply (Hd x H); by left|done]).
  assert (Hnd : NoDup (l1 ++ l2)) by (apply (NoDup_cons_1_2 x); by rewrite Permutation_middle).
  pose proof (chain_bounded _ _ Hc Hn) as Hb. rewrite length_app in Hb. cbn in Hb.
  rewrite Hh, qdel_search_in by (done || lia || set_solver).
  assert (Hnext : m !! x = Some (head l2)) by (clear -Hc; induction l1 as [|y l1 IH]; cbn in Hc; tauto).
  rewrite Hnext, Hl. replace (Z.of_nat (length (l1 ++ x :: l2)) - 1) with (Z.of_nat (length (l1 ++ l2)))
    by (rewrite !length_app; cbn; lia).
  rewrite s32_nat by (rewrite !length_app in *; cbn in Hs; lia).
  assert (Htail : forall qlast, qlast = last l1 ->
    (if decide (q_tail q = Some x) then qlast else q_tail q) = last (l1 ++ l2)).
  { intros qlast ->. rewrite Ht. destruct l2 as [|z l2].
    - rewrite app_nil_r, last_snoc. by destruct (decide _).
    - destruct (last (z :: l2)) as [w|] eqn:Ew; [|by apply last_None in Ew].
      rewrite !last_app, last_cons_cons, Ew. destruct (decide _) as [[= ->]|]; [|done].
      exfalso. apply Hx1. apply last_Some in Ew as [l' Ew]. rewrite Ew. set_solver. }
  assert (Hm : q_marks q -> forall h t, q_marks (mkQueue h t (Z.of_nat (length (l1 ++ l2))) (q_max q)
      (low_mark (Z.of_nat (length (l1 ++ l2))) (q_min q)))).
  { unfold q_marks, low_mark. rewrite Hl, !length_app. cbn. intros ? _ _. destruct (Z.ltb_spec (Z.of_nat (length l1 + length l2)) (q_min q)); lia. }
  destruct (last l1) as [p|] eqn:Ep.
  - apply last_Some in Ep as [l0 ->]. rewrite <- app_assoc in Hc, Hn, Hnd, Htail. cbn [app] in *.
    destruct (chain_in _ _ p Hc) as [v Hv]; [set_solver|].
    rewrite set_next_lt by (by eapply lookup_lt_Some). cbn [fst snd].
    eexists _, _. split; [done|]. split; [|by intros; apply Hm].
    split; cbn [q_head q_tail q_len]; try done.
    + by destruct l0.
    + rewrite <- app_assoc. cbn. by apply Htail.
    + rewrite <- app_assoc. by apply links_unlink with x.
    + by rewrite <- app_assoc.
  - apply last_None in Ep as ->. cbn [fst snd app] in *. eexists _, _. split; [done|]. split; [|by intros; apply Hm].
    split; cbn [q_head q_tail q_len]; try done; [by apply Htail|]. apply Hc.
Qed.
