(* ===== verification/PktPool.v ===== *)
(** * PktPool

    The packet buffers of the network stack (netbuf.h, pktalloc.c) in the configuration of
    the board: NPDEBUG on, neither heap buffers nor linked packets. *)

From S2P Require Import Prelude NetQueue.

Definition NUMBIGBUFS : nat := 30.
Definition NUMLILBUFS : nat := 30.
Definition MAXPACKETS : nat := 60.
Definition BIGBUFSIZE : Z := 1536.
Definition LILBUFSIZE : Z := 128.
Definition ALIGN_TYPE : Z := 4.
Definition BAD_REGULAR_BUF_LEN_ERR : nat := 0.
Definition GUARD_BAND_VIOLATED_ERR : nat := 1.
Definition MULTIPLE_FREE_ERR : nat := 2.
Definition INCONSISTENT_LOCATION_ERR : nat := 3.

(** A [struct netbuf].  [nb_mem] is the block that was allocated for its data, and
    [nb_buff] and [nb_prot] are positions in that block; the link [next] is kept apart, in
    [pk_links].  The host address and the options of a packet are not used here. *)
Record netbuf := mkNetbuf {
  nb_mem : list Z;
  nb_buff : Z;
  nb_blen : Z;
  nb_prot : Z;
  nb_plen : Z;
  nb_tstamp : Z;
  nb_net : option nat;
  nb_type : Z;
  nb_inuse : Z;
  nb_flags : Z;
}.

(** The packets, by number, the three queues and the error counters. *)
Record Pool := mkPool {
  pk_links : list (option nat);
  pk_bufs : list netbuf;
  bigfreeq : queue;
  lilfreeq : queue;
  rcvdq : queue;
  memestats : list Z;
  MaxLnh : Z;
}.

Definition set_links (x : list (option nat)) (p : Pool) : Pool :=
  mkPool x (pk_bufs p) (bigfreeq p) (lilfreeq p) (rcvdq p) (memestats p) (MaxLnh p).
Definition set_bufs (x : list netbuf) (p : Pool) : Pool :=
  mkPool (pk_links p) x (bigfreeq p) (lilfreeq p) (rcvdq p) (memestats p) (MaxLnh p).
Definition set_big (x : queue * list (option nat)) (p : Pool) : Pool :=
  mkPool (snd x) (pk_bufs p) (fst x) (lilfreeq p) (rcvdq p) (memestats p) (MaxLnh p).
Definition set_lil (x : queue * list (option nat)) (p : Pool) : Pool :=
  mkPool (snd x) (pk_bufs p) (bigfreeq p) (fst x) (rcvdq p) (memestats p) (MaxLnh p).
Definition set_rcv (x : queue * list (option nat)) (p : Pool) : Pool :=
  mkPool (snd x) (pk_bufs p) (bigfreeq p) (lilfreeq p) (fst x) (memestats p) (MaxLnh p).

Definition set_mem (x : list Z) (b : netbuf) : netbuf :=
  mkNetbuf x (nb_buff b) (nb_blen b) (nb_prot b) (nb_plen b) (nb_tstamp b) (nb_net b) (nb_type b)
    (nb_inuse b) (nb_flags b).
Definition set_inuse (x : Z) (b : netbuf) : netbuf :=
  mkNetbuf (nb_mem b) (nb_buff b) (nb_blen b) (nb_prot b) (nb_plen b) (nb_tstamp b) (nb_net b) (nb_type b)
    x (nb_flags b).

(** The assignments of pk_alloc. *)
Definition fresh_fields (max_lnh : Z) (b : netbuf) : netbuf :=
  mkNetbuf (nb_mem b) (nb_buff b) (nb_blen b) (nb_buff b + max_lnh) 0 (nb_tstamp b) None (nb_type b)
    1 (nb_flags b).

(** [INCR_SHARED_VAR (memestats, e, 1)] *)
Definition incr_stat (e : nat) (p : Pool) : Pool :=
  mkPool (pk_links p) (pk_bufs p) (bigfreeq p) (lilfreeq p) (rcvdq p)
    (alter (fun x => u32 (x + 1)) e (memestats p)) (MaxLnh p).

(** ** Operations *)

(** A byte of a block; outside of it is undefined behaviour. *)
Definition mem_byte (l : list Z) (i : Z) : option Z := if i <? 0 then UB else l !! Z.to_nat i.
Definition mem_put (i v : Z) (l : list Z) : option (list Z) :=
  if (0 <=? i) && (i <? Z.of_nat (length l)) then Some (<[Z.to_nat i := v]> l) else UB.

Fixpoint put_marks (n : nat) (i : Z) (l : list Z) : option (list Z) :=
  match n with
  | O => Some l
  | S n => let? l := mem_put i (ch "M") l in put_marks n (i + 1) l
  end.

(** A zeroed block for [size] bytes of data, with the marks around them. *)
Definition new_block (size : Z) : option (list Z) :=
  let? l := put_marks (Z.to_nat ALIGN_TYPE) 0 (replicate (Z.to_nat (size + ALIGN_TYPE + 1)) 0) in
  mem_put (size + ALIGN_TYPE) (ch "M") l.

Definition new_netbuf (size : Z) : option netbuf :=
  let? l := new_block size in
  Some (mkNetbuf l ALIGN_TYPE size 0 0 0 None 0 0 0).

(** [packet = (PACKET)NB_ALLOC(...)]: a zeroed packet, at the end of the table. *)
Definition add_netbuf (b : netbuf) (p : Pool) : Pool :=
  mkPool (pk_links p ++ [None]) (pk_bufs p ++ [b]) (bigfreeq p) (lilfreeq p) (rcvdq p) (memestats p) (MaxLnh p).

Definition set_mins (p : Pool) : Pool :=
  let mins q n := mkQueue (q_head q) (q_tail q) (q_len q) (q_max q) n in
  mkPool (pk_links p) (pk_bufs p) (mins (bigfreeq p) (Z.of_nat NUMBIGBUFS))
    (mins (lilfreeq p) (Z.of_nat NUMLILBUFS)) (rcvdq p) (memestats p) (MaxLnh p).

(** The loop of pk_init, with [n] turns left; [alloc_ok k] tells whether the allocation
    number [k] succeeds.  A packet whose data cannot be allocated is lost. *)
Fixpoint pk_init_loop (alloc_ok : nat -> bool) (n i : nat) (p : Pool) : option (Z * Pool) :=
  match n with
  | O => Some (0, set_mins p)
  | S n =>
      if negb (alloc_ok (2 * i)%nat) then Some (-1, p) else
      if (MAXPACKETS <=? i)%nat then Some (-1, p) else
      if negb (alloc_ok (2 * i + 1)%nat) then Some (-1, p) else
      let big := (i <? NUMBIGBUFS)%nat in
      let? b := new_netbuf (if big then BIGBUFSIZE else LILBUFSIZE) in
      let x := length (pk_bufs p) in
      let p := add_netbuf b p in
      let? p := (if big then let? r := putq (bigfreeq p) x (pk_links p) in Some (set_big r p)
                 else let? r := putq (lilfreeq p) x (pk_links p) in Some (set_lil r p)) in
      pk_init_loop alloc_ok n (S i) p
  end.

Definition pk_init (alloc_ok : nat -> bool) (p : Pool) : option (Z * Pool) :=
  pk_init_loop alloc_ok (NUMBIGBUFS + NUMLILBUFS) 0 p.

(** The packet, null when there is none. *)
Definition pk_alloc (len : Z) (p : Pool) : option (option nat * Pool) :=
  if BIGBUFSIZE <? len then Some (None, p) else
  let? r := (if (LILBUFSIZE <? len) || (q_len (lilfreeq p) =? 0)
             then let? (x, q, m) := getq (bigfreeq p) (pk_links p) in Some (x, set_big (q, m) p)
             else let? (x, q, m) := getq (lilfreeq p) (pk_links p) in Some (x, set_lil (q, m) p)) in
  match r with
  | (None, p) => Some (None, p)
  | (Some x, p) =>
      let? b := pk_bufs p !! x in
      Some (Some x, set_bufs (<[x := fresh_fields (MaxLnh p) b]> (pk_bufs p)) p)
  end.

(** The loop over the [n] marks before the data: whether all are right. *)
Fixpoint check_marks (n : nat) (b : netbuf) : option bool :=
  match n with
  | O => Some true
  | S k => let? c := mem_byte (nb_mem b) (nb_buff b - Z.of_nat n) in
           if c =? ch "M" then check_marks k b else Some false
  end.

Definition pk_validate (pkt : nat) (p : Pool) : option (Z * Pool) :=
  let? b := pk_bufs p !! pkt in
  let? next := pk_links p !! pkt in
  if bool_decide (next <> None) && (1 <=? nb_inuse b) then Some (-1, incr_stat INCONSISTENT_LOCATION_ERR p) else
  let scan q := q_member (S (length (pk_links p))) pkt (q_head q) (pk_links p) in
  let? err := (if nb_blen b =? BIGBUFSIZE then
                 let? found := scan (bigfreeq p) in Some (if found then Some MULTIPLE_FREE_ERR else None)
               else if nb_blen b =? LILBUFSIZE then
                 let? found := scan (lilfreeq p) in Some (if found then Some MULTIPLE_FREE_ERR else None)
               else Some (Some BAD_REGULAR_BUF_LEN_ERR)) in
  match err with
  | Some e => Some (-1, incr_stat e p)
  | None =>
      let? marked := check_marks (Z.to_nat ALIGN_TYPE) b in
      if negb marked then Some (-1, incr_stat GUARD_BAND_VIOLATED_ERR p) else
      let? c := mem_byte (nb_mem b) (nb_buff b + nb_blen b) in
      if negb (c =? ch "M") then Some (-1, incr_stat GUARD_BAND_VIOLATED_ERR p) else Some (0, p)
  end.

Definition pk_free (pkt : nat) (p : Pool) : option Pool :=
  let? (e, p) := pk_validate pkt p in
  if negb (e =? 0) then Some p else
  let? b := pk_bufs p !! pkt in
  let p := set_bufs (<[pkt := set_inuse (u32 (nb_inuse b - 1)) b]> (pk_bufs p)) p in
  if 1 <? nb_inuse b then Some p else
  if nb_blen b =? BIGBUFSIZE then let? r := putq (bigfreeq p) pkt (pk_links p) in Some (set_big r p)
  else if nb_blen b =? LILBUFSIZE then let? r := putq (lilfreeq p) pkt (pk_links p) in Some (set_lil r p)
  else Some p.

Definition pk_get_max_intrsafe_buf_len : Z := BIGBUFSIZE.

(** The received-packet queue. *)
Definition put_rcvd (pkt : nat) (p : Pool) : option Pool :=
  let? r := putq (rcvdq p) pkt (pk_links p) in Some (set_rcv r p).
Definition get_rcvd (p : Pool) : option (option nat * Pool) :=
  let? (x, q, m) := getq (rcvdq p) (pk_links p) in Some (x, set_rcv (q, m) p).
