(* ===== verification/PktFacts.v ===== *)
(** * PktFacts

    The invariant of the packet buffers: every packet is in exactly one of the two free
    queues, the queue of received packets, or the hands of a user; and what allocation
    and release do in each case. *)

From stdpp Require Import sets.
From S2P Require Import Prelude NetQueue PktPool.

(** ** The invariant *)

Inductive Qid := Big | Lil | Rcv.
#[export] Instance Qid_eq_dec : EqDecision Qid.
Proof. solve_decision. Defined.

Definition q_at (p : Pool) (k : Qid) : queue :=
  match k with Big => bigfreeq p | Lil => lilfreeq p | Rcv => rcvdq p end.
Definition set_q (k : Qid) : queue * list (option nat) -> Pool -> Pool :=
  match k with Big => set_big | Lil => set_lil | Rcv => set_rcv end.

(** What the three queues hold. *)
Definition held_by (B L R : list nat) (k : Qid) : list nat :=
  match k with Big => B | Lil => L | Rcv => R end.
Definition upd_at (k : Qid) (l : list nat) (A : Qid -> list nat) (k' : Qid) : list nat :=
  if decide (k' = k) then l else A k'.
Definition all_of (A : Qid -> list nat) (H : list nat) : list nat := A Big ++ A Lil ++ A Rcv ++ H.

Definition M_byte : Z := ch "M".

Definition marked (b : netbuf) : Prop :=
  check_marks (Z.to_nat ALIGN_TYPE) b = Some true /\ mem_byte (nb_mem b) (nb_buff b + nb_blen b) = Some M_byte.

Record buf_ok (b : netbuf) : Prop := {
  bo_size : nb_blen b = BIGBUFSIZE \/ nb_blen b = LILBUFSIZE;
  bo_buff : nb_buff b = ALIGN_TYPE;
  bo_mem : Z.of_nat (length (nb_mem b)) = nb_blen b + ALIGN_TYPE + 1;
}.

(** A packet in a queue: its size and number of users are those of the queue. *)
Definition q_buf (k : Qid) (b : netbuf) : Prop :=
  marked b /\
  match k with
  | Big => nb_blen b = BIGBUFSIZE /\ nb_inuse b = 0
  | Lil => nb_blen b = LILBUFSIZE /\ nb_inuse b = 0
  | Rcv => 1 <= nb_inuse b < 2 ^ 32
  end.

Record pool_queues (p : Pool) (A : Qid -> list nat) (H : list nat) : Prop := {
  po_queue : forall k, queue_of (q_at p k) (pk_links p) (A k);
  po_marks : forall k, q_marks (q_at p k);
  po_all : all_of A H ≡ₚ seq 0 (length (pk_bufs p));
  po_links : length (pk_links p) = length (pk_bufs p);
  po_size : Z.of_nat (length (pk_bufs p)) < 2 ^ 31 - 1;
  po_stats : length (memestats p) = 4%nat;
  po_held : forall x, x ∈ H -> pk_links p !! x = Some None;
}.

(** [H] is the list of packets that are in use. *)
Record pool_ok (p : Pool) (A : Qid -> list nat) (H : list nat) : Prop := {
  po_queues : pool_queues p A H;
  po_buf : forall x b, pk_bufs p !! x = Some b -> buf_ok b;
  po_in : forall k x b, x ∈ A k -> pk_bufs p !! x = Some b -> q_buf k b;
  po_used : forall x b, x ∈ H -> pk_bufs p !! x = Some b -> 1 <= nb_inuse b < 2 ^ 32;
}.

Lemma all_upd A H k l x : A k = x :: l -> all_of (upd_at k l A) (x :: H) ≡ₚ all_of A H.
Proof. intros E. unfold all_of, upd_at. destruct k; cbn; rewrite E; solve_Permutation. Qed.

Lemma all_snoc A H k x : all_of (upd_at k (A k ++ [x]) A) H ≡ₚ all_of A (x :: H).
Proof. unfold all_of, upd_at. destruct k; cbn; solve_Permutation. Qed.

Lemma all_held A H x l : H ≡ₚ x :: l -> all_of A H ≡ₚ all_of A (x :: l).
Proof. intros E. unfold all_of. by rewrite E. Qed.

Section Queues.
Context (p : Pool) (A : Qid -> list nat) (H : list nat) (HP : pool_queues p A H).

Lemma all_nodup : NoDup (all_of A H).
Proof using HP. rewrite (po_all _ _ _ HP). apply NoDup_seq. Qed.

Lemma in_all k x : x ∈ A k -> x ∈ all_of A H.
Proof using Type. clear HP p. unfold all_of. destruct k; set_solver. Qed.

Lemma in_range x : x ∈ all_of A H -> (x < length (pk_bufs p))%nat.
Proof using HP. rewrite (po_all _ _ _ HP). intros Hx%elem_of_seq. lia. Qed.

Lemma in_held x : x ∈ H -> x ∈ all_of A H.
Proof using Type. clear HP p. unfold all_of. set_solver. Qed.

Lemma queues_disjoint k k' x : x ∈ A k -> x ∈ A k' -> k = k'.
Proof using HP.
  pose proof all_nodup as Hn. unfold all_of in Hn.
  apply NoDup_app in Hn as (_ & H1 & Hn). apply NoDup_app in Hn as (_ & H2 & Hn). apply NoDup_app in Hn as (_ & H3 & _).
  destruct k, k'; try done; intros X Y; exfalso; set_solver.
Qed.

Lemma held_apart k x : x ∈ A k -> x ∉ H.
Proof using HP.
  pose proof all_nodup as Hn. unfold all_of in Hn.
  apply NoDup_app in Hn as (_ & H1 & Hn). apply NoDup_app in Hn as (_ & H2 & Hn). apply NoDup_app in Hn as (_ & H3 & _).
  destruct k; set_solver.
Qed.

Lemma all_count : length (all_of A H) = length (pk_bufs p).
Proof using HP. by rewrite (po_all _ _ _ HP), length_seq. Qed.

Lemma queue_short k : Z.of_nat (length (A k)) + 1 < 2 ^ 31.
Proof using HP.
  pose proof all_count as E. pose proof (po_size _ _ _ HP). unfold all_of in E. rewrite !length_app in E. destruct k; lia.
Qed.

End Queues.

(** ** Queue operations *)

Lemma q_at_set k k' r p : q_at (set_q k r p) k' = if decide (k' = k) then fst r else q_at p k'.
Proof. by destruct k, k'. Qed.
Lemma links_set k r p : pk_links (set_q k r p) = snd r.
Proof. by destruct k. Qed.
Lemma bufs_set k r p : pk_bufs (set_q k r p) = pk_bufs p.
Proof. by destruct k. Qed.
Lemma stats_set k r p : memestats (set_q k r p) = memestats p.
Proof. by destruct k. Qed.
Lemma lnh_set k r p : MaxLnh (set_q k r p) = MaxLnh p.
Proof. by destruct k. Qed.

(** The head of a queue becomes a packet in use. *)
Lemma take_queues p A H k x l : pool_queues p A H -> A k = x :: l ->
  exists q', getq (q_at p k) (pk_links p) = Some (Some x, q', <[x := None]> (pk_links p)) /\
    pool_queues (set_q k (q', <[x := None]> (pk_links p)) p) (upd_at k l A) (x :: H).
Proof.
  intros HP E. pose proof (po_queue _ _ _ HP k) as Hq. rewrite E in Hq.
  assert (Hx : x ∈ A k) by (rewrite E; by left).
  assert (Hlt : (x < length (pk_links p))%nat) by (rewrite (po_links _ _ _ HP); by eapply (in_range _ _ _ HP), in_all).
  destruct (getq_spec _ _ _ _ Hq) as (q' & -> & Hq' & Hm).
  { rewrite <- E. pose proof (queue_short p A H HP k). lia. }
  exists q'. split; [done|]. split.
  - intros k'. rewrite q_at_set, links_set. unfold upd_at. cbn [fst snd]. destruct (decide (k' = k)) as [->|Hne]; [done|].
    apply (queue_of_frame _ (pk_links p)); [|apply HP]. intros y Hy. apply list_lookup_insert_ne. intros ->.
    by destruct (queues_disjoint p A H HP k k' y).
  - intros k'. rewrite q_at_set. destruct (decide _) as [->|]; [|apply HP]. by apply Hm, HP.
  - rewrite bufs_set, (all_upd A H k l x E). apply HP.
  - rewrite links_set, bufs_set. cbn [snd]. rewrite length_insert. apply HP.
  - rewrite bufs_set. apply HP.
  - rewrite stats_set. apply HP.
  - intros y Hy. rewrite links_set. cbn [snd]. destruct (decide (y = x)) as [->|Hne]; [by apply list_lookup_insert_eq|].
    rewrite list_lookup_insert_ne by done. apply HP. set_solver.
Qed.

(** A packet in use is put at the end of a queue. *)
Lemma give_queues p A H k x : pool_queues p A (x :: H) ->
  exists r, putq (q_at p k) x (pk_links p) = Some r /\
    pool_queues (set_q k r p) (upd_at k (A k ++ [x]) A) H.
Proof.
  intros HP. pose proof (po_queue _ _ _ HP k) as Hq.
  assert (Hxk : forall k', x ∉ A k') by (intros k' Hx; apply (held_apart p A _ HP k' x Hx); by left).
  assert (Hlt : (x < length (pk_links p))%nat) by (rewrite (po_links _ _ _ HP); eapply (in_range _ _ _ HP), in_held; by left).
  destruct (putq_spec _ _ _ x Hq) as (q' & m' & -> & Hq' & Hlen & Hf & Hm & _); [done..|by eapply queue_short|].
  exists (q', m'). split; [done|].
  assert (Hfr : forall k' y, k' <> k -> y ∈ A k' -> m' !! y = pk_links p !! y).
  { intros k' y Hne Hy. apply Hf. intros [->|Hy']%elem_of_cons; [by apply (Hxk k')|].
    apply Hne. by apply (queues_disjoint p A _ HP k' k y). }
  split.
  - intros k'. rewrite q_at_set, links_set. unfold upd_at. cbn [fst snd]. destruct (decide (k' = k)) as [->|Hne]; [done|].
    apply (queue_of_frame _ (pk_links p)); [|apply HP]. intros y Hy. by apply (Hfr k').
  - intros k'. rewrite q_at_set. destruct (decide _) as [->|]; [|apply HP]. apply Hm, HP.
  - rewrite bufs_set, all_snoc. apply HP.
  - rewrite links_set, bufs_set. cbn [snd]. rewrite Hlen. apply HP.
  - rewrite bufs_set. apply HP.
  - rewrite stats_set. apply HP.
  - intros y Hy. rewrite links_set. cbn [snd]. rewrite Hf; [apply HP; by right|].
    intros [->|Hy']%elem_of_cons.
    + pose proof (all_nodup p A _ HP) as Hn. unfold all_of in Hn. apply NoDup_app in Hn as (_ & _ & Hn).
      apply NoDup_app in Hn as (_ & _ & Hn). apply NoDup_app in Hn as (_ & _ & Hn). by apply NoDup_cons in Hn as [Hn _].
    + apply (held_apart p A _ HP k y Hy'). by right.
Qed.

(** ** Packets and their buffers *)

Lemma set_bufs_queues p A H bufs : length bufs = length (pk_bufs p) ->
  pool_queues p A H -> pool_queues (set_bufs bufs p) A H.
Proof.
  intros E [Hq Hm Ha Hl Hs Ht Hh].
  split; cbn [set_bufs pk_bufs pk_links memestats]; rewrite ?E; done.
Qed.

Lemma set_q_bufs k r bufs p : set_q k r (set_bufs bufs p) = set_bufs bufs (set_q k r p).
Proof. by destruct k. Qed.

Lemma pool_lookup p A H x : pool_queues p A H -> x ∈ all_of A H -> is_Some (pk_bufs p !! x).
Proof. intros HP Hx. apply lookup_lt_is_Some_2. by apply (in_range p A H). Qed.

Lemma in_upd k k' l A x : x ∈ upd_at k l A k' -> (k' = k /\ x ∈ l) \/ (k' <> k /\ x ∈ A k').
Proof. unfold upd_at. destruct (decide _); auto. Qed.

(** A change to a packet in use. *)
Lemma user_writes p A H x b : pool_ok p A H -> x ∈ H -> buf_ok b -> 1 <= nb_inuse b < 2 ^ 32 ->
  pool_ok (set_bufs (<[x := b]> (pk_bufs p)) p) A H.
Proof.
  intros [HQ Hb Hin Hu] Hx Hok Huse. split.
  - apply set_bufs_queues; [by rewrite length_insert|done].
  - intros y c. cbn. intros [(<- & <- & _)|(? & ?)]%list_lookup_insert_Some; [done|by eapply Hb].
  - intros k y c Hy. cbn. intros [(<- & <- & _)|(? & ?)]%list_lookup_insert_Some; [|by eapply Hin].
    by destruct (held_apart p A H HQ k x Hy).
  - intros y c Hy. cbn. intros [(<- & <- & _)|(? & ?)]%list_lookup_insert_Some; [done|by eapply Hu].
Qed.

Lemma take_ok p A H k x l b b' : pool_ok p A H -> A k = x :: l -> pk_bufs p !! x = Some b ->
  buf_ok b' -> 1 <= nb_inuse b' < 2 ^ 32 ->
  exists q', getq (q_at p k) (pk_links p) = Some (Some x, q', <[x := None]> (pk_links p)) /\
    pool_ok (set_bufs (<[x := b']> (pk_bufs p)) (set_q k (q', <[x := None]> (pk_links p)) p)) (upd_at k l A) (x :: H).
Proof.
  intros [HQ Hb Hin Hu] E Hx Hok Huse. destruct (take_queues p A H k x l HQ E) as (q' & Hg & HQ').
  exists q'. split; [done|]. split.
  - apply set_bufs_queues; [by rewrite length_insert, bufs_set|done].
  - intros y c. cbn. intros [(<- & <- & _)|(? & ?)]%list_lookup_insert_Some; [done|by eapply Hb].
  - intros k' y c Hy. cbn. intros [(<- & <- & _)|(? & Hc)]%list_lookup_insert_Some.
    + by destruct (held_apart _ _ _ HQ' k' x Hy); left.
    + apply in_upd in Hy as [[-> Hy]|[_ Hy]]; eapply Hin; try done. rewrite E. by right.
  - intros y c Hy. cbn. intros [(<- & <- & _)|(? & Hc)]%list_lookup_insert_Some; [done|].
    eapply (Hu y c); [|done]. by apply elem_of_cons in Hy as [->|].
Qed.

Lemma give_ok p A H k x b' : pool_ok p A (x :: H) -> buf_ok b' -> q_buf k b' ->
  exists r, putq (q_at p k) x (pk_links p) = Some r /\
    pool_ok (set_bufs (<[x := b']> (pk_bufs p)) (set_q k r p)) (upd_at k (A k ++ [x]) A) H.
Proof.
  intros [HQ Hb Hin Hu] Hok Hqb. destruct (give_queues p A H k x HQ) as (r & Hg & HQ').
  exists r. split; [done|]. split.
  - apply set_bufs_queues; [by rewrite length_insert, bufs_set|done].
  - intros y c. cbn. intros [(<- & <- & _)|(? & ?)]%list_lookup_insert_Some; [done|by eapply Hb].
  - intros k' y c Hy. cbn. intros [(<- & <- & _)|(? & Hc)]%list_lookup_insert_Some.
    + apply in_upd in Hy as [[-> _]|[_ Hy]]; [done|]. by destruct (held_apart _ _ _ HQ k' x Hy); left.
    + apply in_upd in Hy as [[-> Hy]|[_ Hy]]; [|by eapply Hin].
      apply elem_of_app in Hy as [Hy|Hy%list_elem_of_singleton]; [by eapply Hin|done].
  - intros y c Hy. cbn. intros [(<- & <- & _)|(? & Hc)]%list_lookup_insert_Some.
    + destruct (held_apart _ _ _ HQ' k x); [|done]. unfold upd_at. rewrite decide_True by done. set_solver.
    + eapply Hu; [by right|done].
Qed.

(** ** Allocation *)

Definition alloc_from (len : Z) (A : Qid -> list nat) : option Qid :=
  if BIGBUFSIZE <? len then None
  else if (LILBUFSIZE <? len) || bool_decide (A Lil = []) then
    (if bool_decide (A Big = []) then None else Some Big)
  else Some Lil.

Lemma len_zero p A H : pool_queues p A H -> (q_len (lilfreeq p) =? 0) = bool_decide (A Lil = []).
Proof.
  intros HP. pose proof (po_queue _ _ _ HP Lil) as [_ _ E _ _]. cbn in E. rewrite E.
  destruct (A Lil); [done|]. rewrite bool_decide_eq_false_2 by done. by apply Z.eqb_neq.
Qed.

Lemma alloc_take p A H k x l b : pool_ok p A H -> A k = x :: l -> pk_bufs p !! x = Some b ->
  exists q m, getq (q_at p k) (pk_links p) = Some (Some x, q, m) /\
    pool_ok (set_bufs (<[x := fresh_fields (MaxLnh p) b]> (pk_bufs p)) (set_q k (q, m) p)) (upd_at k l A) (x :: H).
Proof.
  intros HP E Hb. destruct (take_ok p A H k x l b (fresh_fields (MaxLnh p) b) HP E Hb) as (q & Hg & H').
  - destruct (po_buf _ _ _ HP x b Hb). by split.
  - cbn. lia.
  - by exists q, (<[x := None]> (pk_links p)).
Qed.

(** Allocation takes the first packet of the queue it chooses, large enough for the
    request, and gives nothing only when no queue can serve it. *)
Lemma pk_alloc_spec p A H len : pool_ok p A H ->
  match alloc_from len A with
  | None => pk_alloc len p = Some (None, p)
  | Some k => exists x l b q m, A k = x :: l /\ pk_bufs p !! x = Some b /\ len <= nb_blen b /\ q_buf k b /\ k <> Rcv /\
      let p' := set_bufs (<[x := fresh_fields (MaxLnh p) b]> (pk_bufs p)) (set_q k (q, m) p) in
      pk_alloc len p = Some (Some x, p') /\ pool_ok p' (upd_at k l A) (x :: H)
  end.
Proof.
  intros HP. pose proof (po_queues _ _ _ HP) as HQ. unfold alloc_from, pk_alloc.
  destruct (Z.ltb_spec BIGBUFSIZE len) as [Hlen|Hlen]; [done|]. rewrite (len_zero p A H HQ).
  assert (Hhave : forall k, A k <> [] -> exists x l b, A k = x :: l /\ pk_bufs p !! x = Some b /\ q_buf k b).
  { intros k Hk. destruct (A k) as [|x l] eqn:E; [done|]. destruct (pool_lookup p A H x HQ) as [b Hb].
    { eapply (in_all _ _ k). rewrite E. by left. }
    exists x, l, b. repeat split; try done; eapply po_in; try done; rewrite E; by left. }
  destruct (orb _ _) eqn:Eo.
  - destruct (bool_decide_reflect (A Big = [])) as [E|E].
    + pose proof (po_queue _ _ _ HQ Big) as Hq. rewrite E in Hq. cbn in Hq. rewrite (getq_empty _ _ Hq).
      by destruct p.
    + destruct (Hhave Big E) as (x & l & b & Ex & Hb & Hqb).
      destruct (alloc_take p A H Big x l b HP Ex Hb) as (q & m & Hg & Hok). cbn [q_at set_q] in Hg, Hok.
      exists x, l, b, q, m. rewrite Hg. cbn [set_big pk_bufs MaxLnh]. rewrite Hb.
      split_and!; try done. destruct Hqb as (_ & -> & _). lia.
  - apply orb_false_iff in Eo as [El Ee]. apply bool_decide_eq_false in Ee.
    destruct (Hhave Lil Ee) as (x & l & b & Ex & Hb & Hqb).
    destruct (alloc_take p A H Lil x l b HP Ex Hb) as (q & m & Hg & Hok). cbn [q_at set_q] in Hg, Hok.
    exists x, l, b, q, m. rewrite Hg. cbn [set_lil pk_bufs MaxLnh]. rewrite Hb.
    split_and!; try done. destruct Hqb as (_ & -> & _). lia.
Qed.

(** ** Release *)

Lemma incr_stat_ok p A H e : pool_ok p A H -> pool_ok (incr_stat e p) A H.
Proof.
  intros [[Hq Hm Ha Hl Hs Ht Hh] Hb Hin Hu]. split; try done. split; try done.
  cbn. by rewrite length_alter.
Qed.

Definition size_queue (b : netbuf) : Qid := if nb_blen b =? BIGBUFSIZE then Big else Lil.

(** The scan of the free queue of a packet's size. *)
Lemma scan_queue p A H k x : pool_queues p A H ->
  q_member (S (length (pk_links p))) x (q_head (q_at p k)) (pk_links p) = Some (bool_decide (x ∈ A k)).
Proof.
  intros HP. destruct (po_queue _ _ _ HP k) as [-> _ _ Hc Hn]. apply q_member_spec; [done|].
  pose proof (chain_bounded _ _ Hc Hn). lia.
Qed.

Definition has_marks (b : netbuf) : bool :=
  bool_decide (check_marks (Z.to_nat ALIGN_TYPE) b = Some true) &&
  bool_decide (mem_byte (nb_mem b) (nb_buff b + nb_blen b) = Some M_byte).

Lemma has_marks_spec b : has_marks b = true <-> marked b.
Proof. unfold has_marks, marked. by rewrite andb_true_iff, !bool_decide_eq_true. Qed.

Lemma mem_byte_in l i : 0 <= i < Z.of_nat (length l) -> exists c, mem_byte l i = Some c.
Proof.
  intros Hi. unfold mem_byte. destruct (Z.ltb_spec i 0); [lia|].
  destruct (lookup_lt_is_Some_2 l (Z.to_nat i)) as [c Hc]; [lia|]. by exists c.
Qed.

Lemma marks_read b : buf_ok b ->
  exists v, check_marks (Z.to_nat ALIGN_TYPE) b = Some v /\ is_Some (mem_byte (nb_mem b) (nb_buff b + nb_blen b)).
Proof.
  intros [Hs Hb Hm]. assert (Hpos : 128 <= nb_blen b) by (destruct Hs as [-> | ->]; cbv; congruence).
  assert (Hc : forall n, (n <= 4)%nat -> exists v, check_marks n b = Some v).
  { induction n as [|n IH]; intros Hn; [by exists true|]. cbn [check_marks].
    destruct (mem_byte_in (nb_mem b) (nb_buff b - Z.of_nat (S n))) as [c ->].
    - rewrite Hb, Hm. unfold ALIGN_TYPE. lia.
    - destruct (c =? ch "M"); [apply IH; lia|by exists false]. }
  destruct (Hc 4%nat) as [v Hv]; [done|]. exists v. split; [done|].
  destruct (mem_byte_in (nb_mem b) (nb_buff b + nb_blen b)) as [c ->]; [|done]. rewrite Hb, Hm. unfold ALIGN_TYPE. lia.
Qed.

(** The marks depend on the bytes around the data only. *)
Lemma marks_ext b b' : nb_buff b' = nb_buff b -> nb_blen b' = nb_blen b ->
  (forall j, j < nb_buff b \/ j = nb_buff b + nb_blen b -> mem_byte (nb_mem b') j = mem_byte (nb_mem b) j) ->
  marked b -> marked b'.
Proof.
  intros E1 E2 Hm [Hc He]. split; [|by rewrite E1, E2, Hm by (by right)].
  revert Hc. generalize (Z.to_nat ALIGN_TYPE). induction n as [|n IH]; [done|]. cbn [check_marks].
  rewrite E1, Hm by (left; lia). destruct (mem_byte _ (nb_buff b - Z.of_nat (S n))) as [c|]; [|done]. destruct (c =? ch "M"); [apply IH|done].
Qed.

(** What the final checks of pk_validate compute. *)
Lemma marks_check b (p : Pool) : buf_ok b ->
  (let? marked := check_marks (Z.to_nat ALIGN_TYPE) b in
   if negb marked then Some (-1, incr_stat GUARD_BAND_VIOLATED_ERR p) else
   let? c := mem_byte (nb_mem b) (nb_buff b + nb_blen b) in
   if negb (c =? ch "M") then Some (-1, incr_stat GUARD_BAND_VIOLATED_ERR p) else Some (0, p)) =
  Some (if has_marks b then (0, p) else (-1, incr_stat GUARD_BAND_VIOLATED_ERR p)).
Proof.
  intros Hb. destruct (marks_read b Hb) as (v & Hv & c & Hc). unfold has_marks. rewrite Hv, Hc.
  destruct v; cbn [negb]; [|done]. rewrite (bool_decide_eq_true_2 (Some true = Some true)) by done. cbn [andb].
  unfold M_byte. destruct (Z.eqb_spec c (ch "M")) as [->|Hne]; [by rewrite bool_decide_eq_true_2|].
  rewrite bool_decide_eq_false_2; [done|]. congruence.
Qed.

Lemma validate_held p A H x b : pool_ok p A H -> x ∈ H -> pk_bufs p !! x = Some b ->
  pk_validate x p = Some (if has_marks b then (0, p) else (-1, incr_stat GUARD_BAND_VIOLATED_ERR p)).
Proof.
  intros HP Hx Hb. pose proof (po_queues _ _ _ HP) as HQ. pose proof (po_buf _ _ _ HP x b Hb) as Hok.
  unfold pk_validate. rewrite Hb, (po_held _ _ _ HQ x Hx), (bool_decide_eq_false_2 (None <> None)) by (intros E; by apply E).
  cbn [andb]. pose proof (scan_queue p A H Big x HQ) as Hbig. pose proof (scan_queue p A H Lil x HQ) as Hlil.
  cbn [q_at] in Hbig, Hlil. rewrite Hbig, Hlil.
  rewrite !(bool_decide_eq_false_2 (x ∈ A _)) by (intros Hin; by apply (held_apart p A H HQ _ x Hin)).
  rewrite <- (marks_check b p Hok). by destruct (bo_size b Hok) as [-> | ->].
Qed.

(** The last user of a packet returns it to the end of the queue of its size. *)
Lemma pk_free_last p A H x b : pool_ok p A (x :: H) -> pk_bufs p !! x = Some b -> nb_inuse b = 1 -> marked b ->
  exists r, let k := size_queue b in
    let p' := set_bufs (<[x := set_inuse 0 b]> (pk_bufs p)) (set_q k r p) in
    pk_free x p = Some p' /\ pool_ok p' (upd_at k (A k ++ [x]) A) H.
Proof.
  intros HP Hb Hu Hm. pose proof (po_buf _ _ _ HP x b Hb) as Hok.
  assert (Hok' : buf_ok (set_inuse 0 b)) by (destruct Hok; by split).
  assert (Hqb : q_buf (size_queue b) (set_inuse 0 b)).
  { split; [done|]. unfold size_queue. destruct (bo_size b Hok) as [E|E]; cbn; by rewrite E. }
  destruct (give_ok p A H (size_queue b) x (set_inuse 0 b) HP Hok' Hqb) as (r & Hg & HP').
  exists r. cbn zeta. split; [|done]. unfold pk_free. rewrite (validate_held p A (x :: H) x b HP) by (done || by left).
  rewrite (proj2 (has_marks_spec b) Hm). cbn [negb Z.eqb]. rewrite Hb, Hu. cbn [Z.ltb Z.compare Z.sub].
  change (u32 (1 - 1)) with 0. change (1 <? 1) with false. cbn iota. unfold size_queue in *.
  destruct (bo_size b Hok) as [E|E]; rewrite E in *; cbn [Z.eqb q_at set_q] in *;
    change (BIGBUFSIZE =? BIGBUFSIZE) with true in *; change (LILBUFSIZE =? BIGBUFSIZE) with false in *;
    change (LILBUFSIZE =? LILBUFSIZE) with true; cbn iota in *; cbn [set_bufs bigfreeq lilfreeq pk_links q_at] in *; by rewrite Hg.
Qed.

(** With other users left, only their number changes. *)
Lemma pk_free_shared p A H x b : pool_ok p A H -> x ∈ H -> pk_bufs p !! x = Some b -> 1 < nb_inuse b -> marked b ->
  let p' := set_bufs (<[x := set_inuse (nb_inuse b - 1) b]> (pk_bufs p)) p in
  pk_free x p = Some p' /\ pool_ok p' A H.
Proof.
  intros HP Hx Hb Hu Hm p'. pose proof (po_used _ _ _ HP x b Hx Hb) as Hr. split.
  - unfold pk_free. rewrite (validate_held p A H x b HP Hx Hb), (proj2 (has_marks_spec b) Hm). cbn [negb Z.eqb].
    rewrite Hb, (proj2 (Z.ltb_lt _ _)) by done. unfold p'. by rewrite u32_small by (unfold is_u32; lia).
  - apply user_writes; [done..| |cbn; lia]. destruct (po_buf _ _ _ HP x b Hb). by split.
Qed.

(** A packet whose marks were overwritten is not taken back: it is lost. *)
Lemma pk_free_spoiled p A H x b : pool_ok p A H -> x ∈ H -> pk_bufs p !! x = Some b -> ~ marked b ->
  pk_free x p = Some (incr_stat GUARD_BAND_VIOLATED_ERR p) /\ pool_ok (incr_stat GUARD_BAND_VIOLATED_ERR p) A H.
Proof.
  intros HP Hx Hb Hm. split; [|by apply incr_stat_ok]. unfold pk_free. rewrite (validate_held p A H x b HP Hx Hb).
  destruct (has_marks b) eqn:E; [by apply has_marks_spec in E|done].
Qed.

(** Releasing a packet that is already free changes nothing but an error counter. *)
Lemma pk_free_twice p A H k x : pool_ok p A H -> k <> Rcv -> x ∈ A k ->
  pk_free x p = Some (incr_stat MULTIPLE_FREE_ERR p) /\ pool_ok (incr_stat MULTIPLE_FREE_ERR p) A H.
Proof.
  intros HP Hk Hx. split; [|by apply incr_stat_ok]. pose proof (po_queues _ _ _ HP) as HQ.
  destruct (pool_lookup p A H x HQ) as [b Hb]; [by eapply in_all|].
  destruct (chain_in (pk_links p) (A k) x) as [v Hv]; [apply (po_queue _ _ _ HQ)|done|].
  pose proof (po_in _ _ _ HP k x b Hx Hb) as Hqb. pose proof (scan_queue p A H k x HQ) as Hs.
  rewrite bool_decide_eq_true_2 in Hs by done. unfold pk_free, pk_validate. rewrite Hb, Hv.
  destruct k; cbn in Hqb; [| |done]; destruct Hqb as (_ & -> & ->); change (1 <=? 0) with false; rewrite andb_false_r;
    cbn [q_at] in Hs.
  - change (BIGBUFSIZE =? BIGBUFSIZE) with true. cbn iota. by rewrite Hs.
  - change (LILBUFSIZE =? BIGBUFSIZE) with false. change (LILBUFSIZE =? LILBUFSIZE) with true. cbn iota. by rewrite Hs.
Qed.

(** ** The queue of received packets *)

Lemma set_bufs_id p bufs : bufs = pk_bufs p -> set_bufs bufs p = p.
Proof. intros ->. by destruct p. Qed.

Lemma put_rcvd_spec p A H x b : pool_ok p A (x :: H) -> pk_bufs p !! x = Some b -> marked b ->
  exists p', put_rcvd x p = Some p' /\ pool_ok p' (upd_at Rcv (A Rcv ++ [x]) A) H /\
    pk_bufs p' = pk_bufs p /\ MaxLnh p' = MaxLnh p.
Proof.
  intros HP Hb Hm. destruct (give_ok p A H Rcv x b HP) as (r & Hg & HP').
  - by eapply po_buf.
  - split; [done|]. eapply (po_used _ _ _ HP); [by left|done].
  - exists (set_q Rcv r p). unfold put_rcvd. cbn [q_at] in Hg. rewrite Hg.
    rewrite list_insert_id in HP' by done. rewrite set_bufs_id in HP' by (by rewrite bufs_set).
    by rewrite bufs_set, lnh_set.
Qed.

Lemma get_rcvd_spec p A H x l : pool_ok p A H -> A Rcv = x :: l ->
  exists p', get_rcvd p = Some (Some x, p') /\ pool_ok p' (upd_at Rcv l A) (x :: H) /\
    pk_bufs p' = pk_bufs p /\ MaxLnh p' = MaxLnh p.
Proof.
  intros HP E. destruct (pool_lookup p A H x) as [b Hb]; [apply HP|apply (in_all _ _ Rcv); rewrite E; by left|].
  destruct (take_ok p A H Rcv x l b b HP E Hb) as (q & Hg & HP').
  - by eapply po_buf.
  - apply (po_in _ _ _ HP Rcv x b); [rewrite E; by left|done].
  - cbn [q_at] in Hg. exists (set_q Rcv (q, <[x := None]> (pk_links p)) p). unfold get_rcvd. rewrite Hg.
    rewrite list_insert_id in HP' by done. rewrite set_bufs_id in HP' by (by rewrite bufs_set).
    by rewrite bufs_set, lnh_set.
Qed.

Lemma get_rcvd_empty p A H : pool_ok p A H -> A Rcv = [] -> get_rcvd p = Some (None, p).
Proof.
  intros HP E. pose proof (po_queue _ _ _ (po_queues _ _ _ HP) Rcv) as Hq. rewrite E in Hq. cbn in Hq.
  unfold get_rcvd. rewrite (getq_empty _ _ Hq). by destruct p.
Qed.

Lemma used_split (x : nat) H : NoDup H -> x ∈ H -> H ≡ₚ x :: filter (fun y => y <> x) H.
Proof.
  intros Hn Hx. apply NoDup_Permutation; [done| |].
  - apply NoDup_cons. rewrite list_elem_of_filter. split; [tauto|by apply NoDup_filter].
  - intros y. rewrite elem_of_cons, list_elem_of_filter. destruct (decide (y = x)) as [->|]; tauto.
Qed.

Lemma pool_ok_perm p A H H' : H ≡ₚ H' -> pool_ok p A H -> pool_ok p A H'.
Proof.
  intros E [[Hq Hm Ha Hl Hs Ht Hh] Hb Hin Hu]. split; [split| | |]; try done.
  - unfold all_of in *. by rewrite <- E.
  - intros x. rewrite <- E. apply Hh.
  - intros x b. rewrite <- E. apply Hu.
Qed.

Lemma used_nodup p A H : pool_ok p A H -> NoDup H.
Proof.
  intros HP. pose proof (all_nodup p A H (po_queues _ _ _ HP)) as Hn. unfold all_of in Hn.
  apply NoDup_app in Hn as (_ & _ & Hn). apply NoDup_app in Hn as (_ & _ & Hn). by apply NoDup_app in Hn as (_ & _ & Hn).
Qed.

(** ** What users do

    A user allocates a packet, writes its data, queues it as received or releases it. *)

Inductive PkOp := PAlloc (len : Z) | PFree (x : nat) | PWrite (x : nat) (i v : Z) | PQueue (x : nat) | PDequeue.

Definition pk_write (x : nat) (i v : Z) (p : Pool) : option Pool :=
  let? b := pk_bufs p !! x in
  let? m := mem_put (nb_buff b + i) v (nb_mem b) in
  Some (set_bufs (<[x := set_mem m b]> (pk_bufs p)) p).

Definition pk_op (o : PkOp) (p : Pool) : option (option nat * Pool) :=
  match o with
  | PAlloc len => pk_alloc len p
  | PFree x => let? p := pk_free x p in Some (None, p)
  | PWrite x i v => let? p := pk_write x i v p in Some (None, p)
  | PQueue x => let? p := put_rcvd x p in Some (None, p)
  | PDequeue => get_rcvd p
  end.

Fixpoint pk_run (l : list PkOp) (p : Pool) : option (list (option nat) * Pool) :=
  match l with
  | [] => Some ([], p)
  | o :: l => let? (r, p) := pk_op o p in let? (rs, p) := pk_run l p in Some (r :: rs, p)
  end.

(** The specification: three lists and a set of packets in use.  [size x] is the number
    of bytes of packet [x]. *)
Record APool := mkAPool { ap_queue : Qid -> list nat; ap_used : list nat }.

Section Spec.
Context (size : nat -> Z).

Definition a_take (k : Qid) (a : APool) : option nat * APool :=
  match ap_queue a k with
  | [] => (None, a)
  | x :: l => (Some x, mkAPool (upd_at k l (ap_queue a)) (x :: ap_used a))
  end.

Definition a_give (k : Qid) (x : nat) (a : APool) : APool :=
  mkAPool (upd_at k (ap_queue a k ++ [x]) (ap_queue a)) (filter (fun y => y <> x) (ap_used a)).

Definition a_op (o : PkOp) (a : APool) : option nat * APool :=
  match o with
  | PAlloc len => match alloc_from len (ap_queue a) with None => (None, a) | Some k => a_take k a end
  | PFree x => (None, a_give (if size x =? BIGBUFSIZE then Big else Lil) x a)
  | PWrite x i v => (None, a)
  | PQueue x => (None, a_give Rcv x a)
  | PDequeue => a_take Rcv a
  end.

(** A user releases, queues and writes only packets it has, inside their size. *)
Definition op_legal (o : PkOp) (a : APool) : bool :=
  match o with
  | PAlloc _ | PDequeue => true
  | PFree x | PQueue x => bool_decide (x ∈ ap_used a)
  | PWrite x i v => bool_decide (x ∈ ap_used a) && (0 <=? i) && (i <? size x)
  end.

Fixpoint a_run (l : list PkOp) (a : APool) : list (option nat) * APool :=
  match l with
  | [] => ([], a)
  | o :: l => let r := a_op o a in let rs := a_run l r.2 in (r.1 :: rs.1, rs.2)
  end.

Fixpoint ops_legal (l : list PkOp) (a : APool) : bool :=
  match l with
  | [] => true
  | o :: l => op_legal o a && ops_legal l (a_op o a).2
  end.

Record pool_repr (p : Pool) (a : APool) : Prop := {
  pr_ok : pool_ok p (ap_queue a) (ap_used a);
  pr_size : forall x b, pk_bufs p !! x = Some b -> nb_blen b = size x;
  pr_used : forall x b, x ∈ ap_used a \/ x ∈ ap_queue a Rcv -> pk_bufs p !! x = Some b -> marked b /\ nb_inuse b = 1;
}.

(** A packet in use, put first. *)
Lemma repr_used p a x : pool_repr p a -> x ∈ ap_used a ->
  exists b, pk_bufs p !! x = Some b /\ buf_ok b /\ marked b /\ nb_inuse b = 1 /\
    pool_ok p (ap_queue a) (x :: filter (fun y => y <> x) (ap_used a)).
Proof using size.
  intros [HP Hs Hu] Hx. destruct (pool_lookup p _ _ x (po_queues _ _ _ HP)) as [b Hb]; [by eapply in_held|].
  exists b. destruct (Hu x b) as [Hm H1]; [by left|done|]. split_and!; try done; [by eapply po_buf|].
  eapply pool_ok_perm; [|done]. apply used_split; [by eapply used_nodup|done].
Qed.

Lemma size_queue_size b x : nb_blen b = size x -> (if size x =? BIGBUFSIZE then Big else Lil) = size_queue b.
Proof using size. intros <-. done. Qed.

Lemma repr_alloc p a len : pool_repr p a -> exists p', pk_alloc len p = Some ((a_op (PAlloc len) a).1, p') /\
  pool_repr p' (a_op (PAlloc len) a).2.
Proof using size.
  intros [HP Hs Hu]. pose proof (pk_alloc_spec p _ _ len HP) as H. cbn [a_op].
  destruct (alloc_from len (ap_queue a)) as [k|]; [|exists p; by split].
  destruct H as (x & l & b & q & m & E & Hb & _ & [Hm _] & Hk & Hr & HP'). unfold a_take. rewrite E. cbn [fst snd].
  eexists. split; [exact Hr|]. split; [done| |]; cbn [set_bufs pk_bufs ap_used ap_queue].
  - intros y c [(<- & <- & _)|(? & ?)]%list_lookup_insert_Some; [|by apply Hs]. cbn. by apply Hs.
  - intros y c Hy [(<- & <- & _)|(Hne & Hc)]%list_lookup_insert_Some; [done|]. apply (Hu y c); [|done].
    destruct Hy as [[->|Hy]%elem_of_cons|[[? _]|[_ Hy]]%in_upd]; [done|by left|congruence|by right].
Qed.

Lemma repr_dequeue p a : pool_repr p a -> exists p', get_rcvd p = Some ((a_op PDequeue a).1, p') /\
  pool_repr p' (a_op PDequeue a).2.
Proof using size.
  intros HR. cbn [a_op]. unfold a_take. destruct (ap_queue a Rcv) as [|x l] eqn:E.
  - exists p. split; [|done]. by apply (get_rcvd_empty p _ _ (pr_ok _ _ HR)).
  - destruct HR as [HP Hs Hu]. destruct (get_rcvd_spec p _ _ x l HP E) as (p' & Hg & HP' & Eb & _). exists p'. cbn [fst snd].
    split; [done|]. split; [done| |]; cbn [ap_used ap_queue]; rewrite Eb; [done|].
    intros y c Hy. apply (Hu y c). rewrite E. destruct Hy as [[->|Hy]%elem_of_cons|[[_ Hy]|[? _]]%in_upd]; try done.
    + right. by left.
    + by left.
    + right. by right.
Qed.

Lemma repr_queue p a x : pool_repr p a -> x ∈ ap_used a -> exists p', put_rcvd x p = Some p' /\
  pool_repr p' (a_op (PQueue x) a).2.
Proof using size.
  intros HR Hx. destruct (repr_used p a x HR Hx) as (b & Hb & Hok & Hm & H1 & HP).
  destruct (put_rcvd_spec p _ _ x b HP Hb Hm) as (p' & Hp & HP' & Eb & _). destruct HR as [_ Hs Hu].
  exists p'. split; [done|]. cbn [a_op snd]. split; [done| |]; cbn [a_give ap_used ap_queue]; rewrite Eb; [done|].
  intros y c Hy. apply (Hu y c). destruct Hy as [Hy|[[_ Hy]|[? _]]%in_upd]; [| |done].
  - left. by apply list_elem_of_filter in Hy as [_ Hy].
  - apply elem_of_app in Hy as [Hy | ->%list_elem_of_singleton]; [by right|by left].
Qed.

Lemma repr_free p a x : pool_repr p a -> x ∈ ap_used a -> exists p', pk_free x p = Some p' /\
  pool_repr p' (a_op (PFree x) a).2.
Proof using size.
  intros HR Hx. destruct (repr_used p a x HR Hx) as (b & Hb & Hok & Hm & H1 & HP).
  destruct (pk_free_last p _ _ x b HP Hb H1 Hm) as (r & Hp & HP'). cbn zeta in Hp, HP'. destruct HR as [_ Hs Hu].
  eexists. split; [exact Hp|]. cbn [a_op snd]. rewrite (size_queue_size b x) by by apply Hs.
  assert (Hk : size_queue b <> Rcv) by (unfold size_queue; by destruct (_ =? _)).
  split; [done| |]; cbn [a_give ap_used ap_queue set_bufs pk_bufs].
  - intros y c [(<- & <- & _)|(? & ?)]%list_lookup_insert_Some; [|by apply Hs]. cbn. by apply Hs.
  - intros y c Hy [(<- & <- & _)|(Hne & Hc)]%list_lookup_insert_Some.
    + exfalso. destruct Hy as [Hy|[[? _]|[_ Hy]]%in_upd]; [|congruence|].
      * by apply list_elem_of_filter in Hy as [? _].
      * apply (held_apart _ _ _ (po_queues _ _ _ HP) Rcv x Hy). by left.
    + apply (Hu y c); [|done]. destruct Hy as [Hy|[[? _]|[_ Hy]]%in_upd]; [left|congruence|by right].
      by apply list_elem_of_filter in Hy as [_ Hy].
Qed.

(** Writing inside the data leaves the marks alone. *)
Lemma marks_kept b i v m : buf_ok b -> marked b -> 0 <= i < nb_blen b -> mem_put (nb_buff b + i) v (nb_mem b) = Some m ->
  buf_ok (set_mem m b) /\ marked (set_mem m b).
Proof using Type.
  intros [Hs Hb Hl] Hm Hi. unfold mem_put. destruct (andb _ _) eqn:E; [|done]. intros [= <-].
  split; [split; cbn [set_mem nb_mem nb_blen nb_buff]; [done..|by rewrite length_insert]|].
  apply (marks_ext b); [done..| |done]. intros j Hj. cbn [set_mem nb_mem]. unfold mem_byte.
  destruct (Z.ltb_spec j 0); [done|]. apply list_lookup_insert_ne. lia.
Qed.

Lemma repr_write p a x i v : pool_repr p a -> x ∈ ap_used a -> 0 <= i < size x -> exists p', pk_write x i v p = Some p' /\
  pool_repr p' a.
Proof using size.
  intros HR Hx Hi. destruct (repr_used p a x HR Hx) as (b & Hb & Hok & Hm & H1 & HP). destruct HR as [HP0 Hs Hu].
  rewrite <- (Hs x b Hb) in Hi. assert (Hput : exists m, mem_put (nb_buff b + i) v (nb_mem b) = Some m).
  { unfold mem_put. rewrite (proj2 (andb_true_iff _ _)); [by eexists|].
    rewrite (bo_buff b Hok), (bo_mem b Hok). unfold ALIGN_TYPE. lia. }
  destruct Hput as [m Em]. destruct (marks_kept b i v m Hok Hm Hi Em) as [Hok' Hm'].
  unfold pk_write. rewrite Hb, Em. eexists. split; [done|]. split; cbn [set_bufs pk_bufs].
  - apply user_writes; try done. cbn. lia.
  - intros y c [(<- & <- & _)|(? & ?)]%list_lookup_insert_Some; [|by apply Hs]. cbn. by apply Hs.
  - intros y c Hy [(<- & <- & _)|(Hne & Hc)]%list_lookup_insert_Some; [done|]. by apply (Hu y c).
Qed.

Lemma repr_op o p a : pool_repr p a -> op_legal o a = true -> exists p', pk_op o p = Some ((a_op o a).1, p') /\
  pool_repr p' (a_op o a).2.
Proof using size.
  intros HR. destruct o as [len|x|x i v|x|]; cbn [op_legal pk_op].
  - intros _. by apply repr_alloc.
  - intros Hx%bool_decide_eq_true. destruct (repr_free p a x HR Hx) as (p' & -> & H). by exists p'.
  - intros [[Hx Hi]%andb_prop Hi']%andb_prop. apply bool_decide_eq_true in Hx.
    destruct (repr_write p a x i v HR Hx) as (p' & -> & H); [lia|]. by exists p'.
  - intros Hx%bool_decide_eq_true. destruct (repr_queue p a x HR Hx) as (p' & -> & H). by exists p'.
  - intros _. by apply repr_dequeue.
Qed.

Lemma repr_run l p a : pool_repr p a -> ops_legal l a = true -> exists p', pk_run l p = Some ((a_run l a).1, p') /\
  pool_repr p' (a_run l a).2.
Proof using size.
  revert p a. induction l as [|o l IH]; intros p a HR; cbn [ops_legal pk_run a_run fst snd]; [by exists p|].
  intros [Ho Hl]%andb_prop. destruct (repr_op o p a HR Ho) as (p1 & -> & HR1).
  destruct (IH p1 _ HR1 Hl) as (p2 & -> & HR2). by exists p2.
Qed.

End Spec.

(** ** Initialisation *)

Definition pool_zero (lnh : Z) : Pool := mkPool [] [] q_zero q_zero q_zero [0; 0; 0; 0] lnh.
Definition buf_size (x : nat) : Z := if (x <? NUMBIGBUFS)%nat then BIGBUFSIZE else LILBUFSIZE.

(** The queues after [i] turns of the loop of pk_init. *)
Definition init_lists (i : nat) : Qid -> list nat := held_by (seq 0 (Nat.min i 30)) (seq 30 (i - 30)) [].
Definition all_free : APool := mkAPool (init_lists 60) [].

Definition fresh_buf (size : Z) (b : netbuf) : Prop := buf_ok b /\ marked b /\ nb_inuse b = 0 /\ nb_blen b = size.

Lemma new_netbuf_fresh size : size = BIGBUFSIZE \/ size = LILBUFSIZE -> exists b, new_netbuf size = Some b /\ fresh_buf size b.
Proof.
  intros Hs. assert (E : exists l, new_block size = Some l /\ Z.of_nat (length l) = size + ALIGN_TYPE + 1 /\
    marked (mkNetbuf l ALIGN_TYPE size 0 0 0 None 0 0 0)).
  { destruct Hs as [-> | ->]; eexists; (split; [vm_compute; reflexivity|split; [vm_compute; reflexivity|]]);
      apply has_marks_spec; vm_compute; reflexivity. }
  destruct E as (l & El & Hl & Hm). unfold new_netbuf. rewrite El. eexists. split; [done|].
  unfold fresh_buf. split_and!; try done.
Qed.

Lemma pool_queues_ext p A A' H : (forall k, A k = A' k) -> pool_queues p A H -> pool_queues p A' H.
Proof.
  intros E [Hq Hm Ha Hl Hs Ht Hh]. split; try done.
  - intros k. rewrite <- E. apply Hq.
  - unfold all_of in *. by rewrite <- !E.
Qed.

Lemma add_queues p A b : pool_queues p A [] -> Z.of_nat (length (pk_bufs p)) + 1 < 2 ^ 31 - 1 ->
  pool_queues (add_netbuf b p) A [length (pk_bufs p)].
Proof.
  intros HP Hlt. pose proof HP as [Hq Hm Ha Hl Hs Ht Hh].
  split; cbn [add_netbuf pk_links pk_bufs memestats]; rewrite ?length_app; cbn [length]; try done; try lia.
  - intros k. change (q_at (add_netbuf b p) k) with (q_at p k). apply (queue_of_frame _ (pk_links p)); [|apply Hq].
    intros x Hx. apply lookup_app_l. rewrite Hl. by eapply (in_range _ _ _ HP), in_all.
  - rewrite Nat.add_1_r, seq_S. cbn [Nat.add]. rewrite <- Ha. unfold all_of. solve_Permutation.
  - intros x ->%list_elem_of_singleton. rewrite lookup_app_r by lia. by rewrite Hl, Nat.sub_diag.
Qed.

Record init_at (i : nat) (p : Pool) : Prop := {
  in_queues : pool_queues p (init_lists i) [];
  in_count : length (pk_bufs p) = i;
  in_bufs : forall x b, pk_bufs p !! x = Some b -> fresh_buf (buf_size x) b;
}.

Lemma init_step i p b : init_at i p -> (i < 60)%nat -> fresh_buf (buf_size i) b ->
  exists r, let k := if (i <? 30)%nat then Big else Lil in
    putq (q_at (add_netbuf b p) k) i (pk_links (add_netbuf b p)) = Some r /\ init_at (S i) (set_q k r (add_netbuf b p)).
Proof.
  intros [HQ Hn Hb] Hi Hf. pose proof (add_queues p _ b HQ) as HA. rewrite Hn in HA.
  set (k := if (i <? 30)%nat then Big else Lil). destruct (give_queues _ _ [] k i (HA ltac:(lia))) as (r & Hr & HG).
  exists r. cbn zeta. split; [exact Hr|]. split.
  - eapply pool_queues_ext; [|exact HG]. intros k'. unfold k, upd_at, init_lists.
    destruct (Nat.ltb_spec i 30).
    + replace (S i - 30)%nat with (i - 30)%nat by lia. rewrite !Nat.min_l by lia. rewrite (seq_S i). by destruct k'.
    + replace (S i - 30)%nat with (S (i - 30)) by lia. rewrite !Nat.min_r by lia. rewrite (seq_S (i - 30)).
      replace (30 + (i - 30))%nat with i by lia. by destruct k'.
  - rewrite bufs_set. cbn. rewrite length_app, Hn. cbn. lia.
  - rewrite bufs_set. cbn. intros x c [Hx|[Hx Hc]]%lookup_app_Some; [by apply Hb|].
    apply list_lookup_singleton_Some in Hc as [Hc <-]. by replace x with i by lia.
Qed.

Lemma init_loop alloc_ok n i p : (i + n = 60)%nat -> (forall j, (j < 120)%nat -> alloc_ok j = true) -> init_at i p ->
  exists p', pk_init_loop alloc_ok n i p = Some (0, set_mins p') /\ init_at 60 p' /\ MaxLnh p' = MaxLnh p.
Proof.
  intros Hn Hok. revert i p Hn. induction n as [|n IH]; intros i p Hn HI.
  - exists p. by replace 60%nat with i by lia.
  - cbn [pk_init_loop]. rewrite !Hok by lia. cbn [negb]. change MAXPACKETS with 60%nat.
    destruct (Nat.leb_spec 60 i); [lia|]. change NUMBIGBUFS with 30%nat.
    destruct (new_netbuf_fresh (buf_size i)) as (b & Eb & Hb); [unfold buf_size; destruct (_ <? _)%nat; auto|].
    unfold buf_size in Eb. change NUMBIGBUFS with 30%nat in Eb. rewrite Eb, (in_count i p HI).
    destruct (init_step i p b HI) as (r & Hr & HI'); [lia|done|].
    destruct (i <? 30)%nat; cbn [q_at set_q] in Hr, HI'; rewrite Hr;
      (destruct (IH (S i) _ ltac:(lia) HI') as (p' & -> & Hi & E); exists p'; by rewrite E).
Qed.

Lemma set_mins_free p : init_at 60 p -> pool_repr buf_size (set_mins p) all_free.
Proof.
  intros [HQ Hn Hb]. pose proof HQ as [Hq Hm Ha Hl Hs Ht Hh]. split; [split; [split| | |]|..]; cbn [set_mins pk_bufs pk_links]; try done.
  - intros k. pose proof (Hq k) as []. by destruct k.
  - intros k. pose proof (qo_len _ _ _ (Hq k)) as E. pose proof (Hm k) as [_ Hm2].
    destruct k; cbn in *; unfold q_marks in *; cbn; rewrite E in *; cbn in *; unfold NUMBIGBUFS, NUMLILBUFS; try lia. rewrite <- E. apply (Hm Rcv).
  - intros x b Hx. apply (Hb x b Hx).
  - intros k x b Hx Hxb. destruct (Hb x b Hxb) as (_ & Hmk & Hu & Hs'). split; [done|].
    unfold buf_size in Hs'. change NUMBIGBUFS with 30%nat in Hs'.
    destruct k; cbn in Hx.
    + change (x ∈ seq 0 30) in Hx. apply elem_of_seq in Hx. destruct (Nat.ltb_spec x 30); [done|lia].
    + change (x ∈ seq 30 30) in Hx. apply elem_of_seq in Hx. destruct (Nat.ltb_spec x 30); [lia|done].
    + by apply elem_of_nil in Hx.
  - intros x b []%elem_of_nil.
  - intros x b Hx. by destruct (Hb x b Hx) as (_ & _ & _ & ?).
  - intros x b [[]%elem_of_nil|[]%elem_of_nil].
Qed.

Lemma pk_init_free alloc_ok lnh : (forall j, (j < 120)%nat -> alloc_ok j = true) ->
  exists p, pk_init alloc_ok (pool_zero lnh) = Some (0, p) /\ pool_repr buf_size p all_free /\ MaxLnh p = lnh /\
    length (pk_bufs p) = 60%nat.
Proof.
  intros Hok. destruct (init_loop alloc_ok 60 0 (pool_zero lnh)) as (p & Hp & HI & E); [done|done| |].
  - split; [|done|by intros x b].
    split; try done; try (intros []; done); [|intros x Hx; by apply elem_of_nil in Hx].
    intros []; split; try done; apply NoDup_nil_2.
  - exists (set_mins p). split; [exact Hp|]. split; [by apply set_mins_free|]. split; [done|]. apply (in_count _ _ HI).
Qed.

(** ** Claims *)

(** C20. From pk_init on, whatever its users do with packets they have, the pool never
    reaches undefined behaviour and every packet stays in exactly one place: allocation
    and reception take the oldest packet of the queue the specification names, release
    and queueing add at the end, and the sixty packets are always all accounted for. *)
Theorem packet_pool_refines alloc_ok lnh l :
  (forall j, (j < 120)%nat -> alloc_ok j = true) -> ops_legal buf_size l all_free = true ->
  exists p p', pk_init alloc_ok (pool_zero lnh) = Some (0, p) /\
    let a := (a_run buf_size l all_free).2 in
    pk_run l p = Some ((a_run buf_size l all_free).1, p') /\ pool_repr buf_size p' a /\
    all_of (ap_queue a) (ap_used a) ≡ₚ seq 0 (length (pk_bufs p')).
Proof.
  intros Hok Hl. destruct (pk_init_free alloc_ok lnh Hok) as (p & Hp & HR & _).
  destruct (repr_run buf_size l p all_free HR Hl) as (p' & Hr & HR'). exists p, p'. cbn zeta.
  split_and!; try done. apply (po_all _ _ _ (po_queues _ _ _ (pr_ok _ _ _ HR'))).
Qed.

Lemma packet_pool_refines_witness : exists p p', pk_init (fun _ => true) (pool_zero 16) = Some (0, p) /\
  let l := [PAlloc 100; PAlloc 600; PWrite 0 10 7; PQueue 0; PFree 30; PDequeue; PFree 0] in
  let a := (a_run buf_size l all_free).2 in
  pk_run l p = Some ((a_run buf_size l all_free).1, p') /\ pool_repr buf_size p' a /\
  all_of (ap_queue a) (ap_used a) ≡ₚ seq 0 (length (pk_bufs p')).
Proof.
  apply (packet_pool_refines (fun _ => true) 16
    [PAlloc 100; PAlloc 600; PWrite 0 10 7; PQueue 0; PFree 30; PDequeue; PFree 0]); [done|].
  vm_compute. reflexivity.
Defined.

(** pk_free refuses what must not be returned: a packet that is already free, and one
    whose guard bytes were overwritten.  Both change an error counter and nothing else;
    a packet with several users loses one of them and stays in use. *)
Theorem pk_free_refuses p A H x b : pool_ok p A H -> pk_bufs p !! x = Some b ->
  (x ∈ A Big \/ x ∈ A Lil -> pk_free x p = Some (incr_stat MULTIPLE_FREE_ERR p)) /\
  (x ∈ H -> ~ marked b -> pk_free x p = Some (incr_stat GUARD_BAND_VIOLATED_ERR p)) /\
  (x ∈ H -> marked b -> 1 < nb_inuse b ->
    pk_free x p = Some (set_bufs (<[x := set_inuse (nb_inuse b - 1) b]> (pk_bufs p)) p)).
Proof.
  intros HP Hb. split_and!.
  - intros [Hx|Hx]; [by apply (pk_free_twice p A H Big)|by apply (pk_free_twice p A H Lil)].
  - intros Hx Hm. by apply (pk_free_spoiled p A H x b).
  - intros Hx Hm Hu. by apply (pk_free_shared p A H x b).
Qed.

Lemma pk_free_refuses_witness : exists p b, pk_bufs p !! 0%nat = Some b /\
  pk_free 0 p = Some (incr_stat MULTIPLE_FREE_ERR p).
Proof.
  destruct (pk_init_free (fun _ => true) 16) as (p & _ & HR & _); [done|].
  destruct (pool_lookup p (init_lists 60) [] 0 (po_queues _ _ _ (pr_ok _ _ _ HR))) as [b Hb]; [by left|].
  exists p, b. split; [done|]. apply (pk_free_refuses p (init_lists 60) [] 0 b (pr_ok _ _ _ HR) Hb). left. by left.
Defined.
