(* ===== verification/PrioSet.v ===== *)
(** * PrioSet

    The sets of priorities of uC/OS-II: the ready list and the wait list of an event
    are a group byte and a table of bytes, one bit per priority (os_core.c). *)

From S2P Require Import Prelude.

(** ** Data *)

Definition OS_LOWEST_PRIO : Z := 20.
Definition OS_RDY_TBL_SIZE : nat := Z.to_nat (OS_LOWEST_PRIO / 8 + 1).

(** [OSRdyGrp] and [OSRdyTbl], or [OSEventGrp] and [OSEventTbl]. *)
Record PrioSet := mkPrioSet { ps_grp : Z; ps_tbl : list Z }.

Definition OSUnMapTbl : list Z := [
  0; 0; 1; 0; 2; 0; 1; 0; 3; 0; 1; 0; 2; 0; 1; 0;
  4; 0; 1; 0; 2; 0; 1; 0; 3; 0; 1; 0; 2; 0; 1; 0;
  5; 0; 1; 0; 2; 0; 1; 0; 3; 0; 1; 0; 2; 0; 1; 0;
  4; 0; 1; 0; 2; 0; 1; 0; 3; 0; 1; 0; 2; 0; 1; 0;
  6; 0; 1; 0; 2; 0; 1; 0; 3; 0; 1; 0; 2; 0; 1; 0;
  4; 0; 1; 0; 2; 0; 1; 0; 3; 0; 1; 0; 2; 0; 1; 0;
  5; 0; 1; 0; 2; 0; 1; 0; 3; 0; 1; 0; 2; 0; 1; 0;
  4; 0; 1; 0; 2; 0; 1; 0; 3; 0; 1; 0; 2; 0; 1; 0;
  7; 0; 1; 0; 2; 0; 1; 0; 3; 0; 1; 0; 2; 0; 1; 0;
  4; 0; 1; 0; 2; 0; 1; 0; 3; 0; 1; 0; 2; 0; 1; 0;
  5; 0; 1; 0; 2; 0; 1; 0; 3; 0; 1; 0; 2; 0; 1; 0;
  4; 0; 1; 0; 2; 0; 1; 0; 3; 0; 1; 0; 2; 0; 1; 0;
  6; 0; 1; 0; 2; 0; 1; 0; 3; 0; 1; 0; 2; 0; 1; 0;
  4; 0; 1; 0; 2; 0; 1; 0; 3; 0; 1; 0; 2; 0; 1; 0;
  5; 0; 1; 0; 2; 0; 1; 0; 3; 0; 1; 0; 2; 0; 1; 0;
  4; 0; 1; 0; 2; 0; 1; 0; 3; 0; 1; 0; 2; 0; 1; 0].

Definition ps_empty : PrioSet := mkPrioSet 0 (replicate OS_RDY_TBL_SIZE 0).

(** ** Operations *)

(** [grp |= bity; tbl[y] |= bitx] *)
Definition ps_insert (y bitx bity : Z) (s : PrioSet) : option PrioSet :=
  let? v := (ps_tbl s !! Z.to_nat y : option Z) in
  Some (mkPrioSet (Z.lor (ps_grp s) bity) (<[Z.to_nat y := Z.lor v bitx]> (ps_tbl s))).

(** [tbl[y] &= ~bitx; if (tbl[y] == 0) grp &= ~bity] *)
Definition ps_remove (y bitx bity : Z) (s : PrioSet) : option PrioSet :=
  let? v := (ps_tbl s !! Z.to_nat y : option Z) in
  let v := Z.land v (u8 (Z.lnot bitx)) in
  Some (mkPrioSet (if v =? 0 then Z.land (ps_grp s) (u8 (Z.lnot bity)) else ps_grp s)
          (<[Z.to_nat y := v]> (ps_tbl s))).

(** [y = OSUnMapTbl[grp]; (y << 3) + OSUnMapTbl[tbl[y]]] *)
Definition ps_highest (s : PrioSet) : option Z :=
  let? y := (OSUnMapTbl !! Z.to_nat (ps_grp s) : option Z) in
  let? v := (ps_tbl s !! Z.to_nat y : option Z) in
  let? x := (OSUnMapTbl !! Z.to_nat v : option Z) in
  Some (u8 (Z.shiftl y 3 + x)).

(** The coordinates of a priority, as OS_TCBInit computes them. *)
Definition prio_y (prio : Z) : Z := u8 (Z.shiftr prio 3).
Definition prio_x (prio : Z) : Z := u8 (Z.land prio 0x07).
Definition prio_bity (prio : Z) : Z := u8 (Z.shiftl 1 (prio_y prio)).
Definition prio_bitx (prio : Z) : Z := u8 (Z.shiftl 1 (prio_x prio)).

(** ** What the bytes mean *)

(** [p] is in the set. *)
Definition ps_mem (p : Z) (s : PrioSet) : bool :=
  Z.testbit (nth (Z.to_nat (p / 8)) (ps_tbl s) 0) (p mod 8).

(** The group byte has the bit of a table byte that is not 0. *)
Record ps_wf (s : PrioSet) : Prop := {
  pw_len : length (ps_tbl s) = OS_RDY_TBL_SIZE;
  pw_bytes : bytes (ps_tbl s);
  pw_grp : 0 <= ps_grp s < 2 ^ 3;
  pw_bits : forall y, 0 <= y < 3 ->
    Z.testbit (ps_grp s) y = negb (nth (Z.to_nat y) (ps_tbl s) 0 =? 0);
}.

Definition prio_ok (p : Z) : Prop := 0 <= p <= OS_LOWEST_PRIO.

(** ** The resolution table *)

(** The entry of [v] is the lowest bit of [v]. *)
Definition lowest_bit (v x : Z) : bool :=
  Z.testbit v x && forallb (fun i => negb (Z.testbit v (Z.of_nat i))) (seq 0 (Z.to_nat x)) && (0 <=? x) && (x <? 8).

Lemma unmap_all : forallb (fun n => match OSUnMapTbl !! n with
  | Some x => lowest_bit (Z.of_nat n) x | None => false end) (seq 1 255) = true.
Proof. vm_compute. reflexivity. Qed.

Lemma unmap_lowest v : 0 < v < 256 -> exists x, OSUnMapTbl !! Z.to_nat v = Some x /\
  0 <= x < 8 /\ Z.testbit v x = true /\ forall i, 0 <= i < x -> Z.testbit v i = false.
Proof.
  intros Hv. pose proof unmap_all as H. rewrite forallb_forall in H.
  specialize (H (Z.to_nat v)). rewrite in_seq in H. specialize (H ltac:(lia)).
  destruct (OSUnMapTbl !! Z.to_nat v) as [x|]; [|done]. exists x. split; [done|].
  unfold lowest_bit in H. rewrite Z2Nat.id in H by lia.
  apply andb_prop in H as [H H4]. apply andb_prop in H as [H H3]. apply andb_prop in H as [H1 H2].
  split; [lia|]. split; [done|]. intros i Hi. rewrite forallb_forall in H2.
  specialize (H2 (Z.to_nat i)). rewrite in_seq, Z2Nat.id in H2 by lia.
  apply negb_true_iff, H2. lia.
Qed.

(** ** Coordinates *)

Lemma prio_coords_all : forallb (fun n => let p := Z.of_nat n in
  (prio_y p =? p / 8) && (prio_bity p =? 2 ^ (p / 8)) && (prio_bitx p =? 2 ^ (p mod 8))) (seq 0 21) = true.
Proof. vm_compute. reflexivity. Qed.

Lemma prio_coords p : prio_ok p ->
  prio_y p = p / 8 /\ prio_bity p = 2 ^ (p / 8) /\ prio_bitx p = 2 ^ (p mod 8) /\ 0 <= p / 8 < 3 /\ 0 <= p mod 8 < 8.
Proof.
  unfold prio_ok, OS_LOWEST_PRIO. intros Hp. pose proof prio_coords_all as H. rewrite forallb_forall in H.
  specialize (H (Z.to_nat p)). rewrite in_seq, Z2Nat.id in H by lia. specialize (H ltac:(lia)).
  cbv zeta in H. repeat split; try lia; Z.div_mod_to_equations; lia.
Qed.

(** ** One bit of a byte *)

Lemma pow2_testbit n i : 0 <= n -> Z.testbit (2 ^ n) i = (i =? n).
Proof. intros Hn. destruct (Z.eqb_spec i n) as [->|]; [by apply Z.pow2_bits_true|apply Z.pow2_bits_false; lia]. Qed.

Lemma testbit_set v n i : 0 <= n -> Z.testbit (Z.lor v (2 ^ n)) i = (i =? n) || Z.testbit v i.
Proof. intros Hn. rewrite Z.lor_spec, pow2_testbit by done. apply orb_comm. Qed.

Lemma u8_bits v i : is_u8 v -> 8 <= i -> Z.testbit v i = false.
Proof. intros Hv Hi. rewrite <- (u8_small v Hv). unfold u8. apply Z.mod_pow2_bits_high. lia. Qed.

Lemma testbit_clear v n i : is_u8 v -> 0 <= n < 8 -> 0 <= i ->
  Z.testbit (Z.land v (u8 (Z.lnot (2 ^ n)))) i = negb (i =? n) && Z.testbit v i.
Proof.
  intros Hv Hn Hi. rewrite Z.land_spec. unfold u8.
  destruct (Z.lt_ge_cases i 8).
  - rewrite Z.mod_pow2_bits_low, Z.lnot_spec, pow2_testbit by lia. apply andb_comm.
  - rewrite (u8_bits v i) by done. by rewrite andb_false_r.
Qed.

Lemma lor_bound k v n : 0 <= v < 2 ^ k -> 0 <= n < k -> 0 <= Z.lor v (2 ^ n) < 2 ^ k.
Proof.
  intros Hv Hn. pose proof (Z.pow_pos_nonneg 2 n ltac:(lia) ltac:(lia)).
  assert (0 <= Z.lor v (2 ^ n)) by (apply Z.lor_nonneg; lia).
  split; [done|]. destruct (Z.eq_dec (Z.lor v (2 ^ n)) 0) as [->|]; [lia|].
  apply Z.log2_lt_pow2; [lia|]. rewrite Z.log2_lor by lia. apply Z.max_lub_lt.
  - destruct (Z.eq_dec v 0) as [->|]; [cbn; lia|]. apply Z.log2_lt_pow2; lia.
  - rewrite Z.log2_pow2; lia.
Qed.

Lemma lor_u8 v n : is_u8 v -> 0 <= n < 8 -> is_u8 (Z.lor v (2 ^ n)).
Proof. apply lor_bound. Qed.

Lemma land_u8 v w : is_u8 v -> 0 <= w -> is_u8 (Z.land v w).
Proof.
  unfold is_u8. intros Hv Hw. assert (0 <= Z.land v w) by (apply Z.land_nonneg; lia). split; [done|].
  destruct (Z.eq_dec v 0) as [->|]; [rewrite Z.land_0_l; lia|].
  destruct (Z.eq_dec w 0) as [->|]; [rewrite Z.land_0_r; lia|].
  destruct (Z.eq_dec (Z.land v w) 0) as [->|]; [lia|]. apply Z.log2_lt_pow2; [lia|].
  pose proof (Z.log2_land v w ltac:(lia) ltac:(lia)).
  assert (Z.log2 v < 8) by (apply Z.log2_lt_pow2; lia). lia.
Qed.

Lemma zero_bits v : is_u8 v -> (forall i, 0 <= i < 8 -> Z.testbit v i = false) -> v = 0.
Proof.
  intros Hv Hb. apply Z.bits_inj'. intros i Hi. rewrite Z.bits_0.
  destruct (Z.lt_ge_cases i 8); [apply Hb; lia|by apply u8_bits].
Qed.

Lemma small_grp g : 0 <= g < 2 ^ 3 -> is_u8 g.
Proof. word_lia. Qed.

(** ** Insertion, removal and the highest priority *)

Lemma ps_lookup s y : ps_wf s -> 0 <= y < 3 -> exists v, ps_tbl s !! Z.to_nat y = Some v /\ is_u8 v /\
  nth (Z.to_nat y) (ps_tbl s) 0 = v.
Proof.
  intros [Hl Hb _ _] Hy. destruct (lookup_lt_is_Some_2 (ps_tbl s) (Z.to_nat y)) as [v Hv].
  { rewrite Hl. change OS_RDY_TBL_SIZE with 3%nat. lia. }
  exists v. split; [done|]. split; [by eapply Forall_lookup_1|]. by apply nth_lookup_Some.
Qed.

Lemma nth_insert_tbl (t : list Z) y v z : (Z.to_nat y < length t)%nat -> 0 <= y -> 0 <= z ->
  nth (Z.to_nat z) (<[Z.to_nat y := v]> t) 0 = if z =? y then v else nth (Z.to_nat z) t 0.
Proof.
  intros Hl Hy Hz. rewrite !nth_lookup. destruct (Z.eqb_spec z y) as [->|].
  - by rewrite list_lookup_insert_eq.
  - by rewrite list_lookup_insert_ne by lia.
Qed.

Lemma same_byte q p : 0 <= q -> 0 <= p -> (q =? p) = (q / 8 =? p / 8) && (q mod 8 =? p mod 8).
Proof. intros Hq Hp. Z.div_mod_to_equations. lia. Qed.

Lemma ps_insert_spec p s : ps_wf s -> prio_ok p ->
  exists s', ps_insert (prio_y p) (prio_bitx p) (prio_bity p) s = Some s' /\ ps_wf s' /\
    forall q, 0 <= q -> ps_mem q s' = (q =? p) || ps_mem q s.
Proof.
  intros Hs Hp. destruct (prio_coords p Hp) as (-> & -> & -> & Hy & Hx).
  destruct (ps_lookup s (p / 8) Hs Hy) as (v & Hv & Hu & Hn). unfold ps_insert. rewrite Hv.
  assert (Hlen : (Z.to_nat (p / 8) < length (ps_tbl s))%nat) by (by eapply lookup_lt_Some).
  eexists. split; [done|]. destruct Hs as [Hl Hb Hg Hbits]. split.
  - constructor; cbn [ps_grp ps_tbl].
    + by rewrite length_insert.
    + apply Forall_insert; [done|]. by apply lor_u8.
    + by apply lor_bound.
    + intros y Hy'. rewrite testbit_set, nth_insert_tbl by lia. rewrite (Hbits y Hy').
      destruct (Z.eqb_spec y (p / 8)) as [->|]; [|done]. cbn [orb]. symmetry. apply negb_true_iff, Z.eqb_neq.
      intros E. pose proof (testbit_set v (p mod 8) (p mod 8) ltac:(lia)) as T.
      by rewrite E, Z.bits_0, Z.eqb_refl in T.
  - intros q Hq. unfold ps_mem. cbn [ps_tbl]. rewrite nth_insert_tbl by (try done; try lia; Z.div_mod_to_equations; lia).
    rewrite (same_byte q p) by (unfold prio_ok in Hp; lia).
    destruct (Z.eqb_spec (q / 8) (p / 8)) as [->|]; [|done]. rewrite testbit_set by lia. by rewrite Hn.
Qed.

Lemma land_clear_le a c : 0 <= a -> 0 <= c -> 0 <= Z.land a c <= a.
Proof.
  intros Ha Hc. split; [apply Z.land_nonneg; lia|].
  apply Z.ldiff_le; [done|].
  apply Z.bits_inj'. intros i Hi. rewrite Z.ldiff_spec, Z.land_spec, Z.bits_0.
  by destruct (Z.testbit a i), (Z.testbit c i).
Qed.

Lemma ps_remove_spec p s : ps_wf s -> prio_ok p ->
  exists s', ps_remove (prio_y p) (prio_bitx p) (prio_bity p) s = Some s' /\ ps_wf s' /\
    forall q, 0 <= q -> ps_mem q s' = negb (q =? p) && ps_mem q s.
Proof.
  intros Hs Hp. destruct (prio_coords p Hp) as (-> & -> & -> & Hy & Hx).
  destruct (ps_lookup s (p / 8) Hs Hy) as (v & Hv & Hu & Hn). unfold ps_remove. rewrite Hv.
  assert (Hlen : (Z.to_nat (p / 8) < length (ps_tbl s))%nat) by (by eapply lookup_lt_Some).
  eexists. split; [done|]. destruct Hs as [Hl Hb Hg Hbits].
  assert (Hmask : forall n, 0 <= u8 (Z.lnot n)) by (intros n; pose proof (u8_range (Z.lnot n)); word_lia).
  split.
  - constructor; cbn [ps_grp ps_tbl].
    + by rewrite length_insert.
    + apply Forall_insert; [done|]. by apply land_u8.
    + destruct (_ =? 0); [|done]. pose proof (land_clear_le (ps_grp s) _ ltac:(lia) (Hmask (2 ^ (p / 8)))). lia.
    + intros y Hy'. rewrite nth_insert_tbl by lia. destruct (_ =? 0) eqn:Ez.
      * rewrite testbit_clear by (try apply small_grp; lia). rewrite (Hbits y Hy').
        destruct (Z.eqb_spec y (p / 8)) as [->|]; cbn [negb andb]; [by rewrite Ez|done].
      * rewrite (Hbits y Hy'). destruct (Z.eqb_spec y (p / 8)) as [->|]; [|done]. rewrite Ez, Hn.
        f_equal. apply Z.eqb_neq. intros ->. by rewrite Z.land_0_l in Ez.
  - intros q Hq. unfold ps_mem. cbn [ps_tbl]. rewrite nth_insert_tbl by (try done; try lia; Z.div_mod_to_equations; lia).
    rewrite (same_byte q p) by (unfold prio_ok in Hp; lia).
    destruct (Z.eqb_spec (q / 8) (p / 8)) as [->|]; [|done].
    rewrite testbit_clear by (try done; try lia; Z.div_mod_to_equations; lia). by rewrite Hn.
Qed.

Lemma ps_mem_range s p : ps_wf s -> 0 <= p -> ps_mem p s = true -> 0 <= p / 8 < 3.
Proof.
  intros [Hl _ _ _] Hp Hm. split; [Z.div_mod_to_equations; lia|].
  destruct (Z.lt_ge_cases (p / 8) 3); [done|]. unfold ps_mem in Hm.
  rewrite nth_overflow, Z.bits_0 in Hm; [done|]. rewrite Hl. change OS_RDY_TBL_SIZE with 3%nat. lia.
Qed.

(** A set is empty when its group is 0. *)
Lemma ps_grp_empty s : ps_wf s -> (ps_grp s =? 0) = false <-> exists p, 0 <= p /\ ps_mem p s = true.
Proof.
  intros Hs. pose proof Hs as [Hl Hb Hg Hbits]. split.
  - intros Hne. apply Z.eqb_neq in Hne. destruct (unmap_lowest (ps_grp s)) as (y & _ & _ & Hy & _); [lia|].
    assert (Hy3 : 0 <= y < 3).
    { destruct (Z.lt_ge_cases y 0); [by rewrite Z.testbit_neg_r in Hy|]. split; [done|].
      destruct (Z.lt_ge_cases y 3); [done|].
      rewrite Z.bits_above_log2 in Hy; [done|lia|]. apply Z.log2_lt_pow2; [lia|].
      assert (2 ^ 3 <= 2 ^ y) by (apply Z.pow_le_mono_r; lia). lia. }
    destruct (ps_lookup s y Hs Hy3) as (v & Hv & Hu & Hn).
    rewrite (Hbits y Hy3), Hn in Hy. apply negb_true_iff, Z.eqb_neq in Hy.
    destruct (unmap_lowest v) as (x & _ & Hx & Hvx & _); [word_lia|].
    exists (8 * y + x). split; [lia|]. unfold ps_mem.
    replace ((8 * y + x) / 8) with y by (Z.div_mod_to_equations; lia).
    replace ((8 * y + x) mod 8) with x by (Z.div_mod_to_equations; lia). by rewrite Hn.
  - intros (p & Hp & Hm). pose proof (ps_mem_range s p Hs Hp Hm) as Hy. apply Z.eqb_neq. intros E.
    pose proof (Hbits _ Hy) as Hb'. rewrite E, Z.bits_0 in Hb'. symmetry in Hb'.
    apply negb_false_iff, Z.eqb_eq in Hb'. unfold ps_mem in Hm. by rewrite Hb', Z.bits_0 in Hm.
Qed.

(** The lookups give the least element: the highest priority. *)
Lemma ps_highest_spec s : ps_wf s -> (exists p, 0 <= p /\ ps_mem p s = true) ->
  exists h, ps_highest s = Some h /\ 0 <= h < 24 /\ ps_mem h s = true /\ h / 8 = nth (Z.to_nat (ps_grp s)) OSUnMapTbl 0 /\
    forall q, 0 <= q -> ps_mem q s = true -> h <= q.
Proof.
  intros Hs Hne. pose proof Hs as [Hl Hb Hg Hbits]. apply (ps_grp_empty s Hs) in Hne as Hg0.
  apply Z.eqb_neq in Hg0. destruct (unmap_lowest (ps_grp s)) as (y & Ey & Hy8 & Hy & Hylow); [lia|].
  assert (Hy3 : 0 <= y < 3).
  { split; [lia|]. destruct (Z.lt_ge_cases y 3); [done|].
    rewrite Z.bits_above_log2 in Hy; [done|lia|]. apply Z.log2_lt_pow2; [lia|].
    assert (2 ^ 3 <= 2 ^ y) by (apply Z.pow_le_mono_r; lia). lia. }
  destruct (ps_lookup s y Hs Hy3) as (v & Hv & Hu & Hn).
  rewrite (Hbits y Hy3), Hn in Hy. apply negb_true_iff, Z.eqb_neq in Hy.
  destruct (unmap_lowest v) as (x & Ex & Hx & Hvx & Hxlow); [word_lia|].
  unfold ps_highest. rewrite Ey, Hv, Ex. rewrite Z.shiftl_mul_pow2 by lia.
  rewrite u8_small by word_lia. exists (y * 2 ^ 3 + x). split; [done|].
  assert (Hdiv : (y * 2 ^ 3 + x) / 8 = y) by (Z.div_mod_to_equations; lia).
  assert (Hmod : (y * 2 ^ 3 + x) mod 8 = x) by (Z.div_mod_to_equations; lia).
  split; [lia|]. split; [|split].
  - unfold ps_mem. by rewrite Hdiv, Hmod, Hn.
  - rewrite Hdiv. symmetry. by apply nth_lookup_Some.
  - intros q Hq Hm. pose proof (ps_mem_range s q Hs Hq Hm) as Hqy.
    assert (Hy' : y <= q / 8).
    { destruct (Z.lt_ge_cases (q / 8) y); [|done]. pose proof (Hylow (q / 8) ltac:(lia)) as Hb0.
      rewrite (Hbits _ Hqy) in Hb0. apply negb_false_iff, Z.eqb_eq in Hb0.
      unfold ps_mem in Hm. by rewrite Hb0, Z.bits_0 in Hm. }
    destruct (Z.eq_dec (q / 8) y) as [E|]; [|Z.div_mod_to_equations; lia].
    assert (x <= q mod 8); [|Z.div_mod_to_equations; lia].
    destruct (Z.lt_ge_cases (q mod 8) x); [|done].
    assert (0 <= q mod 8) by (Z.div_mod_to_equations; lia).
    pose proof (Hxlow (q mod 8) ltac:(lia)) as Hb0. unfold ps_mem in Hm. rewrite E, Hn in Hm. congruence.
Qed.

Lemma ps_empty_wf : ps_wf ps_empty.
Proof.
  constructor; [done|by apply Forall_replicate|done|].
  intros y Hy. assert (Hc : y = 0 \/ y = 1 \/ y = 2) by lia. by destruct Hc as [->|[->| ->]].
Qed.
