(* ===== verification/KernelData.v ===== *)
(** * KernelData

    The data of uC/OS-II (ucos_ii.h): task control blocks, event control blocks and the
    global variables, and the state monad in which the kernel is written.  The stacks
    of the tasks, their names and the event flags are not part of the state. *)

From S2P Require Import Prelude PrioSet.

(** ** Constants *)

Definition OS_PRIO_SELF : Z := 0xFF.
Definition OS_N_SYS_TASKS : Z := 2.
Definition OS_MAX_TASKS : Z := 10.
Definition OS_MAX_EVENTS : Z := 60.
Definition OS_TASK_IDLE_PRIO : Z := OS_LOWEST_PRIO.
Definition OS_TASK_STAT_PRIO : Z := OS_LOWEST_PRIO - 1.

Definition OS_STAT_RDY : Z := 0x00.
Definition OS_STAT_SEM : Z := 0x01.
Definition OS_STAT_MBOX : Z := 0x02.
Definition OS_STAT_Q : Z := 0x04.
Definition OS_STAT_SUSPEND : Z := 0x08.
Definition OS_STAT_MUTEX : Z := 0x10.
Definition OS_STAT_FLAG : Z := 0x20.
Definition OS_STAT_PEND_ANY : Z :=
  Z.lor (Z.lor (Z.lor (Z.lor OS_STAT_SEM OS_STAT_MBOX) OS_STAT_Q) OS_STAT_MUTEX) OS_STAT_FLAG.

Definition OS_STAT_PEND_OK : Z := 0.
Definition OS_STAT_PEND_TO : Z := 1.
Definition OS_STAT_PEND_ABORT : Z := 2.

Definition OS_EVENT_TYPE_UNUSED : Z := 0.
Definition OS_EVENT_TYPE_SEM : Z := 3.

Definition OS_TICK_STEP_DIS : Z := 0.
Definition OS_TICK_STEP_WAIT : Z := 1.
Definition OS_TICK_STEP_ONCE : Z := 2.

Definition OS_DEL_NO_PEND : Z := 0.
Definition OS_DEL_ALWAYS : Z := 1.
Definition OS_PEND_OPT_BROADCAST : Z := 1.

Definition OS_ERR_NONE : Z := 0.
Definition OS_ERR_EVENT_TYPE : Z := 1.
Definition OS_ERR_PEND_ISR : Z := 2.
Definition OS_ERR_PEVENT_NULL : Z := 4.
Definition OS_ERR_INVALID_OPT : Z := 7.
Definition OS_ERR_TIMEOUT : Z := 10.
Definition OS_ERR_PEND_LOCKED : Z := 13.
Definition OS_ERR_PEND_ABORT : Z := 14.
Definition OS_ERR_DEL_ISR : Z := 15.
Definition OS_ERR_PRIO_EXIST : Z := 40.
Definition OS_ERR_PRIO_INVALID : Z := 42.
Definition OS_ERR_SEM_OVF : Z := 50.
Definition OS_ERR_TASK_CREATE_ISR : Z := 60.
Definition OS_ERR_TASK_DEL : Z := 61.
Definition OS_ERR_TASK_DEL_IDLE : Z := 62.
Definition OS_ERR_TASK_DEL_REQ : Z := 63.
Definition OS_ERR_TASK_DEL_ISR : Z := 64.
Definition OS_ERR_TASK_NO_MORE_TCB : Z := 66.
Definition OS_ERR_TASK_NOT_EXIST : Z := 67.
Definition OS_ERR_TASK_NOT_SUSPENDED : Z := 68.
Definition OS_ERR_TASK_RESUME_PRIO : Z := 70.
Definition OS_ERR_TASK_SUSPEND_IDLE : Z := 71.
Definition OS_ERR_TASK_SUSPEND_PRIO : Z := 72.
Definition OS_ERR_TASK_WAITING : Z := 73.
Definition OS_ERR_TIME_NOT_DLY : Z := 80.
Definition OS_ERR_TIME_INVALID_MINUTES : Z := 81.
Definition OS_ERR_TIME_INVALID_SECONDS : Z := 82.
Definition OS_ERR_TIME_INVALID_MS : Z := 83.
Definition OS_ERR_TIME_ZERO_DLY : Z := 84.
Definition OS_ERR_TIME_DLY_ISR : Z := 85.

(** ** Data *)

(** A pointer to a task control block: null, the reserved value 1, or the address of
    an element of [OSTCBTbl]. *)
Inductive TcbPtr := TcbNull | TcbReserved | TcbAt (i : nat).

(** What [OSEventPtr] holds: null, the next free event, or a message. *)
Inductive VoidPtr := PtrNull | PtrEvent (i : nat) | PtrMsg (a : Z).

(** An [OS_TCB].  [OSTCBEventMultiPtr] is the array it points to, up to the null. *)
Record TCB := mkTCB {
  OSTCBExtPtr : Z;
  OSTCBStkBottom : Z;
  OSTCBStkSize : Z;
  OSTCBOpt : Z;
  OSTCBId : Z;
  OSTCBNext : TcbPtr;
  OSTCBPrev : TcbPtr;
  OSTCBEventPtr : option nat;
  OSTCBEventMultiPtr : option (list nat);
  OSTCBMsg : Z;
  OSTCBDly : Z;
  OSTCBStat : Z;
  OSTCBStatPend : Z;
  OSTCBPrio : Z;
  OSTCBX : Z;
  OSTCBY : Z;
  OSTCBBitX : Z;
  OSTCBBitY : Z;
  OSTCBDelReq : Z;
  OSTCBCtxSwCtr : Z;
}.

(** An [OS_EVENT]; [OSEventWait] is [OSEventGrp] and [OSEventTbl]. *)
Record EVENT := mkEVENT {
  OSEventType : Z;
  OSEventPtr : VoidPtr;
  OSEventCnt : Z;
  OSEventWait : PrioSet;
}.

(** The global variables of the kernel. *)
Record OS := mkOS {
  rdy : PrioSet; (* OSRdyGrp and OSRdyTbl *)
  prio_tbl : list TcbPtr; (* OSTCBPrioTbl *)
  tcb_tbl : list TCB; (* OSTCBTbl *)
  tcb_list : TcbPtr; (* OSTCBList *)
  tcb_free : TcbPtr; (* OSTCBFreeList *)
  event_tbl : list EVENT; (* OSEventTbl *)
  event_free : option nat; (* OSEventFreeList *)
  tcb_cur : TcbPtr; (* OSTCBCur *)
  tcb_high : TcbPtr; (* OSTCBHighRdy *)
  prio_cur : Z; (* OSPrioCur *)
  prio_high : Z; (* OSPrioHighRdy *)
  int_nesting : Z; (* OSIntNesting *)
  lock_nesting : Z; (* OSLockNesting *)
  running : bool; (* OSRunning *)
  os_time : Z; (* OSTime *)
  ctx_sw : Z; (* OSCtxSwCtr *)
  tick_step : Z; (* OSTickStepState *)
  task_ctr : Z; (* OSTaskCtr *)
  idle_ctr : Z; (* OSIdleCtr *)
}.

(** ** Assignments to a field *)

Definition set_OSTCBNext (x : TcbPtr) (t : TCB) : TCB :=
  mkTCB (OSTCBExtPtr t) (OSTCBStkBottom t) (OSTCBStkSize t) (OSTCBOpt t) (OSTCBId t) x
    (OSTCBPrev t) (OSTCBEventPtr t) (OSTCBEventMultiPtr t) (OSTCBMsg t) (OSTCBDly t) (OSTCBStat
    t) (OSTCBStatPend t) (OSTCBPrio t) (OSTCBX t) (OSTCBY t) (OSTCBBitX t) (OSTCBBitY t)
    (OSTCBDelReq t) (OSTCBCtxSwCtr t).
Definition set_OSTCBPrev (x : TcbPtr) (t : TCB) : TCB :=
  mkTCB (OSTCBExtPtr t) (OSTCBStkBottom t) (OSTCBStkSize t) (OSTCBOpt t) (OSTCBId t) (OSTCBNext
    t) x (OSTCBEventPtr t) (OSTCBEventMultiPtr t) (OSTCBMsg t) (OSTCBDly t) (OSTCBStat t)
    (OSTCBStatPend t) (OSTCBPrio t) (OSTCBX t) (OSTCBY t) (OSTCBBitX t) (OSTCBBitY t)
    (OSTCBDelReq t) (OSTCBCtxSwCtr t).
Definition set_OSTCBEventPtr (x : option nat) (t : TCB) : TCB :=
  mkTCB (OSTCBExtPtr t) (OSTCBStkBottom t) (OSTCBStkSize t) (OSTCBOpt t) (OSTCBId t) (OSTCBNext
    t) (OSTCBPrev t) x (OSTCBEventMultiPtr t) (OSTCBMsg t) (OSTCBDly t) (OSTCBStat t)
    (OSTCBStatPend t) (OSTCBPrio t) (OSTCBX t) (OSTCBY t) (OSTCBBitX t) (OSTCBBitY t)
    (OSTCBDelReq t) (OSTCBCtxSwCtr t).
Definition set_OSTCBEventMultiPtr (x : option (list nat)) (t : TCB) : TCB :=
  mkTCB (OSTCBExtPtr t) (OSTCBStkBottom t) (OSTCBStkSize t) (OSTCBOpt t) (OSTCBId t) (OSTCBNext
    t) (OSTCBPrev t) (OSTCBEventPtr t) x (OSTCBMsg t) (OSTCBDly t) (OSTCBStat t) (OSTCBStatPend
    t) (OSTCBPrio t) (OSTCBX t) (OSTCBY t) (OSTCBBitX t) (OSTCBBitY t) (OSTCBDelReq t)
    (OSTCBCtxSwCtr t).
Definition set_OSTCBMsg (x : Z) (t : TCB) : TCB :=
  mkTCB (OSTCBExtPtr t) (OSTCBStkBottom t) (OSTCBStkSize t) (OSTCBOpt t) (OSTCBId t) (OSTCBNext
    t) (OSTCBPrev t) (OSTCBEventPtr t) (OSTCBEventMultiPtr t) x (OSTCBDly t) (OSTCBStat t)
    (OSTCBStatPend t) (OSTCBPrio t) (OSTCBX t) (OSTCBY t) (OSTCBBitX t) (OSTCBBitY t)
    (OSTCBDelReq t) (OSTCBCtxSwCtr t).
Definition set_OSTCBDly (x : Z) (t : TCB) : TCB :=
  mkTCB (OSTCBExtPtr t) (OSTCBStkBottom t) (OSTCBStkSize t) (OSTCBOpt t) (OSTCBId t) (OSTCBNext
    t) (OSTCBPrev t) (OSTCBEventPtr t) (OSTCBEventMultiPtr t) (OSTCBMsg t) x (OSTCBStat t)
    (OSTCBStatPend t) (OSTCBPrio t) (OSTCBX t) (OSTCBY t) (OSTCBBitX t) (OSTCBBitY t)
    (OSTCBDelReq t) (OSTCBCtxSwCtr t).
Definition set_OSTCBStat (x : Z) (t : TCB) : TCB :=
  mkTCB (OSTCBExtPtr t) (OSTCBStkBottom t) (OSTCBStkSize t) (OSTCBOpt t) (OSTCBId t) (OSTCBNext
    t) (OSTCBPrev t) (OSTCBEventPtr t) (OSTCBEventMultiPtr t) (OSTCBMsg t) (OSTCBDly t) x
    (OSTCBStatPend t) (OSTCBPrio t) (OSTCBX t) (OSTCBY t) (OSTCBBitX t) (OSTCBBitY t)
    (OSTCBDelReq t) (OSTCBCtxSwCtr t).
Definition set_OSTCBStatPend (x : Z) (t : TCB) : TCB :=
  mkTCB (OSTCBExtPtr t) (OSTCBStkBottom t) (OSTCBStkSize t) (OSTCBOpt t) (OSTCBId t) (OSTCBNext
    t) (OSTCBPrev t) (OSTCBEventPtr t) (OSTCBEventMultiPtr t) (OSTCBMsg t) (OSTCBDly t)
    (OSTCBStat t) x (OSTCBPrio t) (OSTCBX t) (OSTCBY t) (OSTCBBitX t) (OSTCBBitY t)
    (OSTCBDelReq t) (OSTCBCtxSwCtr t).
Definition set_OSTCBDelReq (x : Z) (t : TCB) : TCB :=
  mkTCB (OSTCBExtPtr t) (OSTCBStkBottom t) (OSTCBStkSize t) (OSTCBOpt t) (OSTCBId t) (OSTCBNext
    t) (OSTCBPrev t) (OSTCBEventPtr t) (OSTCBEventMultiPtr t) (OSTCBMsg t) (OSTCBDly t)
    (OSTCBStat t) (OSTCBStatPend t) (OSTCBPrio t) (OSTCBX t) (OSTCBY t) (OSTCBBitX t)
    (OSTCBBitY t) x (OSTCBCtxSwCtr t).
Definition set_OSTCBCtxSwCtr (x : Z) (t : TCB) : TCB :=
  mkTCB (OSTCBExtPtr t) (OSTCBStkBottom t) (OSTCBStkSize t) (OSTCBOpt t) (OSTCBId t) (OSTCBNext
    t) (OSTCBPrev t) (OSTCBEventPtr t) (OSTCBEventMultiPtr t) (OSTCBMsg t) (OSTCBDly t)
    (OSTCBStat t) (OSTCBStatPend t) (OSTCBPrio t) (OSTCBX t) (OSTCBY t) (OSTCBBitX t)
    (OSTCBBitY t) (OSTCBDelReq t) x.

Definition set_OSEventType (x : Z) (e : EVENT) : EVENT :=
  mkEVENT x (OSEventPtr e) (OSEventCnt e) (OSEventWait e).
Definition set_OSEventPtr (x : VoidPtr) (e : EVENT) : EVENT :=
  mkEVENT (OSEventType e) x (OSEventCnt e) (OSEventWait e).
Definition set_OSEventCnt (x : Z) (e : EVENT) : EVENT :=
  mkEVENT (OSEventType e) (OSEventPtr e) x (OSEventWait e).
Definition set_OSEventWait (x : PrioSet) (e : EVENT) : EVENT :=
  mkEVENT (OSEventType e) (OSEventPtr e) (OSEventCnt e) x.

Definition set_rdy (x : PrioSet) (s : OS) : OS :=
  mkOS x (prio_tbl s) (tcb_tbl s) (tcb_list s) (tcb_free s) (event_tbl s) (event_free s)
    (tcb_cur s) (tcb_high s) (prio_cur s) (prio_high s) (int_nesting s) (lock_nesting s)
    (running s) (os_time s) (ctx_sw s) (tick_step s) (task_ctr s) (idle_ctr s).
Definition set_prio_tbl (x : list TcbPtr) (s : OS) : OS :=
  mkOS (rdy s) x (tcb_tbl s) (tcb_list s) (tcb_free s) (event_tbl s) (event_free s) (tcb_cur s)
    (tcb_high s) (prio_cur s) (prio_high s) (int_nesting s) (lock_nesting s) (running s)
    (os_time s) (ctx_sw s) (tick_step s) (task_ctr s) (idle_ctr s).
Definition set_tcb_tbl (x : list TCB) (s : OS) : OS :=
  mkOS (rdy s) (prio_tbl s) x (tcb_list s) (tcb_free s) (event_tbl s) (event_free s) (tcb_cur
    s) (tcb_high s) (prio_cur s) (prio_high s) (int_nesting s) (lock_nesting s) (running s)
    (os_time s) (ctx_sw s) (tick_step s) (task_ctr s) (idle_ctr s).
Definition set_tcb_list (x : TcbPtr) (s : OS) : OS :=
  mkOS (rdy s) (prio_tbl s) (tcb_tbl s) x (tcb_free s) (event_tbl s) (event_free s) (tcb_cur s)
    (tcb_high s) (prio_cur s) (prio_high s) (int_nesting s) (lock_nesting s) (running s)
    (os_time s) (ctx_sw s) (tick_step s) (task_ctr s) (idle_ctr s).
Definition set_tcb_free (x : TcbPtr) (s : OS) : OS :=
  mkOS (rdy s) (prio_tbl s) (tcb_tbl s) (tcb_list s) x (event_tbl s) (event_free s) (tcb_cur s)
    (tcb_high s) (prio_cur s) (prio_high s) (int_nesting s) (lock_nesting s) (running s)
    (os_time s) (ctx_sw s) (tick_step s) (task_ctr s) (idle_ctr s).
Definition set_event_tbl (x : list EVENT) (s : OS) : OS :=
  mkOS (rdy s) (prio_tbl s) (tcb_tbl s) (tcb_list s) (tcb_free s) x (event_free s) (tcb_cur s)
    (tcb_high s) (prio_cur s) (prio_high s) (int_nesting s) (lock_nesting s) (running s)
    (os_time s) (ctx_sw s) (tick_step s) (task_ctr s) (idle_ctr s).
Definition set_event_free (x : option nat) (s : OS) : OS :=
  mkOS (rdy s) (prio_tbl s) (tcb_tbl s) (tcb_list s) (tcb_free s) (event_tbl s) x (tcb_cur s)
    (tcb_high s) (prio_cur s) (prio_high s) (int_nesting s) (lock_nesting s) (running s)
    (os_time s) (ctx_sw s) (tick_step s) (task_ctr s) (idle_ctr s).
Definition set_tcb_cur (x : TcbPtr) (s : OS) : OS :=
  mkOS (rdy s) (prio_tbl s) (tcb_tbl s) (tcb_list s) (tcb_free s) (event_tbl s) (event_free s)
    x (tcb_high s) (prio_cur s) (prio_high s) (int_nesting s) (lock_nesting s) (running s)
    (os_time s) (ctx_sw s) (tick_step s) (task_ctr s) (idle_ctr s).
Definition set_tcb_high (x : TcbPtr) (s : OS) : OS :=
  mkOS (rdy s) (prio_tbl s) (tcb_tbl s) (tcb_list s) (tcb_free s) (event_tbl s) (event_free s)
    (tcb_cur s) x (prio_cur s) (prio_high s) (int_nesting s) (lock_nesting s) (running s)
    (os_time s) (ctx_sw s) (tick_step s) (task_ctr s) (idle_ctr s).
Definition set_prio_cur (x : Z) (s : OS) : OS :=
  mkOS (rdy s) (prio_tbl s) (tcb_tbl s) (tcb_list s) (tcb_free s) (event_tbl s) (event_free s)
    (tcb_cur s) (tcb_high s) x (prio_high s) (int_nesting s) (lock_nesting s) (running s)
    (os_time s) (ctx_sw s) (tick_step s) (task_ctr s) (idle_ctr s).
Definition set_prio_high (x : Z) (s : OS) : OS :=
  mkOS (rdy s) (prio_tbl s) (tcb_tbl s) (tcb_list s) (tcb_free s) (event_tbl s) (event_free s)
    (tcb_cur s) (tcb_high s) (prio_cur s) x (int_nesting s) (lock_nesting s) (running s)
    (os_time s) (ctx_sw s) (tick_step s) (task_ctr s) (idle_ctr s).
Definition set_int_nesting (x : Z) (s : OS) : OS :=
  mkOS (rdy s) (prio_tbl s) (tcb_tbl s) (tcb_list s) (tcb_free s) (event_tbl s) (event_free s)
    (tcb_cur s) (tcb_high s) (prio_cur s) (prio_high s) x (lock_nesting s) (running s) (os_time
    s) (ctx_sw s) (tick_step s) (task_ctr s) (idle_ctr s).
Definition set_lock_nesting (x : Z) (s : OS) : OS :=
  mkOS (rdy s) (prio_tbl s) (tcb_tbl s) (tcb_list s) (tcb_free s) (event_tbl s) (event_free s)
    (tcb_cur s) (tcb_high s) (prio_cur s) (prio_high s) (int_nesting s) x (running s) (os_time
    s) (ctx_sw s) (tick_step s) (task_ctr s) (idle_ctr s).
Definition set_running (x : bool) (s : OS) : OS :=
  mkOS (rdy s) (prio_tbl s) (tcb_tbl s) (tcb_list s) (tcb_free s) (event_tbl s) (event_free s)
    (tcb_cur s) (tcb_high s) (prio_cur s) (prio_high s) (int_nesting s) (lock_nesting s) x
    (os_time s) (ctx_sw s) (tick_step s) (task_ctr s) (idle_ctr s).
Definition set_os_time (x : Z) (s : OS) : OS :=
  mkOS (rdy s) (prio_tbl s) (tcb_tbl s) (tcb_list s) (tcb_free s) (event_tbl s) (event_free s)
    (tcb_cur s) (tcb_high s) (prio_cur s) (prio_high s) (int_nesting s) (lock_nesting s)
    (running s) x (ctx_sw s) (tick_step s) (task_ctr s) (idle_ctr s).
Definition set_ctx_sw (x : Z) (s : OS) : OS :=
  mkOS (rdy s) (prio_tbl s) (tcb_tbl s) (tcb_list s) (tcb_free s) (event_tbl s) (event_free s)
    (tcb_cur s) (tcb_high s) (prio_cur s) (prio_high s) (int_nesting s) (lock_nesting s)
    (running s) (os_time s) x (tick_step s) (task_ctr s) (idle_ctr s).
Definition set_tick_step (x : Z) (s : OS) : OS :=
  mkOS (rdy s) (prio_tbl s) (tcb_tbl s) (tcb_list s) (tcb_free s) (event_tbl s) (event_free s)
    (tcb_cur s) (tcb_high s) (prio_cur s) (prio_high s) (int_nesting s) (lock_nesting s)
    (running s) (os_time s) (ctx_sw s) x (task_ctr s) (idle_ctr s).
Definition set_task_ctr (x : Z) (s : OS) : OS :=
  mkOS (rdy s) (prio_tbl s) (tcb_tbl s) (tcb_list s) (tcb_free s) (event_tbl s) (event_free s)
    (tcb_cur s) (tcb_high s) (prio_cur s) (prio_high s) (int_nesting s) (lock_nesting s)
    (running s) (os_time s) (ctx_sw s) (tick_step s) x (idle_ctr s).
Definition set_idle_ctr (x : Z) (s : OS) : OS :=
  mkOS (rdy s) (prio_tbl s) (tcb_tbl s) (tcb_list s) (tcb_free s) (event_tbl s) (event_free s)
    (tcb_cur s) (tcb_high s) (prio_cur s) (prio_high s) (int_nesting s) (lock_nesting s)
    (running s) (os_time s) (ctx_sw s) (tick_step s) (task_ctr s) x.

(** ** The state monad

    [None] is undefined behaviour, as in the other components: a null or reserved
    pointer dereferenced, or an index outside a table. *)

Definition M (A : Type) : Type := OS -> option (A * OS).

Definition ret {A} (a : A) : M A := fun s => Some (a, s).
Definition fail {A} : M A := fun _ => None.
Definition bind {A B} (m : M A) (k : A -> M B) : M B := fun s => let? (a, s) := m s in k a s.
Definition gets {A} (f : OS -> A) : M A := fun s => Some (f s, s).
Definition modify (f : OS -> OS) : M unit := fun s => Some (tt, f s).

Notation "'let!' p ':=' m 'in' k" := (bind m (fun x => match x with p => k end))
  (at level 10, p pattern, m at level 200, k at level 200,
   format "'[v' 'let!'  p  ':='  m  'in' '/' k ']'").

Definition deref (p : TcbPtr) : M nat := match p with TcbAt i => ret i | _ => fail end.

Definition get_tcb (i : nat) : M TCB := fun s => let? t := tcb_tbl s !! i in Some (t, s).
Definition upd_tcb (i : nat) (f : TCB -> TCB) : M unit := fun s =>
  let? t := tcb_tbl s !! i in Some (tt, set_tcb_tbl (<[i := f t]> (tcb_tbl s)) s).

Definition get_event (e : nat) : M EVENT := fun s => let? v := event_tbl s !! e in Some (v, s).
Definition upd_event (e : nat) (f : EVENT -> EVENT) : M unit := fun s =>
  let? v := event_tbl s !! e in Some (tt, set_event_tbl (<[e := f v]> (event_tbl s)) s).

Definition get_prio (p : Z) : M TcbPtr := fun s =>
  let? x := prio_tbl s !! Z.to_nat p in Some (x, s).
Definition put_prio (p : Z) (x : TcbPtr) : M unit := fun s =>
  if (Z.to_nat p <? length (prio_tbl s))%nat
  then Some (tt, set_prio_tbl (<[Z.to_nat p := x]> (prio_tbl s)) s) else None.

(** A change to the ready list, and one to the wait list of an event. *)
Definition upd_rdy (f : PrioSet -> option PrioSet) : M unit := fun s =>
  let? r := f (rdy s) in Some (tt, set_rdy r s).
Definition upd_wait (e : nat) (f : PrioSet -> option PrioSet) : M unit := fun s =>
  let? v := event_tbl s !! e in let? w := f (OSEventWait v) in
  Some (tt, set_event_tbl (<[e := set_OSEventWait w v]> (event_tbl s)) s).
