(* ===== verification/Kernel.v ===== *)
(** * Kernel

    The core of uC/OS-II (os_core.c) and the creation, deletion and suspension of tasks
    (os_task.c), in the configuration of the board. *)

From S2P Require Import Prelude PrioSet KernelData.

(** ** The ready list *)

(** [OSRdyGrp |= OSTCBBitY; OSRdyTbl[y] |= OSTCBBitX] *)
Definition rdy_insert (t : TCB) : M unit := upd_rdy (ps_insert (OSTCBY t) (OSTCBBitX t) (OSTCBBitY t)).

(** [OSRdyTbl[y] &= ~OSTCBBitX; if (OSRdyTbl[y] == 0) OSRdyGrp &= ~OSTCBBitY] *)
Definition rdy_remove (t : TCB) : M unit := upd_rdy (ps_remove (OSTCBY t) (OSTCBBitX t) (OSTCBBitY t)).

(** ** The scheduler *)

Definition OS_SchedNew : M unit := fun s =>
  let? h := ps_highest (rdy s) in Some (tt, set_prio_high h s).

(** What OSCtxSw and OSIntCtxSw do to the kernel's variables (os_cpu_a.S). *)
Definition OSCtxSw : M unit := modify (fun s => set_prio_cur (prio_high s) (set_tcb_cur (tcb_high s) s)).

(** The switch to the highest priority that is ready, shared by OS_Sched and
    OSIntExit. *)
Definition switch_to_high : M unit :=
  let! _ := OS_SchedNew in
  let! high := gets prio_high in
  let! cur := gets prio_cur in
  if high =? cur then ret tt else
  let! p := get_prio high in
  let! _ := modify (set_tcb_high p) in
  let! i := deref p in
  let! _ := upd_tcb i (fun t => set_OSTCBCtxSwCtr (u32 (OSTCBCtxSwCtr t + 1)) t) in
  let! _ := modify (fun s => set_ctx_sw (u32 (ctx_sw s + 1)) s) in
  OSCtxSw.

Definition OS_Sched : M unit :=
  let! n := gets int_nesting in
  if negb (n =? 0) then ret tt else
  let! l := gets lock_nesting in
  if negb (l =? 0) then ret tt else switch_to_high.

Definition OSIntEnter : M unit :=
  let! r := gets running in
  if negb r then ret tt else
  let! n := gets int_nesting in
  if n <? 255 then modify (set_int_nesting (u8 (n + 1))) else ret tt.

Definition OSIntExit : M unit :=
  let! r := gets running in
  if negb r then ret tt else
  let! n := gets int_nesting in
  let! _ := (if 0 <? n then modify (set_int_nesting (u8 (n - 1))) else ret tt) in
  let! n := gets int_nesting in
  if negb (n =? 0) then ret tt else
  let! l := gets lock_nesting in
  if negb (l =? 0) then ret tt else switch_to_high.

Definition OSSchedLock : M unit :=
  let! r := gets running in
  if negb r then ret tt else
  let! n := gets int_nesting in
  if negb (n =? 0) then ret tt else
  let! l := gets lock_nesting in
  if l <? 255 then modify (set_lock_nesting (u8 (l + 1))) else ret tt.

Definition OSSchedUnlock : M unit :=
  let! r := gets running in
  if negb r then ret tt else
  let! l := gets lock_nesting in
  if negb (0 <? l) then ret tt else
  let! _ := modify (set_lock_nesting (u8 (l - 1))) in
  let! l := gets lock_nesting in
  if negb (l =? 0) then ret tt else
  let! n := gets int_nesting in
  if n =? 0 then OS_Sched else ret tt.

(** The last two assignments are those of OSStartHighRdy (os_cpu_a.S). *)
Definition OSStart : M unit :=
  let! r := gets running in
  if r then ret tt else
  let! _ := OS_SchedNew in
  let! h := gets prio_high in
  let! _ := modify (set_prio_cur h) in
  let! p := get_prio h in
  let! _ := modify (set_tcb_high p) in
  let! _ := modify (set_tcb_cur p) in
  let! _ := modify (set_running true) in
  OSCtxSw.

(** ** Events *)

Definition OS_EventTaskRemove (i e : nat) : M unit :=
  let! t := get_tcb i in
  upd_wait e (ps_remove (OSTCBY t) (OSTCBBitX t) (OSTCBBitY t)).

Fixpoint OS_EventTaskRemoveMulti (i : nat) (pevents : list nat) : M unit :=
  match pevents with
  | [] => ret tt
  | e :: pevents =>
      let! _ := OS_EventTaskRemove i e in
      OS_EventTaskRemoveMulti i pevents
  end.

(** The priority of the task that was readied.  [y] comes from the wait list, the bits
    from the task. *)
Definition OS_EventTaskRdy (e : nat) (pmsg msk pend_stat : Z) : M Z :=
  let! v := get_event e in
  let! prio := (fun s => let? p := ps_highest (OSEventWait v) in Some (p, s)) in
  let! p := get_prio prio in
  let! i := deref p in
  let! _ := upd_tcb i (fun t =>
    set_OSTCBStatPend pend_stat (set_OSTCBStat (Z.land (OSTCBStat t) (u8 (Z.lnot msk)))
      (set_OSTCBMsg pmsg (set_OSTCBDly 0 t)))) in
  let! t := get_tcb i in
  let! _ := (if Z.land (OSTCBStat t) OS_STAT_SUSPEND =? OS_STAT_RDY
             then upd_rdy (ps_insert (Z.shiftr prio 3) (OSTCBBitX t) (OSTCBBitY t))
             else ret tt) in
  let! _ := OS_EventTaskRemove i e in
  let! _ := match OSTCBEventMultiPtr t with
            | None => ret tt
            | Some pevents =>
                let! _ := OS_EventTaskRemoveMulti i pevents in
                upd_tcb i (set_OSTCBEventPtr (Some e))
            end in
  ret prio.

Definition OS_EventTaskWait (e : nat) : M unit :=
  let! p := gets tcb_cur in
  let! i := deref p in
  let! _ := upd_tcb i (set_OSTCBEventPtr (Some e)) in
  let! t := get_tcb i in
  let! _ := upd_wait e (ps_insert (OSTCBY t) (OSTCBBitX t) (OSTCBBitY t)) in
  rdy_remove t.

Definition OS_EventWaitListInit (e : nat) : M unit := upd_event e (set_OSEventWait ps_empty).

(** ** Initialisation *)

Definition zero_TCB : TCB := mkTCB 0 0 0 0 0 TcbNull TcbNull None None 0 0 0 0 0 0 0 0 0 0 0.
Definition zero_EVENT : EVENT := mkEVENT 0 PtrNull 0 ps_empty.
Definition N_TCB : nat := Z.to_nat (OS_MAX_TASKS + OS_N_SYS_TASKS).
Definition N_EVENT : nat := Z.to_nat OS_MAX_EVENTS.
Definition N_PRIO : nat := Z.to_nat (OS_LOWEST_PRIO + 1).

Definition OS_InitMisc : M unit := modify (fun s =>
  set_os_time 0 (set_int_nesting 0 (set_lock_nesting 0 (set_task_ctr 0 (set_running false
    (set_ctx_sw 0 (set_idle_ctr 0 s))))))).

Definition OS_InitRdyList : M unit := modify (fun s =>
  set_rdy ps_empty (set_prio_cur 0 (set_prio_high 0 (set_tcb_high TcbNull (set_tcb_cur TcbNull s))))).

(** The element [i] of a list of [n] links to [i + 1], the last one to null. *)
Definition free_tcb (n i : nat) : TCB :=
  set_OSTCBNext (if (S i <? n)%nat then TcbAt (S i) else TcbNull) zero_TCB.
Definition free_event (n i : nat) : EVENT :=
  set_OSEventPtr (if (S i <? n)%nat then PtrEvent (S i) else PtrNull) zero_EVENT.

Definition OS_InitTCBList : M unit := modify (fun s =>
  set_tcb_tbl (free_tcb N_TCB <$> seq 0 N_TCB) (set_prio_tbl (replicate N_PRIO TcbNull)
    (set_tcb_list TcbNull (set_tcb_free (TcbAt 0) s)))).

Definition OS_InitEventList : M unit := modify (fun s =>
  set_event_tbl (free_event N_EVENT <$> seq 0 N_EVENT) (set_event_free (Some 0%nat) s)).

(** ** Tasks *)

(** The new block, but for its links, from a free one. *)
Definition init_TCB (prio id pbos stk_size pext opt : Z) (t : TCB) : TCB :=
  mkTCB pext pbos stk_size opt id (OSTCBNext t) (OSTCBPrev t) None None 0 0 OS_STAT_RDY OS_STAT_PEND_OK
    prio (prio_x prio) (prio_y prio) (prio_bitx prio) (prio_bity prio) OS_ERR_NONE 0.

Definition OS_TCBInit (prio pbos id stk_size pext opt : Z) : M Z :=
  let! p := gets tcb_free in
  match p with
  | TcbNull => ret OS_ERR_TASK_NO_MORE_TCB
  | p =>
      let! i := deref p in
      let! t := get_tcb i in
      let! _ := modify (set_tcb_free (OSTCBNext t)) in
      let! _ := upd_tcb i (init_TCB prio id pbos stk_size pext opt) in
      let! _ := put_prio prio (TcbAt i) in
      let! l := gets tcb_list in
      let! _ := upd_tcb i (fun t => set_OSTCBPrev TcbNull (set_OSTCBNext l t)) in
      let! _ := match l with
                | TcbNull => ret tt
                | l => let! j := deref l in upd_tcb j (set_OSTCBPrev (TcbAt i))
                end in
      let! _ := modify (set_tcb_list (TcbAt i)) in
      let! t := get_tcb i in
      let! _ := rdy_insert t in
      let! _ := modify (fun s => set_task_ctr (u8 (task_ctr s + 1)) s) in
      ret OS_ERR_NONE
  end.

(** OSTaskCreate is the same with 0 for the last four arguments. *)
Definition OSTaskCreateExt (prio id pbos stk_size pext opt : Z) : M Z :=
  if OS_LOWEST_PRIO <? prio then ret OS_ERR_PRIO_INVALID else
  let! n := gets int_nesting in
  if 0 <? n then ret OS_ERR_TASK_CREATE_ISR else
  let! p := get_prio prio in
  match p with
  | TcbNull =>
      let! _ := put_prio prio TcbReserved in
      let! err := OS_TCBInit prio pbos id stk_size pext opt in
      let! _ := (if err =? OS_ERR_NONE then
                   let! r := gets running in if r then OS_Sched else ret tt
                 else put_prio prio TcbNull) in
      ret err
  | _ => ret OS_ERR_PRIO_EXIST
  end.

Definition OSTaskCreate (prio : Z) : M Z :=
  if OS_LOWEST_PRIO <? prio then ret OS_ERR_PRIO_INVALID else
  let! n := gets int_nesting in
  if 0 <? n then ret OS_ERR_TASK_CREATE_ISR else
  let! p := get_prio prio in
  match p with
  | TcbNull =>
      let! _ := put_prio prio TcbReserved in
      let! err := OS_TCBInit prio 0 0 0 0 0 in
      let! _ := (if err =? OS_ERR_NONE then
                   let! r := gets running in if r then OS_Sched else ret tt
                 else put_prio prio TcbNull) in
      ret err
  | _ => ret OS_ERR_PRIO_EXIST
  end.

Definition OSTaskDel (prio : Z) : M Z :=
  let! n := gets int_nesting in
  if 0 <? n then ret OS_ERR_TASK_DEL_ISR else
  if prio =? OS_TASK_IDLE_PRIO then ret OS_ERR_TASK_DEL_IDLE else
  if (OS_LOWEST_PRIO <=? prio) && negb (prio =? OS_PRIO_SELF) then ret OS_ERR_PRIO_INVALID else
  let! prio := (if prio =? OS_PRIO_SELF then
                  let! p := gets tcb_cur in let! c := deref p in
                  let! t := get_tcb c in ret (OSTCBPrio t)
                else ret prio) in
  let! p := get_prio prio in
  match p with
  | TcbNull => ret OS_ERR_TASK_NOT_EXIST
  | TcbReserved => ret OS_ERR_TASK_DEL
  | TcbAt i =>
      let! t := get_tcb i in
      let! _ := rdy_remove t in
      let! _ := match OSTCBEventPtr t with None => ret tt | Some e => OS_EventTaskRemove i e end in
      let! _ := match OSTCBEventMultiPtr t with
                | None => ret tt | Some es => OS_EventTaskRemoveMulti i es end in
      let! _ := upd_tcb i (fun t =>
        set_OSTCBStatPend OS_STAT_PEND_OK (set_OSTCBStat OS_STAT_RDY (set_OSTCBDly 0 t))) in
      let! l := gets lock_nesting in
      let! _ := (if l <? 255 then modify (set_lock_nesting (u8 (l + 1))) else ret tt) in
      let! l := gets lock_nesting in
      let! _ := (if 0 <? l then modify (set_lock_nesting (u8 (l - 1))) else ret tt) in
      let! _ := modify (fun s => set_task_ctr (u8 (task_ctr s - 1)) s) in
      let! _ := put_prio prio TcbNull in
      let! t := get_tcb i in
      let! next := deref (OSTCBNext t) in
      let! _ := match OSTCBPrev t with
                | TcbNull =>
                    let! _ := upd_tcb next (set_OSTCBPrev TcbNull) in
                    modify (set_tcb_list (OSTCBNext t))
                | prev =>
                    let! j := deref prev in
                    let! _ := upd_tcb j (set_OSTCBNext (OSTCBNext t)) in
                    upd_tcb next (set_OSTCBPrev (OSTCBPrev t))
                end in
      let! f := gets tcb_free in
      let! _ := upd_tcb i (set_OSTCBNext f) in
      let! _ := modify (set_tcb_free (TcbAt i)) in
      let! r := gets running in
      let! _ := (if r then OS_Sched else ret tt) in
      ret OS_ERR_NONE
  end.

Definition OSTaskDelReq (prio : Z) : M Z :=
  if prio =? OS_TASK_IDLE_PRIO then ret OS_ERR_TASK_DEL_IDLE else
  if (OS_LOWEST_PRIO <=? prio) && negb (prio =? OS_PRIO_SELF) then ret OS_ERR_PRIO_INVALID else
  if prio =? OS_PRIO_SELF then
    let! p := gets tcb_cur in let! c := deref p in
    let! t := get_tcb c in ret (OSTCBDelReq t)
  else
  let! p := get_prio prio in
  match p with
  | TcbNull => ret OS_ERR_TASK_NOT_EXIST
  | TcbReserved => ret OS_ERR_TASK_DEL
  | TcbAt i =>
      let! _ := upd_tcb i (set_OSTCBDelReq OS_ERR_TASK_DEL_REQ) in
      ret OS_ERR_NONE
  end.

Definition OSTaskResume (prio : Z) : M Z :=
  if OS_LOWEST_PRIO <=? prio then ret OS_ERR_PRIO_INVALID else
  let! p := get_prio prio in
  match p with
  | TcbNull => ret OS_ERR_TASK_RESUME_PRIO
  | TcbReserved => ret OS_ERR_TASK_NOT_EXIST
  | TcbAt i =>
      let! t := get_tcb i in
      if Z.land (OSTCBStat t) OS_STAT_SUSPEND =? OS_STAT_RDY then ret OS_ERR_TASK_NOT_SUSPENDED else
      let! _ := upd_tcb i (fun t =>
        set_OSTCBStat (Z.land (OSTCBStat t) (u8 (Z.lnot OS_STAT_SUSPEND))) t) in
      let! t := get_tcb i in
      let! _ := (if (OSTCBStat t =? OS_STAT_RDY) && (OSTCBDly t =? 0) then
                   let! _ := rdy_insert t in
                   let! r := gets running in if r then OS_Sched else ret tt
                 else ret tt) in
      ret OS_ERR_NONE
  end.

Definition OSTaskSuspend (prio : Z) : M Z :=
  if prio =? OS_TASK_IDLE_PRIO then ret OS_ERR_TASK_SUSPEND_IDLE else
  if (OS_LOWEST_PRIO <=? prio) && negb (prio =? OS_PRIO_SELF) then ret OS_ERR_PRIO_INVALID else
  let! p := gets tcb_cur in
  let! c := deref p in
  let! cur := get_tcb c in
  let self := (prio =? OS_PRIO_SELF) || (prio =? OSTCBPrio cur) in
  let prio := if prio =? OS_PRIO_SELF then OSTCBPrio cur else prio in
  let! p := get_prio prio in
  match p with
  | TcbNull => ret OS_ERR_TASK_SUSPEND_PRIO
  | TcbReserved => ret OS_ERR_TASK_NOT_EXIST
  | TcbAt i =>
      let! t := get_tcb i in
      let! _ := rdy_remove t in
      let! _ := upd_tcb i (fun t => set_OSTCBStat (Z.lor (OSTCBStat t) OS_STAT_SUSPEND) t) in
      let! _ := (if self then OS_Sched else ret tt) in
      ret OS_ERR_NONE
  end.

(** ** The clock tick *)

(** One block of the list; the same code ends the delay in OSTimeDlyResume. *)
Definition end_delay (i : nat) : M unit :=
  let! t := get_tcb i in
  let! _ := upd_tcb i (fun t =>
    if Z.land (OSTCBStat t) OS_STAT_PEND_ANY =? OS_STAT_RDY
    then set_OSTCBStatPend OS_STAT_PEND_OK t
    else set_OSTCBStatPend OS_STAT_PEND_TO
           (set_OSTCBStat (Z.land (OSTCBStat t) (u8 (Z.lnot OS_STAT_PEND_ANY))) t)) in
  let! t := get_tcb i in
  if Z.land (OSTCBStat t) OS_STAT_SUSPEND =? OS_STAT_RDY then rdy_insert t else ret tt.

Definition tick_task (i : nat) : M unit :=
  let! t := get_tcb i in
  if OSTCBDly t =? 0 then ret tt else
  let! _ := upd_tcb i (fun t => set_OSTCBDly (u16 (OSTCBDly t - 1)) t) in
  let! t := get_tcb i in
  if OSTCBDly t =? 0 then end_delay i else ret tt.

(** The list, up to the idle task.  [n] bounds the walk: it is longer than a list of
    distinct blocks, so that running out of it means that the list has a cycle. *)
Fixpoint tick_list (n : nat) (p : TcbPtr) : M unit :=
  match n with
  | O => fail
  | S n =>
      let! i := deref p in
      let! t := get_tcb i in
      if OSTCBPrio t =? OS_TASK_IDLE_PRIO then ret tt else
      let! _ := tick_task i in
      let! t := get_tcb i in
      tick_list n (OSTCBNext t)
  end.

(** Whether the tick is processed, after OSTickStepState. *)
Definition tick_step_state : M bool :=
  let! st := gets tick_step in
  if st =? OS_TICK_STEP_DIS then ret true
  else if st =? OS_TICK_STEP_WAIT then ret false
  else if st =? OS_TICK_STEP_ONCE then
    let! _ := modify (set_tick_step OS_TICK_STEP_WAIT) in ret true
  else let! _ := modify (set_tick_step OS_TICK_STEP_DIS) in ret true.

Definition OSTimeTick : M unit :=
  let! _ := modify (fun s => set_os_time (u32 (os_time s + 1)) s) in
  let! r := gets running in
  if negb r then ret tt else
  let! step := tick_step_state in
  if negb step then ret tt else
  let! l := gets tcb_list in
  tick_list (S N_TCB) l.

(** ** Starting the kernel *)

Definition OS_TASK_IDLE_ID : Z := 65535.
Definition OS_TASK_STAT_ID : Z := 65534.
Definition OS_TASK_OPT_STK_CHK : Z := 0x0001.
Definition OS_TASK_OPT_STK_CLR : Z := 0x0002.
Definition OS_TASK_IDLE_STK_SIZE : Z := 512.
Definition OS_TASK_STAT_STK_SIZE : Z := 512.

(** The addresses of the stacks play no part: they are 0 here. *)
Definition OS_InitTaskIdle : M unit :=
  let! _ := OSTaskCreateExt OS_TASK_IDLE_PRIO OS_TASK_IDLE_ID 0 OS_TASK_IDLE_STK_SIZE 0
    (Z.lor OS_TASK_OPT_STK_CHK OS_TASK_OPT_STK_CLR) in ret tt.
Definition OS_InitTaskStat : M unit :=
  let! _ := OSTaskCreateExt OS_TASK_STAT_PRIO OS_TASK_STAT_ID 0 OS_TASK_STAT_STK_SIZE 0
    (Z.lor OS_TASK_OPT_STK_CHK OS_TASK_OPT_STK_CLR) in ret tt.

(** The event flags, the memory partitions and the message queues are not part of the
    state: their initialisation is left out. *)
Definition OSInit : M unit :=
  let! _ := OS_InitMisc in
  let! _ := OS_InitRdyList in
  let! _ := OS_InitTCBList in
  let! _ := OS_InitEventList in
  let! _ := OS_InitTaskIdle in
  OS_InitTaskStat.

(** The variables before OSInit: zero, as the C start-up code leaves them. *)
Definition zero_OS : OS :=
  mkOS ps_empty [] [] TcbNull TcbNull [] None TcbNull TcbNull 0 0 0 0 false 0 0 0 0 0.
