(* ===== verification/KernelSem.v ===== *)
(** * KernelSem

    The semaphores (os_sem.c) and the delays (os_time.c) of uC/OS-II.  Pointers to
    events may be null ([None]); [perr] points to a variable of the caller, whose value
    is part of the result. *)

From S2P Require Import Prelude PrioSet KernelData Kernel.

(** ** Semaphores *)

(** The event of a pointer that is not null and, in [OSEventType], a semaphore. *)
Definition sem_event (pevent : option nat) : M (EVENT + Z) :=
  match pevent with
  | None => ret (inr OS_ERR_PEVENT_NULL)
  | Some e =>
      let! v := get_event e in
      ret (if OSEventType v =? OS_EVENT_TYPE_SEM then inl v else inr OS_ERR_EVENT_TYPE)
  end.

Definition OSSemAccept (pevent : option nat) : M Z :=
  match pevent with
  | None => ret 0
  | Some e =>
      let! v := get_event e in
      if negb (OSEventType v =? OS_EVENT_TYPE_SEM) then ret 0 else
      let cnt := OSEventCnt v in
      let! _ := (if 0 <? cnt then upd_event e (set_OSEventCnt (u16 (cnt - 1))) else ret tt) in
      ret cnt
  end.

(** The next free event, as [OSEventPtr] holds it. *)
Definition free_link (p : VoidPtr) : M (option nat) :=
  match p with PtrNull => ret None | PtrEvent i => ret (Some i) | PtrMsg _ => fail end.

Definition OSSemCreate (cnt : Z) : M (option nat) :=
  let! n := gets int_nesting in
  if 0 <? n then ret None else
  let! f := gets event_free in
  match f with
  | None => ret None
  | Some e =>
      let! v := get_event e in
      let! next := free_link (OSEventPtr v) in
      let! _ := modify (set_event_free next) in
      let! _ := upd_event e (fun v =>
        set_OSEventPtr PtrNull (set_OSEventCnt cnt (set_OSEventType OS_EVENT_TYPE_SEM v))) in
      let! _ := OS_EventWaitListInit e in
      ret (Some e)
  end.

(** Every waiting task is readied with [pend_stat]; the number of tasks.  A wait list
    holds at most one task per priority. *)
Fixpoint ready_all (n : nat) (e : nat) (pend_stat nbr_tasks : Z) : M Z :=
  let! v := get_event e in
  if ps_grp (OSEventWait v) =? 0 then ret nbr_tasks else
  match n with
  | O => fail
  | S n =>
      let! _ := OS_EventTaskRdy e 0 OS_STAT_SEM pend_stat in
      ready_all n e pend_stat (u8 (nbr_tasks + 1))
  end.

(** The event goes back to the free list. *)
Definition free_sem (e : nat) : M unit :=
  let! f := gets event_free in
  let! _ := upd_event e (fun v =>
    set_OSEventCnt 0 (set_OSEventPtr (match f with None => PtrNull | Some i => PtrEvent i end)
      (set_OSEventType OS_EVENT_TYPE_UNUSED v))) in
  modify (set_event_free (Some e)).

(** The pointer that is returned and [*perr]. *)
Definition OSSemDel (pevent : option nat) (opt : Z) : M (option nat * Z) :=
  match pevent with
  | None => ret (pevent, OS_ERR_PEVENT_NULL)
  | Some e =>
      let! v := get_event e in
      if negb (OSEventType v =? OS_EVENT_TYPE_SEM) then ret (pevent, OS_ERR_EVENT_TYPE) else
      let! n := gets int_nesting in
      if 0 <? n then ret (pevent, OS_ERR_DEL_ISR) else
      let tasks_waiting := negb (ps_grp (OSEventWait v) =? 0) in
      if opt =? OS_DEL_NO_PEND then
        if tasks_waiting then ret (pevent, OS_ERR_TASK_WAITING) else
        let! _ := free_sem e in ret (None, OS_ERR_NONE)
      else if opt =? OS_DEL_ALWAYS then
        let! _ := ready_all N_PRIO e OS_STAT_PEND_OK 0 in
        let! _ := free_sem e in
        let! _ := (if tasks_waiting then OS_Sched else ret tt) in
        ret (None, OS_ERR_NONE)
      else ret (pevent, OS_ERR_INVALID_OPT)
  end.

(** OSSemPend up to its return ([Some] is [*perr]) or, with [None], up to the end of
    OS_Sched: the task waits and another one runs. *)
Definition OSSemPend (pevent : option nat) (timeout : Z) : M (option Z) :=
  match pevent with
  | None => ret (Some OS_ERR_PEVENT_NULL)
  | Some e =>
      let! v := get_event e in
      if negb (OSEventType v =? OS_EVENT_TYPE_SEM) then ret (Some OS_ERR_EVENT_TYPE) else
      let! n := gets int_nesting in
      if 0 <? n then ret (Some OS_ERR_PEND_ISR) else
      let! l := gets lock_nesting in
      if 0 <? l then ret (Some OS_ERR_PEND_LOCKED) else
      if 0 <? OSEventCnt v then
        let! _ := upd_event e (set_OSEventCnt (u16 (OSEventCnt v - 1))) in
        ret (Some OS_ERR_NONE)
      else
        let! p := gets tcb_cur in
        let! c := deref p in
        let! _ := upd_tcb c (fun t =>
          set_OSTCBDly timeout (set_OSTCBStatPend OS_STAT_PEND_OK
            (set_OSTCBStat (Z.lor (OSTCBStat t) OS_STAT_SEM) t))) in
        let! _ := OS_EventTaskWait e in
        let! _ := OS_Sched in
        ret None
  end.

(** The rest of OSSemPend, when the task runs again: [*perr]. *)
Definition OSSemPend_resume (e : nat) : M Z :=
  let! p := gets tcb_cur in
  let! c := deref p in
  let! t := get_tcb c in
  let! err := (if OSTCBStatPend t =? OS_STAT_PEND_OK then ret OS_ERR_NONE
               else if OSTCBStatPend t =? OS_STAT_PEND_ABORT then ret OS_ERR_PEND_ABORT
               else let! _ := OS_EventTaskRemove c e in ret OS_ERR_TIMEOUT) in
  let! _ := upd_tcb c (fun t =>
    set_OSTCBEventMultiPtr None (set_OSTCBEventPtr None
      (set_OSTCBStatPend OS_STAT_PEND_OK (set_OSTCBStat OS_STAT_RDY t)))) in
  ret err.

(** The number of tasks and [*perr]. *)
Definition OSSemPendAbort (pevent : option nat) (opt : Z) : M (Z * Z) :=
  match pevent with
  | None => ret (0, OS_ERR_PEVENT_NULL)
  | Some e =>
      let! v := get_event e in
      if negb (OSEventType v =? OS_EVENT_TYPE_SEM) then ret (0, OS_ERR_EVENT_TYPE) else
      if ps_grp (OSEventWait v) =? 0 then ret (0, OS_ERR_NONE) else
      let! nbr := (if opt =? OS_PEND_OPT_BROADCAST then ready_all N_PRIO e OS_STAT_PEND_ABORT 0
                   else let! _ := OS_EventTaskRdy e 0 OS_STAT_SEM OS_STAT_PEND_ABORT in ret 1) in
      let! _ := OS_Sched in
      ret (nbr, OS_ERR_PEND_ABORT)
  end.

Definition OSSemPost (pevent : option nat) : M Z :=
  let! x := sem_event pevent in
  match x, pevent with
  | inl v, Some e =>
      if negb (ps_grp (OSEventWait v) =? 0) then
        let! _ := OS_EventTaskRdy e 0 OS_STAT_SEM OS_STAT_PEND_OK in
        let! _ := OS_Sched in
        ret OS_ERR_NONE
      else if OSEventCnt v <? 65535 then
        let! _ := upd_event e (set_OSEventCnt (u16 (OSEventCnt v + 1))) in
        ret OS_ERR_NONE
      else ret OS_ERR_SEM_OVF
  | inr err, _ => ret err
  | inl _, None => fail
  end.

(** The count and the wait list that [*p_sem_data] receives. *)
Definition OSSemQuery (pevent : option nat) : M (Z * PrioSet + Z) :=
  let! x := sem_event pevent in
  match x with
  | inl v => ret (inl (OSEventCnt v, OSEventWait v))
  | inr err => ret (inr err)
  end.

Definition OSSemSet (pevent : option nat) (cnt : Z) : M Z :=
  let! x := sem_event pevent in
  match x, pevent with
  | inl v, Some e =>
      if (0 <? OSEventCnt v) || (ps_grp (OSEventWait v) =? 0) then
        let! _ := upd_event e (set_OSEventCnt cnt) in ret OS_ERR_NONE
      else ret OS_ERR_TASK_WAITING
  | inr err, _ => ret err
  | inl _, None => fail
  end.

(** ** Delays *)

Definition OS_TICKS_PER_SEC : Z := 1000.

(** OSTimeDly returns when the delay is over: the state is that after OS_Sched. *)
Definition OSTimeDly (ticks : Z) : M unit :=
  let! n := gets int_nesting in
  if 0 <? n then ret tt else
  if negb (0 <? ticks) then ret tt else
  let! p := gets tcb_cur in
  let! c := deref p in
  let! t := get_tcb c in
  let! _ := rdy_remove t in
  let! _ := upd_tcb c (set_OSTCBDly ticks) in
  OS_Sched.

(** OS_TICKS_PER_SEC is 1000.0, so that the expression is evaluated in double precision.
    Its intermediate values are multiples of 1/2 far below 2^52, hence exact; they are
    written here in halves, and the assignment to [ticks] truncates. *)
Definition hmsm_ticks (hours minutes seconds ms : Z) : Z :=
  (u32 (u32 (hours * 3600 + minutes * 60) + seconds) * OS_TICKS_PER_SEC * 2 +
   OS_TICKS_PER_SEC * (ms * 2 + 500 * 2 / OS_TICKS_PER_SEC) / 1000) / 2.

Fixpoint hmsm_loops (loops : nat) : list Z :=
  match loops with O => [] | S n => u16 32768 :: u16 32768 :: hmsm_loops n end.

(** The arguments of the successive calls of OSTimeDly, and the result. *)
Definition OSTimeDlyHMSM (int_nesting hours minutes seconds ms : Z) : list Z * Z :=
  if 0 <? int_nesting then ([], OS_ERR_TIME_DLY_ISR) else
  if (hours =? 0) && (minutes =? 0) && (seconds =? 0) && (ms =? 0) then ([], OS_ERR_TIME_ZERO_DLY) else
  if 59 <? minutes then ([], OS_ERR_TIME_INVALID_MINUTES) else
  if 59 <? seconds then ([], OS_ERR_TIME_INVALID_SECONDS) else
  if 999 <? ms then ([], OS_ERR_TIME_INVALID_MS) else
  let ticks := hmsm_ticks hours minutes seconds ms in
  let loops := u16 (Z.shiftr ticks 16) in
  let ticks := Z.land ticks 0xFFFF in
  (u16 ticks :: hmsm_loops (Z.to_nat loops), OS_ERR_NONE).

Definition OSTimeDlyResume (prio : Z) : M Z :=
  if OS_LOWEST_PRIO <=? prio then ret OS_ERR_PRIO_INVALID else
  let! p := get_prio prio in
  match p with
  | TcbAt i =>
      let! t := get_tcb i in
      if OSTCBDly t =? 0 then ret OS_ERR_TIME_NOT_DLY else
      let! _ := upd_tcb i (set_OSTCBDly 0) in
      let! _ := end_delay i in
      let! t := get_tcb i in
      let! _ := (if Z.land (OSTCBStat t) OS_STAT_SUSPEND =? OS_STAT_RDY then OS_Sched else ret tt) in
      ret OS_ERR_NONE
  | _ => ret OS_ERR_TASK_NOT_EXIST
  end.

Definition OSTimeGet : M Z := gets os_time.
Definition OSTimeSet (ticks : Z) : M unit := modify (set_os_time ticks).
