(* ===== verification/KernelSpec.v ===== *)
(** * KernelSpec

    What uC/OS-II promises, without bitmaps, pointers and links: a set of ready
    priorities, one record per task and, per event, a count and a set of waiting
    priorities.  The operations are those of Kernel and KernelSem on that state. *)

From stdpp Require Import gmap.
From S2P Require Import Prelude PrioSet KernelData.

(** ** State *)

Inductive PendResult := PendOk | PendTimeout | PendAborted.

#[export] Instance PendResult_eq_dec : EqDecision PendResult.
Proof. solve_decision. Defined.

(** A task: whether it waits for a semaphore, whether it is suspended, how its last wait
    ended, the ticks left of its delay or time-out, and the event of the OSSemPend it is
    in. *)
Record Task := mkTask {
  tk_pending : bool;
  tk_susp : bool;
  tk_result : PendResult;
  tk_dly : Z;
  tk_event : option nat;
}.

Record Sem := mkSem { sm_type : Z; sm_cnt : Z; sm_wait : gset Z }.

(** The kernel; [a_free_ev] is the list of free events and [a_free_tcb] the number of
    free task control blocks. *)
Record AK := mkAK {
  a_ready : gset Z;
  a_tasks : gmap Z Task;
  a_sems : gmap nat Sem;
  a_cur : Z;
  a_int : Z;
  a_lock : Z;
  a_free_ev : list nat;
  a_free_tcb : nat;
}.

Definition set_ready (x : gset Z) (k : AK) : AK :=
  mkAK x (a_tasks k) (a_sems k) (a_cur k) (a_int k) (a_lock k) (a_free_ev k) (a_free_tcb k).
Definition set_tasks (x : gmap Z Task) (k : AK) : AK :=
  mkAK (a_ready k) x (a_sems k) (a_cur k) (a_int k) (a_lock k) (a_free_ev k) (a_free_tcb k).
Definition set_sems (x : gmap nat Sem) (k : AK) : AK :=
  mkAK (a_ready k) (a_tasks k) x (a_cur k) (a_int k) (a_lock k) (a_free_ev k) (a_free_tcb k).
Definition set_cur (x : Z) (k : AK) : AK :=
  mkAK (a_ready k) (a_tasks k) (a_sems k) x (a_int k) (a_lock k) (a_free_ev k) (a_free_tcb k).
Definition set_int (x : Z) (k : AK) : AK :=
  mkAK (a_ready k) (a_tasks k) (a_sems k) (a_cur k) x (a_lock k) (a_free_ev k) (a_free_tcb k).
Definition set_lock (x : Z) (k : AK) : AK :=
  mkAK (a_ready k) (a_tasks k) (a_sems k) (a_cur k) (a_int k) x (a_free_ev k) (a_free_tcb k).
Definition set_free_ev (x : list nat) (k : AK) : AK :=
  mkAK (a_ready k) (a_tasks k) (a_sems k) (a_cur k) (a_int k) (a_lock k) x (a_free_tcb k).
Definition set_free_tcb (x : nat) (k : AK) : AK :=
  mkAK (a_ready k) (a_tasks k) (a_sems k) (a_cur k) (a_int k) (a_lock k) (a_free_ev k) x.

(** ** The least element of a set *)

Definition least (X : gset Z) : option Z :=
  foldr (fun x acc => match acc with None => Some x | Some y => Some (Z.min x y) end) None (elements X).

Lemma least_spec X : match least X with
  | None => X = ∅ | Some p => p ∈ X /\ forall q, q ∈ X -> p <= q end.
Proof.
  unfold least. assert (Hl : forall l : list Z, match foldr (fun x acc => match acc with None => Some x
    | Some y => Some (Z.min x y) end) None l with
    | None => l = [] | Some p => p ∈ l /\ forall q, q ∈ l -> p <= q end).
  { induction l as [|x l IH]; [done|]. cbn [foldr]. destruct (foldr _ _ l) as [y|].
    - destruct IH as [Hy Hmin]. split.
      + apply elem_of_cons. destruct (Z.min_spec x y) as [[_ ->]|[_ ->]]; [by left|by right].
      + intros q [->|Hq]%elem_of_cons; [lia|]. specialize (Hmin q Hq). lia.
    - subst l. split; [constructor|]. intros q Hq. apply list_elem_of_singleton in Hq. lia. }
  specialize (Hl (elements X)). destruct (foldr _ _ _) as [p|].
  - destruct Hl as [Hp Hmin]. split; [by apply elem_of_elements|]. intros q Hq. apply Hmin. by apply elem_of_elements.
  - by apply elements_empty_inv, leibniz_equiv in Hl.
Qed.

Lemma least_unique X p : p ∈ X -> (forall q, q ∈ X -> p <= q) -> least X = Some p.
Proof.
  intros Hp Hmin. pose proof (least_spec X) as H. destruct (least X) as [r|]; [|set_solver].
  destruct H as [Hr Hmr]. f_equal. specialize (Hmin r Hr). specialize (Hmr p Hp). lia.
Qed.

(** ** Operations *)

(** A task that neither waits, nor is suspended, nor is delayed. *)
Definition tk_ready (t : Task) : bool := negb (tk_pending t) && negb (tk_susp t) && (tk_dly t =? 0).

Definition a_put (p : Z) (t : Task) (k : AK) : AK := set_tasks (<[p := t]> (a_tasks k)) k.
Definition a_ev (e : nat) (v : Sem) (k : AK) : AK := set_sems (<[e := v]> (a_sems k)) k.

(** The running task becomes the first ready one, unless in an interrupt or with the
    scheduler locked. *)
Definition a_sched (k : AK) : AK :=
  if (a_int k =? 0) && (a_lock k =? 0) then
    match least (a_ready k) with Some p => set_cur p k | None => k end
  else k.

(** The end of a wait with [r]. *)
Definition woken_by (r : PendResult) (t : Task) : Task := mkTask false (tk_susp t) r 0 (tk_event t).

(** The first task that waits for [e] stops waiting. *)
Definition a_wake (e : nat) (r : PendResult) (k : AK) : AK :=
  match a_sems k !! e with
  | None => k
  | Some v =>
      match least (sm_wait v) with
      | None => k
      | Some p =>
          match a_tasks k !! p with
          | None => k
          | Some t =>
              let k := a_put p (woken_by r t) k in
              let k := if tk_susp t then k else set_ready ({[p]} ∪ a_ready k) k in
              a_ev e (mkSem (sm_type v) (sm_cnt v) (sm_wait v ∖ {[p]})) k
          end
      end
  end.

(** All of them do. *)
Definition a_wake_all (e : nat) (r : PendResult) (k : AK) : AK :=
  match a_sems k !! e with
  | None => k
  | Some v =>
      let W := sm_wait v in
      a_ev e (mkSem (sm_type v) (sm_cnt v) ∅)
        (set_ready (a_ready k ∪ dom (filter (fun pt => pt.1 ∈ W /\ tk_susp pt.2 = false) (a_tasks k)))
          (set_tasks (map_imap (fun p t => Some (if decide (p ∈ W) then woken_by r t else t)) (a_tasks k)) k))
  end.

(** The running task waits for [e]. *)
Definition a_wait (e : nat) (timeout : Z) (k : AK) : AK :=
  match a_sems k !! e, a_tasks k !! a_cur k with
  | Some v, Some t =>
      let k1 := a_put (a_cur k) (mkTask true (tk_susp t) PendOk timeout (Some e)) k in
      let k2 := set_ready (a_ready k1 ∖ {[a_cur k]}) k1 in
      a_ev e (mkSem (sm_type v) (sm_cnt v) ({[a_cur k]} ∪ sm_wait v)) k2
  | _, _ => k
  end.

Definition a_pend (e : nat) (timeout : Z) (k : AK) : option Z * AK :=
  match a_sems k !! e with
  | None => (None, k)
  | Some v =>
      if negb (sm_type v =? OS_EVENT_TYPE_SEM) then (Some OS_ERR_EVENT_TYPE, k) else
      if 0 <? a_int k then (Some OS_ERR_PEND_ISR, k) else
      if 0 <? a_lock k then (Some OS_ERR_PEND_LOCKED, k) else
      if 0 <? sm_cnt v then (Some OS_ERR_NONE, a_ev e (mkSem (sm_type v) (sm_cnt v - 1) (sm_wait v)) k)
      else (None, a_sched (a_wait e timeout k))
  end.

(** [p] waits for nothing any more. *)
Definition a_unwait (p : Z) (t : Task) (k : AK) : AK :=
  match tk_event t with
  | None => k
  | Some e =>
      match a_sems k !! e with
      | None => k
      | Some v => a_ev e (mkSem (sm_type v) (sm_cnt v) (sm_wait v ∖ {[p]})) k
      end
  end.

Definition a_resume (k : AK) : Z * AK :=
  match a_tasks k !! a_cur k with
  | None => (0, k)
  | Some t =>
      let k1 := a_put (a_cur k) (mkTask false false PendOk (tk_dly t) None) k in
      match tk_result t with
      | PendOk => (OS_ERR_NONE, k1)
      | PendAborted => (OS_ERR_PEND_ABORT, k1)
      | PendTimeout => (OS_ERR_TIMEOUT, a_unwait (a_cur k) t k1)
      end
  end.

Definition a_post (e : nat) (k : AK) : Z * AK :=
  match a_sems k !! e with
  | None => (0, k)
  | Some v =>
      if negb (sm_type v =? OS_EVENT_TYPE_SEM) then (OS_ERR_EVENT_TYPE, k) else
      if negb (bool_decide (sm_wait v = ∅)) then (OS_ERR_NONE, a_sched (a_wake e PendOk k)) else
      if sm_cnt v <? 65535 then (OS_ERR_NONE, a_ev e (mkSem (sm_type v) (sm_cnt v + 1) (sm_wait v)) k)
      else (OS_ERR_SEM_OVF, k)
  end.

Definition a_accept (e : nat) (k : AK) : Z * AK :=
  match a_sems k !! e with
  | None => (0, k)
  | Some v =>
      if negb (sm_type v =? OS_EVENT_TYPE_SEM) then (0, k) else
      (sm_cnt v, if 0 <? sm_cnt v then a_ev e (mkSem (sm_type v) (sm_cnt v - 1) (sm_wait v)) k else k)
  end.

(** The running task is delayed. *)
Definition a_delay (ticks : Z) (k : AK) : AK :=
  if (0 <? a_int k) || negb (0 <? ticks) then k else
  match a_tasks k !! a_cur k with
  | None => k
  | Some t =>
      a_sched (set_ready (a_ready k ∖ {[a_cur k]})
        (a_put (a_cur k) (mkTask (tk_pending t) (tk_susp t) (tk_result t) ticks (tk_event t)) k))
  end.

(** The end of a delay or of a time-out. *)
Definition expire (t : Task) : Task :=
  mkTask false (tk_susp t) (if tk_pending t then PendTimeout else PendOk) 0 (tk_event t).

(** One tick for a task. *)
Definition tick1 (t : Task) : Task :=
  if tk_dly t =? 0 then t else if tk_dly t =? 1 then expire t
  else mkTask (tk_pending t) (tk_susp t) (tk_result t) (tk_dly t - 1) (tk_event t).

(** The tasks a tick makes ready. *)
Definition woken (t : Task) : bool := (tk_dly t =? 1) && negb (tk_susp t).

(** A tick, for all the tasks at once. *)
Definition a_tick (k : AK) : AK :=
  set_ready (a_ready k ∪ dom (filter (fun pt => woken pt.2 = true) (a_tasks k)))
    (set_tasks (tick1 <$> a_tasks k) k).

Definition a_enter (k : AK) : AK := if a_int k <? 255 then set_int (a_int k + 1) k else k.
Definition a_exit (k : AK) : AK :=
  a_sched (if 0 <? a_int k then set_int (a_int k - 1) k else k).

Definition a_suspend (prio : Z) (k : AK) : Z * AK :=
  if prio =? OS_TASK_IDLE_PRIO then (OS_ERR_TASK_SUSPEND_IDLE, k) else
  if (OS_LOWEST_PRIO <=? prio) && negb (prio =? OS_PRIO_SELF) then (OS_ERR_PRIO_INVALID, k) else
  let p := if prio =? OS_PRIO_SELF then a_cur k else prio in
  match a_tasks k !! p with
  | None => (OS_ERR_TASK_SUSPEND_PRIO, k)
  | Some t =>
      let k1 := set_ready (a_ready k ∖ {[p]})
        (a_put p (mkTask (tk_pending t) true (tk_result t) (tk_dly t) (tk_event t)) k) in
      (OS_ERR_NONE, if p =? a_cur k then a_sched k1 else k1)
  end.

Definition a_unsuspend (prio : Z) (k : AK) : Z * AK :=
  if OS_LOWEST_PRIO <=? prio then (OS_ERR_PRIO_INVALID, k) else
  match a_tasks k !! prio with
  | None => (OS_ERR_TASK_RESUME_PRIO, k)
  | Some t =>
      if negb (tk_susp t) then (OS_ERR_TASK_NOT_SUSPENDED, k) else
      let t1 := mkTask (tk_pending t) false (tk_result t) (tk_dly t) (tk_event t) in
      let k1 := a_put prio t1 k in
      (OS_ERR_NONE, if tk_ready t1 then a_sched (set_ready ({[prio]} ∪ a_ready k1) k1) else k1)
  end.

Definition a_lock_sched (k : AK) : AK :=
  if negb (a_int k =? 0) then k else if a_lock k <? 255 then set_lock (a_lock k + 1) k else k.
Definition a_unlock_sched (k : AK) : AK :=
  if negb (0 <? a_lock k) then k else a_sched (set_lock (a_lock k - 1) k).

Definition a_dly_resume (prio : Z) (k : AK) : Z * AK :=
  if OS_LOWEST_PRIO <=? prio then (OS_ERR_PRIO_INVALID, k) else
  match a_tasks k !! prio with
  | None => (OS_ERR_TASK_NOT_EXIST, k)
  | Some t =>
      if tk_dly t =? 0 then (OS_ERR_TIME_NOT_DLY, k) else
      let k1 := a_put prio (expire t) k in
      (OS_ERR_NONE, if tk_susp t then k1 else a_sched (set_ready ({[prio]} ∪ a_ready k1) k1))
  end.

Definition a_set (e : nat) (cnt : Z) (k : AK) : Z * AK :=
  match a_sems k !! e with
  | None => (0, k)
  | Some v =>
      if negb (sm_type v =? OS_EVENT_TYPE_SEM) then (OS_ERR_EVENT_TYPE, k) else
      if (0 <? sm_cnt v) || bool_decide (sm_wait v = ∅)
      then (OS_ERR_NONE, a_ev e (mkSem (sm_type v) cnt (sm_wait v)) k)
      else (OS_ERR_TASK_WAITING, k)
  end.

Definition a_abort (e : nat) (opt : Z) (k : AK) : (Z * Z) * AK :=
  match a_sems k !! e with
  | None => ((0, 0), k)
  | Some v =>
      if negb (sm_type v =? OS_EVENT_TYPE_SEM) then ((0, OS_ERR_EVENT_TYPE), k) else
      if bool_decide (sm_wait v = ∅) then ((0, OS_ERR_NONE), k) else
      if opt =? OS_PEND_OPT_BROADCAST
      then ((Z.of_nat (size (sm_wait v)), OS_ERR_PEND_ABORT), a_sched (a_wake_all e PendAborted k))
      else ((1, OS_ERR_PEND_ABORT), a_sched (a_wake e PendAborted k))
  end.

Definition a_sem_create (cnt : Z) (k : AK) : option nat * AK :=
  if 0 <? a_int k then (None, k) else
  match a_free_ev k with
  | [] => (None, k)
  | e :: l => (Some e, a_ev e (mkSem OS_EVENT_TYPE_SEM cnt ∅) (set_free_ev l k))
  end.

(** The semaphore is no more. *)
Definition a_free (e : nat) (k : AK) : AK :=
  set_free_ev (e :: a_free_ev k) (set_sems (delete e (a_sems k)) k).

Definition a_sem_del (e : nat) (opt : Z) (k : AK) : (option nat * Z) * AK :=
  match a_sems k !! e with
  | None => ((Some e, 0), k)
  | Some v =>
      if negb (sm_type v =? OS_EVENT_TYPE_SEM) then ((Some e, OS_ERR_EVENT_TYPE), k) else
      if 0 <? a_int k then ((Some e, OS_ERR_DEL_ISR), k) else
      if opt =? OS_DEL_NO_PEND then
        if bool_decide (sm_wait v = ∅) then ((None, OS_ERR_NONE), a_free e k)
        else ((Some e, OS_ERR_TASK_WAITING), k)
      else if opt =? OS_DEL_ALWAYS then
        ((None, OS_ERR_NONE),
         if bool_decide (sm_wait v = ∅) then a_free e k else a_sched (a_free e (a_wake_all e PendOk k)))
      else ((Some e, OS_ERR_INVALID_OPT), k)
  end.

Definition new_task : Task := mkTask false false PendOk 0 None.

Definition a_task_create (prio : Z) (k : AK) : Z * AK :=
  if OS_LOWEST_PRIO <? prio then (OS_ERR_PRIO_INVALID, k) else
  if 0 <? a_int k then (OS_ERR_TASK_CREATE_ISR, k) else
  match a_tasks k !! prio, a_free_tcb k with
  | Some _, _ => (OS_ERR_PRIO_EXIST, k)
  | None, O => (OS_ERR_TASK_NO_MORE_TCB, k)
  | None, S n =>
      (OS_ERR_NONE, a_sched (set_ready ({[prio]} ∪ a_ready k) (a_put prio new_task (set_free_tcb n k))))
  end.

Definition a_task_del (prio : Z) (k : AK) : Z * AK :=
  if 0 <? a_int k then (OS_ERR_TASK_DEL_ISR, k) else
  if prio =? OS_TASK_IDLE_PRIO then (OS_ERR_TASK_DEL_IDLE, k) else
  if (OS_LOWEST_PRIO <=? prio) && negb (prio =? OS_PRIO_SELF) then (OS_ERR_PRIO_INVALID, k) else
  let p := if prio =? OS_PRIO_SELF then a_cur k else prio in
  match a_tasks k !! p with
  | None => (OS_ERR_TASK_NOT_EXIST, k)
  | Some t =>
      let k1 := a_unwait p t k in
      (OS_ERR_NONE, a_sched (set_free_tcb (S (a_free_tcb k1)) (set_ready (a_ready k1 ∖ {[p]})
        (set_tasks (delete p (a_tasks k1)) k1))))
  end.
