(* ===== verification/KernelInv.v ===== *)
(** * KernelInv

    The invariant of the specification of the kernel: the ready set, the wait lists and
    the records of the tasks agree, and the running task is the one the scheduler
    chose.  Every operation preserves it. *)

From stdpp Require Import gmap.
From S2P Require Import Prelude PrioSet KernelData Kernel KernelSpec.

(** ** The invariant *)

(** The task is in the wait list of [e]: it waits, or its time-out is over and it has not
    run since. *)
Definition waits (e : nat) (t : Task) : Prop :=
  tk_event t = Some e /\ (tk_pending t = true \/ tk_result t = PendTimeout).

Record task_ok (t : Task) : Prop := {
  to_pending : tk_pending t = true -> tk_result t = PendOk /\ tk_event t <> None;
  to_dly : tk_event t <> None -> tk_pending t = false -> tk_dly t = 0;
  to_result : tk_result t <> PendOk -> tk_event t <> None;
  to_u16 : is_u16 (tk_dly t);
  to_event : forall e, tk_event t = Some e -> (e < N_EVENT)%nat;
}.

(** The sets and the records agree. *)
Record kcore (k : AK) : Prop := {
  kc_ready : forall p, p ∈ a_ready k <-> exists t, a_tasks k !! p = Some t /\ tk_ready t = true;
  kc_wait : forall e v p, a_sems k !! e = Some v ->
    p ∈ sm_wait v <-> exists t, a_tasks k !! p = Some t /\ waits e t;
  kc_waits : forall p t e, a_tasks k !! p = Some t -> waits e t -> is_Some (a_sems k !! e);
  kc_task : forall p t, a_tasks k !! p = Some t -> prio_ok p /\ task_ok t;
  kc_cnt : forall e v, a_sems k !! e = Some v -> is_u16 (sm_cnt v) /\ (0 < sm_cnt v -> sm_wait v = ∅);
  kc_sem : forall e, is_Some (a_sems k !! e) -> (e < N_EVENT)%nat /\ e ∉ a_free_ev k;
  kc_free : NoDup (a_free_ev k) /\ forall e, e ∈ a_free_ev k -> (e < N_EVENT)%nat;
  kc_idle : a_tasks k !! OS_TASK_IDLE_PRIO = Some new_task;
}.

(** The running task is the first ready one, unless an interrupt or a lock keeps it; one
    that is about to return from OSSemPend no longer waits, and holds no lock. *)
Record kinv (k : AK) : Prop := {
  ki_core : kcore k;
  ki_cur : is_Some (a_tasks k !! a_cur k);
  ki_sched : a_int k = 0 -> a_lock k = 0 -> least (a_ready k) = Some (a_cur k);
  ki_resume : forall t, a_tasks k !! a_cur k = Some t -> tk_event t <> None ->
    a_lock k = 0 /\ tk_pending t = false;
  ki_int : 0 <= a_int k;
  ki_lock : 0 <= a_lock k;
}.

(** ** One task changes *)

(** The semaphores of [k'] are those of [k] but for the task [p], whose record is
    [t']. *)
Definition sems_at (p : Z) (t' : Task) (k k' : AK) : Prop := forall e,
  match a_sems k !! e, a_sems k' !! e with
  | None, None => ~ waits e t'
  | Some v, Some v' =>
      (forall q, q ∈ sm_wait v' <-> (q <> p /\ q ∈ sm_wait v) \/ (q = p /\ waits e t')) /\
      is_u16 (sm_cnt v') /\ (0 < sm_cnt v' -> sm_wait v' = ∅)
  | _, _ => False
  end.

Definition ready_at (p : Z) (t' : Task) (k k' : AK) : Prop := forall q,
  q ∈ a_ready k' <-> (q <> p /\ q ∈ a_ready k) \/ (q = p /\ tk_ready t' = true).

Lemma core_update k k' p t' :
  kcore k -> prio_ok p -> p <> OS_TASK_IDLE_PRIO ->
  a_tasks k' = <[p := t']> (a_tasks k) -> a_free_ev k' = a_free_ev k ->
  task_ok t' -> ready_at p t' k k' -> sems_at p t' k k' -> kcore k'.
Proof.
  intros [C1 C2 C3 C4 C5 C6 C7 C8] Hpo Hp Et Ef Hok Hr Hs.
  assert (L : forall q u, <[p := t']> (a_tasks k) !! q = Some u <->
    (q <> p /\ a_tasks k !! q = Some u) \/ (q = p /\ u = t')).
  { intros q u. destruct (decide (q = p)) as [->|]; [rewrite lookup_insert_eq|rewrite lookup_insert_ne by done]; naive_solver. }
  constructor; rewrite ?Et, ?Ef.
  - intros q. rewrite (Hr q). rewrite C1. setoid_rewrite L. naive_solver.
  - intros e v q Hv. pose proof (Hs e) as H. rewrite Hv in H. destruct (a_sems k !! e) as [w|] eqn:Ew; [|done].
    destruct H as (H & _). rewrite H. rewrite (C2 e w q Ew). setoid_rewrite L. clear -H. naive_solver.
  - intros q u e [[Hq Hu]|[-> ->]]%L Hw; pose proof (Hs e) as H.
    + destruct (C3 q u e Hu Hw) as [w Ew]. rewrite Ew in H. destruct (a_sems k' !! e); [by eexists|done].
    + by destruct (a_sems k !! e), (a_sems k' !! e).
  - intros q u [[Hq Hu]|[-> ->]]%L; [by apply C4|done].
  - intros e v Hv. pose proof (Hs e) as H. rewrite Hv in H. destruct (a_sems k !! e) as [w|]; [apply H|done].
  - intros e [v Hv]. pose proof (Hs e) as H. rewrite Hv in H. destruct (a_sems k !! e) as [w|] eqn:Ew; [|done].
    apply C6. by rewrite Ew.
  - done.
  - by rewrite lookup_insert_ne by done.
Qed.

(** The semaphores do not change. *)
Lemma sems_at_same k k' p t t' : kcore k -> a_tasks k !! p = Some t -> a_sems k' = a_sems k ->
  (forall e, waits e t' <-> waits e t) -> sems_at p t' k k'.
Proof.
  intros C Ht Es Hw e. rewrite Es. destruct (a_sems k !! e) as [v|] eqn:Ev.
  - split; [|by apply (kc_cnt k C e v)]. intros q. rewrite (kc_wait k C e v q Ev), Hw.
    destruct (decide (q = p)) as [->|]; [|naive_solver]. naive_solver.
  - rewrite Hw. intros Hx. destruct (kc_waits k C p t e Ht Hx) as [v Hv]. congruence.
Qed.

(** [p] leaves the wait list of [e], the only one that may hold it. *)
Lemma sems_at_remove k k' p t t' e v : kcore k -> a_tasks k !! p = Some t -> a_sems k !! e = Some v ->
  a_sems k' = <[e := mkSem (sm_type v) (sm_cnt v) (sm_wait v ∖ {[p]})]> (a_sems k) ->
  (forall e', waits e' t -> e' = e) -> (forall e', ~ waits e' t') -> sems_at p t' k k'.
Proof.
  intros C Ht Ev Es Hw Hw' e'. rewrite Es. destruct (decide (e' = e)) as [->|Hne].
  - rewrite Ev, lookup_insert_eq. cbn [sm_cnt sm_wait]. destruct (kc_cnt k C e v Ev) as [H1 H2].
    split; [|split; [done|intros H; rewrite (H2 H); set_solver]].
    intros q. specialize (Hw' e). set_solver.
  - rewrite lookup_insert_ne by done. destruct (a_sems k !! e') as [w|] eqn:Ew; [|by apply Hw'].
    split; [|by apply (kc_cnt k C e' w)]. intros q. rewrite (kc_wait k C e' w q Ew).
    specialize (Hw' e'). specialize (Hw e'). naive_solver.
Qed.

Lemma ready_at_insert k k' p t' : a_ready k' = {[p]} ∪ a_ready k -> tk_ready t' = true -> ready_at p t' k k'.
Proof. intros E H q. rewrite E, H. destruct (decide (q = p)); set_solver. Qed.
Lemma ready_at_remove k k' p t' : a_ready k' = a_ready k ∖ {[p]} -> tk_ready t' = false -> ready_at p t' k k'.
Proof. intros E H q. rewrite E, H. destruct (decide (q = p)); set_solver. Qed.
Lemma ready_at_same k k' p t t' : kcore k -> a_tasks k !! p = Some t -> a_ready k' = a_ready k ->
  tk_ready t' = tk_ready t -> ready_at p t' k k'.
Proof.
  intros C Ht E H q. rewrite E, H. destruct (decide (q = p)) as [->|]; [|naive_solver].
  rewrite (kc_ready k C p). naive_solver.
Qed.

(** ** The scheduler *)

Lemma idle_ready k : kcore k -> OS_TASK_IDLE_PRIO ∈ a_ready k.
Proof. intros C. apply (kc_ready k C). exists new_task. split; [apply (kc_idle k C)|done]. Qed.

Lemma core_least k : kcore k -> exists p t, least (a_ready k) = Some p /\ a_tasks k !! p = Some t /\ tk_ready t = true.
Proof.
  intros C. pose proof (least_spec (a_ready k)) as H. destruct (least (a_ready k)) as [p|].
  - destruct H as [Hp _]. apply (kc_ready k C) in Hp as (t & Ht & Hr). by exists p, t.
  - pose proof (idle_ready k C). set_solver.
Qed.

Lemma core_set_cur p k : kcore k -> kcore (set_cur p k).
Proof. by intros []. Qed.
Lemma core_set_int x k : kcore k -> kcore (set_int x k).
Proof. by intros []. Qed.
Lemma core_set_lock x k : kcore k -> kcore (set_lock x k).
Proof. by intros []. Qed.

(** Rescheduling completes the invariant. *)
Lemma sched_inv k : kcore k -> 0 <= a_int k -> 0 <= a_lock k ->
  (a_int k <> 0 \/ a_lock k <> 0 ->
     exists t, a_tasks k !! a_cur k = Some t /\ (tk_event t <> None -> a_lock k = 0 /\ tk_pending t = false)) ->
  kinv (a_sched k).
Proof.
  intros C Hi Hl Hcur. unfold a_sched. destruct ((a_int k =? 0) && (a_lock k =? 0)) eqn:E.
  - destruct (core_least k C) as (p & t & Ep & Ht & Hr). rewrite Ep.
    constructor; cbn; try done.
    + by apply core_set_cur.
    + intros t' Ht' Hev. unfold tk_ready in Hr. split; [lia|]. assert (t' = t) as -> by congruence.
      by destruct (tk_pending t).
  - destruct Hcur as (t & Ht & Hev); [lia|]. constructor; try done; try lia.
    intros t' Ht'. by assert (t' = t) as -> by congruence.
Qed.

(** ** Semaphores *)

Lemma not_idle k p t : kcore k -> a_tasks k !! p = Some t -> t <> new_task -> p <> OS_TASK_IDLE_PRIO.
Proof. intros C Ht Hn ->. rewrite (kc_idle k C) in Ht. congruence. Qed.

Lemma waits_one e e' t : waits e t -> waits e' t -> e' = e.
Proof. intros [E _] [E' _]. congruence. Qed.

Lemma waits_new e t : waits e t -> t <> new_task.
Proof. intros [E _] ->. done. Qed.

(** Who waits is not ready, unless its time-out is over. *)
Lemma task_ok_woken k p t e r : kcore k -> a_tasks k !! p = Some t -> waits e t -> r <> PendTimeout ->
  task_ok (woken_by r t).
Proof.
  intros C Ht [He Hw] Hr. destruct (kc_task k C p t Ht) as [_ [T1 T2 T3 T4 T5]].
  constructor; cbn; try done; try naive_solver; word_lia.
Qed.

Lemma core_wake e r k : kcore k -> r <> PendTimeout -> kcore (a_wake e r k).
Proof.
  intros C Hr. unfold a_wake. destruct (a_sems k !! e) as [v|] eqn:Ev; [|done].
  pose proof (least_spec (sm_wait v)) as Hl. destruct (least (sm_wait v)) as [p|]; [|done]. destruct Hl as [Hp _].
  apply (kc_wait k C e v p Ev) in Hp as (t & Ht & Hw). rewrite Ht.
  apply (core_update k _ p (woken_by r t)); try done.
  - by apply (kc_task k C p t).
  - eapply not_idle; [done..|by eapply waits_new].
  - by destruct (tk_susp t).
  - by destruct (tk_susp t).
  - by eapply task_ok_woken.
  - destruct (tk_susp t) eqn:Es; [|apply ready_at_insert; [done|]; by unfold tk_ready; cbn; rewrite Es].
    apply (ready_at_same k _ p t); [done..|]. unfold tk_ready. cbn. by rewrite Es, andb_false_r.
  - apply (sems_at_remove k _ p t _ e v); try done.
    + by destruct (tk_susp t).
    + intros e' He'. by eapply waits_one.
    + intros e' [_ [Hx|Hx]]; cbn in Hx; [done|congruence].
Qed.

(** A new count. *)
Lemma core_cnt e v cnt k : kcore k -> a_sems k !! e = Some v -> is_u16 cnt -> (0 < cnt -> sm_wait v = ∅) ->
  kcore (a_ev e (mkSem (sm_type v) cnt (sm_wait v)) k).
Proof.
  intros [C1 C2 C3 C4 C5 C6 C7 C8] Ev Hc H0. constructor; cbn; try done.
  - intros e' v' p. destruct (decide (e' = e)) as [->|]; [|rewrite lookup_insert_ne by done; by apply C2].
    rewrite lookup_insert_eq. intros [= <-]. by apply (C2 e v).
  - intros p t e' Ht Hw. destruct (decide (e' = e)) as [->|]; [by rewrite lookup_insert_eq|].
    rewrite lookup_insert_ne by done. by eapply C3.
  - intros e' v'. destruct (decide (e' = e)) as [->|]; [|rewrite lookup_insert_ne by done; by apply C5].
    rewrite lookup_insert_eq. by intros [= <-].
  - intros e'. destruct (decide (e' = e)) as [->|]; [|rewrite lookup_insert_ne by done; by apply C6].
    intros _. apply C6. by rewrite Ev.
Qed.

Lemma core_wait e timeout k t : kcore k -> a_tasks k !! a_cur k = Some t -> a_cur k <> OS_TASK_IDLE_PRIO ->
  tk_event t = None -> is_u16 timeout -> (forall v, a_sems k !! e = Some v -> sm_cnt v = 0) ->
  kcore (a_wait e timeout k).
Proof.
  intros C Ht Hid Hev Hto Hc. unfold a_wait. destruct (a_sems k !! e) as [v|] eqn:Ev; [|done]. rewrite Ht.
  apply (core_update k _ (a_cur k) (mkTask true (tk_susp t) PendOk timeout (Some e))); try done.
  - by apply (kc_task k C _ t).
  - constructor; try done; cbn. intros e' [= <-]. apply (kc_sem k C). by rewrite Ev.
  - by apply ready_at_remove.
  - intros e'. cbn. destruct (decide (e' = e)) as [->|Hne].
    + rewrite Ev, lookup_insert_eq. cbn. split; [|split; [by apply (kc_cnt k C e v)|rewrite (Hc v) by done; lia]].
      intros q. unfold waits. cbn. destruct (decide (q = a_cur k)); set_solver.
    + rewrite lookup_insert_ne by done. destruct (a_sems k !! e') as [w|] eqn:Ew; [|intros [[= ?] _]; congruence].
      split; [|by apply (kc_cnt k C e' w)]. intros q. rewrite (kc_wait k C e' w q Ew). split.
      * intros (u & Hu & Hw). left. split; [|by exists u]. intros ->. destruct Hw as [Hw _]. congruence.
      * intros [[_ H]|[-> [[= ?] _]]]; [done|congruence].
Qed.

(** ** Calls *)

(** The running task keeps running. *)
Lemma inv_keep k k' : kinv k -> kcore k' ->
  a_cur k' = a_cur k -> a_int k' = a_int k -> a_lock k' = a_lock k ->
  (a_int k = 0 -> a_lock k = 0 -> least (a_ready k') = least (a_ready k)) ->
  (forall t, a_tasks k !! a_cur k = Some t -> exists t', a_tasks k' !! a_cur k = Some t' /\
     (tk_event t' <> None -> tk_event t <> None /\ tk_pending t' = tk_pending t)) -> kinv k'.
Proof.
  intros [C1 C2 C3 C4 C5 C6] C Ec Ei El Hr Ht. destruct C2 as [t E]. destruct (Ht t E) as (t' & E' & Hev).
  constructor; rewrite ?Ec, ?Ei, ?El; try done.
  - intros Hi Hl. rewrite (Hr Hi Hl). by apply C3.
  - intros u Hu Hn. assert (u = t') as -> by congruence. destruct (Hev Hn) as [Hn' ->]. by apply C4.
Qed.

(** The scheduler runs after [k'], where the tasks' waits are those of [k]. *)
Lemma inv_sched k k' : kinv k -> kcore k' ->
  a_cur k' = a_cur k -> a_int k' = a_int k -> a_lock k' = a_lock k ->
  (forall t, a_tasks k !! a_cur k = Some t -> exists t', a_tasks k' !! a_cur k = Some t' /\
     (tk_event t' <> None -> tk_event t <> None /\ (tk_pending t = false -> tk_pending t' = false))) ->
  kinv (a_sched k').
Proof.
  intros [C1 [t E] C3 C4 C5 C6] C Ec Ei El Ht. destruct (Ht t E) as (t' & E' & Hev).
  apply sched_inv; rewrite ?Ei, ?El; try done. intros _. rewrite Ec. exists t'. split; [done|].
  intros Hn. destruct (Hev Hn) as [Hn' Hp]. destruct (C4 t E Hn') as [Hl Hpd]. split; [done|]. by apply Hp.
Qed.

Section Kept.
Context (k : AK) (HI : kinv k).
Let C : kcore k := ki_core k HI.

Lemma inv_cnt e v cnt : a_sems k !! e = Some v -> is_u16 cnt -> (0 < cnt -> sm_wait v = ∅) ->
  kinv (a_ev e (mkSem (sm_type v) cnt (sm_wait v)) k).
Proof using HI C. intros Ev Hc H0. apply (inv_keep k); try done; [by apply core_cnt|]. intros t Ht. by exists t. Qed.

Lemma wake_cur e r k' : k' = a_wake e r k ->
  a_cur k' = a_cur k /\ a_int k' = a_int k /\ a_lock k' = a_lock k /\
  forall p t, a_tasks k !! p = Some t -> exists t', a_tasks k' !! p = Some t' /\
    tk_event t' = tk_event t /\ (tk_pending t = false -> tk_pending t' = false).
Proof using Type.
  intros ->. unfold a_wake. destruct (a_sems k !! e) as [v|]; [|naive_solver].
  destruct (least (sm_wait v)) as [p|]; [|naive_solver].
  destruct (a_tasks k !! p) as [t|] eqn:Et; [|naive_solver].
  destruct (tk_susp t); (split; [done|]; split; [done|]; split; [done|]); intros q u; cbn;
    (destruct (decide (q = p)) as [->|]; [rewrite lookup_insert_eq; intros Hu; exists (woken_by r t); naive_solver|
      rewrite lookup_insert_ne by done; naive_solver]).
Qed.

Lemma inv_wake_sched e r : r <> PendTimeout -> kinv (a_sched (a_wake e r k)).
Proof using HI C.
  intros Hr. destruct (wake_cur e r _ eq_refl) as (E1 & E2 & E3 & E4).
  apply (inv_sched k); try done; [by apply core_wake|].
  intros t Ht. destruct (E4 _ t Ht) as (t' & Ht' & Hev & Hp). exists t'. split; [done|]. by rewrite Hev.
Qed.

Lemma inv_post e : kinv (a_post e k).2.
Proof using HI C.
  unfold a_post. destruct (a_sems k !! e) as [v|] eqn:Ev; [|done].
  destruct (negb (_ =? _)); [done|]. destruct (bool_decide_reflect (sm_wait v = ∅)) as [Hw|Hw]; cbn [negb].
  - destruct (Z.ltb_spec (sm_cnt v) 65535); [|done]. cbn [snd].
    apply inv_cnt; try done. destruct (kc_cnt k C e v Ev) as [Hc _]. word_lia.
  - by apply inv_wake_sched.
Qed.

Lemma inv_accept e : kinv (a_accept e k).2.
Proof using HI C.
  unfold a_accept. destruct (a_sems k !! e) as [v|] eqn:Ev; [|done].
  destruct (negb (_ =? _)); [done|]. cbn [snd]. destruct (Z.ltb_spec 0 (sm_cnt v)); [|done].
  destruct (kc_cnt k C e v Ev) as [Hc Hw]. apply inv_cnt; try done; [word_lia|]. intros _. by apply Hw.
Qed.

Lemma inv_set e cnt : is_u16 cnt -> kinv (a_set e cnt k).2.
Proof using HI C.
  intros Hcnt. unfold a_set. destruct (a_sems k !! e) as [v|] eqn:Ev; [|done].
  destruct (negb (_ =? _)); [done|]. destruct ((0 <? sm_cnt v) || _) eqn:E; [|done]. cbn [snd].
  apply inv_cnt; try done. intros _. destruct (kc_cnt k C e v Ev) as [_ Hw].
  apply orb_prop in E as [E|E]; [apply Hw; lia|by apply bool_decide_eq_true in E].
Qed.

(** The calls of a task that is not inside OSSemPend. *)
Section Task.
Context (t : Task) (Ht : a_tasks k !! a_cur k = Some t) (Hev : tk_event t = None).
Context (Hid : a_cur k <> OS_TASK_IDLE_PRIO).

Lemma inv_pend e timeout : is_u16 timeout -> kinv (a_pend e timeout k).2.
Proof using All.
  intros Hto. unfold a_pend. destruct (a_sems k !! e) as [v|] eqn:Ev; [|done].
  destruct (negb (_ =? _)); [done|]. destruct (Z.ltb_spec 0 (a_int k)); [done|].
  destruct (Z.ltb_spec 0 (a_lock k)); [done|]. pose proof (ki_int k HI). pose proof (ki_lock k HI).
  destruct (kc_cnt k C e v Ev) as [Hc Hw]. destruct (Z.ltb_spec 0 (sm_cnt v)); cbn [snd].
  - apply inv_cnt; try done; [word_lia|]. intros _. by apply Hw.
  - apply sched_inv.
    + apply (core_wait e timeout k t); try done. intros v'. rewrite Ev. intros [= <-]. word_lia.
    + unfold a_wait. rewrite Ev, Ht. cbn. lia.
    + unfold a_wait. rewrite Ev, Ht. cbn. lia.
    + unfold a_wait. rewrite Ev, Ht. cbn. lia.
Qed.

Lemma inv_delay ticks : is_u16 ticks -> kinv (a_delay ticks k).
Proof using All.
  intros Hticks. unfold a_delay. destruct ((0 <? a_int k) || negb (0 <? ticks)) eqn:E; [done|]. rewrite Ht.
  apply orb_false_iff in E as [_ E]. apply negb_false_iff, Z.ltb_lt in E.
  destruct (kc_task k C _ t Ht) as [Hpo [T1 T2 T3 T4 T5]].
  apply (inv_sched k); try done.
  - apply (core_update k _ (a_cur k) (mkTask (tk_pending t) (tk_susp t) (tk_result t) ticks (tk_event t))); try done.
    + apply ready_at_remove; [done|]. unfold tk_ready. cbn. rewrite (proj2 (Z.eqb_neq ticks 0)) by lia.
      by rewrite andb_false_r.
    + by apply (sems_at_same k _ _ t).
  - intros u Hu. cbn. rewrite lookup_insert_eq. eexists. split; [done|]. cbn. by rewrite Hev.
Qed.
End Task.
End Kept.
