(* ===== verification/KernelLife.v ===== *)
(** * KernelLife

    The invariant of the kernel is kept by the calls that resume and suspend tasks, by
    the ticks, and by the creation and deletion of semaphores and tasks. *)

From stdpp Require Import gmap.
From S2P Require Import Prelude PrioSet KernelData Kernel KernelSpec KernelInv.

(** ** Resuming, suspending, locking *)

Lemma least_remove X p c : least X = Some c -> p <> c -> least (X ∖ {[p]}) = Some c.
Proof.
  intros Hl Hp. pose proof (least_spec X) as H. rewrite Hl in H. destruct H as [Hc Hmin].
  apply least_unique; [set_solver|]. intros q Hq. apply Hmin. set_solver.
Qed.

Lemma cur_ready k t : kinv k -> a_int k = 0 -> a_lock k = 0 -> a_tasks k !! a_cur k = Some t -> tk_ready t = true.
Proof.
  intros HI Hi Hl Ht. pose proof (ki_sched k HI Hi Hl) as E. pose proof (least_spec (a_ready k)) as H.
  rewrite E in H. destruct H as [H _]. apply (kc_ready k (ki_core k HI)) in H as (u & Hu & Hr). congruence.
Qed.

Lemma tk_ready_spec t : tk_ready t = true <-> tk_pending t = false /\ tk_susp t = false /\ tk_dly t = 0.
Proof. unfold tk_ready. destruct (tk_pending t), (tk_susp t); cbn; rewrite ?Z.eqb_eq; naive_solver. Qed.

Lemma unwait_fields p t k : a_tasks (a_unwait p t k) = a_tasks k /\ a_ready (a_unwait p t k) = a_ready k /\
  a_cur (a_unwait p t k) = a_cur k /\ a_int (a_unwait p t k) = a_int k /\ a_lock (a_unwait p t k) = a_lock k /\
  a_free_ev (a_unwait p t k) = a_free_ev k /\ a_free_tcb (a_unwait p t k) = a_free_tcb k.
Proof. unfold a_unwait. destruct (tk_event t) as [e|]; [|done]. by destruct (a_sems k !! e). Qed.

(** The record of [p] changes to one that waits for nothing, and [p] leaves the wait
    lists. *)
Lemma sems_at_unwait k k' p t t' : kcore k -> a_tasks k !! p = Some t ->
  a_sems k' = a_sems (a_unwait p t k) -> tk_event t' = None -> sems_at p t' k k'.
Proof.
  intros C Ht Es Hev. assert (Hw' : forall e, ~ waits e t') by (intros e [Hx _]; congruence).
  unfold a_unwait in Es. destruct (tk_event t) as [e|] eqn:Ee.
  - destruct (a_sems k !! e) as [v|] eqn:Ev.
    + apply (sems_at_remove k k' p t t' e v); try done. intros e' [He' _]. congruence.
    + apply (sems_at_same k k' p t t'); try done. intros e'. split; [intros Hx; by destruct (Hw' e')|].
      intros Hx. destruct (kc_waits k C p t e' Ht Hx) as [w Hw]. destruct Hx as [Hx _]. congruence.
  - apply (sems_at_same k k' p t t'); try done. intros e'. split; intros [Hx _]; congruence.
Qed.

Lemma inv_resume k t : kinv k -> a_int k = 0 -> a_cur k <> OS_TASK_IDLE_PRIO ->
  a_tasks k !! a_cur k = Some t -> tk_event t <> None -> kinv (a_resume k).2.
Proof.
  intros HI Hi Hid Ht Hev. pose proof (ki_core k HI) as C. destruct (ki_resume k HI t Ht Hev) as [Hl Hp].
  pose proof (cur_ready k t HI Hi Hl Ht) as Hr. destruct (proj1 (tk_ready_spec t) Hr) as (_ & Hs & Hd).
  destruct (kc_task k C _ t Ht) as [Hpo [T1 T2 T3 T4 T5]].
  set (t' := mkTask false false PendOk (tk_dly t) None).
  assert (Hr' : tk_ready t' = true) by (apply tk_ready_spec; naive_solver).
  assert (HC : forall k', a_tasks k' = <[a_cur k := t']> (a_tasks k) -> a_ready k' = a_ready k ->
    a_free_ev k' = a_free_ev k -> sems_at (a_cur k) t' k k' -> kcore k').
  { intros k' E1 E2 E3 Hsa. apply (core_update k k' (a_cur k) t'); try done.
    apply (ready_at_same k k' _ t); try done. congruence. }
  unfold a_resume. rewrite Ht. fold t'. destruct (tk_result t) eqn:Er; cbn [snd].
  - apply (inv_keep k); try done.
    + apply HC; try done. apply (sems_at_same k _ _ t); try done.
      intros e. unfold waits. rewrite Er, Hp. naive_solver.
    + intros u _. cbn. rewrite lookup_insert_eq. by exists t'.
  - destruct (unwait_fields (a_cur k) t (a_put (a_cur k) t' k)) as (E1 & E2 & E3 & E4 & E5 & E6 & _).
    apply (inv_keep k); try done.
    + apply HC; try done. apply (sems_at_unwait k _ _ t); try done.
      unfold a_unwait. destruct (tk_event t); [|done]. cbn. by destruct (a_sems k !! _).
    + by rewrite E2.
    + intros u _. rewrite E1. cbn. rewrite lookup_insert_eq. by exists t'.
  - apply (inv_keep k); try done.
    + apply HC; try done. apply (sems_at_same k _ _ t); try done.
      intros e. unfold waits. rewrite Er, Hp. naive_solver.
    + intros u _. cbn. rewrite lookup_insert_eq. by exists t'.
Qed.

Lemma inv_enter k : kinv k -> kinv (a_enter k).
Proof.
  intros [C1 C2 C3 C4 C5 C6]. unfold a_enter. destruct (a_int k <? 255); [|done].
  constructor; cbn; try done; try lia. by apply core_set_int.
Qed.

Lemma inv_exit k : kinv k -> kinv (a_exit k).
Proof.
  intros [C1 [t E] C3 C4 C5 C6]. unfold a_exit. apply sched_inv.
  - destruct (0 <? a_int k); [by apply core_set_int|done].
  - destruct (Z.ltb_spec 0 (a_int k)); cbn; lia.
  - by destruct (0 <? a_int k).
  - intros _. exists t. destruct (0 <? a_int k); cbn; naive_solver.
Qed.

(** A task inside OSSemPend does not lock: it has yet to return. *)
Lemma inv_lock k t : kinv k -> a_tasks k !! a_cur k = Some t -> (a_int k = 0 -> tk_event t = None) -> kinv (a_lock_sched k).
Proof.
  intros [C1 C2 C3 C4 C5 C6] Ht Hev. unfold a_lock_sched. destruct (Z.eqb_spec (a_int k) 0) as [Hi|]; [|done].
  cbn [negb]. destruct (a_lock k <? 255); [|done]. constructor; cbn; try done; try lia.
  - by apply core_set_lock.
  - intros u Hu Hn. assert (u = t) as -> by congruence. by rewrite (Hev Hi) in Hn.
Qed.

Lemma inv_unlock k : kinv k -> kinv (a_unlock_sched k).
Proof.
  intros [C1 [t E] C3 C4 C5 C6]. unfold a_unlock_sched. destruct (Z.ltb_spec 0 (a_lock k)); [|done]. cbn [negb].
  apply sched_inv; cbn; try lia; [by apply core_set_lock|]. intros _. exists t. split; [done|].
  intros Hn. destruct (C4 t E Hn). lia.
Qed.

(** The task to suspend: the running one or another. *)
Definition self_or (prio : Z) (k : AK) : Z := if prio =? OS_PRIO_SELF then a_cur k else prio.

Lemma inv_suspend prio k : kinv k -> (prio = OS_PRIO_SELF -> a_cur k <> OS_TASK_IDLE_PRIO) -> kinv (a_suspend prio k).2.
Proof.
  intros HI Hself. pose proof (ki_core k HI) as C. unfold a_suspend.
  destruct (Z.eqb_spec prio OS_TASK_IDLE_PRIO) as [|Hid]; [done|].
  destruct ((OS_LOWEST_PRIO <=? prio) && _); [done|]. fold (self_or prio k). set (p := self_or prio k).
  assert (Hp : p <> OS_TASK_IDLE_PRIO) by (unfold p, self_or; destruct (Z.eqb_spec prio OS_PRIO_SELF); auto).
  destruct (a_tasks k !! p) as [t|] eqn:Et; [|done]. cbn [snd].
  destruct (kc_task k C p t Et) as [Hpo [T1 T2 T3 T4 T5]].
  set (t' := mkTask (tk_pending t) true (tk_result t) (tk_dly t) (tk_event t)).
  set (k' := set_ready _ _). assert (Hc : kcore k').
  { apply (core_update k _ p t'); try done.
    - apply ready_at_remove; [done|]. unfold tk_ready. cbn. by rewrite andb_false_r.
    - by apply (sems_at_same k _ p t). }
  assert (Hk : forall u, a_tasks k !! a_cur k = Some u -> exists u', a_tasks k' !! a_cur k = Some u' /\
    tk_event u' = tk_event u /\ tk_pending u' = tk_pending u).
  { intros u Hu. cbn. destruct (decide (a_cur k = p)) as [E|]; [rewrite E, lookup_insert_eq|rewrite lookup_insert_ne by done].
    - exists t'. split; [done|]. assert (u = t) as -> by congruence. done.
    - by exists u. }
  destruct (Z.eqb_spec p (a_cur k)) as [Ep|Hne].
  - apply (inv_sched k); try done. intros u Hu. destruct (Hk u Hu) as (u' & Hu' & E1 & E2).
    exists u'. split; [done|]. by rewrite E1, E2.
  - apply (inv_keep k); try done.
    + intros Hi Hl. cbn. rewrite (ki_sched k HI Hi Hl). apply least_remove; [by apply (ki_sched k HI)|done].
    + intros u Hu. destruct (Hk u Hu) as (u' & Hu' & E1 & E2). exists u'. split; [done|]. by rewrite E1, E2.
Qed.

Lemma inv_unsuspend prio k : kinv k -> kinv (a_unsuspend prio k).2.
Proof.
  intros HI. pose proof (ki_core k HI) as C. unfold a_unsuspend. destruct (OS_LOWEST_PRIO <=? prio); [done|].
  destruct (a_tasks k !! prio) as [t|] eqn:Et; [|done]. destruct (tk_susp t) eqn:Es; [|done]. cbn [negb].
  destruct (kc_task k C prio t Et) as [Hpo [T1 T2 T3 T4 T5]].
  set (t' := mkTask (tk_pending t) false (tk_result t) (tk_dly t) (tk_event t)).
  assert (Hk : forall X u, a_tasks k !! a_cur k = Some u -> exists u',
    a_tasks (set_ready X (a_put prio t' k)) !! a_cur k = Some u' /\
    tk_event u' = tk_event u /\ tk_pending u' = tk_pending u).
  { intros X u Hu. cbn. destruct (decide (a_cur k = prio)) as [E|]; [rewrite E, lookup_insert_eq|rewrite lookup_insert_ne by done].
    - exists t'. split; [done|]. assert (u = t) as -> by congruence. done.
    - by exists u. }
  assert (Hid : prio <> OS_TASK_IDLE_PRIO) by (eapply not_idle; [done..|by intros ->]).
  assert (Hnr : tk_ready t = false) by (unfold tk_ready; rewrite Es; by rewrite andb_false_r).
  destruct (tk_ready t') eqn:Er; cbn [snd].
  - apply (inv_sched k); try done.
    + apply (core_update k _ prio t'); try done; [by apply ready_at_insert|by apply (sems_at_same k _ prio t)].
    + intros u Hu. destruct (Hk ({[prio]} ∪ a_ready (a_put prio t' k)) u Hu) as (u' & Hu' & E1 & E2).
      exists u'. split; [done|]. by rewrite E1, E2.
  - apply (inv_keep k); try done.
    + apply (core_update k _ prio t'); try done; [|by apply (sems_at_same k _ prio t)].
      apply (ready_at_same k _ prio t); try done. congruence.
    + intros u Hu. destruct (Hk (a_ready k) u Hu) as (u' & Hu' & E1 & E2). exists u'. split; [done|]. by rewrite E1, E2.
Qed.

(** ** The end of delays *)

Lemma expire_ok t : task_ok t -> tk_dly t <> 0 -> task_ok (expire t) /\ (forall e, waits e (expire t) <-> waits e t) /\
  (tk_event (expire t) <> None -> tk_pending t = true).
Proof.
  intros [T1 T2 T3 T4 T5] Hd. unfold expire. destruct (tk_pending t) eqn:Ep.
  - destruct (T1 eq_refl) as [Hr He]. split; [|split; [|done]].
    + constructor; cbn; try done.
    + intros e. unfold waits. cbn. rewrite Ep. naive_solver.
  - assert (Hev : tk_event t = None) by (destruct (tk_event t); [by specialize (T2 ltac:(done) eq_refl)|done]).
    split; [|split].
    + constructor; cbn; try done.
    + intros e. unfold waits. cbn. rewrite Ep, Hev. naive_solver.
    + by rewrite Hev.
Qed.

Lemma inv_dly_resume prio k : kinv k -> kinv (a_dly_resume prio k).2.
Proof.
  intros HI. pose proof (ki_core k HI) as C. unfold a_dly_resume. destruct (OS_LOWEST_PRIO <=? prio); [done|].
  destruct (a_tasks k !! prio) as [t|] eqn:Et; [|done]. destruct (Z.eqb_spec (tk_dly t) 0) as [|Hd]; [done|].
  destruct (kc_task k C prio t Et) as [Hpo Hok]. destruct (expire_ok t Hok Hd) as (Hok' & Hw & Hev).
  assert (Hid : prio <> OS_TASK_IDLE_PRIO) by (eapply not_idle; [done..|by intros ->]).
  assert (Hk : forall X u, a_tasks k !! a_cur k = Some u -> exists u',
    a_tasks (set_ready X (a_put prio (expire t) k)) !! a_cur k = Some u' /\
    (tk_event u' <> None -> tk_event u <> None /\ tk_pending u' = tk_pending u)).
  { intros X u Hu. cbn. destruct (decide (a_cur k = prio)) as [E|]; [rewrite E, lookup_insert_eq|rewrite lookup_insert_ne by done].
    - exists (expire t). split; [done|]. intros Hn. pose proof (Hev Hn) as Hp. exfalso.
      rewrite <- E in Et. destruct (ki_resume k HI t Et); [apply Hok; done|]. congruence.
    - by exists u. }
  destruct (tk_susp t) eqn:Es; cbn [snd].
  - apply (inv_keep k); try done; [|by intros u Hu; apply (Hk (a_ready k))].
    apply (core_update k _ prio (expire t)); try done; [|by apply (sems_at_same k _ prio t)].
    apply (ready_at_same k _ prio t); try done. unfold tk_ready, expire. cbn. rewrite Es. by rewrite !andb_false_r.
  - apply (inv_sched k); try done.
    + apply (core_update k _ prio (expire t)); try done; [|by apply (sems_at_same k _ prio t)].
      apply ready_at_insert; [done|]. unfold tk_ready, expire. cbn. by rewrite Es.
    + intros u Hu. destruct (Hk ({[prio]} ∪ a_ready k) u Hu) as (u' & Hu' & He). exists u'. split; [done|].
      intros Hn. destruct (He Hn) as [? Ep]. split; [done|]. congruence.
Qed.

(** ** Every task changes *)

Lemma core_map k k' (f : Z -> Task -> Task) : kcore k ->
  (forall q, a_tasks k' !! q = f q <$> a_tasks k !! q) ->
  f OS_TASK_IDLE_PRIO new_task = new_task -> a_free_ev k' = a_free_ev k ->
  (forall q t, a_tasks k !! q = Some t -> task_ok (f q t)) ->
  (forall q, q ∈ a_ready k' <-> exists t, a_tasks k !! q = Some t /\ tk_ready (f q t) = true) ->
  (forall e, match a_sems k !! e, a_sems k' !! e with
     | None, None => forall q t, a_tasks k !! q = Some t -> ~ waits e (f q t)
     | Some v, Some v' => (forall q, q ∈ sm_wait v' <-> exists t, a_tasks k !! q = Some t /\ waits e (f q t)) /\
         sm_cnt v' = sm_cnt v /\ (0 < sm_cnt v' -> sm_wait v' = ∅)
     | _, _ => False end) -> kcore k'.
Proof.
  intros [C1 C2 C3 C4 C5 C6 C7 C8] Et Hi Ef Hok Hr Hs.
  assert (L : forall q u, a_tasks k' !! q = Some u <-> exists t, a_tasks k !! q = Some t /\ u = f q t).
  { intros q u. rewrite Et. destruct (a_tasks k !! q); cbn; naive_solver. }
  constructor; rewrite ?Ef; try done.
  - intros q. rewrite (Hr q). setoid_rewrite L. naive_solver.
  - intros e v q Hv. pose proof (Hs e) as H. rewrite Hv in H. destruct (a_sems k !! e) as [w|]; [|done].
    destruct H as (H & _). rewrite H. setoid_rewrite L. naive_solver.
  - intros q u e (t & Ht & ->)%L Hw. pose proof (Hs e) as H.
    destruct (a_sems k !! e), (a_sems k' !! e); try done. by destruct (H q t).
  - intros q u (t & Ht & ->)%L. split; [by apply (C4 q t)|by apply Hok].
  - intros e v Hv. pose proof (Hs e) as H. rewrite Hv in H. destruct (a_sems k !! e) as [w|] eqn:Ew; [|done].
    destruct H as (_ & E & H). split; [rewrite E; by apply (C5 e w)|done].
  - intros e [v Hv]. pose proof (Hs e) as H. rewrite Hv in H. destruct (a_sems k !! e) as [w|] eqn:Ew; [|done].
    apply C6. by rewrite Ew.
  - rewrite Et, C8. cbn. by rewrite Hi.
Qed.

Lemma tick1_ok t : task_ok t -> task_ok (tick1 t) /\ (forall e, waits e (tick1 t) <-> waits e t) /\
  tk_event (tick1 t) = tk_event t /\ (tk_pending t = false -> tk_pending (tick1 t) = false).
Proof.
  intros Hok. unfold tick1. destruct (Z.eqb_spec (tk_dly t) 0); [done|].
  destruct (Z.eqb_spec (tk_dly t) 1).
  - destruct (expire_ok t Hok) as (? & ? & ?); [done|]. done.
  - destruct Hok as [T1 T2 T3 T4 T5]. split; [|done]. constructor; cbn; try done; [|word_lia].
    intros He Hp. specialize (T2 He Hp). lia.
Qed.

Lemma tick1_ready t : tk_ready (tick1 t) = tk_ready t || woken t.
Proof.
  unfold tick1, woken, tk_ready. destruct (Z.eqb_spec (tk_dly t) 0) as [E|]; [by rewrite E, orb_false_r|].
  destruct (Z.eqb_spec (tk_dly t) 1) as [E|]; cbn.
  - destruct (tk_pending t), (tk_susp t); done.
  - rewrite (proj2 (Z.eqb_neq (tk_dly t - 1) 0)) by lia. destruct (tk_pending t), (tk_susp t); done.
Qed.

Lemma elem_dom_filter (m : gmap Z Task) (P : Z * Task -> Prop) `{!forall x, Decision (P x)} q :
  q ∈ dom (filter P m) <-> exists t, m !! q = Some t /\ P (q, t).
Proof.
  rewrite elem_of_dom. split.
  - intros [t Ht]. apply map_lookup_filter_Some in Ht. by exists t.
  - intros (t & Ht & HP). exists t. by apply map_lookup_filter_Some.
Qed.

Lemma core_tick k : kcore k -> kcore (a_tick k).
Proof.
  intros C. apply (core_map k _ (fun _ => tick1)); try done.
  - intros q. cbn. by rewrite lookup_fmap.
  - intros q t Ht. apply tick1_ok. by apply (kc_task k C q t).
  - intros q. cbn. rewrite elem_of_union, (kc_ready k C), elem_dom_filter. cbn. setoid_rewrite tick1_ready.
    split; [intros [(t & Ht & Hr)|(t & Ht & Hr)]|intros (t & Ht & Hr)].
    + exists t. by rewrite Hr.
    + exists t. by rewrite Hr, orb_true_r.
    + apply orb_prop in Hr as [Hr|Hr]; [left|right]; by exists t.
  - intros e. cbn. assert (Hw : forall q t, a_tasks k !! q = Some t -> waits e (tick1 t) <-> waits e t).
    { intros q t Ht. apply tick1_ok. by apply (kc_task k C q t). }
    destruct (a_sems k !! e) as [v|] eqn:Ev.
    + split; [|split; [done|by apply (kc_cnt k C e v)]]. intros q. rewrite (kc_wait k C e v q Ev).
      split; intros (t & Ht & H); exists t; (split; [done|]); by apply (Hw q t).
    + intros q t Ht Hx. apply (Hw q t Ht) in Hx. destruct (kc_waits k C q t e Ht Hx). congruence.
Qed.

Lemma inv_tick k : kinv k -> a_int k <> 0 -> kinv (a_tick k).
Proof.
  intros HI Hint. pose proof (ki_core k HI) as C. pose proof HI as [C1 [t E] C3 C4 C5 C6].
  destruct (kc_task k C _ t E) as [_ Hok]. destruct (tick1_ok t Hok) as (_ & _ & Ee & Ep).
  constructor; try done.
  - by apply core_tick.
  - cbn. by rewrite lookup_fmap, E.
  - intros u. cbn. rewrite lookup_fmap, E. intros [= <-]. rewrite Ee. intros Hn. destruct (C4 t E Hn). auto.
Qed.

Lemma wake_all_lookup e r k v q : a_sems k !! e = Some v ->
  a_tasks (a_wake_all e r k) !! q = (fun t => if decide (q ∈ sm_wait v) then woken_by r t else t) <$> a_tasks k !! q.
Proof.
  intros Ev. unfold a_wake_all. rewrite Ev. cbn. rewrite map_lookup_imap.
  by destruct (a_tasks k !! q).
Qed.

Lemma core_wake_all e r k : kcore k -> r <> PendTimeout -> kcore (a_wake_all e r k).
Proof.
  intros C Hr. destruct (a_sems k !! e) as [v|] eqn:Ev; [|by unfold a_wake_all; rewrite Ev].
  assert (Hin : forall q t, a_tasks k !! q = Some t -> q ∈ sm_wait v <-> waits e t).
  { intros q t Ht. rewrite (kc_wait k C e v q Ev). split; [intros (u & Hu & Hw); congruence|by exists t]. }
  assert (Hidle : OS_TASK_IDLE_PRIO ∉ sm_wait v).
  { rewrite (Hin _ new_task (kc_idle k C)). intros [Hx _]. done. }
  apply (core_map k _ (fun q t => if decide (q ∈ sm_wait v) then woken_by r t else t)); try done.
  - intros q. by apply wake_all_lookup.
  - by rewrite decide_False.
  - unfold a_wake_all. by rewrite Ev.
  - intros q t Ht. destruct (decide (q ∈ sm_wait v)) as [Hq|]; [|by apply (kc_task k C q t)].
    eapply task_ok_woken; [done..|by apply (Hin q t)|done].
  - intros q. unfold a_wake_all. rewrite Ev. cbn. rewrite elem_of_union, (kc_ready k C), elem_dom_filter. cbn.
    split.
    + intros [(t & Ht & Hx)|(t & Ht & Hq & Hs)]; exists t; (split; [done|]).
      * destruct (decide (q ∈ sm_wait v)); [|done]. apply tk_ready_spec in Hx as (Hp & Hs & Hd). by apply tk_ready_spec.
      * rewrite decide_True by done. by apply tk_ready_spec.
    + intros (t & Ht & Hx). destruct (decide (q ∈ sm_wait v)); [right|left]; exists t; (split; [done|]); [|done].
      split; [done|]. by apply tk_ready_spec in Hx as (_ & Hs & _).
  - intros e'. unfold a_wake_all. rewrite Ev. cbn. destruct (decide (e' = e)) as [->|Hne].
    + rewrite Ev, lookup_insert_eq. cbn. split; [|done]. intros q. split; [set_solver|].
      intros (t & Ht & Hw). exfalso. destruct (decide (q ∈ sm_wait v)) as [Hq|Hq].
      * destruct Hw as [_ [Hx|Hx]]; cbn in Hx; [done|congruence].
      * apply Hq. by apply (Hin q t).
    + rewrite lookup_insert_ne by done. destruct (a_sems k !! e') as [w|] eqn:Ew.
      * split; [|split; [done|by apply (kc_cnt k C e' w)]]. intros q. rewrite (kc_wait k C e' w q Ew).
        split; intros (t & Ht & Hw); exists t; (split; [done|]); destruct (decide (q ∈ sm_wait v)) as [Hq|Hq]; try done.
        -- apply (Hin q t Ht) in Hq. destruct Hq as [Hq _], Hw as [Hw _]. congruence.
        -- destruct Hw as [_ [Hx|Hx]]; cbn in Hx; [done|congruence].
      * intros q t Ht Hw. destruct (decide (q ∈ sm_wait v)) as [Hq|Hq].
        -- destruct Hw as [_ [Hx|Hx]]; cbn in Hx; [done|congruence].
        -- destruct (kc_waits k C q t e' Ht Hw). congruence.
Qed.

Lemma wake_all_fields e r k : a_cur (a_wake_all e r k) = a_cur k /\ a_int (a_wake_all e r k) = a_int k /\
  a_lock (a_wake_all e r k) = a_lock k /\ a_free_ev (a_wake_all e r k) = a_free_ev k.
Proof. unfold a_wake_all. by destruct (a_sems k !! e). Qed.

Lemma wake_all_tasks e r k p t : a_tasks k !! p = Some t -> exists t', a_tasks (a_wake_all e r k) !! p = Some t' /\
  tk_event t' = tk_event t /\ (tk_pending t = false -> tk_pending t' = false).
Proof.
  intros Ht. destruct (a_sems k !! e) as [v|] eqn:Ev.
  - eexists. rewrite (wake_all_lookup e r k v p Ev), Ht. split; [done|]. by destruct (decide (p ∈ sm_wait v)).
  - exists t. unfold a_wake_all. by rewrite Ev.
Qed.

Lemma inv_abort e opt k : kinv k -> kinv (a_abort e opt k).2.
Proof.
  intros HI. unfold a_abort. destruct (a_sems k !! e) as [v|] eqn:Ev; [|done].
  destruct (negb (_ =? _)); [done|]. destruct (bool_decide (sm_wait v = ∅)); [done|].
  destruct (opt =? OS_PEND_OPT_BROADCAST); cbn [snd]; [|by apply inv_wake_sched].
  destruct (wake_all_fields e PendAborted k) as (E1 & E2 & E3 & _). apply (inv_sched k); try done.
  - by apply core_wake_all; [apply ki_core|].
  - intros t Ht. destruct (wake_all_tasks e PendAborted k _ t Ht) as (t' & Ht' & E & Hp).
    exists t'. split; [done|]. by rewrite E.
Qed.

(** ** Creation and deletion *)

Lemma inv_sem_create cnt k : kinv k -> is_u16 cnt -> kinv (a_sem_create cnt k).2.
Proof.
  intros HI Hc. unfold a_sem_create. destruct (0 <? a_int k); [done|]. destruct (a_free_ev k) as [|e l] eqn:El; [done|].
  cbn [snd]. apply (inv_keep k); try done; [|intros t Ht; by exists t].
  destruct (ki_core k HI) as [C1 C2 C3 C4 C5 C6 C7 C8]. rewrite El in C7, C6. destruct C7 as [Hnd Hlt].
  apply NoDup_cons in Hnd as [He Hnd].
  assert (Ee : a_sems k !! e = None).
  { destruct (a_sems k !! e) eqn:E; [|done]. destruct (C6 e); [by rewrite E|]. set_solver. }
  constructor; cbn; try done.
  - intros e' v p. destruct (decide (e' = e)) as [->|]; [|rewrite lookup_insert_ne by done; by apply C2].
    rewrite lookup_insert_eq. intros [= <-]. cbn. split; [set_solver|]. intros (t & Ht & Hw).
    destruct (C3 p t e Ht Hw). congruence.
  - intros p t e' Ht Hw. destruct (decide (e' = e)) as [->|]; [by rewrite lookup_insert_eq|].
    rewrite lookup_insert_ne by done. by eapply C3.
  - intros e' v. destruct (decide (e' = e)) as [->|]; [|rewrite lookup_insert_ne by done; by apply C5].
    rewrite lookup_insert_eq. by intros [= <-].
  - intros e'. destruct (decide (e' = e)) as [->|]; [|rewrite lookup_insert_ne by done].
    + intros _. split; [apply Hlt; by constructor|done].
    + intros Hs. destruct (C6 e' Hs). set_solver.
  - split; [done|]. intros e' Hin. apply Hlt. by constructor.
Qed.

Lemma core_free e v k : kcore k -> a_sems k !! e = Some v -> sm_wait v = ∅ -> kcore (a_free e k).
Proof.
  intros [C1 C2 C3 C4 C5 C6 C7 C8] Ev Hw. destruct (C6 e) as [Hlt Hnin]; [by rewrite Ev|].
  constructor; cbn; try done.
  - intros e' v' p. rewrite lookup_delete_Some. intros [_ H]. by apply C2.
  - intros p t e' Ht Hx. rewrite lookup_delete_ne; [by eapply C3|]. intros <-.
    assert (Hp : p ∈ sm_wait v) by (apply (C2 e v p Ev); by exists t). set_solver.
  - intros e' v'. rewrite lookup_delete_Some. intros [_ H]. by apply (C5 e').
  - intros e' [v' Hv]. rewrite lookup_delete_Some in Hv. destruct Hv as [Hne Hv].
    destruct (C6 e') as [? ?]; [by rewrite Hv|]. split; [done|]. set_solver.
  - destruct C7 as [H1 H2]. split; [by constructor|]. intros e' [->|Hin]%elem_of_cons; auto.
Qed.

Lemma inv_sem_del e opt k : kinv k -> kinv (a_sem_del e opt k).2.
Proof.
  intros HI. pose proof (ki_core k HI) as C. unfold a_sem_del. destruct (a_sems k !! e) as [v|] eqn:Ev; [|done].
  assert (HE : sm_wait v = ∅ -> kinv (a_free e k)).
  { intros Hw. apply (inv_keep k); try done; [by eapply core_free|]. intros t Ht. by exists t. }
  destruct (negb (_ =? _)); [done|]. destruct (0 <? a_int k); [done|].
  destruct (opt =? OS_DEL_NO_PEND); [destruct (bool_decide_reflect (sm_wait v = ∅)); cbn [snd]; auto|].
  destruct (opt =? OS_DEL_ALWAYS); [|done]. cbn [snd].
  destruct (bool_decide_reflect (sm_wait v = ∅)) as [Hw|Hw]; [auto|].
  destruct (wake_all_fields e PendOk k) as (E1 & E2 & E3 & _). apply (inv_sched k); try done.
  - apply (core_free e (mkSem (sm_type v) (sm_cnt v) ∅)); [by apply core_wake_all| |done].
    unfold a_wake_all. rewrite Ev. cbn. by rewrite lookup_insert_eq.
  - intros t Ht. destruct (wake_all_tasks e PendOk k _ t Ht) as (t' & Ht' & E & Hp).
    exists t'. split; [done|]. by rewrite E.
Qed.

Lemma new_task_ok : task_ok new_task.
Proof. by constructor. Qed.

Lemma inv_task_create prio k : kinv k -> 0 <= prio -> kinv (a_task_create prio k).2.
Proof.
  intros HI H0. pose proof (ki_core k HI) as C. unfold a_task_create. destruct (Z.ltb_spec OS_LOWEST_PRIO prio); [done|].
  destruct (0 <? a_int k); [done|]. destruct (a_tasks k !! prio) as [t|] eqn:Et; [done|].
  destruct (a_free_tcb k) as [|n]; [done|]. cbn [snd].
  assert (Hne : forall q t, a_tasks k !! q = Some t -> q <> prio) by (intros q t Ht ->; congruence).
  apply (inv_sched k); try done.
  - apply (core_update k _ prio new_task); try done.
    + intros E; symmetry in E; revert E; apply (Hne _ new_task). apply (kc_idle k C).
    + by apply ready_at_insert.
    + intros e. cbn. destruct (a_sems k !! e) as [v|] eqn:Ev; [|by intros []].
      split; [|by apply (kc_cnt k C e v)]. intros q. split; [|intros [[_ Hq]|[_ []]]; done].
      intros Hq. left. split; [|done]. apply (kc_wait k C e v q Ev) in Hq as (t & Ht & _). by eapply Hne.
  - intros t Ht. exists t. cbn. rewrite lookup_insert_ne by (symmetry; by eapply Hne). split; [done|]. naive_solver.
Qed.

Lemma core_task_del p t k : kcore k -> a_tasks k !! p = Some t -> p <> OS_TASK_IDLE_PRIO ->
  kcore (set_free_tcb (S (a_free_tcb (a_unwait p t k))) (set_ready (a_ready (a_unwait p t k) ∖ {[p]})
        (set_tasks (delete p (a_tasks (a_unwait p t k))) (a_unwait p t k)))).
Proof.
  intros C Ht Hp. pose proof (unwait_fields p t k) as (E1 & E2 & E3 & E4 & E5 & E6 & E7).
  assert (Hu : kcore (set_ready (a_ready k ∖ {[p]})
    (a_put p (mkTask false true PendOk 0 None) (a_unwait p t k)))).
  { apply (core_update k _ p (mkTask false true PendOk 0 None)); try done.
    - by apply (kc_task k C p t).
    - cbn. by rewrite E1.
    - by apply ready_at_remove.
    - by apply (sems_at_unwait k _ p t). }
  destruct Hu as [C1 C2 C3 C4 C5 C6 C7 C8].
  assert (L : forall q u, delete p (a_tasks k) !! q = Some u <->
    a_tasks (set_ready (a_ready k ∖ {[p]}) (a_put p (mkTask false true PendOk 0 None) (a_unwait p t k))) !! q = Some u /\ q <> p).
  { intros q u. cbn. rewrite E1, lookup_delete_Some. destruct (decide (q = p)) as [->|]; [naive_solver|].
    rewrite lookup_insert_ne by done. naive_solver. }
  constructor; cbn; rewrite ?E1, ?E2; try done.
  - intros q. rewrite (C1 q : q ∈ a_ready k ∖ {[p]} <-> _). setoid_rewrite L. split; [|naive_solver].
    intros (u & Hu & Hr). exists u. split; [split; [done|]|done]. intros ->. cbn in Hu.
    rewrite lookup_insert_eq in Hu. by simplify_eq.
  - intros e v q Hv. rewrite (C2 e v q Hv). setoid_rewrite L. split; [|naive_solver].
    intros (u & Hu & Hw). exists u. split; [split; [done|]|done]. intros ->. cbn in Hu.
    rewrite lookup_insert_eq in Hu. simplify_eq. by destruct Hw.
  - intros q u e [Hu _]%L Hw. by apply (C3 q u).
  - intros q u [Hu _]%L. by apply (C4 q u).
  - rewrite lookup_delete_ne by done. apply (kc_idle k C).
Qed.

(** A task that deletes itself must not hold the lock of the scheduler: it would go on
    running. *)
Lemma inv_task_del prio k : kinv k -> (self_or prio k = a_cur k -> a_lock k = 0 /\ a_cur k <> OS_TASK_IDLE_PRIO) ->
  kinv (a_task_del prio k).2.
Proof.
  intros HI Hself. pose proof (ki_core k HI) as C. unfold a_task_del.
  destruct (Z.ltb_spec 0 (a_int k)); [done|]. destruct (Z.eqb_spec prio OS_TASK_IDLE_PRIO) as [|Hid]; [done|].
  destruct ((OS_LOWEST_PRIO <=? prio) && _); [done|]. fold (self_or prio k). set (p := self_or prio k) in *.
  destruct (a_tasks k !! p) as [t|] eqn:Et; [|done]. cbn [snd].
  assert (Hp : p <> OS_TASK_IDLE_PRIO).
  { unfold p, self_or in *. destruct (Z.eqb_spec prio OS_PRIO_SELF); [by apply Hself|done]. }
  pose proof (unwait_fields p t k) as (E1 & E2 & E3 & E4 & E5 & E6 & E7).
  destruct (ki_cur k HI) as [u Hu]. pose proof (ki_int k HI). pose proof (ki_lock k HI).
  apply sched_inv; cbn; rewrite ?E3, ?E4, ?E5; try done.
  - by apply core_task_del.
  - intros Hor. exists u. rewrite E1. split; [|by apply (ki_resume k HI)].
    rewrite lookup_delete_ne; [done|]. intros Hpc. destruct (Hself Hpc). lia.
Qed.
