(* ===== verification/KernelRefine.v ===== *)
(** * KernelRefine

    The kernel implements its specification: every operation of Kernel and KernelSem
    on a state that represents an abstract one returns, without undefined behaviour,
    the abstract result in a state that represents the abstract outcome. *)

From stdpp Require Import gmap.
From S2P Require Import Prelude PrioSet KernelData Kernel KernelSem KernelSpec.

(** ** Running the monad *)

Lemma bind_eq {A B} (m : M A) (k : A -> M B) s a s' : m s = Some (a, s') -> bind m k s = k a s'.
Proof. intros E. unfold bind. by rewrite E. Qed.
Lemma bind_gets {A B} (f : OS -> A) (k : A -> M B) s : bind (gets f) k s = k (f s) s.
Proof. done. Qed.
Lemma bind_ret {A B} (a : A) (k : A -> M B) s : bind (ret a) k s = k a s.
Proof. done. Qed.
Lemma bind_modify {B} f (k : unit -> M B) s : bind (modify f) k s = k tt (f s).
Proof. done. Qed.

(** Run the first operation of a sequence, whose effect is [E]. *)
Ltac mrun E := rewrite (bind_eq _ _ _ _ _ E); cbv beta iota.
Ltac mpure := repeat (first [rewrite bind_gets | rewrite bind_ret | rewrite bind_modify]; cbv beta iota).

(** ** Representation *)

Definition stat_of (t : Task) : Z :=
  Z.lor (if tk_pending t then OS_STAT_SEM else 0) (if tk_susp t then OS_STAT_SUSPEND else 0).

Definition result_of (r : PendResult) : Z :=
  match r with PendOk => OS_STAT_PEND_OK | PendTimeout => OS_STAT_PEND_TO | PendAborted => OS_STAT_PEND_ABORT end.

Record ps_repr (s : PrioSet) (X : gset Z) : Prop := {
  pr_wf : ps_wf s;
  pr_mem : forall p, 0 <= p -> ps_mem p s = bool_decide (p ∈ X);
  pr_ok : forall p, p ∈ X -> prio_ok p;
}.

Record tcb_repr (p : Z) (c : TCB) (t : Task) : Prop := {
  tr_prio : OSTCBPrio c = p;
  tr_y : OSTCBY c = prio_y p;
  tr_bitx : OSTCBBitX c = prio_bitx p;
  tr_bity : OSTCBBitY c = prio_bity p;
  tr_multi : OSTCBEventMultiPtr c = None;
  tr_dly : OSTCBDly c = tk_dly t;
  tr_u16 : is_u16 (tk_dly t);
  tr_stat : OSTCBStat c = stat_of t;
  tr_pend : OSTCBStatPend c = result_of (tk_result t);
  tr_event : OSTCBEventPtr c = tk_event t;
}.

Record sem_repr (v : EVENT) (a : Sem) : Prop := {
  sr_type : OSEventType v = sm_type a;
  sr_cnt : OSEventCnt v = sm_cnt a;
  sr_u16 : is_u16 (sm_cnt a);
  sr_wait : ps_repr (OSEventWait v) (sm_wait a);
}.

(** The blocks from [ptr] on are those of the priorities [l], then that of the idle
    task; [prev] is the block before. *)
Fixpoint tcb_chain (s : OS) (prev ptr : TcbPtr) (l : list Z) : Prop :=
  exists i c, ptr = TcbAt i /\ tcb_tbl s !! i = Some c /\ OSTCBPrev c = prev /\
  match l with
  | [] => OSTCBPrio c = OS_TASK_IDLE_PRIO /\ prio_tbl s !! Z.to_nat OS_TASK_IDLE_PRIO = Some (TcbAt i)
  | p :: l => OSTCBPrio c = p /\ prio_ok p /\ p <> OS_TASK_IDLE_PRIO /\
              prio_tbl s !! Z.to_nat p = Some (TcbAt i) /\ tcb_chain s (TcbAt i) (OSTCBNext c) l
  end.

(** The free blocks. *)
Fixpoint free_chain (s : OS) (ptr : TcbPtr) (l : list nat) : Prop :=
  match l with
  | [] => ptr = TcbNull
  | i :: l => ptr = TcbAt i /\ exists c, tcb_tbl s !! i = Some c /\ free_chain s (OSTCBNext c) l
  end.

(** The free events. *)
Fixpoint ev_chain (s : OS) (ptr : option nat) (l : list nat) : Prop :=
  ptr = head l /\
  match l with
  | [] => True
  | e :: l => exists v, event_tbl s !! e = Some v /\
      OSEventPtr v = (match head l with Some e' => PtrEvent e' | None => PtrNull end) /\ ev_chain s (head l) l
  end.

Record lists (s : OS) (k : AK) (l : list Z) (lf : list nat) : Prop := {
  li_chain : tcb_chain s TcbNull (tcb_list s) l;
  li_nodup : NoDup l;
  li_in : forall p, p ∈ l <-> p <> OS_TASK_IDLE_PRIO /\ is_Some (a_tasks k !! p);
  li_free : free_chain s (tcb_free s) lf;
  li_fnodup : NoDup lf;
  li_fout : forall i p, i ∈ lf -> prio_tbl s !! p <> Some (TcbAt i);
  li_num : length lf = a_free_tcb k;
  li_len : (length l + length lf < N_TCB)%nat;
}.

Record repr0 (s : OS) (k : AK) : Prop := {
  rp_len : length (prio_tbl s) = N_PRIO;
  rp_rdy : ps_repr (rdy s) (a_ready k);
  rp_task : forall p t, a_tasks k !! p = Some t -> prio_ok p /\ exists i c,
    prio_tbl s !! Z.to_nat p = Some (TcbAt i) /\ tcb_tbl s !! i = Some c /\ tcb_repr p c t;
  rp_none : forall p, prio_ok p -> a_tasks k !! p = None -> prio_tbl s !! Z.to_nat p = Some TcbNull;
  rp_sem : forall e a, a_sems k !! e = Some a -> exists v, event_tbl s !! e = Some v /\ sem_repr v a;
  rp_cur : prio_cur s = a_cur k /\
    (is_Some (a_tasks k !! a_cur k) -> prio_tbl s !! Z.to_nat (a_cur k) = Some (tcb_cur s));
  rp_int : int_nesting s = a_int k /\ is_u8 (a_int k);
  rp_lock : lock_nesting s = a_lock k /\ is_u8 (a_lock k);
  rp_run : running s = true;
  rp_step : tick_step s = OS_TICK_STEP_DIS;
  rp_evs : length (event_tbl s) = N_EVENT /\ Forall (fun v => ps_wf (OSEventWait v)) (event_tbl s);
}.

Record repr (s : OS) (k : AK) : Prop := {
  rp_core : repr0 s k;
  rp_lists : exists l lf, lists s k l lf;
  rp_free : ev_chain s (event_free s) (a_free_ev k);
}.

(** ** Sets *)

Lemma ps_repr_insert p s X : ps_repr s X -> prio_ok p -> exists s',
  ps_insert (prio_y p) (prio_bitx p) (prio_bity p) s = Some s' /\ ps_repr s' ({[p]} ∪ X).
Proof.
  intros [Hwf Hmem Hok] Hp. destruct (ps_insert_spec p s Hwf Hp) as (s' & E & Hwf' & Hm).
  exists s'. split; [done|]. constructor; [done| |set_solver].
  intros q Hq. rewrite (Hm q Hq), (Hmem q Hq). destruct (Z.eqb_spec q p) as [->|Hne]; cbn [orb].
  - rewrite bool_decide_eq_true_2 by set_solver. done.
  - apply bool_decide_ext. set_solver.
Qed.

Lemma ps_repr_remove p s X : ps_repr s X -> prio_ok p -> exists s',
  ps_remove (prio_y p) (prio_bitx p) (prio_bity p) s = Some s' /\ ps_repr s' (X ∖ {[p]}).
Proof.
  intros [Hwf Hmem Hok] Hp. destruct (ps_remove_spec p s Hwf Hp) as (s' & E & Hwf' & Hm).
  exists s'. split; [done|]. constructor; [done| |set_solver].
  intros q Hq. rewrite (Hm q Hq), (Hmem q Hq). destruct (Z.eqb_spec q p) as [->|Hne]; cbn [negb andb].
  - rewrite bool_decide_eq_false_2 by set_solver. done.
  - apply bool_decide_ext. set_solver.
Qed.

Lemma ps_repr_empty s X : ps_repr s X -> (ps_grp s =? 0) = bool_decide (X = ∅).
Proof.
  intros [Hwf Hmem Hok]. destruct (ps_grp s =? 0) eqn:E; symmetry.
  - apply bool_decide_eq_true. apply set_eq. intros p. split; [|set_solver]. intros Hp.
    assert (Hm : ps_mem p s = true).
    { rewrite Hmem by (specialize (Hok p Hp); unfold prio_ok in Hok; lia). by apply bool_decide_eq_true. }
    assert (Hx : (ps_grp s =? 0) = false); [|congruence].
    apply (ps_grp_empty s Hwf). exists p. split; [|done]. specialize (Hok p Hp). unfold prio_ok in Hok. lia.
  - apply bool_decide_eq_false. intros ->. apply (ps_grp_empty s Hwf) in E as (p & Hp & Hm).
    rewrite Hmem in Hm by done. apply bool_decide_eq_true in Hm. set_solver.
Qed.

Lemma ps_repr_highest s X p : ps_repr s X -> least X = Some p -> ps_highest s = Some p /\ prio_ok p.
Proof.
  intros [Hwf Hmem Hok] Hl. pose proof (least_spec X) as H. rewrite Hl in H. destruct H as [Hp Hmin].
  pose proof (Hok p Hp) as Hpok.
  destruct (ps_highest_spec s Hwf) as (h & -> & Hh & Hmh & _ & Hlow).
  { exists p. unfold prio_ok in Hpok. split; [lia|]. rewrite Hmem by lia. by apply bool_decide_eq_true. }
  split; [|done]. f_equal. rewrite Hmem in Hmh by lia. apply bool_decide_eq_true in Hmh.
  specialize (Hmin h Hmh). assert (h <= p); [|lia].
  unfold prio_ok in Hpok. apply Hlow; [lia|]. rewrite Hmem by lia. by apply bool_decide_eq_true.
Qed.

(** ** The bits of [OSTCBStat] *)

Lemma stat_clear_sem p u r d e : Z.land (stat_of (mkTask p u r d e)) (u8 (Z.lnot OS_STAT_SEM)) =
  stat_of (mkTask false u r d e).
Proof. by destruct p, u. Qed.
Lemma stat_set_sem p u r d e : Z.lor (stat_of (mkTask p u r d e)) OS_STAT_SEM = stat_of (mkTask true u r d e).
Proof. by destruct p, u. Qed.
Lemma stat_set_susp p u r d e : Z.lor (stat_of (mkTask p u r d e)) OS_STAT_SUSPEND = stat_of (mkTask p true r d e).
Proof. by destruct p, u. Qed.
Lemma stat_clear_susp p u r d e :
  Z.land (stat_of (mkTask p u r d e)) (u8 (Z.lnot OS_STAT_SUSPEND)) = stat_of (mkTask p false r d e).
Proof. by destruct p, u. Qed.
Lemma stat_clear_pend p u r d e :
  Z.land (stat_of (mkTask p u r d e)) (u8 (Z.lnot OS_STAT_PEND_ANY)) = stat_of (mkTask false u r d e).
Proof. by destruct p, u. Qed.
Lemma stat_susp t : (Z.land (stat_of t) OS_STAT_SUSPEND =? OS_STAT_RDY) = negb (tk_susp t).
Proof. by destruct t as [[] [] ? ? ?]. Qed.
Lemma stat_pend t : (Z.land (stat_of t) OS_STAT_PEND_ANY =? OS_STAT_RDY) = negb (tk_pending t).
Proof. by destruct t as [[] [] ? ? ?]. Qed.
Lemma stat_ready t : (stat_of t =? OS_STAT_RDY) = negb (tk_pending t) && negb (tk_susp t).
Proof. by destruct t as [[] [] ? ? ?]. Qed.

(** ** The lists *)

(** The links and the priority of a block stay. *)
Definition same_links (c c' : TCB) : Prop :=
  OSTCBPrio c' = OSTCBPrio c /\ OSTCBNext c' = OSTCBNext c /\ OSTCBPrev c' = OSTCBPrev c.

Definition links_kept (s s' : OS) : Prop := forall i c, tcb_tbl s !! i = Some c ->
  exists c', tcb_tbl s' !! i = Some c' /\ same_links c c'.

Lemma tcb_chain_kept s s' : prio_tbl s' = prio_tbl s -> links_kept s s' ->
  forall l prev ptr, tcb_chain s prev ptr l -> tcb_chain s' prev ptr l.
Proof.
  intros Hp Ht. induction l as [|p l IH]; intros prev ptr; cbn [tcb_chain]; rewrite Hp.
  - intros (i & c & -> & Hc & Hprev & Hprio & Hpt). destruct (Ht i c Hc) as (c' & Hc' & E1 & _ & E3).
    exists i, c'. rewrite E1, E3. done.
  - intros (i & c & -> & Hc & Hprev & Hprio & Hok & Hne & Hpt & Hl). destruct (Ht i c Hc) as (c' & Hc' & E1 & E2 & E3).
    exists i, c'. rewrite E1, E2, E3. do 7 (split; [done|]). by apply IH.
Qed.

Lemma free_chain_kept s s' : links_kept s s' -> forall l ptr, free_chain s ptr l -> free_chain s' ptr l.
Proof.
  intros Ht. induction l as [|i l IH]; intros ptr; cbn [free_chain]; [done|]. intros (-> & c & Hc & Hl).
  split; [done|]. destruct (Ht i c Hc) as (c' & Hc' & _ & E2 & _). exists c'. split; [done|]. rewrite E2. by apply IH.
Qed.

Lemma lists_kept s s' k k' l lf : lists s k l lf -> prio_tbl s' = prio_tbl s -> tcb_list s' = tcb_list s ->
  tcb_free s' = tcb_free s -> links_kept s s' -> a_free_tcb k' = a_free_tcb k ->
  (forall p, is_Some (a_tasks k' !! p) <-> is_Some (a_tasks k !! p)) -> lists s' k' l lf.
Proof.
  intros [] Ep El Ef Hk En Hd. constructor; rewrite ?Ep, ?El, ?Ef, ?En; try done.
  - by apply (tcb_chain_kept s).
  - intros p. by rewrite Hd.
  - by apply (free_chain_kept s).
Qed.

Lemma links_kept_refl s s' : tcb_tbl s' = tcb_tbl s -> links_kept s s'.
Proof. intros E i c Hc. exists c. by rewrite E. Qed.

Lemma links_kept_insert s i c c' : tcb_tbl s !! i = Some c -> same_links c c' ->
  forall s', tcb_tbl s' = <[i := c']> (tcb_tbl s) -> links_kept s s'.
Proof.
  intros Hi Hs s' E j d Hj. rewrite E. destruct (decide (j = i)) as [->|].
  - exists c'. rewrite list_lookup_insert_eq by (by eapply lookup_lt_Some). by simplify_eq.
  - exists d. by rewrite list_lookup_insert_ne by done.
Qed.

Lemma ev_chain_kept s s' : (forall e v, event_tbl s !! e = Some v -> exists v', event_tbl s' !! e = Some v' /\
    OSEventPtr v' = OSEventPtr v) ->
  forall l ptr, ev_chain s ptr l -> ev_chain s' ptr l.
Proof.
  intros He. induction l as [|e l IH]; intros ptr; cbn [ev_chain]; [done|]. intros (-> & v & Hv & Hp & Hl).
  split; [done|]. destruct (He e v Hv) as (v' & Hv' & E). exists v'. rewrite E. split; [done|]. split; [done|]. by apply IH.
Qed.

(** Only fields that the representation ignores, or that it lists separately, change. *)
Lemma repr_lists s s' k k' : repr s k -> repr0 s' k' -> prio_tbl s' = prio_tbl s -> tcb_list s' = tcb_list s ->
  tcb_free s' = tcb_free s -> links_kept s s' -> event_free s' = event_free s ->
  (forall e v, event_tbl s !! e = Some v -> exists v', event_tbl s' !! e = Some v' /\ OSEventPtr v' = OSEventPtr v) ->
  a_free_tcb k' = a_free_tcb k -> a_free_ev k' = a_free_ev k ->
  (forall p, is_Some (a_tasks k' !! p) <-> is_Some (a_tasks k !! p)) -> repr s' k'.
Proof.
  intros [H0 (l & lf & Hl) He] H0' Ep El Ef Hk Ee Hv En Ev Hd. constructor; [done| |].
  - exists l, lf. by apply (lists_kept s s' k k').
  - rewrite Ee, Ev. by apply (ev_chain_kept s).
Qed.

Ltac repr_lists s k := apply (repr_lists s _ k); try done; try (by apply links_kept_refl); try (by intros; eexists).

(** ** Running an operation *)

(** [m] returns [a] in a state that represents [k], with the same tasks. *)
Definition runs {A} (m : M A) (s : OS) (a : A) (k : AK) : Prop :=
  exists s', m s = Some (a, s') /\ repr s' k /\ prio_tbl s' = prio_tbl s.

Lemma runs_ret {A} (a : A) s k : repr s k -> runs (ret a) s a k.
Proof. intros H. by exists s. Qed.

Lemma runs_bind {A B} (m : M A) (f : A -> M B) s a k b k' : runs m s a k ->
  (forall s1, repr s1 k -> prio_tbl s1 = prio_tbl s -> runs (f a) s1 b k') -> runs (bind m f) s b k'.
Proof.
  intros (s1 & E & H1 & P1) Hf. destruct (Hf s1 H1 P1) as (s2 & E2 & H2 & P2).
  exists s2. rewrite (bind_eq _ _ _ _ _ E). by rewrite P2, P1.
Qed.

Lemma runs_gets {A B} (g : OS -> A) (f : A -> M B) s b k : runs (f (g s)) s b k -> runs (bind (gets g) f) s b k.
Proof. done. Qed.

Lemma runs_modify g s k : repr (g s) k -> prio_tbl (g s) = prio_tbl s -> runs (modify g) s tt k.
Proof. intros H E. by exists (g s). Qed.

(** The block of the task [p]. *)
Definition at_ (s : OS) (p : Z) (i : nat) : Prop := prio_tbl s !! Z.to_nat p = Some (TcbAt i).

Lemma repr_at s k p t : repr s k -> a_tasks k !! p = Some t -> prio_ok p /\ exists i, at_ s p i.
Proof. intros [H _ _] Hp. destruct (rp_task _ _ H p t Hp) as (Hok & i & c & H1 & _). split; [done|]. by exists i. Qed.

Lemma repr_tcb s k p t i : repr s k -> a_tasks k !! p = Some t -> at_ s p i ->
  exists c, tcb_tbl s !! i = Some c /\ tcb_repr p c t.
Proof.
  intros [H _ _] Hp Hi. destruct (rp_task _ _ H p t Hp) as (Hok & j & c & H1 & H2 & H3).
  assert (j = i) as -> by (unfold at_ in Hi; congruence). by exists c.
Qed.

Lemma runs_get_tcb {B} s k p t i (f : TCB -> M B) b k' : repr s k -> a_tasks k !! p = Some t -> at_ s p i ->
  (forall c, tcb_repr p c t -> runs (f c) s b k') -> runs (bind (get_tcb i) f) s b k'.
Proof.
  intros Hr Hp Hi Hf. destruct (repr_tcb s k p t i Hr Hp Hi) as (c & Hc & Hrc).
  destruct (Hf c Hrc) as (s' & E & H). exists s'. unfold bind, get_tcb. by rewrite Hc.
Qed.

Lemma runs_get_prio {B} s k p t (f : TcbPtr -> M B) b k' : repr s k -> a_tasks k !! p = Some t ->
  (forall i, at_ s p i -> runs (f (TcbAt i)) s b k') -> runs (bind (get_prio p) f) s b k'.
Proof.
  intros Hr Hp Hf. destruct (repr_at s k p t Hr Hp) as (_ & i & Hi).
  destruct (Hf i Hi) as (s' & E & H). exists s'. unfold bind, get_prio. by rewrite Hi.
Qed.

(** The pointer to the running task. *)
Lemma runs_cur {B} s k t (f : nat -> M B) b k' : repr s k -> a_tasks k !! a_cur k = Some t ->
  (forall i, at_ s (a_cur k) i -> runs (f i) s b k') ->
  runs (let! p := gets tcb_cur in let! c := deref p in f c) s b k'.
Proof.
  intros Hr Ht Hf. apply runs_gets. destruct (repr_at s k _ t Hr Ht) as (_ & i & Hi).
  pose proof (proj2 (rp_cur _ _ (rp_core _ _ Hr)) ltac:(by rewrite Ht)) as E.
  assert (tcb_cur s = TcbAt i) as -> by (unfold at_ in Hi; congruence). by apply Hf.
Qed.

Lemma runs_upd_tcb s k p t t' i f : repr s k -> a_tasks k !! p = Some t -> at_ s p i ->
  (forall c, tcb_repr p c t -> tcb_repr p (f c) t' /\ same_links c (f c)) ->
  runs (upd_tcb i f) s tt (a_put p t' k).
Proof.
  intros Hr Hp Hi Hf. destruct (repr_tcb s k p t i Hr Hp Hi) as (c & Hc & Hrc). destruct (Hf c Hrc) as [Hrep Hst].
  unfold runs, upd_tcb. rewrite Hc. eexists. split; [done|]. split; [|done].
  assert (Hlen : (i < length (tcb_tbl s))%nat) by (by eapply lookup_lt_Some).
  assert (Hdom : forall q, is_Some (a_tasks (a_put p t' k) !! q) <-> is_Some (a_tasks k !! q)).
  { intros q. cbn. destruct (decide (q = p)) as [->|]; [by rewrite lookup_insert_eq, Hp|by rewrite lookup_insert_ne by done]. }
  repr_lists s k; [|by apply (links_kept_insert s i c (f c))].
  pose proof (rp_core _ _ Hr) as [H1 H2 H3 H4 H5 H6 H7 H8 H9 H10 H11]. constructor; try done.
  - intros q tq. cbn. intros Hq. destruct (decide (q = p)) as [->|Hne].
    + rewrite lookup_insert_eq in Hq. injection Hq as <-. split; [by apply (H3 p t)|].
      exists i, (f c). split; [done|]. by rewrite list_lookup_insert_eq.
    + rewrite lookup_insert_ne in Hq by done. destruct (H3 q tq Hq) as (Hok & j & d & Hj & Hd & Hrd).
      split; [done|]. exists j, d. split; [done|]. split; [|done].
      destruct (decide (j = i)) as [->|]; [|by rewrite list_lookup_insert_ne].
      exfalso. apply Hne. rewrite <- (tr_prio _ _ _ Hrd). assert (d = c) as -> by congruence.
      destruct Hst as [E _]. rewrite <- E. apply (tr_prio _ _ _ Hrep).
  - intros q Hq. cbn. intros Hn. destruct (decide (q = p)) as [->|]; [by rewrite lookup_insert_eq in Hn|].
    rewrite lookup_insert_ne in Hn by done. by apply H4.
  - destruct H6 as (E1 & E2). split; [done|]. intros Hs. apply E2. by apply Hdom.
Qed.

(** A change of a field that the specification ignores. *)
Lemma runs_upd_same s k p t i f : repr s k -> a_tasks k !! p = Some t -> at_ s p i ->
  (forall c, tcb_repr p c t -> tcb_repr p (f c) t /\ same_links c (f c)) -> runs (upd_tcb i f) s tt k.
Proof.
  intros Hr Hp Hi Hf. pose proof (runs_upd_tcb s k p t t i f Hr Hp Hi Hf) as H. unfold a_put in H.
  rewrite insert_id in H by done. by destruct k.
Qed.

(** ** The ready list *)

Lemma runs_upd_rdy s k f p X : repr s k ->
  (forall r, ps_repr r (a_ready k) -> exists r', f r = Some r' /\ ps_repr r' X) -> p = tt ->
  runs (upd_rdy f) s p (set_ready X k).
Proof.
  intros Hr Hf ->. pose proof (rp_core _ _ Hr) as [H1 H2 H3 H4 H5 H6 H7 H8 H9 H10 H11].
  destruct (Hf (rdy s) H2) as (r & E & Hrr). unfold runs, upd_rdy. rewrite E. eexists. split; [done|]. split; [|done].
  repr_lists s k.
Qed.

Lemma runs_rdy_insert s k p c t : repr s k -> prio_ok p -> tcb_repr p c t ->
  runs (rdy_insert c) s tt (set_ready ({[p]} ∪ a_ready k) k).
Proof.
  intros Hr Hok Hc. unfold rdy_insert. apply runs_upd_rdy; [done| |done]. intros r Hrr.
  rewrite (tr_y _ _ _ Hc), (tr_bitx _ _ _ Hc), (tr_bity _ _ _ Hc). by apply ps_repr_insert.
Qed.

Lemma runs_rdy_remove s k p c t : repr s k -> prio_ok p -> tcb_repr p c t ->
  runs (rdy_remove c) s tt (set_ready (a_ready k ∖ {[p]}) k).
Proof.
  intros Hr Hok Hc. unfold rdy_remove. apply runs_upd_rdy; [done| |done]. intros r Hrr.
  rewrite (tr_y _ _ _ Hc), (tr_bitx _ _ _ Hc), (tr_bity _ _ _ Hc). by apply ps_repr_remove.
Qed.

(** ** Events *)

Lemma runs_get_event {B} s k e a (f : EVENT -> M B) b k' : repr s k -> a_sems k !! e = Some a ->
  (forall v, sem_repr v a -> runs (f v) s b k') -> runs (bind (get_event e) f) s b k'.
Proof.
  intros Hr Ha Hf. destruct (rp_sem _ _ (rp_core _ _ Hr) e a Ha) as (v & Hv & Hsr).
  destruct (Hf v Hsr) as (s' & E & H). exists s'. unfold bind, get_event. by rewrite Hv.
Qed.

Lemma runs_event s k e a a' v' : repr s k -> a_sems k !! e = Some a ->
  (forall v, event_tbl s !! e = Some v -> sem_repr v a -> sem_repr (v' v) a' /\ OSEventPtr (v' v) = OSEventPtr v) ->
  runs (upd_event e v') s tt (a_ev e a' k).
Proof.
  intros Hr Ha Hv'. pose proof (rp_core _ _ Hr) as [H1 H2 H3 H4 H5 H6 H7 H8 H9 H10 H11].
  destruct (H5 e a Ha) as (v & Hv & Hsr). destruct (Hv' v Hv Hsr) as [Hrep Hptr].
  unfold runs, upd_event. rewrite Hv. eexists. split; [done|]. split; [|done].
  assert (Hlen : (e < length (event_tbl s))%nat) by (by eapply lookup_lt_Some).
  repr_lists s k.
  - constructor; try done.
    + intros e' a1 Ha1. cbn in *. destruct (decide (e' = e)) as [->|].
      * rewrite lookup_insert_eq in Ha1. simplify_eq. exists (v' v). by rewrite list_lookup_insert_eq.
      * rewrite lookup_insert_ne in Ha1 by done. destruct (H5 e' a1 Ha1) as (w & Hw & Hrw).
        exists w. by rewrite list_lookup_insert_ne.
    + destruct H11 as [E F]. cbn. rewrite length_insert. split; [done|].
      apply Forall_insert; [done|]. apply (pr_wf _ _ (sr_wait _ _ Hrep)).
  - intros e' w Hw. cbn. destruct (decide (e' = e)) as [->|].
    + exists (v' v). rewrite list_lookup_insert_eq by done. by simplify_eq.
    + exists w. by rewrite list_lookup_insert_ne.
Qed.

Lemma runs_upd_wait s k e a f X : repr s k -> a_sems k !! e = Some a ->
  (forall w, ps_repr w (sm_wait a) -> exists w', f w = Some w' /\ ps_repr w' X) ->
  runs (upd_wait e f) s tt (a_ev e (mkSem (sm_type a) (sm_cnt a) X) k).
Proof.
  intros Hr Ha Hf. destruct (rp_sem _ _ (rp_core _ _ Hr) e a Ha) as (v & Hv & Hsr).
  destruct (Hf _ (sr_wait _ _ Hsr)) as (w & E & Hw).
  destruct (runs_event s k e a (mkSem (sm_type a) (sm_cnt a) X) (fun v => set_OSEventWait w v) Hr Ha) as (s' & Es & H').
  { intros v1 Hv1 _. assert (v1 = v) as -> by congruence. split; [|done]. by destruct Hsr. }
  exists s'. split; [|done]. unfold upd_wait. unfold upd_event in Es. rewrite Hv in *. by rewrite E.
Qed.

Lemma runs_wait_remove s k e a p i t : repr s k -> a_sems k !! e = Some a -> a_tasks k !! p = Some t -> at_ s p i ->
  runs (OS_EventTaskRemove i e) s tt (a_ev e (mkSem (sm_type a) (sm_cnt a) (sm_wait a ∖ {[p]})) k).
Proof.
  intros Hr Ha Hp Hi. unfold OS_EventTaskRemove. apply (runs_get_tcb s k p t); try done. intros c Hc.
  apply runs_upd_wait; [done..|]. intros w Hw.
  rewrite (tr_y _ _ _ Hc), (tr_bitx _ _ _ Hc), (tr_bity _ _ _ Hc).
  apply ps_repr_remove; [done|]. by apply (repr_at s k p t).
Qed.
