(* ===== verification/KernelOps.v ===== *)
(** * KernelOps

    Each operation of the kernel, on a state that represents an abstract one, returns
    without undefined behaviour, with the result and the outcome of its specification. *)

From stdpp Require Import gmap.
From S2P Require Import Prelude PrioSet KernelData Kernel KernelSem KernelSpec KernelInv KernelRefine.

(** ** The scheduler *)

Lemma repr_prio_high s k h : repr s k -> repr (set_prio_high h s) k.
Proof.
  intros Hr. repr_lists s k. by destruct (rp_core _ _ Hr).
Qed.

(** The variables of the running task. *)
Lemma repr_switch s k p i t : repr s k -> a_tasks k !! p = Some t -> at_ s p i ->
  repr (set_prio_cur p (set_tcb_cur (TcbAt i) s)) (set_cur p k).
Proof.
  intros Hr Hp Hi. repr_lists s k. destruct (rp_core _ _ Hr). by constructor.
Qed.

Lemma repr_ctx_sw s k x : repr s k -> repr (set_ctx_sw x s) k.
Proof. intros Hr. repr_lists s k. by destruct (rp_core _ _ Hr). Qed.
Lemma repr_tcb_high s k x : repr s k -> repr (set_tcb_high x s) k.
Proof. intros Hr. repr_lists s k. by destruct (rp_core _ _ Hr). Qed.

Lemma set_cur_same k : set_cur (a_cur k) k = k.
Proof. by destruct k. Qed.

Lemma runs_switch s k : repr s k -> kcore k ->
  runs switch_to_high s tt (match least (a_ready k) with Some p => set_cur p k | None => k end).
Proof.
  intros Hr C. destruct (core_least k C) as (p & t & Ep & Ht & _). rewrite Ep.
  destruct (ps_repr_highest _ _ _ (rp_rdy _ _ (rp_core _ _ Hr)) Ep) as [Eh Hok].
  destruct (repr_at s k p t Hr Ht) as (_ & i & Hi). destruct (repr_tcb s k p t i Hr Ht Hi) as (c & Hc & Hrc).
  unfold runs, switch_to_high. assert (E1 : OS_SchedNew s = Some (tt, set_prio_high p s))
    by (unfold OS_SchedNew; by rewrite Eh).
  mrun E1. mpure. cbn [prio_high prio_cur set_prio_high]. rewrite (proj1 (rp_cur _ _ (rp_core _ _ Hr))).
  pose proof (repr_prio_high s k p Hr) as Hr1. destruct (Z.eqb_spec p (a_cur k)) as [->|Hne].
  - eexists. split; [done|]. by rewrite set_cur_same.
  - unfold get_prio. rewrite (bind_eq _ _ _ (TcbAt i) (set_prio_high p s)) by (cbn; by rewrite Hi).
    unfold deref. mpure. set (s2 := set_tcb_high (TcbAt i) (set_prio_high p s)).
    destruct (runs_upd_same s2 k p t i (fun t => set_OSTCBCtxSwCtr (u32 (OSTCBCtxSwCtr t + 1)) t)) as (s3 & E3 & H3 & P3); try done.
    { by apply repr_tcb_high. }
    { intros c' []. split; [by constructor|done]. }
    mrun E3. mpure. unfold OSCtxSw, modify. eexists. split; [done|].
    assert (Eh3 : prio_high s3 = p /\ tcb_high s3 = TcbAt i).
    { unfold upd_tcb in E3. destruct (tcb_tbl s2 !! i); [|done]. by injection E3 as <-. }
    cbn [prio_high tcb_high set_ctx_sw]. destruct Eh3 as [-> ->]. split; [|cbn; by rewrite P3].
    apply (repr_switch _ k p i t); [by apply repr_ctx_sw|done|]. unfold at_. cbn. by rewrite P3.
Qed.

Lemma runs_sched s k : repr s k -> kcore k -> runs OS_Sched s tt (a_sched k).
Proof.
  intros Hr C. unfold OS_Sched, a_sched. apply runs_gets.
  rewrite (proj1 (rp_int _ _ (rp_core _ _ Hr))). destruct (a_int k =? 0); cbn [negb andb]; [|by apply runs_ret].
  apply runs_gets. rewrite (proj1 (rp_lock _ _ (rp_core _ _ Hr))).
  destruct (a_lock k =? 0); cbn [negb]; [|by apply runs_ret]. by apply runs_switch.
Qed.

Lemma repr_set_int s k x : repr s k -> is_u8 x -> repr (set_int_nesting x s) (set_int x k).
Proof. intros Hr Hx. repr_lists s k. destruct (rp_core _ _ Hr). by constructor. Qed.
Lemma repr_set_lock s k x : repr s k -> is_u8 x -> repr (set_lock_nesting x s) (set_lock x k).
Proof. intros Hr Hx. repr_lists s k. destruct (rp_core _ _ Hr). by constructor. Qed.

(** ** Interrupts and locks *)

Section Ops.
Context (s : OS) (k : AK) (Hr : repr s k).
Let R0 : repr0 s k := rp_core s k Hr.

Lemma runs_enter : runs OSIntEnter s tt (a_enter k).
Proof using Hr R0.
  unfold OSIntEnter, a_enter. apply runs_gets. rewrite (rp_run _ _ R0). cbn [negb]. apply runs_gets.
  destruct (rp_int _ _ R0) as [-> Hi]. destruct (Z.ltb_spec (a_int k) 255); [|by apply runs_ret].
  rewrite u8_small by word_lia. apply runs_modify; [|done]. apply repr_set_int; [done|word_lia].
Qed.

Lemma runs_exit : kcore k -> runs OSIntExit s tt (a_exit k).
Proof using Hr R0.
  intros C. unfold OSIntExit, a_exit. apply runs_gets. rewrite (rp_run _ _ R0). cbn [negb]. apply runs_gets.
  destruct (rp_int _ _ R0) as [-> Hi]. set (k1 := if 0 <? a_int k then set_int (a_int k - 1) k else k).
  assert (C1 : kcore k1) by (unfold k1; destruct (0 <? a_int k); [by apply core_set_int|done]).
  apply (runs_bind _ _ s tt k1).
  { unfold k1. destruct (Z.ltb_spec 0 (a_int k)); [|by apply runs_ret]. rewrite u8_small by word_lia.
    apply runs_modify; [|done]. apply repr_set_int; [done|word_lia]. }
  intros s1 H1 _. fold OS_Sched. unfold a_sched. apply runs_gets. rewrite (proj1 (rp_int _ _ (rp_core _ _ H1))).
  destruct (a_int k1 =? 0); cbn [negb andb]; [|by apply runs_ret].
  apply runs_gets. rewrite (proj1 (rp_lock _ _ (rp_core _ _ H1))).
  destruct (a_lock k1 =? 0); cbn [negb]; [|by apply runs_ret]. by apply runs_switch.
Qed.

Lemma runs_lock : runs OSSchedLock s tt (a_lock_sched k).
Proof using Hr R0.
  unfold OSSchedLock, a_lock_sched. apply runs_gets. rewrite (rp_run _ _ R0). cbn [negb]. apply runs_gets.
  rewrite (proj1 (rp_int _ _ R0)). destruct (a_int k =? 0); cbn [negb]; [|by apply runs_ret]. apply runs_gets.
  destruct (rp_lock _ _ R0) as [-> Hl]. destruct (Z.ltb_spec (a_lock k) 255); [|by apply runs_ret].
  rewrite u8_small by word_lia. apply runs_modify; [|done]. apply repr_set_lock; [done|word_lia].
Qed.

Lemma runs_unlock : kcore k -> runs OSSchedUnlock s tt (a_unlock_sched k).
Proof using Hr R0.
  intros C. unfold OSSchedUnlock, a_unlock_sched. apply runs_gets. rewrite (rp_run _ _ R0). cbn [negb]. apply runs_gets.
  destruct (rp_lock _ _ R0) as [-> Hl]. destruct (Z.ltb_spec 0 (a_lock k)); cbn [negb]; [|by apply runs_ret].
  rewrite u8_small by word_lia. apply (runs_bind _ _ s tt (set_lock (a_lock k - 1) k)).
  { apply runs_modify; [|done]. apply repr_set_lock; [done|word_lia]. }
  intros s1 H1 _. apply runs_gets. rewrite (proj1 (rp_lock _ _ (rp_core _ _ H1))). unfold a_sched.
  destruct (Z.eqb_spec (a_lock (set_lock (a_lock k - 1) k)) 0) as [El|]; cbn [negb]; rewrite ?andb_false_r;
    [|by apply runs_ret].
  apply runs_gets. rewrite (proj1 (rp_int _ _ (rp_core _ _ H1))). rewrite andb_true_r.
  pose proof (runs_sched s1 _ H1 (core_set_lock (a_lock k - 1) k C)) as Hs. unfold a_sched in Hs.
  rewrite El, Z.eqb_refl, andb_true_r in Hs. destruct (a_int _ =? 0); [done|by apply runs_ret].
Qed.
End Ops.
