(* ===== verification/KernelSemOps.v ===== *)
(** * KernelSemOps

    The semaphore calls and the delays implement their specifications. *)

From stdpp Require Import gmap.
From S2P Require Import Prelude PrioSet KernelData Kernel KernelSem KernelSpec KernelInv KernelLife KernelRefine KernelOps.

(** ** Waking and waiting *)

Lemma woken_tcb p c t r : tcb_repr p c t ->
  tcb_repr p (set_OSTCBStatPend (result_of r) (set_OSTCBStat (Z.land (OSTCBStat c) (u8 (Z.lnot OS_STAT_SEM)))
      (set_OSTCBMsg 0 (set_OSTCBDly 0 c)))) (woken_by r t).
Proof.
  intros []. constructor; try done. cbn. rewrite tr_stat. destruct t. apply stat_clear_sem.
Qed.

Lemma shift_y p : prio_ok p -> Z.shiftr p 3 = prio_y p.
Proof.
  unfold prio_ok, OS_LOWEST_PRIO. intros Hp. unfold prio_y. rewrite u8_small; [done|].
  rewrite Z.shiftr_div_pow2 by lia. unfold is_u8. change (2 ^ 3) with 8. Z.div_mod_to_equations. lia.
Qed.

Lemma runs_wake s k e v p t r : repr s k -> a_sems k !! e = Some v -> least (sm_wait v) = Some p ->
  a_tasks k !! p = Some t -> runs (OS_EventTaskRdy e 0 OS_STAT_SEM (result_of r)) s p (a_wake e r k).
Proof.
  intros Hr Ev El Et. unfold OS_EventTaskRdy, a_wake. rewrite Ev, El, Et.
  apply (runs_get_event s k e v); [done..|]. intros w Hw.
  destruct (ps_repr_highest _ _ _ (sr_wait _ _ Hw) El) as [Eh Hok].
  apply (runs_bind _ _ s p k); [exists s; by rewrite Eh|]. intros s0 H0 P0. clear Eh s P0 Hr. rename H0 into Hr.
  apply (runs_get_prio s0 k p t); [done..|]. intros i Hi. unfold deref. unfold bind at 1. cbn.
  eapply runs_bind.
  { apply (runs_upd_tcb s0 k p t (woken_by r t)); try done. intros c Hc. split; [by apply woken_tcb|done]. }
  intros s1 H1 P1. set (k1 := a_put p (woken_by r t) k) in *.
  assert (Et1 : a_tasks k1 !! p = Some (woken_by r t)) by apply lookup_insert_eq.
  assert (Hi1 : at_ s1 p i) by (unfold at_; by rewrite P1).
  apply (runs_get_tcb s1 k1 p (woken_by r t)); [done..|]. intros c Hc.
  eapply (runs_bind _ _ s1 tt (if tk_susp t then k1 else set_ready ({[p]} ∪ a_ready k1) k1)).
  { rewrite (tr_stat _ _ _ Hc), stat_susp. cbn [tk_susp woken_by]. destruct (tk_susp t); cbn [negb]; [by apply runs_ret|].
    apply runs_upd_rdy; [done| |done]. intros w' Hw'. rewrite (shift_y p Hok), (tr_bitx _ _ _ Hc), (tr_bity _ _ _ Hc).
    by apply ps_repr_insert. }
  intros s2 H2 P2. set (k2 := if tk_susp t then k1 else _) in *.
  assert (Et2 : a_tasks k2 !! p = Some (woken_by r t) /\ a_sems k2 !! e = Some v) by (unfold k2; by destruct (tk_susp t)).
  destruct Et2 as [Et2 Ev2]. eapply runs_bind.
  { apply (runs_wait_remove s2 k2 e v p i (woken_by r t)); try done. unfold at_. by rewrite P2. }
  intros s3 H3 P3. rewrite (tr_multi _ _ _ Hc). unfold bind. cbn. by apply runs_ret.
Qed.

Lemma wait_least k e v : kcore k -> a_sems k !! e = Some v -> sm_wait v <> ∅ -> exists p t,
  least (sm_wait v) = Some p /\ a_tasks k !! p = Some t /\ waits e t.
Proof.
  intros C Ev Hne. pose proof (least_spec (sm_wait v)) as H. destruct (least (sm_wait v)) as [p|]; [|done].
  destruct H as [Hp _]. apply (kc_wait k C e v p Ev) in Hp as (t & Ht & Hw). by exists p, t.
Qed.

Lemma grp_empty v a : sem_repr v a -> (ps_grp (OSEventWait v) =? 0) = bool_decide (sm_wait a = ∅).
Proof. intros []. by apply ps_repr_empty. Qed.

Lemma sem_cnt_repr v a x : sem_repr v a -> is_u16 x ->
  sem_repr (set_OSEventCnt x v) (mkSem (sm_type a) x (sm_wait a)).
Proof. intros [] Hx. by constructor. Qed.

Section SemOps.
Context (s : OS) (k : AK) (Hr : repr s k) (C : kcore k).
Context (e : nat) (v : Sem) (Ev : a_sems k !! e = Some v).
Let Hcnt := kc_cnt k C e v Ev.

Lemma runs_accept : runs (OSSemAccept (Some e)) s (a_accept e k).1 (a_accept e k).2.
Proof using All.
  unfold OSSemAccept, a_accept. rewrite Ev. apply (runs_get_event s k e v); [done..|]. intros w Hw.
  rewrite (sr_type _ _ Hw). destruct (negb (_ =? _)); [by apply runs_ret|]. rewrite (sr_cnt _ _ Hw). cbn [fst snd].
  eapply runs_bind; [|intros s1 H1 _; by apply runs_ret].
  destruct (Z.ltb_spec 0 (sm_cnt v)); [|by apply runs_ret].
  apply (runs_event s k e v); [done..|]. intros u _ Hu. rewrite u16_small by word_lia.
  split; [|done]. apply sem_cnt_repr; [done|word_lia].
Qed.

Lemma runs_query : exists w, sem_repr w v /\
  runs (OSSemQuery (Some e)) s (if sm_type v =? OS_EVENT_TYPE_SEM then inl (sm_cnt v, OSEventWait w)
                                else inr OS_ERR_EVENT_TYPE) k.
Proof using All.
  destruct (rp_sem _ _ (rp_core _ _ Hr) e v Ev) as (w & Hw & Hsr). exists w. split; [done|].
  exists s. unfold OSSemQuery, sem_event, bind, get_event. rewrite Hw. cbn. rewrite (sr_type _ _ Hsr), <- (sr_cnt _ _ Hsr).
  by destruct (sm_type v =? OS_EVENT_TYPE_SEM).
Qed.

Lemma runs_sem_event {B} (f : EVENT + Z -> M B) b k' :
  (forall w, sem_repr w v -> runs (f (if sm_type v =? OS_EVENT_TYPE_SEM then inl w else inr OS_ERR_EVENT_TYPE)) s b k') ->
  runs (bind (sem_event (Some e)) f) s b k'.
Proof using Hr Ev.
  intros Hf. destruct (rp_sem _ _ (rp_core _ _ Hr) e v Ev) as (w & Hw & Hsr). destruct (Hf w Hsr) as (s' & E & H).
  exists s'. unfold sem_event, bind, get_event. rewrite Hw. cbn. by rewrite (sr_type _ _ Hsr).
Qed.

Lemma runs_set cnt : is_u16 cnt -> runs (OSSemSet (Some e) cnt) s (a_set e cnt k).1 (a_set e cnt k).2.
Proof using All.
  intros Hc. unfold OSSemSet, a_set. rewrite Ev. apply runs_sem_event. intros w Hw.
  destruct (sm_type v =? OS_EVENT_TYPE_SEM); cbn [negb]; [|by apply runs_ret].
  rewrite (sr_cnt _ _ Hw), (grp_empty _ _ Hw). destruct (_ || _); [|by apply runs_ret].
  eapply runs_bind; [|intros s1 H1 _; by apply runs_ret]. apply (runs_event s k e v); [done..|]. intros u _ Hu.
  split; [by apply sem_cnt_repr|done].
Qed.

Lemma runs_post : runs (OSSemPost (Some e)) s (a_post e k).1 (a_post e k).2.
Proof using All.
  unfold OSSemPost, a_post. rewrite Ev. apply runs_sem_event. intros w Hw.
  destruct (sm_type v =? OS_EVENT_TYPE_SEM); cbn [negb]; [|by apply runs_ret].
  rewrite (grp_empty _ _ Hw). destruct (bool_decide_reflect (sm_wait v = ∅)) as [Hn|Hn]; cbn [negb].
  - rewrite (sr_cnt _ _ Hw). destruct (Z.ltb_spec (sm_cnt v) 65535); [|by apply runs_ret].
    eapply runs_bind; [|intros s1 H1 _; by apply runs_ret].
    apply (runs_event s k e v); [done..|]. intros u _ Hu. rewrite u16_small by word_lia.
    split; [|done]. apply sem_cnt_repr; [done|word_lia].
  - destruct (wait_least k e v C Ev Hn) as (p & t & El & Et & Hwt).
    eapply runs_bind; [by apply (runs_wake s k e v p t PendOk)|]. intros s1 H1 _.
    eapply runs_bind; [apply runs_sched; [done|by apply core_wake]|]. intros s2 H2 _. by apply runs_ret.
Qed.
End SemOps.

(** The running task, already marked as pending, enters the wait list. *)
Lemma runs_event_wait s k e v t : repr s k -> a_sems k !! e = Some v -> a_tasks k !! a_cur k = Some t ->
  runs (OS_EventTaskWait e) s tt
    (a_ev e (mkSem (sm_type v) (sm_cnt v) ({[a_cur k]} ∪ sm_wait v)) (set_ready (a_ready k ∖ {[a_cur k]})
       (a_put (a_cur k) (mkTask (tk_pending t) (tk_susp t) (tk_result t) (tk_dly t) (Some e)) k))).
Proof.
  intros Hr Ev Et. unfold OS_EventTaskWait. destruct (repr_at s k _ t Hr Et) as [Hok _].
  apply (runs_cur s k t); [done..|]. intros i Hi.
  set (t2 := mkTask (tk_pending t) (tk_susp t) (tk_result t) (tk_dly t) (Some e)).
  eapply runs_bind.
  { apply (runs_upd_tcb s k (a_cur k) t t2); try done. intros c []. split; [by constructor|done]. }
  intros s2 H2 P2. set (k2 := a_put (a_cur k) t2 k) in *.
  assert (Et2 : a_tasks k2 !! a_cur k = Some t2) by apply lookup_insert_eq.
  apply (runs_get_tcb s2 k2 (a_cur k) t2); [done|done| |].
  { unfold at_ in *. by rewrite P2. }
  intros c Hc. eapply runs_bind.
  { apply (runs_upd_wait s2 k2 e v _ ({[a_cur k]} ∪ sm_wait v)); [done|done|]. intros w Hw.
    rewrite (tr_y _ _ _ Hc), (tr_bitx _ _ _ Hc), (tr_bity _ _ _ Hc). by apply ps_repr_insert. }
  intros s3 H3 P3. apply (runs_rdy_remove s3 _ (a_cur k) c t2 H3 Hok Hc).
Qed.

(** ** Pending *)

(** The sets and records do not depend on the running task. *)
Lemma core_unsched k : kcore (a_sched k) -> kcore k.
Proof.
  unfold a_sched. destruct (_ && _); [|done]. destruct (least (a_ready k)); [|done]. by intros [].
Qed.

Lemma runs_pend s k e v t timeout : repr s k -> kcore k -> a_sems k !! e = Some v ->
  a_tasks k !! a_cur k = Some t -> is_u16 timeout ->
  kcore (a_pend e timeout k).2 ->
  runs (OSSemPend (Some e) timeout) s (a_pend e timeout k).1 (a_pend e timeout k).2.
Proof.
  intros Hr C Ev Et Hto. unfold OSSemPend, a_pend. rewrite Ev. intros Cw. apply (runs_get_event s k e v); [done..|].
  intros w Hw. rewrite (sr_type _ _ Hw). destruct (negb (_ =? _)); [by apply runs_ret|].
  pose proof (rp_core _ _ Hr) as R0. apply runs_gets. rewrite (proj1 (rp_int _ _ R0)).
  destruct (0 <? a_int k); [by apply runs_ret|]. apply runs_gets. rewrite (proj1 (rp_lock _ _ R0)).
  destruct (0 <? a_lock k); [by apply runs_ret|]. rewrite (sr_cnt _ _ Hw). destruct (kc_cnt k C e v Ev) as [Hu _].
  destruct (Z.ltb_spec 0 (sm_cnt v)).
  - eapply runs_bind; [|intros s1 H1 _; by apply runs_ret]. apply (runs_event s k e v); [done..|]. intros u _ Hsu.
    rewrite u16_small by word_lia. split; [|done]. apply sem_cnt_repr; [done|word_lia].
  - apply core_unsched in Cw. apply (runs_cur s k t); [done..|]. intros i Hi.
    set (t1 := mkTask true (tk_susp t) PendOk timeout (tk_event t)). eapply runs_bind.
    { apply (runs_upd_tcb s k (a_cur k) t t1); try done. intros c []. split; [|done]. constructor; try done.
      cbn. rewrite tr_stat. destruct t. apply stat_set_sem. }
    intros s1 H1 P1. eapply runs_bind.
    { eapply runs_event_wait; [done|done|]. by apply lookup_insert_eq. }
    intros s2 H2 P2. eapply (runs_bind _ _ s2 tt (a_sched (a_wait e timeout k))).
    { apply runs_sched; [|done]. revert H2. unfold a_wait, a_put. rewrite Ev, Et. cbn. by rewrite insert_insert_eq. }
    intros s3 H3 P3. by apply runs_ret.
Qed.

Lemma runs_resume s k e v t : repr s k -> a_sems k !! e = Some v \/ tk_result t <> PendTimeout ->
  a_tasks k !! a_cur k = Some t -> tk_event t = Some e ->
  runs (OSSemPend_resume e) s (a_resume k).1 (a_resume k).2.
Proof.
  intros Hr Hv Et He. unfold OSSemPend_resume, a_resume. rewrite Et. apply (runs_cur s k t); [done..|]. intros i Hi.
  apply (runs_get_tcb s k (a_cur k) t); [done..|]. intros c Hc. rewrite (tr_pend _ _ _ Hc).
  set (t' := mkTask false false PendOk (tk_dly t) None).
  assert (Hfin : forall s1 k1 (err : Z), repr s1 k1 -> prio_tbl s1 = prio_tbl s -> a_tasks k1 !! a_cur k = Some t ->
    runs (let! _ := upd_tcb i (fun t => set_OSTCBEventMultiPtr None (set_OSTCBEventPtr None
      (set_OSTCBStatPend OS_STAT_PEND_OK (set_OSTCBStat OS_STAT_RDY t)))) in ret err) s1 err (a_put (a_cur k) t' k1)).
  { intros s1 k1 err H1 P1 Et1. eapply runs_bind; [|intros s2 H2 _; by apply runs_ret].
    apply (runs_upd_tcb s1 k1 (a_cur k) t t'); [done|done|unfold at_ in *; by rewrite P1|].
    intros d []. split; [by constructor|done]. }
  destruct (tk_result t) eqn:Er; cbn [result_of fst snd].
  - eapply runs_bind; [by apply runs_ret|]. intros s1 H1 P1. by apply Hfin.
  - destruct Hv as [Ev|]; [|done]. unfold a_unwait. rewrite He. cbn [a_sems a_put set_tasks]. rewrite Ev.
    eapply (runs_bind _ _ s OS_ERR_TIMEOUT (a_ev e (mkSem (sm_type v) (sm_cnt v) (sm_wait v ∖ {[a_cur k]})) k)).
    { cbn. eapply runs_bind; [by apply (runs_wait_remove s k e v (a_cur k) i t)|]. intros s1 H1 _. by apply runs_ret. }
    intros s1 H1 P1. by apply (Hfin s1 _ _ H1).
  - eapply runs_bind; [by apply runs_ret|]. intros s1 H1 P1. by apply Hfin.
Qed.

(** ** Delays *)

Lemma runs_delay s k t ticks : repr s k -> a_tasks k !! a_cur k = Some t -> is_u16 ticks ->
  kcore (a_delay ticks k) -> runs (OSTimeDly ticks) s tt (a_delay ticks k).
Proof.
  intros Hr Et Ht. unfold OSTimeDly, a_delay. rewrite Et. intros HC. apply runs_gets. rewrite (proj1 (rp_int _ _ (rp_core _ _ Hr))).
  destruct (0 <? a_int k); cbn [orb]; [by apply runs_ret|]. destruct (Z.ltb_spec 0 ticks); cbn [negb]; [|by apply runs_ret].
  apply (runs_cur s k t); [done..|]. intros i Hi. apply (runs_get_tcb s k (a_cur k) t); [done..|]. intros c Hc.
  destruct (repr_at s k _ t Hr Et) as [Hok _]. eapply runs_bind; [by apply (runs_rdy_remove s k (a_cur k) c t)|].
  intros s1 H1 P1. eapply runs_bind.
  { apply (runs_upd_tcb s1 _ (a_cur k) t (mkTask (tk_pending t) (tk_susp t) (tk_result t) ticks (tk_event t)) i
      (set_OSTCBDly ticks) H1); [done|unfold at_ in *; by rewrite P1|]. intros d []. split; [by constructor|done]. }
  intros s2 H2 P2. apply runs_sched; [done|]. by apply core_unsched in HC.
Qed.

Lemma runs_end_delay s k p i t : repr s k -> a_tasks k !! p = Some t -> at_ s p i -> tk_dly t = 0 ->
  runs (end_delay i) s tt
    (if tk_susp t then a_put p (expire t) k
     else set_ready ({[p]} ∪ a_ready k) (a_put p (expire t) k)).
Proof.
  intros Hr Et Hi Hd. unfold end_delay. apply (runs_get_tcb s k p t); [done..|]. intros c0 _.
  destruct (repr_at s k _ t Hr Et) as [Hok _]. eapply runs_bind.
  { apply (runs_upd_tcb s k p t (expire t)); try done. intros c Hc. rewrite (tr_stat _ _ _ Hc), stat_pend.
    destruct Hc. unfold expire. destruct t as [tp ts tr td te]. cbn [tk_pending tk_susp tk_dly tk_event] in *. subst td.
    destruct tp; cbn [negb]; (split; [|done]); constructor; try done.
    exact (stat_clear_pend true ts tr 0 te). }
  intros s1 H1 P1. apply (runs_get_tcb s1 (a_put p (expire t) k) p (expire t)); [done|apply lookup_insert_eq|unfold at_ in *; by rewrite P1|].
  intros c Hc. rewrite (tr_stat _ _ _ Hc), stat_susp. cbn [tk_susp expire]. destruct (tk_susp t); cbn [negb]; [by apply runs_ret|].
  apply (runs_rdy_insert s1 _ p c (expire t) H1 Hok Hc).
Qed.

(** The block of a task that no longer counts ticks. *)
Definition stopped (t : Task) : Task := mkTask (tk_pending t) (tk_susp t) (tk_result t) 0 (tk_event t).

Lemma expire_stopped t : expire (stopped t) = expire t.
Proof. done. Qed.

Lemma runs_stop s k p i t : repr s k -> a_tasks k !! p = Some t -> at_ s p i ->
  runs (upd_tcb i (set_OSTCBDly 0)) s tt (a_put p (stopped t) k).
Proof. intros Hr Et Hi. apply (runs_upd_tcb s k p t); try done. intros c []. split; [by constructor|done]. Qed.

Lemma runs_dly_resume s k prio : repr s k -> 0 <= prio -> kcore (a_dly_resume prio k).2 ->
  runs (OSTimeDlyResume prio) s (a_dly_resume prio k).1 (a_dly_resume prio k).2.
Proof.
  intros Hr H0. unfold OSTimeDlyResume, a_dly_resume. destruct (Z.leb_spec OS_LOWEST_PRIO prio); [intros; by apply runs_ret|].
  destruct (a_tasks k !! prio) as [t|] eqn:Et; intros HC.
  - apply (runs_get_prio s k prio t); [done..|]. intros i Hi. apply (runs_get_tcb s k prio t); [done..|]. intros c Hc.
    rewrite (tr_dly _ _ _ Hc). destruct (Z.eqb_spec (tk_dly t) 0); [by apply runs_ret|].
    eapply runs_bind; [by apply (runs_stop s k prio i t)|]. intros s1 H1 P1.
    assert (Et1 : a_tasks (a_put prio (stopped t) k) !! prio = Some (stopped t)) by apply lookup_insert_eq.
    eapply runs_bind; [apply (runs_end_delay s1 _ prio i (stopped t) H1 Et1); [unfold at_ in *; by rewrite P1|done]|].
    intros s2 H2 P2. rewrite expire_stopped in H2. set (k2 := if tk_susp (stopped t) then _ else _ : AK) in H2.
    assert (Et2 : a_tasks k2 !! prio = Some (expire t)) by (unfold k2; destruct (tk_susp _); apply lookup_insert_eq).
    assert (Ek : k2 = if tk_susp t then a_put prio (expire t) k
      else set_ready ({[prio]} ∪ a_ready k) (a_put prio (expire t) k)).
    { unfold k2, a_put. cbn. destruct (tk_susp t); by rewrite insert_insert_eq. }
    apply (runs_get_tcb s2 k2 prio (expire t)); [done|done|unfold at_ in *; by rewrite P2, P1|]. intros d Hd.
    rewrite (tr_stat _ _ _ Hd), stat_susp. cbn [tk_susp expire]. clearbody k2. subst k2. cbn [fst snd] in *.
    destruct (tk_susp t); cbn [negb] in *.
    + eapply runs_bind; [by apply runs_ret|]. intros s3 H3 _. by apply runs_ret.
    + eapply runs_bind; [apply runs_sched; [done|by apply core_unsched in HC]|]. intros s3 H3 _. by apply runs_ret.
  - exists s. unfold bind, get_prio.
    rewrite (rp_none _ _ (rp_core _ _ Hr)) by (unfold prio_ok, OS_LOWEST_PRIO in *; done || lia). done.
Qed.

(** ** Suspending *)

Lemma runs_suspend s k t prio : repr s k -> 0 <= prio -> a_tasks k !! a_cur k = Some t ->
  kcore (a_suspend prio k).2 -> runs (OSTaskSuspend prio) s (a_suspend prio k).1 (a_suspend prio k).2.
Proof.
  intros Hr H0 Ec. unfold OSTaskSuspend, a_suspend. destruct (prio =? OS_TASK_IDLE_PRIO); [intros; by apply runs_ret|].
  destruct ((OS_LOWEST_PRIO <=? prio) && negb (prio =? OS_PRIO_SELF)) eqn:Erange; [intros; by apply runs_ret|].
  fold (self_or prio k). set (p := self_or prio k). intros HC. apply (runs_cur s k t); [done..|]. intros j Hj.
  apply (runs_get_tcb s k (a_cur k) t); [done..|]. intros c Hc. rewrite (tr_prio _ _ _ Hc).
  fold (self_or prio k). fold p. assert (Eself : (prio =? OS_PRIO_SELF) || (prio =? a_cur k) = (p =? a_cur k)).
  { unfold p, self_or. destruct (prio =? OS_PRIO_SELF); [by rewrite Z.eqb_refl|done]. }
  rewrite Eself. destruct (a_tasks k !! p) as [u|] eqn:Eu.
  - apply (runs_get_prio s k p u); [done..|]. intros i Hi. apply (runs_get_tcb s k p u); [done..|]. intros d Hd.
    destruct (repr_at s k _ u Hr Eu) as [Hok _]. eapply runs_bind; [by apply (runs_rdy_remove s k p d u)|].
    intros s1 H1 P1. eapply runs_bind.
    { apply (runs_upd_tcb s1 _ p u (mkTask (tk_pending u) true (tk_result u) (tk_dly u) (tk_event u)) i _ H1);
        [done|unfold at_ in *; by rewrite P1|]. intros b []. split; [|done]. constructor; try done.
      cbn. rewrite tr_stat. destruct u. apply stat_set_susp. }
    intros s2 H2 P2. cbn [fst snd] in *. eapply runs_bind; [|intros s3 H3 _; by apply runs_ret].
    destruct (p =? a_cur k); [|by apply runs_ret]. apply runs_sched; [done|by apply core_unsched in HC].
  - exists s. unfold bind, get_prio. rewrite (rp_none _ _ (rp_core _ _ Hr)); [done| |done].
    unfold p, self_or, prio_ok, OS_LOWEST_PRIO in *. destruct (prio =? OS_PRIO_SELF); [congruence|lia].
Qed.

Lemma runs_unsuspend s k prio : repr s k -> 0 <= prio ->
  kcore (a_unsuspend prio k).2 -> runs (OSTaskResume prio) s (a_unsuspend prio k).1 (a_unsuspend prio k).2.
Proof.
  intros Hr H0. unfold OSTaskResume, a_unsuspend. destruct (Z.leb_spec OS_LOWEST_PRIO prio); [intros; by apply runs_ret|].
  destruct (a_tasks k !! prio) as [t|] eqn:Et; intros HC.
  - apply (runs_get_prio s k prio t); [done..|]. intros i Hi. apply (runs_get_tcb s k prio t); [done..|]. intros c Hc.
    rewrite (tr_stat _ _ _ Hc), stat_susp. destruct (negb (tk_susp t)); [by apply runs_ret|].
    set (t1 := mkTask (tk_pending t) false (tk_result t) (tk_dly t) (tk_event t)) in *. eapply runs_bind.
    { apply (runs_upd_tcb s k prio t t1); try done. intros b []. split; [|done]. constructor; try done.
      cbn. rewrite tr_stat. destruct t. apply stat_clear_susp. }
    intros s1 H1 P1. assert (Et1 : a_tasks (a_put prio t1 k) !! prio = Some t1) by apply lookup_insert_eq.
    apply (runs_get_tcb s1 (a_put prio t1 k) prio t1); [done|done|unfold at_ in *; by rewrite P1|]. intros d Hd.
    rewrite (tr_stat _ _ _ Hd), (tr_dly _ _ _ Hd), stat_ready. fold (tk_ready t1). cbn [fst snd] in *.
    eapply runs_bind; [|intros s3 H3 _; by apply runs_ret]. destruct (tk_ready t1); [|by apply runs_ret].
    destruct (repr_at s k _ t Hr Et) as [Hok _]. eapply runs_bind; [apply (runs_rdy_insert s1 _ prio d t1 H1 Hok Hd)|].
    intros s2 H2 P2. apply runs_gets. rewrite (rp_run _ _ (rp_core _ _ H2)). apply runs_sched; [done|by apply core_unsched in HC].
  - exists s. unfold bind, get_prio.
    rewrite (rp_none _ _ (rp_core _ _ Hr)) by (unfold prio_ok, OS_LOWEST_PRIO in *; done || lia). done.
Qed.
