(* ===== verification/KernelTickOps.v ===== *)
(** * KernelTickOps

    The clock tick, which walks the list of the tasks, and the calls that wake every
    waiting task implement their specifications. *)

From stdpp Require Import gmap.
From S2P Require Import Prelude PrioSet KernelData Kernel KernelSem KernelSpec KernelInv KernelLife KernelRefine KernelOps KernelSemOps.

(** ** Operations that leave the list of the tasks alone *)

Definition keeps {A} (m : M A) : Prop := forall s a s', m s = Some (a, s') -> links_kept s s'.

Lemma links_kept_trans s1 s2 s3 : links_kept s1 s2 -> links_kept s2 s3 -> links_kept s1 s3.
Proof.
  intros H12 H23 i c Hc. destruct (H12 i c Hc) as (c2 & Hc2 & E1 & E2 & E3).
  destruct (H23 i c2 Hc2) as (c3 & Hc3 & F1 & F2 & F3). exists c3. split; [done|]. unfold same_links. by rewrite F1, F2, F3.
Qed.

Lemma keeps_ret {A} (a : A) : keeps (ret a).
Proof. intros s b s' [= _ <-]. by apply links_kept_refl. Qed.
Lemma keeps_bind {A B} (m : M A) (f : A -> M B) : keeps m -> (forall a, keeps (f a)) -> keeps (bind m f).
Proof.
  intros Hm Hf s b s'. unfold bind. destruct (m s) as [[a s1]|] eqn:E; [|done]. intros E'.
  eapply links_kept_trans; [by eapply Hm|by eapply Hf].
Qed.
Lemma keeps_get_tcb i : keeps (get_tcb i).
Proof. intros s a s'. unfold get_tcb. destruct (tcb_tbl s !! i); [|done]. intros [= _ <-]. by apply links_kept_refl. Qed.
Lemma keeps_upd_tcb i f : (forall c, same_links c (f c)) -> keeps (upd_tcb i f).
Proof.
  intros Hf s a s'. unfold upd_tcb. destruct (tcb_tbl s !! i) as [c|] eqn:E; [|done]. intros [= _ <-].
  by apply (links_kept_insert s i c (f c)).
Qed.
Lemma keeps_upd_rdy f : keeps (upd_rdy f).
Proof. intros s a s'. unfold upd_rdy. destruct (f (rdy s)); [|done]. intros [= _ <-]. by apply links_kept_refl. Qed.

Ltac keeps := repeat match goal with
  | |- keeps (bind _ _) => apply keeps_bind; [|intros ?]
  | |- keeps (upd_tcb _ _) => apply keeps_upd_tcb; intros ?; try done
  | |- keeps (get_tcb _) => apply keeps_get_tcb
  | |- keeps (ret _) => apply keeps_ret
  | |- keeps (upd_rdy _) => apply keeps_upd_rdy
  | |- keeps (if ?b then _ else _) => destruct b
  end.

Lemma keeps_end_delay i : keeps (end_delay i).
Proof.
  unfold end_delay, rdy_insert. keeps. by destruct (Z.land _ _ =? _).
Qed.

Lemma keeps_tick_task i : keeps (tick_task i).
Proof. unfold tick_task. keeps. apply keeps_end_delay. Qed.

(** ** The tick *)

(** A tick for the task [p]. *)
Definition tick_at (p : Z) (k : AK) : AK :=
  match a_tasks k !! p with
  | None => k
  | Some t =>
      let k1 := a_put p (tick1 t) k in
      if woken t then set_ready ({[p]} ∪ a_ready k1) k1 else k1
  end.

Lemma a_put_same p t k : a_tasks k !! p = Some t -> a_put p t k = k.
Proof. intros Ht. unfold a_put. rewrite insert_id by done. by destruct k. Qed.
Lemma a_put_put p t t' k : a_put p t' (a_put p t k) = a_put p t' k.
Proof. unfold a_put. cbn. by rewrite insert_insert_eq. Qed.

Lemma runs_tick_task s k p i t : repr s k -> a_tasks k !! p = Some t -> at_ s p i ->
  runs (tick_task i) s tt (tick_at p k).
Proof.
  intros Hr Et Hi. unfold tick_task, tick_at. rewrite Et. apply (runs_get_tcb s k p t); [done..|]. intros c Hc.
  rewrite (tr_dly _ _ _ Hc). pose proof (tr_u16 _ _ _ Hc) as Hu. unfold tick1, woken.
  destruct (Z.eqb_spec (tk_dly t) 0) as [->|H0].
  { cbn. apply runs_ret. by rewrite a_put_same. }
  set (t1 := mkTask (tk_pending t) (tk_susp t) (tk_result t) (tk_dly t - 1) (tk_event t)). eapply runs_bind.
  { apply (runs_upd_tcb s k p t t1); try done. intros d []. split; [|done]. constructor; try done; cbn.
    - rewrite tr_dly. apply u16_small. word_lia.
    - word_lia. }
  intros s1 H1 P1. assert (Et1 : a_tasks (a_put p t1 k) !! p = Some t1) by apply lookup_insert_eq.
  assert (Hi1 : at_ s1 p i) by (unfold at_; by rewrite P1).
  apply (runs_get_tcb s1 (a_put p t1 k) p t1); [done..|]. intros d Hd. rewrite (tr_dly _ _ _ Hd). cbn [tk_dly t1].
  destruct (Z.eqb_spec (tk_dly t) 1) as [E|]; [|rewrite (proj2 (Z.eqb_neq _ _)) by lia; by apply runs_ret].
  rewrite E. cbn [Z.eqb]. pose proof (runs_end_delay s1 _ p i t1 H1 Et1 Hi1) as H. cbn [tk_dly t1] in H. rewrite E in H.
  specialize (H eq_refl). change (expire t1) with (expire t) in H. change (tk_susp t1) with (tk_susp t) in H.
  rewrite a_put_put in H. by destruct (tk_susp t).
Qed.

Lemma tick_at_tasks p k q : is_Some (a_tasks (tick_at p k) !! q) <-> is_Some (a_tasks k !! q).
Proof.
  unfold tick_at. destruct (a_tasks k !! p) as [t|] eqn:Et; [|done].
  assert (E : is_Some (<[p := tick1 t]> (a_tasks k) !! q) <-> is_Some (a_tasks k !! q)).
  { destruct (decide (q = p)) as [->|]; [by rewrite lookup_insert_eq, Et|by rewrite lookup_insert_ne by done]. }
  by destruct (woken t).
Qed.

Lemma runs_tick_list : forall l n s k prev ptr, repr s k -> tcb_chain s prev ptr l -> (length l < n)%nat ->
  (forall p, p ∈ l -> is_Some (a_tasks k !! p)) ->
  runs (tick_list n ptr) s tt (foldl (fun k p => tick_at p k) k l).
Proof.
  induction l as [|p l IH]; intros n s k prev ptr Hr Hch Hn Hin; (destruct n as [|n]; [cbn in Hn; lia|]); cbn [tick_list foldl].
  - destruct Hch as (i & c & -> & Hc & _ & Hp & _). exists s. unfold deref, bind, ret, get_tcb. rewrite Hc, Hp. done.
  - destruct Hch as (i & c & -> & Hc & _ & Hp & Hok & Hne & Hpt & Hch). destruct (Hin p) as [t Ht]; [by constructor|].
    destruct (runs_tick_task s k p i t Hr Ht Hpt) as (s1 & E1 & H1 & P1).
    pose proof (keeps_tick_task i s tt s1 E1) as Hk. destruct (Hk i c Hc) as (c1 & Hc1 & _ & En & _).
    destruct (IH n s1 (tick_at p k) (TcbAt i) (OSTCBNext c1)) as (s' & E' & H' & P'); [done| | | |].
    { rewrite En. by apply (tcb_chain_kept s). }
    { cbn in Hn. lia. }
    { intros q Hq. apply tick_at_tasks, Hin. by constructor. }
    exists s'. split; [|by rewrite P', P1]. unfold deref, bind, ret, get_tcb. rewrite Hc, Hp.
    rewrite (proj2 (Z.eqb_neq _ _)) by done. by rewrite E1, Hc1.
Qed.

(** What the ticks of the tasks [l] do. *)
Lemma fold_tick : forall l k, NoDup l ->
  let k' := foldl (fun k p => tick_at p k) k l in
  (forall q, a_tasks k' !! q = (if bool_decide (q ∈ l) then tick1 else id) <$> a_tasks k !! q) /\
  (forall q, q ∈ a_ready k' <-> q ∈ a_ready k \/ exists t, q ∈ l /\ a_tasks k !! q = Some t /\ woken t = true) /\
  k' = set_ready (a_ready k') (set_tasks (a_tasks k') k).
Proof.
  induction l as [|p l IH]; intros k Hnd k'.
  - split; [intros q; cbn; rewrite bool_decide_eq_false_2 by set_solver; by destruct (a_tasks k !! q)|].
    split; [set_solver|]. by destruct k.
  - apply NoDup_cons in Hnd as [Hp Hnd]. destruct (IH (tick_at p k) Hnd) as (L & R & E). cbn [foldl] in k'. fold k' in L, R, E.
    assert (Lp : forall q, q <> p -> a_tasks (tick_at p k) !! q = a_tasks k !! q).
    { intros q Hq. unfold tick_at. destruct (a_tasks k !! p) as [t|]; [|done].
      destruct (woken t); cbn; by rewrite lookup_insert_ne. }
    split; [|split].
    + intros q. rewrite L. destruct (decide (q = p)) as [->|Hq].
      * rewrite bool_decide_eq_false_2 by done. rewrite bool_decide_eq_true_2 by constructor.
        unfold tick_at. destruct (a_tasks k !! p) as [t|] eqn:Et; [|by rewrite Et].
        destruct (woken t); cbn; by rewrite lookup_insert_eq.
      * rewrite Lp by done. f_equal. apply (f_equal (fun b : bool => if b then tick1 else id)).
        apply bool_decide_ext. set_solver.
    + intros q. rewrite R. setoid_rewrite elem_of_cons. unfold tick_at at 1.
      assert (Hq : (exists t, q ∈ l /\ a_tasks (tick_at p k) !! q = Some t /\ woken t = true) <->
                   (exists t, q ∈ l /\ a_tasks k !! q = Some t /\ woken t = true)).
      { destruct (decide (q = p)) as [->|]; [naive_solver|]. by rewrite Lp. }
      rewrite Hq. clear Hq. split.
      * intros [Hx|(u & Hu & Hw)]; [|right; exists u; tauto].
        destruct (a_tasks k !! p) as [t|] eqn:Et; [|by left]. destruct (woken t) eqn:Ew; cbn in Hx; [|by left].
        rewrite elem_of_union, elem_of_singleton in Hx. destruct Hx as [->|Hx]; [|by left]. right. exists t. tauto.
      * intros [Hx|(u & [->|Hu] & Et & Ew)]; [left|left|right; by exists u].
        -- destruct (a_tasks k !! p) as [t|]; [|done]. destruct (woken t); [|done]. cbn. set_solver.
        -- rewrite Et, Ew. cbn. set_solver.
    + rewrite E. unfold tick_at. destruct (a_tasks k !! p) as [t|]; [|done]. by destruct (woken t).
Qed.

Lemma fold_tick_all k l : kcore k -> NoDup l ->
  (forall p, p ∈ l <-> p <> OS_TASK_IDLE_PRIO /\ is_Some (a_tasks k !! p)) ->
  foldl (fun k p => tick_at p k) k l = a_tick k.
Proof.
  intros C Hnd Hin. destruct (fold_tick l k Hnd) as (L & R & E). rewrite E. unfold a_tick. f_equal; [|f_equal].
  - apply set_eq. intros q. rewrite R, elem_of_union, elem_dom_filter. cbn. split; [naive_solver|].
    intros [H|(t & Ht & Hw)]; [by left|right]. exists t. split; [|done]. apply Hin. split; [|by rewrite Ht].
    intros ->. rewrite (kc_idle k C) in Ht. by simplify_eq.
  - apply map_eq. intros q. rewrite L, lookup_fmap. destruct (a_tasks k !! q) as [t|] eqn:Et; [|done]. cbn.
    destruct (bool_decide_reflect (q ∈ l)) as [|Hq]; [done|]. destruct (decide (q = OS_TASK_IDLE_PRIO)) as [->|].
    + rewrite (kc_idle k C) in Et. by simplify_eq.
    + destruct Hq. apply Hin. split; [done|]. by rewrite Et.
Qed.

Lemma repr_os_time s k x : repr s k -> repr (set_os_time x s) k.
Proof. intros Hr. repr_lists s k. by destruct (rp_core _ _ Hr). Qed.

Lemma runs_tick s k : repr s k -> kcore k -> runs OSTimeTick s tt (a_tick k).
Proof.
  intros Hr C. unfold OSTimeTick. eapply runs_bind.
  { apply runs_modify; [by apply repr_os_time|done]. }
  intros s1 H1 _. apply runs_gets. rewrite (rp_run _ _ (rp_core _ _ H1)). cbn [negb].
  eapply (runs_bind _ _ s1 true k).
  { unfold tick_step_state. apply runs_gets. rewrite (rp_step _ _ (rp_core _ _ H1)). by apply runs_ret. }
  intros s2 H2 _. cbn [negb]. apply runs_gets. destruct (rp_lists _ _ H2) as (l & lf & []).
  rewrite <- (fold_tick_all k l C li_nodup li_in). eapply runs_tick_list; [done..| |].
  - lia.
  - intros p Hp. by apply li_in.
Qed.
