(* ===== verification/KernelWakeOps.v ===== *)
(** * KernelWakeOps

    The calls that wake every waiting task, and the creation and deletion of semaphores,
    implement their specifications. *)

From stdpp Require Import gmap.
From S2P Require Import Prelude PrioSet KernelData Kernel KernelSem KernelSpec KernelInv KernelLife KernelRefine KernelOps KernelSemOps KernelTickOps.

(** ** Waking everybody *)

(** Two abstract states with the same fields. *)
Lemma ak_eq k k' : a_ready k = a_ready k' -> a_tasks k = a_tasks k' -> a_sems k = a_sems k' -> a_cur k = a_cur k' ->
  a_int k = a_int k' -> a_lock k = a_lock k' -> a_free_ev k = a_free_ev k' -> a_free_tcb k = a_free_tcb k' -> k = k'.
Proof. destruct k, k'. cbn. congruence. Qed.

Lemma wake_all_empty e r k v : a_sems k !! e = Some v -> sm_wait v = ∅ -> a_wake_all e r k = k.
Proof.
  intros Ev Hw. unfold a_wake_all. rewrite Ev, Hw. apply ak_eq; try done; cbn.
  - apply set_eq. intros q. rewrite elem_of_union, elem_dom_filter. cbn. set_solver.
  - apply map_eq. intros q. rewrite map_lookup_imap. by destruct (a_tasks k !! q).
  - rewrite <- Hw. apply insert_id. rewrite Ev. by destruct v.
Qed.

(** The first task wakes, then the others. *)
Lemma wake_all_step e r k v p t : a_sems k !! e = Some v -> least (sm_wait v) = Some p -> a_tasks k !! p = Some t ->
  a_wake_all e r k = a_wake_all e r (a_wake e r k).
Proof.
  intros Ev El Et. pose proof (least_spec (sm_wait v)) as H. rewrite El in H. destruct H as [Hp _].
  set (v1 := mkSem (sm_type v) (sm_cnt v) (sm_wait v ∖ {[p]})).
  assert (Ev1 : a_sems (a_wake e r k) !! e = Some v1).
  { unfold a_wake. rewrite Ev, El, Et. apply lookup_insert_eq. }
  unfold a_wake_all. rewrite Ev, Ev1. unfold a_wake. rewrite Ev, El, Et. fold v1.
  assert (HT : map_imap (fun q t => Some (if decide (q ∈ sm_wait v) then woken_by r t else t)) (a_tasks k) =
    map_imap (fun q t => Some (if decide (q ∈ sm_wait v1) then woken_by r t else t)) (<[p := woken_by r t]> (a_tasks k))).
  { apply map_eq. intros q. rewrite !map_lookup_imap. cbn. destruct (decide (q = p)) as [->|Hq].
    - rewrite lookup_insert_eq, Et. cbn. rewrite decide_True by done. by rewrite decide_False by set_solver.
    - rewrite lookup_insert_ne by done. destruct (a_tasks k !! q); [|done]. cbn. f_equal.
      destruct (decide (q ∈ sm_wait v)); [rewrite decide_True by set_solver|rewrite decide_False by set_solver]; done. }
  assert (HR : forall q, q ∈ dom (filter (fun pt : Z * Task => pt.1 ∈ sm_wait v /\ tk_susp pt.2 = false) (a_tasks k)) <->
    (q = p /\ tk_susp t = false) \/
    q ∈ dom (filter (fun pt : Z * Task => pt.1 ∈ sm_wait v1 /\ tk_susp pt.2 = false) (<[p := woken_by r t]> (a_tasks k)))).
  { intros q. rewrite !elem_dom_filter. cbn. destruct (decide (q = p)) as [->|Hq].
    - split; [intros (u & Hu & _ & Hs); left; assert (u = t) as -> by congruence; done|].
      intros [[_ Hs]|(u & _ & Hin & _)]; [by exists t|set_solver].
    - rewrite lookup_insert_ne by done. split.
      + intros (u & Hu & Hin & Hs). right. exists u. split; [done|]. split; [set_solver|done].
      + intros [[? _]|(u & Hu & Hin & Hs)]; [done|]. exists u. split; [done|]. split; [set_solver|done]. }
  apply ak_eq; try by destruct (tk_susp t).
  - apply set_eq. intros q. cbn. destruct (tk_susp t); cbn; rewrite !elem_of_union, HR; [|rewrite elem_of_singleton]; clear;
      split; intros; destruct_or?; naive_solver.
  - cbn. destruct (tk_susp t); cbn; by rewrite insert_insert_eq.
Qed.

Lemma runs_ready_all e r : r <> PendTimeout -> forall n s k v nbr, repr s k -> kcore k -> a_sems k !! e = Some v ->
  (size (sm_wait v) <= n)%nat -> 0 <= nbr -> nbr + Z.of_nat (size (sm_wait v)) < 256 ->
  runs (ready_all n e (result_of r) nbr) s (nbr + Z.of_nat (size (sm_wait v))) (a_wake_all e r k).
Proof.
  intros Hrt. induction n as [|n IH]; intros s k v nbr Hr C Ev Hn H0 Hu; cbn [ready_all];
    apply (runs_get_event s k e v); try done; intros w Hw; rewrite (grp_empty _ _ Hw);
    (destruct (bool_decide_reflect (sm_wait v = ∅)) as [He|He];
      [rewrite (wake_all_empty e r k v) by done; rewrite He, size_empty, Z.add_0_r; by apply runs_ret|]).
  - destruct He. apply leibniz_equiv, size_empty_inv. lia.
  - destruct (wait_least k e v C Ev He) as (p & t & El & Et & _).
    pose proof (least_spec (sm_wait v)) as Hl. rewrite El in Hl. destruct Hl as [Hp _].
    set (v1 := mkSem (sm_type v) (sm_cnt v) (sm_wait v ∖ {[p]})).
    assert (Ev1 : a_sems (a_wake e r k) !! e = Some v1).
    { unfold a_wake. rewrite Ev, El, Et. apply lookup_insert_eq. }
    assert (Hs : size (sm_wait v) = S (size (sm_wait v1))).
    { cbn. rewrite (size_difference (sm_wait v) {[p]}) by set_solver. rewrite size_singleton.
      assert (size (sm_wait v) <> 0)%nat; [|lia]. intros E. apply size_empty_inv in E. set_solver. }
    eapply runs_bind; [by apply (runs_wake s k e v p t r)|]. intros s1 H1 _.
    rewrite (wake_all_step e r k v p t) by done.
    replace (nbr + Z.of_nat (size (sm_wait v))) with (nbr + 1 + Z.of_nat (size (sm_wait v1))) by lia.
    rewrite u8_small by word_lia. apply IH; try done; [by apply core_wake|lia..].
Qed.

(** A wait list holds priorities. *)
Lemma wait_size k e v : kcore k -> a_sems k !! e = Some v -> (size (sm_wait v) <= N_PRIO)%nat.
Proof.
  intros C Ev. assert (Hs : sm_wait v ⊆ list_to_set (seqZ 0 21)).
  { intros p Hp. apply (kc_wait k C e v p Ev) in Hp as (t & Ht & _). apply elem_of_list_to_set, elem_of_seqZ.
    destruct (kc_task k C p t Ht) as [Hok _]. unfold prio_ok, OS_LOWEST_PRIO in Hok. lia. }
  apply subseteq_size in Hs. etransitivity; [exact Hs|]. apply Nat.eq_le_incl. by vm_compute.
Qed.

Lemma runs_abort s k e v opt : repr s k -> kcore k -> a_sems k !! e = Some v ->
  kcore (a_abort e opt k).2 -> runs (OSSemPendAbort (Some e) opt) s (a_abort e opt k).1 (a_abort e opt k).2.
Proof.
  intros Hr C Ev. unfold OSSemPendAbort, a_abort. rewrite Ev. intros HC. apply (runs_get_event s k e v); [done..|].
  intros w Hw. rewrite (sr_type _ _ Hw), (grp_empty _ _ Hw). destruct (negb (_ =? _)); [by apply runs_ret|].
  destruct (bool_decide_reflect (sm_wait v = ∅)) as [He|He]; [by apply runs_ret|].
  destruct (opt =? OS_PEND_OPT_BROADCAST); cbn [fst snd] in *; apply core_unsched in HC.
  - pose proof (wait_size k e v C Ev). change N_PRIO with 21%nat in *. eapply runs_bind.
    + apply (runs_ready_all e PendAborted ltac:(done) N_PRIO s k v 0); try done; change N_PRIO with 21%nat; lia.
    + intros s1 H1 _. eapply runs_bind; [by apply runs_sched|]. intros s2 H2 _. by apply runs_ret.
  - destruct (wait_least k e v C Ev He) as (p & t & El & Et & _). eapply runs_bind.
    + eapply runs_bind; [by apply (runs_wake s k e v p t PendAborted)|]. intros s1 H1 _. by apply runs_ret.
    + intros s1 H1 _. eapply runs_bind; [by apply runs_sched|]. intros s2 H2 _. by apply runs_ret.
Qed.

(** ** Creation and deletion of semaphores *)

Lemma ev_chain_insert s s' e v : event_tbl s' = <[e := v]> (event_tbl s) -> forall l ptr, e ∉ l ->
  ev_chain s ptr l -> ev_chain s' ptr l.
Proof.
  intros E. induction l as [|e' l IH]; intros ptr Hin; cbn [ev_chain]; [done|]. intros (-> & u & Hu & Hp & Hl).
  apply not_elem_of_cons in Hin as [Hne Hin]. split; [done|]. exists u. rewrite E, list_lookup_insert_ne by done.
  split; [done|]. split; [done|]. by apply IH.
Qed.

(** The event [e] becomes [v], in a state whose semaphores may gain or lose [e]. *)
Lemma repr_event s k e v x l sems : repr s k -> (e < N_EVENT)%nat -> ps_wf (OSEventWait v) ->
  (forall e' a, sems !! e' = Some a -> e' = e /\ sem_repr v a \/ e' <> e /\ a_sems k !! e' = Some a) ->
  ev_chain (set_event_free x (set_event_tbl (<[e := v]> (event_tbl s)) s)) x l ->
  repr (set_event_free x (set_event_tbl (<[e := v]> (event_tbl s)) s)) (set_free_ev l (set_sems sems k)).
Proof.
  intros [R0 (lt & lf & Hl) _] He Hwf Hs Hch. pose proof R0 as [H1 H2 H3 H4 H5 H6 H7 H8 H9 H10 [H11 H12]].
  assert (Hlen : (e < length (event_tbl s))%nat) by (by rewrite H11).
  constructor; [constructor; try done| |done].
  - intros e' a Ha. cbn. destruct (Hs e' a Ha) as [[-> Hrep]|[Hne Ha']].
    + exists v. by rewrite list_lookup_insert_eq.
    + rewrite list_lookup_insert_ne by done. by apply H5.
  - cbn. rewrite length_insert. split; [done|]. by apply Forall_insert.
  - exists lt, lf. apply (lists_kept s _ k); try done. by apply links_kept_refl.
Qed.

Lemma ps_empty_repr : ps_repr ps_empty ∅.
Proof.
  assert (Hn : forall y, nth (Z.to_nat y) (ps_tbl ps_empty) 0 = 0).
  { intros y. cbn. by destruct (Z.to_nat y) as [|[|[|[]]]]. }
  constructor; [constructor; try done| |set_solver].
  - repeat constructor; word_lia.
  - intros y Hy. rewrite Hn. apply Z.bits_0.
  - intros p Hp. unfold ps_mem. rewrite Hn, Z.bits_0. by rewrite bool_decide_eq_false_2 by set_solver.
Qed.

Lemma runs_sem_create s k cnt : repr s k -> kcore k -> is_u16 cnt ->
  runs (OSSemCreate cnt) s (a_sem_create cnt k).1 (a_sem_create cnt k).2.
Proof.
  intros Hr C Hc. unfold OSSemCreate, a_sem_create. pose proof (rp_core _ _ Hr) as R0. apply runs_gets.
  rewrite (proj1 (rp_int _ _ R0)). destruct (0 <? a_int k); [by apply runs_ret|]. apply runs_gets.
  pose proof (rp_free _ _ Hr) as Hch. destruct (kc_free k C) as [Hnd Hlt].
  destruct (a_free_ev k) as [|e l] eqn:El; cbn [ev_chain] in Hch; destruct Hch as [-> Hch]; [by apply runs_ret|].
  destruct Hch as (v & Hv & Hp & Hch). apply NoDup_cons in Hnd as [Hin Hnd].
  assert (Hlen : (e < length (event_tbl s))%nat) by (by eapply lookup_lt_Some).
  set (v' := set_OSEventWait ps_empty (set_OSEventPtr PtrNull (set_OSEventCnt cnt (set_OSEventType OS_EVENT_TYPE_SEM v)))).
  exists (set_event_free (head l) (set_event_tbl (<[e := v']> (event_tbl s)) s)). cbn [head fst snd]. split; [|split; [|done]].
  - unfold bind, get_event. rewrite Hv. cbn. rewrite Hp. assert (E : free_link (match head l with
      | Some e' => PtrEvent e' | None => PtrNull end) s = Some (head l, s)) by (by destruct (head l)).
    rewrite E. unfold modify, upd_event, OS_EventWaitListInit, upd_event. cbn. rewrite Hv. cbn.
    rewrite list_lookup_insert_eq by done. cbn. by rewrite list_insert_insert_eq.
  - change (a_ev e (mkSem OS_EVENT_TYPE_SEM cnt ∅) (set_free_ev l k))
      with (set_free_ev l (set_sems (<[e := mkSem OS_EVENT_TYPE_SEM cnt ∅]> (a_sems k)) k)).
    apply (repr_event s k e v' (head l) l (<[e := mkSem OS_EVENT_TYPE_SEM cnt ∅]> (a_sems k))); try done.
    + apply Hlt. constructor.
    + apply (pr_wf _ _ ps_empty_repr).
    + intros e' a. destruct (decide (e' = e)) as [->|]; [rewrite lookup_insert_eq|rewrite lookup_insert_ne by done; by right].
      intros [= <-]. left. split; [done|]. constructor; try done. apply ps_empty_repr.
    + by apply (ev_chain_insert s _ e v').
Qed.

Lemma runs_free_sem s k e v : repr s k -> kcore k -> a_sems k !! e = Some v -> runs (free_sem e) s tt (a_free e k).
Proof.
  intros Hr C Ev. destruct (rp_sem _ _ (rp_core _ _ Hr) e v Ev) as (w & Hw & Hsr).
  destruct (kc_sem k C e) as [Hlt Hin]; [by rewrite Ev|].
  assert (Hlen : (e < length (event_tbl s))%nat) by (by eapply lookup_lt_Some).
  set (f := event_free s). set (w' := set_OSEventCnt 0 (set_OSEventPtr (match f with None => PtrNull | Some i => PtrEvent i end)
      (set_OSEventType OS_EVENT_TYPE_UNUSED w))).
  exists (set_event_free (Some e) (set_event_tbl (<[e := w']> (event_tbl s)) s)). split; [|split; [|done]].
  - unfold free_sem, bind, gets, upd_event, modify. by rewrite Hw.
  - pose proof (rp_free _ _ Hr) as Hch. apply repr_event; try done.
    + apply (pr_wf _ _ (sr_wait _ _ Hsr)).
    + intros e' a. rewrite lookup_delete_Some. intros [Hne Ha]. right. auto.
    + cbn [ev_chain head]. split; [done|]. exists w'. cbn. rewrite list_lookup_insert_eq by done. split; [done|].
      assert (Ef : f = head (a_free_ev k)) by (by destruct (a_free_ev k), Hch).
      split; [by rewrite <- Ef|]. rewrite <- Ef. by apply (ev_chain_insert s _ e w').
Qed.

Lemma runs_sem_del s k e v opt : repr s k -> kcore k -> a_sems k !! e = Some v ->
  kcore (a_sem_del e opt k).2 -> runs (OSSemDel (Some e) opt) s (a_sem_del e opt k).1 (a_sem_del e opt k).2.
Proof.
  intros Hr C Ev. unfold OSSemDel, a_sem_del. rewrite Ev. intros HC. apply (runs_get_event s k e v); [done..|].
  intros w Hw. rewrite (sr_type _ _ Hw). destruct (negb (_ =? _)); [by apply runs_ret|]. apply runs_gets.
  rewrite (proj1 (rp_int _ _ (rp_core _ _ Hr))). destruct (0 <? a_int k); [by apply runs_ret|]. rewrite (grp_empty _ _ Hw).
  destruct (opt =? OS_DEL_NO_PEND).
  - destruct (bool_decide (sm_wait v = ∅)); cbn [negb]; [|by apply runs_ret].
    eapply runs_bind; [by eapply runs_free_sem|]. intros s1 H1 _. by apply runs_ret.
  - destruct (opt =? OS_DEL_ALWAYS); [|by apply runs_ret]. cbn [fst snd] in *.
    pose proof (wait_size k e v C Ev). change N_PRIO with 21%nat in *. eapply runs_bind.
    + apply (runs_ready_all e PendOk ltac:(done) N_PRIO s k v 0); try done; change N_PRIO with 21%nat; lia.
    + intros s1 H1 _. assert (Ev1 : a_sems (a_wake_all e PendOk k) !! e = Some (mkSem (sm_type v) (sm_cnt v) ∅)).
      { unfold a_wake_all. rewrite Ev. apply lookup_insert_eq. }
      eapply runs_bind; [eapply runs_free_sem; [done|by apply core_wake_all|done]|]. intros s2 H2 _.
      destruct (bool_decide_reflect (sm_wait v = ∅)) as [He|He]; cbn [negb].
      * rewrite (wake_all_empty e PendOk k v Ev He) in H2. eapply runs_bind; [by apply runs_ret|]. intros s3 H3 _. by apply runs_ret.
      * apply core_unsched in HC. eapply runs_bind; [by apply runs_sched|]. intros s3 H3 _. by apply runs_ret.
Qed.
