(* ===== verification/KernelTaskOps.v ===== *)
(** * KernelTaskOps

    The creation and deletion of tasks, which move a block between the free list and the
    doubly linked list of the tasks, implement their specifications. *)

From stdpp Require Import gmap.
From S2P Require Import Prelude PrioSet KernelData Kernel KernelSem KernelSpec KernelInv KernelLife KernelRefine KernelOps KernelSemOps KernelWakeOps.

(** [m] returns [a] in a state that represents [k]; the table of priorities may change. *)
Definition does {A} (m : M A) (s : OS) (a : A) (k : AK) : Prop :=
  exists s', m s = Some (a, s') /\ repr s' k.

Lemma runs_does {A} (m : M A) s a k : runs m s a k -> does m s a k.
Proof. intros (s' & E & H & _). by exists s'. Qed.

Lemma does_bind {A B} (m : M A) (f : A -> M B) s a k b k' : does m s a k ->
  (forall s1, repr s1 k -> does (f a) s1 b k') -> does (bind m f) s b k'.
Proof.
  intros (s1 & E & H1) Hf. destruct (Hf s1 H1) as (s2 & E2 & H2). exists s2. by rewrite (bind_eq _ _ _ _ _ E).
Qed.

(** ** Creation *)

(** The block of the first task, or of the idle task. *)
Lemma chain_head s prev ptr l : tcb_chain s prev ptr l -> exists j d q, ptr = TcbAt j /\ tcb_tbl s !! j = Some d /\
  OSTCBPrio d = q /\ prio_tbl s !! Z.to_nat q = Some (TcbAt j).
Proof.
  destruct l as [|p l]; cbn [tcb_chain].
  - intros (i & c & -> & Hc & _ & Hp & Ht). exists i, c, OS_TASK_IDLE_PRIO. done.
  - intros (i & c & -> & Hc & _ & Hp & _ & _ & Ht & _). exists i, c, p. done.
Qed.

(** A list that starts with [ptr] and whose blocks [s'] has, but for the link to the
    previous one in the first. *)
Lemma chain_prev s s' prev prev' j d l : tcb_chain s prev (TcbAt j) l -> tcb_tbl s !! j = Some d -> NoDup l ->
  OS_TASK_IDLE_PRIO ∉ l ->
  tcb_tbl s' !! j = Some (set_OSTCBPrev prev' d) ->
  (forall q x, prio_tbl s !! Z.to_nat q = Some (TcbAt x) -> q ∈ l \/ q = OS_TASK_IDLE_PRIO -> prio_tbl s' !! Z.to_nat q = Some (TcbAt x)) ->
  (forall q x c, prio_tbl s !! Z.to_nat q = Some (TcbAt x) -> tcb_tbl s !! x = Some c -> x <> j -> tcb_tbl s' !! x = Some c) ->
  tcb_chain s' prev' (TcbAt j) l.
Proof.
  intros Hch Hd Hnd Hid Hj Hp Ht.
  assert (Hrest : forall l pr ptr, tcb_chain s pr ptr l -> OSTCBPrio d ∉ l -> OSTCBPrio d <> OS_TASK_IDLE_PRIO ->
    (forall q x, prio_tbl s !! Z.to_nat q = Some (TcbAt x) -> q ∈ l \/ q = OS_TASK_IDLE_PRIO -> prio_tbl s' !! Z.to_nat q = Some (TcbAt x)) ->
    tcb_chain s' pr ptr l).
  { clear Hch Hnd Hid Hp l. induction l as [|p l IH]; intros pr ptr Hch Hnin Hnid Hp; cbn [tcb_chain] in *.
    - destruct Hch as (i & c & -> & Hc & E1 & E2 & E3). exists i, c. split; [done|]. split.
      { apply (Ht _ i c E3 Hc). intros ->. congruence. }
      split; [done|]. split; [done|]. apply Hp; [done|by right].
    - destruct Hch as (i & c & -> & Hc & E1 & E2 & E3 & E4 & E5 & Hch). apply not_elem_of_cons in Hnin as [Hn1 Hn2].
      exists i, c. split; [done|]. split; [apply (Ht _ i c E5 Hc); intros ->; congruence|]. do 4 (split; [done|]).
      split; [apply Hp; [done|left; constructor]|]. apply IH; try done.
      intros q x Hq [Hq'|Hq']; apply Hp; auto. left. by constructor. }
  destruct l as [|p l]; cbn [tcb_chain] in *.
  - destruct Hch as (i & c & [= <-] & Hc & E1 & E2 & E3). assert (c = d) as -> by congruence.
    exists j, (set_OSTCBPrev prev' d). split; [done|]. split; [done|]. split; [done|]. split; [done|].
    apply Hp; [done|by right].
  - destruct Hch as (i & c & [= <-] & Hc & E1 & E2 & E3 & E4 & E5 & Hch). assert (c = d) as -> by congruence.
    apply NoDup_cons in Hnd as [Hn1 Hn2]. apply not_elem_of_cons in Hid as [_ Hid].
    exists j, (set_OSTCBPrev prev' d). split; [done|]. do 5 (split; [done|]).
    split; [apply Hp; [done|left; constructor]|]. apply Hrest; try done; [congruence..|].
    intros q x Hq [Hq'|Hq']; apply Hp; auto. left. by constructor.
Qed.

Lemma free_chain_ext s s' : forall l ptr, (forall i c, i ∈ l -> tcb_tbl s !! i = Some c -> tcb_tbl s' !! i = Some c) ->
  free_chain s ptr l -> free_chain s' ptr l.
Proof.
  induction l as [|i l IH]; intros ptr Ht; cbn [free_chain]; [done|]. intros (-> & c & Hc & Hl). split; [done|].
  exists c. split; [apply Ht; [constructor|done]|]. apply IH; [|done]. intros j d Hj. apply Ht. by constructor.
Qed.

(** The state after OS_TCBInit took the block [i], whose free successor is [nx], for the
    task [prio], in front of the block [j]. *)
Definition created (prio : Z) (i j : nat) (c d : TCB) (nx : TcbPtr) (r : PrioSet) (s : OS) : OS :=
  set_task_ctr (u8 (task_ctr s + 1)) (set_rdy r (set_tcb_list (TcbAt i) (set_tcb_free nx
    (set_prio_tbl (<[Z.to_nat prio := TcbAt i]> (prio_tbl s))
      (set_tcb_tbl (<[j := set_OSTCBPrev (TcbAt i) d]> (<[i := c]> (tcb_tbl s))) s))))).

Lemma new_tcb_repr prio c nx pv id pbos sz ext opt : prio_ok prio ->
  tcb_repr prio (set_OSTCBPrev pv (set_OSTCBNext nx (init_TCB prio id pbos sz ext opt c))) new_task.
Proof. intros Hp. constructor; try done. Qed.

Lemma repr_created s k prio i j c d lf r n :
  repr s k -> is_Some (a_tasks k !! a_cur k) -> prio_ok prio -> a_tasks k !! prio = None -> prio <> OS_TASK_IDLE_PRIO ->
  tcb_repr prio c new_task -> OSTCBPrev c = TcbNull -> OSTCBNext c = TcbAt j ->
  (exists l, lists s k l (i :: lf)) -> a_free_tcb k = S n ->
  tcb_list s = TcbAt j -> tcb_tbl s !! j = Some d ->
  ps_repr r ({[prio]} ∪ a_ready k) ->
  forall nx, (exists c0, tcb_tbl s !! i = Some c0 /\ OSTCBNext c0 = nx) ->
  repr (created prio i j c d nx r s) (set_ready ({[prio]} ∪ a_ready k) (a_put prio new_task (set_free_tcb n k))).
Proof.
  intros Hr Hcur Hok Hnone Hnid Hc Hcp Hcn (l & Hl) Hn Etl Hd Hrr nx (c0 & Hc0 & Enx).
  destruct Hl as [L1 L2 L3 L4 L5 L6 L7 L8]. rewrite Etl in L1. cbn [free_chain] in L4. destruct L4 as (Etf & c1 & Hc1 & L4).
  assert (c1 = c0) as -> by congruence. rewrite Enx in L4. apply NoDup_cons in L5 as [L5 L5'].
  pose proof (rp_core _ _ Hr) as [H1 H2 H3 H4 H5 H6 H7 H8 H9 H10 H11].
  destruct (chain_head _ _ _ _ L1) as (j' & d' & qj & [= <-] & Hd' & Eqj & Hqj). assert (d' = d) as -> by congruence.
  assert (Hij : i <> j).
  { intros <-. apply (L6 i (Z.to_nat qj)); [constructor|done]. }
  assert (Hli : (i < length (tcb_tbl s))%nat) by (by eapply lookup_lt_Some).
  assert (Hlj : (j < length (tcb_tbl s))%nat) by (by eapply lookup_lt_Some).
  assert (Hpl : (Z.to_nat prio < length (prio_tbl s))%nat).
  { rewrite H1. unfold prio_ok, OS_LOWEST_PRIO in Hok. change N_PRIO with 21%nat. lia. }
  pose proof (H4 prio Hok Hnone) as Hfree.
  assert (Hother : forall q x, prio_tbl s !! Z.to_nat q = Some (TcbAt x) ->
    <[Z.to_nat prio := TcbAt i]> (prio_tbl s) !! Z.to_nat q = Some (TcbAt x)).
  { intros q x Hq. rewrite list_lookup_insert_ne; [done|]. intros E. rewrite E in Hfree. congruence. }
  assert (Hsame : forall q x c', prio_tbl s !! Z.to_nat q = Some (TcbAt x) -> tcb_tbl s !! x = Some c' -> x <> j ->
    <[j := set_OSTCBPrev (TcbAt i) d]> (<[i := c]> (tcb_tbl s)) !! x = Some c').
  { intros q x c' Hq Hx Hne. rewrite list_lookup_insert_ne by done. rewrite list_lookup_insert_ne; [done|].
    intros <-. apply (L6 i (Z.to_nat q)); [constructor|done]. }
  assert (Hj : <[j := set_OSTCBPrev (TcbAt i) d]> (<[i := c]> (tcb_tbl s)) !! j = Some (set_OSTCBPrev (TcbAt i) d)).
  { rewrite list_lookup_insert_eq; [done|]. by rewrite length_insert. }
  assert (Hi : <[j := set_OSTCBPrev (TcbAt i) d]> (<[i := c]> (tcb_tbl s)) !! i = Some c).
  { rewrite list_lookup_insert_ne by done. by rewrite list_lookup_insert_eq. }
  assert (Hidl : OS_TASK_IDLE_PRIO ∉ l) by (intros Hx; by apply L3 in Hx as [? _]).
  assert (Hprl : prio ∉ l) by (intros Hx; apply L3 in Hx as [_ [? ?]]; congruence).
  constructor; [constructor; try done| |].
  - cbn. by rewrite length_insert.
  - intros q t Hq. cbn in Hq. destruct (decide (q = prio)) as [->|Hne].
    + rewrite lookup_insert_eq in Hq. injection Hq as <-. split; [done|]. exists i, c. cbn.
      rewrite list_lookup_insert_eq by done. done.
    + rewrite lookup_insert_ne in Hq by done. destruct (H3 q t Hq) as (Hqo & x & cx & Hqx & Hcx & Hrx).
      split; [done|]. exists x. cbn. rewrite (Hother q x Hqx). destruct (decide (x = j)) as [->|Hx].
      * exists (set_OSTCBPrev (TcbAt i) d). split; [done|]. split; [done|]. assert (cx = d) as -> by congruence.
        destruct Hrx. by constructor.
      * exists cx. split; [done|]. split; [by eapply Hsame|done].
  - intros q Hq. cbn. intros Hqn. destruct (decide (q = prio)) as [->|Hne]; [by rewrite lookup_insert_eq in Hqn|].
    rewrite lookup_insert_ne in Hqn by done. rewrite list_lookup_insert_ne; [by apply H4|].
    unfold prio_ok in *. lia.
  - destruct H6 as [E1 E2]. split; [done|]. cbn. intros _. specialize (E2 Hcur).
    rewrite list_lookup_insert_ne; [done|]. intros E. rewrite E in Hfree.
    destruct Hcur as [t Ht]. destruct (repr_at s k _ t Hr Ht) as (_ & x & Hx). unfold at_ in Hx. congruence.
  - exists (prio :: l), lf. constructor; cbn [prio_tbl tcb_list tcb_free created set_task_ctr set_rdy set_tcb_list
      set_tcb_free set_prio_tbl set_tcb_tbl a_tasks a_free_tcb set_ready a_put set_free_tcb set_tasks]; try done.
    + cbn [tcb_chain]. exists i, c. split; [done|]. split; [done|]. split; [done|]. split; [apply Hc|].
      split; [done|]. split; [done|]. split; [cbn; by rewrite list_lookup_insert_eq|]. rewrite Hcn.
      apply (chain_prev s _ TcbNull (TcbAt i) j d l); try done. intros q x Hq _. by apply Hother.
    + by constructor.
    + intros q. rewrite elem_of_cons, L3. destruct (decide (q = prio)) as [->|]; [rewrite lookup_insert_eq; naive_solver|].
      rewrite lookup_insert_ne by done. naive_solver.
    + apply (free_chain_ext s); [|done]. intros x cx Hx Hcx. cbn. rewrite !list_lookup_insert_ne; [done| |].
      * intros ->. done.
      * intros ->. apply (L6 x (Z.to_nat qj)); [by constructor|done].
    + intros x q Hx. destruct (decide (q = Z.to_nat prio)) as [->|].
      * rewrite list_lookup_insert_eq by done. intros [= ->]. done.
      * rewrite list_lookup_insert_ne by done. apply L6. by constructor.
    + cbn [length] in L7. lia.
    + cbn [length] in *. lia.
  - apply (ev_chain_kept s); [|apply (rp_free _ _ Hr)]. intros e v Hv. by exists v.
Qed.

(** OS_TCBInit with a free block, on a state where the entry of [prio] is reserved. *)
Lemma tcbinit_eq s prio pbos id sz ext opt i j c0 d r : tcb_free s = TcbAt i -> tcb_tbl s !! i = Some c0 ->
  tcb_list s = TcbAt j -> tcb_tbl s !! j = Some d -> i <> j -> (Z.to_nat prio < length (prio_tbl s))%nat ->
  ps_insert (prio_y prio) (prio_bitx prio) (prio_bity prio) (rdy s) = Some r ->
  let c := set_OSTCBPrev TcbNull (set_OSTCBNext (TcbAt j) (init_TCB prio id pbos sz ext opt c0)) in
  OS_TCBInit prio pbos id sz ext opt (set_prio_tbl (<[Z.to_nat prio := TcbReserved]> (prio_tbl s)) s) =
  Some (OS_ERR_NONE, created prio i j c d (OSTCBNext c0) r s).
Proof.
  intros Ef Hi El Hj Hij Hp Hr c.
  assert (Hli : (i < length (tcb_tbl s))%nat) by (by eapply lookup_lt_Some).
  unfold OS_TCBInit. rewrite bind_gets. cbn [tcb_free set_prio_tbl]. rewrite Ef. unfold deref. rewrite bind_ret.
  unfold get_tcb at 1, bind at 1. cbn [tcb_tbl set_prio_tbl]. rewrite Hi. rewrite bind_modify.
  unfold upd_tcb at 1, bind at 1. cbn [tcb_tbl set_tcb_free set_prio_tbl]. rewrite Hi.
  unfold put_prio, bind at 1. cbn [prio_tbl set_tcb_tbl set_tcb_free set_prio_tbl]. rewrite length_insert.
  rewrite (proj2 (Nat.ltb_lt _ _)) by done. rewrite bind_gets.
  unfold upd_tcb at 1, bind at 1. cbn [tcb_tbl tcb_list set_prio_tbl set_tcb_tbl set_tcb_free].
  rewrite list_lookup_insert_eq by done. cbn [tcb_list set_tcb_tbl set_prio_tbl]. rewrite El.
  cbv beta iota. rewrite list_insert_insert_eq. fold c.
  unfold upd_tcb at 1, bind at 1. unfold ret at 1, bind at 1. cbn [tcb_tbl set_tcb_tbl].
  rewrite list_lookup_insert_ne, Hj by done. rewrite bind_modify.
  unfold get_tcb, bind at 1. cbn [tcb_tbl set_tcb_tbl set_tcb_list]. rewrite list_lookup_insert_ne by done.
  rewrite list_lookup_insert_eq by done. unfold rdy_insert, upd_rdy, bind at 1.
  cbn [rdy set_tcb_list set_tcb_tbl set_prio_tbl set_tcb_free]. change (OSTCBY c) with (prio_y prio).
  change (OSTCBBitX c) with (prio_bitx prio). change (OSTCBBitY c) with (prio_bity prio). rewrite Hr.
  rewrite bind_modify. unfold ret, created. by rewrite list_insert_insert_eq.
Qed.

Lemma put_back s prio : prio_tbl s !! Z.to_nat prio = Some TcbNull ->
  set_prio_tbl (<[Z.to_nat prio := TcbNull]> (<[Z.to_nat prio := TcbReserved]> (prio_tbl s)))
    (set_prio_tbl (<[Z.to_nat prio := TcbReserved]> (prio_tbl s)) s) = s.
Proof. intros H. rewrite list_insert_insert_eq, list_insert_id by done. by destruct s. Qed.

Lemma does_task_create s k prio id pbos sz ext opt : repr s k -> kinv k -> 0 <= prio ->
  kcore (a_task_create prio k).2 ->
  does (OSTaskCreateExt prio id pbos sz ext opt) s (a_task_create prio k).1 (a_task_create prio k).2.
Proof.
  intros Hr HI H0. pose proof (ki_core k HI) as C. unfold OSTaskCreateExt, a_task_create.
  destruct (Z.ltb_spec OS_LOWEST_PRIO prio); [intros; by apply runs_does, runs_ret|]. intros HC.
  unfold does. rewrite bind_gets, (proj1 (rp_int _ _ (rp_core _ _ Hr))).
  destruct (0 <? a_int k); [by exists s|]. assert (Hok : prio_ok prio) by (unfold prio_ok; lia).
  pose proof (rp_core _ _ Hr) as R0.
  assert (Hpl : (Z.to_nat prio < length (prio_tbl s))%nat).
  { rewrite (rp_len _ _ R0). unfold OS_LOWEST_PRIO in *. change N_PRIO with 21%nat. lia. }
  destruct (a_tasks k !! prio) as [t|] eqn:Et.
  { destruct (repr_at s k prio t Hr Et) as (_ & i & Hi). unfold bind, get_prio. rewrite Hi. by exists s. }
  pose proof (rp_none _ _ R0 prio Hok Et) as Hnull. unfold get_prio at 1, bind at 1. rewrite Hnull.
  unfold put_prio at 1, bind at 1. rewrite (proj2 (Nat.ltb_lt _ _)) by done.
  destruct (rp_lists _ _ Hr) as (l & lf & Hl). pose proof Hl as [L1 _ _ L4 _ L6 L7 _].
  destruct lf as [|i lf].
  - cbn [length] in L7. rewrite <- L7 in HC |- *. cbn [free_chain] in L4. exists s. split; [|done].
    unfold OS_TCBInit, bind, gets, ret, put_prio. cbn [tcb_free set_prio_tbl]. rewrite L4.
    cbn [Z.eqb OS_ERR_NONE OS_ERR_TASK_NO_MORE_TCB prio_tbl set_prio_tbl].
    rewrite length_insert, (proj2 (Nat.ltb_lt _ _)) by done. do 2 f_equal. by apply put_back.
  - cbn [length] in L7. rewrite <- L7 in HC |- *. destruct L4 as (Etf & c0 & Hc0 & _).
    destruct (chain_head _ _ _ _ L1) as (j & d & q & Etl & Hd & Eq & Hq).
    destruct (ps_repr_insert prio _ _ (rp_rdy _ _ R0) Hok) as (r & Er & Hrr).
    assert (Hij : i <> j) by (intros <-; apply (L6 i (Z.to_nat q)); [constructor|done]).
    rewrite (bind_eq _ _ _ _ _ (tcbinit_eq s prio pbos id sz ext opt i j c0 d r Etf Hc0 Etl Hd Hij Hpl Er)).
    set (c := set_OSTCBPrev TcbNull (set_OSTCBNext (TcbAt j) (init_TCB prio id pbos sz ext opt c0))).
    assert (H1 : repr (created prio i j c d (OSTCBNext c0) r s)
      (set_ready ({[prio]} ∪ a_ready k) (a_put prio new_task (set_free_tcb (length lf) k)))).
    { apply (repr_created s k prio i j c d lf r (length lf)); try done.
      - by apply ki_cur.
      - intros ->. by rewrite (kc_idle k C) in Et.
      - by exists l.
      - by exists c0. }
    cbn [fst snd] in *. apply core_unsched in HC.
    destruct (runs_sched _ _ H1 HC) as (s2 & E2 & H2 & _). exists s2. split; [|done].
    rewrite (bind_eq _ _ _ tt s2); [done|]. cbn [Z.eqb OS_ERR_NONE].
    change (bind (gets running) (fun r => if r then OS_Sched else ret tt) (created prio i j c d (OSTCBNext c0) r s) = Some (tt, s2)).
    rewrite bind_gets. change (running (created prio i j c d (OSTCBNext c0) r s)) with (running s).
    by rewrite (rp_run _ _ R0).
Qed.

Lemma OSTaskCreate_ext prio : OSTaskCreate prio = OSTaskCreateExt prio 0 0 0 0 0.
Proof. done. Qed.

(** ** Deletion *)

(** The links around the block [i], whose links are [nx] and [pv], skip it. *)
Definition bypass (s s' : OS) (i : nat) (nx pv : TcbPtr) : Prop := forall x c, x <> i -> tcb_tbl s !! x = Some c ->
  exists c', tcb_tbl s' !! x = Some c' /\ OSTCBPrio c' = OSTCBPrio c /\
    (pv <> TcbAt x -> OSTCBNext c' = OSTCBNext c) /\ (pv = TcbAt x -> OSTCBNext c' = nx) /\
    (nx <> TcbAt x -> OSTCBPrev c' = OSTCBPrev c) /\ (nx = TcbAt x -> OSTCBPrev c' = pv).

(** The blocks next to that of [p]. *)
Lemma chain_around s p l2 : forall l1 prev ptr i t, tcb_chain s prev ptr (l1 ++ p :: l2) -> NoDup (l1 ++ p :: l2) ->
  prio_tbl s !! Z.to_nat p = Some (TcbAt i) -> tcb_tbl s !! i = Some t ->
  (exists n c, OSTCBNext t = TcbAt n /\ tcb_tbl s !! n = Some c /\ (OSTCBPrio c ∈ l2 \/ OSTCBPrio c = OS_TASK_IDLE_PRIO) /\
     prio_tbl s !! Z.to_nat (OSTCBPrio c) = Some (TcbAt n)) /\
  match l1 with
  | [] => OSTCBPrev t = prev
  | _ => exists j c, OSTCBPrev t = TcbAt j /\ tcb_tbl s !! j = Some c /\ OSTCBPrio c ∈ l1 /\
     prio_tbl s !! Z.to_nat (OSTCBPrio c) = Some (TcbAt j)
  end.
Proof.
  induction l1 as [|q l1 IH]; intros prev ptr i t Hch Hnd Hi Ht; cbn [app tcb_chain] in Hch;
    destruct Hch as (x & c & -> & Hc & E1 & E2 & E3 & E4 & E5 & Hch).
  - assert (x = i) as -> by congruence. assert (c = t) as -> by congruence. split; [|done].
    destruct l2 as [|q l2]; cbn [tcb_chain] in Hch.
    + destruct Hch as (n & c & -> & Hc' & _ & Hp & Hpt). exists n, c. rewrite Hp. auto.
    + destruct Hch as (n & c & -> & Hc' & _ & Hp & _ & _ & Hpt & _). exists n, c. rewrite Hp.
      do 2 (split; [done|]). split; [left; constructor|done].
  - apply NoDup_cons in Hnd as [_ Hnd]. destruct (IH _ _ i t Hch Hnd Hi Ht) as [Hn Hp]. split; [done|].
    destruct l1 as [|q' l1].
    + exists x, c. rewrite E2. do 2 (split; [done|]). split; [constructor|done].
    + destruct Hp as (j & cj & -> & Hcj & Hin & Hpt). exists j, cj. do 2 (split; [done|]). split; [by constructor|done].
Qed.

(** The entries of the other tasks stay. *)
Definition others (s s' : OS) (p : Z) : Prop := forall q x, q <> p -> prio_ok q ->
  prio_tbl s !! Z.to_nat q = Some (TcbAt x) -> prio_tbl s' !! Z.to_nat q = Some (TcbAt x).

(** A list whose blocks are not next to [i] stays. *)
Lemma chain_far s s' i nx pv p : bypass s s' i nx pv -> others s s' p -> p <> OS_TASK_IDLE_PRIO ->
  (forall c, tcb_tbl s !! i = Some c -> OSTCBPrio c = p) ->
  forall l prev ptr, p ∉ l ->
  (forall x c, tcb_tbl s !! x = Some c -> OSTCBPrio c ∈ l \/ OSTCBPrio c = OS_TASK_IDLE_PRIO ->
     pv <> TcbAt x /\ nx <> TcbAt x) ->
  tcb_chain s prev ptr l -> tcb_chain s' prev ptr l.
Proof.
  intros Hby Hoth Hid Hpi. induction l as [|q l IH]; intros prev ptr Hp Hfar; cbn [tcb_chain].
  - intros (x & c & -> & Hc & E1 & E2 & E3). assert (Hxi : x <> i) by (intros ->; specialize (Hpi c Hc); congruence).
    destruct (Hby x c Hxi Hc) as (c' & Hc' & F1 & F2 & F3 & F4 & F5). destruct (Hfar x c Hc) as [Hpv Hnx]; [by right|].
    exists x, c'. rewrite F1, F4 by done. do 4 (split; [done|]). by apply Hoth.
  - apply not_elem_of_cons in Hp as [Hpq Hp]. intros (x & c & -> & Hc & E1 & E2 & E3 & E4 & E5 & Hch).
    assert (Hxi : x <> i) by (intros ->; specialize (Hpi c Hc); congruence).
    destruct (Hby x c Hxi Hc) as (c' & Hc' & F1 & F2 & F3 & F4 & F5).
    destruct (Hfar x c Hc) as [Hpv Hnx]; [left; rewrite E2; constructor|].
    exists x, c'. rewrite F1, F2, F4 by done. do 6 (split; [done|]). split; [by apply Hoth|].
    apply IH; [done| |done]. intros y d Hd Hin. apply (Hfar y d Hd). destruct Hin; [left; by constructor|by right].
Qed.

(** Unlinking the block [i] of the task [p]. *)
Lemma chain_unlink s s' p i t l2 : bypass s s' i (OSTCBNext t) (OSTCBPrev t) -> others s s' p ->
  prio_tbl s !! Z.to_nat p = Some (TcbAt i) -> tcb_tbl s !! i = Some t -> OSTCBPrio t = p ->
  forall l1 prev ptr, tcb_chain s prev ptr (l1 ++ p :: l2) -> NoDup (l1 ++ p :: l2) ->
  OS_TASK_IDLE_PRIO ∉ l1 ++ p :: l2 ->
  (forall x c, tcb_tbl s !! x = Some c -> prev = TcbAt x ->
     (OSTCBPrio c ∉ l1 ++ p :: l2) /\ OSTCBPrio c <> OS_TASK_IDLE_PRIO) ->
  tcb_chain s' prev (match l1 with [] => OSTCBNext t | _ => ptr end) (l1 ++ l2).
Proof.
  intros Hby Hoth Hi Ht Htp. induction l1 as [|q l1 IH]; intros prev ptr Hch Hnd Hid Hprev.
  - destruct (chain_around s p l2 [] prev ptr i t Hch Hnd Hi Ht) as [_ Epv].
    cbn [app tcb_chain] in *. destruct Hch as (x & c & -> & Hc & E1 & E2 & E3 & E4 & E5 & Hch).
    assert (x = i) as -> by congruence. assert (c = t) as -> by congruence.
    apply NoDup_cons in Hnd as [Hp Hnd]. apply not_elem_of_cons in Hid as [Hidp Hid].
    assert (Hpi : forall c, tcb_tbl s !! i = Some c -> OSTCBPrio c = p) by (intros c Hc'; congruence).
    assert (Hpv : forall x c, tcb_tbl s !! x = Some c -> OSTCBPrio c ∈ l2 \/ OSTCBPrio c = OS_TASK_IDLE_PRIO ->
      OSTCBPrev t <> TcbAt x).
    { intros y d Hd Hin Hy. destruct (Hprev y d Hd) as [Hn1 Hn2]; [congruence|]. destruct Hin as [Hin|]; [|done].
      apply Hn1. by constructor. }
    destruct l2 as [|r l2]; cbn [tcb_chain] in *.
    + destruct Hch as (n & c & En & Hcn & F1 & F2 & F3).
      assert (Hni : n <> i) by (intros ->; specialize (Hpi c Hcn); congruence).
      destruct (Hby n c Hni Hcn) as (c' & Hc' & G1 & G2 & G3 & G4 & G5).
      exists n, c'. rewrite G1, G5 by done. do 4 (split; [done|]). by apply Hoth.
    + destruct Hch as (n & c & En & Hcn & F1 & F2 & F3 & F4 & F5 & Hch).
      assert (Hni : n <> i) by (intros ->; specialize (Hpi c Hcn); set_solver).
      destruct (Hby n c Hni Hcn) as (c' & Hc' & G1 & G2 & G3 & G4 & G5).
      apply NoDup_cons in Hnd as [Hr Hnd]. apply not_elem_of_cons in Hp as [Hpr Hp].
      exists n, c'. rewrite G1, G5, G2 by (try done; apply (Hpv n c Hcn); left; rewrite F2; constructor).
      do 6 (split; [done|]). split; [by apply Hoth|].
      apply (chain_far s s' i _ _ p Hby Hoth); try done. intros y d Hd Hin. split.
      * apply (Hpv y d Hd). destruct Hin; [left; by constructor|by right].
      * rewrite En. intros [= <-]. assert (d = c) as -> by congruence. rewrite F2 in Hin. by destruct Hin.
  - pose proof (chain_around s p l2 (q :: l1) prev ptr i t Hch Hnd Hi Ht) as [(n & cn & En & Hcn & Hnin & _) _].
    assert (Hpv : match l1 with [] => True | _ => exists j c, OSTCBPrev t = TcbAt j /\ tcb_tbl s !! j = Some c /\ OSTCBPrio c ∈ l1 /\
      prio_tbl s !! Z.to_nat (OSTCBPrio c) = Some (TcbAt j) end).
    { destruct l1 as [|q' l1]; [done|]. cbn [app tcb_chain] in Hch. destruct Hch as (x & c & _ & _ & _ & _ & _ & _ & _ & Hch).
      apply NoDup_cons in Hnd as [_ Hnd]. apply (chain_around s p l2 (q' :: l1) _ _ i t Hch Hnd Hi Ht). }
    cbn [app tcb_chain] in *. destruct Hch as (x & c & -> & Hc & E1 & E2 & E3 & E4 & E5 & Hch).
    apply NoDup_cons in Hnd as [Hq Hnd]. apply not_elem_of_cons in Hid as [Hidq Hid].
    assert (Hxi : x <> i) by (intros ->; assert (c = t) as -> by congruence; set_solver).
    assert (Hnx : OSTCBNext t <> TcbAt x).
    { rewrite En. intros [= ->]. assert (cn = c) as -> by congruence. rewrite E2 in Hnin. set_solver. }
    destruct (Hby x c Hxi Hc) as (c' & Hc' & G1 & G2 & G3 & G4 & G5).
    exists x, c'. rewrite G1, G4 by done. do 6 (split; [done|]). split; [apply Hoth; [set_solver|done..]|].
    assert (Hnext : OSTCBNext c' = match l1 with [] => OSTCBNext t | _ => OSTCBNext c end).
    { destruct l1 as [|q' l1].
      - apply G3. by apply (chain_around s p l2 [] _ _ i t Hch Hnd Hi Ht).
      - apply G2. destruct Hpv as (j & cj & -> & Hcj & Hin & _). intros [= ->]. assert (cj = c) as -> by congruence.
        rewrite E2 in Hin. apply Hq. apply elem_of_app. by left. }
    rewrite Hnext. apply IH; try done. intros y d Hd [= <-]. assert (d = c) as -> by congruence. by rewrite E2.
Qed.

(** The fields that represent a task, without the links. *)
Definition same_task (d d' : TCB) : Prop := forall q u, tcb_repr q d u -> tcb_repr q d' u.

(** What the deletion of the task [p] of block [i], whose contents are [c], does. *)
Record deleted (s s' : OS) (p : Z) (i : nat) (c : TCB) : Prop := {
  de_prio : prio_tbl s' = <[Z.to_nat p := TcbNull]> (prio_tbl s);
  de_bypass : bypass s s' i (OSTCBNext c) (OSTCBPrev c);
  de_same : forall x d, x <> i -> tcb_tbl s !! x = Some d -> exists d', tcb_tbl s' !! x = Some d' /\ same_task d d';
  de_block : exists c', tcb_tbl s' !! i = Some c' /\ OSTCBNext c' = tcb_free s;
  de_free : tcb_free s' = TcbAt i;
  de_list : tcb_list s' = match OSTCBPrev c with TcbNull => OSTCBNext c | _ => tcb_list s end;
  de_rest : rdy s' = rdy s /\ event_tbl s' = event_tbl s /\ event_free s' = event_free s /\ prio_cur s' = prio_cur s /\
    tcb_cur s' = tcb_cur s /\ int_nesting s' = int_nesting s /\ lock_nesting s' = lock_nesting s /\
    running s' = running s /\ tick_step s' = tick_step s;
}.

Lemma block_unique s k q x d q' : repr s k -> prio_tbl s !! Z.to_nat q = Some (TcbAt x) -> prio_ok q ->
  prio_tbl s !! Z.to_nat q' = Some (TcbAt x) -> prio_ok q' -> tcb_tbl s !! x = Some d -> q = q'.
Proof.
  intros Hr Hq Hok Hq' Hok' Hd. pose proof (rp_core _ _ Hr) as R0.
  assert (Hp : forall y, prio_ok y -> prio_tbl s !! Z.to_nat y = Some (TcbAt x) -> OSTCBPrio d = y); [|rewrite <- (Hp q), <- (Hp q'); done].
  intros y Hy Hx. destruct (a_tasks k !! y) as [u|] eqn:Eu.
  - destruct (repr_tcb s k y u x Hr Eu Hx) as (d' & Hd' & Hrd). assert (d' = d) as -> by congruence. apply (tr_prio _ _ _ Hrd).
  - rewrite (rp_none _ _ R0 y Hy Eu) in Hx. done.
Qed.

Lemma repr_deleted s s' k p i c t : repr s k -> a_tasks k !! p = Some t -> p <> OS_TASK_IDLE_PRIO ->
  at_ s p i -> tcb_tbl s !! i = Some c -> deleted s s' p i c ->
  repr s' (set_free_tcb (S (a_free_tcb k)) (set_tasks (delete p (a_tasks k)) k)).
Proof.
  intros Hr Et Hid Hi Hc [D1 D2 D3 (ci & Dci & Dcn) D5 D6 (F1 & F2 & F3 & F4 & F5 & F6 & F7 & F8 & F9)].
  pose proof (rp_core _ _ Hr) as [H1 H2 H3 H4 H5 H6 H7 H8 H9 H10 H11]. destruct (H3 p t Et) as [Hok _].
  destruct (repr_tcb s k p t i Hr Et Hi) as (c' & Hc' & Hrc). assert (c' = c) as -> by congruence. clear Hc'.
  assert (Hpl : (Z.to_nat p < length (prio_tbl s))%nat) by (by eapply lookup_lt_Some).
  assert (Hoth : others s s' p).
  { intros q x Hne Hq Hx. rewrite D1, list_lookup_insert_ne; [done|]. unfold prio_ok in *. lia. }
  constructor; [constructor; rewrite ?F1, ?F2, ?F4, ?F5, ?F6, ?F7, ?F8, ?F9; try done| |].
  - by rewrite D1, length_insert.
  - intros q u. cbn. rewrite lookup_delete_Some. intros [Hne Hq]. destruct (H3 q u Hq) as (Hqo & x & d & Hx & Hd & Hrd).
    split; [done|]. assert (Hxi : x <> i).
    { intros ->. apply Hne. by apply (block_unique s k p i d q). }
    destruct (D3 x d Hxi Hd) as (d' & Hd' & Hs). exists x, d'. split; [by apply Hoth|]. split; [done|]. by apply Hs.
  - intros q Hq. cbn. rewrite D1. intros Hn. destruct (decide (q = p)) as [->|Hne]; [by rewrite list_lookup_insert_eq|].
    rewrite list_lookup_insert_ne by (unfold prio_ok in *; lia). apply H4; [done|]. by rewrite lookup_delete_ne in Hn.
  - destruct H6 as [E1 E2]. split; [done|]. cbn. intros [u Hu]. apply lookup_delete_Some in Hu as [Hne Hu].
    destruct (H3 _ u Hu) as [Hqo _]. rewrite D1, list_lookup_insert_ne by (unfold prio_ok in *; lia). apply E2. by rewrite Hu.
  - destruct (rp_lists _ _ Hr) as (l & lf & [L1 L2 L3 L4 L5 L6 L7 L8]).
    assert (Hpin : p ∈ l) by (apply L3; split; [done|by rewrite Et]).
    apply list_elem_of_split in Hpin as (l1 & l2 & ->).
    destruct (chain_around s p l2 l1 _ _ i c L1 L2 Hi Hc) as [(n & cn & En & Hcn & Hnin & Hnp) Hprev].
    assert (Hidl : OS_TASK_IDLE_PRIO ∉ l1 ++ p :: l2) by (intros Hx; by apply L3 in Hx as [? _]).
    exists (l1 ++ l2), (i :: lf). constructor.
    + rewrite D6. assert (El : (match OSTCBPrev c with TcbNull => OSTCBNext c | _ => tcb_list s end) =
        match l1 with [] => OSTCBNext c | _ => tcb_list s end).
      { destruct l1 as [|q l1]; [by rewrite Hprev|]. by destruct Hprev as (j & cj & -> & _). }
      rewrite El. apply (chain_unlink s s' p i c l2 D2 Hoth Hi Hc (tr_prio _ _ _ Hrc)); try done.
    + apply NoDup_app in L2 as (N1 & N2 & N3). apply NoDup_cons in N3 as [_ N3]. apply NoDup_app.
      split; [done|]. split; [|done]. intros x Hx Hx2. apply (N2 x Hx). by constructor.
    + intros q. cbn. rewrite elem_of_app. specialize (L3 q). rewrite elem_of_app, elem_of_cons in L3.
      destruct (decide (q = p)) as [->|Hne]; [|rewrite lookup_delete_ne by done; rewrite <- L3; clear -Hne; naive_solver].
      rewrite lookup_delete_eq. split; [|intros [_ [? ?]]; done]. intros Hx. exfalso.
      apply NoDup_app in L2 as (N1 & N2 & N3). apply NoDup_cons in N3 as [N3 _].
      destruct Hx as [Hx|Hx]; [|done]. apply (N2 p Hx). by constructor.
    + cbn [free_chain]. split; [done|]. exists ci. split; [done|]. rewrite Dcn.
      assert (Hfar : forall x, x ∈ lf -> x <> i /\ OSTCBPrev c <> TcbAt x).
      { intros x Hx. split; [intros ->; by apply (L6 i (Z.to_nat p))|]. intros Epv. destruct l1 as [|q l1]; [congruence|].
        destruct Hprev as (j & cj & Ej & _ & _ & Hjp). rewrite Ej in Epv. injection Epv as ->.
        by apply (L6 x (Z.to_nat (OSTCBPrio cj))). }
      clear -L4 D2 Hfar. revert Hfar L4. generalize (tcb_free s). induction lf as [|x lf IH]; intros ptr Hfar; cbn [free_chain]; [done|].
      intros (-> & d & Hd & Hch). split; [done|]. destruct (Hfar x) as [Hxi Hpv]; [constructor|].
      destruct (D2 x d Hxi Hd) as (d' & Hd' & _ & G & _). exists d'. split; [done|]. rewrite G by done. apply IH; [|done].
      intros y Hy. apply Hfar. by constructor.
    + constructor; [|done]. intros Hx. by apply (L6 i (Z.to_nat p)).
    + intros x q [->|Hx]%elem_of_cons; rewrite D1.
      * destruct (decide (q = Z.to_nat p)) as [->|Hne]; [by rewrite list_lookup_insert_eq|]. rewrite list_lookup_insert_ne by done.
        intros Hq. assert (Hqo : prio_ok (Z.of_nat q)).
        { apply lookup_lt_Some in Hq. rewrite H1 in Hq. change N_PRIO with 21%nat in Hq. unfold prio_ok, OS_LOWEST_PRIO. lia. }
        apply Hne. rewrite (block_unique s k p i c (Z.of_nat q)); try done; [lia|]. by rewrite Nat2Z.id.
      * destruct (decide (q = Z.to_nat p)) as [->|Hne]; [by rewrite list_lookup_insert_eq|]. rewrite list_lookup_insert_ne by done.
        by apply L6.
    + cbn. by rewrite L7.
    + rewrite length_app in L8 |- *. cbn [length] in L8 |- *. lia.
  - rewrite F3. apply (ev_chain_kept s); [|apply (rp_free _ _ Hr)]. rewrite F2. intros e v Hv. by exists v.
Qed.

(** The blocks around that of [p]. *)
Lemma around s k p t i c : repr s k -> a_tasks k !! p = Some t -> p <> OS_TASK_IDLE_PRIO -> at_ s p i ->
  tcb_tbl s !! i = Some c ->
  (exists n cn, OSTCBNext c = TcbAt n /\ n <> i /\ tcb_tbl s !! n = Some cn /\
    (OSTCBPrev c = TcbNull \/ exists j cj, OSTCBPrev c = TcbAt j /\ j <> i /\ j <> n /\ tcb_tbl s !! j = Some cj)).
Proof.
  intros Hr Et Hid Hi Hc. destruct (rp_lists _ _ Hr) as (l & lf & [L1 L2 L3 L4 L5 L6 L7 L8]).
  destruct (repr_tcb s k p t i Hr Et Hi) as (c' & Hc' & Hrc). assert (c' = c) as -> by congruence. clear Hc'.
  assert (Hpin : p ∈ l) by (apply L3; split; [done|by rewrite Et]).
  apply list_elem_of_split in Hpin as (l1 & l2 & ->).
  assert (Hidl : OS_TASK_IDLE_PRIO ∉ l1 ++ p :: l2) by (intros Hx; by apply L3 in Hx as [? _]).
  destruct (chain_around s p l2 l1 _ _ i c L1 L2 Hi Hc) as [(n & cn & En & Hcn & Hnin & _) Hprev].
  pose proof (tr_prio _ _ _ Hrc) as Hp. apply NoDup_app in L2 as (N1 & N2 & N3). apply NoDup_cons in N3 as [N3 _].
  exists n, cn. split; [done|]. split; [intros ->; assert (cn = c) as -> by congruence; rewrite Hp in Hnin; by destruct Hnin|].
  split; [done|]. destruct l1 as [|q l1]; [by left|right]. destruct Hprev as (j & cj & Ej & Hcj & Hin & _).
  exists j, cj. split; [done|]. split; [intros ->; assert (cj = c) as -> by congruence; rewrite Hp in Hin|].
  { apply (N2 p Hin). constructor. }
  split; [|done]. intros ->. assert (cn = cj) as -> by congruence. destruct Hnin as [Hn|Hn].
  - apply (N2 _ Hin). by constructor.
  - apply Hidl. rewrite elem_of_app. left. by rewrite <- Hn.
Qed.

(** The links, the table of priorities and the free list. *)
Definition unlink (prio : Z) (i : nat) : M unit :=
  let! _ := modify (fun s => set_task_ctr (u8 (task_ctr s - 1)) s) in
  let! _ := put_prio prio TcbNull in
  let! t := get_tcb i in
  let! next := deref (OSTCBNext t) in
  let! _ := match OSTCBPrev t with
            | TcbNull =>
                let! _ := upd_tcb next (set_OSTCBPrev TcbNull) in
                modify (set_tcb_list (OSTCBNext t))
            | prev =>
                let! j := deref prev in
                let! _ := upd_tcb j (set_OSTCBNext (OSTCBNext t)) in
                upd_tcb next (set_OSTCBPrev (OSTCBPrev t))
            end in
  let! f := gets tcb_free in
  let! _ := upd_tcb i (set_OSTCBNext f) in
  modify (set_tcb_free (TcbAt i)).

Lemma same_task_links d nx pv : same_task d (set_OSTCBNext nx d) /\ same_task d (set_OSTCBPrev pv d) /\
  same_task d d.
Proof. split; [intros q u []; by constructor|]. split; [intros q u []; by constructor|]. by intros q u. Qed.

Lemma unlink_deleted s k p t i c : repr s k -> a_tasks k !! p = Some t -> p <> OS_TASK_IDLE_PRIO -> at_ s p i ->
  tcb_tbl s !! i = Some c -> exists s', unlink p i s = Some (tt, s') /\ deleted s s' p i c.
Proof.
  intros Hr Et Hid Hi Hc. destruct (around s k p t i c Hr Et Hid Hi Hc) as (n & cn & En & Hni & Hcn & Hprev).
  assert (Hpl : (Z.to_nat p < length (prio_tbl s))%nat) by (by eapply lookup_lt_Some).
  assert (Hli : (i < length (tcb_tbl s))%nat) by (by eapply lookup_lt_Some).
  assert (Hln : (n < length (tcb_tbl s))%nat) by (by eapply lookup_lt_Some).
  unfold unlink. rewrite bind_modify. unfold put_prio, bind at 1. cbn [prio_tbl set_task_ctr].
  rewrite (proj2 (Nat.ltb_lt _ _)) by done. unfold get_tcb, bind at 1. cbn [tcb_tbl set_prio_tbl set_task_ctr]. rewrite Hc, En.
  unfold deref. rewrite bind_ret. destruct Hprev as [Ep|(j & cj & Ep & Hji & Hjn & Hcj)]; rewrite Ep.
  - unfold bind, upd_tcb, gets, modify. cbn [tcb_tbl set_prio_tbl set_task_ctr set_tcb_tbl set_tcb_list tcb_free]. rewrite Hcn.
    cbn [tcb_tbl set_prio_tbl set_task_ctr set_tcb_tbl set_tcb_list tcb_free]. rewrite list_lookup_insert_ne, Hc by done.
    eexists. split; [done|]. constructor; try done; rewrite ?En, ?Ep; try done.
    + intros x d Hx Hd. cbn. rewrite list_lookup_insert_ne by done. destruct (decide (x = n)) as [->|Hxn].
      * exists (set_OSTCBPrev TcbNull cn). rewrite list_lookup_insert_eq by done. assert (d = cn) as -> by congruence. naive_solver.
      * exists d. rewrite list_lookup_insert_ne by done. naive_solver.
    + intros x d Hx Hd. cbn. rewrite list_lookup_insert_ne by done. destruct (decide (x = n)) as [->|Hxn].
      * exists (set_OSTCBPrev TcbNull cn). rewrite list_lookup_insert_eq by done. assert (d = cn) as -> by congruence.
        split; [done|]. by apply (same_task_links cn TcbNull TcbNull).
      * exists d. rewrite list_lookup_insert_ne by done. split; [done|by intros q u].
    + cbn. rewrite list_lookup_insert_eq by (by rewrite length_insert). by eexists.
  - assert (Hlj : (j < length (tcb_tbl s))%nat) by (by eapply lookup_lt_Some).
    unfold bind, upd_tcb, gets, modify, ret. cbn [tcb_tbl set_prio_tbl set_task_ctr set_tcb_tbl set_tcb_list tcb_free]. rewrite Hcj.
    cbn [tcb_tbl set_prio_tbl set_task_ctr set_tcb_tbl set_tcb_list tcb_free]. rewrite list_lookup_insert_ne, Hcn by done.
    cbn [tcb_tbl set_prio_tbl set_task_ctr set_tcb_tbl set_tcb_list tcb_free]. rewrite !list_lookup_insert_ne, Hc by done.
    eexists. split; [done|]. constructor; try done; rewrite ?En, ?Ep; try done.
    + intros x d Hx Hd. cbn. rewrite list_lookup_insert_ne by done. destruct (decide (x = n)) as [->|Hxn].
      * exists (set_OSTCBPrev (TcbAt j) cn). rewrite list_lookup_insert_eq by (by rewrite length_insert).
        assert (d = cn) as -> by congruence. naive_solver.
      * rewrite list_lookup_insert_ne by done. destruct (decide (x = j)) as [->|Hxj].
        -- exists (set_OSTCBNext (TcbAt n) cj). rewrite list_lookup_insert_eq by done. assert (d = cj) as -> by congruence. naive_solver.
        -- exists d. rewrite list_lookup_insert_ne by done. naive_solver.
    + intros x d Hx Hd. cbn. rewrite list_lookup_insert_ne by done. destruct (decide (x = n)) as [->|Hxn].
      * exists (set_OSTCBPrev (TcbAt j) cn). rewrite list_lookup_insert_eq by (by rewrite length_insert).
        assert (d = cn) as -> by congruence. split; [done|]. by apply (same_task_links cn TcbNull (TcbAt j)).
      * rewrite list_lookup_insert_ne by done. destruct (decide (x = j)) as [->|Hxj].
        -- exists (set_OSTCBNext (TcbAt n) cj). rewrite list_lookup_insert_eq by done. assert (d = cj) as -> by congruence.
           split; [done|]. by apply (same_task_links cj (TcbAt n) TcbNull).
        -- exists d. rewrite list_lookup_insert_ne by done. split; [done|by intros q u].
    + cbn. rewrite list_lookup_insert_eq by (by rewrite !length_insert). by eexists.
Qed.

(** OSTaskDel, once the task is known. *)
Definition del_task (prio : Z) (i : nat) : M Z :=
  let! t := get_tcb i in
  let! _ := rdy_remove t in
  let! _ := match OSTCBEventPtr t with None => ret tt | Some e => OS_EventTaskRemove i e end in
  let! _ := match OSTCBEventMultiPtr t with
            | None => ret tt | Some es => OS_EventTaskRemoveMulti i es end in
  let! _ := upd_tcb i (fun t =>
    set_OSTCBStatPend OS_STAT_PEND_OK (set_OSTCBStat OS_STAT_RDY (set_OSTCBDly 0 t))) in
  let! l := gets lock_nesting in
  let! _ := (if l <? 255 then modify (set_lock_nesting (u8 (l + 1))) else ret tt) in
  let! l := gets lock_nesting in
  let! _ := (if 0 <? l then modify (set_lock_nesting (u8 (l - 1))) else ret tt) in
  let! _ := unlink prio i in
  let! r := gets running in
  let! _ := (if r then OS_Sched else ret tt) in
  ret OS_ERR_NONE.

Lemma bind_ext {A B} (m : M A) (f g : A -> M B) s : (forall a s', m s = Some (a, s') -> f a s' = g a s') -> bind m f s = bind m g s.
Proof. intros H. unfold bind. destruct (m s) as [[a s']|] eqn:E; [by apply H|done]. Qed.
Lemma bind_assoc {A B D} (m : M A) (f : A -> M B) (g : B -> M D) s :
  bind (bind m f) g s = bind m (fun a => bind (f a) g) s.
Proof. unfold bind. by destruct (m s) as [[]|]. Qed.

(** Sequences, one operation after the other. *)
Ltac bseq := repeat (rewrite ?bind_assoc; apply bind_ext; intros ? ? _).

Lemma OSTaskDel_eq prio s i p : (0 <? int_nesting s) = false -> (prio =? OS_TASK_IDLE_PRIO) = false ->
  (OS_LOWEST_PRIO <=? prio) && negb (prio =? OS_PRIO_SELF) = false ->
  (if prio =? OS_PRIO_SELF then
     let! q := gets tcb_cur in let! c := deref q in
     let! t := get_tcb c in ret (OSTCBPrio t)
   else ret prio) s = Some (p, s) -> prio_tbl s !! Z.to_nat p = Some (TcbAt i) ->
  OSTaskDel prio s = del_task p i s.
Proof.
  intros E1 E2 E3 E4 Hi. unfold OSTaskDel. rewrite bind_gets, E1, E2, E3. rewrite (bind_eq _ _ _ _ _ E4).
  unfold get_prio, bind at 1. rewrite Hi. unfold del_task, unlink. bseq. done.
Qed.

(** Leaving the wait list of an event that may have been deleted. *)
Lemma runs_unwait s k e p i t : repr s k -> a_tasks k !! p = Some t -> at_ s p i -> (e < N_EVENT)%nat ->
  runs (OS_EventTaskRemove i e) s tt
    (match a_sems k !! e with
     | None => k | Some v => a_ev e (mkSem (sm_type v) (sm_cnt v) (sm_wait v ∖ {[p]})) k end).
Proof.
  intros Hr Et Hi He. destruct (a_sems k !! e) as [v|] eqn:Ev; [by apply (runs_wait_remove s k e v p i t)|].
  unfold OS_EventTaskRemove. apply (runs_get_tcb s k p t); [done..|]. intros c Hc.
  destruct (repr_at s k p t Hr Et) as [Hok _]. pose proof (rp_core _ _ Hr) as [H1 H2 H3 H4 H5 H6 H7 H8 H9 H10 [H11 H12]].
  destruct (lookup_lt_is_Some_2 (event_tbl s) e) as [w Hw]; [by rewrite H11|].
  assert (Hwf : ps_wf (OSEventWait w)) by (by apply (Forall_lookup_1 _ _ _ _ H12 Hw)).
  destruct (ps_remove_spec p _ Hwf Hok) as (x & Ex & Hx & _). unfold runs, upd_wait. rewrite Hw.
  rewrite (tr_y _ _ _ Hc), (tr_bitx _ _ _ Hc), (tr_bity _ _ _ Hc), Ex. eexists. split; [done|]. split; [|done].
  assert (Hlen : (e < length (event_tbl s))%nat) by (by rewrite H11).
  repr_lists s k.
  - constructor; try done.
    + intros e' a Ha. destruct (H5 e' a Ha) as (u & Hu & Hru). exists u. cbn.
      rewrite list_lookup_insert_ne; [done|]. intros <-. congruence.
    + cbn. rewrite length_insert. split; [done|]. by apply Forall_insert.
  - intros e' u Hu. cbn. destruct (decide (e' = e)) as [->|].
    + exists (set_OSEventWait x w). rewrite list_lookup_insert_eq by done. by simplify_eq.
    + exists u. by rewrite list_lookup_insert_ne.
Qed.

Lemma set_lock_same k : set_lock (a_lock k) k = k.
Proof. by destruct k. Qed.
Lemma set_lock_lock x y k : set_lock x (set_lock y k) = set_lock x k.
Proof. done. Qed.

(** [l + 1] and [l - 1] leave the nesting as it was, but for 255. *)
Lemma runs_lock_unlock {B} (f : M B) s k b k' : repr s k -> a_lock k < 255 ->
  (forall s1, repr s1 k -> prio_tbl s1 = prio_tbl s -> tcb_tbl s1 = tcb_tbl s -> does f s1 b k') ->
  does (let! l := gets lock_nesting in
    let! _ := (if l <? 255 then modify (set_lock_nesting (u8 (l + 1))) else ret tt) in
    let! l := gets lock_nesting in
    let! _ := (if 0 <? l then modify (set_lock_nesting (u8 (l - 1))) else ret tt) in f) s b k'.
Proof.
  intros Hr Hl Hf. destruct (rp_lock _ _ (rp_core _ _ Hr)) as [El Hu].
  unfold does. rewrite bind_gets, El. rewrite (proj2 (Z.ltb_lt _ _)) by lia. rewrite bind_modify, bind_gets.
  rewrite u8_small by word_lia. cbn [lock_nesting set_lock_nesting]. rewrite (proj2 (Z.ltb_lt _ _)) by word_lia.
  rewrite bind_modify. replace (u8 (a_lock k + 1 - 1)) with (a_lock k) by (rewrite u8_small by word_lia; lia).
  apply Hf; [|done..]. pose proof (repr_set_lock _ _ (a_lock k) Hr Hu) as H. rewrite set_lock_same in H. exact H.
Qed.

Lemma does_del_task s k p i t : repr s k -> kcore k -> a_tasks k !! p = Some t -> p <> OS_TASK_IDLE_PRIO -> at_ s p i ->
  a_lock k < 255 -> does (del_task p i) s OS_ERR_NONE
    (a_sched (set_free_tcb (S (a_free_tcb (a_unwait p t k))) (set_ready (a_ready (a_unwait p t k) ∖ {[p]})
        (set_tasks (delete p (a_tasks (a_unwait p t k))) (a_unwait p t k))))).
Proof.
  intros Hr C Et Hid Hi Hl. pose proof (core_task_del p t k C Et Hid) as HC. set (kd := set_free_tcb _ _) in *.
  destruct (unwait_fields p t k) as (U1 & U2 & U3 & U4 & U5 & U6 & U7).
  destruct (kc_task k C p t Et) as [Hok [_ _ _ _ Hev]]. unfold del_task.
  destruct (repr_tcb s k p t i Hr Et Hi) as (c & Hc & Hrc). unfold does, get_tcb, bind at 1. rewrite Hc.
  destruct (runs_rdy_remove s k p c t Hr Hok Hrc) as (s1 & E1 & H1 & P1). rewrite (bind_eq _ _ _ _ _ E1).
  set (k1 := set_ready (a_ready k ∖ {[p]}) k) in *. assert (Hi1 : at_ s1 p i) by (unfold at_; by rewrite P1).
  set (k2 := a_unwait p t k1).
  assert (R2 : runs (match OSTCBEventPtr c with None => ret tt | Some e => OS_EventTaskRemove i e end) s1 tt k2).
  { rewrite (tr_event _ _ _ Hrc). unfold k2, a_unwait. destruct (tk_event t) as [e|]; [|by apply runs_ret].
    apply (runs_unwait s1 k1 e p i t); try done. by apply Hev. }
  destruct R2 as (s2 & E2 & H2 & P2). rewrite (bind_eq _ _ _ _ _ E2).
  rewrite (tr_multi _ _ _ Hrc), bind_ret. assert (Et2 : a_tasks k2 !! p = Some t).
  { unfold k2. by rewrite (proj1 (unwait_fields p t k1)). }
  assert (Hi2 : at_ s2 p i) by (unfold at_; by rewrite P2).
  set (t3 := mkTask false false PendOk 0 (tk_event t)).
  destruct (runs_upd_tcb s2 k2 p t t3 i (fun t => set_OSTCBStatPend OS_STAT_PEND_OK (set_OSTCBStat OS_STAT_RDY (set_OSTCBDly 0 t))))
    as (s3 & E3 & H3 & P3); try done.
  { intros d []. split; [by constructor|done]. }
  rewrite (bind_eq _ _ _ _ _ E3). assert (U2' := unwait_fields p t k1). fold k2 in U2'.
  destruct U2' as (V1 & V2 & V3 & V4 & V5 & V6 & V7).
  apply (runs_lock_unlock _ s3 (a_put p t3 k2)); [done|by cbn; rewrite V5|]. intros s4 H4 P4 T4.
  assert (Hi4 : at_ s4 p i) by (unfold at_; by rewrite P4, P3).
  assert (Et4 : a_tasks (a_put p t3 k2) !! p = Some t3) by apply lookup_insert_eq.
  destruct (repr_tcb s4 _ p t3 i H4 Et4 Hi4) as (d & Hd & _).
  destruct (unlink_deleted s4 _ p t3 i d H4 Et4 Hid Hi4 Hd) as (s5 & E5 & D5).
  unfold does. rewrite (bind_eq _ _ _ _ _ E5), bind_gets. pose proof (repr_deleted s4 s5 _ p i d t3 H4 Et4 Hid Hi4 Hd D5) as H5.
  assert (Ek : set_free_tcb (S (a_free_tcb (a_put p t3 k2))) (set_tasks (delete p (a_tasks (a_put p t3 k2))) (a_put p t3 k2)) = kd).
  { unfold kd. apply ak_eq; cbn [a_ready a_tasks a_sems a_cur a_int a_lock a_free_ev a_free_tcb set_free_tcb set_tasks
      set_ready a_put]; rewrite ?V1, ?V2, ?V3, ?V4, ?V5, ?V6, ?V7, ?U1, ?U2, ?U3, ?U4, ?U5, ?U6, ?U7; try done.
    - by rewrite delete_insert_eq.
    - unfold k2, a_unwait. destruct (tk_event t) as [e|]; [|done]. cbn. by destruct (a_sems k !! e). }
  rewrite Ek in H5. rewrite (rp_run _ _ (rp_core _ _ H5)). destruct (runs_sched s5 kd H5 HC) as (s6 & E6 & H6 & _).
  exists s6. by rewrite (bind_eq _ _ _ _ _ E6).
Qed.

Lemma does_task_del s k prio t : repr s k -> kcore k -> 0 <= prio -> a_tasks k !! a_cur k = Some t ->
  self_or prio k <> OS_TASK_IDLE_PRIO -> a_lock k < 255 ->
  does (OSTaskDel prio) s (a_task_del prio k).1 (a_task_del prio k).2.
Proof.
  intros Hr C H0 Ec Hid Hl. pose proof (rp_core _ _ Hr) as R0. destruct (rp_int _ _ R0) as [Ei Hu].
  unfold a_task_del. rewrite <- Ei.
  destruct (0 <? int_nesting s) eqn:E1; [exists s; unfold OSTaskDel; by rewrite bind_gets, E1|].
  destruct (prio =? OS_TASK_IDLE_PRIO) eqn:E2; [exists s; unfold OSTaskDel; by rewrite bind_gets, E1, E2|].
  destruct ((OS_LOWEST_PRIO <=? prio) && _) eqn:E3; [exists s; unfold OSTaskDel; by rewrite bind_gets, E1, E2, E3|].
  fold (self_or prio k). set (p := self_or prio k) in *.
  assert (E4 : (if prio =? OS_PRIO_SELF then
     let! q := gets tcb_cur in let! c := deref q in
     let! t := get_tcb c in ret (OSTCBPrio t)
   else ret prio) s = Some (p, s)).
  { unfold p, self_or. destruct (prio =? OS_PRIO_SELF); [|done].
    destruct (repr_at s k _ t Hr Ec) as (_ & i & Hi). pose proof (proj2 (rp_cur _ _ R0) ltac:(by rewrite Ec)) as Ecur.
    assert (tcb_cur s = TcbAt i) as Etc by (unfold at_ in Hi; congruence).
    destruct (repr_tcb s k _ t i Hr Ec Hi) as (c & Hc & Hrc). unfold bind, gets, deref, get_tcb. rewrite Etc. cbn.
    rewrite Hc. unfold ret. by rewrite (tr_prio _ _ _ Hrc). }
  destruct (a_tasks k !! p) as [u|] eqn:Eu; cbn [fst snd].
  - destruct (repr_at s k p u Hr Eu) as (Hok & i & Hi). unfold does. rewrite (OSTaskDel_eq prio s i p) by done.
    by apply (does_del_task s k p i u).
  - exists s. split; [|done]. unfold OSTaskDel. rewrite bind_gets, E1, E2, E3. rewrite (bind_eq _ _ _ _ _ E4).
    unfold get_prio, bind. rewrite (rp_none _ _ R0); [done| |done].
    unfold p, self_or, prio_ok, OS_LOWEST_PRIO in *. destruct (prio =? OS_PRIO_SELF); [congruence|lia].
Qed.
