(* ===== verification/KernelSafe.v ===== *)
(** * KernelSafe

    The calls that tasks and interrupts make, in any order the rules of the kernel
    allow: the kernel never reaches undefined behaviour, answers as its specification
    does, and keeps its invariant. *)

From stdpp Require Import gmap.
From S2P Require Import Prelude PrioSet KernelData Kernel KernelSem KernelSpec KernelInv KernelLife KernelRefine KernelOps KernelSemOps KernelTickOps KernelWakeOps KernelTaskOps.

(** ** Calls *)

(** [CReturn] is the end of an OSSemPend that waited, when its task runs again; [CEnter],
    [CTick] and [CExit] make up the timer interrupt. *)
Inductive Call :=
  | CPend (e : nat) (timeout : Z) | CReturn (e : nat) | CPost (e : nat) | CAccept (e : nat)
  | CSet (e : nat) (cnt : Z) | CAbort (e : nat) (opt : Z) | CSemCreate (cnt : Z) | CSemDel (e : nat) (opt : Z)
  | CDelay (ticks : Z) | CDelayResume (prio : Z) | CSuspend (prio : Z) | CResume (prio : Z)
  | CTaskCreate (prio : Z) | CTaskDel (prio : Z) | CLock | CUnlock | CEnter | CTick | CExit.

(** What a call returns. *)
Inductive Res :=
  | RUnit | RNum (x : Z) | RPend (err : option Z) | RAbort (x : Z * Z) | REvent (e : option nat)
  | RDel (x : option nat * Z).

Definition lift {A} (f : A -> Res) (m : M A) : M Res := let! a := m in ret (f a).
Definition unit_res (_ : unit) : Res := RUnit.

Definition exec (c : Call) : M Res :=
  match c with
  | CPend e timeout => lift RPend (OSSemPend (Some e) timeout)
  | CReturn e => lift RNum (OSSemPend_resume e)
  | CPost e => lift RNum (OSSemPost (Some e))
  | CAccept e => lift RNum (OSSemAccept (Some e))
  | CSet e cnt => lift RNum (OSSemSet (Some e) cnt)
  | CAbort e opt => lift RAbort (OSSemPendAbort (Some e) opt)
  | CSemCreate cnt => lift REvent (OSSemCreate cnt)
  | CSemDel e opt => lift RDel (OSSemDel (Some e) opt)
  | CDelay ticks => lift unit_res (OSTimeDly ticks)
  | CDelayResume prio => lift RNum (OSTimeDlyResume prio)
  | CSuspend prio => lift RNum (OSTaskSuspend prio)
  | CResume prio => lift RNum (OSTaskResume prio)
  | CTaskCreate prio => lift RNum (OSTaskCreate prio)
  | CTaskDel prio => lift RNum (OSTaskDel prio)
  | CLock => lift unit_res OSSchedLock
  | CUnlock => lift unit_res OSSchedUnlock
  | CEnter => lift unit_res OSIntEnter
  | CTick => lift unit_res OSTimeTick
  | CExit => lift unit_res OSIntExit
  end.

Definition out {A} (f : A -> Res) (x : A * AK) : Res * AK := (f x.1, x.2).

Definition a_exec (c : Call) (k : AK) : Res * AK :=
  match c with
  | CPend e timeout => out RPend (a_pend e timeout k)
  | CReturn e => out RNum (a_resume k)
  | CPost e => out RNum (a_post e k)
  | CAccept e => out RNum (a_accept e k)
  | CSet e cnt => out RNum (a_set e cnt k)
  | CAbort e opt => out RAbort (a_abort e opt k)
  | CSemCreate cnt => out REvent (a_sem_create cnt k)
  | CSemDel e opt => out RDel (a_sem_del e opt k)
  | CDelay ticks => (RUnit, a_delay ticks k)
  | CDelayResume prio => out RNum (a_dly_resume prio k)
  | CSuspend prio => out RNum (a_suspend prio k)
  | CResume prio => out RNum (a_unsuspend prio k)
  | CTaskCreate prio => out RNum (a_task_create prio k)
  | CTaskDel prio => out RNum (a_task_del prio k)
  | CLock => (RUnit, a_lock_sched k)
  | CUnlock => (RUnit, a_unlock_sched k)
  | CEnter => (RUnit, a_enter k)
  | CTick => (RUnit, a_tick k)
  | CExit => (RUnit, a_exit k)
  end.

(** ** The rules *)

Definition cur_event (k : AK) : option nat := a_tasks k !! a_cur k ≫= tk_event.

(** The caller: an interrupt, or a task that is not the idle task and is not inside
    OSSemPend. *)
Definition caller_ok (k : AK) : bool :=
  (0 <? a_int k) || (bool_decide (cur_event k = None) && negb (a_cur k =? OS_TASK_IDLE_PRIO)).

Definition sem_ok (e : nat) (k : AK) : bool := bool_decide (is_Some (a_sems k !! e)).
Definition u16_ok (x : Z) : bool := (0 <=? x) && (x <? 2 ^ 16).
Definition u8_ok (x : Z) : bool := (0 <=? x) && (x <? 2 ^ 8).

(** Arguments have the width of their type and events exist.  The idle task is neither
    suspended nor deleted, a task does not delete itself with the scheduler locked, and
    OSIntExit and OSTimeTick are called from interrupts. *)
Definition legal (c : Call) (k : AK) : bool :=
  match c with
  | CPend e timeout => caller_ok k && sem_ok e k && u16_ok timeout
  | CReturn e => (a_int k =? 0) && bool_decide (cur_event k = Some e) && negb (a_cur k =? OS_TASK_IDLE_PRIO)
  | CPost e | CAccept e => caller_ok k && sem_ok e k
  | CSet e cnt => caller_ok k && sem_ok e k && u16_ok cnt
  | CAbort e _ | CSemDel e _ => caller_ok k && sem_ok e k
  | CSemCreate cnt => caller_ok k && u16_ok cnt
  | CDelay ticks => caller_ok k && u16_ok ticks
  | CDelayResume prio | CResume prio | CTaskCreate prio => caller_ok k && u8_ok prio
  | CSuspend prio => caller_ok k && u8_ok prio &&
      negb ((prio =? OS_PRIO_SELF) && (a_cur k =? OS_TASK_IDLE_PRIO))
  | CTaskDel prio => caller_ok k && u8_ok prio && negb (self_or prio k =? OS_TASK_IDLE_PRIO) && (a_lock k <? 255) &&
      (negb (self_or prio k =? a_cur k) || (a_lock k =? 0))
  | CLock | CUnlock => caller_ok k
  | CEnter => true
  | CTick | CExit => 0 <? a_int k
  end.

(** Sequences of calls. *)
Fixpoint exec_all (l : list Call) : M (list Res) :=
  match l with
  | [] => ret []
  | c :: l => let! r := exec c in let! rs := exec_all l in ret (r :: rs)
  end.

Fixpoint a_exec_all (l : list Call) (k : AK) : list Res * AK :=
  match l with
  | [] => ([], k)
  | c :: l => let x := a_exec c k in let y := a_exec_all l x.2 in (x.1 :: y.1, y.2)
  end.

Fixpoint legal_all (l : list Call) (k : AK) : bool :=
  match l with
  | [] => true
  | c :: l => legal c k && legal_all l (a_exec c k).2
  end.

(** ** One call *)

Lemma does_lift {A} (f : A -> Res) (m : M A) s a k : does m s a k -> does (lift f m) s (f a) k.
Proof. intros (s' & E & H). exists s'. unfold lift, bind. by rewrite E. Qed.
Lemma runs_lift {A} (f : A -> Res) (m : M A) s a k : runs m s a k -> does (lift f m) s (f a) k.
Proof. intros H. by apply does_lift, runs_does. Qed.

(** The invariant after a legal call, and the call itself. *)
Definition good (c : Call) (s : OS) (k : AK) : Prop :=
  kinv (a_exec c k).2 /\ does (exec c) s (a_exec c k).1 (a_exec c k).2.

Lemma caller_cases k t : kinv k -> a_tasks k !! a_cur k = Some t -> caller_ok k = true ->
  0 < a_int k \/ (tk_event t = None /\ a_cur k <> OS_TASK_IDLE_PRIO).
Proof.
  intros HI Ht. unfold caller_ok, cur_event. rewrite Ht. cbn. destruct (Z.ltb_spec 0 (a_int k)); [by left|]. cbn [orb].
  intros [H1 H2]%andb_prop. right. apply bool_decide_eq_true in H1. split; [done|]. lia.
Qed.

Section Good.
Context (s : OS) (k : AK) (Hr : repr s k) (HI : kinv k).
Let C : kcore k := ki_core k HI.

Lemma sem_ok_get e : sem_ok e k = true -> exists v, a_sems k !! e = Some v.
Proof using Type. unfold sem_ok. by intros [v H]%bool_decide_eq_true; exists v. Qed.

(** A call whose invariant is [H1] and whose run is [H2]. *)
Ltac good := match goal with |- good _ _ _ => split; [cbn [a_exec out snd fst]|cbn [exec a_exec out snd fst]; apply runs_lift] end.

Lemma good_pend e timeout : legal (CPend e timeout) k = true -> good (CPend e timeout) s k.
Proof using Hr HI C.
  cbn [legal]. intros [[Hc Hs]%andb_prop Ht]%andb_prop. destruct (sem_ok_get e Hs) as [v Ev].
  destruct (ki_cur k HI) as [t Et]. unfold u16_ok in Ht. assert (Hu : is_u16 timeout) by (unfold is_u16; lia).
  assert (HP : kinv (a_pend e timeout k).2).
  { destruct (caller_cases k t HI Et Hc) as [Hi|[Hev Hid]]; [|by eapply inv_pend].
    unfold a_pend. rewrite Ev. destruct (negb _); [done|]. by rewrite (proj2 (Z.ltb_lt _ _)). }
  good; [done|]. apply (runs_pend s k e v t); try done. by apply ki_core.
Qed.

Lemma good_return e : legal (CReturn e) k = true -> good (CReturn e) s k.
Proof using Hr HI C.
  cbn [legal]. intros [[Hi Hev]%andb_prop Hid]%andb_prop. destruct (ki_cur k HI) as [t Et].
  apply bool_decide_eq_true in Hev. unfold cur_event in Hev. rewrite Et in Hev. cbn in Hev.
  good; [apply (inv_resume k t); try done; [lia..|congruence]|].
  assert (Hx : exists v, a_sems k !! e = Some v \/ tk_result t <> PendTimeout).
  { destruct (decide (tk_result t = PendTimeout)) as [E|E]; [|by exists (mkSem 0 0 ∅); right].
    destruct (kc_waits k C (a_cur k) t e Et) as [v Hv]; [split; auto|]. exists v. by left. }
  destruct Hx as [v Hv]. by apply (runs_resume s k e v t).
Qed.

Lemma good_post e : legal (CPost e) k = true -> good (CPost e) s k.
Proof using Hr HI C.
  cbn [legal]. intros [_ Hs]%andb_prop. destruct (sem_ok_get e Hs) as [v Ev]. good; [by apply inv_post|by eapply runs_post].
Qed.

Lemma good_accept e : legal (CAccept e) k = true -> good (CAccept e) s k.
Proof using Hr HI C.
  cbn [legal]. intros [_ Hs]%andb_prop. destruct (sem_ok_get e Hs) as [v Ev].
  good; [by apply inv_accept|by eapply runs_accept].
Qed.

Lemma good_set e cnt : legal (CSet e cnt) k = true -> good (CSet e cnt) s k.
Proof using Hr HI C.
  cbn [legal]. intros [[_ Hs]%andb_prop Hc]%andb_prop. destruct (sem_ok_get e Hs) as [v Ev]. unfold u16_ok in Hc.
  assert (is_u16 cnt) by (unfold is_u16; lia). good; [by apply inv_set|by eapply runs_set].
Qed.

Lemma good_abort e opt : legal (CAbort e opt) k = true -> good (CAbort e opt) s k.
Proof using Hr HI C.
  cbn [legal]. intros [_ Hs]%andb_prop. destruct (sem_ok_get e Hs) as [v Ev]. pose proof (inv_abort e opt k HI) as HP.
  good; [done|]. eapply runs_abort; [done..|by apply ki_core].
Qed.

Lemma good_sem_create cnt : legal (CSemCreate cnt) k = true -> good (CSemCreate cnt) s k.
Proof using Hr HI C.
  cbn [legal]. intros [_ Hc]%andb_prop. unfold u16_ok in Hc. assert (is_u16 cnt) by (unfold is_u16; lia).
  good; [by apply inv_sem_create|by apply runs_sem_create].
Qed.

Lemma good_sem_del e opt : legal (CSemDel e opt) k = true -> good (CSemDel e opt) s k.
Proof using Hr HI C.
  cbn [legal]. intros [_ Hs]%andb_prop. destruct (sem_ok_get e Hs) as [v Ev]. pose proof (inv_sem_del e opt k HI) as HP.
  good; [done|]. eapply runs_sem_del; [done..|by apply ki_core].
Qed.

Lemma good_delay ticks : legal (CDelay ticks) k = true -> good (CDelay ticks) s k.
Proof using Hr HI C.
  cbn [legal]. intros [Hc Ht]%andb_prop. destruct (ki_cur k HI) as [t Et]. unfold u16_ok in Ht.
  assert (Hu : is_u16 ticks) by (unfold is_u16; lia). assert (HP : kinv (a_delay ticks k)).
  { destruct (caller_cases k t HI Et Hc) as [Hi|[Hev Hid]]; [|by eapply inv_delay].
    unfold a_delay. by rewrite (proj2 (Z.ltb_lt _ _)). }
  split; [done|]. cbn [exec]. change (does (lift unit_res (OSTimeDly ticks)) s (unit_res tt) (a_delay ticks k)).
  apply runs_lift. eapply runs_delay; [done..|by apply ki_core].
Qed.

Lemma good_prio c : legal c k = true -> match c with CDelayResume _ | CSuspend _ | CResume _ => True | _ => False end -> good c s k.
Proof using Hr HI C.
  destruct (ki_cur k HI) as [t Et]. destruct c; cbn [legal]; try done; intros H _.
  - apply andb_prop in H as [_ H]. unfold u8_ok in H. pose proof (inv_dly_resume prio k HI) as HP.
    good; [done|]. apply runs_dly_resume; [done|lia|by apply ki_core].
  - apply andb_prop in H as [[_ H]%andb_prop Hs]. unfold u8_ok in H.
    assert (HP : kinv (a_suspend prio k).2) by (apply inv_suspend; [done|]; intros ->; lia).
    good; [done|]. eapply runs_suspend; [done|lia|done|by apply ki_core].
  - apply andb_prop in H as [_ H]. unfold u8_ok in H. pose proof (inv_unsuspend prio k HI) as HP.
    good; [done|]. apply runs_unsuspend; [done|lia|by apply ki_core].
Qed.

Lemma good_task_create prio : legal (CTaskCreate prio) k = true -> good (CTaskCreate prio) s k.
Proof using Hr HI C.
  cbn [legal]. intros [_ H]%andb_prop. unfold u8_ok in H. assert (H0 : 0 <= prio) by lia.
  pose proof (inv_task_create prio k HI H0) as HP. split; [done|]. cbn [exec a_exec out fst snd]. apply does_lift.
  rewrite OSTaskCreate_ext. apply does_task_create; try done. by apply ki_core.
Qed.

Lemma good_task_del prio : legal (CTaskDel prio) k = true -> good (CTaskDel prio) s k.
Proof using Hr HI C.
  cbn [legal]. intros [[[[_ H]%andb_prop Hid]%andb_prop Hl]%andb_prop Hself]%andb_prop. unfold u8_ok in H.
  destruct (ki_cur k HI) as [t Et]. split; cbn [exec a_exec out fst snd].
  - apply inv_task_del; [done|]. intros E. rewrite E in Hid, Hself. lia.
  - apply does_lift. apply (does_task_del s k prio t); try done; lia.
Qed.

Lemma good_interrupt c : legal c k = true ->
  match c with CLock | CUnlock | CEnter | CTick | CExit => True | _ => False end -> good c s k.
Proof using Hr HI C.
  intros H Hc. destruct (ki_cur k HI) as [t Et]. assert (HP : kinv (a_exec c k).2).
  { destruct c; cbn [legal a_exec snd] in *; try done.
    - apply (inv_lock k t); try done. intros Hi. destruct (caller_cases k t HI Et H) as [?|[? _]]; [lia|done].
    - by apply inv_unlock.
    - by apply inv_enter.
    - apply inv_tick; [done|lia].
    - by apply inv_exit. }
  split; [done|]. change RUnit with (unit_res tt) in *. destruct c; try done; cbn [exec a_exec fst snd] in *; apply (runs_lift unit_res _ s tt).
  - by apply runs_lock.
  - by apply runs_unlock.
  - by apply runs_enter.
  - by apply runs_tick.
  - by apply runs_exit.
Qed.

Lemma legal_good c : legal c k = true -> good c s k.
Proof using Hr HI C.
  destruct c; intros H; eauto using good_pend, good_return, good_post, good_accept, good_set, good_abort,
    good_sem_create, good_sem_del, good_delay, good_task_create, good_task_del; (by apply good_prio) || (by apply good_interrupt).
Qed.
End Good.

(** ** Sequences of calls *)

Lemma exec_all_refines : forall l s k, repr s k -> kinv k -> legal_all l k = true -> exists s',
  exec_all l s = Some ((a_exec_all l k).1, s') /\ repr s' (a_exec_all l k).2 /\ kinv (a_exec_all l k).2.
Proof.
  induction l as [|c l IH]; intros s k Hr HI; cbn [exec_all a_exec_all legal_all fst snd]; [intros _; by exists s|].
  intros [Hc Hl]%andb_prop. destruct (legal_good s k Hr HI c Hc) as [HI1 (s1 & E1 & H1)].
  destruct (IH s1 _ H1 HI1 Hl) as (s2 & E2 & H2 & HI2). exists s2. split; [|done].
  rewrite (bind_eq _ _ _ _ _ E1), (bind_eq _ _ _ _ _ E2). done.
Qed.

(** The running task is the ready one of the highest priority. *)
Lemma running_highest s k : repr s k -> kinv k -> int_nesting s = 0 -> lock_nesting s = 0 ->
  ps_highest (rdy s) = Some (prio_cur s).
Proof.
  intros Hr HI Hi Hl. pose proof (rp_core _ _ Hr) as R0. rewrite (proj1 (rp_cur _ _ R0)).
  rewrite (proj1 (rp_int _ _ R0)) in Hi. rewrite (proj1 (rp_lock _ _ R0)) in Hl.
  by apply (ps_repr_highest _ (a_ready k)); [apply (rp_rdy _ _ R0)|apply ki_sched].
Qed.
