(* ===== verification/KernelBoot.v ===== *)
(** * KernelBoot

    The kernel as main.c starts it: OSInit, the creation of the first task and OSStart
    lead to a state that represents three ready tasks and no semaphore. *)

From stdpp Require Import gmap.
From S2P Require Import Prelude PrioSet KernelData Kernel KernelSem KernelSpec KernelInv KernelLife KernelRefine KernelSafe.

Definition INIT_TASK_PRIORITY : Z := 5.
Definition TASK_STACKSIZE : Z := 2048.

(** OSInit, from the start-up code of the HAL, then the calls of main. *)
Definition boot : M unit :=
  let! _ := OSInit in
  let! _ := OSTaskCreateExt INIT_TASK_PRIORITY INIT_TASK_PRIORITY 0 TASK_STACKSIZE 0 0 in
  OSStart.

Definition booted : OS := match boot zero_OS with Some (_, s) => s | None => zero_OS end.

Definition k_boot : AK :=
  mkAK {[INIT_TASK_PRIORITY; OS_TASK_STAT_PRIO; OS_TASK_IDLE_PRIO]}
    (<[INIT_TASK_PRIORITY := new_task]> (<[OS_TASK_STAT_PRIO := new_task]> {[OS_TASK_IDLE_PRIO := new_task]}))
    ∅ INIT_TASK_PRIORITY 0 0 (seq 0 N_EVENT) 9.

Lemma boot_runs : boot zero_OS = Some (tt, booted).
Proof. vm_compute. reflexivity. Qed.

(** ** Checks of the representation *)

Definition ps_check (s : PrioSet) (X : gset Z) : bool :=
  (length (ps_tbl s) =? 3)%nat && forallb (fun v => (0 <=? v) && (v <? 256)) (ps_tbl s) && (0 <=? ps_grp s) && (ps_grp s <? 8) &&
  forallb (fun y => bool_decide (Z.testbit (ps_grp s) y = negb (nth (Z.to_nat y) (ps_tbl s) 0 =? 0))) [0; 1; 2] &&
  forallb (fun p => bool_decide (ps_mem p s = bool_decide (p ∈ X))) (seqZ 0 24) &&
  forallb (fun p => (0 <=? p) && (p <=? OS_LOWEST_PRIO)) (elements X).

Lemma ps_check_repr s X : ps_check s X = true -> ps_repr s X.
Proof.
  unfold ps_check. intros [[[[[[H1 H2]%andb_prop H3]%andb_prop H4]%andb_prop H5]%andb_prop H6]%andb_prop H7]%andb_prop.
  rewrite forallb_forall in H2, H5, H6, H7. assert (Hok : forall p, p ∈ X -> prio_ok p).
  { intros p Hp. specialize (H7 p). rewrite <- list_elem_of_In, elem_of_elements in H7. specialize (H7 Hp).
    unfold prio_ok. lia. }
  constructor; [constructor| |done].
  - change OS_RDY_TBL_SIZE with 3%nat. by apply Nat.eqb_eq.
  - apply Forall_forall. intros v Hv. apply list_elem_of_In in Hv. specialize (H2 v Hv). unfold is_u8. lia.
  - lia.
  - intros y Hy. specialize (H5 y). assert (Hin : In y [0; 1; 2]) by (cbn; lia). specialize (H5 Hin).
    by apply bool_decide_eq_true in H5.
  - intros p Hp. destruct (Z.lt_ge_cases p 24).
    + specialize (H6 p). rewrite <- list_elem_of_In, elem_of_seqZ in H6. specialize (H6 ltac:(lia)). by apply bool_decide_eq_true in H6.
    + rewrite bool_decide_eq_false_2 by (intros Hx; specialize (Hok p Hx); unfold prio_ok, OS_LOWEST_PRIO in Hok; lia).
      unfold ps_mem. rewrite nth_overflow, Z.bits_0; [done|]. apply Nat.eqb_eq in H1. rewrite H1.
      assert (3 <= p / 8) by (Z.div_mod_to_equations; lia). lia.
Qed.

Fixpoint ev_check (s : OS) (ptr : option nat) (l : list nat) : bool :=
  match ptr, l with
  | None, [] => true
  | Some e, e' :: l =>
      (e =? e')%nat &&
      match event_tbl s !! e, head l with
      | Some v, Some e1 => match OSEventPtr v with PtrEvent e2 => (e1 =? e2)%nat | _ => false end
      | Some v, None => match OSEventPtr v with PtrNull => true | _ => false end
      | None, _ => false
      end && ev_check s (head l) l
  | _, _ => false
  end.

Lemma ev_check_chain s : forall l ptr, ev_check s ptr l = true -> ev_chain s ptr l.
Proof.
  induction l as [|e l IH]; intros [e'|]; cbn [ev_check ev_chain head]; try done.
  intros [[->%Nat.eqb_eq H]%andb_prop Hl]%andb_prop. split; [done|]. destruct (event_tbl s !! e) as [v|]; [|by destruct (head l)].
  exists v. split; [done|]. split; [|by apply IH]. destruct (head l) as [e1|].
  - destruct (OSEventPtr v) as [|e2|]; try done. by apply Nat.eqb_eq in H as ->.
  - by destruct (OSEventPtr v).
Qed.

Lemma boot_lookup p t : a_tasks k_boot !! p = Some t ->
  t = new_task /\ (p = INIT_TASK_PRIORITY \/ p = OS_TASK_STAT_PRIO \/ p = OS_TASK_IDLE_PRIO).
Proof.
  cbn [a_tasks k_boot]. rewrite !lookup_insert_Some, lookup_singleton_Some. naive_solver.
Qed.

Lemma boot_repr : repr booted k_boot.
Proof.
  constructor; [constructor| |].
  - by vm_compute.
  - apply ps_check_repr. by vm_compute.
  - intros p t [-> [-> | [-> | ->]]]%boot_lookup; (split; [by vm_compute; split|]).
    + exists 2%nat. eexists. split; [by vm_compute|]. split; [vm_compute; reflexivity|]. by constructor.
    + exists 1%nat. eexists. split; [by vm_compute|]. split; [vm_compute; reflexivity|]. by constructor.
    + exists 0%nat. eexists. split; [by vm_compute|]. split; [vm_compute; reflexivity|]. by constructor.
  - intros p Hp Hn. unfold prio_ok, OS_LOWEST_PRIO in Hp.
    assert (Hne : p <> 5 /\ p <> 19 /\ p <> 20) by (repeat split; intros ->; by vm_compute in Hn).
    assert (Hc : forallb (fun n => (n =? 5) || (n =? 19) || (n =? 20) ||
      match prio_tbl booted !! Z.to_nat n with Some TcbNull => true | _ => false end) (seqZ 0 21) = true) by by vm_compute.
    rewrite forallb_forall in Hc. specialize (Hc p). rewrite <- list_elem_of_In, elem_of_seqZ in Hc. specialize (Hc ltac:(lia)).
    destruct (prio_tbl booted !! Z.to_nat p) as [[]|]; [done|lia..].
  - intros e a. cbn. by rewrite lookup_empty.
  - split; [by vm_compute|]. intros _. by vm_compute.
  - split; [by vm_compute|]. done.
  - split; [by vm_compute|]. done.
  - by vm_compute.
  - by vm_compute.
  - split; [by vm_compute|]. assert (Hw : forall n, n ∈ event_tbl booted -> OSEventWait n = ps_empty).
    { assert (Hb : forallb (fun v => bool_decide (ps_grp (OSEventWait v) = 0) && bool_decide (ps_tbl (OSEventWait v) = [0; 0; 0])) (event_tbl booted) = true) by by vm_compute.
      rewrite forallb_forall in Hb. intros v Hv. apply list_elem_of_In in Hv. specialize (Hb v Hv).
      apply andb_prop in Hb as [H1 H2]. apply bool_decide_eq_true in H1, H2. destruct (OSEventWait v). cbn in *. by subst. }
    apply Forall_forall. intros v Hv. rewrite (Hw v Hv). apply (pr_wf _ ∅). apply ps_check_repr. by vm_compute.
  - exists [INIT_TASK_PRIORITY; OS_TASK_STAT_PRIO], (seq 3 9). constructor.
    + cbn [tcb_chain]. exists 2%nat. eexists. repeat (split; [vm_compute; reflexivity || (split; discriminate) || discriminate|]).
      exists 1%nat. eexists. repeat (split; [vm_compute; reflexivity || (split; discriminate) || discriminate|]).
      exists 0%nat. eexists. repeat (split; [vm_compute; reflexivity || (split; discriminate) || discriminate|]).
      vm_compute. reflexivity.
    + by vm_compute; repeat constructor; set_solver.
    + intros p. cbn [a_tasks k_boot]. split.
      * intros [->|H]%elem_of_cons; [|apply list_elem_of_singleton in H as ->]; (split; [done|by vm_compute; eexists]).
      * intros [Hp [t Ht]]. apply boot_lookup in Ht as [_ [-> | [-> | ->]]]; [set_solver..|done].
    + cbn [free_chain seq]. repeat (split; [vm_compute; reflexivity|]; eexists; split; [vm_compute; reflexivity|]).
      vm_compute. reflexivity.
    + apply NoDup_seq.
    + intros i p Hi Hp. assert (Hc : forallb (fun x => match x with TcbAt j => (j <? 3)%nat | _ => true end) (prio_tbl booted) = true) by by vm_compute.
      rewrite forallb_forall in Hc. apply list_elem_of_lookup_2, list_elem_of_In in Hp. specialize (Hc _ Hp). apply elem_of_seq in Hi.
      apply Nat.ltb_lt in Hc. lia.
    + by vm_compute.
    + vm_compute. lia.
  - apply ev_check_chain. by vm_compute.
Qed.

Lemma boot_core : kcore k_boot.
Proof.
  constructor.
  - intros p. split.
    + cbn [a_ready k_boot]. rewrite !elem_of_union, !elem_of_singleton. intros Hp. exists new_task. split; [|done].
      destruct Hp as [[-> | ->] | ->]; by vm_compute.
    + intros (t & [_ Hp]%boot_lookup & _). cbn [a_ready k_boot]. set_solver.
  - intros e v p. cbn. by rewrite lookup_empty.
  - intros p t e [-> _]%boot_lookup [H _]. done.
  - intros p t [-> Hp]%boot_lookup. split; [|apply new_task_ok].
    destruct Hp as [-> | [-> | ->]]; by vm_compute.
  - intros e v. cbn. by rewrite lookup_empty.
  - intros e [v H]. cbn in H. by rewrite lookup_empty in H.
  - split; [apply NoDup_seq|]. intros e He. apply elem_of_seq in He. lia.
  - by vm_compute.
Qed.

Lemma boot_inv : kinv k_boot.
Proof.
  constructor; try (cbn; lia).
  - apply boot_core.
  - by vm_compute; eexists.
  - intros _ _. by vm_compute.
  - intros t [-> _]%boot_lookup H. done.
Qed.
