(* ===== verification/KernelTokens.v ===== *)
(** * KernelTokens

    The ledger of a semaphore: tokens move by posts and pends, and by OSSemSet and
    OSTaskDel in a stated way.  Delays end at their tick. *)

From stdpp Require Import gmap.
From S2P Require Import Prelude PrioSet KernelData Kernel KernelSem KernelSpec KernelInv KernelLife KernelRefine KernelSemOps KernelTickOps KernelWakeOps KernelSafe.

(** ** Tokens *)

(** The task was given a token of [e], and has not returned from OSSemPend yet. *)
Definition granted (e : nat) (t : Task) : bool :=
  bool_decide (tk_event t = Some e) && negb (tk_pending t) && bool_decide (tk_result t = PendOk).

Definition grants (e : nat) (k : AK) : nat := size (filter (fun pt => granted e pt.2 = true) (a_tasks k)).

(** The tokens of [e]: those in the count, and those on their way to a task. *)
Definition tokens (e : nat) (k : AK) : Z :=
  match a_sems k !! e with Some v => sm_cnt v | None => 0 end + Z.of_nat (grants e k).

(** The tokens of [e] that a call, with its result, takes or gives. *)
Definition taken (e : nat) (c : Call) (r : Res) : Z :=
  match c, r with
  | CPend e' _, RPend (Some err) | CReturn e', RNum err => if (e' =? e)%nat && (err =? OS_ERR_NONE) then 1 else 0
  | CAccept e', RNum cnt => if (e' =? e)%nat && (0 <? cnt) then 1 else 0
  | _, _ => 0
  end.

Definition given (e : nat) (c : Call) (r : Res) : Z :=
  match c, r with
  | CPost e', RNum err => if (e' =? e)%nat && (err =? OS_ERR_NONE) then 1 else 0
  | _, _ => 0
  end.

Fixpoint total (f : Call -> Res -> Z) (l : list Call) (rs : list Res) : Z :=
  match l, rs with c :: l, r :: rs => f c r + total f l rs | _, _ => 0 end.

(** The tokens a call adds or removes without a post or a pend: OSSemSet replaces the
    count, and a task that is deleted takes the token it was given with it. *)
Definition adjusted (e : nat) (c : Call) (r : Res) (k : AK) : Z :=
  match c, r with
  | CSet e' cnt, RNum err =>
      if (e' =? e)%nat && (err =? OS_ERR_NONE)
      then cnt - match a_sems k !! e with Some v => sm_cnt v | None => 0 end else 0
  | CTaskDel prio, RNum err =>
      if err =? OS_ERR_NONE
      then match a_tasks k !! self_or prio k with Some t => if granted e t then -1 else 0 | None => 0 end else 0
  | _, _ => 0
  end.

Fixpoint adjustments (e : nat) (l : list Call) (k : AK) : Z :=
  match l with
  | [] => 0
  | c :: l => adjusted e c (a_exec c k).1 k + adjustments e l (a_exec c k).2
  end.

(** Every call but a deletion of [e] itself. *)
Definition spares (e : nat) (c : Call) : bool :=
  match c with CSemDel e' _ => negb (e' =? e)%nat | _ => true end.

(** ** Counting *)

Lemma grants_same e k k' : (forall p, (a_tasks k' !! p ≫= fun t => if granted e t then Some tt else None) =
    (a_tasks k !! p ≫= fun t => if granted e t then Some tt else None)) -> grants e k' = grants e k.
Proof.
  intros H. unfold grants. rewrite <- !size_dom. f_equal. apply set_eq. intros p. rewrite !elem_dom_filter. cbn.
  specialize (H p). destruct (a_tasks k !! p) as [t|], (a_tasks k' !! p) as [t'|]; cbn in H.
  - split; intros (u & [= <-] & Hu); rewrite Hu in H; [exists t|exists t']; (split; [done|]);
      by destruct (granted e t), (granted e t').
  - destruct (granted e t) eqn:E; [done|]. split; intros (u & Hu & Hg); congruence.
  - destruct (granted e t') eqn:E; [done|]. split; intros (u & Hu & Hg); congruence.
  - split; intros (u & Hu & Hg); congruence.
Qed.

Lemma grants_insert e p u (m : gmap Z Task) : m !! p = None ->
  Z.of_nat (size (filter (fun pt => granted e pt.2 = true) (<[p := u]> m))) =
  Z.of_nat (size (filter (fun pt => granted e pt.2 = true) m)) + if granted e u then 1 else 0.
Proof.
  intros Hd. destruct (granted e u) eqn:Eu.
  - rewrite map_filter_insert_True by done. rewrite map_size_insert_None; [lia|].
    apply map_lookup_filter_None. by left.
  - rewrite map_filter_insert_not' by (cbn; congruence || naive_solver). lia.
Qed.

Lemma grants_delete e p t k : a_tasks k !! p = Some t ->
  Z.of_nat (grants e k) =
  Z.of_nat (grants e (set_tasks (delete p (a_tasks k)) k)) + (if granted e t then 1 else 0).
Proof.
  intros Ht. unfold grants. cbn [set_tasks a_tasks].
  rewrite <- (grants_insert e p t (delete p (a_tasks k))) by apply lookup_delete_eq.
  by rewrite insert_delete_eq, insert_id.
Qed.

Lemma grants_put e p t t' k : a_tasks k !! p = Some t ->
  Z.of_nat (grants e (a_put p t' k)) =
  Z.of_nat (grants e k) - (if granted e t then 1 else 0) + (if granted e t' then 1 else 0).
Proof.
  intros Ht. rewrite (grants_delete e p t k Ht).
  rewrite (grants_delete e p t' (a_put p t' k)) by apply lookup_insert_eq.
  unfold grants. cbn [a_put set_tasks a_tasks]. rewrite delete_insert_eq. lia.
Qed.

Lemma tokens_fields e k k' : a_tasks k' = a_tasks k -> a_sems k' = a_sems k -> tokens e k' = tokens e k.
Proof. intros E1 E2. unfold tokens, grants. by rewrite E1, E2. Qed.

Lemma tokens_sched e k : tokens e (a_sched k) = tokens e k.
Proof. unfold a_sched. destruct (_ && _); [|done]. by destruct (least (a_ready k)). Qed.

(** A change of a task. *)
Lemma tokens_put e p t t' k k' : a_tasks k !! p = Some t -> a_tasks k' = a_tasks (a_put p t' k) -> a_sems k' = a_sems k ->
  tokens e k' = tokens e k - (if granted e t then 1 else 0) + (if granted e t' then 1 else 0).
Proof.
  intros Ht E1 E2. rewrite (tokens_fields e (a_put p t' k) k') by done. unfold tokens.
  rewrite (grants_put e p t t' k Ht). cbn [a_sems a_put set_tasks]. lia.
Qed.

(** A new wait list, and a new count. *)
Lemma tokens_ev e e' v v' k : a_sems k !! e' = Some v ->
  tokens e (a_ev e' v' k) = tokens e k + (if (e' =? e)%nat then sm_cnt v' - sm_cnt v else 0).
Proof.
  intros Ev. unfold tokens, grants. cbn [a_sems a_ev set_sems a_tasks]. destruct (Nat.eqb_spec e' e) as [->|Hne].
  - rewrite lookup_insert_eq, Ev. lia.
  - rewrite lookup_insert_ne by done. lia.
Qed.

Lemma granted_waits e e' t : waits e' t -> granted e t = false.
Proof.
  intros [He Hw]. unfold granted. destruct Hw as [Hw|Hw]; rewrite Hw; [|rewrite (bool_decide_eq_false_2 (PendTimeout = PendOk)) by done];
    by rewrite ?andb_false_r.
Qed.

Lemma granted_event e t : tk_event t = None -> granted e t = false.
Proof. intros H. unfold granted. by rewrite H. Qed.

Lemma granted_result e t : tk_result t <> PendOk -> granted e t = false.
Proof. intros H. unfold granted. rewrite (bool_decide_eq_false_2 (tk_result t = PendOk)) by done. by rewrite andb_false_r. Qed.

Lemma granted_ok e t : granted e (mkTask false (tk_susp t) PendOk 0 (tk_event t)) = bool_decide (tk_event t = Some e).
Proof. unfold granted. cbn. by rewrite !andb_true_r. Qed.

Section Wake.
Context (e : nat) (k : AK) (C : kcore k).

Lemma tokens_wake e' r v : a_sems k !! e' = Some v -> sm_wait v <> ∅ -> r <> PendTimeout ->
  tokens e (a_wake e' r k) = tokens e k + (if (e' =? e)%nat && bool_decide (r = PendOk) then 1 else 0).
Proof using C.
  intros Ev Hne Hr. unfold a_wake. rewrite Ev. pose proof (least_spec (sm_wait v)) as Hl.
  destruct (least (sm_wait v)) as [p|]; [|done]. destruct Hl as [Hp _].
  apply (kc_wait k C e' v p Ev) in Hp as (t & Ht & Hw). rewrite Ht.
  set (k1 := if tk_susp t then a_put p (woken_by r t) k else set_ready ({[p]} ∪ a_ready (a_put p (woken_by r t) k)) (a_put p (woken_by r t) k)).
  assert (E1 : a_tasks k1 = a_tasks (a_put p (woken_by r t) k) /\ a_sems k1 = a_sems k) by (unfold k1; by destruct (tk_susp t)).
  destruct E1 as [E1 E2]. rewrite (tokens_ev e e' v) by (by rewrite E2). cbn [sm_cnt].
  rewrite (tokens_put e p t (woken_by r t) k k1) by done. rewrite (granted_waits e e' t Hw).
  destruct Hw as [He _]. destruct r; [|done|].
  - unfold woken_by. rewrite granted_ok, He. rewrite (bool_decide_eq_true_2 (PendOk = PendOk)) by done.
    destruct (Nat.eqb_spec e' e) as [->|Hn]; [rewrite bool_decide_eq_true_2 by done; cbn; lia|].
    rewrite bool_decide_eq_false_2 by congruence. cbn. lia.
  - rewrite (granted_result e (woken_by PendAborted t)) by done.
    rewrite (bool_decide_eq_false_2 (PendAborted = PendOk)) by done. rewrite andb_false_r. destruct (_ =? _)%nat; lia.
Qed.

Lemma tokens_wake_all e' r : r = PendAborted \/ e' <> e -> tokens e (a_wake_all e' r k) = tokens e k.
Proof using C.
  intros Hr. destruct (a_sems k !! e') as [v|] eqn:Ev; [|unfold a_wake_all; by rewrite Ev].
  unfold tokens. rewrite (grants_same e k (a_wake_all e' r k)).
  - f_equal. unfold a_wake_all. rewrite Ev. cbn. destruct (decide (e = e')) as [->|].
    + by rewrite lookup_insert_eq, Ev.
    + by rewrite lookup_insert_ne.
  - intros p. rewrite (wake_all_lookup e' r k v p Ev). destruct (a_tasks k !! p) as [t|] eqn:Et; [|done]. cbn.
    destruct (decide (p ∈ sm_wait v)) as [Hp|]; [|done]. apply (kc_wait k C e' v p Ev) in Hp as (u & Hu & Hw).
    assert (u = t) as -> by congruence. rewrite (granted_waits e e' t Hw).
    destruct Hr as [->|Hne]; [by rewrite (granted_result e (woken_by PendAborted t))|].
    destruct Hw as [He _]. unfold granted. cbn. rewrite He. by rewrite bool_decide_eq_false_2 by congruence.
Qed.
End Wake.

Lemma granted_same e t t' : tk_event t' = tk_event t -> tk_pending t' = tk_pending t -> tk_result t' = tk_result t ->
  granted e t' = granted e t.
Proof. intros E1 E2 E3. unfold granted. by rewrite E1, E2, E3. Qed.

Lemma granted_expire e t : task_ok t -> tk_dly t <> 0 -> granted e (expire t) = granted e t.
Proof.
  intros [T1 T2 T3 T4 T5] Hd. destruct (tk_pending t) eqn:Ep.
  - transitivity false; [apply granted_result; cbn; by rewrite Ep|]. unfold granted. rewrite Ep. by rewrite andb_false_r.
  - assert (Hev : tk_event t = None) by (destruct (tk_event t); [by specialize (T2 ltac:(done) eq_refl)|done]).
    by rewrite !granted_event.
Qed.

Lemma granted_tick e t : task_ok t -> granted e (tick1 t) = granted e t.
Proof.
  intros Hok. unfold tick1. destruct (Z.eqb_spec (tk_dly t) 0); [done|].
  destruct (tk_dly t =? 1); [by apply granted_expire|by apply granted_same].
Qed.

(** ** One call *)

Section Balance.
Context (e : nat) (k : AK) (HI : kinv k) (v : Sem) (Ev : a_sems k !! e = Some v).
Let C : kcore k := ki_core k HI.

(** The tokens after [c], with what it took and gave. *)
Definition balanced (c : Call) : Prop :=
  is_Some (a_sems (a_exec c k).2 !! e) /\
  tokens e (a_exec c k).2 + taken e c (a_exec c k).1 = tokens e k + given e c (a_exec c k).1.

Lemma sched_sems k1 : a_sems (a_sched k1) = a_sems k1.
Proof using Type. unfold a_sched. destruct (_ && _); [|done]. by destruct (least (a_ready k1)). Qed.

Lemma sems_ev e' w w' k1 : a_sems k1 = a_sems k -> a_sems k !! e' = Some w -> is_Some (a_sems (a_ev e' w' k1) !! e).
Proof using Ev.
  intros E Ew. cbn. rewrite E. destruct (decide (e = e')) as [->|]; [by rewrite lookup_insert_eq|].
  rewrite lookup_insert_ne by done. by rewrite Ev.
Qed.

Lemma unchanged c : (a_exec c k).2 = k -> taken e c (a_exec c k).1 = given e c (a_exec c k).1 -> balanced c.
Proof using Ev. intros E1 E2. unfold balanced. rewrite E1, E2. split; [by rewrite Ev|done]. Qed.

(** The error codes are not OS_ERR_NONE. *)
Ltac codes := cbn [fst snd Z.eqb Pos.eqb OS_ERR_NONE OS_ERR_EVENT_TYPE OS_ERR_PEND_ISR OS_ERR_PEND_LOCKED OS_ERR_SEM_OVF
  OS_ERR_TIMEOUT OS_ERR_PEND_ABORT]; rewrite ?andb_false_r, ?andb_true_r.

Lemma unch x y : x = y -> is_Some (a_sems k !! e) /\ tokens e k + x = tokens e k + y.
Proof using Ev. intros ->. split; [by rewrite Ev|done]. Qed.

Lemma balanced_post e' w : a_sems k !! e' = Some w -> balanced (CPost e').
Proof using All.
  intros Ew. unfold balanced. cbn [a_exec out taken given fst snd]. unfold a_post. rewrite Ew.
  destruct (sm_type w =? OS_EVENT_TYPE_SEM); cbn [negb]; [|codes; split; [by rewrite Ev|lia]].
  destruct (bool_decide_reflect (sm_wait w = ∅)) as [Hw|Hw]; cbn [negb].
  - destruct (sm_cnt w <? 65535); codes; [|split; [by rewrite Ev|lia]].
    split; [by eapply sems_ev|]. rewrite (tokens_ev e e' w) by done. cbn [sm_cnt]. destruct (e' =? e)%nat; lia.
  - codes. split.
    + rewrite sched_sems. unfold a_wake. rewrite Ew. destruct (wait_least k e' w C Ew Hw) as (p & t & -> & -> & _).
      destruct (tk_susp t); by eapply sems_ev.
    + rewrite tokens_sched, (tokens_wake e k C e' PendOk w) by done.
      rewrite (bool_decide_eq_true_2 (PendOk = PendOk)) by done. codes. lia.
Qed.

Lemma balanced_accept e' w : a_sems k !! e' = Some w -> balanced (CAccept e').
Proof using All.
  intros Ew. unfold balanced. cbn [a_exec out taken given fst snd]. unfold a_accept. rewrite Ew.
  destruct (negb _); cbn [fst snd]; [codes; split; [by rewrite Ev|lia]|].
  destruct (Z.ltb_spec 0 (sm_cnt w)); [|codes; split; [by rewrite Ev|lia]].
  split; [by eapply sems_ev|]. rewrite (tokens_ev e e' w) by done. cbn [sm_cnt]. codes. destruct (e' =? e)%nat; lia.
Qed.

(** OSSemSet and OSTaskDel are balanced once the ledger is adjusted. *)
Definition settled (c : Call) : Prop :=
  is_Some (a_sems (a_exec c k).2 !! e) /\
  tokens e (a_exec c k).2 + taken e c (a_exec c k).1 =
  tokens e k + given e c (a_exec c k).1 + adjusted e c (a_exec c k).1 k.

Lemma settled_set e' cnt w : a_sems k !! e' = Some w -> settled (CSet e' cnt).
Proof using All.
  intros Ew. unfold settled. cbn [a_exec out taken given adjusted fst snd]. unfold a_set. rewrite Ew.
  destruct (negb _); [codes; split; [by rewrite Ev|lia]|].
  destruct (_ || _); cbn [fst snd]; [|change (OS_ERR_TASK_WAITING =? OS_ERR_NONE) with false; codes; split; [by rewrite Ev|lia]].
  split; [by eapply sems_ev|]. rewrite (tokens_ev e e' w) by done. codes. cbn [sm_cnt].
  destruct (Nat.eqb_spec e' e) as [->|]; [|lia]. rewrite Ew. lia.
Qed.

Lemma unwait_same p t : a_tasks (a_unwait p t k) = a_tasks k /\ is_Some (a_sems (a_unwait p t k) !! e) /\
  tokens e (a_unwait p t k) = tokens e k.
Proof using Ev.
  unfold a_unwait. destruct (tk_event t) as [e'|]; [|by rewrite Ev]. destruct (a_sems k !! e') as [w|] eqn:Ew; [|by rewrite Ev].
  split; [done|]. split; [by eapply sems_ev|]. rewrite (tokens_ev e e' w) by done. cbn [sm_cnt]. destruct (e' =? e)%nat; lia.
Qed.

Lemma settled_task_del prio : settled (CTaskDel prio).
Proof using All.
  unfold settled. cbn [a_exec out taken given adjusted fst snd]. unfold a_task_del.
  destruct (0 <? a_int k); [cbn; split; [by rewrite Ev|lia]|].
  destruct (prio =? OS_TASK_IDLE_PRIO); [cbn; split; [by rewrite Ev|lia]|].
  destruct (_ && _); [cbn; split; [by rewrite Ev|lia]|]. fold (self_or prio k). set (p := self_or prio k).
  destruct (a_tasks k !! p) as [t|] eqn:Et; [|cbn; split; [by rewrite Ev|lia]]. cbn [fst snd Z.eqb OS_ERR_NONE].
  destruct (unwait_same p t) as (E1 & E2 & E3). rewrite sched_sems, tokens_sched. split; [done|].
  set (k1 := a_unwait p t k) in *. pose proof (grants_delete e p t k1) as Hg. rewrite E1 in Hg. specialize (Hg Et).
  rewrite (tokens_fields e (set_tasks (delete p (a_tasks k)) k1)) by (cbn; congruence).
  rewrite <- E3. unfold tokens. cbn [a_sems set_tasks]. destruct (granted e t); lia.
Qed.

Lemma balanced_sem_create cnt : balanced (CSemCreate cnt).
Proof using All.
  unfold balanced. cbn [a_exec out taken given fst snd]. unfold a_sem_create.
  destruct (0 <? a_int k); [by apply unch|]. destruct (a_free_ev k) as [|e' l] eqn:El; [by apply unch|].
  assert (Hne : e' <> e).
  { intros ->. apply (proj2 (kc_sem k C e ltac:(by rewrite Ev))). rewrite El. by left. }
  cbn [fst snd]. unfold tokens, grants. cbn. rewrite lookup_insert_ne by done. rewrite Ev. split; [done|lia].
Qed.

Lemma free_same e' k1 : e' <> e -> a_sems (a_free e' k1) !! e = a_sems k1 !! e /\ tokens e (a_free e' k1) = tokens e k1.
Proof using Type. intros Hne. unfold tokens, grants. cbn. by rewrite lookup_delete_ne. Qed.

Lemma balanced_sem_del e' opt w : a_sems k !! e' = Some w -> e' <> e -> balanced (CSemDel e' opt).
Proof using All.
  intros Ew Hne. unfold balanced. cbn [a_exec out taken given fst snd]. unfold a_sem_del. rewrite Ew.
  destruct (negb _); [by apply unch|]. destruct (0 <? a_int k); [by apply unch|].
  assert (Hk : is_Some (a_sems (a_free e' k) !! e) /\ tokens e (a_free e' k) + 0 = tokens e k + 0).
  { destruct (free_same e' k Hne) as [-> ->]. by apply unch. }
  destruct (opt =? OS_DEL_NO_PEND); [destruct (bool_decide _); [done|by apply unch]|].
  destruct (opt =? OS_DEL_ALWAYS); [|by apply unch]. destruct (bool_decide _); [done|]. cbn [fst snd].
  rewrite sched_sems, tokens_sched. destruct (free_same e' (a_wake_all e' PendOk k) Hne) as [-> ->].
  rewrite tokens_wake_all by (done || by right). split; [|done]. unfold a_wake_all. rewrite Ew. by eapply sems_ev.
Qed.

Lemma balanced_abort e' opt w : a_sems k !! e' = Some w -> balanced (CAbort e' opt).
Proof using All.
  intros Ew. unfold balanced. cbn [a_exec out taken given fst snd]. unfold a_abort. rewrite Ew.
  destruct (negb _); [by apply unch|].
  destruct (bool_decide_reflect (sm_wait w = ∅)) as [Hw|Hw]; [by apply unch|].
  destruct (opt =? OS_PEND_OPT_BROADCAST); cbn [fst snd]; rewrite tokens_sched, sched_sems.
  - rewrite tokens_wake_all by (done || by left). split; [|done]. unfold a_wake_all. rewrite Ew. by eapply sems_ev.
  - rewrite (tokens_wake e k C e' PendAborted w) by done. rewrite (bool_decide_eq_false_2 (PendAborted = PendOk)) by done.
    split; [|codes; lia]. unfold a_wake. rewrite Ew. destruct (wait_least k e' w C Ew Hw) as (p & t & -> & -> & _).
    destruct (tk_susp t); by eapply sems_ev.
Qed.

(** The record of [p] changes, but not the tokens on their way. *)
Lemma balanced_task c p t t' k1 : a_tasks k !! p = Some t -> granted e t' = granted e t ->
  a_tasks k1 = a_tasks (a_put p t' k) -> a_sems k1 = a_sems k ->
  a_tasks (a_exec c k).2 = a_tasks k1 -> a_sems (a_exec c k).2 = a_sems k1 ->
  taken e c (a_exec c k).1 = given e c (a_exec c k).1 -> balanced c.
Proof using Ev.
  intros Ht Hg E1 E2 E3 E4 E5. unfold balanced. rewrite E4, E2, E5. split; [by rewrite Ev|]. f_equal.
  rewrite (tokens_fields e k1) by done. rewrite (tokens_put e p t t' k k1) by done. rewrite Hg. lia.
Qed.

Lemma balanced_pend e' timeout t w : a_sems k !! e' = Some w -> a_tasks k !! a_cur k = Some t ->
  0 < a_int k \/ tk_event t = None -> balanced (CPend e' timeout).
Proof using All.
  intros Ew Et Hev. unfold balanced. cbn [a_exec out taken given fst snd]. unfold a_pend. rewrite Ew.
  destruct (negb _); cbn [fst snd]; [codes; split; [by rewrite Ev|lia]|].
  destruct (Z.ltb_spec 0 (a_int k)); cbn [fst snd]; [codes; split; [by rewrite Ev|lia]|].
  destruct (0 <? a_lock k); cbn [fst snd]; [codes; split; [by rewrite Ev|lia]|].
  destruct (Z.ltb_spec 0 (sm_cnt w)); cbn [fst snd].
  - codes. split; [by eapply sems_ev|]. rewrite (tokens_ev e e' w) by done. cbn [sm_cnt]. destruct (e' =? e)%nat; lia.
  - rewrite tokens_sched, sched_sems. unfold a_wait. rewrite Ew, Et. split; [by eapply sems_ev|].
    rewrite (tokens_ev e e' w) by done. set (t' := mkTask true _ _ _ _).
    rewrite (tokens_put e (a_cur k) t t' k) by done. rewrite (granted_event e t) by (destruct Hev; [lia|done]).
    cbn [sm_cnt]. assert (granted e t' = false) as -> by (unfold granted; cbn; by rewrite andb_false_r).
    destruct (e' =? e)%nat; lia.
Qed.

Lemma balanced_return e' t : a_tasks k !! a_cur k = Some t -> tk_event t = Some e' -> balanced (CReturn e').
Proof using All.
  intros Et He. destruct (ki_resume k HI t Et) as [_ Hp]; [by rewrite He|].
  unfold balanced. cbn [a_exec out taken given fst snd]. unfold a_resume. rewrite Et.
  set (t' := mkTask false false PendOk (tk_dly t) None). assert (Hg' : granted e t' = false) by done.
  destruct (tk_result t) eqn:Er; cbn [fst snd].
  - codes. split; [cbn; by rewrite Ev|]. rewrite (tokens_put e (a_cur k) t t' k) by done. rewrite Hg'.
    unfold granted. rewrite He, Hp, Er. cbn [negb]. rewrite (bool_decide_eq_true_2 (PendOk = PendOk)), !andb_true_r by done.
    destruct (Nat.eqb_spec e' e) as [->|]; [by rewrite bool_decide_eq_true_2; [lia|]|rewrite bool_decide_eq_false_2 by congruence; lia].
  - codes. assert (Hg : granted e t = false) by (apply granted_result; congruence).
    unfold a_unwait. rewrite He. cbn [a_sems a_put set_tasks]. destruct (a_sems k !! e') as [w|] eqn:Ew.
    + split; [by eapply sems_ev|]. rewrite (tokens_ev e e' w) by done. rewrite (tokens_put e (a_cur k) t t' k) by done.
      rewrite Hg, Hg'. cbn [sm_cnt]. destruct (e' =? e)%nat; lia.
    + split; [cbn; by rewrite Ev|]. rewrite (tokens_put e (a_cur k) t t' k) by done. rewrite Hg, Hg'. lia.
  - codes. assert (Hg : granted e t = false) by (apply granted_result; congruence).
    split; [cbn; by rewrite Ev|]. rewrite (tokens_put e (a_cur k) t t' k) by done. rewrite Hg, Hg'. lia.
Qed.

(** Neither the tokens on their way nor the semaphores change. *)
Lemma balanced_plain c : grants e (a_exec c k).2 = grants e k -> a_sems (a_exec c k).2 = a_sems k ->
  taken e c (a_exec c k).1 = given e c (a_exec c k).1 -> balanced c.
Proof using Ev.
  intros E1 E2 E3. unfold balanced, tokens. rewrite E1, E2, E3. split; [by rewrite Ev|done].
Qed.

Lemma grants_sched k1 : grants e (a_sched k1) = grants e k1.
Proof using Type. unfold a_sched. destruct (_ && _); [|done]. by destruct (least (a_ready k1)). Qed.

Lemma grants_task p t t' : a_tasks k !! p = Some t -> granted e t' = granted e t ->
  grants e (a_put p t' k) = grants e k.
Proof using Type. intros Ht Hg. apply Nat2Z.inj. rewrite (grants_put e p t t' k Ht), Hg. lia. Qed.

Lemma grants_ready X k1 : grants e (set_ready X k1) = grants e k1.
Proof using Type. done. Qed.

Lemma balanced_delay ticks : balanced (CDelay ticks).
Proof using All.
  apply balanced_plain; [| |done]; cbn [a_exec snd]; unfold a_delay; destruct (_ || _); try done;
    destruct (a_tasks k !! a_cur k) as [t|] eqn:Et; try done; rewrite ?grants_sched, ?sched_sems, ?grants_ready; [|done].
  by apply (grants_task _ t).
Qed.

Lemma balanced_delay_resume prio : balanced (CDelayResume prio).
Proof using All.
  apply balanced_plain; [| |done]; cbn [a_exec out snd]; unfold a_dly_resume; destruct (_ <=? _); try done;
    destruct (a_tasks k !! prio) as [t|] eqn:Et; try done; destruct (Z.eqb_spec (tk_dly t) 0); try done; cbn [snd];
    destruct (tk_susp t); rewrite ?grants_sched, ?sched_sems, ?grants_ready; try done;
    apply (grants_task _ t); try done; (apply granted_expire; [by apply (kc_task k C prio t)|done]).
Qed.

Lemma balanced_suspend prio : balanced (CSuspend prio).
Proof using All.
  apply balanced_plain; [| |done]; cbn [a_exec out snd]; unfold a_suspend; destruct (_ =? _); try done;
    destruct ((_ <=? _) && _); try done; fold (self_or prio k); set (p := self_or prio k);
    destruct (a_tasks k !! p) as [t|] eqn:Et; try done; cbn [snd];
    destruct (p =? a_cur k); rewrite ?grants_sched, ?sched_sems, ?grants_ready; try done; by apply (grants_task _ t).
Qed.

Lemma balanced_resume prio : balanced (CResume prio).
Proof using All.
  apply balanced_plain; [| |done]; cbn [a_exec out snd]; unfold a_unsuspend; destruct (_ <=? _); try done;
    destruct (a_tasks k !! prio) as [t|] eqn:Et; try done; destruct (negb _); try done; cbn [snd];
    destruct (tk_ready _); rewrite ?grants_sched, ?sched_sems, ?grants_ready; try done; by apply (grants_task _ t).
Qed.

Lemma balanced_task_create prio : balanced (CTaskCreate prio).
Proof using All.
  apply balanced_plain; [| |done]; cbn [a_exec out snd]; unfold a_task_create; destruct (_ <? _); try done;
    destruct (_ <? _); try done; destruct (a_tasks k !! prio) as [t|] eqn:Et; try done; destruct (a_free_tcb k); try done;
    cbn [snd]; rewrite ?grants_sched, ?sched_sems, ?grants_ready; [|done].
  apply (grants_same e k). intros q. cbn. destruct (decide (q = prio)) as [->|]; [by rewrite lookup_insert_eq, Et|].
  by rewrite lookup_insert_ne.
Qed.

Lemma balanced_tick : balanced CTick.
Proof using All.
  apply balanced_plain; [| |done]; [|done]. apply (grants_same e k). intros q. cbn. rewrite lookup_fmap.
  destruct (a_tasks k !! q) as [t|] eqn:Et; [|done]. cbn. rewrite granted_tick; [done|]. by apply (kc_task k C q t).
Qed.

Lemma balanced_other c : match c with CLock | CUnlock | CEnter | CExit => True | _ => False end -> balanced c.
Proof using All.
  intros Hc. apply balanced_plain; destruct c; try done; cbn [a_exec snd]; unfold a_lock_sched, a_unlock_sched, a_enter, a_exit;
    repeat case_match; rewrite ?grants_sched, ?sched_sems; done.
Qed.

Lemma balanced_settled c : balanced c -> adjusted e c (a_exec c k).1 k = 0 -> settled c.
Proof using Type. intros [Hs Hb] Ha. split; [done|]. lia. Qed.

Lemma legal_settled c : legal c k = true -> spares e c = true -> settled c.
Proof using All.
  intros Hl Hf. destruct (ki_cur k HI) as [t Et]. destruct c; cbn [legal spares] in *;
    try (apply balanced_settled; [|done]);
    eauto using balanced_delay, balanced_delay_resume, balanced_suspend, balanced_resume, balanced_task_create, balanced_tick,
      balanced_sem_create, settled_task_del;
    try (by apply balanced_other).
  - apply andb_prop in Hl as [[Hc Hs]%andb_prop _]. destruct (sem_ok_get k e0 Hs) as [w Ew].
    apply (balanced_pend e0 timeout t w); try done. destruct (caller_cases k t HI Et Hc) as [|[? _]]; [by left|by right].
  - apply andb_prop in Hl as [[_ Hc]%andb_prop _]. apply bool_decide_eq_true in Hc. unfold cur_event in Hc. rewrite Et in Hc.
    by apply (balanced_return e0 t).
  - apply andb_prop in Hl as [_ Hs]. destruct (sem_ok_get k e0 Hs) as [w Ew]. by apply (balanced_post e0 w).
  - apply andb_prop in Hl as [_ Hs]. destruct (sem_ok_get k e0 Hs) as [w Ew]. by apply (balanced_accept e0 w).
  - apply andb_prop in Hl as [[_ Hs]%andb_prop _]. destruct (sem_ok_get k e0 Hs) as [w Ew]. by apply (settled_set e0 cnt w).
  - apply andb_prop in Hl as [_ Hs]. destruct (sem_ok_get k e0 Hs) as [w Ew]. by apply (balanced_abort e0 opt w).
  - apply andb_prop in Hl as [_ Hs]. destruct (sem_ok_get k e0 Hs) as [w Ew]. apply (balanced_sem_del e0 opt w); [done|by apply Nat.eqb_neq, negb_true_iff].
Qed.
End Balance.

(** ** Sequences of calls *)

Lemma tokens_kept e : forall l s k, repr s k -> kinv k -> is_Some (a_sems k !! e) -> legal_all l k = true ->
  forallb (spares e) l = true ->
  tokens e (a_exec_all l k).2 + total (taken e) l (a_exec_all l k).1 =
  tokens e k + total (given e) l (a_exec_all l k).1 + adjustments e l k.
Proof.
  induction l as [|c l IH]; intros s k Hr HI Hs; cbn [legal_all forallb a_exec_all total adjustments fst snd]; [lia|].
  intros [Hc Hl]%andb_prop [Hfc Hfl]%andb_prop. destruct Hs as [v Ev].
  destruct (legal_good s k Hr HI c Hc) as [HI1 (s1 & _ & H1)].
  destruct (legal_settled e k HI v Ev c Hc Hfc) as [Hs1 Hb]. specialize (IH s1 _ H1 HI1 Hs1 Hl Hfl). lia.
Qed.

(** ** Ticks *)

(** [n] timer interrupts. *)
Fixpoint ticks (n : nat) : list Call := match n with O => [] | S n => CEnter :: CTick :: CExit :: ticks n end.

Lemma tick_round k : 0 <= a_int k < 255 -> legal_all [CEnter; CTick; CExit] k = true /\
  a_tasks (a_exec_all [CEnter; CTick; CExit] k).2 = tick1 <$> a_tasks k /\
  a_int (a_exec_all [CEnter; CTick; CExit] k).2 = a_int k.
Proof.
  intros Hi. cbn [legal_all legal a_exec_all a_exec snd]. unfold a_enter. rewrite (proj2 (Z.ltb_lt (a_int k) 255)) by lia.
  cbn [a_int a_tick set_ready set_tasks set_int]. rewrite (proj2 (Z.ltb_lt 0 (a_int k + 1))) by lia.
  split; [done|]. unfold a_exit. cbn [a_int a_tick set_ready set_tasks set_int].
  rewrite (proj2 (Z.ltb_lt 0 (a_int k + 1))) by lia. unfold a_sched. cbn [a_int set_int].
  destruct (_ && _); [destruct (least _)|]; cbn; (split; [done|lia]).
Qed.

Lemma ticks_tasks n : forall k, 0 <= a_int k < 255 -> legal_all (ticks n) k = true /\
  forall p, a_tasks (a_exec_all (ticks n) k).2 !! p = Nat.iter n tick1 <$> a_tasks k !! p.
Proof.
  induction n as [|n IH]; intros k Hi; [split; [done|]; intros p; cbn; by destruct (a_tasks k !! p)|].
  destruct (tick_round k Hi) as (L1 & L2 & L3). set (k1 := (a_exec_all [CEnter; CTick; CExit] k).2) in *.
  destruct (IH k1) as [L4 L5]; [by rewrite L3|].
  assert (E1 : a_exec_all (ticks (S n)) k = ((a_exec_all [CEnter; CTick; CExit] k).1 ++ (a_exec_all (ticks n) k1).1, (a_exec_all (ticks n) k1).2)) by done.
  split.
  - change (ticks (S n)) with (CEnter :: CTick :: CExit :: ticks n). cbn [legal_all] in L1 |- *.
    apply andb_prop in L1 as [-> L1]. apply andb_prop in L1 as [-> L1]. apply andb_prop in L1 as [-> _]. exact L4.
  - intros p. rewrite E1. cbn [snd]. rewrite L5, L2, lookup_fmap. destruct (a_tasks k !! p) as [t|]; [|done].
    cbn [fmap option_fmap option_map]. by rewrite Nat.iter_succ_r.
Qed.

(** A task counts its ticks down, then its delay is over. *)
Lemma iter_tick t : 0 < tk_dly t -> forall m, tk_ready (Nat.iter m tick1 t) =
  negb (tk_susp t) && (tk_dly t <=? Z.of_nat m).
Proof.
  intros Hd. assert (H : forall m, (Z.of_nat m < tk_dly t -> Nat.iter m tick1 t =
      mkTask (tk_pending t) (tk_susp t) (tk_result t) (tk_dly t - Z.of_nat m) (tk_event t)) /\
    (tk_dly t <= Z.of_nat m -> Nat.iter m tick1 t = expire t)).
  { induction m as [|m [IH1 IH2]].
    - change (Nat.iter 0 tick1 t) with t. split; [|lia]. intros _. rewrite Z.sub_0_r. by destruct t.
    - change (Nat.iter (S m) tick1 t) with (tick1 (Nat.iter m tick1 t)). split; intros Hm.
      + rewrite IH1 by lia. unfold tick1. cbn [tk_dly]. rewrite !(proj2 (Z.eqb_neq _ _)) by lia. cbn. f_equal. lia.
      + destruct (Z.le_gt_cases (tk_dly t) (Z.of_nat m)); [by rewrite IH2|]. rewrite IH1 by lia. unfold tick1. cbn [tk_dly].
        rewrite (proj2 (Z.eqb_neq _ _)) by lia. by rewrite (proj2 (Z.eqb_eq _ _)) by lia. }
  intros m. destruct (H m) as [H1 H2]. destruct (Z.leb_spec (tk_dly t) (Z.of_nat m)) as [Hm|Hm].
  - rewrite H2 by lia. unfold tk_ready, expire. cbn. by rewrite !andb_true_r.
  - rewrite H1 by lia. unfold tk_ready. cbn. rewrite (proj2 (Z.eqb_neq _ _)) by lia. by rewrite !andb_false_r.
Qed.

(** ** OSTimeDlyHMSM *)

Lemma hmsm_exact hours minutes seconds ms : is_u8 hours -> 0 <= minutes <= 59 -> 0 <= seconds <= 59 -> 0 <= ms <= 999 ->
  hmsm_ticks hours minutes seconds ms = ((hours * 60 + minutes) * 60 + seconds) * 1000 + ms.
Proof.
  unfold is_u8. intros Hh Hm Hs Hms. unfold hmsm_ticks, OS_TICKS_PER_SEC. unfold u32.
  rewrite (Z.mod_small (hours * 3600 + minutes * 60)) by lia. rewrite Z.mod_small by lia.
  change (500 * 2 / 1000) with 1. rewrite (Z.mul_comm 1000 (ms * 2 + 1)), Z.div_mul by lia.
  replace (_ + _) with (1 + (((hours * 60 + minutes) * 60 + seconds) * 1000 + ms) * 2) by lia.
  rewrite Z.div_add by lia. done.
Qed.

Lemma sum_loops n : foldr Z.add 0 (hmsm_loops n) = 65536 * Z.of_nat n.
Proof. induction n as [|n IH]; [done|]. cbn [hmsm_loops foldr]. rewrite IH. change (u16 32768) with 32768. lia. Qed.

Lemma loops_u16 n : Forall is_u16 (hmsm_loops n).
Proof. induction n as [|n IH]; cbn [hmsm_loops]; repeat constructor; try done; word_lia. Qed.
