(* ===== verification/KernelProps.v ===== *)
(** * KernelProps

    What the kernel guarantees to the tasks, stated on its concrete state. *)

From stdpp Require Import gmap.
From S2P Require Import Prelude PrioSet KernelData Kernel KernelSem KernelSpec KernelInv KernelRefine KernelOps KernelSemOps KernelTickOps KernelTaskOps KernelSafe KernelBoot KernelTokens.

(** ** The calls of the server *)

(** main.c and network_tasks.c: the first task creates a semaphore and the tasks of
    priorities 10 and 11, then deletes itself; the second waits for the semaphore that
    the first, delayed by one tick between its rounds, posts. *)
Definition server_calls : list Call :=
  [CSemCreate 0; CTaskCreate 10; CTaskCreate 11; CTaskDel OS_PRIO_SELF; CDelay 1; CPend 0 0; CDelay 100;
   CEnter; CTick; CExit; CPost 0; CPost 0; CDelay 1; CReturn 0; CPend 0 0; CPend 0 50].

Lemma server_calls_legal : legal_all server_calls k_boot = true.
Proof. by vm_compute. Qed.

(** C31. Calls in any order that follows the rules of the kernel, from a state that
    represents an abstract one, run without undefined behaviour, return what the
    specification returns and end in a state that represents its outcome. *)
Theorem kernel_calls_refine (l : list Call) (s : OS) (k : AK) : repr s k -> kinv k -> legal_all l k = true ->
  exists s', exec_all l s = Some ((a_exec_all l k).1, s') /\ repr s' (a_exec_all l k).2 /\ kinv (a_exec_all l k).2.
Proof. apply exec_all_refines. Qed.

Lemma kernel_calls_refine_witness : exists s',
  exec_all server_calls booted = Some ((a_exec_all server_calls k_boot).1, s') /\
  repr s' (a_exec_all server_calls k_boot).2 /\ kinv (a_exec_all server_calls k_boot).2.
Proof.
  apply (kernel_calls_refine server_calls booted k_boot); [apply boot_repr|apply boot_inv|apply server_calls_legal].
Defined.

(** C32. After any such calls, outside interrupts and with the scheduler unlocked, the
    running task is the ready one of the highest priority. *)
Theorem running_task_is_highest (l : list Call) (s : OS) (k : AK) : repr s k -> kinv k -> legal_all l k = true ->
  exists rs s', exec_all l s = Some (rs, s') /\
    (int_nesting s' = 0 -> lock_nesting s' = 0 ->
       ps_mem (prio_cur s') (rdy s') = true /\ forall q, 0 <= q -> ps_mem q (rdy s') = true -> prio_cur s' <= q).
Proof.
  intros Hr HI Hl. destruct (exec_all_refines l s k Hr HI Hl) as (s' & E & H & HI').
  eexists _, s'. split; [done|]. intros Hi Hlk. pose proof (rp_core _ _ H) as R0. pose proof (rp_rdy _ _ R0) as Hrdy.
  rewrite (proj1 (rp_int _ _ R0)) in Hi. rewrite (proj1 (rp_lock _ _ R0)) in Hlk. rewrite (proj1 (rp_cur _ _ R0)).
  pose proof (least_spec (a_ready (a_exec_all l k).2)) as Hls. rewrite (ki_sched _ HI' Hi Hlk) in Hls. destruct Hls as [Hin Hmin].
  pose proof (pr_ok _ _ Hrdy _ Hin) as Hok. split.
  - rewrite (pr_mem _ _ Hrdy) by (unfold prio_ok in Hok; lia). by apply bool_decide_eq_true.
  - intros q Hq Hm. rewrite (pr_mem _ _ Hrdy) in Hm by done. apply bool_decide_eq_true in Hm. by apply Hmin.
Qed.

Lemma running_task_is_highest_witness : exists rs s', exec_all server_calls booted = Some (rs, s') /\
    (int_nesting s' = 0 -> lock_nesting s' = 0 ->
       ps_mem (prio_cur s') (rdy s') = true /\ forall q, 0 <= q -> ps_mem q (rdy s') = true -> prio_cur s' <= q).
Proof.
  apply (running_task_is_highest server_calls booted k_boot); [apply boot_repr|apply boot_inv|apply server_calls_legal].
Defined.

(** C33. The ledger of a semaphore, over any legal calls that do not delete it: the
    tokens that OSSemPend and OSSemAccept returned, those given to tasks that have yet to
    run and those left in the count are the initial ones, those posted, and what
    OSSemSet and OSTaskDel add or remove: OSSemSet replaces the count, and a task that is
    deleted between the post that woke it and its return from OSSemPend takes its token
    along.  Aborts, time-outs, suspensions, the creation and the deletion of other
    semaphores and the deletion of any other task move none. *)
Theorem semaphore_tokens_conserved (e : nat) (l : list Call) (s : OS) (k : AK) : repr s k -> kinv k ->
  is_Some (a_sems k !! e) -> legal_all l k = true -> forallb (spares e) l = true ->
  exists rs s' k', exec_all l s = Some (rs, s') /\ repr s' k' /\
    tokens e k' + total (taken e) l rs = tokens e k + total (given e) l rs + adjustments e l k.
Proof.
  intros Hr HI Hs Hl Hf. destruct (exec_all_refines l s k Hr HI Hl) as (s' & E & H & HI').
  eexists _, s', _. split; [done|]. split; [done|]. by apply (tokens_kept e l s k).
Qed.

(** The calls after the first task is gone. *)
Definition loop_calls : list Call := drop 4 server_calls.
Definition k_loop : AK := (a_exec_all (take 4 server_calls) k_boot).2.

Lemma loop_state : exists s, repr s k_loop /\ kinv k_loop.
Proof.
  destruct (exec_all_refines (take 4 server_calls) booted k_boot boot_repr boot_inv) as (s & _ & H); [by vm_compute|].
  by exists s.
Qed.

(** The task of priority 10 waits; that of priority 11 creates and deletes another
    semaphore, suspends the first, posts to it, deletes it with its token, sets the
    count to 5 and takes one. *)
Definition token_calls : list Call :=
  [CPend 0 0; CSemCreate 3; CSuspend 10; CPost 0; CSemDel 1 OS_DEL_ALWAYS; CTaskDel 10; CSet 0 5; CAccept 0].

Lemma semaphore_tokens_conserved_witness : exists s rs s' k', exec_all token_calls s = Some (rs, s') /\ repr s' k' /\
    tokens 0 k' + total (taken 0) token_calls rs = 0 + total (given 0) token_calls rs + (-1 + 5).
Proof.
  destruct loop_state as (s & Hr & HI). exists s.
  apply (semaphore_tokens_conserved 0 token_calls s k_loop); [done|done|by vm_compute; eexists|by vm_compute..].
Defined.

(** C34. A task that waits [n] ticks, delayed or with a time-out, is ready after the
    [n]th timer interrupt and not before, unless it is suspended. *)
Theorem delay_ends_at_its_tick (m : nat) (s : OS) (k : AK) (p : Z) (t : Task) : repr s k -> kinv k -> a_int k < 255 ->
  a_tasks k !! p = Some t -> 0 < tk_dly t -> exists rs s',
  exec_all (ticks m) s = Some (rs, s') /\
  ps_mem p (rdy s') = negb (tk_susp t) && (tk_dly t <=? Z.of_nat m).
Proof.
  intros Hr HI Hint Ht Hd. destruct (ticks_tasks m k) as [Hl Hm]; [pose proof (ki_int k HI); lia|].
  destruct (exec_all_refines (ticks m) s k Hr HI Hl) as (s' & E & H & HI').
  eexists _, s'. split; [done|]. pose proof (rp_rdy _ _ (rp_core _ _ H)) as Hrdy.
  destruct (kc_task k (ki_core k HI) p t Ht) as [Hok _]. rewrite (pr_mem _ _ Hrdy) by (unfold prio_ok in Hok; lia).
  rewrite <- (iter_tick t Hd m). specialize (Hm p). rewrite Ht in Hm. cbn in Hm.
  destruct (tk_ready (Nat.iter m tick1 t)) eqn:Er; [apply bool_decide_eq_true|apply bool_decide_eq_false; intros Hx];
    [|apply (kc_ready _ (ki_core _ HI')) in Hx as (u & Hu & Hru); congruence].
  apply (kc_ready _ (ki_core _ HI')). by eexists.
Qed.

(** The task of priority 11, after a delay of 100 ticks at the end of [server_calls]. *)
Definition k_delayed : AK := (a_exec_all (take 7 server_calls) k_boot).2.

Lemma delay_ends_at_its_tick_witness : exists s rs s', exec_all (ticks 1) s = Some (rs, s') /\
  ps_mem 10 (rdy s') = negb false && (1 <=? 1).
Proof.
  destruct (exec_all_refines (take 7 server_calls) booted k_boot boot_repr boot_inv) as (s & _ & Hr & HI); [by vm_compute|].
  exists s. apply (delay_ends_at_its_tick 1 s k_delayed 10 (mkTask false false PendOk 1 None)); [done|done|by vm_compute..].
Defined.

(** C35. OSTimeDlyHMSM splits a delay into calls of OSTimeDly whose arguments are 16-bit
    and add up to the number of milliseconds, one per tick: no argument of a valid call
    overflows. *)
Theorem hmsm_delay_exact (hours minutes seconds ms : Z) : is_u8 hours -> is_u8 minutes -> is_u8 seconds -> is_u16 ms ->
  match OSTimeDlyHMSM 0 hours minutes seconds ms with
  | (delays, err) =>
      if (minutes <=? 59) && (seconds <=? 59) && (ms <=? 999) then
        Forall is_u16 delays /\ foldr Z.add 0 delays = ((hours * 60 + minutes) * 60 + seconds) * 1000 + ms /\
        err = (if foldr Z.add 0 delays =? 0 then OS_ERR_TIME_ZERO_DLY else OS_ERR_NONE)
      else delays = [] /\ err <> OS_ERR_NONE
  end.
Proof.
  intros Hh Hm Hs Hms. unfold OSTimeDlyHMSM. change (0 <? 0) with false. cbv iota.
  destruct ((hours =? 0) && (minutes =? 0) && (seconds =? 0) && (ms =? 0)) eqn:E0.
  { apply andb_prop in E0 as [[[->%Z.eqb_eq ->%Z.eqb_eq]%andb_prop ->%Z.eqb_eq]%andb_prop ->%Z.eqb_eq]. by repeat constructor. }
  destruct (Z.ltb_spec 59 minutes), (Z.leb_spec minutes 59); try lia; cbn [andb]; [done|].
  destruct (Z.ltb_spec 59 seconds), (Z.leb_spec seconds 59); try lia; cbn [andb]; [done|].
  destruct (Z.ltb_spec 999 ms), (Z.leb_spec ms 999); try lia; cbn [andb]; [done|].
  assert (Hex := hmsm_exact hours minutes seconds ms Hh ltac:(unfold is_u8 in *; lia) ltac:(unfold is_u8 in *; lia) ltac:(unfold is_u16 in *; lia)).
  rewrite Hex. set (n := ((hours * 60 + minutes) * 60 + seconds) * 1000 + ms) in *.
  assert (Hn : 0 < n < 2 ^ 30) by (unfold is_u8, is_u16 in *; lia).
  change 0xFFFF with (Z.ones 16). rewrite Z.land_ones, Z.shiftr_div_pow2 by lia. change (2 ^ 16) with 65536.
  rewrite (u16_small (n mod 65536)) by (unfold is_u16; Z.div_mod_to_equations; lia).
  rewrite (u16_small (n / 65536)) by (unfold is_u16; Z.div_mod_to_equations; lia).
  cbn [foldr]. rewrite sum_loops. split; [constructor; [unfold is_u16; Z.div_mod_to_equations; lia|apply loops_u16]|].
  rewrite Z2Nat.id by (Z.div_mod_to_equations; lia).
  assert (E : n mod 65536 + 65536 * (n / 65536) = n) by (Z.div_mod_to_equations; lia).
  rewrite E. split; [done|]. by rewrite (proj2 (Z.eqb_neq n 0)) by lia.
Qed.

Lemma hmsm_delay_exact_witness : match OSTimeDlyHMSM 0 0 2 30 5 with
  | (delays, err) => Forall is_u16 delays /\ foldr Z.add 0 delays = 150005 /\ err = OS_ERR_NONE end.
Proof. apply (hmsm_delay_exact 0 2 30 5); by vm_compute. Defined.

Lemma sched_tasks k : a_tasks (a_sched k) = a_tasks k.
Proof. unfold a_sched. destruct (_ && _); [|done]. by destruct (least (a_ready k)). Qed.

(** OSSemPost wakes the waiting task of the highest priority, which leaves the wait
    list; the others keep waiting and the count stays 0. *)
Theorem post_wakes_highest (s : OS) (k : AK) (e : nat) (v : Sem) : repr s k -> kinv k -> a_sems k !! e = Some v ->
  sm_type v = OS_EVENT_TYPE_SEM -> sm_wait v <> ∅ -> exists p s' k', OSSemPost (Some e) s = Some (OS_ERR_NONE, s') /\
    repr s' k' /\ p ∈ sm_wait v /\ (forall q, q ∈ sm_wait v -> p <= q) /\
    a_sems k' !! e = Some (mkSem (sm_type v) (sm_cnt v) (sm_wait v ∖ {[p]})) /\
    exists t, a_tasks k' !! p = Some t /\ tk_pending t = false /\ tk_result t = PendOk /\ tk_dly t = 0 /\
      (tk_susp t = false -> ps_mem p (rdy s') = true).
Proof.
  intros Hr HI Ev Hty Hw. pose proof (ki_core k HI) as C. destruct (wait_least k e v C Ev Hw) as (p & t & El & Et & Hwt).
  destruct (runs_post s k Hr C e v Ev) as (s' & E & H & _). pose proof (inv_post k HI e) as HI'.
  unfold a_post in E, H, HI'. rewrite Ev, Hty in E, H, HI'. cbn [negb Z.eqb Pos.eqb OS_EVENT_TYPE_SEM] in E, H, HI'.
  rewrite bool_decide_eq_false_2 in E, H, HI' by done. cbn [negb fst snd] in E, H, HI'.
  exists p, s', (a_sched (a_wake e PendOk k)). split; [done|]. split; [done|].
  pose proof (least_spec (sm_wait v)) as Hl. rewrite El in Hl. destruct Hl as [Hp Hmin]. split; [done|]. split; [done|].
  assert (Es : a_sems (a_sched (a_wake e PendOk k)) !! e = Some (mkSem (sm_type v) (sm_cnt v) (sm_wait v ∖ {[p]})) /\
    a_tasks (a_sched (a_wake e PendOk k)) !! p = Some (woken_by PendOk t)).
  { rewrite sched_sems, sched_tasks. unfold a_wake. rewrite Ev, El, Et. destruct (tk_susp t); split; apply lookup_insert_eq. }
  destruct Es as [Es Et']. split; [done|]. exists (woken_by PendOk t). split; [done|]. do 3 (split; [done|]).
  intros Hs. destruct (kc_task k C p t Et) as [Hok _].
  rewrite (pr_mem _ _ (rp_rdy _ _ (rp_core _ _ H))) by (unfold prio_ok in Hok; lia). apply bool_decide_eq_true.
  apply (kc_ready _ (ki_core _ HI')). exists (woken_by PendOk t). split; [done|]. cbn in Hs. unfold tk_ready. cbn. by rewrite Hs.
Qed.

(** The task of priority 11 waits for the semaphore. *)
Definition waited : Sem := mkSem OS_EVENT_TYPE_SEM 0 {[11]}.
Definition k_waiting : AK := (a_exec_all (take 6 server_calls) k_boot).2.

Lemma waiting_state : exists s, repr s k_waiting /\ kinv k_waiting.
Proof.
  destruct (exec_all_refines (take 6 server_calls) booted k_boot boot_repr boot_inv) as (s & _ & H); [by vm_compute|].
  by exists s.
Qed.

Lemma waiting_sem : a_sems k_waiting !! 0%nat = Some waited.
Proof. by vm_compute. Qed.

Lemma post_wakes_highest_witness : exists s p s' k', OSSemPost (Some 0%nat) s = Some (OS_ERR_NONE, s') /\
    repr s' k' /\ p ∈ sm_wait waited /\ (forall q, q ∈ sm_wait waited -> p <= q) /\
    a_sems k' !! 0%nat = Some (mkSem (sm_type waited) (sm_cnt waited) (sm_wait waited ∖ {[p]})) /\
    exists t, a_tasks k' !! p = Some t /\ tk_pending t = false /\ tk_result t = PendOk /\ tk_dly t = 0 /\
      (tk_susp t = false -> ps_mem p (rdy s') = true).
Proof.
  destruct waiting_state as (s & Hr & HI). exists s.
  apply (post_wakes_highest s k_waiting 0 waited Hr HI waiting_sem); [done|cbn; set_solver].
Defined.

(** OSInit, the creation of the first task and OSStart succeed and leave three ready
    tasks, the first one running, no semaphore, all the events and nine blocks free. *)
Theorem boot_represents : exists s, boot zero_OS = Some (tt, s) /\ repr s k_boot /\ kinv k_boot.
Proof. exists booted. split; [apply boot_runs|]. split; [apply boot_repr|apply boot_inv]. Qed.
