(* ===== verification/KernelFrame.v ===== *)
(** * KernelFrame

    A call that is not about a semaphore leaves it alone: its count, its wait list and
    the tasks that are inside OSSemPend on it are what they were. *)

From stdpp Require Import gmap.
From S2P Require Import Prelude PrioSet KernelData Kernel KernelSem KernelSpec KernelInv KernelLife KernelRefine KernelSafe KernelTokens.

(** What the record of a task says of its OSSemPend on [e], if it is in one: whether it
    waits, how the wait ended and the ticks left. *)
Definition entry (e : nat) (t : Task) : option (bool * PendResult * Z) :=
  if bool_decide (tk_event t = Some e) then Some (tk_pending t, tk_result t, tk_dly t) else None.

Definition inside (e : nat) (k : AK) (p : Z) : option (bool * PendResult * Z) := a_tasks k !! p ≫= entry e.

(** The calls that are not about [e], nor delete a task inside OSSemPend on it. *)
Definition apart (e : nat) (c : Call) (k : AK) : bool :=
  match c with
  | CPend e' _ | CReturn e' | CPost e' | CAccept e' | CSet e' _ | CAbort e' _ | CSemDel e' _ => negb (e' =? e)%nat
  | CTaskDel prio => bool_decide (inside e k (self_or prio k) = None)
  | _ => true
  end.

Definition same_sem (e : nat) (k k' : AK) : Prop :=
  a_sems k' !! e = a_sems k !! e /\ forall p, inside e k' p = inside e k p.

#[export] Instance same_sem_refl e : Reflexive (same_sem e).
Proof. by split. Qed.
#[export] Instance same_sem_trans e : Transitive (same_sem e).
Proof. intros k1 k2 k3 [E1 H1] [E2 H2]. split; [by rewrite E2|]. intros p. by rewrite H2. Qed.

Lemma entry_none e t : tk_event t <> Some e -> entry e t = None.
Proof. intros H. unfold entry. by rewrite bool_decide_eq_false_2. Qed.

Lemma entry_some e t : tk_event t = Some e -> entry e t = Some (tk_pending t, tk_result t, tk_dly t).
Proof. intros H. unfold entry. by rewrite bool_decide_eq_true_2. Qed.

Lemma inside_lookup e k p t : a_tasks k !! p = Some t -> inside e k p = entry e t.
Proof. intros H. unfold inside. by rewrite H. Qed.

(** A task that waits for [e] is inside. *)
Lemma inside_waits e k v p : kcore k -> a_sems k !! e = Some v ->
  p ∈ sm_wait v <-> exists b r d, inside e k p = Some (b, r, d) /\ (b = true \/ r = PendTimeout).
Proof.
  intros C Ev. rewrite (kc_wait k C e v p Ev). split.
  - intros (t & Ht & [He Hw]). exists (tk_pending t), (tk_result t), (tk_dly t). split; [|done].
    rewrite (inside_lookup e k p t Ht). by apply entry_some.
  - intros (b & r & d & Hi & Hw). unfold inside in Hi. destruct (a_tasks k !! p) as [t|] eqn:Et; [|done].
    cbn in Hi. unfold entry in Hi. case_bool_decide as He; [|done]. exists t. split; [done|]. split; [done|]. naive_solver.
Qed.

Section Same.
Context (e : nat) (k : AK).

Lemma same_fields k' : a_tasks k' = a_tasks k -> a_sems k' = a_sems k -> same_sem e k k'.
Proof using Type. intros E1 E2. unfold same_sem, inside. by rewrite E1, E2. Qed.

Lemma same_sched k1 : same_sem e k k1 -> same_sem e k (a_sched k1).
Proof using Type.
  intros H. etrans; [exact H|]. unfold a_sched. destruct (_ && _); [|reflexivity].
  by destruct (least (a_ready k1)).
Qed.

Lemma same_put k1 p t t' : same_sem e k k1 -> a_tasks k1 !! p = Some t -> entry e t' = entry e t -> same_sem e k (a_put p t' k1).
Proof using Type.
  intros H Ht Ee. etrans; [exact H|]. split; [done|]. intros q. unfold inside. cbn. destruct (decide (q = p)) as [->|].
  - by rewrite lookup_insert_eq, Ht.
  - by rewrite lookup_insert_ne.
Qed.

Lemma same_ev k1 e' v' : same_sem e k k1 -> e' <> e -> same_sem e k (a_ev e' v' k1).
Proof using Type. intros H Hne. etrans; [exact H|]. split; [|done]. cbn. by rewrite lookup_insert_ne. Qed.

Lemma same_unwait k1 p t : same_sem e k k1 -> tk_event t <> Some e -> same_sem e k (a_unwait p t k1).
Proof using Type.
  intros H Hne. unfold a_unwait. destruct (tk_event t) as [e'|]; [|done]. destruct (a_sems k1 !! e') as [v|]; [|done].
  apply same_ev; [done|congruence].
Qed.

Context (C : kcore k).

Lemma same_wake e' r : e' <> e -> same_sem e k (a_wake e' r k).
Proof using C.
  intros Hne. unfold a_wake. destruct (a_sems k !! e') as [v|] eqn:Ev; [|reflexivity].
  pose proof (least_spec (sm_wait v)) as Hl. destruct (least (sm_wait v)) as [p|]; [|reflexivity].
  destruct Hl as [Hp _]. apply (kc_wait k C e' v p Ev) in Hp as (t & Ht & [He _]). rewrite Ht.
  apply same_ev; [|done]. assert (H : same_sem e k (a_put p (woken_by r t) k)).
  { apply (same_put k p t); [reflexivity|done|]. rewrite !entry_none; [done|..]; cbn; congruence. }
  by destruct (tk_susp t).
Qed.

Lemma same_wake_all e' r : e' <> e -> same_sem e k (a_wake_all e' r k).
Proof using C.
  intros Hne. destruct (a_sems k !! e') as [v|] eqn:Ev; [|unfold a_wake_all; by rewrite Ev].
  split.
  - unfold a_wake_all. rewrite Ev. cbn. by rewrite lookup_insert_ne.
  - intros p. unfold inside. rewrite (wake_all_lookup e' r k v p Ev). destruct (a_tasks k !! p) as [t|] eqn:Et; [|done]. cbn.
    destruct (decide (p ∈ sm_wait v)) as [Hp|]; [|done]. apply (kc_wait k C e' v p Ev) in Hp as (u & Hu & [He _]).
    assert (u = t) as -> by congruence. rewrite !entry_none; [done|..]; cbn; congruence.
Qed.

Lemma same_free k1 e' : same_sem e k k1 -> e' <> e -> same_sem e k (a_free e' k1).
Proof using Type. intros H Hne. etrans; [exact H|]. split; [|done]. cbn. by rewrite lookup_delete_ne. Qed.
End Same.

(** ** One call *)

Section Frame.
Context (e : nat) (k : AK) (HI : kinv k) (v : Sem) (Ev : a_sems k !! e = Some v).
Context (Hdly : forall p b r d, inside e k p = Some (b, r, d) -> d = 0).
Let C : kcore k := ki_core k HI.

(** Cases of an operation that changes nothing, and of one that ends in OS_Sched. *)
Ltac frame := cbn [a_exec out snd fst]; repeat case_match; cbn [snd fst]; try reflexivity;
  try apply same_sched; try reflexivity.

Lemma same_pend e' timeout t : a_tasks k !! a_cur k = Some t -> 0 < a_int k \/ tk_event t = None -> e' <> e ->
  same_sem e k (a_pend e' timeout k).2.
Proof using Type.
  intros Et Hev Hne. unfold a_pend. destruct (a_sems k !! e') as [w|] eqn:Ew; [|reflexivity].
  destruct (negb _); [reflexivity|]. destruct (Z.ltb_spec 0 (a_int k)); [reflexivity|].
  destruct (0 <? a_lock k); [reflexivity|]. destruct (0 <? sm_cnt w); cbn [snd]; [by apply same_ev|].
  apply same_sched. unfold a_wait. rewrite Ew, Et. apply same_ev; [|done].
  assert (H1 : same_sem e k (a_put (a_cur k) (mkTask true (tk_susp t) PendOk timeout (Some e')) k)); [|exact H1].
  apply (same_put e k k (a_cur k) t); [reflexivity|done|]. rewrite !entry_none; [done|..]; cbn; [|congruence].
  destruct Hev; [lia|congruence].
Qed.

Lemma same_resume e' t : a_tasks k !! a_cur k = Some t -> tk_event t = Some e' -> e' <> e -> same_sem e k (a_resume k).2.
Proof using Type.
  intros Et He Hne. unfold a_resume. rewrite Et.
  assert (H1 : same_sem e k (a_put (a_cur k) (mkTask false false PendOk (tk_dly t) None) k)).
  { apply (same_put e k k (a_cur k) t); [reflexivity|done|]. rewrite !entry_none; [done|..]; cbn; congruence. }
  destruct (tk_result t); cbn [snd]; [done| |done]. apply same_unwait; [done|congruence].
Qed.

Lemma same_delay ticks t : a_tasks k !! a_cur k = Some t -> 0 < a_int k \/ tk_event t = None -> same_sem e k (a_delay ticks k).
Proof using Type.
  intros Et Hev. unfold a_delay. destruct (Z.ltb_spec 0 (a_int k)); [reflexivity|]. cbn [orb].
  destruct (negb _); [reflexivity|]. rewrite Et. apply same_sched.
  refine (same_put e k k (a_cur k) t _ _ Et _); [reflexivity|].
  rewrite !entry_none; [done|..]; cbn; destruct Hev; lia || congruence.
Qed.

Lemma entry_delayed p t : a_tasks k !! p = Some t -> tk_dly t <> 0 -> tk_event t <> Some e.
Proof using Hdly.
  intros Ht Hd He. apply Hd. apply (Hdly p (tk_pending t) (tk_result t)). rewrite (inside_lookup e k p t Ht). by apply entry_some.
Qed.

Lemma same_tick : same_sem e k (a_tick k).
Proof using Hdly.
  split; [done|]. intros p. unfold inside. cbn. rewrite lookup_fmap. destruct (a_tasks k !! p) as [t|] eqn:Et; [|done]. cbn.
  unfold tick1. destruct (Z.eqb_spec (tk_dly t) 0) as [|Hd]; [done|]. pose proof (entry_delayed p t Et Hd) as He.
  destruct (tk_dly t =? 1); rewrite !entry_none; done.
Qed.

Lemma same_dly_resume prio : same_sem e k (a_dly_resume prio k).2.
Proof using Hdly.
  unfold a_dly_resume. destruct (_ <=? _); [reflexivity|]. destruct (a_tasks k !! prio) as [t|] eqn:Et; [|reflexivity].
  destruct (Z.eqb_spec (tk_dly t) 0) as [|Hd]; [reflexivity|]. pose proof (entry_delayed prio t Et Hd) as He.
  assert (H1 : same_sem e k (a_put prio (expire t) k)).
  { apply (same_put e k k prio t); [reflexivity|done|]. by rewrite !entry_none. }
  cbn [snd]. destruct (tk_susp t); [done|]. apply same_sched. exact H1.
Qed.

Lemma same_suspend prio : same_sem e k (a_suspend prio k).2.
Proof using Type.
  unfold a_suspend. destruct (_ =? _); [reflexivity|]. destruct (_ && _); [reflexivity|].
  set (p := if prio =? OS_PRIO_SELF then a_cur k else prio). clearbody p.
  destruct (a_tasks k !! p) as [t|] eqn:Et; [|reflexivity]. cbn [snd].
  assert (H1 : same_sem e k (a_put p (mkTask (tk_pending t) true (tk_result t) (tk_dly t) (tk_event t)) k)).
  { by apply (same_put e k k p t). }
  destruct (p =? a_cur k); [apply same_sched|]; exact H1.
Qed.

Lemma same_unsuspend prio : same_sem e k (a_unsuspend prio k).2.
Proof using Type.
  unfold a_unsuspend. destruct (_ <=? _); [reflexivity|]. destruct (a_tasks k !! prio) as [t|] eqn:Et; [|reflexivity].
  destruct (negb _); [reflexivity|]. cbn [snd].
  assert (H1 : same_sem e k (a_put prio (mkTask (tk_pending t) false (tk_result t) (tk_dly t) (tk_event t)) k)).
  { by apply (same_put e k k prio t). }
  destruct (tk_ready _); [apply same_sched|]; exact H1.
Qed.

Lemma same_task_create prio : same_sem e k (a_task_create prio k).2.
Proof using Type.
  unfold a_task_create. destruct (_ <? _); [reflexivity|]. destruct (_ <? _); [reflexivity|].
  destruct (a_tasks k !! prio) as [t|] eqn:Et; [reflexivity|]. destruct (a_free_tcb k); [reflexivity|]. cbn [snd].
  apply same_sched. split; [done|]. intros q. unfold inside. cbn. destruct (decide (q = prio)) as [->|].
  - by rewrite lookup_insert_eq, Et.
  - by rewrite lookup_insert_ne.
Qed.

Lemma same_task_del prio : inside e k (self_or prio k) = None -> same_sem e k (a_task_del prio k).2.
Proof using Type.
  intros Hi. unfold a_task_del. destruct (_ <? _); [reflexivity|]. destruct (_ =? _); [reflexivity|]. destruct (_ && _); [reflexivity|].
  fold (self_or prio k). destruct (a_tasks k !! self_or prio k) as [t|] eqn:Et; [|reflexivity]. cbn [snd]. apply same_sched.
  assert (He : tk_event t <> Some e).
  { intros He. rewrite (inside_lookup e k _ t Et), (entry_some e t He) in Hi. done. }
  etrans; [by apply (same_unwait e k k (self_or prio k) t)|]. split; [done|]. intros q. unfold inside. cbn.
  destruct (unwait_fields (self_or prio k) t k) as (Eu & _). rewrite Eu.
  destruct (decide (q = self_or prio k)) as [->|]; [|by rewrite lookup_delete_ne].
  rewrite lookup_delete_eq, Et. cbn. by rewrite entry_none.
Qed.

Lemma same_sem_create cnt : same_sem e k (a_sem_create cnt k).2.
Proof using Ev C.
  unfold a_sem_create. destruct (_ <? _); [reflexivity|]. destruct (a_free_ev k) as [|e' l] eqn:El; [reflexivity|].
  cbn [snd]. apply (same_ev e k (set_free_ev l k)); [by apply same_fields|]. intros ->.
  destruct (kc_sem k C e) as [_ Hin]; [by rewrite Ev|]. rewrite El in Hin. apply Hin, elem_of_cons. by left.
Qed.

Lemma apart_same c : legal c k = true -> apart e c k = true -> same_sem e k (a_exec c k).2.
Proof using All.
  intros Hl Ha. destruct (ki_cur k HI) as [t Et].
  assert (Hcall : caller_ok k = true -> 0 < a_int k \/ tk_event t = None).
  { intros H. destruct (caller_cases k t HI Et H) as [|[? _]]; auto. }
  assert (Hne : forall e' : nat, negb (e' =? e)%nat = true -> e' <> e) by (intros e' H ->; by rewrite Nat.eqb_refl in H).
  destruct c; cbn [legal apart a_exec out snd fst] in *.
  - apply (same_pend e0 timeout t); auto. apply Hcall. by destruct (caller_ok k).
  - apply (same_resume e0 t); auto. apply andb_prop in Hl as [[_ H]%andb_prop _]. apply bool_decide_eq_true in H.
    unfold cur_event in H. by rewrite Et in H.
  - unfold a_post. frame; auto using same_wake. apply same_ev; [reflexivity|auto].
  - unfold a_accept. frame. apply same_ev; [reflexivity|auto].
  - unfold a_set. frame. apply same_ev; [reflexivity|auto].
  - unfold a_abort. frame; auto using same_wake, same_wake_all.
  - apply same_sem_create.
  - unfold a_sem_del. frame; apply same_free; auto using same_wake_all. all: reflexivity.
  - apply (same_delay ticks t Et), Hcall. by destruct (caller_ok k).
  - apply same_dly_resume.
  - apply same_suspend.
  - apply same_unsuspend.
  - apply same_task_create.
  - apply same_task_del. by apply bool_decide_eq_true in Ha.
  - unfold a_lock_sched. frame. by apply same_fields.
  - unfold a_unlock_sched. frame. by apply same_fields.
  - unfold a_enter. frame. by apply same_fields.
  - apply same_tick.
  - unfold a_exit. frame; done || by apply same_fields.
Qed.
End Frame.
