(* ===== verification/ServerKernel.v ===== *)
(** * ServerKernel

    The two tasks of network_tasks.c on the kernel of the board.  Server counts the
    semaphore with a number and lets the tasks take turns; here query_ready_sem is an
    event of uC/OS-II, the tasks call OSSemPost and OSSemPend, and the scheduler decides
    who runs.  Every run is one of Server. *)

From stdpp Require Import gmap relations.
From S2P Require Import Prelude CString Request RequestFacts Table TableFacts Compile CompileFacts Accel HwDriver Response ResponseFacts Server ServerFacts ServerSpec PrioSet KernelData Kernel KernelSem KernelSpec KernelInv KernelLife KernelRefine KernelOps KernelSemOps KernelTaskOps KernelSafe KernelTokens KernelFrame KernelBoot.

Definition RX_TASK_PRIORITY : Z := 10.
Definition TX_TASK_PRIORITY : Z := 11.

(** The semaphore, which network_tasks.c keeps in query_ready_sem; the results of the
    creations are not looked at. *)
Definition init_network_tasks : M (option nat) :=
  let! query_ready_sem := OSSemCreate 0 in
  let! _ := OSTaskCreateExt RX_TASK_PRIORITY RX_TASK_PRIORITY 0 TASK_STACKSIZE 0 0 in
  let! _ := OSTaskCreateExt TX_TASK_PRIORITY TX_TASK_PRIORITY 0 TASK_STACKSIZE 0 0 in
  ret query_ready_sem.

(** What init_task does once the network is ready: OSTaskDel does not return. *)
Definition init_task_end : M (option nat) :=
  let! query_ready_sem := init_network_tasks in
  let! _ := OSTaskDel OS_PRIO_SELF in
  ret query_ready_sem.

(** ** The system *)

(** Where tx_task is: about to call OSSemPend, inside it, or after it - at the point
    that [tx_state] tells. *)
Inductive TxPos := AtPend | InPend | AfterPend.

(** The kernel with what it stands for in its specification, the semaphore, and the
    variables of the tasks, whose own count of the semaphore is not used. *)
Record System (D : Type) := mkSystem {
  sy_os : OS;
  sy_spec : AK;
  sy_sem : option nat;
  sy_pos : TxPos;
  sy_srv : Server D;
}.
Arguments mkSystem {D}.
Arguments sy_os {D}.
Arguments sy_spec {D}.
Arguments sy_sem {D}.
Arguments sy_pos {D}.
Arguments sy_srv {D}.

(** The task [p] runs code of its own: not interrupted, in no call that waits, and with
    the scheduler unlocked. *)
Definition in_task (p : Z) (k : AK) : Prop :=
  a_cur k = p /\ a_int k = 0 /\ a_lock k = 0 /\ cur_event k = None.

Section Tasks.
Context {D : Type} `{Board D}.

Implicit Type s : System D.

(** A specification of a call on the semaphore, which may be null. *)
Definition on_sem (f : nat -> AK -> AK) s : AK :=
  match sy_sem s with Some e => f e (sy_spec s) | None => sy_spec s end.

(** One turn of rx_task. *)
Definition sys_rx (fd : Z) (data : list Z) s : option (System D) :=
  let? (posted, srv) := rx_handle fd data (sy_srv s) in
  if posted then
    let? (_, os) := OSSemPost (sy_sem s) (sy_os s) in
    Some (mkSystem os (on_sem (fun e k => (a_post e k).2) s) (sy_sem s) (sy_pos s) srv)
  else Some (mkSystem (sy_os s) (sy_spec s) (sy_sem s) (sy_pos s) srv).

(** tx_task goes on to its next call or to the point where its answer is built.  The
    error of OSSemPend is not looked at. *)
Definition sys_tx s : option (System D) :=
  match sy_pos s with
  | AtPend =>
      let? (res, os) := OSSemPend (sy_sem s) 0 (sy_os s) in
      Some (mkSystem os (on_sem (fun e k => (a_pend e 0 k).2) s) (sy_sem s)
        (match res with Some _ => AfterPend | None => InPend end) (sy_srv s))
  | InPend =>
      let? e := sy_sem s in
      let? (_, os) := OSSemPend_resume e (sy_os s) in
      Some (mkSystem os (a_resume (sy_spec s)).2 (sy_sem s) AfterPend (sy_srv s))
  | AfterPend =>
      match tx_state (sy_srv s) with
      | TxWaiting =>
          let? srv := tx_run (sy_srv s) in
          Some (mkSystem (sy_os s) (sy_spec s) (sy_sem s)
            (match tx_state srv with TxWaiting => AtPend | TxAnswering _ => AfterPend end) srv)
      | TxAnswering _ =>
          let? srv := tx_finish (sy_srv s) in
          let? srv := srv in
          Some (mkSystem (sy_os s) (sy_spec s) (sy_sem s) AtPend srv)
      end
  end.

Definition tx_can_run s : Prop :=
  match sy_pos s with
  | InPend => a_cur (sy_spec s) = TX_TASK_PRIORITY /\ a_int (sy_spec s) = 0
  | _ => in_task TX_TASK_PRIORITY (sy_spec s)
  end.

(** The other calls, of any task or interrupt: the two tasks make some too, in the
    drivers and in the network stack.  None is about query_ready_sem, and none deletes
    the two tasks. *)
Definition foreign (c : Call) s : bool :=
  match c with
  | CPend e _ | CReturn e | CPost e | CAccept e | CSet e _ | CAbort e _ | CSemDel e _ => bool_decide (sy_sem s <> Some e)
  | CTaskDel prio => negb (self_or prio (sy_spec s) =? RX_TASK_PRIORITY) && negb (self_or prio (sy_spec s) =? TX_TASK_PRIORITY)
  | _ => true
  end.

Inductive sys_step : System D -> System D -> Prop :=
| sys_step_rx fd data s s' : 0 <= fd -> in_task RX_TASK_PRIORITY (sy_spec s) -> sys_rx fd data s = Some s' -> sys_step s s'
| sys_step_tx s s' : tx_can_run s -> sys_tx s = Some s' -> sys_step s s'
| sys_step_call c r os s : foreign c s = true -> legal c (sy_spec s) = true -> exec c (sy_os s) = Some (r, os) ->
    sys_step s (mkSystem os (a_exec c (sy_spec s)).2 (sy_sem s) (sy_pos s) (sy_srv s)).

(** The calls of init_task_end. *)
Definition start_calls : list Call :=
  [CSemCreate 0; CTaskCreate RX_TASK_PRIORITY; CTaskCreate TX_TASK_PRIORITY; CTaskDel OS_PRIO_SELF].

(** What alt_iniche_init and netmain leave when init_task goes on: the two priorities are
    free, an event and two blocks too, and no task is still on its way out of a deleted
    semaphore. *)
Record stack_up (k : AK) : Prop := {
  su_task : in_task INIT_TASK_PRIORITY k;
  su_rx : a_tasks k !! RX_TASK_PRIORITY = None;
  su_tx : a_tasks k !! TX_TASK_PRIORITY = None;
  su_tcb : (2 <= a_free_tcb k)%nat;
  su_ev : a_free_ev k <> [];
  su_sems : forall p t e, a_tasks k !! p = Some t -> tk_event t = Some e -> is_Some (a_sems k !! e);
}.

Definition sys_start (e : nat) (os : OS) (k : AK) (g : Globals) (d : D) : System D :=
  mkSystem os k (Some e) AtPend (server_start g d).

End Tasks.

(** ** The semaphore of one task *)

(** Only the task [p] uses [e]; [x] is its entry and [cnt] the count. *)
Record one_user (e : nat) (p : Z) (k : AK) (x : option (bool * PendResult * Z)) (cnt : Z) : Prop := {
  ou_sem : exists W, a_sems k !! e = Some (mkSem OS_EVENT_TYPE_SEM cnt W);
  ou_others : forall q, q <> p -> inside e k q = None;
  ou_user : inside e k p = x;
}.

Lemma one_user_same e p k k' x cnt : one_user e p k x cnt -> same_sem e k k' -> one_user e p k' x cnt.
Proof.
  intros [[W H1] H2 H3] [E1 E2]. constructor; [exists W; by rewrite E1|intros q Hq; by rewrite E2, H2|by rewrite E2].
Qed.

Section Semaphore.
Context (e : nat) (p : Z) (k : AK) (HI : kinv k).
Let C : kcore k := ki_core k HI.

(** The wait list is empty or holds [p]. *)
Lemma user_waits b cnt W : one_user e p k (Some (b, PendOk, 0)) cnt -> a_sems k !! e = Some (mkSem OS_EVENT_TYPE_SEM cnt W) ->
  W = if b then {[p]} else ∅.
Proof using C.
  intros [_ H2 H3] Ev. apply leibniz_equiv. intros q. change W with (sm_wait (mkSem OS_EVENT_TYPE_SEM cnt W)).
  rewrite (inside_waits e k _ q C Ev). destruct (decide (q = p)) as [->|Hq].
  - rewrite H3. split.
    + intros (b' & r & d & [= <- <- <-] & [->|?]); [set_solver|done].
    + destruct b; [|set_solver]. intros _. exists true, PendOk, 0. auto.
  - rewrite H2 by done. split; [naive_solver|]. destruct b; set_solver.
Qed.

Lemma nobody_waits cnt W : one_user e p k None cnt -> a_sems k !! e = Some (mkSem OS_EVENT_TYPE_SEM cnt W) -> W = ∅.
Proof using C.
  intros [_ H2 H3] Ev. apply leibniz_equiv. intros q. change W with (sm_wait (mkSem OS_EVENT_TYPE_SEM cnt W)).
  rewrite (inside_waits e k _ q C Ev). destruct (decide (q = p)) as [->|Hq]; rewrite ?H3, ?H2 by done;
    (split; [naive_solver|set_solver]).
Qed.

(** The count goes up when [p] does not wait. *)
Lemma one_user_count x cnt cnt' : one_user e p k x cnt -> forall W,
  one_user e p (a_ev e (mkSem OS_EVENT_TYPE_SEM cnt' W) k) x cnt'.
Proof using Type. intros [_ H2 H3] W. constructor; [exists W; apply lookup_insert_eq|done..]. Qed.

Lemma one_user_sched x cnt k1 : one_user e p k1 x cnt -> one_user e p (a_sched k1) x cnt.
Proof using Type. intros H. apply (one_user_same e p k1); [done|]. apply same_sched. reflexivity. Qed.

Lemma post_free x cnt : one_user e p k x cnt -> x = None \/ x = Some (false, PendOk, 0) -> cnt < 65535 ->
  (a_post e k).1 = OS_ERR_NONE /\ one_user e p (a_post e k).2 x (cnt + 1).
Proof using C.
  intros H Hx Hc. destruct (ou_sem _ _ _ _ _ H) as [W Ev].
  assert (W = ∅) as -> by (destruct Hx as [-> | ->]; [by eapply nobody_waits|by apply (user_waits false cnt)]).
  unfold a_post. rewrite Ev. cbn [sm_type sm_wait sm_cnt Z.eqb OS_EVENT_TYPE_SEM Pos.eqb negb].
  rewrite bool_decide_eq_true_2 by done. cbn [negb]. rewrite (proj2 (Z.ltb_lt _ _) Hc).
  split; [done|]. by apply (one_user_count x cnt).
Qed.

Lemma post_waiting cnt : one_user e p k (Some (true, PendOk, 0)) cnt ->
  (a_post e k).1 = OS_ERR_NONE /\ one_user e p (a_post e k).2 (Some (false, PendOk, 0)) cnt.
Proof using C.
  intros H. destruct (ou_sem _ _ _ _ _ H) as [W Ev]. pose proof (user_waits true cnt W H Ev) as ->.
  unfold a_post. rewrite Ev. cbn [sm_type sm_wait sm_cnt Z.eqb OS_EVENT_TYPE_SEM Pos.eqb negb].
  rewrite bool_decide_eq_false_2 by set_solver. cbn [negb]. split; [done|]. apply one_user_sched.
  unfold a_wake. rewrite Ev. cbn [sm_wait sm_type sm_cnt].
  rewrite (least_unique {[p]} p) by set_solver || (intros q ->%elem_of_singleton; lia).
  destruct H as [_ H2 H3]. pose proof H3 as Hin. unfold inside in Hin. destruct (a_tasks k !! p) as [t|] eqn:Et; [|done]. cbn in Hin.
  assert (He : tk_event t = Some e) by (unfold entry in Hin; by case_bool_decide).
  constructor; [eexists; apply lookup_insert_eq| |].
  - intros q Hq. transitivity (inside e k q); [|by apply H2]. unfold inside.
    destruct (tk_susp t); cbn; by rewrite lookup_insert_ne.
  - unfold inside. destruct (tk_susp t); cbn; rewrite lookup_insert_eq; cbn; by rewrite entry_some.
Qed.

Lemma pend_user cnt : one_user e p k None cnt -> in_task p k ->
  (0 < cnt /\ (a_pend e 0 k).1 = Some OS_ERR_NONE /\ one_user e p (a_pend e 0 k).2 None (cnt - 1)) \/
  ((a_pend e 0 k).1 = None /\ one_user e p (a_pend e 0 k).2 (Some (true, PendOk, 0)) cnt).
Proof using HI.
  intros H (Hc & Hi & Hl & Hev). destruct (ou_sem _ _ _ _ _ H) as [W Ev]. unfold a_pend. rewrite Ev, Hi, Hl.
  cbn [sm_type sm_wait sm_cnt Z.eqb OS_EVENT_TYPE_SEM Pos.eqb negb Z.ltb Z.compare].
  destruct (Z.ltb_spec 0 cnt); [left|right].
  - split; [done|]. split; [done|]. by apply (one_user_count None cnt).
  - split; [done|]. cbn [snd]. apply one_user_sched. unfold a_wait. rewrite Ev, Hc. destruct (ki_cur k HI) as [t Et]. rewrite Hc in Et.
    rewrite Et. destruct H as [_ H2 H3]. constructor; [eexists; apply lookup_insert_eq| |].
    + intros q Hq. transitivity (inside e k q); [|by apply H2]. unfold inside. cbn. by rewrite lookup_insert_ne.
    + unfold inside. cbn. rewrite lookup_insert_eq. cbn. by rewrite entry_some.
Qed.

Lemma resume_user b cnt : one_user e p k (Some (b, PendOk, 0)) cnt -> a_cur k = p ->
  b = false /\ cur_event k = Some e /\ (a_resume k).1 = OS_ERR_NONE /\ one_user e p (a_resume k).2 None cnt.
Proof using HI.
  intros [H1 H2 H3] Hc. destruct (ki_cur k HI) as [t Et]. pose proof Et as Et'. rewrite Hc in Et'.
  rewrite (inside_lookup e k p t Et') in H3. unfold entry in H3. case_bool_decide as He; [|done]. injection H3 as Hb Hr Hd.
  destruct (ki_resume k HI t Et) as [_ Hp]; [by rewrite He|]. split; [congruence|].
  split; [unfold cur_event; by rewrite Et|]. unfold a_resume. rewrite Et, Hr. split; [done|].
  constructor; cbn [snd]; [done|..]; rewrite ?Hc.
  - intros q Hq. transitivity (inside e k q); [|by apply H2]. unfold inside. cbn. by rewrite lookup_insert_ne.
  - unfold inside. cbn. by rewrite lookup_insert_eq.
Qed.
End Semaphore.

(** ** Calls of the two tasks *)

Lemma does_unlift {A} (f : A -> Res) (m : M A) s a k : (forall a b, f a = f b -> a = b) ->
  does (lift f m) s (f a) k -> exists s', m s = Some (a, s') /\ repr s' k.
Proof.
  intros Hf (s' & E & H). unfold lift, bind, ret in E. destruct (m s) as [[b s1]|]; [|done]. cbn in E.
  injection E as Eb ->. apply Hf in Eb as ->. by exists s'.
Qed.

Section Calls.
Context (s : OS) (k : AK) (Hr : repr s k) (HI : kinv k).

Lemma post_call e x cnt p : one_user e TX_TASK_PRIORITY k x cnt -> in_task p k -> p <> OS_TASK_IDLE_PRIO ->
  exists s', OSSemPost (Some e) s = Some ((a_post e k).1, s') /\ repr s' (a_post e k).2 /\ kinv (a_post e k).2.
Proof using Hr HI.
  intros H (Hc & Hi & _ & Hev) Hp. destruct (ou_sem _ _ _ _ _ H) as [W Ev].
  destruct (legal_good s k Hr HI (CPost e)) as [HI' Hd].
  { cbn [legal]. unfold caller_ok, sem_ok. rewrite Hi, Hev, Ev, Hc, (bool_decide_eq_true_2 (is_Some _)) by done.
    rewrite (proj2 (Z.eqb_neq _ _) Hp). done. }
  apply (does_unlift RNum) in Hd as (s' & E & H'); [by exists s'|by intros ?? [=]].
Qed.

Lemma pend_call e cnt : one_user e TX_TASK_PRIORITY k None cnt -> in_task TX_TASK_PRIORITY k ->
  exists s', OSSemPend (Some e) 0 s = Some ((a_pend e 0 k).1, s') /\ repr s' (a_pend e 0 k).2 /\ kinv (a_pend e 0 k).2.
Proof using Hr HI.
  intros H (Hc & Hi & _ & Hev). destruct (ou_sem _ _ _ _ _ H) as [W Ev].
  destruct (legal_good s k Hr HI (CPend e 0)) as [HI' Hd].
  { cbn [legal]. unfold caller_ok, sem_ok. by rewrite Hi, Hev, Ev, Hc, (bool_decide_eq_true_2 (is_Some _)). }
  apply (does_unlift RPend) in Hd as (s' & E & H'); [by exists s'|by intros ?? [=]].
Qed.

Lemma resume_call e : cur_event k = Some e -> a_cur k = TX_TASK_PRIORITY -> a_int k = 0 ->
  exists s', OSSemPend_resume e s = Some ((a_resume k).1, s') /\ repr s' (a_resume k).2 /\ kinv (a_resume k).2.
Proof using Hr HI.
  intros Hev Hc Hi. destruct (legal_good s k Hr HI (CReturn e)) as [HI' Hd].
  { cbn [legal]. by rewrite Hi, Hev, Hc, bool_decide_eq_true_2. }
  apply (does_unlift RNum) in Hd as (s' & E & H'); [by exists s'|by intros ?? [=]].
Qed.
End Calls.

(** ** The count does not matter to the tasks *)

Section Counts.
Context {D : Type} `{Board D}.

Lemma rx_handle_set_sem n fd data (s : Server D) :
  rx_handle fd data (set_sem n s) = (let? (b, s') := rx_handle fd data s in Some (b, set_sem n s')).
Proof.
  unfold rx_handle. cbn [set_sem current_client_socket pending_request globals device query_ready_sem tx_state].
  destruct (0 <=? _); [by destruct (send_error_response _ _ _ _ _ _) as [[]|]|].
  destruct (take _ data); [done|]. destruct (request_body _) as [b|]; [|done].
  destruct (parse_request_body b) as [[rq|]|]; try done. by destruct (send_error_response _ _ _ _ _ _) as [[]|].
Qed.

Lemma rx_handle_tx fd data (s : Server D) b s' : rx_handle fd data s = Some (b, s') ->
  tx_state s' = tx_state s /\ query_ready_sem s' = query_ready_sem s.
Proof.
  unfold rx_handle. destruct (0 <=? _); [destruct (send_error_response _ _ _ _ _ _) as [[]|]; naive_solver|].
  destruct (take _ data); [naive_solver|]. destruct (request_body _) as [c|]; [|done].
  destruct (parse_request_body c) as [[rq|]|]; [naive_solver| |done].
  destruct (send_error_response _ _ _ _ _ _) as [[]|]; naive_solver.
Qed.

Lemma rx_connection_set_sem n fd data (s : Server D) :
  rx_connection fd data (set_sem n s) =
  (let? (b, s') := rx_handle fd data s in Some (set_sem (if b then S n else n) s')).
Proof.
  unfold rx_connection. rewrite rx_handle_set_sem. destruct (rx_handle fd data s) as [[b s']|]; [|done]. by destruct b.
Qed.

Lemma tx_run_set_sem n (s : Server D) : tx_run (set_sem n s) = (let? s' := tx_run s in Some (set_sem n s')).
Proof.
  unfold tx_run. cbn [set_sem current_client_socket pending_request globals device query_ready_sem].
  destruct (0 <=? _); [|done]. by destruct (prepare_response _ _ _) as [[[]]|].
Qed.

Lemma tx_finish_set_sem n (s : Server D) :
  tx_finish (set_sem n s) = (let? r := tx_finish s in Some (set_sem n <$> r)).
Proof.
  unfold tx_finish. cbn [set_sem current_client_socket pending_request globals device query_ready_sem tx_state].
  destruct (tx_state s); [done|]. destruct (send_http_response _ _ _ _ _) as [d|]; [|done].
  by destruct (close_client_socket _ _).
Qed.

Lemma tx_finish_waits (s s' : Server D) : tx_finish s = Some (Some s') -> tx_state s' = TxWaiting.
Proof.
  unfold tx_finish. destruct (tx_state s); [done|]. destruct (send_http_response _ _ _ _ _) as [d|]; [|done].
  destruct (close_client_socket _ _). naive_solver.
Qed.
End Counts.

(** ** The simulation *)

(** The count of Server, from the place of tx_task, its entry and the count of the
    event: a token that tx_task was given, or holds, counts too. *)
Definition tokens_at (pos : TxPos) (st : TxState) (x : option (bool * PendResult * Z)) (cnt n : Z) : Prop :=
  match pos with
  | AtPend => x = None /\ n = cnt
  | InPend => exists b : bool, x = Some (b, PendOk, 0) /\ n = cnt + (if b then 0 else 1)
  | AfterPend => x = None /\ n = cnt + match st with TxWaiting => 1 | TxAnswering _ => 0 end
  end.

Section Simulation.
Context {D : Type} `{Board D}.

Record sys_inv (s : System D) (n : nat) : Prop := {
  yi_repr : repr (sy_os s) (sy_spec s);
  yi_kinv : kinv (sy_spec s);
  yi_user : exists e x cnt, sy_sem s = Some e /\ one_user e TX_TASK_PRIORITY (sy_spec s) x cnt /\
    tokens_at (sy_pos s) (tx_state (sy_srv s)) x cnt (Z.of_nat n);
  yi_state : sy_pos s <> AfterPend -> tx_state (sy_srv s) = TxWaiting;
}.

(** A connection: the count goes up when its request is accepted. *)
Lemma sys_rx_spec fd data s n b srv : sys_inv s n -> (n <= 1)%nat -> in_task RX_TASK_PRIORITY (sy_spec s) ->
  rx_handle fd data (sy_srv s) = Some (b, srv) -> exists s', sys_rx fd data s = Some s' /\ sy_srv s' = srv /\
  sys_inv s' (if b then S n else n).
Proof.
  intros [Hr HI (e & x & cnt & He & Hu & Ht) Hst] Hn Hin E. destruct (rx_handle_tx _ _ _ _ _ E) as [Ex _].
  unfold sys_rx. rewrite E. destruct b; [|eexists; split; [done|]; split; [done|]; constructor; cbn; rewrite ?Ex; eauto 10].
  destruct (post_call _ _ Hr HI e x cnt _ Hu Hin) as (os & Ep & Hr' & HI'); [done|]. rewrite He, Ep.
  eexists. split; [done|]. split; [done|]. unfold on_sem. rewrite He. constructor; cbn; rewrite ?Ex; [done..| |done].
  assert (Hcnt : cnt < 65535).
  { destruct (sy_pos s), Ht as [Hx Ht]; [lia|destruct Ht as [_ Ht], Hx; lia|destruct (tx_state _); lia]. }
  assert (Hfree : x <> Some (true, PendOk, 0) -> one_user e TX_TASK_PRIORITY (a_post e (sy_spec s)).2 x (cnt + 1)).
  { intros Hx. apply post_free; try done. destruct (sy_pos s), Ht as [Hy Ht]; [by left| |by left].
    destruct Ht as [-> _], Hy; [done|by right]. }
  destruct (sy_pos s); cbn [tokens_at] in Ht |- *.
  - destruct Ht as [-> Ht]. exists e, None, (cnt + 1). split; [done|]. split; [by apply Hfree|]. split; [done|lia].
  - destruct Ht as ([] & -> & Ht).
    + exists e, (Some (false, PendOk, 0)), cnt. split; [done|]. split; [by apply post_waiting|]. exists false. split; [done|lia].
    + exists e, (Some (false, PendOk, 0)), (cnt + 1). split; [done|]. split; [by apply Hfree|]. exists false. split; [done|lia].
  - destruct Ht as [-> Ht]. exists e, None, (cnt + 1). split; [done|]. split; [by apply Hfree|]. split; [done|]. lia.
Qed.

(** tx_task: its calls change nothing for Server; what it does after them is a step. *)
Lemma sys_tx_spec s n : sys_inv s n -> server_inv (set_sem n (sy_srv s)) -> tx_can_run s -> exists s' n',
  sys_tx s = Some s' /\ sys_inv s' n' /\ rtc server_step (set_sem n (sy_srv s)) (set_sem n' (sy_srv s')).
Proof.
  intros HY Hs Hrun. pose proof HY as [Hr HI (e & x & cnt & He & Hu & Ht) Hst]. unfold tx_can_run in Hrun. unfold sys_tx.
  assert (Hcnt : 0 <= cnt).
  { destruct (ou_sem _ _ _ _ _ Hu) as [W Ev]. apply (kc_cnt _ (ki_core _ HI) e _ Ev). }
  destruct (sy_pos s) eqn:Epos; cbn [tokens_at] in Ht.
  - destruct Ht as [-> Ht]. destruct (pend_call _ _ Hr HI e cnt Hu Hrun) as (os & E & Hr' & HI'). rewrite He, E.
    eexists _, n. split; [done|]. split; [|done]. unfold on_sem. rewrite He. constructor; cbn; [done..| |naive_solver].
    specialize (Hst ltac:(done)). rewrite Hst.
    destruct (pend_user e TX_TASK_PRIORITY _ HI cnt Hu Hrun) as [(Hp & -> & Hu')|(-> & Hu')]; cbn [tokens_at].
    + exists e, None, (cnt - 1). split; [done|]. split; [done|]. split; [done|lia].
    + exists e, (Some (true, PendOk, 0)), cnt. split; [done|]. split; [done|]. exists true. split; [done|lia].
  - destruct Ht as (b & -> & Ht). destruct Hrun as [Hc Hi].
    destruct (resume_user e TX_TASK_PRIORITY _ HI b cnt Hu Hc) as (-> & Hev & _ & Hu').
    destruct (resume_call _ _ Hr HI e Hev Hc Hi) as (os & E & Hr' & HI'). rewrite He, E.
    eexists _, n. split; [done|]. split; [|done]. constructor; cbn; [done..| |naive_solver].
    rewrite (Hst ltac:(done)). exists e, None, cnt. split; [done|]. split; [done|]. split; [done|lia].
  - destruct Ht as [-> Ht]. destruct (tx_state (sy_srv s)) eqn:Etx.
    + destruct (tx_begin_inv _ Hs) as (r & E & _). unfold tx_begin in E. cbn [set_sem query_ready_sem tx_state] in E.
      assert (Hn : exists m, n = S m /\ Z.of_nat m = cnt) by (exists (n - 1)%nat; lia). destruct Hn as (m & -> & Hm). rewrite Etx in E.
      change (set_sem m (set_sem (S m) (sy_srv s))) with (set_sem m (sy_srv s)) in E. rewrite tx_run_set_sem in E.
      destruct (tx_run (sy_srv s)) as [srv|] eqn:Er; [|done]. eexists _, m. split; [done|]. split.
      * constructor; cbn; [done..| |destruct (tx_state srv) eqn:?; naive_solver]. exists e, None, cnt. split; [done|]. split; [done|].
        destruct (tx_state srv); cbn; split; (done || lia).
      * apply rtc_once, step_tx_begin. unfold tx_begin. cbn [set_sem query_ready_sem tx_state]. rewrite Etx.
        change (set_sem m _) with (set_sem m (sy_srv s)) at 1. by rewrite tx_run_set_sem, Er.
    + destruct (tx_finish_inv _ Hs) as (r & E & _). rewrite tx_finish_set_sem in E. destruct (tx_finish (sy_srv s)) as [[srv|]|] eqn:Ef.
      * eexists _, n. split; [done|]. split; [|apply rtc_once, step_tx_finish; cbn; by rewrite tx_finish_set_sem, Ef].
        constructor; cbn; [done..| |intros _; by eapply tx_finish_waits]. exists e, None, cnt. split; [done|]. split; [done|]. split; [done|lia].
      * unfold tx_finish in Ef. rewrite Etx in Ef. destruct (send_http_response _ _ _ _ _); [|done]. by destruct (close_client_socket _ _).
      * done.
Qed.

(** The other calls leave the semaphore alone. *)
Lemma sys_call_spec c r os s n : sys_inv s n -> foreign c s = true -> legal c (sy_spec s) = true -> exec c (sy_os s) = Some (r, os) ->
  sys_inv (mkSystem os (a_exec c (sy_spec s)).2 (sy_sem s) (sy_pos s) (sy_srv s)) n.
Proof.
  intros [Hr HI (e & x & cnt & He & Hu & Ht) Hst] Hf Hl E.
  destruct (legal_good _ _ Hr HI c Hl) as [HI' (os' & E' & Hr')]. assert (os' = os) as -> by congruence.
  constructor; cbn; try done. exists e, x, cnt. split; [done|]. split; [|done].
  destruct (ou_sem _ _ _ _ _ Hu) as [W Ev]. apply (one_user_same _ _ (sy_spec s)); [done|]. apply (apart_same e _ HI _ Ev); [|done|].
  - intros p b y d Hin. destruct (decide (p = TX_TASK_PRIORITY)) as [->|Hp]; [|by rewrite (ou_others _ _ _ _ _ Hu p Hp) in Hin].
    rewrite (ou_user _ _ _ _ _ Hu) in Hin. destruct (sy_pos s); destruct Ht as [Hx Ht]; [congruence|destruct Ht|congruence]. naive_solver.
  - unfold foreign in Hf. rewrite He in Hf. destruct c; cbn [apart]; try done;
      try (apply bool_decide_eq_true in Hf; apply negb_true_iff, Nat.eqb_neq; congruence).
    apply bool_decide_eq_true, (ou_others _ _ _ _ _ Hu). lia.
Qed.

Lemma sys_step_spec s s' n : sys_inv s n -> server_inv (set_sem n (sy_srv s)) -> sys_step s s' -> exists n',
  sys_inv s' n' /\ rtc server_step (set_sem n (sy_srv s)) (set_sem n' (sy_srv s')).
Proof.
  intros HY Hs Hst. inversion Hst as [fd data ? ? Hfd Hin E|? ? Hin E|c r os ? Hf Hl E]; subst.
  - assert (Hn : (n <= 1)%nat) by (pose proof (si_phase _ Hs) as Hp; cbn in Hp; destruct (tx_state _); lia).
    unfold sys_rx in E. destruct (rx_handle fd data (sy_srv s)) as [[b srv]|] eqn:Er; [|done].
    destruct (sys_rx_spec fd data s n b srv HY Hn Hin Er) as (s1 & E1 & Esrv & HY1). unfold sys_rx in E1. rewrite Er in E1.
    assert (s1 = s') as -> by congruence. eexists. split; [exact HY1|]. rewrite Esrv.
    apply rtc_once, (step_rx fd data); [done|]. rewrite rx_connection_set_sem, Er. done.
  - destruct (sys_tx_spec s n HY Hs Hin) as (s1 & n1 & E1 & HY1 & Hr). assert (s1 = s') as -> by congruence. by exists n1.
  - exists n. split; [by eapply sys_call_spec|done].
Qed.
End Simulation.

(** ** The start *)

(** A new task of lower priority does not take the processor. *)
Lemma create_below c p n k : kinv k -> in_task c k -> a_tasks k !! p = None -> c < p <= OS_LOWEST_PRIO -> a_free_tcb k = S n ->
  in_task c (a_task_create p k).2 /\ a_free_tcb (a_task_create p k).2 = n /\
  forall q, q <> p -> a_tasks (a_task_create p k).2 !! q = a_tasks k !! q.
Proof.
  intros HI (Hc & Hi & Hl & Hev) Hp [H1 H2] Hn. unfold a_task_create. rewrite (proj2 (Z.ltb_ge _ _)) by lia.
  rewrite Hi, Hp, Hn. cbn [Z.ltb Z.compare snd]. set (k1 := set_ready _ _).
  pose proof (ki_sched k HI Hi Hl) as Hle. pose proof (least_spec (a_ready k)) as Hsp. rewrite Hle in Hsp. destruct Hsp as [Hin Hmin].
  assert (E : a_sched k1 = set_cur c k1).
  { unfold a_sched, k1. cbn [a_int a_lock set_ready a_put set_tasks set_free_tcb]. rewrite Hi, Hl. cbn [Z.eqb andb a_ready].
    rewrite (least_unique _ c); [done|set_solver|]. intros q [->%elem_of_singleton|Hq]%elem_of_union; [lia|]. rewrite <- Hc. auto. }
  rewrite E. split; [|split; [done|intros q Hq; cbn; by rewrite lookup_insert_ne]].
  split; [done|]. split; [done|]. split; [done|]. unfold cur_event in *. cbn. rewrite lookup_insert_ne by lia. by rewrite <- Hc.
Qed.

Lemma in_task_caller p k : in_task p k -> p <> OS_TASK_IDLE_PRIO -> caller_ok k = true.
Proof.
  intros (Hc & Hi & _ & Hev) Hp. unfold caller_ok. rewrite Hi, Hev, Hc, (proj2 (Z.eqb_neq _ _) Hp). done.
Qed.

(** A new event has no users. *)
Lemma create_fresh cnt e l p k : kinv k -> a_int k = 0 -> a_free_ev k = e :: l ->
  (forall q t e, a_tasks k !! q = Some t -> tk_event t = Some e -> is_Some (a_sems k !! e)) ->
  (a_sem_create cnt k).1 = Some e /\ one_user e p (a_sem_create cnt k).2 None cnt.
Proof.
  intros HI Hi El Hs. unfold a_sem_create. rewrite Hi, El. split; [done|]. cbn [snd Z.ltb Z.compare].
  assert (Hn : a_sems k !! e = None).
  { destruct (a_sems k !! e) as [v|] eqn:Ev; [|done]. destruct (kc_sem k (ki_core k HI) e) as [_ Hin]; [by rewrite Ev|].
    rewrite El in Hin. destruct Hin. apply elem_of_cons. by left. }
  assert (Hin : forall q, inside e k q = None).
  { intros q. unfold inside. destruct (a_tasks k !! q) as [t|] eqn:Et; [|done]. cbn. apply entry_none. intros He.
    destruct (Hs q t e Et He). congruence. }
  constructor; [eexists; apply lookup_insert_eq|intros q _; apply Hin|apply Hin].
Qed.

(** init_task_end leaves the system ready: the semaphore has one user and no token. *)
Lemma init_task_runs os k : repr os k -> kinv k -> stack_up k -> exists e os', init_task_end os = Some (Some e, os') /\
  let k' := (a_exec_all start_calls k).2 in repr os' k' /\ kinv k' /\ one_user e TX_TASK_PRIORITY k' None 0.
Proof.
  intros Hr HI [Hin Hrx Htx Htcb Hev Hs]. destruct (a_free_ev k) as [|e l] eqn:El; [done|].
  destruct (a_free_tcb k) as [|[|n]] eqn:En; [lia..|].
  pose proof Hin as (Hc & Hi & Hl & Hce). destruct (create_fresh 0 e l TX_TASK_PRIORITY k HI Hi El Hs) as [E1 Hu1].
  destruct (legal_good os k Hr HI (CSemCreate 0)) as [HI1 Hd1]; [cbn; by rewrite (in_task_caller _ _ Hin)|].
  apply (does_unlift REvent) in Hd1 as (os1 & R1 & Hr1); [|by intros ?? [=]]. cbn [a_exec out fst snd] in *. rewrite E1 in R1.
  set (k1 := (a_sem_create 0 k).2) in *.
  assert (F1 : in_task INIT_TASK_PRIORITY k1 /\ a_tasks k1 = a_tasks k /\ a_free_tcb k1 = a_free_tcb k).
  { unfold k1, a_sem_create. rewrite Hi, El. done. }
  destruct F1 as (Hin1 & Et1 & En1). destruct (ou_sem _ _ _ _ _ Hu1) as [W1 Ev1].
  assert (Hcr : forall p m ks oss, repr oss ks -> kinv ks -> in_task INIT_TASK_PRIORITY ks -> a_tasks ks !! p = None ->
    INIT_TASK_PRIORITY < p <= OS_LOWEST_PRIO -> a_free_tcb ks = S m -> one_user e TX_TASK_PRIORITY ks None 0 ->
    exists oss', OSTaskCreateExt p p 0 TASK_STACKSIZE 0 0 oss = Some ((a_task_create p ks).1, oss') /\ repr oss' (a_task_create p ks).2 /\
      kinv (a_task_create p ks).2 /\ in_task INIT_TASK_PRIORITY (a_task_create p ks).2 /\ a_free_tcb (a_task_create p ks).2 = m /\
      (forall q, q <> p -> a_tasks (a_task_create p ks).2 !! q = a_tasks ks !! q) /\
      one_user e TX_TASK_PRIORITY (a_task_create p ks).2 None 0).
  { intros p m ks oss Rs Is Ins Tn Hp Hm Us. unfold INIT_TASK_PRIORITY in Hp. pose proof (inv_task_create p ks Is ltac:(lia)) as Is'.
    destruct (does_task_create oss ks p p 0 TASK_STACKSIZE 0 0 Rs Is) as (oss' & E & Rs'); [lia|by apply ki_core|].
    destruct (create_below _ p m ks Is Ins Tn) as (A1 & A2 & A3); [unfold INIT_TASK_PRIORITY; lia|done|].
    exists oss'. split_and!; try done. apply (one_user_same _ _ ks); [done|]. apply same_task_create. }
  destruct (Hcr RX_TASK_PRIORITY (S n) k1 os1) as (os2 & R2 & Hr2 & HI2 & Hin2 & En2 & Et2 & Hu2); try done;
    [by rewrite Et1|congruence|]. set (k2 := (a_task_create RX_TASK_PRIORITY k1).2) in *.
  destruct (Hcr TX_TASK_PRIORITY n k2 os2) as (os3 & R3 & Hr3 & HI3 & Hin3 & En3 & Et3 & Hu3); try done; [by rewrite Et2, Et1|].
  set (k3 := (a_task_create TX_TASK_PRIORITY k2).2) in *.
  assert (Hself : self_or OS_PRIO_SELF k3 = INIT_TASK_PRIORITY) by apply Hin3.
  destruct (legal_good os3 k3 Hr3 HI3 (CTaskDel OS_PRIO_SELF)) as [HI4 Hd4].
  { cbn [legal]. rewrite (in_task_caller _ _ Hin3), Hself by done. destruct Hin3 as (_ & _ & -> & _). by rewrite orb_true_r. }
  apply (does_unlift RNum) in Hd4 as (os4 & R4 & Hr4); [|by intros ?? [=]]. exists e, os4. split.
  - assert (Rn : init_network_tasks os = Some (Some e, os3)).
    { unfold init_network_tasks. by rewrite (bind_eq _ _ _ _ _ R1), (bind_eq _ _ _ _ _ R2), (bind_eq _ _ _ _ _ R3). }
    unfold init_task_end. by rewrite (bind_eq _ _ _ _ _ Rn), (bind_eq _ _ _ _ _ R4).
  - split; [exact Hr4|]. split; [exact HI4|]. apply (one_user_same _ _ k3); [done|].
    refine (same_task_del e k3 OS_PRIO_SELF _). rewrite Hself. by apply (ou_others _ _ _ _ _ Hu3).
Qed.

(** ** Runs *)

Section Runs.
Context {D : Type} `{Board D}.

Lemma sys_start_inv e os k (g : Globals) (d : D) : repr os k -> kinv k -> one_user e TX_TASK_PRIORITY k None 0 ->
  sys_inv (sys_start e os k g d) 0.
Proof. intros Hr HI Hu. constructor; try done. by exists e, None, 0. Qed.

Lemma sys_call_runs c s n : sys_inv s n -> foreign c s = true -> legal c (sy_spec s) = true -> exists os : OS,
  let s' := mkSystem os (a_exec c (sy_spec s)).2 (sy_sem s) (sy_pos s) (sy_srv s) in sys_step s s' /\ sys_inv s' n.
Proof.
  intros HY Hf Hl. destruct (legal_good _ _ (yi_repr _ _ HY) (yi_kinv _ _ HY) c Hl) as [_ (os & E & _)]. exists os.
  split; [by eapply sys_step_call|by eapply sys_call_spec].
Qed.

(** Calls one after the other, none about a semaphore. *)
Lemma calls_run l sem pos (srv : Server D) n : forall os k, sys_inv (mkSystem os k sem pos srv) n ->
  forallb (fun c => match c with CDelay _ | CEnter | CTick | CExit => true | _ => false end) l = true ->
  legal_all l k = true -> exists os',
  let s' := mkSystem os' (a_exec_all l k).2 sem pos srv in rtc sys_step (mkSystem os k sem pos srv) s' /\ sys_inv s' n.
Proof.
  induction l as [|c l IH]; intros os k HY Hf Hl; [exists os; by split|].
  cbn [forallb legal_all] in Hf, Hl. apply andb_prop in Hf as [Hc Hf], Hl as [Hlc Hl].
  destruct (sys_call_runs c _ n HY) as (os1 & T1 & Y1); [by destruct c|done|].
  destruct (IH _ _ Y1 Hf Hl) as (os2 & T2 & Y2). exists os2. split; [|exact Y2]. by eapply rtc_l.
Qed.

(** tx_task starts to wait. *)
Lemma pend_run os k e (srv : Server D) n : sys_inv (mkSystem os k (Some e) AtPend srv) n -> in_task TX_TASK_PRIORITY k ->
  (a_pend e 0 k).1 = None -> server_inv (set_sem n srv) -> exists os' n',
  let s' := mkSystem os' (a_pend e 0 k).2 (Some e) InPend srv in
  rtc sys_step (mkSystem os k (Some e) AtPend srv) s' /\ sys_inv s' n'.
Proof.
  intros Y Hin Hp Hv. pose proof (yi_user _ _ Y) as (e' & x & cnt & [= <-] & Hu & [-> Hc]).
  destruct (pend_call os k (yi_repr _ _ Y) (yi_kinv _ _ Y) e cnt Hu Hin) as (os' & E & _). rewrite Hp in E.
  assert (Et : sys_tx (mkSystem os k (Some e) AtPend srv) = Some (mkSystem os' (a_pend e 0 k).2 (Some e) InPend srv)).
  { unfold sys_tx. cbn [sy_pos sy_sem sy_os sy_srv]. by rewrite E. }
  destruct (sys_tx_spec _ n Y Hv Hin) as (s' & n' & Et' & Y' & _). rewrite Et in Et'. injection Et' as <-.
  exists os', n'. split; [by apply rtc_once, sys_step_tx|done].
Qed.

(** rx_task accepts a request. *)
Lemma accept_run os k e pos (srv : Server D) n fd data srv' : sys_inv (mkSystem os k (Some e) pos srv) n -> 0 <= fd ->
  in_task RX_TASK_PRIORITY k -> rx_handle fd data srv = Some (true, srv') -> exists os',
  rtc sys_step (mkSystem os k (Some e) pos srv) (mkSystem os' (a_post e k).2 (Some e) pos srv').
Proof.
  intros Y Hfd Hin E. pose proof (yi_user _ _ Y) as (e' & x & cnt & [= <-] & Hu & _).
  destruct (post_call os k (yi_repr _ _ Y) (yi_kinv _ _ Y) e x cnt _ Hu Hin) as (os' & Ep & _); [done|].
  exists os'. apply rtc_once, (sys_step_rx fd data); [done|done|]. unfold sys_rx. cbn [sy_srv sy_sem sy_os]. by rewrite E, Ep.
Qed.

(** Every run of the system is a run of Server. *)
Lemma sys_run_spec s s' : rtc sys_step s s' -> forall n, sys_inv s n -> server_inv (set_sem n (sy_srv s)) -> exists n',
  sys_inv s' n' /\ rtc server_step (set_sem n (sy_srv s)) (set_sem n' (sy_srv s')).
Proof.
  induction 1 as [s|s s1 s2 Hst _ IH]; intros n HY Hs; [by exists n|].
  destruct (sys_step_spec s s1 n HY Hs Hst) as (n1 & HY1 & Hr1).
  destruct (IH n1 HY1 (server_reach_inv _ _ Hs Hr1)) as (n2 & HY2 & Hr2). exists n2. split; [done|]. by etrans.
Qed.

(** With a request waiting, tx_task is not left waiting for its token. *)
Lemma request_wakes s n : sys_inv s n -> server_inv (set_sem n (sy_srv s)) -> sy_pos s = InPend ->
  0 <= current_client_socket (sy_srv s) ->
  exists t, a_tasks (sy_spec s) !! TX_TASK_PRIORITY = Some t /\ tk_pending t = false /\ tk_dly t = 0.
Proof.
  intros [_ HI (e & x & cnt & He & Hu & Ht) Hst] Hs Hp Hc. pose proof (si_phase _ Hs) as Hph.
  cbn [set_sem tx_state current_client_socket query_ready_sem] in Hph. rewrite Hp in Ht, Hst.
  rewrite (Hst ltac:(done)) in Hph. destruct Hph as [[? _]|[_ ->]]; [lia|]. destruct Ht as (b & -> & Ht).
  destruct (ou_sem _ _ _ _ _ Hu) as [W Ev]. pose proof (user_waits e _ _ HI b cnt W Hu Ev) as HW.
  pose proof (ou_user _ _ _ _ _ Hu) as Hin. unfold inside in Hin. destruct (a_tasks (sy_spec s) !! TX_TASK_PRIORITY) as [t|]; [|done].
  cbn in Hin. unfold entry in Hin. case_bool_decide; [|done]. injection Hin as Hb _ Hd. exists t. split; [done|].
  split; [|done]. destruct b; [|done]. destruct (kc_cnt _ (ki_core _ HI) e _ Ev) as [_ Hw]. cbn in Hw.
  rewrite HW in Hw. assert (Hx : ({[TX_TASK_PRIORITY]} : gset Z) = ∅) by (apply Hw; lia). set_solver.
Qed.

(** C9. init_network_tasks creates the semaphore and the tasks, and from then on, whatever
    connections come and whatever the interrupts and the other tasks do within the
    kernel's rules: what rx_task and tx_task do on the scheduler and the semaphore of
    uC/OS-II is a run of the two tasks as Server has it, their next calls never reach
    undefined behaviour, and with a request accepted tx_task has its token. *)
Theorem server_on_kernel (os : OS) (k : AK) (g : Globals) (d : D) :
  repr os k -> kinv k -> stack_up k -> globals_ok g -> reader_inv d ->
  exists e os1, init_task_end os = Some (Some e, os1) /\
  forall s, rtc sys_step (sys_start e os1 (a_exec_all start_calls k).2 g d) s ->
    (exists n, rtc server_step (server_start g d) (set_sem n (sy_srv s))) /\
    (in_task RX_TASK_PRIORITY (sy_spec s) -> forall fd data, 0 <= fd -> exists s', sys_rx fd data s = Some s') /\
    (tx_can_run s -> exists s', sys_tx s = Some s') /\
    (sy_pos s = InPend -> 0 <= current_client_socket (sy_srv s) ->
      exists t, a_tasks (sy_spec s) !! TX_TASK_PRIORITY = Some t /\ tk_pending t = false /\ tk_dly t = 0).
Proof.
  intros Hr HI Hup Hg Hd. destruct (init_task_runs os k Hr HI Hup) as (e & os1 & E & Hr1 & HI1 & Hu1).
  exists e, os1. split; [done|]. intros s Hrun.
  pose proof (server_start_inv g d Hg Hd) as Hs0.
  destruct (sys_run_spec _ _ Hrun 0 (sys_start_inv e os1 _ g d Hr1 HI1 Hu1) Hs0) as (n & HY & Hn).
  pose proof (server_reach_inv _ _ Hs0 Hn) as Hs. split; [by exists n|]. split; [|split].
  - intros Hin fd data Hfd. destruct (rx_total fd data _ Hs Hfd) as (s1 & E1). rewrite rx_connection_set_sem in E1.
    destruct (rx_handle fd data (sy_srv s)) as [[b srv]|] eqn:Er; [|done].
    assert (Hle : (n <= 1)%nat) by (pose proof (si_phase _ Hs) as Hp; cbn in Hp; destruct (tx_state _); lia).
    destruct (sys_rx_spec fd data s n b srv HY Hle Hin Er) as (s' & E' & _). by exists s'.
  - intros Hc. destruct (sys_tx_spec s n HY Hs Hc) as (s' & n' & E' & _). by exists s'.
  - by apply (request_wakes s n).
Qed.
End Runs.

(** ** A run on the kernel as main.c starts it *)

Definition k_started : AK := (a_exec_all start_calls k_boot).2.

Lemma boot_stack_up : stack_up k_boot.
Proof.
  constructor; try (by vm_compute).
  - vm_compute. lia.
  - intros p t e [-> _]%boot_lookup He. done.
Qed.

Lemma star_handled :
  rx_handle 5 star_http (server_start globals_start sim_start) = Some (true, set_sem 0 star_pending).
Proof. unfold star_pending. generalize globals_start. intros g. vm_compute. reflexivity. Qed.

(** The semaphore is the first event, with no token. *)
Lemma started_sem e : one_user e TX_TASK_PRIORITY k_started None 0 -> e = 0%nat.
Proof.
  intros Hu. destruct (ou_sem _ _ _ _ _ Hu) as [W Ev]. destruct e as [|e]; [done|]. exfalso.
  assert (Hn : a_sems k_started = {[0%nat := mkSem OS_EVENT_TYPE_SEM 0 ∅]}) by by vm_compute.
  rewrite Hn, lookup_singleton_ne in Ev; done.
Qed.

(** tx_task waits, a tick ends the delay, and the connection comes. *)
Lemma connected_run os1 : repr os1 k_started -> kinv k_started -> one_user 0 TX_TASK_PRIORITY k_started None 0 -> exists s,
  rtc sys_step (sys_start 0 os1 k_started globals_start sim_start) s /\ sy_pos s = InPend /\
  current_client_socket (sy_srv s) = 5.
Proof.
  intros Hr HI Hu. pose proof (sys_start_inv 0 os1 k_started globals_start sim_start Hr HI Hu) as Y0.
  destruct (calls_run [CDelay 1] _ _ _ 0 _ _ Y0) as (os2 & T1 & Y1); [done|by vm_compute|].
  destruct (pend_run os2 _ 0 _ 0 Y1) as (os3 & n3 & T2 & Y2);
    [split; [|split; [|split]]; by vm_compute|by vm_compute|exact (server_start_inv _ _ globals_start_ok sim_start_inv)|].
  destruct (calls_run [CEnter; CTick; CExit] _ _ _ n3 _ _ Y2) as (os4 & T3 & Y3); [done|by vm_compute|].
  destruct (accept_run os4 _ 0 InPend _ n3 5 star_http (set_sem 0 star_pending) Y3)
    as (os5 & T4);
    [lia|split; [|split; [|split]]; by vm_compute|exact star_handled|].
  pose proof (transitivity T1 (transitivity T2 (transitivity T3 T4))) as T. eexists. split; [exact T|by split].
Qed.

Lemma server_on_kernel_witness : exists e os1 s, init_task_end booted = Some (Some e, os1) /\
  rtc sys_step (sys_start e os1 (a_exec_all start_calls k_boot).2 globals_start sim_start) s /\
  (exists n, rtc server_step (server_start globals_start sim_start) (set_sem n (sy_srv s))) /\
  exists t, a_tasks (sy_spec s) !! TX_TASK_PRIORITY = Some t /\ tk_pending t = false.
Proof.
  destruct (server_on_kernel booted k_boot globals_start sim_start boot_repr boot_inv boot_stack_up globals_start_ok
    sim_start_inv) as (e & os1 & E & Hall).
  destruct (init_task_runs booted k_boot boot_repr boot_inv boot_stack_up) as (e1 & os2 & E1 & Hr & HI & Hu).
  assert (Hee : e1 = e /\ os2 = os1) by (split; congruence). destruct Hee as [-> ->].
  pose proof (started_sem e Hu) as ->. destruct (connected_run os1 Hr HI Hu) as (s & Hrun & Hp & Hc). exists 0%nat, os1, s.
  split; [exact E|]. split; [exact Hrun|]. destruct (Hall s Hrun) as (Hn & _ & _ & Ht). split; [exact Hn|].
  destruct (Ht Hp) as (t & Et & Hpd & _); [rewrite Hc; lia|]. exists t. split; [exact Et|exact Hpd].
Defined.
