(* ===== verification/NetDev.v ===== *)
(** * NetDev

    The interfaces of the network stack (net.h), the state shared by the Ethernet driver
    and the stack, and pktdemux (ipnet.c), which hands received packets to the protocols. *)

From S2P Require Import Prelude NetQueue PktPool KernelData Kernel KernelSem.

(** ** Outcomes

    A run ends with a value, reaches undefined behaviour, or is still in a loop when the
    number of turns given to it is used up. *)

Inductive Outcome (A : Type) := Done (a : A) | Undef | More.
Arguments Done {A} a.
Arguments Undef {A}.
Arguments More {A}.

Definition of_option {A} (o : option A) : Outcome A := match o with Some a => Done a | None => Undef end.

(** ** Data *)

Definition ETHERNET : Z := 6.
Definition PPP : Z := 23.
Definition SLIP : Z := 28.
Definition NI_UP : Z := 1.
Definition NI_DOWN : Z := 2.
Definition NF_NBPROT : Z := 0x0008.
Definition ETHHDR_SIZE : Z := 16.
Definition ETHHDR_BIAS : Z := 2.
(** [ntohs(0x0800)] and [ntohs(0x0806)] on a little-endian processor. *)
Definition IPTP : Z := 0x0008.
Definition ARPTP : Z := 0x0608.

(** The counters of an interface; those that nothing here uses are left out. *)
Record IfMib := mkIfMib {
  ifType : Z;
  ifAdminStatus : Z;
  ifOperStatus : Z;
  ifLastChange : Z;
  ifInUcastPkts : Z;
  ifInNUcastPkts : Z;
  ifInDiscards : Z;
  ifInUnknownProtos : Z;
  ifOutOctets : Z;
  ifOutUcastPkts : Z;
  ifOutNUcastPkts : Z;
}.

(** The routines a driver installs. *)
Inductive DrvFn := fn_init | fn_pkt_send | fn_close | fn_stats.
#[export] Instance DrvFn_eq_dec : EqDecision DrvFn.
Proof. solve_decision. Defined.

(** [n_local] tells whether the pointer to the driver's structure is set. *)
Record net := mkNet {
  n_init : option DrvFn;
  pkt_send : option DrvFn;
  n_close : option DrvFn;
  n_stats : option DrvFn;
  n_lnh : Z;
  n_mtu : Z;
  n_ipaddr : Z;
  snmask : Z;
  n_defgw : Z;
  n_hal : Z;
  n_mib : IfMib;
  n_local : bool;
  n_flags : Z;
}.

(** The structure of the driver, g_dm9ka. *)
Record dm9000a_dev := mkDm9ka {
  intnum : Z;
  regbase : Z;
  mac_addr : list Z;
  netp : option nat;
  sending : Z;
  rcv_len : Z;
  snd_len : Z;
  rx_ints : Z;
  tx_ints : Z;
  tosend : queue;
}.

(** The packets, the device on the bus, the kernel with the event of rcvdq_sem_ptr, the
    interfaces, the driver and its counters. *)
Record NetSt (D : Type) := mkNetSt {
  st_pool : Pool;
  st_dev : D;
  st_os : OS;
  rcvdq_sem : nat;
  st_nets : list net;
  g_dm9ka : dm9000a_dev;
  autoReset : Z;
  netisrs : Z;
  cticks : Z;
}.
Arguments mkNetSt {D}.
Arguments st_pool {D}.
Arguments st_dev {D}.
Arguments st_os {D}.
Arguments rcvdq_sem {D}.
Arguments st_nets {D}.
Arguments g_dm9ka {D}.
Arguments autoReset {D}.
Arguments netisrs {D}.
Arguments cticks {D}.

Definition set_mib (f : IfMib -> IfMib) (n : net) : net :=
  mkNet (n_init n) (pkt_send n) (n_close n) (n_stats n) (n_lnh n) (n_mtu n) (n_ipaddr n) (snmask n) (n_defgw n)
    (n_hal n) (f (n_mib n)) (n_local n) (n_flags n).

Definition add_InUcast (m : IfMib) : IfMib :=
  mkIfMib (ifType m) (ifAdminStatus m) (ifOperStatus m) (ifLastChange m) (u32 (ifInUcastPkts m + 1)) (ifInNUcastPkts m)
    (ifInDiscards m) (ifInUnknownProtos m) (ifOutOctets m) (ifOutUcastPkts m) (ifOutNUcastPkts m).
Definition add_InNUcast (m : IfMib) : IfMib :=
  mkIfMib (ifType m) (ifAdminStatus m) (ifOperStatus m) (ifLastChange m) (ifInUcastPkts m) (u32 (ifInNUcastPkts m + 1))
    (ifInDiscards m) (ifInUnknownProtos m) (ifOutOctets m) (ifOutUcastPkts m) (ifOutNUcastPkts m).
Definition add_InDiscards (m : IfMib) : IfMib :=
  mkIfMib (ifType m) (ifAdminStatus m) (ifOperStatus m) (ifLastChange m) (ifInUcastPkts m) (ifInNUcastPkts m)
    (u32 (ifInDiscards m + 1)) (ifInUnknownProtos m) (ifOutOctets m) (ifOutUcastPkts m) (ifOutNUcastPkts m).
Definition add_InUnknown (m : IfMib) : IfMib :=
  mkIfMib (ifType m) (ifAdminStatus m) (ifOperStatus m) (ifLastChange m) (ifInUcastPkts m) (ifInNUcastPkts m)
    (ifInDiscards m) (u32 (ifInUnknownProtos m + 1)) (ifOutOctets m) (ifOutUcastPkts m) (ifOutNUcastPkts m).
Definition add_Out (octets : Z) (nucast : bool) (m : IfMib) : IfMib :=
  mkIfMib (ifType m) (ifAdminStatus m) (ifOperStatus m) (ifLastChange m) (ifInUcastPkts m) (ifInNUcastPkts m)
    (ifInDiscards m) (ifInUnknownProtos m) (u32 (ifOutOctets m + octets))
    (if nucast then ifOutUcastPkts m else u32 (ifOutUcastPkts m + 1))
    (if nucast then u32 (ifOutNUcastPkts m + 1) else ifOutNUcastPkts m).
Definition set_status (admin oper : Z) (m : IfMib) : IfMib :=
  mkIfMib (ifType m) admin oper (ifLastChange m) (ifInUcastPkts m) (ifInNUcastPkts m)
    (ifInDiscards m) (ifInUnknownProtos m) (ifOutOctets m) (ifOutUcastPkts m) (ifOutNUcastPkts m).

(** ** The monad *)

Section Monad.
Context {D : Type}.

Definition N (A : Type) : Type := NetSt D -> Outcome (A * NetSt D).

Definition nret {A} (a : A) : N A := fun s => Done (a, s).
Definition nbind {A B} (m : N A) (k : A -> N B) : N B := fun s =>
  match m s with Done (a, s) => k a s | Undef => Undef | More => More end.
Definition nfail {A} : N A := fun _ => Undef.
Definition nmore {A} : N A := fun _ => More.
Definition ngets {A} (f : NetSt D -> A) : N A := fun s => Done (f s, s).

Definition set_pool (p : Pool) (s : NetSt D) : NetSt D :=
  mkNetSt p (st_dev s) (st_os s) (rcvdq_sem s) (st_nets s) (g_dm9ka s) (autoReset s) (netisrs s) (cticks s).
Definition set_dev (d : D) (s : NetSt D) : NetSt D :=
  mkNetSt (st_pool s) d (st_os s) (rcvdq_sem s) (st_nets s) (g_dm9ka s) (autoReset s) (netisrs s) (cticks s).
Definition set_os (k : OS) (s : NetSt D) : NetSt D :=
  mkNetSt (st_pool s) (st_dev s) k (rcvdq_sem s) (st_nets s) (g_dm9ka s) (autoReset s) (netisrs s) (cticks s).
Definition set_nets (l : list net) (s : NetSt D) : NetSt D :=
  mkNetSt (st_pool s) (st_dev s) (st_os s) (rcvdq_sem s) l (g_dm9ka s) (autoReset s) (netisrs s) (cticks s).
Definition set_dm (d : dm9000a_dev) (s : NetSt D) : NetSt D :=
  mkNetSt (st_pool s) (st_dev s) (st_os s) (rcvdq_sem s) (st_nets s) d (autoReset s) (netisrs s) (cticks s).
Definition incr_reset (s : NetSt D) : NetSt D :=
  mkNetSt (st_pool s) (st_dev s) (st_os s) (rcvdq_sem s) (st_nets s) (g_dm9ka s) (s32 (autoReset s + 1)) (netisrs s) (cticks s).
Definition incr_isrs (s : NetSt D) : NetSt D :=
  mkNetSt (st_pool s) (st_dev s) (st_os s) (rcvdq_sem s) (st_nets s) (g_dm9ka s) (autoReset s) (s32 (netisrs s + 1)) (cticks s).

Definition nmodify (f : NetSt D -> NetSt D) : N unit := fun s => Done (tt, f s).
Definition write_dev (f : D -> D) : N unit := nmodify (fun s => set_dev (f (st_dev s)) s).
Definition read_dev (f : D -> Z * D) : N Z := fun s =>
  let '(v, d) := f (st_dev s) in Done (v, set_dev d s).
Definition pool_do (f : Pool -> option Pool) : N unit := fun s =>
  of_option (let? p := f (st_pool s) in Some (tt, set_pool p s)).
Definition pool_get {A} (f : Pool -> option (A * Pool)) : N A := fun s =>
  of_option (let? (a, p) := f (st_pool s) in Some (a, set_pool p s)).
Definition os_do {A} (m : M A) : N A := fun s =>
  of_option (let? (a, k) := m (st_os s) in Some (a, set_os k s)).

(** [nets[i]] and its counters. *)
Definition get_net (i : nat) : N net := fun s => of_option (let? n := st_nets s !! i in Some (n, s)).
Definition upd_net (i : nat) (f : net -> net) : N unit := fun s =>
  of_option (let? n := st_nets s !! i in Some (tt, set_nets (<[i := f n]> (st_nets s)) s)).

Definition get_buf (x : nat) : N netbuf := fun s => of_option (let? b := pk_bufs (st_pool s) !! x in Some (b, s)).
Definition upd_buf (x : nat) (f : netbuf -> option netbuf) : N unit :=
  pool_do (fun p => let? b := pk_bufs p !! x in let? b := f b in Some (set_bufs (<[x := b]> (pk_bufs p)) p)).

(** A pointer that must not be null. *)
Definition nonnull {A} (o : option A) : N A := match o with Some a => nret a | None => nfail end.

End Monad.
Arguments N : clear implicits.

Notation "'do!' p ':=' m 'in' k" := (nbind m (fun x => match x with p => k end))
  (at level 10, p pattern, m at level 200, k at level 200,
   format "'[v' 'do!'  p  ':='  m  'in' '/' k ']'").

(** ** Demultiplexing *)

(** Two and four bytes of a block, little endian. *)
Definition load16 (l : list Z) (i : Z) : option Z :=
  let? a := mem_byte l i in let? b := mem_byte l (i + 1) in Some (a + b * 2 ^ 8).
Definition load32 (l : list Z) (i : Z) : option Z :=
  let? a := load16 l i in let? b := load16 l (i + 2) in Some (a + b * 2 ^ 16).

(** [addr] is a position in the block, which is aligned. *)
Definition isbcast (ifc : net) (mem : list Z) (addr : Z) : option bool :=
  let? ones := (if negb (Z.land addr (ALIGN_TYPE - 1) =? 0) then
                  let? a := load16 mem addr in
                  if negb (a =? 0xFFFF) then Some false else
                  let? b := load32 mem (addr + 2) in Some (b =? 0xFFFFFFFF)
                else
                  let? a := load32 mem addr in
                  if negb (a =? 0xFFFFFFFF) then Some false else
                  let? b := load16 mem (addr + 4) in Some (b =? 0xFFFF)) in
  if negb ones then Some false
  else Some (negb ((ifType (n_mib ifc) =? PPP) || (ifType (n_mib ifc) =? SLIP))).

Definition set_type_prot (type prot : Z) (b : netbuf) : netbuf :=
  mkNetbuf (nb_mem b) (nb_buff b) (nb_blen b) prot (nb_plen b) (nb_tstamp b) (nb_net b) type (nb_inuse b) (nb_flags b).

(** [htons((unshort)ET_TYPE_GET(eth))] *)
Definition eth_type (mem : list Z) (eth : Z) : option Z :=
  let? hi := mem_byte mem (eth + 12) in let? lo := mem_byte mem (eth + 13) in Some (hi + lo * 2 ^ 8).

Section Demux.
Context {D : Type}.
(** The protocols of the stack, which take the packet over, and the task switch. *)
Context (ip_rcv arprcv : nat -> N D Z) (tk_yield : N D unit).

(** One packet that was taken from rcvdq. *)
Definition demux_packet (pkt : nat) : N D unit :=
  do! b := get_buf pkt in
  do! ifc := nonnull (nb_net b) in
  do! n := get_net ifc in
  do! bcast := (fun s => of_option (let? r := isbcast n (nb_mem b) (nb_buff b + ETHHDR_BIAS) in Some (r, s))) in
  do! _ := upd_net ifc (set_mib (if bcast then add_InNUcast else add_InUcast)) in
  if ifAdminStatus (n_mib n) =? NI_DOWN then
    do! _ := pool_do (pk_free pkt) in
    upd_net ifc (set_mib add_InDiscards)
  else
  do! low := (fun s => of_option (let? c := mem_byte (nb_mem b) (nb_buff b - ALIGN_TYPE) in Some (c, s))) in
  do! high := (fun s => of_option (let? c := mem_byte (nb_mem b) (nb_buff b + nb_blen b) in Some (c, s))) in
  if negb (low =? ch "M") || negb (high =? ch "M") then nfail (* panic *) else
  do! known := (if Z.land (n_flags n) NF_NBPROT =? 0 then
                  if ifType (n_mib n) =? ETHERNET then
                    do! _ := upd_buf pkt (fun b => let? t := eth_type (nb_mem b) (nb_buff b + ETHHDR_BIAS) in
                                                   Some (set_type_prot t (nb_buff b + n_lnh n) b)) in
                    nret true
                  else nret false
                else nret true) in
  if negb known then pool_do (pk_free pkt) else
  do! b := get_buf pkt in
  if nb_type b =? IPTP then do! _ := ip_rcv pkt in nret tt
  else if nb_type b =? ARPTP then do! _ := arprcv pkt in nret tt
  else
    do! _ := upd_net ifc (set_mib add_InUnknown) in
    pool_do (pk_free pkt).

(** The loop, for at most [fuel] packets; a null packet stops the program. *)
Fixpoint pktdemux_loop (fuel : nat) (pkts : Z) : N D unit :=
  match fuel with
  | O => nmore
  | S fuel =>
      do! len := ngets (fun s => q_len (rcvdq (st_pool s))) in
      if len =? 0 then nret tt else
      do! big := ngets (fun s => q_len (bigfreeq (st_pool s))) in
      do! pkts := (if big <? pkts then do! _ := tk_yield in nret 0 else nret (s32 (pkts + 1))) in
      do! r := pool_get get_rcvd in
      do! pkt := nonnull r in
      do! _ := demux_packet pkt in
      pktdemux_loop fuel pkts
  end.

Definition pktdemux (fuel : nat) : N D unit := pktdemux_loop fuel 0.

End Demux.
