(* ===== verification/Dm9000a.v ===== *)
(** * Dm9000a

    The Ethernet driver (dm9000a.c, dm9000a_regs.h) and the address routines it calls
    (mac_ip_utils.c). *)

From S2P Require Import Prelude HwDriver NetQueue PktPool KernelData Kernel KernelSem NetDev.

Definition DM9000A_INST_BASE : Z := 0x1a820d8.
Definition DM9000A_INST_IRQ : Z := 6.
Definition IO_addr : Z := 0.
Definition IO_data : Z := 1.
Definition NCR : Z := 0x00.
Definition NSR : Z := 0x01.
Definition TCR : Z := 0x02.
Definition RCR : Z := 0x05.
Definition ETXCSR : Z := 0x30.
Definition MRCMDX : Z := 0xF0.
Definition MRCMD : Z := 0xF2.
Definition MWCMD : Z := 0xF8.
Definition ISR : Z := 0xFE.
Definition IMR : Z := 0xFF.
Definition NCR_set : Z := 0x00.
Definition TCR_set : Z := 0x00.
Definition TX_REQUEST : Z := 0x01.
Definition RCR_set : Z := 0x30.
Definition RX_ENABLE : Z := 0x01.
Definition PASS_MULTICAST : Z := 0x08.
Definition BPTR_set : Z := 0x3F.
Definition FCTR_set : Z := 0x5A.
Definition RTFCR_set : Z := 0x29.
Definition ETXCSR_set : Z := 0x83.
Definition INTR_set : Z := 0x81.
Definition PAR_set : Z := 0x80.
Definition PHY_reset : Z := 0x8000.
Definition PHY_txab : Z := 0x05e1.
Definition STD_DELAY : Z := 1.
Definition DMFE_SUCCESS : Z := 0.
Definition DMFE_FAIL : Z := 1.
Definition DM9000_PKT_READY : Z := 0x01.
Definition MAX_PACKET_SIZE : Z := 1522.
Definition MTU : Z := 1514.

(** The delay routines of the HAL. *)
Class Delays (D : Type) := {
  usleep : Z -> D -> D;
  msleep : Z -> D -> D;
}.

Section Registers.
Context {D : Type} `{Bus D} `{Delays D}.

(** [IOWR] and [IORD] address 32-bit registers by number. *)
Definition IOWR (base reg v : Z) (d : D) : D := IOWR_32DIRECT base (4 * reg) v d.
Definition IORD (base reg : Z) (d : D) : Z * D := IORD_32DIRECT base (4 * reg) d.

Definition dm9000a_iow (reg data : Z) (d : D) : D :=
  let d := IOWR DM9000A_INST_BASE IO_addr reg d in
  let d := usleep STD_DELAY d in
  IOWR DM9000A_INST_BASE IO_data data d.

Definition dm9000a_ior (reg : Z) (d : D) : Z * D :=
  let d := IOWR DM9000A_INST_BASE IO_addr reg d in
  let d := usleep STD_DELAY d in
  IORD DM9000A_INST_BASE IO_data d.

Definition phy_write (reg value : Z) (d : D) : D :=
  let d := dm9000a_iow 0x0C (Z.lor reg 0x40) d in
  let d := dm9000a_iow 0x0E (Z.land (Z.shiftr value 8) 0xFF) d in
  let d := dm9000a_iow 0x0D (Z.land value 0xFF) d in
  let d := dm9000a_iow 0x0B 0x8 d in
  let d := IOWR DM9000A_INST_BASE IO_data 0x0A d in
  let d := usleep STD_DELAY d in
  let d := IOWR DM9000A_INST_BASE IO_data 0x08 d in
  usleep 50 d.

(** The software reset, done in four places: both writes of NCR, twice. *)
Definition nic_reset (d : D) : D :=
  let d := dm9000a_iow NCR 0x03 d in
  let d := usleep 20 d in
  let d := dm9000a_iow NCR 0x00 d in
  let d := dm9000a_iow NCR 0x03 d in
  let d := usleep 20 d in
  dm9000a_iow NCR 0x00 d.

(** The operating registers up to the clearing of events, common to the two
    initialisations. *)
Definition nic_operate (d : D) : D :=
  let d := dm9000a_iow NCR NCR_set d in
  let d := dm9000a_iow 0x08 BPTR_set d in
  let d := dm9000a_iow 0x09 FCTR_set d in
  let d := dm9000a_iow 0x0A RTFCR_set d in
  dm9000a_iow 0x0F 0x00 d.

(** The last three writes of both. *)
Definition nic_enable (d : D) : D :=
  let d := dm9000a_iow ETXCSR ETXCSR_set d in
  let d := dm9000a_iow IMR INTR_set d in
  dm9000a_iow RCR (Z.lor (Z.lor RCR_set RX_ENABLE) PASS_MULTICAST) d.

Definition clear_status (d : D) : D := dm9000a_iow NSR 0x2C (dm9000a_iow ISR 0x3F d).

(** [for (i = 0; i < 6; i++) dm9000a_iow(16 + i, mac_address[i])] *)
Fixpoint store_mac (i : Z) (mac : list Z) (d : D) : D :=
  match mac with
  | [] => d
  | b :: mac => store_mac (i + 1) mac (dm9000a_iow (16 + i) b d)
  end.

Definition dm9000a_reset (mac_address : list Z) (d : D) : Z * D :=
  let d := dm9000a_iow 0x1E 0x01 d in
  let d := dm9000a_iow 0x1F 0x00 d in
  let d := msleep 10 d in
  let d := nic_reset d in
  let d := clear_status d in
  let d := dm9000a_iow 0x1F 0x01 d in
  let d := dm9000a_iow 0x1F 0x00 d in
  let d := msleep 20 d in
  let d := phy_write 0 PHY_reset d in
  let d := usleep 50 d in
  let d := phy_write 16 0x404 d in
  let d := phy_write 4 PHY_txab d in
  let d := phy_write 0 0x1200 d in
  let d := msleep 20 d in
  let d := store_mac 0 (take 6 mac_address) d in
  let d := clear_status d in
  let d := nic_operate d in
  let d := nic_enable d in
  let '(v, d) := dm9000a_ior 0x2D d in
  (if v =? 0x80 then DMFE_SUCCESS else DMFE_FAIL, d).

(** ** Transmission *)

(** The loop that writes the frame, from byte [i] on; [data] is the memory from there on. *)
Fixpoint tx_words (data : list Z) (i tx_len : Z) (d : D) : Outcome D :=
  if i <? tx_len then
    match data with
    | a :: b :: data =>
        let d := usleep STD_DELAY d in
        tx_words data (i + 2) tx_len (IOWR DM9000A_INST_BASE IO_data (Z.lor (Z.shiftl b 8) a) d)
    | _ => Undef
    end
  else Done d.

(** The wait for the end of the transmission, which the code does not bound. *)
Fixpoint tx_wait (fuel : nat) (d : D) : Outcome D :=
  match fuel with
  | O => More
  | S fuel =>
      let '(v, d) := dm9000a_ior NSR d in
      if Z.land v 0x0C =? 0 then tx_wait fuel (usleep STD_DELAY d) else Done d
  end.

(** [data] is the memory from [data_ptr] to the end of its object. *)
Definition TransmitPacket (fuel : nat) (data : list Z) (tx_len : Z) (d : D) : Outcome (Z * D) :=
  let d := dm9000a_iow IMR PAR_set d in
  let d := dm9000a_iow 0xFD (Z.land (Z.shiftr tx_len 8) 0xFF) d in
  let d := dm9000a_iow 0xFC (Z.land tx_len 0xFF) d in
  let d := IOWR DM9000A_INST_BASE IO_addr MWCMD d in
  match tx_words data 0 tx_len d with
  | Done d =>
      let d := dm9000a_iow TCR (Z.lor TCR_set TX_REQUEST) d in
      match tx_wait fuel d with
      | Done d =>
          let d := dm9000a_iow NSR 0x00 d in
          let d := dm9000a_iow IMR INTR_set d in
          Done (DMFE_SUCCESS, d)
      | Undef => Undef
      | More => More
      end
  | Undef => Undef
  | More => More
  end.

(** ** Reception *)

Definition dm9000a_rxReady (base : Z) (d : D) : Z * D :=
  let '(_, d) := dm9000a_ior MRCMDX d in
  let '(v, d) := IORD base IO_data d in
  (Z.land v 0x03, d).

(** [n] words read and dropped. *)
Fixpoint rx_dump (n : nat) (base : Z) (d : D) : D :=
  match n with
  | O => d
  | S n => rx_dump n base (snd (IORD base IO_data (usleep STD_DELAY d)))
  end.

(** [n] words read into a block, from position [data_ptr] on. *)
Fixpoint rx_copy (n : nat) (base data_ptr : Z) (mem : list Z) (d : D) : option (list Z * D) :=
  match n with
  | O => Some (mem, d)
  | S n =>
      let '(tmp, d) := IORD base IO_data (usleep STD_DELAY d) in
      let? mem := mem_put data_ptr (Z.land tmp 0xFF) mem in
      let? mem := mem_put (data_ptr + 1) (Z.land (Z.shiftr tmp 8) 0xFF) mem in
      rx_copy n base (data_ptr + 2) mem d
  end.

End Registers.

(** The turns of [for (i = 0; i < len; i += 2)]. *)
Definition half_up (len : Z) : nat := Z.to_nat ((len + 1) / 2).

(** What the interrupt routine writes into a received packet. *)
Definition rx_fields (mem : list Z) (rx_len tstamp : Z) (netp : option nat) (type : Z) (b : netbuf) : netbuf :=
  mkNetbuf mem (nb_buff b) (nb_blen b) (nb_buff b + ETHHDR_SIZE) (u32 (rx_len - 14)) tstamp netp type
    (nb_inuse b) (nb_flags b).

Section Driver.
Context {D : Type} `{Bus D} `{Delays D}.

(** [(DM9KA)nets[iface]->n_local]; the interfaces that set it set it to g_dm9ka. *)
Definition get_local (iface : nat) : N D dm9000a_dev :=
  do! n := get_net iface in
  if n_local n then ngets g_dm9ka else nfail.

(** A packet whose header has been read: [rx_sts] and [rx_len]. *)
Definition rx_body (rx_sts rx_len : Z) : N D unit :=
  do! dm := ngets g_dm9ka in
  let base := regbase dm in
  if (Z.land rx_sts 0xBF00 =? 0) && (rx_len <? MAX_PACKET_SIZE) then
    do! r := pool_get (pk_alloc (u32 (rx_len + ETHHDR_BIAS))) in
    match r with
    | None =>
        do! i := nonnull (netp dm) in
        do! _ := upd_net i (set_mib add_InDiscards) in
        write_dev (rx_dump (half_up rx_len) base)
    | Some pkt =>
        do! b := get_buf pkt in
        do! mem := (fun s =>
          of_option (let? (mem, d) := rx_copy (half_up rx_len) base (nb_buff b + ETHHDR_BIAS) (nb_mem b) (st_dev s) in
                     Some (mem, set_dev d s))) in
        do! t := ngets cticks in
        do! type := (fun s => of_option (let? t := load16 mem (nb_buff b + ETHHDR_BIAS + 12) in Some (t, s))) in
        do! _ := upd_buf pkt (fun b => Some (rx_fields mem rx_len t (netp dm) type b)) in
        do! _ := pool_do (put_rcvd pkt) in
        do! e := ngets rcvdq_sem in
        do! _ := os_do (OSSemPost (Some e)) in
        nret tt
    end
  else write_dev (rx_dump (half_up rx_len) base).

(** The packet that is next in the chip, header and data. *)
Definition rx_frame : N D unit :=
  do! dm := ngets g_dm9ka in
  let base := regbase dm in
  do! _ := write_dev (IOWR base IO_addr MRCMD) in
  do! _ := write_dev (usleep STD_DELAY) in
  do! rx_sts := read_dev (IORD base IO_data) in
  do! _ := write_dev (usleep STD_DELAY) in
  do! rx_len := read_dev (IORD base IO_data) in
  rx_body rx_sts rx_len.

(** The loop over the packets in the chip; it returns the last ready flag. *)
Fixpoint rx_loop (fuel : nat) (rx_rdy : Z) : N D Z :=
  match fuel with
  | O => nmore
  | S fuel =>
      if rx_rdy =? DM9000_PKT_READY then
        do! _ := rx_frame in
        do! _ := write_dev (usleep STD_DELAY) in
        do! dm := ngets g_dm9ka in
        do! rx_rdy := read_dev (dm9000a_rxReady (regbase dm)) in
        do! _ := write_dev (usleep STD_DELAY) in
        rx_loop fuel rx_rdy
      else nret rx_rdy
  end.

(** The recovery from a ready flag that cannot occur. *)
Definition rx_recover (d : D) : D :=
  let d := nic_reset d in
  let d := nic_operate d in
  let d := dm9000a_iow 0x2D 0x80 d in
  nic_enable d.

Definition dm9000a_isr (fuel : nat) (iface : nat) : N D unit :=
  do! dm := get_local iface in
  do! _ := write_dev (dm9000a_iow IMR PAR_set) in
  do! istatus := read_dev (dm9000a_ior ISR) in
  do! rx_rdy := read_dev (dm9000a_rxReady (regbase dm)) in
  do! _ := write_dev (usleep STD_DELAY) in
  do! rx_rdy := rx_loop fuel rx_rdy in
  do! _ := (if negb (Z.land rx_rdy 0x02 =? 0) then
              do! _ := nmodify incr_reset in
              write_dev rx_recover
            else nret tt) in
  do! _ := write_dev (dm9000a_iow ISR 0x3F) in
  write_dev (dm9000a_iow IMR INTR_set).

Definition dm9Ka_isr_wrap (fuel : nat) (context : nat) : N D unit :=
  do! _ := nmodify incr_isrs in
  dm9000a_isr fuel context.

(** ** The routines installed in the interface *)

Definition dm9ka_pkt_send (fuel : nat) (pkt : nat) : N D Z :=
  do! b := get_buf pkt in
  do! i := nonnull (nb_net b) in
  do! dm := get_local i in
  let slen := u32 (nb_plen b - ETHHDR_BIAS) in
  let slen := if slen <? 64 then 64 else slen in
  do! data := (if (0 <=? nb_prot b + ETHHDR_BIAS)
               then nret (drop (Z.to_nat (nb_prot b + ETHHDR_BIAS)) (nb_mem b)) else nfail) in
  do! rv := (fun s => match TransmitPacket fuel data slen (st_dev s) with
                      | Done (rv, d) => Done (rv, set_dev d s) | Undef => Undef | More => More end) in
  do! _ := (if rv =? DMFE_SUCCESS then
              do! j := nonnull (netp dm) in
              do! c := (fun s => of_option (let? c := mem_byte (nb_mem b) (nb_prot b) in Some (c, s))) in
              upd_net j (set_mib (add_Out (nb_plen b) (negb (Z.land c 0x80 =? 0))))
            else nret tt) in
  do! _ := pool_do (pk_free pkt) in
  nret 0.

(** [alt_irq_register] is the HAL's; it returns an error code. *)
Definition dm9ka_init (alt_irq_register : Z -> nat -> D -> Z * D) (iface : nat) : N D Z :=
  do! dm := get_local iface in
  do! err := read_dev (dm9000a_reset (mac_addr dm)) in
  do! err := read_dev (alt_irq_register (intnum dm) iface) in
  if negb (err =? 0) then nret err else
  do! _ := upd_net iface (set_mib (set_status 1 1)) in
  nret 0.

Definition dm9ka_close (iface : nat) : N D Z :=
  do! _ := upd_net iface (set_mib (fun m => set_status 2 (ifOperStatus m) m)) in
  do! _ := write_dev nic_reset in
  do! _ := write_dev (fun d => dm9000a_iow 0x0F 0x00 (dm9000a_iow RCR 0x00 (dm9000a_iow IMR 0x00 d))) in
  do! _ := upd_net iface (set_mib (fun m => set_status (ifAdminStatus m) 2 m)) in
  nret 0.

Definition get_mac_addr (netp : option nat) : list Z := [0x00; 0x07; 0xED; 0xFF; 0x8F; 0x11].

(** [htonl] of the four bytes, on a little-endian processor. *)
Definition IP4_ADDR (a b c d : Z) : Z :=
  Z.lor (Z.lor (Z.lor (Z.land a 0xFF) (Z.shiftl (Z.land b 0xFF) 8)) (Z.shiftl (Z.land c 0xFF) 16))
    (Z.shiftl (Z.land d 0xFF) 24).

(** The address, the mask, the gateway and the DHCP flag. *)
Definition get_ip_addr : Z * Z * Z * Z :=
  (IP4_ADDR 192 168 1 15, IP4_ADDR 255 255 255 0, IP4_ADDR 192 168 1 1, 1).

(** The fields of the interface; [cticks * (100 / TPS)] is a tenth of the ticks, since TPS
    is the floating-point constant 1000.0. *)
Definition prep_net (ticks : Z) (n : net) : net :=
  let m := n_mib n in
  mkNet (Some fn_init) (Some fn_pkt_send) (Some fn_close) (Some fn_stats) ETHHDR_SIZE MTU (n_ipaddr n) (snmask n)
    (n_defgw n) 6
    (mkIfMib ETHERNET 2 2 (u32 (ticks / 10)) (ifInUcastPkts m) (ifInNUcastPkts m) (ifInDiscards m)
      (ifInUnknownProtos m) (ifOutOctets m) (ifOutUcastPkts m) (ifOutNUcastPkts m))
    true (Z.lor (n_flags n) NF_NBPROT).

Definition prep_dm9000a (index : nat) : N D nat :=
  do! t := ngets cticks in
  do! _ := upd_net index (prep_net t) in
  do! dm := ngets g_dm9ka in
  let mac := get_mac_addr (netp dm) in
  let q := tosend dm in
  do! _ := nmodify (set_dm (mkDm9ka DM9000A_INST_IRQ DM9000A_INST_BASE mac (Some index) 0 0 0 0 0
                             (mkQueue (q_head q) (q_tail q) 0 0 (q_min q)))) in
  nret (S index).

Definition dm9000a_init (if_num : nat) : N D Z :=
  do! _ := prep_dm9000a if_num in nret 0.

End Driver.
