(* ===== verification/Dm9000aFacts.v ===== *)
(** * Dm9000aFacts

    The Ethernet chip as a device behind the bus, and what the driver's register routines
    and its transmission do to it. *)

From stdpp Require Import gmap.
From S2P Require Import Prelude HwDriver NetDev Dm9000a.

(** ** The chip

    Registers are reached through an index.  Received frames stand in the chip as a stream
    of 16-bit words; what arrives during a delay is appended to it while reception is
    enabled. *)

(** The registers and the transmitter. *)
Record NicT := mkT {
  t_idx : Z;             (* index register *)
  t_regs : gmap Z Z;     (* plain registers *)
  t_txw : list Z;        (* words of the frame being written *)
  t_sent : list (list Z);  (* frames sent, as bytes *)
  t_busy : option nat;   (* reads of NSR until the transmission is over *)
  t_lat : nat;           (* reads a transmission takes *)
}.

(** The receiver. *)
Record NicR := mkR {
  r_isr : Z;             (* interrupt status *)
  r_rx : list Z;         (* received words *)
  r_wire : list (list Z);  (* what arrives at each of the next delays *)
}.

Record Nic := mkNic { nic_t : NicT; nic_r : NicR }.

Definition reg (r : Z) (t : NicT) : Z := default 0 (t_regs t !! r).

Definition set_idx (i : Z) (t : NicT) : NicT :=
  mkT i (t_regs t) (t_txw t) (t_sent t) (t_busy t) (t_lat t).

Definition bytes_of (ws : list Z) : list Z := ws ≫= (fun w => [w mod 2 ^ 8; w / 2 ^ 8 mod 2 ^ 8]).

(** A write to the register the index names. *)
Definition t_write (v : Z) (t : NicT) : NicT :=
  let i := t_idx t in
  if i =? MWCMD then mkT i (t_regs t) (t_txw t ++ [v mod 2 ^ 16]) (t_sent t) (t_busy t) (t_lat t)
  else if i =? TCR then
    if Z.testbit v 0 then
      mkT i (t_regs t) [] (t_sent t ++ [take (Z.to_nat (reg 0xFD t * 2 ^ 8 + reg 0xFC t)) (bytes_of (t_txw t))])
        (Some (t_lat t)) (t_lat t)
    else t
  else if i =? ISR then t
  else if (i =? NCR) && Z.testbit v 0 then mkT i ∅ [] (t_sent t) None (t_lat t)
  else mkT i (<[i := v]> (t_regs t)) (t_txw t) (t_sent t) (t_busy t) (t_lat t).

Definition r_write (i v : Z) (r : NicR) : NicR :=
  if i =? ISR then mkR (Z.land (r_isr r) (Z.lnot v)) (r_rx r) (r_wire r)
  else if (i =? NCR) && Z.testbit v 0 then mkR 0 [] (r_wire r)
  else r.

Definition nic_write (v : Z) (n : Nic) : Nic :=
  mkNic (t_write v (nic_t n)) (r_write (t_idx (nic_t n)) v (nic_r n)).

Definition nic_read (n : Nic) : Z * Nic :=
  let t := nic_t n in
  let r := nic_r n in
  if t_idx t =? MRCMDX then (hd 0 (r_rx r), n)
  else if t_idx t =? MRCMD then (hd 0 (r_rx r), mkNic t (mkR (r_isr r) (tl (r_rx r)) (r_wire r)))
  else if t_idx t =? ISR then (r_isr r, n)
  else if t_idx t =? NSR then
    let busy b := mkNic (mkT (t_idx t) (t_regs t) (t_txw t) (t_sent t) b (t_lat t)) r in
    match t_busy t with
    | None => (0, n)
    | Some O => (0x04, busy None)
    | Some (S k) => (0, busy (Some k))
    end
  else (reg (t_idx t) t, n).

Definition rx_enabled (t : NicT) : bool := Z.testbit (reg RCR t) 0.

(** A delay. *)
Definition r_tick (enabled : bool) (r : NicR) : NicR :=
  match r_wire r with
  | [] => r
  | ws :: wire =>
      if enabled then mkR (if bool_decide (ws = []) then r_isr r else Z.lor (r_isr r) 1) (r_rx r ++ ws) wire
      else mkR (r_isr r) (r_rx r) wire
  end.

Definition nic_tick (n : Nic) : Nic := mkNic (nic_t n) (r_tick (rx_enabled (nic_t n)) (nic_r n)).
Definition nic_index (i : Z) (n : Nic) : Nic := mkNic (set_idx i (nic_t n)) (nic_r n).

(** The chip on the bus of a device. *)
Class Chip (D : Type) `{Bus D} `{Delays D} := {
  nic_view : D -> Nic;
  nic_addr_law : forall v d, nic_view (IOWR DM9000A_INST_BASE IO_addr v d) = nic_index v (nic_view d);
  nic_data_law : forall v d, nic_view (IOWR DM9000A_INST_BASE IO_data v d) = nic_write v (nic_view d);
  nic_read_law : forall d, fst (IORD DM9000A_INST_BASE IO_data d) = fst (nic_read (nic_view d));
  nic_read_view : forall d, nic_view (snd (IORD DM9000A_INST_BASE IO_data d)) = snd (nic_read (nic_view d));
  nic_usleep_law : forall t d, nic_view (usleep t d) = nic_tick (nic_view d);
  nic_msleep_law : forall t d, nic_view (msleep t d) = nic_tick (nic_view d);
}.

(** The chip alone. *)
#[export] Instance nic_bus : Bus Nic := {|
  IOWR_32DIRECT base off v n :=
    if base =? DM9000A_INST_BASE then (if off =? 0 then nic_index v n else nic_write v n) else n;
  IORD_32DIRECT base off n := if base =? DM9000A_INST_BASE then nic_read n else (0, n);
  OSTimeDlyHMSM _ _ _ _ n := n;
|}.
#[export] Instance nic_delays : Delays Nic := {| usleep _ n := nic_tick n; msleep _ n := nic_tick n |}.
#[export] Instance nic_chip : Chip Nic := {|
  nic_view n := n;
  nic_addr_law v d := eq_refl;
  nic_data_law v d := eq_refl;
  nic_read_law d := eq_refl;
  nic_read_view d := eq_refl;
  nic_usleep_law t d := eq_refl;
  nic_msleep_law t d := eq_refl;
|}.

(** ** What the receiver sees of other accesses: delays *)

Definition ticks (enabled : bool) (r r' : NicR) : Prop := exists k, r' = Nat.iter k (r_tick enabled) r.

#[export] Instance ticks_preorder e : PreOrder (ticks e).
Proof.
  split.
  - intros r. by exists 0%nat.
  - intros r1 r2 r3 [k1 ->] [k2 ->]. exists (k2 + k1)%nat. by rewrite Nat.iter_add.
Qed.

Lemma ticks_one e r : ticks e r (r_tick e r).
Proof. by exists 1%nat. Qed.
#[export] Hint Resolve ticks_one : core.

(** ** Register accesses *)

Definition plain (i : Z) : bool := negb ((i =? MWCMD) || (i =? TCR) || (i =? ISR) || (i =? NCR)).

(** The transmitter after a plain register was written through the index. *)
Definition t_put (i v : Z) (t : NicT) : NicT := t_write v (set_idx i t).

Lemma t_put_plain i v t : plain i = true ->
  t_put i v t = mkT i (<[i := v]> (t_regs t)) (t_txw t) (t_sent t) (t_busy t) (t_lat t).
Proof.
  unfold plain. intros [[[H1 H2]%orb_false_iff H3]%orb_false_iff H4]%negb_true_iff%orb_false_iff.
  unfold t_put, t_write, set_idx. cbn [t_idx t_regs t_txw t_sent t_busy t_lat]. by rewrite H1, H2, H3, H4.
Qed.

Lemma reg_put i v t j : plain i = true -> reg j (t_put i v t) = if j =? i then v else reg j t.
Proof.
  intros H. rewrite t_put_plain by done. unfold reg. cbn. destruct (Z.eqb_spec j i) as [->|Hne].
  - by rewrite lookup_insert_eq.
  - by rewrite lookup_insert_ne.
Qed.

Section Views.
Context {D : Type} `{Chip D}.

Abbreviation vt d := (nic_t (nic_view d)).
Abbreviation vr d := (nic_r (nic_view d)).

Lemma iow_t i v d : vt (dm9000a_iow i v d) = t_put i v (vt d).
Proof. unfold dm9000a_iow. by rewrite nic_data_law, nic_usleep_law, nic_addr_law. Qed.

Lemma iow_r i v d : vr (dm9000a_iow i v d) = r_write i v (r_tick (rx_enabled (vt d)) (vr d)).
Proof. unfold dm9000a_iow. by rewrite nic_data_law, nic_usleep_law, nic_addr_law. Qed.

(** Registers other than ISR and NCR do not reach the receiver. *)
Lemma iow_ticks i v d : (i =? ISR) || (i =? NCR) = false -> ticks (rx_enabled (vt d)) (vr d) (vr (dm9000a_iow i v d)).
Proof.
  intros [E1 E2]%orb_false_iff. rewrite iow_r. unfold r_write. rewrite E1, E2. cbn [andb]. by exists 1%nat.
Qed.

Lemma ior_view i d : nic_view (snd (dm9000a_ior i d)) = snd (nic_read (nic_tick (nic_index i (nic_view d)))).
Proof. unfold dm9000a_ior. by rewrite nic_read_view, nic_usleep_law, nic_addr_law. Qed.

Lemma ior_val i d : fst (dm9000a_ior i d) = fst (nic_read (nic_tick (nic_index i (nic_view d)))).
Proof. unfold dm9000a_ior. by rewrite nic_read_law, nic_usleep_law, nic_addr_law. Qed.

Lemma usleep_t x d : vt (usleep x d) = vt d.
Proof. by rewrite nic_usleep_law. Qed.
Lemma usleep_r x d : vr (usleep x d) = r_tick (rx_enabled (vt d)) (vr d).
Proof. by rewrite nic_usleep_law. Qed.

(** ** Transmission *)

Lemma half_up_le len : len <= 0 -> half_up len = O.
Proof using Type. intros Hl. unfold half_up. rewrite Z2Nat.nonpos; [done|]. Z.to_euclidean_division_equations; lia. Qed.

Lemma half_up_S len : 0 < len -> half_up len = S (half_up (len - 2)).
Proof using Type.
  intros Hl. unfold half_up. replace (len + 1) with (len - 2 + 1 + 1 * 2) by lia. rewrite Z.div_add by lia.
  destruct (decide (len = 1)) as [->|]; [done|]. rewrite Z2Nat.inj_add by (try apply Z.div_pos; lia). cbn. lia.
Qed.

Lemma word_bytes a b : is_u8 a -> is_u8 b -> bytes_of [Z.lor (Z.shiftl b 8) a mod 2 ^ 16] = [a; b].
Proof using Type.
  intros Ha Hb. rewrite Z.lor_comm, lor_shiftl_add by word_lia. unfold is_u8 in *. cbn.
  rewrite (Z.mod_small (a + _)) by (change (2 ^ 8) with 256 in *; lia).
  change (Z.pow_pos 2 8) with 256. change (2 ^ 8) with 256 in *.
  f_equal; [|f_equal]; Z.to_euclidean_division_equations; lia.
Qed.

Lemma tx_words_spec n data i len d :
  half_up (len - i) = n -> (2 * n <= length data)%nat -> bytes data -> t_idx (vt d) = MWCMD ->
  exists d' ws, tx_words data i len d = Done d' /\
    vt d' = mkT MWCMD (t_regs (vt d)) (t_txw (vt d) ++ ws) (t_sent (vt d)) (t_busy (vt d)) (t_lat (vt d)) /\
    take (Z.to_nat (len - i)) (bytes_of ws) = take (Z.to_nat (len - i)) data /\
    ticks (rx_enabled (vt d)) (vr d) (vr d').
Proof using Type.
  revert data i d. induction n as [|n IH]; intros data i d Hn Hlen Hby Hi.
  - assert (Hle : len - i <= 0) by (destruct (Z.lt_ge_cases 0 (len - i)); [rewrite half_up_S in Hn by lia; lia|lia]).
    exists d, []. assert (E : tx_words data i len d = Done d) by (destruct data; cbn; by rewrite (proj2 (Z.ltb_ge _ _)) by lia).
    split; [done|]. rewrite app_nil_r, <- Hi. split; [by destruct (vt d)|]. split; [by rewrite Z2Nat.nonpos by lia|done].
  - assert (Hgt : 0 < len - i) by (destruct (Z.lt_ge_cases 0 (len - i)); [done|by rewrite half_up_le in Hn by lia]).
    destruct data as [|a [|b data]]; cbn in Hlen; try lia. cbn [tx_words]. rewrite (proj2 (Z.ltb_lt _ _)) by lia.
    inversion_clear Hby as [|? ? Ha Hby']. inversion_clear Hby' as [|? ? Hb Hby].
    set (d1 := IOWR DM9000A_INST_BASE IO_data (Z.lor (Z.shiftl b 8) a) (usleep STD_DELAY d)).
    assert (Ht1 : vt d1 = mkT MWCMD (t_regs (vt d)) (t_txw (vt d) ++ [Z.lor (Z.shiftl b 8) a mod 2 ^ 16])
      (t_sent (vt d)) (t_busy (vt d)) (t_lat (vt d))).
    { unfold d1. rewrite nic_data_law, nic_usleep_law. cbn [nic_write nic_tick nic_t]. unfold t_write. by rewrite Hi. }
    assert (Hr1 : ticks (rx_enabled (vt d)) (vr d) (vr d1)).
    { unfold d1. rewrite nic_data_law, nic_usleep_law. cbn [nic_write nic_tick nic_t nic_r]. rewrite Hi. by exists 1%nat. }
    rewrite half_up_S in Hn by done.
    destruct (IH data (i + 2) d1) as (d' & ws & E & Ht & Hb' & Hr); [|lia|done|by rewrite Ht1|].
    { rewrite <- (Nat.succ_inj _ _ Hn). f_equal. lia. }
    exists d', (Z.lor (Z.shiftl b 8) a mod 2 ^ 16 :: ws). split; [done|]. rewrite Ht, Ht1. cbn [t_regs t_txw t_sent t_busy t_lat].
    split; [by rewrite <- (assoc_L (++))|]. split.
    + change (bytes_of (?w :: ws)) with (bytes_of [w] ++ bytes_of ws). rewrite word_bytes by done. cbn [app].
      destruct (decide (len - i = 1)) as [->|]; [done|]. replace (Z.to_nat (len - i)) with (S (S (Z.to_nat (len - (i + 2))))) by lia.
      cbn [take]. by rewrite Hb'.
    + etrans; [exact Hr1|]. unfold rx_enabled, reg in *. by rewrite Ht1 in Hr.
Qed.

(** The poll of NSR ends exactly when the chip reports the end of the transmission. *)
Lemma tx_wait_spec fuel d k : t_busy (vt d) = Some k -> (k < fuel)%nat ->
  exists d', tx_wait fuel d = Done d' /\
    vt d' = mkT NSR (t_regs (vt d)) (t_txw (vt d)) (t_sent (vt d)) None (t_lat (vt d)) /\
    ticks (rx_enabled (vt d)) (vr d) (vr d').
Proof using Type.
  revert d k. induction fuel as [|fuel IH]; intros d k Hb Hk; [lia|]. cbn [tx_wait].
  destruct (dm9000a_ior NSR d) as [v d1] eqn:E. pose proof (ior_val NSR d) as Hv. pose proof (ior_view NSR d) as Hn.
  rewrite E in Hv, Hn. cbn [fst snd] in Hv, Hn.
  unfold nic_read in Hv, Hn. cbn [nic_tick nic_index nic_t nic_r set_idx t_idx t_busy] in Hv, Hn.
  change (NSR =? MRCMDX) with false in *. change (NSR =? MRCMD) with false in *. change (NSR =? ISR) with false in *.
  change (NSR =? NSR) with true in *. cbn iota in Hv, Hn. rewrite Hb in Hv, Hn.
  destruct k as [|k]; cbn [fst snd] in Hv, Hn; subst v; cbn [Z.land Z.eqb].
  - exists d1. split; [done|]. rewrite Hn. cbn. split; [done|]. by exists 1%nat.
  - destruct (IH (usleep STD_DELAY d1) k) as (d' & Ew & Ht & Hr); [by rewrite usleep_t, Hn|lia|].
    exists d'. split; [exact Ew|]. rewrite usleep_t in Ht, Hr. rewrite usleep_r, Hn in Hr. rewrite Hn in Ht. split; [exact Ht|].
    etrans; [|exact Hr]. by exists 2%nat.
Qed.

Lemma tx_wait_more fuel d : match t_busy (vt d) with Some k => (fuel <= k)%nat | None => True end -> tx_wait fuel d = More.
Proof using Type.
  revert d. induction fuel as [|fuel IH]; intros d Hb; [done|]. cbn [tx_wait].
  destruct (dm9000a_ior NSR d) as [v d1] eqn:E. pose proof (ior_val NSR d) as Hv. pose proof (ior_view NSR d) as Hn.
  rewrite E in Hv, Hn. cbn [fst snd] in Hv, Hn.
  unfold nic_read in Hv, Hn. cbn [nic_tick nic_index nic_t nic_r set_idx t_idx t_busy] in Hv, Hn.
  change (NSR =? MRCMDX) with false in *. change (NSR =? MRCMD) with false in *. change (NSR =? ISR) with false in *.
  change (NSR =? NSR) with true in *. cbn iota in Hv, Hn.
  destruct (t_busy (vt d)) as [[|k]|] eqn:Eb; cbn [fst snd] in Hv, Hn; [lia|..]; subst v; cbn [Z.land Z.eqb];
    apply IH; rewrite usleep_t, Hn; cbn; [lia|by rewrite Eb].
Qed.

(** TransmitPacket after interrupts are masked. *)
Definition transmit (fuel : nat) (data : list Z) (tx_len : Z) (d : D) : Outcome (Z * D) :=
  let d := dm9000a_iow 0xFD (Z.land (Z.shiftr tx_len 8) 0xFF) d in
  let d := dm9000a_iow 0xFC (Z.land tx_len 0xFF) d in
  let d := IOWR DM9000A_INST_BASE IO_addr MWCMD d in
  match tx_words data 0 tx_len d with
  | Done d =>
      match tx_wait fuel (dm9000a_iow TCR (Z.lor TCR_set TX_REQUEST) d) with
      | Done d => Done (DMFE_SUCCESS, dm9000a_iow IMR INTR_set (dm9000a_iow NSR 0x00 d))
      | Undef => Undef
      | More => More
      end
  | Undef => Undef
  | More => More
  end.

Lemma TransmitPacket_eq fuel data len d : TransmitPacket fuel data len d = transmit fuel data len (dm9000a_iow IMR PAR_set d).
Proof using Type. reflexivity. Qed.

(** The registers from there to the start of the data. *)
Definition len_regs (len : Z) (regs : gmap Z Z) : gmap Z Z :=
  <[0xFC := Z.land len 0xFF]> (<[0xFD := Z.land (Z.shiftr len 8) 0xFF]> regs).

Lemma len_regs_val len regs txw sent busy lat i : 0 <= len < 2 ^ 16 ->
  reg 0xFD (mkT i (len_regs len regs) txw sent busy lat) * 2 ^ 8 + reg 0xFC (mkT i (len_regs len regs) txw sent busy lat) = len.
Proof using Type.
  intros Hl. unfold reg, len_regs. cbn [t_regs]. rewrite lookup_insert_eq, lookup_insert_ne, lookup_insert_eq by done. cbn [default]. unfold id.
  change 0xFF with (Z.ones 8). rewrite !Z.land_ones, Z.shiftr_div_pow2 by done. change (2 ^ 8) with 256. change (2 ^ 16) with 65536 in Hl.
  rewrite (Z.mod_small (len / 256)) by (Z.to_euclidean_division_equations; lia).
  pose proof (Z.div_mod len 256). lia.
Qed.

Lemma enabled_put i v t : plain i = true -> i <> RCR -> rx_enabled (t_put i v t) = rx_enabled t.
Proof using Type. intros Hp Hi. unfold rx_enabled. rewrite reg_put by done. by rewrite (proj2 (Z.eqb_neq _ _)) by congruence. Qed.

Lemma enabled_len len t i txw sent busy lat : rx_enabled (mkT i (len_regs len (t_regs t)) txw sent busy lat) = rx_enabled t.
Proof using Type. unfold rx_enabled, reg, len_regs. cbn [t_regs]. by rewrite !lookup_insert_ne. Qed.

(** A write of a register that concerns neither the receiver nor its control. *)
Lemma iow_quiet i v d : (i =? ISR) || (i =? NCR) = false -> plain i = true -> i <> RCR ->
  ticks (rx_enabled (vt d)) (vr d) (vr (dm9000a_iow i v d)) /\ rx_enabled (vt (dm9000a_iow i v d)) = rx_enabled (vt d).
Proof using Type. intros Hi Hp Hr. split; [by apply iow_ticks|]. rewrite iow_t. by apply enabled_put. Qed.

(** Up to the request, which sends the frame. *)
Lemma transmit_starts fuel data len d : 0 <= len < 2 ^ 16 -> bytes data -> (2 * half_up len <= length data)%nat ->
  t_txw (vt d) = [] -> exists d',
  transmit fuel data len d = match tx_wait fuel d' with
    | Done d => Done (DMFE_SUCCESS, dm9000a_iow IMR INTR_set (dm9000a_iow NSR 0x00 d)) | Undef => Undef | More => More end /\
  vt d' = mkT TCR (len_regs len (t_regs (vt d))) [] (t_sent (vt d) ++ [take (Z.to_nat len) data])
    (Some (t_lat (vt d))) (t_lat (vt d)) /\
  ticks (rx_enabled (vt d)) (vr d) (vr d').
Proof using Type.
  intros Hl Hby Hlen Htx. unfold transmit. set (d2 := dm9000a_iow 0xFD _ d). set (d3 := dm9000a_iow 0xFC _ d2).
  set (d4 := IOWR DM9000A_INST_BASE IO_addr MWCMD d3).
  destruct (iow_quiet 0xFD (Z.land (Z.shiftr len 8) 0xFF) d) as [Hr2 E2]; [done..|]. fold d2 in Hr2, E2.
  destruct (iow_quiet 0xFC (Z.land len 0xFF) d2) as [Hr3 E3]; [done..|]. fold d3 in Hr3, E3.
  assert (Ht4 : vt d4 = mkT MWCMD (len_regs len (t_regs (vt d))) [] (t_sent (vt d)) (t_busy (vt d)) (t_lat (vt d))).
  { unfold d4. rewrite nic_addr_law. cbn [nic_index nic_t]. unfold d3, d2. rewrite !iow_t, !t_put_plain by done.
    unfold set_idx. cbn [t_regs t_txw t_sent t_busy t_lat]. by rewrite Htx. }
  assert (Hr4 : vr d4 = vr d3) by (unfold d4; by rewrite nic_addr_law).
  destruct (tx_words_spec (half_up (len - 0)) data 0 len d4) as (d5 & ws & -> & Ht5 & Hws & Hr5); [done|by rewrite Z.sub_0_r|done|by rewrite Ht4|].
  rewrite Z.sub_0_r in Hws. rewrite Ht4 in Ht5, Hr5. cbn [t_regs t_txw t_sent t_busy t_lat app] in Ht5. rewrite enabled_len, Hr4 in Hr5.
  eexists. split; [done|]. split.
  - rewrite iow_t, Ht5. unfold t_put, t_write. cbn [set_idx t_idx t_regs t_txw t_sent t_lat].
    change (TCR =? MWCMD) with false. change (TCR =? TCR) with true. cbn iota. change (Z.testbit _ 0) with true. cbn iota.
    unfold set_idx. cbn [t_regs t_txw t_sent t_busy t_lat]. by rewrite len_regs_val, Hws.
  - etrans; [exact Hr2|]. etrans; [rewrite <- E2; exact Hr3|]. etrans; [exact Hr5|].
    assert (E5 : rx_enabled (vt d5) = rx_enabled (vt d)) by (rewrite Ht5; apply enabled_len).
    rewrite <- E5. by apply iow_ticks.
Qed.

Lemma transmit_spec fuel data len d : 0 <= len < 2 ^ 16 -> bytes data -> (2 * half_up len <= length data)%nat ->
  t_txw (vt d) = [] -> (t_lat (vt d) < fuel)%nat ->
  exists d', transmit fuel data len d = Done (DMFE_SUCCESS, d') /\
    vt d' = mkT IMR (<[IMR := INTR_set]> (<[NSR := 0]> (len_regs len (t_regs (vt d))))) []
      (t_sent (vt d) ++ [take (Z.to_nat len) data]) None (t_lat (vt d)) /\
    ticks (rx_enabled (vt d)) (vr d) (vr d').
Proof using Type.
  intros Hl Hby Hlen Htx Hfuel. destruct (transmit_starts fuel data len d) as (d6 & -> & Ht6 & Hr6); [done..|].
  destruct (tx_wait_spec fuel d6 (t_lat (vt d))) as (d7 & -> & Ht7 & Hr7); [by rewrite Ht6|done|].
  eexists. split; [done|]. rewrite Ht6 in Ht7, Hr7. cbn [t_regs t_txw t_sent t_lat] in Ht7. rewrite enabled_len in Hr7.
  rewrite !iow_t, Ht7. split; [by rewrite !t_put_plain|]. etrans; [exact Hr6|]. etrans; [exact Hr7|].
  assert (E7 : rx_enabled (vt d7) = rx_enabled (vt d)) by (rewrite Ht7; apply enabled_len).
  destruct (iow_quiet NSR 0 d7) as [Hr8 E8]; [done..|]. rewrite <- E7. etrans; [exact Hr8|]. rewrite <- E8. by apply iow_ticks.
Qed.

(** The chip when a transmission is over. *)
Definition tx_after (len : Z) (data : list Z) (t : NicT) : NicT :=
  mkT IMR (<[IMR := INTR_set]> (<[NSR := 0]> (len_regs len (<[IMR := PAR_set]> (t_regs t))))) []
    (t_sent t ++ [take (Z.to_nat len) data]) None (t_lat t).

Lemma mask_view d : vt (dm9000a_iow IMR PAR_set d) =
    mkT IMR (<[IMR := PAR_set]> (t_regs (vt d))) (t_txw (vt d)) (t_sent (vt d)) (t_busy (vt d)) (t_lat (vt d)) /\
  ticks (rx_enabled (vt d)) (vr d) (vr (dm9000a_iow IMR PAR_set d)) /\
  rx_enabled (vt (dm9000a_iow IMR PAR_set d)) = rx_enabled (vt d).
Proof using Type.
  destruct (iow_quiet IMR PAR_set d) as [Hr E]; [done..|]. split; [by rewrite iow_t, t_put_plain|by split].
Qed.

Lemma TransmitPacket_spec fuel data len d : 0 <= len < 2 ^ 16 -> bytes data -> (2 * half_up len <= length data)%nat ->
  t_txw (vt d) = [] -> (t_lat (vt d) < fuel)%nat ->
  exists d', TransmitPacket fuel data len d = Done (DMFE_SUCCESS, d') /\ vt d' = tx_after len data (vt d) /\
    ticks (rx_enabled (vt d)) (vr d) (vr d').
Proof using Type.
  intros Hl Hby Hlen Htx Hfuel. destruct (mask_view d) as (Hv & Hr & He). rewrite TransmitPacket_eq.
  destruct (transmit_spec fuel data len (dm9000a_iow IMR PAR_set d)) as (d' & E & Ht & Hr'); [done..|by rewrite Hv|by rewrite Hv|].
  exists d'. split; [done|]. rewrite Ht, Hv. split; [done|]. etrans; [exact Hr|]. by rewrite <- He.
Qed.

(** With too few polls the routine is still waiting. *)
Lemma TransmitPacket_more fuel data len d : 0 <= len < 2 ^ 16 -> bytes data -> (2 * half_up len <= length data)%nat ->
  t_txw (vt d) = [] -> (fuel <= t_lat (vt d))%nat -> TransmitPacket fuel data len d = More.
Proof using Type.
  intros Hl Hby Hlen Htx Hfuel. destruct (mask_view d) as (Hv & _). rewrite TransmitPacket_eq.
  destruct (transmit_starts fuel data len (dm9000a_iow IMR PAR_set d)) as (d' & -> & Ht & _); [done..|by rewrite Hv|].
  by rewrite tx_wait_more by (by rewrite Ht, Hv).
Qed.

End Views.
