(* ===== verification/DmRx.v ===== *)
(** * DmRx

    Reception: the interrupt routine takes the frames out of the chip one by one, in
    order, and queues those that are good. *)

From stdpp Require Import gmap.
From S2P Require Import Prelude HwDriver NetQueue PktPool PktFacts KernelData Kernel KernelSem KernelSpec KernelInv KernelRefine KernelSemOps NetDev Dm9000a Dm9000aFacts.

(** ** Frames *)

(** A frame as the chip stores it: its status and its bytes. *)
Record frame := mkFrame { fr_status : Z; fr_bytes : list Z }.

Fixpoint pair_words (l : list Z) : list Z :=
  match l with
  | [] => []
  | [a] => [a]
  | a :: b :: l => (a + b * 2 ^ 8) :: pair_words l
  end.

Definition fr_len (f : frame) : Z := Z.of_nat (length (fr_bytes f)).
Definition head_word (f : frame) : Z := fr_status f * 2 ^ 8 + 1.
Definition frame_words (f : frame) : list Z := head_word f :: fr_len f :: pair_words (fr_bytes f).
Definition words_of (fs : list frame) : list Z := fs ≫= frame_words.

Definition frame_ok (f : frame) : Prop := is_u8 (fr_status f) /\ bytes (fr_bytes f) /\ fr_len f < 2 ^ 16.

(** The frames in the chip, [cur] being what is left of one that is being read, and those
    that will arrive. *)
Record rx_holds (n : Nic) (cur : list Z) (fs : list frame) (ws : list (list frame)) : Prop := {
  rh_rx : r_rx (nic_r n) = cur ++ words_of fs;
  rh_wire : r_wire (nic_r n) = words_of <$> ws;
  rh_on : rx_enabled (nic_t n) = true;
  rh_ok : Forall frame_ok fs;
  rh_ok' : Forall (Forall frame_ok) ws;
}.

(** Time passes: some of what was to arrive has arrived. *)
Definition arrived (fs : list frame) (ws : list (list frame)) (fs' : list frame) (ws' : list (list frame)) : Prop :=
  exists k, fs' = fs ++ concat (take k ws) /\ ws' = drop k ws.

Lemma arrived_refl fs ws : arrived fs ws fs ws.
Proof. exists 0%nat. by rewrite take_0, drop_0, app_nil_r. Qed.

Lemma arrived_trans fs ws fs1 ws1 fs2 ws2 : arrived fs ws fs1 ws1 -> arrived fs1 ws1 fs2 ws2 -> arrived fs ws fs2 ws2.
Proof.
  intros [k [-> ->]] [l [-> ->]]. exists (k + l)%nat. rewrite drop_drop. split; [|done].
  by rewrite <- take_take_drop, concat_app, (assoc_L (++)).
Qed.

Lemma arrived_app f fs ws fs' ws' : arrived fs ws fs' ws' -> arrived (f ++ fs) ws (f ++ fs') ws'.
Proof. intros [k [-> ->]]. exists k. by rewrite (assoc_L (++)). Qed.

Lemma words_app fs gs : words_of (fs ++ gs) = words_of fs ++ words_of gs.
Proof. unfold words_of. by rewrite bind_app. Qed.

Lemma tick_holds n cur fs ws : rx_holds n cur fs ws ->
  exists fs' ws', rx_holds (nic_tick n) cur fs' ws' /\ arrived fs ws fs' ws'.
Proof.
  intros [Hr Hw Hon Ho Ho']. unfold nic_tick, r_tick. rewrite Hw. destruct ws as [|w ws]; cbn [fmap list_fmap].
  - exists fs, []. split; [by split|apply arrived_refl].
  - rewrite Hon. exists (fs ++ w), ws. apply Forall_cons in Ho' as [Hw1 Ho']. split.
    + split; cbn [nic_r nic_t r_rx r_wire]; try done; [by rewrite Hr, words_app, (assoc_L (++))|by apply Forall_app].
    + exists 1%nat. cbn. by rewrite app_nil_r.
Qed.

Lemma idx_holds n cur fs ws i : rx_holds n cur fs ws -> rx_holds (nic_index i n) cur fs ws.
Proof. intros []. by split. Qed.

(** ** Words and bytes *)

Lemma pair_words_length l : length (pair_words l) = half_up (Z.of_nat (length l)).
Proof.
  assert (H : forall n l, (length l <= n)%nat -> length (pair_words l) = half_up (Z.of_nat (length l))).
  { induction n as [|n IH]; intros [|a [|b k]] Hn; try done; cbn in Hn; try lia.
    cbn [pair_words length]. rewrite IH by lia. rewrite (half_up_S (Z.of_nat (S (S (length k))))) by lia.
    do 2 f_equal. lia. }
  by apply (H (length l)).
Qed.

Lemma pair_word_bytes a b : is_u8 a -> is_u8 b -> bytes_of [a + b * 2 ^ 8] = [a; b].
Proof.
  intros Ha Hb. unfold is_u8 in *. cbn. change (Z.pow_pos 2 8) with 256. change (2 ^ 8) with 256 in *.
  f_equal; [|f_equal]; Z.to_euclidean_division_equations; lia.
Qed.

Lemma pair_words_bytes l : bytes l -> take (length l) (bytes_of (pair_words l)) = l.
Proof.
  assert (H : forall n l, (length l <= n)%nat -> bytes l -> take (length l) (bytes_of (pair_words l)) = l).
  { induction n as [|n IH]; intros [|a [|b k]] Hn Hb; try done; cbn in Hn; try lia.
    - inversion_clear Hb as [|? ? Ha _]. pose proof (pair_word_bytes a 0 Ha) as E. rewrite Z.mul_0_l, Z.add_0_r in E.
      change (pair_words [a]) with [a]. rewrite E; [done|]. word_lia.
    - inversion_clear Hb as [|? ? Ha Hb']. inversion_clear Hb' as [|? ? Hb Hk].
      change (pair_words (a :: b :: k)) with ([a + b * 2 ^ 8] ++ pair_words k). unfold bytes_of. rewrite bind_app.
      fold (bytes_of [a + b * 2 ^ 8]). rewrite pair_word_bytes by done. cbn [length app take]. do 2 f_equal. apply IH; [lia|done]. }
  by apply (H (length l)).
Qed.

Lemma bytes_of_length ws : length (bytes_of ws) = (2 * length ws)%nat.
Proof. induction ws as [|w ws IH]; [done|]. cbn [bytes_of mbind list_bind app length]. unfold bytes_of in IH. rewrite IH. lia. Qed.

(** ** Reading the chip *)

(** What reception leaves alone in the transmitter and the registers. *)
Record same_tx (t t' : NicT) : Prop := {
  st_txw : t_txw t' = t_txw t;
  st_sent : t_sent t' = t_sent t;
  st_busy : t_busy t' = t_busy t;
  st_lat : t_lat t' = t_lat t;
  st_regs : forall j, j <> IMR -> t_regs t' !! j = t_regs t !! j;
}.

#[export] Instance same_tx_preorder : PreOrder same_tx.
Proof.
  split.
  - intros t. by split.
  - intros t1 t2 t3 [] []. split; try congruence. intros j Hj. by rewrite st_regs1, st_regs0.
Qed.

Lemma same_tx_idx i t : same_tx t (set_idx i t).
Proof. by split. Qed.

Lemma same_tx_imr v t : same_tx t (t_put IMR v t).
Proof. rewrite t_put_plain by done. split; try done. intros j Hj. cbn. by rewrite lookup_insert_ne. Qed.

Section Chip.
Context {D : Type} `{Chip D}.

Abbreviation vt d := (nic_t (nic_view d)).
Abbreviation holds d := (rx_holds (nic_view d)).

(** [d'] holds [cur'] and the frames of [d], with those that have arrived since. *)
Definition goes (d d' : D) (cur' : list Z) (fs : list frame) (ws : list (list frame)) : Prop :=
  same_tx (vt d) (vt d') /\ exists fs' ws', holds d' cur' fs' ws' /\ arrived fs ws fs' ws'.

Lemma usleep_goes x d cur fs ws : holds d cur fs ws ->
  goes d (usleep x d) cur fs ws /\ t_idx (vt (usleep x d)) = t_idx (vt d).
Proof using Type.
  intros Hh. destruct (tick_holds _ _ _ _ Hh) as (fs' & ws' & Hh' & Ha). rewrite <- (nic_usleep_law x) in Hh'.
  unfold goes. rewrite nic_usleep_law in *. split; [|done]. split; [done|]. by exists fs', ws'.
Qed.

Lemma addr_holds i d cur fs ws : holds d cur fs ws -> holds (IOWR DM9000A_INST_BASE IO_addr i d) cur fs ws.
Proof using Type. intros Hh. rewrite nic_addr_law. by apply idx_holds. Qed.

Lemma addr_tx i d : same_tx (vt d) (vt (IOWR DM9000A_INST_BASE IO_addr i d)) /\
  t_idx (vt (IOWR DM9000A_INST_BASE IO_addr i d)) = i.
Proof using Type. rewrite nic_addr_law. split; [apply same_tx_idx|done]. Qed.

(** One word of the stream. *)
Lemma word_holds d w cur fs ws : t_idx (vt d) = MRCMD -> holds d (w :: cur) fs ws ->
  let r := IORD DM9000A_INST_BASE IO_data d in fst r = w /\ holds (snd r) cur fs ws /\ vt (snd r) = vt d.
Proof using Type.
  intros Hi [Hr Hw Hon Ho Ho']. cbn zeta. rewrite nic_read_law, nic_read_view. unfold nic_read.
  rewrite Hi. change (MRCMD =? MRCMDX) with false. change (MRCMD =? MRCMD) with true. cbn iota. rewrite Hr.
  split; [done|]. split; [by split|done].
Qed.

(** A delay and a word. *)
Lemma next_word x d w cur fs ws : t_idx (vt d) = MRCMD -> holds d (w :: cur) fs ws ->
  let r := IORD DM9000A_INST_BASE IO_data (usleep x d) in
  fst r = w /\ goes d (snd r) cur fs ws /\ t_idx (vt (snd r)) = MRCMD.
Proof using Type.
  intros Hi Hh. destruct (usleep_goes x d _ _ _ Hh) as ((Hs & fs' & ws' & Hh' & Ha) & Hi').
  destruct (word_holds (usleep x d) w cur fs' ws') as (Hv & Hh'' & Ht); [congruence|done|].
  cbn zeta. rewrite Ht. split; [done|]. split; [|congruence]. split; [by rewrite Ht|]. by exists fs', ws'.
Qed.

(** The next steps start from what has arrived. *)
Lemma goes_trans d d1 d2 cur1 cur2 fs ws : goes d d1 cur1 fs ws ->
  (forall fs1 ws1, holds d1 cur1 fs1 ws1 -> goes d1 d2 cur2 fs1 ws1) -> goes d d2 cur2 fs ws.
Proof using Type.
  intros (Hs & fs1 & ws1 & Hh & Ha) Hg. destruct (Hg fs1 ws1 Hh) as (Hs' & fs2 & ws2 & Hh' & Ha').
  split; [by etrans|]. exists fs2, ws2. split; [done|]. by eapply arrived_trans.
Qed.

Lemma goes_step d d1 d2 cur1 cur2 fs ws fs1 ws1 : same_tx (vt d) (vt d1) -> holds d1 cur1 fs1 ws1 ->
  arrived fs ws fs1 ws1 -> goes d1 d2 cur2 fs1 ws1 -> goes d d2 cur2 fs ws.
Proof using Type.
  intros Hs Hh Ha (Hs' & fs2 & ws2 & Hh' & Ha'). split; [by etrans|]. exists fs2, ws2. split; [done|]. by eapply arrived_trans.
Qed.

Lemma goes_refl d cur fs ws : holds d cur fs ws -> goes d d cur fs ws.
Proof using Type. intros Hh. split; [done|]. exists fs, ws. split; [done|apply arrived_refl]. Qed.

Lemma dump_goes n d cur fs ws : length cur = n -> t_idx (vt d) = MRCMD -> holds d cur fs ws ->
  goes d (rx_dump n DM9000A_INST_BASE d) [] fs ws.
Proof using Type.
  revert d cur fs ws. induction n as [|n IH]; intros d [|w cur] fs ws; cbn [length]; try done; intros Hn Hi Hh.
  - by apply goes_refl.
  - cbn [rx_dump]. destruct (next_word STD_DELAY d w cur fs ws Hi Hh) as (_ & Hg & Hi').
    eapply goes_trans; [exact Hg|]. intros fs1 ws1 Hh1. apply (IH _ cur); [lia|done..].
Qed.

Lemma mem_put_app l1 x y l2 i : Z.of_nat (length l1) = i -> mem_put i y (l1 ++ x :: l2) = Some (l1 ++ y :: l2).
Proof using Type.
  intros <-. unfold mem_put. rewrite length_app. cbn [length].
  rewrite (proj2 (Z.leb_le _ _)), (proj2 (Z.ltb_lt _ _)) by lia. cbn [andb].
  rewrite Nat2Z.id. f_equal. by rewrite insert_app_r_alt, Nat.sub_diag by done.
Qed.

(** The words of a frame end in the block, low byte first. *)
Lemma copy_goes n d ws0 fs ws m1 m2 m3 : length ws0 = n -> length m2 = (2 * n)%nat -> Forall is_u16 ws0 ->
  t_idx (vt d) = MRCMD -> holds d ws0 fs ws ->
  exists d', rx_copy n DM9000A_INST_BASE (Z.of_nat (length m1)) (m1 ++ m2 ++ m3) d = Some (m1 ++ bytes_of ws0 ++ m3, d') /\
    goes d d' [] fs ws.
Proof using Type.
  revert d ws0 fs ws m1 m2. induction n as [|n IH]; intros d [|w ws0] fs ws m1 m2; cbn [length]; try done; intros Hn Hm Hu Hi Hh.
  - exists d. apply nil_length_inv in Hm as ->. split; [done|]. by apply goes_refl.
  - destruct m2 as [|a [|b m2]]; cbn in Hm; try lia. cbn [rx_copy].
    destruct (next_word STD_DELAY d w ws0 fs ws Hi Hh) as (Hv & Hg & Hi').
    destruct (IORD _ _ _) as [tmp d1]. cbn [fst snd] in Hv, Hg, Hi'. subst tmp.
    inversion_clear Hu as [|? ? Hw Hu'].
    cbn [app]. rewrite mem_put_app by done.
    change (m1 ++ ?x :: b :: ?l) with (m1 ++ [x] ++ b :: l). rewrite (assoc_L (++) m1).
    rewrite mem_put_app by (rewrite length_app; cbn; lia).
    rewrite <- (assoc_L (++)). cbn [app].
    replace (m1 ++ Z.land w 255 :: Z.land (Z.shiftr w 8) 255 :: m2 ++ m3) with
      ((m1 ++ [Z.land w 255; Z.land (Z.shiftr w 8) 255]) ++ m2 ++ m3) by (by rewrite <- (assoc_L (++))).
    destruct Hg as (Hs & fs1 & ws1 & Hh1 & Ha).
    destruct (IH d1 ws0 fs1 ws1 (m1 ++ [Z.land w 255; Z.land (Z.shiftr w 8) 255]) m2) as (d' & E & Hg'); [lia|lia|done..|].
    exists d'. replace (Z.of_nat (length m1) + 2) with
      (Z.of_nat (length (m1 ++ [Z.land w 255; Z.land (Z.shiftr w 8) 255]))) by (rewrite length_app; cbn; lia).
    rewrite E. split.
    + do 2 f_equal. rewrite <- (assoc_L (++)). f_equal. cbn [app bytes_of mbind list_bind].
      change 255 with (Z.ones 8). by rewrite !Z.land_ones, Z.shiftr_div_pow2 by done.
    + by eapply goes_step.
Qed.

(** ** The ready flag *)

Lemma head_ready f : Z.land (head_word f) 3 = 1.
Proof using Type.
  unfold head_word. change 3 with (Z.ones 2). rewrite Z.land_ones by done.
  replace (fr_status f * 2 ^ 8 + 1) with (1 + (fr_status f * 2 ^ 6) * 2 ^ 2) by lia. by rewrite Z.mod_add.
Qed.

Definition ready_flag (fs : list frame) : Z := if bool_decide (fs = []) then 0 else 1.

Lemma ready_goes d cur fs ws : holds d cur fs ws -> cur = [] ->
  let r := dm9000a_rxReady DM9000A_INST_BASE d in
  same_tx (vt d) (vt (snd r)) /\ exists fs' ws', holds (snd r) [] fs' ws' /\ arrived fs ws fs' ws' /\ fst r = ready_flag fs'.
Proof using Type.
  intros Hh ->. unfold dm9000a_rxReady, dm9000a_ior.
  set (d0 := IOWR DM9000A_INST_BASE IO_addr MRCMDX d). destruct (addr_tx MRCMDX d) as [Hs0 Hi0]. fold d0 in Hs0, Hi0.
  destruct (usleep_goes STD_DELAY d0 [] fs ws) as ((Hs & fs' & ws' & Hh' & Ha) & Hi); [by apply addr_holds|].
  set (d1 := usleep STD_DELAY d0) in *. rewrite Hi0 in Hi.
  assert (Hq : forall d2, t_idx (vt d2) = MRCMDX -> nic_read (nic_view d2) = (hd 0 (r_rx (nic_r (nic_view d2))), nic_view d2)).
  { intros d2 E. unfold nic_read. rewrite E. done. }
  destruct (IORD DM9000A_INST_BASE IO_data d1) as [v2 d2] eqn:E2.
  pose proof (nic_read_view d1) as V2. rewrite E2, Hq in V2 by done. cbn [snd] in V2.
  destruct (IORD DM9000A_INST_BASE IO_data d2) as [v3 d3] eqn:E3.
  pose proof (nic_read_view d2) as V3. pose proof (nic_read_law d2) as L3. rewrite E3, Hq in V3, L3 by (by rewrite V2).
  cbn [fst snd] in V3, L3 |- *. rewrite V3, V2 in *. subst v3. split; [by etrans|]. exists fs', ws'.
  split; [done|]. split; [done|]. rewrite (rh_rx _ _ _ _ Hh'). unfold ready_flag.
  destruct fs' as [|f fs']; [done|]. rewrite bool_decide_eq_false_2 by done. cbn. apply head_ready.
Qed.

End Chip.

(** ** The state of the driver *)

Section Driver.
Context {D : Type} `{Chip D}.

Abbreviation vt d := (nic_t (nic_view d)).
Abbreviation holds d := (rx_holds (nic_view d)).

Record kernel_ok (e : nat) (s : OS) (k : AK) : Prop := {
  ko_repr : repr s k;
  ko_inv : kinv k;
  ko_sem : is_Some (a_sems k !! e);
}.

Definition posted (e : nat) (k : AK) : AK := (a_post e k).2.

Lemma post_ok e s k : kernel_ok e s k -> exists r s', OSSemPost (Some e) s = Some (r, s') /\ kernel_ok e s' (posted e k).
Proof using Type.
  intros [Hr HI [v Ev]]. destruct (runs_post s k Hr (ki_core k HI) e v Ev) as (s' & E & Hr' & _). exists (a_post e k).1, s'.
  split; [done|]. split; [done|by apply inv_post|]. unfold posted, a_post. rewrite Ev. destruct (negb _); [by exists v|].
  destruct (negb (bool_decide _)); [|destruct (_ <? _); [unfold a_ev; cbn; by rewrite lookup_insert_eq|by exists v]].
  cbn [snd]. assert (Es : forall k', a_sems (a_sched k') = a_sems k').
  { intros k'. unfold a_sched. destruct (_ && _); [|done]. by destruct (least _). }
  rewrite Es. unfold a_wake. rewrite Ev. destruct (least _) as [p|]; [|by exists v].
  destruct (a_tasks k !! p); [|by exists v]. unfold a_ev. cbn. by rewrite lookup_insert_eq.
Qed.

(** The pool with its users, the chip with its frames, the interface, and the kernel. *)
Record drv_ok (s : NetSt D) (A : Qid -> list nat) (U : list nat) (fs : list frame) (ws : list (list frame)) (k : AK) : Prop := {
  dk_pool : pool_ok (st_pool s) A U;
  dk_chip : holds (st_dev s) [] fs ws;
  dk_base : regbase (g_dm9ka s) = DM9000A_INST_BASE;
  dk_net : exists i, netp (g_dm9ka s) = Some i /\ is_Some (st_nets s !! i);
  dk_kernel : kernel_ok (rcvdq_sem s) (st_os s) k;
}.

Definition good_frame (f : frame) : bool := (Z.land (head_word f) 0xBF00 =? 0) && (fr_len f <? MAX_PACKET_SIZE).

(** A packet that holds a frame, as the protocols expect it. *)
Definition pkt_is (p : Pool) (i : option nat) (t : Z) (x : nat) (f : frame) : Prop :=
  exists b, pk_bufs p !! x = Some b /\ nb_buff b = ALIGN_TYPE /\
    take (length (fr_bytes f)) (drop (Z.to_nat (nb_buff b + ETHHDR_BIAS)) (nb_mem b)) = fr_bytes f /\
    nb_prot b = nb_buff b + ETHHDR_SIZE /\ nb_plen b = u32 (fr_len f - 14) /\ nb_tstamp b = t /\ nb_net b = i /\
    nb_inuse b = 1 /\ load16 (nb_mem b) (nb_buff b + ETHHDR_BIAS + 12) = Some (nb_type b).

(** What a run leaves alone: everything but the device, the pool, the kernel and the
    counters of the interface. *)
Definition same_rest (s s' : NetSt D) : Prop :=
  g_dm9ka s' = g_dm9ka s /\ rcvdq_sem s' = rcvdq_sem s /\ cticks s' = cticks s /\ same_tx (vt (st_dev s)) (vt (st_dev s')) /\
  length (st_nets s') = length (st_nets s).

#[export] Instance same_rest_preorder : PreOrder same_rest.
Proof using Type.
  split.
  - intros s. by repeat split.
  - intros s1 s2 s3 (A1 & A2 & A3 & A4 & A5) (B1 & B2 & B3 & B4 & B5). split_and!; try congruence. by etrans.
Qed.

Lemma nbind_eq {A B} (m : N D A) (k : A -> N D B) s a s' : m s = Done (a, s') -> nbind m k s = k a s'.
Proof using Type. intros E. unfold nbind. by rewrite E. Qed.

(** The header of the next frame. *)
Lemma header_goes d f fs ws : holds d [] (f :: fs) ws ->
  let d1 := usleep STD_DELAY (IOWR DM9000A_INST_BASE IO_addr MRCMD d) in
  let r1 := IORD DM9000A_INST_BASE IO_data d1 in
  let r2 := IORD DM9000A_INST_BASE IO_data (usleep STD_DELAY (snd r1)) in
  fst r1 = head_word f /\ fst r2 = fr_len f /\ frame_ok f /\ t_idx (vt (snd r2)) = MRCMD /\
  same_tx (vt d) (vt (snd r2)) /\
  exists fs' ws', holds (snd r2) (pair_words (fr_bytes f)) fs' ws' /\ arrived fs ws fs' ws'.
Proof using Type.
  intros Hh. destruct (addr_tx MRCMD d) as [Hs0 Hi0]. apply (addr_holds MRCMD) in Hh.
  assert (Hok : frame_ok f) by (apply rh_ok in Hh; by apply Forall_cons in Hh as [? _]).
  assert (Hh' : holds (IOWR DM9000A_INST_BASE IO_addr MRCMD d) (head_word f :: fr_len f :: pair_words (fr_bytes f)) fs ws).
  { destruct Hh as [Hr Hw Hon Ho Ho']. apply Forall_cons in Ho as [_ Ho]. split; [|done..]. by rewrite Hr. }
  destruct (next_word STD_DELAY _ _ _ _ _ Hi0 Hh') as (V1 & (Hs1 & fs1 & ws1 & Hh1 & Ha1) & Hi1).
  destruct (next_word STD_DELAY _ _ _ _ _ Hi1 Hh1) as (V2 & (Hs2 & fs2 & ws2 & Hh2 & Ha2) & Hi2).
  cbn zeta. split_and!; try done.
  - by etrans; [exact Hs0|etrans; [exact Hs1|]].
  - exists fs2, ws2. split; [done|]. by eapply arrived_trans.
Qed.

(** ** One frame *)

Lemma half_up_double len : 0 <= len -> len <= 2 * Z.of_nat (half_up len) <= len + 1.
Proof using Type.
  intros Hl. unfold half_up. rewrite Z2Nat.id by (apply Z.div_pos; lia). Z.to_euclidean_division_equations; lia.
Qed.

(** The part of a block that a frame overwrites. *)
Lemma block_parts b len : buf_ok b -> 0 <= len -> len + 2 <= nb_blen b -> exists m1 m2 m3,
  nb_mem b = m1 ++ m2 ++ m3 /\ Z.of_nat (length m1) = nb_buff b + ETHHDR_BIAS /\ length m2 = (2 * half_up len)%nat /\
  m3 <> [].
Proof using Type.
  intros [Hs Hb Hm] Hl Hle. pose proof (half_up_double len Hl) as Hh. rewrite Hb.
  assert (He : Z.even (nb_blen b) = true) by (destruct Hs as [-> | ->]; done).
  apply Z.even_spec in He as [q Hq]. unfold ALIGN_TYPE, ETHHDR_BIAS in *.
  set (n := (2 * half_up len)%nat). assert (Hn : Z.of_nat n + 2 <= nb_blen b) by lia.
  exists (take 6 (nb_mem b)), (take n (drop 6 (nb_mem b))), (drop (6 + n) (nb_mem b)). split_and!.
  - rewrite <- drop_drop, take_drop. symmetry. apply take_drop.
  - rewrite length_take. lia.
  - rewrite length_take, length_drop. lia.
  - intros E. apply (f_equal length) in E. rewrite length_drop in E. cbn in E. lia.
Qed.

Lemma mem_byte_app_l l1 l2 i : i < Z.of_nat (length l1) -> mem_byte (l1 ++ l2) i = mem_byte l1 i.
Proof using Type. intros Hi. unfold mem_byte. destruct (Z.ltb_spec i 0); [done|]. apply lookup_app_l. lia. Qed.

Lemma mem_byte_mid l1 l2 l2' l3 i : length l2' = length l2 ->
  i < Z.of_nat (length l1) \/ Z.of_nat (length l1 + length l2) <= i ->
  mem_byte (l1 ++ l2' ++ l3) i = mem_byte (l1 ++ l2 ++ l3) i.
Proof using Type.
  intros E [Hi|Hi].
  - by rewrite !mem_byte_app_l by done.
  - unfold mem_byte. destruct (Z.ltb_spec i 0); [done|]. rewrite !lookup_app_r by lia. by rewrite E.
Qed.

(** The received packet is a packet again, its marks intact. *)
Lemma splice_ok b m1 m2 m2' m3 : buf_ok b -> nb_mem b = m1 ++ m2 ++ m3 -> Z.of_nat (length m1) = nb_buff b + ETHHDR_BIAS ->
  length m2' = length m2 -> m3 <> [] -> marked b -> buf_ok (set_mem (m1 ++ m2' ++ m3) b) /\ marked (set_mem (m1 ++ m2' ++ m3) b).
Proof using Type.
  intros Hok E El Hl Hm3 Hm. pose proof Hok as [Hs Hb Hlen]. split.
  - split; cbn; try done. rewrite E in Hlen. rewrite !length_app in *. by rewrite Hl.
  - apply (marks_ext b); [done..| |done]. intros j Hj. cbn. rewrite E. apply mem_byte_mid; [done|].
    rewrite E, !length_app in Hlen. unfold ETHHDR_BIAS in El. destruct m3; [done|]. cbn in Hlen. rewrite Hb in *. unfold ALIGN_TYPE in *. lia.
Qed.

Lemma u16_words l : bytes l -> Forall is_u16 (pair_words l).
Proof using Type.
  assert (Hn : forall n l, (length l <= n)%nat -> bytes l -> Forall is_u16 (pair_words l)).
  { induction n as [|n IH]; intros [|a [|b k]] Hk Hb; cbn in Hk; try lia; try (by constructor).
    - inversion_clear Hb. constructor; [|constructor]. word_lia.
    - inversion_clear Hb as [|? ? Ha Hb']. inversion_clear Hb' as [|? ? Hb Hb'']. cbn [pair_words]. constructor; [word_lia|].
      apply IH; [lia|done]. }
  by apply (Hn (length l)).
Qed.

(** Accounting of one frame: the queues, and the packet that holds it if it is good and
    there was room. *)
Definition rx_place (f : frame) (A : Qid -> list nat) : (Qid -> list nat) * option nat :=
  if good_frame f then
    match alloc_from (fr_len f + ETHHDR_BIAS) A with
    | None => (A, None)
    | Some q =>
        match A q with
        | [] => (A, None)
        | x :: l => let A' := upd_at q l A in (upd_at Rcv (A' Rcv ++ [x]) A', Some x)
        end
    end
  else (A, None).

Definition discards (f : frame) (A : Qid -> list nat) : bool :=
  good_frame f && bool_decide (alloc_from (fr_len f + ETHHDR_BIAS) A = None).

(** The counters of the interface after [f]. *)
Definition count_discard (i : nat) (d : bool) (l : list net) : list net :=
  if d then alter (set_mib add_InDiscards) i l else l.

Lemma load16_total l i : 0 <= i -> i + 1 < Z.of_nat (length l) -> is_Some (load16 l i).
Proof using Type.
  intros H1' H2'. unfold load16. destruct (mem_byte_in l i) as [a ->]; [lia|]. destruct (mem_byte_in l (i + 1)) as [b ->]; [lia|].
  by eexists.
Qed.

(** The state after [f] was taken out of the chip and accounted for. *)
Definition rx_done (s s' : NetSt D) (f : frame) (A : Qid -> list nat) (U : list nat) (fs : list frame)
    (ws : list (list frame)) (k : AK) : Prop :=
  exists fs' ws', let r := rx_place f A in
    arrived fs ws fs' ws' /\ same_rest s s' /\
    drv_ok s' r.1 U fs' ws' (match r.2 with Some _ => posted (rcvdq_sem s) k | None => k end) /\
    (forall y, Some y <> r.2 -> pk_bufs (st_pool s') !! y = pk_bufs (st_pool s) !! y) /\
    match r.2 with
    | None => True
    | Some x => (x ∉ A Rcv) /\ (x ∉ U) /\ pkt_is (st_pool s') (netp (g_dm9ka s)) (cticks s) x f
    end /\
    (forall i, netp (g_dm9ka s) = Some i -> st_nets s' = count_discard i (discards f A) (st_nets s)).

Lemma rx_header s f A U fs ws k : drv_ok s A U (f :: fs) ws k -> exists d,
  rx_frame s = rx_body (head_word f) (fr_len f) (set_dev d s) /\ frame_ok f /\ t_idx (vt d) = MRCMD /\
  same_tx (vt (st_dev s)) (vt d) /\
  exists fs' ws', holds d (pair_words (fr_bytes f)) fs' ws' /\ arrived fs ws fs' ws'.
Proof using Type.
  intros [_ Hh Hb _ _]. destruct (header_goes _ _ _ _ Hh) as (V1 & V2 & Hok & Hi & Hs & Hg).
  exists (snd (IORD DM9000A_INST_BASE IO_data (usleep STD_DELAY (snd (IORD DM9000A_INST_BASE IO_data
    (usleep STD_DELAY (IOWR DM9000A_INST_BASE IO_addr MRCMD (st_dev s)))))))).
  split; [|by split_and!]. unfold rx_frame, nbind, ngets, write_dev, read_dev, nmodify. cbn [fst snd].
  rewrite Hb. cbn [set_dev st_dev]. destruct (IORD _ _ (usleep _ (IOWR _ _ _ _))) as [v1 d1]. cbn [fst snd] in V1, V2 |- *.
  cbn [set_dev st_dev]. destruct (IORD _ _ (usleep _ d1)) as [v2 d2]. cbn [fst snd] in V2 |- *. by subst.
Qed.

Lemma rx_dropped s f A U gs vs fs ws k d nets : drv_ok s A U gs vs k -> frame_ok f -> t_idx (vt d) = MRCMD ->
  holds d (pair_words (fr_bytes f)) fs ws -> same_tx (vt (st_dev s)) (vt d) -> length nets = length (st_nets s) ->
  let s' := set_nets nets (set_dev (rx_dump (half_up (fr_len f)) DM9000A_INST_BASE d) s) in
  exists fs' ws', arrived fs ws fs' ws' /\ same_rest s s' /\ drv_ok s' A U fs' ws' k.
Proof using Type.
  intros [Hp Hh Hb (i & Hi & Hn) Hk] Hok Hid Hh' Hs Hl s'.
  destruct (dump_goes (half_up (fr_len f)) d _ fs ws (pair_words_length _) Hid Hh') as (Hs' & fs' & ws' & Hh'' & Ha).
  exists fs', ws'. split; [done|]. split.
  - split_and!; try done. cbn. by etrans.
  - split; try done. exists i. split; [done|]. cbn. apply lookup_lt_is_Some_2. rewrite Hl. by apply lookup_lt_is_Some_1.
Qed.


(** A good frame for which there is a packet. *)
Lemma rx_stored s f A U gs vs fs ws k d q : drv_ok s A U gs vs k -> frame_ok f -> t_idx (vt d) = MRCMD ->
  holds d (pair_words (fr_bytes f)) fs ws -> same_tx (vt (st_dev s)) (vt d) -> good_frame f = true ->
  alloc_from (fr_len f + ETHHDR_BIAS) A = Some q ->
  exists s' fs' ws' x l, A q = x :: l /\ q <> Rcv /\
    rx_body (head_word f) (fr_len f) (set_dev d s) = Done (tt, s') /\ arrived fs ws fs' ws' /\ same_rest s s' /\
    drv_ok s' (upd_at Rcv (upd_at q l A Rcv ++ [x]) (upd_at q l A)) U fs' ws' (posted (rcvdq_sem s) k) /\
    (forall y, y <> x -> pk_bufs (st_pool s') !! y = pk_bufs (st_pool s) !! y) /\
    pkt_is (st_pool s') (netp (g_dm9ka s)) (cticks s) x f /\ st_nets s' = st_nets s.
Proof using Type.
  intros [Hp Hh Hb (i & Hi & Hn) Hk] Hok Hid Hh' Hs Hg Hal. pose proof Hg as Hg'.
  unfold good_frame in Hg'. apply andb_prop in Hg' as [_ Hlt]. apply Z.ltb_lt in Hlt.
  assert (Hl0 : 0 <= fr_len f) by (unfold fr_len; lia). destruct Hok as (_ & Hby & Hl16).
  pose proof (pk_alloc_spec (st_pool s) A U (fr_len f + ETHHDR_BIAS) Hp) as Hsp. rewrite Hal in Hsp.
  destruct Hsp as (x & l & b & qu & m & Eq & Hbx & Hsize & [Hmk _] & Hq & Ha & Hp1). cbn zeta in Ha, Hp1.
  set (p1 := set_bufs _ _) in *. set (b1 := fresh_fields (MaxLnh (st_pool s)) b) in *.
  assert (Hb1 : pk_bufs p1 !! x = Some b1) by (unfold p1; cbn; apply list_lookup_insert_eq; by eapply lookup_lt_Some).
  pose proof (po_buf _ _ _ Hp1 x b1 Hb1) as Hok1.
  destruct (block_parts b1 (fr_len f) Hok1 Hl0 Hsize) as (m1 & m2 & m3 & Em & El & Hl2 & Hm3).
  destruct (copy_goes (half_up (fr_len f)) d (pair_words (fr_bytes f)) fs ws m1 m2 m3) as (d' & Ec & (Hs' & fs' & ws' & Hh'' & Har));
    [by apply pair_words_length|done|by apply u16_words|done..|].
  set (m2' := bytes_of (pair_words (fr_bytes f))) in *. set (mem := m1 ++ m2' ++ m3) in *.
  assert (Hl2' : length m2' = length m2) by (unfold m2'; rewrite bytes_of_length, pair_words_length, Hl2; done).
  destruct (splice_ok b1 m1 m2 m2' m3 Hok1 Em El Hl2' Hm3 Hmk) as [Hok2 Hmk2]. fold mem in Hok2, Hmk2.
  destruct (load16_total mem (nb_buff b1 + ETHHDR_BIAS + 12)) as [ty Hty].
  { rewrite (bo_buff _ Hok1). unfold ALIGN_TYPE, ETHHDR_BIAS. lia. }
  { pose proof (bo_mem _ Hok2) as Hm. change (Z.of_nat (length mem) = nb_blen b1 + ALIGN_TYPE + 1) in Hm.
    rewrite Hm, (bo_buff _ Hok1). unfold ALIGN_TYPE, ETHHDR_BIAS.
    destruct (bo_size _ Hok1) as [-> | ->]; unfold BIGBUFSIZE, LILBUFSIZE; lia. }
  set (b2 := rx_fields mem (fr_len f) (cticks s) (netp (g_dm9ka s)) ty b1).
  assert (Hp2 : pool_ok (set_bufs (<[x := b2]> (pk_bufs p1)) p1) (upd_at q l A) (x :: U)).
  { apply user_writes; [done|by left| |]; [destruct Hok2; by split|cbn; lia]. }
  destruct (put_rcvd_spec _ _ _ x b2 Hp2) as (p3 & Hput & Hp3 & Hb3 & _).
  { cbn. apply list_lookup_insert_eq. by eapply lookup_lt_Some. }
  { apply (marks_ext (set_mem mem b1)); try done. }
  destruct (post_ok _ _ _ Hk) as (r & os' & Epost & Hk').
  set (s' := set_os os' (set_pool p3 (set_dev d' s))). exists s', fs', ws', x, l.
  assert (Hbufs : forall y, y <> x -> pk_bufs p3 !! y = pk_bufs (st_pool s) !! y).
  { intros y Hy. rewrite Hb3. cbn. rewrite !list_lookup_insert_ne by done. by destruct q. }
  split_and!; try done.
  - unfold rx_body, nbind, ngets, pool_get, get_buf, of_option, upd_buf, pool_do, os_do, nret.
    change (g_dm9ka (set_dev d s)) with (g_dm9ka s). unfold good_frame in Hg. rewrite Hg, Hb.
    rewrite (u32_small (fr_len f + ETHHDR_BIAS)) by (unfold ETHHDR_BIAS; word_lia).
    change (st_pool (set_dev d s)) with (st_pool s). rewrite Ha.
    change (st_pool (set_pool p1 (set_dev d s))) with p1. rewrite Hb1.
    change (st_dev (set_pool p1 (set_dev d s))) with d. rewrite Em, <- El, Ec. fold mem. rewrite El, Hty.
    change (st_pool (set_dev d' (set_pool p1 (set_dev d s)))) with p1. rewrite Hb1.
    change (cticks (set_dev d' (set_pool p1 (set_dev d s)))) with (cticks s). fold b2.
    cbn [of_option]. match goal with |- context [put_rcvd x ?p] => change p with (set_bufs (<[x := b2]> (pk_bufs p1)) p1) end.
    rewrite Hput. cbn [of_option]. match goal with |- context [OSSemPost (Some ?e) ?o] => change e with (rcvdq_sem s); change o with (st_os s) end.
    by rewrite Epost.
  - unfold s'. split_and!; try done. cbn. by etrans.
  - split; try done. by exists i.
  - exists b2. change (st_pool s') with p3. rewrite Hb3. cbn [set_bufs pk_bufs]. split; [apply list_lookup_insert_eq; by eapply lookup_lt_Some|].
    cbn [b2 rx_fields nb_buff nb_mem nb_prot nb_plen nb_tstamp nb_net nb_inuse nb_type]. split_and!; try done; [apply Hok1|].
    rewrite <- El, Nat2Z.id. unfold mem. rewrite drop_app_length.
    rewrite take_app_le by (rewrite Hl2', Hl2; pose proof (half_up_double (fr_len f) Hl0); unfold fr_len in *; lia).
    by apply pair_words_bytes.
Qed.


Lemma set_pool_id (s : NetSt D) : set_pool (st_pool s) s = s.
Proof using Type. by destruct s. Qed.
Lemma set_nets_id (s : NetSt D) : set_nets (st_nets s) s = s.
Proof using Type. by destruct s. Qed.

(** The three fates of a frame. *)
Lemma rx_frame_ok s f A U fs ws k : drv_ok s A U (f :: fs) ws k -> exists s',
  rx_frame s = Done (tt, s') /\ rx_done s s' f A U fs ws k.
Proof using Type.
  intros HD. destruct (rx_header s f A U fs ws k HD) as (d & -> & Hok & Hid & Hs & fs1 & ws1 & Hh & Ha).
  pose proof HD as [Hp _ Hb (i & Hi & Hn) Hk].
  unfold rx_done, rx_place, discards. destruct (good_frame f) eqn:Eg; cbn [andb].
  - destruct (alloc_from _ A) as [q|] eqn:Eal.
    + destruct (rx_stored s f A U _ _ fs1 ws1 k d q HD Hok Hid Hh Hs Eg Eal)
        as (s' & fs' & ws' & x & l & Eq & Hq & E & Har & Hr & HD' & Hbf & Hx & Hnets).
      exists s'. split; [done|]. exists fs', ws'. cbn zeta. rewrite Eq. cbn [fst snd].
      assert (Hin : x ∈ A q) by (rewrite Eq; by left). split_and!; try done.
      * by eapply arrived_trans.
      * intros y Hy. apply Hbf. congruence.
      * intros Hx'. apply Hq. symmetry. by apply (queues_disjoint (st_pool s) A U (po_queues _ _ _ Hp) Rcv q x).
      * by apply (held_apart (st_pool s) A U (po_queues _ _ _ Hp) q x).
    + pose proof (pk_alloc_spec (st_pool s) A U (fr_len f + ETHHDR_BIAS) Hp) as Ha'. rewrite Eal in Ha'.
      destruct Hn as [n0 Hn]. set (nets := <[i := set_mib add_InDiscards n0]> (st_nets s)).
      destruct (rx_dropped s f A U _ _ fs1 ws1 k d nets HD Hok Hid Hh Hs) as (fs' & ws' & Har & Hr & HD').
      { unfold nets. by rewrite length_insert. }
      eexists. split.
      * unfold rx_body, nbind, ngets, pool_get, nonnull, nret, upd_net, write_dev, nmodify.
        change (g_dm9ka (set_dev d s)) with (g_dm9ka s). pose proof Eg as Eg'. unfold good_frame in Eg'. rewrite Eg', Hb.
        apply andb_prop in Eg' as [_ Hlt%Z.ltb_lt].
        rewrite (u32_small (fr_len f + ETHHDR_BIAS)) by (unfold ETHHDR_BIAS, fr_len, MAX_PACKET_SIZE in *; word_lia).
        change (st_pool (set_dev d s)) with (st_pool s). rewrite Ha'. cbn [of_option]. rewrite Hi.
        match goal with |- context [?l !! i] => change l with (st_nets s) end. rewrite Hn. reflexivity.
      * exists fs', ws'. cbn [fst snd]. cbn zeta. split_and!; try done; [by eapply arrived_trans|].
        intros j Hj. rewrite Hi in Hj. injection Hj as <-. rewrite bool_decide_eq_true_2 by done.
        cbn. unfold nets. rewrite list_insert_alter. apply list_alter_ext; [|done]. intros n1 Hn1. congruence.
  - destruct (rx_dropped s f A U _ _ fs1 ws1 k d (st_nets s) HD Hok Hid Hh Hs eq_refl) as (fs' & ws' & Har & Hr & HD').
    eexists. split.
    + unfold rx_body, nbind, ngets, write_dev, nmodify. change (g_dm9ka (set_dev d s)) with (g_dm9ka s).
      unfold good_frame in Eg. rewrite Eg, Hb. reflexivity.
    + exists fs', ws'. cbn [fst snd]. cbn zeta. split_and!; try done. by eapply arrived_trans.
Qed.


(** ** All frames *)

(** Frames one after the other: the queues, the packets that were filled, and the number
    of good frames for which there was none. *)
Fixpoint rx_all (fs : list frame) (A : Qid -> list nat) : (Qid -> list nat) * list (nat * frame) * nat :=
  match fs with
  | [] => (A, [], O)
  | f :: fs =>
      let r := rx_place f A in
      let rest := rx_all fs r.1 in
      (rest.1.1, match r.2 with Some x => (x, f) :: rest.1.2 | None => rest.1.2 end,
       if discards f A then S rest.2 else rest.2)
  end.

Definition discard_many (n : nat) (i : nat) (l : list net) : list net :=
  Nat.iter n (alter (set_mib add_InDiscards) i) l.

(** The run took the frames [done] out of the chip and accounted for each. *)
Record rx_ran (s s' : NetSt D) (done : list frame) (A : Qid -> list nat) (U : list nat) (rest : list frame)
    (ws : list (list frame)) (k : AK) : Prop := {
  rr_drv : drv_ok s' (rx_all done A).1.1 U rest ws (Nat.iter (length (rx_all done A).1.2) (posted (rcvdq_sem s)) k);
  rr_rest : same_rest s s';
  rr_kept : forall y, y ∈ A Rcv \/ y ∈ U -> pk_bufs (st_pool s') !! y = pk_bufs (st_pool s) !! y;
  rr_pkts : Forall (fun xf => pkt_is (st_pool s') (netp (g_dm9ka s)) (cticks s) xf.1 xf.2) (rx_all done A).1.2;
  rr_nets : forall i, netp (g_dm9ka s) = Some i -> st_nets s' = discard_many (rx_all done A).2 i (st_nets s);
}.

Lemma place_rcv f A : (rx_place f A).1 Rcv = A Rcv ++ match (rx_place f A).2 with Some x => [x] | None => [] end \/
  alloc_from (fr_len f + ETHHDR_BIAS) A = Some Rcv.
Proof using Type.
  unfold rx_place. destruct (good_frame f); [|left; by rewrite app_nil_r].
  destruct (alloc_from _ A) as [q|] eqn:E; [|left; by rewrite app_nil_r]. destruct (A q) as [|x l]; [left; by rewrite app_nil_r|].
  destruct q; [left; done|left; done|by right].
Qed.

Lemma alloc_not_rcv len A : alloc_from len A <> Some Rcv.
Proof using Type. unfold alloc_from. by repeat case_match. Qed.

Lemma rx_all_rcv fs A : (rx_all fs A).1.1 Rcv = A Rcv ++ (rx_all fs A).1.2.*1.
Proof using Type.
  revert A. induction fs as [|f fs IH]; intros A; cbn [rx_all fst snd]; [by rewrite app_nil_r|]. rewrite IH.
  destruct (place_rcv f A) as [->|E]; [|by apply alloc_not_rcv in E].
  rewrite <- (assoc_L (++)). f_equal. by destruct (rx_place f A).2.
Qed.

Lemma rx_ran_nil s A U fs ws k : drv_ok s A U fs ws k -> rx_ran s s [] A U fs ws k.
Proof using Type. intros HD. by split. Qed.

(** A first frame before the others. *)
Lemma rx_ran_cons s s1 s2 f done A U fs ws rest ws2 k :
  rx_done s s1 f A U fs ws k ->
  rx_ran s1 s2 done (rx_place f A).1 U rest ws2 (match (rx_place f A).2 with Some _ => posted (rcvdq_sem s) k | None => k end) ->
  rx_ran s s2 (f :: done) A U rest ws2 k.
Proof using Type.
  intros (fs' & ws' & _ & Hr & _ & Hk & Hx & Hn) [Hd Hr2 Hk2 Hp2 Hn2]. pose proof Hr as (Eg & Ee & Ec & _).
  rewrite Ee, Eg, Ec in *. destruct (place_rcv f A) as [Er|E]; [|by apply alloc_not_rcv in E].
  assert (Hcons : rx_all (f :: done) A = let r := rx_place f A in let rest := rx_all done r.1 in
    (rest.1.1, match r.2 with Some x => (x, f) :: rest.1.2 | None => rest.1.2 end,
     if discards f A then S rest.2 else rest.2)) by done.
  cbn zeta in Hcons. split; rewrite ?Hcons; clear Hcons; destruct (rx_place f A) as [A1 [x|]]; cbn [fst snd] in *.
  - cbn [length]. by rewrite Nat.iter_succ_r.
  - done.
  - by etrans.
  - by etrans.
  - destruct Hx as (Hx1 & Hx2 & _). intros y Hy. rewrite Hk2; [apply Hk; intros [= ->]; by destruct Hy|].
    rewrite Er. destruct Hy; [left; set_solver|by right].
  - intros y Hy. rewrite Hk2; [by apply Hk|]. rewrite Er. destruct Hy; [left; set_solver|by right].
  - destruct Hx as (_ & _ & (b & Hb & Hx)). constructor; [|done]. exists b. cbn [fst snd]. split; [|done].
    rewrite Hk2; [done|]. rewrite Er. left. set_solver.
  - done.
  - intros i Hi. rewrite (Hn2 i Hi), (Hn i Hi). unfold discard_many, count_discard. destruct (discards f A); [|done].
    by rewrite Nat.iter_succ_r.
  - intros i Hi. rewrite (Hn2 i Hi), (Hn i Hi). unfold discard_many, count_discard. destruct (discards f A); [|done].
    by rewrite Nat.iter_succ_r.
Qed.

(** ** The loop *)

(** The device of the driver, changed. *)
Lemma dev_ran s d A U fs ws fs' ws' k : drv_ok s A U fs ws k -> same_tx (vt (st_dev s)) (vt d) ->
  holds d [] fs' ws' -> drv_ok (set_dev d s) A U fs' ws' k /\ same_rest s (set_dev d s).
Proof using Type. intros [Hp Hh Hb Hn Hk] Hs Hh'. split; [by split|by split_and!]. Qed.

(** Delay, flag and delay between two frames. *)
Lemma rx_between s A U fs ws k : drv_ok s A U fs ws k -> exists d fs1 ws1 fs2 ws2,
  (do! _ := write_dev (usleep STD_DELAY) in
   do! dm := ngets g_dm9ka in
   do! rx_rdy := read_dev (dm9000a_rxReady (regbase dm)) in
   do! _ := write_dev (usleep STD_DELAY) in nret rx_rdy) s = Done (ready_flag fs1, set_dev d s) /\
  arrived fs ws fs1 ws1 /\ arrived fs1 ws1 fs2 ws2 /\ drv_ok (set_dev d s) A U fs2 ws2 k /\ same_rest s (set_dev d s).
Proof using Type.
  intros HD. pose proof HD as [Hp Hh Hb Hn Hk].
  destruct (usleep_goes STD_DELAY _ _ _ _ Hh) as [(Hs0 & fs0 & ws0 & Hh0 & Ha0) _].
  destruct (ready_goes _ _ _ _ Hh0 eq_refl) as (Hs1 & fs1 & ws1 & Hh1 & Ha1 & Hv).
  destruct (usleep_goes STD_DELAY _ _ _ _ Hh1) as [(Hs2 & fs2 & ws2 & Hh2 & Ha2) _].
  exists (usleep STD_DELAY (snd (dm9000a_rxReady DM9000A_INST_BASE (usleep STD_DELAY (st_dev s))))), fs1, ws1, fs2, ws2.
  split.
  - unfold nbind, write_dev, nmodify, ngets, read_dev, nret. change (g_dm9ka (set_dev _ s)) with (g_dm9ka s). rewrite Hb.
    change (st_dev (set_dev (usleep STD_DELAY (st_dev s)) s)) with (usleep STD_DELAY (st_dev s)).
    destruct (dm9000a_rxReady _ _) as [v d]. cbn [fst snd] in *. by subst v.
  - split; [by eapply arrived_trans|]. split; [done|].
    apply (dev_ran s _ A U fs ws fs2 ws2 k HD); [|done]. etrans; [exact Hs0|]. etrans; [exact Hs1|]. done.
Qed.

Lemma arrived_length fs ws fs' ws' : arrived fs ws fs' ws' ->
  (length (fs' ++ concat ws') = length (fs ++ concat ws))%nat.
Proof using Type.
  intros [k [-> ->]]. rewrite <- (assoc_L (++)), <- concat_app, take_drop. done.
Qed.

Lemma arrived_nil fs ws ws' : arrived fs ws [] ws' -> fs = [].
Proof using Type. intros [k [E _]]. symmetry in E. by apply app_eq_nil in E as [-> _]. Qed.

Lemma arrived_prefix fs ws fs' ws' : arrived fs ws fs' ws' -> fs `prefix_of` fs'.
Proof using Type. intros [k [-> _]]. by eexists. Qed.

Lemma rx_loop_ok fuel s A U fs ws k rdy : drv_ok s A U fs ws k -> (rdy = 0 \/ (rdy = 1 /\ fs <> [])) ->
  (length (fs ++ concat ws) < fuel)%nat ->
  exists s' done rest ws', rx_loop fuel rdy s = Done (0, s') /\ arrived fs ws (done ++ rest) ws' /\
    (rdy = 1 -> fs `prefix_of` done) /\ rx_ran s s' done A U rest ws' k.
Proof using Type.
  revert s A fs ws k rdy. induction fuel as [|fuel IH]; intros s A fs ws k rdy HD Hr Hf; [lia|]. cbn [rx_loop].
  destruct Hr as [->|[-> Hne]].
  - exists s, [], fs, ws. split; [done|]. split; [apply arrived_refl|]. split; [done|by apply rx_ran_nil].
  - change (1 =? DM9000_PKT_READY) with true. cbn iota. destruct fs as [|f fs]; [done|].
    destruct (rx_frame_ok s f A U fs ws k HD) as (s1 & E1 & Hdone). rewrite (nbind_eq _ _ _ _ _ E1).
    pose proof Hdone as (fs1 & ws1 & Ha1 & Hr1 & HD1 & _).
    destruct (rx_between s1 _ _ _ _ _ HD1) as (d & fs2 & ws2 & fs3 & ws3 & E2 & Ha2 & Ha3 & HD3 & Hr3).
    set (s3 := set_dev d s1) in *.
    assert (E3 : (do! _ := write_dev (usleep STD_DELAY) in
                  do! dm := ngets g_dm9ka in
                  do! rx_rdy := read_dev (dm9000a_rxReady (regbase dm)) in
                  do! _ := write_dev (usleep STD_DELAY) in rx_loop fuel rx_rdy) s1 = rx_loop fuel (ready_flag fs2) s3).
    { revert E2. unfold nbind, write_dev, nmodify, ngets, read_dev, nret.
      destruct (dm9000a_rxReady _ _) as [v d']. intros [= -> <-]. done. }
    rewrite E3. assert (Hlen : (length (fs3 ++ concat ws3) < fuel)%nat).
    { rewrite (arrived_length _ _ _ _ Ha3), (arrived_length _ _ _ _ Ha2), (arrived_length _ _ _ _ Ha1). cbn in Hf. lia. }
    assert (Hrd : ready_flag fs2 = 0 \/ (ready_flag fs2 = 1 /\ fs3 <> [])).
    { unfold ready_flag. destruct (bool_decide_reflect (fs2 = [])) as [|Hn]; [by left|right]. split; [done|].
      intros ->. by apply arrived_nil in Ha3. }
    destruct (IH s3 _ fs3 ws3 _ _ HD3 Hrd Hlen) as (s' & done & rest & ws' & E & Ha & Hpre & Hran).
    exists s', (f :: done), rest, ws'. split; [exact E|]. split_and!.
    + change ((f :: done) ++ rest) with ([f] ++ (done ++ rest)). change (f :: fs) with ([f] ++ fs). apply arrived_app.
      eapply arrived_trans; [exact Ha1|]. eapply arrived_trans; [exact Ha2|]. by eapply arrived_trans.
    + intros _. apply prefix_cons. unfold ready_flag in Hpre. destruct (bool_decide_reflect (fs2 = [])) as [->|Hn].
      * apply arrived_nil in Ha2 as ->. apply arrived_nil in Ha1 as ->. by eexists.
      * etrans; [|by apply Hpre]. etrans; [by eapply arrived_prefix|]. etrans; by eapply arrived_prefix.
    + eapply rx_ran_cons; [exact Hdone|].
      destruct Hran as [Hd2 Hr2 Hk2 Hp2 Hn2]. split; try done. by etrans.
Qed.


(** ** The interrupt routine *)

Lemma tick_goes d x fs ws i v : holds d [] fs ws -> (i =? NCR) = false -> (i =? TCR) = false -> (i =? MWCMD) = false ->
  x = dm9000a_iow i v d -> i = IMR \/ i = ISR -> goes d x [] fs ws.
Proof using Type.
  intros Hh H1' H2' H3' -> Hi. destruct (tick_holds _ _ _ _ (idx_holds _ _ _ _ i Hh)) as (fs' & ws' & Hh' & Ha).
  assert (Hs : same_tx (vt d) (vt (dm9000a_iow i v d))).
  { rewrite iow_t. destruct Hi as [-> | ->]; [apply same_tx_imr|]. unfold t_put, t_write. cbn. apply same_tx_idx. }
  split; [done|]. exists fs', ws'. split; [|done]. destruct Hh' as [Hr Hw Hon Ho Ho'].
  assert (Hrx : r_rx (nic_r (nic_view (dm9000a_iow i v d))) = r_rx (nic_r (nic_tick (nic_index i (nic_view d)))) /\
    r_wire (nic_r (nic_view (dm9000a_iow i v d))) = r_wire (nic_r (nic_tick (nic_index i (nic_view d))))).
  { rewrite iow_r. unfold r_write. rewrite H1'. cbn [andb]. by destruct (i =? ISR). }
  destruct Hrx as [E1 E2]. split; try done; [by rewrite E1|by rewrite E2|].
  unfold rx_enabled, reg. rewrite (st_regs _ _ Hs) by done. apply (rh_on _ _ _ _ Hh).
Qed.

Lemma imr_goes d v fs ws : holds d [] fs ws -> goes d (dm9000a_iow IMR v d) [] fs ws.
Proof using Type. intros Hh. eapply (tick_goes d _ fs ws IMR v); try done. by left. Qed.
Lemma isr_goes d v fs ws : holds d [] fs ws -> goes d (dm9000a_iow ISR v d) [] fs ws.
Proof using Type. intros Hh. eapply (tick_goes d _ fs ws ISR v); try done. by right. Qed.

Lemma status_goes d fs ws : holds d [] fs ws -> goes d (snd (dm9000a_ior ISR d)) [] fs ws.
Proof using Type.
  intros Hh. destruct (tick_holds _ _ _ _ (idx_holds _ _ _ _ ISR Hh)) as (fs' & ws' & Hh' & Ha).
  assert (E : nic_view (snd (dm9000a_ior ISR d)) = nic_tick (nic_index ISR (nic_view d))) by (rewrite ior_view; done).
  unfold goes. rewrite E. split; [apply same_tx_idx|]. by exists fs', ws'.
Qed.

Lemma rx_ran_before s s' d done A U rest ws k : same_tx (vt (st_dev s)) (vt d) -> rx_ran (set_dev d s) s' done A U rest ws k ->
  rx_ran s s' done A U rest ws k.
Proof using Type.
  intros Hs [Hd Hr Hk Hp Hn]. split; try done. etrans; [|exact Hr]. by split_and!.
Qed.

Lemma rx_ran_after s s' d done A U rest ws rest' ws' k : rx_ran s s' done A U rest ws k -> same_tx (vt (st_dev s')) (vt d) ->
  holds d [] rest' ws' -> rx_ran s (set_dev d s') done A U rest' ws' k.
Proof using Type.
  intros [Hd Hr Hk Hp Hn] Hs Hh. destruct (dev_ran s' d _ _ _ _ _ _ _ Hd Hs Hh) as [Hd' Hr']. split; try done. by etrans.
Qed.

(** Before the loop: the mask, the status and the first flag. *)
Lemma isr_begins s A U fs ws k : drv_ok s A U fs ws k -> exists d fs1 ws1 fs2 ws2,
  (do! _ := write_dev (dm9000a_iow IMR PAR_set) in
   do! istatus := read_dev (dm9000a_ior ISR) in
   do! rx_rdy := read_dev (dm9000a_rxReady DM9000A_INST_BASE) in
   do! _ := write_dev (usleep STD_DELAY) in nret rx_rdy) s = Done (ready_flag fs1, set_dev d s) /\
  arrived fs ws fs1 ws1 /\ arrived fs1 ws1 fs2 ws2 /\ holds d [] fs2 ws2 /\ same_tx (vt (st_dev s)) (vt d).
Proof using Type.
  intros HD. pose proof HD as [Hp Hh Hb Hn Hk].
  destruct (imr_goes _ PAR_set _ _ Hh) as (Hs0 & fs0 & ws0 & Hh0 & Ha0).
  destruct (status_goes _ _ _ Hh0) as (Hs1 & fs1 & ws1 & Hh1 & Ha1).
  destruct (ready_goes _ _ _ _ Hh1 eq_refl) as (Hs2 & fs2 & ws2 & Hh2 & Ha2 & Hv).
  destruct (usleep_goes STD_DELAY _ _ _ _ Hh2) as [(Hs3 & fs3 & ws3 & Hh3 & Ha3) _].
  exists (usleep STD_DELAY (snd (dm9000a_rxReady DM9000A_INST_BASE (snd (dm9000a_ior ISR
    (dm9000a_iow IMR PAR_set (st_dev s))))))), fs2, ws2, fs3, ws3.
  split; [|split; [by eapply arrived_trans; [exact Ha0|eapply arrived_trans]|]].
  - unfold nbind, write_dev, nmodify, read_dev, nret.
    change (st_dev (set_dev (dm9000a_iow IMR PAR_set (st_dev s)) s)) with (dm9000a_iow IMR PAR_set (st_dev s)).
    destruct (dm9000a_ior ISR _) as [v1 d1]. cbn [fst snd] in *. change (st_dev (set_dev d1 _)) with d1.
    destruct (dm9000a_rxReady _ d1) as [v2 d2]. cbn [fst snd] in *. subst v2. reflexivity.
  - split; [done|]. split; [exact Hh3|]. etrans; [exact Hs0|]. etrans; [exact Hs1|]. etrans; [exact Hs2|]. exact Hs3.
Qed.

(** From any frames in the chip, the routine takes some first part of them out, at least
    those that were there when it started, accounts for each, and unmasks interrupts. *)
Lemma isr_ok fuel iface n s A U fs ws k : drv_ok s A U fs ws k -> st_nets s !! iface = Some n -> n_local n = true ->
  (length (fs ++ concat ws) < fuel)%nat ->
  exists s' done rest ws', dm9000a_isr fuel iface s = Done (tt, s') /\ arrived fs ws (done ++ rest) ws' /\
    fs `prefix_of` done /\ rx_ran s s' done A U rest ws' k /\
    t_idx (vt (st_dev s')) = IMR /\ reg IMR (vt (st_dev s')) = INTR_set.
Proof using Type.
  intros HD Hn Hl Hf. pose proof HD as [_ _ Hb _ _].
  destruct (isr_begins s A U fs ws k HD) as (d & fs1 & ws1 & fs2 & ws2 & E1 & Ha1 & Ha2 & Hh2 & Hs2).
  destruct (dev_ran s d A U _ _ _ _ k HD Hs2 Hh2) as [HD2 _].
  assert (Hrd : ready_flag fs1 = 0 \/ (ready_flag fs1 = 1 /\ fs2 <> [])).
  { unfold ready_flag. destruct (bool_decide_reflect (fs1 = [])) as [|Hne]; [by left|right]. split; [done|].
    intros ->. by apply arrived_nil in Ha2. }
  destruct (rx_loop_ok fuel _ A U fs2 ws2 k _ HD2 Hrd) as (s3 & done & rest & ws3 & E3 & Ha3 & Hpre & Hran).
  { by rewrite (arrived_length _ _ _ _ Ha2), (arrived_length _ _ _ _ Ha1). }
  assert (Hh3 : holds (st_dev s3) [] rest ws3) by apply Hran.
  destruct (isr_goes _ 0x3F _ _ Hh3) as (Hs4 & fs4 & ws4 & Hh4 & Ha4).
  destruct (imr_goes _ INTR_set _ _ Hh4) as (Hs5 & fs5 & ws5 & Hh5 & Ha5).
  exists (set_dev (dm9000a_iow IMR INTR_set (dm9000a_iow ISR 0x3F (st_dev s3))) s3), done, fs5, ws5. split_and!.
  - unfold dm9000a_isr, get_local. unfold nbind at 1 2. unfold get_net. rewrite Hn. cbn [of_option]. rewrite Hl.
    cbn [ngets]. rewrite Hb. revert E1. unfold nbind, write_dev, nmodify, read_dev, nret.
    destruct (dm9000a_ior ISR _) as [v1 d1]. destruct (dm9000a_rxReady _ _) as [v2 d2]. intros [= -> <-].
    match goal with |- context [rx_loop fuel _ ?x] => change x with (set_dev (usleep STD_DELAY d2) s) end.
    rewrite E3. reflexivity.
  - eapply arrived_trans; [exact Ha1|]. eapply arrived_trans; [exact Ha2|]. eapply arrived_trans; [exact Ha3|].
    apply arrived_app. by eapply arrived_trans.
  - unfold ready_flag in Hpre. destruct (bool_decide_reflect (fs1 = [])) as [->|Hne].
    + apply arrived_nil in Ha1 as ->. apply prefix_nil.
    + etrans; [by eapply arrived_prefix|]. etrans; [by eapply arrived_prefix|]. by apply Hpre.
  - apply (rx_ran_after s s3 _ done A U rest ws3); [by apply (rx_ran_before _ _ d)| |done]. by etrans.
  - change (t_idx (vt (dm9000a_iow IMR INTR_set (dm9000a_iow ISR 0x3F (st_dev s3)))) = IMR).
    by rewrite iow_t, t_put_plain.
  - change (reg IMR (vt (dm9000a_iow IMR INTR_set (dm9000a_iow ISR 0x3F (st_dev s3)))) = INTR_set).
    by rewrite iow_t, reg_put.
Qed.

End Driver.
