(* ===== verification/NetPath.v ===== *)
(** * NetPath

    Reception when there are enough packets, and the sending of a packet: the lemmas behind
    the theorems of NetProps, NetRace and NetDemux. *)

From stdpp Require Import gmap.
From S2P Require Import Prelude HwDriver NetQueue PktPool PktFacts KernelData Kernel KernelSem KernelSpec KernelInv KernelRefine KernelSemOps NetDev Dm9000a Dm9000aFacts DmRx.

(** ** Reception *)

(** With a large buffer for each good frame, every good frame gets a packet. *)
Lemma rx_all_enough fs A : (length (filter (fun f => good_frame f = true) fs) <= length (A Big))%nat ->
  (rx_all fs A).1.2.*2 = filter (fun f => good_frame f = true) fs /\ (rx_all fs A).2 = O.
Proof.
  revert A. induction fs as [|f fs IH]; intros A Hl; [done|]. cbn [rx_all]. revert Hl. rewrite filter_cons.
  unfold rx_place, discards. destruct (good_frame f) eqn:Eg; cbn [andb fst snd].
  - rewrite decide_True by done. cbn [length]. intros Hl.
    assert (Hlen : fr_len f + ETHHDR_BIAS <= BIGBUFSIZE).
    { unfold good_frame in Eg. apply andb_prop in Eg as [_ Eg%Z.ltb_lt]. unfold MAX_PACKET_SIZE, ETHHDR_BIAS, BIGBUFSIZE in *. lia. }
    destruct (A Big) as [|x l] eqn:Eb; cbn in Hl; [lia|].
    assert (Hq : exists q y m, alloc_from (fr_len f + ETHHDR_BIAS) A = Some q /\ A q = y :: m /\
      (length fs = length fs -> (length (filter (fun f => good_frame f = true) fs) <= length (upd_at q m A Big))%nat)).
    { unfold alloc_from. rewrite (proj2 (Z.ltb_ge _ _)) by done. destruct (_ || _) eqn:Eo.
      - rewrite bool_decide_eq_false_2 by (by rewrite Eb). exists Big, x, l. split; [done|]. split; [done|]. intros _. unfold upd_at. rewrite decide_True by done.
        exact (le_S_n _ _ Hl).
      - apply orb_false_iff in Eo as [_ Eo]. apply bool_decide_eq_false in Eo. destruct (A Lil) as [|y m] eqn:El; [done|].
        exists Lil, y, m. split; [done|]. split; [done|]. intros _. unfold upd_at. rewrite decide_False by done. rewrite Eb.
        apply Nat.le_le_succ_r, (le_S_n _ _ Hl). }
    destruct Hq as (q & y & m & -> & -> & Hq). cbn [fst snd]. rewrite bool_decide_eq_false_2 by done.
    destruct (IH (upd_at Rcv (upd_at q m A Rcv ++ [y]) (upd_at q m A))) as [E1 E2].
    { unfold upd_at at 1. cbn. by apply Hq. }
    split; [|done]. cbn. by rewrite E1.
  - rewrite decide_False by congruence. intros Hl. cbn. by apply IH.
Qed.

(** ** Transmission *)

Section Send.
Context {D : Type} `{Chip D}.

Abbreviation vt d := (nic_t (nic_view d)).
Abbreviation vr d := (nic_r (nic_view d)).
Abbreviation holds d := (rx_holds (nic_view d)).

Lemma ticks_holds n n' fs ws : rx_holds n [] fs ws -> ticks (rx_enabled (nic_t n)) (nic_r n) (nic_r n') ->
  rx_enabled (nic_t n') = true -> exists fs' ws', rx_holds n' [] fs' ws' /\ arrived fs ws fs' ws'.
Proof using Type.
  intros Hh [k E] Hon. assert (Hk : exists fs' ws', rx_holds (mkNic (nic_t n) (nic_r n')) [] fs' ws' /\ arrived fs ws fs' ws').
  { rewrite E. clear E. induction k as [|k (fs1 & ws1 & Hh1 & Ha1)].
    - exists fs, ws. split; [by destruct n|apply arrived_refl].
    - destruct (tick_holds _ _ _ _ Hh1) as (fs2 & ws2 & Hh2 & Ha2). exists fs2, ws2. split; [exact Hh2|]. by eapply arrived_trans. }
  destruct Hk as (fs' & ws' & [Hr Hw _ Ho Ho'] & Ha). exists fs', ws'. split; [|done]. by split.
Qed.

(** The bytes that dm9ka_pkt_send hands to TransmitPacket. *)
Definition send_len (b : netbuf) : Z := Z.max 64 (nb_plen b - ETHHDR_BIAS).
Definition send_from (b : netbuf) : nat := Z.to_nat (nb_prot b + ETHHDR_BIAS).

(** A packet whose frame, with its padding, lies in its block. *)
Record sendable (b : netbuf) : Prop := {
  sd_len : ETHHDR_BIAS <= nb_plen b < 2 ^ 16;
  sd_prot : 0 <= nb_prot b;
  sd_fits : (send_from b + 2 * half_up (send_len b) <= length (nb_mem b))%nat;
  sd_bytes : bytes (nb_mem b);
}.

(** The routine up to the release of the packet. *)
Lemma send_core fuel x (s : NetSt D) b i n j nj : pk_bufs (st_pool s) !! x = Some b -> sendable b -> nb_net b = Some i ->
  st_nets s !! i = Some n -> n_local n = true -> netp (g_dm9ka s) = Some j -> st_nets s !! j = Some nj ->
  t_txw (vt (st_dev s)) = [] -> (t_lat (vt (st_dev s)) < fuel)%nat ->
  exists d' c, mem_byte (nb_mem b) (nb_prot b) = Some c /\
    dm9ka_pkt_send fuel x s = nbind (pool_do (pk_free x)) (fun _ => nret 0)
      (set_nets (<[j := set_mib (add_Out (nb_plen b) (negb (Z.land c 0x80 =? 0))) nj]> (st_nets s)) (set_dev d' s)) /\
    vt d' = tx_after (send_len b) (drop (send_from b) (nb_mem b)) (vt (st_dev s)) /\
    ticks (rx_enabled (vt (st_dev s))) (vr (st_dev s)) (vr d').
Proof using Type.
  intros Hx [Hl Hp0 Hfit Hby] Hi Hn Hloc Hj Hnj Htx Hlat. unfold ETHHDR_BIAS in Hl.
  set (len := send_len b) in *. set (data := drop (send_from b) (nb_mem b)).
  assert (Hlen : 0 <= len < 2 ^ 16) by (unfold len, send_len, ETHHDR_BIAS; lia).
  destruct (TransmitPacket_spec fuel data len (st_dev s) Hlen) as (d' & Et & Ht & Hr); try done.
  { by apply bytes_drop. } { unfold data. rewrite length_drop. lia. }
  assert (Hc : exists c, mem_byte (nb_mem b) (nb_prot b) = Some c).
  { apply mem_byte_in. assert (1 <= Z.of_nat (half_up len)) by (pose proof (half_up_double len); unfold len, send_len in *; lia).
    unfold send_from, ETHHDR_BIAS in Hfit. lia. }
  destruct Hc as [c Hc]. exists d', c. split; [done|]. split; [|done].
  unfold dm9ka_pkt_send, get_local, nbind, get_buf, nonnull, nret, get_net, ngets, upd_net.
  rewrite Hx. cbn [of_option]. rewrite Hi. rewrite Hn. cbn [of_option]. rewrite Hloc.
  rewrite (proj2 (Z.leb_le _ _)) by (unfold ETHHDR_BIAS; lia). fold (send_from b). fold data.
  assert (Es : (if u32 (nb_plen b - ETHHDR_BIAS) <? 64 then 64 else u32 (nb_plen b - ETHHDR_BIAS)) = len).
  { rewrite u32_small by (unfold ETHHDR_BIAS; word_lia). unfold len, send_len. destruct (Z.ltb_spec (nb_plen b - ETHHDR_BIAS) 64); lia. }
  rewrite Es, Et. change (DMFE_SUCCESS =? DMFE_SUCCESS) with true. cbn iota. rewrite Hj, Hc. cbn [of_option].
  change (st_nets (set_dev d' s)) with (st_nets s). by rewrite Hnj.
Qed.

Lemma send_ok fuel x s A U fs ws k b i n j : drv_ok s A (x :: U) fs ws k ->
  pk_bufs (st_pool s) !! x = Some b -> marked b -> nb_inuse b = 1 -> sendable b ->
  nb_net b = Some i -> st_nets s !! i = Some n -> n_local n = true -> netp (g_dm9ka s) = Some j ->
  t_txw (vt (st_dev s)) = [] -> (t_lat (vt (st_dev s)) < fuel)%nat ->
  exists s' fs' ws', dm9ka_pkt_send fuel x s = Done (0, s') /\ arrived fs ws fs' ws' /\
    vt (st_dev s') = tx_after (send_len b) (drop (send_from b) (nb_mem b)) (vt (st_dev s)) /\
    drv_ok s' (upd_at (size_queue b) (A (size_queue b) ++ [x]) A) U fs' ws' k /\
    (exists c, mem_byte (nb_mem b) (nb_prot b) = Some c /\
      st_nets s' = alter (set_mib (add_Out (nb_plen b) (negb (Z.land c 0x80 =? 0)))) j (st_nets s)).
Proof using Type.
  intros HD Hx Hm Hu Hsend Hi Hn Hloc Hj Htx Hlat. pose proof HD as [Hp Hh Hb (j' & Hj' & [nj Hnj]) Hk].
  rewrite Hj in Hj'. injection Hj' as <-.
  destruct (send_core fuel x s b i n j nj) as (d' & c & Hc & E & Ht & Hr); try done.
  destruct (ticks_holds _ (nic_view d') fs ws Hh Hr) as (fs' & ws' & Hh' & Ha).
  { rewrite Ht. pose proof (rh_on _ _ _ _ Hh) as Hon. unfold rx_enabled, reg, tx_after, len_regs in *. cbn [t_regs].
    by rewrite !lookup_insert_ne. }
  destruct (pk_free_last (st_pool s) A U x b Hp Hx Hu Hm) as (r & Hf & Hpool). cbn zeta in Hf, Hpool.
  set (nets := <[j := set_mib (add_Out (nb_plen b) (negb (Z.land c 0x80 =? 0))) nj]> (st_nets s)) in *.
  eexists (set_pool _ (set_nets nets (set_dev d' s))), fs', ws'. split_and!; try done.
  - rewrite E. unfold nbind, pool_do. change (st_pool (set_nets nets (set_dev d' s))) with (st_pool s). by rewrite Hf.
  - split; try done. exists j. split; [done|]. cbn. apply lookup_lt_is_Some_2. unfold nets.
    rewrite length_insert. by eapply lookup_lt_Some.
  - exists c. split; [done|]. cbn. unfold nets. rewrite list_insert_alter. apply list_alter_ext; [|done]. intros n1 Hn1. congruence.
Qed.

End Send.
