(* ===== verification/NetProps.v ===== *)
(** * NetProps

    The theorems about the Ethernet driver: reception, transmission, the race between
    them, and where the code falls short. *)

From stdpp Require Import gmap.
From S2P Require Import Prelude HwDriver NetQueue PktPool PktFacts KernelData Kernel KernelSem KernelSpec KernelInv KernelRefine KernelSemOps KernelBoot KernelTokens KernelProps NetDev Dm9000a Dm9000aFacts DmRx NetPath.

(** ** A state of the board *)

Definition blank_net : net :=
  mkNet None None None None 0 0 0 0 0 0 (mkIfMib 0 0 0 0 0 0 0 0 0 0 0) false 0.
Definition board_net : net := set_mib (set_status 1 1) (prep_net 0 blank_net).
Definition board_dm : dm9000a_dev :=
  mkDm9ka DM9000A_INST_IRQ DM9000A_INST_BASE (get_mac_addr None) (Some 0%nat) 0 0 0 0 0 q_zero.

(** The chip when it receives, with some frames. *)
Definition chip_with (fs : list frame) (ws : list (list frame)) : Nic :=
  mkNic (mkT 0 (<[RCR := 0x39]> {[IMR := INTR_set]}) [] [] None 3) (mkR 1 (words_of fs) (words_of <$> ws)).

Definition board (p : Pool) (os : OS) (fs : list frame) (ws : list (list frame)) : NetSt Nic :=
  mkNetSt p (chip_with fs ws) os 0%nat [board_net] board_dm 0 0 0.

Lemma board_ok p os fs ws A U : pool_ok p A U -> repr os k_loop -> kinv k_loop -> Forall frame_ok fs ->
  Forall (Forall frame_ok) ws -> drv_ok (board p os fs ws) A U fs ws k_loop.
Proof.
  intros Hp Hr Hk Hf Hw. split; try done. exists 0%nat. split; [done|by eexists].
Qed.

Definition ip_frame (n : nat) : frame :=
  mkFrame 0 (replicate 6 0xFF ++ [2; 0; 0; 0; 0; 1; 0x08; 0x00] ++ replicate n 0x45).
Definition arp_frame : frame :=
  mkFrame 0 (replicate 6 0xFF ++ [2; 0; 0; 0; 0; 1; 0x08; 0x06] ++ replicate 50 0x01).
(** A frame with a CRC error. *)
Definition broken_frame : frame := mkFrame 0x02 (replicate 64 0x00).

Definition demo_frames : list frame := [ip_frame 50; broken_frame; arp_frame].
Definition demo_wire : list (list frame) := [[]; []; [ip_frame 600]].

Lemma demo_ok : Forall frame_ok demo_frames /\ Forall (Forall frame_ok) demo_wire.
Proof.
  assert (Hok : forall f, bool_decide (0 <= fr_status f < 256) && forallb (fun b => bool_decide (0 <= b < 256)) (fr_bytes f) &&
    bool_decide (fr_len f < 2 ^ 16) = true -> frame_ok f).
  { intros f [[H1%bool_decide_eq_true H2]%andb_prop H3%bool_decide_eq_true]%andb_prop. split; [done|]. split; [|done].
    apply Forall_forall. intros b Hb. rewrite forallb_forall in H2. specialize (H2 b). rewrite <- list_elem_of_In in H2.
    specialize (H2 Hb). by apply bool_decide_eq_true in H2. }
  split; repeat apply Forall_cons_2; try apply Forall_nil_2; apply Hok; vm_compute; reflexivity.
Qed.

(** ** Reception *)

Section Reception.
Context {D : Type} `{Chip D}.

Lemma wrap_ok fuel iface n s A U fs ws k : drv_ok s A U fs ws k -> st_nets s !! iface = Some n -> n_local n = true ->
  (length (fs ++ concat ws) < fuel)%nat ->
  exists s' done rest ws', dm9Ka_isr_wrap fuel iface s = Done (tt, s') /\ arrived fs ws (done ++ rest) ws' /\
    fs `prefix_of` done /\ rx_ran s s' done A U rest ws' k /\
    t_idx (nic_t (nic_view (st_dev s'))) = IMR /\ reg IMR (nic_t (nic_view (st_dev s'))) = INTR_set.
Proof using Type.
  intros HD Hn Hl Hf. assert (HD' : drv_ok (incr_isrs s) A U fs ws k) by (destruct HD; by split).
  destruct (isr_ok fuel iface n (incr_isrs s) A U fs ws k HD' Hn Hl Hf) as (s' & done & rest & ws' & E & Ha & Hp & [] & Hi & Hr).
  exists s', done, rest, ws'. by split_and!.
Qed.

(** C37. The interrupt routine takes frames out of the chip in the order of arrival, all
    those that were there when it started and perhaps later ones, and accounts for each:
    a good frame gets a packet, which holds its bytes and is appended to the queue of
    received packets with one post of the semaphore, or when there is no packet for it
    adds one to the discards; a bad one is dropped.  Packets in the hands of others are
    not touched, and interrupts are unmasked at the end. *)
Theorem frames_accounted fuel iface n s A U fs ws k : drv_ok s A U fs ws k -> st_nets s !! iface = Some n -> n_local n = true ->
  (length (fs ++ concat ws) < fuel)%nat ->
  exists s' done rest ws', dm9Ka_isr_wrap fuel iface s = Done (tt, s') /\ arrived fs ws (done ++ rest) ws' /\
    fs `prefix_of` done /\
    let '(A', taken, lost) := rx_all done A in
    drv_ok s' A' U rest ws' (Nat.iter (length taken) (posted (rcvdq_sem s)) k) /\
    A' Rcv = A Rcv ++ taken.*1 /\
    Forall (fun xf => pkt_is (st_pool s') (netp (g_dm9ka s)) (cticks s) xf.1 xf.2) taken /\
    (forall y, y ∈ A Rcv \/ y ∈ U -> pk_bufs (st_pool s') !! y = pk_bufs (st_pool s) !! y) /\
    (forall i, netp (g_dm9ka s) = Some i -> st_nets s' = discard_many lost i (st_nets s)) /\
    reg IMR (nic_t (nic_view (st_dev s'))) = INTR_set.
Proof using Type.
  intros HD Hn Hl Hf. destruct (wrap_ok fuel iface n s A U fs ws k HD Hn Hl Hf) as (s' & done & rest & ws' & E & Ha & Hp & Hr & _ & Hi).
  exists s', done, rest, ws'. do 3 (split; [done|]). pose proof (rx_all_rcv done A) as Hq. destruct Hr as [Hd _ Hk Hx Hns].
  destruct (rx_all done A) as [[A' taken] lost]. by split_and!.
Qed.

(** While there is a large buffer for each frame, no good frame is lost: after the
    interrupt routine the queue of received packets has grown by one packet for each good
    frame, in order, and no discard was counted. *)
Lemma frames_received fuel iface n s A U fs ws k : drv_ok s A U fs ws k -> st_nets s !! iface = Some n -> n_local n = true ->
  (length (fs ++ concat ws) < fuel)%nat -> (length (fs ++ concat ws) <= length (A Big))%nat ->
  exists s' done rest ws' A' xs, dm9Ka_isr_wrap fuel iface s = Done (tt, s') /\ arrived fs ws (done ++ rest) ws' /\
    fs `prefix_of` done /\ A' Rcv = A Rcv ++ xs /\
    Forall2 (pkt_is (st_pool s') (netp (g_dm9ka s)) (cticks s)) xs (filter (fun f => good_frame f = true) done) /\
    drv_ok s' A' U rest ws' (Nat.iter (length xs) (posted (rcvdq_sem s)) k) /\ st_nets s' = st_nets s /\
    (forall y, y ∈ A Rcv -> pk_bufs (st_pool s') !! y = pk_bufs (st_pool s) !! y).
Proof using Type.
  intros HD Hn Hl Hf Hb. destruct (wrap_ok fuel iface n s A U fs ws k HD Hn Hl Hf) as (s' & done & rest & ws' & E & Ha & Hp & Hr & _).
  destruct (rx_all_enough done A) as [E1 E2].
  { etrans; [apply length_filter|]. etrans; [|exact Hb]. rewrite <- (arrived_length _ _ _ _ Ha), !length_app. lia. }
  exists s', done, rest, ws', (rx_all done A).1.1, (rx_all done A).1.2.*1. destruct Hr as [Hd _ Hk Hx Hns]. split_and!; try done.
  - apply rx_all_rcv.
  - rewrite <- E1. apply Forall2_fmap, Forall_Forall2_diag. done.
  - by rewrite length_fmap.
  - destruct (dk_net _ _ _ _ _ _ HD) as (i & Hi & _). rewrite (Hns i Hi), E2. done.
  - intros y Hy. apply Hk. by left.
Qed.

End Reception.

Lemma frames_accounted_witness : exists s s' done rest ws', dm9Ka_isr_wrap 5 0 s = Done (tt, s') /\
  arrived demo_frames demo_wire (done ++ rest) ws' /\ demo_frames `prefix_of` done /\
  let '(A', taken, lost) := rx_all done (init_lists 60) in
  drv_ok s' A' [] rest ws' (Nat.iter (length taken) (posted (rcvdq_sem s)) k_loop) /\
  A' Rcv = init_lists 60 Rcv ++ taken.*1 /\
  Forall (fun xf => pkt_is (st_pool s') (netp (g_dm9ka s)) (cticks s) xf.1 xf.2) taken /\
  (forall y, y ∈ init_lists 60 Rcv \/ y ∈ [] -> pk_bufs (st_pool s') !! y = pk_bufs (st_pool s) !! y) /\
  (forall i, netp (g_dm9ka s) = Some i -> st_nets s' = discard_many lost i (st_nets s)) /\
  reg IMR (nic_t (nic_view (st_dev s'))) = INTR_set.
Proof.
  destruct (pk_init_free (fun _ => true) 16) as (p & _ & HR & _); [done|]. destruct loop_state as (os & Hr & Hk).
  exists (board p os demo_frames demo_wire). destruct demo_ok as [H1 H2].
  apply (frames_accounted 5 0 board_net (board p os demo_frames demo_wire) (init_lists 60) [] demo_frames demo_wire k_loop);
    [apply board_ok; [apply HR|done..]|done|done|cbn; lia].
Defined.

(** ** Transmission *)

Section Sending.
Context {D : Type} `{Chip D}.

(** C38. dm9ka_pkt_send sends the frame of the packet, padded to 64 bytes with what follows
    it in the block, in one transmission; it counts the packet, returns it to the free
    queue of its size and leaves received frames in the chip, while others may arrive. *)
Theorem frame_sent fuel x s A U fs ws k b i n j : drv_ok s A (x :: U) fs ws k ->
  pk_bufs (st_pool s) !! x = Some b -> marked b -> nb_inuse b = 1 -> sendable b ->
  nb_net b = Some i -> st_nets s !! i = Some n -> n_local n = true -> netp (g_dm9ka s) = Some j ->
  t_txw (nic_t (nic_view (st_dev s))) = [] -> (t_lat (nic_t (nic_view (st_dev s))) < fuel)%nat ->
  exists s' fs' ws', dm9ka_pkt_send fuel x s = Done (0, s') /\ arrived fs ws fs' ws' /\
    t_sent (nic_t (nic_view (st_dev s'))) = t_sent (nic_t (nic_view (st_dev s))) ++
      [take (Z.to_nat (Z.max 64 (nb_plen b - ETHHDR_BIAS))) (drop (Z.to_nat (nb_prot b + ETHHDR_BIAS)) (nb_mem b))] /\
    reg IMR (nic_t (nic_view (st_dev s'))) = INTR_set /\
    drv_ok s' (upd_at (size_queue b) (A (size_queue b) ++ [x]) A) U fs' ws' k /\
    exists c, mem_byte (nb_mem b) (nb_prot b) = Some c /\
      st_nets s' = alter (set_mib (add_Out (nb_plen b) (negb (Z.land c 0x80 =? 0)))) j (st_nets s).
Proof using Type.
  intros HD Hx Hm Hu Hs Hi Hn Hl Hj Ht Hf.
  destruct (send_ok fuel x s A U fs ws k b i n j) as (s' & fs' & ws' & E & Ha & Hv & Hd & Hc); try done.
  exists s', fs', ws'. split_and!; try done; rewrite Hv; [done|]. unfold reg, tx_after. cbn [t_regs].
  by rewrite lookup_insert_eq.
Qed.

(** C39. The wait for the end of a transmission has no bound of its own: the routine returns
    within [fuel] polls exactly when the chip needs fewer, and otherwise is still polling. *)
Theorem send_waits_for_chip fuel data len (d : D) : 0 <= len < 2 ^ 16 -> bytes data -> (2 * half_up len <= length data)%nat ->
  t_txw (nic_t (nic_view d)) = [] ->
  ((exists d', TransmitPacket fuel data len d = Done (DMFE_SUCCESS, d')) <-> (t_lat (nic_t (nic_view d)) < fuel)%nat) /\
  (TransmitPacket fuel data len d = More <-> (fuel <= t_lat (nic_t (nic_view d)))%nat).
Proof using Type.
  intros Hl Hb Hd Ht. destruct (Nat.lt_ge_cases (t_lat (nic_t (nic_view d))) fuel) as [Hf|Hf].
  - destruct (TransmitPacket_spec fuel data len d) as (d' & E & _); [done..|]. rewrite E. split; split; try done; [by eexists|lia].
  - rewrite (TransmitPacket_more fuel data len d) by done. split; split; try done; [intros (d' & E); done|lia].
Qed.

End Sending.

(** A packet of 62 bytes, with the header of the link. *)
Definition out_buf : netbuf :=
  mkNetbuf (default [] (new_block BIGBUFSIZE)) ALIGN_TYPE BIGBUFSIZE ALIGN_TYPE 62 0 (Some 0%nat) IPTP 1 0.

Lemma out_buf_ok : buf_ok out_buf /\ marked out_buf /\ sendable out_buf.
Proof.
  split; [split; [by left|done|vm_compute; reflexivity]|]. split; [apply has_marks_spec; vm_compute; reflexivity|].
  split; [done|done|vm_compute; lia|]. apply Forall_forall. intros c Hc.
  assert (Hf : forallb (fun c => bool_decide (0 <= c < 256)) (nb_mem out_buf) = true) by (vm_compute; reflexivity).
  rewrite forallb_forall in Hf. apply list_elem_of_In, Hf, bool_decide_eq_true in Hc. done.
Qed.

(** A pool in which one packet is in use. *)
Lemma out_pool : exists p A, pool_ok p A [0%nat] /\ pk_bufs p !! 0%nat = Some out_buf.
Proof.
  destruct (pk_init_free (fun _ => true) 16) as (p0 & _ & HR & _); [done|].
  pose proof (pk_alloc_spec p0 _ _ 1000 (PktFacts.pr_ok _ _ _ HR)) as Ha.
  change (alloc_from 1000 (ap_queue all_free)) with (Some Big) in Ha.
  destruct Ha as (x & l & b & q & m & El & Hb & _ & _ & _ & _ & HP). change (ap_queue all_free Big) with (seq 0 30) in El.
  assert (x = 0%nat) as -> by (cbn in El; congruence). destruct out_buf_ok as (Hok & _).
  eexists _, _. split; [apply (user_writes _ _ [0%nat] 0 out_buf HP); [by left|done|done]|].
  cbn [pk_bufs set_bufs set_q set_big]. rewrite list_lookup_insert_eq; [done|]. rewrite length_insert. by eapply lookup_lt_Some.
Qed.

Lemma frame_sent_witness : exists s A s' fs' ws', dm9ka_pkt_send 4 0 s = Done (0, s') /\
  arrived demo_frames demo_wire fs' ws' /\ t_sent (nic_t (st_dev s)) = [] /\
  t_sent (nic_t (st_dev s')) = t_sent (nic_t (st_dev s)) ++ [take 64 (drop 6 (nb_mem out_buf))] /\
  reg IMR (nic_t (st_dev s')) = INTR_set /\ drv_ok s' (upd_at Big (A Big ++ [0%nat]) A) [] fs' ws' k_loop /\
  exists c, mem_byte (nb_mem out_buf) 4 = Some c /\
    st_nets s' = alter (set_mib (add_Out 62 (negb (Z.land c 0x80 =? 0)))) 0%nat (st_nets s).
Proof.
  destruct out_pool as (p & A & HP & Hb). destruct out_buf_ok as (Hok & Hm & Hs). destruct loop_state as (os & Hr & Hk).
  destruct demo_ok as [H1 H2]. exists (board p os demo_frames demo_wire), A.
  destruct (frame_sent 4 0 (board p os demo_frames demo_wire) A [] demo_frames demo_wire k_loop out_buf 0 board_net 0)
    as (s' & fs' & ws' & E & Ha & Hsent & Hi & Hd & Hc); try done; [by apply board_ok|cbn; lia|].
  exists s', fs', ws'. split_and!; try done.
Defined.

Lemma send_waits_for_chip_witness :
  ((exists d', TransmitPacket 2 [1; 2; 3; 4] 3 (chip_with [] []) = Done (DMFE_SUCCESS, d')) <-> (3 < 2)%nat) /\
  (TransmitPacket 2 [1; 2; 3; 4] 3 (chip_with [] []) = More <-> (2 <= 3)%nat).
Proof.
  destruct (send_waits_for_chip 2 [1; 2; 3; 4] 3 (chip_with [] [])) as [Ha Hb];
    [done|repeat constructor; done|vm_compute; lia|done|]. split; [exact Ha|exact Hb].
Defined.

(** ** A race of the interrupt routine *)

Section Lost.
Context {D : Type} `{Chip D}.

Lemma ready_view d : let n := nic_tick (nic_index MRCMDX (nic_view d)) in
  nic_view (snd (dm9000a_rxReady DM9000A_INST_BASE d)) = n /\
  fst (dm9000a_rxReady DM9000A_INST_BASE d) = Z.land (hd 0 (r_rx (nic_r n))) 3.
Proof using Type.
  cbn zeta. unfold dm9000a_rxReady. pose proof (ior_view MRCMDX d) as V.
  assert (Hq : forall n, t_idx (nic_t n) = MRCMDX -> nic_read n = (hd 0 (r_rx (nic_r n)), n)).
  { intros n E. unfold nic_read. rewrite E. done. }
  destruct (dm9000a_ior MRCMDX d) as [v1 d1]. cbn [snd] in V. rewrite Hq in V by done. cbn [snd] in V.
  destruct (IORD DM9000A_INST_BASE IO_data d1) as [v2 d2] eqn:E2.
  pose proof (nic_read_view d1) as V2. pose proof (nic_read_law d1) as L2. rewrite E2, V, Hq in V2, L2 by done.
  cbn [fst snd] in *. by rewrite V2, L2.
Qed.

(** The words that the wire still holds after [k] delays with nothing on it. *)
Definition still (isr : Z) (wire : list (list Z)) : NicR := mkR isr [] wire.

Lemma still_tick e isr wire : r_tick e (still isr ([] :: wire)) = still isr wire.
Proof using Type. unfold r_tick, still. cbn. by destruct e. Qed.

(** C40. A frame that arrives after the last look at the ready flag and before the write
    that clears the interrupt status stays in the chip with no interrupt pending: the
    routine ends, and nothing announces the frame until another one arrives. *)
Theorem receive_interrupt_lost fuel iface n s A U k f : drv_ok s A U [] [[]; []; []; []; [f]] k ->
  st_nets s !! iface = Some n -> n_local n = true -> (0 < fuel)%nat ->
  exists s', dm9000a_isr fuel iface s = Done (tt, s') /\ drv_ok s' A U [f] [] k /\ st_pool s' = st_pool s /\
    Z.testbit (r_isr (nic_r (nic_view (st_dev s')))) 0 = false /\ reg IMR (nic_t (nic_view (st_dev s'))) = INTR_set.
Proof using Type.
  intros HD Hn Hl Hf. pose proof HD as [Hp Hh Hb Hnet Hk].
  destruct (nic_r (nic_view (st_dev s))) as [isr rx wire] eqn:Er. pose proof (rh_rx _ _ _ _ Hh) as Hrx. pose proof (rh_wire _ _ _ _ Hh) as Hw.
  pose proof (rh_on _ _ _ _ Hh) as Hon. rewrite Er in Hrx, Hw. cbn in Hrx, Hw. rewrite app_nil_r in Hw. subst rx wire.
  set (d0 := st_dev s) in *. set (d1 := dm9000a_iow IMR PAR_set d0).
  assert (E1 : rx_enabled (nic_t (nic_view d1)) = true) by (unfold d1; rewrite iow_t, enabled_put; done).
  assert (R1 : nic_r (nic_view d1) = still isr [[]; []; []; frame_words f]).
  { unfold d1. rewrite iow_r, Er. unfold r_write. change (IMR =? ISR) with false. change (IMR =? NCR) with false. cbn [andb]. apply still_tick. }
  destruct (dm9000a_ior ISR d1) as [v2 d2] eqn:Hd2. pose proof (ior_view ISR d1) as V2. rewrite Hd2 in V2.
  assert (Hv2 : nic_view d2 = mkNic (set_idx ISR (nic_t (nic_view d1))) (still isr [[]; []; frame_words f])).
  { cbn [snd] in V2. rewrite V2. unfold nic_read, nic_tick, nic_index. cbn [nic_t nic_r set_idx t_idx].
    change (ISR =? MRCMDX) with false. change (ISR =? MRCMD) with false. change (ISR =? ISR) with true. cbn iota. cbn [snd].
    by rewrite R1, still_tick. }
  pose proof (ready_view d2) as [V3 F3]. cbn zeta in V3, F3. destruct (dm9000a_rxReady DM9000A_INST_BASE d2) as [v3 d3] eqn:Hd3.
  rewrite Hv2 in V3, F3. unfold nic_tick, nic_index in V3, F3. cbn [nic_t nic_r set_idx] in V3, F3. rewrite still_tick in V3, F3.
  cbn [fst snd] in V3, F3. cbn in F3. subst v3.
  set (d4 := usleep STD_DELAY d3).
  assert (V4 : nic_view d4 = mkNic (set_idx MRCMDX (nic_t (nic_view d1))) (still isr [frame_words f])).
  { unfold d4. rewrite nic_usleep_law, V3. unfold nic_tick. cbn [nic_t nic_r]. by rewrite still_tick. }
  set (d5 := dm9000a_iow ISR 0x3F d4).
  assert (R5 : nic_r (nic_view d5) = mkR (Z.land (Z.lor isr 1) (Z.lnot 0x3F)) (frame_words f) []).
  { unfold d5. rewrite iow_r, V4. cbn [nic_t nic_r]. change (rx_enabled (set_idx ?i ?t)) with (rx_enabled t). rewrite E1. done. }
  assert (T5 : nic_t (nic_view d5) = set_idx ISR (nic_t (nic_view d1))) by (unfold d5; rewrite iow_t, V4; done).
  set (d6 := dm9000a_iow IMR INTR_set d5).
  assert (R6 : nic_r (nic_view d6) = nic_r (nic_view d5)).
  { unfold d6. rewrite iow_r, R5. done. }
  exists (set_dev d6 s). split_and!.
  - unfold dm9000a_isr, get_local. unfold nbind at 1 2. unfold get_net. rewrite Hn. cbn [of_option]. rewrite Hl. cbn [ngets].
    rewrite Hb. unfold nbind, write_dev, nmodify, read_dev, nret. change (st_dev (set_dev (dm9000a_iow IMR PAR_set (st_dev s)) s)) with d1.
    rewrite Hd2. change (st_dev (set_dev d2 ?x)) with d2. rewrite Hd3. destruct fuel as [|fuel]; [lia|]. reflexivity.
  - split; try done. split; cbn [set_dev st_dev]; rewrite ?R6, ?R5; try done.
    + cbn. by rewrite app_nil_r.
    + unfold d6. rewrite iow_t, enabled_put by done. by rewrite T5.
    + pose proof (rh_ok' _ _ _ _ Hh) as Ho. rewrite !Forall_cons in Ho.
      destruct Ho as (_ & _ & _ & _ & [Ho _] & _). by apply Forall_cons_2.
  - done.
  - cbn [set_dev st_dev]. rewrite R6, R5. cbn [r_isr]. rewrite Z.land_spec, Z.lnot_spec by done. by rewrite andb_false_r.
  - cbn [set_dev st_dev]. unfold d6. by rewrite iow_t, reg_put.
Qed.

End Lost.

Lemma receive_interrupt_lost_witness : exists s s', dm9000a_isr 1 0 s = Done (tt, s') /\
  drv_ok s' (init_lists 60) [] [ip_frame 50] [] k_loop /\ st_pool s' = st_pool s /\
  Z.testbit (r_isr (nic_r (nic_view (st_dev s')))) 0 = false /\ reg IMR (nic_t (nic_view (st_dev s'))) = INTR_set.
Proof.
  destruct (pk_init_free (fun _ => true) 16) as (p & _ & HR & _); [done|]. destruct loop_state as (os & Hr & Hk).
  destruct demo_ok as [H1 _]. apply Forall_cons in H1 as [H1 _].
  exists (board p os [] [[]; []; []; []; [ip_frame 50]]).
  apply (receive_interrupt_lost 1 0 board_net (board p os [] [[]; []; []; []; [ip_frame 50]]) (init_lists 60) [] k_loop (ip_frame 50));
    [apply board_ok; [apply HR|done..| |]; repeat apply Forall_cons_2; try apply Forall_nil_2; apply H1|done|done|lia].
Defined.
