(* ===== verification/NetRace.v ===== *)
(** * NetRace

    The transmission when the interrupt routine may run before any of its accesses to the
    chip.  Both go through the index register, so the routine could turn the data of the
    frame into writes of another register. *)

From stdpp Require Import gmap.
From S2P Require Import Prelude HwDriver NetQueue PktPool PktFacts KernelData Kernel KernelSem KernelSpec KernelInv KernelRefine KernelSemOps KernelProps NetDev Dm9000a Dm9000aFacts DmRx NetPath NetProps.

(** ** The board with interrupts

    [irq_when] tells before which of the next accesses the chip asks for an interrupt; it
    gets one when the interrupt mask register lets it. *)

Record Irq (D : Type) := mkIrq { irq_when : list bool; irq_st : Outcome (NetSt D) }.
Arguments mkIrq {D}.
Arguments irq_when {D}.
Arguments irq_st {D}.

Section Race.
Context {D : Type} `{Chip D}.
Context (isr_fuel iface : nat).

Abbreviation vt d := (nic_t (nic_view d)).
Abbreviation holds d := (rx_holds (nic_view d)).

Definition irq_on (s : NetSt D) : bool := Z.testbit (reg IMR (vt (st_dev s))) 0.

Definition irq_run (s : NetSt D) : Outcome (NetSt D) :=
  match dm9Ka_isr_wrap isr_fuel iface s with Done (_, s') => Done s' | Undef => Undef | More => More end.

Definition irq_poll (i : Irq D) : Irq D :=
  match irq_when i, irq_st i with
  | b :: w, Done s => mkIrq w (if b && irq_on s then irq_run s else Done s)
  | _, _ => i
  end.

Definition irq_dev (f : D -> D) (i : Irq D) : Irq D :=
  let i := irq_poll i in
  mkIrq (irq_when i) (match irq_st i with Done s => Done (set_dev (f (st_dev s)) s) | o => o end).

Definition irq_read (f : D -> Z * D) (i : Irq D) : Z * Irq D :=
  let i := irq_poll i in
  match irq_st i with
  | Done s => let '(v, d) := f (st_dev s) in (v, mkIrq (irq_when i) (Done (set_dev d s)))
  | _ => (0, i)
  end.

#[local] Instance irq_bus : Bus (Irq D) := {|
  IOWR_32DIRECT base off v := irq_dev (IOWR_32DIRECT base off v);
  IORD_32DIRECT base off := irq_read (IORD_32DIRECT base off);
  HwDriver.OSTimeDlyHMSM h m s ms := irq_dev (HwDriver.OSTimeDlyHMSM h m s ms);
|}.
#[local] Instance irq_delays : Delays (Irq D) := {| usleep x := irq_dev (usleep x); msleep x := irq_dev (msleep x) |}.

(** ** While interrupts are masked nothing intervenes *)

Definition masked (d : D) : Prop := Z.testbit (reg IMR (vt d)) 0 = false.

(** The board with interrupts stands where the device alone does. *)
Definition same (s : NetSt D) (i : Irq D) (d : D) : Prop := exists w, i = mkIrq w (Done (set_dev d s)).

Lemma same_dev s f i d : masked d -> same s i d -> same s (irq_dev f i) (f d).
Proof using Type.
  intros Hm [w ->]. unfold irq_dev, irq_poll. cbn [irq_when irq_st]. destruct w as [|b w]; [by exists []|].
  exists w. unfold irq_on. cbn [set_dev st_dev]. by rewrite Hm, andb_false_r.
Qed.

Lemma same_read s f i d : masked d -> same s i d -> fst (irq_read f i) = fst (f d) /\ same s (snd (irq_read f i)) (snd (f d)).
Proof using Type.
  intros Hm [w ->]. unfold irq_read, irq_poll. cbn [irq_when irq_st]. destruct w as [|b w].
  - cbn [irq_st irq_when set_dev st_dev]. destruct (f d) as [v d']. cbn [fst snd]. split; [done|]. by exists [].
  - unfold irq_on. cbn [set_dev st_dev]. rewrite Hm, andb_false_r. cbn [irq_st irq_when st_dev]. change (st_dev (set_dev d s)) with d. destruct (f d) as [v d'].
    cbn [fst snd]. split; [done|]. by exists w.
Qed.

Lemma masked_idx j d : masked d -> masked (IOWR DM9000A_INST_BASE IO_addr j d).
Proof using Type. unfold masked. by rewrite nic_addr_law. Qed.

Lemma masked_usleep x d : masked d -> masked (usleep x d).
Proof using Type. unfold masked. by rewrite usleep_t. Qed.

(** A register write, step by step; the last step may unmask. *)
Lemma same_iow s j v i d : masked d -> same s i d -> same s (dm9000a_iow j v i) (dm9000a_iow j v d).
Proof using Type.
  intros Hm Hs. unfold dm9000a_iow. apply same_dev; [by apply masked_usleep, masked_idx|].
  apply same_dev; [by apply masked_idx|]. by apply same_dev.
Qed.

Lemma masked_iow j v d : masked d -> plain j = true \/ j = TCR -> j <> IMR -> masked (dm9000a_iow j v d).
Proof using Type.
  unfold masked. intros Hm Hj Hi. rewrite iow_t. destruct Hj as [Hj | ->].
  - rewrite reg_put by done. by rewrite (proj2 (Z.eqb_neq _ _)) by congruence.
  - unfold t_put, t_write. cbn [set_idx t_idx]. change (TCR =? MWCMD) with false. change (TCR =? TCR) with true. cbn iota.
    by destruct (Z.testbit v 0).
Qed.

Lemma same_words s n data j len i d : half_up (len - j) = n -> masked d -> t_idx (vt d) = MWCMD -> same s i d ->
  match tx_words data j len d with
  | Done d' => exists i', tx_words data j len i = Done i' /\ same s i' d' /\ masked d'
  | Undef => tx_words data j len i = Undef
  | More => False
  end.
Proof using Type.
  revert data j i d. induction n as [|n IH]; intros data j i d Hn Hm Hi Hs.
  - assert (Hle : (j <? len) = false) by (apply Z.ltb_ge; destruct (Z.lt_ge_cases 0 (len - j)); [rewrite half_up_S in Hn by lia|]; lia).
    destruct data; cbn [tx_words]; rewrite Hle; by exists i.
  - assert (Hgt : 0 < len - j) by (destruct (Z.lt_ge_cases 0 (len - j)); [done|by rewrite half_up_le in Hn by lia]).
    assert (Hlt : (j <? len) = true) by lia. destruct data as [|a [|b data]]; cbn [tx_words]; rewrite Hlt; try done.
    apply (IH data (j + 2)).
    + rewrite half_up_S in Hn by done. injection Hn as <-. f_equal. lia.
    + unfold masked. rewrite nic_data_law, nic_usleep_law. cbn [nic_write nic_tick nic_t]. unfold t_write. by rewrite Hi.
    + rewrite nic_data_law, nic_usleep_law. cbn [nic_write nic_tick nic_t]. unfold t_write. by rewrite Hi.
    + apply same_dev; [by apply masked_usleep|]. by apply same_dev.
Qed.

Lemma masked_ior j d : masked d -> masked (snd (dm9000a_ior j d)).
Proof using Type.
  unfold masked. rewrite ior_view. unfold nic_read. cbn [nic_tick nic_index nic_t nic_r set_idx t_idx].
  repeat case_match; done.
Qed.

Lemma same_wait s fuel i d : masked d -> same s i d ->
  match tx_wait fuel d with
  | Done d' => exists i', tx_wait fuel i = Done i' /\ same s i' d' /\ masked d'
  | Undef => tx_wait fuel i = Undef
  | More => tx_wait fuel i = More
  end.
Proof using Type.
  revert i d. induction fuel as [|fuel IH]; intros i d Hm Hs; [done|]. cbn [tx_wait].
  assert (Hr : fst (dm9000a_ior NSR i) = fst (dm9000a_ior NSR d) /\ same s (snd (dm9000a_ior NSR i)) (snd (dm9000a_ior NSR d))).
  { unfold dm9000a_ior. apply same_read; [by apply masked_usleep, masked_idx|]. apply same_dev; [by apply masked_idx|]. by apply same_dev. }
  pose proof (masked_ior NSR d Hm) as Hm1. destruct (dm9000a_ior NSR i) as [v i1]. destruct (dm9000a_ior NSR d) as [v' d1].
  cbn [fst snd] in Hr, Hm1. destruct Hr as [-> Hs1]. destruct (Z.land v' 0x0C =? 0); [|by exists i1].
  apply IH; [by apply masked_usleep|by apply same_dev].
Qed.

(** Once interrupts are masked, the transmission is that of the device alone. *)
Lemma transmit_masked s fuel data len i d r d' : masked d -> same s i d -> transmit fuel data len d = Done (r, d') ->
  exists i', transmit fuel data len i = Done (r, i') /\ same s i' d'.
Proof using Type.
  intros Hm Hs. unfold transmit.
  set (d4 := IOWR DM9000A_INST_BASE IO_addr MWCMD (dm9000a_iow 0xFC _ (dm9000a_iow 0xFD _ d))).
  set (i4 := IOWR DM9000A_INST_BASE IO_addr MWCMD (dm9000a_iow 0xFC _ (dm9000a_iow 0xFD _ i))).
  assert (Hm3 : masked (dm9000a_iow 0xFC (Z.land len 0xFF) (dm9000a_iow 0xFD (Z.land (Z.shiftr len 8) 0xFF) d))).
  { repeat (apply masked_iow; [|by left|done]). done. }
  assert (Hs4 : same s i4 d4).
  { apply same_dev; [done|]. apply same_iow; [by apply masked_iow; [|left|]|]. by apply same_iow. }
  assert (Hi4 : t_idx (vt d4) = MWCMD) by (unfold d4; by rewrite nic_addr_law).
  assert (Hm4 : masked d4) by (by apply masked_idx).
  pose proof (same_words s (half_up (len - 0)) data 0 len i4 d4 eq_refl Hm4 Hi4 Hs4) as Hw.
  destruct (tx_words data 0 len d4) as [d5| |]; [|done..]. destruct Hw as (i5 & -> & Hs5 & Hm5).
  set (v := Z.lor TCR_set TX_REQUEST).
  pose proof (same_wait s fuel (dm9000a_iow TCR v i5) (dm9000a_iow TCR v d5)) as Hw.
  destruct (tx_wait fuel (dm9000a_iow TCR v d5)) as [d6| |]; [|done..].
  destruct Hw as (i6 & -> & Hs6 & Hm6); [by apply masked_iow; [|right|]|by apply same_iow|].
  intros [= <- <-]. eexists. split; [done|]. apply same_iow; [by apply masked_iow; [|left|]|]. by apply same_iow.
Qed.

(** ** Before interrupts are masked *)

(** Frames in two goes. *)
Lemma rx_all_app fs gs A : rx_all (fs ++ gs) A =
  let r := rx_all fs A in let q := rx_all gs r.1.1 in (q.1.1, r.1.2 ++ q.1.2, (r.2 + q.2)%nat).
Proof using Type.
  revert A. induction fs as [|f fs IH]; intros A; cbn [rx_all app].
  - cbn. by destruct (rx_all gs A) as [[? ?] ?].
  - rewrite IH. cbn zeta. cbn [fst snd]. destruct (rx_place f A).2, (discards f A); done.
Qed.

Lemma rx_ran_app s s1 s2 fs1 fs2 A U r1 w1 r2 w2 k : rx_ran s s1 fs1 A U r1 w1 k ->
  rx_ran s1 s2 fs2 (rx_all fs1 A).1.1 U r2 w2 (Nat.iter (length (rx_all fs1 A).1.2) (posted (rcvdq_sem s)) k) ->
  rx_ran s s2 (fs1 ++ fs2) A U r2 w2 k.
Proof using Type.
  intros [Hd1 Hr1 Hk1 Hp1 Hn1] [Hd2 Hr2 Hk2 Hp2 Hn2]. pose proof Hr1 as (Eg & Ee & Ec & _). rewrite Ee, Eg, Ec in *.
  assert (Hkeep : forall y, y ∈ A Rcv \/ y ∈ (rx_all fs1 A).1.2.*1 \/ y ∈ U -> pk_bufs (st_pool s2) !! y = pk_bufs (st_pool s1) !! y).
  { intros y Hy. apply Hk2. rewrite rx_all_rcv. set_solver. }
  split; rewrite ?rx_all_app; cbn zeta; cbn [fst snd].
  - rewrite length_app, Nat.add_comm, Nat.iter_add. done.
  - by etrans.
  - intros y Hy. rewrite Hkeep by (destruct Hy; auto). by apply Hk1.
  - apply Forall_app. split; [|done]. apply Forall_forall. intros [x f] Hx. rewrite Forall_forall in Hp1.
    destruct (Hp1 (x, f) Hx) as (b & Hb & Hxb). exists b. cbn [fst snd] in *. split; [|done]. rewrite Hkeep; [done|].
    right. left. apply list_elem_of_fmap. by exists (x, f).
  - intros i Hi. rewrite (Hn2 i Hi), (Hn1 i Hi). unfold discard_many. by rewrite Nat.add_comm, Nat.iter_add.
Qed.

(** Some frames were taken so far; others are in the chip or still to come. *)
Definition so_far (s s' : NetSt D) (A : Qid -> list nat) (U : list nat) (fs : list frame) (ws : list (list frame)) (k : AK) : Prop :=
  exists fs1 fs' ws', arrived fs ws (fs1 ++ fs') ws' /\ rx_ran s s' fs1 A U fs' ws' k.

Lemma local_kept m i j l n : l !! j = Some n -> n_local n = true ->
  exists n', discard_many m i l !! j = Some n' /\ n_local n' = true.
Proof using Type.
  intros Hn Hl. unfold discard_many. induction m as [|m (n' & Hn' & Hl')]; [by exists n|]. rewrite Nat.iter_succ.
  destruct (decide (i = j)) as [->|Hne].
  - exists (set_mib add_InDiscards n'). by rewrite list_lookup_alter_eq, Hn'.
  - exists n'. by rewrite list_lookup_alter_ne.
Qed.

Lemma poll_ran s n i s1 A U fs ws k : st_nets s !! iface = Some n -> n_local n = true ->
  (length (fs ++ concat ws) < isr_fuel)%nat -> irq_st i = Done s1 -> so_far s s1 A U fs ws k ->
  exists w s2, irq_poll i = mkIrq w (Done s2) /\ so_far s s2 A U fs ws k /\
    (t_idx (vt (st_dev s2)) = t_idx (vt (st_dev s1)) \/ t_idx (vt (st_dev s2)) = IMR).
Proof using Type.
  intros Hn Hl Hf Hi Hs. unfold irq_poll. destruct i as [[|b w] o]; cbn [irq_st irq_when] in *; subst o.
  { exists [], s1. by auto. }
  exists w. destruct (b && irq_on s1); [|exists s1; by auto]. destruct Hs as (fs1 & fs' & ws' & Ha & Hr).
  pose proof Hr as [Hd (Eg & Ee & Ec & _) _ _ Hns]. pose proof (dk_net _ _ _ _ _ _ Hd) as (j & Hj & _). rewrite Eg in Hj.
  destruct (local_kept (rx_all fs1 A).2 j iface _ n Hn Hl) as (n1 & Hn1 & Hl1). rewrite <- (Hns j Hj) in Hn1.
  destruct (wrap_ok isr_fuel iface n1 s1 _ U fs' ws' _ Hd Hn1 Hl1) as (s2 & fs2 & r2 & w2 & E & Ha2 & _ & Hr2 & Hi2 & _).
  { rewrite <- (arrived_length _ _ _ _ Ha), <- (assoc_L (++)), length_app in Hf. lia. }
  exists s2. unfold irq_run. rewrite E. split; [done|]. split; [|by right].
  exists (fs1 ++ fs2), r2, w2. split; [|by eapply rx_ran_app].
  rewrite <- (assoc_L (++)). eapply arrived_trans; [exact Ha|]. by apply arrived_app.
Qed.

(** An access that does not disturb reception. *)
Lemma dev_ran_step s n f i s1 A U fs ws k : st_nets s !! iface = Some n -> n_local n = true ->
  (length (fs ++ concat ws) < isr_fuel)%nat -> irq_st i = Done s1 -> so_far s s1 A U fs ws k ->
  (forall d fs' ws', holds d [] fs' ws' -> t_idx (vt d) = t_idx (vt (st_dev s1)) \/ t_idx (vt d) = IMR -> goes d (f d) [] fs' ws') ->
  exists w d s2, irq_dev f i = mkIrq w (Done (set_dev (f d) s2)) /\ so_far s (set_dev (f d) s2) A U fs ws k /\
    (t_idx (vt d) = t_idx (vt (st_dev s1)) \/ t_idx (vt d) = IMR).
Proof using Type.
  intros Hn Hl Hf Hi Hs Hg. destruct (poll_ran s n i s1 A U fs ws k Hn Hl Hf Hi Hs) as (w & s2 & E & (fs1 & fs' & ws' & Ha & Hr) & Hidx).
  exists w, (st_dev s2), s2. unfold irq_dev. rewrite E. split; [done|]. split; [|done].
  destruct (Hg (st_dev s2) fs' ws') as (Ht & fs2 & ws2 & Hh2 & Ha2); [apply Hr|done|].
  exists fs1, fs2, ws2. split; [eapply arrived_trans; [exact Ha|by apply arrived_app]|].
  by eapply rx_ran_after.
Qed.

(** The write that masks interrupts takes effect whatever intervenes: the interrupt
    routine leaves the index where this write needs it. *)
Lemma mask_ran s n w A U fs ws k : drv_ok s A U fs ws k -> st_nets s !! iface = Some n -> n_local n = true ->
  (length (fs ++ concat ws) < isr_fuel)%nat ->
  exists w' s', dm9000a_iow IMR PAR_set (mkIrq w (Done s)) = mkIrq w' (Done s') /\ so_far s s' A U fs ws k /\
    reg IMR (vt (st_dev s')) = PAR_set.
Proof using Type.
  intros HD Hn Hl Hf. assert (H0' : so_far s s A U fs ws k).
  { exists [], fs, ws. split; [apply arrived_refl|by apply rx_ran_nil]. }
  destruct (dev_ran_step s n (IOWR DM9000A_INST_BASE IO_addr IMR) (mkIrq w (Done s)) s A U fs ws k) as (w1 & d1 & s1 & E1 & H1' & _); try done.
  { intros d fs' ws' Hh _. split; [apply addr_tx|]. exists fs', ws'. split; [by apply addr_holds|apply arrived_refl]. }
  set (s1' := set_dev _ s1) in *. assert (I1 : t_idx (vt (st_dev s1')) = IMR) by apply addr_tx.
  destruct (dev_ran_step s n (usleep STD_DELAY) (mkIrq w1 (Done s1')) s1' A U fs ws k) as (w2 & d2 & s2 & E2 & H2' & I2); try done.
  { intros d fs' ws' Hh _. by apply usleep_goes. }
  set (s2' := set_dev _ s2) in *. assert (I2' : t_idx (vt (st_dev s2')) = IMR).
  { unfold s2'. cbn [set_dev st_dev]. rewrite usleep_t. destruct I2 as [-> | ->]; done. }
  destruct (dev_ran_step s n (IOWR DM9000A_INST_BASE IO_data PAR_set) (mkIrq w2 (Done s2')) s2' A U fs ws k) as (w3 & d3 & s3 & E3 & H3' & I3); try done.
  { intros d fs' ws' Hh Hi. assert (Hi' : t_idx (vt d) = IMR) by (destruct Hi; congruence). destruct Hh as [Hrx Hw Hon Ho Ho'].
    assert (Et : vt (IOWR DM9000A_INST_BASE IO_data PAR_set d) = t_put IMR PAR_set (vt d)).
    { rewrite nic_data_law. cbn [nic_write nic_t]. unfold t_put. rewrite <- Hi'. by destruct (vt d). }
    split; [rewrite Et; apply same_tx_imr|]. exists fs', ws'. split; [|apply arrived_refl].
    assert (Er : nic_r (nic_view (IOWR DM9000A_INST_BASE IO_data PAR_set d)) = nic_r (nic_view d)).
    { rewrite nic_data_law. cbn [nic_write nic_r]. by rewrite Hi'. }
    split; try done; [by rewrite Er|by rewrite Er|]. by rewrite Et, enabled_put. }
  exists w3, (set_dev (IOWR DM9000A_INST_BASE IO_data PAR_set d3) s3). split; [|split; [done|]].
  - rewrite <- E3, <- E2, <- E1. reflexivity.
  - cbn [set_dev st_dev]. rewrite nic_data_law. cbn [nic_write nic_t].
    assert (Hi3 : t_idx (vt d3) = IMR) by (destruct I3; congruence). unfold t_write. rewrite Hi3. cbn. unfold reg. cbn. by rewrite lookup_insert_eq.
Qed.

(** C19. TransmitPacket sends the frame whatever interrupts occur: when the interrupt routine
    runs before any of the accesses, as often as the mask register lets it, the chip sends
    exactly the frame that was given, and the frames that arrived meanwhile are queued, in
    order, as they are without a transmission; packets in use keep their contents. *)
Theorem send_under_interrupts fuel data len s n w A U fs ws k : drv_ok s A U fs ws k ->
  st_nets s !! iface = Some n -> n_local n = true -> (length (fs ++ concat ws) < isr_fuel)%nat ->
  0 <= len < 2 ^ 16 -> bytes data -> (2 * half_up len <= length data)%nat ->
  t_txw (vt (st_dev s)) = [] -> (t_lat (vt (st_dev s)) < fuel)%nat ->
  exists w' s' done rest ws', TransmitPacket fuel data len (mkIrq w (Done s)) = Done (DMFE_SUCCESS, mkIrq w' (Done s')) /\
    t_sent (vt (st_dev s')) = t_sent (vt (st_dev s)) ++ [take (Z.to_nat len) data] /\
    arrived fs ws (done ++ rest) ws' /\
    let '(A', taken, lost) := rx_all done A in
    drv_ok s' A' U rest ws' (Nat.iter (length taken) (posted (rcvdq_sem s)) k) /\ A' Rcv = A Rcv ++ taken.*1 /\
    (forall y, y ∈ U -> pk_bufs (st_pool s') !! y = pk_bufs (st_pool s) !! y) /\
    reg IMR (vt (st_dev s')) = INTR_set.
Proof using Type.
  intros HD Hn Hl Hf Hlen Hby Hfit Htx Hlat. rewrite TransmitPacket_eq.
  destruct (mask_ran s n w A U fs ws k HD Hn Hl Hf) as (w1 & s1 & E1 & (done & fs1 & ws1 & Ha1 & Hr1) & Hm).
  rewrite E1. pose proof Hr1 as [Hd1 (_ & _ & _ & [Sw Ss Sb Sl _] & _) Hk1 _ _]. set (d1 := st_dev s1) in *.
  destruct (transmit_spec fuel data len d1) as (d2 & E2 & Ht2 & Hr2); [done..|congruence|by rewrite Sl|].
  destruct (transmit_masked s1 fuel data len (mkIrq w1 (Done s1)) d1 DMFE_SUCCESS d2) as (i' & E3 & (w2 & ->)); [|by exists w1; destruct s1|done|].
  { unfold masked. by rewrite Hm. }
  destruct (ticks_holds _ (nic_view d2) fs1 ws1 (dk_chip _ _ _ _ _ _ Hd1) Hr2) as (fs2 & ws2 & Hh2 & Ha2).
  { rewrite Ht2. pose proof (rh_on _ _ _ _ (dk_chip _ _ _ _ _ _ Hd1)) as Hon. fold d1 in Hon.
    unfold rx_enabled, reg, len_regs in *. cbn [t_regs]. by rewrite !lookup_insert_ne. }
  exists w2, (set_dev d2 s1), done, fs2, ws2. split; [exact E3|]. cbn [set_dev st_dev]. rewrite Ht2. cbn [t_sent].
  split; [by rewrite Ss|]. split; [eapply arrived_trans; [exact Ha1|by apply arrived_app]|].
  pose proof (rx_all_rcv done A) as Hq. destruct (rx_all done A) as [[A' taken] lost]. cbn [fst snd] in *. split_and!.
  - destruct Hd1. by split.
  - done.
  - intros y Hy. apply Hk1. by right.
  - unfold reg. cbn [t_regs]. by rewrite lookup_insert_eq.
Qed.

End Race.

Lemma send_under_interrupts_witness : exists s w' s' done rest ws',
  @TransmitPacket (Irq Nic) (irq_bus 5 0) (irq_delays 5 0) 4 [1; 2; 3; 4] 3 (mkIrq [false; true; true] (Done s)) =
    Done (DMFE_SUCCESS, mkIrq w' (Done s')) /\
  t_sent (nic_t (nic_view (st_dev s'))) = t_sent (nic_t (nic_view (st_dev s))) ++ [take (Z.to_nat 3) [1; 2; 3; 4]] /\
  arrived demo_frames demo_wire (done ++ rest) ws' /\
  let '(A', taken, lost) := rx_all done (init_lists 60) in
  drv_ok s' A' [] rest ws' (Nat.iter (length taken) (posted (rcvdq_sem s)) k_loop) /\ A' Rcv = init_lists 60 Rcv ++ taken.*1 /\
  (forall y, y ∈ [] -> pk_bufs (st_pool s') !! y = pk_bufs (st_pool s) !! y) /\
  reg IMR (nic_t (nic_view (st_dev s'))) = INTR_set.
Proof.
  destruct (pk_init_free (fun _ => true) 16) as (p & _ & HR & _); [done|]. destruct loop_state as (os & Hr & Hk).
  exists (board p os demo_frames demo_wire). destruct demo_ok as [H1 H2].
  apply (send_under_interrupts 5 0 4 [1; 2; 3; 4] 3 (board p os demo_frames demo_wire) board_net [false; true; true]
    (init_lists 60) [] demo_frames demo_wire k_loop);
    [apply board_ok; [apply HR|done..]|done|done|cbn; lia|done|repeat constructor; done|vm_compute; lia|done|cbn; lia].
Defined.
