(* ===== verification/NetDemux.v ===== *)
(** * NetDemux

    What pktdemux promises to the protocols: each received packet is handed to the right
    one, in order, with the bytes that arrived. *)

From stdpp Require Import gmap.
From S2P Require Import Prelude HwDriver NetQueue PktPool PktFacts KernelData Kernel KernelSem KernelSpec KernelInv KernelRefine KernelSemOps KernelProps NetDev Dm9000a Dm9000aFacts DmRx NetPath NetProps.

(** ** The protocols *)

Inductive Proto := IP | ARP.

(** What a protocol is given. *)
Definition contents (b : netbuf) : list Z := take (Z.to_nat (nb_plen b)) (drop (Z.to_nat (nb_prot b)) (nb_mem b)).

(** The parts of an interface that decide about a packet. *)
Record net_like (n n' : net) : Prop := {
  nl_admin : ifAdminStatus (n_mib n') = ifAdminStatus (n_mib n);
  nl_type : ifType (n_mib n') = ifType (n_mib n);
  nl_flags : n_flags n' = n_flags n;
  nl_lnh : n_lnh n' = n_lnh n;
}.

#[export] Instance net_like_preorder : PreOrder net_like.
Proof. split; [by split|]. intros n1 n2 n3 [] []. split; congruence. Qed.

(** What becomes of a packet of an interface: it goes to a protocol or is dropped. *)
Definition by_type (t : Z) (b : netbuf) : list (Proto * list Z) :=
  if t =? IPTP then [(IP, contents b)] else if t =? ARPTP then [(ARP, contents b)] else [].

Definition fate (n : net) (b : netbuf) : list (Proto * list Z) :=
  if ifAdminStatus (n_mib n) =? NI_DOWN then []
  else if negb (Z.land (n_flags n) NF_NBPROT =? 0) then by_type (nb_type b) b
  else if ifType (n_mib n) =? ETHERNET then
    match eth_type (nb_mem b) (nb_buff b + ETHHDR_BIAS) with
    | Some t => by_type t (set_type_prot t (nb_buff b + n_lnh n) b)
    | None => []
    end
  else [].

Lemma fate_like n n' b : net_like n n' -> fate n' b = fate n b.
Proof. intros [Ha Ht Hf Hl]. unfold fate. by rewrite Ha, Ht, Hf, Hl. Qed.

Section Laws.
Context {D : Type}.

Definition delivery (s : NetSt D) (x : nat) : list (Proto * list Z) :=
  match pk_bufs (st_pool s) !! x with
  | Some b => match nb_net b with
              | Some i => match st_nets s !! i with Some n => fate n b | None => [] end
              | None => []
              end
  | None => []
  end.

(** A packet that was put into the queue: one user, and an interface of the system. *)
Definition queued (s : NetSt D) (x : nat) : Prop :=
  exists b i, pk_bufs (st_pool s) !! x = Some b /\ nb_inuse b = 1 /\ nb_net b = Some i /\ is_Some (st_nets s !! i).

(** The packets that wait, and those in use. *)
Record demux_ok (s : NetSt D) (A : Qid -> list nat) (U : list nat) : Prop := {
  dx_pool : pool_ok (st_pool s) A U;
  dx_queued : Forall (queued s) (A Rcv);
}.

(** Others worked with the packets they hold: those that wait stay in the queue with their
    contents, and what was received meanwhile is behind them. *)
Record others_ran (s s' : NetSt D) (A A' : Qid -> list nat) (U' new : list nat) : Prop := {
  or_pool : pool_ok (st_pool s') A' U';
  or_rcv : A' Rcv = A Rcv ++ new;
  or_bufs : forall y, y ∈ A Rcv -> pk_bufs (st_pool s') !! y = pk_bufs (st_pool s) !! y;
  or_nets : Forall2 net_like (st_nets s) (st_nets s');
  or_new : Forall (queued s') new;
}.

(** The protocols and the task switch.  [seen] is what the protocols were given so far,
    [came] what was received while they ran, and [pending] bounds what may still come. *)
Class Protocols := {
  ip_rcv : nat -> N D Z;
  arprcv : nat -> N D Z;
  tk_yield : N D unit;
  seen : D -> list (Proto * list Z);
  came : D -> list (Proto * list Z);
  pending : D -> nat;
  proto_law : forall (pr : Proto) x s A U b, pool_ok (st_pool s) A (x :: U) -> pk_bufs (st_pool s) !! x = Some b ->
    exists r s' A' U' new, match pr with IP => ip_rcv | ARP => arprcv end x s = Done (r, s') /\
      others_ran s s' A A' U' new /\ (length new + pending (st_dev s') <= pending (st_dev s))%nat /\
      came (st_dev s') = came (st_dev s) ++ (new ≫= delivery s') /\
      seen (st_dev s') = seen (st_dev s) ++ [(pr, contents b)];
  yield_law : forall s A U, pool_ok (st_pool s) A U ->
    exists s' A' U' new, tk_yield s = Done (tt, s') /\
      others_ran s s' A A' U' new /\ (length new + pending (st_dev s') <= pending (st_dev s))%nat /\
      came (st_dev s') = came (st_dev s) ++ (new ≫= delivery s') /\ seen (st_dev s') = seen (st_dev s);
}.

(** ** Steps *)

Lemma delivery_kept s s' A A' U' new y : others_ran s s' A A' U' new -> y ∈ A Rcv -> delivery s' y = delivery s y.
Proof.
  intros [_ _ Hb Hn _] Hy. unfold delivery. rewrite (Hb y Hy). destruct (pk_bufs (st_pool s) !! y) as [b|]; [|done].
  destruct (nb_net b) as [i|]; [|done]. pose proof (Forall2_length _ _ _ Hn) as Hlen.
  destruct (st_nets s !! i) as [n|] eqn:En.
  - destruct (Forall2_lookup_l _ _ _ i n Hn En) as (n' & -> & Hnl). by apply fate_like.
  - apply lookup_ge_None in En. by rewrite (lookup_ge_None_2 (st_nets s') i) by lia.
Qed.

Lemma deliveries_kept s s' A A' U' new l : others_ran s s' A A' U' new -> (forall y, y ∈ l -> y ∈ A Rcv) ->
  l ≫= delivery s' = l ≫= delivery s.
Proof.
  intros Ho. induction l as [|y l IH]; intros Hl; [done|]. cbn.
  rewrite (delivery_kept s s' A A' U' new y Ho) by (apply Hl; by left). f_equal. apply IH. intros z Hz. apply Hl. by right.
Qed.

Lemma queued_kept s s' A A' U' new y : others_ran s s' A A' U' new -> y ∈ A Rcv -> queued s y -> queued s' y.
Proof.
  intros [_ _ Hb Hn _] Hy (b & i & Ex & Hu & Hi & n & En). destruct (Forall2_lookup_l _ _ _ i n Hn En) as (n' & En' & _).
  exists b, i. rewrite (Hb y Hy). by split_and!.
Qed.

Lemma others_demux s s' A A' U U' new : demux_ok s A U -> others_ran s s' A A' U' new -> demux_ok s' A' U'.
Proof.
  intros [_ Hq] Ho. split; [apply Ho|]. rewrite (or_rcv _ _ _ _ _ _ Ho). apply Forall_app. split; [|by destruct Ho].
  rewrite Forall_forall in Hq |- *. intros y Hy. apply (queued_kept s s' A A' U' new y Ho Hy), Hq, Hy.
Qed.

Lemma deliveries_ext (s s' : NetSt D) l : (forall y, delivery s' y = delivery s y) -> l ≫= delivery s' = l ≫= delivery s.
Proof. intros E. induction l as [|y l IH]; [done|]. cbn. by rewrite E, IH. Qed.

(** Everything that waits afterwards, in order. *)
Lemma others_deliver s s' A A' U' new : others_ran s s' A A' U' new ->
  A' Rcv ≫= delivery s' = (A Rcv ≫= delivery s) ++ (new ≫= delivery s').
Proof.
  intros Ho. rewrite (or_rcv _ _ _ _ _ _ Ho), bind_app. f_equal. by apply (deliveries_kept s s' A A' U' new).
Qed.

End Laws.
Arguments Protocols : clear implicits.

(** ** One packet *)

Section Demux.
Context {D : Type} `{Protocols D}.

(** Work on packets in use and on counters. *)
Record quiet (s s' : NetSt D) (A : Qid -> list nat) : Prop := {
  qt_dev : st_dev s' = st_dev s;
  qt_bufs : forall y, y ∈ A Rcv -> pk_bufs (st_pool s') !! y = pk_bufs (st_pool s) !! y;
  qt_nets : Forall2 net_like (st_nets s) (st_nets s');
}.

Lemma quiet_refl s A : quiet s s A.
Proof using Type. split; [done|done|reflexivity]. Qed.

Lemma quiet_trans s s1 s2 A : quiet s s1 A -> quiet s1 s2 A -> quiet s s2 A.
Proof using Type.
  intros [D1 B1 N1] [D2 B2 N2]. split; [congruence| |by etrans]. intros y Hy. by rewrite B2, B1.
Qed.

(** What a protocol, a task switch or the release of a packet does. *)
Definition handled (s s' : NetSt D) (A : Qid -> list nat) (out : list (Proto * list Z)) : Prop :=
  exists A' U' new, others_ran s s' A A' U' new /\ (length new + pending (st_dev s') <= pending (st_dev s))%nat /\
    came (st_dev s') = came (st_dev s) ++ (new ≫= delivery s') /\ seen (st_dev s') = seen (st_dev s) ++ out.

Lemma handled_quiet s s' A A' U' : quiet s s' A -> pool_ok (st_pool s') A' U' -> A' Rcv = A Rcv -> handled s s' A [].
Proof using Type.
  intros [Hd Hb Hn] Hp Hr. exists A', U', []. rewrite Hd, !app_nil_r. split_and!; try done. split; try done. by rewrite app_nil_r.
Qed.

Lemma handled_before s s1 s2 A out : quiet s s1 A -> handled s1 s2 A out -> handled s s2 A out.
Proof using Type.
  intros [Hd Hb Hn] (A' & U' & new & [] & Hl & Hc & Hs). exists A', U', new. rewrite Hd in *. split_and!; try done.
  split; try done; [|by etrans]. intros y Hy. by rewrite or_bufs0, Hb.
Qed.

Lemma proto_handled pr x s A U b : pool_ok (st_pool s) A (x :: U) -> pk_bufs (st_pool s) !! x = Some b ->
  exists r s', match pr with IP => ip_rcv | ARP => arprcv end x s = Done (r, s') /\ handled s s' A [(pr, contents b)].
Proof using Type.
  intros Hp Hb. destruct (proto_law pr x s A U b Hp Hb) as (r & s' & A' & U' & new & E & Ho & Hl & Hc & Hs).
  exists r, s'. split; [done|]. by exists A', U', new.
Qed.

Lemma free_quiet s A U x b : pool_ok (st_pool s) A (x :: U) -> pk_bufs (st_pool s) !! x = Some b -> nb_inuse b = 1 -> marked b ->
  exists s' A', pool_do (pk_free x) s = Done (tt, s') /\ quiet s s' A /\ st_nets s' = st_nets s /\
    pool_ok (st_pool s') A' U /\ A' Rcv = A Rcv.
Proof using Type.
  intros Hp Hb Hu Hm. destruct (pk_free_last _ _ _ _ _ Hp Hb Hu Hm) as (r & E & Hp'). cbn zeta in E, Hp'.
  eexists (set_pool _ s), _. unfold pool_do. rewrite E. split; [done|]. split; [|split; [done|split; [exact Hp'|]]].
  - split; [done| |reflexivity]. intros y Hy. cbn [set_pool st_pool set_bufs pk_bufs]. apply list_lookup_insert_ne.
    intros ->. apply (held_apart _ _ _ (po_queues _ _ _ Hp) Rcv y Hy). by left.
  - unfold upd_at. destruct (decide (Rcv = size_queue b)) as [E'|]; [|done]. unfold size_queue in E'. by destruct (_ =? _).
Qed.

Lemma count_quiet s A i n f : st_nets s !! i = Some n -> (forall m, ifAdminStatus (f m) = ifAdminStatus m) ->
  (forall m, ifType (f m) = ifType m) -> exists s', upd_net i (set_mib f) s = Done (tt, s') /\ quiet s s' A /\
    st_pool s' = st_pool s /\ st_nets s' = <[i := set_mib f n]> (st_nets s).
Proof using Type.
  intros Hn Ha Ht. exists (set_nets (<[i := set_mib f n]> (st_nets s)) s). unfold upd_net. rewrite Hn. split; [done|].
  split; [|done]. split; [done|done|]. cbn. rewrite <- (list_insert_id (st_nets s) i n) at 1 by done.
  apply Forall2_insert; [reflexivity|]. split; cbn; [apply Ha|apply Ht|done..].
Qed.

Lemma marks_of b : marked b -> mem_byte (nb_mem b) (nb_buff b - ALIGN_TYPE) = Some (ch "M") /\
  mem_byte (nb_mem b) (nb_buff b + nb_blen b) = Some (ch "M").
Proof using Type.
  intros [Hc He]. split; [|done]. revert Hc. change (Z.to_nat ALIGN_TYPE) with 4%nat. cbn [check_marks].
  change (Z.of_nat 4) with ALIGN_TYPE. destruct (mem_byte (nb_mem b) (nb_buff b - ALIGN_TYPE)) as [c|]; [|intros [=]].
  destruct (Z.eqb_spec c (ch "M")) as [->|]; [done|intros [=]].
Qed.

Lemma load16_in l i : 0 <= i -> i + 1 < Z.of_nat (length l) -> is_Some (load16 l i).
Proof using Type.
  intros Ha Hb. unfold load16. destruct (mem_byte_in l i) as [a ->]; [lia|]. destruct (mem_byte_in l (i + 1)) as [b ->]; [lia|].
  by eexists.
Qed.

Lemma load32_in l i : 0 <= i -> i + 3 < Z.of_nat (length l) -> is_Some (load32 l i).
Proof using Type.
  intros Ha Hb. unfold load32. destruct (load16_in l i) as [a ->]; [lia|lia|]. destruct (load16_in l (i + 2)) as [b ->]; [lia|lia|].
  by eexists.
Qed.

Lemma isbcast_in n l i : 0 <= i -> i + 5 < Z.of_nat (length l) -> is_Some (isbcast n l i).
Proof using Type.
  intros Ha Hb. unfold isbcast.
  destruct (load16_in l i) as [a ->]; [lia|lia|]. destruct (load16_in l (i + 4)) as [a' ->]; [lia|lia|].
  destruct (load32_in l i) as [b ->]; [lia|lia|]. destruct (load32_in l (i + 2)) as [b' ->]; [lia|lia|].
  destruct (negb (Z.land i _ =? 0)); [destruct (negb (a =? _))|destruct (negb (b =? _))]; cbn; repeat case_match; by eexists.
Qed.

Lemma block_room b : buf_ok b -> nb_buff b = 4 /\ 100 < Z.of_nat (length (nb_mem b)).
Proof using Type. intros [Hs Hb Hm]. unfold ALIGN_TYPE, BIGBUFSIZE, LILBUFSIZE in *. lia. Qed.

(** A packet whose type and protocol header are known. *)
Definition dispatch (pkt ifc : nat) : N D unit :=
  do! b := get_buf pkt in
  if nb_type b =? IPTP then do! _ := ip_rcv pkt in nret tt
  else if nb_type b =? ARPTP then do! _ := arprcv pkt in nret tt
  else
    do! _ := upd_net ifc (set_mib add_InUnknown) in
    pool_do (pk_free pkt).

Lemma dispatch_ok s A U x b i n : pool_ok (st_pool s) A (x :: U) -> pk_bufs (st_pool s) !! x = Some b -> marked b ->
  nb_inuse b = 1 -> st_nets s !! i = Some n ->
  exists s', dispatch x i s = Done (tt, s') /\ handled s s' A (by_type (nb_type b) b).
Proof using Type.
  intros Hp Hb Hm Hu Hn. unfold dispatch. rewrite (nbind_eq (get_buf x) _ s b s) by (unfold get_buf; by rewrite Hb).
  unfold by_type. destruct (nb_type b =? IPTP); [|destruct (nb_type b =? ARPTP)].
  - destruct (proto_handled IP x s A U b Hp Hb) as (r & s' & E & Hh). exists s'. by rewrite (nbind_eq _ _ _ _ _ E).
  - destruct (proto_handled ARP x s A U b Hp Hb) as (r & s' & E & Hh). exists s'. by rewrite (nbind_eq _ _ _ _ _ E).
  - destruct (count_quiet s A i n add_InUnknown Hn) as (s1 & E1 & Hq1 & Ep & _); [done..|]. rewrite (nbind_eq _ _ _ _ _ E1).
    destruct (free_quiet s1 A U x b) as (s2 & A' & E2 & Hq2 & _ & Hp2 & Hr2); [by rewrite Ep|by rewrite Ep|done|done|].
    exists s2. split; [exact E2|]. eapply handled_quiet; [by eapply quiet_trans|exact Hp2|done].
Qed.

Lemma known_type s A U x b n : pool_ok (st_pool s) A (x :: U) -> pk_bufs (st_pool s) !! x = Some b -> marked b ->
  nb_inuse b = 1 -> exists t s', eth_type (nb_mem b) (nb_buff b + ETHHDR_BIAS) = Some t /\
    upd_buf x (fun b => let? t := eth_type (nb_mem b) (nb_buff b + ETHHDR_BIAS) in
                        Some (set_type_prot t (nb_buff b + n_lnh n) b)) s = Done (tt, s') /\
    let b' := set_type_prot t (nb_buff b + n_lnh n) b in
    pk_bufs (st_pool s') !! x = Some b' /\ pool_ok (st_pool s') A (x :: U) /\ marked b' /\ nb_inuse b' = 1 /\
    st_nets s' = st_nets s /\ quiet s s' A.
Proof using Type.
  intros Hp Hb Hm Hu. pose proof (po_buf _ _ _ Hp x b Hb) as Hok. destruct (block_room b Hok) as [Eb Hl].
  assert (Ht : exists t, eth_type (nb_mem b) (nb_buff b + ETHHDR_BIAS) = Some t).
  { unfold eth_type. rewrite Eb. unfold ETHHDR_BIAS.
    destruct (mem_byte_in (nb_mem b) (4 + 2 + 12)) as [c ->]; [lia|]. destruct (mem_byte_in (nb_mem b) (4 + 2 + 13)) as [d ->]; [lia|]. by eexists. }
  destruct Ht as [t Ht]. set (b' := set_type_prot t (nb_buff b + n_lnh n) b).
  exists t, (set_pool (set_bufs (<[x := b']> (pk_bufs (st_pool s))) (st_pool s)) s). split; [done|]. split.
  { unfold upd_buf, pool_do. rewrite Hb, Ht. done. }
  cbn zeta. cbn [set_pool st_pool set_bufs pk_bufs st_nets]. split_and!; try done.
  - apply list_lookup_insert_eq. by eapply lookup_lt_Some.
  - apply user_writes; [done|by left| |change (nb_inuse b') with (nb_inuse b); by rewrite Hu]. by destruct Hok; split.
  - split; [done| |reflexivity]. intros y Hy. cbn. apply list_lookup_insert_ne. intros ->.
    apply (held_apart _ _ _ (po_queues _ _ _ Hp) Rcv y Hy). by left.
Qed.

Lemma demux_one s A U x b i n : pool_ok (st_pool s) A (x :: U) -> pk_bufs (st_pool s) !! x = Some b -> marked b ->
  nb_inuse b = 1 -> nb_net b = Some i -> st_nets s !! i = Some n ->
  exists s', demux_packet ip_rcv arprcv x s = Done (tt, s') /\ handled s s' A (fate n b).
Proof using Type.
  intros Hp Hb Hm Hu Hi Hn. destruct (block_room b (po_buf _ _ _ Hp x b Hb)) as [Eb Hl]. destruct (marks_of b Hm) as [Hlow Hhigh].
  unfold demux_packet. rewrite (nbind_eq (get_buf x) _ s b s) by (unfold get_buf; by rewrite Hb).
  rewrite (nbind_eq (nonnull (nb_net b)) _ s i s) by (by rewrite Hi).
  rewrite (nbind_eq (get_net i) _ s n s) by (unfold get_net; by rewrite Hn).
  destruct (isbcast_in n (nb_mem b) (nb_buff b + ETHHDR_BIAS)) as [bc Hbc]; [rewrite Eb; unfold ETHHDR_BIAS; lia..|].
  rewrite (nbind_eq _ _ s bc s) by (by rewrite Hbc).
  destruct (count_quiet s A i n (if bc then add_InNUcast else add_InUcast) Hn) as (s1 & E1 & Hq1 & Ep & En); [by destruct bc..|].
  rewrite (nbind_eq _ _ _ _ _ E1). assert (Hn1 : st_nets s1 !! i = Some (set_mib (if bc then add_InNUcast else add_InUcast) n)).
  { rewrite En. apply list_lookup_insert_eq. by eapply lookup_lt_Some. }
  unfold fate. destruct (ifAdminStatus (n_mib n) =? NI_DOWN).
  - destruct (free_quiet s1 A U x b) as (s2 & A' & E2 & Hq2 & Hn2 & Hp2 & Hr2); [by rewrite Ep|by rewrite Ep|done|done|].
    rewrite (nbind_eq _ _ _ _ _ E2).
    destruct (count_quiet s2 A i _ add_InDiscards (eq_trans (f_equal (.!! i) Hn2) Hn1)) as (s3 & E3 & Hq3 & Ep3 & _); [done..|].
    exists s3. split; [exact E3|]. eapply handled_quiet; [|by rewrite Ep3|exact Hr2].
    eapply quiet_trans; [exact Hq1|]. by eapply quiet_trans.
  - rewrite (nbind_eq _ _ s1 (ch "M") s1) by (by rewrite Hlow). rewrite (nbind_eq _ _ s1 (ch "M") s1) by (by rewrite Hhigh).
    rewrite Z.eqb_refl. cbn [negb orb]. destruct (Z.land (n_flags n) NF_NBPROT =? 0) eqn:Ef; cbn [negb].
    + destruct (ifType (n_mib n) =? ETHERNET) eqn:Et.
      * destruct (known_type s1 A U x b n) as (t & s2 & Ht & E2 & Hb2 & Hp2 & Hm2 & Hu2 & Hn2 & Hq2); [by rewrite Ep|by rewrite Ep|done|done|].
        rewrite (nbind_eq _ _ s1 true s2) by (by rewrite (nbind_eq _ _ _ _ _ E2)). cbn [negb]. rewrite Ht.
        destruct (dispatch_ok s2 A U x _ i _ Hp2 Hb2 Hm2 Hu2 (eq_trans (f_equal (.!! i) Hn2) Hn1)) as (s3 & E3 & Hh3).
        exists s3. split; [exact E3|]. eapply handled_before; [|exact Hh3]. by eapply quiet_trans.
      * rewrite (nbind_eq _ _ s1 false s1) by done. cbn [negb].
        destruct (free_quiet s1 A U x b) as (s2 & A' & E2 & Hq2 & _ & Hp2 & Hr2); [by rewrite Ep|by rewrite Ep|done|done|].
        exists s2. split; [exact E2|]. eapply handled_quiet; [by eapply quiet_trans|exact Hp2|done].
    + rewrite (nbind_eq _ _ s1 true s1) by done. cbn [negb].
      edestruct (dispatch_ok s1 A U x b i) as (s2 & E2 & Hh2); [by rewrite Ep|by rewrite Ep|done|done|exact Hn1|].
      exists s2. split; [exact E2|]. by eapply handled_before.
Qed.

(** ** The loop *)

(** A turn: perhaps a task switch, then the first packet of the queue. *)
Lemma yield_ok (c : bool) k s A U : demux_ok s A U ->
  exists v s' A' U' new, (if c then do! _ := tk_yield in nret 0 else nret k) s = Done (v, s') /\ demux_ok s' A' U' /\
    others_ran s s' A A' U' new /\ (length new + pending (st_dev s') <= pending (st_dev s))%nat /\
    came (st_dev s') = came (st_dev s) ++ (new ≫= delivery s') /\ seen (st_dev s') = seen (st_dev s).
Proof using Type.
  intros HD. destruct c.
  - destruct (yield_law s A U (dx_pool _ _ _ HD)) as (s' & A' & U' & new & E & Ho & Hl & Hc & Hs).
    exists 0, s', A', U', new. rewrite (nbind_eq _ _ _ _ _ E). split; [done|]. split; [by eapply others_demux|done].
  - exists k, s, A, U, []. split; [done|]. split; [done|]. split; [|cbn; rewrite app_nil_r; auto].
    split; try done; [apply HD|by rewrite app_nil_r].
Qed.

Lemma dequeue_ok (s : NetSt D) A U x l : demux_ok s A U -> A Rcv = x :: l ->
  exists s' A' b i n, pool_get get_rcvd s = Done (Some x, s') /\ demux_ok s' A' (x :: U) /\ A' Rcv = l /\
    st_dev s' = st_dev s /\ (forall y, delivery s' y = delivery s y) /\ st_nets s' = st_nets s /\
    pk_bufs (st_pool s') !! x = Some b /\ marked b /\ nb_inuse b = 1 /\ nb_net b = Some i /\ st_nets s' !! i = Some n.
Proof using Type.
  intros [Hp Hq] E. destruct (get_rcvd_spec _ _ _ _ _ Hp E) as (p' & Eg & Hp' & Eb & _). rewrite E in Hq.
  apply Forall_cons in Hq as [(b & i & Hb & Hu & Hi & n & Hn) Hq].
  exists (set_pool p' s), (upd_at Rcv l A), b, i, n. unfold pool_get. rewrite Eg. split; [done|].
  assert (Er : upd_at Rcv l A Rcv = l) by (unfold upd_at; by rewrite decide_True).
  split; [|split; [done|]].
  - split; [done|]. rewrite Er. eapply Forall_impl; [exact Hq|]. intros y (c & j & Hc & Hr). exists c, j. cbn [set_pool st_pool].
    by rewrite Eb.
  - split; [done|]. split; [intros y; unfold delivery; cbn [set_pool st_pool st_nets]; by rewrite Eb|].
    cbn [set_pool st_pool st_nets]. rewrite Eb. split_and!; try done.
    eapply (po_in _ _ _ Hp Rcv x b); [|done]. rewrite E. by left.
Qed.

Lemma loop_ok fuel pkts s A U : demux_ok s A U -> (length (A Rcv) + pending (st_dev s) < fuel)%nat ->
  exists s' A' U' arr, pktdemux_loop ip_rcv arprcv tk_yield fuel pkts s = Done (tt, s') /\ pool_ok (st_pool s') A' U' /\
    A' Rcv = [] /\ Forall2 net_like (st_nets s) (st_nets s') /\ came (st_dev s') = came (st_dev s) ++ arr /\
    seen (st_dev s') = seen (st_dev s) ++ (A Rcv ≫= delivery s) ++ arr.
Proof using Type.
  revert pkts s A U. induction fuel as [|fuel IH]; intros pkts s A U HD Hf; [lia|]. cbn [pktdemux_loop].
  rewrite (nbind_eq (ngets _) _ s _ s eq_refl). pose proof (po_queue _ _ _ (po_queues _ _ _ (dx_pool _ _ _ HD)) Rcv) as [_ _ El _ _].
  cbn [q_at] in El. rewrite El. destruct (A Rcv) as [|x0 l0] eqn:EA.
  { exists s, A, U, []. rewrite !app_nil_r. split_and!; try done. apply HD. }
  rewrite (proj2 (Z.eqb_neq _ _)) by (cbn; lia). rewrite (nbind_eq (ngets _) _ s _ s eq_refl).
  destruct (yield_ok (q_len (bigfreeq (st_pool s)) <? pkts) (s32 (pkts + 1)) s A U HD)
    as (v & s1 & A1 & U1 & N1 & E1 & HD1 & Ho1 & Hl1 & Hc1 & Hs1).
  rewrite (nbind_eq _ _ _ _ _ E1). pose proof (or_rcv _ _ _ _ _ _ Ho1) as Er1. rewrite EA in Er1. cbn [app] in Er1.
  destruct (dequeue_ok s1 A1 U1 x0 _ HD1 Er1) as (s2 & A2 & b & i & n & E2 & HD2 & Er2 & Ed2 & Edel & En2 & Hb & Hm & Hu & Hi & Hn).
  rewrite (nbind_eq _ _ _ _ _ E2). rewrite (nbind_eq (nonnull (Some x0)) _ s2 x0 s2 eq_refl).
  destruct (demux_one s2 A2 U1 x0 b i n (dx_pool _ _ _ HD2) Hb Hm Hu Hi Hn) as (s3 & E3 & A3 & U3 & N3 & Ho3 & Hl3 & Hc3 & Hs3).
  rewrite (nbind_eq _ _ _ _ _ E3). pose proof (others_demux _ _ _ _ _ _ _ HD2 Ho3) as HD3.
  pose proof (or_rcv _ _ _ _ _ _ Ho3) as Er3. rewrite Er2 in Er3.
  destruct (IH v s3 A3 U3 HD3) as (s' & A' & U' & arr & E & Hp & Hr & Hns & Hc & Hs).
  { rewrite Er3. rewrite !length_app. rewrite Ed2 in Hl3. cbn [length] in Hf. lia. }
  exists s', A', U', ((N1 ≫= delivery s1) ++ (N3 ≫= delivery s3) ++ arr). split_and!; try done.
  - pose proof (or_nets _ _ _ _ _ _ Ho1) as F1. pose proof (or_nets _ _ _ _ _ _ Ho3) as F3. rewrite En2 in F3. etrans; [exact F1|]. by etrans.
  - rewrite Hc, Hc3, Ed2, Hc1. by rewrite !(assoc_L (++)).
  - rewrite Hs, Hs3, Ed2, Hs1. rewrite <- !(assoc_L (++)). f_equal.
    pose proof (others_deliver _ _ _ _ _ _ Ho1) as D1. rewrite EA, Er1 in D1.
    rewrite (others_deliver _ _ _ _ _ _ Ho3), Er2.
    assert (Ex : delivery s1 x0 = fate n b) by (rewrite <- Edel; unfold delivery; by rewrite Hb, Hi, Hn).
    change ((x0 :: l0 ++ N1) ≫= delivery s1) with (delivery s1 x0 ++ ((l0 ++ N1) ≫= delivery s1)) in D1. rewrite Ex in D1. rewrite (assoc_L (++) _ (N1 ≫= delivery s1)), <- D1.
    rewrite <- !(assoc_L (++)). do 2 f_equal. by apply deliveries_ext.
Qed.

End Demux.

(** ** From the wire to the protocols *)

(** The Ethernet type and the data of a frame. *)
Definition frame_for (f : frame) : list (Proto * list Z) :=
  match fr_bytes f !! 12%nat, fr_bytes f !! 13%nat with
  | Some hi, Some lo =>
      if (hi =? 0x08) && (lo =? 0x00) then [(IP, drop 14 (fr_bytes f))]
      else if (hi =? 0x08) && (lo =? 0x06) then [(ARP, drop 14 (fr_bytes f))]
      else []
  | _, _ => []
  end.

Lemma mem_byte_take l m i k n : take n (drop m l) !! k = Some i -> mem_byte l (Z.of_nat (m + k)) = Some i.
Proof.
  intros H. apply lookup_take_Some in H as [H _]. rewrite lookup_drop in H. unfold mem_byte.
  destruct (Z.ltb_spec (Z.of_nat (m + k)) 0); [lia|]. by rewrite Nat2Z.id.
Qed.

Lemma frame_fate p i t x f b n : pkt_is p i t x f -> pk_bufs p !! x = Some b -> frame_ok f -> 14 <= fr_len f ->
  ifAdminStatus (n_mib n) <> NI_DOWN -> Z.land (n_flags n) NF_NBPROT <> 0 -> fate n b = frame_for f.
Proof.
  intros (b' & Hb' & Eb & Em & Ep & El & _ & _ & _ & Et) Hb (_ & Hby & Hmax) Hlen Hup Hnb. assert (b' = b) as -> by congruence.
  unfold fate. rewrite (proj2 (Z.eqb_neq _ _)) by done. rewrite (proj2 (Z.eqb_neq _ 0)) by done. cbn [negb].
  unfold ALIGN_TYPE, ETHHDR_BIAS, ETHHDR_SIZE in *. rewrite Eb in *. change (Z.to_nat (4 + 2)) with 6%nat in Em.
  unfold fr_len in *. set (bs := fr_bytes f) in *.
  destruct (lookup_lt_is_Some_2 bs 12) as [hi Hhi]; [lia|]. destruct (lookup_lt_is_Some_2 bs 13) as [lo Hlo]; [lia|].
  assert (Ec : contents b = drop 14 bs).
  { unfold contents. rewrite Ep, El, u32_small by word_lia. rewrite <- Em, skipn_firstn_comm, drop_drop.
    change (Z.to_nat (4 + 16)) with 20%nat. f_equal. rewrite Em. lia. }
  rewrite <- Em in Hhi, Hlo. apply mem_byte_take in Hhi as M1, Hlo as M2. rewrite Em in Hhi, Hlo.
  unfold load16 in Et. change (Z.of_nat (6 + 12)) with (4 + 2 + 12) in M1. change (Z.of_nat (6 + 13)) with (4 + 2 + 12 + 1) in M2.
  rewrite M1, M2 in Et. injection Et as Et. unfold frame_for. fold bs. rewrite Hhi, Hlo. unfold by_type. rewrite Ec, <- Et.
  assert (H1 : is_u8 hi) by (eapply Forall_lookup_1; [exact Hby|exact Hhi]).
  assert (H2 : is_u8 lo) by (eapply Forall_lookup_1; [exact Hby|exact Hlo]). unfold is_u8 in *. change (2 ^ 8) with 256 in *.
  unfold IPTP, ARPTP.
  destruct (Z.eqb_spec (hi + lo * 256) 8), (Z.eqb_spec (hi + lo * 256) 1544), (Z.eqb_spec hi 8), (Z.eqb_spec lo 0), (Z.eqb_spec lo 6); cbn; try done; lia.
Qed.

Section Wire.
Context {D : Type} `{Chip D} `{!Protocols D}.

(** pktdemux returns, leaves the queue of received packets empty, and hands each packet
    that waited, and each that was received meanwhile, to the protocol of its type, in
    order and with its data; packets of interfaces that are down and of other types are
    dropped. *)
Theorem packets_delivered fuel (s : NetSt D) A U : demux_ok s A U -> (length (A Rcv) + pending (st_dev s) < fuel)%nat ->
  exists s' A' U' arr, pktdemux ip_rcv arprcv tk_yield fuel s = Done (tt, s') /\ pool_ok (st_pool s') A' U' /\
    A' Rcv = [] /\ came (st_dev s') = came (st_dev s) ++ arr /\
    seen (st_dev s') = seen (st_dev s) ++ (A Rcv ≫= delivery s) ++ arr.
Proof using Type.
  intros HD Hf. destruct (loop_ok fuel 0 s A U HD Hf) as (s' & A' & U' & arr & E & Hp & Hr & _ & Hc & Hs).
  by exists s', A', U', arr.
Qed.

Lemma frames_deliver (s' : NetSt D) i t xs fs n : st_nets s' !! i = Some n -> ifAdminStatus (n_mib n) <> NI_DOWN ->
  Z.land (n_flags n) NF_NBPROT <> 0 -> Forall2 (pkt_is (st_pool s') (Some i) t) xs fs -> Forall frame_ok fs ->
  Forall (fun f => 14 <= fr_len f) fs -> Forall (queued s') xs /\ xs ≫= delivery s' = fs ≫= frame_for.
Proof using Type.
  intros Hn Hup Hnb Hall. induction Hall as [|x f xs fs Hx _ IH]; intros Hok Hlen; [done|].
  apply Forall_cons in Hok as [Hok1 Hok], Hlen as [Hl1 Hlen]. destruct (IH Hok Hlen) as [Hq Hd].
  pose proof Hx as (b & Hb & _ & _ & _ & _ & _ & Hi & Hu & _). split.
  - constructor; [|done]. exists b, i. by split_and!.
  - cbn. f_equal; [|exact Hd]. unfold delivery. rewrite Hb, Hi, Hn. by eapply frame_fate.
Qed.

(** C14. A frame that reaches the chip reaches its protocol: after the interrupt routine and
    pktdemux, IP and ARP were given the data of the good frames of their types, in the
    order of arrival, after the packets that were waiting already; none is lost while
    there is a large buffer for each. *)
Theorem frames_reach_protocols fuel iface n j nj s A U fs ws k : drv_ok s A U fs ws k -> demux_ok s A U ->
  st_nets s !! iface = Some n -> n_local n = true -> netp (g_dm9ka s) = Some j -> st_nets s !! j = Some nj ->
  ifAdminStatus (n_mib nj) <> NI_DOWN -> Z.land (n_flags nj) NF_NBPROT <> 0 ->
  (length (fs ++ concat ws) < fuel)%nat -> (length (fs ++ concat ws) <= length (A Big))%nat ->
  Forall (fun f => 14 <= fr_len f) (fs ++ concat ws) ->
  exists s1 done rest ws', dm9Ka_isr_wrap fuel iface s = Done (tt, s1) /\ arrived fs ws (done ++ rest) ws' /\
    fs `prefix_of` done /\
    forall fuel', (length (A Rcv) + length (fs ++ concat ws) + pending (st_dev s1) < fuel')%nat ->
    exists s2 A2 U2 arr, pktdemux ip_rcv arprcv tk_yield fuel' s1 = Done (tt, s2) /\ pool_ok (st_pool s2) A2 U2 /\
      A2 Rcv = [] /\ came (st_dev s2) = came (st_dev s1) ++ arr /\
      seen (st_dev s2) = seen (st_dev s1) ++ (A Rcv ≫= delivery s) ++
        (filter (fun f => good_frame f = true) done ≫= frame_for) ++ arr.
Proof using Type.
  intros HD HX Hn Hl Hj Hnj Hup Hnb Hf Hb Hlen.
  destruct (frames_received fuel iface n s A U fs ws k HD Hn Hl Hf Hb)
    as (s1 & done & rest & ws' & A1 & xs & E1 & Ha & Hpre & Er & Hxs & HD1 & Hns & Hkept).
  exists s1, done, rest, ws'. do 3 (split; [done|]). intros fuel' Hf'.
  assert (Hsub : forall f, f ∈ filter (fun f => good_frame f = true) done -> f ∈ fs ++ concat ws).
  { intros f [_ Hin]%list_elem_of_filter. destruct Ha as (m & E & _). rewrite <- (take_drop m ws), concat_app, (assoc_L (++)), <- E.
    set_solver. }
  destruct (frames_deliver s1 j (cticks s) xs (filter (fun f => good_frame f = true) done) nj) as [Hq Hdel]; try done.
  { by rewrite Hns. } { by rewrite <- Hj. }
  { apply Forall_forall. intros f Hin%Hsub. pose proof (rh_ok _ _ _ _ (dk_chip _ _ _ _ _ _ HD)) as Ho.
    pose proof (rh_ok' _ _ _ _ (dk_chip _ _ _ _ _ _ HD)) as Ho'.     apply elem_of_app in Hin as [Hin|Hin]; [by eapply (proj1 (Forall_forall _ _) Ho)|].
    by eapply (proj1 (Forall_forall _ _) (proj2 (Forall_concat _ _) Ho')). }
  { apply Forall_forall. intros f Hin%Hsub. rewrite Forall_forall in Hlen. by apply Hlen. }
  assert (Hold : forall y, y ∈ A Rcv -> delivery s1 y = delivery s y) by (intros y Hy; unfold delivery; by rewrite (Hkept y Hy), Hns).
  assert (HX1 : demux_ok s1 A1 U).
  { split; [apply HD1|]. rewrite Er. apply Forall_app. split; [|done]. pose proof (dx_queued _ _ _ HX) as Hq0.
    rewrite Forall_forall in Hq0 |- *. intros y Hy. destruct (Hq0 y Hy) as (b & i & Hb' & Hr'). exists b, i.
    rewrite (Hkept y Hy), Hns. by split. }
  assert (Hxl : (length xs <= length (fs ++ concat ws))%nat).
  { rewrite (Forall2_length _ _ _ Hxs). etrans; [apply length_filter|]. rewrite <- (arrived_length _ _ _ _ Ha), !length_app. lia. }
  destruct (loop_ok fuel' 0 s1 A1 U HX1) as (s2 & A2 & U2 & arr & E2 & Hp2 & Hr2 & _ & Hc2 & Hs2).
  { rewrite Er, length_app. lia. }
  exists s2, A2, U2, arr. split_and!; try done. rewrite Hs2, Er, bind_app, Hdel, <- (assoc_L (++)). do 2 f_equal.
  clear - Hold. induction (A Rcv) as [|y l IHl]; [done|]. cbn. rewrite Hold by (by left). f_equal. apply IHl.
  intros z Hz. apply Hold. by right.
Qed.

End Wire.

(** ** Protocols that release what they are given *)

Record Lab := mkLab { lab_nic : Nic; lab_seen : list (Proto * list Z) }.

#[local] Instance lab_bus : Bus Lab := {|
  IOWR_32DIRECT base off v d := mkLab (IOWR_32DIRECT base off v (lab_nic d)) (lab_seen d);
  IORD_32DIRECT base off d := let r := IORD_32DIRECT base off (lab_nic d) in (fst r, mkLab (snd r) (lab_seen d));
  HwDriver.OSTimeDlyHMSM _ _ _ _ d := d;
|}.
#[local] Instance lab_delays : Delays Lab := {|
  usleep x d := mkLab (usleep x (lab_nic d)) (lab_seen d);
  msleep x d := mkLab (msleep x (lab_nic d)) (lab_seen d);
|}.
#[local] Instance lab_chip : Chip Lab := {|
  nic_view := lab_nic;
  nic_addr_law v d := eq_refl;
  nic_data_law v d := eq_refl;
  nic_read_law d := eq_refl;
  nic_read_view d := eq_refl;
  nic_usleep_law t d := eq_refl;
  nic_msleep_law t d := eq_refl;
|}.

Definition take_packet (pr : Proto) (x : nat) : N Lab Z :=
  do! b := get_buf x in
  do! _ := write_dev (fun d => mkLab (lab_nic d) (lab_seen d ++ [(pr, contents b)])) in
  do! _ := pool_do (pk_free x) in
  nret 0.

Lemma release_any p A U x b : pool_ok p A (x :: U) -> pk_bufs p !! x = Some b ->
  exists p' A' U', pk_free x p = Some p' /\ pool_ok p' A' U' /\ A' Rcv = A Rcv /\
    forall y, y ∈ A Rcv -> pk_bufs p' !! y = pk_bufs p !! y.
Proof.
  intros Hp Hb. pose proof (po_used _ _ _ Hp x b (list_elem_of_here _ _) Hb) as Hu.
  assert (Hne : forall y, y ∈ A Rcv -> x <> y).
  { intros y Hy ->. apply (held_apart _ _ _ (po_queues _ _ _ Hp) Rcv y Hy). by left. }
  destruct (has_marks b) eqn:Em; [apply has_marks_spec in Em; destruct (decide (nb_inuse b = 1)) as [E1|E1]|].
  - destruct (pk_free_last _ _ _ _ _ Hp Hb E1 Em) as (r & E & Hp'). cbn zeta in E, Hp'. eexists _, _, U. split; [exact E|].
    split; [exact Hp'|]. split; [unfold upd_at; destruct (decide _) as [E'|]; [unfold size_queue in E'; by destruct (_ =? _)|done]|].
    intros y Hy. cbn. by apply list_lookup_insert_ne, Hne.
  - destruct (pk_free_shared p A (x :: U) x b Hp) as [E Hp']; [by left|done|lia|done|]. eexists _, A, (x :: U).
    split; [exact E|]. split; [exact Hp'|]. split; [done|]. intros y Hy. cbn. by apply list_lookup_insert_ne, Hne.
  - destruct (pk_free_spoiled p A (x :: U) x b Hp) as [E Hp']; [by left|done|intros Hm%has_marks_spec; congruence|].
    by eexists _, A, (x :: U).
Qed.

#[local] Program Instance lab_protocols : Protocols Lab := {|
  ip_rcv := take_packet IP;
  arprcv := take_packet ARP;
  tk_yield := nret tt;
  seen := lab_seen;
  came _ := [];
  pending _ := 0%nat;
|}.
Next Obligation.
  intros pr x s A U b Hp Hb. destruct (release_any _ _ _ _ _ Hp Hb) as (p' & A' & U' & E & Hp' & Hr & Hk).
  eexists 0, (set_pool p' _), A', U', []. split.
  - replace (match pr with IP => take_packet IP | ARP => take_packet ARP end x s) with (take_packet pr x s) by (by destruct pr).
    unfold take_packet. rewrite (nbind_eq (get_buf x) _ s b s) by (unfold get_buf; by rewrite Hb).
    unfold nbind, write_dev, nmodify, pool_do. cbn [set_dev st_pool]. rewrite E. reflexivity.
  - split; [|done]. split; cbn; try done; by rewrite app_nil_r.
Qed.
Next Obligation.
  intros s A U Hp. exists s, A, U, []. split; [done|]. split; [|done]. split; try done. by rewrite app_nil_r.
Qed.

Definition lab (p : Pool) (os : OS) (fs : list frame) (ws : list (list frame)) : NetSt Lab :=
  mkNetSt p (mkLab (chip_with fs ws) []) os 0%nat [board_net] board_dm 0 0 0.

Lemma lab_ok p os fs ws : pool_ok p (init_lists 60) [] -> repr os k_loop -> kinv k_loop -> Forall frame_ok fs ->
  Forall (Forall frame_ok) ws ->
  drv_ok (lab p os fs ws) (init_lists 60) [] fs ws k_loop /\ demux_ok (lab p os fs ws) (init_lists 60) [].
Proof.
  intros Hp Hr Hk Hf Hw. split; [|by split]. split; try done. exists 0%nat. split; [done|by eexists].
Qed.

Lemma packets_delivered_witness : exists s s' A' U' arr, pktdemux ip_rcv arprcv tk_yield 1 s = Done (tt, s') /\
  pool_ok (st_pool s') A' U' /\ A' Rcv = [] /\ came (st_dev s') = came (st_dev s) ++ arr /\
  seen (st_dev s') = seen (st_dev s) ++ (init_lists 60 Rcv ≫= delivery s) ++ arr.
Proof.
  destruct (pk_init_free (fun _ => true) 16) as (p & _ & HR & _); [done|]. destruct loop_state as (os & Hr & Hk).
  exists (lab p os [] []). apply (packets_delivered 1 (lab p os [] []) (init_lists 60) []); [|cbn; lia].
  by apply lab_ok; [apply HR|..].
Defined.

Lemma frames_reach_protocols_witness : exists s s1 done rest ws', dm9Ka_isr_wrap 5 0 s = Done (tt, s1) /\
  arrived demo_frames demo_wire (done ++ rest) ws' /\ demo_frames `prefix_of` done /\
  exists s2 A2 U2 arr, pktdemux ip_rcv arprcv tk_yield 9 s1 = Done (tt, s2) /\ pool_ok (st_pool s2) A2 U2 /\
    A2 Rcv = [] /\ came (st_dev s2) = came (st_dev s1) ++ arr /\
    seen (st_dev s2) = seen (st_dev s1) ++ (init_lists 60 Rcv ≫= delivery s) ++
      (filter (fun f => good_frame f = true) done ≫= frame_for) ++ arr.
Proof.
  destruct (pk_init_free (fun _ => true) 16) as (p & _ & HR & _); [done|]. destruct loop_state as (os & Hr & Hk).
  destruct demo_ok as [H1 H2]. destruct (lab_ok p os demo_frames demo_wire) as [HD HX]; [apply HR|done..|].
  exists (lab p os demo_frames demo_wire).
  destruct (frames_reach_protocols 5 0 board_net 0 board_net (lab p os demo_frames demo_wire) (init_lists 60) [] demo_frames demo_wire k_loop)
    as (s1 & taken & rest & ws' & E & Ha & Hp & Hall);
    [exact HD|exact HX|by vm_compute..|vm_compute; lia|vm_compute; lia|repeat constructor; vm_compute; congruence|].
  exists s1, taken, rest, ws'. do 3 (split; [done|]). apply Hall. cbn. lia.
Defined.
