(* ===== verification/NetStart.v ===== *)
(** * NetStart

    The start of the Ethernet driver: from any state of the chip, dm9000a_init and dm9ka_init
    lead to the state in which the interrupt routine works. *)

From stdpp Require Import gmap.
From S2P Require Import Prelude HwDriver NetQueue PktPool PktFacts KernelData Kernel KernelSem KernelSpec KernelInv KernelRefine KernelSemOps KernelProps NetDev Dm9000a Dm9000aFacts DmRx NetPath NetProps.

Section Start.
Context {D : Type} `{Chip D}.
(** What will arrive at the next delays. *)
Context (ws : list (list frame)).

Abbreviation vt d := (nic_t (nic_view d)).
Abbreviation vr d := (nic_r (nic_view d)).

(** ** The receiver, until it is enabled *)

Definition wired (d : D) : Prop := exists m, r_wire (vr d) = words_of <$> drop m ws.

(** Reception is off and the chip holds nothing. *)
Definition off (d : D) : Prop := wired d /\ rx_enabled (vt d) = false /\ r_rx (vr d) = [].

Lemma tick_wire e r m : r_wire r = words_of <$> drop m ws -> exists m', r_wire (r_tick e r) = words_of <$> drop m' ws.
Proof using Type.
  intros E. unfold r_tick. destruct (r_wire r) as [|w l] eqn:Ew; [exists m; by rewrite Ew|]. exists (m + 1)%nat.
  rewrite <- drop_drop, fmap_drop, <- E. by destruct e.
Qed.

Lemma write_rx i v r : r_rx r = [] -> r_rx (r_write i v r) = [] /\ r_wire (r_write i v r) = r_wire r.
Proof using Type. intros E. unfold r_write. by repeat case_match. Qed.

Lemma write_wire i v r : r_wire (r_write i v r) = r_wire r.
Proof using Type. unfold r_write. by repeat case_match. Qed.

Lemma off_tick r : r_rx r = [] -> r_rx (r_tick false r) = [].
Proof using Type. intros E. unfold r_tick. by destruct (r_wire r). Qed.

Lemma off_write v t : rx_enabled t = false -> t_idx t <> RCR -> rx_enabled (t_write v t) = false.
Proof using Type.
  intros E Hi. unfold t_write. repeat case_match; try done. unfold rx_enabled, reg in *. cbn [t_regs]. by rewrite lookup_insert_ne.
Qed.

Lemma write_idx v t : t_idx (t_write v t) = t_idx t.
Proof using Type. unfold t_write. by repeat case_match. Qed.

Lemma wired_iow i v d : wired d -> wired (dm9000a_iow i v d).
Proof using Type.
  intros [m E]. destruct (tick_wire (rx_enabled (vt d)) _ _ E) as [m' E']. exists m'. by rewrite iow_r, write_wire.
Qed.

Lemma wired_sleep (d d' : D) : nic_view d' = nic_tick (nic_view d) -> wired d -> wired d'.
Proof using Type. intros E [m Em]. unfold wired. rewrite E. by apply (tick_wire _ _ m). Qed.

Lemma off_iow i v d : off d -> i <> RCR -> off (dm9000a_iow i v d).
Proof using Type.
  intros (Hw & He & Hr) Hi. split; [by apply wired_iow|]. rewrite iow_t, iow_r, He. split; [by apply off_write|].
  by apply write_rx, off_tick.
Qed.

Lemma off_sleep (d d' : D) : nic_view d' = nic_tick (nic_view d) -> off d -> off d'.
Proof using Type.
  intros E (Hw & He & Hr). split; [by eapply wired_sleep|]. rewrite E. cbn [nic_tick nic_t nic_r]. rewrite He.
  split; [done|by apply off_tick].
Qed.

Lemma off_usleep x d : off d -> off (usleep x d).
Proof using Type. apply off_sleep, nic_usleep_law. Qed.
Lemma off_msleep x d : off d -> off (msleep x d).
Proof using Type. apply off_sleep, nic_msleep_law. Qed.
Lemma wired_usleep x d : wired d -> wired (usleep x d).
Proof using Type. apply wired_sleep, nic_usleep_law. Qed.
Lemma wired_msleep x d : wired d -> wired (msleep x d).
Proof using Type. apply wired_sleep, nic_msleep_law. Qed.

Lemma off_data v d : off d -> t_idx (vt d) <> RCR -> off (IOWR DM9000A_INST_BASE IO_data v d) /\
  t_idx (vt (IOWR DM9000A_INST_BASE IO_data v d)) = t_idx (vt d).
Proof using Type.
  intros ([m Em] & He & Hr) Hi. unfold off, wired. rewrite nic_data_law. cbn [nic_write nic_t nic_r].
  rewrite write_wire, write_idx. split; [|done]. split; [by exists m|]. split; [by apply off_write|by apply write_rx].
Qed.

Lemma off_phy r v d : off d -> off (phy_write r v d).
Proof using Type.
  intros Ho. unfold phy_write. set (d4 := dm9000a_iow 0x0B _ _).
  assert (Ho4 : off d4) by (repeat (apply off_iow; [|done]); done).
  assert (Hi4 : t_idx (vt d4) = 0x0B) by (unfold d4; by rewrite iow_t, t_put_plain).
  destruct (off_data 0x0A d4 Ho4) as [Ho5 Hi5]; [by rewrite Hi4|].
  apply off_usleep, off_data; [by apply off_usleep|]. by rewrite usleep_t, Hi5, Hi4.
Qed.

(** A software reset empties the chip and turns reception off. *)
Lemma reset_off d : wired d -> off (nic_reset d).
Proof using Type.
  intros Hw. unfold nic_reset. apply off_iow; [|done]. apply off_usleep. apply off_iow; [|done]. apply off_iow; [|done]. apply off_usleep.
  split; [by apply wired_iow|]. by rewrite iow_t, iow_r.
Qed.

Lemma off_mac i mac d : off d -> 0 <= i -> off (store_mac i mac d).
Proof using Type.
  revert i d. induction mac as [|b mac IH]; intros i d Ho Hi; [done|]. cbn [store_mac]. apply IH; [|lia].
  apply off_iow; [done|]. unfold RCR. lia.
Qed.

(** ** The registers *)

Definition phy_t (r v : Z) (t : NicT) : NicT :=
  t_write 0x08 (t_write 0x0A (t_put 0x0B 0x8 (t_put 0x0D (Z.land v 0xFF)
    (t_put 0x0E (Z.land (Z.shiftr v 8) 0xFF) (t_put 0x0C (Z.lor r 0x40) t))))).

Lemma phy_view r v d : vt (phy_write r v d) = phy_t r v (vt d).
Proof using Type.
  unfold phy_write. rewrite usleep_t, nic_data_law. cbn [nic_write nic_t]. rewrite usleep_t, nic_data_law. cbn [nic_write nic_t].
  by rewrite !iow_t.
Qed.

Definition reset_t (t : NicT) : NicT := t_put NCR 0 (t_put NCR 3 (t_put NCR 0 (t_put NCR 3 t))).
Definition status_t (t : NicT) : NicT := t_put NSR 0x2C (t_put ISR 0x3F t).
Definition operate_t (t : NicT) : NicT :=
  t_put 0x0F 0 (t_put 0x0A RTFCR_set (t_put 0x09 FCTR_set (t_put 0x08 BPTR_set (t_put NCR NCR_set t)))).

Fixpoint mac_t (i : Z) (mac : list Z) (t : NicT) : NicT :=
  match mac with [] => t | b :: mac => mac_t (i + 1) mac (t_put (16 + i) b t) end.

Lemma mac_view i mac d : vt (store_mac i mac d) = mac_t i mac (vt d).
Proof using Type. revert i d. induction mac as [|b mac IH]; intros i d; [done|]. cbn [store_mac mac_t]. by rewrite IH, iow_t. Qed.

(** dm9000a_reset up to the write that enables reception. *)
Definition setup (mac : list Z) (d : D) : D :=
  let d := msleep 10 (dm9000a_iow 0x1F 0x00 (dm9000a_iow 0x1E 0x01 d)) in
  let d := clear_status (nic_reset d) in
  let d := msleep 20 (dm9000a_iow 0x1F 0x00 (dm9000a_iow 0x1F 0x01 d)) in
  let d := usleep 50 (phy_write 0 PHY_reset d) in
  let d := msleep 20 (phy_write 0 0x1200 (phy_write 4 PHY_txab (phy_write 16 0x404 d))) in
  let d := nic_operate (clear_status (store_mac 0 (take 6 mac) d)) in
  dm9000a_iow IMR INTR_set (dm9000a_iow ETXCSR ETXCSR_set d).

Definition setup_t (mac : list Z) (t : NicT) : NicT :=
  let t := status_t (reset_t (t_put 0x1F 0x00 (t_put 0x1E 0x01 t))) in
  let t := phy_t 0 PHY_reset (t_put 0x1F 0x00 (t_put 0x1F 0x01 t)) in
  let t := phy_t 0 0x1200 (phy_t 4 PHY_txab (phy_t 16 0x404 t)) in
  t_put IMR INTR_set (t_put ETXCSR ETXCSR_set (operate_t (status_t (mac_t 0 (take 6 mac) t)))).

Lemma reset_eq mac d : dm9000a_reset mac d =
  let '(v, d) := dm9000a_ior 0x2D (dm9000a_iow RCR 0x39 (setup mac d)) in
  (if v =? 0x80 then DMFE_SUCCESS else DMFE_FAIL, d).
Proof using Type. reflexivity. Qed.

Lemma setup_view mac d : vt (setup mac d) = setup_t mac (vt d).
Proof using Type.
  assert (Hm : forall x d, vt (msleep x d) = vt d) by (intros x e; by rewrite nic_msleep_law).
  unfold setup, clear_status, nic_operate, nic_reset.
  repeat first [rewrite iow_t|rewrite usleep_t|rewrite Hm|rewrite phy_view|rewrite mac_view].
  cbv beta zeta delta [setup_t operate_t status_t reset_t]. reflexivity.
Qed.

Lemma setup_off mac d : wired d -> off (setup mac d).
Proof using Type.
  intros Hw. unfold setup. do 2 (apply off_iow; [|done]).
  assert (Hs : forall e, off e -> off (clear_status e)) by (intros e He; by repeat (apply off_iow; [|done])).
  assert (Ho : forall e, off e -> off (nic_operate e)) by (intros e He; by repeat (apply off_iow; [|done])).
  apply Ho, Hs, off_mac; [|done]. apply off_msleep. do 3 apply off_phy. apply off_usleep, off_phy, off_msleep.
  do 2 (apply off_iow; [|done]). apply Hs, reset_off, wired_msleep. by do 2 apply wired_iow.
Qed.

(** The chip when dm9000a_reset is over. *)
Definition started_t (mac : list Z) (t : NicT) : NicT := set_idx 0x2D (t_put RCR 0x39 (setup_t mac t)).

Lemma started_spec b0 b1 b2 b3 b4 b5 t : let t' := started_t [b0; b1; b2; b3; b4; b5] t in
  rx_enabled t' = true /\ reg IMR t' = INTR_set /\ (fun i => reg (16 + i) t') <$> [0; 1; 2; 3; 4; 5] = [b0; b1; b2; b3; b4; b5] /\
  t_txw t' = [] /\ t_sent t' = t_sent t /\ t_lat t' = t_lat t.
Proof using Type. destruct t. by vm_compute. Qed.

Lemma reset_starts b0 b1 b2 b3 b4 b5 d : Forall (Forall frame_ok) ws -> r_wire (vr d) = words_of <$> ws ->
  let mac := [b0; b1; b2; b3; b4; b5] in
  exists rv d' m fs' ws', dm9000a_reset mac d = (rv, d') /\ vt d' = started_t mac (vt d) /\
    arrived [] (drop m ws) fs' ws' /\ rx_holds (nic_view d') [] fs' ws'.
Proof using Type.
  intros Hok Hwire mac. assert (Hw : wired d) by (exists 0%nat; by rewrite drop_0).
  destruct (setup_off mac d Hw) as ([m Em] & He & Hr). set (d1 := setup mac d) in *. set (d2 := dm9000a_iow RCR 0x39 d1).
  assert (Hr2 : r_rx (vr d2) = [] /\ exists m', r_wire (vr d2) = words_of <$> drop m' ws).
  { unfold d2. rewrite iow_r, He. split; [by apply write_rx, off_tick|]. rewrite write_wire. by apply (tick_wire _ _ m). }
  destruct Hr2 as [Hr2 [m' Em']].
  assert (Ht2 : set_idx 0x2D (vt d2) = started_t mac (vt d)) by (unfold d2, d1; by rewrite iow_t, setup_view).
  destruct (started_spec b0 b1 b2 b3 b4 b5 (vt d)) as (Hon & _). fold mac in Hon. rewrite <- Ht2 in Hon.
  assert (Hh2 : rx_holds (nic_index 0x2D (nic_view d2)) [] [] (drop m' ws)).
  { split; [done|done|done|done|]. by apply Forall_drop. }
  destruct (tick_holds _ _ _ _ Hh2) as (fs' & ws' & Hh' & Ha).
  destruct (dm9000a_ior 0x2D d2) as [v d3] eqn:E3. pose proof (ior_view 0x2D d2) as V3. rewrite E3 in V3. cbn [snd] in V3.
  assert (V3' : nic_view d3 = nic_tick (nic_index 0x2D (nic_view d2))) by (rewrite V3; unfold nic_read; done).
  exists (if v =? 0x80 then DMFE_SUCCESS else DMFE_FAIL), d3, m', fs', ws'. rewrite reset_eq. fold d1 d2. rewrite E3.
  split; [done|]. rewrite V3'. by split_and!.
Qed.

(** ** The driver *)

(** [alt_irq_register] accepts the interrupt and leaves the chip alone. *)
Context (alt_irq_register : Z -> nat -> D -> Z * D).
Context (irq_law : forall irq i d, fst (alt_irq_register irq i d) = 0 /\ nic_view (snd (alt_irq_register irq i d)) = nic_view d).

Lemma starts s A U i n k : pool_ok (st_pool s) A U -> kernel_ok (rcvdq_sem s) (st_os s) k -> st_nets s !! i = Some n ->
  Forall (Forall frame_ok) ws -> r_wire (vr (st_dev s)) = words_of <$> ws ->
  exists s' n' m fs' ws', (do! _ := dm9000a_init i in dm9ka_init alt_irq_register i) s = Done (0, s') /\
    arrived [] (drop m ws) fs' ws' /\ drv_ok s' A U fs' ws' k /\ st_nets s' !! i = Some n' /\ n_local n' = true /\
    n' = set_mib (set_status 1 1) (prep_net (cticks s) n) /\ netp (g_dm9ka s') = Some i /\
    vt (st_dev s') = started_t (get_mac_addr None) (vt (st_dev s)).
Proof using Type*.
  intros Hp Hk Hn Hok Hw.   destruct (reset_starts 0x00 0x07 0xED 0xFF 0x8F 0x11 _ Hok Hw) as (rv & d' & m & fs' & ws' & E & Ht & Ha & Hh).
  destruct (irq_law DM9000A_INST_IRQ i d') as [Ei Ev]. destruct (alt_irq_register DM9000A_INST_IRQ i d') as [err d2] eqn:Er.
  cbn [fst snd] in Ei, Ev. subst err. assert (Hlt : (i < length (st_nets s))%nat) by (by eapply lookup_lt_Some).
  eexists _, (set_mib (set_status 1 1) (prep_net (cticks s) n)), m, fs', ws'. split.
  - unfold dm9000a_init, prep_dm9000a, dm9ka_init, get_local, nbind, ngets, upd_net, nmodify, nret, get_net, read_dev.
    rewrite Hn. cbn [of_option set_nets set_dm st_nets g_dm9ka cticks]. rewrite list_lookup_insert_eq by done. cbn [of_option n_local prep_net].
    cbn [set_dm st_dev g_dm9ka mac_addr set_nets st_nets intnum]. change (get_mac_addr _) with [0x00; 0x07; 0xED; 0xFF; 0x8F; 0x11].
    rewrite E. cbn [set_dev st_dev st_nets set_dm set_nets]. rewrite Er. cbn [negb Z.eqb set_dev st_nets set_dm set_nets].
    rewrite list_lookup_insert_eq by done. cbn [of_option]. reflexivity.
  - cbn [st_nets set_nets st_dev set_dev st_pool st_os rcvdq_sem g_dm9ka set_dm netp]. rewrite Ev. split_and!; try done.
    + split; cbn; try done; [by rewrite Ev|]. exists i. split; [done|]. apply lookup_lt_is_Some_2. by rewrite !length_insert.
    + apply list_lookup_insert_eq. by rewrite length_insert.
Qed.

(** C36. From any state of the chip, prep_dm9000a and dm9ka_init establish the state in which
    the interrupt routine and the sending of packets work: the interface is up and has the
    routines and the address of the driver, the chip holds its MAC address, receives and
    may interrupt, and what was in its memory before is gone. *)
Theorem driver_starts s A U i n k : pool_ok (st_pool s) A U -> kernel_ok (rcvdq_sem s) (st_os s) k -> st_nets s !! i = Some n ->
  Forall (Forall frame_ok) ws -> r_wire (vr (st_dev s)) = words_of <$> ws ->
  exists s' n' m fs' ws', (do! _ := dm9000a_init i in dm9ka_init alt_irq_register i) s = Done (0, s') /\
    arrived [] (drop m ws) fs' ws' /\ drv_ok s' A U fs' ws' k /\
    st_nets s' !! i = Some n' /\ netp (g_dm9ka s') = Some i /\ n_local n' = true /\ ifAdminStatus (n_mib n') = NI_UP /\
    ifType (n_mib n') = ETHERNET /\ Z.land (n_flags n') NF_NBPROT <> 0 /\ pkt_send n' = Some fn_pkt_send /\
    reg IMR (vt (st_dev s')) = INTR_set /\
    (fun i => reg (16 + i) (vt (st_dev s'))) <$> [0; 1; 2; 3; 4; 5] = get_mac_addr None /\
    t_txw (vt (st_dev s')) = [] /\ t_sent (vt (st_dev s')) = t_sent (vt (st_dev s)).
Proof using Type*.
  intros Hp Hk Hn Hok Hw. destruct (starts s A U i n k Hp Hk Hn Hok Hw) as (s' & n' & m & fs' & ws' & E & Ha & Hd & Hn' & Hl & En & Hj & Ht).
  exists s', n', m, fs', ws'. rewrite Ht, En. destruct (started_spec 0x00 0x07 0xED 0xFF 0x8F 0x11 (vt (st_dev s))) as (_ & H1' & H2' & H3' & H4' & _).
  split_and!; try done; [by rewrite <- En|]. cbn [n_flags set_mib prep_net]. intros E0.
  assert (Hb : Z.testbit (Z.land (Z.lor (n_flags n) NF_NBPROT) NF_NBPROT) 3 = true) by (by rewrite Z.land_spec, Z.lor_spec, orb_true_r).
  by rewrite E0 in Hb.
Qed.

End Start.

Lemma driver_starts_witness : exists s s' n' m fs' ws',
  (do! _ := dm9000a_init 0 in dm9ka_init (fun _ _ d => (0, d)) 0) s = Done (0, s') /\
  arrived [] (drop m demo_wire) fs' ws' /\ drv_ok s' (init_lists 60) [] fs' ws' k_loop /\
  st_nets s' !! 0%nat = Some n' /\ netp (g_dm9ka s') = Some 0%nat /\ n_local n' = true /\ ifAdminStatus (n_mib n') = NI_UP /\
  ifType (n_mib n') = ETHERNET /\ Z.land (n_flags n') NF_NBPROT <> 0 /\ pkt_send n' = Some fn_pkt_send /\
  reg IMR (nic_t (nic_view (st_dev s'))) = INTR_set /\
  (fun i => reg (16 + i) (nic_t (nic_view (st_dev s')))) <$> [0; 1; 2; 3; 4; 5] = get_mac_addr None /\
  t_txw (nic_t (nic_view (st_dev s'))) = [] /\ t_sent (nic_t (nic_view (st_dev s'))) = t_sent (nic_t (nic_view (st_dev s))).
Proof.
  destruct (pk_init_free (fun _ => true) 16) as (p & _ & HR & _); [done|]. destruct loop_state as (os & Hr & Hk).
  destruct demo_ok as [H1 H2]. exists (mkNetSt p (chip_with demo_frames demo_wire) os 0%nat [blank_net] board_dm 0 0 0).
  apply (driver_starts demo_wire (fun _ _ d => (0, d)) (fun _ _ _ => conj eq_refl eq_refl)
    (mkNetSt p (chip_with demo_frames demo_wire) os 0%nat [blank_net] board_dm 0 0 0) (init_lists 60) [] 0 blank_net k_loop);
    [apply HR| |done|done|done]. split; [done|done|]. by vm_compute; eexists.
Defined.
