(* ===== verification/PktChain.v ===== *)
(** * PktChain

    Packets in use that are linked to one another: what allocation and release do when
    some users keep lists of packets through the links. *)

From stdpp Require Import sets.
From S2P Require Import Prelude NetQueue PktPool PktFacts.

(** ** Links of others *)

(** The links with those of the packets in [C] cleared. *)
Definition cutl (C : list nat) (m : list (option nat)) : list (option nat) :=
  imap (fun i o => if bool_decide (i ∈ C) then None else o) m.
Definition cut (C : list nat) (p : Pool) : Pool := set_links (cutl C (pk_links p)) p.

Lemma cutl_length C m : length (cutl C m) = length m.
Proof. apply length_imap. Qed.

Lemma cutl_out C m x : x ∉ C -> cutl C m !! x = m !! x.
Proof.
  intros Hx. unfold cutl. rewrite list_lookup_imap, bool_decide_eq_false_2 by done. by destruct (m !! x).
Qed.

Lemma cutl_in C m x : x ∈ C -> (x < length m)%nat -> cutl C m !! x = Some None.
Proof.
  intros Hx Hl. unfold cutl. rewrite list_lookup_imap, bool_decide_eq_true_2 by done.
  destruct (lookup_lt_is_Some_2 m x Hl) as [v ->]. done.
Qed.

Lemma cutl_insert C m x v : x ∉ C -> cutl C (<[x := v]> m) = <[x := v]> (cutl C m).
Proof.
  intros Hx. apply list_eq. intros i. destruct (decide (i = x)) as [->|Hne].
  - rewrite cutl_out by done. destruct (decide (x < length m)%nat).
    + by rewrite !list_lookup_insert_eq by (by rewrite ?cutl_length).
    + rewrite !lookup_ge_None_2; [done|..]; rewrite length_insert, ?cutl_length; lia.
  - rewrite list_lookup_insert_ne by done. unfold cutl. rewrite !list_lookup_imap. by rewrite list_lookup_insert_ne.
Qed.

(** The links that are cut do not matter. *)
Lemma cutl_ext C C' m m' : length m' = length m -> (forall x, x ∉ C -> x ∉ C' -> m' !! x = m !! x) ->
  (forall x, x ∈ C -> x ∈ C' \/ (m' !! x = Some None)) -> (forall x, x ∈ C' -> x ∈ C \/ (m !! x = Some None)) ->
  cutl C' m' = cutl C m.
Proof.
  intros Hl Ho H1 H2. apply list_eq. intros i. destruct (decide (i < length m)%nat) as [Hi|Hi];
    [|rewrite !lookup_ge_None_2 by (rewrite cutl_length; lia); done].
  destruct (decide (i ∈ C)) as [Hc|Hc], (decide (i ∈ C')) as [Hc'|Hc'].
  - by rewrite !cutl_in by (done || lia).
  - rewrite (cutl_in C) by (done || lia). rewrite cutl_out by done. by destruct (H1 i Hc).
  - rewrite (cutl_in C') by (done || lia). rewrite cutl_out by done. by destruct (H2 i Hc').
  - rewrite !cutl_out by done. by apply Ho.
Qed.

Lemma set_next_cut C x v m : x ∉ C ->
  set_next x v (cutl C m) = let? m' := set_next x v m in Some (cutl C m').
Proof. intros Hx. unfold set_next. rewrite cutl_length. destruct (_ <? _)%nat; [by rewrite cutl_insert|done]. Qed.

(** ** Queues *)

Section Cut.
Context (C : list nat).

(** [m'] has the links of [C] that [m] has. *)
Definition same_at (m m' : list (option nat)) : Prop := forall c, c ∈ C -> m' !! c = m !! c.

Lemma same_insert m x v : x ∉ C -> same_at m (<[x := v]> m).
Proof using Type. intros Hx c Hc. apply list_lookup_insert_ne. by intros ->. Qed.

Lemma getq_cut q m l r q' m1 : queue_of q (cutl C m) l -> (forall x, x ∈ l -> x ∉ C) ->
  getq q (cutl C m) = Some (r, q', m1) ->
  exists m', getq q m = Some (r, q', m') /\ m1 = cutl C m' /\ same_at m m'.
Proof using Type.
  intros Hq Hl. unfold getq. destruct (q_head q) as [x|] eqn:Eh; [|by intros [= <- <- <-]; exists m].
  assert (Hx : x ∉ C).
  { apply Hl. rewrite (qo_head _ _ _ Hq) in Eh. destruct l; [done|]. injection Eh as ->. by left. }
  rewrite cutl_out, set_next_cut by done. destruct (m !! x) as [next|]; [|done]. unfold set_next.
  destruct (x <? length m)%nat; [|done]. intros [= <- <- <-]. eexists. split; [done|]. split; [done|]. by apply same_insert.
Qed.

Lemma putq_cut q m l x q' m1 : queue_of q (cutl C m) l -> (forall y, y ∈ l -> y ∉ C) -> x ∉ C ->
  putq q x (cutl C m) = Some (q', m1) ->
  exists m', putq q x m = Some (q', m') /\ m1 = cutl C m' /\ same_at m m'.
Proof using Type.
  intros Hq Hl Hx. unfold putq, q_addt. rewrite set_next_cut by done. unfold set_next.
  destruct (x <? length m)%nat; [|done]. destruct (q_head q) as [h|] eqn:Eh.
  - destruct (q_tail q) as [t|] eqn:Et; [|done]. assert (Ht : t ∉ C).
    { apply Hl. rewrite (qo_tail _ _ _ Hq) in Et. by apply last_Some_elem_of in Et. }
    rewrite cutl_length. destruct (t <? length (<[x:=None]> m))%nat; [|done].
    rewrite <- cutl_insert by done. cbn [fst snd]. intros [= <- <-]. eexists. split; [done|]. split; [done|].
    intros c Hc. rewrite !list_lookup_insert_ne; [done|by intros ->..].
  - cbn [fst snd]. intros [= <- <-]. eexists. split; [done|]. split; [done|]. by apply same_insert.
Qed.

End Cut.

(** ** The pool *)

(** [C] are packets linked by a user, [U] the others in use. *)
Definition chained (p : Pool) (A : Qid -> list nat) (C U : list nat) : Prop := pool_ok (cut C p) A (C ++ U).

Section Chained.
Context (p : Pool) (A : Qid -> list nat) (C U : list nat) (HP : chained p A C U).

Lemma ch_queue k : queue_of (q_at p k) (cutl C (pk_links p)) (A k).
Proof using HP. pose proof (po_queue _ _ _ (po_queues _ _ _ HP) k) as Hq. by destruct k. Qed.

Lemma ch_apart k x : x ∈ A k -> x ∉ C.
Proof using HP. intros Hx Hc. apply (held_apart _ _ _ (po_queues _ _ _ HP) k x Hx), elem_of_app. by left. Qed.

Lemma ch_nodup : NoDup (C ++ U).
Proof using HP. exact (used_nodup _ _ _ HP). Qed.

Lemma ch_other x : x ∈ U -> x ∉ C.
Proof using HP. intros Hx Hc. destruct (proj1 (NoDup_app _ _) ch_nodup) as (_ & Hd & _). by apply (Hd x). Qed.

Lemma chain_range x : x ∈ C ++ U -> (x < length (pk_links p))%nat /\ is_Some (pk_bufs p !! x).
Proof using HP.
  intros Hx. pose proof (po_queues _ _ _ HP) as HQ. pose proof (in_range _ _ _ HQ x (in_held A (C ++ U) x Hx)) as Hl.
  pose proof (po_links _ _ _ HQ) as E. cbn in Hl, E. rewrite cutl_length in E. split; [lia|]. by apply lookup_lt_is_Some_2.
Qed.

Lemma ch_free_link x : x ∈ U -> pk_links p !! x = Some None.
Proof using HP.
  intros Hx. rewrite <- (cutl_out C) by (by apply ch_other). apply (po_held _ _ _ (po_queues _ _ _ HP)), elem_of_app. by right.
Qed.

Lemma ch_queue_real k : queue_of (q_at p k) (pk_links p) (A k).
Proof using HP.
  apply (queue_of_frame _ (cutl C (pk_links p))); [|apply ch_queue]. intros y Hy. symmetry. apply cutl_out. by eapply ch_apart.
Qed.

(** *** Allocation *)

Lemma alloc_cut len r q : pk_alloc len (cut C p) = Some (r, q) ->
  exists p', pk_alloc len p = Some (r, p') /\ q = cut C p' /\ same_at C (pk_links p) (pk_links p').
Proof using HP.
  unfold pk_alloc. destruct (BIGBUFSIZE <? len); [intros [= <- <-]; by exists p|]. cbn [cut set_links lilfreeq bigfreeq pk_links].
  assert (Hgo : forall k r' q' m1, k <> Rcv -> getq (q_at p k) (cutl C (pk_links p)) = Some (r', q', m1) ->
    exists m', getq (q_at p k) (pk_links p) = Some (r', q', m') /\ m1 = cutl C m' /\ same_at C (pk_links p) m').
  { intros k r' q' m1 _. apply (getq_cut C _ _ (A k)); [apply ch_queue|]. intros x. apply ch_apart. }
  destruct (_ || _); [specialize (Hgo Big)|specialize (Hgo Lil)]; cbn [q_at] in Hgo;
    destruct (getq _ (cutl C _)) as [[[x q'] m1]|]; [|done| |done];
    (destruct (Hgo _ _ _ ltac:(done) eq_refl) as (m' & -> & -> & Hm); cbn [cut set_links set_big set_lil fst snd pk_bufs];
     destruct x as [x|]; [|intros [= <- <-]; by eexists; split_and!];
     destruct (pk_bufs p !! x); [|done]; intros [= <- <-]; eexists; by split_and!).
Qed.

(** *** Release *)

Lemma ch_validate x b : x ∈ U -> pk_bufs p !! x = Some b -> has_marks b = true -> pk_validate x p = Some (0, p).
Proof using HP.
  intros Hx Hb Hm. pose proof (po_buf _ _ _ HP x b Hb) as Hok. unfold pk_validate.
  rewrite Hb, (ch_free_link x Hx), (bool_decide_eq_false_2 (None <> None)) by (intros E; by apply E). cbn [andb].
  assert (Hscan : forall k, q_member (S (length (pk_links p))) x (q_head (q_at p k)) (pk_links p) = Some false).
  { intros k. pose proof (ch_queue_real k) as [-> _ _ Hc Hn]. rewrite q_member_spec; [f_equal|done|].
    - apply bool_decide_eq_false_2. intros Hin. apply (held_apart _ _ _ (po_queues _ _ _ HP) k x Hin), elem_of_app. by right.
    - pose proof (chain_bounded _ _ Hc Hn). lia. }
  pose proof (Hscan Big) as E1. pose proof (Hscan Lil) as E2. cbn [q_at] in E1, E2. rewrite E1, E2.
  pose proof (marks_check b p Hok) as E. rewrite Hm in E.
  destruct (bo_size b Hok) as [Es|Es];
    [replace (nb_blen b =? BIGBUFSIZE) with true by (by rewrite Es)
    |replace (nb_blen b =? BIGBUFSIZE) with false by (by rewrite Es); replace (nb_blen b =? LILBUFSIZE) with true by (by rewrite Es)];
    exact E.
Qed.

Lemma free_cut x b q : x ∈ U -> pk_bufs p !! x = Some b -> marked b -> pk_free x (cut C p) = Some q ->
  exists p', pk_free x p = Some p' /\ q = cut C p' /\ same_at C (pk_links p) (pk_links p').
Proof using HP.
  intros Hx Hb Hm%has_marks_spec. pose proof (po_buf _ _ _ HP x b Hb) as Hok.
  assert (Ev : pk_validate x (cut C p) = Some (0, cut C p)).
  { rewrite (validate_held (cut C p) A (C ++ U) x b); [by rewrite Hm|done|apply elem_of_app; by right|done]. }
  unfold pk_free. rewrite Ev, (ch_validate x b Hx Hb Hm). change (negb (0 =? 0)) with false. cbn iota.
  cbn [cut set_links pk_bufs]. rewrite Hb. destruct (1 <? nb_inuse b); [intros [= <-]; by eexists|].
  assert (Hgo : forall k q' m1, putq (q_at p k) x (cutl C (pk_links p)) = Some (q', m1) ->
    exists m', putq (q_at p k) x (pk_links p) = Some (q', m') /\ m1 = cutl C m' /\ same_at C (pk_links p) m').
  { intros k q' m1. apply (putq_cut C _ _ (A k)); [apply ch_queue| |by apply ch_other]. intros y. apply ch_apart. }
  cbn [cut set_bufs bigfreeq lilfreeq pk_links set_links].
  destruct (nb_blen b =? BIGBUFSIZE); [specialize (Hgo Big)|destruct (nb_blen b =? LILBUFSIZE); [specialize (Hgo Lil)|]];
    [| |intros [= <-]; by eexists]; cbn [q_at] in Hgo;
    (destruct (putq _ x (cutl C _)) as [[q' m1]|]; [|by intros [=]]; destruct (Hgo _ _ eq_refl) as (m' & -> & -> & Hs);
     intros [= <-]; by eexists).
Qed.

End Chained.

(** *** What users do *)

Lemma ch_alloc p A C U len : chained p A C U ->
  match alloc_from len A with
  | None => exists p', pk_alloc len p = Some (None, p') /\ chained p' A C U /\ pk_bufs p' = pk_bufs p /\
      MaxLnh p' = MaxLnh p /\ same_at C (pk_links p) (pk_links p')
  | Some k => exists x l b p', A k = x :: l /\ pk_bufs p !! x = Some b /\ len <= nb_blen b /\ q_buf k b /\ k <> Rcv /\
      pk_alloc len p = Some (Some x, p') /\ chained p' (upd_at k l A) C (x :: U) /\
      pk_bufs p' = <[x := fresh_fields (MaxLnh p) b]> (pk_bufs p) /\ MaxLnh p' = MaxLnh p /\
      same_at C (pk_links p) (pk_links p')
  end.
Proof.
  intros HP. pose proof (pk_alloc_spec _ _ _ len HP) as Hs. destruct (alloc_from len A) as [k|].
  - destruct Hs as (x & l & b & q & m & EA & Hb & Hl & Hq & Hk & Ea & Hok). cbn zeta in Ea, Hok.
    destruct (alloc_cut p A C U HP _ _ _ Ea) as (p' & E & Ep & Hm). exists x, l, b, p'.
    assert (Eb : pk_bufs p' = <[x := fresh_fields (MaxLnh p) b]> (pk_bufs p)) by (change (pk_bufs p') with (pk_bufs (cut C p')); by rewrite <- Ep).
    assert (El : MaxLnh p' = MaxLnh p).
    { change (MaxLnh p') with (MaxLnh (cut C p')). rewrite <- Ep. cbn. by destruct k. }
    split_and!; try done. unfold chained. rewrite <- Ep. eapply pool_ok_perm; [|exact Hok]. by rewrite Permutation_middle.
  - destruct (alloc_cut p A C U HP _ _ _ Hs) as (p' & E & Ep & Hm). exists p'.
    split_and!; [done| |change (pk_bufs p') with (pk_bufs (cut C p')); by rewrite <- Ep
                       |change (MaxLnh p') with (MaxLnh (cut C p')); by rewrite <- Ep|done].
    unfold chained. by rewrite <- Ep.
Qed.

Lemma ch_free p A C U x b : chained p A C (x :: U) -> pk_bufs p !! x = Some b -> nb_inuse b = 1 -> marked b ->
  exists p', pk_free x p = Some p' /\ chained p' (upd_at (size_queue b) (A (size_queue b) ++ [x]) A) C U /\
    pk_bufs p' = <[x := set_inuse 0 b]> (pk_bufs p) /\ MaxLnh p' = MaxLnh p /\ same_at C (pk_links p) (pk_links p').
Proof.
  intros HP Hb Hu Hm. assert (HP' : pool_ok (cut C p) A (x :: C ++ U)).
  { eapply pool_ok_perm; [|exact HP]. by rewrite Permutation_middle. }
  destruct (pk_free_last _ _ _ _ b HP' Hb Hu Hm) as (r & E & Hok). cbn zeta in E, Hok.
  destruct (free_cut p A C (x :: U) HP x b _ (list_elem_of_here _ _) Hb Hm E) as (p' & E' & Ep & Hs).
  exists p'. split; [done|]. split; [unfold chained; by rewrite <- Ep|].
  split; [change (pk_bufs p') with (pk_bufs (cut C p')); by rewrite <- Ep|].
  split; [change (MaxLnh p') with (MaxLnh (cut C p')); rewrite <- Ep; cbn; by destruct (size_queue b)|done].
Qed.

Lemma ch_rcvd p A C U x l : chained p A C U -> A Rcv = x :: l ->
  exists p', get_rcvd p = Some (Some x, p') /\ chained p' (upd_at Rcv l A) C (x :: U) /\ pk_bufs p' = pk_bufs p /\
    MaxLnh p' = MaxLnh p /\ same_at C (pk_links p) (pk_links p').
Proof.
  intros HP E. destruct (get_rcvd_spec _ _ _ _ _ HP E) as (p1 & Eg & Hok & Eb & El).
  assert (Hg : exists p', get_rcvd p = Some (Some x, p') /\ p1 = cut C p' /\ same_at C (pk_links p) (pk_links p')).
  { revert Eg. unfold get_rcvd. cbn [cut set_links rcvdq pk_links].
    pose proof (getq_cut C (rcvdq p) (pk_links p) (A Rcv)) as Hgo.
    destruct (getq (rcvdq p) (cutl C (pk_links p))) as [[[y q'] m1]|]; [|done].
    destruct (Hgo y q' m1) as (m' & -> & -> & Hm); [exact (ch_queue p A C U HP Rcv)|by apply (ch_apart p A C U HP)|done|].
    intros [= -> <-]. by eexists. }
  destruct Hg as (p' & Eg' & -> & Hs). exists p'. split_and!; [done| |exact Eb|exact El|done].
  unfold chained. eapply pool_ok_perm; [|exact Hok]. by rewrite Permutation_middle.
Qed.

Lemma ch_write p A C U x b : chained p A C U -> x ∈ C ++ U -> buf_ok b -> 1 <= nb_inuse b < 2 ^ 32 ->
  chained (set_bufs (<[x := b]> (pk_bufs p)) p) A C U.
Proof. intros HP Hx Hok Hu. exact (user_writes (cut C p) A (C ++ U) x b HP Hx Hok Hu). Qed.

(** Packets change between linked and not linked. *)
Lemma ch_move p A C U C' U' m : chained p A C U -> C' ++ U' ≡ₚ C ++ U -> length m = length (pk_links p) ->
  (forall x, x ∉ C -> x ∉ C' -> m !! x = pk_links p !! x) -> (forall x, x ∈ C -> x ∈ C' \/ m !! x = Some None) ->
  (forall x, x ∈ C' -> x ∈ C \/ pk_links p !! x = Some None) -> chained (set_links m p) A C' U'.
Proof.
  intros HP HU Hl Ho H1 H2. unfold chained. unfold cut at 1. cbn [set_links pk_links].
  rewrite (cutl_ext C C' (pk_links p) m) by done. eapply pool_ok_perm; [symmetry; exact HU|exact HP].
Qed.

Lemma ch_perm p A C U U' : U ≡ₚ U' -> chained p A C U -> chained p A C U'.
Proof. intros E. apply pool_ok_perm. by rewrite E. Qed.

(** Without linked packets this is the invariant of the pool. *)
Lemma cut_nil p : cut [] p = p.
Proof.
  destruct p as [m b q1 q2 q3 e n]. unfold cut, set_links. cbn. f_equal.
  apply list_eq. intros i. apply cutl_out, not_elem_of_nil.
Qed.
