(* ===== verification/Arp.v ===== *)
(** * Arp

    Address resolution (et_arp.c, arp.h) and the interval timers it uses (timeouts.c), in
    the configuration of the board: NO_CC_PACKING, IP_MULTICAST, ETHMCAST and
    INICHE_TIMERS, without IEEE_802_3, DYNAMIC_IFACES and USE_AUTOIP. *)

From S2P Require Import Prelude NetQueue PktPool KernelData Kernel KernelSem NetDev Dm9000a.

(** ** Constants *)

Definition MAXARPS : nat := 8.
Definition TPS : Z := 1000.
Definition ARPENT_TMO : Z := 10.
Definition arp_ageout : Z := 600 * TPS.
Definition NUM_INTIMERS : nat := 5.

Definition ENP_PARAM : Z := -10.
Definition ENP_RESOURCE : Z := -22.
Definition SEND_DROPPED : Z := ENP_RESOURCE.
Definition ENP_NO_ROUTE : Z := -33.
Definition ENP_SEND_PENDING : Z := 1.
Definition ENP_NOT_MINE : Z := 2.

(** Byte order of a little-endian processor. *)
Definition htons (v : Z) : Z := (v mod 2 ^ 8) * 2 ^ 8 + v / 2 ^ 8 mod 2 ^ 8.
Definition htonl (v : Z) : Z := htons (v mod 2 ^ 16) * 2 ^ 16 + htons (v / 2 ^ 16 mod 2 ^ 16).

Definition ET_ARP : Z := htons 0x0806.
Definition ARREQ : Z := htons 1.
Definition ARREP : Z := htons 2.
Definition ARPIP : Z := htons 0x0800.
Definition ARPHW : Z := htons 1.
Definition ET_ETH2 : Z := 1.
Definition ET_SNAP : Z := 2.
Definition ET_DSTOFF : Z := 0.
Definition ET_SRCOFF : Z := 6.
Definition ET_TYPEOFF : Z := 12.

(** The fields of [struct arp_hdr], whose addresses are aligned, and of [struct arp_wire],
    as the header stands on the wire. *)
Definition ar_hd : Z := 0.
Definition ar_pro : Z := 2.
Definition ar_hln : Z := 4.
Definition ar_pln : Z := 5.
Definition ar_op : Z := 6.
Definition ar_sha : Z := 8.
Definition ar_spa : Z := 16.
Definition ar_tha : Z := 20.
Definition ar_tpa : Z := 28.
Definition wire_data : Z := 8.
Definition AR_SHA : Z := 0.
Definition AR_SPA : Z := 6.
Definition AR_THA : Z := 10.
Definition AR_TPA : Z := 16.
Definition arpsize : Z := ETHHDR_SIZE + 32.

Definition IN_MULTICAST (i : Z) : bool := Z.land i 0xF0000000 =? 0xE0000000.

(** ** Bytes of a block *)

Fixpoint get_bytes (n : nat) (i : Z) (l : list Z) : option (list Z) :=
  match n with
  | O => Some []
  | S n => let? c := mem_byte l i in let? r := get_bytes n (i + 1) l in Some (c :: r)
  end.

Fixpoint put_bytes (vs : list Z) (i : Z) (l : list Z) : option (list Z) :=
  match vs with
  | [] => Some l
  | v :: vs => let? l := mem_put i v l in put_bytes vs (i + 1) l
  end.

Definition MEMMOVE (dst src : Z) (n : nat) (l : list Z) : option (list Z) :=
  let? v := get_bytes n src l in put_bytes v dst l.
Definition bytes16 (v : Z) : list Z := [v mod 2 ^ 8; v / 2 ^ 8 mod 2 ^ 8].
Definition bytes32 (v : Z) : list Z := bytes16 (v mod 2 ^ 16) ++ bytes16 (v / 2 ^ 16).
Definition store16 (i v : Z) (l : list Z) : option (list Z) := put_bytes (bytes16 v) i l.
Definition store32 (i v : Z) (l : list Z) : option (list Z) := put_bytes (bytes32 v) i l.

Definition ET_TYPE_SET (e type : Z) (l : list Z) : option (list Z) :=
  let? l := mem_put (e + ET_TYPEOFF) (Z.land (Z.shiftr type 8) 0xFF) l in
  mem_put (e + ET_TYPEOFF + 1) (Z.land type 0xFF) l.

(** The fields of the header at [h] move to their places on the wire, and back. *)
Definition to_wire (h : Z) (l : list Z) : option (list Z) :=
  let? l := MEMMOVE (h + wire_data + AR_SHA) (h + ar_sha) 6 l in
  let? l := MEMMOVE (h + wire_data + AR_SPA) (h + ar_spa) 4 l in
  let? l := MEMMOVE (h + wire_data + AR_THA) (h + ar_tha) 6 l in
  MEMMOVE (h + wire_data + AR_TPA) (h + ar_tpa) 4 l.

Definition from_wire (h : Z) (l : list Z) : option (list Z) :=
  let? l := MEMMOVE (h + ar_tpa) (h + wire_data + AR_TPA) 4 l in
  let? l := MEMMOVE (h + ar_tha) (h + wire_data + AR_THA) 6 l in
  let? l := MEMMOVE (h + ar_spa) (h + wire_data + AR_SPA) 4 l in
  MEMMOVE (h + ar_sha) (h + wire_data + AR_SHA) 6 l.

(** ** Data *)

(** [net] is the number of the interface, [pending] the first packet that waits; the
    others follow through their links. *)
Record arptabent := mkEnt {
  t_pro_addr : Z;
  t_phy_addr : list Z;
  at_net : option nat;
  at_pending : option nat;
  createtime : Z;
  lasttime : Z;
  at_flags : Z;
}.

(** The routines the program passes to in_timerset. *)
Inductive TimerFn := fn_cb_arpent_tmo.

Record intimer := mkTimer {
  it_callback : option TimerFn;
  it_parm : Z;
  it_interval : Z;
  it_tmo : Z;
  it_inuse : bool;
}.

(** The variables of et_arp.c and timeouts.c; pointers into the tables are indices.
    [fhost] and [n_mcastlist] are the fields of the packets and of the interfaces that the
    other components do not use: the host address, and whether there is a routine for
    multicast addresses. *)
Record ArpSt := mkArp {
  arp_table : list arptabent;
  arpcache : option nat;
  cachetime : Z;
  arp_timer : option nat;
  arpReqsIn : Z;
  arpReqsOut : Z;
  arpRepsIn : Z;
  arpRepsOut : Z;
  intimers : list intimer;
  numtimers : Z;
  fhost : nat -> Z;
  n_mcastlist : nat -> bool;
}.

(** A device together with these variables. *)
Record Inet (D : Type) := mkInet { inet_arp : ArpSt; inet_hw : D }.
Arguments mkInet {D}.
Arguments inet_arp {D}.
Arguments inet_hw {D}.

Definition set_table (x : list arptabent) (a : ArpSt) : ArpSt :=
  mkArp x (arpcache a) (cachetime a) (arp_timer a) (arpReqsIn a) (arpReqsOut a) (arpRepsIn a) (arpRepsOut a)
    (intimers a) (numtimers a) (fhost a) (n_mcastlist a).
Definition set_cache (x : option nat) (t : Z) (a : ArpSt) : ArpSt :=
  mkArp (arp_table a) x t (arp_timer a) (arpReqsIn a) (arpReqsOut a) (arpRepsIn a) (arpRepsOut a)
    (intimers a) (numtimers a) (fhost a) (n_mcastlist a).
Definition set_timer (x : option nat) (a : ArpSt) : ArpSt :=
  mkArp (arp_table a) (arpcache a) (cachetime a) x (arpReqsIn a) (arpReqsOut a) (arpRepsIn a) (arpRepsOut a)
    (intimers a) (numtimers a) (fhost a) (n_mcastlist a).
Definition set_intimers (x : list intimer) (n : Z) (a : ArpSt) : ArpSt :=
  mkArp (arp_table a) (arpcache a) (cachetime a) (arp_timer a) (arpReqsIn a) (arpReqsOut a) (arpRepsIn a) (arpRepsOut a)
    x n (fhost a) (n_mcastlist a).
(** What is added to the four counters. *)
Definition count_arp (reqs_in reqs_out reps_in reps_out : Z) (a : ArpSt) : ArpSt :=
  mkArp (arp_table a) (arpcache a) (cachetime a) (arp_timer a) (u32 (arpReqsIn a + reqs_in)) (u32 (arpReqsOut a + reqs_out))
    (u32 (arpRepsIn a + reps_in)) (u32 (arpRepsOut a + reps_out)) (intimers a) (numtimers a) (fhost a) (n_mcastlist a).

Definition set_addr (x : Z) (e : arptabent) : arptabent :=
  mkEnt x (t_phy_addr e) (at_net e) (at_pending e) (createtime e) (lasttime e) (at_flags e).
Definition set_phy (x : list Z) (e : arptabent) : arptabent :=
  mkEnt (t_pro_addr e) x (at_net e) (at_pending e) (createtime e) (lasttime e) (at_flags e).
Definition set_pending (x : option nat) (e : arptabent) : arptabent :=
  mkEnt (t_pro_addr e) (t_phy_addr e) (at_net e) x (createtime e) (lasttime e) (at_flags e).
Definition set_last (x : Z) (e : arptabent) : arptabent :=
  mkEnt (t_pro_addr e) (t_phy_addr e) (at_net e) (at_pending e) (createtime e) x (at_flags e).

Definition set_prot (prot plen : Z) (b : netbuf) : netbuf :=
  mkNetbuf (nb_mem b) (nb_buff b) (nb_blen b) prot plen (nb_tstamp b) (nb_net b) (nb_type b) (nb_inuse b) (nb_flags b).
Definition set_nbnet (i : option nat) (b : netbuf) : netbuf :=
  mkNetbuf (nb_mem b) (nb_buff b) (nb_blen b) (nb_prot b) (nb_plen b) (nb_tstamp b) i (nb_type b) (nb_inuse b) (nb_flags b).

(** Another device in the same state. *)
Definition with_dev {D E} (d : E) (s : NetSt D) : NetSt E :=
  mkNetSt (st_pool s) d (st_os s) (rcvdq_sem s) (st_nets s) (g_dm9ka s) (autoReset s) (netisrs s) (cticks s).

(** A routine of the driver, which does not use the variables above. *)
Definition lift_hw {D A} (m : N D A) : N (Inet D) A := fun s =>
  match m (with_dev (inet_hw (st_dev s)) s) with
  | Done (a, s') => Done (a, with_dev (mkInet (inet_arp (st_dev s)) (st_dev s')) s')
  | Undef => Undef
  | More => More
  end.

Section Arp.
Context {D : Type}.
(** The routine that the interfaces have as [pkt_send]. *)
Context (mac_send : nat -> N D Z).

(** ** Access to the state *)

Definition arp_gets {A} (f : ArpSt -> A) : N (Inet D) A := ngets (fun s => f (inet_arp (st_dev s))).
Definition arp_do (f : ArpSt -> ArpSt) : N (Inet D) unit :=
  write_dev (fun d => mkInet (f (inet_arp d)) (inet_hw d)).
Definition get_ent (tp : nat) : N (Inet D) arptabent := fun s =>
  of_option (let? e := arp_table (inet_arp (st_dev s)) !! tp in Some (e, s)).
(** An assignment to a field of [arp_table[tp]]. *)
Definition upd_ent (tp : nat) (f : arptabent -> arptabent) : N (Inet D) unit :=
  arp_do (fun a => set_table (alter f tp (arp_table a)) a).

(** [pkt->next], read and written. *)
Definition get_next (x : nat) : N (Inet D) (option nat) := fun s =>
  of_option (let? v := pk_links (st_pool s) !! x in Some (v, s)).
Definition put_next (x : nat) (v : option nat) : N (Inet D) unit :=
  pool_do (fun p => let? m := set_next x v (pk_links p) in Some (set_links m p)).

(** Writes into the block of a packet. *)
Definition write_block (x : nat) (f : list Z -> option (list Z)) : N (Inet D) unit :=
  upd_buf x (fun b => let? m := f (nb_mem b) in Some (set_mem m b)).
Definition read_block {A} (b : netbuf) (f : list Z -> option A) : N (Inet D) A := fun s =>
  of_option (let? v := f (nb_mem b) in Some (v, s)).

(** [net->n_mib->ifPhysAddress], which prep_dm9000a sets to the address in g_dm9ka. *)
Definition ifPhysAddress (i : nat) : N (Inet D) (list Z) := do! dm := get_local i in nret (mac_addr dm).

(** The packet-oriented send of an interface; no driver of the program has the other. *)
Definition net_send (i pkt : nat) : N (Inet D) Z :=
  do! n := get_net i in
  match pkt_send n with Some _ => lift_hw (mac_send pkt) | None => nfail end.

(** A bound for the walks along the packets of an entry. *)
Definition links_bound : N (Inet D) nat := ngets (fun s => S (length (pk_links (st_pool s)))).

(** ** Sending with a known address *)

Definition et_send (pkt tp : nat) : N (Inet D) Z :=
  do! b := get_buf pkt in
  do! i := nonnull (nb_net b) in
  do! now := ngets cticks in
  do! _ := upd_ent tp (set_last now) in
  do! _ := upd_buf pkt (fun b => Some (set_prot (nb_prot b - ETHHDR_SIZE) (u32 (nb_plen b + ETHHDR_SIZE)) b)) in
  let ethhdr := nb_prot b - ETHHDR_SIZE + ETHHDR_BIAS in
  if ethhdr <? nb_buff b then nfail (* panic *) else
  do! e := get_ent tp in
  do! phys := ifPhysAddress i in
  do! _ := write_block pkt (put_bytes (t_phy_addr e) (ethhdr + ET_DSTOFF)) in
  do! _ := write_block pkt (put_bytes phys (ethhdr + ET_SRCOFF)) in
  do! _ := (if negb (Z.land (at_flags e) (Z.lor ET_ETH2 ET_SNAP) =? ET_SNAP)
            then write_block pkt (ET_TYPE_SET ethhdr (htons ARPIP)) else nret tt) in
  net_send i pkt.

(** ** Packets that wait *)

Fixpoint free_chain (fuel : nat) (tmppkt : option nat) : N (Inet D) unit :=
  match fuel, tmppkt with
  | _, None => nret tt
  | O, Some _ => nmore
  | S fuel, Some x =>
      do! nextpkt := get_next x in
      do! _ := put_next x None in
      do! _ := pool_do (pk_free x) in
      free_chain fuel nextpkt
  end.

Definition arp_free_pending (entry : nat) : N (Inet D) unit :=
  do! e := get_ent entry in
  do! _ := upd_ent entry (set_pending None) in
  do! fuel := links_bound in
  do! _ := free_chain fuel (at_pending e) in
  upd_ent entry (set_addr 0).

Fixpoint send_chain (fuel : nat) (entry : nat) : N (Inet D) unit :=
  do! e := get_ent entry in
  match fuel, at_pending e with
  | _, None => nret tt
  | O, Some _ => nmore
  | S fuel, Some x =>
      do! next := get_next x in
      do! _ := upd_ent entry (set_pending next) in
      do! _ := put_next x None in
      do! _ := et_send x entry in
      send_chain fuel entry
  end.

Definition arp_send_pending (entry : nat) : N (Inet D) unit :=
  do! fuel := links_bound in send_chain fuel entry.

(** ** Interval timers *)

(** The search of in_timerset for a free entry, from number [i] on. *)
Fixpoint free_timer (l : list intimer) (i : nat) : option nat :=
  match l with
  | [] => None
  | t :: l => match it_callback t with None => Some i | Some _ => free_timer l (S i) end
  end.

(** A null handle when the table is full. *)
Definition in_timerset (callback : TimerFn) (msecs parm : Z) : N (Inet D) (option nat) :=
  do! now := ngets cticks in
  do! a := arp_gets id in
  match free_timer (intimers a) 0 with
  | None => nret None
  | Some i =>
      let interval := u32 (msecs * TPS / 1000) in
      do! _ := arp_do (fun a => set_intimers
        (<[i := mkTimer (Some callback) parm interval (u32 (interval + now)) false]> (intimers a))
        (s32 (numtimers a + 1)) a) in
      nret (Some i)
  end.

Definition clear_callback (t : intimer) : intimer :=
  mkTimer None (it_parm t) (it_interval t) (it_tmo t) (it_inuse t).

Definition in_timerkill (timer : option nat) : N (Inet D) Z :=
  do! a := arp_gets id in
  match timer with
  | Some i => if (i <? length (intimers a))%nat then
                do! _ := arp_do (fun a => set_intimers (alter clear_callback i (intimers a)) (s32 (numtimers a - 1)) a) in
                nret 0
              else nret ENP_PARAM
  | None => nret ENP_PARAM
  end.

(** ** The table *)

(** An entry whose packets have waited for more than a second. *)
Definition waited_long (now : Z) (e : arptabent) : bool := TPS <? u32 (now - createtime e).
(** An old entry that was not used during the last second. *)
Definition expired (now : Z) (e : arptabent) : bool :=
  (arp_ageout <=? s32 (u32 (now - createtime e))) && (TPS <=? s32 (u32 (now - lasttime e))).

(** The loop of find_oldest_arp from entry [tp] on, with [n] entries left. *)
Fixpoint find_oldest_loop (n tp : nat) (lticks dest_ip : Z) (exact oldest empty : option nat) : N (Inet D) (option nat) :=
  match n with
  | O => nret (match exact with Some _ => exact | None => match empty with Some _ => empty | None => oldest end end)
  | S n =>
      do! e := get_ent tp in
      do! _ := (match at_pending e with
                | Some _ => if waited_long lticks e then
                              do! _ := arp_free_pending tp in
                              upd_ent tp (set_addr 0)
                            else nret tt
                | None => if negb (t_pro_addr e =? 0) && expired lticks e then upd_ent tp (set_addr 0) else nret tt
                end) in
      do! e := get_ent tp in
      if t_pro_addr e =? dest_ip then find_oldest_loop n (S tp) lticks dest_ip (Some tp) oldest empty
      else if negb (t_pro_addr e =? 0) then
        do! older := match oldest with
                     | None => nret true
                     | Some o => do! eo := get_ent o in nret (lasttime e <? lasttime eo)
                     end in
        find_oldest_loop n (S tp) lticks dest_ip exact (if older then Some tp else oldest) empty
      else find_oldest_loop n (S tp) lticks dest_ip exact oldest (match empty with None => Some tp | Some _ => empty end)
  end.

Definition find_oldest_arp (dest_ip : Z) : N (Inet D) (option nat) :=
  do! lticks := ngets cticks in
  find_oldest_loop MAXARPS 0 lticks dest_ip None None None.

(** The assignments of make_arp_entry. *)
Definition fresh_entry (dest_ip : Z) (net : nat) (lticks : Z) (e : arptabent) : arptabent :=
  mkEnt dest_ip (replicate 6 0) (Some net) (at_pending e) lticks lticks 0.

Definition make_arp_entry (dest_ip : Z) (net : nat) : N (Inet D) nat :=
  do! lticks := ngets cticks in
  do! r := find_oldest_arp dest_ip in
  do! oldest := nonnull r in
  do! e := get_ent oldest in
  do! _ := (match at_pending e with
            | Some _ => if negb (t_pro_addr e =? dest_ip) then arp_free_pending oldest else nret tt
            | None => nret tt
            end) in
  do! _ := upd_ent oldest (fresh_entry dest_ip net lticks) in
  do! timer := arp_gets arp_timer in
  do! _ := (match timer with
            | None => do! t := in_timerset fn_cb_arpent_tmo (ARPENT_TMO * 1000) 0 in arp_do (set_timer t)
            | Some t => arp_do (fun a => set_intimers
                (alter (fun i => mkTimer (it_callback i) (it_parm i) (it_interval i) (u32 (it_interval i + lticks)) (it_inuse i))
                   t (intimers a)) (numtimers a) a)
            end) in
  nret oldest.

(** ** Messages *)

(** The fixed fields of a message of type [op], with the header at [h]. *)
Definition put_fixed (op h : Z) (l : list Z) : option (list Z) :=
  let? l := store16 (h + ar_hd) ARPHW l in
  let? l := store16 (h + ar_pro) ARPIP l in
  let? l := mem_put (h + ar_hln) 6 l in
  let? l := mem_put (h + ar_pln) 4 l in
  store16 (h + ar_op) op l.

(** A broadcast message in the block at [buff]: the header and the addresses. *)
Definition put_broadcast (op buff spa tpa : Z) (phys : list Z) (l : list Z) : option (list Z) :=
  let ethhdr := buff + ETHHDR_BIAS in
  let arphdr := buff + ETHHDR_SIZE in
  let? l := put_fixed op arphdr l in
  let? l := store32 (arphdr + ar_tpa) tpa l in
  let? l := store32 (arphdr + ar_spa) spa l in
  let? l := put_bytes phys (arphdr + ar_sha) l in
  let? l := put_bytes (replicate 6 0xFF) (ethhdr + ET_DSTOFF) l in
  let? l := put_bytes phys (ethhdr + ET_SRCOFF) l in
  ET_TYPE_SET ethhdr (htons ET_ARP) l.

(** The answer with header at [hout] and Ethernet header at [ethout], to the request in
    the block [inl] with headers at [hin] and [ethin]. *)
Definition put_reply (inl : list Z) (hin ethin hout ethout : Z) (phys : list Z) (l : list Z) : option (list Z) :=
  let? l := put_fixed ARREP hout l in
  let? spa := get_bytes 4 (hin + ar_spa) inl in
  let? l := put_bytes spa (hout + ar_tpa) l in
  let? tpa := get_bytes 4 (hin + ar_tpa) inl in
  let? l := put_bytes tpa (hout + ar_spa) l in
  let? sha := get_bytes 6 (hin + ar_sha) inl in
  let? l := put_bytes sha (hout + ar_tha) l in
  let? l := put_bytes phys (hout + ar_sha) l in
  let? src := get_bytes 6 (ethin + ET_SRCOFF) inl in
  let? l := put_bytes src (ethout + ET_DSTOFF) l in
  put_bytes phys (ethout + ET_SRCOFF) l.

(** A packet for a message: [nb_prot], [nb_plen] and [net]. *)
Definition message_fields (i : nat) (b : netbuf) : netbuf :=
  set_nbnet (Some i) (set_prot (nb_buff b) arpsize b).

(** The multicast address of IP address [dest_ip]. *)
Definition mcast_phy (dest_ip : Z) : list Z :=
  [0x01; 0x00; 0x5e; Z.land (dest_ip / 2 ^ 8 mod 2 ^ 8) 0x7f; dest_ip / 2 ^ 16 mod 2 ^ 8; dest_ip / 2 ^ 24 mod 2 ^ 8].

(** Addresses that are not resolved. *)
Definition is_group (n : net) (dest_ip : Z) : bool :=
  (dest_ip =? 0xFFFFFFFF) ||
  (Z.land dest_ip (u32 (Z.lnot (snmask n))) =? Z.land 0xFFFFFFFF (u32 (Z.lnot (snmask n)))) ||
  IN_MULTICAST (htonl dest_ip).

Definition send_arp (pkt : nat) (dest_ip : Z) : N (Inet D) Z :=
  do! b := get_buf pkt in
  do! i := nonnull (nb_net b) in
  do! n := get_net i in
  if is_group n dest_ip then
    do! oldest := make_arp_entry dest_ip i in
    do! _ := upd_ent oldest (set_phy (replicate 6 0xFF)) in
    do! mcast := arp_gets (fun a => n_mcastlist a i) in
    do! _ := (if mcast && IN_MULTICAST (htonl dest_ip) then upd_ent oldest (set_phy (mcast_phy dest_ip)) else nret tt) in
    et_send pkt oldest
  else
  do! host := arp_gets (fun a => fhost a pkt) in
  if (host =? n_ipaddr n) && negb (Z.land host (htonl 0xFF000000) =? htonl 0x7F000000) then
    do! _ := pool_do (pk_free pkt) in
    nret ENP_NO_ROUTE
  else
  do! r := pool_get (pk_alloc arpsize) in
  match r with
  | None =>
      do! _ := pool_do (pk_free pkt) in
      nret ENP_RESOURCE
  | Some arppkt =>
      do! _ := upd_buf arppkt (fun b => Some (message_fields i b)) in
      do! oldest := make_arp_entry dest_ip i in
      do! _ := upd_ent oldest (set_pending (Some pkt)) in
      do! phys := ifPhysAddress i in
      do! ab := get_buf arppkt in
      do! _ := write_block arppkt (put_broadcast ARREQ (nb_buff ab) (n_ipaddr n) dest_ip phys) in
      do! _ := write_block arppkt (to_wire (nb_buff ab + ETHHDR_SIZE)) in
      do! _ := net_send i arppkt in
      do! _ := arp_do (count_arp 0 1 0 0) in
      nret ENP_SEND_PENDING
  end.

Definition arpReply (pkt : nat) : N (Inet D) unit :=
  do! r := pool_get (pk_alloc arpsize) in
  match r with
  | None => nret tt
  | Some outpkt =>
      do! b := get_buf pkt in
      do! i := nonnull (nb_net b) in
      do! _ := upd_buf outpkt (fun b => Some (set_nbnet (Some i) b)) in
      do! ob := get_buf outpkt in
      let ethin := nb_prot b - (ETHHDR_SIZE - ETHHDR_BIAS) in
      let ethout := nb_buff ob + ETHHDR_BIAS in
      let hin := nb_prot b in
      let hout := nb_buff ob + ETHHDR_SIZE in
      do! _ := write_block outpkt (ET_TYPE_SET ethout (htons ET_ARP)) in
      do! _ := upd_buf outpkt (fun b => Some (set_prot (nb_prot b) arpsize b)) in
      do! phys := ifPhysAddress i in
      do! _ := write_block outpkt (put_reply (nb_mem b) hin ethin hout ethout phys) in
      do! _ := write_block outpkt (to_wire hout) in
      do! _ := upd_buf outpkt (fun b => Some (set_prot (nb_buff b) (nb_plen b) b)) in
      do! _ := net_send i outpkt in
      arp_do (count_arp 0 0 0 1)
  end.

(** The first entry for an address, from number [tp] on. *)
Fixpoint find_entry (addr : Z) (l : list arptabent) (tp : nat) : option nat :=
  match l with
  | [] => None
  | e :: l => if t_pro_addr e =? addr then Some tp else find_entry addr l (S tp)
  end.

Definition arprcv (pkt : nat) : N (Inet D) Z :=
  do! b := get_buf pkt in
  let arphdr := nb_prot b in
  do! _ := write_block pkt (from_wire arphdr) in
  do! b := get_buf pkt in
  do! i := nonnull (nb_net b) in
  do! n := get_net i in
  do! tpa := read_block b (fun l => load32 l (arphdr + ar_tpa)) in
  if negb (tpa =? n_ipaddr n) && negb (IN_MULTICAST (htonl tpa)) then
    do! _ := pool_do (pk_free pkt) in
    nret ENP_NOT_MINE
  else
  do! op := read_block b (fun l => load16 l (arphdr + ar_op)) in
  do! spa := read_block b (fun l => load32 l (arphdr + ar_spa)) in
  do! _ := (if op =? ARREQ then
              do! _ := arp_do (count_arp 1 0 0 0) in
              do! _ := arpReply pkt in
              do! _ := make_arp_entry spa i in
              nret tt
            else arp_do (count_arp 0 0 1 0)) in
  do! table := arp_gets arp_table in
  match find_entry spa table 0 with
  | Some tp =>
      do! sha := read_block b (get_bytes 6 (arphdr + ar_sha)) in
      do! _ := upd_ent tp (set_phy sha) in
      do! now := ngets cticks in
      do! _ := upd_ent tp (set_last now) in
      do! e := get_ent tp in
      do! _ := (match at_pending e with Some _ => arp_send_pending tp | None => nret tt end) in
      do! _ := pool_do (pk_free pkt) in
      nret 0
  | None =>
      do! _ := pool_do (pk_free pkt) in
      nret ENP_NOT_MINE
  end.

(** The last packet of those that start with [tmppkt]. *)
Fixpoint last_pending (fuel : nat) (tmppkt : nat) : N (Inet D) nat :=
  match fuel with
  | O => nmore
  | S fuel =>
      do! next := get_next tmppkt in
      match next with Some x => last_pending fuel x | None => nret tmppkt end
  end.

Definition send_via_arp (pkt : nat) (dest_ip : Z) : N (Inet D) Z :=
  do! lticks := ngets cticks in
  if dest_ip =? 0 then
    do! _ := pool_do (pk_free pkt) in
    nret SEND_DROPPED
  else
  do! since := arp_gets cachetime in
  do! _ := (if TPS <? u32 (lticks - since) then arp_do (set_cache None since) else nret tt) in
  do! cached := arp_gets arpcache in
  do! hit := (match cached with
              | Some c => do! e := get_ent c in nret (t_pro_addr e =? dest_ip)
              | None => nret false
              end) in
  do! r := (if hit then nret cached else find_oldest_arp dest_ip) in
  do! tp := nonnull r in
  do! e := get_ent tp in
  if t_pro_addr e =? dest_ip then
    match at_pending e with
    | Some first =>
        do! free := ngets (fun s => q_len (lilfreeq (st_pool s))) in
        if free <? 2 then
          do! _ := pool_do (pk_free pkt) in
          nret SEND_DROPPED
        else
          do! fuel := links_bound in
          do! tmppkt := last_pending fuel first in
          do! _ := put_next tmppkt (Some pkt) in
          nret ENP_SEND_PENDING
    | None =>
        do! _ := arp_do (set_cache (Some tp) lticks) in
        et_send pkt tp
    end
  else send_arp pkt dest_ip.

(** ** The timer *)

Fixpoint tmo_loop (n tp : nat) (lticks arp_count : Z) : N (Inet D) Z :=
  match n with
  | O => nret arp_count
  | S n =>
      do! e := get_ent tp in
      if negb (t_pro_addr e =? 0) then
        if bool_decide (at_pending e <> None) && waited_long lticks e then
          do! _ := arp_free_pending tp in
          do! _ := upd_ent tp (set_addr 0) in
          tmo_loop n (S tp) lticks arp_count
        else if expired lticks e then
          do! _ := upd_ent tp (set_addr 0) in
          tmo_loop n (S tp) lticks arp_count
        else tmo_loop n (S tp) lticks (arp_count + 1)
      else tmo_loop n (S tp) lticks arp_count
  end.

Definition cb_arpent_tmo (arg : Z) : N (Inet D) unit :=
  do! lticks := ngets cticks in
  do! arp_count := tmo_loop MAXARPS 0 lticks 0 in
  if arp_count =? 0 then
    do! timer := arp_gets arp_timer in
    do! _ := in_timerkill timer in
    arp_do (set_timer None)
  else nret tt.

Definition call_timer (f : TimerFn) (parm : Z) : N (Inet D) unit :=
  match f with fn_cb_arpent_tmo => cb_arpent_tmo parm end.

(** Entry [i] of the timers is due. *)
Definition fire_timer (i : nat) (f : TimerFn) (t : intimer) (now : Z) : N (Inet D) unit :=
  let set_inuse v := arp_do (fun a => set_intimers
    (alter (fun t => mkTimer (it_callback t) (it_parm t) (it_interval t) (it_tmo t) v) i (intimers a)) (numtimers a) a) in
  do! _ := arp_do (fun a => set_intimers
    (alter (fun t => mkTimer (it_callback t) (it_parm t) (it_interval t) (u32 (it_interval t + now)) (it_inuse t))
       i (intimers a)) (numtimers a) a) in
  do! _ := set_inuse true in
  do! _ := call_timer f (it_parm t) in
  set_inuse false.

Fixpoint timers_loop (n i : nat) (found : Z) : N (Inet D) unit :=
  match n with
  | O => nret tt
  | S n =>
      do! t := (fun s => of_option (let? t := intimers (inet_arp (st_dev s)) !! i in Some (t, s))) in
      match it_callback t with
      | None => timers_loop n (S i) found
      | Some f =>
          do! now := ngets cticks in
          do! _ := (if (it_tmo t <? now) && negb (it_inuse t) then fire_timer i f t now else nret tt) in
          do! active := arp_gets numtimers in
          if active <=? found + 1 then nret tt else timers_loop n (S i) (found + 1)
      end
  end.

Definition check_interval_timers : N (Inet D) unit :=
  do! active := arp_gets numtimers in
  if 0 <? active then timers_loop NUM_INTIMERS 0 0 else nret tt.

End Arp.
