(* ===== verification/ArpWire.v ===== *)
(** * ArpWire

    The bytes of ARP messages: what the routines of Arp write into a block and read from
    it, whatever the alignment of the fields in memory. *)

From S2P Require Import Prelude NetQueue PktPool PktFacts NetDev Dm9000a Arp.

(** ** Blocks *)

Lemma put_bytes_in vs i l : 0 <= i -> i + Z.of_nat (length vs) <= Z.of_nat (length l) ->
  put_bytes vs i l = Some (list_inserts (Z.to_nat i) vs l).
Proof.
  revert i l. induction vs as [|v vs IH]; intros i l H0 Hl; [done|]. cbn [put_bytes length] in *. unfold mem_put.
  rewrite (proj2 (Z.leb_le _ _)), (proj2 (Z.ltb_lt _ _)) by lia. cbn [andb].
  rewrite IH by (rewrite ?length_insert; lia). f_equal. replace (Z.to_nat (i + 1)) with (S (Z.to_nat i)) by lia.
  cbn [list_inserts]. generalize (Z.to_nat i). clear. intros n. cbn [list_inserts].
  revert n l. enough (H : forall (vs : list Z) n m v (l : list Z), (n < m)%nat -> list_inserts m vs (<[n := v]> l) = <[n := v]> (list_inserts m vs l))
    by (intros n l; apply H; lia).
  clear. induction vs as [|w vs IH]; intros n m v l Hn; [done|]. cbn. rewrite IH by lia. apply list_insert_insert_ne. lia.
Qed.

(** A field between [pre] and [post] is replaced, or read. *)
Lemma put_field pre old post vs i : i = Z.of_nat (length pre) -> length old = length vs ->
  put_bytes vs i (pre ++ old ++ post) = Some (pre ++ vs ++ post).
Proof.
  intros -> Hl. revert pre old Hl. induction vs as [|v vs IH]; intros pre [|o old] Hl; cbn in Hl; try lia; [done|].
  cbn [put_bytes]. unfold mem_put. rewrite (proj2 (Z.leb_le _ _)) by lia.
  rewrite (proj2 (Z.ltb_lt _ _)) by (rewrite length_app; cbn; lia). cbn [andb]. rewrite Nat2Z.id, insert_app_r_alt by lia.
  rewrite Nat.sub_diag. cbn. replace (pre ++ v :: old ++ post) with ((pre ++ [v]) ++ old ++ post) by (by rewrite <- app_assoc).
  replace (Z.of_nat (length pre) + 1) with (Z.of_nat (length (pre ++ [v]))) by (rewrite length_app; cbn; lia).
  rewrite IH by lia. by rewrite <- app_assoc.
Qed.

Lemma get_field pre v post i n : i = Z.of_nat (length pre) -> n = length v -> get_bytes n i (pre ++ v ++ post) = Some v.
Proof.
  intros -> ->. revert pre. induction v as [|x v IH]; intros pre; [done|]. cbn [get_bytes length]. unfold mem_byte.
  destruct (Z.ltb_spec (Z.of_nat (length pre)) 0); [lia|]. rewrite Nat2Z.id, lookup_app_r by lia. rewrite Nat.sub_diag. cbn.
  replace (pre ++ x :: v ++ post) with ((pre ++ [x]) ++ v ++ post) by (by rewrite <- app_assoc).
  replace (Z.of_nat (length pre) + 1) with (Z.of_nat (length (pre ++ [x]))) by (rewrite length_app; cbn; lia).
  by rewrite IH.
Qed.

Lemma get_bytes_shift n k pre l : 0 <= k -> get_bytes n (Z.of_nat (length pre) + k) (pre ++ l) = get_bytes n k l.
Proof.
  revert k. induction n as [|n IH]; intros k Hk; [done|]. cbn [get_bytes]. unfold mem_byte.
  destruct (Z.ltb_spec (Z.of_nat (length pre) + k) 0), (Z.ltb_spec k 0); try lia.
  rewrite lookup_app_r by lia. replace (Z.to_nat (Z.of_nat (length pre) + k) - length pre)%nat with (Z.to_nat k) by lia.
  destruct (l !! Z.to_nat k); [|done]. by rewrite <- Z.add_assoc, IH by lia.
Qed.

Lemma put_bytes_shift vs k pre l : 0 <= k ->
  put_bytes vs (Z.of_nat (length pre) + k) (pre ++ l) = let? l := put_bytes vs k l in Some (pre ++ l).
Proof.
  revert k l. induction vs as [|v vs IH]; intros k l Hk; [done|]. cbn [put_bytes]. unfold mem_put. rewrite length_app.
  rewrite (proj2 (Z.leb_le 0 (_ + k))), (proj2 (Z.leb_le 0 k)) by lia. cbn [andb].
  replace (Z.of_nat (length pre) + k <? Z.of_nat (length pre + length l)) with (k <? Z.of_nat (length l))
    by (destruct (Z.ltb_spec k (Z.of_nat (length l))); symmetry; [apply Z.ltb_lt|apply Z.ltb_ge]; lia).
  destruct (k <? Z.of_nat (length l)); [|done]. rewrite insert_app_r_alt by lia.
  replace (Z.to_nat (Z.of_nat (length pre) + k) - length pre)%nat with (Z.to_nat k) by lia. by rewrite <- Z.add_assoc, IH by lia.
Qed.

Lemma MEMMOVE_shift d s n pre l : 0 <= d -> 0 <= s ->
  MEMMOVE (Z.of_nat (length pre) + d) (Z.of_nat (length pre) + s) n (pre ++ l) = let? l := MEMMOVE d s n l in Some (pre ++ l).
Proof.
  intros Hd Hs. unfold MEMMOVE. rewrite get_bytes_shift by done. destruct (get_bytes n s l); [|done]. by apply put_bytes_shift.
Qed.

(** ** Local writes

    A write near position [k] does to a part of a block what it does to the part alone. *)

Definition local (f : Z -> list Z -> option (list Z)) : Prop := forall k pre w w' post, 0 <= k ->
  f k w = Some w' -> f (Z.of_nat (length pre) + k) (pre ++ w ++ post) = Some (pre ++ w' ++ post).

Lemma get_bytes_app n i w v post : get_bytes n i w = Some v -> get_bytes n i (w ++ post) = Some v.
Proof.
  revert i v. induction n as [|n IH]; intros i v; [done|]. cbn [get_bytes]. unfold mem_byte. destruct (i <? 0); [done|].
  destruct (w !! Z.to_nat i) as [c|] eqn:E; [|done]. rewrite (lookup_app_l_Some w post _ _ E).
  destruct (get_bytes n (i + 1) w) eqn:E'; [|done]. by rewrite (IH _ _ E').
Qed.

Lemma put_bytes_app vs i w w' post : put_bytes vs i w = Some w' -> put_bytes vs i (w ++ post) = Some (w' ++ post).
Proof.
  revert i w. induction vs as [|v vs IH]; intros i w; cbn [put_bytes]; [by intros [= ->]|]. unfold mem_put.
  destruct (Z.leb_spec 0 i); [|done]. destruct (Z.ltb_spec i (Z.of_nat (length w))); [|done]. cbn [andb].
  rewrite (proj2 (Z.ltb_lt _ _)) by (rewrite length_app; lia). rewrite insert_app_l by lia. apply IH.
Qed.

Lemma local_put vs d : 0 <= d -> local (fun k => put_bytes vs (k + d)).
Proof.
  intros Hd k pre w w' post Hk E. rewrite <- Z.add_assoc, put_bytes_shift by lia. by rewrite (put_bytes_app _ _ _ _ post E).
Qed.

Lemma local_put1 v d : 0 <= d -> local (fun k => mem_put (k + d) v).
Proof.
  intros Hd k pre w w' post Hk E. pose proof (local_put [v] d Hd k pre w w' post Hk) as H. cbn [put_bytes] in H.
  rewrite E in H. specialize (H eq_refl). by destruct (mem_put _ _ (pre ++ _)).
Qed.

Lemma local_move d s n : 0 <= d -> 0 <= s -> local (fun k => MEMMOVE (k + d) (k + s) n).
Proof.
  intros Hd Hs k pre w w' post Hk E. rewrite <- !Z.add_assoc, MEMMOVE_shift by lia. revert E. unfold MEMMOVE.
  destruct (get_bytes n (k + s) w) as [v|] eqn:Eg; [|done]. intros E. rewrite (get_bytes_app _ _ _ _ post Eg).
  by rewrite (put_bytes_app _ _ _ _ post E).
Qed.

Lemma local_seq f g : local f -> local g -> local (fun k l => let? l := f k l in g k l).
Proof.
  intros Hf Hg k pre w w' post Hk E. destruct (f k w) as [w1|] eqn:E1; [|done]. rewrite (Hf k pre w w1 post Hk E1). by apply Hg.
Qed.

Lemma local_ext f g : (forall k l, f k l = g k l) -> local g -> local f.
Proof. intros E Hg k pre w w' post Hk Ef. rewrite E in *. by apply Hg. Qed.

Lemma local_to_wire : local to_wire.
Proof.
  apply (local_ext _ (fun k l =>
    let? l := MEMMOVE (k + (wire_data + AR_SHA)) (k + ar_sha) 6 l in
    let? l := MEMMOVE (k + (wire_data + AR_SPA)) (k + ar_spa) 4 l in
    let? l := MEMMOVE (k + (wire_data + AR_THA)) (k + ar_tha) 6 l in
    MEMMOVE (k + (wire_data + AR_TPA)) (k + ar_tpa) 4 l)).
  - intros k l. unfold to_wire. by rewrite !Z.add_assoc.
  - repeat apply local_seq; apply local_move; done.
Qed.

Lemma local_from_wire : local from_wire.
Proof.
  apply (local_ext _ (fun k l =>
    let? l := MEMMOVE (k + ar_tpa) (k + (wire_data + AR_TPA)) 4 l in
    let? l := MEMMOVE (k + ar_tha) (k + (wire_data + AR_THA)) 6 l in
    let? l := MEMMOVE (k + ar_spa) (k + (wire_data + AR_SPA)) 4 l in
    MEMMOVE (k + ar_sha) (k + (wire_data + AR_SHA)) 6 l)).
  - intros k l. unfold from_wire. by rewrite !Z.add_assoc.
  - repeat apply local_seq; apply local_move; done.
Qed.

(** A list of known length, as its elements. *)
Tactic Notation "explicit" ident(l) integer(n) := do n (destruct l as [|? l]; [discriminate|]); destruct l; [|discriminate].

(** ** The header on the wire

    Aligned in memory: eight bytes of fixed fields, the sender's addresses, two bytes of
    padding, the target's with two more.  On the wire: without the padding. *)

Lemma to_wire_spec pre h sha p1 spa tha p2 tpa post : length h = 8%nat -> length sha = 6%nat -> length p1 = 2%nat ->
  length spa = 4%nat -> length tha = 6%nat -> length p2 = 2%nat -> length tpa = 4%nat ->
  to_wire (Z.of_nat (length pre)) (pre ++ (h ++ sha ++ p1 ++ spa ++ tha ++ p2 ++ tpa) ++ post) =
    Some (pre ++ (h ++ sha ++ spa ++ tha ++ tpa ++ tpa) ++ post).
Proof.
  intros. rewrite <- (Z.add_0_r (Z.of_nat _)). apply local_to_wire; [done|].
  explicit h 8. explicit sha 6. explicit p1 2. explicit spa 4. explicit tha 6. explicit p2 2. explicit tpa 4. reflexivity.
Qed.

Lemma from_wire_spec pre h sha spa tha tpa rest post : length h = 8%nat -> length sha = 6%nat ->
  length spa = 4%nat -> length tha = 6%nat -> length tpa = 4%nat -> length rest = 4%nat ->
  exists p1 p2, length p1 = 2%nat /\ length p2 = 2%nat /\
  from_wire (Z.of_nat (length pre)) (pre ++ (h ++ sha ++ spa ++ tha ++ tpa ++ rest) ++ post) =
    Some (pre ++ (h ++ sha ++ p1 ++ spa ++ tha ++ p2 ++ tpa) ++ post).
Proof.
  intros. exists (take 2 spa), (drop 2 tpa). rewrite length_take, length_drop. split; [lia|]. split; [lia|].
  rewrite <- (Z.add_0_r (Z.of_nat _)). apply local_from_wire; [done|].
  explicit h 8. explicit sha 6. explicit spa 4. explicit tha 6. explicit tpa 4. explicit rest 4. reflexivity.
Qed.

(** ** Messages *)

(** An ARP message in an Ethernet frame (RFC 826), of 42 bytes. *)
Definition arp_frame (dst src op sha spa tha tpa : list Z) : list Z :=
  dst ++ src ++ [0x08; 0x06] ++ ([0x00; 0x01; 0x08; 0x00; 0x06; 0x04] ++ op) ++ sha ++ spa ++ tha ++ tpa.

Lemma local_at f d : local f -> 0 <= d -> local (fun k => f (k + d)).
Proof. intros Hf Hd k pre w w' post Hk E. rewrite <- Z.add_assoc. apply Hf; [lia|done]. Qed.

Lemma local_at2 f a b : local f -> 0 <= a -> 0 <= b -> local (fun k => f (k + a + b)).
Proof. intros Hf Ha Hb. by apply (local_at (fun k => f (k + b)) a); [apply local_at|]. Qed.

Lemma local_bytes vs : local (put_bytes vs).
Proof. apply (local_ext _ (fun k => put_bytes vs (k + 0))); [|by apply local_put]. intros. by rewrite Z.add_0_r. Qed.
Lemma local_byte v : local (fun k => mem_put k v).
Proof. apply (local_ext _ (fun k => mem_put (k + 0) v)); [|by apply local_put1]. intros. by rewrite Z.add_0_r. Qed.

#[local] Opaque local put_bytes.

(** Sequences of writes at fixed distances. *)
Ltac local_writes :=
  lazymatch goal with
  | |- local (fun k l => match _ with Some l' => _ | None => None end) => apply local_seq; local_writes
  | |- local (fun k l => put_bytes ?vs (k + _ + _) l) => apply (local_at2 (put_bytes vs)); [apply local_bytes|done..]
  | |- local (fun k l => put_bytes ?vs (k + _) l) => apply (local_at (put_bytes vs)); [apply local_bytes|done..]
  | |- local (fun k l => mem_put (k + _ + _) ?v l) => apply (local_at2 (fun k => mem_put k v)); [apply local_byte|done..]
  | |- local (fun k l => mem_put (k + _) ?v l) => apply (local_at (fun k => mem_put k v)); [apply local_byte|done..]
  end.

Lemma local_ET_TYPE_SET t : local (fun k => ET_TYPE_SET k t).
Proof. unfold ET_TYPE_SET. local_writes. Qed.

Lemma local_fixed op : local (put_fixed op).
Proof. unfold put_fixed, store16. local_writes. Qed.

Lemma local_broadcast op spa tpa phys : local (fun k => put_broadcast op k spa tpa phys).
Proof.
  unfold put_broadcast, store32. cbn zeta. apply local_seq; [apply (local_at (put_fixed op)); [apply local_fixed|done]|].
  do 5 (apply local_seq; [local_writes|]). apply (local_at (fun k => ET_TYPE_SET k _)); [apply local_ET_TYPE_SET|done].
Qed.

(** The part of [put_reply] that writes. *)
Definition write_reply (spa tpa sha src phys : list Z) (hout ethout : Z) (l : list Z) : option (list Z) :=
  let? l := put_fixed ARREP hout l in
  let? l := put_bytes spa (hout + ar_tpa) l in
  let? l := put_bytes tpa (hout + ar_spa) l in
  let? l := put_bytes sha (hout + ar_tha) l in
  let? l := put_bytes phys (hout + ar_sha) l in
  let? l := put_bytes src (ethout + ET_DSTOFF) l in
  put_bytes phys (ethout + ET_SRCOFF) l.

Lemma local_reply spa tpa sha src phys :
  local (fun k => write_reply spa tpa sha src phys (k + ETHHDR_SIZE) (k + ETHHDR_BIAS)).
Proof.
  unfold write_reply. apply local_seq; [apply (local_at (put_fixed _)); [apply local_fixed|done]|]. local_writes.
Qed.
#[local] Transparent local put_bytes.

(** A block with room for a message after [buff]. *)
Lemma split_block buff (l : list Z) : 0 <= buff -> buff + arpsize <= Z.of_nat (length l) ->
  exists mid, l = take (Z.to_nat buff) l ++ mid ++ drop (Z.to_nat (buff + arpsize)) l /\ length mid = 48%nat /\
    buff = Z.of_nat (length (take (Z.to_nat buff) l)) /\ mid = take 48 (drop (Z.to_nat buff) l).
Proof.
  unfold arpsize, ETHHDR_SIZE. intros H0 Hl. exists (take 48 (drop (Z.to_nat buff) l)).
  replace (Z.to_nat (buff + (16 + 32))) with (Z.to_nat buff + 48)%nat by lia.
  rewrite <- drop_drop, take_drop, take_drop, !length_take, length_drop. split_and!; [done|lia|lia|done].
Qed.

(** What stands in a block afterwards. *)
Definition message_block (buff : Z) (l frame tpa : list Z) : list Z :=
  take (Z.to_nat buff) l ++ (take 2 (drop (Z.to_nat buff) l) ++ frame ++ tpa) ++ drop (Z.to_nat (buff + arpsize)) l.

Lemma broadcast_spec op buff spa tpa phys l : 0 <= buff -> buff + arpsize <= Z.of_nat (length l) -> length phys = 6%nat ->
  bytes l -> exists tha, length tha = 6%nat /\ bytes tha /\
  (let? l := put_broadcast op buff spa tpa phys l in to_wire (buff + ETHHDR_SIZE) l) =
    Some (message_block buff l (arp_frame (replicate 6 0xFF) phys (bytes16 op) phys (bytes32 spa) tha (bytes32 tpa)) (bytes32 tpa)).
Proof.
  intros H0 Hl Hp Hby. destruct (split_block buff l H0 Hl) as (mid & El & Hm & Eb & Em). unfold message_block.
  set (pre := take (Z.to_nat buff) l) in *. set (post := drop (Z.to_nat (buff + arpsize)) l) in *. exists (take 6 (drop 36 mid)).
  replace (take 2 (drop (Z.to_nat buff) l)) with (take 2 mid) by (rewrite Em; by rewrite take_take).
  split; [rewrite length_take, length_drop; lia|]. split; [rewrite Em; auto with words|]. clear Hby.
  rewrite El at 1. rewrite Eb. clearbody pre post. clear El Em Eb.
  rewrite <- (Z.add_0_r (Z.of_nat (length pre))).
  apply (local_seq _ (fun k => to_wire (k + ETHHDR_SIZE)) (local_broadcast op spa tpa phys)); [|done|].
  - by apply (local_at to_wire); [apply local_to_wire|].
  - explicit phys 6. explicit mid 48. reflexivity.
Qed.

Lemma reply_spec inl hin ethin buff spa tpa sha src phys l : 0 <= buff -> buff + arpsize <= Z.of_nat (length l) ->
  length phys = 6%nat -> length spa = 4%nat -> length tpa = 4%nat -> length sha = 6%nat -> length src = 6%nat ->
  get_bytes 4 (hin + ar_spa) inl = Some spa -> get_bytes 4 (hin + ar_tpa) inl = Some tpa ->
  get_bytes 6 (hin + ar_sha) inl = Some sha -> get_bytes 6 (ethin + ET_SRCOFF) inl = Some src ->
  (let? l := ET_TYPE_SET (buff + ETHHDR_BIAS) (htons ET_ARP) l in
   let? l := put_reply inl hin ethin (buff + ETHHDR_SIZE) (buff + ETHHDR_BIAS) phys l in to_wire (buff + ETHHDR_SIZE) l) =
    Some (message_block buff l (arp_frame src phys [0x00; 0x02] phys tpa sha spa) spa).
Proof.
  intros H0 Hl Hp Hs Ht Hh Hr E1 E2 E3 E4. destruct (split_block buff l H0 Hl) as (mid & El & Hm & Eb & Em). unfold message_block.
  set (pre := take (Z.to_nat buff) l) in *. set (post := drop (Z.to_nat (buff + arpsize)) l) in *.
  replace (take 2 (drop (Z.to_nat buff) l)) with (take 2 mid) by (rewrite Em; by rewrite take_take).
  assert (Ew : forall l, put_reply inl hin ethin (buff + ETHHDR_SIZE) (buff + ETHHDR_BIAS) phys l =
    write_reply spa tpa sha src phys (buff + ETHHDR_SIZE) (buff + ETHHDR_BIAS) l).
  { intros l0. unfold put_reply, write_reply. rewrite E1, E2, E3, E4.
    repeat match goal with |- match ?m with Some _ => _ | None => _ end = _ => destruct m; [|done] end. done. }
  rewrite El at 1. destruct (ET_TYPE_SET _ _ (pre ++ _)) as [l0|] eqn:E0.
  - rewrite Ew. revert E0. rewrite Eb. clearbody pre post. clear El Em Eb Ew.
    pose proof (local_seq _ _ (local_at _ ETHHDR_BIAS (local_ET_TYPE_SET (htons ET_ARP)) ltac:(done))
      (local_seq _ _ (local_reply spa tpa sha src phys) (local_at to_wire ETHHDR_SIZE local_to_wire ltac:(done)))
      0 pre mid (take 2 mid ++ arp_frame src phys [0x00; 0x02] phys tpa sha spa ++ spa) post ltac:(done)) as Hloc.
    cbn beta in Hloc. rewrite Z.add_0_r in Hloc. intros E0. rewrite E0 in Hloc. apply Hloc.
    explicit phys 6. explicit mid 48. explicit spa 4. explicit tpa 4. explicit sha 6. explicit src 6. reflexivity.
  - exfalso. revert E0. rewrite Eb. clearbody pre post. clear - Hm. intros E0.
    pose proof (local_at _ ETHHDR_BIAS (local_ET_TYPE_SET (htons ET_ARP)) ltac:(done) 0 pre mid) as Hloc. cbn beta in Hloc.
    rewrite Z.add_0_r in Hloc. explicit mid 48. erewrite Hloc in E0; [done|done|reflexivity].
Qed.

(** ** Received messages *)

Definition le16 (v : list Z) : Z := match v with [a; b] => a + b * 2 ^ 8 | _ => 0 end.
Definition le32 (v : list Z) : Z := match v with [a; b; c; d] => a + b * 2 ^ 8 + (c + d * 2 ^ 8) * 2 ^ 16 | _ => 0 end.

Lemma load16_get l i : load16 l i = let? v := get_bytes 2 i l in Some (le16 v).
Proof.
  unfold load16. cbn [get_bytes]. destruct (mem_byte l i); [|done]. by destruct (mem_byte l (i + 1)).
Qed.

Lemma load32_get l i : load32 l i = let? v := get_bytes 4 i l in Some (le32 v).
Proof.
  unfold load32, load16. cbn [get_bytes]. rewrite <- !Z.add_assoc. cbn [Z.add Pos.add]. destruct (mem_byte l i); [|done].
  change (1 + (1 + 1)) with 3. change (1 + 1) with 2. change (2 + 1) with 3. destruct (mem_byte l (i + 1)); [|done].
  destruct (mem_byte l (i + 2)); [|done]. by destruct (mem_byte l (i + 3)).
Qed.

Lemma bytes32_le32 v : length v = 4%nat -> bytes v -> bytes32 (le32 v) = v.
Proof.
  intros Hl Hb. explicit v 4. unfold bytes in Hb. rewrite !Forall_cons in Hb. destruct Hb as (Ha & Hb & Hc & Hd & _).
  unfold is_u8 in *. unfold bytes32, bytes16, le32. change (2 ^ 8) with 256 in *. change (2 ^ 16) with 65536 in *.
  cbn [app]. repeat f_equal; Z.div_mod_to_equations; lia.
Qed.

Lemma le32_bytes32 z : is_u32 z -> le32 (bytes32 z) = z.
Proof. unfold is_u32, bytes32, bytes16, le32. cbn [app]. intros. Z.div_mod_to_equations. lia. Qed.

Lemma bytes32_length z : length (bytes32 z) = 4%nat.
Proof. done. Qed.

(** The message at [h] in a block, as the code reads it. *)
Record message_at (h : Z) (l sha spa tpa op src : list Z) : Prop := {
  ma_sha : get_bytes 6 (h + ar_sha) l = Some sha;
  ma_spa : get_bytes 4 (h + ar_spa) l = Some spa;
  ma_tpa : get_bytes 4 (h + ar_tpa) l = Some tpa;
  ma_op : get_bytes 2 (h + ar_op) l = Some op;
  ma_src : get_bytes 6 (h - (ETHHDR_SIZE - ETHHDR_BIAS) + ET_SRCOFF) l = Some src;
}.

Lemma get_bytes_length n i l v : get_bytes n i l = Some v -> length v = n.
Proof.
  revert i v. induction n as [|n IH]; intros i v; [by intros [= <-]|]. cbn [get_bytes]. destruct (mem_byte l i); [|done].
  destruct (get_bytes n (i + 1) l) eqn:E; [|done]. intros [= <-]. cbn. f_equal. by eapply IH.
Qed.

(** A message that was moved into place: [e] are the bytes before the header and [post]
    those behind it, which stay. *)
Lemma from_wire_message pre dst src ty h0 op sha spa tha tpa rest post : length dst = 6%nat -> length src = 6%nat ->
  length ty = 2%nat -> length h0 = 6%nat -> length op = 2%nat -> length sha = 6%nat -> length spa = 4%nat ->
  length tha = 6%nat -> length tpa = 4%nat -> length rest = 4%nat ->
  let e := pre ++ dst ++ src ++ ty in
  exists mid, length mid = 32%nat /\
    from_wire (Z.of_nat (length e)) (e ++ ((h0 ++ op) ++ sha ++ spa ++ tha ++ tpa ++ rest) ++ post) = Some (e ++ mid ++ post) /\
    message_at (Z.of_nat (length e)) (e ++ mid ++ post) sha spa tpa op src.
Proof.
  intros Hd Hs Ht Hh Ho Hsha Hspa Htha Htpa Hr e.
  assert (Hhl : length (h0 ++ op) = 8%nat) by (rewrite length_app; lia).
  destruct (from_wire_spec e (h0 ++ op) sha spa tha tpa rest post) as (p1 & p2 & H1 & H2 & E); [done..|].
  exists ((h0 ++ op) ++ sha ++ p1 ++ spa ++ tha ++ p2 ++ tpa). split; [rewrite !length_app; lia|]. split; [exact E|].
  assert (El : Z.of_nat (length e) - (ETHHDR_SIZE - ETHHDR_BIAS) + ET_SRCOFF = Z.of_nat (length (pre ++ dst))).
  { unfold e, ETHHDR_SIZE, ETHHDR_BIAS, ET_SRCOFF. rewrite !length_app. lia. }
  split; [| | | |rewrite El; unfold e; rewrite <- !app_assoc;
    rewrite (app_assoc pre dst); by apply get_field].
  all: rewrite get_bytes_shift by done; apply get_bytes_app;
    explicit h0 6; explicit op 2; explicit sha 6; explicit p1 2; explicit spa 4; explicit tha 6; explicit p2 2; explicit tpa 4; reflexivity.
Qed.

(** The Ethernet header of et_send. *)
Lemma eth_header_spec p phy phys t l : 0 <= p -> p + 14 <= Z.of_nat (length l) -> length phy = 6%nat -> length phys = 6%nat ->
  (let? l := put_bytes phy (p + ET_DSTOFF) l in
   let? l := put_bytes phys (p + ET_SRCOFF) l in ET_TYPE_SET p t l) =
    Some (take (Z.to_nat p) l ++ (phy ++ phys ++ [Z.land (Z.shiftr t 8) 0xFF; Z.land t 0xFF]) ++ drop (Z.to_nat p + 14) l).
Proof.
  intros H0 Hl H1 H2. assert (El : l = take (Z.to_nat p) l ++ take 14 (drop (Z.to_nat p) l) ++ drop (Z.to_nat p + 14) l).
  { by rewrite <- drop_drop, take_drop, take_drop. }
  assert (Hm : length (take 14 (drop (Z.to_nat p) l)) = 14%nat) by (rewrite length_take, length_drop; lia).
  assert (Ep : p = Z.of_nat (length (take (Z.to_nat p) l)) + 0) by (rewrite length_take; lia).
  set (mid := take 14 (drop (Z.to_nat p) l)) in *. set (pre := take (Z.to_nat p) l) in *. set (post := drop (Z.to_nat p + 14) l) in *.
  rewrite El at 1. rewrite Ep. clearbody pre mid post. clear El Ep.
  assert (Hloc : local (fun k l => let? l := put_bytes phy (k + ET_DSTOFF) l in
    let? l := put_bytes phys (k + ET_SRCOFF) l in ET_TYPE_SET k t l)).
  { apply local_seq; [apply (local_at (put_bytes phy)); [apply local_bytes|done]|].
    apply local_seq; [apply (local_at (put_bytes phys)); [apply local_bytes|done]|apply local_ET_TYPE_SET]. }
  apply (Hloc 0 pre mid _ post); [done|]. explicit mid 14. explicit phy 6. explicit phys 6. reflexivity.
Qed.
