(* ===== verification/ArpFacts.v ===== *)
(** * ArpFacts

    The invariant of the ARP table and of the packets that wait in it, and what the
    sending of packets and messages does. *)

From stdpp Require Import sets.
From S2P Require Import Prelude NetQueue PktPool PktFacts PktChain KernelData Kernel KernelSem NetDev Dm9000a Dm9000aFacts DmRx NetPath NetProps NetDemux Arp ArpWire.

(** ** What ARP needs from a driver *)

(** The parts of an interface that are not counters. *)
Record net_same (n n' : net) : Prop := {
  ns_send : pkt_send n' = pkt_send n;
  ns_ip : n_ipaddr n' = n_ipaddr n;
  ns_mask : snmask n' = snmask n;
  ns_local : n_local n' = n_local n;
  ns_lnh : n_lnh n' = n_lnh n;
  ns_flags : n_flags n' = n_flags n;
  ns_type : ifType (n_mib n') = ifType (n_mib n);
  ns_admin : ifAdminStatus (n_mib n') = ifAdminStatus (n_mib n);
}.

#[export] Instance net_same_preorder : PreOrder net_same.
Proof. split; [by split|]. intros n1 n2 n3 [] []. split; congruence. Qed.

(** The bytes that leave the board for a packet: at least 64, with what follows in the block. *)
Definition frame_of (b : netbuf) : list Z := take (Z.to_nat (send_len b)) (drop (send_from b) (nb_mem b)).

Class Mac (D : Type) := {
  mac_send : nat -> N D Z;
  mac_ok : list net -> dm9000a_dev -> D -> Prop;
  sent : D -> list (list Z);
  mac_same : forall nets nets' dm d, mac_ok nets dm d -> Forall2 net_same nets nets' -> mac_ok nets' dm d;
  mac_law : forall (s : NetSt D) x b i n, mac_ok (st_nets s) (g_dm9ka s) (st_dev s) ->
    pk_bufs (st_pool s) !! x = Some b -> sendable b -> nb_net b = Some i -> st_nets s !! i = Some n -> n_local n = true ->
    exists d' nets', mac_send x s = nbind (pool_do (pk_free x)) (fun _ => nret 0) (set_nets nets' (set_dev d' s)) /\
      mac_ok nets' (g_dm9ka s) d' /\ Forall2 net_same (st_nets s) nets' /\ sent d' = sent (st_dev s) ++ [frame_of b];
}.

Lemma in_lists {A} (cs : list (list A)) i c x : cs !! i = Some c -> x ∈ c -> x ∈ concat cs.
Proof.
  intros Hc Hx. apply list_elem_of_In, in_concat. exists c. split; [|by apply list_elem_of_In].
  by eapply list_elem_of_In, list_elem_of_lookup_2.
Qed.

(** ** The state *)

(** The fields that et_send sets, and a packet it can send. *)
Definition eth_fields (b : netbuf) : netbuf := set_prot (nb_prot b - ETHHDR_SIZE) (nb_plen b + ETHHDR_SIZE) b.

Record outgoing (b : netbuf) : Prop := {
  og_use : nb_inuse b = 1;
  og_marks : marked b;
  og_room : nb_buff b + (ETHHDR_SIZE - ETHHDR_BIAS) <= nb_prot b;
  og_send : sendable (eth_fields b);
}.

(** The frame for it. *)
Definition ip_frame (dst src : list Z) (b : netbuf) : list Z :=
  take (Z.to_nat (Z.max 64 (nb_plen b + 14))) (dst ++ src ++ [0x08; 0x00] ++ drop (Z.to_nat (nb_prot b)) (nb_mem b)).

(** An entry and the packets that wait in it. *)
Record ent_ok (m : list (option nat)) (e : arptabent) (c : list nat) : Prop := {
  en_pending : at_pending e = head c;
  en_chain : chain m c;
  en_unused : t_pro_addr e = 0 -> c = [];
  en_phy : length (t_phy_addr e) = 6%nat /\ bytes (t_phy_addr e);
  en_flags : at_flags e = 0;
}.

Section State.
Context {D : Type} `{Mac D}.

Definition arp_of (s : NetSt (Inet D)) : ArpSt := inet_arp (st_dev s).
Definition hw_of (s : NetSt (Inet D)) : D := inet_hw (st_dev s).
Definition tbl (s : NetSt (Inet D)) : list arptabent := arp_table (arp_of s).
Definition mac_of (s : NetSt (Inet D)) : list Z := mac_addr (g_dm9ka s).
Definition sent_of (s : NetSt (Inet D)) : list (list Z) := sent (hw_of s).

(** A packet that can be sent through an interface of the system. *)
Definition ready (s : NetSt (Inet D)) (x : nat) : Prop := exists b i,
  pk_bufs (st_pool s) !! x = Some b /\ nb_net b = Some i /\ is_Some (st_nets s !! i) /\ outgoing b.

(** The interfaces and the driver. *)
Record base_ok (s : NetSt (Inet D)) : Prop := {
  bo_mac : mac_ok (st_nets s) (g_dm9ka s) (hw_of s);
  bo_nets : Forall (fun n => n_local n = true /\ is_Some (pkt_send n)) (st_nets s);
  bo_phys : length (mac_of s) = 6%nat /\ bytes (mac_of s);
  bo_bytes : forall x b, pk_bufs (st_pool s) !! x = Some b -> bytes (nb_mem b);
}.

(** No address is in two entries. *)
Definition unique (l : list arptabent) : Prop := forall i j e e', l !! i = Some e -> l !! j = Some e' ->
  t_pro_addr e = t_pro_addr e' -> t_pro_addr e <> 0 -> i = j.

(** [cs] are the packets that wait in each entry, [U] those in other hands. *)
Record arp_ok (s : NetSt (Inet D)) (A : Qid -> list nat) (U : list nat) (cs : list (list nat)) : Prop := {
  ao_pool : chained (st_pool s) A (concat cs) U;
  ao_len : length (tbl s) = MAXARPS;
  ao_lists : length cs = MAXARPS;
  ao_ents : forall i e c, tbl s !! i = Some e -> cs !! i = Some c -> ent_ok (pk_links (st_pool s)) e c;
  ao_unique : unique (tbl s);
  ao_ready : Forall (ready s) (concat cs);
  ao_cache : forall c, arpcache (arp_of s) = Some c -> (c < MAXARPS)%nat;
  ao_base : base_ok s;
}.

(** What no operation changes. *)
Record calm (s s' : NetSt (Inet D)) : Prop := {
  ca_ticks : cticks s' = cticks s;
  ca_dm : g_dm9ka s' = g_dm9ka s;
  ca_nets : Forall2 net_same (st_nets s) (st_nets s');
  ca_host : fhost (arp_of s') = fhost (arp_of s);
  ca_mcast : n_mcastlist (arp_of s') = n_mcastlist (arp_of s);
  ca_timers : length (intimers (arp_of s')) = length (intimers (arp_of s));
}.

#[export] Instance calm_preorder : PreOrder calm.
Proof. split; [intros s; by split|]. intros s1 s2 s3 [] []. split; try congruence. by etrans. Qed.

Lemma calm_net s s' i n : calm s s' -> st_nets s !! i = Some n -> exists n', st_nets s' !! i = Some n' /\ net_same n n'.
Proof using Type. intros Hc Hn. exact (Forall2_lookup_l _ _ _ i n (ca_nets _ _ Hc) Hn). Qed.

Lemma calm_some s s' i : calm s s' -> is_Some (st_nets s !! i) -> is_Some (st_nets s' !! i).
Proof using Type. intros Hc [n Hn]. destruct (calm_net s s' i n Hc Hn) as (n' & Hn' & _). by exists n'. Qed.

Lemma ready_kept s s' x : calm s s' -> pk_bufs (st_pool s') !! x = pk_bufs (st_pool s) !! x -> ready s x -> ready s' x.
Proof using Type.
  intros Hc Eb (b & i & Hb & Hi & Hn & Ho). exists b, i. rewrite Eb. split_and!; try done. by eapply calm_some.
Qed.

Lemma readies_kept s s' l : calm s s' -> (forall x, x ∈ l -> pk_bufs (st_pool s') !! x = pk_bufs (st_pool s) !! x) ->
  Forall (ready s) l -> Forall (ready s') l.
Proof using Type.
  intros Hc Eb Hl. apply Forall_forall. intros x Hx. apply (ready_kept s); [done|by apply Eb|].
  exact (proj1 (Forall_forall _ _) Hl x Hx).
Qed.

(** ** Changes that keep the invariant *)

(** The pool, away from the packets that wait. *)
Lemma arp_pool s A U cs p A' U' : arp_ok s A U cs -> chained p A' (concat cs) U' ->
  same_at (concat cs) (pk_links (st_pool s)) (pk_links p) ->
  (forall y, y ∈ concat cs -> pk_bufs p !! y = pk_bufs (st_pool s) !! y) ->
  (forall y b, pk_bufs p !! y = Some b -> bytes (nb_mem b)) -> arp_ok (set_pool p s) A' U' cs.
Proof using Type.
  intros [Hp Hl Hcs He Hu Hr Hc [Hm Hn Hph Hb]] Hp' Hs Hk Hby. split; try done.
  - intros i e c Hi Hci. destruct (He i e c Hi Hci) as [E1 E2 E3 E4 E5]. split; try done.
    apply (chain_frame (pk_links (st_pool s))); [|done]. intros x Hx. by apply Hs, (in_lists _ i c).
  - apply (readies_kept s); [by split|exact Hk|done].
Qed.

(** The variables, without the table. *)
Lemma arp_vars s A U cs a : arp_ok s A U cs -> arp_table a = tbl s -> (forall c, arpcache a = Some c -> (c < MAXARPS)%nat) ->
  arp_ok (set_dev (mkInet a (hw_of s)) s) A U cs.
Proof using Type.
  intros [Hp Hl Hcs He Hu Hr Hc [Hm Hn Hph Hb]] Ht Ha. split; unfold tbl, arp_of in *; cbn; by rewrite ?Ht.
Qed.

(** One entry of the table; its packets stay. *)
Lemma arp_entry s A U cs tp e' c : arp_ok s A U cs -> cs !! tp = Some c -> ent_ok (pk_links (st_pool s)) e' c ->
  (forall j e, j <> tp -> tbl s !! j = Some e -> t_pro_addr e = t_pro_addr e' -> t_pro_addr e' = 0) ->
  arp_ok (set_dev (mkInet (set_table (<[tp := e']> (tbl s)) (arp_of s)) (hw_of s)) s) A U cs.
Proof using Type.
  intros [Hp Hl Hcs He Hu Hr Hc [Hm Hn Hph Hb]] Htp He' Hun. split; try done.
  - cbn. by rewrite length_insert.
  - cbn. intros i e0 c0 [(<- & <- & _)|[Hne Hi]]%list_lookup_insert_Some Hc0; [by simplify_eq|by eapply He].
  - cbn. intros i j e1 e2 [(<- & <- & _)|[Hi Hi']]%list_lookup_insert_Some [(<- & <- & _)|[Hj Hj']]%list_lookup_insert_Some E Hz; try done.
    + exfalso. apply Hz. by eapply (Hun j e2); [congruence|..].
    + exfalso. apply Hz. rewrite E. by eapply (Hun i e1); [congruence|..].
    + by eapply Hu.
Qed.

(** ** Steps *)

Lemma alter_put {A} (f : A -> A) (i : nat) (l : list A) x : l !! i = Some x -> alter f i l = <[i := f x]> l.
Proof using Type. intros Hx. rewrite list_insert_alter. apply list_alter_ext; [|done]. intros y Hy. congruence. Qed.

Lemma get_buf_eq (s : NetSt (Inet D)) x b : pk_bufs (st_pool s) !! x = Some b -> get_buf x s = Done (b, s).
Proof using Type. intros E. unfold get_buf. by rewrite E. Qed.

Lemma get_net_eq (s : NetSt (Inet D)) i n : st_nets s !! i = Some n -> get_net i s = Done (n, s).
Proof using Type. intros E. unfold get_net. by rewrite E. Qed.

Lemma get_ent_eq s tp e : tbl s !! tp = Some e -> get_ent tp s = Done (e, s).
Proof using Type. intros E. unfold get_ent. unfold tbl, arp_of in E. by rewrite E. Qed.

Lemma upd_ent_eq s tp e f : tbl s !! tp = Some e ->
  upd_ent tp f s = Done (tt, set_dev (mkInet (set_table (<[tp := f e]> (tbl s)) (arp_of s)) (hw_of s)) s).
Proof using Type.
  intros E. rewrite <- (alter_put f) by done. done.
Qed.

Lemma upd_buf_eq (s : NetSt (Inet D)) x b f b' : pk_bufs (st_pool s) !! x = Some b -> f b = Some b' ->
  upd_buf x f s = Done (tt, set_pool (set_bufs (<[x := b']> (pk_bufs (st_pool s))) (st_pool s)) s).
Proof using Type. intros Hb Hf. unfold upd_buf, pool_do. by rewrite Hb, Hf. Qed.

Lemma phys_eq s i n : st_nets s !! i = Some n -> n_local n = true -> ifPhysAddress i s = Done (mac_of s, s).
Proof using Type. intros Hn Hl. unfold ifPhysAddress, get_local, get_net, nbind. rewrite Hn. cbn. by rewrite Hl. Qed.

Lemma base_net s i n : base_ok s -> st_nets s !! i = Some n -> n_local n = true /\ is_Some (pkt_send n).
Proof using Type. intros Hb Hn. exact (Forall_lookup_1 _ _ _ _ (bo_nets _ Hb) Hn). Qed.

(** Successive writes into a block. *)
Lemma write_block_seq {A} x f g (k : unit -> N (Inet D) A) s :
  nbind (write_block x f) (fun _ => nbind (write_block x g) k) s =
  nbind (write_block x (fun l => let? l := f l in g l)) k s.
Proof using Type.
  unfold nbind, write_block, upd_buf, pool_do. destruct (pk_bufs (st_pool s) !! x) as [b|] eqn:Hb; [|done]. cbn.
  destruct (f (nb_mem b)) as [m|]; [|done]. cbn. rewrite list_lookup_insert_eq by (by eapply lookup_lt_Some). cbn.
  destruct (g m) as [m'|]; [|done]. cbn. by rewrite list_insert_insert_eq.
Qed.

(** ** Sending *)

Lemma upd_at_rcv b x A : upd_at (size_queue b) (A (size_queue b) ++ [x]) A Rcv = A Rcv.
Proof using Type.
  unfold upd_at. destruct (decide _) as [E|]; [|done]. unfold size_queue in E. by destruct (_ =? _).
Qed.

Lemma net_send_ok s A U cs x b i n : arp_ok s A (x :: U) cs -> pk_bufs (st_pool s) !! x = Some b -> nb_inuse b = 1 ->
  marked b -> sendable b -> nb_net b = Some i -> st_nets s !! i = Some n ->
  exists s', net_send mac_send i x s = Done (0, s') /\
    arp_ok s' (upd_at (size_queue b) (A (size_queue b) ++ [x]) A) U cs /\ calm s s' /\
    sent_of s' = sent_of s ++ [frame_of b] /\ arp_of s' = arp_of s /\
    pk_bufs (st_pool s') = <[x := set_inuse 0 b]> (pk_bufs (st_pool s)) /\
    same_at (concat cs) (pk_links (st_pool s)) (pk_links (st_pool s')).
Proof using Type.
  intros HA Hb Hu Hm Hs Hi Hn. pose proof (ao_base _ _ _ _ HA) as HB. destruct (base_net s i n HB Hn) as [Hloc [f Hf]].
  destruct (ch_free _ _ _ _ x b (ao_pool _ _ _ _ HA) Hb Hu Hm) as (p' & Ef & Hp' & Ebufs & _ & Hsame).
  destruct (mac_law (with_dev (hw_of s) s) x b i n) as (hw' & nets' & Es & Hmac & Hns & Hsent); [apply HB|done..|].
  exists (set_pool p' (set_nets nets' (set_dev (mkInet (arp_of s) hw') s))).
  assert (Hcalm : calm s (set_nets nets' (set_dev (mkInet (arp_of s) hw') s))) by by split.
  assert (HA' : arp_ok (set_nets nets' (set_dev (mkInet (arp_of s) hw') s)) A (x :: U) cs).
  { destruct HA as [Hp Hl Hcs He Hun Hr Hc [HBm HBn HBp HBb]]. split; try done.
    - by apply (readies_kept s).
    - split; try done. cbn. apply Forall_lookup. intros j m Hj.
      destruct (Forall2_lookup_r _ _ _ j m Hns Hj) as (m0 & Hm0 & []). rewrite ns_local0, ns_send0. exact (Forall_lookup_1 _ _ _ _ HBn Hm0). }
  split_and!; try done.
  - unfold net_send. rewrite (nbind_eq _ _ _ _ _ (get_net_eq s i n Hn)), Hf. unfold lift_hw. change (inet_hw (st_dev s)) with (hw_of s). rewrite Es.
    unfold nbind, pool_do. cbn. by rewrite Ef.
  - apply (arp_pool _ _ _ _ _ _ _ HA' Hp' Hsame); rewrite Ebufs; cbn.
    + intros y Hy. apply list_lookup_insert_ne. intros ->. apply (ch_other _ _ _ _ (ao_pool _ _ _ _ HA') y); [by left|done].
    + intros y c [(<- & <- & _)|[_ Hy]]%list_lookup_insert_Some; [exact (bo_bytes s HB x b Hb)|exact (bo_bytes s HB y c Hy)].
Qed.

Lemma mem_byte_around p n mid l j : 0 <= p -> p + Z.of_nat n <= Z.of_nat (length l) -> length mid = n ->
  j < p \/ p + Z.of_nat n <= j ->
  mem_byte (take (Z.to_nat p) l ++ mid ++ drop (Z.to_nat p + n) l) j = mem_byte l j.
Proof using Type.
  intros H0 Hl Hm Hj. unfold mem_byte. destruct (Z.ltb_spec j 0); [done|].
  assert (Ht : length (take (Z.to_nat p) l) = Z.to_nat p) by (rewrite length_take; lia). destruct Hj as [Hj|Hj].
  - rewrite lookup_app_l by lia. apply lookup_take_lt. lia.
  - rewrite lookup_app_r by lia. rewrite lookup_app_r by lia. rewrite lookup_drop. f_equal. lia.
Qed.

(** The packet once the header is in place. *)
Definition with_header (dst src : list Z) (b : netbuf) : netbuf :=
  let p := nb_prot b - ETHHDR_SIZE + ETHHDR_BIAS in
  set_mem (take (Z.to_nat p) (nb_mem b) ++ (dst ++ src ++ [0x08; 0x00]) ++ drop (Z.to_nat p + 14) (nb_mem b)) (eth_fields b).

Lemma with_header_ok dst src b : buf_ok b -> outgoing b -> length dst = 6%nat -> bytes dst -> length src = 6%nat -> bytes src ->
  sendable (with_header dst src b) /\ marked (with_header dst src b) /\ buf_ok (with_header dst src b) /\
  bytes (nb_mem (with_header dst src b)) /\ frame_of (with_header dst src b) = ip_frame dst src b.
Proof using Type.
  intros Hok [Hu Hm Hroom Hs] Hd Hdb Hsr Hsb. destruct (block_room b Hok) as [Eb Hlen]. pose proof (bo_mem b Hok) as El. unfold ALIGN_TYPE in El.
  pose proof Hs as [H1 H2 H3 H4]. unfold send_from, eth_fields, set_prot, ETHHDR_SIZE, ETHHDR_BIAS in *. cbn in H1, H2, H3, H4.
  set (p := nb_prot b - 16 + 2) in *. assert (Ep : p = nb_prot b - 14) by (unfold p; lia). assert (Hlast : p + 14 < Z.of_nat (length (nb_mem b))).
  { pose proof (half_up_double (send_len (eth_fields b))) as Hh. unfold send_len, eth_fields, set_prot, ETHHDR_SIZE, ETHHDR_BIAS in Hh, H3.
    cbn in Hh, H3. lia. }
  set (hdr := dst ++ src ++ [8; 0]). assert (Hh14 : length hdr = 14%nat) by (unfold hdr; rewrite !length_app; cbn; lia).
  unfold with_header, ETHHDR_SIZE, ETHHDR_BIAS. fold p hdr. set (l := take (Z.to_nat p) (nb_mem b) ++ hdr ++ drop (Z.to_nat p + 14) (nb_mem b)).
  assert (Hl : length l = length (nb_mem b)) by (unfold l; rewrite !length_app, length_take, length_drop; lia).
  assert (Hby : bytes l).
  { unfold l, hdr. apply bytes_app. split; [by apply bytes_take|]. apply bytes_app. split; [|by apply bytes_drop].
    apply bytes_app. split; [done|]. apply bytes_app. split; [done|]. repeat constructor; done. }
  split_and!; try done.
  - split; cbn; try done. by rewrite Hl.
  - apply (marks_ext b); [done..| |done]. cbn. intros j Hj. apply mem_byte_around; lia.
  - destruct Hok. split; cbn; try done. by rewrite Hl.
  - unfold frame_of, ip_frame, send_from, send_len. cbn. unfold ETHHDR_SIZE, ETHHDR_BIAS. fold p.
    replace (nb_plen b + 16 - 2) with (nb_plen b + 14) by lia. unfold l. rewrite drop_app_length' by (rewrite length_take; lia).
    replace (Z.to_nat p + 14)%nat with (Z.to_nat (nb_prot b)) by lia. unfold hdr. by rewrite <- !app_assoc.
Qed.

(** A write into a packet in other hands. *)
Lemma arp_write s A U cs x b : arp_ok s A U cs -> x ∈ U -> buf_ok b -> 1 <= nb_inuse b < 2 ^ 32 -> bytes (nb_mem b) ->
  arp_ok (set_pool (set_bufs (<[x := b]> (pk_bufs (st_pool s))) (st_pool s)) s) A U cs.
Proof using Type.
  intros HA Hx Hok Hu Hby. apply (arp_pool s A U); [done|..].
  - apply ch_write; [by apply HA|apply elem_of_app; by right|done..].
  - by intros y Hy.
  - cbn. intros y Hy. apply list_lookup_insert_ne. intros ->. by apply (ch_other _ _ _ _ (ao_pool _ _ _ _ HA) y).
  - cbn. intros y c [(<- & <- & _)|[_ Hy]]%list_lookup_insert_Some; [done|]. exact (bo_bytes s (ao_base _ _ _ _ HA) y c Hy).
Qed.

Lemma arp_buf s A U cs x b : arp_ok s A U cs -> pk_bufs (st_pool s) !! x = Some b -> buf_ok b /\ bytes (nb_mem b).
Proof using Type.
  intros HA Hb. split; [exact (po_buf _ _ _ (ao_pool _ _ _ _ HA) x b Hb)|exact (bo_bytes s (ao_base _ _ _ _ HA) x b Hb)].
Qed.

Lemma arp_row s A U cs tp e : arp_ok s A U cs -> tbl s !! tp = Some e ->
  exists c, cs !! tp = Some c /\ ent_ok (pk_links (st_pool s)) e c.
Proof using Type.
  intros HA He. pose proof (ao_len _ _ _ _ HA) as E1. pose proof (ao_lists _ _ _ _ HA) as E2.
  destruct (lookup_lt_is_Some_2 cs tp) as [c Hc]; [apply lookup_lt_Some in He; lia|]. exists c. split; [done|].
  by eapply (ao_ents _ _ _ _ HA).
Qed.

(** The steps of et_send before the packet goes to the driver. *)
Lemma et_send_steps s x tp e b i n : pk_bufs (st_pool s) !! x = Some b -> nb_net b = Some i -> st_nets s !! i = Some n ->
  n_local n = true -> tbl s !! tp = Some e -> at_flags e = 0 -> length (t_phy_addr e) = 6%nat -> length (mac_of s) = 6%nat ->
  outgoing b -> buf_ok b ->
  let s1 := set_dev (mkInet (set_table (<[tp := set_last (cticks s) e]> (tbl s)) (arp_of s)) (hw_of s)) s in
  et_send mac_send x tp s =
  net_send mac_send i x (set_pool (set_bufs (<[x := with_header (t_phy_addr e) (mac_of s) b]> (pk_bufs (st_pool s1))) (st_pool s1)) s1).
Proof using Type.
  intros Hb Hi Hn Hloc He Hfl H6 Hp6 [Hu Hm Hroom [H1 H2 H3 _]] Hok s1. cbn in H1, H2. unfold ETHHDR_SIZE, ETHHDR_BIAS in Hroom, H1, H2.
  destruct (block_room b Hok) as [Eb Hlen]. set (p := nb_prot b - ETHHDR_SIZE + ETHHDR_BIAS).
  assert (Hroom2 : p + 14 <= Z.of_nat (length (nb_mem b))).
  { pose proof (half_up_double (send_len (eth_fields b))) as Hh. unfold send_from, send_len, eth_fields, set_prot, ETHHDR_SIZE, ETHHDR_BIAS in Hh, H3.
    cbn in Hh, H3. unfold p, ETHHDR_SIZE, ETHHDR_BIAS. lia. }
  assert (Hp0 : 0 <= p) by (unfold p, ETHHDR_SIZE, ETHHDR_BIAS; lia).
  unfold et_send. rewrite (nbind_eq _ _ _ _ _ (get_buf_eq s x b Hb)), Hi. fold p.
  rewrite (nbind_eq (nonnull (Some i)) _ s i s), (nbind_eq (ngets cticks) _ s (cticks s) s) by done.
  rewrite (nbind_eq _ _ _ _ _ (upd_ent_eq s tp e _ He)). fold s1.
  set (s2 := set_pool (set_bufs (<[x := eth_fields b]> (pk_bufs (st_pool s1))) (st_pool s1)) s1).
  rewrite (nbind_eq (upd_buf x _) _ s1 tt s2).
  2: { apply (upd_buf_eq s1 x b); [done|]. unfold eth_fields. by rewrite u32_small by (unfold ETHHDR_SIZE; word_lia). }
  rewrite (proj2 (Z.ltb_ge _ _)) by (unfold p, ETHHDR_SIZE, ETHHDR_BIAS; lia).
  rewrite (nbind_eq _ _ _ _ _ (get_ent_eq s2 tp (set_last (cticks s) e) ltac:(cbn; apply list_lookup_insert_eq; by eapply lookup_lt_Some))).
  rewrite (nbind_eq _ _ _ _ _ (phys_eq s2 i n Hn Hloc)). cbn [t_phy_addr set_last at_flags]. rewrite Hfl.
  change (negb (Z.land 0 (Z.lor ET_ETH2 ET_SNAP) =? ET_SNAP)) with true. cbn iota. rewrite !write_block_seq.
  rewrite (nbind_eq (write_block x _) _ s2 tt (set_pool (set_bufs (<[x := with_header (t_phy_addr e) (mac_of s) b]> (pk_bufs (st_pool s2))) (st_pool s2)) s2)).
  - cbn. by rewrite list_insert_insert_eq.
  - apply (upd_buf_eq s2 x (eth_fields b)); [cbn; apply list_lookup_insert_eq; by eapply lookup_lt_Some|].
    change (nb_mem (eth_fields b)) with (nb_mem b). change (mac_of s2) with (mac_of s). pose proof (eth_header_spec p (t_phy_addr e) (mac_of s) (htons ARPIP) (nb_mem b) Hp0 Hroom2 H6 Hp6) as E.
    destruct (put_bytes (t_phy_addr e) _ _) as [l1|]; [|done]. destruct (put_bytes (mac_of s) _ l1) as [l2|]; [|done]. by rewrite E.
Qed.

(** What the sending of packet [x] with the address in entry [tp] leaves. *)
Record et_sent (s s' : NetSt (Inet D)) (A A' : Qid -> list nat) (cs : list (list nat)) (x tp : nat) (b : netbuf) (e : arptabent) : Prop := {
  es_calm : calm s s';
  es_sent : sent_of s' = sent_of s ++ [ip_frame (t_phy_addr e) (mac_of s) b];
  es_arp : arp_of s' = set_table (<[tp := set_last (cticks s) e]> (tbl s)) (arp_of s);
  es_bufs : forall y, y <> x -> pk_bufs (st_pool s') !! y = pk_bufs (st_pool s) !! y;
  es_links : same_at (concat cs) (pk_links (st_pool s)) (pk_links (st_pool s'));
  es_free : forall k, (length (A k) <= length (A' k))%nat;
  es_rcv : A' Rcv = A Rcv;
}.

Lemma et_send_ok s A U cs x tp e : arp_ok s A (x :: U) cs -> ready s x -> tbl s !! tp = Some e ->
  exists b s' A', pk_bufs (st_pool s) !! x = Some b /\ et_send mac_send x tp s = Done (0, s') /\ arp_ok s' A' U cs /\
    et_sent s s' A A' cs x tp b e.
Proof using Type.
  intros HA (b & i & Hb & Hi & [n Hn] & Ho) He. destruct (arp_buf _ _ _ _ _ _ HA Hb) as [Hok Hby].
  destruct (arp_row _ _ _ _ _ _ HA He) as (c & Hc & [E1 E2 E3 [E4 E5] E6]). pose proof (ao_base _ _ _ _ HA) as HB.
  destruct (base_net s i n HB Hn) as [Hloc _]. destruct (bo_phys s HB) as [Hp6 Hpb].
  set (e' := set_last (cticks s) e). set (s1 := set_dev (mkInet (set_table (<[tp := e']> (tbl s)) (arp_of s)) (hw_of s)) s).
  assert (HA1 : arp_ok s1 A (x :: U) cs).
  { apply (arp_entry s A (x :: U) cs tp e' c); [done..| |]; [by split|]. intros j e0 Hj H0 E.
    destruct (decide (t_pro_addr e = 0)) as [|Hz]; [done|]. destruct Hj.
    cbn in E. apply (ao_unique _ _ _ _ HA j tp e0 e); congruence. }
  set (b2 := with_header (t_phy_addr e) (mac_of s) b).
  destruct (with_header_ok (t_phy_addr e) (mac_of s) b) as (Hs2 & Hm2 & Hok2 & Hby2 & Ef); [done..|]. fold b2 in Hs2, Hm2, Hok2, Hby2, Ef.
  pose proof Ho as [Hu Hm Hroom [H1 H2 H3 _]]. cbn in H1, H2. unfold ETHHDR_SIZE, ETHHDR_BIAS in Hroom, H1, H2.
  set (s2 := set_pool (set_bufs (<[x := b2]> (pk_bufs (st_pool s1))) (st_pool s1)) s1).
  assert (HA2 : arp_ok s2 A (x :: U) cs).
  { apply arp_write; [done|by left|done| |done]. cbn. by rewrite Hu. }
  destruct (net_send_ok s2 A U cs x b2 i n) as (s' & Es & HA' & Hcalm & Hsent & Harp & Hbufs & Hsame); try done.
  { cbn. apply list_lookup_insert_eq. by eapply lookup_lt_Some. }
  exists b, s', (upd_at (size_queue b2) (A (size_queue b2) ++ [x]) A). split; [done|]. split; [|split; [done|split]].
  - rewrite (et_send_steps s x tp e b i n) by done. exact Es.
  - etrans; [|exact Hcalm]. by split.
  - by rewrite Hsent, Ef.
  - done.
  - intros y Hy. rewrite Hbufs. cbn. by rewrite !list_lookup_insert_ne.
  - done.
  - intros k. unfold upd_at. destruct (decide _) as [->|]; [rewrite length_app; lia|done].
  - apply upd_at_rcv.
Qed.

End State.
