(* ===== verification/ArpTable.v ===== *)
(** * ArpTable

    The ARP table: releasing and sending the packets that wait in an entry, ageing, and
    the choice and making of an entry. *)

From stdpp Require Import sets.
From S2P Require Import Prelude NetQueue PktPool PktFacts PktChain KernelData Kernel KernelSem NetDev Dm9000a Dm9000aFacts DmRx NetPath NetProps NetDemux Arp ArpWire ArpFacts.

(** ** Lists of lists *)

Lemma concat_put {A} (cs : list (list A)) i c c' : cs !! i = Some c ->
  concat (<[i := c']> cs) ≡ₚ c' ++ concat (<[i := []]> cs).
Proof.
  revert i. induction cs as [|d cs IH]; intros [|i] Hc; cbn in *; [done..|].
  rewrite (IH i Hc), !app_assoc. by rewrite (Permutation_app_comm d c').
Qed.

Lemma concat_take_out {A} (cs : list (list A)) i x c : cs !! i = Some (x :: c) ->
  concat cs ≡ₚ x :: concat (<[i := c]> cs).
Proof.
  intros Hc. rewrite (concat_put cs i (x :: c) c) by done. rewrite <- (list_insert_id cs i (x :: c)) at 1 by done.
  by rewrite (concat_put cs i (x :: c)).
Qed.

Lemma concat_put_elem {A} (cs : list (list A)) i c c' x : cs !! i = Some c ->
  x ∈ concat (<[i := c']> cs) <-> x ∈ c' \/ x ∈ concat (<[i := []]> cs).
Proof. intros Hc. rewrite (concat_put cs i c c' Hc). apply elem_of_app. Qed.

Section Table.
Context {D : Type} `{Mac D}.

(** ** The packets of an entry *)

(** Work that leaves the packets in [cs] and [U] as they are. *)
Record tidy (s s' : NetSt (Inet D)) (A A' : Qid -> list nat) (U : list nat) (cs : list (list nat)) : Prop := {
  ti_calm : calm s s';
  ti_hw : hw_of s' = hw_of s;
  ti_bufs : forall y, y ∈ U \/ y ∈ concat cs -> pk_bufs (st_pool s') !! y = pk_bufs (st_pool s) !! y;
  ti_links : same_at (concat cs) (pk_links (st_pool s)) (pk_links (st_pool s'));
  ti_free : forall k, (length (A k) <= length (A' k))%nat;
  ti_rcv : A' Rcv = A Rcv;
  ti_len : length (pk_bufs (st_pool s')) = length (pk_bufs (st_pool s));
}.

Lemma tidy_refl s A U cs : tidy s s A A U cs.
Proof using Type. by split. Qed.

Lemma tidy_trans s s1 s2 A A1 A2 U cs cs' : tidy s s1 A A1 U cs -> tidy s1 s2 A1 A2 U cs' ->
  (forall x, x ∈ concat cs' -> x ∈ concat cs) -> tidy s s2 A A2 U cs'.
Proof using Type.
  intros [C1 H1 B1 L1 F1 R1 N1] [C2 H2 B2 L2 F2 R2 N2] Hs. split.
  - by etrans.
  - congruence.
  - intros y Hy. rewrite B2 by done. apply B1. destruct Hy; auto.
  - intros y Hy. rewrite L2 by done. by apply L1, Hs.
  - intros k. etrans; [apply F1|apply F2].
  - congruence.
  - congruence.
Qed.

Lemma size_queue_free (b : netbuf) x (A : Qid -> list nat) k :
  (length (A k) <= length (upd_at (size_queue b) (A (size_queue b) ++ [x]) A k))%nat.
Proof using Type. unfold upd_at. destruct (decide _) as [->|]; [rewrite length_app; lia|done]. Qed.

(** A packet leaves its chain: [x->next = NULL]. *)
Lemma leave_chain p A R U x c : chained p A ((x :: c) ++ R) U ->
  chained (set_links (<[x := None]> (pk_links p)) p) A (c ++ R) (x :: U).
Proof using Type.
  intros Hp. pose proof (ch_nodup _ _ _ _ Hp) as Hn. cbn in Hn. apply NoDup_cons in Hn as [Hx _].
  assert (Hlt : (x < length (pk_links p))%nat) by (apply (chain_range _ _ _ _ Hp x); cbn; by left).
  apply (ch_move p A ((x :: c) ++ R) U); [done| |apply length_insert|..].
  - cbn. by rewrite Permutation_middle.
  - intros y Hy _. apply list_lookup_insert_ne. intros ->. apply Hy. by left.
  - intros y [->|Hy]%elem_of_cons; [right; by apply list_lookup_insert_eq|by left].
  - intros y Hy. left. by right.
Qed.

Lemma free_chain_ok c : forall fuel (s : NetSt (Inet D)) A R U, chained (st_pool s) A (c ++ R) U ->
  chain (pk_links (st_pool s)) c ->
  Forall (fun x => exists b, pk_bufs (st_pool s) !! x = Some b /\ nb_inuse b = 1 /\ marked b) c -> (length c <= fuel)%nat ->
  exists p A', free_chain fuel (head c) s = Done (tt, set_pool p s) /\ chained p A' R U /\
    same_at R (pk_links (st_pool s)) (pk_links p) /\
    (forall y, y ∉ c -> pk_bufs p !! y = pk_bufs (st_pool s) !! y) /\
    (forall y b, pk_bufs p !! y = Some b -> exists b0, pk_bufs (st_pool s) !! y = Some b0 /\ nb_mem b = nb_mem b0) /\
    (forall k, (length (A k) <= length (A' k))%nat) /\ A' Rcv = A Rcv /\ length (pk_bufs p) = length (pk_bufs (st_pool s)).
Proof using Type.
  induction c as [|x c IH]; intros fuel s A R U Hp Hc Hb Hf.
  - exists (st_pool s), A. split_and!; try done; [by destruct fuel, s|]. intros y b Hy. by exists b.
  - destruct fuel as [|fuel]; [cbn in Hf; lia|]. cbn in Hc. destruct Hc as [Hx Hc].
    apply Forall_cons in Hb as [(b & Hxb & Hu & Hm) Hb]. pose proof (ch_nodup _ _ _ _ Hp) as Hn. cbn in Hn. apply NoDup_cons in Hn as [Hxn _].
    pose proof (leave_chain _ _ _ _ _ _ Hp) as Hp1. set (p1 := set_links _ _) in Hp1.
    destruct (ch_free p1 A (c ++ R) U x b Hp1 Hxb Hu Hm) as (p2 & Ef & Hp2 & Ebufs & _ & Hsame).
    assert (Hlt : (x < length (pk_links (st_pool s)))%nat) by by eapply lookup_lt_Some.
    assert (Hsame' : same_at (c ++ R) (pk_links (st_pool s)) (pk_links p2)).
    { intros y Hy. rewrite (Hsame y Hy). apply list_lookup_insert_ne. intros ->. set_solver. }
    assert (Hne : forall y, y ∈ c -> y <> x) by (set_solver).
    destruct (IH fuel (set_pool p2 s) _ R U Hp2) as (p & A' & E & Hp' & Hs & Hk & Hmem & Hfr & Hr & Hnn).
    { apply (chain_frame (pk_links (st_pool s))); [|done]. intros y Hy. apply Hsame', elem_of_app. by left. }
    { apply Forall_forall. intros y Hy. rewrite Forall_forall in Hb. destruct (Hb y Hy) as (b' & Hb' & ?). exists b'. split; [|done].
      cbn. rewrite Ebufs. cbn. rewrite list_lookup_insert_ne; [done|]. by apply not_eq_sym, Hne. }
    { cbn in Hf. lia. }
    exists p, A'. split_and!; try done.
    + cbn [free_chain head]. rewrite (nbind_eq (get_next x) _ s (head c) s) by (unfold get_next; by rewrite Hx).
      rewrite (nbind_eq (put_next x None) _ s tt (set_pool p1 s)) by (unfold put_next, pool_do; by rewrite set_next_lt).
      rewrite (nbind_eq (pool_do (pk_free x)) _ (set_pool p1 s) tt (set_pool p2 s)) by (unfold pool_do; cbn; by rewrite Ef). exact E.
    + intros y Hy. rewrite (Hs y Hy). apply Hsame', elem_of_app. by right.
    + intros y Hy. rewrite Hk by (intros ?; apply Hy; by right). cbn. rewrite Ebufs. apply list_lookup_insert_ne. intros ->. apply Hy. by left.
    + intros y b' Hy. destruct (Hmem y b' Hy) as (b0 & Hb0 & E0). cbn in Hb0. rewrite Ebufs in Hb0.
      apply list_lookup_insert_Some in Hb0 as [(<- & <- & _)|[_ Hb0]]; [by exists b|by exists b0].
    + intros k. etrans; [apply size_queue_free|apply Hfr].
    + rewrite Hr. apply upd_at_rcv.
    + rewrite Hnn. cbn. by rewrite Ebufs, length_insert.
Qed.

(** An entry gets other packets (or none), and the pool follows. *)
Lemma arp_replace s A U cs tp e e' c c' p A' U' : arp_ok s A U cs -> tbl s !! tp = Some e -> cs !! tp = Some c ->
  chained p A' (concat (<[tp := c']> cs)) U' -> same_at (concat (<[tp := []]> cs)) (pk_links (st_pool s)) (pk_links p) ->
  ent_ok (pk_links p) e' c' -> t_pro_addr e' = t_pro_addr e \/ t_pro_addr e' = 0 ->
  let s' := set_pool p (set_dev (mkInet (set_table (<[tp := e']> (tbl s)) (arp_of s)) (hw_of s)) s) in
  Forall (ready s') (concat (<[tp := c']> cs)) ->
  (forall y b, pk_bufs p !! y = Some b -> bytes (nb_mem b)) -> arp_ok s' A' U' (<[tp := c']> cs).
Proof using Type.
  intros [Hp Hl Hcs He Hu Hr Hc [Hm Hn Hph Hb]] Htp Hctp Hp' Hsame He' Ha s' Hr' Hby. split; try done.
  - cbn. by rewrite length_insert.
  - by rewrite length_insert.
  - cbn. intros i e0 c0 [(<- & <- & _)|[Hne Hi]]%list_lookup_insert_Some [(? & ? & _)|[? Hi']]%list_lookup_insert_Some;
      [by subst|done|done|].
    destruct (He i e0 c0 Hi Hi') as [E1 E2 E3 E4 E5]. split; try done.
    apply (chain_frame (pk_links (st_pool s))); [|done]. intros y Hy. apply Hsame, (in_lists _ i c0); [|done].
    by rewrite list_lookup_insert_ne.
  - cbn. intros i j e1 e2 [(<- & <- & _)|[Hi Hi']]%list_lookup_insert_Some [(<- & <- & _)|[Hj Hj']]%list_lookup_insert_Some E Hz; try done.
    + destruct Ha as [Ha|Ha]; [|done]. apply (Hu tp j e e2); congruence.
    + destruct Ha as [Ha|Ha]; [|congruence]. apply (Hu i tp e1 e); congruence.
    + by eapply Hu.
Qed.

Lemma waiting s A U cs i c x : arp_ok s A U cs -> cs !! i = Some c -> x ∈ c ->
  exists b, pk_bufs (st_pool s) !! x = Some b /\ nb_inuse b = 1 /\ marked b.
Proof using Type.
  intros HA Hc Hx. destruct (proj1 (Forall_forall _ _) (ao_ready _ _ _ _ HA) x (in_lists _ _ _ _ Hc Hx)) as (b & _ & Hb & _ & _ & []).
  by exists b.
Qed.

(** The packets of one entry, apart from the others. *)
Lemma chain_apart s A U cs tp c : arp_ok s A U cs -> cs !! tp = Some c ->
  chained (st_pool s) A (c ++ concat (<[tp := []]> cs)) U /\ NoDup (c ++ concat (<[tp := []]> cs)) /\
  (length c <= length (pk_links (st_pool s)))%nat /\ (forall y, y ∈ U -> y ∉ c).
Proof using Type.
  intros HA Hc. pose proof (ao_pool _ _ _ _ HA) as Hp. assert (E : concat cs ≡ₚ c ++ concat (<[tp := []]> cs)).
  { rewrite <- (concat_put cs tp c) by done. by rewrite list_insert_id. }
  assert (Hn : NoDup (c ++ concat (<[tp := []]> cs))).
  { rewrite <- E. pose proof (ch_nodup _ _ _ _ Hp) as Hn. by apply NoDup_app in Hn as [Hn _]. }
  split_and!; [|done| |].
  - pose proof (ch_move _ A (concat cs) U (c ++ concat (<[tp := []]> cs)) U (pk_links (st_pool s)) Hp) as Hm.
    destruct (st_pool s); apply Hm; [by rewrite E|done..|intros y; rewrite E; auto|intros y; rewrite E; auto].
  - rewrite <- (length_seq (length (pk_links (st_pool s))) 0). apply submseteq_length, NoDup_submseteq; [by apply NoDup_app in Hn as [Hn _]|].
    intros y Hy. apply elem_of_seq. split; [lia|]. apply (chain_range _ _ _ _ Hp), elem_of_app. left. by apply (in_lists _ tp c).
  - intros y Hy Hyc. apply (ch_other _ _ _ _ Hp y Hy). by apply (in_lists _ tp c).
Qed.

(** An entry that becomes unused, without packets. *)
Definition cleared (e : arptabent) : arptabent := set_addr 0 (set_pending None e).

Lemma arp_free_pending_ok s A U cs tp e : arp_ok s A U cs -> tbl s !! tp = Some e ->
  exists s' A', arp_free_pending tp s = Done (tt, s') /\ arp_ok s' A' U (<[tp := []]> cs) /\
    tidy s s' A A' U (<[tp := []]> cs) /\ arp_of s' = set_table (<[tp := cleared e]> (tbl s)) (arp_of s).
Proof using Type.
  intros HA He. destruct (arp_row _ _ _ _ _ _ HA He) as (c & Hc & Hent). pose proof Hent as [E1 E2 E3 E4 E5].
  destruct (chain_apart _ _ _ _ _ _ HA Hc) as (Hp & Hn & Hl & Ho).
  destruct (free_chain_ok c (S (length (pk_links (st_pool s)))) (set_dev (mkInet (set_table (<[tp := set_pending None e]> (tbl s)) (arp_of s)) (hw_of s)) s) A _ U Hp)
    as (p & A' & E & Hp' & Hs & Hk & Hmem & Hfr & Hr & Hnn); [done| |lia|].
  { apply Forall_forall. intros x Hx. by apply (waiting _ _ _ _ _ _ _ HA Hc). }
  assert (Hlt : (tp < length (tbl s))%nat) by by eapply lookup_lt_Some.
  exists (set_pool p (set_dev (mkInet (set_table (<[tp := cleared e]> (tbl s)) (arp_of s)) (hw_of s)) s)), A'.
  assert (Hk' : forall y, y ∈ U \/ y ∈ concat (<[tp:=[]]> cs) -> pk_bufs p !! y = pk_bufs (st_pool s) !! y).
  { intros y [Hy|Hy]; apply Hk; [by apply Ho|]. apply NoDup_app in Hn as (_ & Hd & _). intros Hyc. by apply (Hd y). }
  split_and!.
  - unfold arp_free_pending. rewrite (nbind_eq _ _ _ _ _ (get_ent_eq s tp e He)), (nbind_eq _ _ _ _ _ (upd_ent_eq s tp e _ He)).
    unfold links_bound. rewrite (nbind_eq (ngets _) _ _ _ _ eq_refl), E1.
    match goal with |- nbind (free_chain ?n _) _ _ = _ => change n with (S (length (pk_links (st_pool s)))) end.
    rewrite (nbind_eq _ _ _ _ _ E). rewrite (upd_ent_eq _ tp (set_pending None e)) by (cbn; by apply list_lookup_insert_eq).
    cbn. by rewrite list_insert_insert_eq.
  - apply (arp_replace s A U cs tp e (cleared e) c [] p A' U); try done; [by right| |].
    + apply (readies_kept s); [by split|intros y Hy; apply Hk'; by right|]. apply Forall_forall. intros y Hy.
      apply (proj1 (Forall_forall _ _) (ao_ready _ _ _ _ HA)). rewrite <- (list_insert_id cs tp c) by done.
      rewrite (concat_put_elem cs tp c) by done. by right.
    + intros y b Hy. destruct (Hmem y b Hy) as (b0 & Hb0 & ->). exact (bo_bytes s (ao_base _ _ _ _ HA) y b0 Hb0).
  - by split.
  - done.
Qed.

(** ** Sending what waits *)

(** The first packet of an entry is taken out of it. *)
Lemma take_pending s A U cs tp e x r : arp_ok s A U cs -> tbl s !! tp = Some e -> cs !! tp = Some (x :: r) ->
  let p1 := set_links (<[x := None]> (pk_links (st_pool s))) (st_pool s) in
  let s1 := set_pool p1 (set_dev (mkInet (set_table (<[tp := set_pending (head r) e]> (tbl s)) (arp_of s)) (hw_of s)) s) in
  arp_ok s1 A (x :: U) (<[tp := r]> cs) /\ ready s1 x /\ same_at (concat (<[tp := r]> cs)) (pk_links (st_pool s)) (pk_links p1).
Proof using Type.
  intros HA He Hc p1 s1. destruct (arp_row _ _ _ _ _ _ HA He) as (c & Hc' & Hent). simplify_eq. destruct Hent as [E1 [Ex E2] E3 E4 E5].
  destruct (chain_apart _ _ _ _ _ _ HA Hc) as (Hp & Hn & _ & _). cbn in Hn. apply NoDup_cons in Hn as [Hx Hn].
  assert (Hsame : same_at (r ++ concat (<[tp := []]> cs)) (pk_links (st_pool s)) (pk_links p1)).
  { intros y Hy. cbn. apply list_lookup_insert_ne. by intros ->. }
  assert (Hin : forall y, y ∈ concat (<[tp := r]> cs) -> y ∈ r ++ concat (<[tp := []]> cs)).
  { intros y. by rewrite (concat_put cs tp (x :: r) r Hc). }
  assert (Hready : Forall (ready s1) (x :: concat (<[tp := r]> cs))).
  { apply (readies_kept s); [by split|done|]. rewrite <- (concat_take_out cs tp x r) by done. apply HA. }
  split; [|split; [by apply Forall_cons in Hready as [? _]|by intros y Hy; apply Hsame, Hin]].
  apply (arp_replace s A U cs tp e (set_pending (head r) e) (x :: r) r p1 A (x :: U)); try done.
  - pose proof (leave_chain _ _ _ _ _ _ Hp) as Hp1. change (set_links _ _) with p1 in Hp1.
    pose proof (ch_move p1 A (r ++ concat (<[tp := []]> cs)) (x :: U) (concat (<[tp := r]> cs)) (x :: U) (pk_links p1) Hp1) as Hm.
    apply Hm; [by rewrite (concat_put cs tp (x :: r) r Hc)|done..|intros y; rewrite (concat_put cs tp (x :: r) r Hc); auto|intros y; rewrite (concat_put cs tp (x :: r) r Hc); auto].
  - intros y Hy. apply Hsame, elem_of_app. by right.
  - split; cbn; try done.
    + apply (chain_frame (pk_links (st_pool s))); [|done]. intros y Hy. apply Hsame, elem_of_app. by left.
    + intros Ha. by specialize (E3 Ha).
  - by left.
  - by apply Forall_cons in Hready as [_ ?].
  - intros y b Hy. exact (bo_bytes s (ao_base _ _ _ _ HA) y b Hy).
Qed.

(** An entry whose packets were sent. *)
Definition emptied (now : Z) (c : list nat) (e : arptabent) : arptabent :=
  match c with [] => e | _ => set_last now (set_pending None e) end.

(** The packets [c] of entry [tp] left, in order. *)
Record chain_sent (s s' : NetSt (Inet D)) (A A' : Qid -> list nat) (U : list nat) (cs : list (list nat)) (tp : nat)
    (e : arptabent) (c : list nat) : Prop := {
  cn_calm : calm s s';
  cn_sent : exists bs, Forall2 (fun x b => pk_bufs (st_pool s) !! x = Some b) c bs /\
    sent_of s' = sent_of s ++ (ip_frame (t_phy_addr e) (mac_of s) <$> bs);
  cn_arp : arp_of s' = set_table (<[tp := emptied (cticks s) c e]> (tbl s)) (arp_of s);
  cn_bufs : forall y, y ∉ c -> pk_bufs (st_pool s') !! y = pk_bufs (st_pool s) !! y;
  cn_links : same_at (concat (<[tp := []]> cs)) (pk_links (st_pool s)) (pk_links (st_pool s'));
  cn_rcv : A' Rcv = A Rcv;
}.

Lemma send_chain_ok c : forall fuel s A U cs tp e, arp_ok s A U cs -> tbl s !! tp = Some e -> cs !! tp = Some c ->
  (length c <= fuel)%nat -> exists s' A', send_chain mac_send fuel tp s = Done (tt, s') /\
    arp_ok s' A' U (<[tp := []]> cs) /\ chain_sent s s' A A' U cs tp e c.
Proof using Type.
  induction c as [|x r IH]; intros fuel s A U cs tp e HA He Hc Hf;
    destruct (arp_row _ _ _ _ _ _ HA He) as (c0 & Hc0 & [E1 E2 E3 E4 E5]); simplify_eq; cbn [head] in E1.
  - exists s, A. split; [|split; [by rewrite list_insert_id|]].
    + destruct fuel; cbn [send_chain]; by rewrite (nbind_eq _ _ _ _ _ (get_ent_eq s tp e He)), E1.
    + split; try done. * exists []. by rewrite app_nil_r. * cbn. rewrite list_insert_id by done. unfold tbl. by destruct (arp_of s).
  - destruct fuel as [|fuel]; [cbn in Hf; lia|]. destruct (take_pending _ _ _ _ _ _ _ _ HA He Hc) as (HA1 & Hrx & Hs1).
    set (p1 := set_links _ _) in *. set (s1 := set_pool _ _) in *. destruct E2 as [Ex E2].
    assert (Hlt : (tp < length (tbl s))%nat) by by eapply lookup_lt_Some.
    destruct (et_send_ok s1 A U (<[tp := r]> cs) x tp (set_pending (head r) e) HA1 Hrx) as (b & s2 & A2 & Hb & Es & HA2 & [C2 S2 T2 B2 L2 _ R2]).
    { cbn. by apply list_lookup_insert_eq. }
    set (e2 := set_last (cticks s) (set_pending (head r) e)).
    assert (T2' : arp_of s2 = set_table (<[tp := e2]> (tbl s)) (arp_of s)).
    { rewrite T2. cbn. by rewrite list_insert_insert_eq. }
    destruct (IH fuel s2 A2 U (<[tp := r]> cs) tp e2 HA2) as (s3 & A3 & E3' & HA3 & [C3 (bs & Hbs & S3) T3 B3 L3 R3]).
    { unfold tbl. rewrite T2'. cbn. by apply list_lookup_insert_eq. } { apply list_lookup_insert_eq. by eapply lookup_lt_Some. } { cbn in Hf. lia. }
    rewrite list_insert_insert_eq in HA3, L3. destruct (chain_apart _ _ _ _ _ _ HA Hc) as (_ & Hn & _ & _). cbn in Hn. apply NoDup_cons in Hn as [Hx Hn].
    exists s3, A3. split; [|split; [done|split]].
    + cbn [send_chain]. rewrite (nbind_eq _ _ _ _ _ (get_ent_eq s tp e He)), E1.
      rewrite (nbind_eq (get_next x) _ s (head r) s) by (unfold get_next; by rewrite Ex).
      rewrite (nbind_eq _ _ _ _ _ (upd_ent_eq s tp e _ He)).
      rewrite (nbind_eq (put_next x None) _ _ tt s1) by (unfold put_next, pool_do; cbn; rewrite set_next_lt by (by eapply lookup_lt_Some); done).
      rewrite (nbind_eq _ _ _ _ _ Es). exact E3'.
    + etrans; [|exact C3]. etrans; [|exact C2]. by split.
    + exists (b :: bs). split.
      * constructor; [done|]. apply Forall2_same_length_lookup_2; [by eapply Forall2_length|].
        intros i y b' Hy Hb'.
        rewrite <- (Forall2_lookup_lr _ _ _ _ _ _ Hbs Hy Hb'), B2; [done|]. intros ->. apply Hx, elem_of_app. left. by eapply list_elem_of_lookup_2.
      * rewrite S3, S2. unfold mac_of. rewrite (ca_dm _ _ C2). cbn. by rewrite <- app_assoc.
    + rewrite T3. unfold tbl. rewrite T2'. cbn. rewrite list_insert_insert_eq, (ca_ticks _ _ C2).
      change (cticks s1) with (cticks s). replace (emptied (cticks s) r e2) with (emptied (cticks s) (x :: r) e) by (by destruct r). done.
    + intros y Hy. rewrite B3, B2 by set_solver. done.
    + intros y Hy. rewrite (L3 y Hy), (L2 y); [apply (Hs1 y)|]; rewrite (concat_put cs tp (x :: r) r Hc); apply elem_of_app; by right.
    + by rewrite R3, R2.
Qed.

(** ** Ageing *)

(** Whether an entry is dropped at time [now], and what becomes of it and its packets. *)
Definition stale (now : Z) (e : arptabent) : bool :=
  match at_pending e with
  | Some _ => waited_long now e
  | None => negb (t_pro_addr e =? 0) && expired now e
  end.
Definition aged (now : Z) (e : arptabent) : arptabent := if stale now e then cleared e else e.
Definition aged_list (now : Z) (e : arptabent) (c : list nat) : list nat := if stale now e then [] else c.

Lemma cleared_none e : at_pending e = None -> cleared e = set_addr 0 e.
Proof using Type. destruct e. cbn. by intros ->. Qed.

Lemma tidy_sub s U cs tp c (c' : list nat) A : cs !! tp = Some c -> (forall y, y ∈ c' -> y ∈ c) ->
  arp_ok s A U cs -> forall y, y ∈ concat (<[tp := c']> cs) -> y ∈ concat cs.
Proof using Type.
  intros Hc Hs _ y. rewrite (concat_put_elem cs tp c c') by done. rewrite <- (list_insert_id cs tp c) at 2 by done.
  rewrite (concat_put_elem cs tp c c) by done. intros [Hy|Hy]; auto.
Qed.

Lemma clear_again s A U cs tp e : arp_ok s A U cs -> tbl s !! tp = Some e -> at_pending e = None ->
  exists s', upd_ent tp (set_addr 0) s = Done (tt, s') /\ arp_ok s' A U cs /\ tidy s s' A A U cs /\
    arp_of s' = set_table (<[tp := cleared e]> (tbl s)) (arp_of s).
Proof using Type.
  intros HA He Hn. destruct (arp_row _ _ _ _ _ _ HA He) as (c & Hc & [E1 E2 E3 E4 E5]). eexists.
  split; [by apply upd_ent_eq|]. rewrite cleared_none by done. split; [|split; [by split|done]].
  apply (arp_entry s A U cs tp _ c); [done..| |done]. rewrite Hn in E1. destruct c; [by split|done].
Qed.

Lemma age_step s A U cs tp e c now : arp_ok s A U cs -> tbl s !! tp = Some e -> cs !! tp = Some c ->
  exists s' A', (match at_pending e with
                 | Some _ => if waited_long now e then
                               do! _ := arp_free_pending tp in
                               upd_ent tp (set_addr 0)
                             else nret tt
                 | None => if negb (t_pro_addr e =? 0) && expired now e then upd_ent tp (set_addr 0) else nret tt
                 end) s = Done (tt, s') /\
    arp_ok s' A' U (<[tp := aged_list now e c]> cs) /\ tidy s s' A A' U (<[tp := aged_list now e c]> cs) /\
    arp_of s' = set_table (<[tp := aged now e]> (tbl s)) (arp_of s).
Proof using Type.
  intros HA He Hc. destruct (arp_row _ _ _ _ _ _ HA He) as (c0 & Hc0 & [E1 E2 E3 E4 E5]). simplify_eq.
  assert (Hsame : arp_of s = set_table (<[tp := e]> (tbl s)) (arp_of s)) by (rewrite list_insert_id by done; unfold tbl; by destruct (arp_of s)).
  unfold aged, aged_list, stale. destruct (at_pending e) as [x|] eqn:Ep; [destruct (waited_long now e)|destruct (_ && _)].
  - destruct (arp_free_pending_ok _ _ _ _ _ _ HA He) as (s1 & A1 & Es1 & HA1 & HT1 & T1).
    destruct (clear_again s1 A1 U _ tp (cleared e) HA1) as (s2 & Es2 & HA2 & HT2 & T2);
      [unfold tbl; rewrite T1; cbn; apply list_lookup_insert_eq; by eapply lookup_lt_Some|done|].
    exists s2, A1. rewrite (nbind_eq _ _ _ _ _ Es1). split_and!; [done..| |].
    + by eapply tidy_trans.
    + rewrite T2. unfold tbl. rewrite T1. cbn. by rewrite list_insert_insert_eq.
  - exists s, A. rewrite list_insert_id by done. by split_and!.
  - destruct (clear_again s A U cs tp e HA He Ep) as (s2 & Es2 & HA2 & HT2 & T2). exists s2, A.
    destruct c; [|done]. rewrite list_insert_id by done. by split_and!.
  - exists s, A. rewrite list_insert_id by done. by split_and!.
Qed.

(** ** The choice of an entry *)

(** Entry [r] serves for address [dest]: it has that address; or no entry has, and it is
    unused; or all are used for others, and none was used longer ago. *)
Definition chosen (l : list arptabent) (dest : Z) (r : nat) : Prop := exists e, l !! r = Some e /\
  (t_pro_addr e = dest \/
   (forall i e', l !! i = Some e' -> t_pro_addr e' <> dest) /\
   (t_pro_addr e = 0 \/ forall i e', l !! i = Some e' -> t_pro_addr e' <> 0 /\ lasttime e <= lasttime e')).

Section Scan.
Context (s0 : NetSt (Inet D)) (A0 : Qid -> list nat) (U : list nat) (cs0 : list (list nat)) (now dest : Z).
Context (HA0 : arp_ok s0 A0 U cs0).

Definition aged_table : list arptabent := aged now <$> tbl s0.

(** The choices of the loop, once the entries before [tp] have been looked at. *)
Record choices (tp : nat) (exact oldest empty : option nat) : Prop := {
  ch_exact : match exact with
             | Some i => exists e, aged_table !! i = Some e /\ t_pro_addr e = dest
             | None => forall i e, (i < tp)%nat -> aged_table !! i = Some e -> t_pro_addr e <> dest
             end;
  ch_empty : match empty with
             | Some i => exists e, aged_table !! i = Some e /\ t_pro_addr e = 0
             | None => forall i e, (i < tp)%nat -> aged_table !! i = Some e -> t_pro_addr e = dest \/ t_pro_addr e <> 0
             end;
  ch_oldest : match oldest with
              | Some o => (o < tp)%nat /\ exists e, aged_table !! o = Some e /\ forall i e', (i < tp)%nat -> aged_table !! i = Some e' ->
                  t_pro_addr e' = 0 \/ t_pro_addr e' = dest \/ lasttime e <= lasttime e'
              | None => forall i e, (i < tp)%nat -> aged_table !! i = Some e -> t_pro_addr e = 0 \/ t_pro_addr e = dest
              end;
}.

(** The state, with the entries before [tp] aged. *)
Record scanned (s : NetSt (Inet D)) (A : Qid -> list nat) (cs : list (list nat)) (tp : nat) : Prop := {
  sc_ok : arp_ok s A U cs;
  sc_tidy : tidy s0 s A0 A U cs;
  sc_sub : forall x, x ∈ concat cs -> x ∈ concat cs0;
  sc_arp : arp_of s = set_table (tbl s) (arp_of s0);
  sc_tbl : forall i, tbl s !! i = (if (i <? tp)%nat then aged_table else tbl s0) !! i;
  sc_cs : forall i e c, tbl s0 !! i = Some e -> cs0 !! i = Some c ->
    cs !! i = Some (if (i <? tp)%nat then aged_list now e c else c);
}.

Lemma choices_end exact oldest empty : choices MAXARPS exact oldest empty ->
  exists r, match exact with Some _ => exact | None => match empty with Some _ => empty | None => oldest end end = Some r /\
    chosen aged_table dest r.
Proof using HA0.
  intros [He Hm Ho]. pose proof (ao_len _ _ _ _ HA0) as Hl.
  assert (Hlt : forall i e, aged_table !! i = Some e -> (i < MAXARPS)%nat).
  { intros i e Hi%lookup_lt_Some. unfold aged_table in Hi. rewrite length_fmap in Hi. lia. }
  destruct exact as [i|]; [destruct He as (e & Hi & E); exists i; split; [done|]; exists e; auto|].
  destruct empty as [i|]; [destruct Hm as (e & Hi & E); exists i; split; [done|]; exists e; split; [done|]; right; split; [eauto|auto]|].
  destruct oldest as [o|].
  - destruct Ho as (_ & e & Hi & Hmin). exists o. split; [done|]. exists e. split; [done|]. right. split; [eauto|]. right. intros j e' Hj.
    pose proof (Hlt j e' Hj) as Hj'. specialize (He j e' Hj' Hj). specialize (Hm j e' Hj' Hj). specialize (Hmin j e' Hj' Hj). tauto.
  - exfalso. destruct (lookup_lt_is_Some_2 aged_table 0) as [e Hi]; [unfold aged_table; rewrite length_fmap, Hl; unfold MAXARPS; lia|].
    pose proof (Hlt 0%nat e Hi) as H0. specialize (He 0%nat e H0 Hi). specialize (Hm 0%nat e H0 Hi). specialize (Ho 0%nat e H0 Hi). tauto.
Qed.

(** How one more entry changes the choices. *)
Lemma choices_step tp exact oldest empty e : choices tp exact oldest empty -> aged_table !! tp = Some e ->
  (t_pro_addr e = dest -> choices (S tp) (Some tp) oldest empty) /\
  (t_pro_addr e <> dest -> t_pro_addr e <> 0 ->
    (match oldest with None => True | Some o => exists eo, aged_table !! o = Some eo /\ lasttime e < lasttime eo end ->
       choices (S tp) exact (Some tp) empty) /\
    (match oldest with None => False | Some o => exists eo, aged_table !! o = Some eo /\ lasttime eo <= lasttime e end ->
       choices (S tp) exact oldest empty)) /\
  (t_pro_addr e <> dest -> t_pro_addr e = 0 ->
     choices (S tp) exact oldest (match empty with None => Some tp | Some _ => empty end)).
Proof using Type.
  intros [He Hm Ho] Hi.
  assert (Hlast : forall (P : nat -> arptabent -> Prop), (forall i e', (i < tp)%nat -> aged_table !! i = Some e' -> P i e') -> P tp e ->
    forall i e', (i < S tp)%nat -> aged_table !! i = Some e' -> P i e').
  { intros P HP Hp i e' Hlt Hi'. destruct (decide (i = tp)) as [->|]; [congruence|]. apply HP; [lia|done]. }
  split_and!.
  - intros E. split; [by exists e| |].
    + destruct empty; [done|]. apply (Hlast (fun _ e' => t_pro_addr e' = dest \/ _)); [done|by left].
    + destruct oldest as [o|]; [|apply (Hlast (fun _ e' => _ \/ t_pro_addr e' = dest)); [done|by right]].
      destruct Ho as (Hot & eo & Heo & Hmin). split; [lia|]. exists eo. split; [done|].
      apply (Hlast (fun _ e' => _ \/ t_pro_addr e' = dest \/ _)); [done|auto].
  - intros Hd Hz. assert (H1 : match exact with
      | Some i => exists e0, aged_table !! i = Some e0 /\ t_pro_addr e0 = dest
      | None => forall i e0, (i < S tp)%nat -> aged_table !! i = Some e0 -> t_pro_addr e0 <> dest end).
    { destruct exact; [done|]. by apply (Hlast (fun _ e' => t_pro_addr e' <> dest)). }
    assert (H2 : match empty with
      | Some i => exists e0, aged_table !! i = Some e0 /\ t_pro_addr e0 = 0
      | None => forall i e0, (i < S tp)%nat -> aged_table !! i = Some e0 -> t_pro_addr e0 = dest \/ t_pro_addr e0 <> 0 end).
    { destruct empty; [done|]. apply (Hlast (fun _ e' => t_pro_addr e' = dest \/ t_pro_addr e' <> 0)); auto. }
    split; intros Hold; split; try done.
    + split; [lia|]. exists e. split; [done|]. apply (Hlast (fun _ e' => t_pro_addr e' = 0 \/ t_pro_addr e' = dest \/ lasttime e <= lasttime e'));
        [|right; right; lia]. intros i e' Hlt Hi'. destruct oldest as [o|].
      * destruct Ho as (_ & eo & Heo & Hmin), Hold as (eo' & Heo' & Hl'). assert (eo' = eo) as -> by congruence. destruct (Hmin i e' Hlt Hi') as [|[|]]; auto. right. right. lia.
      * destruct (Ho i e' Hlt Hi'); auto.
    + destruct oldest as [o|]; [|done]. destruct Ho as (Hot & eo & Heo & Hmin), Hold as (eo' & Heo' & Hl'). assert (eo' = eo) as -> by congruence.
      split; [lia|]. exists eo. split; [done|].
      apply (Hlast (fun _ e' => t_pro_addr e' = 0 \/ t_pro_addr e' = dest \/ lasttime eo <= lasttime e')); auto.
  - intros Hd Hz. split.
    + destruct exact; [done|]. by apply (Hlast (fun _ e' => t_pro_addr e' <> dest)).
    + destruct empty; [done|]. by exists e.
    + destruct oldest as [o|]; [|apply (Hlast (fun _ e' => t_pro_addr e' = 0 \/ _)); [done|by left]].
      destruct Ho as (Hot & eo & Heo & Hmin). split; [lia|]. exists eo. split; [done|].
      apply (Hlast (fun _ e' => t_pro_addr e' = 0 \/ _)); [done|auto].
Qed.

Lemma scan_step s A cs tp e : scanned s A cs tp -> tbl s0 !! tp = Some e ->
  exists c s' A', cs0 !! tp = Some c /\
    (match at_pending e with
     | Some _ => if waited_long now e then
                   do! _ := arp_free_pending tp in
                   upd_ent tp (set_addr 0)
                 else nret tt
     | None => if negb (t_pro_addr e =? 0) && expired now e then upd_ent tp (set_addr 0) else nret tt
     end) s = Done (tt, s') /\ scanned s' A' (<[tp := aged_list now e c]> cs) (S tp).
Proof using HA0.
  intros [HA HT Hsub Harp Htbl Hcs] He. destruct (arp_row _ _ _ _ _ _ HA0 He) as (c & Hc & _).
  assert (Hes : tbl s !! tp = Some e) by (rewrite Htbl, (proj2 (Nat.ltb_ge _ _)) by lia; done).
  assert (Hcs' : cs !! tp = Some c) by (rewrite (Hcs tp e c He Hc), (proj2 (Nat.ltb_ge _ _)) by lia; done).
  destruct (age_step s A U cs tp e c now HA Hes Hcs') as (s' & A' & E & HA' & HT' & T').
  assert (Hs' : forall y, y ∈ concat (<[tp := aged_list now e c]> cs) -> y ∈ concat cs).
  { apply (tidy_sub s U cs tp c _ A Hcs'); [|done]. intros y. unfold aged_list. destruct (stale now e); [|done]. by intros ?%elem_of_nil. }
  exists c, s', A'. split; [done|]. split; [done|]. split; [done|by eapply tidy_trans|by intros x Hx; apply Hsub, Hs'| | |].
  - unfold tbl. rewrite T'. cbn. by rewrite Harp.
  - intros i. unfold tbl at 1. rewrite T'. cbn. destruct (decide (i = tp)) as [->|Hne].
    + rewrite list_lookup_insert_eq by (by eapply lookup_lt_Some). rewrite Nat.leb_refl.
      unfold aged_table. by rewrite list_lookup_fmap, He.
    + rewrite list_lookup_insert_ne by done. rewrite Htbl. destruct (Nat.ltb_spec i tp), (Nat.leb_spec i tp); try done; lia.
  - intros i e0 c0 Hi Hi'. destruct (decide (i = tp)) as [->|Hne].
    + rewrite list_lookup_insert_eq by (by eapply lookup_lt_Some). rewrite (proj2 (Nat.ltb_lt _ _)) by lia. by simplify_eq.
    + rewrite list_lookup_insert_ne by done. rewrite (Hcs i e0 c0 Hi Hi'). destruct (Nat.ltb_spec i tp), (Nat.ltb_spec i (S tp)); try done; lia.
Qed.

Lemma scan_loop n : forall s A cs tp exact oldest empty, (tp + n = MAXARPS)%nat -> scanned s A cs tp ->
  choices tp exact oldest empty -> exists s' A' cs' r, find_oldest_loop n tp now dest exact oldest empty s = Done (Some r, s') /\
    scanned s' A' cs' MAXARPS /\ chosen aged_table dest r.
Proof using HA0.
  induction n as [|n IH]; intros s A cs tp exact oldest empty Hn HS HC.
  - assert (tp = MAXARPS) as -> by lia. destruct (choices_end _ _ _ HC) as (r & Er & Hr). exists s, A, cs, r.
    split; [|done]. cbn. by rewrite Er.
  - destruct (lookup_lt_is_Some_2 (tbl s0) tp) as [e He]; [rewrite (ao_len _ _ _ _ HA0); lia|].
    destruct (scan_step s A cs tp e HS He) as (c & s1 & A1 & Hc & E1 & HS1). destruct HS as [HA _ _ _ Htbl _].
    assert (Ht : aged_table !! tp = Some (aged now e)) by (unfold aged_table; by rewrite list_lookup_fmap, He).
    assert (Htp : tbl s1 !! tp = Some (aged now e)) by (rewrite (sc_tbl _ _ _ _ HS1), (proj2 (Nat.ltb_lt _ _)) by lia; done).
    destruct (choices_step tp exact oldest empty (aged now e) HC Ht) as (Hx & Ho & Hm).
    assert (Hes : tbl s !! tp = Some e) by (rewrite Htbl, (proj2 (Nat.ltb_ge _ _)) by lia; done).
    assert (Hn' : (S tp + n)%nat = MAXARPS) by lia.
    cbn [find_oldest_loop]. rewrite (nbind_eq _ _ _ _ _ (get_ent_eq s tp e Hes)), (nbind_eq _ _ _ _ _ E1), (nbind_eq _ _ _ _ _ (get_ent_eq s1 tp _ Htp)).
    destruct (Z.eqb_spec (t_pro_addr (aged now e)) dest) as [Hd|Hd]; [apply (IH _ _ _ _ _ _ _ Hn' HS1); auto|].
    destruct (Z.eqb_spec (t_pro_addr (aged now e)) 0) as [Hz|Hz]; cbn [negb]; [apply (IH _ _ _ _ _ _ _ Hn' HS1); auto|].
    destruct (Ho Hd Hz) as [Hnew Hold]. destruct oldest as [o|].
    + destruct HC as [_ _ (Hot & eo & Heo & _)].
      assert (Heo1 : tbl s1 !! o = Some eo) by (rewrite (sc_tbl _ _ _ _ HS1), (proj2 (Nat.ltb_lt _ _)) by lia; done).
      rewrite (nbind_eq _ _ s1 (lasttime (aged now e) <? lasttime eo) s1).
      2: { by rewrite (nbind_eq _ _ _ _ _ (get_ent_eq s1 o eo Heo1)). }
      destruct (Z.ltb_spec (lasttime (aged now e)) (lasttime eo)); apply (IH _ _ _ _ _ _ _ Hn' HS1); [apply Hnew|apply Hold]; by exists eo.
    + rewrite (nbind_eq (nret true) _ s1 true s1 eq_refl). apply (IH _ _ _ _ _ _ _ Hn' HS1). by apply Hnew.
Qed.

End Scan.

(** find_oldest_arp ages the table and returns an entry that serves for the address. *)
Lemma find_oldest_ok s A U cs dest : arp_ok s A U cs ->
  exists s' A' cs' r, find_oldest_arp dest s = Done (Some r, s') /\ arp_ok s' A' U cs' /\ tidy s s' A A' U cs' /\
    (forall x, x ∈ concat cs' -> x ∈ concat cs) /\
    arp_of s' = set_table (aged (cticks s) <$> tbl s) (arp_of s) /\
    (forall i e c, tbl s !! i = Some e -> cs !! i = Some c -> cs' !! i = Some (aged_list (cticks s) e c)) /\
    chosen (aged (cticks s) <$> tbl s) dest r.
Proof using Type.
  intros HA. destruct (scan_loop s A U cs (cticks s) dest HA MAXARPS s A cs 0 None None None) as (s' & A' & cs' & r & E & [HA' HT Hsub Harp Htbl Hcs] & Hr);
    [done| | |].
  - split; try done. unfold tbl. by destruct (arp_of s).
  - split; intros; lia.
  - assert (Et : tbl s' = aged (cticks s) <$> tbl s).
    { apply list_eq. intros i. rewrite Htbl. destruct (Nat.ltb_spec i MAXARPS); [done|].
      rewrite !lookup_ge_None_2; [done|rewrite length_fmap|]; rewrite (ao_len _ _ _ _ HA); lia. }
    exists s', A', cs', r. split_and!; try done; [by rewrite Harp, Et|]. intros i e c Hi Hc. rewrite (Hcs i e c Hi Hc).
    rewrite (proj2 (Nat.ltb_lt _ _)); [done|]. apply lookup_lt_Some in Hi. by rewrite (ao_len _ _ _ _ HA) in Hi.
Qed.

End Table.
