(* ===== verification/ArpOps.v ===== *)
(** * ArpOps

    What the operations of et_arp.c do to a well-formed state: the making of an entry,
    requests and replies, the sending through the table, and the timer. *)

From stdpp Require Import sets.
From S2P Require Import Prelude NetQueue PktPool PktFacts PktChain KernelData Kernel KernelSem NetDev Dm9000a Dm9000aFacts DmRx NetPath NetProps NetDemux Arp ArpWire ArpFacts ArpTable.

Section Ops.
Context {D : Type} `{Mac D}.

Lemma nbind_assoc {E A B C} (m : N E A) (f : A -> N E B) (g : B -> N E C) s :
  nbind (nbind m f) g s = nbind m (fun x => nbind (f x) g) s.
Proof using Type. unfold nbind. by destruct (m s) as [[a s']| |]. Qed.

(** ** Making an entry *)

(** The variables of ARP that making an entry does not change. *)
Record vars_kept (a a' : ArpSt) : Prop := {
  vk_cache : arpcache a' = arpcache a;
  vk_host : fhost a' = fhost a;
  vk_mcast : n_mcastlist a' = n_mcastlist a;
  vk_timers : length (intimers a') = length (intimers a);
}.

Lemma set_vars s A U cs a : arp_ok s A U cs -> arp_table a = tbl s -> vars_kept (arp_of s) a ->
  arp_ok (set_dev (mkInet a (hw_of s)) s) A U cs /\ tidy s (set_dev (mkInet a (hw_of s)) s) A A U cs.
Proof using Type.
  intros HA Ht [E1 E2 E3 E4]. split; [|by split]. apply arp_vars; [done..|]. rewrite E1. by apply HA.
Qed.

Lemma arm_timer (s : NetSt (Inet D)) lticks : exists a, (do! timer := arp_gets arp_timer in
     match timer with
     | None => do! t := in_timerset fn_cb_arpent_tmo (ARPENT_TMO * 1000) 0 in arp_do (set_timer t)
     | Some t => arp_do (fun a => set_intimers
         (alter (fun i => mkTimer (it_callback i) (it_parm i) (it_interval i) (u32 (it_interval i + lticks)) (it_inuse i))
            t (intimers a)) (numtimers a) a)
     end) s = Done (tt, set_dev (mkInet a (hw_of s)) s) /\ arp_table a = tbl s /\ vars_kept (arp_of s) a.
Proof using Type.
  unfold nbind at 1, arp_gets at 1, ngets at 1. change (inet_arp (st_dev s)) with (arp_of s).
  destruct (arp_timer (arp_of s)) as [t|]; [eexists; split_and!; [done..|split; try done; cbn; by rewrite length_alter]|].
  unfold in_timerset, nbind at 1, nbind at 1, ngets at 1, nbind at 1, arp_gets at 1, ngets at 1.
  change (inet_arp (st_dev s)) with (arp_of s). cbn [id].
  destruct (free_timer (intimers (arp_of s)) 0) as [i|]; (eexists; split_and!; [done..|split; try done]). cbn. by rewrite length_insert.
Qed.

(** The entry that was made from [e]. *)
Definition made_entry (dest : Z) (net : nat) (now : Z) (e : arptabent) : arptabent :=
  fresh_entry dest net now (if t_pro_addr e =? dest then e else cleared e).

Lemma make_arp_entry_ok s A U cs dest net : arp_ok s A U cs ->
  exists s' A' cs' r e, make_arp_entry dest net s = Done (r, s') /\ arp_ok s' A' U cs' /\ tidy s s' A A' U cs' /\
    (forall x, x ∈ concat cs' -> x ∈ concat cs) /\
    chosen (aged (cticks s) <$> tbl s) dest r /\ (aged (cticks s) <$> tbl s) !! r = Some e /\
    tbl s' = <[r := made_entry dest net (cticks s) e]> (aged (cticks s) <$> tbl s) /\
    (forall i e0 c0, tbl s !! i = Some e0 -> cs !! i = Some c0 ->
       cs' !! i = Some (if bool_decide (i = r /\ t_pro_addr e <> dest) then [] else aged_list (cticks s) e0 c0)) /\
    arpcache (arp_of s') = arpcache (arp_of s).
Proof using Type.
  intros HA. destruct (find_oldest_ok s A U cs dest HA) as (s1 & A1 & cs1 & r & E1 & HA1 & HT1 & Hsub & T1 & Hcs1 & Hr).
  pose proof Hr as (e & He & Hcase). set (T := aged (cticks s) <$> tbl s) in *.
  assert (He1 : tbl s1 !! r = Some e) by (unfold tbl; by rewrite T1).
  destruct (arp_row _ _ _ _ _ _ HA1 He1) as (c & Hc & Hent).
  set (cs2 := if t_pro_addr e =? dest then cs1 else <[r := []]> cs1).
  set (e2 := if t_pro_addr e =? dest then e else cleared e).
  assert (Hfree : exists s2 A2 e', (match at_pending e with
            | Some _ => if negb (t_pro_addr e =? dest) then arp_free_pending r else nret tt
            | None => nret tt end) s1 = Done (tt, s2) /\ arp_ok s2 A2 U cs2 /\ tidy s1 s2 A1 A2 U cs2 /\
            tbl s2 = <[r := e']> T /\ at_pending e' = at_pending e2 /\ vars_kept (arp_of s1) (arp_of s2)).
  { assert (Hid : tbl s1 = <[r := e]> T) by (rewrite list_insert_id by done; unfold tbl; by rewrite T1).
    unfold cs2, e2. destruct (Z.eqb_spec (t_pro_addr e) dest) as [Hd|Hd]; cbn [negb].
    - exists s1, A1, e. split_and!; try done. by destruct (at_pending e).
    - destruct (at_pending e) eqn:Ep.
      + destruct (arp_free_pending_ok _ _ _ _ _ _ HA1 He1) as (s2 & A2 & E2 & HA2 & HT2 & T2). exists s2, A2, (cleared e).
        split_and!; try done; [|by rewrite T2]. unfold tbl at 1. rewrite T2. cbn. unfold tbl. by rewrite T1.
      + exists s1, A1, e. pose proof (en_pending _ _ _ Hent) as Eh. rewrite Ep in Eh. destruct c; [|done].
        rewrite list_insert_id by done. by split_and!. }
  destruct Hfree as (s2 & A2 & e' & E2 & HA2 & HT2 & T2 & Ep & Hv2).
  assert (He2 : tbl s2 !! r = Some e') by (rewrite T2; apply list_lookup_insert_eq; by eapply lookup_lt_Some).
  destruct (arp_row _ _ _ _ _ _ HA2 He2) as (c2 & Hc2 & [P1 P2 P3 P4 P5]).
  assert (Ec2 : c2 = if t_pro_addr e =? dest then c else []).
  { unfold cs2 in Hc2. destruct (_ =? _); [by simplify_eq|]. rewrite list_lookup_insert_eq in Hc2 by (by eapply lookup_lt_Some). by simplify_eq. }
  set (e3 := made_entry dest net (cticks s) e).
  assert (Ee3 : fresh_entry dest net (cticks s) e' = e3) by (unfold e3, made_entry, fresh_entry; by rewrite Ep).
  set (s3 := set_dev (mkInet (set_table (<[r := e3]> (tbl s2)) (arp_of s2)) (hw_of s2)) s2).
  assert (HA3 : arp_ok s3 A2 U cs2).
  { apply (arp_entry s2 A2 U cs2 r e3 c2); [done|done| |].
    - rewrite <- Ee3. split; cbn; try done. + intros Hz. rewrite Ec2. destruct (Z.eqb_spec (t_pro_addr e) dest); [|done]. apply Hent. congruence.
      + split; [done|]. by repeat constructor.
    - intros j e0 Hj. rewrite T2, list_lookup_insert_ne by done. intros H0 E0. cbn in E0 |- *. destruct (decide (dest = 0)) as [|Hz]; [done|exfalso].
      destruct Hcase as [Hd|[Hno _]]; [|by apply (Hno j e0)]. apply Hj. apply (ao_unique _ _ _ _ HA1 j r e0 e); [|done|congruence|congruence].
      unfold tbl. by rewrite T1. }
  destruct (arm_timer s3 (cticks s)) as (a & E4 & Ta & Va). destruct (set_vars s3 A2 U cs2 a HA3 Ta Va) as [HA4 HT4].
  exists (set_dev (mkInet a (hw_of s3)) s3), A2, cs2, r, e.
  assert (Hsub2 : forall x, x ∈ concat cs2 -> x ∈ concat cs1).
  { unfold cs2. destruct (_ =? _); [done|]. apply (tidy_sub s1 U cs1 r c [] A1 Hc); [by intros y ?%elem_of_nil|done]. }
  assert (HT3 : tidy s2 s3 A2 A2 U cs2) by by split.
  split_and!; try done.
  - unfold make_arp_entry. rewrite (nbind_eq (ngets cticks) _ s _ s eq_refl), (nbind_eq _ _ _ _ _ E1).
    rewrite (nbind_eq (nonnull (Some r)) _ s1 r s1 eq_refl), (nbind_eq _ _ _ _ _ (get_ent_eq s1 r e He1)), (nbind_eq _ _ _ _ _ E2).
    rewrite (nbind_eq _ _ _ _ _ (upd_ent_eq s2 r e' _ He2)), Ee3. fold s3. rewrite <- nbind_assoc. by rewrite (nbind_eq _ _ _ _ _ E4).
  - eapply tidy_trans; [exact HT1| |done]. eapply tidy_trans; [exact HT2| |done]. by eapply tidy_trans.
  - auto.
  - unfold tbl. cbn. rewrite Ta. cbn. by rewrite T2, list_insert_insert_eq.
  - intros i e0 c0 Hi Hi'. pose proof (Hcs1 i e0 c0 Hi Hi') as Hl. unfold cs2. destruct (Z.eqb_spec (t_pro_addr e) dest) as [Hd|Hd].
    + rewrite bool_decide_eq_false_2; [done|]. by intros [_ ?].
    + destruct (decide (i = r)) as [->|Hne].
      * rewrite bool_decide_eq_true_2 by done. rewrite list_lookup_insert_eq by (by eapply lookup_lt_Some). done.
      * rewrite bool_decide_eq_false_2 by (by intros [? _]). by rewrite list_lookup_insert_ne.
  - cbn. rewrite (vk_cache _ _ Va). cbn. by rewrite (vk_cache _ _ Hv2), T1.
Qed.

(** ** Messages *)

Definition put_buf (x : nat) (b : netbuf) (s : NetSt (Inet D)) : NetSt (Inet D) :=
  set_pool (set_bufs (<[x := b]> (pk_bufs (st_pool s))) (st_pool s)) s.

Lemma put_buf_lookup s x b : is_Some (pk_bufs (st_pool s) !! x) -> pk_bufs (st_pool (put_buf x b s)) !! x = Some b.
Proof using Type. intros [b0 Hb]. cbn. apply list_lookup_insert_eq. by eapply lookup_lt_Some. Qed.

Lemma upd_put s x b f b' : is_Some (pk_bufs (st_pool s) !! x) -> f b = Some b' ->
  upd_buf x f (put_buf x b s) = Done (tt, put_buf x b' s).
Proof using Type.
  intros Hs Hf. rewrite (upd_buf_eq _ x b _ b' (put_buf_lookup s x b Hs) Hf). cbn. by rewrite list_insert_insert_eq.
Qed.

(** A packet is allocated for a message. *)
Lemma message_alloc s A U cs k : arp_ok s A U cs -> alloc_from arpsize A = Some k ->
  exists y b s1 A1, pool_get (pk_alloc arpsize) s = Done (Some y, s1) /\ arp_ok s1 A1 (y :: U) cs /\ calm s s1 /\
    st_nets s1 = st_nets s /\ arp_of s1 = arp_of s /\ hw_of s1 = hw_of s /\ A1 Rcv = A Rcv /\
    pk_bufs (st_pool s1) !! y = Some b /\ marked b /\ nb_inuse b = 1 /\ (y ∉ concat cs ++ U) /\
    (forall z, z <> y -> pk_bufs (st_pool s1) !! z = pk_bufs (st_pool s) !! z) /\
    same_at (concat cs) (pk_links (st_pool s)) (pk_links (st_pool s1)) /\
    (forall q, (length (A q) <= length (upd_at (size_queue b) (A1 (size_queue b) ++ [y]) A1 q))%nat).
Proof using Type.
  intros HA Ek. pose proof (ch_alloc _ _ _ _ arpsize (ao_pool _ _ _ _ HA)) as Hal. rewrite Ek in Hal.
  destruct Hal as (y & l & b & p' & EA & Hb & _ & Hq & Hk & E & Hp' & Ebufs & _ & Hsame).
  assert (Hny : y ∉ concat cs ++ U).
  { intros Hy. apply (held_apart _ _ _ (po_queues _ _ _ (ao_pool _ _ _ _ HA)) k y); [rewrite EA; by left|exact Hy]. }
  assert (Hlt : (y < length (pk_bufs (st_pool s)))%nat) by by eapply lookup_lt_Some.
  exists y, (fresh_fields (MaxLnh (st_pool s)) b), (set_pool p' s), (upd_at k l A). split_and!; try done.
  - unfold pool_get. by rewrite E.
  - apply (arp_pool s A U); [done..| |].
    + intros z Hz. rewrite Ebufs. apply list_lookup_insert_ne. intros ->. apply Hny, elem_of_app. by left.
    + intros z c. rewrite Ebufs. intros [(<- & <- & _)|[_ Hz]]%list_lookup_insert_Some.
      * exact (bo_bytes s (ao_base _ _ _ _ HA) y b Hb).
      * exact (bo_bytes s (ao_base _ _ _ _ HA) z c Hz).
  - unfold upd_at. destruct (decide (Rcv = k)) as [E'|]; [by destruct Hk|done].
  - cbn. rewrite Ebufs. by apply list_lookup_insert_eq.
  - by destruct Hq.
  - intros z Hz. cbn. rewrite Ebufs. by apply list_lookup_insert_ne.
  - assert (Esz : size_queue (fresh_fields (MaxLnh (st_pool s)) b) = k).
    { unfold size_queue. cbn. destruct Hq as [_ Hq]. destruct k; [by destruct Hq as [-> _]|by destruct Hq as [-> _]|done]. }
    rewrite Esz. intros q. unfold upd_at at 1. destruct (decide (q = k)) as [->|Hqk].
    + unfold upd_at. rewrite decide_True by done. rewrite EA, length_app. cbn. lia.
    + unfold upd_at. by rewrite decide_False.
Qed.

(** A packet [b'] with the message [frame] in the block of [b]. *)
Lemma message_ready b b' frame tail : buf_ok b -> marked b -> bytes (nb_mem b) ->
  nb_mem b' = message_block (nb_buff b) (nb_mem b) frame tail -> nb_buff b' = nb_buff b -> nb_blen b' = nb_blen b ->
  nb_prot b' = nb_buff b -> nb_plen b' = arpsize -> length frame = 42%nat -> length tail = 4%nat -> bytes frame -> bytes tail ->
  buf_ok b' /\ marked b' /\ bytes (nb_mem b') /\ sendable b' /\ exists pad, length pad = 22%nat /\ frame_of b' = frame ++ pad.
Proof using Type.
  intros Hok Hm Hby Em Eb El Ep Epl Hf Ht Hfb Htb. destruct (block_room b Hok) as [E4 Hlen]. pose proof (bo_mem b Hok) as Emem. unfold ALIGN_TYPE in Emem.
  assert (Hlen' : length (nb_mem b') = length (nb_mem b)).
  { rewrite Em, E4. unfold message_block. rewrite !length_app, !length_take, !length_drop. unfold arpsize, ETHHDR_SIZE. lia. }
  set (mid := take 2 (drop (Z.to_nat (nb_buff b)) (nb_mem b)) ++ frame ++ tail) in *.
  assert (Hmid : length mid = 48%nat) by (unfold mid; rewrite E4, !length_app, length_take, length_drop; lia).
  assert (Emid : nb_mem b' = take (Z.to_nat (nb_buff b)) (nb_mem b) ++ mid ++ drop (Z.to_nat (nb_buff b) + 48) (nb_mem b)).
  { rewrite Em. unfold message_block. fold mid. by rewrite E4. }
  assert (Hby' : bytes (nb_mem b')).
  { rewrite Emid. apply bytes_app. split; [by apply bytes_take|]. apply bytes_app. split; [|by apply bytes_drop].
    apply bytes_app. split; [by apply bytes_take, bytes_drop|]. by apply bytes_app. }
  assert (Hsl : send_len b' = 64) by (unfold send_len; rewrite Epl; done).
  assert (Hsf : send_from b' = 6%nat) by (unfold send_from; rewrite Ep, E4; done).
  split_and!; [|by apply (marks_ext b); [..|intros j Hj; rewrite Emid; apply mem_byte_around; lia|done]|done| |].
  - destruct Hok. split; [by rewrite El|by rewrite Eb|by rewrite Hlen', El].
  - split; [by rewrite Epl|rewrite Ep, E4; done| |done]. rewrite Hsl, Hsf, Hlen'. change (2 * half_up 64)%nat with 64%nat. lia.
  - exists (tail ++ take 18 (drop 52 (nb_mem b))). rewrite length_app, length_take, length_drop, Ht. split; [lia|].
    unfold frame_of. rewrite Hsl, Hsf, Em, E4. unfold message_block. change (Z.to_nat 4) with 4%nat. change (Z.to_nat (4 + arpsize)) with 52%nat.
    rewrite <- (app_assoc (take 2 _)), (app_assoc (take 4 _)), drop_app_length'
      by (rewrite length_app, !length_take, length_drop; lia).
    rewrite <- app_assoc, app_assoc, take_app. rewrite length_app, Hf, Ht. rewrite (take_ge (frame ++ tail)) by (rewrite length_app; lia).
    by rewrite <- app_assoc.
Qed.

(** Work around the packets in [U] and [cs] and the table, which stay. *)
Record around (s s' : NetSt (Inet D)) (A A' : Qid -> list nat) (U : list nat) (cs : list (list nat)) : Prop := {
  ar_calm : calm s s';
  ar_bufs : forall y, y ∈ U \/ y ∈ concat cs -> pk_bufs (st_pool s') !! y = pk_bufs (st_pool s) !! y;
  ar_links : same_at (concat cs) (pk_links (st_pool s)) (pk_links (st_pool s'));
  ar_rcv : A' Rcv = A Rcv;
  ar_tbl : tbl s' = tbl s;
  ar_cache : arpcache (arp_of s') = arpcache (arp_of s);
}.

Lemma message_none s A U cs : arp_ok s A U cs -> alloc_from arpsize A = None ->
  exists s', pool_get (pk_alloc arpsize) s = Done (None, s') /\ arp_ok s' A U cs /\ around s s' A A U cs /\ sent_of s' = sent_of s /\
    pk_bufs (st_pool s') = pk_bufs (st_pool s).
Proof using Type.
  intros HA Ek. pose proof (ch_alloc _ _ _ _ arpsize (ao_pool _ _ _ _ HA)) as Hal. rewrite Ek in Hal.
  destruct Hal as (p' & E & Hp' & Ebufs & _ & Hsame). exists (set_pool p' s). split_and!; try done.
  - unfold pool_get. by rewrite E.
  - apply (arp_pool s A U); rewrite ?Ebufs; try done. apply (ao_base _ _ _ _ HA).
  - split; try done. intros y _. cbn. by rewrite Ebufs.
Qed.

(** A message that stands in the block of packet [y] is sent and the packet released. *)
Lemma message_sent s A U cs y b b' i n frame tail : arp_ok s A (y :: U) cs -> pk_bufs (st_pool s) !! y = Some b ->
  marked b -> nb_mem b' = message_block (nb_buff b) (nb_mem b) frame tail -> nb_buff b' = nb_buff b -> nb_blen b' = nb_blen b ->
  nb_prot b' = nb_buff b -> nb_plen b' = arpsize -> nb_inuse b' = 1 -> nb_net b' = Some i -> st_nets s !! i = Some n ->
  length frame = 42%nat -> length tail = 4%nat -> bytes frame -> bytes tail ->
  exists s' A' pad, net_send mac_send i y (put_buf y b' s) = Done (0, s') /\ arp_ok s' A' U cs /\ around s s' A A' U cs /\
    length pad = 22%nat /\ sent_of s' = sent_of s ++ [frame ++ pad] /\ arp_of s' = arp_of s /\
    A' = upd_at (size_queue b) (A (size_queue b) ++ [y]) A.
Proof using Type.
  intros HA Hb Hm Em Eb El Ep Epl Eu Ei Hn Hf Ht Hfb Htb. destruct (arp_buf _ _ _ _ _ _ HA Hb) as [Hok Hby].
  destruct (message_ready b b' frame tail) as (Hok' & Hm' & Hby' & Hs' & pad & Hpad & Efr); [done..|].
  assert (HA1 : arp_ok (put_buf y b' s) A (y :: U) cs) by (apply arp_write; [done|by left|done|by rewrite Eu|done]).
  assert (Hb1 : pk_bufs (st_pool (put_buf y b' s)) !! y = Some b') by (apply put_buf_lookup; by exists b).
  destruct (net_send_ok _ _ _ _ _ _ _ n HA1 Hb1 Eu Hm' Hs' Ei Hn) as (s' & E & HA' & Hc & Hsent & Harp & Hbufs & Hsame).
  pose proof (ch_nodup _ _ _ _ (ao_pool _ _ _ _ HA)) as Hnd. rewrite <- Permutation_middle in Hnd. apply NoDup_cons in Hnd as [Hny _].
  exists s', (upd_at (size_queue b') (A (size_queue b') ++ [y]) A), pad. split; [exact E|]. split; [exact HA'|]. split;
    [|split_and!; [done|by rewrite Hsent, Efr|done|unfold size_queue; by rewrite El]]. split.
  - etrans; [|exact Hc]. by split.
  - intros z Hz. rewrite Hbufs. assert (z <> y) by (intros ->; apply Hny, elem_of_app; tauto). cbn. by rewrite !list_lookup_insert_ne.
  - done.
  - apply upd_at_rcv.
  - unfold tbl. by rewrite Harp.
  - by rewrite Harp.
Qed.

Lemma bytes_get n i l v : bytes l -> get_bytes n i l = Some v -> bytes v.
Proof using Type.
  intros Hl. revert i v. induction n as [|n IH]; intros i v; [by intros [= <-]; constructor|]. cbn [get_bytes]. unfold mem_byte.
  destruct (i <? 0); [done|]. destruct (l !! Z.to_nat i) as [c|] eqn:Ec; [|done]. destruct (get_bytes n (i + 1) l) eqn:E; [|done].
  intros [= <-]. constructor; [by eapply Forall_lookup_1|by eapply IH].
Qed.

Lemma arp_frame_ok dst src op sha spa tha tpa : length dst = 6%nat -> length src = 6%nat -> length op = 2%nat ->
  length sha = 6%nat -> length spa = 4%nat -> length tha = 6%nat -> length tpa = 4%nat -> bytes dst -> bytes src -> bytes op ->
  bytes sha -> bytes spa -> bytes tha -> bytes tpa ->
  length (arp_frame dst src op sha spa tha tpa) = 42%nat /\ bytes (arp_frame dst src op sha spa tha tpa).
Proof using Type.
  intros. unfold arp_frame, bytes. split; [rewrite !length_app; cbn; lia|]. rewrite !Forall_app. split_and!; try done; by repeat constructor.
Qed.

Lemma get_bytes_facts n i l v : bytes l -> get_bytes n i l = Some v -> length v = n /\ bytes v.
Proof using Type. intros Hl E. split; [by eapply get_bytes_length|by eapply bytes_get]. Qed.

(** The steps of arpReply from the allocated packet on. *)
Lemma arpReply_steps s y ob x b i n sha spa tpa op src : pk_bufs (st_pool s) !! y = Some ob -> buf_ok ob ->
  pk_bufs (st_pool s) !! x = Some b -> x <> y -> nb_net b = Some i -> st_nets s !! i = Some n -> n_local n = true ->
  message_at (nb_prot b) (nb_mem b) sha spa tpa op src -> length (mac_of s) = 6%nat ->
  length sha = 6%nat -> length spa = 4%nat -> length tpa = 4%nat -> length src = 6%nat ->
  exists ob', nb_mem ob' = message_block (nb_buff ob) (nb_mem ob) (arp_frame src (mac_of s) [0x00; 0x02] (mac_of s) tpa sha spa) spa /\
    nb_buff ob' = nb_buff ob /\ nb_blen ob' = nb_blen ob /\ nb_prot ob' = nb_buff ob /\ nb_plen ob' = arpsize /\
    nb_inuse ob' = nb_inuse ob /\ nb_net ob' = Some i /\
    (do! b := get_buf x in
     do! i := nonnull (nb_net b) in
     do! _ := upd_buf y (fun b => Some (set_nbnet (Some i) b)) in
     do! ob := get_buf y in
     let ethin := nb_prot b - (ETHHDR_SIZE - ETHHDR_BIAS) in
     let ethout := nb_buff ob + ETHHDR_BIAS in
     let hin := nb_prot b in
     let hout := nb_buff ob + ETHHDR_SIZE in
     do! _ := write_block y (ET_TYPE_SET ethout (htons ET_ARP)) in
     do! _ := upd_buf y (fun b => Some (set_prot (nb_prot b) arpsize b)) in
     do! phys := ifPhysAddress i in
     do! _ := write_block y (put_reply (nb_mem b) hin ethin hout ethout phys) in
     do! _ := write_block y (to_wire hout) in
     do! _ := upd_buf y (fun b => Some (set_prot (nb_buff b) (nb_plen b) b)) in
     do! _ := net_send mac_send i y in
     arp_do (count_arp 0 0 0 1)) s =
    (do! _ := net_send mac_send i y in arp_do (count_arp 0 0 0 1)) (put_buf y ob' s).
Proof using Type.
  intros Hy Hoky Hb Hxy Hi Hn Hloc [G1 G2 G3 _ G5] Hp6 L1 L2 L3 L5. destruct (block_room ob Hoky) as [E4 Hlen]. set (mac := mac_of s) in *.
  pose proof (reply_spec (nb_mem b) (nb_prot b) (nb_prot b - (ETHHDR_SIZE - ETHHDR_BIAS)) (nb_buff ob) spa tpa sha src mac (nb_mem ob)) as Hr.
  destruct (ET_TYPE_SET (nb_buff ob + ETHHDR_BIAS) (htons ET_ARP) (nb_mem ob)) as [l1|] eqn:W1;
    [|exfalso; discriminate Hr; try done; rewrite E4; unfold arpsize, ETHHDR_SIZE; lia].
  destruct (put_reply _ _ _ _ _ _ l1) as [l2|] eqn:W2; [|exfalso; discriminate Hr; try done; rewrite E4; unfold arpsize, ETHHDR_SIZE; lia].
  set (l3 := message_block _ _ _ _) in *.
  assert (W3 : to_wire (nb_buff ob + ETHHDR_SIZE) l2 = Some l3) by (apply Hr; try done; rewrite E4; unfold arpsize, ETHHDR_SIZE; lia).
  set (o1 := set_nbnet (Some i) ob). assert (Hsy : is_Some (pk_bufs (st_pool s) !! y)) by by eexists.
  exists (set_prot (nb_buff ob) arpsize (set_mem l3 (set_prot (nb_prot ob) arpsize (set_mem l1 o1)))). split_and!; try done.
  rewrite (nbind_eq _ _ _ _ _ (get_buf_eq s x b Hb)), Hi, (nbind_eq (nonnull (Some i)) _ s i s eq_refl).
  rewrite (nbind_eq (upd_buf y _) _ s tt (put_buf y o1 s)) by (by apply (upd_buf_eq s y ob)).
  rewrite (nbind_eq _ _ _ _ _ (get_buf_eq _ y o1 (put_buf_lookup s y o1 Hsy))). cbn zeta.
  rewrite (nbind_eq (write_block y _) _ (put_buf y o1 s) tt (put_buf y (set_mem l1 o1) s)) by (apply upd_put; [done|]; cbn; by rewrite W1).
  rewrite (nbind_eq (upd_buf y _) _ _ tt (put_buf y (set_prot (nb_prot ob) arpsize (set_mem l1 o1)) s)) by (by apply upd_put).
  rewrite (nbind_eq _ _ _ _ _ (phys_eq (put_buf y _ s) i n Hn Hloc)).
  rewrite (nbind_eq (write_block y _) _ _ tt (put_buf y (set_mem l2 (set_prot (nb_prot ob) arpsize (set_mem l1 o1))) s))
    by (apply upd_put; [done|]; cbn; change (mac_of _) with mac; by rewrite W2).
  rewrite (nbind_eq (write_block y _) _ _ tt (put_buf y (set_mem l3 (set_prot (nb_prot ob) arpsize (set_mem l1 o1))) s))
    by (apply upd_put; [done|]; cbn; by rewrite W3).
  set (o4 := set_mem l3 _). by rewrite (nbind_eq (upd_buf y _) _ (put_buf y o4 s) tt (put_buf y (set_prot (nb_buff ob) arpsize o4) s)) by (by apply upd_put).
Qed.

Lemma arpReply_ok s A U cs x b i n sha spa tpa op src : arp_ok s A U cs -> x ∈ U -> pk_bufs (st_pool s) !! x = Some b ->
  nb_net b = Some i -> st_nets s !! i = Some n -> message_at (nb_prot b) (nb_mem b) sha spa tpa op src ->
  exists s' A' out, arpReply mac_send x s = Done (tt, s') /\ arp_ok s' A' U cs /\ around s s' A A' U cs /\
    sent_of s' = sent_of s ++ out /\
    match alloc_from arpsize A with
    | Some _ => exists pad, length pad = 22%nat /\ out = [arp_frame src (mac_of s) [0x00; 0x02] (mac_of s) tpa sha spa ++ pad]
    | None => out = []
    end.
Proof using Type.
  intros HA Hx Hb Hi Hn HG. pose proof HG as [G1 G2 G3 _ G5]. destruct (alloc_from arpsize A) as [k|] eqn:Ek.
  2: { destruct (message_none s A U cs HA Ek) as (s' & E & HA' & Har & Hs & _). exists s', A, []. unfold arpReply.
       rewrite (nbind_eq _ _ _ _ _ E), app_nil_r. by split_and!. }
  destruct (message_alloc s A U cs k HA Ek) as (y & ob & s1 & A1 & E & HA1 & Hc1 & En1 & Ea1 & Eh1 & Er1 & Hy & Hmy & Huy & Hny & Hk1 & Hl1 & _).
  destruct (arp_buf _ _ _ _ _ _ HA Hb) as [_ Hby]. destruct (arp_buf _ _ _ _ _ _ HA1 Hy) as [Hoky _].
  pose proof (ao_base _ _ _ _ HA) as HB. destruct (base_net s i n HB Hn) as [Hloc _]. destruct (bo_phys s HB) as [Hp6 Hpb].
  assert (Hxy : x <> y) by (intros ->; apply Hny, elem_of_app; by right).
  destruct (get_bytes_facts _ _ _ _ Hby G1) as [L1 B1]. destruct (get_bytes_facts _ _ _ _ Hby G2) as [L2 B2].
  destruct (get_bytes_facts _ _ _ _ Hby G3) as [L3 B3]. destruct (get_bytes_facts _ _ _ _ Hby G5) as [L5 B5].
  assert (Em : mac_of s1 = mac_of s) by (unfold mac_of; by rewrite (ca_dm _ _ Hc1)).
  destruct (arpReply_steps s1 y ob x b i n sha spa tpa op src) as (ob' & M1 & M2 & M3 & M4 & M5 & M6 & M7 & Esteps);
    [done|done|by rewrite Hk1|done|done|by rewrite En1|done|done|by rewrite Em|done..|]. rewrite Em in M1.
  destruct (arp_frame_ok src (mac_of s) [0x00; 0x02] (mac_of s) tpa sha spa) as [Lf Bf]; try done; [by repeat constructor|].
  destruct (message_sent s1 A1 U cs y ob ob' i n _ spa HA1 Hy Hmy M1 M2 M3 M4 M5) as (s2 & A2 & pad & E2 & HA2 & Har & Hpad & Hs2 & Ha2 & _);
    [by rewrite M6|done|by rewrite En1|done..|].
  destruct (set_vars s2 A2 U cs (count_arp 0 0 0 1 (arp_of s2)) HA2) as [HA3 HT3]; [done..|].
  exists (set_dev (mkInet (count_arp 0 0 0 1 (arp_of s2)) (hw_of s2)) s2), A2, [arp_frame src (mac_of s) [0; 2] (mac_of s) tpa sha spa ++ pad].
  split; [|split; [exact HA3|split; [|split; [|by exists pad]]]].
  - unfold arpReply. rewrite (nbind_eq _ _ _ _ _ E). etrans; [exact Esteps|]. by rewrite (nbind_eq _ _ _ _ _ E2).
  - destruct Har as [C B L R T C']. split.
    + etrans; [exact Hc1|]. etrans; [exact C|apply HT3].
    + intros z Hz. cbn. rewrite B by done. apply Hk1. intros ->. apply Hny, elem_of_app. tauto.
    + intros z Hz. cbn. rewrite (L z Hz). by apply Hl1.
    + by rewrite R.
    + unfold tbl in *. cbn. rewrite T. by rewrite Ea1.
    + cbn. by rewrite C', Ea1.
  - change (sent_of (set_dev _ s2)) with (sent_of s2). rewrite Hs2. unfold sent_of. by rewrite Eh1.
Qed.

End Ops.
