(* ===== verification/ArpRx.v ===== *)
(** * ArpRx

    Received ARP messages: requests for the board are answered and teach it the sender's
    address, and what waited for that address is sent. *)

From stdpp Require Import sets.
From S2P Require Import Prelude NetQueue PktPool PktFacts PktChain KernelData Kernel KernelSem NetDev Dm9000a Dm9000aFacts DmRx NetPath NetProps NetDemux Arp ArpWire ArpFacts ArpTable ArpOps.

(** ** The fields of a received packet *)

Lemma put_bytes_bytes vs i l l' : bytes vs -> bytes l -> put_bytes vs i l = Some l' -> bytes l'.
Proof.
  revert i l. induction vs as [|v vs IH]; intros i l Hv Hl; cbn [put_bytes]; [by intros [= <-]|]. unfold mem_put.
  destruct (_ && _); [|done]. apply Forall_cons in Hv as [Hv Hvs]. apply IH; [done|]. by apply Forall_insert.
Qed.

Lemma MEMMOVE_bytes d s n l l' : bytes l -> MEMMOVE d s n l = Some l' -> bytes l'.
Proof.
  intros Hl. unfold MEMMOVE. destruct (get_bytes n s l) as [v|] eqn:E; [|done]. apply put_bytes_bytes; [by eapply bytes_get|done].
Qed.

Lemma from_wire_bytes h l l' : bytes l -> from_wire h l = Some l' -> bytes l'.
Proof.
  intros Hl. unfold from_wire. destruct (MEMMOVE _ _ 4 l) as [l1|] eqn:E1; [|done]. destruct (MEMMOVE _ _ 6 l1) as [l2|] eqn:E2; [|done].
  destruct (MEMMOVE _ _ 4 l2) as [l3|] eqn:E3; [|done]. apply MEMMOVE_bytes. do 3 (eapply MEMMOVE_bytes; [|done]). done.
Qed.

Section Fields.
Context (b : netbuf).

(** [n] bytes at distance [k] from the protocol header. *)
Definition field (k : nat) (n : nat) : list Z := take n (drop (Z.to_nat (nb_prot b) + k) (nb_mem b)).
Definition rx_src : list Z := take 6 (drop (Z.to_nat (nb_prot b) - 8) (nb_mem b)).
Definition rx_op : list Z := field 6 2.
Definition rx_sha : list Z := field 8 6.
Definition rx_spa : list Z := field 14 4.
Definition rx_tpa : list Z := field 24 4.

(** A packet as the driver delivers it: the header stands behind the Ethernet header. *)
Record received : Prop := {
  rc_prot : nb_prot b = nb_buff b + ETHHDR_SIZE;
  rc_use : nb_inuse b = 1;
  rc_marks : marked b;
}.

Lemma split_at {A} (l : list A) n : (n <= length l)%nat -> l = take n l ++ drop n l /\ length (take n l) = n.
Proof using Type. intros Hn. rewrite take_drop, length_take. split; [done|lia]. Qed.

Lemma rx_block : buf_ok b -> bytes (nb_mem b) -> received -> exists l, from_wire (nb_prot b) (nb_mem b) = Some l /\
  buf_ok (set_mem l b) /\ marked (set_mem l b) /\ bytes l /\ message_at (nb_prot b) l rx_sha rx_spa rx_tpa rx_op rx_src.
Proof using Type.
  intros Hok Hby [Hp Hu Hm]. destruct (block_room b Hok) as [E4 Hlen]. pose proof (bo_mem b Hok) as Emem. unfold ALIGN_TYPE in Emem.
  assert (Ep : nb_prot b = 20) by (rewrite Hp, E4; done).
  unfold rx_sha, rx_spa, rx_tpa, rx_op, rx_src, field. rewrite Ep. change (Z.to_nat 20) with 20%nat. cbn [Nat.add Nat.sub].
  set (l := nb_mem b) in *. set (fl (k n : nat) := take n (drop k l)).
  assert (Hf : forall k n, (k + n <= 100)%nat -> length (fl k n) = n) by (intros k n Hk; unfold fl; rewrite length_take, length_drop; lia).
  assert (Hcut : forall k n m, m = (k + n)%nat -> drop k l = fl k n ++ drop m l).
  { intros k n m ->. unfold fl. by rewrite <- drop_drop, take_drop. }
  assert (El : l = (take 6 l ++ fl 6%nat 6%nat ++ fl 12%nat 6%nat ++ fl 18%nat 2%nat) ++
    ((fl 20%nat 6%nat ++ fl 26%nat 2%nat) ++ fl 28%nat 6%nat ++ fl 34%nat 4%nat ++ fl 38%nat 6%nat ++ fl 44%nat 4%nat ++ fl 48%nat 4%nat) ++ drop 52 l).
  { rewrite <- (take_drop 6 l) at 1. rewrite (Hcut 6 6 12 eq_refl)%nat, (Hcut 12 6 18 eq_refl)%nat, (Hcut 18 2 20 eq_refl)%nat, (Hcut 20 6 26 eq_refl)%nat, (Hcut 26 2 28 eq_refl)%nat, (Hcut 28 6 34 eq_refl)%nat, (Hcut 34 4 38 eq_refl)%nat,
      (Hcut 38 6 44 eq_refl)%nat, (Hcut 44 4 48 eq_refl)%nat, (Hcut 48 4 52 eq_refl)%nat. by rewrite <- !app_assoc. }
  destruct (from_wire_message (take 6 l) (fl 6%nat 6%nat) (fl 12%nat 6%nat) (fl 18%nat 2%nat) (fl 20%nat 6%nat) (fl 26%nat 2%nat) (fl 28%nat 6%nat) (fl 34%nat 4%nat) (fl 38%nat 6%nat) (fl 44%nat 4%nat) (fl 48%nat 4%nat) (drop 52 l))
    as (mid & Hmid & E & HG); [apply Hf; lia..|].
  set (e := take 6 l ++ fl 6%nat 6%nat ++ fl 12%nat 6%nat ++ fl 18%nat 2%nat) in *.
  assert (Ee : e = take 20 l).
  { rewrite El. unfold e at 1. rewrite take_app_length'; [done|]. unfold e. rewrite !length_app, length_take, !Hf by lia. lia. }
  assert (Hle : Z.of_nat (length e) = 20) by (rewrite Ee, length_take; lia).
  rewrite <- El, Hle in E. rewrite Hle in HG. exists (e ++ mid ++ drop 52 l).
  assert (Hlen' : length (e ++ mid ++ drop 52 l) = length l) by (rewrite Ee, !length_app, length_take, length_drop; lia).
  split; [exact E|]. split; [destruct Hok; split; cbn; try done; by rewrite Hlen'|]. split; [|split; [|exact HG]].
  - apply (marks_ext b); [done..| |done]. intros j Hj. cbn. rewrite Ee. change (take 20 l) with (take (Z.to_nat 20) l).
    apply (mem_byte_around 20 32); [lia| |done|]; fold l; lia.
  - exact (from_wire_bytes _ _ _ Hby E).
Qed.

End Fields.

Section Rx.
Context {D : Type} `{Mac D}.

Lemma nbind_ext {E A B} (m : N E A) (f g : A -> N E B) s : (forall a s', f a s' = g a s') -> nbind m f s = nbind m g s.
Proof using Type. intros Hfg. unfold nbind. by destruct (m s) as [[a s']| |]. Qed.

(** ** Parts of arprcv *)

Lemma release_ok s A U cs x b : arp_ok s A (x :: U) cs -> pk_bufs (st_pool s) !! x = Some b -> nb_inuse b = 1 -> marked b ->
  exists s' A', pool_do (pk_free x) s = Done (tt, s') /\ arp_ok s' A' U cs /\ around s s' A A' U cs /\ sent_of s' = sent_of s /\
    (forall k, (length (A k) <= length (A' k))%nat).
Proof using Type.
  intros HA Hb Hu Hm. destruct (ch_free _ _ _ _ x b (ao_pool _ _ _ _ HA) Hb Hu Hm) as (p' & Ef & Hp' & Ebufs & _ & Hsame).
  pose proof (ch_nodup _ _ _ _ (ao_pool _ _ _ _ HA)) as Hnd. rewrite <- Permutation_middle in Hnd. apply NoDup_cons in Hnd as [Hny _].
  assert (Hk : forall y, y ∈ U \/ y ∈ concat cs -> pk_bufs p' !! y = pk_bufs (st_pool s) !! y).
  { intros y Hy. rewrite Ebufs. apply list_lookup_insert_ne. intros ->. apply Hny, elem_of_app. tauto. }
  exists (set_pool p' s), (upd_at (size_queue b) (A (size_queue b) ++ [x]) A). split_and!; try done.
  - unfold pool_do. by rewrite Ef.
  - apply (arp_pool s A (x :: U)); [done..|auto|]. rewrite Ebufs.
    intros y c [(<- & <- & _)|[_ Hy]]%list_lookup_insert_Some; [exact (bo_bytes s (ao_base _ _ _ _ HA) x b Hb)|exact (bo_bytes s (ao_base _ _ _ _ HA) y c Hy)].
  - split; try done. apply upd_at_rcv.
  - apply size_queue_free.
Qed.

Lemma find_entry_spec addr l tp : match find_entry addr l tp with
  | Some i => exists e, (tp <= i)%nat /\ l !! (i - tp)%nat = Some e /\ t_pro_addr e = addr /\ forall j e', (j < i - tp)%nat -> l !! j = Some e' -> t_pro_addr e' <> addr
  | None => forall j e', l !! j = Some e' -> t_pro_addr e' <> addr
  end.
Proof using Type.
  revert tp. induction l as [|e l IH]; intros tp; cbn [find_entry]; [done|]. destruct (Z.eqb_spec (t_pro_addr e) addr) as [He|He].
  - exists e. rewrite Nat.sub_diag. split_and!; try done. intros j e' Hj. lia.
  - specialize (IH (S tp)). destruct (find_entry addr l (S tp)) as [i|].
    + destruct IH as (e1 & Hle & Hi & Ha & Hmin). exists e1. replace (i - tp)%nat with (S (i - S tp)) by lia. split_and!; try done; [lia|].
      intros [|j] e' Hj; [by intros [= <-]|]. cbn. apply Hmin. lia.
    + intros [|j] e'; [by intros [= <-]|]. apply IH.
Qed.

(** The entry once the sender's address is known and nothing waits. *)
Definition learned (now : Z) (sha : list Z) (e : arptabent) : arptabent := set_pending None (set_last now (set_phy sha e)).

Definition learn (x tp : nat) (sha : list Z) : N (Inet D) Z :=
  do! _ := upd_ent tp (set_phy sha) in
  do! now := ngets cticks in
  do! _ := upd_ent tp (set_last now) in
  do! e := get_ent tp in
  do! _ := (match at_pending e with Some _ => arp_send_pending mac_send tp | None => nret tt end) in
  do! _ := pool_do (pk_free x) in
  nret 0.

(** The packets that wait in entry [tp] are sent to [sha], in order. *)
Record learned_ok (s s' : NetSt (Inet D)) (A' : Qid -> list nat) (U : list nat) (cs : list (list nat)) (tp : nat) (e : arptabent) (c : list nat) (sha : list Z) : Prop := {
  le_ok : arp_ok s' A' U (<[tp := []]> cs);
  le_calm : calm s s';
  le_sent : exists bs, Forall2 (fun y b => pk_bufs (st_pool s) !! y = Some b) c bs /\
    sent_of s' = sent_of s ++ (ip_frame sha (mac_of s) <$> bs);
  le_tbl : tbl s' = <[tp := learned (cticks s) sha e]> (tbl s);
  le_bufs : forall y, y ∈ U -> pk_bufs (st_pool s') !! y = pk_bufs (st_pool s) !! y;
  le_cache : arpcache (arp_of s') = arpcache (arp_of s);
}.

Lemma learn_ok s A U cs x b tp e c sha : arp_ok s A (x :: U) cs -> pk_bufs (st_pool s) !! x = Some b -> nb_inuse b = 1 -> marked b ->
  tbl s !! tp = Some e -> cs !! tp = Some c -> length sha = 6%nat -> bytes sha ->
  exists s' A', learn x tp sha s = Done (0, s') /\ learned_ok s s' A' U cs tp e c sha /\ A' Rcv = A Rcv.
Proof using Type.
  intros HA Hb Hu Hm He Hc Hl Hby. destruct (arp_row _ _ _ _ _ _ HA He) as (c0 & Hc0 & [P1 P2 P3 P4 P5]). simplify_eq.
  assert (Hlt : (tp < length (tbl s))%nat) by by eapply lookup_lt_Some.
  set (e2 := set_last (cticks s) (set_phy sha e)).
  set (s1 := set_dev (mkInet (set_table (<[tp := set_phy sha e]> (tbl s)) (arp_of s)) (hw_of s)) s).
  set (s2 := set_dev (mkInet (set_table (<[tp := e2]> (tbl s)) (arp_of s)) (hw_of s)) s).
  assert (HA2 : arp_ok s2 A (x :: U) cs).
  { apply (arp_entry s A (x :: U) cs tp e2 c); [done|done|by split|]. intros j e0 Hj H0 E0. cbn in E0 |- *.
    destruct (decide (t_pro_addr e = 0)); [done|]. destruct Hj. apply (ao_unique _ _ _ _ HA j tp e0 e); congruence. }
  assert (He2 : tbl s2 !! tp = Some e2) by (cbn; by apply list_lookup_insert_eq).
  assert (Hsend : exists s3 A3, (match at_pending e with Some _ => arp_send_pending mac_send tp | None => nret tt end) s2 = Done (tt, s3) /\
    arp_ok s3 A3 (x :: U) (<[tp := []]> cs) /\ chain_sent s2 s3 A A3 (x :: U) cs tp e2 c).
  { destruct (chain_apart _ _ _ _ _ _ HA2 Hc) as (_ & _ & Hlen & _).
    destruct (send_chain_ok c (S (length (pk_links (st_pool s2)))) s2 A (x :: U) cs tp e2 HA2 He2 Hc ltac:(lia)) as (s3 & A3 & E3 & HA3 & HS3).
    exists s3, A3. split_and!; [|done|done]. rewrite P1. destruct c as [|y c]; cbn [head]; [|exact E3].
    cbn [send_chain] in E3. rewrite (nbind_eq _ _ _ _ _ (get_ent_eq s2 tp e2 He2)) in E3. cbn [e2 set_last set_phy at_pending] in E3. by rewrite P1 in E3. }
  destruct Hsend as (s3 & A3 & E3 & HA3 & [C3 (bs & Hbs & S3) T3 B3 L3 R3]).
  assert (Hxc : x ∉ c). { intros Hx. destruct (chain_apart _ _ _ _ _ _ HA Hc) as (_ & _ & _ & Ho). apply (Ho x); [by left|done]. }
  assert (HUc : forall y, y ∈ U -> y ∉ c). { intros y Hy. destruct (chain_apart _ _ _ _ _ _ HA Hc) as (_ & _ & _ & Ho). apply Ho. by right. }
  destruct (release_ok s3 A3 U _ x b HA3) as (s4 & A4 & E4 & HA4 & [C4 B4 L4 R4 T4 K4] & S4 & _); [by rewrite B3|done|done|].
  exists s4, A4. split; [|split; [split|by rewrite R4, R3]].
  - unfold learn. rewrite (nbind_eq _ _ _ _ _ (upd_ent_eq s tp e _ He)). fold s1. rewrite (nbind_eq (ngets cticks) _ s1 (cticks s) s1 eq_refl).
    rewrite (nbind_eq (upd_ent tp _) _ s1 tt s2).
    2: { rewrite (upd_ent_eq s1 tp (set_phy sha e)) by (cbn; by apply list_lookup_insert_eq). cbn. by rewrite list_insert_insert_eq. }
    rewrite (nbind_eq _ _ _ _ _ (get_ent_eq s2 tp e2 He2)). cbn [e2 set_last set_phy at_pending].
    rewrite (nbind_eq _ _ _ _ _ E3). by rewrite (nbind_eq _ _ _ _ _ E4).
  - done.
  - etrans; [|exact C4]. etrans; [|exact C3]. by split.
  - exists bs. split; [done|]. by rewrite S4, S3.
  - rewrite T4. unfold tbl at 1. rewrite T3. cbn. rewrite list_insert_insert_eq. f_equal. unfold learned. fold e2.
    destruct c as [|y c]; [|done]. cbn in P1. unfold emptied, e2, set_last, set_phy, set_pending. cbn. by rewrite P1.
  - intros y Hy. rewrite B4 by (by left). by rewrite B3 by (by apply HUc).
  - rewrite K4, T3. done.
Qed.

(** ** Unpacking *)

(** Whether a message with target [tpa] is taken by interface [n]. *)
Definition for_us (n : net) (tpa : Z) : bool := (tpa =? n_ipaddr n) || IN_MULTICAST (htonl tpa).

(** arprcv once the fields are known. *)
Definition rx_update (x i : nat) (op spa : Z) (sha : list Z) : N (Inet D) Z :=
  do! _ := (if op =? ARREQ then
              do! _ := arp_do (count_arp 1 0 0 0) in
              do! _ := arpReply mac_send x in
              do! _ := make_arp_entry spa i in
              nret tt
            else arp_do (count_arp 0 0 1 0)) in
  do! table := arp_gets arp_table in
  match find_entry spa table 0 with
  | Some tp => learn x tp sha
  | None => do! _ := pool_do (pk_free x) in nret ENP_NOT_MINE
  end.

Definition rx_rest (x i : nat) (n : net) (tpa op spa : Z) (sha : list Z) : N (Inet D) Z :=
  if for_us n tpa then rx_update x i op spa sha else do! _ := pool_do (pk_free x) in nret ENP_NOT_MINE.

Lemma read_eq {A} (s : NetSt (Inet D)) b (f : list Z -> option A) v : f (nb_mem b) = Some v -> read_block b f s = Done (v, s).
Proof using Type. intros E. unfold read_block. by rewrite E. Qed.

Lemma arprcv_unpack s A U cs x b i n : arp_ok s A (x :: U) cs -> pk_bufs (st_pool s) !! x = Some b -> received b ->
  nb_net b = Some i -> st_nets s !! i = Some n ->
  exists l, let b1 := set_mem l b in let s1 := put_buf x b1 s in
    arprcv mac_send x s = rx_rest x i n (le32 (rx_tpa b)) (le16 (rx_op b)) (le32 (rx_spa b)) (rx_sha b) s1 /\
    arp_ok s1 A (x :: U) cs /\ marked b1 /\ message_at (nb_prot b) l (rx_sha b) (rx_spa b) (rx_tpa b) (rx_op b) (rx_src b) /\
    length (rx_sha b) = 6%nat /\ bytes (rx_sha b).
Proof using Type.
  intros HA Hb Hrc Hi Hn. destruct (arp_buf _ _ _ _ _ _ HA Hb) as [Hok Hby]. destruct (rx_block b Hok Hby Hrc) as (l & E & Hok1 & Hm1 & Hby1 & HG).
  exists l. cbn zeta. assert (Hsx : is_Some (pk_bufs (st_pool s) !! x)) by by eexists.
  pose proof HG as [G1 G2 G3 G4 G5]. split_and!; try done.
  - unfold arprcv. rewrite (nbind_eq _ _ _ _ _ (get_buf_eq s x b Hb)). cbn zeta.
    rewrite (nbind_eq (write_block x _) _ s tt (put_buf x (set_mem l b) s)) by (apply (upd_buf_eq s x b); [done|]; by rewrite E).
    rewrite (nbind_eq _ _ _ _ _ (get_buf_eq _ x (set_mem l b) (put_buf_lookup s x _ Hsx))). cbn [nb_net set_mem]. rewrite Hi.
    rewrite (nbind_eq (nonnull (Some i)) _ _ i _ eq_refl), (nbind_eq _ _ _ _ _ (get_net_eq (put_buf x (set_mem l b) s) i n Hn)).
    rewrite (nbind_eq (read_block _ _) _ _ (le32 (rx_tpa b)) _) by (apply read_eq; cbn; by rewrite load32_get, G3).
    unfold rx_rest, for_us. destruct (le32 (rx_tpa b) =? n_ipaddr n), (IN_MULTICAST (htonl (le32 (rx_tpa b)))); cbn [negb andb orb]; try done;
      (rewrite (nbind_eq (read_block _ _) _ _ (le16 (rx_op b)) _) by (apply read_eq; cbn; by rewrite load16_get, G4);
       rewrite (nbind_eq (read_block _ _) _ _ (le32 (rx_spa b)) _) by (apply read_eq; cbn; by rewrite load32_get, G2);
       apply nbind_ext; intros t s'; apply nbind_ext; intros table s''; destruct (find_entry _ table 0) as [tp|]; [|done];
       by rewrite (nbind_eq (read_block _ _) _ _ (rx_sha b) _) by (apply read_eq; exact G1)).
  - apply arp_write; [done|by left|done| |done]. cbn. by rewrite (rc_use b Hrc).
  - by eapply get_bytes_length.
  - by eapply bytes_get.
Qed.

(** ** The cases of arprcv *)

(** What the handling of a received packet [x] leaves of the rest. *)
Record handled_rx (s s' : NetSt (Inet D)) (A' : Qid -> list nat) (U : list nat) (cs' : list (list nat)) : Prop := {
  hr_ok : arp_ok s' A' U cs';
  hr_calm : calm s s';
  hr_bufs : forall y, y ∈ U -> pk_bufs (st_pool s') !! y = pk_bufs (st_pool s) !! y;
  hr_cache : arpcache (arp_of s') = arpcache (arp_of s);
}.

Lemma put_other (s : NetSt (Inet D)) x b y : y <> x -> pk_bufs (st_pool (put_buf x b s)) !! y = pk_bufs (st_pool s) !! y.
Proof using Type. intros Hy. cbn. by rewrite list_lookup_insert_ne. Qed.

(** The received packet is in no list. *)
Lemma rx_apart s A U cs x : arp_ok s A (x :: U) cs -> (x ∉ U) /\ (x ∉ concat cs).
Proof using Type.
  intros HA. pose proof (ch_nodup _ _ _ _ (ao_pool _ _ _ _ HA)) as Hnd. rewrite <- Permutation_middle in Hnd.
  apply NoDup_cons in Hnd as [Hn _]. rewrite elem_of_app in Hn. tauto.
Qed.

Lemma arp_dropped s A U cs x b l : arp_ok (put_buf x (set_mem l b) s) A (x :: U) cs -> pk_bufs (st_pool s) !! x = Some b ->
  nb_inuse b = 1 -> marked (set_mem l b) ->
  exists s' A', (do! _ := pool_do (pk_free x) in nret ENP_NOT_MINE) (put_buf x (set_mem l b) s) = Done (ENP_NOT_MINE, s') /\
    handled_rx s s' A' U cs /\ sent_of s' = sent_of s /\ tbl s' = tbl s /\ A' Rcv = A Rcv.
Proof using Type.
  intros HA Hb Hu Hm. destruct (rx_apart _ _ _ _ _ HA) as [Hx _].
  destruct (release_ok _ A U cs x (set_mem l b) HA) as (s' & A' & E & HA' & [C B L R T K] & S & _); [apply put_buf_lookup; by eexists|done|done|].
  exists s', A'. split; [by rewrite (nbind_eq _ _ _ _ _ E)|]. split_and!; try done. split; try done.
  - etrans; [|exact C]. by split.
  - intros y Hy. rewrite B by (by left). apply put_other. by intros ->.
Qed.

(** A reply that says where an entry's packets go. *)
Lemma rx_reply s A U cs x b l i op spa sha tp e c : arp_ok (put_buf x (set_mem l b) s) A (x :: U) cs ->
  pk_bufs (st_pool s) !! x = Some b -> nb_inuse b = 1 -> marked (set_mem l b) -> length sha = 6%nat -> bytes sha ->
  op <> ARREQ -> find_entry spa (tbl s) 0 = Some tp -> tbl s !! tp = Some e -> cs !! tp = Some c ->
  exists s' A' bs, rx_update x i op spa sha (put_buf x (set_mem l b) s) = Done (0, s') /\ handled_rx s s' A' U (<[tp := []]> cs) /\
    Forall2 (fun y b => pk_bufs (st_pool s) !! y = Some b) c bs /\ sent_of s' = sent_of s ++ (ip_frame sha (mac_of s) <$> bs) /\
    tbl s' = <[tp := learned (cticks s) sha e]> (tbl s) /\ A' Rcv = A Rcv.
Proof using Type.
  intros HA Hb Hu Hm Hl Hby Hop Hf He Hc. destruct (rx_apart _ _ _ _ _ HA) as [Hx Hxc]. set (s1 := put_buf x (set_mem l b) s) in *.
  destruct (set_vars s1 A (x :: U) cs (count_arp 0 0 1 0 (arp_of s1)) HA) as [HA2 HT2]; [done..|]. set (s2 := set_dev _ s1) in *.
  destruct (learn_ok s2 A U cs x (set_mem l b) tp e c sha HA2) as (s3 & A3 & E3 & [K1 K2 (bs & K3 & K4) K5 K6 K7] & R3); try done.
  { apply put_buf_lookup. by eexists. }
  exists s3, A3, bs. split_and!; try done.
  - unfold rx_update. rewrite (proj2 (Z.eqb_neq _ _) Hop). rewrite (nbind_eq _ _ s1 tt s2 eq_refl).
    rewrite (nbind_eq (arp_gets arp_table) _ s2 (tbl s) s2 eq_refl), Hf. exact E3.
  - split; [done| | |done].
    + etrans; [|exact K2]. by split.
    + intros y Hy. rewrite K6 by done. apply put_other. by intros ->.
  - apply Forall2_same_length_lookup_2; [by eapply Forall2_length|]. intros j y b' Hy Hb'.
    rewrite <- (Forall2_lookup_lr _ _ _ _ _ _ K3 Hy Hb'). symmetry. apply put_other. intros ->. apply Hxc, (in_lists cs tp c); [done|].
    by eapply list_elem_of_lookup_2.
Qed.

(** The packets [c] that wait for address [addr] and are not to be dropped. *)
Definition waiting_for (now : Z) (l : list arptabent) (cs : list (list nat)) (addr : Z) (c : list nat) : Prop :=
  (exists i e, l !! i = Some e /\ cs !! i = Some c /\ t_pro_addr e = addr /\ stale now e = false) \/
  (c = [] /\ forall i e, l !! i = Some e -> t_pro_addr e = addr -> stale now e = true).

Lemma made_waiting (s : NetSt (Inet D)) (cs cs' : list (list nat)) dest r e c now : chosen (aged now <$> tbl s) dest r -> (aged now <$> tbl s) !! r = Some e ->
  dest <> 0 -> length cs = length (tbl s) ->
  (forall i e0 c0, tbl s !! i = Some e0 -> cs !! i = Some c0 ->
     cs' !! i = Some (if bool_decide (i = r /\ t_pro_addr e <> dest) then [] else aged_list now e0 c0)) ->
  cs' !! r = Some c -> waiting_for now (tbl s) cs dest c.
Proof using Type.
  intros (e0 & He0 & Hcase) He Hz Hlen Hcs Hc. rewrite He in He0. injection He0 as <-.
  rewrite list_lookup_fmap in He. destruct (tbl s !! r) as [t|] eqn:Et; [|done]. cbn in He. injection He as <-.
  destruct (lookup_lt_is_Some_2 cs r) as [c0 Hc0]; [apply lookup_lt_Some in Et; lia|].
  pose proof (Hcs r t c0 Et Hc0) as Hc'. rewrite Hc in Hc'. injection Hc' as Hc'. destruct (decide (t_pro_addr (aged now t) = dest)) as [Hd|Hd].
  - rewrite bool_decide_eq_false_2 in Hc' by (by intros [_ ?]). left. exists r, t. unfold aged, aged_list in *.
    destruct (stale now t); [by cbn in Hd|]. by subst.
  - rewrite bool_decide_eq_true_2 in Hc' by done. right. split; [done|]. intros i t' Hi Ha. destruct Hcase as [Hd'|[Hno _]]; [done|].
    destruct (stale now t') eqn:Es; [done|]. exfalso. apply (Hno i t'); [|done]. rewrite list_lookup_fmap, Hi. cbn. unfold aged. by rewrite Es.
Qed.

Lemma rx_request s A U cs x b l i n op spa sha tpa src : arp_ok (put_buf x (set_mem l b) s) A (x :: U) cs ->
  pk_bufs (st_pool s) !! x = Some b -> nb_inuse b = 1 -> marked (set_mem l b) -> message_at (nb_prot b) l sha spa tpa op src ->
  nb_net b = Some i -> st_nets s !! i = Some n -> length sha = 6%nat -> bytes sha -> le16 op = ARREQ ->
  exists s' A' cs' reply bs c, rx_update x i (le16 op) (le32 spa) sha (put_buf x (set_mem l b) s) = Done (0, s') /\ handled_rx s s' A' U cs' /\
    match alloc_from arpsize A with
    | Some _ => exists pad, length pad = 22%nat /\ reply = [arp_frame src (mac_of s) [0x00; 0x02] (mac_of s) tpa sha spa ++ pad]
    | None => reply = []
    end /\
    Forall2 (fun y b => pk_bufs (st_pool s) !! y = Some b) c bs /\ (le32 spa <> 0 -> waiting_for (cticks s) (tbl s) cs (le32 spa) c) /\
    sent_of s' = sent_of s ++ reply ++ (ip_frame sha (mac_of s) <$> bs) /\
    (exists tp e, tbl s' !! tp = Some e /\ t_pro_addr e = le32 spa /\ t_phy_addr e = sha /\ at_pending e = None) /\
    A' Rcv = A Rcv /\ (forall y, y ∈ concat cs' -> y ∈ concat cs).
Proof using Type.
  intros HA Hb Hu Hm HG Hi Hn Hl Hby Hop. destruct (rx_apart _ _ _ _ _ HA) as [Hx Hxc]. set (b1 := set_mem l b) in *. set (s1 := put_buf x b1 s) in *.
  assert (Hb1 : pk_bufs (st_pool s1) !! x = Some b1) by (apply put_buf_lookup; by eexists).
  destruct (set_vars s1 A (x :: U) cs (count_arp 1 0 0 0 (arp_of s1)) HA) as [HA2 HT2]; [done..|]. set (s2 := set_dev _ s1) in *.
  destruct (arpReply_ok s2 A (x :: U) cs x b1 i n sha spa tpa op src HA2) as (s3 & A3 & reply & E3 & HA3 & [C3 B3 L3 R3 T3 K3] & S3 & Hreply);
    [by left|done..|].
  destruct (make_arp_entry_ok s3 A3 (x :: U) cs (le32 spa) i HA3) as (s4 & A4 & cs4 & r & e & E4 & HA4 & HT4 & Hsub & Hch & He & T4 & Hcs4 & K4).
  assert (Hr : tbl s4 !! r = Some (made_entry (le32 spa) i (cticks s3) e)) by (rewrite T4; apply list_lookup_insert_eq; by eapply lookup_lt_Some).
  pose proof (find_entry_spec (le32 spa) (tbl s4) 0) as Hf. destruct (find_entry (le32 spa) (tbl s4) 0) as [tp|] eqn:Ef; [|by destruct (Hf r _ Hr)].
  destruct Hf as (e4 & _ & He4 & Ha4 & _). rewrite Nat.sub_0_r in He4. destruct (arp_row _ _ _ _ _ _ HA4 He4) as (c & Hc & _).
  assert (Hx4 : pk_bufs (st_pool s4) !! x = Some b1).
  { rewrite (ti_bufs _ _ _ _ _ _ HT4) by (left; by left). rewrite B3 by (left; by left). done. }
  destruct (learn_ok s4 A4 U cs4 x b1 tp e4 c sha HA4 Hx4 Hu Hm He4 Hc Hl Hby) as (s5 & A5 & E5 & [Q1 Q2 (bs & Q3 & Q4) Q5 Q6 Q7] & R5).
  assert (Hticks : cticks s3 = cticks s) by (rewrite (ca_ticks _ _ C3); done).
  assert (Ht3 : tbl s3 = tbl s) by (rewrite T3; done).
  assert (Hmac4 : mac_of s4 = mac_of s) by (unfold mac_of; rewrite (ca_dm _ _ (ti_calm _ _ _ _ _ _ HT4)), (ca_dm _ _ C3); done).
  exists s5, A5, (<[tp := []]> cs4), reply, bs, c. split; [|split; [split; [exact Q1| | |]|]].
  - unfold rx_update. rewrite Hop, Z.eqb_refl, nbind_assoc. rewrite (nbind_eq (arp_do _) _ s1 tt s2 eq_refl), nbind_assoc, (nbind_eq _ _ _ _ _ E3), nbind_assoc.
    rewrite (nbind_eq _ _ _ _ _ E4). rewrite (nbind_eq (nret tt) _ s4 tt s4 eq_refl), (nbind_eq (arp_gets arp_table) _ s4 (tbl s4) s4 eq_refl), Ef. exact E5.
  - etrans; [|exact Q2]. etrans; [|apply HT4]. etrans; [|exact C3]. by split.
  - intros y Hy. rewrite Q6 by done. rewrite (ti_bufs _ _ _ _ _ _ HT4) by (left; by right). rewrite B3 by (left; by right).
    apply (put_other s). by intros ->.
  - by rewrite Q7, K4, K3.
  - split_and!.
    + done.
    + apply Forall2_same_length_lookup_2; [by eapply Forall2_length|]. intros j y b' Hy Hb'. rewrite <- (Forall2_lookup_lr _ _ _ _ _ _ Q3 Hy Hb').
      assert (Hyc : y ∈ concat cs4) by (apply (in_lists cs4 tp c); [done|]; by eapply list_elem_of_lookup_2).
      rewrite (ti_bufs _ _ _ _ _ _ HT4) by (by right). rewrite B3 by (right; by apply Hsub). symmetry. apply (put_other s). intros ->. by apply Hxc, Hsub.
    + intros Hz. assert (tp = r) as -> by (apply (ao_unique _ _ _ _ HA4 tp r e4 _ He4 Hr); [by rewrite Ha4|by rewrite Ha4]).
      rewrite Ht3, Hticks in *. apply (made_waiting s cs cs4 (le32 spa) r e c); try done. rewrite (ao_lists _ _ _ _ HA). symmetry. apply (ao_len _ _ _ _ HA).
    + rewrite Q4, Hmac4. replace (sent_of s4) with (sent_of s3) by (unfold sent_of; by rewrite (ti_hw _ _ _ _ _ _ HT4)). rewrite S3. by rewrite <- app_assoc.
    + exists tp, (learned (cticks s4) sha e4). split; [|done]. rewrite Q5. apply list_lookup_insert_eq. by eapply lookup_lt_Some.
    + by rewrite R5, (ti_rcv _ _ _ _ _ _ HT4), R3.
    + intros y Hy. apply Hsub. revert Hy. apply (tidy_sub s4 (x :: U) cs4 tp c [] A4 Hc); [by intros z ?%elem_of_nil|done].
Qed.

End Rx.
