(* ===== verification/ArpTx.v ===== *)
(** * ArpTx

    Sending through the ARP table: packets for known addresses go out at once, packets for
    others wait, in order, while a request is broadcast; the timer releases those that
    waited too long. *)

From stdpp Require Import sets.
From S2P Require Import Prelude NetQueue PktPool PktFacts PktChain KernelData Kernel KernelSem NetDev Dm9000a Dm9000aFacts DmRx NetPath NetProps NetDemux Arp ArpWire ArpFacts ArpTable ArpOps ArpRx.

Section Tx.
Context {D : Type} `{Mac D}.

(** ** Waiting behind others *)

Lemma last_default (l : list nat) a d d' : List.last (a :: l) d = List.last (a :: l) d'.
Proof using Type. revert a. induction l as [|b l IH]; intros a; [done|]. exact (IH b). Qed.

Lemma last_pending_ok c : forall fuel (s : NetSt (Inet D)) x, chain (pk_links (st_pool s)) (x :: c) -> (length c < fuel)%nat ->
  last_pending fuel x s = Done (List.last (x :: c) x, s).
Proof using Type.
  induction c as [|y c IH]; intros fuel s x [Hx Hc] Hf; (destruct fuel as [|fuel]; [lia|]); cbn [last_pending].
  - by rewrite (nbind_eq (get_next x) _ s None s) by (unfold get_next; by rewrite Hx).
  - rewrite (nbind_eq (get_next x) _ s (Some y) s) by (unfold get_next; by rewrite Hx). cbn in Hf.
    rewrite (IH fuel s y Hc) by lia. do 2 f_equal. by rewrite (last_default c y y x).
Qed.

(** What a sending operation leaves of the rest. *)
Record handled_tx (s s' : NetSt (Inet D)) (A A' : Qid -> list nat) (U : list nat) (cs' : list (list nat)) : Prop := {
  ht_ok : arp_ok s' A' U cs';
  ht_calm : calm s s';
  ht_bufs : forall y, y ∈ U -> pk_bufs (st_pool s') !! y = pk_bufs (st_pool s) !! y;
  ht_free : forall k, (length (A k) <= length (A' k))%nat;
  ht_rcv : A' Rcv = A Rcv;
}.

Lemma append_ok s A U cs x tp e c t : arp_ok s A (x :: U) cs -> ready s x -> tbl s !! tp = Some e -> cs !! tp = Some (c ++ [t]) ->
  exists s', put_next t (Some x) s = Done (tt, s') /\ handled_tx s s' A A U (<[tp := c ++ [t; x]]> cs) /\
    (forall y, pk_bufs (st_pool s') !! y = pk_bufs (st_pool s) !! y) /\ st_dev s' = st_dev s.
Proof using Type.
  intros HA Hx He Hc. destruct (arp_row _ _ _ _ _ _ HA He) as (c0 & Hc0 & [P1 P2 P3 P4 P5]). simplify_eq.
  destruct (chain_apart _ _ _ _ _ _ HA Hc) as (Hp & Hn & _ & Ho). destruct (rx_apart _ _ _ _ _ HA) as [HxU Hxc].
  assert (Hxl : pk_links (st_pool s) !! x = Some None) by (apply (ch_free_link _ _ _ _ (ao_pool _ _ _ _ HA)); by left).
  assert (Hxn : x ∉ c ++ [t]) by (intros Hin; apply Hxc, (in_lists _ _ _ _ Hc Hin)).
  assert (Htl : (t < length (pk_links (st_pool s)))%nat).
  { destruct (chain_in _ _ t P2) as [v Hv]; [apply elem_of_app; right; by left|]. by eapply lookup_lt_Some. }
  set (p := set_links (<[t := Some x]> (pk_links (st_pool s))) (st_pool s)).
  assert (Ep : concat cs ≡ₚ (c ++ [t]) ++ concat (<[tp := []]> cs)).
  { rewrite <- (concat_put cs tp (c ++ [t])) by done. by rewrite list_insert_id. }
  assert (Ep' : concat (<[tp := c ++ [t; x]]> cs) ≡ₚ x :: concat cs).
  { rewrite (concat_put cs tp (c ++ [t])) by done. rewrite Ep. change [t; x] with ([t] ++ [x]). rewrite !app_assoc. solve_Permutation. }
  assert (Hnd : NoDup (c ++ [t])) by (by apply NoDup_app in Hn as [? _]).
  exists (set_pool p s). split; [|split; [split; try done|done]].
  - unfold put_next, pool_do. by rewrite set_next_lt.
  - assert (Hs : set_pool p s = set_pool p (set_dev (mkInet (set_table (<[tp := e]> (tbl s)) (arp_of s)) (hw_of s)) s)).
    { rewrite list_insert_id by done. unfold tbl, arp_of, hw_of. destruct s as [? [[] ?] ? ? ? ? ? ? ?]. done. }
    rewrite Hs. apply (arp_replace s A (x :: U) cs tp e e (c ++ [t]) (c ++ [t; x]) p A U); try done.
    + apply (ch_move _ A (concat cs) (x :: U) _ U _ (ao_pool _ _ _ _ HA)).
      * rewrite Ep'. cbn. by rewrite Permutation_middle.
      * apply length_insert.
      * intros y Hy Hy'. apply list_lookup_insert_ne. intros ->. apply Hy. rewrite Ep. set_solver.
      * intros y Hy. left. rewrite Ep'. by right.
      * intros y. rewrite Ep'. intros [->|Hy]%elem_of_cons; [by right|by left].
    + intros y Hy. cbn. apply list_lookup_insert_ne. intros ->. apply NoDup_app in Hn as (_ & Hd & _). apply (Hd y); [set_solver|done].
    + split; try done; [by rewrite P1; destruct c|by apply chain_snoc|]. intros Ha. specialize (P3 Ha). by destruct c.
    + by left.
    + apply Forall_forall. intros y. rewrite Ep'. intros [->|Hy]%elem_of_cons; [done|].
      apply (ready_kept s); [by split|done|]. exact (proj1 (Forall_forall _ _) (ao_ready _ _ _ _ HA) y Hy).
    + intros y b Hy. exact (bo_bytes s (ao_base _ _ _ _ HA) y b Hy).
Qed.

(** ** Asking for an address *)

Lemma upd_at_mono k y (A A' : Qid -> list nat) q : (forall q, (length (A q) <= length (A' q))%nat) ->
  (length (upd_at k (A k ++ [y]) A q) <= length (upd_at k (A' k ++ [y]) A' q))%nat.
Proof using Type. intros Hl. unfold upd_at. destruct (decide (q = k)) as [->|]; [rewrite !length_app; cbn; specialize (Hl k); lia|apply Hl]. Qed.

(** The empty list of an entry becomes the packet [x]. *)
Lemma pend_ok s A U cs x tp e : arp_ok s A (x :: U) cs -> ready s x -> tbl s !! tp = Some e -> cs !! tp = Some [] -> t_pro_addr e <> 0 ->
  let s' := set_dev (mkInet (set_table (<[tp := set_pending (Some x) e]> (tbl s)) (arp_of s)) (hw_of s)) s in
  arp_ok s' A U (<[tp := [x]]> cs).
Proof using Type.
  intros HA Hx He Hc Hz s'. destruct (arp_row _ _ _ _ _ _ HA He) as (c0 & Hc0 & [P1 P2 P3 P4 P5]). simplify_eq.
  assert (Hxl : pk_links (st_pool s) !! x = Some None) by (apply (ch_free_link _ _ _ _ (ao_pool _ _ _ _ HA)); by left).
  assert (Ep' : concat (<[tp := [x]]> cs) ≡ₚ x :: concat cs).
  { rewrite (concat_put cs tp []) by done. by rewrite list_insert_id. }
  assert (Hs : s' = set_pool (st_pool s) s') by (by destruct s as [? [[] ?] ? ? ? ? ? ? ?]). rewrite Hs.
  apply (arp_replace s A (x :: U) cs tp e (set_pending (Some x) e) [] [x] (st_pool s) A U); try done.
  - pose proof (ch_move (st_pool s) A (concat cs) (x :: U) (concat (<[tp := [x]]> cs)) U (pk_links (st_pool s)) (ao_pool _ _ _ _ HA)) as Hm.
    destruct (st_pool s). apply Hm; [rewrite Ep'; cbn; by rewrite Permutation_middle|done|done| |].
    + intros y Hy. left. rewrite Ep'. by right.
    + intros y. rewrite Ep'. intros [->|Hy]%elem_of_cons; [by right|by left].
  - by left.
  - apply Forall_forall. intros y. rewrite Ep'. intros [->|Hy]%elem_of_cons; [done|].
    apply (ready_kept s); [by split|done|]. exact (proj1 (Forall_forall _ _) (ao_ready _ _ _ _ HA) y Hy).
  - intros y b Hy. exact (bo_bytes s (ao_base _ _ _ _ HA) y b Hy).
Qed.

Lemma arp_swap s A U U' cs : U ≡ₚ U' -> arp_ok s A U cs -> arp_ok s A U' cs.
Proof using Type. intros E [Hp ? ? ? ? ? ? ?]. split; try done. by eapply ch_perm. Qed.

Lemma bytes16_ok v : length (bytes16 v) = 2%nat /\ bytes (bytes16 v).
Proof using Type. split; [done|]. unfold bytes16. repeat constructor; change (2 ^ 8) with 256; Z.div_mod_to_equations; lia. Qed.
Lemma bytes32_ok v : length (bytes32 v) = 4%nat /\ bytes (bytes32 v).
Proof using Type. split; [done|]. unfold bytes32. apply bytes_app. split; apply bytes16_ok. Qed.

(** The request for address [dest] that interface [n] broadcasts. *)
Definition request_frame (mac : list Z) (n : net) (dest : Z) (tha : list Z) : list Z :=
  arp_frame (replicate 6 0xFF) mac [0x00; 0x01] mac (bytes32 (n_ipaddr n)) tha (bytes32 dest).

(** Writing and sending the message in packet [y]. *)
Lemma broadcast_sent s A U cs y ob i n spa dest : arp_ok s A (y :: U) cs -> pk_bufs (st_pool s) !! y = Some ob -> marked ob -> nb_inuse ob = 1 ->
  nb_prot ob = nb_buff ob -> nb_plen ob = arpsize -> nb_net ob = Some i -> st_nets s !! i = Some n ->
  exists s' A' tha pad, length tha = 6%nat /\ length pad = 22%nat /\
    (do! phys := ifPhysAddress i in
     do! ab := get_buf y in
     do! _ := write_block y (put_broadcast ARREQ (nb_buff ab) spa dest phys) in
     do! _ := write_block y (to_wire (nb_buff ab + ETHHDR_SIZE)) in
     do! _ := net_send mac_send i y in
     do! _ := arp_do (count_arp 0 1 0 0) in
     nret ENP_SEND_PENDING) s = Done (ENP_SEND_PENDING, s') /\
    arp_ok s' A' U cs /\ around s s' A A' U cs /\
    sent_of s' = sent_of s ++ [arp_frame (replicate 6 0xFF) (mac_of s) [0x00; 0x01] (mac_of s) (bytes32 spa) tha (bytes32 dest) ++ pad] /\
    A' = upd_at (size_queue ob) (A (size_queue ob) ++ [y]) A.
Proof using Type.
  intros HA Hy Hm Hu Hpr Hpl Hi Hn. destruct (arp_buf _ _ _ _ _ _ HA Hy) as [Hok Hby]. destruct (block_room ob Hok) as [E4 Hlen].
  pose proof (ao_base _ _ _ _ HA) as HB. destruct (base_net s i n HB Hn) as [Hloc _]. destruct (bo_phys s HB) as [Hp6 Hpb].
  assert (Hroom : nb_buff ob + arpsize <= Z.of_nat (length (nb_mem ob))) by (rewrite E4; unfold arpsize, ETHHDR_SIZE; lia).
  assert (Hbb : exists l1, put_broadcast ARREQ (nb_buff ob) spa dest (mac_of s) (nb_mem ob) = Some l1 /\ exists tha, length tha = 6%nat /\ bytes tha /\
    to_wire (nb_buff ob + ETHHDR_SIZE) l1 = Some (message_block (nb_buff ob) (nb_mem ob)
      (arp_frame (replicate 6 0xFF) (mac_of s) (bytes16 ARREQ) (mac_of s) (bytes32 spa) tha (bytes32 dest)) (bytes32 dest))).
  { destruct (broadcast_spec ARREQ (nb_buff ob) spa dest (mac_of s) (nb_mem ob)) as (tha & Ht & Htb & E); [rewrite E4; done|done|done|done|].
    destruct (put_broadcast _ _ _ _ _ _) as [l1|]; [|done]. exists l1. split; [done|]. by exists tha. }
  destruct Hbb as (l1 & W1 & tha & Htha & Htb & W2). set (frame := arp_frame _ _ _ _ _ tha _) in *. set (l2 := message_block _ _ _ _) in *.
  destruct (arp_frame_ok (replicate 6 0xFF) (mac_of s) (bytes16 ARREQ) (mac_of s) (bytes32 spa) tha (bytes32 dest)) as [Lf Bf];
    try done; try (by apply bytes16_ok); try (by apply bytes32_ok); [by repeat constructor|].
  destruct (message_sent s A U cs y ob (set_mem l2 ob) i n frame (bytes32 dest)) as (s1 & A1 & pad & E1 & HA1 & Har & Hpad & Hs1 & Ha1 & EA1); try done;
    [by apply bytes32_ok|].
  destruct (set_vars s1 A1 U cs (count_arp 0 1 0 0 (arp_of s1)) HA1) as [HA2 HT2]; [done..|].
  exists (set_dev (mkInet (count_arp 0 1 0 0 (arp_of s1)) (hw_of s1)) s1), A1, tha, pad. split; [done|]. split; [done|].
  split; [|split; [exact HA2|split; [|split; [|exact EA1]]]].
  - rewrite (nbind_eq _ _ _ _ _ (phys_eq s i n Hn Hloc)), (nbind_eq _ _ _ _ _ (get_buf_eq s y ob Hy)), write_block_seq.
    rewrite (nbind_eq (write_block y _) _ s tt (put_buf y (set_mem l2 ob) s)) by (apply (upd_buf_eq s y ob); [done|]; by rewrite W1, W2).
    by rewrite (nbind_eq _ _ _ _ _ E1).
  - destruct Har as [C B L R T K]. split; try done. etrans; [exact C|apply HT2].
  - exact Hs1.
Qed.

(** Packets for the board itself, which are not sent. *)
Definition own_host (s : NetSt (Inet D)) (x : nat) (n : net) : bool :=
  (fhost (arp_of s) x =? n_ipaddr n) && negb (Z.land (fhost (arp_of s) x) (htonl 0xFF000000) =? htonl 0x7F000000).

(** Packet [x] waits, alone, in entry [tp] for address [dest]. *)
Record waits_alone (s' : NetSt (Inet D)) (cs' : list (list nat)) (x : nat) (dest now : Z) (tp : nat) : Prop := {
  wa_entry : exists e, tbl s' !! tp = Some e /\ t_pro_addr e = dest /\ createtime e = now;
  wa_list : cs' !! tp = Some [x];
}.

Lemma send_arp_request s A U cs x b i n dest k : arp_ok s A (x :: U) cs -> ready s x -> pk_bufs (st_pool s) !! x = Some b ->
  nb_net b = Some i -> st_nets s !! i = Some n -> is_group n dest = false -> own_host s x n = false -> dest <> 0 ->
  (forall j e, tbl s !! j = Some e -> t_pro_addr e <> dest) -> alloc_from arpsize A = Some k ->
  exists s' A' cs' tp tha pad, send_arp mac_send x dest s = Done (ENP_SEND_PENDING, s') /\ handled_tx s s' A A' U cs' /\
    length tha = 6%nat /\ length pad = 22%nat /\ sent_of s' = sent_of s ++ [request_frame (mac_of s) n dest tha ++ pad] /\
    waits_alone s' cs' x dest (cticks s) tp /\ pk_bufs (st_pool s') !! x = pk_bufs (st_pool s) !! x.
Proof using Type.
  intros HA Hx Hb Hi Hn Hg Hh Hz Hno Ek.
  destruct (message_alloc s A (x :: U) cs k HA Ek) as (y & ob & s1 & A1 & E1 & HA1 & C1 & N1 & V1 & W1 & R1 & Hy & Hmy & Huy & Hny & K1 & L1 & F1).
  set (ob1 := message_fields i ob). destruct (arp_buf _ _ _ _ _ _ HA1 Hy) as [Hoky Hbyy].
  assert (Hxy : x <> y) by (intros ->; apply Hny, elem_of_app; right; by left).
  assert (HA2 : arp_ok (put_buf y ob1 s1) A1 (y :: x :: U) cs).
  { apply arp_write; [done|by left|by destruct Hoky|change (nb_inuse ob1) with (nb_inuse ob); by rewrite Huy|done]. }
  set (s2 := put_buf y ob1 s1) in *. assert (T2 : tbl s2 = tbl s) by (change (tbl s2) with (arp_table (arp_of s1)); by rewrite V1).
  destruct (make_arp_entry_ok s2 A1 (y :: x :: U) cs dest i HA2) as (s3 & A3 & cs3 & r & e & E3 & HA3 & HT3 & Hsub & _ & He & T3 & Hcs3 & _).
  rewrite T2 in He, T3, Hcs3. assert (Htk : cticks s2 = cticks s) by (cbn; apply C1). rewrite Htk in He, T3, Hcs3.
  assert (Hed : t_pro_addr e <> dest).
  { rewrite list_lookup_fmap in He. destruct (tbl s !! r) as [t|] eqn:Et; [|done]. injection He as <-. unfold aged.
    destruct (stale _ t); [cbn; congruence|]. by apply (Hno r). }
  set (e3 := made_entry dest i (cticks s) e) in *.
  assert (He3 : tbl s3 !! r = Some e3) by (rewrite T3; apply list_lookup_insert_eq; by eapply lookup_lt_Some).
  assert (Hc3 : cs3 !! r = Some []).
  { rewrite list_lookup_fmap in He. destruct (tbl s !! r) as [t|] eqn:Et; [|done]. destruct (arp_row _ _ _ _ _ _ HA Et) as (c & Hc & _).
    rewrite (Hcs3 r t c Et Hc), bool_decide_eq_true_2 by done. done. }
  assert (HA3' : arp_ok s3 A3 (x :: y :: U) cs3) by (eapply arp_swap; [apply perm_swap|exact HA3]).
  assert (Hx3 : ready s3 x).
  { apply (ready_kept s); [etrans; [exact C1|]; etrans; [|apply HT3]; by split| |done].
    rewrite (ti_bufs _ _ _ _ _ _ HT3) by (left; right; by left). etrans; [by apply put_other|]. by apply K1. }
  pose proof (pend_ok s3 A3 (y :: U) cs3 x r e3 HA3' Hx3 He3 Hc3 Hz) as HA4. cbn zeta in HA4. set (s4 := set_dev _ s3) in HA4.
  assert (Hy4 : pk_bufs (st_pool s4) !! y = Some ob1).
  { cbn. rewrite (ti_bufs _ _ _ _ _ _ HT3) by (left; by left). apply put_buf_lookup. by eexists. }
  assert (C4 : calm s s4) by (etrans; [exact C1|]; etrans; [|etrans; [apply HT3|]]; by split).
  destruct (calm_net s s4 i n C4 Hn) as (n4 & Hn4 & _).
  assert (Em4 : mac_of s4 = mac_of s) by (unfold mac_of; by rewrite (ca_dm _ _ C4)).
  destruct (broadcast_sent s4 A3 U _ y ob1 i n4 (n_ipaddr n) dest HA4 Hy4) as (s5 & A5 & tha & pad & Htha & Hpad & E5 & HA5 & [C5 B5 L5 R5 T5 K5] & S5 & EA5); try done.
  assert (HxU : x ∈ concat (<[r := [x]]> cs3)) by (apply (concat_put_elem cs3 r []); [done|left; by left]).
  exists s5, A5, (<[r := [x]]> cs3), r, tha, pad. split; [|split; [split; [exact HA5| | | |]|split; [done|split; [done|split; [|split; [split|]]]]]].
  - unfold send_arp. rewrite (nbind_eq _ _ _ _ _ (get_buf_eq s x b Hb)), Hi, (nbind_eq (nonnull (Some i)) _ s i s eq_refl), (nbind_eq _ _ _ _ _ (get_net_eq s i n Hn)), Hg.
    rewrite (nbind_eq (arp_gets _) _ s (fhost (arp_of s) x) s eq_refl). fold (own_host s x n). rewrite Hh.
    rewrite (nbind_eq _ _ _ _ _ E1). rewrite (nbind_eq (upd_buf y _) _ s1 tt s2) by (by apply (upd_buf_eq s1 y ob)).
    rewrite (nbind_eq _ _ _ _ _ E3), (nbind_eq _ _ _ _ _ (upd_ent_eq s3 r e3 _ He3)). exact E5.
  - etrans; [exact C4|exact C5].
  - intros z Hz'. rewrite B5 by (by left). cbn. rewrite (ti_bufs _ _ _ _ _ _ HT3) by (left; right; by right).
    etrans; [apply put_other|apply K1]; intros ->; apply Hny, elem_of_app; right; by right.
  - intros q. rewrite EA5. etrans; [apply F1|]. apply upd_at_mono, HT3.
  - by rewrite R5, (ti_rcv _ _ _ _ _ _ HT3), R1.
  - rewrite S5, Em4. f_equal. change (sent_of s4) with (sent_of s3). unfold sent_of. rewrite (ti_hw _ _ _ _ _ _ HT3). change (hw_of s2) with (hw_of s1). by rewrite W1.
  - exists (set_pending (Some x) e3). split; [|done]. rewrite T5. cbn. apply list_lookup_insert_eq. by eapply lookup_lt_Some.
  - apply list_lookup_insert_eq. by eapply lookup_lt_Some.
  - rewrite B5 by (by right). cbn. rewrite (ti_bufs _ _ _ _ _ _ HT3) by (left; right; by left). etrans; [by apply put_other|]. by apply K1.
Qed.

Lemma released_tx s A U cs x b (r : Z) : arp_ok s A (x :: U) cs -> pk_bufs (st_pool s) !! x = Some b -> nb_inuse b = 1 -> marked b ->
  exists s' A', (do! _ := pool_do (pk_free x) in nret r) s = Done (r, s') /\ handled_tx s s' A A' U cs /\ sent_of s' = sent_of s /\ tbl s' = tbl s.
Proof using Type.
  intros HA Hb Hu Hm. destruct (release_ok s A U cs x b HA Hb Hu Hm) as (s' & A' & E & HA' & [C B L R T K] & S & F).
  exists s', A'. split; [by rewrite (nbind_eq _ _ _ _ _ E)|]. split; [split; try done|done]. intros y Hy. apply B. by left.
Qed.

Lemma send_arp_own s A U cs x b i n dest : arp_ok s A (x :: U) cs -> ready s x -> pk_bufs (st_pool s) !! x = Some b ->
  nb_net b = Some i -> st_nets s !! i = Some n -> is_group n dest = false -> own_host s x n = true ->
  exists s' A', send_arp mac_send x dest s = Done (ENP_NO_ROUTE, s') /\ handled_tx s s' A A' U cs /\ sent_of s' = sent_of s.
Proof using Type.
  intros HA (b0 & i0 & Hb0 & Hi0 & _ & [Hu Hm _ _]) Hb Hi Hn Hg Hh. assert (b0 = b) as -> by congruence.
  destruct (released_tx s A U cs x b ENP_NO_ROUTE HA Hb Hu Hm) as (s' & A' & E & HT & S & _). exists s', A'. split; [|done].
  unfold send_arp. rewrite (nbind_eq _ _ _ _ _ (get_buf_eq s x b Hb)), Hi, (nbind_eq (nonnull (Some i)) _ s i s eq_refl), (nbind_eq _ _ _ _ _ (get_net_eq s i n Hn)), Hg.
  rewrite (nbind_eq (arp_gets _) _ s (fhost (arp_of s) x) s eq_refl). fold (own_host s x n). by rewrite Hh.
Qed.

Lemma send_arp_full s A U cs x b i n dest : arp_ok s A (x :: U) cs -> ready s x -> pk_bufs (st_pool s) !! x = Some b ->
  nb_net b = Some i -> st_nets s !! i = Some n -> is_group n dest = false -> own_host s x n = false -> alloc_from arpsize A = None ->
  exists s' A', send_arp mac_send x dest s = Done (ENP_RESOURCE, s') /\ handled_tx s s' A A' U cs /\ sent_of s' = sent_of s.
Proof using Type.
  intros HA (b0 & i0 & Hb0 & Hi0 & _ & [Hu Hm _ _]) Hb Hi Hn Hg Hh Ek. assert (b0 = b) as -> by congruence.
  destruct (message_none s A (x :: U) cs HA Ek) as (s1 & E1 & HA1 & [C1 B1 L1 R1 T1 K1] & S1 & Eb1).
  destruct (released_tx s1 A U cs x b ENP_RESOURCE HA1) as (s' & A' & E & [H1 H2 H3 H4 H5] & S & _); [by rewrite Eb1|done|done|].
  exists s', A'. split; [|split; [split; try done|by rewrite S]].
  - unfold send_arp. rewrite (nbind_eq _ _ _ _ _ (get_buf_eq s x b Hb)), Hi, (nbind_eq (nonnull (Some i)) _ s i s eq_refl), (nbind_eq _ _ _ _ _ (get_net_eq s i n Hn)), Hg.
    rewrite (nbind_eq (arp_gets _) _ s (fhost (arp_of s) x) s eq_refl). fold (own_host s x n). rewrite Hh. by rewrite (nbind_eq _ _ _ _ _ E1).
  - by etrans.
  - intros y Hy. rewrite H3 by done. by rewrite Eb1.
Qed.

(** The address for a group of hosts. *)
Definition group_phy (mcast : bool) (dest : Z) : list Z :=
  if mcast && IN_MULTICAST (htonl dest) then mcast_phy dest else replicate 6 0xFF.

Lemma group_phy_ok mcast dest : length (group_phy mcast dest) = 6%nat /\ bytes (group_phy mcast dest).
Proof using Type.
  unfold group_phy. destruct (_ && _); [|split; [done|by repeat constructor]]. split; [done|]. unfold mcast_phy.
  assert (Hb : forall z, is_u8 (z mod 2 ^ 8)) by (intros z; apply u8_range).
  assert (Hl : is_u8 (Z.land (dest / 2 ^ 8 mod 2 ^ 8) 0x7f)).
  { change 0x7f with (Z.ones 7). rewrite land_ones_mod by done. unfold is_u8. change (2 ^ 7) with 128. Z.div_mod_to_equations. lia. }
  repeat (constructor; [first [done|apply Hb|exact Hl]|]). constructor.
Qed.

Lemma send_arp_group s A U cs x b i n dest : arp_ok s A (x :: U) cs -> ready s x -> pk_bufs (st_pool s) !! x = Some b ->
  nb_net b = Some i -> st_nets s !! i = Some n -> is_group n dest = true ->
  exists s' A' cs', send_arp mac_send x dest s = Done (0, s') /\ handled_tx s s' A A' U cs' /\
    sent_of s' = sent_of s ++ [ip_frame (group_phy (n_mcastlist (arp_of s) i) dest) (mac_of s) b].
Proof using Type.
  intros HA Hx Hb Hi Hn Hg.
  destruct (make_arp_entry_ok s A (x :: U) cs dest i HA) as (s1 & A1 & cs1 & r & e & E1 & HA1 & HT1 & Hsub & _ & He & T1 & _ & _).
  set (e1 := made_entry dest i (cticks s) e) in *.
  assert (He1 : tbl s1 !! r = Some e1) by (rewrite T1; apply list_lookup_insert_eq; by eapply lookup_lt_Some).
  destruct (arp_row _ _ _ _ _ _ HA1 He1) as (c & Hc & [P1 P2 P3 P4 P5]).
  set (phy := group_phy (n_mcastlist (arp_of s) i) dest). destruct (group_phy_ok (n_mcastlist (arp_of s) i) dest) as [Hl6 Hb6]. fold phy in Hl6, Hb6.
  set (s2 := set_dev (mkInet (set_table (<[r := set_phy phy e1]> (tbl s1)) (arp_of s1)) (hw_of s1)) s1).
  assert (HA2 : arp_ok s2 A1 (x :: U) cs1).
  { apply (arp_entry s1 A1 (x :: U) cs1 r (set_phy phy e1) c); [done|done|by split|]. intros j e0 Hj H0 E0. cbn in E0 |- *.
    destruct (decide (dest = 0)); [done|]. destruct Hj. by apply (ao_unique _ _ _ _ HA1 j r e0 e1); [..|congruence]. }
  assert (C2 : calm s s2) by (etrans; [apply HT1|]; by split).
  assert (Hb2 : pk_bufs (st_pool s2) !! x = Some b) by (cbn; rewrite (ti_bufs _ _ _ _ _ _ HT1) by (left; by left); done).
  destruct (et_send_ok s2 A1 U cs1 x r (set_phy phy e1) HA2) as (b' & s3 & A3 & Hb' & E3 & HA3 & [C3 S3 V3 B3 L3 F3 R3]).
  { apply (ready_kept s); [done|by rewrite Hb2|done]. } { cbn. apply list_lookup_insert_eq. by eapply lookup_lt_Some. }
  assert (b' = b) as -> by congruence. destruct (rx_apart _ _ _ _ _ HA) as [HxU _].
  exists s3, A3, cs1. split; [|split; [split; [done| | | |]|]].
  - unfold send_arp. rewrite (nbind_eq _ _ _ _ _ (get_buf_eq s x b Hb)), Hi, (nbind_eq (nonnull (Some i)) _ s i s eq_refl), (nbind_eq _ _ _ _ _ (get_net_eq s i n Hn)), Hg.
    rewrite (nbind_eq _ _ _ _ _ E1), (nbind_eq _ _ _ _ _ (upd_ent_eq s1 r e1 _ He1)).
    set (sa := set_dev _ s1). rewrite (nbind_eq (arp_gets _) _ sa (n_mcastlist (arp_of s) i) sa).
    2: { unfold arp_gets, ngets. cbn. do 2 f_equal. exact (f_equal (fun f => f i) (ca_mcast _ _ (ti_calm _ _ _ _ _ _ HT1))). }
    rewrite (nbind_eq _ _ sa tt s2); [exact E3|]. unfold s2, phy, group_phy. destruct (_ && _); [|done].
    rewrite (upd_ent_eq sa r (set_phy (replicate 6 0xFF) e1)) by (cbn; apply list_lookup_insert_eq; by eapply lookup_lt_Some).
    cbn. by rewrite list_insert_insert_eq.
  - by etrans.
  - intros y Hy. rewrite B3 by (intros ->; done). cbn. apply (ti_bufs _ _ _ _ _ _ HT1). left. by right.
  - intros k. etrans; [apply HT1|apply F3].
  - by rewrite R3, (ti_rcv _ _ _ _ _ _ HT1).
  - rewrite S3. unfold mac_of. rewrite (ca_dm _ _ C2). f_equal. change (sent_of s2) with (sent_of s1). unfold sent_of. by rewrite (ti_hw _ _ _ _ _ _ HT1).
Qed.

(** ** send_via_arp *)

(** send_via_arp once entry [tp] is chosen. *)
Definition via_rest (x : nat) (dest : Z) (tp : nat) : N (Inet D) Z :=
  do! lticks := ngets cticks in
  do! e := get_ent tp in
  if t_pro_addr e =? dest then
    match at_pending e with
    | Some first =>
        do! free := ngets (fun s => q_len (lilfreeq (st_pool s))) in
        if free <? 2 then
          do! _ := pool_do (pk_free x) in
          nret SEND_DROPPED
        else
          do! fuel := links_bound in
          do! tmppkt := last_pending fuel first in
          do! _ := put_next tmppkt (Some x) in
          nret ENP_SEND_PENDING
    | None =>
        do! _ := arp_do (set_cache (Some tp) lticks) in
        et_send mac_send x tp
    end
  else send_arp mac_send x dest.

(** The entry comes from the cache, or from the table, which is aged then. *)
Record looked_up (s s1 : NetSt (Inet D)) (A A1 : Qid -> list nat) (U : list nat) (cs cs1 : list (list nat)) (dest : Z) (tp : nat) : Prop := {
  lu_ok : arp_ok s1 A1 U cs1;
  lu_tidy : tidy s s1 A A1 U cs1;
  lu_sub : forall y, y ∈ concat cs1 -> y ∈ concat cs;
  lu_entry : (exists e, tbl s !! tp = Some e /\ t_pro_addr e = dest /\ tbl s1 = tbl s /\ cs1 = cs) \/
    (tbl s1 = aged (cticks s) <$> tbl s /\ chosen (aged (cticks s) <$> tbl s) dest tp /\
     forall i e c, tbl s !! i = Some e -> cs !! i = Some c -> cs1 !! i = Some (aged_list (cticks s) e c));
}.

Lemma cache_vars s A U cs c t : arp_ok s A U cs -> (forall i, c = Some i -> (i < MAXARPS)%nat) ->
  exists s1, arp_do (set_cache c t) s = Done (tt, s1) /\ arp_ok s1 A U cs /\ tidy s s1 A A U cs /\ tbl s1 = tbl s /\ arpcache (arp_of s1) = c.
Proof using Type. intros HA Hc. eexists. split; [done|]. split; [by apply arp_vars|]. by split. Qed.

Lemma via_lookup s A U cs x dest : arp_ok s A U cs -> dest <> 0 ->
  exists s1 A1 cs1 tp, send_via_arp mac_send x dest s = via_rest x dest tp s1 /\ looked_up s s1 A A1 U cs cs1 dest tp.
Proof using Type.
  intros HA Hz. assert (H0 : exists s1, (if TPS <? u32 (cticks s - cachetime (arp_of s)) then arp_do (set_cache None (cachetime (arp_of s))) else nret tt) s = Done (tt, s1) /\
    arp_ok s1 A U cs /\ tidy s s1 A A U cs /\ tbl s1 = tbl s).
  { destruct (TPS <? _).
    - destruct (cache_vars s A U cs None (cachetime (arp_of s)) HA) as (s1 & E & HA1 & HT1 & T1 & _); [done|]. by exists s1.
    - exists s. by split_and!. }
  destruct H0 as (s1 & E1 & HA1 & HT1 & T1). assert (Htk : cticks s1 = cticks s) by apply HT1.
  assert (Hhit : exists b, (match arpcache (arp_of s1) with
              | Some c => do! e := get_ent c in nret (t_pro_addr e =? dest)
              | None => nret false end) s1 = Done (b, s1) /\
      (b = true -> exists c e, arpcache (arp_of s1) = Some c /\ tbl s1 !! c = Some e /\ t_pro_addr e = dest)).
  { destruct (arpcache (arp_of s1)) as [c|] eqn:Ec; [|by exists false].
    destruct (lookup_lt_is_Some_2 (tbl s1) c) as [e He]; [rewrite (ao_len _ _ _ _ HA1); by apply (ao_cache _ _ _ _ HA1)|].
    exists (t_pro_addr e =? dest). rewrite (nbind_eq _ _ _ _ _ (get_ent_eq s1 c e He)). split; [done|]. intros Hd%Z.eqb_eq. by exists c, e. }
  destruct Hhit as (hit & E2 & Hhit).
  assert (Hstep : exists s2 A2 cs2 tp, (do! r := (if hit then nret (arpcache (arp_of s1)) else find_oldest_arp dest) in nonnull r) s1 = Done (tp, s2) /\
    looked_up s s2 A A2 U cs cs2 dest tp /\ cticks s2 = cticks s).
  { destruct hit.
    - destruct (Hhit eq_refl) as (c & e & Ec & He & Ha). exists s1, A, cs, c. split; [by rewrite Ec|]. split; [|done].
      split; try done. left. exists e. by rewrite <- T1.
    - destruct (find_oldest_ok s1 A U cs dest HA1) as (s2 & A2 & cs2 & r & E3 & HA2 & HT2 & Hsub & V2 & Hcs2 & Hr).
      rewrite T1, Htk in V2, Hcs2, Hr. exists s2, A2, cs2, r. split; [by rewrite (nbind_eq _ _ _ _ _ E3)|]. split; [|by rewrite (ca_ticks _ _ (ti_calm _ _ _ _ _ _ HT2))].
      split; [done|by eapply tidy_trans|done|]. right. split; [|done]. unfold tbl at 1. by rewrite V2. }
  destruct Hstep as (s2 & A2 & cs2 & tp & E3 & HL & Htk2). exists s2, A2, cs2, tp. split; [|done].
  unfold send_via_arp. rewrite (nbind_eq (ngets cticks) _ s (cticks s) s eq_refl), (proj2 (Z.eqb_neq _ _) Hz).
  rewrite (nbind_eq (arp_gets cachetime) _ s (cachetime (arp_of s)) s eq_refl), (nbind_eq _ _ _ _ _ E1).
  rewrite (nbind_eq (arp_gets arpcache) _ s1 (arpcache (arp_of s1)) s1 eq_refl), (nbind_eq _ _ _ _ _ E2).
  rewrite <- nbind_assoc, (nbind_eq _ _ _ _ _ E3). unfold via_rest. by rewrite (nbind_eq (ngets cticks) _ s2 (cticks s) s2) by (by unfold ngets; rewrite Htk2).
Qed.

(** A live entry for the address is the one that is used. *)
Lemma via_live s s1 A A1 U cs cs1 dest tp e c j : arp_ok s A U cs -> looked_up s s1 A A1 U cs cs1 dest j -> dest <> 0 ->
  tbl s !! tp = Some e -> t_pro_addr e = dest -> stale (cticks s) e = false -> cs !! tp = Some c ->
  j = tp /\ tbl s1 !! tp = Some e /\ cs1 !! tp = Some c.
Proof using Type.
  intros HA [HA1 HT1 Hsub Hent] Hz He Ha Hs Hc. destruct Hent as [(e' & He' & Ha' & -> & ->)|(T1 & Hch & Hcs)].
  - split; [|done]. apply (ao_unique _ _ _ _ HA j tp e' e); congruence.
  - assert (Ht : (aged (cticks s) <$> tbl s) !! tp = Some e) by (rewrite list_lookup_fmap, He; cbn; unfold aged; by rewrite Hs).
    assert (Ht1 : tbl s1 !! tp = Some e) by (by rewrite T1). split; [|split; [done|rewrite (Hcs tp e c He Hc); unfold aged_list; by rewrite Hs]].
    destruct Hch as (e' & He' & [Hd|[Hno _]]); [|by destruct (Hno tp e Ht)].
    apply (ao_unique _ _ _ _ HA1 j tp e' e); [by rewrite T1|done|congruence|congruence].
Qed.

(** No entry for the address: it must be asked for. *)
Lemma via_none s s1 A A1 U cs cs1 dest j : looked_up s s1 A A1 U cs cs1 dest j -> dest <> 0 ->
  (forall i e, tbl s !! i = Some e -> t_pro_addr e <> dest) ->
  (forall i e, tbl s1 !! i = Some e -> t_pro_addr e <> dest) /\ exists e, tbl s1 !! j = Some e.
Proof using Type.
  intros [HA1 HT1 Hsub Hent] Hz Hno. destruct Hent as [(e' & He' & Ha' & _)|(T1 & (e & He & _) & Hcs)]; [by destruct (Hno j e' He')|].
  rewrite T1. split; [|by exists e]. intros i e0. rewrite list_lookup_fmap. destruct (tbl s !! i) as [t|] eqn:Et; [|done]. intros [= <-].
  unfold aged. destruct (stale _ t); [cbn; congruence|by eapply Hno].
Qed.

(** ** The cases *)

Lemma lil_free s A U cs : arp_ok s A U cs -> q_len (lilfreeq (st_pool s)) = Z.of_nat (length (A Lil)).
Proof using Type. intros HA. apply (qo_len _ _ _ (ch_queue_real _ _ _ _ (ao_pool _ _ _ _ HA) Lil)). Qed.

(** Every packet of the table, in the order of the entries, waits with its contents. *)
Lemma tidy_tx s s1 s2 A A1 A2 U U' cs cs1 cs2 : tidy s s1 A A1 U cs1 -> handled_tx s1 s2 A1 A2 U' cs2 ->
  (forall y, y ∈ U' -> y ∈ U) -> (forall y, y ∈ concat cs1 -> y ∈ concat cs) -> handled_tx s s2 A A2 U' cs2.
Proof using Type.
  intros [C1 W1 B1 L1 F1 R1] [H2 C2 B2 F2 R2] HU _. split; [done|by etrans| | |by rewrite R2].
  - intros y Hy. rewrite B2 by done. apply B1. left. by apply HU.
  - intros k. etrans; [apply F1|apply F2].
Qed.

Lemma rest_known s A U cs x tp e dest : arp_ok s A (x :: U) cs -> ready s x -> tbl s !! tp = Some e -> t_pro_addr e = dest -> cs !! tp = Some [] ->
  exists b s' A', pk_bufs (st_pool s) !! x = Some b /\ via_rest x dest tp s = Done (0, s') /\ handled_tx s s' A A' U cs /\
    sent_of s' = sent_of s ++ [ip_frame (t_phy_addr e) (mac_of s) b].
Proof using Type.
  intros HA Hx He Ha Hc. destruct (arp_row _ _ _ _ _ _ HA He) as (c0 & Hc0 & [P1 _ _ _ _]). simplify_eq. cbn in P1.
  destruct (cache_vars s A (x :: U) cs (Some tp) (cticks s) HA) as (s1 & E1 & HA1 & HT1 & T1 & _).
  { intros i [= <-]. rewrite <- (ao_len _ _ _ _ HA). by eapply lookup_lt_Some. }
  destruct (et_send_ok s1 A U cs x tp e HA1) as (b & s2 & A2 & Hb & E2 & HA2 & [C2 S2 V2 B2 L2 F2 R2]).
  { apply (ready_kept s); [apply HT1| |done]. apply (ti_bufs _ _ _ _ _ _ HT1). left. by left. } { by rewrite T1. }
  destruct (rx_apart _ _ _ _ _ HA) as [HxU _]. exists b, s2, A2. split_and!.
  - rewrite <- Hb. symmetry. apply (ti_bufs _ _ _ _ _ _ HT1). left. by left.
  - unfold via_rest. rewrite (nbind_eq (ngets cticks) _ s (cticks s) s eq_refl), (nbind_eq _ _ _ _ _ (get_ent_eq s tp e He)), Z.eqb_refl, P1.
    by rewrite (nbind_eq _ _ _ _ _ E1).
  - split; [done| |intros y Hy; rewrite B2 by (by intros ->); apply (ti_bufs _ _ _ _ _ _ HT1); left; by right|done|done].
    etrans; [apply HT1|done].
  - rewrite S2. unfold mac_of, sent_of. by rewrite (ca_dm _ _ (ti_calm _ _ _ _ _ _ HT1)), (ti_hw _ _ _ _ _ _ HT1).
Qed.

Lemma rest_waits s A U cs x tp e c dest : arp_ok s A (x :: U) cs -> ready s x -> tbl s !! tp = Some e -> t_pro_addr e = dest ->
  cs !! tp = Some c -> c <> [] ->
  exists s' A', if q_len (lilfreeq (st_pool s)) <? 2
    then via_rest x dest tp s = Done (SEND_DROPPED, s') /\ handled_tx s s' A A' U cs /\ sent_of s' = sent_of s
    else via_rest x dest tp s = Done (ENP_SEND_PENDING, s') /\ handled_tx s s' A A' U (<[tp := c ++ [x]]> cs) /\ sent_of s' = sent_of s /\
      tbl s' = tbl s /\ (forall z, pk_bufs (st_pool s') !! z = pk_bufs (st_pool s) !! z).
Proof using Type.
  intros HA Hx He Ha Hc Hne. destruct (arp_row _ _ _ _ _ _ HA He) as (c0 & Hc0 & [P1 P2 _ _ _]). simplify_eq.
  destruct c as [|y r]; [done|]. cbn [head] in P1. destruct (exists_last (l := y :: r)) as (c0 & t & Et); [done|].
  assert (Hpre : forall k : Z -> arptabent -> N (Inet D) Z, (do! lticks := ngets cticks in do! e := get_ent tp in k lticks e) s = k (cticks s) e s).
  { intros k. by rewrite (nbind_eq (ngets cticks) _ s (cticks s) s eq_refl), (nbind_eq _ _ _ _ _ (get_ent_eq s tp e He)). }
  destruct (q_len (lilfreeq (st_pool s)) <? 2) eqn:Eq.
  - destruct Hx as (b & i & Hb & _ & _ & [Hu Hm _ _]). destruct (released_tx s A U cs x b SEND_DROPPED HA Hb Hu Hm) as (s' & A' & E & HT & S & _).
    exists s', A'. split; [|done]. unfold via_rest. rewrite Hpre, Z.eqb_refl, P1.
    by rewrite (nbind_eq (ngets _) _ s (q_len (lilfreeq (st_pool s))) s eq_refl), Eq.
  - rewrite Et in Hc. destruct (append_ok s A U cs x tp e c0 t HA Hx He Hc) as (s' & E & HT & B & V). exists s', A.
    destruct (chain_apart _ _ _ _ _ _ HA Hc) as (_ & _ & Hlen & _). rewrite <- Et in Hlen. cbn in Hlen.
    split_and!; [|rewrite Et, <- app_assoc; done|unfold sent_of, hw_of; by rewrite V|unfold tbl, arp_of; by rewrite V|apply B].
    unfold via_rest. rewrite Hpre, Z.eqb_refl, P1. rewrite (nbind_eq (ngets _) _ s (q_len (lilfreeq (st_pool s))) s eq_refl), Eq.
    unfold links_bound. rewrite (nbind_eq (ngets _) _ s (S (length (pk_links (st_pool s)))) s eq_refl).
    rewrite (nbind_eq (last_pending _ y) _ s t s); [by rewrite (nbind_eq _ _ _ _ _ E)|].
    rewrite (last_pending_ok r _ s y P2) by lia. rewrite Et. do 2 f_equal. apply last_last.
Qed.

Lemma send_arp_total s A U cs x dest : arp_ok s A (x :: U) cs -> ready s x -> dest <> 0 ->
  (forall j e, tbl s !! j = Some e -> t_pro_addr e <> dest) ->
  exists r s' A' cs', send_arp mac_send x dest s = Done (r, s') /\ handled_tx s s' A A' U cs'.
Proof using Type.
  intros HA Hx Hz Hno. pose proof Hx as (b & i & Hb & Hi & [n Hn] & _). destruct (is_group n dest) eqn:Hg.
  - destruct (send_arp_group s A U cs x b i n dest HA Hx Hb Hi Hn Hg) as (s' & A' & cs' & E & HT & _). by exists 0, s', A', cs'.
  - destruct (own_host s x n) eqn:Hh.
    + destruct (send_arp_own s A U cs x b i n dest HA Hx Hb Hi Hn Hg Hh) as (s' & A' & E & HT & _). by exists ENP_NO_ROUTE, s', A', cs.
    + destruct (alloc_from arpsize A) as [k|] eqn:Ek.
      * destruct (send_arp_request s A U cs x b i n dest k HA Hx Hb Hi Hn Hg Hh Hz Hno Ek) as (s' & A' & cs' & tp & tha & pad & E & HT & _).
        by exists ENP_SEND_PENDING, s', A', cs'.
      * destruct (send_arp_full s A U cs x b i n dest HA Hx Hb Hi Hn Hg Hh Ek) as (s' & A' & E & HT & _). by exists ENP_RESOURCE, s', A', cs.
Qed.

Lemma send_via_arp_total s A U cs x dest : arp_ok s A (x :: U) cs -> ready s x ->
  exists r s' A' cs', send_via_arp mac_send x dest s = Done (r, s') /\ handled_tx s s' A A' U cs'.
Proof using Type.
  intros HA Hx. destruct (decide (dest = 0)) as [->|Hz].
  - pose proof Hx as (b & i & Hb & _ & _ & [Hu Hm _ _]). destruct (released_tx s A U cs x b SEND_DROPPED HA Hb Hu Hm) as (s' & A' & E & HT & _).
    exists SEND_DROPPED, s', A', cs. split; [|done]. unfold send_via_arp. by rewrite (nbind_eq (ngets cticks) _ s (cticks s) s eq_refl).
  - destruct (via_lookup s A (x :: U) cs x dest HA Hz) as (s1 & A1 & cs1 & tp & E & HL). pose proof HL as [HA1 HT1 Hsub Hent].
    assert (Hx1 : ready s1 x) by (apply (ready_kept s); [apply HT1|apply (ti_bufs _ _ _ _ _ _ HT1); left; by left|done]).
    assert (He : exists e, tbl s1 !! tp = Some e).
    { destruct Hent as [(e & He & _ & -> & _)|(-> & (e & He & _) & _)]; by exists e. }
    destruct He as [e He]. destruct (arp_row _ _ _ _ _ _ HA1 He) as (c & Hc & _).
    assert (Hgo : exists r s' A' cs', via_rest x dest tp s1 = Done (r, s') /\ handled_tx s1 s' A1 A' U cs').
    { destruct (decide (t_pro_addr e = dest)) as [Ha|Ha].
      - destruct c as [|y c].
        + destruct (rest_known s1 A1 U cs1 x tp e dest HA1 Hx1 He Ha Hc) as (b & s' & A' & _ & E' & HT' & _). by exists 0, s', A', cs1.
        + destruct (rest_waits s1 A1 U cs1 x tp e (y :: c) dest HA1 Hx1 He Ha Hc) as (s' & A' & Hr); [done|].
          destruct (_ <? 2); [destruct Hr as (E' & HT' & _); by exists SEND_DROPPED, s', A', cs1|].
          destruct Hr as (E' & HT' & _). by eexists ENP_SEND_PENDING, s', A', _.
      - assert (Hno : forall j e0, tbl s1 !! j = Some e0 -> t_pro_addr e0 <> dest).
        { destruct Hent as [(e' & He' & Ha' & T1 & _)|(T1 & (e' & He' & [Hd|[Hno _]]) & _)].
          - rewrite T1 in He. congruence. - rewrite T1 in He. congruence. - by rewrite T1. }
        destruct (send_arp_total s1 A1 U cs1 x dest HA1 Hx1 Hz Hno) as (r & s' & A' & cs' & E' & HT'). exists r, s', A', cs'. split; [|done].
        unfold via_rest. rewrite (nbind_eq (ngets cticks) _ s1 (cticks s1) s1 eq_refl), (nbind_eq _ _ _ _ _ (get_ent_eq s1 tp e He)).
        by rewrite (proj2 (Z.eqb_neq _ _) Ha). }
    destruct Hgo as (r & s' & A' & cs' & E' & HT'). exists r, s', A', cs'. split; [by rewrite E|].
    apply (tidy_tx s s1 s' A A1 A' (x :: U) U cs cs1 cs'); [done|done|by right|done].
Qed.

(** ** The timer *)

(** Whether an entry is in use. *)
Definition in_use (e : arptabent) : Z := if t_pro_addr e =? 0 then 0 else 1.
Definition uses (l : list arptabent) : Z := foldr (fun e k => in_use e + k) 0 l.

Lemma tmo_step n tp now k s A U cs e : arp_ok s A U cs -> tbl s !! tp = Some e ->
  tmo_loop (S n) tp now k s =
  (do! _ := (match at_pending e with
             | Some _ => if waited_long now e then
                           do! _ := arp_free_pending tp in
                           upd_ent tp (set_addr 0)
                         else nret tt
             | None => if negb (t_pro_addr e =? 0) && expired now e then upd_ent tp (set_addr 0) else nret tt
             end) in tmo_loop n (S tp) now (k + in_use (aged now e))) s.
Proof using Type.
  intros HA He. destruct (arp_row _ _ _ _ _ _ HA He) as (c & Hc & [P1 _ P3 _ _]). cbn [tmo_loop].
  rewrite (nbind_eq _ _ _ _ _ (get_ent_eq s tp e He)). unfold aged, stale. destruct (Z.eqb_spec (t_pro_addr e) 0) as [Ha|Ha]; cbn [negb andb].
  { rewrite P1, (P3 Ha). cbn [head]. unfold in_use. by rewrite Ha, Z.add_0_r. }
  destruct (at_pending e) as [y|]; [rewrite bool_decide_eq_true_2 by done|rewrite bool_decide_eq_false_2 by (intros Hn; by apply Hn)]; cbn [andb].
  - destruct (waited_long now e) eqn:Ew; [unfold in_use; cbn; by rewrite nbind_assoc, Z.add_0_r|].
    unfold in_use. rewrite (proj2 (Z.eqb_neq _ _) Ha).
    replace (expired now e) with false; [done|]. symmetry. unfold waited_long in Ew. unfold expired. apply Z.ltb_ge in Ew.
    rewrite andb_false_intro1; [done|]. apply Z.leb_gt. pose proof (u32_range (now - createtime e)) as Hr.
    rewrite s32_small by (unfold TPS in Ew; word_lia). unfold arp_ageout, TPS in *. lia.
  - destruct (expired now e); [unfold in_use; cbn; by rewrite Z.add_0_r|]. unfold in_use. by rewrite (proj2 (Z.eqb_neq _ _) Ha).
Qed.

Lemma tmo_loop_ok s0 A0 U cs0 now n : arp_ok s0 A0 U cs0 -> forall s A cs tp k, (tp + n = MAXARPS)%nat ->
  scanned s0 A0 U cs0 now s A cs tp -> exists s' A' cs',
    tmo_loop n tp now k s = Done (k + uses (drop tp (aged now <$> tbl s0)), s') /\ scanned s0 A0 U cs0 now s' A' cs' MAXARPS.
Proof using Type.
  intros HA0. induction n as [|n IH]; intros s A cs tp k Hn HS.
  - assert (tp = MAXARPS) as -> by lia. exists s, A, cs. rewrite drop_ge by (rewrite length_fmap, (ao_len _ _ _ _ HA0); done).
    cbn. by rewrite Z.add_0_r.
  - destruct (lookup_lt_is_Some_2 (tbl s0) tp) as [e He]; [rewrite (ao_len _ _ _ _ HA0); lia|].
    assert (Hes : tbl s !! tp = Some e) by (rewrite (sc_tbl _ _ _ _ _ _ _ _ _ HS), (proj2 (Nat.ltb_ge _ _)) by lia; done).
    destruct (scan_step s0 A0 U cs0 now HA0 s A cs tp e HS He) as (c & s1 & A1 & Hc & E1 & HS1).
    rewrite (tmo_step n tp now k s A U cs e (sc_ok _ _ _ _ _ _ _ _ _ HS) Hes). rewrite (nbind_eq _ _ _ _ _ E1).
    rewrite (drop_S _ (aged now e)) by (by rewrite list_lookup_fmap, He). cbn [uses foldr]. fold (uses (drop (S tp) (aged now <$> tbl s0))).
    rewrite Z.add_assoc. apply (IH s1 A1 (<[tp := aged_list now e c]> cs) (S tp)); [lia|done].
Qed.

(** The routine of the timer: entries age, and without used entries the timer ends. *)
Lemma cb_arpent_tmo_ok s A U cs arg : arp_ok s A U cs -> exists s' A' cs',
  cb_arpent_tmo arg s = Done (tt, s') /\ arp_ok s' A' U cs' /\ tidy s s' A A' U cs' /\ (forall x, x ∈ concat cs' -> x ∈ concat cs) /\
  tbl s' = aged (cticks s) <$> tbl s /\
  (forall i e c, tbl s !! i = Some e -> cs !! i = Some c -> cs' !! i = Some (aged_list (cticks s) e c)) /\
  arp_timer (arp_of s') = (if uses (tbl s') =? 0 then None else arp_timer (arp_of s)).
Proof using Type.
  intros HA. destruct (tmo_loop_ok s A U cs (cticks s) MAXARPS HA s A cs 0 0) as (s1 & A1 & cs1 & E1 & [HA1 HT1 Hsub Harp Htbl Hcs]); [done| |].
  { split; try done. unfold tbl. by destruct (arp_of s). }
  assert (T1 : tbl s1 = aged (cticks s) <$> tbl s).
  { apply list_eq. intros i. rewrite Htbl. destruct (Nat.ltb_spec i MAXARPS) as [|Hi]; [done|]. unfold aged_table.
    rewrite !lookup_ge_None_2; [done|rewrite length_fmap|]; by rewrite (ao_len _ _ _ _ HA). }
  assert (Hcs1 : forall i e c, tbl s !! i = Some e -> cs !! i = Some c -> cs1 !! i = Some (aged_list (cticks s) e c)).
  { intros i e c He Hc. rewrite (Hcs i e c He Hc). apply lookup_lt_Some in He. rewrite (ao_len _ _ _ _ HA) in He.
    by rewrite (proj2 (Nat.ltb_lt _ _) He). }
  unfold cb_arpent_tmo. rewrite (nbind_eq (ngets cticks) _ s (cticks s) s eq_refl), (nbind_eq _ _ _ _ _ E1).
  rewrite drop_0, Z.add_0_l, <- T1. destruct (uses (tbl s1) =? 0) eqn:Eu.
  - assert (Hk : exists r a, in_timerkill (arp_timer (arp_of s1)) s1 = Done (r, set_dev (mkInet a (hw_of s1)) s1) /\
        arp_table a = tbl s1 /\ vars_kept (arp_of s1) a).
    { unfold in_timerkill. rewrite (nbind_eq (arp_gets id) _ s1 (arp_of s1) s1 eq_refl). unfold tbl, hw_of.
      destruct (arp_timer (arp_of s1)) as [t|]; [destruct (t <? _)%nat|].
      - eexists _, _. split; [done|]. split; [done|]. split; try done. cbn. by rewrite length_alter.
      - exists ENP_PARAM, (arp_of s1). split; [|done]. unfold arp_of. by destruct s1 as [? [] ? ? ? ? ? ? ?].
      - exists ENP_PARAM, (arp_of s1). split; [|done]. unfold arp_of. by destruct s1 as [? [] ? ? ? ? ? ? ?]. }
    destruct Hk as (r & a & E2 & Ha & Hv). destruct (set_vars s1 A1 U cs1 a HA1 Ha Hv) as [HA2 HT2]. set (s2 := set_dev _ s1) in *.
    destruct (set_vars s2 A1 U cs1 (set_timer None a) HA2) as [HA3 HT3]; [done..|].
    exists (set_dev (mkInet (set_timer None a) (hw_of s2)) s2), A1, cs1. split_and!; try done.
    + rewrite (nbind_eq (arp_gets arp_timer) _ s1 (arp_timer (arp_of s1)) s1 eq_refl). by rewrite (nbind_eq _ _ _ _ _ E2).
    + exact (tidy_trans _ _ _ _ _ _ _ _ _ (tidy_trans _ _ _ _ _ _ _ _ _ HT1 HT2 (fun _ h => h)) HT3 (fun _ h => h)).
    + change (tbl (set_dev (mkInet (set_timer None a) (hw_of s2)) s2)) with (arp_table a). by rewrite Ha, Eu.
  - exists s1, A1, cs1. split_and!; try done. rewrite Eu. by rewrite Harp.
Qed.

End Tx.
