(* ===== verification/ArpRun.v ===== *)
(** * ArpRun

    The operations of address resolution together: no sequence of them fails or loses a
    packet, and the packets sent to an unknown address leave, in order, when the answer
    arrives. *)

From stdpp Require Import sets.
From S2P Require Import Prelude NetQueue PktPool PktFacts PktChain KernelData Kernel KernelSem NetDev Dm9000a Dm9000aFacts DmRx NetPath NetProps NetDemux Arp ArpWire ArpFacts ArpTable ArpOps ArpRx ArpTx.

Section Run.
Context {D : Type} `{Mac D}.

(** ** Receiving, in every case *)

(** A packet as the driver delivers it, with the interface it came from. *)
Definition incoming (s : NetSt (Inet D)) (x : nat) : Prop := exists b i,
  pk_bufs (st_pool s) !! x = Some b /\ nb_net b = Some i /\ is_Some (st_nets s !! i) /\ received b.

Lemma rx_update_total s A U cs x b l i n sha spa tpa op src : arp_ok (put_buf x (set_mem l b) s) A (x :: U) cs ->
  pk_bufs (st_pool s) !! x = Some b -> nb_inuse b = 1 -> marked (set_mem l b) -> message_at (nb_prot b) l sha spa tpa op src ->
  nb_net b = Some i -> st_nets s !! i = Some n -> length sha = 6%nat -> bytes sha ->
  exists r s' A' cs', rx_update x i (le16 op) (le32 spa) sha (put_buf x (set_mem l b) s) = Done (r, s') /\ handled_rx s s' A' U cs' /\
    A' Rcv = A Rcv.
Proof using Type.
  intros HA Hb Hu Hm HG Hi Hn Hl Hby. destruct (decide (le16 op = ARREQ)) as [Hop|Hop].
  - destruct (rx_request s A U cs x b l i n op spa sha tpa src HA Hb Hu Hm HG Hi Hn Hl Hby Hop)
      as (s' & A' & cs' & reply & bs & c & E & HR & _ & _ & _ & _ & _ & HV & _). by exists 0, s', A', cs'.
  - pose proof (find_entry_spec (le32 spa) (tbl s) 0) as Hf. destruct (find_entry (le32 spa) (tbl s) 0) as [tp|] eqn:Ef.
    + destruct Hf as (e & _ & He & _). rewrite Nat.sub_0_r in He.
      destruct (arp_row _ _ _ _ _ _ HA He) as (c & Hc & _).
      destruct (rx_reply s A U cs x b l i (le16 op) (le32 spa) sha tp e c HA Hb Hu Hm Hl Hby Hop Ef He Hc)
        as (s' & A' & bs & E & HR & _ & _ & _ & HV). by eexists 0, s', A', _.
    + set (s1 := put_buf x (set_mem l b) s) in *.
      destruct (set_vars s1 A (x :: U) cs (count_arp 0 0 1 0 (arp_of s1)) HA) as [HA2 _]; [done..|]. set (s2 := set_dev _ s1) in *.
      destruct (release_ok s2 A U cs x (set_mem l b) HA2) as (s' & A' & E & HA' & [C B L R T K] & _); [apply put_buf_lookup; by eexists|done|done|].
      destruct (rx_apart _ _ _ _ _ HA) as [Hx _]. exists ENP_NOT_MINE, s', A', cs. split; [|split; [split|done]].
      * unfold rx_update. rewrite (proj2 (Z.eqb_neq _ _) Hop), (nbind_eq _ _ s1 tt s2 eq_refl).
        rewrite (nbind_eq (arp_gets arp_table) _ s2 (tbl s) s2 eq_refl), Ef. by rewrite (nbind_eq _ _ _ _ _ E).
      * done.
      * etrans; [|exact C]. by split.
      * intros y Hy. rewrite B by (by left). apply put_other. by intros ->.
      * done.
Qed.

Lemma arprcv_total s A U cs x : arp_ok s A (x :: U) cs -> incoming s x ->
  exists r s' A' cs', arprcv mac_send x s = Done (r, s') /\ handled_rx s s' A' U cs' /\ A' Rcv = A Rcv.
Proof using Type.
  intros HA (b & i & Hb & Hi & [n Hn] & Hrc). pose proof (rc_use b Hrc) as Hu.
  destruct (arprcv_unpack s A U cs x b i n HA Hb Hrc Hi Hn) as (l & E & HA1 & Hm & HG & Hl & Hby). rewrite E. unfold rx_rest.
  destruct (for_us n _).
  - by apply (rx_update_total s A U cs x b l i n (rx_sha b) (rx_spa b) (rx_tpa b) (rx_op b) (rx_src b)).
  - destruct (arp_dropped s A U cs x b l HA1 Hb Hu Hm) as (s' & A' & E' & HR & _ & _ & HV). by exists ENP_NOT_MINE, s', A', cs.
Qed.

(** ** The interval timers *)

Lemma set_timers_ok s A U cs f : arp_ok s A U cs -> (forall l : list intimer, length (f l) = length l) ->
  exists s', arp_do (fun a => set_intimers (f (intimers a)) (numtimers a) a) s = Done (tt, s') /\ arp_ok s' A U cs /\ tidy s s' A A U cs.
Proof using Type.
  intros HA Hf. destruct (set_vars s A U cs (set_intimers (f (intimers (arp_of s))) (numtimers (arp_of s)) (arp_of s)) HA) as [HA1 HT1]; [done|by split; cbn|].
  by eexists.
Qed.

Lemma fire_timer_ok s A U cs i f t now : arp_ok s A U cs -> exists s' A' cs',
  fire_timer i f t now s = Done (tt, s') /\ arp_ok s' A' U cs' /\ tidy s s' A A' U cs' /\ (forall x, x ∈ concat cs' -> x ∈ concat cs).
Proof using Type.
  intros HA. unfold fire_timer. destruct f. cbn [call_timer].
  destruct (set_timers_ok s A U cs (alter (fun t => mkTimer (it_callback t) (it_parm t) (it_interval t) (u32 (it_interval t + now)) (it_inuse t)) i) HA)
    as (s1 & E1 & HA1 & HT1); [intros l; apply length_alter|].
  destruct (set_timers_ok s1 A U cs (alter (fun t => mkTimer (it_callback t) (it_parm t) (it_interval t) (it_tmo t) true) i) HA1)
    as (s2 & E2 & HA2 & HT2); [intros l; apply length_alter|].
  destruct (cb_arpent_tmo_ok s2 A U cs (it_parm t) HA2) as (s3 & A3 & cs3 & E3 & HA3 & HT3 & Hsub & _).
  destruct (set_timers_ok s3 A3 U cs3 (alter (fun t => mkTimer (it_callback t) (it_parm t) (it_interval t) (it_tmo t) false) i) HA3)
    as (s4 & E4 & HA4 & HT4); [intros l; apply length_alter|].
  exists s4, A3, cs3. split_and!; [|done| |done].
  - rewrite (nbind_eq _ _ _ _ _ E1), (nbind_eq _ _ _ _ _ E2), (nbind_eq _ _ _ _ _ E3). exact E4.
  - apply (tidy_trans s s3 s4 A A3 A3 U cs3 cs3); [|done|done].
    apply (tidy_trans s s2 s3 A A A3 U cs cs3); [|done|done]. exact (tidy_trans _ _ _ _ _ _ _ _ _ HT1 HT2 (fun _ h => h)).
Qed.

Lemma timers_loop_ok n : forall i found s A U cs, arp_ok s A U cs -> (i + n <= length (intimers (arp_of s)))%nat -> exists s' A' cs',
  timers_loop n i found s = Done (tt, s') /\ arp_ok s' A' U cs' /\ tidy s s' A A' U cs' /\ (forall x, x ∈ concat cs' -> x ∈ concat cs).
Proof using Type.
  induction n as [|n IH]; intros i found s A U cs HA Hl; cbn [timers_loop]; [by exists s, A, cs|].
  destruct (lookup_lt_is_Some_2 (intimers (arp_of s)) i) as [t Ht]; [lia|].
  rewrite (nbind_eq _ _ s t s) by (cbn; change (inet_arp (st_dev s)) with (arp_of s); by rewrite Ht).
  destruct (it_callback t) as [f|]; [|apply IH; [done|lia]]. rewrite (nbind_eq (ngets cticks) _ s (cticks s) s eq_refl).
  assert (Hf : exists s1 A1 cs1, (if (it_tmo t <? cticks s) && negb (it_inuse t) then fire_timer i f t (cticks s) else nret tt) s = Done (tt, s1) /\
    arp_ok s1 A1 U cs1 /\ tidy s s1 A A1 U cs1 /\ (forall x, x ∈ concat cs1 -> x ∈ concat cs)).
  { destruct (_ && _); [by apply fire_timer_ok|by exists s, A, cs]. }
  destruct Hf as (s1 & A1 & cs1 & E1 & HA1 & HT1 & Hs1). rewrite (nbind_eq _ _ _ _ _ E1).
  rewrite (nbind_eq (arp_gets numtimers) _ s1 (numtimers (arp_of s1)) s1 eq_refl).
  destruct (_ <=? _); [by exists s1, A1, cs1|].
  destruct (IH (S i) (found + 1) s1 A1 U cs1 HA1) as (s2 & A2 & cs2 & E2 & HA2 & HT2 & Hs2).
  { rewrite (ca_timers _ _ (ti_calm _ _ _ _ _ _ HT1)). lia. }
  exists s2, A2, cs2. split_and!; [done|done| |auto]. exact (tidy_trans _ _ _ _ _ _ _ _ _ HT1 HT2 Hs2).
Qed.

Lemma check_timers_ok s A U cs : arp_ok s A U cs -> length (intimers (arp_of s)) = NUM_INTIMERS -> exists s' A' cs',
  check_interval_timers s = Done (tt, s') /\ arp_ok s' A' U cs' /\ tidy s s' A A' U cs'.
Proof using Type.
  intros HA Hl. unfold check_interval_timers. rewrite (nbind_eq (arp_gets numtimers) _ s (numtimers (arp_of s)) s eq_refl).
  destruct (_ <? _); [|by exists s, A, cs]. destruct (timers_loop_ok NUM_INTIMERS 0 0 s A U cs HA) as (s' & A' & cs' & E & HA' & HT & _); [lia|].
  by exists s', A', cs'.
Qed.

(** ** Sequences *)

(** What the stack asks of ARP, and the clock. *)
Inductive ArpOp := op_send (x : nat) (dest : Z) | op_receive (x : nat) | op_timers | op_ticks (n : Z).

Definition later (n : Z) (s : NetSt (Inet D)) : NetSt (Inet D) :=
  mkNetSt (st_pool s) (st_dev s) (st_os s) (rcvdq_sem s) (st_nets s) (g_dm9ka s) (autoReset s) (netisrs s) (u32 (cticks s + n)).

Definition arp_op (o : ArpOp) : N (Inet D) unit :=
  match o with
  | op_send x dest => do! _ := send_via_arp mac_send x dest in nret tt
  | op_receive x => do! _ := arprcv mac_send x in nret tt
  | op_timers => check_interval_timers
  | op_ticks n => fun s => Done (tt, later n s)
  end.

Fixpoint arp_ops (os : list ArpOp) : N (Inet D) unit :=
  match os with [] => nret tt | o :: os => do! _ := arp_op o in arp_ops os end.

(** The packets that a sequence takes over, and what each must be. *)
Definition op_packets (o : ArpOp) : list nat := match o with op_send x _ | op_receive x => [x] | _ => [] end.
Definition op_good (s : NetSt (Inet D)) (o : ArpOp) : Prop :=
  match o with op_send x _ => ready s x | op_receive x => incoming s x | _ => True end.

(** What holds of the packets in other hands is not changed by an operation. *)
Definition steady (s s' : NetSt (Inet D)) (U : list nat) : Prop :=
  (forall i, is_Some (st_nets s !! i) -> is_Some (st_nets s' !! i)) /\
  (forall y, y ∈ U -> pk_bufs (st_pool s') !! y = pk_bufs (st_pool s) !! y) /\
  length (intimers (arp_of s')) = length (intimers (arp_of s)).

Lemma calm_steady s s' U : calm s s' -> (forall y, y ∈ U -> pk_bufs (st_pool s') !! y = pk_bufs (st_pool s) !! y) -> steady s s' U.
Proof using Type. intros Hc Hb. split; [intros i; by apply calm_some|]. split; [done|apply Hc]. Qed.

Lemma good_kept s s' U o : steady s s' U -> (forall y, y ∈ op_packets o -> y ∈ U) -> op_good s o -> op_good s' o.
Proof using Type.
  intros (Hn & Hb & _) Hsub. destruct o as [x dest|x| |n]; [| |done..]; intros (b & i & Hx & Hi & Hs & Hg); exists b, i;
    (rewrite Hb by (apply Hsub; by left)); auto.
Qed.

Lemma later_ok n s A U cs : arp_ok s A U cs -> arp_ok (later n s) A U cs.
Proof using Type. intros [H1 H2 H3 H4 H5 H6 H7 [B1 B2 B3 B4]]. split; try done. Qed.

Lemma arp_op_ok o s A U cs : arp_ok s A (op_packets o ++ U) cs -> length (intimers (arp_of s)) = NUM_INTIMERS -> op_good s o ->
  exists s' A' cs', arp_op o s = Done (tt, s') /\ arp_ok s' A' U cs' /\ steady s s' U /\ A' Rcv = A Rcv.
Proof using Type.
  intros HA Hl Hg. destruct o as [x dest|x| |n]; cbn [op_packets app arp_op op_good] in *.
  - destruct (send_via_arp_total s A U cs x dest HA Hg) as (r & s' & A' & cs' & E & [T1 T2 T3 T4 T5]). exists s', A', cs'.
    split_and!; [by rewrite (nbind_eq _ _ _ _ _ E)|done|by apply calm_steady|done].
  - destruct (arprcv_total s A U cs x HA Hg) as (r & s' & A' & cs' & E & [T1 T2 T3 T4] & HR). exists s', A', cs'.
    split_and!; [by rewrite (nbind_eq _ _ _ _ _ E)|done|by apply calm_steady|done].
  - destruct (check_timers_ok s A U cs HA Hl) as (s' & A' & cs' & E & HA' & [T1 T2 T3 T4 T5 T6]). exists s', A', cs'.
    split_and!; [done|done| |done]. apply calm_steady; [done|auto].
  - exists (later n s), A, cs. split_and!; try done. by apply later_ok.
Qed.

Lemma arp_ops_ok os : forall s A U cs, arp_ok s A (concat (op_packets <$> os) ++ U) cs -> length (intimers (arp_of s)) = NUM_INTIMERS ->
  Forall (op_good s) os -> exists s' A' cs', arp_ops os s = Done (tt, s') /\ arp_ok s' A' U cs' /\ A' Rcv = A Rcv.
Proof using Type.
  induction os as [|o os IH]; intros s A U cs HA Hl Hg; [by exists s, A, cs|]. apply Forall_cons in Hg as [Ho Hos].
  cbn [fmap list_fmap concat] in HA. rewrite <- app_assoc in HA. destruct (arp_op_ok o s A _ cs HA Hl Ho) as (s1 & A1 & cs1 & E1 & HA1 & HS & HR).
  destruct (IH s1 A1 U cs1 HA1) as (s2 & A2 & cs2 & E2 & HA2 & HR2).
  - destruct HS as (_ & _ & ->). done.
  - apply Forall_lookup. intros j o' Hj. apply (good_kept s s1 (concat (op_packets <$> os) ++ U)); [done| |exact (Forall_lookup_1 _ _ _ _ Hos Hj)].
    intros y Hy. apply elem_of_app. left. apply (in_lists _ j (op_packets o')); [|done]. by rewrite list_lookup_fmap, Hj.
  - exists s2, A2, cs2. split_and!; [|done|congruence]. cbn [arp_ops]. by rewrite (nbind_eq _ _ _ _ _ E1).
Qed.

(** ** An unknown address *)

(** The packets [c] wait for address [dest], since this tick. *)
Definition waits (s : NetSt (Inet D)) (cs : list (list nat)) (dest : Z) (c : list nat) : Prop := exists tp e,
  tbl s !! tp = Some e /\ t_pro_addr e = dest /\ createtime e = cticks s /\ cs !! tp = Some c.

(** One more packet waits behind the others. *)
Lemma more_waiting s A U cs y dest c : arp_ok s A (y :: U) cs -> ready s y -> waits s cs dest c -> c <> [] -> dest <> 0 ->
  (2 <= length (A Lil))%nat -> exists s' A' cs', send_via_arp mac_send y dest s = Done (ENP_SEND_PENDING, s') /\
    handled_tx s s' A A' U cs' /\ sent_of s' = sent_of s /\ waits s' cs' dest (c ++ [y]) /\
    (forall z, z ∈ y :: c -> pk_bufs (st_pool s') !! z = pk_bufs (st_pool s) !! z).
Proof using Type.
  intros HA Hy (tp & e & He & Ha & Ht & Hc) Hne Hz Hl2. destruct (arp_row _ _ _ _ _ _ HA He) as (c0 & Hc0 & [P1 _ _ _ _]). simplify_eq.
  assert (Hs : stale (cticks s) e = false).
  { unfold stale. rewrite P1. destruct c as [|z c]; [done|]. cbn [head]. unfold waited_long. by rewrite Ht, Z.sub_diag. }
  destruct (via_lookup s A (y :: U) cs y (t_pro_addr e) HA Hz) as (s1 & A1 & cs1 & j & E1 & HL).
  destruct (via_live s s1 A A1 (y :: U) cs cs1 (t_pro_addr e) tp e c j HA HL Hz He eq_refl Hs Hc) as (-> & He1 & Hc1).
  destruct HL as [HA1 HT1 Hsub _].
  assert (Hin : forall z, z ∈ y :: c -> pk_bufs (st_pool s1) !! z = pk_bufs (st_pool s) !! z).
  { intros z [->|Hzc]%elem_of_cons; apply (ti_bufs _ _ _ _ _ _ HT1); [left; by left|right]. by apply (in_lists cs1 tp c). }
  assert (Hy1 : ready s1 y) by (apply (ready_kept s); [apply HT1|apply Hin; by left|done]).
  destruct (rest_waits s1 A1 U cs1 y tp e c (t_pro_addr e) HA1 Hy1 He1 eq_refl Hc1 Hne) as (s2 & A2 & Hr).
  rewrite (lil_free s1 A1 (y :: U) cs1 HA1), (proj2 (Z.ltb_ge _ _)) in Hr by (pose proof (ti_free _ _ _ _ _ _ HT1 Lil); lia).
  destruct Hr as (E2 & HT2 & S2 & T2 & B2). exists s2, A2, (<[tp := c ++ [y]]> cs1). split_and!.
  - by rewrite E1.
  - by apply (tidy_tx s s1 s2 A A1 A2 (y :: U) U cs cs1); [..|intros z Hz'; by right|].
  - rewrite S2. unfold sent_of. by rewrite (ti_hw _ _ _ _ _ _ HT1).
  - exists tp, e. rewrite T2. split_and!; try done.
    + rewrite Ht. symmetry. etrans; [apply HT2|]. by rewrite (ca_ticks _ _ (ti_calm _ _ _ _ _ _ HT1)).
    + apply list_lookup_insert_eq. by eapply lookup_lt_Some.
  - intros z Hz'. rewrite B2. by apply Hin.
Qed.

(** Packets sent to one address, one after the other. *)
Fixpoint send_all (xs : list nat) (dest : Z) : N (Inet D) (list Z) :=
  match xs with
  | [] => nret []
  | x :: xs => do! r := send_via_arp mac_send x dest in do! rs := send_all xs dest in nret (r :: rs)
  end.

Lemma all_waiting ys : forall s A U cs dest c, arp_ok s A (ys ++ U) cs -> Forall (ready s) ys -> waits s cs dest c -> c <> [] -> dest <> 0 ->
  (2 <= length (A Lil))%nat -> exists s' A' cs', send_all ys dest s = Done (replicate (length ys) ENP_SEND_PENDING, s') /\
    handled_tx s s' A A' U cs' /\ sent_of s' = sent_of s /\ waits s' cs' dest (c ++ ys) /\
    (forall z, z ∈ c ++ ys -> pk_bufs (st_pool s') !! z = pk_bufs (st_pool s) !! z).
Proof using Type.
  induction ys as [|y ys IH]; intros s A U cs dest c HA Hr Hw Hne Hz Hl2.
  - exists s, A, cs. rewrite app_nil_r. split_and!; try done.
  - apply Forall_cons in Hr as [Hy Hys]. destruct (more_waiting s A (ys ++ U) cs y dest c HA Hy Hw Hne Hz Hl2)
      as (s1 & A1 & cs1 & E1 & [HA1 C1 B1 F1 R1] & S1 & Hw1 & K1).
    destruct (IH s1 A1 U cs1 dest (c ++ [y]) HA1) as (s2 & A2 & cs2 & E2 & [HA2 C2 B2 F2 R2] & S2 & Hw2 & K2).
    { apply (readies_kept s); [done| |done]. intros z Hz'. apply B1, elem_of_app. by left. } { done. } { by destruct c. } { done. }
    { specialize (F1 Lil). lia. }
    rewrite <- app_assoc in Hw2, K2. exists s2, A2, cs2. split_and!; try done.
    + cbn [send_all]. rewrite (nbind_eq _ _ _ _ _ E1). by rewrite (nbind_eq _ _ _ _ _ E2).
    + split; [done|by etrans| |intros k; etrans; [apply F1|apply F2]|congruence].
      intros z Hz'. rewrite B2 by done. apply B1, elem_of_app. by right.
    + congruence.
    + intros z Hz'. rewrite K2 by done. destruct (decide (z ∈ y :: c)) as [Hin|Hin]; [by apply K1|].
      apply B1, elem_of_app. left. set_solver.
Qed.

Lemma alloc_lil (A : Qid -> list nat) : (2 <= length (A Lil))%nat -> alloc_from arpsize A = Some Lil.
Proof using Type. intros Hl. unfold alloc_from. cbn [Z.ltb Z.compare orb arpsize]. destruct (A Lil); [cbn in Hl; lia|done]. Qed.

(** The first packet for an unknown address is kept, and the address asked for. *)
Lemma first_waiting s A U cs x b i n dest : arp_ok s A (x :: U) cs -> ready s x -> pk_bufs (st_pool s) !! x = Some b ->
  nb_net b = Some i -> st_nets s !! i = Some n -> is_group n dest = false -> own_host s x n = false -> dest <> 0 ->
  (forall j e, tbl s !! j = Some e -> t_pro_addr e <> dest) -> (2 <= length (A Lil))%nat ->
  exists s' A' cs' tha pad, send_via_arp mac_send x dest s = Done (ENP_SEND_PENDING, s') /\ handled_tx s s' A A' U cs' /\
    length tha = 6%nat /\ length pad = 22%nat /\ sent_of s' = sent_of s ++ [request_frame (mac_of s) n dest tha ++ pad] /\
    waits s' cs' dest [x] /\ pk_bufs (st_pool s') !! x = pk_bufs (st_pool s) !! x.
Proof using Type.
  intros HA Hx Hb Hi Hn Hg Hh Hz Hno Hl2. destruct (via_lookup s A (x :: U) cs x dest HA Hz) as (s1 & A1 & cs1 & j & E1 & HL).
  destruct (via_none s s1 A A1 (x :: U) cs cs1 dest j HL Hz Hno) as (Hno1 & e & He). destruct HL as [HA1 HT1 Hsub _].
  pose proof HT1 as [C1 W1 B1 L1 F1 R1]. destruct (calm_net s s1 i n C1 Hn) as (n1 & Hn1 & Hs1).
  assert (Hb1 : pk_bufs (st_pool s1) !! x = Some b) by (rewrite B1 by (left; by left); done).
  assert (Hg1 : is_group n1 dest = false) by (unfold is_group in *; by rewrite (ns_mask _ _ Hs1)).
  assert (Hh1 : own_host s1 x n1 = false) by (unfold own_host in *; by rewrite (ca_host _ _ C1), (ns_ip _ _ Hs1)).
  assert (Hx1 : ready s1 x) by (apply (ready_kept s); [done|by rewrite Hb1|done]).
  assert (Hal : alloc_from arpsize A1 = Some Lil) by (apply alloc_lil; specialize (F1 Lil); lia).
  destruct (send_arp_request s1 A1 U cs1 x b i n1 dest Lil HA1 Hx1 Hb1 Hi Hn1 Hg1 Hh1 Hz Hno1 Hal)
    as (s2 & A2 & cs2 & tp & tha & pad & E2 & HT2 & Htha & Hpad & S2 & [(e2 & He2 & Ha2 & Ht2) Hc2] & Hx2).
  exists s2, A2, cs2, tha, pad. split_and!; try done.
  - rewrite E1. unfold via_rest. rewrite (nbind_eq (ngets cticks) _ s1 (cticks s1) s1 eq_refl), (nbind_eq _ _ _ _ _ (get_ent_eq s1 j e He)).
    by rewrite (proj2 (Z.eqb_neq _ _) (Hno1 j e He)).
  - by apply (tidy_tx s s1 s2 A A1 A2 (x :: U) U cs cs1); [..|intros z Hz'; by right|].
  - rewrite S2. unfold sent_of, request_frame. rewrite W1, (ns_ip _ _ Hs1). unfold mac_of. by rewrite (ca_dm _ _ C1).
  - exists tp, e2. split_and!; try done. rewrite Ht2. symmetry. apply HT2.
  - by rewrite Hx2, Hb1.
Qed.

End Run.
