(* ===== verification/ArpNic.v ===== *)
(** * ArpNic

    The Ethernet driver behind address resolution: it keeps what ARP asks of a driver, and
    a state of the board in which nothing is resolved yet. *)

From stdpp Require Import gmap.
From S2P Require Import Prelude HwDriver NetQueue PktPool PktFacts PktChain KernelData Kernel KernelSem KernelSpec KernelInv KernelRefine KernelSemOps KernelBoot KernelTokens KernelProps NetDev Dm9000a Dm9000aFacts DmRx NetPath NetProps NetDemux Arp ArpWire ArpFacts ArpTable ArpOps ArpRx.

(** ** The driver *)

Section Nic.
Context {D : Type} `{Chip D}.

Lemma same_nets nets nets' (j : nat) : Forall2 net_same nets nets' -> is_Some (nets !! j) -> is_Some (nets' !! j).
Proof using Type. intros Hf [n Hn]. destruct (Forall2_lookup_l _ _ _ j n Hf Hn) as (n' & Hn' & _). by exists n'. Qed.

(** With enough polls for the chip, dm9ka_pkt_send is such a routine. *)
#[refine] Instance nic_mac (fuel : nat) : Mac D := {|
  mac_send := dm9ka_pkt_send fuel;
  mac_ok nets dm d := (exists j, netp dm = Some j /\ is_Some (nets !! j)) /\ t_txw (nic_t (nic_view d)) = [] /\
    (t_lat (nic_t (nic_view d)) < fuel)%nat;
  sent d := t_sent (nic_t (nic_view d));
|}.
Proof using H H0 H1.
  - intros nets nets' dm d [(j & Hj & Hs) Ht] Hf. split; [|done]. exists j. split; [done|]. by eapply same_nets.
  - intros s x b i n [(j & Hj & [nj Hnj]) [Htx Hlat]] Hb Hs Hi Hn Hloc.
    destruct (send_core fuel x s b i n j nj Hb Hs Hi Hn Hloc Hj Hnj Htx Hlat) as (d' & c & _ & E & Ht & _).
    assert (Hf : Forall2 net_same (st_nets s) (<[j := set_mib (add_Out (nb_plen b) (negb (Z.land c 0x80 =? 0))) nj]> (st_nets s))).
    { rewrite <- (list_insert_id (st_nets s) j nj) at 1 by done. apply Forall2_insert; [reflexivity|by split]. }
    exists d', (<[j := set_mib (add_Out (nb_plen b) (negb (Z.land c 0x80 =? 0))) nj]> (st_nets s)). split; [|split; [|split; [done|]]].
    + rewrite E. by destruct s.
    + split; [exists j; split; [done|]; eapply same_nets; [exact Hf|by exists nj]|by rewrite Ht].
    + by rewrite Ht.
Defined.

End Nic.

(** ** A state of the board *)

(** The variables at the start, and an interface with an address. *)
Definition no_arp : ArpSt :=
  mkArp (replicate MAXARPS (mkEnt 0 (replicate 6 0) None None 0 0 0)) None 0 None 0 0 0 0
    (replicate NUM_INTIMERS (mkTimer None 0 0 0 false)) 0 (fun _ => 0) (fun _ => false).

Definition board_ip : list Z := [192; 168; 0; 2].
Definition peer_ip : list Z := [192; 168; 0; 9].
Definition peer_mac : list Z := [2; 0; 0; 0; 0; 9].
Definition ip_net : net :=
  set_mib (set_status 1 1) (prep_net 0 (mkNet None None None None 0 0 (le32 board_ip) (le32 [255; 255; 255; 0]) 0 0
    (mkIfMib 0 0 0 0 0 0 0 0 0 0 0) false 0)).

#[export] Instance board_mac : Mac Nic := nic_mac 10.

Definition inet (p : Pool) (os : OS) (fs : list frame) : NetSt (Inet Nic) :=
  mkNetSt p (mkInet no_arp (chip_with fs [])) os 0%nat [ip_net] board_dm 0 0 0.

Definition byte_test (l : list Z) : bool := forallb (fun c => (0 <=? c) && (c <? 256)) l.

Lemma bytes_tested l : byte_test l = true -> bytes l.
Proof.
  intros H6. unfold byte_test in H6. rewrite forallb_forall in H6. apply Forall_forall. intros c Hc%list_elem_of_In.
  specialize (H6 c Hc). apply andb_prop in H6 as [?%Z.leb_le ?%Z.ltb_lt]. done.
Qed.

Lemma start_pool_ok : exists p, pool_ok p (init_lists 60) [] /\ Forall (fun b => bytes (nb_mem b)) (pk_bufs p).
Proof.
  destruct (pk_init_free (fun _ => true) 16) as (p & Hp & HR & _); [done|]. exists p. split; [apply HR|].
  assert (Hf : match pk_init (fun _ => true) (pool_zero 16) with
    | Some (_, p) => forallb (fun b => byte_test (nb_mem b)) (pk_bufs p) | None => false end = true) by (vm_compute; reflexivity).
  rewrite Hp in Hf. rewrite forallb_forall in Hf. apply Forall_forall. intros b Hb%list_elem_of_In. exact (bytes_tested _ (Hf b Hb)).
Qed.

Definition good_block (b : netbuf) : Prop := buf_ok b /\ marked b /\ bytes (nb_mem b) /\ nb_inuse b = 1.

(** A large packet is handed out and filled. *)
Lemma hand_out p A U x l b : pool_ok p A U -> Forall (fun b => bytes (nb_mem b)) (pk_bufs p) -> A Big = x :: l -> good_block b ->
  exists p', pool_ok p' (upd_at Big l A) (x :: U) /\ pk_bufs p' = <[x := b]> (pk_bufs p) /\
    Forall (fun b => bytes (nb_mem b)) (pk_bufs p') /\ (x < length (pk_bufs p))%nat.
Proof.
  intros Hp Hby E (Hok & _ & Hb & Hu).
  destruct (pool_lookup p A U x) as [b0 Hb0]; [apply Hp|apply (in_all _ _ Big); rewrite E; by left|].
  destruct (take_ok p A U Big x l b0 b Hp E Hb0 Hok ltac:(lia)) as (q & _ & HP'). eexists. split; [exact HP'|].
  split_and!; [done| |by eapply lookup_lt_Some]. by apply Forall_insert.
Qed.

Lemma inet_ok p os fs A U : pool_ok p A U -> Forall (fun b => bytes (nb_mem b)) (pk_bufs p) ->
  arp_ok (inet p os fs) A U (replicate MAXARPS []).
Proof.
  intros Hp Hby. assert (Ec : concat (replicate MAXARPS []) = ([] : list nat)) by done. split; rewrite ?Ec; try done.
  - unfold chained. by rewrite cut_nil.
  - intros i e c Hi Hc. apply lookup_replicate_1 in Hc as [-> _]. unfold tbl, arp_of, inet, no_arp in Hi. cbn [st_dev inet_arp arp_table] in Hi.
    apply lookup_replicate_1 in Hi as [-> _]. split; try done. cbn. split; [done|]. repeat constructor; done.
  - intros i j e e' Hi _ _ Hz. unfold tbl, arp_of, inet, no_arp in Hi. cbn [st_dev inet_arp arp_table] in Hi.
    apply lookup_replicate_1 in Hi as [-> _]. done.
  - split.
    + split; [exists 0%nat; split; [done|by eexists]|]. split; [done|cbn; lia].
    + repeat constructor; try done; by eexists.
    + split; [done|]. unfold mac_of. cbn. repeat constructor; done.
    + intros x b Hb. exact (Forall_lookup_1 _ _ _ _ Hby Hb).
Qed.

(** A packet to send, and one with a received message. *)
Definition big_block : list Z := default [] (new_block BIGBUFSIZE).
Definition out_pkt : netbuf := mkNetbuf big_block ALIGN_TYPE BIGBUFSIZE 20 40 0 (Some 0%nat) IPTP 1 0.
Definition arp_pkt (frame : list Z) : netbuf :=
  mkNetbuf (take 6 big_block ++ frame ++ drop 48 big_block) ALIGN_TYPE BIGBUFSIZE 20 28 0 (Some 0%nat) ARPTP 1 0.

Definition reply_to_board : list Z :=
  ArpWire.arp_frame (get_mac_addr None) peer_mac [0x00; 0x02] peer_mac peer_ip (get_mac_addr None) board_ip.
Definition request_to_board : list Z :=
  ArpWire.arp_frame (replicate 6 0xFF) peer_mac [0x00; 0x01] peer_mac peer_ip (replicate 6 0) board_ip.

Definition block_test (b : netbuf) : bool :=
  bool_decide (nb_blen b = BIGBUFSIZE) && bool_decide (nb_buff b = ALIGN_TYPE) &&
  bool_decide (Z.of_nat (length (nb_mem b)) = nb_blen b + ALIGN_TYPE + 1) && has_marks b && bool_decide (nb_inuse b = 1) &&
  byte_test (nb_mem b).

Lemma block_tested b : block_test b = true -> good_block b.
Proof.
  unfold block_test. rewrite !andb_true_iff, !bool_decide_eq_true. intros (((((H1 & H2) & H3) & H4) & H5) & H6).
  split; [split; [by left|done|done]|]. split; [by apply has_marks_spec|]. split; [|done].
  by apply bytes_tested.
Qed.

Lemma out_pkt_ok : good_block out_pkt /\ outgoing out_pkt.
Proof.
  assert (Hg : good_block out_pkt) by (apply block_tested; vm_compute; reflexivity).
  split; [done|]. destruct Hg as (Hok & Hm & Hb & Hu). split; try done. split; [done|done| |done]. vm_compute. lia.
Qed.

Lemma arp_pkt_ok frame : block_test (arp_pkt frame) = true -> good_block (arp_pkt frame) /\ received (arp_pkt frame).
Proof. intros Hg%block_tested. split; [done|]. by destruct Hg as (Hok & Hm & Hb & Hu). Qed.

(** Three packets in use: two to send and a received one. *)
Lemma three_packets frame : good_block (arp_pkt frame) -> exists p A, pool_ok p A [2; 1; 0]%nat /\
  Forall (fun b => bytes (nb_mem b)) (pk_bufs p) /\ pk_bufs p !! 0%nat = Some out_pkt /\ pk_bufs p !! 1%nat = Some out_pkt /\
  pk_bufs p !! 2%nat = Some (arp_pkt frame) /\ A Lil = seq 30 30 /\ A Rcv = [].
Proof.
  intros Hg. destruct start_pool_ok as (p0 & H0 & B0). destruct out_pkt_ok as [Ho _].
  destruct (hand_out _ _ _ 0%nat (seq 1 29) out_pkt H0 B0 eq_refl Ho) as (p1 & H1 & E1 & B1 & L1).
  destruct (hand_out _ _ _ 1%nat (seq 2 28) out_pkt H1 B1 eq_refl Ho) as (p2 & H2 & E2 & B2 & L2).
  destruct (hand_out _ _ _ 2%nat (seq 3 27) (arp_pkt frame) H2 B2 eq_refl Hg) as (p3 & H3 & E3 & B3 & L3).
  eexists p3, _. split; [exact H3|]. split; [done|]. rewrite E3, E2, E1. rewrite E2, E1, !length_insert in L3. rewrite E1, length_insert in L2.
  split_and!; try done.
  - rewrite !list_lookup_insert_ne by done. apply list_lookup_insert_eq. done.
  - rewrite list_lookup_insert_ne by done. apply list_lookup_insert_eq. rewrite length_insert. lia.
  - apply list_lookup_insert_eq. rewrite !length_insert. lia.
Qed.
