(* ===== verification/ArpDemux.v ===== *)
(** * ArpDemux

    From the wire to the wire: a request that the chip receives goes through the interrupt
    routine, the queue and pktdemux to arprcv, and is answered. *)

From stdpp Require Import gmap.
From S2P Require Import Prelude HwDriver NetQueue PktPool PktFacts PktChain KernelData Kernel KernelSem KernelSpec KernelInv KernelRefine KernelSemOps NetDev Dm9000a Dm9000aFacts DmRx NetPath NetProps NetDemux Arp ArpWire ArpFacts ArpTable ArpOps ArpRx ArpTx ArpRun ArpNic.

(** ** Blocks hold bytes

    A routine of the driver leaves bytes in the blocks of all packets. *)

Create HintDb keeps.

Section Bytes.
Context {D : Type} `{Bus D} `{Delays D}.

Definition pool_bytes (s : NetSt D) : Prop := forall x b, pk_bufs (st_pool s) !! x = Some b -> bytes (nb_mem b).

(** Where it returns, the blocks hold bytes, and so does what it returns. *)
Definition keeps {A} (Q : A -> Prop) (m : N D A) : Prop := forall s a s', pool_bytes s -> m s = Done (a, s') -> pool_bytes s' /\ Q a.

Lemma bytes_bind {A B} (P : A -> Prop) (Q : B -> Prop) m (k : A -> N D B) : keeps P m -> (forall a, P a -> keeps Q (k a)) -> keeps Q (nbind m k).
Proof using Type.
  intros Hm Hk s b s' Hs. unfold nbind. destruct (m s) as [[a s1]| |] eqn:E; [|done..]. destruct (Hm _ _ _ Hs E) as [Hs1 Ha].
  by apply Hk.
Qed.

(** What does not touch the pool. *)
Lemma keeps_pool {A} (m : N D A) : (forall s a s', m s = Done (a, s') -> st_pool s' = st_pool s) -> keeps (fun _ => True) m.
Proof using Type. intros Hm s a s' Hs E. split; [|done]. intros x b. rewrite (Hm _ _ _ E). apply Hs. Qed.

Lemma keeps_do (f : Pool -> option Pool) : (forall p p', f p = Some p' -> pk_bufs p' = pk_bufs p) -> keeps (fun _ => True) (pool_do (D := D) f).
Proof using Type.
  intros Hf s a s' Hs. unfold pool_do. destruct (f (st_pool s)) as [p|] eqn:E; [|done]. intros [= <- <-]. split; [|done].
  intros x b. cbn. rewrite (Hf _ _ E). apply Hs.
Qed.

Lemma keeps_alloc len : keeps (fun _ => True) (pool_get (D := D) (pk_alloc len)).
Proof using Type.
  intros s a s' Hs. unfold pool_get. destruct (pk_alloc len (st_pool s)) as [[r p]|] eqn:E; [|done]. intros [= <- <-]. split; [|done].
  assert (Hb : pk_bufs p = pk_bufs (st_pool s) \/ exists x b, pk_bufs (st_pool s) !! x = Some b /\
    pk_bufs p = <[x := fresh_fields (MaxLnh (st_pool s)) b]> (pk_bufs (st_pool s))).
  { revert E. unfold pk_alloc. destruct (_ <? len); [intros [= <- <-]; by left|].
    destruct (_ || _); (destruct (getq _ _) as [[[x q] m]|]; [|done]); cbn [set_big set_lil pk_bufs MaxLnh];
      (destruct x as [x|]; [|intros [= <- <-]; by left]); (destruct (pk_bufs (st_pool s) !! x) as [b|] eqn:Eb; [|done]);
      intros [= <- <-]; right; by exists x, b. }
  intros y c. cbn. destruct Hb as [->|(x & b & Hx & ->)]; [apply Hs|]. intros [(<- & <- & _)|[_ Hy]]%list_lookup_insert_Some; [exact (Hs x b Hx)|exact (Hs y c Hy)].
Qed.

Lemma keeps_buf x : keeps (fun b => bytes (nb_mem b)) (get_buf (D := D) x).
Proof using Type.
  intros s b s' Hs. unfold get_buf. destruct (pk_bufs (st_pool s) !! x) as [b0|] eqn:E; [|done]. intros [= <- <-]. split; [done|]. exact (Hs x b0 E).
Qed.

Lemma keeps_upd x f : (forall b b', bytes (nb_mem b) -> f b = Some b' -> bytes (nb_mem b')) -> keeps (fun _ => True) (upd_buf (D := D) x f).
Proof using Type.
  intros Hf s a s' Hs. unfold upd_buf, pool_do. destruct (pk_bufs (st_pool s) !! x) as [b|] eqn:Eb; [|done].
  destruct (f b) as [b'|] eqn:Ef; [|done]. intros [= <- <-]. split; [|done]. intros y c. cbn.
  intros [(<- & <- & _)|[_ Hy]]%list_lookup_insert_Some; [exact (Hf b b' (Hs x b Eb) Ef)|exact (Hs y c Hy)].
Qed.

Lemma rx_copy_bytes n base i l d l' d' : bytes l -> rx_copy n base i l d = Some (l', d') -> bytes l'.
Proof using Type.
  assert (Hb : forall v, is_u8 (Z.land v 0xFF)).
  { intros v. change 0xFF with (Z.ones 8). rewrite Z.land_ones by done. apply Z.mod_pos_bound. done. }
  revert i l d. induction n as [|n IH]; intros i l d Hl; cbn [rx_copy]; [by intros [= <- _]|].
  destruct (IORD base IO_data (usleep STD_DELAY d)) as [tmp d1]. unfold mem_put at 1. destruct (_ && _); [|done].
  unfold mem_put at 1. destruct (_ && _); [|done]. apply IH. apply Forall_insert; [|apply Hb]. apply Forall_insert; [done|apply Hb].
Qed.

Lemma keeps_get_local i : keeps (fun _ => True) (get_local (D := D) i).
Proof using Type.
  unfold get_local. eapply (bytes_bind (fun _ => True)).
  - apply keeps_pool. intros s a s'. unfold get_net. destruct (_ !! _); [|done]. by intros [= <- <-].
  - intros n _. destruct (n_local n); apply keeps_pool; intros s a s'; by intros [= <- <-].
Qed.

Lemma keeps_net i f : keeps (fun _ => True) (upd_net (D := D) i f).
Proof using Type. apply keeps_pool. intros s a s'. unfold upd_net. destruct (_ !! _); [|done]. by intros [= <- <-]. Qed.

Lemma keeps_read (f : D -> Z * D) : keeps (fun _ => True) (read_dev f).
Proof using Type. apply keeps_pool. intros s a s'. unfold read_dev. destruct (f _). by intros [= <- <-]. Qed.

Lemma keeps_write (f : D -> D) : keeps (fun _ => True) (write_dev f).
Proof using Type. apply keeps_pool. intros s a s'. by intros [= <- <-]. Qed.

Lemma keeps_gets {A} (f : NetSt D -> A) : keeps (fun _ => True) (ngets f).
Proof using Type. apply keeps_pool. intros s a s'. by intros [= <- <-]. Qed.

Lemma bytes_ret {A} (a : A) : keeps (fun _ => True) (nret (D := D) a).
Proof using Type. apply keeps_pool. intros s b s'. by intros [= <- <-]. Qed.

Lemma keeps_nonnull {A} (o : option A) : keeps (fun _ => True) (nonnull (D := D) o).
Proof using Type. apply keeps_pool. intros s a s'. destruct o; [|done]. by intros [= <- <-]. Qed.

Lemma keeps_os {A} (m : M A) : keeps (fun _ => True) (os_do (D := D) m).
Proof using Type. apply keeps_pool. intros s a s'. unfold os_do. destruct (m _) as [[r k]|]; [|done]. by intros [= <- <-]. Qed.

Lemma keeps_rcvd x : keeps (fun _ => True) (pool_do (D := D) (put_rcvd x)).
Proof using Type. apply keeps_do. intros p p'. unfold put_rcvd. destruct (putq _ _ _) as [[q m]|]; [|done]. by intros [= <-]. Qed.

#[local] Hint Resolve keeps_get_local keeps_net keeps_read keeps_write keeps_gets bytes_ret keeps_nonnull keeps_os keeps_rcvd keeps_alloc : keeps.

Ltac keeps_tac :=
  lazymatch goal with
  | |- keeps _ (nbind _ _) => eapply (bytes_bind (fun _ => True)); [keeps_tac|intros ? _; keeps_tac]
  | |- keeps _ (if ?c then _ else _) => destruct c; keeps_tac
  | _ => solve [auto with keeps nocore]
  end.

Lemma keeps_body sts len : keeps (fun _ => True) (rx_body sts len).
Proof using Type.
  unfold rx_body. eapply (bytes_bind (fun _ => True)); [keeps_tac|]. intros dm _. destruct (_ && _); [|keeps_tac].
  eapply bytes_bind; [apply keeps_alloc|]. intros [pkt|] _; [|keeps_tac].
  eapply bytes_bind; [apply keeps_buf|]. intros b Hb. eapply (bytes_bind (fun mem => bytes mem)).
  { intros s mem s' Hs. destruct (rx_copy _ _ _ _ _) as [[l d]|] eqn:E; [|done]. intros [= <- <-]. split; [exact Hs|]. exact (rx_copy_bytes _ _ _ _ _ _ _ Hb E). }
  intros mem Hm. eapply (bytes_bind (fun _ => True)); [keeps_tac|]. intros t _. eapply (bytes_bind (fun _ => True)).
  { apply keeps_pool. intros s a s'. destruct (load16 _ _); [|done]. by intros [= <- <-]. }
  intros ty _. eapply bytes_bind; [apply keeps_upd; by intros c c' _ [= <-]|]. intros _ _. keeps_tac.
Qed.
#[local] Hint Resolve keeps_body : keeps.

Lemma keeps_loop fuel rdy : keeps (fun _ => True) (rx_loop (D := D) fuel rdy).
Proof using Type.
  revert rdy. induction fuel as [|fuel IH]; intros rdy; cbn [rx_loop]; [by intros s a s' _|].
  unfold rx_frame. keeps_tac.
Qed.
#[local] Hint Resolve keeps_loop : keeps.

Lemma keeps_modify f : (forall s, st_pool (f s) = st_pool s) -> keeps (fun _ => True) (nmodify (D := D) f).
Proof using Type. intros Hf. apply keeps_pool. intros s a s'. intros [= <- <-]. apply Hf. Qed.

Lemma isr_bytes fuel i : keeps (fun _ => True) (dm9Ka_isr_wrap (D := D) fuel i).
Proof using Type.
  assert (H1 : keeps (fun _ => True) (nmodify (D := D) incr_isrs)) by by apply keeps_modify.
  assert (H2 : keeps (fun _ => True) (nmodify (D := D) incr_reset)) by by apply keeps_modify.
  unfold dm9Ka_isr_wrap, dm9000a_isr. keeps_tac.
Qed.

End Bytes.

(** ** From the queue to arprcv *)

Section Queue.
Context {D : Type} `{Mac D} (ip_rcv : nat -> N (Inet D) Z) (tk_yield : N (Inet D) unit).

(** An interface that is up, and whose driver says what a packet is. *)
Definition open_net (n : net) : Prop := ifAdminStatus (n_mib n) <> NI_DOWN /\ Z.land (n_flags n) NF_NBPROT <> 0.

Lemma arp_nets s A U cs nets' : arp_ok s A U cs -> Forall2 net_same (st_nets s) nets' -> arp_ok (set_nets nets' s) A U cs /\ calm s (set_nets nets' s).
Proof using Type.
  intros [H1 H2 H3 H4 H5 H6 H7 [B1 B2 B3 B4]] Hf. assert (Hc : calm s (set_nets nets' s)) by by split. split; [|done]. split; try done.
  - by apply (readies_kept s).
  - split; try done; [exact (mac_same _ _ _ _ B1 Hf)|]. cbn. apply Forall_lookup. intros j m Hj.
    destruct (Forall2_lookup_r _ _ _ j m Hf Hj) as (m0 & Hm0 & [S1 _ _ S4 _ _ _ _]). rewrite S4, S1. exact (Forall_lookup_1 _ _ _ _ B2 Hm0).
Qed.

(** A packet that says it is for ARP gets there. *)
Lemma demux_arp s A U cs x b i n : arp_ok s A (x :: U) cs -> pk_bufs (st_pool s) !! x = Some b -> marked b -> nb_net b = Some i ->
  st_nets s !! i = Some n -> open_net n -> nb_type b = ARPTP ->
  exists s1, demux_packet ip_rcv (arprcv mac_send) x s = (do! _ := arprcv mac_send x in nret tt) s1 /\
    arp_ok s1 A (x :: U) cs /\ calm s s1 /\ st_pool s1 = st_pool s /\ st_dev s1 = st_dev s.
Proof using Type.
  intros HA Hb Hm Hi Hn [Hup Hnb] Ht. destruct (arp_buf _ _ _ _ _ _ HA Hb) as [Hok _]. destruct (block_room b Hok) as [Eb Hl].
  destruct (marks_of b Hm) as [Hlow Hhigh].
  destruct (isbcast_in n (nb_mem b) (nb_buff b + ETHHDR_BIAS)) as [bc Hbc]; [rewrite Eb; unfold ETHHDR_BIAS; lia..|].
  set (n1 := set_mib (if bc then add_InNUcast else add_InUcast) n). set (s1 := set_nets (<[i := n1]> (st_nets s)) s).
  destruct (arp_nets s A (x :: U) cs (<[i := n1]> (st_nets s)) HA) as [HA1 HC1].
  { rewrite <- (list_insert_id (st_nets s) i n) at 1 by done. apply Forall2_insert; [reflexivity|]. unfold n1. by destruct bc; split. }
  exists s1. split; [|done]. unfold demux_packet. rewrite (nbind_eq _ _ _ _ _ (get_buf_eq s x b Hb)).
  rewrite (nbind_eq (nonnull (nb_net b)) _ s i s) by (by rewrite Hi). rewrite (nbind_eq _ _ _ _ _ (get_net_eq s i n Hn)).
  rewrite (nbind_eq _ _ s bc s) by (by rewrite Hbc). rewrite (nbind_eq (upd_net i _) _ s tt s1) by (unfold upd_net; by rewrite Hn).
  rewrite (proj2 (Z.eqb_neq _ _) Hup). rewrite (nbind_eq _ _ s1 (ch "M") s1) by (by rewrite Hlow).
  rewrite (nbind_eq _ _ s1 (ch "M") s1) by (by rewrite Hhigh). rewrite Z.eqb_refl. cbn [negb orb].
  rewrite (proj2 (Z.eqb_neq _ 0) Hnb). rewrite (nbind_eq _ _ s1 true s1) by done. cbn [negb].
  rewrite (nbind_eq _ _ _ _ _ (get_buf_eq s1 x b Hb)), Ht. done.
Qed.

Lemma take_rcvd s A U cs x l : arp_ok s A U cs -> A Rcv = x :: l -> exists s1, pool_get get_rcvd s = Done (Some x, s1) /\
  arp_ok s1 (upd_at Rcv l A) (x :: U) cs /\ calm s s1 /\ pk_bufs (st_pool s1) = pk_bufs (st_pool s) /\ st_dev s1 = st_dev s.
Proof using Type.
  intros HA E. destruct (ch_rcvd _ _ _ _ _ _ (ao_pool _ _ _ _ HA) E) as (p' & Eg & Hp' & Eb & _ & Hs).
  exists (set_pool p' s). split; [unfold pool_get; by rewrite Eg|]. split; [|by split].
  apply (arp_pool s A U cs); [done..| |]; rewrite Eb; [done|apply (bo_bytes s), HA].
Qed.

Lemma rcvd_len s A U cs : arp_ok s A U cs -> q_len (rcvdq (st_pool s)) = Z.of_nat (length (A Rcv)).
Proof using Type. intros HA. apply (qo_len _ _ _ (ch_queue_real _ _ _ _ (ao_pool _ _ _ _ HA) Rcv)). Qed.

(** pktdemux with one packet in the queue, which is for ARP. *)
Lemma pktdemux_arp fuel s A U cs x b i n : arp_ok s A U cs -> A Rcv = [x] -> pk_bufs (st_pool s) !! x = Some b -> marked b ->
  nb_net b = Some i -> st_nets s !! i = Some n -> open_net n -> nb_type b = ARPTP -> (2 <= fuel)%nat ->
  exists s1, arp_ok s1 (upd_at Rcv [] A) (x :: U) cs /\ calm s s1 /\ pk_bufs (st_pool s1) = pk_bufs (st_pool s) /\ st_dev s1 = st_dev s /\
    forall r s2 A2 U2 cs2, arprcv mac_send x s1 = Done (r, s2) -> arp_ok s2 A2 U2 cs2 -> A2 Rcv = [] ->
      pktdemux ip_rcv (arprcv mac_send) tk_yield fuel s = Done (tt, s2).
Proof using Type.
  intros HA E Hb Hm Hi Hn Hop Ht Hf. destruct (take_rcvd s A U cs x [] HA E) as (s1 & E1 & HA1 & HC1 & Eb1 & Ed1).
  destruct (calm_net s s1 i n HC1 Hn) as (n1 & Hn1 & Hs1).
  destruct (demux_arp s1 (upd_at Rcv [] A) U cs x b i n1 HA1) as (s2 & E2 & HA2 & HC2 & Ep2 & Ed2); try done; [by rewrite Eb1| |].
  { unfold open_net in *. rewrite (ns_flags _ _ Hs1), (ns_admin _ _ Hs1). done. }
  exists s2. split_and!; [done|by etrans|by rewrite Ep2|congruence|]. intros r s3 A3 U3 cs3 E3 HA3 Hr3.
  destruct fuel as [|[|fuel]]; [lia..|]. unfold pktdemux. cbn [pktdemux_loop].
  rewrite (nbind_eq (ngets _) _ s _ s eq_refl), (rcvd_len s A U cs HA), E. change (Z.of_nat (length [x]) =? 0) with false. cbn iota.
  rewrite (nbind_eq (ngets _) _ s (q_len (bigfreeq (st_pool s))) s eq_refl). rewrite (proj2 (Z.ltb_ge _ _)).
  2: { pose proof (qo_len _ _ _ (ch_queue_real _ _ _ _ (ao_pool _ _ _ _ HA) Big)) as El. cbn in El. rewrite El. lia. }
  rewrite (nbind_eq (nret _) _ s (s32 (0 + 1)) s eq_refl), (nbind_eq _ _ _ _ _ E1), (nbind_eq (nonnull (Some x)) _ s1 x s1 eq_refl).
  rewrite (nbind_eq (demux_packet _ _ x) _ s1 tt s3) by (rewrite E2; by rewrite (nbind_eq _ _ _ _ _ E3)).
  rewrite (nbind_eq (ngets _) _ s3 _ s3 eq_refl), (rcvd_len s3 A3 U3 cs3 HA3), Hr3. done.
Qed.

End Queue.

(** ** From the wire *)

Lemma cut_field (p v r l : list Z) k n : l = p ++ v ++ r -> length p = k -> length v = n -> take n (drop k l) = v.
Proof. intros -> <- <-. rewrite drop_app_length. apply take_app_length. Qed.

(** The fields of a packet whose block holds a frame. *)
Lemma frame_fields b dst src op sha spa tha tpa rest : nb_prot b = 20 ->
  drop 6 (nb_mem b) = ArpWire.arp_frame dst src op sha spa tha tpa ++ rest -> length dst = 6%nat -> length src = 6%nat ->
  length op = 2%nat -> length sha = 6%nat -> length spa = 4%nat -> length tha = 6%nat -> length tpa = 4%nat ->
  rx_src b = src /\ rx_op b = op /\ rx_sha b = sha /\ rx_spa b = spa /\ rx_tpa b = tpa.
Proof.
  intros Hp Hd L1 L2 L3 L4 L5 L6 L7. unfold rx_src, rx_op, rx_sha, rx_spa, rx_tpa, field. rewrite Hp. change (Z.to_nat 20) with 20%nat.
  assert (Hdrop : forall k, drop (6 + k) (nb_mem b) = drop k (ArpWire.arp_frame dst src op sha spa tha tpa ++ rest)) by (intros k; rewrite <- Hd; by rewrite drop_drop).
  assert (Hgo : forall m k n p v r, m = (6 + k)%nat -> ArpWire.arp_frame dst src op sha spa tha tpa ++ rest = p ++ v ++ r ->
    length p = k -> length v = n -> take n (drop m (nb_mem b)) = v).
  { intros m k n p v r -> E Hk Hn. rewrite Hdrop. by eapply cut_field. }
  unfold ArpWire.arp_frame in Hgo. set (h := [0; 1; 8; 0; 6; 4]) in *. assert (Lh : length h = 6%nat) by done. split_and!.
  - apply (Hgo _ 6%nat _ dst src ([8; 6] ++ (h ++ op) ++ sha ++ spa ++ tha ++ tpa ++ rest)); [done|by rewrite <- !app_assoc|done..].
  - apply (Hgo _ 20%nat _ (dst ++ src ++ [8; 6] ++ h) op (sha ++ spa ++ tha ++ tpa ++ rest)); [done|by rewrite <- !app_assoc|rewrite !length_app; cbn [length]; lia|done].
  - apply (Hgo _ 22%nat _ (dst ++ src ++ [8; 6] ++ h ++ op) sha (spa ++ tha ++ tpa ++ rest)); [done|by rewrite <- !app_assoc|rewrite !length_app; cbn [length]; lia|done].
  - apply (Hgo _ 28%nat _ (dst ++ src ++ [8; 6] ++ h ++ op ++ sha) spa (tha ++ tpa ++ rest)); [done|by rewrite <- !app_assoc|rewrite !length_app; cbn [length]; lia|done].
  - apply (Hgo _ 38%nat _ (dst ++ src ++ [8; 6] ++ h ++ op ++ sha ++ spa ++ tha) tpa rest); [done|by rewrite <- !app_assoc|rewrite !length_app; cbn [length]; lia|done].
Qed.

(** The packet of a received message. *)
Lemma pkt_fields p i t x st dst src op sha spa tha tpa pad b :
  pkt_is p i t x (mkFrame st (ArpWire.arp_frame dst src op sha spa tha tpa ++ pad)) -> pk_bufs p !! x = Some b -> marked b ->
  length dst = 6%nat -> length src = 6%nat ->
  length op = 2%nat -> length sha = 6%nat -> length spa = 4%nat -> length tha = 6%nat -> length tpa = 4%nat ->
  received b /\ nb_net b = i /\ nb_type b = ARPTP /\ rx_src b = src /\ rx_op b = op /\ rx_sha b = sha /\ rx_spa b = spa /\ rx_tpa b = tpa.
Proof.
  intros (b' & Hb' & Eb & Em & Ep & _ & _ & Ei & Eu & Et) Hb Hm L1 L2 L3 L4 L5 L6 L7. assert (b' = b) as -> by congruence.
  unfold ALIGN_TYPE in Eb. rewrite Eb in Em, Et, Ep. cbn [fr_bytes] in Em. change (Z.to_nat (4 + ETHHDR_BIAS)) with 6%nat in Em.
  set (fr := ArpWire.arp_frame dst src op sha spa tha tpa) in *.
  assert (Hd : drop 6 (nb_mem b) = fr ++ (pad ++ drop (length (fr ++ pad)) (drop 6 (nb_mem b)))).
  { rewrite app_assoc. rewrite <- Em at 1. by rewrite take_drop. }
  destruct (frame_fields b dst src op sha spa tha tpa _ Ep Hd) as (F1 & F2 & F3 & F4 & F5); try done.
  split_and!; try done.
  - split; [by rewrite Ep, Eb|done|done].
  - assert (H2 : forall v, take 2 (drop 18 (nb_mem b)) = v -> length v = 2%nat -> load16 (nb_mem b) 18 = Some (le16 v)).
    { intros v Hv Hl. destruct v as [|v0 [|v1 [|? ?]]]; try done. unfold load16.
      pose proof (mem_byte_take (nb_mem b) 18 v0 0 2) as E0. pose proof (mem_byte_take (nb_mem b) 18 v1 1 2) as E1. rewrite Hv in E0, E1.
      change (Z.of_nat (18 + 0)) with 18 in E0. change (Z.of_nat (18 + 1)) with 19 in E1. change (18 + 1) with 19. by rewrite E0, E1. }
    assert (H18 : take 2 (drop 18 (nb_mem b)) = [8; 6]).
    { change 18%nat with (6 + 12)%nat. rewrite <- drop_drop, Hd. unfold fr, ArpWire.arp_frame.
      eapply (cut_field (dst ++ src) [8; 6]); [rewrite <- !app_assoc; reflexivity|rewrite !length_app; lia|done]. }
    change (4 + ETHHDR_BIAS + 12) with 18 in Et. rewrite (H2 _ H18) in Et by done. by injection Et as <-.
Qed.

Section Serve.
Context {D : Type} `{Chip D} (polls : nat).
#[local] Hint Extern 0 (Mac D) => exact (nic_mac polls) : typeclass_instances.

(** ARP does not see the interrupt routine, when nothing waits. *)
Lemma isr_arp_ok (s : NetSt (Inet D)) A U A1 (s' : NetSt D) : arp_ok s A U (replicate MAXARPS []) -> pool_ok (st_pool s') A1 U ->
  st_nets s' = st_nets s -> g_dm9ka s' = g_dm9ka s -> same_tx (nic_t (nic_view (hw_of s))) (nic_t (nic_view (st_dev s'))) -> pool_bytes s' ->
  arp_ok (with_dev (mkInet (arp_of s) (st_dev s')) s') A1 U (replicate MAXARPS []).
Proof using Type.
  intros [Q1 Q2 Q3 Q4 Q5 Q6 Q7 [[(j & Hj & Hs) [Htx Hlat]] B2 B3 B4]] Hp En Ed [T1 T2 _ T4 _] Hby.
  assert (Ec : concat (replicate MAXARPS []) = ([] : list nat)) by done. rewrite Ec in *. split; try done; rewrite ?Ec; try done.
  - unfold chained. by rewrite cut_nil.
  - intros m e c Hi Hc. destruct (Q4 m e c Hi Hc) as [P1 P2 P3 P4 P5]. apply lookup_replicate_1 in Hc as [-> _]. by split.
  - split; cbn.
    + rewrite Ed, En. split; [by exists j|]. rewrite T1, T4. done.
    + by rewrite En.
    + unfold mac_of in *. cbn. by rewrite Ed.
    + exact Hby.
Qed.

(** The interrupt routine takes the one frame in the chip, with nothing waiting in ARP. *)
Lemma frame_taken i n (s : NetSt (Inet D)) A U k f : drv_ok (with_dev (hw_of s) s) A U [f] [] k -> arp_ok s A U (replicate MAXARPS []) ->
  good_frame f = true -> netp (g_dm9ka s) = Some i -> st_nets s !! i = Some n -> n_local n = true -> A Rcv = [] ->
  (1 <= length (A Big))%nat -> (2 <= length (A Lil))%nat ->
  exists s1 A1 x, lift_hw (dm9Ka_isr_wrap 2 i) s = Done (tt, s1) /\ arp_ok s1 A1 U (replicate MAXARPS []) /\ A1 Rcv = [x] /\
    (1 <= length (A1 Lil))%nat /\ pkt_is (st_pool s1) (Some i) (cticks s) x f /\ calm s s1 /\ sent_of s1 = sent_of s /\ arp_of s1 = arp_of s /\
    st_nets s1 = st_nets s.
Proof using Type.
  intros HD HA Hg Hj Hn Hloc HR HB HL. set (s0 := with_dev (hw_of s) s).
  destruct (wrap_ok 2 i n s0 A U [f] [] k HD Hn Hloc) as (s' & done & rest & ws' & E & [m [Ha _]] & [tl Hp] & [R1 R2 R3 R4 R5] & _); [cbn; lia|].
  rewrite take_nil, app_nil_r in Ha. rewrite Hp in Ha. destruct tl; [|by destruct done]. destruct rest; [|done]. rewrite app_nil_r in Hp. subst done.
  assert (Hpl : exists q x l, q <> Rcv /\ A q = x :: l /\ rx_place f A = (upd_at Rcv (A Rcv ++ [x]) (upd_at q l A), Some x) /\ discards f A = false).
  { unfold rx_place, discards. rewrite Hg. unfold alloc_from. assert (Hlen : fr_len f + ETHHDR_BIAS <= BIGBUFSIZE).
    { unfold good_frame in Hg. apply andb_prop in Hg as [_ Hg%Z.ltb_lt]. unfold MAX_PACKET_SIZE, ETHHDR_BIAS, BIGBUFSIZE in *. lia. }
    rewrite (proj2 (Z.ltb_ge _ _) Hlen). destruct (A Lil) as [|y l] eqn:EL; [cbn in HL; lia|]. destruct (A Big) as [|z l'] eqn:EB; [cbn in HB; lia|].
    rewrite !bool_decide_eq_false_2 by done. destruct (_ || _).
    - exists Big, z, l'. rewrite EB. split_and!; try done.
    - exists Lil, y, l. rewrite EL. split_and!; try done. }
  destruct Hpl as (q & x & l & Hq & Eq & Epl & Hdis). cbn [rx_all] in R1, R4, R5. rewrite Epl in R1, R4, R5. cbn [fst snd] in R1, R4, R5. rewrite HR in R1. cbn [app] in R1.
  rewrite Hdis in R5. pose proof (R5 i Hj) as En. cbn in En. destruct R2 as (Edm & _ & Etk & Htx & _).
  set (A1 := upd_at Rcv [x] (upd_at q l A)) in *. exists (with_dev (mkInet (arp_of s) (st_dev s')) s'), A1, x.
  assert (HA1 : arp_ok (with_dev (mkInet (arp_of s) (st_dev s')) s') A1 U (replicate MAXARPS [])).
  { apply (isr_arp_ok s A); try done; [apply R1|].
    destruct (isr_bytes 2 i s0 tt s') as [Hby _]; [exact (bo_bytes s (ao_base _ _ _ _ HA))|exact E|exact Hby]. }
  split_and!; try done.
  - unfold lift_hw. change (with_dev (inet_hw (st_dev s)) s) with s0. by rewrite E.
  - unfold A1. change (upd_at Rcv [x] (upd_at q l A) Lil) with (upd_at q l A Lil). unfold upd_at. destruct (decide _) as [<-|]; [|lia].
    rewrite Eq in HL. cbn in HL. lia.
  - apply Forall_cons in R4 as [R4 _]. cbn [fst snd] in R4. change (netp (g_dm9ka s0)) with (netp (g_dm9ka s)) in R4. by rewrite Hj in R4.
  - split; try done. cbn. by rewrite En.
  - apply Htx.
Qed.

End Serve.
