(* ===== verification/ArpProps.v ===== *)
(** * ArpProps

    The theorems about address resolution: requests are answered, packets for an unknown
    address are sent when the answer comes, the timer releases what waited too long, and
    no sequence of operations fails. *)

From stdpp Require Import gmap.
From S2P Require Import Prelude HwDriver NetQueue PktPool PktFacts PktChain KernelData Kernel KernelSem KernelSpec KernelInv KernelRefine KernelSemOps KernelBoot KernelTokens KernelProps NetDev Dm9000a Dm9000aFacts DmRx NetPath NetProps NetDemux Arp ArpWire ArpFacts ArpTable ArpOps ArpRx ArpTx ArpRun ArpNic ArpDemux.

(** ** Requests *)

Section Wire.
Context {D : Type} `{Chip D} (polls : nat).
#[local] Hint Extern 0 (Mac D) => exact (nic_mac polls) : typeclass_instances.

(** C15. An ARP request for the board's address that the chip has received goes through the
    interrupt routine and pktdemux to arprcv, and is answered on the wire: one frame, to
    the Ethernet address the request came from, that gives the board's hardware address
    for the IP address asked for, in the format of the protocol.  Afterwards the sender's
    address is known, the received packet and the packet of the answer are back in the
    pool, and no other packet is touched. *)
Theorem arp_request_answered ip_rcv tk_yield fuel (s : NetSt (Inet D)) A U k i n st dst src sha spa tha tpa pad :
  let f := mkFrame st (ArpWire.arp_frame dst src [0x00; 0x01] sha spa tha tpa ++ pad) in
  drv_ok (with_dev (hw_of s) s) A U [f] [] k -> arp_ok s A U (replicate MAXARPS []) -> good_frame f = true ->
  netp (g_dm9ka s) = Some i -> st_nets s !! i = Some n -> open_net n -> le32 tpa = n_ipaddr n -> le32 spa <> 0 ->
  length dst = 6%nat -> length src = 6%nat -> length sha = 6%nat -> length spa = 4%nat -> length tha = 6%nat -> length tpa = 4%nat ->
  A Rcv = [] -> (1 <= length (A Big))%nat -> (2 <= length (A Lil))%nat -> (2 <= fuel)%nat ->
  exists s1 s2 A2 cs2 pad', lift_hw (dm9Ka_isr_wrap 2 i) s = Done (tt, s1) /\
    pktdemux ip_rcv (arprcv mac_send) tk_yield fuel s1 = Done (tt, s2) /\
    length pad' = 22%nat /\ sent_of s2 = sent_of s ++ [ArpWire.arp_frame src (mac_of s) [0x00; 0x02] (mac_of s) tpa sha spa ++ pad'] /\
    (exists tp e, tbl s2 !! tp = Some e /\ t_pro_addr e = le32 spa /\ t_phy_addr e = sha /\ at_pending e = None) /\
    arp_ok s2 A2 U cs2 /\ A2 Rcv = [] /\ concat cs2 = [] /\
    (forall y, y ∈ U -> pk_bufs (st_pool s2) !! y = pk_bufs (st_pool s1) !! y).
Proof using Type.
  intros f HD HA Hg Hj Hn Hop Htpa Hz L1 L2 L3 L4 L5 L6 HR HB HL Hf.
  destruct (base_net s i n (ao_base _ _ _ _ HA) Hn) as [Hloc _].
  destruct (frame_taken polls i n s A U k f HD HA Hg Hj Hn Hloc HR HB HL)
    as (s1 & A1 & x & E1 & HA1 & HR1 & HL1 & Hx & HC1 & HS1 & HV1 & HN1).
  pose proof Hx as (b & Hb & _). assert (Hm : marked b).
  { refine (proj1 (po_in _ _ _ (ao_pool _ _ _ _ HA1) Rcv x b _ _)); [rewrite HR1; by left|exact Hb]. }
  destruct (pkt_fields _ _ _ _ _ _ _ _ _ _ _ _ _ b Hx Hb Hm) as (Hrc & Hi & Ht & F1 & F2 & F3 & F4 & F5); [done..|].
  rewrite <- HN1 in Hn.
  destruct (pktdemux_arp ip_rcv tk_yield fuel s1 A1 U _ x b i n HA1 HR1 Hb Hm Hi Hn Hop Ht Hf) as (s2 & HA2 & HC2 & Eb2 & Ed2 & Hgo).
  destruct (calm_net s1 s2 i n HC2 Hn) as (n2 & Hn2 & Hs2). assert (Hb2 : pk_bufs (st_pool s2) !! x = Some b) by (by rewrite Eb2).
  destruct (arprcv_unpack s2 _ U _ x b i n2 HA2 Hb2 Hrc Hi Hn2) as (l & E2 & HA3 & Hm3 & HG & Hl6 & Hby).
  rewrite F1, F2, F3, F4, F5 in *. unfold rx_rest, for_us in E2. rewrite Htpa, (ns_ip _ _ Hs2), Z.eqb_refl in E2. cbn [orb] in E2.
  destruct (rx_request s2 _ U _ x b l i n2 [0x00; 0x01] spa sha tpa src HA3 Hb2 (rc_use b Hrc) Hm3 HG Hi Hn2 Hl6 Hby eq_refl)
    as (s3 & A3 & cs3 & reply & bs & c & E3 & [HA4 HC4 HB4 _] & Hrep & Hbs & Hw & HS & Hent & HR3 & Hsub).
  assert (Hc : concat cs3 = []).
  { destruct (concat cs3) as [|y r] eqn:Ec; [done|]. by destruct (not_elem_of_nil y (Hsub y (list_elem_of_here _ _))). }
  assert (bs = []) as ->.
  { destruct (Hw Hz) as [(j & e & _ & Hcs & _)|[-> _]]; [|by inversion Hbs]. apply lookup_replicate_1 in Hcs as [-> _]. by inversion Hbs. }
  assert (Hal : alloc_from arpsize (upd_at Rcv [] A1) = Some Lil).
  { unfold alloc_from. change (upd_at Rcv [] A1 Lil) with (A1 Lil). destruct (A1 Lil); [cbn in HL1; lia|done]. }
  rewrite Hal in Hrep. destruct Hrep as (pad' & Hpad & ->). rewrite app_nil_r in HS.
  exists s1, s3, A3, cs3, pad'. split; [done|]. split; [apply (Hgo 0 s3 A3 U cs3); [by rewrite E2|done|by rewrite HR3]|].
  split; [done|]. split; [|split; [done|split; [done|split; [by rewrite HR3|split; [done|]]]]].
  - rewrite HS. replace (sent_of s2) with (sent_of s) by (unfold sent_of, hw_of in *; by rewrite Ed2).
    unfold mac_of. by rewrite (ca_dm _ _ HC2), (ca_dm _ _ HC1).
  - intros y Hy. by rewrite HB4, Eb2.
Qed.

End Wire.

(** ** Resolution *)

Section Resolution.
Context {D : Type} `{Mac D}.

(** The answer for an address that packets wait for. *)
Lemma answer_releases s A U cs y rb i n tp e c dest : arp_ok s A (y :: U) cs -> pk_bufs (st_pool s) !! y = Some rb -> received rb ->
  nb_net rb = Some i -> st_nets s !! i = Some n -> le32 (rx_tpa rb) = n_ipaddr n -> le16 (rx_op rb) = ARREP -> le32 (rx_spa rb) = dest ->
  dest <> 0 -> tbl s !! tp = Some e -> t_pro_addr e = dest -> cs !! tp = Some c ->
  exists s' A' bs, arprcv mac_send y s = Done (0, s') /\ handled_rx s s' A' U (<[tp := []]> cs) /\
    Forall2 (fun y b => pk_bufs (st_pool s) !! y = Some b) c bs /\ sent_of s' = sent_of s ++ (ip_frame (rx_sha rb) (mac_of s) <$> bs) /\
    tbl s' = <[tp := learned (cticks s) (rx_sha rb) e]> (tbl s).
Proof using Type.
  intros HA Hb Hrc Hi Hn Htpa Hop Hspa Hz He Ha Hc.
  destruct (arprcv_unpack s A U cs y rb i n HA Hb Hrc Hi Hn) as (l & E & HA1 & Hm & HG & Hl & Hby).
  assert (Hf : find_entry dest (tbl s) 0 = Some tp).
  { pose proof (find_entry_spec dest (tbl s) 0) as Hf. destruct (find_entry dest (tbl s) 0) as [j|]; [|by destruct (Hf tp e He)].
    destruct Hf as (e' & _ & He' & Ha' & _). rewrite Nat.sub_0_r in He'. f_equal.
    apply (ao_unique _ _ _ _ HA j tp e' e); congruence. }
  destruct (rx_reply s A U cs y rb l i (le16 (rx_op rb)) dest (rx_sha rb) tp e c HA1 Hb (rc_use rb Hrc) Hm Hl Hby)
    as (s' & A' & bs & E' & HR & Hbs & HS & HT & _); [by rewrite Hop|done..|].
  exists s', A', bs. split; [|done]. rewrite E. unfold rx_rest, for_us. rewrite Htpa, Z.eqb_refl, Hspa. exact E'.
Qed.

(** C16. Packets for an address that nobody has asked for yet are not lost: the first makes
    the board broadcast one request for the address, it and those that follow wait, each
    send returning ENP_SEND_PENDING, and when the answer arrives, however much later, all
    of them leave the board, in the order they were sent, with the Ethernet address that
    the answer gives.  Then the address is known and nothing waits for it. *)
Theorem address_resolved s A U cs x xs y b i n rb j nj dest t : arp_ok s A (x :: xs ++ y :: U) cs -> Forall (ready s) (x :: xs) ->
  pk_bufs (st_pool s) !! x = Some b -> nb_net b = Some i -> st_nets s !! i = Some n -> is_group n dest = false ->
  own_host s x n = false -> dest <> 0 -> (forall k e, tbl s !! k = Some e -> t_pro_addr e <> dest) -> (2 <= length (A Lil))%nat ->
  pk_bufs (st_pool s) !! y = Some rb -> received rb -> nb_net rb = Some j -> st_nets s !! j = Some nj ->
  le32 (rx_tpa rb) = n_ipaddr nj -> le16 (rx_op rb) = ARREP -> le32 (rx_spa rb) = dest ->
  exists s1 s2 A2 cs2 bs tha pad, send_all (x :: xs) dest s = Done (ENP_SEND_PENDING :: replicate (length xs) ENP_SEND_PENDING, s1) /\
    arprcv mac_send y (later t s1) = Done (0, s2) /\ length tha = 6%nat /\ length pad = 22%nat /\
    Forall2 (fun z c => pk_bufs (st_pool s) !! z = Some c) (x :: xs) bs /\
    sent_of s1 = sent_of s ++ [request_frame (mac_of s) n dest tha ++ pad] /\
    sent_of s2 = sent_of s1 ++ (ip_frame (rx_sha rb) (mac_of s) <$> bs) /\
    (exists k e, tbl s2 !! k = Some e /\ t_pro_addr e = dest /\ t_phy_addr e = rx_sha rb /\ cs2 !! k = Some []) /\
    arp_ok s2 A2 U cs2.
Proof using Type.
  intros HA Hr Hb Hi Hn Hg Hh Hz Hno HL Hy Hrc Hj Hnj Htpa Hop Hspa. apply Forall_cons in Hr as [Hx Hxs].
  destruct (first_waiting s A (xs ++ y :: U) cs x b i n dest HA Hx Hb Hi Hn Hg Hh Hz Hno HL)
    as (s1 & A1 & cs1 & tha & pad & E1 & [HA1 C1 B1 F1 R1] & Htha & Hpad & S1 & Hw1 & Hx1).
  destruct (all_waiting xs s1 A1 (y :: U) cs1 dest [x] HA1) as (s2 & A2 & cs2 & E2 & [HA2 C2 B2 F2 R2] & S2 & (tp & e & He & Ha & _ & Hc) & K2); try done.
  { apply (readies_kept s); [done| |done]. intros z Hz'. apply B1, elem_of_app. by left. } { specialize (F1 Lil). lia. }
  assert (Hkept : forall z, z ∈ x :: xs -> pk_bufs (st_pool s2) !! z = pk_bufs (st_pool s) !! z).
  { intros z Hz'. rewrite (K2 z Hz'). apply elem_of_cons in Hz' as [->|Hz']; [done|]. apply B1, elem_of_app. by left. }
  destruct (calm_net s s2 j nj (transitivity C1 C2) Hnj) as (n2 & Hn2 & Hs2).
  set (s3 := later t s2). assert (HA3 : arp_ok s3 A2 (y :: U) cs2) by by apply later_ok.
  destruct (answer_releases s3 A2 U cs2 y rb j n2 tp e (x :: xs) dest HA3) as (s4 & A4 & bs & E4 & [HA4 _ _ _] & Hbs & S4 & T4); try done.
  { change (pk_bufs (st_pool s2) !! y = Some rb). rewrite B2 by by left. rewrite B1; [done|]. apply elem_of_app. right. by left. }
  { by rewrite (ns_ip _ _ Hs2). }
  exists s2, s4, A4, (<[tp := []]> cs2), bs, tha, pad. split_and!; try done.
  - cbn [send_all]. rewrite (nbind_eq _ _ _ _ _ E1). by rewrite (nbind_eq _ _ _ _ _ E2).
  - apply Forall2_same_length_lookup_2; [by eapply Forall2_length|]. intros k z c Hk Hck.
    rewrite <- (Hkept z) by (by eapply list_elem_of_lookup_2). exact (Forall2_lookup_lr _ _ _ _ _ _ Hbs Hk Hck).
  - by rewrite S2.
  - rewrite S4. change (sent_of s3) with (sent_of s2). change (mac_of s3) with (mac_of s2).
    unfold mac_of. by rewrite (ca_dm _ _ C2), (ca_dm _ _ C1).
  - exists tp, (learned (cticks s3) (rx_sha rb) e). rewrite T4. split_and!; try done.
    + apply list_lookup_insert_eq. by eapply lookup_lt_Some.
    + apply list_lookup_insert_eq. by eapply lookup_lt_Some.
Qed.

(** C17. Whatever sequence of sends, received messages, timer interrupts and clock ticks the
    stack asks for, address resolution never reaches undefined behaviour: each operation
    returns, the table keeps its invariant (no address twice, the pending packets of each
    entry a list through the links, an unused entry without packets), and each of the
    packets handed over is afterwards in the pool, or waits in exactly one entry, while
    those of others stay theirs. *)
Theorem arp_never_fails os s A U cs : arp_ok s A (concat (op_packets <$> os) ++ U) cs -> length (intimers (arp_of s)) = NUM_INTIMERS ->
  Forall (op_good s) os -> exists s' A' cs', arp_ops os s = Done (tt, s') /\ arp_ok s' A' U cs' /\ A' Rcv = A Rcv /\
    all_of A' (concat cs' ++ U) ≡ₚ seq 0 (length (pk_bufs (st_pool s'))).
Proof using Type.
  intros HA Hl Hg. destruct (arp_ops_ok os s A U cs HA Hl Hg) as (s' & A' & cs' & E & HA' & HR). exists s', A', cs'.
  split_and!; try done. exact (po_all _ _ _ (po_queues _ _ _ (ao_pool _ _ _ _ HA'))).
Qed.

Lemma uses_zero l : (uses l =? 0) = bool_decide (Forall (fun e => t_pro_addr e = 0) l).
Proof using Type.
  assert (H0 : forall l, 0 <= uses l) by (intros l0; induction l0 as [|e l0 IH]; [done|]; cbn [uses foldr]; fold (uses l0); unfold in_use; destruct (_ =? _); lia).
  induction l as [|e l IH]; [done|]. cbn [uses foldr]. fold (uses l). unfold in_use. specialize (H0 l). destruct (Z.eqb_spec (t_pro_addr e) 0) as [He|He].
  - rewrite Z.add_0_l, IH. apply bool_decide_ext. rewrite Forall_cons. tauto.
  - rewrite (bool_decide_eq_false_2 (Forall _ _)) by (rewrite Forall_cons; tauto). apply Z.eqb_neq. lia.
Qed.

(** C18. When its timer fires, the routine of the table goes through all entries: an entry
    whose packets have waited for more than a second loses them, and they are returned to
    the pool; an entry without packets that is older than ten minutes and was not used
    during the last second becomes free; the others stay as they are, with their packets.
    The timer is stopped exactly when no entry is in use any more. *)
Theorem arp_timer_ages s A U cs arg : arp_ok s A U cs -> exists s' A' cs',
  cb_arpent_tmo arg s = Done (tt, s') /\ arp_ok s' A' U cs' /\ sent_of s' = sent_of s /\ tbl s' = aged (cticks s) <$> tbl s /\
  (forall i e c, tbl s !! i = Some e -> cs !! i = Some c -> cs' !! i = Some (aged_list (cticks s) e c)) /\
  (forall y, y ∈ concat cs -> (y ∈ concat cs') \/ (y ∈ A' Big) \/ (y ∈ A' Lil)) /\
  arp_timer (arp_of s') = (if bool_decide (Forall (fun e => t_pro_addr e = 0) (tbl s')) then None else arp_timer (arp_of s)).
Proof using Type.
  intros HA. destruct (cb_arpent_tmo_ok s A U cs arg HA) as (s' & A' & cs' & E & HA' & HT & Hsub & T & Hcs & Htm).
  exists s', A', cs'. split_and!; try done.
  - unfold sent_of. by rewrite (ti_hw _ _ _ _ _ _ HT).
  - intros y Hy. pose proof (po_all _ _ _ (po_queues _ _ _ (ao_pool _ _ _ _ HA))) as P1.
    pose proof (po_all _ _ _ (po_queues _ _ _ (ao_pool _ _ _ _ HA'))) as P2.
    assert (Hin : y ∈ all_of A' (concat cs' ++ U)).
    { rewrite P2. apply elem_of_seq. assert (Hy' : y ∈ all_of A (concat cs ++ U)) by (unfold all_of; set_solver).
      rewrite P1 in Hy'. apply elem_of_seq in Hy'. cbn in *. rewrite (ti_len _ _ _ _ _ _ HT). lia. }
    unfold all_of in Hin. rewrite !elem_of_app, (ti_rcv _ _ _ _ _ _ HT) in Hin.
    destruct Hin as [?|[?|[Hr|[?|Hu]]]]; [tauto|tauto| |tauto|].
    + exfalso. apply (ch_apart _ _ _ _ (ao_pool _ _ _ _ HA) Rcv y Hr Hy).
    + exfalso. by apply (ch_other _ _ _ _ (ao_pool _ _ _ _ HA) y Hu).
  - by rewrite Htm, uses_zero.
Qed.

End Resolution.

(** ** The board *)

Definition ask_frame : frame := mkFrame 0 (request_to_board ++ replicate 18 0).

Lemma inet_drv p os A U : pool_ok p A U -> repr os k_loop -> kinv k_loop ->
  drv_ok (with_dev (hw_of (inet p os [ask_frame])) (inet p os [ask_frame])) A U [ask_frame] [] k_loop.
Proof.
  intros Hp Hr Hk. assert (Hf : frame_ok ask_frame).
  { split; [done|]. split; [apply bytes_tested; vm_compute; reflexivity|done]. }
  split; try done; [|exists 0%nat; split; [done|by eexists]]. split; try done; by repeat constructor.
Qed.

Lemma arp_request_answered_witness : exists (s s1 s2 : NetSt (Inet Nic)) pad', lift_hw (dm9Ka_isr_wrap 2 0) s = Done (tt, s1) /\
  pktdemux (fun _ => nret 0) (arprcv (dm9ka_pkt_send 10)) (nret tt) 2 s1 = Done (tt, s2) /\ sent_of s = [] /\
  sent_of s2 = sent_of s ++ [ArpWire.arp_frame peer_mac (get_mac_addr None) [0x00; 0x02] (get_mac_addr None) board_ip peer_mac peer_ip ++ pad'].
Proof.
  destruct start_pool_ok as (p & Hp & Hby). destruct loop_state as (os & Hr & Hk). exists (inet p os [ask_frame]).
  destruct (arp_request_answered 10 (fun _ => nret 0) (nret tt) 2 (inet p os [ask_frame]) (init_lists 60) [] k_loop 0 ip_net 0 (replicate 6 0xFF)
    peer_mac peer_mac peer_ip (replicate 6 0) board_ip (replicate 18 0)) as (s1 & s2 & A2 & cs2 & pad' & E1 & E2 & _ & HS & _);
    [by apply inet_drv|by apply inet_ok|done|done|done|split; vm_compute; done|done|vm_compute; done|done..|cbn; lia|cbn; lia|lia|].
  exists s1, s2, pad'. split_and!; [exact E1|exact E2|done|exact HS].
Defined.

Lemma address_resolved_witness : exists (s s1 s2 : NetSt (Inet Nic)) tha pad,
  send_all [0; 1]%nat (le32 peer_ip) s = Done ([ENP_SEND_PENDING; ENP_SEND_PENDING], s1) /\ arprcv mac_send 2 (later 700 s1) = Done (0, s2) /\
  sent_of s = [] /\ sent_of s2 = (sent_of s ++ [request_frame (mac_of s) ip_net (le32 peer_ip) tha ++ pad]) ++
    [ip_frame peer_mac (mac_of s) out_pkt; ip_frame peer_mac (mac_of s) out_pkt].
Proof.
  destruct (arp_pkt_ok reply_to_board) as [Hg Hrc]; [vm_compute; reflexivity|].
  destruct (three_packets reply_to_board Hg) as (p & A & Hp & Hby & H0 & H1 & H2 & HL & HR). destruct out_pkt_ok as [_ Ho].
  destruct loop_state as (os & _ & _). exists (inet p os []). assert (Hrd : forall z, pk_bufs p !! z = Some out_pkt -> ready (inet p os []) z).
  { intros z Hz. exists out_pkt, 0%nat. by split_and!. }
  destruct (address_resolved (inet p os []) A [] (replicate MAXARPS []) 0 [1]%nat 2 out_pkt 0 ip_net (arp_pkt reply_to_board) 0 ip_net (le32 peer_ip) 700)
    as (s1 & s2 & A2 & cs2 & bs & tha & pad & E1 & E2 & _ & _ & Hbs & S1 & S2 & _);
    [apply (arp_swap _ _ [2; 1; 0]%nat); [solve_Permutation|by apply inet_ok]|by repeat constructor; apply Hrd|done|done|done|done|done|done
    | |rewrite HL; cbn; lia|done|done|done|done|vm_compute; reflexivity|vm_compute; reflexivity|vm_compute; reflexivity|].
  { intros k e Hk. unfold tbl, arp_of, inet, no_arp in Hk. cbn [st_dev inet_arp arp_table] in Hk. apply lookup_replicate_1 in Hk as [-> _]. done. }
  exists s1, s2, tha, pad. split_and!; [exact E1|exact E2|done|]. rewrite S2, S1. f_equal.
  inversion Hbs as [|z c l l' Hz Hrest]; subst. inversion Hrest as [|z1 c1 l1 l1' Hz1 Hend]; subst. inversion Hend; subst.
  cbn [inet st_pool] in Hz, Hz1. rewrite H0 in Hz. rewrite H1 in Hz1. by injection Hz as <-; injection Hz1 as <-.
Defined.

Lemma arp_never_fails_witness : exists (s s' : NetSt (Inet Nic)) A' cs',
  arp_ops [op_send 0 (le32 peer_ip); op_ticks 500; op_receive 2; op_timers; op_send 1 (le32 peer_ip)] s = Done (tt, s') /\ arp_ok s' A' [] cs' /\
  all_of A' (concat cs' ++ []) ≡ₚ seq 0 (length (pk_bufs (st_pool s'))).
Proof.
  destruct (arp_pkt_ok reply_to_board) as [Hg Hrc]; [vm_compute; reflexivity|].
  destruct (three_packets reply_to_board Hg) as (p & A & Hp & Hby & H0 & H1 & H2 & HL & HR). destruct out_pkt_ok as [_ Ho].
  destruct loop_state as (os & _ & _). exists (inet p os []). assert (Hrd : forall z, pk_bufs p !! z = Some out_pkt -> ready (inet p os []) z).
  { intros z Hz. exists out_pkt, 0%nat. by split_and!. }
  assert (Hin : incoming (inet p os []) 2). { exists (arp_pkt reply_to_board), 0%nat. by split_and!. }
  destruct (arp_never_fails [op_send 0 (le32 peer_ip); op_ticks 500; op_receive 2; op_timers; op_send 1 (le32 peer_ip)] (inet p os []) A []
    (replicate MAXARPS [])) as (s' & A' & cs' & E & HA' & _ & HP);
    [apply (arp_swap _ _ [2; 1; 0]%nat); [cbn; solve_Permutation|by apply inet_ok]|done|repeat (apply Forall_cons_2; [first [exact I|exact Hin|by apply Hrd]|]); by apply Forall_nil_2|].
  by exists s', A', cs'.
Defined.

Lemma arp_timer_ages_witness : exists (s s' : NetSt (Inet Nic)) A' cs', cb_arpent_tmo 0 s = Done (tt, s') /\ arp_ok s' A' [] cs' /\
  tbl s' = aged (cticks s) <$> tbl s.
Proof.
  destruct start_pool_ok as (p & Hp & Hby). destruct loop_state as (os & _ & _). exists (inet p os []).
  destruct (arp_timer_ages (inet p os []) (init_lists 60) [] (replicate MAXARPS []) 0) as (s' & A' & cs' & E & HA' & _ & T & _); [by apply inet_ok|].
  by exists s', A', cs'.
Defined.
